(* ===== verification/_CoqProject ===== *)
-Q . S2P
Prelude.v
Malloc.v
Clist.v
Callout.v
Bytes.v
State.v
Utab.v
Sched.v
Clock.v
Timers.v
Bio.v
Cache.v
Alloc.v
Inode.v
Rdwri.v
Blocks.v
Freelist.v
Files.v
Writes.v
Iget.v
Text.v
Nami.v
Dirs.v
Paths.v
Fio.v
Pipes.v
Entries.v
SysFile.v
Calls.v
SysMisc.v
SysProc.v
Children.v
Dsort.v
Ports.v
Hd.v
Hdisk.v
Cd.v
Fd.v
Mem.v
Pkmem.v
Prf.v
Tty.v
Pk.v
Packets.v
Delivery.v
Pool.v
Widths.v
Mxchan.v
Mx.v
Muxing.v
Sr.v
Screen.v
Console.v
Trap.v
Boot.v
