(* ===== verification/Prelude.v ===== *)
(** * The kernel of the Seventh Edition for the x86, verified

    The repository collects several Unix source trees; this development is
    about one program of it, the kernel under
    [src/Unix_Research_v7_x86/usr/sys] (paths below are relative to it).  Its
    C routines are translated into executable functions on an explicit state
    and the theorems are about those functions.

    ** How a routine is translated

    - A routine is a computation of the monad [M S A := S -> outcome S A] of
      this file: it ends with a result and a state ([Ret]), in [panic], in the
      [longjmp] that a signal makes out of a sleep, asleep with nobody left to
      wake it ([Asleep]), or in a [Fault], where the code would read or write
      outside an object or through a null pointer without noticing.  [NoFuel]
      is a bound on a loop that did not suffice.
    - The state of most routines is [State.world]: the [user] structure of
      the running process, the [kernel] record with every table and global,
      and [env], what the other processes and the devices do to the kernel
      each time the running one waits.  Theorems that do not fix [env] hold
      whatever others do.  Components whose data nothing else touches run on
      that data alone ([Malloc] on a map, [Clist] on the cblocks and one
      queue, [Callout] on the table) and are lifted into the world by [zoom].
    - Integers are [Z], cut to the width of their C type where they are stored
      ([s8], [u16], [s32] and so on).  Pointers into a table are indices into
      it; buffer headers are [bptr]; the cblocks of the character queues keep
      their addresses, since the code masks them.
    - What the kernel calls outside its C sources is the class
      [State.Machine]: the device switches generated by [conf/mkconf.c], the
      routines [timeout] is given, the profiling and the layout of [u] known to
      the assembler and the compiler only.  [save] and [resume], the ports of
      the clock chip, the ends of the kernel and of memory are arguments of
      the routines that use them.

    ** The files, their sources, and what their theorems show

    - [Prelude]: this vocabulary, loop combinators, little-endian memory, and
      lemmas and tactics shared by all; [Bytes]: the structures the kernel
      overlays on disk blocks ([h/filsys.h], [h/ino.h], [h/fblk.h],
      [h/dir.h]) as fields of byte arrays.
    - [Malloc] ([sys/malloc.c]): the resource maps.  [malloc] is first fit and
      [mfree] keeps a map sorted, disjoint and coalesced, in terms of the free
      units a map stands for; a full map is overrun.
    - [Clist] ([sys/prim.c]): character queues as chains of cblocks.  Each
      routine refines an operation on the list of characters, with the blocks
      of the queue and of the free list accounted for.
    - [Callout] and [Clock] ([sys/clock.c]): the table of timeouts as a list of
      calls in time order, the clock interrupt; [timeout] inserts, a tick
      makes the calls that are due, which may arm others.  [Timers]: over any
      course of ticks, timeouts and other events a call armed is made.
    - [State]: all the structures and globals ([h/*.h]).
    - [Utab] ([sys/utab.c]): the page table.  [estabur] maps exactly the
      process's image or refuses; what the user then stores lands in his own
      frames; moving the stack over itself keeps it.
    - [Sched] ([sys/slp.c], [sys/sig.c]): sleep queues, run queue, priorities,
      signals.  [wakeup] wakes exactly those asleep on the event, as long as the
      swapper waits for nothing to bring in or they are all in core
      ([undisturbed]; [wakeup_lost] is the other case); [swtch] picks the first of the most urgent; the
      search for a process number ends.
    - [Bio] ([dev/bio.c], [dev/md.c]): the buffer cache; [Cache]: its
      invariant — the hash lists and the available list are rings over
      disjoint and complete sets of buffers, with no block cached twice — and
      the theorems on [getblk] and [brelse].  A device that is sent delayed
      writes on the way is met through what a strategy routine that only
      queues them promises ([Cache.queues]).
    - [Alloc], [Inode] ([sys/alloc.c], [sys/iget.c], [plock] and [prele] of
      [sys/pipe.c]): super blocks and inodes; an inode survives the disk.
      [Freelist]: [free] and the loop of [alloc] as operations on the list of
      free blocks, as long as it stays within the super block.
    - [Rdwri] ([sys/rdwri.c], [sys/subr.c]): files as bytes; [Blocks]: [bmap]
      follows the tree of a file through the cache to the place that the digits
      of the block's number name ([Blocks.path]), and the tree has a place
      of its own for each block; no routine that works over the cache loses a
      delayed write ([Blocks.keeps_delayed]); [Files] and [Writes]: [readi] hands the user
      the bytes of the file and [writei] takes them from him, over the cache,
      the tree and his page table; [Iget]: [iget] and
      the inode table, over the cache.
    - [Text] ([sys/text.c], the swapper of [sys/slp.c]): shared text, swapping,
      forking; what the swapper brings in and throws out.
    - [Nami] ([sys/nami.c], [access] and [owner] of [sys/fio.c]): path names;
      [Dirs]: the search of a directory finds the entry of the name given, over
      the cache; [Paths]: [namei] resolves a path as the walk from one
      directory to the next that its components spell; [Entries]: the entry
      [wdir] makes is found from then on, and the others stay.
    - [Fio] ([sys/fio.c], [sys/pipe.c]): open files and pipes; [Pipes]: what is
      read of a pipe is the front of the bytes it holds and what is written is
      put behind them.
    - [SysFile] ([sys/sys2.c], [sys/sys3.c]), [SysMisc] ([sys/sys4.c],
      [sys/acct.c]; the accuracy of [compress]), [SysProc] ([sys/sys1.c],
      [sys/sig.c], [sendsig] of [sys/machdep.c]): the handlers of the system
      calls; [Calls]: what [write] puts into a file [read] finds after [seek];
      [Children]: [wait].
    - [Dsort] ([dev/dsort.c]): the elevator, on the queue of a drive.
    - [Ports]: what the drivers share — the device behind its ports (the class
      [Ports.Ports]), a driver's state, where a transfer goes, polling, the
      queue of requests.  [Hd] ([dev/hd.c]): the hard disk with its partitions;
      [Hdisk] states what an ATA disk promises (the class [Hdisk.Ata]) and
      proves from it that a read brings the sectors of its slice and changes
      nothing else ([Hdisk.has_read]).  [Cd]
      ([dev/cd.c]), [Fd] ([dev/fd.c]; every piece of a request stays within its
      cylinder and the DMA page), [Mem] ([dev/mem.c], [dev/sys.c]), [Sr]
      ([dev/sr.c]).
    - [Pkmem], [Pk] ([dev/pk3.c]; [dev/pk0.c] to [dev/pk2.c], [h/pk.h]): the
      packet driver, which runs a window of checked packets over a terminal
      line.  Its state ([Pkmem.pkw]) is the world with the connections, under
      their addresses, and the pool of packets in blocks of the cache.
      [Packets]: the messages that open a connection do; what a header says and
      which packets pass the check.  [Delivery]: a message written at one end,
      laid out in a packet with its count and sent behind its header, is what a
      read at the other end brings the user, where the header's check lets it
      pass.  [Pool]: a packet taken from the pool was free and goes back; after
      a block without room it is given out twice.  [Widths]: whatever the driver is
      asked for, a connection's sequence numbers stay within its arrays.
    - [Mxchan], [Mx] ([h/mx.h], [dev/mx2.c], [dev/mx1.c]): multiplexed files, whose
      channels hang in a tree of groups, over a world of their own
      ([Mxchan.mxw]); the kernel that the makefile builds has the stand-ins of
      [sys/fakemx.c] in their place.  [Muxing]: the number of a channel leads back to
      it, in a group by itself; the next channel with data is the first from where
      the search stopped; one freed with data makes the reader go round for ever.
    - [Prf] ([sys/prf.c]): the characters of the kernel's messages.
    - [Tty] ([dev/tty.c], [dev/partab.c], [sys/fakemx.c]): terminals; [canon]
      gives the line that the characters typed stand for by the rules of
      erasing, killing and escaping ([Tty.line_of]).
    - [Screen] and [Console] ([dev/sc.c]): the screen refines a reference
      terminal of rows and characters, but for tabs below the first row, which
      it loses; the keyboard, the bell and the entry
      points.
    - [Trap] ([sys/trap.c], [sys/sysent.c]): a system call reaches its handler
      and its answer the user.
    - [Boot] ([sys/main.c], [sys/machdep.c]): the core and swap space freed at
      the start, the calendar of the clock chip, process 0 and 1.

    The files are in the order in which they depend on one another.  A
    component's operations come first, then what they mean — predicates that
    tie the state to lists, sets and functions — then the lemmas on each
    routine, named [<routine>_ok] or [<routine>_refines], and last the
    properties with an instance of each on a concrete state.

    ** Bounds of loops

    - Scans of a table or of a list go round once more than the table has
      entries; [wakeup_loop], [sort_loop], [slot_scan_ok] and the like prove this
      is enough for well-formed lists.
    - [wakeup] and [setrun] call each other; [wakeup_n 3] is one more than the
      depth they reach ([wakeup_depth]).  [ttyoutput] calls itself for a
      character that is put out directly ([ttyoutput_n 2]); a tab is at most
      eight blanks ([tab_loop], 9); [tloop] has three levels ([tloop_n 3]);
      [compress] shifts an [int] at most six times.
    - Loops over the characters of a queue take its count; path names end
      with the user's memory ([NAMELEN]); copying loops take the count.
    - Polling of a device makes the number of tries of the code ([Ports.tries]);
      [hdio] and [cdio] take eleven steps for each buffer there is, since a
      request is given up after ten errors; an interrupt of a serial line
      takes the number of characters it finds as an argument.
    - The packet driver's loops are bounded by what they count down: [dtom] by
      the units of 32 bytes, the search for room by the sixteen places and the
      ten blocks ([shift_bits], 17; [getepack_round], [NBLOCKS] + 1), reading
      by the bytes the slots hold, writing by those the user gives.
    - Climbing the tree of groups takes one step more than there are inodes
      ([Mxchan.depth]), which suffices unless groups are joined in a ring;
      [rotate] goes round the sixteen places once (17, [rotate_ok]); reading and
      writing a multiplexed file take a round for each header there is room for.
    - Loops that sleep take [rounds], one more than the steps of [env] left:
      with no step left sleeping is [Asleep].  The wait for the clock chip takes
      the number of polls as an argument; [readrtc_calendar] shows that
      enough of them end it.  [ialloc] need not end (an i-list whose only free
      inode is number 1) and [ialloc_fuel] counts its searches by [env].

    ** Not modelled

    - The assembly support [conf/mch.s] but for the access to the user's memory
      ([Utab]), the floating-point unit's contents, the tables [conf/mkconf.c] generates.
      The kernel meets the drivers through the switches, which stay
      parameters: a driver's own state is not part of the world the file system
      is proved in.
    - The devices behind the ports, but for the disk of [Hdisk]: each driver is
      modelled for all of them.
    - The endless loop of the swapper is one round ([Text.sched_round]), and
      [main]'s call of it is left out; the second return of [newproc], in the
      child, is the world its caller is told to be in.
    - A zombie's times lie over [p_wchan] and [p_textp] ([struct xproc]); the
      record has fields of their own for them.  [exit] puts the time into
      [p_wchan] too, but leaves [p_textp], which nothing reads of a zombie.
    - Commands, libraries, the loader, and the other systems of the
      repository, which have no part in this program. *)

(** ** Prelude: the vocabulary shared by the models

    Machine integers of the compiler's widths, C truth values, record update,
    the state-and-outcome monad in which stateful routines are written, loop
    combinators, little-endian memory access and the generic lemmas and
    tactics on them. *)

From stdpp Require Export base tactics list gmap.
From stdpp Require Export strings.
From Stdlib Require Export ZArith Lia.

#[global] Open Scope Z_scope.
#[global] Open Scope list_scope.
#[global] Set Default Goal Selector "!".

Declare Scope v7_scope.
Delimit Scope v7_scope with v7.
#[global] Open Scope v7_scope.

(** ** Record update

    [r <| f := v |>] is C's [r->f = v] on a value; [r <| f ::= g |>] applies
    [g] to the field.  A record type gives an [Eta] instance and gets its
    setters by abstracting the projection in it. *)

Class Eta (R : Type) := eta : R -> R.
Class Setter {R T : Type} (proj : R -> T) := setf : (T -> T) -> R -> R.

Ltac build_setter :=
  match goal with
  | |- @Setter ?R ?T ?proj =>
      let e := constr:(ltac:(typeclasses eauto) : Eta R) in
      let e := eval cbv beta delta [eta] in e in
      let e := eval hnf in e in
      let e := eval pattern proj in e in
      match e with
      | ?body _ =>
          let t := eval cbv beta in
            (fun (f : T -> T) => body (fun r => f (proj r))) in
          exact t
      end
  end.
#[export] Hint Extern 1 (Setter _) => build_setter : typeclass_instances.
Arguments setf {R T} proj {Setter} f r /.

Notation "r <| p := v |>" := (setf p (fun _ => v) r)
  (at level 1, p at level 99, v at level 99, left associativity,
   format "r  <|  p  :=  v  |>") : v7_scope.
Notation "r <| p ::= f |>" := (setf p f r)
  (at level 1, p at level 99, f at level 99, left associativity,
   format "r  <|  p  ::=  f  |>") : v7_scope.

(** ** Integers of the machine

    The compiler has 8-bit [char] (signed), 16-bit [short], 32-bit [int] and
    [long].  A store into a narrower or unsigned object wraps. *)

Definition wrapU (n x : Z) : Z := x mod 2 ^ n.
Definition wrapS (n x : Z) : Z := (x + 2 ^ (n - 1)) mod 2 ^ n - 2 ^ (n - 1).

Definition u8 := wrapU 8.
Definition u16 := wrapU 16.
Definition u32 := wrapU 32.
Definition s8 := wrapS 8.
Definition s16 := wrapS 16.
Definition s32 := wrapS 32.

Lemma wrapU_id n x : 0 <= x < 2 ^ n -> wrapU n x = x.
Proof. intros; unfold wrapU; now apply Z.mod_small. Qed.

Lemma wrapU_range n x : 0 <= n -> 0 <= wrapU n x < 2 ^ n.
Proof. intros; unfold wrapU; apply Z.mod_pos_bound; lia. Qed.

Lemma wrapS_id n x : 0 < n -> - 2 ^ (n - 1) <= x < 2 ^ (n - 1) -> wrapS n x = x.
Proof.
  intros Hn Hx; unfold wrapS.
  assert (2 ^ n = 2 * 2 ^ (n - 1)) as E.
  { rewrite <- Z.pow_succ_r by lia. f_equal; lia. }
  rewrite Z.mod_small; lia.
Qed.

Lemma wrapS_range n x : 0 < n -> - 2 ^ (n - 1) <= wrapS n x < 2 ^ (n - 1).
Proof.
  intros Hn; unfold wrapS.
  assert (2 ^ n = 2 * 2 ^ (n - 1)) as E.
  { rewrite <- Z.pow_succ_r by lia. f_equal; lia. }
  pose proof (Z.mod_pos_bound (x + 2 ^ (n - 1)) (2 ^ n)). lia.
Qed.

Lemma u8_id x : 0 <= x < 256 -> u8 x = x.
Proof. apply (wrapU_id 8). Qed.
Lemma u16_id x : 0 <= x < 65536 -> u16 x = x.
Proof. apply (wrapU_id 16). Qed.
Lemma u32_id x : 0 <= x < 4294967296 -> u32 x = x.
Proof. apply (wrapU_id 32). Qed.
Lemma s8_id x : -128 <= x < 128 -> s8 x = x.
Proof. apply (wrapS_id 8); lia. Qed.
Lemma s16_id x : -32768 <= x < 32768 -> s16 x = x.
Proof. apply (wrapS_id 16); lia. Qed.
Lemma s32_id x : -2147483648 <= x < 2147483648 -> s32 x = x.
Proof. apply (wrapS_id 32); lia. Qed.
Lemma u8_range x : 0 <= u8 x < 256.
Proof. apply (wrapU_range 8); lia. Qed.
Lemma u16_range x : 0 <= u16 x < 65536.
Proof. apply (wrapU_range 16); lia. Qed.
Lemma s8_range x : -128 <= s8 x < 128.
Proof. apply (wrapS_range 8); lia. Qed.
Lemma s16_range x : -32768 <= s16 x < 32768.
Proof. apply (wrapS_range 16); lia. Qed.
Lemma s32_range x : -2147483648 <= s32 x < 2147483648.
Proof. apply (wrapS_range 32); lia. Qed.

(** Sums of wrapped numbers. *)
Lemma s32_add x c : s32 (s32 x + c) = s32 (x + c).
Proof.
  unfold s32, wrapS. f_equal.
  replace ((x + 2 ^ (32 - 1)) mod 2 ^ 32 - 2 ^ (32 - 1) + c + 2 ^ (32 - 1))
    with ((x + 2 ^ (32 - 1)) mod 2 ^ 32 + c) by lia.
  rewrite Zplus_mod_idemp_l. f_equal. lia.
Qed.
Lemma u32_sub x c : u32 (u32 x - c) = u32 (x - c).
Proof. unfold u32, wrapU. by rewrite Zminus_mod_idemp_l. Qed.

(** What a computation over a range shows. *)
Lemma all_below (P : Z -> bool) n : forallb P (seqZ 0 n) = true -> forall i, 0 <= i < n -> P i = true.
Proof. intros H i Hi. rewrite forallb_forall in H. apply H, list_elem_of_In, elem_of_seqZ. lia. Qed.

(** Wrapping keeps the bits of the width. *)
Lemma wrapS_mod n x : 0 < n -> wrapS n x mod 2 ^ n = x mod 2 ^ n.
Proof. intros Hn. unfold wrapS. by rewrite Zminus_mod, Zmod_mod, <- Zminus_mod, Z.add_simpl_r. Qed.

Lemma wrapS_testbit n x i : 0 <= i < n -> Z.testbit (wrapS n x) i = Z.testbit x i.
Proof.
  intros Hi. rewrite <- (Z.mod_pow2_bits_low (wrapS n x) n i) by lia.
  rewrite wrapS_mod by lia. apply Z.mod_pow2_bits_low. lia.
Qed.

Lemma wrapS_lor n x m : 0 < n -> wrapS n (Z.lor (wrapS n x) m) = wrapS n (Z.lor x m).
Proof.
  intros Hn. unfold wrapS at 1 3. f_equal. rewrite Zplus_mod, (Zplus_mod (Z.lor x m)). do 2 f_equal.
  apply Z.bits_inj'; intros i Hi. destruct (Z.lt_ge_cases i n).
  - rewrite !Z.mod_pow2_bits_low, !Z.lor_spec, wrapS_testbit by lia. done.
  - by rewrite !Z.mod_pow2_bits_high by lia.
Qed.

(** A signed number of [n] bits whose [n] bits are all clear is 0. *)
Lemma bits_zero n x : 0 < n -> - 2 ^ (n - 1) <= x < 2 ^ (n - 1) ->
  (forall i, 0 <= i < n -> Z.testbit x i = false) -> x = 0.
Proof.
  intros Hn Hx Hb. rewrite <- (wrapS_id n x) by lia.
  assert (x mod 2 ^ n = 0) as E.
  { apply Z.bits_inj'; intros i Hi. rewrite Z.bits_0.
    destruct (Z.lt_ge_cases i n).
    - rewrite Z.mod_pow2_bits_low by lia. apply Hb. lia.
    - apply Z.mod_pow2_bits_high. lia. }
  assert (2 ^ n = 2 * 2 ^ (n - 1)) as E2 by (rewrite <- Z.pow_succ_r by lia; f_equal; lia).
  unfold wrapS. rewrite Zplus_mod, E. rewrite Z.add_0_l, Zmod_mod, Z.mod_small; lia.
Qed.

Create Rewrite HintDb cint.
#[export] Hint Rewrite u8_id u16_id u32_id s8_id s16_id s32_id using lia : cint.

Ltac cint := autorewrite with cint.

(** [tst x] is C's truth of an integer: [if (x)]. *)
Definition tst (x : Z) : bool := negb (x =? 0).

(** [x & m] as a condition. *)
Notation "x &? m" := (tst (Z.land x m)) (at level 50) : v7_scope.
(** [x &= ~m] and [x |= m] *)
Definition clr (x m : Z) : Z := Z.land x (Z.lnot m).

Lemma tst_true x : tst x = true <-> x <> 0.
Proof. unfold tst. rewrite negb_true_iff, Z.eqb_neq. done. Qed.
Lemma tst_false x : tst x = false <-> x = 0.
Proof. unfold tst. rewrite negb_false_iff, Z.eqb_eq. done. Qed.

Lemma clr_clear x m : clr x m &? m = false.
Proof.
  apply tst_false. unfold clr. apply Z.bits_inj'; intros i Hi.
  rewrite !Z.land_spec, Z.lnot_spec, Z.bits_0 by lia.
  destruct (Z.testbit x i), (Z.testbit m i); done.
Qed.

Lemma lor_set x m : m <> 0 -> Z.lor x m &? m = true.
Proof.
  intros Hm; apply tst_true. intros H0. apply Hm.
  apply Z.bits_inj'; intros i Hi.
  apply (f_equal (fun z => Z.testbit z i)) in H0.
  rewrite Z.land_spec, Z.lor_spec, Z.bits_0 in H0. rewrite Z.bits_0.
  destruct (Z.testbit m i); [|done].
  rewrite orb_true_r in H0; done.
Qed.

Lemma lor_keep x m n : Z.land m n = 0 -> Z.land (Z.lor x m) n = Z.land x n.
Proof. intros H. rewrite Z.land_lor_distr_l, H. apply Z.lor_0_r. Qed.

Lemma clr_keep x m n : Z.land m n = 0 -> Z.land (clr x m) n = Z.land x n.
Proof.
  intros H. unfold clr. apply Z.bits_inj'; intros i Hi.
  apply (f_equal (fun z => Z.testbit z i)) in H.
  rewrite !Z.land_spec, Z.bits_0 in H. rewrite !Z.land_spec, Z.lnot_spec by lia.
  destruct (Z.testbit x i), (Z.testbit m i), (Z.testbit n i); done.
Qed.

(** ** Outcomes and the kernel monad

    A routine runs on a state and ends in one of the ways a C routine of the
    kernel can end: it returns, it panics, it leaves by the non-local goto of
    [sleep], its process stays asleep because nothing wakes it any more, or
    it makes an access no object of the program allows. [NoFuel] is the
    model's own: a loop ran past the number of iterations its definition
    allots; theorems show which routines never end in it. *)

Inductive outcome (S A : Type) : Type :=
| Ret (a : A) (s : S)
| Panic (msg : string) (s : S)
| Longjmp (s : S)
| Asleep (s : S)
| Fault
| NoFuel.
Arguments Ret {S A} a s.
Arguments Panic {S A} msg s.
Arguments Longjmp {S A} s.
Arguments Asleep {S A} s.
Arguments Fault {S A}.
Arguments NoFuel {S A}.

Definition M (S A : Type) : Type := S -> outcome S A.

Definition ret {S A} (a : A) : M S A := fun s => Ret a s.
Definition bind {S A B} (m : M S A) (f : A -> M S B) : M S B :=
  fun s => match m s with
           | Ret a s' => f a s'
           | Panic msg s' => Panic msg s'
           | Longjmp s' => Longjmp s'
           | Asleep s' => Asleep s'
           | Fault => Fault
           | NoFuel => NoFuel
           end.
Definition fault {S A} : M S A := fun _ => Fault.
Definition nofuel {S A} : M S A := fun _ => NoFuel.
Definition get {S} : M S S := fun s => Ret s s.
Definition gets {S A} (f : S -> A) : M S A := fun s => Ret (f s) s.
Definition modify {S} (f : S -> S) : M S unit := fun s => Ret tt (f s).

Declare Scope monad_scope.
Delimit Scope monad_scope with monad.
#[global] Open Scope monad_scope.
Notation "x <- c1 ;; c2" := (bind c1 (fun x => c2))
  (at level 100, c1 at next level, right associativity) : monad_scope.
Notation "c1 ;;; c2" := (bind c1 (fun _ => c2))
  (at level 100, c2 at level 200, right associativity) : monad_scope.

(** [if (b) m;] *)
Definition when {S} (b : bool) (m : M S unit) : M S unit :=
  if b then m else ret tt.

(** The value at a pointer or an index; [None] is a wild access. *)
Definition the {S A} (o : option A) : M S A :=
  match o with Some a => ret a | None => fault end.

(** [for] over a known sequence, and [for] with an early [return]. *)
Fixpoint for_ {S A} (l : list A) (body : A -> M S unit) : M S unit :=
  match l with
  | [] => ret tt
  | a :: l' => body a ;;; for_ l' body
  end.
Fixpoint for_find {S A B} (l : list A) (body : A -> M S (option B)) : M S (option B) :=
  match l with
  | [] => ret None
  | a :: l' =>
      r <- body a ;;
      match r with Some b => ret (Some b) | None => for_find l' body end
  end.

(** A loop over the numbers below [n], by the states it goes through. *)
Lemma for_app {S A} (f : A -> M S unit) l1 l2 (s s1 : S) : for_ l1 f s = Ret tt s1 ->
  for_ (l1 ++ l2) f s = for_ l2 f s1.
Proof.
  revert s. induction l1 as [|a l1 IH]; intros s; cbn [for_ app]; [by intros [= ->]|].
  unfold bind. destruct (f a s); try done. apply IH.
Qed.
Lemma for_map {S A B} (f : B -> M S unit) (g : A -> B) l (s : S) : for_ (map g l) f s = for_ l (fun a => f (g a)) s.
Proof. revert s. induction l as [|a l IH]; intros s; cbn [for_ map]; [done|]. unfold bind. by destruct (f (g a) s). Qed.
Lemma seqZ_snoc (k : nat) : seqZ 0 (Z.of_nat (Datatypes.S k)) = seqZ 0 (Z.of_nat k) ++ [Z.of_nat k].
Proof. rewrite Nat2Z.inj_succ, <- Z.add_1_r, seqZ_app by lia. by rewrite (seqZ_cons _ 1) by lia. Qed.
Lemma for_seqZ {S} (f : Z -> M S unit) (n : Z) (st : nat -> S) : 0 <= n ->
  (forall k, (Z.of_nat k < n) -> f (Z.of_nat k) (st k) = Ret tt (st (Datatypes.S k))) ->
  for_ (seqZ 0 n) f (st 0%nat) = Ret tt (st (Z.to_nat n)).
Proof.
  intros Hn Hf. assert (forall k, (Z.of_nat k <= n) -> for_ (seqZ 0 (Z.of_nat k)) f (st 0%nat) = Ret tt (st k)) as Hk.
  { induction k as [|k IH]; intros Hle; [done|]. rewrite seqZ_snoc, (for_app _ _ _ _ (st k)) by (apply IH; lia).
    cbn [for_]. unfold bind. by rewrite Hf by lia. }
  specialize (Hk (Z.to_nat n)). rewrite Z2Nat.id in Hk by done. by apply Hk.
Qed.

(** A loop that goes round until its body leaves it ([inr]), carrying the
    loop's variables; [fuel] bounds the number of rounds. *)
Fixpoint loop {S X A} (fuel : nat) (body : X -> M S (X + A)) (x : X) : M S A :=
  match fuel with
  | O => nofuel
  | Datatypes.S n =>
      r <- body x ;;
      match r with inl x' => loop n body x' | inr a => ret a end
  end.

Lemma loop_S {S X A} n (body : X -> M S (X + A)) (x : X) s :
  loop (Datatypes.S n) body x s =
  bind (body x) (fun r => match r with inl x' => loop n body x' | inr a => ret a end) s.
Proof. done. Qed.

Lemma loop_next {S X A} n (body : X -> M S (X + A)) x x' s s' :
  body x s = Ret (inl x') s' -> loop (Datatypes.S n) body x s = loop n body x' s'.
Proof. intros H. rewrite loop_S. unfold bind. by rewrite H. Qed.

Lemma loop_done {S X A} n (body : X -> M S (X + A)) x a s s' :
  body x s = Ret (inr a) s' -> loop (Datatypes.S n) body x s = Ret a s'.
Proof. intros H. rewrite loop_S. unfold bind. by rewrite H. Qed.

Section MonadLaws.
Context {S A B C : Type}.

Lemma bind_ret_eq (m : M S A) (f : A -> M S B) s a s' :
  m s = Ret a s' -> bind m f s = f a s'.
Proof. unfold bind. intros ->. done. Qed.

Lemma bind_assoc (m : M S A) (f : A -> M S B) (g : B -> M S C) s :
  bind (bind m f) g s = bind m (fun a => bind (f a) g) s.
Proof. unfold bind. destruct (m s); done. Qed.

Lemma bind_then {D} (a : M S A) (b : M S B) (c : M S C) (d : D) x s s' :
  (a ;;; b ;;; c) s = Ret x s' -> (a ;;; b ;;; c ;;; ret d) s = Ret d s'.
Proof.
  unfold bind, ret. destruct (a s) as [? s1| | | | |]; try done.
  destruct (b s1) as [? s2| | | | |]; try done. by intros ->.
Qed.

Lemma bind_cong (m : M S A) (f g : A -> M S B) s :
  (forall a s', m s = Ret a s' -> f a s' = g a s') -> bind m f s = bind m g s.
Proof. intros H. unfold bind. destruct (m s) eqn:E; auto. Qed.

Lemma bind_inv_ret (m : M S A) (f : A -> M S B) s b s'' :
  bind m f s = Ret b s'' -> exists a s', m s = Ret a s' /\ f a s' = Ret b s''.
Proof. unfold bind. destruct (m s); intros H; try discriminate. eauto. Qed.
End MonadLaws.

(** *** What a routine leaves alone

    [keeps f m]: whenever [m] returns, [f] of the state is what it was. *)
Definition keeps {S T A} (f : S -> T) (m : M S A) : Prop :=
  forall s a s', m s = Ret a s' -> f s' = f s.

Section Keeps.
Context {S T : Type} (f : S -> T).

Lemma keeps_ret {A} (a : A) : keeps f (ret a).
Proof. intros s b s' H. by injection H as _ <-. Qed.
Lemma keeps_fault {A} : keeps f (fault (A := A)).
Proof. by intros s b s'. Qed.
Lemma keeps_gets {A} (g : S -> A) : keeps f (gets g).
Proof. intros s b s' H. by injection H as _ <-. Qed.
Lemma keeps_the {A} (o : option A) : keeps f (the o).
Proof. destruct o; [apply keeps_ret|by intros s b s']. Qed.
Lemma keeps_modify (g : S -> S) : (forall s, f (g s) = f s) -> keeps f (modify g).
Proof. intros H s b s' E. injection E as _ <-. apply H. Qed.
Lemma keeps_bind {A B} (m : M S A) (k : A -> M S B) :
  keeps f m -> (forall a, keeps f (k a)) -> keeps f (bind m k).
Proof.
  intros Hm Hk s b s' (a & s1 & E1 & E2)%bind_inv_ret. rewrite (Hk _ _ _ _ E2). by eapply Hm.
Qed.
Lemma keeps_if {A} (b : bool) (m1 m2 : M S A) :
  keeps f m1 -> keeps f m2 -> keeps f (if b then m1 else m2).
Proof. by destruct b. Qed.
Lemma keeps_decide {A} (P : Prop) `{Decision P} (m1 m2 : M S A) :
  keeps f m1 -> keeps f m2 -> keeps f (if decide P then m1 else m2).
Proof. by destruct (decide P). Qed.
Lemma keeps_when (b : bool) (m : M S unit) : keeps f m -> keeps f (when b m).
Proof. destruct b; [done|]. intros _. apply keeps_ret. Qed.
Lemma keeps_loop {X A} n (body : X -> M S (X + A)) x :
  (forall x, keeps f (body x)) -> keeps f (loop n body x).
Proof.
  intros H. revert x; induction n as [|n IH]; intros x; [by intros s b s'|].
  cbn. apply keeps_bind; [apply H|]. intros [x'|a]; [apply IH|apply keeps_ret].
Qed.
Lemma keeps_for {A} (l : list A) (body : A -> M S unit) :
  (forall a, keeps f (body a)) -> keeps f (for_ l body).
Proof.
  intros H. induction l; cbn; [apply keeps_ret|]. apply keeps_bind; [apply H|done].
Qed.
End Keeps.

Create HintDb keeps.

(** Goes through a routine statement by statement; lemmas on the routines it
    calls are in the database [keeps], and other calls are unfolded. *)
Ltac head_of t := match t with ?f _ => head_of f | _ => t end.
Ltac keep_step :=
  match goal with
  | |- forall _, _ => intros ?
  | |- keeps _ (bind _ _) => apply keeps_bind
  | |- keeps _ (ret _) => apply keeps_ret
  | |- keeps _ fault => apply keeps_fault
  | |- keeps _ (gets _) => apply keeps_gets
  | |- keeps _ (the _) => apply keeps_the
  | |- keeps _ (loop _ _ _) => apply keeps_loop
  | |- keeps _ (for_ _ _) => apply keeps_for
  | |- keeps _ (when _ _) => apply keeps_when
  | |- keeps _ (match ?x with _ => _ end) => destruct x
  | |- keeps _ _ => solve [auto 2 with keeps nocore]
  | |- keeps _ ?m => let h := head_of m in unfold h
  end; cbv beta zeta.
Ltac keep := repeat keep_step.
(** From [E : m s = Ret a s'], the fact [K : f s' = f s]. *)
Ltac kept f E K :=
  match type of E with
  | ?m ?s = Ret ?a ?s' =>
      assert (K : f s' = f s);
      [let H := fresh in assert (H : keeps f m) by keep; exact (H _ _ _ E)|]
  end.

(** Two loops whose bodies agree wherever [I] holds. *)
Lemma loop_ext {S X A} (I : S -> Prop) (b1 b2 : X -> M S (X + A)) n : forall x s,
  (forall x s, I s -> b1 x s = b2 x s) ->
  (forall x s r s', I s -> b1 x s = Ret r s' -> I s') ->
  I s -> loop n b1 x s = loop n b2 x s.
Proof.
  induction n as [|n IH]; intros x s He Hi Hs; [done|]. cbn. unfold bind. rewrite <- He by done.
  destruct (b1 x s) as [[x'|a] s'| | | | |] eqn:E; try done. apply IH; [done|done|by eapply Hi].
Qed.

(** *** Invariants

    [maintains I m Q]: from a state with [I], whenever [m] returns, its result is as
    [Q] says and [I] holds; it holds as well where [m] leaves its process asleep or
    by the non-local goto. *)
Definition maintains {S A} (I : S -> Prop) (m : M S A) (Q : A -> Prop) : Prop :=
  forall s, I s ->
    match m s with
    | Ret a s' => Q a /\ I s'
    | Asleep s' | Longjmp s' => I s'
    | Panic _ _ | Fault | NoFuel => True
    end.

Section Maintains.
Context {S : Type} (I : S -> Prop).

Lemma maintains_ret {A} (a : A) (Q : A -> Prop) : Q a -> maintains I (ret a) Q.
Proof. by intros H s Hs. Qed.
Lemma maintains_fault {A} (Q : A -> Prop) : maintains I fault Q.
Proof. by intros s Hs. Qed.
Lemma maintains_nofuel {A} (Q : A -> Prop) : maintains I nofuel Q.
Proof. by intros s Hs. Qed.
Lemma maintains_bind {A B} (m : M S A) (f : A -> M S B) R Q :
  maintains I m R -> (forall a, R a -> maintains I (f a) Q) -> maintains I (bind m f) Q.
Proof.
  intros Hm Hf s Hs. unfold bind. specialize (Hm s Hs). destruct (m s); try done.
  destruct Hm as [H1 H2]. by apply (Hf _ H1).
Qed.
Lemma maintains_conseq {A} (m : M S A) (Q Q' : A -> Prop) : (forall a, Q a -> Q' a) -> maintains I m Q -> maintains I m Q'.
Proof. intros HQ Hm s Hs. specialize (Hm s Hs). destruct (m s); try done. destruct Hm as [H1 H2]. split; [by apply HQ|done]. Qed.
Lemma maintains_gets {A} (g : S -> A) : maintains I (gets g) (fun a => exists s, I s /\ a = g s).
Proof. intros s Hs. split; [by exists s|done]. Qed.
Lemma maintains_modify (g : S -> S) : (forall s, I s -> I (g s)) -> maintains I (modify g) (fun _ => True).
Proof. intros H s Hs. split; [done|by apply H]. Qed.
Lemma maintains_the {A} (o : option A) : maintains I (the o) (fun a => o = Some a).
Proof. by destruct o; intros s Hs. Qed.
Lemma maintains_when (b : bool) (m : M S unit) : maintains I m (fun _ => True) -> maintains I (when b m) (fun _ => True).
Proof. destruct b; [done|]. intros _. by apply maintains_ret. Qed.
Lemma maintains_loop {X A} n (body : X -> M S (X + A)) x Q :
  (forall x, maintains I (body x) (fun r => match r with inl _ => True | inr a => Q a end)) -> maintains I (loop n body x) Q.
Proof.
  intros H. revert x. induction n as [|n IH]; intros x; [by intros s Hs|].
  cbn. eapply maintains_bind; [apply H|]. intros [x'|a] Ha; [apply IH|by apply maintains_ret].
Qed.
Lemma maintains_for {A} (l : list A) (body : A -> M S unit) :
  (forall a, maintains I (body a) (fun _ => True)) -> maintains I (for_ l body) (fun _ => True).
Proof.
  intros H. induction l; cbn; [by apply maintains_ret|]. eapply maintains_bind; [apply H|done].
Qed.
Lemma maintains_for_find {A B} (l : list A) (body : A -> M S (option B)) :
  (forall a, maintains I (body a) (fun _ => True)) -> maintains I (for_find l body) (fun _ => True).
Proof.
  intros H. induction l; cbn; [by apply maintains_ret|]. eapply maintains_bind; [apply H|]. intros [b|] _; [by apply maintains_ret|done].
Qed.
End Maintains.

Create HintDb maintains.

(** Run the first statement of a monadic goal whose outcome is known. *)
Ltac mstep :=
  match goal with
  | |- context [bind ?m ?f ?s] =>
      first [ rewrite (bind_assoc _ _ _ s)
            | erewrite (bind_ret_eq m f s) by (first [eassumption | reflexivity]) ]
  end; cbn beta iota.

(** ** Arithmetic of aligned addresses *)

Lemma land_ones_mod x n : 0 <= n -> Z.land x (Z.ones n) = x mod 2 ^ n.
Proof. apply Z.land_ones. Qed.

Lemma clr_ones x n : 0 <= n -> clr x (Z.ones n) = x - x mod 2 ^ n.
Proof.
  intros Hn. unfold clr. rewrite <- Z.ldiff_land, Z.ldiff_ones_r by lia.
  rewrite Z.shiftr_div_pow2, Z.shiftl_mul_pow2 by lia.
  pose proof (Z.div_mod x (2 ^ n)). lia.
Qed.

(** ** Lists *)

Lemma insert_middle {A} (pre : list A) x y post :
  <[length pre := y]> (pre ++ x :: post) = pre ++ y :: post.
Proof. induction pre; simpl; [done|]. by f_equal. Qed.

Lemma snoc_eq {A} (pre : list A) x post : pre ++ x :: post = (pre ++ [x]) ++ post.
Proof. by rewrite <- app_assoc. Qed.

Lemma length_snoc {A} (pre : list A) x : length (pre ++ [x]) = Datatypes.S (length pre).
Proof. rewrite length_app. simpl. lia. Qed.
