(* ===== verification/Malloc.v ===== *)
(** * Malloc: the resource maps of [sys/malloc.c]

    Core and swap space are handed out from a [struct map]: an array of
    (size, address) runs in increasing address order, closed by a run of
    size 0.  The operations below are [malloc] and the map part of [mfree]
    on that array; [Text.mfree_core] adds the wake-up of the swapper.  Reading or
    writing past the array is [Fault]: the C code does not check for it. *)

From S2P Require Import Prelude.

(** [struct map]: a signed 16-bit size and an unsigned 16-bit address. *)
Record mapent := mkent { m_size : Z; m_addr : Z }.
#[export] Instance eta_mapent : Eta mapent := fun r => mkent (m_size r) (m_addr r).

Definition CMAPSIZ : nat := 50.
Definition SMAPSIZ : nat := 50.

(** The value [*bp], and an assignment through [bp]. *)
Definition ent (bp : nat) : M (list mapent) mapent :=
  m <- get ;; the (m !! bp).
Definition set_ent (bp : nat) (f : mapent -> mapent) : M (list mapent) unit :=
  e <- ent bp ;; modify (fun m => <[bp := f e]> m).

(** [do { bp++; (bp-1)->m_addr = bp->m_addr; }
     while ((bp-1)->m_size = bp->m_size);] *)
Definition close_gap (bp : nat) : M (list mapent) unit :=
  fuel <- gets (fun m => S (length m)) ;;
  loop fuel (fun bp =>
    e <- ent (S bp) ;;
    set_ent bp (fun d => d <| m_addr := m_addr e |>) ;;;
    set_ent bp (fun d => d <| m_size := m_size e |>) ;;;
    ret (if tst (m_size e) then inl (S bp) else inr tt)) bp.

(** [malloc(mp, size)] *)
Definition malloc (size : Z) : M (list mapent) Z :=
  fuel <- gets (fun m => S (length m)) ;;
  loop fuel (fun bp =>
    e <- ent bp ;;
    if negb (tst (m_size e)) then ret (inr 0)
    else if size <=? m_size e then
      let a := m_addr e in
      set_ent bp (fun d => d <| m_addr := u16 (m_addr e + size) |>) ;;;
      let sz := s16 (m_size e - size) in
      set_ent bp (fun d => d <| m_size := sz |>) ;;;
      when (sz =? 0) (close_gap bp) ;;;
      ret (inr a)
    else ret (inl (S bp))) 0%nat.

(** The search of [mfree]:
    [for (; bp->m_addr<=a && bp->m_size!=0; bp++);] *)
Definition mfree_find (a : Z) : M (list mapent) nat :=
  fuel <- gets (fun m => S (length m)) ;;
  loop fuel (fun bp =>
    e <- ent bp ;;
    ret (if (m_addr e <=? a) && tst (m_size e) then inl (S bp) else inr bp)) 0%nat.

(** [while (bp->m_size) { bp++; copy *bp down }] *)
Definition close_next (bp : nat) : M (list mapent) unit :=
  fuel <- gets (fun m => S (length m)) ;;
  loop fuel (fun bp =>
    e <- ent bp ;;
    if tst (m_size e) then
      n <- ent (S bp) ;;
      set_ent bp (fun d => d <| m_addr := m_addr n |>) ;;;
      set_ent bp (fun d => d <| m_size := m_size n |>) ;;;
      ret (inl (S bp))
    else ret (inr tt)) bp.

(** [do { exchange *bp with (size, a); bp++; } while (size = t);] *)
Definition open_gap (bp : nat) (size a : Z) : M (list mapent) unit :=
  fuel <- gets (fun m => S (length m)) ;;
  loop fuel (fun x : nat * Z * Z =>
    let '(bp, size, a) := x in
    e <- ent bp ;;
    set_ent bp (fun d => d <| m_addr := u16 a |>) ;;;
    set_ent bp (fun d => d <| m_size := s16 size |>) ;;;
    ret (if tst (m_size e) then inl (S bp, m_size e, m_addr e) else inr tt))
    (bp, size, a).

(** [mfree(mp, size, a)] after its test for [coremap]. *)
Definition mfree_map (size a : Z) : M (list mapent) unit :=
  bp <- mfree_find a ;;
  adj <- (match bp with
          | O => ret false
          | S q => p <- ent q ;; ret (m_addr p + m_size p =? a)
          end) ;;
  if adj then
    let q := pred bp in
    set_ent q (fun d => d <| m_size := s16 (m_size d + size) |>) ;;;
    e <- ent bp ;;
    when (a + size =? m_addr e)
      (set_ent q (fun d => d <| m_size := s16 (m_size d + m_size e) |>) ;;;
       close_next bp)
  else
    e <- ent bp ;;
    if (a + size =? m_addr e) && tst (m_size e) then
      set_ent bp (fun d => d <| m_addr := u16 (m_addr d - size) |>) ;;;
      set_ent bp (fun d => d <| m_size := s16 (m_size d + size) |>)
    else when (tst size) (open_gap bp size a).

(** ** The runs a map holds *)

Definition run := (Z * Z)%type.
Definition mkrun (r : run) : mapent := mkent r.2 r.1.

(** The array holds the runs [l]: every entry after them has size 0. [mfree]
    relies on all of them, since it does not write a new terminator. *)
Definition zeros (tl : list mapent) : Prop := Forall (fun e => m_size e = 0) tl.
Definition holds (m : list mapent) (l : list run) : Prop :=
  exists a tl, m = map mkrun l ++ mkent 0 a :: tl /\ zeros tl.

(** The highest address a map may describe: a run's size must fit in the
    signed 16-bit [m_size] even after coalescing. *)
Definition LIMIT : Z := 32768.

(** Increasing, disjoint, coalesced (a gap between neighbours), and clear of
    address 0, which [malloc] returns on failure. *)
Fixpoint runs_ok (lo : Z) (l : list run) : Prop :=
  match l with
  | [] => True
  | (a, s) :: l' => lo < a /\ 0 < s /\ a + s <= LIMIT /\ runs_ok (a + s) l'
  end.

Definition wf_map (m : list mapent) (l : list run) : Prop :=
  holds m l /\ runs_ok 0 l.

(** The units of space that are free. *)
Definition free_unit (l : list run) (u : Z) : Prop :=
  exists a s, (a, s) ∈ l /\ a <= u < a + s.

(** Specification on runs: first fit, and insertion with coalescing. *)
Fixpoint take_fit (size : Z) (l : list run) : option (Z * list run) :=
  match l with
  | [] => None
  | (a, s) :: r =>
      if size <=? s then
        Some (a, if s - size =? 0 then r else (a + size, s - size) :: r)
      else match take_fit size r with
           | Some (x, r') => Some (x, (a, s) :: r')
           | None => None
           end
  end.

Fixpoint put_back (size a : Z) (l : list run) : list run :=
  match l with
  | [] => [(a, size)]
  | (b, s) :: r =>
      if b <=? a then
        if b + s =? a then
          match r with
          | (c, t) :: r' =>
              if a + size =? c then (b, s + size + t) :: r' else (b, s + size) :: r
          | [] => [(b, s + size)]
          end
        else (b, s) :: put_back size a r
      else if a + size =? b then (a, size + s) :: r
      else (a, size) :: l
  end.

(** ** Properties of the specification *)

Lemma runs_ok_weaken lo lo' l : lo' <= lo -> runs_ok lo l -> runs_ok lo' l.
Proof.
  destruct l as [|[a s] l]; simpl; [done|]. intros ? (H1 & H2 & H3 & H4).
  repeat split; try lia; done.
Qed.

Lemma runs_ok_lower lo l a s : runs_ok lo l -> (a, s) ∈ l -> lo < a /\ 0 < s /\ a + s <= LIMIT.
Proof.
  revert lo; induction l as [|[b t] l IH]; simpl; intros lo H Hin.
  - by apply not_elem_of_nil in Hin.
  - destruct H as (H1 & H2 & H3 & H4). apply elem_of_cons in Hin as [E|Hin].
    + by injection E as -> ->.
    + specialize (IH _ H4 Hin). lia.
Qed.

Lemma free_unit_nil u : ~ free_unit [] u.
Proof. intros (a & s & H & _). by apply not_elem_of_nil in H. Qed.

Lemma free_unit_cons a s l u :
  free_unit ((a, s) :: l) u <-> a <= u < a + s \/ free_unit l u.
Proof.
  unfold free_unit. split.
  - intros (b & t & Hin & Hu). apply elem_of_cons in Hin as [E|Hin].
    + injection E as -> ->. by left.
    + right. eauto.
  - intros [H|(b & t & Hin & Hu)].
    + exists a, s. split; [left|done].
    + exists b, t. split; [by right|done].
Qed.

Lemma free_unit_lower lo l u : runs_ok lo l -> free_unit l u -> lo < u.
Proof.
  intros H (a & s & Hin & Hu). pose proof (runs_ok_lower _ _ _ _ H Hin). lia.
Qed.

Ltac units := repeat rewrite free_unit_cons in *.

Lemma take_fit_ok lo size l a l' :
  runs_ok lo l -> 0 < size -> take_fit size l = Some (a, l') ->
  runs_ok lo l' /\ lo < a /\ a + size <= LIMIT /\
  (forall u, free_unit l u <-> a <= u < a + size \/ free_unit l' u) /\
  (forall u, a <= u < a + size -> ~ free_unit l' u).
Proof.
  revert lo a l'; induction l as [|[b s] r IH]; simpl; intros lo a l' H Hs E; [done|].
  destruct H as (H1 & H2 & H3 & H4).
  destruct (Z.leb_spec size s).
  - injection E as <- <-.
    assert (forall u, free_unit r u -> b + s < u) as Hr
      by (intros u; by apply free_unit_lower).
    destruct (Z.eqb_spec (s - size) 0).
    + repeat split; try lia.
      * apply (runs_ok_weaken (b + s)); [lia|done].
      * units. intros [?|?]; [left; lia|by right].
      * units. intros [?|?]; [left; lia|by right].
      * intros u Hu Hf. specialize (Hr u Hf). lia.
    + simpl. repeat split; try lia.
      * replace (b + size + (s - size)) with (b + s) by lia. done.
      * units. intros [?|?]; [|tauto].
        destruct (Z.lt_ge_cases u (b + size)); [left; lia|right; left; lia].
      * units. intros [?|[?|?]]; [left; lia|left; lia|by right].
      * intros u Hu Hf. units. destruct Hf as [?|Hf]; [lia|]. specialize (Hr u Hf). lia.
  - destruct (take_fit size r) as [[x r']|] eqn:E'; [|done]. injection E as <- <-.
    destruct (IH _ _ _ H4 Hs eq_refl) as (I1 & I2 & I3 & I4 & I5).
    simpl. repeat split; try lia; try done.
    + units. rewrite I4. tauto.
    + units. rewrite I4. tauto.
    + intros u Hu. units. intros [?|Hf]; [lia|]. by apply (I5 u).
Qed.

(** What is left of the runs when [size] units are cut off the front of the
    run of [s] units at [a]. *)
Definition left_of (size : Z) (pre : list run) (a s : Z) (post : list run) : list run :=
  pre ++ (if s - size =? 0 then post else (a + size, s - size) :: post).

Lemma take_fit_split size l a l' :
  take_fit size l = Some (a, l') ->
  exists pre s post, l = pre ++ (a, s) :: post /\ (forall b t, (b, t) ∈ pre -> t < size) /\
    size <= s /\ l' = left_of size pre a s post.
Proof.
  revert a l'; induction l as [|[b t] r IH]; simpl; intros a l' E; [done|].
  destruct (Z.leb_spec size t).
  - injection E as <- <-. exists [], t, r. repeat split; [|done].
    by intros ? ? ?%not_elem_of_nil.
  - destruct (take_fit size r) as [[x r']|]; [|done]. injection E as <- <-.
    destruct (IH x r' eq_refl) as (pre & s & post & -> & Hpre & Hs & ->).
    exists ((b, t) :: pre), s, post. repeat split; [|done].
    intros c u [[= -> ->]|Hin]%elem_of_cons; [lia|by eapply Hpre].
Qed.

Lemma take_fit_none size l :
  take_fit size l = None -> forall a s, (a, s) ∈ l -> s < size.
Proof.
  induction l as [|[b t] r IH]; simpl; intros E a s Hin.
  - by apply not_elem_of_nil in Hin.
  - destruct (Z.leb_spec size t); [done|].
    destruct (take_fit size r) as [[? ?]|]; [done|].
    apply elem_of_cons in Hin as [Eq|Hin]; [by injection Eq as -> ->|by eapply IH].
Qed.

Lemma not_free_cons a s l (b e : Z) :
  (forall u, b <= u < e -> ~ free_unit ((a, s) :: l) u) -> b < e -> 0 < s ->
  (a + s <= b \/ e <= a) /\ (forall u, b <= u < e -> ~ free_unit l u).
Proof.
  intros H Hbe Hs. split.
  - destruct (Z.le_gt_cases (a + s) b); [by left|].
    destruct (Z.le_gt_cases e a); [by right|]. exfalso.
    apply (H (Z.max a b)); [lia|]. units. left. lia.
  - intros u Hu Hf. apply (H u Hu). units. by right.
Qed.

Lemma put_back_ok lo size a l :
  runs_ok lo l -> 0 < size -> lo < a -> a + size <= LIMIT ->
  (forall u, a <= u < a + size -> ~ free_unit l u) ->
  runs_ok lo (put_back size a l) /\
  (forall u, free_unit (put_back size a l) u <-> a <= u < a + size \/ free_unit l u).
Proof.
  revert lo; induction l as [|[b s] r IH]; intros lo H Hs Hlo Hlim Hdis.
  - cbn [put_back runs_ok]. split; [repeat split; lia|]. intros u. units. tauto.
  - destruct H as (H1 & H2 & H3 & H4).
    apply not_free_cons in Hdis as [Hsep Hdis]; [|lia..].
    cbn [put_back].
    destruct (Z.leb_spec b a); [destruct (Z.eqb_spec (b + s) a)|destruct (Z.eqb_spec (a + size) b)].
    + destruct r as [|[c t] r'].
      { simpl. split; [repeat split; lia|]. intros u. units.
        pose proof (free_unit_nil u). assert (b <= u < b + (s + size) <-> b <= u < b + s \/ a <= u < a + size) by lia. tauto. }
      destruct H4 as (K1 & K2 & K3 & K4).
      apply not_free_cons in Hdis as [Hsep' Hdis]; [|lia..].
      destruct (Z.eqb_spec (a + size) c); simpl.
      * split; [repeat split; try lia|].
        { replace (b + (s + size + t)) with (c + t) by lia. done. }
        intros u. units.
        assert (b <= u < b + (s + size + t) <-> b <= u < b + s \/ a <= u < a + size \/ c <= u < c + t) by lia. tauto.
      * split; [repeat split; try lia; done|].
        intros u. units.
        assert (b <= u < b + (s + size) <-> b <= u < b + s \/ a <= u < a + size) by lia. tauto.
    + destruct (IH (b + s)) as [I1 I2]; try done; try lia.
      simpl. split; [repeat split; done|]. intros u. units. rewrite I2. tauto.
    + simpl. split; [repeat split; try lia|].
      { replace (a + (size + s)) with (b + s) by lia. done. }
      intros u. units. assert (a <= u < a + (size + s) <-> a <= u < a + size \/ b <= u < b + s) by lia. tauto.
    + simpl. split; [repeat split; try lia; done|]. intros u. units. tauto.
Qed.

(** A coalesced map is determined by the set of free units. *)
Lemma runs_canonical lo l l' :
  runs_ok lo l -> runs_ok lo l' -> (forall u, free_unit l u <-> free_unit l' u) -> l = l'.
Proof.
  revert lo l'; induction l as [|[a s] r IH]; intros lo [|[a' s'] r'] H H' E; [done|..].
  - exfalso. destruct H' as (? & ? & ?). apply (free_unit_nil a'). apply E. units. left. lia.
  - exfalso. destruct H as (? & ? & ?). apply (free_unit_nil a). apply E. units. left. lia.
  - destruct H as (H1 & H2 & H3 & H4), H' as (K1 & K2 & K3 & K4).
    assert (forall u, free_unit r u -> a + s < u) as Hr by (intros u; by apply free_unit_lower).
    assert (forall u, free_unit r' u -> a' + s' < u) as Hr' by (intros u; by apply free_unit_lower).
    assert (forall u, a <= u < a + s \/ free_unit r u <-> a' <= u < a' + s' \/ free_unit r' u) as E'.
    { intros u. rewrite <- !free_unit_cons. apply E. }
    assert (a = a') as <-.
    { destruct (proj1 (E' a)) as [?|?%Hr']; [left; lia| |];
      destruct (proj2 (E' a')) as [?|?%Hr]; try (left; lia); lia. }
    assert (s = s') as <-.
    { destruct (Z.lt_trichotomy s s') as [?|[?|?]]; [exfalso|done|exfalso].
      - destruct (proj2 (E' (a + s))) as [?|?%Hr]; [left|..]; lia.
      - destruct (proj1 (E' (a + s'))) as [?|?%Hr']; [left|..]; lia. }
    f_equal. apply (IH (a + s)); try done.
    intros u. destruct (E' u) as [E1 E2]. split; intros Hf.
    + specialize (Hr u Hf). destruct (E1 (or_intror Hf)); [lia|done].
    + specialize (Hr' u Hf). destruct (E2 (or_intror Hf)); [lia|done].
Qed.

(** ** The array operations implement the specification *)

Lemma ent_at pre e post :
  ent (length pre) (pre ++ e :: post) = Ret e (pre ++ e :: post).
Proof. unfold ent, bind, get. by rewrite list_lookup_middle. Qed.

Lemma ent_next pre x e post :
  ent (S (length pre)) (pre ++ x :: e :: post) = Ret e (pre ++ x :: e :: post).
Proof.
  pose proof (ent_at (pre ++ [x]) e post) as H. revert H.
  rewrite length_app, Nat.add_1_r, <- app_assoc. done.
Qed.

Lemma set_ent_at pre e post f :
  set_ent (length pre) f (pre ++ e :: post) = Ret tt (pre ++ f e :: post).
Proof.
  unfold set_ent. rewrite (bind_ret_eq _ _ _ _ _ (ent_at pre e post)).
  unfold modify. by rewrite insert_middle.
Qed.

Definition nonzero (l : list run) : Prop := Forall (fun r : run => r.2 <> 0) l.

Lemma runs_ok_nonzero lo l : runs_ok lo l -> nonzero l.
Proof.
  revert lo; induction l as [|[a s] l IH]; intros lo H; constructor.
  - simpl in *. lia.
  - destruct H as (_ & _ & _ & H). by eapply IH.
Qed.

Ltac at_step :=
  repeat (rewrite bind_assoc) ;
  first [ erewrite bind_ret_eq by apply ent_at
        | erewrite bind_ret_eq by apply ent_next
        | erewrite bind_ret_eq by apply set_ent_at
        | erewrite bind_ret_eq by reflexivity ];
  cbn beta iota.

Lemma tst_run r : r.2 <> 0 -> tst (m_size (mkrun r)) = true.
Proof. intros H. by apply tst_true. Qed.

Lemma close_gap_loop r : forall n pre x a tl body,
  nonzero r -> (length r < n)%nat ->
  body = (fun bp =>
    e <- ent (S bp) ;;
    set_ent bp (fun d => d <| m_addr := m_addr e |>) ;;;
    set_ent bp (fun d => d <| m_size := m_size e |>) ;;;
    ret (if tst (m_size e) then inl (S bp) else inr tt)) ->
  loop n body (length pre) (pre ++ x :: map mkrun r ++ mkent 0 a :: tl)
  = Ret tt (pre ++ map mkrun r ++ mkent 0 a :: mkent 0 a :: tl).
Proof.
  induction r as [|y r IH]; intros n pre x a tl body Hnz Hn Hb;
    (destruct n as [|n]; [simpl in Hn; lia|]); cbn [loop map app]; subst body.
  - repeat at_step. done.
  - inversion_clear Hnz as [|? ? Hy Hr]. repeat at_step.
    rewrite tst_run by done. destruct y as [b s]. cbn.
    rewrite snoc_eq, <- length_snoc with (x := mkent s b).
    erewrite IH; [|done|simpl in Hn; lia|done].
    by rewrite <- app_assoc.
Qed.

Lemma close_gap_spec pre x r a tl :
  nonzero r ->
  close_gap (length pre) (pre ++ x :: map mkrun r ++ mkent 0 a :: tl)
  = Ret tt (pre ++ map mkrun r ++ mkent 0 a :: mkent 0 a :: tl).
Proof.
  intros H. unfold close_gap.
  erewrite bind_ret_eq by reflexivity. eapply close_gap_loop; [done| |done].
  rewrite !length_app. simpl. rewrite length_app, length_map. lia.
Qed.

Lemma close_next_loop r : forall n pre x a tl body,
  nonzero r -> x <> 0 -> (S (length r) < n)%nat ->
  body = (fun bp =>
    e <- ent bp ;;
    if tst (m_size e) then
      n <- ent (S bp) ;;
      set_ent bp (fun d => d <| m_addr := m_addr n |>) ;;;
      set_ent bp (fun d => d <| m_size := m_size n |>) ;;;
      ret (inl (S bp))
    else ret (inr tt)) ->
  forall b,
  loop n body (length pre) (pre ++ mkent x b :: map mkrun r ++ mkent 0 a :: tl)
  = Ret tt (pre ++ map mkrun r ++ mkent 0 a :: mkent 0 a :: tl).
Proof.
  induction r as [|y r IH]; intros n pre x a tl body Hnz Hx Hn Hb b;
    (destruct n as [|n]; [simpl in Hn; lia|]); cbn [loop map app]; subst body.
  - repeat at_step. simpl. rewrite (proj2 (tst_true x) Hx). repeat at_step. cbn.
    destruct n as [|n]; [simpl in Hn; lia|]. cbn [loop].
    rewrite snoc_eq, <- length_snoc with (x := mkent 0 a). repeat at_step.
    by rewrite <- app_assoc.
  - inversion_clear Hnz as [|? ? Hy Hr]. repeat at_step. simpl.
    rewrite (proj2 (tst_true x) Hx). repeat at_step.
    destruct y as [c s]. change (mkrun (c, s)) with (mkent s c). cbn.
    rewrite snoc_eq, <- length_snoc with (x := mkent s c).
    erewrite IH; [|done|done|simpl in Hn; lia|done].
    by rewrite <- app_assoc.
Qed.

(** What fits in a [struct map]. *)
Definition fits (r : run) : Prop := 0 <= r.1 < 65536 /\ -32768 <= r.2 < 32768.

Lemma runs_ok_fits lo l : 0 <= lo -> runs_ok lo l -> Forall fits l.
Proof.
  unfold fits, LIMIT. revert lo; induction l as [|[a s] l IH]; intros lo Hlo H; constructor.
  - simpl in *. unfold LIMIT in H. lia.
  - destruct H as (? & ? & ? & H). eapply IH; [|done]. lia.
Qed.

Lemma store_fits a s e :
  fits (a, s) ->
  (e <| m_addr := u16 a |>) <| m_size := s16 s |> = mkrun (a, s).
Proof. intros [H1 H2]. cbn in *. by rewrite u16_id, s16_id by lia. Qed.

Lemma open_gap_loop r : forall n pre size a b tl body,
  nonzero r -> Forall fits ((a, size) :: r) -> (length r < n)%nat ->
  body = (fun x : nat * Z * Z =>
    let '(bp, size, a) := x in
    e <- ent bp ;;
    set_ent bp (fun d => d <| m_addr := u16 a |>) ;;;
    set_ent bp (fun d => d <| m_size := s16 size |>) ;;;
    ret (if tst (m_size e) then inl (S bp, m_size e, m_addr e) else inr tt)) ->
  loop n body (length pre, size, a) (pre ++ map mkrun r ++ mkent 0 b :: tl)
  = Ret tt (pre ++ mkrun (a, size) :: map mkrun r ++ tl).
Proof.
  induction r as [|y r IH]; intros n pre size a b tl body Hnz Hfit Hn Hb;
    (destruct n as [|n]; [simpl in Hn; lia|]); cbn [loop map app]; subst body;
    inversion_clear Hfit as [|? ? Ha Hr].
  - repeat at_step. rewrite store_fits by done. done.
  - inversion_clear Hnz as [|? ? Hy Hnz']. repeat at_step. rewrite store_fits, tst_run by done. destruct y as [c s]. cbn.
    rewrite (snoc_eq pre), <- length_snoc with (x := mkrun (a, size)).
    erewrite IH; [|done|done|simpl in Hn; lia|done].
    by rewrite <- app_assoc.
Qed.

Lemma malloc_loop l : forall n lo pre size b tl body,
  runs_ok lo l -> 0 <= lo -> 0 < size -> (length l < n)%nat -> zeros tl ->
  body = (fun bp =>
    e <- ent bp ;;
    if negb (tst (m_size e)) then ret (inr 0)
    else if size <=? m_size e then
      let a := m_addr e in
      set_ent bp (fun d => d <| m_addr := u16 (m_addr e + size) |>) ;;;
      let sz := s16 (m_size e - size) in
      set_ent bp (fun d => d <| m_size := sz |>) ;;;
      when (sz =? 0) (close_gap bp) ;;;
      ret (inr a)
    else ret (inl (S bp))) ->
  match take_fit size l with
  | None => loop n body (length pre) (pre ++ map mkrun l ++ mkent 0 b :: tl)
            = Ret 0 (pre ++ map mkrun l ++ mkent 0 b :: tl)
  | Some (a, l') => exists tl', zeros tl' /\
      loop n body (length pre) (pre ++ map mkrun l ++ mkent 0 b :: tl)
      = Ret a (pre ++ map mkrun l' ++ mkent 0 b :: tl') /\
      (length (map mkrun l') + length tl' = length (map mkrun l) + length tl)%nat
  end.
Proof.
  induction l as [|[a s] r IH]; intros n lo pre size b tl body Hok Hlo Hs Hn Hz Hb;
    (destruct n as [|n]; [simpl in Hn; lia|]); cbn [loop map app take_fit].
  - subst body. repeat at_step. done.
  - destruct Hok as (H1 & H2 & H3 & H4). unfold LIMIT in *.
    destruct (Z.leb_spec size s) as [Hfit|Hfit].
    + subst body. repeat at_step. simpl.
      rewrite (proj2 (tst_true s)) by lia. simpl.
      rewrite (proj2 (Z.leb_le size s)) by lia. repeat at_step. simpl.
      rewrite (s16_id (s - size)), (u16_id (a + size)) by lia.
      destruct (Z.eqb_spec (s - size) 0) as [E|E]; simpl.
      * exists (mkent 0 b :: tl). split; [by constructor|]. split.
        -- rewrite ?bind_assoc. erewrite (bind_ret_eq (close_gap _)); [|apply close_gap_spec; by eapply runs_ok_nonzero].
           repeat at_step. done.
        -- simpl; lia.
      * exists tl. split; [done|]. split; [|simpl; lia]. repeat at_step. done.
    + specialize (IH n (a + s) (pre ++ [mkrun (a, s)]) size b tl body H4).
      replace (loop (S n) body (length pre)) with (loop (S n) body (length pre)) by done.
      assert (Hstep : forall R, loop n body (length (pre ++ [mkrun (a, s)]))
          ((pre ++ [mkrun (a, s)]) ++ map mkrun r ++ mkent 0 b :: tl) = R ->
        (x <- body (length pre) ;; match x with inl x' => loop n body x' | inr a => ret a end)
          (pre ++ mkrun (a, s) :: map mkrun r ++ mkent 0 b :: tl) = R).
      { intros R <-. rewrite length_snoc, <- app_assoc. subst body. repeat at_step. simpl.
        rewrite (proj2 (tst_true s)) by lia. simpl.
        rewrite (proj2 (Z.leb_gt size s)) by lia. done. }
      destruct (take_fit size r) as [[x l']|].
      * destruct IH as (tl' & Hz' & IH & Hlen); [lia|lia|simpl in *; lia|done|done|].
        exists tl'. split; [done|]. split; [|simpl in *; lia].
        rewrite (Hstep _ IH). by rewrite <- app_assoc.
      * rewrite (Hstep _ (IH ltac:(lia) ltac:(lia) ltac:(simpl in *; lia) Hz Hb)).
        by rewrite <- app_assoc.
Qed.

Lemma malloc_refines m l size :
  wf_map m l -> 0 < size ->
  match take_fit size l with
  | None => malloc size m = Ret 0 m
  | Some (a, l') =>
      exists m', malloc size m = Ret a m' /\ holds m' l' /\ length m' = length m
  end.
Proof.
  intros [(b & tl & -> & Hz) Hok] Hs. unfold malloc.
  erewrite bind_ret_eq by reflexivity.
  epose proof (malloc_loop l (S (length (map mkrun l ++ mkent 0 b :: tl))) 0 [] size b tl
    _ Hok (Z.le_refl 0) Hs) as H.
  specialize (H ltac:(rewrite length_app, length_map; simpl; lia) Hz eq_refl).
  destruct (take_fit size l) as [[a l']|].
  - destruct H as (tl' & Hz' & H & Hlen). eexists. split; [exact H|]. split.
    + exists b, tl'. done.
    + simpl. rewrite !length_app, !length_map in *. simpl. lia.
  - exact H.
Qed.

(** *** [mfree] *)

(** Where [mfree_find] stops: past the runs at or below [a]. *)
Definition below (a : Z) (l : list run) : Prop := Forall (fun r : run => r.1 <= a) l.
Definition above (a : Z) (l : list run) : Prop :=
  match l with [] => True | r :: _ => a < r.1 end.

Lemma find_split lo a l : runs_ok lo l ->
  exists l1 l2, l = l1 ++ l2 /\ below a l1 /\ above a l2.
Proof.
  revert lo; induction l as [|[b s] r IH]; intros lo H.
  - exists [], []. repeat split; constructor.
  - destruct H as (_ & _ & _ & H). destruct (Z.le_gt_cases b a).
    + destruct (IH _ H) as (l1 & l2 & -> & H1 & H2).
      exists ((b, s) :: l1), l2. repeat split; [by constructor|done].
    + exists [], ((b, s) :: r). repeat split; [constructor|done].
Qed.

Lemma mfree_find_loop l1 : forall n pre a l2 b tl body,
  nonzero l1 -> below a l1 -> above a l2 -> (length l1 < n)%nat ->
  body = (fun bp =>
    e <- ent bp ;;
    ret (if (m_addr e <=? a) && tst (m_size e) then inl (S bp) else inr bp)) ->
  loop n body (length pre) (pre ++ map mkrun l1 ++ map mkrun l2 ++ mkent 0 b :: tl)
  = Ret (length pre + length l1)%nat
        (pre ++ map mkrun l1 ++ map mkrun l2 ++ mkent 0 b :: tl).
Proof.
  induction l1 as [|[c s] l1 IH]; intros n pre a l2 b tl body Hnz Hbe Hab Hn Hb;
    (destruct n as [|n]; [simpl in Hn; lia|]); cbn [loop map app].
  - subst body. rewrite Nat.add_0_r. destruct l2 as [|[c s] l2]; cbn [map app].
    + repeat at_step. cbn. by rewrite andb_false_r.
    + repeat at_step. simpl in *. by rewrite (proj2 (Z.leb_gt c a)) by lia.
  - inversion_clear Hnz as [|? ? Hy Hnz']. inversion_clear Hbe as [|? ? Hc Hbe'].
    subst body. repeat at_step. rewrite tst_run by done. simpl in *.
    rewrite (proj2 (Z.leb_le c a)) by lia. cbn.
    rewrite snoc_eq, <- length_snoc with (x := mkrun (c, s)).
    erewrite IH; [|done|done|done|lia|done].
    rewrite length_snoc, <- app_assoc. f_equal. lia.
Qed.

Lemma mfree_find_spec l1 l2 a b tl lo :
  runs_ok lo (l1 ++ l2) -> below a l1 -> above a l2 ->
  mfree_find a (map mkrun (l1 ++ l2) ++ mkent 0 b :: tl)
  = Ret (length l1) (map mkrun l1 ++ map mkrun l2 ++ mkent 0 b :: tl).
Proof.
  intros Hok H1 H2. unfold mfree_find. rewrite map_app, <- app_assoc.
  erewrite bind_ret_eq by reflexivity.
  apply runs_ok_nonzero, Forall_app in Hok as [Hnz _].
  eapply (mfree_find_loop l1 _ [] a); try done.
  rewrite !length_app, length_map. lia.
Qed.

Lemma runs_ok_app lo l1 a s l2 :
  runs_ok lo (l1 ++ (a, s) :: l2) ->
  (forall b t, (b, t) ∈ l1 -> b + t < a) /\ lo < a /\ 0 < s /\ a + s <= LIMIT /\
  runs_ok (a + s) l2.
Proof.
  revert lo; induction l1 as [|[b t] l1 IH]; intros lo H; simpl in *.
  - split; [by intros ? ? ?%not_elem_of_nil|tauto].
  - destruct H as (H1 & H2 & H3 & H4). destruct (IH _ H4) as (I1 & I2 & I3).
    split; [|split; [lia|tauto]].
    intros b' t' Hin. apply elem_of_cons in Hin as [E|Hin]; [injection E as -> ->; lia|].
    by apply I1.
Qed.

(** Runs that neither reach past [a] nor touch it are passed over. *)
Lemma put_back_skip size a l1 l2 :
  (forall b t, (b, t) ∈ l1 -> b <= a /\ b + t <> a) ->
  put_back size a (l1 ++ l2) = l1 ++ put_back size a l2.
Proof.
  induction l1 as [|[b t] l1 IH]; intros H; [done|].
  destruct (H b t) as [H1 H2]; [left|]. cbn [app put_back].
  rewrite (proj2 (Z.leb_le b a)), (proj2 (Z.eqb_neq (b + t) a)) by done.
  f_equal. apply IH. intros b' t' Hin. apply H. by right.
Qed.

Lemma set_size pre e post f sz :
  s16 (f e) = sz ->
  set_ent (length pre) (fun d => d <| m_size := s16 (f d) |>) (pre ++ e :: post)
  = Ret tt (pre ++ mkent sz (m_addr e) :: post).
Proof. intros <-. apply set_ent_at. Qed.

Lemma close_next_zero pre b tl :
  close_next (length pre) (pre ++ mkent 0 b :: tl) = Ret tt (pre ++ mkent 0 b :: tl).
Proof. unfold close_next. at_step. cbn [loop]. repeat at_step. done. Qed.

Lemma close_next_spec pre x c r b tl :
  nonzero r -> x <> 0 ->
  close_next (length pre) (pre ++ mkent x c :: map mkrun r ++ mkent 0 b :: tl)
  = Ret tt (pre ++ map mkrun r ++ mkent 0 b :: mkent 0 b :: tl).
Proof.
  intros Hr Hx. unfold close_next. at_step. eapply close_next_loop; try done.
  rewrite !length_app. simpl. rewrite length_app, length_map. simpl. lia.
Qed.

(** Past the search, [mfree] joins the freed space to the run before it ... *)
Lemma mfree_join pre c s l2 size a b tl :
  runs_ok (c + s) l2 -> 0 < c -> 0 < s -> 0 < size -> c + s = a -> a + size <= LIMIT ->
  zeros tl -> (forall u, a <= u < a + size -> ~ free_unit l2 u) ->
  mfree_find a (pre ++ mkrun (c, s) :: map mkrun l2 ++ mkent 0 b :: tl)
    = Ret (S (length pre)) (pre ++ mkrun (c, s) :: map mkrun l2 ++ mkent 0 b :: tl) ->
  exists tl', mfree_map size a (pre ++ mkrun (c, s) :: map mkrun l2 ++ mkent 0 b :: tl) =
    Ret tt (pre ++ map mkrun (put_back size a ((c, s) :: l2)) ++ mkent 0 b :: tl') /\
    zeros tl' /\ (length tl <= length tl')%nat.
Proof.
  intros Hok Hc Hs Hsz Hadj Hlim Hz Hdis Hfind. unfold mfree_map, LIMIT in *.
  erewrite bind_ret_eq by exact Hfind. cbn beta iota. repeat at_step. simpl.
  rewrite (proj2 (Z.eqb_eq (c + s) a)) by lia.
  cbn [pred]. at_step. simpl. rewrite (s16_id (s + size)) by lia.
  cbn [put_back]. rewrite (proj2 (Z.leb_le c a)) by lia.
  destruct l2 as [|[d t] r]; cbn [map app]; at_step; simpl.
  - exists tl. split; [|done]. destruct (a + size =? b); [|done]. simpl.
    at_step. simpl. rewrite Z.add_0_r, (s16_id (s + size)) by lia.
    rewrite snoc_eq, <- length_snoc with (x := mkrun (c, s + size)).
    rewrite close_next_zero. by rewrite <- app_assoc.
  - destruct Hok as (K1 & K2 & K3 & K4). unfold LIMIT in *.
    destruct (Z.eqb_spec (a + size) d); simpl.
    + exists (mkent 0 b :: tl). split; [|split; [by constructor|simpl; lia]].
      at_step. simpl. rewrite (s16_id (s + size + t)) by lia.
      rewrite snoc_eq, <- length_snoc with (x := mkrun (c, s + size + t)).
      change (mkrun (d, t)) with (mkent t d).
      rewrite close_next_spec; [by rewrite <- app_assoc|by eapply runs_ok_nonzero|lia].
    + exists tl. done.
Qed.

(** ... or to the run after it, or opens a new run. *)
Lemma mfree_insert pre l2 size a b x tl :
  runs_ok a l2 -> above a l2 -> 0 < a -> 0 < size -> a + size <= LIMIT ->
  zeros (x :: tl) -> (forall u, a <= u < a + size -> ~ free_unit l2 u) ->
  mfree_find a (pre ++ map mkrun l2 ++ mkent 0 b :: x :: tl)
    = Ret (length pre) (pre ++ map mkrun l2 ++ mkent 0 b :: x :: tl) ->
  (pre = [] \/ exists q c s, pre = q ++ [mkrun (c, s)] /\ c + s <> a) ->
  exists y tl', mfree_map size a (pre ++ map mkrun l2 ++ mkent 0 b :: x :: tl) =
    Ret tt (pre ++ map mkrun (put_back size a l2) ++ mkent 0 y :: tl') /\
    zeros tl' /\ (length tl <= length tl')%nat.
Proof.
  intros Hok Hab Ha Hsz Hlim Hz Hdis Hfind Hpre. unfold mfree_map, LIMIT in *.
  erewrite bind_ret_eq by exact Hfind. cbn beta iota.
  erewrite (bind_ret_eq (match length pre with O => _ | S _ => _ end) _ _ false).
  2: { destruct Hpre as [->|(q & c & s & -> & Hne)]; [done|].
       rewrite length_snoc, <- app_assoc. cbn [app]. repeat at_step. simpl.
       by rewrite (proj2 (Z.eqb_neq (c + s) a)). }
  cbn beta iota.
  assert (Hgap : (a + size =? m_addr (mkent 0 b)) && tst (m_size (mkent 0 b)) = false)
    by (cbn; by rewrite andb_false_r).
  assert (Hx : x = mkent 0 (m_addr x)).
  { inversion_clear Hz as [|? ? H _]. destruct x; simpl in *. by subst. }
  assert (Hz' : zeros tl) by (by inversion Hz).
  assert (Hopen : nonzero l2 -> Forall fits l2 ->
    open_gap (length pre) size a (pre ++ map mkrun l2 ++ mkent 0 b :: x :: tl)
    = Ret tt (pre ++ mkrun (a, size) :: map mkrun l2 ++ x :: tl)).
  { intros Hnz Hfi. unfold open_gap. at_step. eapply open_gap_loop; try done.
    - constructor; [unfold fits; simpl; lia|done].
    - rewrite !length_app, length_map. simpl. lia. }
  destruct l2 as [|[c s] r]; cbn [map app put_back].
  - at_step. rewrite Hgap, (proj2 (tst_true size)) by lia. simpl.
    simpl in Hopen. rewrite Hopen by constructor. rewrite Hx. eauto 10.
  - destruct Hok as (K1 & K2 & K3 & K4). unfold LIMIT in *.
    rewrite (proj2 (Z.leb_gt c a)) by lia.
    destruct (Z.eqb_spec (a + size) c).
    + at_step. simpl. rewrite (proj2 (Z.eqb_eq (a + size) c)), (proj2 (tst_true s)) by lia.
      simpl. at_step. rewrite set_ent_at. simpl.
      rewrite (u16_id (c - size)), (s16_id (s + size)) by lia.
      exists b, (x :: tl). split; [|split; [done|simpl; lia]].
      unfold mkrun. simpl. by replace (c - size) with a by lia; replace (s + size) with (size + s) by lia.
    + at_step. simpl. rewrite (proj2 (Z.eqb_neq (a + size) c)) by lia. simpl.
      rewrite (proj2 (tst_true size)) by lia. simpl. simpl in Hopen. rewrite Hopen.
      * rewrite Hx. eauto 10.
      * constructor; [simpl; lia|]. by eapply runs_ok_nonzero.
      * constructor; [unfold fits; simpl; lia|]. eapply runs_ok_fits; [|done]. lia.
Qed.

Lemma mfree_refines m l size a :
  wf_map m l -> (S (length l) < length m)%nat ->
  0 < size -> 0 < a -> a + size <= LIMIT ->
  (forall u, a <= u < a + size -> ~ free_unit l u) ->
  exists m', mfree_map size a m = Ret tt m' /\ holds m' (put_back size a l).
Proof.
  intros [(b & tl & -> & Hz) Hok] Hlen Hs Ha Hlim Hdis.
  destruct tl as [|x tl].
  { rewrite length_app, length_map in Hlen. simpl in Hlen. lia. }
  destruct (find_split 0 a l Hok) as (l1 & l2 & -> & Hbe & Hab).
  pose proof (mfree_find_spec l1 l2 a b (x :: tl) 0 Hok Hbe Hab) as Hfind.
  rewrite map_app, <- app_assoc in *.
  assert (Hskip : forall c s, (c, s) ∈ l1 -> 0 < s /\ c + s <= a).
  { intros c s Hin.
    destruct (runs_ok_lower 0 (l1 ++ l2) c s Hok); [apply elem_of_app; by left|].
    pose proof (proj1 (Forall_forall _ l1) Hbe (c, s) Hin). simpl in *.
    split; [lia|]. destruct (Z.le_gt_cases (c + s) a); [done|exfalso].
    apply (Hdis a); [lia|]. exists c, s. split; [|lia]. apply elem_of_app. by left. }
  assert (Hdis2 : forall u, a <= u < a + size -> ~ free_unit l2 u).
  { intros u Hu (c & s & Hin & Hc). apply (Hdis u Hu). exists c, s. split; [|done].
    apply elem_of_app. by right. }
  assert (Hok2 : runs_ok a l2).
  { destruct l2 as [|[c s] r]; [done|]. destruct (runs_ok_app _ _ _ _ _ Hok) as (_ & _ & ? & ? & ?).
    simpl in Hab. done. }
  destruct l1 as [|[c s] l0 _] using rev_ind.
  - destruct (mfree_insert [] l2 size a b x tl) as (y & tl' & E & Hz' & _); try done; [by left|].
    eexists. split; [exact E|]. exists y, tl'. done.
  - rewrite map_app, length_app, Nat.add_1_r in *. cbn [map] in *.
    destruct (Hskip c s) as [Hs0 Hcs]; [apply elem_of_app; right; left|].
    assert (Hl0 : forall d t, (d, t) ∈ l0 -> d <= a /\ d + t <> a).
    { intros d t Hin. destruct (Hskip d t) as [Ht Hdt]; [apply elem_of_app; by left|].
      rewrite <- app_assoc in Hok. cbn [app] in Hok.
      destruct (runs_ok_app _ _ _ _ _ Hok) as (K & _). specialize (K _ _ Hin). lia. }
    rewrite <- (app_assoc l0), put_back_skip by exact Hl0. cbn [app].
    rewrite <- (app_assoc (map mkrun l0)) in *. cbn [app] in *.
    destruct (Z.eq_dec (c + s) a) as [Hadj|Hadj].
    + destruct (mfree_join (map mkrun l0) c s l2 size a b (x :: tl)) as (tl' & E & Hz' & _); try done; try lia.
      * by rewrite Hadj.
      * rewrite <- app_assoc in Hok. cbn [app] in Hok.
        destruct (runs_ok_app _ _ _ _ _ Hok) as (_ & K & _). lia.
      * by rewrite length_map.
      * eexists. split; [exact E|]. exists b, tl'.
        by rewrite map_app, <- app_assoc.
    + destruct (mfree_insert (map mkrun l0 ++ [mkrun (c, s)]) l2 size a b x tl)
        as (y & tl' & E & Hz' & _); try done; rewrite ?length_app, ?length_map, ?Nat.add_1_r, <- ?app_assoc; try done.
      * right. eauto.
      * rewrite <- app_assoc in E. cbn [app] in E. eexists. split; [exact E|].
        exists y, tl'. cbn [put_back].
        rewrite (proj2 (Z.leb_le c a)), (proj2 (Z.eqb_neq (c + s) a)) by lia.
        by rewrite map_app, <- !app_assoc.
Qed.

(** ** Theorems *)

(** C28. [malloc] is first fit on a well-formed map.  It returns 0 and
    leaves the map alone exactly when no run is large enough.  Otherwise the
    map's runs are some too small for the request, the first that is not, of
    [s] units from [a], and others: it returns [a], the front of that run,
    and of the run the units behind the [size] taken stay, or nothing at
    all, the later entries closed up, when it is used up; the runs before
    and behind it are as they were, and exactly the units taken are no
    longer free. *)
Theorem malloc_correct (m : list mapent) (l : list run) (size : Z) :
  wf_map m l -> 0 < size ->
  (malloc size m = Ret 0 m /\ forall a s, (a, s) ∈ l -> s < size) \/
  (exists pre a s post m',
     l = pre ++ (a, s) :: post /\ (forall b t, (b, t) ∈ pre -> t < size) /\ size <= s /\
     malloc size m = Ret a m' /\
     wf_map m' (left_of size pre a s post) /\ 0 < a /\ length m' = length m /\
     (forall u, free_unit l u <-> a <= u < a + size \/ free_unit (left_of size pre a s post) u) /\
     (forall u, a <= u < a + size -> ~ free_unit (left_of size pre a s post) u)).
Proof.
  intros Hwf Hs. pose proof (malloc_refines m l size Hwf Hs) as H.
  destruct (take_fit size l) as [[a l']|] eqn:E.
  - right. destruct H as (m' & H1 & H2 & H3). destruct Hwf as [_ Hok].
    destruct (take_fit_ok 0 size l a l' Hok Hs E) as (K1 & K2 & K3 & K4 & K5).
    destruct (take_fit_split size l a l' E) as (pre & s & post & -> & Hpre & Hsz & ->).
    exists pre, a, s, post, m'. done.
  - left. split; [done|]. by apply take_fit_none.
Qed.

(** C29. [mfree] of space that is not free, in a map with a slot to spare,
    makes exactly that space free and restores the well-formedness of the
    map: sorted, disjoint and with neighbouring runs combined. *)
Theorem mfree_correct (m : list mapent) (l : list run) (size a : Z) :
  wf_map m l -> (S (length l) < length m)%nat ->
  0 < size -> 0 < a -> a + size <= LIMIT ->
  (forall u, a <= u < a + size -> ~ free_unit l u) ->
  exists m' l', mfree_map size a m = Ret tt m' /\ wf_map m' l' /\
    (forall u, free_unit l' u <-> a <= u < a + size \/ free_unit l u).
Proof.
  intros Hwf Hlen Hs Ha Hlim Hdis.
  destruct (mfree_refines m l size a Hwf Hlen Hs Ha Hlim Hdis) as (m' & E & H).
  destruct Hwf as [_ Hok].
  destruct (put_back_ok 0 size a l Hok Hs Ha Hlim Hdis) as [H1 H2].
  exists m', (put_back size a l). done.
Qed.

(** Giving back what [malloc] handed out restores the map's runs. *)
Theorem malloc_mfree_roundtrip (m : list mapent) (l : list run) (size : Z) :
  wf_map m l -> (S (S (length l)) < length m)%nat -> 0 < size ->
  match malloc size m with
  | Ret a m' => a = 0 \/ exists m'', mfree_map size a m' = Ret tt m'' /\ wf_map m'' l
  | _ => False
  end.
Proof.
  intros Hwf Hlen Hs. pose proof (malloc_refines m l size Hwf Hs) as H.
  destruct (take_fit size l) as [[a l']|] eqn:E; [|rewrite H; by left].
  destruct H as (m' & -> & H2 & H3). right. destruct Hwf as [_ Hok].
  destruct (take_fit_ok 0 size l a l' Hok Hs E) as (K1 & K2 & K3 & K4 & K5).
  assert (Hl : (length l' <= length l)%nat).
  { clear - E. revert a l' E; induction l as [|[b s] r IH]; simpl; intros a l' E; [done|].
    destruct (size <=? s).
    - injection E as _ <-. destruct (s - size =? 0); simpl; lia.
    - destruct (take_fit size r) as [[x r']|]; [|done]. injection E as _ <-.
      specialize (IH _ _ eq_refl). simpl. lia. }
  destruct (mfree_refines m' l' size a) as (m'' & E' & H''); try done; [lia|].
  exists m''. split; [done|].
  destruct (put_back_ok 0 size a l' K1 Hs K2 K3 K5) as [P1 P2].
  split; [|done].
  rewrite (runs_canonical 0 l (put_back size a l')); try done.
  intros u. rewrite K4, P2. done.
Qed.

(** A map of [n] entries with the given runs and zeros after them. *)
Definition fresh_map (n : nat) (l : list run) : list mapent :=
  map mkrun l ++ replicate (n - length l) (mkent 0 0).

(** [mfree] does not check for the end of the map: when a map of CMAPSIZ
    entries is full, a further run overwrites the terminator, and the next
    search that fails leaves the array. *)
Theorem mfree_full_map :
  let l := map (fun k : nat => (Z.of_nat (2 * k) + 1, 1)) (seq 0 49) in
  wf_map (fresh_map CMAPSIZ l) l /\
  exists m', mfree_map 1 200 (fresh_map CMAPSIZ l) = Ret tt m' /\ malloc 2 m' = Fault.
Proof.
  cbv zeta. split.
  - split.
    + exists 0, []. split; [vm_compute; done|constructor].
    + vm_compute. repeat split; congruence.
  - eexists. split; [vm_compute; reflexivity|]. vm_compute. done.
Qed.

Definition swap0 : list mapent := fresh_map SMAPSIZ [(1, 100); (200, 50)].

Lemma swap0_wf : wf_map swap0 [(1, 100); (200, 50)].
Proof.
  split.
  - exists 0, (replicate 47 (mkent 0 0)). split; [done|]. repeat constructor.
  - vm_compute. repeat split; congruence.
Qed.

Lemma malloc_correct_witness :
  (malloc 30 swap0 = Ret 0 swap0 /\ forall a s, (a, s) ∈ [(1, 100); (200, 50)] -> s < 30) \/
  (exists pre a s post m',
     [(1, 100); (200, 50)] = pre ++ (a, s) :: post /\
     (forall b t, (b, t) ∈ pre -> t < 30) /\ 30 <= s /\
     malloc 30 swap0 = Ret a m' /\
     wf_map m' (left_of 30 pre a s post) /\ 0 < a /\ length m' = length swap0 /\
     (forall u, free_unit [(1, 100); (200, 50)] u <->
        a <= u < a + 30 \/ free_unit (left_of 30 pre a s post) u) /\
     (forall u, a <= u < a + 30 -> ~ free_unit (left_of 30 pre a s post) u)).
Proof. apply (malloc_correct swap0 [(1, 100); (200, 50)] 30 swap0_wf). lia. Defined.

Lemma mfree_correct_witness :
  exists m' l', mfree_map 99 101 swap0 = Ret tt m' /\ wf_map m' l' /\
    (forall u, free_unit l' u <-> 101 <= u < 101 + 99 \/ free_unit [(1, 100); (200, 50)] u).
Proof.
  apply (mfree_correct swap0 [(1, 100); (200, 50)] 99 101 swap0_wf);
    [vm_compute; lia|lia|lia|unfold LIMIT; lia|].
  intros u Hu. rewrite !free_unit_cons. intros [?|[?|?%free_unit_nil]]; [lia|lia|done].
Defined.

Lemma malloc_mfree_roundtrip_witness :
  match malloc 100 swap0 with
  | Ret a m' => a = 0 \/ exists m'', mfree_map 100 a m' = Ret tt m'' /\ wf_map m'' [(1, 100); (200, 50)]
  | _ => False
  end.
Proof. apply (malloc_mfree_roundtrip swap0 _ 100 swap0_wf); [vm_compute; lia|lia]. Defined.

Example malloc_example :
  malloc 100 swap0 = Ret 1 (fresh_map 49 [(200, 50)] ++ [mkent 0 0]).
Proof. reflexivity. Qed.
