(* ===== verification/Clist.v ===== *)
(** * Clist: the character queues of [sys/prim.c]

    A [struct clist] heads a chain of 32-byte, 32-byte-aligned [struct
    cblock]s: a 4-byte link, then CBSIZE = 28 characters.  The routines find
    the block of a character by masking its address, so addresses are
    numbers here and memory is two maps: the links by block address and the
    characters by address.  The queue [p] a routine works on is part of the
    state, next to the free list and the processor level [pl] that [spl6] and
    [splx] change. *)

From S2P Require Import Prelude.

Definition CBSIZE : Z := 28.
Definition CROUND : Z := 31.       (* 037: sizeof(int * ) + CBSIZE - 1 *)
Definition NCLIST : Z := 100.
Definition CBLOCK : Z := 32.       (* sizeof(struct cblock) *)
Definition INFO : Z := 4.          (* offset of c_info *)

Record clist := mkclist { c_cc : Z; c_cf : Z; c_cl : Z }.
#[export] Instance eta_clist : Eta clist :=
  fun r => mkclist (c_cc r) (c_cf r) (c_cl r).

Record cstate := mkcstate {
  c_next : gmap Z Z;       (* bp->c_next, by the address bp *)
  c_mem : gmap Z Z;        (* the characters, by address *)
  cfreelist : Z;           (* 0 is NULL *)
  cbad : Z;
  pl : Z;                  (* processor level *)
  q : clist                (* the queue at hand: *p *)
}.
#[export] Instance eta_cstate : Eta cstate :=
  fun r => mkcstate (c_next r) (c_mem r) (cfreelist r) (cbad r) (pl r) (q r).

Abbreviation CM := (M cstate).

Definition spl6 : CM Z :=
  s <- gets pl ;; modify (fun c => c <| pl := 6 |>) ;;; ret s.
Definition splx (s : Z) : CM unit := modify (fun c => c <| pl := s |>).

Definition cc : CM Z := gets (fun c => c_cc (q c)).
Definition cf : CM Z := gets (fun c => c_cf (q c)).
Definition cl : CM Z := gets (fun c => c_cl (q c)).
Definition set_cc (v : Z) : CM unit := modify (fun c => c <| q ::= fun p => p <| c_cc := v |> |>).
Definition set_cf (v : Z) : CM unit := modify (fun c => c <| q ::= fun p => p <| c_cf := v |> |>).
Definition set_cl (v : Z) : CM unit := modify (fun c => c <| q ::= fun p => p <| c_cl := v |> |>).
Definition next (bp : Z) : CM Z := c <- get ;; the (c_next c !! bp).
Definition set_next (bp v : Z) : CM unit :=
  next bp ;;; modify (fun c => c <| c_next ::= <[bp := v]> |>).
Definition getchr (a : Z) : CM Z := c <- get ;; the (c_mem c !! a).
Definition setchr (a v : Z) : CM unit :=
  getchr a ;;; modify (fun c => c <| c_mem ::= <[a := s8 v]> |>).

(** [(struct cblock * )((int)bp & ~CROUND)] *)
Definition cround (a : Z) : Z := clr a CROUND.

(** [bp->c_next = cfreelist; cfreelist = bp;] *)
Definition cfree_put (bp : Z) : CM unit :=
  f <- gets cfreelist ;; set_next bp f ;;; modify (fun c => c <| cfreelist := bp |>).

(** The statements [getc] and the loop of [q_to_b] share after the character
    at [f] has been read and [c_cf] advanced past it: count it out and free
    its block if it was the last of the queue or of the block.  The result
    tells whether the queue is now empty. *)
Definition drop_front (f : Z) : CM bool :=
  n <- cc ;; set_cc (n - 1) ;;;
  if n - 1 <=? 0 then
    let bp := cround (f + 1 - 1) in
    set_cf 0 ;;; set_cl 0 ;;; cfree_put bp ;;; ret true
  else if negb (f + 1 &? CROUND) then
    let bp := f + 1 - CBLOCK in
    nx <- next bp ;; set_cf (nx + INFO) ;;; cfree_put bp ;;; ret false
  else ret false.

(** [getc(p)] *)
Definition getc : CM Z :=
  s <- spl6 ;;
  n <- cc ;;
  c <- (if n <=? 0 then
          set_cc 0 ;;; set_cf 0 ;;; set_cl 0 ;;; ret (-1)
        else
          f <- cf ;; ch <- getchr f ;; set_cf (f + 1) ;;;
          drop_front f ;;; ret (Z.land ch 255)) ;;
  splx s ;;; ret c.

(** [q_to_b(q, cp, cc)]: the characters stored at [cp], whose number is what
    the routine returns. The empty queue's [return(0)] comes before the
    [splx]. *)
Definition q_to_b (cnt : Z) : CM (list Z) :=
  if cnt <=? 0 then ret [] else
  s <- spl6 ;;
  n <- cc ;;
  if n <=? 0 then set_cc 0 ;;; set_cf 0 ;;; set_cl 0 ;;; ret []
  else
    out <- loop (S (Z.to_nat cnt)) (fun x : Z * list Z =>
      let '(k, acc) := x in              (* k is cc after cc++ *)
      let k := k - 1 in
      if k =? 0 then ret (inr acc) else
      f <- cf ;; ch <- getchr f ;; set_cf (f + 1) ;;;
      empty <- drop_front f ;;
      ret (if empty then inr (acc ++ [ch]) else inl (k, acc ++ [ch]))) (cnt + 1, []) ;;
    splx s ;;; ret out.

(** The scan of [ndqb]: the address of the first character of [p..end) that
    has a bit of [flag], if any. *)
Definition ndqb_scan (p n flag : Z) : CM (option Z) :=
  for_find (map (fun i : nat => p + Z.of_nat i) (seq 0 (Z.to_nat n))) (fun a =>
    ch <- getchr a ;; ret (if ch &? flag then Some a else None)).

(** [ndqb(q, flag)] *)
Definition ndqb (flag : Z) : CM Z :=
  s <- spl6 ;;
  n <- cc ;;
  r <- (if n <=? 0 then ret (- n)
        else
          f <- cf ;;
          let k := clr (f + CBSIZE) CROUND - f in
          let k := if n <? k then n else k in
          if tst flag then
            r <- ndqb_scan f k flag ;;
            ret (match r with Some a => a - f | None => k end)
          else ret k) ;;
  splx s ;;; ret r.

(** [ndflush(q, cc)] *)
Definition ndflush (k : Z) : CM unit :=
  s <- spl6 ;;
  n <- cc ;; f <- cf ;;
  (if n <? 0 then
     if tst f then set_cc (n + k) ;;; set_cf (f + k) else set_cc 0
   else if n =? 0 then ret tt
   else if (CBSIZE <? k) || (k <=? 0) then modify (fun c => c <| cbad ::= Z.add 1 |>)
   else
     set_cc (n - k) ;;; set_cf (f + k) ;;;
     if negb (f + k &? CROUND) then
       let bp := f + k - CBLOCK in
       nx <- next bp ;;
       (if tst nx then set_cf (nx + INFO) else set_cf 0 ;;; set_cl 0) ;;;
       cfree_put bp
     else if n - k =? 0 then
       let bp := cround (f + k) in
       set_cf bp ;;; cfree_put bp ;;; set_cf 0 ;;; set_cl 0
     else ret tt) ;;;
  splx s.

(** The block statements [putc] and [b_to_q] share. [first_block]: take the
    first block of an empty queue; [next_block]: chain a new block after the
    one [cp] has just left. [None] is a free list that is empty. *)
Definition first_block : CM (option Z) :=
  bp <- gets cfreelist ;;
  if negb (tst bp) then ret None
  else
    nx <- next bp ;; modify (fun c => c <| cfreelist := nx |>) ;;;
    set_next bp 0 ;;; set_cf (bp + INFO) ;;; ret (Some (bp + INFO)).
Definition next_block (cp : Z) : CM (option Z) :=
  let bp := cp - CBLOCK in
  f <- gets cfreelist ;; set_next bp f ;;;
  if negb (tst f) then ret None
  else
    nx <- next f ;; modify (fun c => c <| cfreelist := nx |>) ;;;
    set_next f 0 ;;; ret (Some (f + INFO)).

(** [putc(c, p)] *)
Definition putc (c : Z) : CM Z :=
  s <- spl6 ;;
  cp <- cl ;; n <- cc ;;
  r <- (if negb (tst cp) || (n <? 0) then first_block
        else if negb (cp &? CROUND) then next_block cp
        else ret (Some cp)) ;;
  match r with
  | None => splx s ;;; ret (-1)
  | Some cp =>
      setchr cp c ;;; n <- cc ;; set_cc (n + 1) ;;; set_cl (cp + 1) ;;; splx s ;;; ret 0
  end.

(** The loop of [b_to_q], from [while (cc)] to the label [out]. *)
Definition b_to_q_loop (cq : Z) (buf : list Z) : CM (Z * list Z) :=
  loop (S (length buf)) (fun x : Z * list Z =>
    let '(cq, rest) := x in
    match rest with
    | [] => ret (inr (cq, rest))
    | ch :: rest' =>
        o <- (if negb (cq &? CROUND) then next_block cq else ret (Some cq)) ;;
        match o with
        | None => ret (inr (cq, rest))
        | Some cq => setchr cq ch ;;; ret (inl (cq + 1, rest'))
        end
    end) (cq, buf).

(** [b_to_q(cp, cc, q)]: [buf] is the [cc] characters at [cp]; the number not
    transferred is returned. *)
Definition b_to_q (buf : list Z) : CM Z :=
  let acc := Z.of_nat (length buf) in
  if acc <=? 0 then ret 0 else
  s <- spl6 ;;
  cq <- cl ;; n <- cc ;;
  o <- (if negb (tst cq) || (n <? 0) then first_block else ret (Some cq)) ;;
  r <- (match o with
        | None => ret (cq, buf)
        | Some cq => b_to_q_loop cq buf
        end) ;;
  let '(cq, rest) := r in
  let left := Z.of_nat (length rest) in
  set_cl cq ;;; n <- cc ;; set_cc (n + (acc - left)) ;;; splx s ;;; ret left.

(** The free-list part of [cinit]: [base] is the address of [cfree]. *)
Definition cinit_free (base : Z) : CM unit :=
  let ccp := cround (base + CROUND) in
  loop (S (Z.to_nat NCLIST)) (fun cp =>
    if cp <=? base + (NCLIST - 1) * CBLOCK then
      f <- gets cfreelist ;; set_next cp f ;;;
      modify (fun c => c <| cfreelist := cp |>) ;;;
      ret (inl (cp + CBLOCK))
    else ret (inr tt)) ccp.

(** [getw(p)] and [putw(c, p)] *)
Definition getw : CM Z :=
  n <- cc ;;
  if n <=? 1 then ret (-1)
  else s <- getc ;; t <- getc ;; ret (Z.lor s (Z.shiftl t 8)).

Definition putw (c : Z) : CM Z :=
  s <- spl6 ;;
  f <- gets cfreelist ;;
  if f =? 0 then splx s ;;; ret (-1)
  else putc c ;;; putc (Z.shiftr c 8) ;;; splx s ;;; ret 0.

(** ** Chains of blocks and the queue they hold *)

Lemma tst_round x : (x &? CROUND) = negb (x mod 32 =? 0).
Proof. unfold tst, CROUND. change 31 with (Z.ones 5). by rewrite land_ones_mod. Qed.

Lemma cround_eq x : cround x = x - x mod 32.
Proof. unfold cround, CROUND. change 31 with (Z.ones 5). by rewrite clr_ones. Qed.

(** A block: aligned, not NULL, its characters in memory. *)
Definition block (mem : gmap Z Z) (b : Z) : Prop :=
  0 < b /\ b mod 32 = 0 /\ forall i, 4 <= i < 32 -> is_Some (mem !! (b + i)).

(** The list [bs] is chained from [hd] to NULL. *)
Fixpoint chain (nx : gmap Z Z) (hd : Z) (bs : list Z) : Prop :=
  match bs with
  | [] => hd = 0
  | b :: r => hd = b /\ exists n, nx !! b = Some n /\ chain nx n r
  end.

Definition chars (mem : gmap Z Z) (f : Z) (w : list Z) : Prop :=
  forall i c, w !! i = Some c -> mem !! (f + Z.of_nat i) = Some c.

(** The blocks [bs] hold the characters [w], the first at [f], the last just
    below [l]. *)
Fixpoint qdata (nx mem : gmap Z Z) (f : Z) (bs : list Z) (l : Z) (w : list Z) : Prop :=
  match bs with
  | [] => False
  | b :: r =>
      match r with
      | [] => nx !! b = Some 0 /\ b + 4 <= f < l /\ l <= b + 32 /\
              chars mem f w /\ Z.of_nat (length w) = l - f
      | b' :: _ => nx !! b = Some b' /\ b + 4 <= f < b + 32 /\
              exists w1 w2, w = w1 ++ w2 /\ chars mem f w1 /\
                Z.of_nat (length w1) = b + 32 - f /\ qdata nx mem (b' + 4) r l w2
      end
  end.

(** The queue at hand holds [w] in the blocks [bs]; [fl] is the free list. *)
Record qinv (s : cstate) (bs fl w : list Z) : Prop := {
  qi_nodup : NoDup (bs ++ fl);
  qi_block : Forall (block (c_mem s)) (bs ++ fl);
  qi_free : chain (c_next s) (cfreelist s) fl;
  qi_count : c_cc (q s) = Z.of_nat (length w);
  qi_data : match w with
            | [] => bs = [] /\ c_cf (q s) = 0 /\ c_cl (q s) = 0
            | _ => qdata (c_next s) (c_mem s) (c_cf (q s)) bs (c_cl (q s)) w
            end
}.

(** Blocks outside [B] — those of the other queues — are left alone. *)
Definition same_off (B : list Z) (s s' : cstate) : Prop :=
  forall b, b mod 32 = 0 -> b ∉ B ->
    c_next s' !! b = c_next s !! b /\
    forall i, 4 <= i < 32 -> c_mem s' !! (b + i) = c_mem s !! (b + i).

Lemma chars_tail mem f c w : chars mem f (c :: w) -> mem !! f = Some c /\ chars mem (f + 1) w.
Proof.
  intros H. split.
  - specialize (H 0%nat c eq_refl). by rewrite Z.add_0_r in H.
  - intros i d Hi. specialize (H (S i) d Hi). by replace (f + 1 + Z.of_nat i) with (f + Z.of_nat (S i)) by lia.
Qed.

Lemma chars_snoc mem f w c :
  chars mem f w -> chars (<[f + Z.of_nat (length w) := c]> mem) f (w ++ [c]).
Proof.
  intros H i d Hi. destruct (Nat.lt_trichotomy i (length w)) as [?|[->|?]].
  - rewrite lookup_app_l in Hi by done. rewrite lookup_insert_ne by lia. by apply H.
  - rewrite list_lookup_middle in Hi by done. injection Hi as ->. apply lookup_insert_eq.
  - rewrite lookup_ge_None_2 in Hi; [done|]. rewrite length_app. simpl. lia.
Qed.

Lemma chars_ext mem mem' f w :
  chars mem f w ->
  (forall a, f <= a < f + Z.of_nat (length w) -> mem' !! a = mem !! a) -> chars mem' f w.
Proof.
  intros H E i c Hi. rewrite E; [by apply H|]. pose proof (lookup_lt_Some _ _ _ Hi). lia.
Qed.

Lemma chain_ext nx nx' hd bs :
  chain nx hd bs -> (forall b, b ∈ bs -> nx' !! b = nx !! b) -> chain nx' hd bs.
Proof.
  revert hd; induction bs as [|b r IH]; intros hd H E; [done|].
  destruct H as (-> & n & Hn & Hr). split; [done|]. exists n. split.
  - rewrite E; [done|left].
  - apply IH; [done|]. intros b' Hb'. apply E. by right.
Qed.

Lemma qdata_cons nx mem f b b' r l w :
  qdata nx mem f (b :: b' :: r) l w <->
  nx !! b = Some b' /\ b + 4 <= f < b + 32 /\
  exists w1 w2, w = w1 ++ w2 /\ chars mem f w1 /\
    Z.of_nat (length w1) = b + 32 - f /\ qdata nx mem (b' + 4) (b' :: r) l w2.
Proof. done. Qed.

Lemma qdata_one nx mem f b l w :
  qdata nx mem f [b] l w <->
  nx !! b = Some 0 /\ b + 4 <= f < l /\ l <= b + 32 /\
  chars mem f w /\ Z.of_nat (length w) = l - f.
Proof. done. Qed.

Lemma qdata_ext nx mem nx' mem' f bs l w :
  qdata nx mem f bs l w ->
  (forall b, b ∈ bs -> nx' !! b = nx !! b) ->
  (forall b i, b ∈ bs -> 4 <= i < 32 -> mem' !! (b + i) = mem !! (b + i)) ->
  qdata nx' mem' f bs l w.
Proof.
  revert f w; induction bs as [|b [|b' r] IH]; intros f w H En Em; [done|..].
  - rewrite qdata_one in *. destruct H as (H1 & H2 & H3 & H4 & H5).
    repeat split; try done; try lia.
    + rewrite En; [done|left].
    + eapply chars_ext; [done|]. intros a Ha.
      replace a with (b + (a - b)) by lia. apply Em; [left|lia].
  - rewrite qdata_cons in *. destruct H as (H1 & H2 & w1 & w2 & -> & H3 & H4 & H5).
    split; [rewrite En; [done|left]|]. split; [done|]. exists w1, w2. repeat split; try done.
    + eapply chars_ext; [done|]. intros a Ha.
      replace a with (b + (a - b)) by lia. apply Em; [left|lia].
    + apply IH; [done|..]; intros; [apply En|apply Em]; try done; by right.
Qed.

Lemma qdata_nonempty nx mem f bs l w : qdata nx mem f bs l w -> w <> [].
Proof.
  destruct bs as [|b [|b' r]]; [done|..].
  - rewrite qdata_one. intros (? & ? & ? & ? & ?) ->. simpl in *. lia.
  - rewrite qdata_cons. intros (_ & ? & w1 & w2 & -> & _ & ? & _) [-> _]%app_eq_nil.
    simpl in *. lia.
Qed.

(** The last block, and the position after the last character in it. *)
Lemma qdata_last nx mem f bs l w : qdata nx mem f bs l w ->
  exists bs0 bn, bs = bs0 ++ [bn] /\ bn + 4 < l <= bn + 32 /\ nx !! bn = Some 0.
Proof.
  revert f w; induction bs as [|b [|b' r] IH]; intros f w H; [done|..].
  - rewrite qdata_one in H. exists [], b. destruct H as (? & ? & ? & _). repeat split; try done; lia.
  - rewrite qdata_cons in H. destruct H as (_ & _ & w1 & w2 & _ & _ & _ & H).
    destruct (IH _ _ H) as (bs0 & bn & E & ? & ?). exists (b :: bs0), bn. by rewrite E.
Qed.

(** ** Taking characters from the front *)

Lemma same_off_refl B s : same_off B s s.
Proof. intros b _ _. done. Qed.

Lemma same_off_trans B B' s1 s2 s3 :
  (forall b, b ∈ B' <-> b ∈ B) -> same_off B s1 s2 -> same_off B' s2 s3 -> same_off B s1 s3.
Proof.
  intros HB H1 H2 b Hb Hin. destruct (H1 b Hb Hin) as [N1 M1].
  destruct (H2 b Hb) as [N2 M2]; [by rewrite HB|].
  split; [by rewrite N2|]. intros i Hi. by rewrite M2, M1.
Qed.

(** An operation on one queue leaves another, whose blocks are its own. *)
Lemma qinv_other s s' p bs fl bs' fl' w w' b2 w2 :
  qinv s bs fl w -> qinv s' bs' fl' w' -> bs' ++ fl' ≡ₚ bs ++ fl -> same_off (bs ++ fl) s s' ->
  qinv (s <| q := p |>) b2 fl w2 -> (forall b, b ∈ b2 -> b ∉ bs) ->
  qinv (s' <| q := p |>) b2 fl' w2 /\ (forall b, b ∈ b2 -> b ∉ bs').
Proof.
  intros _ H' Hp Hoff [Hnd Hbl _ Hcc Hd] Hdis. cbn in *.
  assert (Hout : forall b, b ∈ b2 -> b ∉ bs ++ fl).
  { intros b Hb [?|?]%elem_of_app; [by apply (Hdis b)|]. apply NoDup_app in Hnd as (_ & Hn & _).
    by apply (Hn b). }
  assert (Hout' : forall b, b ∈ b2 -> b ∉ bs' ++ fl') by (intros b Hb; rewrite Hp; by apply Hout).
  apply Forall_app in Hbl as [Hb2 _].
  assert (Hsame : forall b, b ∈ b2 -> c_next s' !! b = c_next s !! b /\
    forall i, 4 <= i < 32 -> c_mem s' !! (b + i) = c_mem s !! (b + i)).
  { intros b Hb. apply Hoff; [|by apply Hout].
    rewrite Forall_forall in Hb2. by destruct (Hb2 b Hb) as (_ & ? & _). }
  split; [|intros b Hb ?; apply (Hout' b Hb), elem_of_app; by left].
  destruct H' as [Hnd' Hbl' Hch' _ _]. apply Forall_app in Hbl' as [_ Hfl'].
  apply NoDup_app in Hnd as (Hn2 & _ & _). apply NoDup_app in Hnd' as (_ & _ & Hnf').
  constructor; cbn.
  - apply NoDup_app. split; [done|]. split; [|done].
    intros b Hb ?. apply (Hout' b Hb), elem_of_app. by right.
  - apply Forall_app. split; [|done]. rewrite Forall_forall in Hb2 |- *. intros b Hb.
    destruct (Hb2 b Hb) as (? & ? & Hm). split; [done|]. split; [done|]. intros i Hi.
    rewrite (proj2 (Hsame b Hb) i Hi). by apply Hm.
  - done.
  - done.
  - destruct w2; [done|]. eapply qdata_ext; [exact Hd| |].
    + intros b Hb. by apply Hsame.
    + intros b i Hb. by apply Hsame.
Qed.

(** The state after the block [b] has been put on the free list and the queue
    head set to [p]. *)
Definition freed (b : Z) (p : clist) (s : cstate) : cstate :=
  s <| c_next ::= <[b := cfreelist s]> |> <| cfreelist := b |> <| q := p |>.

Lemma qinv_freed s b bs fl w p :
  NoDup (b :: bs ++ fl) -> Forall (block (c_mem s)) (b :: bs ++ fl) ->
  chain (c_next s) (cfreelist s) fl -> c_cc p = Z.of_nat (length w) ->
  match w with
  | [] => bs = [] /\ c_cf p = 0 /\ c_cl p = 0
  | _ => qdata (c_next s) (c_mem s) (c_cf p) bs (c_cl p) w
  end ->
  qinv (freed b p s) bs (b :: fl) w.
Proof.
  intros Hnd Hbl Hfree Hcc Hdata.
  apply NoDup_cons in Hnd as [Hb Hnd]. inversion_clear Hbl as [|? ? Hbb Hbl'].
  assert (bs ++ b :: fl ≡ₚ b :: bs ++ fl) as Hp by (symmetry; apply Permutation_middle).
  assert (Hne : forall c, c ∈ bs ++ fl -> b <> c) by (intros c Hc ->; done).
  constructor; cbn.
  - rewrite Hp. by constructor.
  - rewrite Hp. by constructor.
  - split; [done|]. exists (cfreelist s). split; [apply lookup_insert_eq|].
    eapply chain_ext; [done|]. intros c Hc. apply lookup_insert_ne, Hne, elem_of_app. by right.
  - done.
  - destruct w; [done|]. eapply qdata_ext; [done| |done].
    intros c Hc. apply lookup_insert_ne, Hne, elem_of_app. by left.
Qed.

Lemma same_off_freed b p s B : b ∈ B -> same_off B s (freed b p s).
Proof.
  intros Hb c _ Hc. cbn. split; [|done]. apply lookup_insert_ne. by intros ->.
Qed.

Lemma cround_block b i : b mod 32 = 0 -> 0 <= i < 32 -> cround (b + i) = b.
Proof.
  intros Hb Hi. rewrite cround_eq, Z.add_mod, Hb, Z.add_0_l, Z.mod_mod by lia.
  rewrite Z.mod_small; lia.
Qed.

Lemma round_block b i : b mod 32 = 0 -> 0 <= i <= 32 -> (b + i &? CROUND) = negb ((i =? 0) || (i =? 32)).
Proof.
  intros Hb Hi. rewrite tst_round. f_equal.
  rewrite Z.add_mod, Hb, Z.add_0_l, Z.mod_mod by lia.
  destruct (Z.eqb_spec i 32) as [->|]; [done|]. rewrite Z.mod_small by lia.
  by rewrite orb_false_r.
Qed.

Lemma next_ok b n s : c_next s !! b = Some n -> next b s = Ret n s.
Proof. intros H. unfold next, bind, get, the. by rewrite H. Qed.

Lemma getchr_ok a c s : c_mem s !! a = Some c -> getchr a s = Ret c s.
Proof. intros H. unfold getchr, bind, get, the. by rewrite H. Qed.

(** One character is taken off a non-empty queue. *)
Lemma drop_front_ok s bs fl c w :
  qinv s bs fl (c :: w) ->
  let f := c_cf (q s) in
  c_mem s !! f = Some c /\
  exists s' bs' fl',
    drop_front f (s <| q ::= fun p => p <| c_cf := f + 1 |> |>)
      = Ret (bool_decide (w = [])) s' /\
    qinv s' bs' fl' w /\ bs' ++ fl' ≡ₚ bs ++ fl /\ pl s' = pl s /\
    same_off (bs ++ fl) s s'.
Proof.
  intros [Hnd Hbl Hfree Hcc Hdata]. cbv zeta.
  destruct s as [nx mem fr bad p [n f l]]. cbn in *. subst n.
  replace (Z.of_nat (S (length w))) with (Z.of_nat (length w) + 1) in * by lia.
  destruct bs as [|b [|b' r]]; [done|..].
  - rewrite qdata_one in Hdata. destruct Hdata as (Hn & Hf & Hl & Hch & Hlen).
    cbn [length] in Hlen.
    apply chars_tail in Hch as [Hc Hch]. split; [done|].
    pose proof (proj1 (Forall_cons _ _ _) Hbl) as [(Hb0 & Hb1 & Hb2) _].
    unfold drop_front, cc, set_cc, gets, modify, bind. cbn.
    replace (Z.of_nat (length w) + 1 - 1) with (Z.of_nat (length w)) by lia.
    destruct w as [|c' w].
    + rewrite (bool_decide_eq_true_2 _ eq_refl), (proj2 (Z.leb_le _ 0)) by (simpl; lia).
      replace (f + 1 - 1) with (b + (f - b)) by lia. rewrite cround_block by (done || lia).
      unfold set_cf, set_cl, cfree_put, set_next, modify, gets, bind. cbn -[next].
      rewrite (next_ok b 0) by done. cbn.
      exists (freed b (mkclist 0 0 0) (mkcstate nx mem fr bad p (mkclist (Z.of_nat 0 + 1) f l))), [], (b :: fl).
      split; [done|]. split; [by apply qinv_freed|]. split; [done|]. split; [done|].
      apply same_off_freed. left.
    + rewrite bool_decide_eq_false_2 by done.
      replace (f + 1) with (b + (f + 1 - b)) by lia.
      rewrite (proj2 (Z.leb_gt _ 0)) by (cbn [length]; lia).
      rewrite round_block, (proj2 (Z.eqb_neq (f + 1 - b) 0)), (proj2 (Z.eqb_neq (f + 1 - b) 32))
        by (done || (cbn [length] in *; lia)).
      cbn. replace (b + (f + 1 - b)) with (f + 1) by lia.
      eexists _, [b], fl. split; [done|]. split; [|done].
      constructor; cbn; try done. repeat split; try done; cbn [length] in *; lia.
  - rewrite qdata_cons in Hdata. destruct Hdata as (Hn & Hf & w1 & w2 & E & Hch & Hlen & Hd).
    destruct w1 as [|c1 w1]; [simpl in Hlen; lia|]. injection E as <- ->.
    apply chars_tail in Hch as [Hc Hch]. split; [done|].
    pose proof (proj1 (Forall_cons _ _ _) Hbl) as [(Hb0 & Hb1 & Hb2) Hbl'].
    pose proof (qdata_nonempty _ _ _ _ _ _ Hd) as Hne.
    assert (0 < Z.of_nat (length (w1 ++ w2))) as Hpos.
    { rewrite length_app. destruct w2; [done|]. simpl. lia. }
    rewrite bool_decide_eq_false_2 by (intros [_ ?]%app_eq_nil; done).
    unfold drop_front, cc, set_cc, gets, modify, bind. cbn.
    replace (Z.of_nat (length (w1 ++ w2)) + 1 - 1) with (Z.of_nat (length (w1 ++ w2))) by lia.
    rewrite (proj2 (Z.leb_gt _ 0)) by lia.
    replace (f + 1) with (b + (f + 1 - b)) by lia.
    rewrite round_block, (proj2 (Z.eqb_neq (f + 1 - b) 0)) by (done || lia).
    cbn [length] in Hlen.
    destruct (Z.eqb_spec (f + 1 - b) 32) as [E32|E32]; cbn -[next].
    + destruct w1; [|simpl in Hlen; lia]. cbn [app] in *.
      replace (b + (f + 1 - b) - CBLOCK) with b by (unfold CBLOCK; lia).
      unfold set_cf, cfree_put, set_next, next, the, get, modify, gets, bind.
      cbn. rewrite !Hn. cbn. rewrite Hn. cbn.
      exists (freed b (mkclist (Z.of_nat (length w2)) (b' + 4) l)
        (mkcstate nx mem fr bad p (mkclist (Z.of_nat (length w2) + 1) f l))), (b' :: r), (b :: fl).
      split; [done|]. split.
      { apply qinv_freed; try done. destruct w2; done. }
      split; [symmetry; apply (Permutation_middle (b' :: r))|]. split; [done|].
      apply (same_off_freed b (mkclist (Z.of_nat (length w2)) (b' + 4) l)). left.
    + cbn. replace (b + (f + 1 - b)) with (f + 1) by lia.
      eexists _, (b :: b' :: r), fl. split; [done|]. split; [|done].
      constructor; cbn -[qdata]; try done.
      destruct (w1 ++ w2) eqn:Ew; [simpl in Hpos; lia|]. rewrite <- Ew.
      rewrite qdata_cons. repeat split; try lia; [done|].
      exists w1, w2. repeat split; try done. lia.
Qed.

Lemma qinv_pl s bs fl w x : qinv s bs fl w -> qinv (s <| pl := x |>) bs fl w.
Proof. intros [H1 H2 H3 H4 H5]. by constructor. Qed.

Lemma same_off_pl B s s' x y :
  same_off B (s <| pl := x |>) s' -> same_off B s (s' <| pl := y |>).
Proof. intros H b H1 H2. exact (H b H1 H2). Qed.

(** Levels and queue heads do not matter to [same_off]. *)
Lemma same_off_eq B s s' t t' :
  same_off B s s' -> c_next t = c_next s -> c_mem t = c_mem s ->
  c_next t' = c_next s' -> c_mem t' = c_mem s' -> same_off B t t'.
Proof. intros H E1 E2 E3 E4 b Hb Hne. rewrite E1, E2, E3, E4. by apply H. Qed.

Lemma take_front_then {A} (k : bool -> Z -> CM A) s bs fl c w :
  qinv s bs fl (c :: w) ->
  exists s' bs' fl',
    (f <- cf ;; ch <- getchr f ;; set_cf (f + 1) ;;;
     empty <- drop_front f ;; k empty ch) s = k (bool_decide (w = [])) c s' /\
    qinv s' bs' fl' w /\ bs' ++ fl' ≡ₚ bs ++ fl /\ pl s' = pl s /\ same_off (bs ++ fl) s s'.
Proof.
  intros H. destruct (drop_front_ok s bs fl c w H) as (Hc & s' & bs' & fl' & E & R).
  exists s', bs', fl'. split; [|done].
  erewrite bind_ret_eq by reflexivity. cbn beta.
  erewrite bind_ret_eq by (by apply getchr_ok). cbn beta.
  erewrite bind_ret_eq by reflexivity. cbn beta.
  by erewrite bind_ret_eq by exact E.
Qed.

Lemma qinv_empty s bs fl : qinv s bs fl [] ->
  bs = [] /\ q s = mkclist 0 0 0.
Proof.
  intros [_ _ _ H (-> & H1 & H2)]. split; [done|]. destruct (q s). cbn in *. by subst.
Qed.

Lemma getc_ok s bs fl w :
  qinv s bs fl w ->
  exists r s' bs' fl' w', getc s = Ret r s' /\ qinv s' bs' fl' w' /\
    match w with [] => r = -1 /\ w' = [] | c :: t => r = u8 c /\ w' = t end /\
    bs' ++ fl' ≡ₚ bs ++ fl /\ pl s' = pl s /\ same_off (bs ++ fl) s s'.
Proof.
  intros H. unfold getc.
  pose proof (qi_count _ _ _ _ H) as Hcc.
  destruct w as [|c w].
  - destruct (qinv_empty _ _ _ H) as [-> Hq]. exists (-1), s, [], fl, [].
    destruct s as [nx mem fr bad p qq]. cbn in Hq. subst qq. split; [done|]. split; [done|].
    repeat split; try done; by intros.
  - apply (qinv_pl _ _ _ _ 6) in H as H6.
    destruct (take_front_then (fun _ ch => ret (Z.land ch 255)) _ _ _ _ _ H6)
      as (s' & bs' & fl' & E & Hi & Hp & Hpl & Hoff).
    exists (u8 c), (s' <| pl := pl s |>), bs', fl', w. split.
    + erewrite bind_ret_eq by reflexivity. cbn beta.
      erewrite bind_ret_eq by reflexivity. cbn beta.
      cbn [q setf]. rewrite Hcc, (proj2 (Z.leb_gt _ 0)) by (simpl; lia).
      erewrite bind_ret_eq by exact E. cbn beta.
      unfold u8, wrapU. change 255 with (Z.ones 8). by rewrite land_ones_mod.
    + split; [by apply qinv_pl|]. split; [done|]. split; [done|]. split; [done|].
      by apply (same_off_pl _ _ _ 6).
Qed.

(** The loop of [q_to_b] on a queue that is not empty. *)
Lemma q_to_b_loop_ok : forall n k acc s bs fl w, qinv s bs fl w -> w <> [] ->
  (Z.to_nat k <= n)%nat -> 1 <= k ->
  exists s' bs' fl', loop n (fun x : Z * list Z =>
    let '(k, acc) := x in
    let k := k - 1 in
    if k =? 0 then ret (inr acc) else
    f <- cf ;; ch <- getchr f ;; set_cf (f + 1) ;;;
    empty <- drop_front f ;;
    ret (if empty then inr (acc ++ [ch]) else inl (k, acc ++ [ch]))) (k, acc) s
    = Ret (acc ++ take (Z.to_nat (k - 1)) w) s' /\
    qinv s' bs' fl' (drop (Z.to_nat (k - 1)) w) /\ bs' ++ fl' ≡ₚ bs ++ fl /\
    pl s' = pl s /\ same_off (bs ++ fl) s s'.
Proof.
  induction n as [|n IH]; intros k acc s bs fl w H Hne Hn Hk; [lia|].
  cbn [loop]. destruct (Z.eqb_spec (k - 1) 0) as [E|E].
  { rewrite E. exists s, bs, fl. cbn. rewrite app_nil_r, drop_0. do 4 (split; [done|]). done. }
  destruct w as [|c w]; [done|].
  destruct (take_front_then (fun empty ch => ret (if empty then inr (acc ++ [ch]) else inl (k - 1, acc ++ [ch]))) _ _ _ _ _ H)
    as (s1 & bs1 & fl1 & E1 & Hi & Hp & Hpl & Hoff).
  erewrite bind_ret_eq by exact E1. cbn beta iota.
  replace (Z.to_nat (k - 1)) with (S (Z.to_nat (k - 1 - 1))) by lia. cbn [take drop].
  destruct (decide (w = [])) as [->|Hne'].
  - rewrite bool_decide_eq_true_2 by done. exists s1, bs1, fl1.
    rewrite take_nil, drop_nil. done.
  - rewrite bool_decide_eq_false_2 by done.
    destruct (IH (k - 1) (acc ++ [c]) s1 bs1 fl1 w) as (s' & bs' & fl' & E' & Hi' & Hp' & Hpl' & Hoff');
      [done|done|lia|lia|].
    exists s', bs', fl'. split; [etransitivity; [exact E'|by rewrite <- app_assoc]|]. split; [done|].
    split; [by rewrite Hp'|]. split; [congruence|].
    eapply same_off_trans; [|done|done]. intros b. by rewrite Hp.
Qed.

(** [q_to_b] moves the first [cnt] characters of the queue, or all it has,
    into the buffer. It restores the processor level except that on an empty
    queue it returns without its [splx], leaving level 6. *)
Theorem q_to_b_correct (s : cstate) (bs fl w : list Z) (cnt : Z) :
  qinv s bs fl w ->
  exists s' bs' fl', q_to_b cnt s = Ret (take (Z.to_nat cnt) w) s' /\
    qinv s' bs' fl' (drop (Z.to_nat cnt) w) /\
    bs' ++ fl' ≡ₚ bs ++ fl /\ same_off (bs ++ fl) s s' /\
    pl s' = (if (0 <? cnt) && bool_decide (w = []) then 6 else pl s).
Proof.
  intros H. unfold q_to_b.
  destruct (Z.leb_spec cnt 0) as [Hc|Hc].
  { exists s, bs, fl. replace (Z.to_nat cnt) with 0%nat by lia.
    rewrite (proj2 (Z.ltb_ge 0 cnt)) by lia. cbn [andb]. rewrite drop_0. do 4 (split; [done|]). done. }
  rewrite (proj2 (Z.ltb_lt 0 cnt)) by lia. cbn [andb].
  pose proof (qi_count _ _ _ _ H) as Hcc.
  destruct (decide (w = [])) as [->|Hne].
  { destruct (qinv_empty _ _ _ H) as [-> Hq]. destruct s as [nx mem fr bad p qq].
    cbn in Hq. subst qq. rewrite take_nil, drop_nil.
    eexists _, [], fl. split; [done|]. split; [by apply (qinv_pl _ _ _ _ 6) in H|].
    rewrite bool_decide_eq_true_2 by done. repeat split; done. }
  rewrite bool_decide_eq_false_2 by done.
  erewrite bind_ret_eq by reflexivity. cbn beta.
  erewrite bind_ret_eq by reflexivity. cbn beta. cbn [q setf].
  assert (0 < Z.of_nat (length w)) as Hpos by (destruct w; [done|simpl; lia]).
  rewrite Hcc, (proj2 (Z.leb_gt _ 0)) by lia.
  apply (qinv_pl _ _ _ _ 6) in H.
  destruct (q_to_b_loop_ok (S (Z.to_nat cnt)) (cnt + 1) [] _ _ _ _ H Hne ltac:(lia) ltac:(lia))
    as (s' & bs' & fl' & E & Hi & Hp & Hpl & Hoff).
  replace (Z.to_nat (cnt + 1 - 1)) with (Z.to_nat cnt) in * by lia.
  exists (s' <| pl := pl s |>), bs', fl'.
  erewrite bind_ret_eq by exact E. split; [done|]. split; [by apply qinv_pl|].
  split; [done|]. split; [|done]. by apply (same_off_pl _ _ _ 6).
Qed.

(** ** Adding characters at the back *)

Definition aligned (b : Z) : Prop := b mod 32 = 0.

Lemma aligned_disjoint b b' i j : aligned b -> aligned b' -> b <> b' ->
  0 <= i < 32 -> 0 <= j < 32 -> b + i <> b' + j.
Proof.
  unfold aligned. intros Hb Hb' Hne Hi Hj E.
  pose proof (cround_block b i Hb Hi). pose proof (cround_block b' j Hb' Hj). congruence.
Qed.

Lemma chars_insert_off mem f w a c :
  chars mem f w -> (a < f \/ f + Z.of_nat (length w) <= a) -> chars (<[a := c]> mem) f w.
Proof.
  intros H Ha. eapply chars_ext; [done|]. intros x Hx. apply lookup_insert_ne. lia.
Qed.

(** Within the last block. *)
Lemma qdata_snoc nx mem f bs l w c :
  qdata nx mem f bs l w -> Forall aligned bs -> NoDup bs -> l mod 32 <> 0 ->
  qdata nx (<[l := c]> mem) f bs (l + 1) (w ++ [c]).
Proof.
  revert f w; induction bs as [|b [|b' r] IH]; intros f w H Hal Hnd Hl; [done|..];
    inversion_clear Hal as [|? ? Hb Hr].
  - rewrite qdata_one in *. destruct H as (H1 & H2 & H3 & H4 & H5).
    assert (l <> b + 32).
    { intros ->. apply Hl. unfold aligned in Hb. rewrite Z.add_mod, Hb; done. }
    repeat split; try done; try lia; [|rewrite length_app; simpl; lia].
    replace l with (f + Z.of_nat (length w)) by lia. by apply chars_snoc.
  - pose proof (qdata_last _ _ _ _ _ _ H) as (bs0 & bn & E & Hbn & _).
    rewrite qdata_cons in *. destruct H as (H1 & H2 & w1 & w2 & -> & H3 & H4 & H5).
    split; [done|]. split; [done|]. exists w1, (w2 ++ [c]). rewrite <- app_assoc.
    split; [done|]. inversion_clear Hnd as [|? ? Hbr Hnd'].
    split; [|split; [done|by apply IH]].
    eapply chars_ext; [done|]. intros a Ha. apply lookup_insert_ne. intros <-.
    destruct bs0 as [|b0 bs0]; [done|]. injection E as <- E.
    assert (bn ∈ b' :: r) as Hin by (rewrite E; apply elem_of_app; right; left).
    assert (aligned bn) as Hn by (by eapply Forall_forall in Hr).
    apply (aligned_disjoint b bn (l - b) (l - bn)); try done; try lia; [by intros ->|].
    split; [lia|]. enough (l <> bn + 32) by lia. intros ->. apply Hl.
    unfold aligned in Hn. rewrite Z.add_mod, Hn; done.
Qed.

(** Into a fresh block [x] chained after the full last one. *)
Lemma qdata_grow nx mem f bs0 bn x w c :
  qdata nx mem f (bs0 ++ [bn]) (bn + 32) w ->
  Forall aligned (bs0 ++ [bn]) -> aligned x -> NoDup ((bs0 ++ [bn]) ++ [x]) ->
  qdata (<[x := 0]> (<[bn := x]> nx)) (<[x + 4 := c]> mem) f ((bs0 ++ [bn]) ++ [x])
    (x + 4 + 1) (w ++ [c]).
Proof.
  revert f w; induction bs0 as [|b bs0 IH]; intros f w H Hal Hx Hnd.
  - cbn [app] in *. rewrite qdata_one in H. destruct H as (H1 & H2 & H3 & H4 & H5).
    inversion_clear Hal as [|? ? Hb _]. apply NoDup_cons in Hnd as [Hne _].
    assert (x <> bn) by (intros ->; apply Hne; left).
    rewrite qdata_cons. split; [rewrite lookup_insert_ne, lookup_insert_eq; done|].
    split; [lia|]. exists w, [c]. split; [done|]. split; [|split; [lia|]].
    + eapply chars_ext; [done|]. intros a Ha. apply lookup_insert_ne. intros <-.
      apply (aligned_disjoint x bn 4 (x + 4 - bn)); try done; lia.
    + rewrite qdata_one. split; [apply lookup_insert_eq|]. split; [lia|]. split; [lia|].
      split; [|simpl; lia]. intros [|[|i]] d Hi; try done. injection Hi as <-.
      rewrite Z.add_0_r. apply lookup_insert_eq.
  - cbn [app] in *. inversion_clear Hal as [|? ? Hb Hr]. apply NoDup_cons in Hnd as [Hne Hnd].
    assert (Hbx : x <> b) by (intros ->; apply Hne, elem_of_app; right; left).
    assert (Hbn : bn <> b) by (intros ->; apply Hne; rewrite !elem_of_app; left; right; left).
    destruct (bs0 ++ [bn]) as [|b' r] eqn:E; [by destruct bs0|].
    cbn [app] in *. rewrite qdata_cons in *. destruct H as (H1 & H2 & w1 & w2 & -> & H3 & H4 & H5).
    split; [by rewrite !lookup_insert_ne|]. split; [done|].
    exists w1, (w2 ++ [c]). rewrite <- app_assoc. split; [done|].
    split; [|split; [done|by apply IH]].
    eapply chars_ext; [done|]. intros a Ha. apply lookup_insert_ne. intros <-.
    apply (aligned_disjoint x b 4 (x + 4 - b)); try done; lia.
Qed.

(** The state with the character [c] stored at [cp] and the head set to [p]. *)
Definition stored (cp c : Z) (p : clist) (s : cstate) : cstate :=
  s <| c_mem ::= <[cp := c]> |> <| q := p |>.

Lemma block_stored mem b a c : block mem b -> block (<[a := c]> mem) b.
Proof.
  intros (H1 & H2 & H3). split; [done|]. split; [done|]. intros i Hi.
  destruct (decide (a = b + i)) as [->|Hne]; [rewrite lookup_insert_eq; eauto|].
  rewrite lookup_insert_ne by done. by apply H3.
Qed.

Lemma Forall_block_aligned mem bs : Forall (block mem) bs -> Forall aligned bs.
Proof. intros H. eapply Forall_impl; [exact H|]. by intros b (_ & ? & _). Qed.

Lemma same_off_mem B s a c p b i :
  b ∈ B -> aligned b -> 0 <= i < 32 -> a = b + i -> same_off B s (stored a c p s).
Proof.
  intros Hb Hal Hi -> b' Hb' Hne. split; [done|]. intros j Hj. cbn.
  apply lookup_insert_ne. apply aligned_disjoint; try done; [by intros ->|lia].
Qed.

(** [first_block] on an empty queue. *)
Lemma first_block_ok s fl :
  qinv s [] fl [] ->
  (fl = [] /\ first_block s = Ret None s) \/
  exists b r s', fl = b :: r /\ first_block s = Ret (Some (b + INFO)) s' /\
    is_Some (c_mem s' !! (b + INFO)) /\ pl s' = pl s /\
    c_cc (q s') = 0 /\ c_cf (q s') = b + INFO /\
    forall c, qinv (stored (b + INFO) c (mkclist 1 (b + INFO) (b + INFO + 1)) s') [b] r [c] /\
      same_off fl s (stored (b + INFO) c (mkclist 1 (b + INFO) (b + INFO + 1)) s').
Proof.
  intros [Hnd Hbl Hfree Hcc (_ & Hf & Hl)]. destruct s as [nx mem fr bad p [n f l]]. cbn in *. subst.
  destruct fl as [|b r].
  - left. cbn in Hfree. subst fr. done.
  - right. destruct Hfree as (-> & n & Hn & Hr).
    inversion_clear Hbl as [|? ? (Hb0 & Hb1 & Hb2) Hbl'].
    eexists b, r, _. split; [done|]. split.
    { unfold first_block, tst, next, set_next, set_cf, modify, the, gets, get, bind, next. cbn.
      rewrite (proj2 (Z.eqb_neq b 0)) by lia. cbn.
      rewrite Hn. cbn. rewrite Hn. cbn. reflexivity. }
    cbn. split; [apply Hb2; unfold INFO; lia|]. do 3 (split; [done|]). intros c.
    apply NoDup_cons in Hnd as [Hbr Hnd]. split.
    + constructor; cbn -[qdata].
      * by apply NoDup_cons.
      * constructor; [by apply block_stored|]. eapply Forall_impl; [done|]. intros b' Hb'. by apply block_stored.
      * eapply chain_ext; [done|]. intros b' Hb'. apply lookup_insert_ne. by intros ->.
      * done.
      * rewrite qdata_one. unfold INFO. split; [apply lookup_insert_eq|]. split; [lia|]. split; [lia|].
        split; [|simpl; lia]. intros [|[|i]] d Hi; try done. injection Hi as <-.
        rewrite Z.add_0_r. apply lookup_insert_eq.
    + intros b' Hb' Hne. cbn. split; [apply lookup_insert_ne; intros ->; apply Hne; left|].
      intros i Hi. apply lookup_insert_ne. unfold INFO. apply aligned_disjoint; try done; [|lia].
      intros ->; apply Hne; left.
Qed.

(** What [putc] and [b_to_q] do before each character of a non-empty queue. *)
Definition slot (cp : Z) : CM (option Z) :=
  if negb (cp &? CROUND) then next_block cp else ret (Some cp).

Lemma slot_ok s p bs fl w :
  qinv (s <| q := p |>) bs fl w -> w <> [] ->
  (fl = [] /\ slot (c_cl p) s = Ret None s /\ c_cl p mod 32 = 0) \/
  exists cp s' bs' fl', slot (c_cl p) s = Ret (Some cp) s' /\
    is_Some (c_mem s' !! cp) /\ pl s' = pl s /\ q s' = q s /\ bs' ++ fl' ≡ₚ bs ++ fl /\
    (fl' = fl \/ (cp + 1) mod 32 = 5) /\
    forall c, let p' := mkclist (c_cc p + 1) (c_cf p) (cp + 1) in
      qinv (stored cp c p' s') bs' fl' (w ++ [c]) /\
      same_off (bs ++ fl) (s <| q := p |>) (stored cp c p' s').
Proof.
  intros [Hnd Hbl Hfree Hcc Hdata] Hw.
  destruct s as [nx mem fr bad lv q0], p as [n f l]. cbn [q setf c_next c_mem cfreelist c_cc c_cf c_cl] in *.
  assert (Hd : qdata nx mem f bs l w) by (by destruct w).
  destruct (qdata_last _ _ _ _ _ _ Hd) as (bs0 & bn & -> & Hl & Hbn).
  pose proof (Forall_block_aligned _ _ Hbl) as Hal.
  assert (Hab : aligned bn).
  { eapply Forall_forall; [exact Hal|]. rewrite !elem_of_app. left. right. left. }
  assert (Hin : bn ∈ (bs0 ++ [bn]) ++ fl) by (rewrite !elem_of_app; left; right; left).
  unfold slot. rewrite tst_round, negb_involutive.
  destruct (Z.eqb_spec (l mod 32) 0) as [E|E].
  - assert (l = bn + 32) as ->.
    { destruct (Z.eq_dec l (bn + 32)); [done|exfalso].
      pose proof (cround_eq l) as Hc. replace l with (bn + (l - bn)) in Hc at 1 by lia.
      rewrite cround_block in Hc by (done || lia). lia. }
    destruct fl as [|x r].
    + left. cbn in Hfree. subst fr. split; [done|]. split; [|done].
      unfold next_block, set_next, next, the, get, gets, bind, modify, tst, CBLOCK. cbn.
      replace (bn + 32 - 32) with bn by lia. rewrite Hbn. cbn.
      by rewrite insert_id.
    + right. destruct Hfree as (-> & nn & Hn & Hr).
      assert (Hx : block mem x).
      { eapply Forall_forall; [exact Hbl|]. apply elem_of_app. right. left. }
      destruct Hx as (Hx0 & Hx1 & Hx2).
      assert (Hnd' := Hnd). rewrite (snoc_eq (bs0 ++ [bn])) in Hnd'.
      apply NoDup_app in Hnd' as (Hnd1 & Hnd2 & Hnd3).
      assert (Hxbn : x <> bn).
      { intros ->. apply NoDup_app in Hnd1 as (_ & K & _). apply (K bn); [apply elem_of_app; right; left|left]. }
      exists (x + INFO), (mkcstate (<[x := 0]> (<[bn := x]> nx)) mem nn bad lv q0), ((bs0 ++ [bn]) ++ [x]), r.
      split.
      { unfold next_block, set_next, next, the, get, gets, bind, modify, tst, CBLOCK. cbn.
        replace (bn + 32 - 32) with bn by lia. rewrite Hbn. cbn.
        rewrite (proj2 (Z.eqb_neq x 0)) by lia. cbn.
        rewrite lookup_insert_ne, Hn by done. cbn. rewrite lookup_insert_ne, Hn by done. done. }
      cbn. split; [apply Hx2; unfold INFO; lia|]. split; [done|]. split; [done|].
      split; [by rewrite <- (snoc_eq (bs0 ++ [bn]))|].
      split; [right; unfold INFO; by rewrite <- Z.add_assoc, Zplus_mod, Hx1|]. intros c. split.
      * constructor; cbn -[qdata].
        -- by rewrite <- (snoc_eq (bs0 ++ [bn])).
        -- rewrite <- (snoc_eq (bs0 ++ [bn])). eapply Forall_impl; [exact Hbl|].
           intros b' Hb'. by apply block_stored.
        -- eapply chain_ext; [done|]. intros b' Hb'. rewrite !lookup_insert_ne; [done|..].
           ++ intros <-. apply (Hnd2 bn); [rewrite !elem_of_app; left; right; left|done].
           ++ intros <-. apply (Hnd2 x); [rewrite !elem_of_app; right; left|done].
        -- rewrite Hcc, length_app. simpl. lia.
        -- destruct (w ++ [c]) eqn:Ew; [by destruct w|]. rewrite <- Ew.
           apply qdata_grow; try done. by apply Forall_app in Hal as [? _].
      * intros b' Hb' Hne. cbn. split.
        -- rewrite !lookup_insert_ne; [done|..]; intros <-; apply Hne;
             [done|apply elem_of_app; right; left].
        -- intros i Hi. apply lookup_insert_ne. unfold INFO.
           apply aligned_disjoint; try done; [|lia].
           intros <-; apply Hne, elem_of_app; right; left.
  - right. assert (Hl32 : l <> bn + 32).
    { intros ->. apply E. unfold aligned in Hab. rewrite Z.add_mod, Hab; done. }
    exists l, (mkcstate nx mem fr bad lv q0), (bs0 ++ [bn]), fl. split; [done|]. cbn.
    split. { replace l with (bn + (l - bn)) by lia.
      destruct (proj1 (Forall_forall _ _) Hbl bn Hin) as (_ & _ & K). apply K. lia. }
    do 3 (split; [done|]). split; [by left|]. intros c. split.
    + constructor; cbn -[qdata]; try done.
      * eapply Forall_impl; [exact Hbl|]. intros b' Hb'. by apply block_stored.
      * rewrite Hcc, length_app. simpl. lia.
      * destruct (w ++ [c]) eqn:Ew; [by destruct w|]. rewrite <- Ew.
        apply Forall_app in Hal as [? _]. apply NoDup_app in Hnd as [? _]. by apply qdata_snoc.
    + apply (same_off_mem _ (mkcstate nx mem fr bad lv (mkclist n f l)) l c
        (mkclist (n + 1) f (l + 1)) bn (l - bn)); try done; lia.
Qed.

Lemma putc_ok s bs fl w c :
  qinv s bs fl w ->
  (putc c s = Ret (-1) s /\ fl = [] /\ (w = [] \/ c_cl (q s) mod 32 = 0)) \/
  (exists s' bs' fl', putc c s = Ret 0 s' /\ qinv s' bs' fl' (w ++ [s8 c]) /\
     bs' ++ fl' ≡ₚ bs ++ fl /\ (fl' = fl \/ c_cl (q s') mod 32 = 5) /\
     pl s' = pl s /\ same_off (bs ++ fl) s s').
Proof.
  intros H. pose proof (qi_count _ _ _ _ H) as Hcc.
  apply (qinv_pl _ _ _ _ 6) in H as H6. unfold putc.
  erewrite bind_ret_eq by reflexivity. cbn beta.
  erewrite bind_ret_eq by reflexivity. cbn beta.
  erewrite bind_ret_eq by reflexivity. cbn beta. cbn [q setf].
  rewrite Hcc, (proj2 (Z.ltb_ge _ 0)), orb_false_r by lia.
  destruct (decide (w = [])) as [->|Hw].
  - destruct (qinv_empty _ _ _ H) as [-> Hq]. replace (c_cl (q s)) with 0 by (by rewrite Hq). cbn [tst negb Z.eqb].
    destruct (first_block_ok _ _ H6) as [[-> E]|(b & r & s1 & -> & E & Hc & Hpl & Hn & Hf & K)].
    + left. erewrite bind_ret_eq by exact E. cbn beta iota.
      split; [|by auto]. destruct s; done.
    + right. erewrite bind_ret_eq by exact E. cbn beta iota. destruct (K (s8 c)) as [Hi Hoff].
      destruct Hc as [old Hold].
      eexists _, [b], r. split.
      { unfold setchr. rewrite bind_assoc. erewrite bind_ret_eq by (apply getchr_ok; exact Hold).
        cbn beta. reflexivity. }
      split; [|split; [done|split; [|split; [done|]]]].
      2: { right. cbn. unfold INFO. rewrite <- Z.add_assoc, Zplus_mod.
           pose proof (qi_block _ _ _ _ H) as Hbl. apply Forall_cons in Hbl as [(_ & -> & _) _]. done. }
      * apply (qinv_pl _ _ _ _ (pl s)) in Hi. destruct s1 as [? ? ? ? ? [? ? ?]].
        cbn in *. by subst.
      * apply (same_off_pl _ _ _ 6 (pl s)) in Hoff. destruct s1 as [? ? ? ? ? [? ? ?]].
        cbn in *. by subst.
  - assert (Hnz : tst (c_cl (q s)) = true).
    { apply tst_true. pose proof (qi_data _ _ _ _ H) as Hd. destruct w; [done|].
      destruct (qdata_last _ _ _ _ _ _ Hd) as (bs0 & bn & -> & Hl & _).
      pose proof (qi_block _ _ _ _ H) as Hbl. rewrite !Forall_app in Hbl.
      destruct Hbl as [[_ Hbl] _]. apply Forall_cons in Hbl as [(? & _) _]. lia. }
    rewrite Hnz. cbn [negb].
    destruct (slot_ok (s <| pl := 6 |>) (q s) bs fl w) as [(-> & E & Hm)|(cp & s1 & bs' & fl' & E & Hc & Hpl & Hq & Hp & Hm & K)];
      [by destruct s|done|..]; unfold slot in E.
    + left. erewrite bind_ret_eq by exact E. cbn beta iota. split; [|by auto]. by destruct s.
    + right. erewrite bind_ret_eq by exact E. cbn beta iota. destruct (K (s8 c)) as [Hi Hoff].
      destruct Hc as [old Hold].
      eexists _, bs', fl'. split.
      { unfold setchr. rewrite bind_assoc. erewrite bind_ret_eq by (apply getchr_ok; exact Hold).
        cbn beta. reflexivity. }
      apply (qinv_pl _ _ _ _ (pl s)) in Hi.
      destruct s as [? ? ? ? ? [? ? ?]], s1 as [? ? ? ? ? [? ? ?]]. cbn in *. injection Hq as -> -> ->.
      split; [done|]. do 3 (split; [done|]). by eapply same_off_eq.
Qed.

Lemma setchr_ok a c s : is_Some (c_mem s !! a) ->
  setchr a c s = Ret tt (s <| c_mem ::= <[a := s8 c]> |>).
Proof. intros [o Ho]. unfold setchr. by erewrite bind_ret_eq by (by apply getchr_ok). Qed.

Lemma bind_assoc_loop {X A B} n (body : X -> CM (X + A)) x (k : A -> CM B) s :
  bind (loop (S n) body x) k s =
  bind (body x) (fun r => bind (match r with inl x' => loop n body x' | inr a => ret a end) k) s.
Proof. cbn [loop]. apply bind_assoc. Qed.

Lemma b_to_q_loop_ok buf : forall s p bs fl w,
  qinv (s <| q := p |>) bs fl w -> w <> [] ->
  exists k s' bs' fl' cq,
    b_to_q_loop (c_cl p) buf s = Ret (cq, drop k buf) s' /\ (k <= length buf)%nat /\
    qinv (s' <| q := mkclist (c_cc p + Z.of_nat k) (c_cf p) cq |>) bs' fl'
      (w ++ map s8 (take k buf)) /\
    bs' ++ fl' ≡ₚ bs ++ fl /\ pl s' = pl s /\ q s' = q s /\ same_off (bs ++ fl) s s' /\
    ((k < length buf)%nat -> fl' = []).
Proof.
  unfold b_to_q_loop. induction buf as [|ch buf IH]; intros s p bs fl w H Hw; cbn [loop length].
  - exists 0%nat, s, bs, fl, (c_cl p). cbn [drop take map]. rewrite app_nil_r, Z.add_0_r.
    split; [done|]. split; [lia|]. split; [by destruct p|]. do 3 (split; [done|]). split; [by intros ?|lia].
  - destruct (slot_ok s p bs fl w H Hw) as [(-> & E & Hm)|(cp & s1 & bs1 & fl1 & E & Hc & Hpl & Hq & Hp & _ & K)];
      unfold slot in E; rewrite bind_assoc; erewrite bind_ret_eq by exact E; cbn beta iota.
    + exists 0%nat, s, bs, [], (c_cl p). cbn [drop take map]. rewrite app_nil_r, Z.add_0_r.
      split; [done|]. split; [lia|]. split; [by destruct p|]. do 3 (split; [done|]). split; [by intros ?|done].
    + destruct (K (s8 ch)) as [Hi Hoff].
      rewrite bind_assoc. erewrite bind_ret_eq by (by apply setchr_ok). cbn beta iota.
      erewrite bind_ret_eq by reflexivity. cbn beta iota.
      set (s2 := s1 <| c_mem ::= <[cp := s8 ch]> |>) in *.
      destruct (IH s2 (mkclist (c_cc p + 1) (c_cf p) (cp + 1)) bs1 fl1 (w ++ [s8 ch]))
        as (k & s' & bs' & fl' & cq & E' & Hk & Hi' & Hp' & Hpl' & Hq' & Hoff' & Hfull);
        [exact Hi|by destruct w|].
      exists (S k), s', bs', fl', cq. cbn [c_cc c_cf c_cl] in *. split; [exact E'|]. split; [lia|].
      split.
      { replace (c_cc p + Z.of_nat (S k)) with (c_cc p + 1 + Z.of_nat k) by lia.
        cbn [take map]. by rewrite (snoc_eq w). }
      split; [by rewrite Hp'|]. split; [by rewrite Hpl'|]. split; [by rewrite Hq'|].
      split; [|intros ?; apply Hfull; lia].
      apply (same_off_trans _ (bs1 ++ fl1) _ s2); [intros b; by rewrite Hp| |done].
      by eapply same_off_eq.
Qed.

(** Appending to an empty queue takes a first block. *)
Lemma b_to_q_first (s : cstate) (bs fl buf : list Z) (ch : Z) :
  qinv s bs fl [] ->
  exists k s' bs' fl', b_to_q (ch :: buf) s = Ret (Z.of_nat (length (ch :: buf)) - Z.of_nat k) s' /\
    (k <= length (ch :: buf))%nat /\ qinv s' bs' fl' (map s8 (take k (ch :: buf))) /\
    ((k < length (ch :: buf))%nat -> fl' = []) /\
    bs' ++ fl' ≡ₚ bs ++ fl /\ pl s' = pl s /\ same_off (bs ++ fl) s s'.
Proof.
  intros H. unfold b_to_q. rewrite (proj2 (Z.leb_gt _ 0)) by (simpl; lia).
  pose proof (qi_count _ _ _ _ H) as Hcc.
  apply (qinv_pl _ _ _ _ 6) in H as H6.
  erewrite bind_ret_eq by reflexivity. cbn beta.
  erewrite bind_ret_eq by reflexivity. cbn beta.
  erewrite bind_ret_eq by reflexivity. cbn beta. cbn [q setf].
  rewrite Hcc, (proj2 (Z.ltb_ge _ 0)), orb_false_r by lia.
  destruct (qinv_empty _ _ _ H) as [-> Hq].
  replace (c_cl (q s)) with 0 by (by rewrite Hq). cbn [tst negb Z.eqb].
  destruct (first_block_ok _ _ H6) as [[-> E]|(b & r & s1 & -> & E & Hc & Hpl & Hn & Hf & K)];
    erewrite bind_ret_eq by exact E; cbn beta iota.
  + exists 0%nat, s, [], []. split.
    { erewrite bind_ret_eq by reflexivity. cbn beta iota.
      destruct s as [? ? ? ? ? qq]. cbn in Hq. subst qq. cbn.
      rewrite Z.sub_diag, Z.sub_0_r. done. }
    split; [simpl; lia|]. cbn [take map app]. do 4 (split; [done|]). by intros ?.
  + destruct (K (s8 ch)) as [Hi Hoff].
    unfold b_to_q_loop. cbn [length]. rewrite bind_assoc_loop, round_block.
    2: { pose proof (qi_block _ _ _ _ H) as Hbl. apply Forall_cons in Hbl as [(_ & ? & _) _]. done. }
    2: { unfold INFO; lia. }
    cbn [INFO Z.eqb orb negb].
    repeat rewrite bind_assoc. erewrite bind_ret_eq by reflexivity. cbn beta iota.
    rewrite !bind_assoc. erewrite bind_ret_eq by (by apply setchr_ok). cbn beta iota.
    rewrite ?bind_assoc. erewrite bind_ret_eq by reflexivity. cbn beta iota.
    set (s2 := s1 <| c_mem ::= <[b + INFO := s8 ch]> |>) in *.
    destruct (b_to_q_loop_ok buf s2 (mkclist 1 (b + INFO) (b + INFO + 1)) [b] r [s8 ch])
      as (k & s' & bs' & fl' & cq & E' & Hk & Hi' & Hp' & Hpl' & Hq' & Hoff' & Hfull);
      [exact Hi|done|].
    exists (S k), (s' <| q := mkclist (1 + Z.of_nat k) (b + INFO) cq |> <| pl := pl s |>), bs', fl'.
    split.
    { erewrite bind_ret_eq by exact E'. cbn beta iota.
      destruct s1 as [? ? ? ? ? [? ? ?]], s' as [? ? ? ? ? [? ? ?]].
      cbn in Hq', Hn, Hf |- *. injection Hq' as -> -> ->. rewrite Hn, Hf, length_drop.
      f_equal; [lia|]. do 2 f_equal. lia. }
    split; [simpl; lia|]. split; [by apply qinv_pl|]. split; [intros ?; apply Hfull; simpl in *; lia|].
    split; [done|]. split; [done|].
    apply (same_off_trans _ ([b] ++ r) _ s2);
      [done|by apply (same_off_eq _ _ _ _ _ Hoff)|by apply (same_off_eq _ _ _ _ _ Hoff')].
Qed.

(** Appending to a queue that has characters goes on in its last block. *)
Lemma b_to_q_more (s : cstate) (bs fl w buf : list Z) (ch : Z) :
  qinv s bs fl w -> w <> [] ->
  exists k s' bs' fl', b_to_q (ch :: buf) s = Ret (Z.of_nat (length (ch :: buf)) - Z.of_nat k) s' /\
    (k <= length (ch :: buf))%nat /\ qinv s' bs' fl' (w ++ map s8 (take k (ch :: buf))) /\
    ((k < length (ch :: buf))%nat -> fl' = []) /\
    bs' ++ fl' ≡ₚ bs ++ fl /\ pl s' = pl s /\ same_off (bs ++ fl) s s'.
Proof.
  intros H Hw. unfold b_to_q. rewrite (proj2 (Z.leb_gt _ 0)) by (simpl; lia).
  pose proof (qi_count _ _ _ _ H) as Hcc.
  apply (qinv_pl _ _ _ _ 6) in H as H6.
  erewrite bind_ret_eq by reflexivity. cbn beta.
  erewrite bind_ret_eq by reflexivity. cbn beta.
  erewrite bind_ret_eq by reflexivity. cbn beta. cbn [q setf].
  rewrite Hcc, (proj2 (Z.ltb_ge _ 0)), orb_false_r by lia.
  assert (Hnz : tst (c_cl (q s)) = true).
  { apply tst_true. pose proof (qi_data _ _ _ _ H) as Hd. destruct w; [done|].
    destruct (qdata_last _ _ _ _ _ _ Hd) as (bs0 & bn & -> & Hl & _).
    pose proof (qi_block _ _ _ _ H) as Hbl. rewrite !Forall_app in Hbl.
    destruct Hbl as [[_ Hbl] _]. apply Forall_cons in Hbl as [(? & _) _]. lia. }
  rewrite Hnz. cbn [negb]. erewrite bind_ret_eq by reflexivity. cbn beta iota.
  destruct (b_to_q_loop_ok (ch :: buf) (s <| pl := 6 |>) (q s) bs fl w)
    as (k & s' & bs' & fl' & cq & E' & Hk & Hi' & Hp' & Hpl' & Hq' & Hoff' & Hfull);
    [by destruct s|done|].
  exists k, (s' <| q := mkclist (c_cc (q s) + Z.of_nat k) (c_cf (q s)) cq |> <| pl := pl s |>), bs', fl'.
  split.
  { erewrite bind_ret_eq by exact E'. cbn beta iota.
    destruct s as [? ? ? ? ? [? ? ?]], s' as [? ? ? ? ? [? ? ?]].
    cbn in Hq', Hk |- *. injection Hq' as -> -> ->. rewrite length_drop.
    f_equal; [simpl; lia|]. do 2 f_equal. simpl in *; lia. }
  split; [done|]. split; [by apply qinv_pl|]. split; [done|]. split; [done|]. split; [done|].
  by eapply same_off_eq.
Qed.

Lemma b_to_q_ok (s : cstate) (bs fl w buf : list Z) :
  qinv s bs fl w ->
  exists k s' bs' fl', b_to_q buf s = Ret (Z.of_nat (length buf) - Z.of_nat k) s' /\
    (k <= length buf)%nat /\ qinv s' bs' fl' (w ++ map s8 (take k buf)) /\
    ((k < length buf)%nat -> fl' = []) /\
    bs' ++ fl' ≡ₚ bs ++ fl /\ pl s' = pl s /\ same_off (bs ++ fl) s s'.
Proof.
  intros H. destruct buf as [|ch buf].
  - exists 0%nat, s, bs, fl. cbn [map take]. rewrite app_nil_r.
    split; [done|]. split; [simpl; lia|]. split; [done|]. split; [simpl; lia|]. done.
  - destruct (decide (w = [])) as [->|Hw]; [by apply b_to_q_first|by apply b_to_q_more].
Qed.

(** [b_to_q] appends the buffer as far as blocks last: the [k] characters
    it took are at the end of the queue, the return value is the number left
    over, and something is left over only when the free list has run out. *)
Theorem b_to_q_correct (s : cstate) (bs fl w buf : list Z) :
  qinv s bs fl w ->
  exists k s' bs' fl', b_to_q buf s = Ret (Z.of_nat (length buf) - Z.of_nat k) s' /\
    (k <= length buf)%nat /\ qinv s' bs' fl' (w ++ map s8 (take k buf)) /\
    ((k < length buf)%nat -> fl' = []) /\
    bs' ++ fl' ≡ₚ bs ++ fl /\ pl s' = pl s /\ same_off (bs ++ fl) s s'.
Proof. apply b_to_q_ok. Qed.

(** [getc] on a queue that holds [w]: -1 from the empty queue, otherwise
    the first character as an unsigned byte, and the queue holds the rest;
    blocks only move between the queue and the free list, the blocks of
    other queues are untouched and the processor level is restored. *)
Theorem getc_correct (s : cstate) (bs fl w : list Z) :
  qinv s bs fl w ->
  exists r s' bs' fl' w', getc s = Ret r s' /\ qinv s' bs' fl' w' /\
    match w with [] => r = -1 /\ w' = [] | c :: t => r = u8 c /\ w' = t end /\
    bs' ++ fl' ≡ₚ bs ++ fl /\ pl s' = pl s /\ same_off (bs ++ fl) s s'.
Proof. apply getc_ok. Qed.

(** [putc] appends the character, as a signed [char], and returns 0; it
    returns -1, changing nothing, only when it needs a block and the free
    list is empty. *)
Theorem putc_correct (s : cstate) (bs fl w : list Z) (c : Z) :
  qinv s bs fl w ->
  (putc c s = Ret (-1) s /\ fl = [] /\ (w = [] \/ c_cl (q s) mod 32 = 0)) \/
  (exists s' bs' fl', putc c s = Ret 0 s' /\ qinv s' bs' fl' (w ++ [s8 c]) /\
     bs' ++ fl' ≡ₚ bs ++ fl /\ pl s' = pl s /\ same_off (bs ++ fl) s s').
Proof.
  intros H. destruct (putc_ok s bs fl w c H) as [?|(s' & bs' & fl' & ? & ? & ? & _ & ?)]; [by left|].
  right. by exists s', bs', fl'.
Qed.

(** [putw] stores two characters whenever a block is free. *)
Lemma putw_ok s bs fl w c :
  qinv s bs fl w -> fl <> [] ->
  exists s' bs' fl', putw c s = Ret 0 s' /\
    qinv s' bs' fl' (w ++ [s8 c; s8 (Z.shiftr c 8)]) /\ bs' ++ fl' ≡ₚ bs ++ fl /\
    pl s' = pl s /\ same_off (bs ++ fl) s s'.
Proof.
  intros H Hfl. apply (qinv_pl _ _ _ _ 6) in H as H6. unfold putw.
  erewrite bind_ret_eq by reflexivity. cbn beta.
  erewrite bind_ret_eq by reflexivity. cbn beta. cbn [cfreelist setf].
  pose proof (qi_free _ _ _ _ H) as Hfree. pose proof (qi_block _ _ _ _ H) as Hbl.
  destruct fl as [|x r]; [done|]. destruct Hfree as [Hfr _].
  apply Forall_app in Hbl as [_ [(Hx & _) _]%Forall_cons].
  replace (cfreelist s =? 0) with false by (symmetry; apply Z.eqb_neq; lia).
  destruct (putc_ok _ _ _ _ c H6) as [(_ & ? & _)|(s1 & bs1 & fl1 & E1 & H1 & P1 & F1 & L1 & O1)]; [done|].
  erewrite bind_ret_eq by exact E1. cbn beta.
  destruct (putc_ok _ _ _ _ (Z.shiftr c 8) H1) as [(_ & -> & F)|(s2 & bs2 & fl2 & E2 & H2 & P2 & _ & L2 & O2)].
  { exfalso. destruct F1 as [?|F1]; [done|]. destruct F as [?|F]; [by destruct w|]. congruence. }
  erewrite bind_ret_eq by exact E2. cbn beta.
  exists (s2 <| pl := pl s |>), bs2, fl2. split; [done|]. split.
  { rewrite <- app_assoc in H2. by apply qinv_pl. }
  split; [by rewrite P2|]. split; [done|].
  apply (same_off_trans _ (bs1 ++ fl1) _ s1);
    [intros b; by rewrite P1|by apply (same_off_eq _ _ _ _ _ O1)|by apply (same_off_eq _ _ _ _ _ O2)].
Qed.

Lemma combine_bytes c : Z.lor (u8 (s8 c)) (Z.shiftl (u8 (s8 (Z.shiftr c 8))) 8) = u16 c.
Proof.
  assert (forall x, u8 (s8 x) = x mod 2 ^ 8) as E.
  { intros x. unfold u8, s8, wrapU, wrapS. rewrite Zminus_mod, Zmod_mod, <- Zminus_mod.
    by rewrite Z.add_simpl_r. }
  rewrite !E. unfold u16, wrapU. apply Z.bits_inj'; intros i Hi.
  rewrite Z.lor_spec, Z.shiftl_spec by lia.
  destruct (Z.lt_ge_cases i 8).
  - rewrite (Z.testbit_neg_r _ (i - 8)), orb_false_r, !Z.mod_pow2_bits_low by lia. done.
  - rewrite (Z.mod_pow2_bits_high _ 8) by lia. cbn [orb].
    destruct (Z.lt_ge_cases i 16).
    + rewrite !Z.mod_pow2_bits_low, Z.shiftr_spec by lia. f_equal. lia.
    + rewrite !Z.mod_pow2_bits_high by lia. done.
Qed.

(** [putw] then [getw] on an empty queue gives back the low 16 bits of the
    word, provided one block is free. *)
Theorem putw_getw_roundtrip (s : cstate) (fl : list Z) (c : Z) :
  qinv s [] fl [] -> fl <> [] ->
  exists s' bs' fl', (putw c ;;; getw) s = Ret (u16 c) s' /\ qinv s' bs' fl' [] /\
    bs' ++ fl' ≡ₚ fl /\ pl s' = pl s.
Proof.
  intros H Hfl.
  destruct (putw_ok s [] fl [] c H Hfl) as (s1 & bs1 & fl1 & E1 & H1 & P1 & L1 & _).
  erewrite bind_ret_eq by exact E1. cbn beta. unfold getw.
  erewrite bind_ret_eq by reflexivity. cbn beta.
  rewrite (qi_count _ _ _ _ H1), (proj2 (Z.leb_gt _ 1)) by (simpl; lia).
  destruct (getc_ok _ _ _ _ H1) as (r2 & s2 & bs2 & fl2 & w2 & E2 & H2 & [-> ->] & P2 & L2 & _).
  erewrite bind_ret_eq by exact E2. cbn beta.
  destruct (getc_ok _ _ _ _ H2) as (r3 & s3 & bs3 & fl3 & w3 & E3 & H3 & [-> ->] & P3 & L3 & _).
  erewrite bind_ret_eq by exact E3. cbn beta. rewrite combine_bytes.
  exists s3, bs3, fl3. split; [done|]. split; [done|].
  split; [by rewrite P3, P2, P1|congruence].
Qed.

(** ** The pair [ndqb], [ndflush] of the drivers *)

(** The number of characters in the first block. *)
Definition contiguous (s : cstate) : Z := cround (c_cf (q s) + CBSIZE) - c_cf (q s).

Lemma qinv_cf s bs fl c w : qinv s bs fl (c :: w) ->
  exists b r, bs = b :: r /\ block (c_mem s) b /\ b + 4 <= c_cf (q s) < b + 32 /\
    contiguous s = b + 32 - c_cf (q s).
Proof.
  intros [Hnd Hbl Hfree Hcc Hdata].
  assert (exists b r, bs = b :: r /\ b + 4 <= c_cf (q s) < b + 32) as (b & r & -> & Hf).
  { destruct bs as [|b [|b' r]]; [done|..].
    - rewrite qdata_one in Hdata. exists b, []. split; [done|lia].
    - rewrite qdata_cons in Hdata. exists b, (b' :: r). split; [done|]. tauto. }
  apply Forall_cons in Hbl as [Hb _]. exists b, r. do 3 (split; [done|]).
  unfold contiguous, CBSIZE. destruct Hb as (_ & Hb & _).
  replace (c_cf (q s) + 28) with (b + 32 + (c_cf (q s) - b - 4)) by lia.
  rewrite cround_block; [lia| |lia]. by rewrite Zplus_mod, Hb.
Qed.

Lemma ndqb_zero s bs fl w : qinv s bs fl w ->
  ndqb 0 s = Ret (match w with [] => 0 | _ => Z.min (contiguous s) (Z.of_nat (length w)) end) s.
Proof.
  intros H. pose proof (qi_count _ _ _ _ H) as Hcc. unfold ndqb.
  erewrite bind_ret_eq by reflexivity. cbn beta.
  erewrite bind_ret_eq by reflexivity. cbn beta. cbn [q setf]. rewrite Hcc.
  destruct w as [|c w].
  - cbn. by destruct s.
  - rewrite (proj2 (Z.leb_gt _ 0)) by (simpl; lia).
    rewrite bind_assoc. erewrite bind_ret_eq by reflexivity. cbn beta. cbn [tst Z.eqb negb q setf].
    fold (cround (c_cf (q s) + CBSIZE)). fold (contiguous s).
    erewrite bind_ret_eq by reflexivity. cbn beta.
    assert (E : forall a b : Z, (if a <? b then a else b) = Z.min b a)
      by (intros a b; destruct (Z.ltb_spec a b); lia).
    rewrite E. by destruct s.
Qed.

Lemma chars_drop mem f w k : chars mem f w -> chars mem (f + Z.of_nat k) (drop k w).
Proof.
  intros H i c Hi. rewrite lookup_drop in Hi. specialize (H _ _ Hi).
  by replace (f + Z.of_nat k + Z.of_nat i) with (f + Z.of_nat (k + i)) by lia.
Qed.

(** Removing [k] characters of the first block. *)
Lemma ndflush_ok s bs fl w (k : nat) :
  qinv s bs fl w -> (0 < k <= length w)%nat -> Z.of_nat k <= contiguous s ->
  exists s' bs' fl', ndflush (Z.of_nat k) s = Ret tt s' /\ qinv s' bs' fl' (drop k w) /\
    bs' ++ fl' ≡ₚ bs ++ fl /\ pl s' = pl s /\ same_off (bs ++ fl) s s'.
Proof.
  intros H [Hk0 Hk] Hct. pose proof H as [Hnd Hbl Hfree Hcc Hdata].
  destruct w as [|c w]; [simpl in Hk; lia|].
  destruct (qinv_cf _ _ _ _ _ H) as (b & r & -> & (Hb0 & Hb1 & Hb2) & Hf & E). rewrite E in Hct.
  set (W := c :: w) in *.
  assert (Hd : qdata (c_next s) (c_mem s) (c_cf (q s)) (b :: r) (c_cl (q s)) W) by done.
  destruct s as [nx mem fr bad p [n f l]]. cbn [q c_cf c_cl c_cc c_next c_mem cfreelist] in *.
  unfold ndflush.
  do 3 (erewrite bind_ret_eq by reflexivity; cbn beta). cbn [q setf c_cc c_cf].
  rewrite (proj2 (Z.ltb_ge n 0)), (proj2 (Z.eqb_neq n 0)) by lia.
  rewrite (proj2 (Z.ltb_ge CBSIZE _)), (proj2 (Z.leb_gt _ 0)) by (unfold CBSIZE; lia). cbn [orb].
  rewrite !bind_assoc. erewrite bind_ret_eq by reflexivity. cbn beta.
  rewrite !bind_assoc. erewrite bind_ret_eq by reflexivity. cbn beta.
  replace (f + Z.of_nat k) with (b + (f + Z.of_nat k - b)) by lia.
  rewrite round_block, (proj2 (Z.eqb_neq _ 0)) by (done || lia). cbn [orb].
  set (st := mkcstate nx mem fr bad p (mkclist n f l)).
  assert (Hs0 : forall p', freed b p' st = freed b p' st) by done.
  destruct (Z.eqb_spec (f + Z.of_nat k - b) 32) as [E32|E32]; cbn [negb].
  - (* the block is used up *)
    replace (b + (f + Z.of_nat k - b) - CBLOCK) with b by (unfold CBLOCK; lia).
    destruct r as [|b' r].
    + rewrite qdata_one in Hd. destruct Hd as (Hn & _ & Hl & _ & Hlen).
      assert (k = length W) as -> by (unfold CBLOCK in *; lia).
      exists (freed b (mkclist 0 0 0) st), [], (b :: fl).
      split.
      { unfold set_cc, set_cf, set_cl, cfree_put, set_next, next, the, get, gets, modify, bind, splx.
        cbn. rewrite Hn. cbn. rewrite Hn. cbn.
        replace (n - Z.of_nat (S (length w))) with 0 by (rewrite Hcc; cbn; lia). done. }
      rewrite drop_all. split; [by apply qinv_freed|]. do 2 (split; [done|]).
      apply same_off_freed. left.
    + rewrite qdata_cons in Hd. destruct Hd as (Hn & _ & w1 & w2 & EW & _ & Hlen & Hd).
      assert (k = length w1) as -> by lia.
      assert (Hb' : 0 < b').
      { apply Forall_cons in Hbl as [_ Hbl]. by apply Forall_cons in Hbl as [(? & _) _]. }
      exists (freed b (mkclist (n - Z.of_nat (length w1)) (b' + INFO) l) st), (b' :: r), (b :: fl).
      split.
      { unfold set_cc, set_cf, set_cl, cfree_put, set_next, next, the, get, gets, modify, bind, splx.
        cbn. rewrite Hn. cbn. unfold tst. rewrite (proj2 (Z.eqb_neq b' 0)) by lia. cbn.
        rewrite Hn. done. }
      rewrite EW, drop_app_length. split.
      * apply qinv_freed; try done; cbn [c_cc c_cf c_cl].
        -- rewrite Hcc, EW, length_app. lia.
        -- destruct w2; [by apply qdata_nonempty in Hd|done].
      * split; [symmetry; apply (Permutation_middle (b' :: r))|]. split; [done|].
        apply same_off_freed. left.
  - destruct (Z.eqb_spec (n - Z.of_nat k) 0) as [E0|E0].
    + (* the queue is used up *)
      assert (k = length W) as -> by lia.
      destruct r as [|b' r].
      2: { exfalso. rewrite qdata_cons in Hd. destruct Hd as (_ & _ & w1 & w2 & EW & _ & Hlen & Hd).
           apply qdata_nonempty in Hd. rewrite EW, length_app in Hct, E32. destruct w2; [done|]. simpl in *. lia. }
      rewrite qdata_one in Hd. destruct Hd as (Hn & _ & Hl & _ & Hlen).
      rewrite cround_block by (done || lia).
      exists (freed b (mkclist 0 0 0) st), [], (b :: fl). split.
      { unfold set_cc, set_cf, set_cl, cfree_put, set_next, next, the, get, gets, modify, bind, splx.
        cbn. rewrite Hn. cbn.
        replace (n - Z.of_nat (S (length w))) with 0 by (rewrite Hcc; cbn; lia). done. }
      rewrite drop_all. split; [by apply qinv_freed|]. do 2 (split; [done|]).
      apply same_off_freed. left.
    + eexists _, (b :: r), fl. split; [done|].
      split; [|by repeat split].
      assert (drop k W <> []) as Hne.
      { intros Ed. apply (f_equal length) in Ed. rewrite length_drop in Ed. simpl in Ed, Hk. subst W. simpl in *. lia. }
      constructor; cbn [q setf c_cc c_cf c_cl c_next c_mem cfreelist]; try done.
      * rewrite Hcc, length_drop. lia.
      * destruct (drop k W) eqn:ED; [done|]. rewrite <- ED.
        destruct r as [|b' r].
        -- rewrite qdata_one in Hd |- *. destruct Hd as (Hn & Hfl & Hl & Hch & Hlen).
           split; [done|]. split; [lia|]. split; [done|]. replace (b + (f + Z.of_nat k - b)) with (f + Z.of_nat k) by lia.
           split; [by apply chars_drop|]. rewrite length_drop. lia.
        -- rewrite qdata_cons in Hd |- *. destruct Hd as (Hn & Hfl & w1 & w2 & EW & Hch & Hlen & Hd).
           replace (b + (f + Z.of_nat k - b)) with (f + Z.of_nat k) by lia.
           split; [done|]. split; [lia|]. exists (drop k w1), w2. rewrite EW.
           split; [rewrite drop_app_le by lia; done|]. split; [by apply chars_drop|].
           rewrite length_drop. split; [lia|done].
Qed.

(** [ndqb(q, 0)] tells how many characters are contiguous at the front of
    the queue, and [ndflush] of that number — or fewer — removes exactly
    them: what a driver does around a block transfer. *)
Theorem ndqb_ndflush (s : cstate) (bs fl w : list Z) (k : Z) :
  qinv s bs fl w -> w <> [] ->
  exists n, ndqb 0 s = Ret n s /\ 0 < n <= Z.of_nat (length w) /\
    (0 < k <= n ->
     exists s' bs' fl', ndflush k s = Ret tt s' /\ qinv s' bs' fl' (drop (Z.to_nat k) w) /\
       bs' ++ fl' ≡ₚ bs ++ fl /\ pl s' = pl s /\ same_off (bs ++ fl) s s').
Proof.
  intros H Hw. destruct w as [|c w]; [done|].
  exists (Z.min (contiguous s) (Z.of_nat (length (c :: w)))).
  split; [by eapply (ndqb_zero s bs fl (c :: w))|].
  destruct (qinv_cf _ _ _ _ _ H) as (b & r & _ & _ & Hf & E).
  split; [simpl; lia|]. intros Hk.
  destruct (ndflush_ok s bs fl (c :: w) (Z.to_nat k)) as (s' & bs' & fl' & E' & R);
    [done|simpl in *; lia|lia|].
  rewrite Z2Nat.id in E' by lia. by exists s', bs', fl'.
Qed.

(** ** Initialisation *)

(** The blocks from [a] on, in the order [cinit] leaves them in. *)
Definition blocks_from (a : Z) (n : nat) : list Z :=
  map (fun i : nat => a + CBLOCK * Z.of_nat i) (seq 0 n).

Lemma blocks_from_S a n : blocks_from a (S n) = a :: blocks_from (a + CBLOCK) n.
Proof.
  unfold blocks_from. cbn [seq map]. f_equal; [lia|].
  rewrite <- seq_shift, map_map. apply map_ext. intros i. unfold CBLOCK. lia.
Qed.

Lemma cinit_loop n : forall m s a e fl body,
  (n < m)%nat -> chain (c_next s) (cfreelist s) fl ->
  (forall b, b ∈ blocks_from a n -> is_Some (c_next s !! b) /\ b ∉ fl) ->
  a + CBLOCK * (Z.of_nat n - 1) <= e < a + CBLOCK * Z.of_nat n ->
  body = (fun cp =>
    if cp <=? e then
      f <- gets cfreelist ;; set_next cp f ;;;
      modify (fun c => c <| cfreelist := cp |>) ;;;
      ret (inl (cp + CBLOCK))
    else ret (inr tt)) ->
  exists s', loop m body a s = Ret tt s' /\
    chain (c_next s') (cfreelist s') (reverse (blocks_from a n) ++ fl) /\
    c_mem s' = c_mem s /\ q s' = q s /\ pl s' = pl s.
Proof.
  unfold CBLOCK. induction n as [|n IH]; intros m s a e fl body Hm Hc Hb He ->;
    (destruct m as [|m]; [lia|]); rewrite loop_S.
  - rewrite (proj2 (Z.leb_gt a e)) by lia. exists s. done.
  - rewrite (proj2 (Z.leb_le a e)) by lia. rewrite blocks_from_S in Hb |- *.
    destruct (Hb a) as [[o Ho] Hna]; [left|].
    unfold set_next. pose proof (next_ok a o s Ho) as En. repeat mstep.
    set (s1 := (s <| c_next ::= <[a := cfreelist s]> |>) <| cfreelist := a |>).
    assert (Hne : forall b, b ∈ blocks_from (a + 32) n -> a < b).
    { intros b (i & -> & _)%list_elem_of_fmap. unfold CBLOCK. lia. }
    assert (Hc1 : chain (c_next s1) (cfreelist s1) (a :: fl)).
    { split; [done|]. exists (cfreelist s). split; [apply lookup_insert_eq|].
      eapply chain_ext; [exact Hc|]. intros b Hbin. apply lookup_insert_ne. by intros ->. }
    assert (Hb1 : forall b, b ∈ blocks_from (a + 32) n -> is_Some (c_next s1 !! b) /\ b ∉ a :: fl).
    { intros b Hbin. destruct (Hb b) as [H1 H2]; [by right|]. specialize (Hne b Hbin). split.
      - cbn. rewrite lookup_insert_ne by lia. done.
      - intros [?|?]%elem_of_cons; [lia|done]. }
    edestruct (IH m s1 (a + 32) e (a :: fl) _ ltac:(lia) Hc1 Hb1 ltac:(lia) eq_refl)
      as (s' & E & Hc' & R).
    exists s'. split; [exact E|]. split; [|done].
    rewrite reverse_cons, <- app_assoc. done.
Qed.

Lemma mod_up b : (b + 31) mod 32 = if b mod 32 =? 0 then 31 else b mod 32 - 1.
Proof.
  pose proof (Z.mod_pos_bound b 32 ltac:(lia)) as Hr.
  pose proof (Z.div_mod b 32 ltac:(lia)) as Hd. symmetry.
  destruct (Z.eqb_spec (b mod 32) 0) as [E|E].
  - apply (Z.mod_unique _ _ (b / 32)); lia.
  - apply (Z.mod_unique _ _ (b / 32 + 1)); lia.
Qed.

(** [cinit] chains every aligned block of the [cfree] array: afterwards
    an empty queue and a free list of all 100 blocks, or of 99 when the array
    does not start on a block boundary, satisfy the invariant. *)
Theorem cinit_correct (s : cstate) (base : Z) :
  let a := cround (base + CROUND) in
  let n := if base mod 32 =? 0 then 100%nat else 99%nat in
  0 < base -> cfreelist s = 0 -> q s = mkclist 0 0 0 ->
  (forall b, b ∈ blocks_from a n -> block (c_mem s) b /\ is_Some (c_next s !! b)) ->
  exists s', cinit_free base s = Ret tt s' /\ qinv s' [] (reverse (blocks_from a n)) [].
Proof.
  intros a n Hb Hf Hq Hbl. unfold cinit_free. fold a.
  assert (Ha : a = base + 31 - (base + 31) mod 32) by apply cround_eq.
  pose proof (Z.mod_pos_bound base 32 ltac:(lia)) as Hr.
  assert (Hn : a + 32 * (Z.of_nat n - 1) <= base + 99 * 32 < a + 32 * Z.of_nat n).
  { rewrite Ha, mod_up. subst n. destruct (Z.eqb_spec (base mod 32) 0) as [E|E]; lia. }
  edestruct (cinit_loop n (S (Z.to_nat NCLIST)) s a (base + (NCLIST - 1) * CBLOCK) [])
    as (s' & E & Hc & Hm & Hq' & _).
  - subst n. unfold NCLIST. destruct (base mod 32 =? 0); lia.
  - done.
  - intros b Hin. split; [by apply Hbl|apply not_elem_of_nil].
  - unfold NCLIST, CBLOCK. exact Hn.
  - reflexivity.
  - exists s'. split; [exact E|]. rewrite app_nil_r in Hc. constructor; cbn [app].
    + rewrite reverse_Permutation. unfold blocks_from.
      apply NoDup_fmap_2; [intros x y ?; unfold CBLOCK in *; lia|apply NoDup_seq].
    + rewrite Hm. apply Forall_forall. intros b Hin. rewrite elem_of_reverse in Hin. by apply Hbl.
    + done.
    + by rewrite Hq', Hq.
    + by rewrite Hq', Hq.
Qed.

(** ** Concrete memories: [n] blocks from an address on *)

Definition arena_mem (a : Z) (n : nat) : gmap Z Z :=
  list_to_map (map (fun i : nat => (a + Z.of_nat i, 0)) (seq 0 (32 * n))).
Definition arena_next (a : Z) (n : nat) : gmap Z Z :=
  list_to_map (map (fun i : nat => (a + CBLOCK * Z.of_nat i, 0)) (seq 0 n)).

Lemma list_to_map_seq (f : nat -> Z) n i : (i < n)%nat ->
  (forall x y, f x = f y -> x = y) ->
  (list_to_map (map (fun i : nat => (f i, 0)) (seq 0 n)) : gmap Z Z) !! f i = Some 0.
Proof.
  intros Hi Hf. apply elem_of_list_to_map.
  - rewrite map_map. apply NoDup_fmap_2; [intros x y; apply Hf|apply NoDup_seq].
  - apply list_elem_of_fmap. exists i. split; [done|]. apply elem_of_seq. lia.
Qed.

Lemma arena_block a n i : 0 < a -> a mod 32 = 0 -> (i < n)%nat ->
  block (arena_mem a n) (a + CBLOCK * Z.of_nat i) /\
  is_Some (arena_next a n !! (a + CBLOCK * Z.of_nat i)).
Proof.
  unfold CBLOCK. intros Ha Hm Hi. split; [split; [lia|split]|].
  - rewrite (Z.mul_comm 32), Z.add_mod, Z.mod_mul, Hm by lia. reflexivity.
  - intros j Hj. exists 0. unfold arena_mem.
    replace (a + 32 * Z.of_nat i + j) with (a + Z.of_nat (32 * i + Z.to_nat j)) by lia.
    apply (list_to_map_seq (fun i => a + Z.of_nat i)); [lia|intros; lia].
  - exists 0. apply (list_to_map_seq (fun i => a + CBLOCK * Z.of_nat i)); unfold CBLOCK; [lia|intros; lia].
Qed.

(** The state before [cinit], with the array at 4096. *)
Definition boot : cstate :=
  mkcstate (arena_next 4096 100) (arena_mem 4096 100) 0 0 0 (mkclist 0 0 0).

(** Two free blocks and an empty queue; and the queue holding ["ab"]. *)
Definition two_free : cstate :=
  mkcstate {[4096 := 4128; 4128 := 0]} (arena_mem 4096 2) 4096 0 0 (mkclist 0 0 0).
Definition two_chars : cstate :=
  mkcstate {[4096 := 0; 4128 := 0]} (<[4100 := 97]> (<[4101 := 98]> (arena_mem 4096 2)))
    4128 0 0 (mkclist 2 4100 4102).

Lemma two_blocks : block (arena_mem 4096 2) 4096 /\ block (arena_mem 4096 2) 4128.
Proof.
  split; [apply (arena_block 4096 2 0)|apply (arena_block 4096 2 1)]; try done; lia.
Qed.

Lemma qinv_two_free : qinv two_free [] [4096; 4128] [].
Proof.
  destruct two_blocks as [H1 H2]. constructor; try done.
  - cbn [app]. apply NoDup_cons. split; [|apply NoDup_singleton]. by intros [= ]%list_elem_of_singleton.
  - exact (Forall_cons_2 _ _ _ H1 (Forall_cons_2 _ _ _ H2 (Forall_nil_2 _))).
  - split; [done|]. exists 4128. split; [done|]. split; [done|]. by exists 0.
Qed.

Lemma qinv_two_chars : qinv two_chars [4096] [4128] [97; 98].
Proof.
  destruct two_blocks as [H1 H2]. constructor; try done.
  - cbn [app]. apply NoDup_cons. split; [|apply NoDup_singleton]. by intros [= ]%list_elem_of_singleton.
  - refine (Forall_cons_2 _ _ _ _ (Forall_cons_2 _ _ _ _ (Forall_nil_2 _))); by do 2 apply block_stored.
  - split; [done|]. by exists 0.
  - split; [done|]. split; [done|]. split; [done|]. split; [|done].
    intros [|[|i]] c Hc; [..|done]; by injection Hc as <-.
Qed.

Lemma getc_correct_witness :
  exists r s' bs' fl' w', getc two_chars = Ret r s' /\ qinv s' bs' fl' w' /\
    (r = 97 /\ w' = [98]) /\ bs' ++ fl' ≡ₚ [4096; 4128] /\ pl s' = 0 /\
    same_off [4096; 4128] two_chars s'.
Proof. exact (getc_correct two_chars [4096] [4128] [97; 98] qinv_two_chars). Defined.

Lemma q_to_b_correct_witness :
  exists s' bs' fl', q_to_b 5 two_chars = Ret [97; 98] s' /\ qinv s' bs' fl' [] /\
    bs' ++ fl' ≡ₚ [4096; 4128] /\ same_off [4096; 4128] two_chars s' /\ pl s' = 0.
Proof. exact (q_to_b_correct two_chars [4096] [4128] [97; 98] 5 qinv_two_chars). Defined.

Lemma putc_correct_witness :
  (putc 200 two_chars = Ret (-1) two_chars /\ [4128] = [] /\ ([97; 98] = [] \/ 4102 mod 32 = 0)) \/
  (exists s' bs' fl', putc 200 two_chars = Ret 0 s' /\ qinv s' bs' fl' [97; 98; -56] /\
     bs' ++ fl' ≡ₚ [4096; 4128] /\ pl s' = 0 /\ same_off [4096; 4128] two_chars s').
Proof. exact (putc_correct two_chars [4096] [4128] [97; 98] 200 qinv_two_chars). Defined.

Lemma b_to_q_correct_witness :
  exists k s' bs' fl', b_to_q [65; 66; 67] two_chars = Ret (3 - Z.of_nat k) s' /\
    (k <= 3)%nat /\ qinv s' bs' fl' ([97; 98] ++ map s8 (take k [65; 66; 67])) /\
    ((k < 3)%nat -> fl' = []) /\
    bs' ++ fl' ≡ₚ [4096; 4128] /\ pl s' = 0 /\ same_off [4096; 4128] two_chars s'.
Proof. exact (b_to_q_correct two_chars [4096] [4128] [97; 98] [65; 66; 67] qinv_two_chars). Defined.

Lemma putw_getw_roundtrip_witness :
  exists s' bs' fl', (putw (-2) ;;; getw) two_free = Ret 65534 s' /\ qinv s' bs' fl' [] /\
    bs' ++ fl' ≡ₚ [4096; 4128] /\ pl s' = 0.
Proof. exact (putw_getw_roundtrip two_free [4096; 4128] (-2) qinv_two_free ltac:(done)). Defined.

Lemma ndqb_ndflush_witness :
  exists n, ndqb 0 two_chars = Ret n two_chars /\ 0 < n <= 2 /\
    (0 < 2 <= n ->
     exists s' bs' fl', ndflush 2 two_chars = Ret tt s' /\ qinv s' bs' fl' [] /\
       bs' ++ fl' ≡ₚ [4096; 4128] /\ pl s' = 0 /\ same_off [4096; 4128] two_chars s').
Proof. exact (ndqb_ndflush two_chars [4096] [4128] [97; 98] 2 qinv_two_chars ltac:(done)). Defined.

Lemma cinit_correct_witness :
  exists s', cinit_free 4096 boot = Ret tt s' /\ qinv s' [] (reverse (blocks_from 4096 100)) [].
Proof.
  refine (cinit_correct boot 4096 ltac:(lia) eq_refl eq_refl _).
  intros b (i & -> & Hi)%list_elem_of_fmap. apply elem_of_seq in Hi.
  apply (arena_block 4096 100 i); [lia|done|]. exact (proj2 Hi).
Defined.
