(* ===== verification/Callout.v ===== *)
(** * Callout: the time-delayed calls of [sys/clock.c]

    [callout] is a table of NCALL entries; the pending ones come first, in the
    order in which they fall due, each with the number of ticks by which it
    follows the one before it, and an entry without a function ends them.
    This file models [timeout]; the clock interrupt that consumes the table
    is in Clock. *)

From S2P Require Import Prelude.

(** [struct callo]; routines that can be called are named by numbers. *)
Record callo := mkcallo { c_time : Z; c_arg : Z; c_func : option nat }.
#[export] Instance eta_callo : Eta callo := fun r => mkcallo (c_time r) (c_arg r) (c_func r).

Definition NCALL : nat := 20.

Abbreviation TM := (M (list callo)).

(** [callout[i]] and an assignment to it. *)
Definition entry (i : nat) : TM callo := l <- get ;; the (l !! i).
Definition set_entry (i : nat) (f : callo -> callo) : TM unit :=
  e <- entry i ;; modify (fun l => <[i := f e]> l).

(** The first loop of [timeout]: the entry to insert before, and what is left
    of the time. *)
Definition timeout_find (t : Z) : TM (nat * Z) :=
  loop (S NCALL) (fun x : nat * Z =>
    let '(p1, t) := x in
    e <- entry p1 ;;
    ret (if bool_decide (is_Some (c_func e)) && (c_time e <=? t)
         then inl (S p1, s32 (t - c_time e)) else inr (p1, t))) (0%nat, t).

(** [while(p2->c_func != 0) p2++;] *)
Definition timeout_end (p2 : nat) : TM nat :=
  loop (S NCALL) (fun p2 =>
    e <- entry p2 ;;
    ret (if bool_decide (is_Some (c_func e)) then inl (S p2) else inr p2)) p2.

(** [while(p2 >= p1) { *(p2+1) = *p2; p2--; }] *)
Definition timeout_shift (p1 p2 : nat) : TM unit :=
  for_ (reverse (seq p1 (S p2 - p1))) (fun p2 =>
    e <- entry p2 ;;
    set_entry (S p2) (fun d => d <| c_time := c_time e |>) ;;;
    set_entry (S p2) (fun d => d <| c_func := c_func e |>) ;;;
    set_entry (S p2) (fun d => d <| c_arg := c_arg e |>)).

(** [timeout(fun, arg, tim)] between its [spl7] and its [splx]. *)
Definition timeout (fn : nat) (arg tim : Z) : TM unit :=
  x <- timeout_find tim ;;
  let '(p1, t) := x in
  when (Nat.leb (NCALL - 1) p1) (fun l => Panic "Timeout table overflow" l) ;;;
  set_entry p1 (fun d => d <| c_time ::= fun c => s32 (c - t) |>) ;;;
  p2 <- timeout_end p1 ;;
  timeout_shift p1 p2 ;;;
  set_entry p1 (fun d => d <| c_time := t |>) ;;;
  set_entry p1 (fun d => d <| c_func := Some fn |>) ;;;
  set_entry p1 (fun d => d <| c_arg := arg |>).

(** ** Pending calls *)

(** A call that falls due in [time] ticks from now. *)
Record call := mkcall { due : Z; fn : nat; arg : Z }.

(** The calls the entries [l] stand for, [t0] ticks from now on. *)
Fixpoint pending (t0 : Z) (l : list callo) : list call :=
  match l with
  | [] => []
  | e :: r =>
      match c_func e with
      | None => []
      | Some f => mkcall (t0 + c_time e) f (c_arg e) :: pending (t0 + c_time e) r
      end
  end.

(** The entries of the table in use: those before the first without a
    function. *)
Definition used (l : list callo) : list callo :=
  take (length (pending 0 l)) l.

(** A call goes after every call that is due no later. *)
Fixpoint add_call (c : call) (l : list call) : list call :=
  match l with
  | [] => [c]
  | d :: r => if due d <=? due c then d :: add_call c r else c :: d :: r
  end.

(** A table of NCALL entries whose pending calls are [cs], with times in the
    range where sums of them do not overflow. *)
Definition small (t : Z) : Prop := -1000000000 <= t <= 1000000000.
Record table (l : list callo) (cs : list call) : Prop := {
  tb_len : length l = NCALL;
  tb_pending : pending 0 l = cs;
  tb_end : (length cs < NCALL)%nat;
  tb_small : Forall (fun c => small (due c)) cs
}.

(** ** Lemmas *)

Definition total (l : list callo) : Z := foldr (fun e n => c_time e + n) 0 l.
Definition active (l : list callo) : Prop := Forall (fun e => is_Some (c_func e)) l.

Lemma pending_app t0 l r : active l ->
  pending t0 (l ++ r) = pending t0 l ++ pending (t0 + total l) r.
Proof.
  intros H; revert t0; induction H as [|e l [f Hf] _ IH]; intros t0.
  - cbn. by rewrite Z.add_0_r.
  - cbn [app pending total foldr]. rewrite Hf, IH. cbn [app]. do 3 f_equal. unfold total. lia.
Qed.

Lemma pending_length t0 l : active l -> length (pending t0 l) = length l.
Proof. intros H; revert t0; induction H as [|e l [f Hf] _ IH]; intros t0; cbn; [done|]. rewrite Hf. cbn. by rewrite IH. Qed.

(** A table is its used entries, an entry without a function, and the rest. *)
Lemma table_split l : (length (pending 0 l) < length l)%nat ->
  exists us s rest, l = us ++ s :: rest /\ active us /\ c_func s = None.
Proof.
  generalize 0 as t0. induction l as [|e l IH]; intros t0 H; [cbn in H; lia|]. cbn [pending] in H.
  destruct (c_func e) as [f|] eqn:Hf.
  - destruct (IH (t0 + c_time e)) as (us & s & rest & -> & Ha & Hs); [cbn in H; lia|].
    exists (e :: us), s, rest. split; [done|]. split; [|done]. constructor; [by eexists|done].
  - exists [], e, l. split; [done|]. split; [by constructor|done].
Qed.

Lemma entry_at pre e post : entry (length pre) (pre ++ e :: post) = Ret e (pre ++ e :: post).
Proof. unfold entry, get, bind. by rewrite list_lookup_middle. Qed.

Lemma set_entry_at f pre e post :
  set_entry (length pre) f (pre ++ e :: post) = Ret tt (pre ++ f e :: post).
Proof.
  unfold set_entry, bind. rewrite entry_at. unfold modify. by rewrite insert_middle.
Qed.

(** What the search finds: [us1] is due no later than the new call. *)
Lemma find_ok f a tim s rest us : forall n pre t0,
  (length us < n)%nat -> active us -> c_func s = None ->
  small tim -> small t0 -> Forall (fun c => small (due c)) (pending t0 us) ->
  exists us1 us2, us = us1 ++ us2 /\
    loop n (fun x : nat * Z =>
      let '(p1, t) := x in
      e <- entry p1 ;;
      ret (if bool_decide (is_Some (c_func e)) && (c_time e <=? t)
           then inl (S p1, s32 (t - c_time e)) else inr (p1, t))) (length pre, tim - t0)
      (pre ++ us ++ s :: rest) =
      Ret (length (pre ++ us1), tim - (t0 + total us1)) (pre ++ us ++ s :: rest) /\
    small (t0 + total us1) /\
    add_call (mkcall tim f a) (pending t0 us) =
      pending t0 us1 ++ mkcall tim f a :: pending (t0 + total us1) us2 /\
    (us2 = [] <-> forallb (fun c => due c <=? tim) (pending t0 us) = true).
Proof.
  induction us as [|e us IH]; intros n pre t0 Hn Ha Hs Ht Ht0 Hsm; (destruct n as [|n]; [lia|]).
  - exists [], []. cbn [app]. erewrite loop_done
      by (erewrite bind_ret_eq by apply entry_at; by rewrite Hs, bool_decide_eq_false_2 by (by intros [])).
    cbn. rewrite app_nil_r, Z.add_0_r. done.
  - apply Forall_cons in Ha as [[g Hg] Ha]. cbn [pending] in Hsm |- *. rewrite Hg in Hsm |- *.
    apply Forall_cons in Hsm as [Hd Hsm]. cbn [due] in Hd. cbn [add_call due forallb app].
    assert (Et : (c_time e <=? tim - t0) = (t0 + c_time e <=? tim))
      by (destruct (Z.leb_spec (c_time e) (tim - t0)), (Z.leb_spec (t0 + c_time e) tim); lia).
    destruct (Z.leb_spec (t0 + c_time e) tim) as [Hle|Hgt].
    + destruct (IH n (pre ++ [e]) (t0 + c_time e)) as (us1 & us2 & -> & E & Hsmall & Hadd & Hall);
        [cbn in Hn; lia|done..|].
      exists (e :: us1), us2. split; [done|].
      erewrite loop_next.
      2: { erewrite bind_ret_eq by apply entry_at. rewrite Hg, bool_decide_eq_true_2 by done.
           by rewrite Et. }
      unfold small in *. rewrite s32_id by lia.
      rewrite !length_app, Nat.add_1_r, <- (app_assoc pre [e]) in E. cbn [app] in E.
      replace (tim - t0 - c_time e) with (tim - (t0 + c_time e)) by lia.
      cbn [total foldr]. fold (total us1). rewrite Z.add_assoc, E, length_app.
      split; [f_equal; f_equal; cbn; lia|].
      split; [done|]. rewrite Hadd. cbn [pending]. by rewrite Hg.
    + exists [], (e :: us). cbn [total foldr app pending]. rewrite app_nil_r, Z.add_0_r, Hg.
      erewrite loop_done.
      2: { erewrite bind_ret_eq by apply entry_at. rewrite Hg, bool_decide_eq_true_2 by done.
           by rewrite Et. }
      done.
Qed.

Lemma end_ok s rest us : forall n pre,
  (length us < n)%nat -> active us -> c_func s = None ->
  loop n (fun p2 =>
    e <- entry p2 ;;
    ret (if bool_decide (is_Some (c_func e)) then inl (S p2) else inr p2)) (length pre)
    (pre ++ us ++ s :: rest) = Ret (length pre + length us)%nat (pre ++ us ++ s :: rest).
Proof.
  induction us as [|e us IH]; intros n pre Hn Ha Hs; (destruct n as [|n]; [cbn in *; lia|]); cbn [app].
  - erewrite loop_done
      by (erewrite bind_ret_eq by apply entry_at; by rewrite Hs, bool_decide_eq_false_2 by (by intros [])).
    cbn. by rewrite Nat.add_0_r.
  - apply Forall_cons in Ha as [Hg Ha].
    erewrite loop_next
      by (erewrite bind_ret_eq by apply entry_at; by rewrite bool_decide_eq_true_2 by done).
    specialize (IH n (pre ++ [e]) ltac:(cbn in Hn; lia) Ha Hs).
    rewrite length_app, <- app_assoc, Nat.add_1_r in IH. cbn [app] in IH.
    rewrite IH. cbn [length]. by rewrite Nat.add_succ_r.
Qed.

Lemma shift_ok blk : forall pre x post,
  for_ (reverse (seq (length pre) (length blk))) (fun p2 =>
    e <- entry p2 ;;
    set_entry (S p2) (fun d => d <| c_time := c_time e |>) ;;;
    set_entry (S p2) (fun d => d <| c_func := c_func e |>) ;;;
    set_entry (S p2) (fun d => d <| c_arg := c_arg e |>)) (pre ++ blk ++ x :: post) =
  Ret tt (match blk with [] => pre ++ x :: post | h :: _ => pre ++ h :: blk ++ post end).
Proof.
  induction blk as [|y blk IH] using rev_ind; intros pre x post; [done|].
  rewrite length_app, Nat.add_1_r, seq_S, reverse_app. cbn [reverse rev_append app for_].
  assert (Es : forall f z, set_entry (S (length pre + length blk)) f (pre ++ (blk ++ [y]) ++ z :: post) =
    Ret tt (pre ++ (blk ++ [y]) ++ f z :: post)).
  { intros f z. replace (S (length pre + length blk)) with (length (pre ++ blk ++ [y]))
      by (rewrite !length_app; cbn; lia).
    rewrite (app_assoc pre (blk ++ [y]) (z :: post)), (app_assoc pre (blk ++ [y]) (f z :: post)).
    apply set_entry_at. }
  assert (Ee : forall z, entry (length pre + length blk) (pre ++ (blk ++ [y]) ++ z :: post) =
    Ret y (pre ++ (blk ++ [y]) ++ z :: post)).
  { intros z. rewrite <- length_app, <- app_assoc, app_assoc. apply entry_at. }
  erewrite bind_assoc, bind_ret_eq by apply Ee. cbn beta.
  do 3 (rewrite ?bind_assoc; erewrite bind_ret_eq by apply Es; cbn beta).
  rewrite <- app_assoc. cbn [app]. unfold reverse in IH |- *.
  destruct x as [xt xa xf], y as [yt ya yf]. cbn in *.
  rewrite (IH pre). destruct blk as [|h blk]; [done|]. cbn [app]. by rewrite <- app_assoc.
Qed.

Lemma shift_fault blk : forall pre, blk <> [] ->
  for_ (reverse (seq (length pre) (length blk))) (fun p2 =>
    e <- entry p2 ;;
    set_entry (S p2) (fun d => d <| c_time := c_time e |>) ;;;
    set_entry (S p2) (fun d => d <| c_func := c_func e |>) ;;;
    set_entry (S p2) (fun d => d <| c_arg := c_arg e |>)) (pre ++ blk) = Fault.
Proof.
  intros pre H. destruct (exists_last H) as (b & y & ->).
  rewrite length_app, Nat.add_1_r, seq_S, reverse_app. cbn [reverse rev_append app for_].
  rewrite (app_assoc pre), <- length_app.
  erewrite bind_assoc, bind_ret_eq by apply entry_at. cbn beta.
  rewrite !bind_assoc. unfold bind at 1, set_entry. unfold bind at 1, entry, get, bind at 1.
  rewrite lookup_ge_None_2; [done|]. rewrite !length_app. cbn. lia.
Qed.

(** The end of [timeout]: the entries from [p1] to the end of the pending
    ones move up by one, and the new one takes their place. *)
Lemma timeout_store f a t us1 d tl rest :
  (timeout_shift (length us1) (length us1 + length tl) ;;;
   set_entry (length us1) (fun d => d <| c_time := t |>) ;;;
   set_entry (length us1) (fun d => d <| c_func := Some f |>) ;;;
   set_entry (length us1) (fun d => d <| c_arg := a |>)) (us1 ++ d :: tl ++ rest) =
  match rest with
  | [] => Fault
  | _ :: post => Ret tt (us1 ++ mkcallo t a (Some f) :: (d :: tl) ++ post)
  end.
Proof.
  unfold timeout_shift.
  replace (S (length us1 + length tl) - length us1)%nat with (length (d :: tl)) by (cbn; lia).
  change (us1 ++ d :: tl ++ rest) with (us1 ++ (d :: tl) ++ rest).
  destruct rest as [|x post].
  - rewrite app_nil_r. unfold bind at 1. by rewrite shift_fault.
  - erewrite bind_ret_eq by apply shift_ok. cbn beta.
    do 2 (erewrite bind_ret_eq by apply set_entry_at; cbn beta).
    rewrite set_entry_at. by destruct d.
Qed.

(** The table after [timeout] on one whose used entries split as found. *)
Lemma timeout_insert f a tim s rest us : length (us ++ s :: rest) = NCALL ->
  active us -> c_func s = None -> small tim -> Forall (fun c => small (due c)) (pending 0 us) ->
  exists us1 us2, us = us1 ++ us2 /\ small (total us1) /\
    add_call (mkcall tim f a) (pending 0 us) =
      pending 0 us1 ++ mkcall tim f a :: pending (total us1) us2 /\
    (us2 = [] <-> forallb (fun c => due c <=? tim) (pending 0 us) = true) /\
    timeout f a tim (us ++ s :: rest) =
      (if Nat.leb (NCALL - 1) (length us1) then Panic "Timeout table overflow" (us ++ s :: rest)
       else match rest with
            | [] => Fault
            | x :: post =>
                let hd := match us2 with [] => s | h :: _ => h end in
                let dec := hd <| c_time ::= fun c => s32 (c - (tim - total us1)) |> in
                Ret tt (us1 ++ mkcallo (tim - total us1) a (Some f) ::
                        match us2 with [] => [dec] | _ :: t => dec :: t ++ [s] end ++ post)
            end).
Proof.
  intros Hl Ha Hs Ht Hsm. rewrite length_app in Hl. cbn in Hl.
  destruct (find_ok f a tim s rest us (S NCALL) [] 0) as (us1 & us2 & -> & E & Ht1 & Hadd & Hall);
    [lia|done|done|done|unfold small; lia|done|].
  cbn [app] in E. rewrite Z.sub_0_r in E. rewrite ?Z.add_0_l in E, Ht1, Hadd.
  exists us1, us2. do 4 (split; [done|]).
  unfold timeout, timeout_find. erewrite bind_ret_eq by exact E. cbn beta iota.
  destruct (Nat.leb_spec (NCALL - 1) (length us1)) as [Hp|Hp]; [done|].
  cbn [when]. erewrite bind_ret_eq by reflexivity. cbn beta.
  apply Forall_app in Ha as [_ Ha2]. rewrite <- (app_assoc us1).
  destruct us2 as [|h us2]; cbn [app].
  - erewrite bind_ret_eq by apply set_entry_at. cbn beta.
    unfold timeout_end. erewrite bind_ret_eq
      by (apply (end_ok _ rest [] (S NCALL) us1); [cbn; lia|constructor|done]).
    cbn beta. exact (timeout_store f a (tim - total us1) us1 _ [] rest).
  - apply Forall_cons in Ha2 as [Hh Ha2].
    erewrite bind_ret_eq by apply set_entry_at. cbn beta.
    unfold timeout_end. set (dec := h <| c_time ::= fun c => s32 (c - (tim - total us1)) |>).
    erewrite bind_ret_eq
      by (apply (end_ok s rest (dec :: us2) (S NCALL) us1);
          [rewrite length_app in Hl; cbn in *; lia|by constructor|done]).
    cbn beta.
    replace (length us1 + length (dec :: us2))%nat with (length us1 + length (us2 ++ [s]))%nat
      by (rewrite length_app; cbn; lia).
    replace ((dec :: us2) ++ s :: rest) with (dec :: (us2 ++ [s]) ++ rest)
      by (cbn; by rewrite <- app_assoc).
    by eapply (timeout_store f a (tim - total us1) us1 dec (us2 ++ [s]) rest).
Qed.

Lemma table_used l cs : table l cs ->
  exists us s rest, l = us ++ s :: rest /\ active us /\ c_func s = None /\
    cs = pending 0 us /\ length us = length cs.
Proof.
  intros [Hl Hp He Hs]. destruct (table_split l) as (us & s & rest & -> & Ha & Hn).
  { rewrite Hp, Hl. done. }
  exists us, s, rest. rewrite pending_app in Hp by done. cbn in Hp. rewrite Hn, app_nil_r in Hp.
  subst cs. by rewrite pending_length.
Qed.

Lemma add_call_length c l : length (add_call c l) = S (length l).
Proof. induction l as [|d l IH]; cbn; [done|]. destruct (_ <=? _); cbn; [by rewrite IH|done]. Qed.

Lemma add_call_Forall (P : call -> Prop) c l : P c -> Forall P l -> Forall P (add_call c l).
Proof.
  intros Hc. induction 1 as [|d l Hd Hl IH]; cbn; [by constructor|].
  destruct (_ <=? _); by repeat constructor.
Qed.

(** Postponing the first entry by what was taken off the time. *)
Lemma pending_dec t0 t1 h l : small t0 -> small t1 -> active (h :: l) ->
  Forall (fun c => small (due c)) (pending t0 (h :: l)) ->
  pending t1 (h <| c_time ::= fun c => s32 (c - (t1 - t0)) |> :: l) = pending t0 (h :: l).
Proof.
  intros H0 H1 [[g Hg] _]%Forall_cons Hs. cbn in *. rewrite Hg in *.
  apply Forall_cons in Hs as [Hd _]. cbn [due] in Hd. unfold small in *.
  rewrite s32_id by lia. replace (t1 + (c_time h - (t1 - t0))) with (t0 + c_time h) by lia. done.
Qed.

(** [timeout] adds the call to the pending ones at its place in time —
    after those due no later — and leaves when every other call is due
    unchanged, as long as fewer than NCALL - 1 are pending. *)
Theorem timeout_correct (l : list callo) (cs : list call) (f : nat) (a tim : Z) :
  table l cs -> (length cs < NCALL - 1)%nat -> small tim ->
  exists l', timeout f a tim l = Ret tt l' /\ table l' (add_call (mkcall tim f a) cs).
Proof.
  intros Ht Hc Htim. pose proof (tb_len _ _ Ht) as Hlen. pose proof (tb_small _ _ Ht) as Hsm.
  destruct (table_used _ _ Ht) as (us & s & rest & -> & Ha & Hs & -> & El).
  destruct (timeout_insert f a tim s rest us Hlen Ha Hs Htim Hsm)
    as (us1 & us2 & -> & Ht1 & Hadd & _ & E).
  rewrite !length_app in Hlen. rewrite length_app in El. cbn in Hlen. unfold NCALL in *.
  rewrite (proj2 (Nat.leb_gt _ _)) in E by lia.
  destruct rest as [|x post]; [cbn in Hlen; lia|].
  apply Forall_app in Ha as [Ha1 Ha2].
  eexists. split; [exact E|]. constructor.
  - unfold NCALL. rewrite length_app. destruct us2; cbn in *; rewrite ?length_app; cbn; lia.
  - rewrite Hadd, pending_app by done. f_equal. cbn [pending c_func c_time c_arg].
    rewrite Z.add_0_l. replace (total us1 + (tim - total us1)) with tim by lia. f_equal.
    destruct us2 as [|h us2].
    + cbn. by rewrite Hs.
    + cbn [app]. rewrite pending_app in Hsm by done. apply Forall_app in Hsm as [_ Hsm].
      rewrite Z.add_0_l in Hsm.
      set (dec := h <| c_time ::= fun c => s32 (c - (tim - total us1)) |>).
      change ((dec :: us2 ++ [s]) ++ post) with (((dec :: us2) ++ [s]) ++ post).
      rewrite <- app_assoc.
      change (dec :: us2 ++ [s] ++ post) with ((dec :: us2) ++ [s] ++ post).
      rewrite (pending_app tim (dec :: us2))
        by (apply Forall_cons in Ha2 as [? ?]; by constructor).
      unfold dec. rewrite pending_dec by done. cbn. by rewrite Hs, app_nil_r.
  - rewrite add_call_length. unfold NCALL. lia.
  - by apply add_call_Forall.
Qed.

(** The test for overflow looks only at where the new call goes: with
    NCALL - 1 calls pending, one that goes last panics as intended, but one
    that goes before another writes past the end of the table. *)
Theorem timeout_overflow (l : list callo) (cs : list call) (f : nat) (a tim : Z) :
  table l cs -> length cs = (NCALL - 1)%nat -> small tim ->
  timeout f a tim l =
    if forallb (fun c => due c <=? tim) cs then Panic "Timeout table overflow" l else Fault.
Proof.
  intros Ht Hc Htim. pose proof (tb_len _ _ Ht) as Hlen. pose proof (tb_small _ _ Ht) as Hsm.
  destruct (table_used _ _ Ht) as (us & s & rest & -> & Ha & Hs & -> & El).
  destruct (timeout_insert f a tim s rest us Hlen Ha Hs Htim Hsm)
    as (us1 & us2 & -> & Ht1 & Hadd & Hall & E).
  rewrite E. rewrite Hc in El. rewrite !length_app in Hlen. rewrite length_app in El. cbn in Hlen. unfold NCALL in *.
  destruct rest; [|cbn in Hlen; lia].
  destruct us2 as [|h us2].
  - rewrite (proj1 Hall) by done. rewrite (proj2 (Nat.leb_le _ _)); [done|cbn in El; lia].
  - destruct (forallb _ _) eqn:Ef; [by discriminate (proj2 Hall eq_refl)|].
    by rewrite (proj2 (Nat.leb_gt _ _)) by (cbn in El; lia).
Qed.

(** ** Concrete tables: calls 5 and 8 ticks away; and a call every tick *)

Definition free_entry : callo := mkcallo 0 0 None.
Definition two_calls : list callo :=
  mkcallo 5 100 (Some 1%nat) :: mkcallo 3 200 (Some 2%nat) :: replicate 18 free_entry.
Definition full_calls : list callo := replicate 19 (mkcallo 1 7 (Some 1%nat)) ++ [free_entry].

Lemma table_two_calls : table two_calls [mkcall 5 1 100; mkcall 8 2 200].
Proof. by repeat constructor. Qed.

Lemma table_full_calls : table full_calls (pending 0 full_calls).
Proof. constructor; [reflexivity|reflexivity|vm_compute; lia|by repeat constructor]. Qed.


Lemma timeout_overflow_witness : timeout 3 300 6 full_calls = Fault.
Proof.
  exact (timeout_overflow full_calls _ 3 300 6 table_full_calls eq_refl
           ltac:(unfold small; lia)).
Defined.
