(* ===== verification/Bytes.v ===== *)
(** * Bytes: structures in byte arrays

    Disk blocks, buffers and directory entries are arrays of bytes which the
    code views through [struct filsys], [struct dinode], [struct fblk] and
    [struct direct].  A [field] is an offset and an integer type; [rdf] and
    [wrf] read and write it little-endian.  The structures are laid out with
    natural alignment. *)

From S2P Require Import Prelude.

(** ** Little-endian numbers *)

Fixpoint leval (l : list Z) : Z :=
  match l with [] => 0 | b :: r => b + 256 * leval r end.
Fixpoint bytes_of (n : nat) (v : Z) : list Z :=
  match n with O => [] | S n => v mod 256 :: bytes_of n (v / 256) end.

Definition byte (b : Z) : Prop := 0 <= b < 256.

Lemma length_bytes_of n v : length (bytes_of n v) = n.
Proof. revert v; induction n; intros v; simpl; auto. Qed.

Lemma bytes_of_byte n v : Forall byte (bytes_of n v).
Proof.
  revert v; induction n; intros v; simpl; constructor; [|done].
  apply Z.mod_pos_bound. lia.
Qed.

Lemma leval_bytes_of n v : leval (bytes_of n v) = v mod 256 ^ Z.of_nat n.
Proof.
  revert v; induction n as [|n IH]; intros v; simpl; [by rewrite Z.mod_1_r|].
  rewrite IH, Nat2Z.inj_succ, Z.pow_succ_r by lia.
  rewrite Z.rem_mul_r by lia. lia.
Qed.

Lemma bytes_of_leval l : Forall byte l -> bytes_of (length l) (leval l) = l.
Proof.
  induction 1 as [|b r Hb _ IH]; simpl; [done|]. unfold byte in Hb.
  rewrite (Z.mul_comm 256), Z.mod_add, Z.mod_small, Z.div_add, Z.div_small, Z.add_0_l by lia.
  by rewrite IH.
Qed.

Lemma leval_range l : Forall byte l -> 0 <= leval l < 256 ^ Z.of_nat (length l).
Proof.
  induction 1 as [|b r Hb _ IH]; [simpl; lia|]. unfold byte in Hb.
  cbn [leval length]. rewrite Nat2Z.inj_succ, Z.pow_succ_r by lia. lia.
Qed.

(** ** Pieces of an array *)

Definition sub {A} (off n : nat) (l : list A) : list A := take n (drop off l).
Definition splice {A} (off : nat) (new l : list A) : list A :=
  take off l ++ new ++ drop (off + length new) l.

Lemma length_splice {A} off (new l : list A) :
  (off + length new <= length l)%nat -> length (splice off new l) = length l.
Proof. intros H. unfold splice. rewrite !length_app, length_take, length_drop. lia. Qed.

Lemma length_sub {A} off n (l : list A) :
  (off + n <= length l)%nat -> length (sub off n l) = n.
Proof. intros H. unfold sub. rewrite length_take, length_drop. lia. Qed.

Lemma lookup_sub {A} off n (l : list A) i :
  (i < n)%nat -> sub off n l !! i = l !! (off + i)%nat.
Proof. intros H. unfold sub. by rewrite lookup_take_lt, lookup_drop. Qed.

Lemma lookup_splice {A} off (new l : list A) i : (off + length new <= length l)%nat ->
  splice off new l !! i =
  if decide (off <= i < off + length new)%nat then new !! (i - off)%nat else l !! i.
Proof.
  intros H. unfold splice.
  assert (length (take off l) = off) as El by (rewrite length_take; lia).
  destruct (decide _) as [Hi|Hi].
  - rewrite lookup_app_r, El by lia. rewrite lookup_app_l by lia. done.
  - destruct (Nat.lt_ge_cases i off).
    + rewrite lookup_app_l, lookup_take_lt by lia. done.
    + rewrite lookup_app_r, El by lia. rewrite lookup_app_r by lia.
      rewrite lookup_drop. f_equal. lia.
Qed.

Lemma sub_splice {A} off (new l : list A) n : (off + length new <= length l)%nat ->
  n = length new -> sub off n (splice off new l) = new.
Proof.
  intros H ->. apply list_eq; intros i. destruct (Nat.lt_ge_cases i (length new)).
  - rewrite lookup_sub, lookup_splice by lia. rewrite decide_True by lia. f_equal. lia.
  - rewrite !lookup_ge_None_2; [done|lia|]. unfold sub. rewrite length_take. lia.
Qed.

Lemma sub_splice_ne {A} off o n (new l : list A) : (off + length new <= length l)%nat ->
  (o + n <= off \/ off + length new <= o)%nat -> sub o n (splice off new l) = sub o n l.
Proof.
  intros H Hd. apply list_eq; intros i. destruct (Nat.lt_ge_cases i n).
  - rewrite !lookup_sub, lookup_splice, decide_False by lia. done.
  - rewrite !lookup_ge_None_2; [done|..]; unfold sub; rewrite length_take; lia.
Qed.

Lemma splice_Forall {A} (P : A -> Prop) off new l :
  Forall P new -> Forall P l -> Forall P (splice off new l).
Proof.
  intros Hn Hl. unfold splice. apply Forall_app. split; [by apply Forall_take|].
  apply Forall_app. split; [done|by apply Forall_drop].
Qed.

(** ** Fields of the C integer types *)

Inductive cty := CU8 | CS8 | CU16 | CS16 | CU32 | CS32.
Definition width (t : cty) : nat :=
  match t with CU8 | CS8 => 1 | CU16 | CS16 => 2 | CU32 | CS32 => 4 end.
(** The value a store into an object of the type leaves there. *)
Definition cast (t : cty) (v : Z) : Z :=
  match t with CU8 => u8 v | CS8 => s8 v | CU16 => u16 v | CS16 => s16 v | CU32 => u32 v | CS32 => s32 v end.

Record field := fld { f_off : nat; f_ty : cty }.
(** Element [i] of an array whose first element is the field. *)
Definition elt (f : field) (i : nat) : field := fld (f_off f + i * width (f_ty f)) (f_ty f).
(** The field of a structure that starts at [base]. *)
Definition at_ (base : nat) (f : field) : field := fld (base + f_off f) (f_ty f).

Definition rdf (f : field) (l : list Z) : Z := cast (f_ty f) (leval (sub (f_off f) (width (f_ty f)) l)).
Definition wrf (f : field) (v : Z) (l : list Z) : list Z :=
  splice (f_off f) (bytes_of (width (f_ty f)) v) l.

Definition in_bounds (f : field) (l : list Z) : Prop :=
  (f_off f + width (f_ty f) <= length l)%nat.
Definition apart (f g : field) : Prop :=
  (f_off f + width (f_ty f) <= f_off g \/ f_off g + width (f_ty g) <= f_off f)%nat.

Lemma cast_mod t v : cast t (v mod 256 ^ Z.of_nat (width t)) = cast t v.
Proof.
  destruct t; cbn [cast width]; unfold u8, s8, u16, s16, u32, s32, wrapU, wrapS; simpl;
    rewrite ?Z.mod_mod by lia; try done;
    rewrite Zplus_mod, Z.mod_mod, <- Zplus_mod by lia; done.
Qed.

Lemma length_wrf f v l : in_bounds f l -> length (wrf f v l) = length l.
Proof. intros H. apply length_splice. rewrite length_bytes_of. exact H. Qed.

Lemma rdf_wrf f v l : in_bounds f l -> rdf f (wrf f v l) = cast (f_ty f) v.
Proof.
  intros H. unfold rdf, wrf. rewrite sub_splice; rewrite ?length_bytes_of; [|exact H|done].
  by rewrite leval_bytes_of, cast_mod.
Qed.

Lemma rdf_wrf_ne f g v l : in_bounds g l -> apart f g -> rdf f (wrf g v l) = rdf f l.
Proof.
  intros H Hd. unfold rdf, wrf. rewrite sub_splice_ne; rewrite ?length_bytes_of; done.
Qed.

Lemma in_bounds_wrf f g v l : in_bounds g l -> in_bounds f l -> in_bounds f (wrf g v l).
Proof. unfold in_bounds at 2 3. intros H. by rewrite length_wrf. Qed.

Lemma wrf_byte f v l : Forall byte l -> Forall byte (wrf f v l).
Proof. intros H. apply splice_Forall; [apply bytes_of_byte|done]. Qed.

(** ** The structures *)

(** [struct filsys] *)
Definition s_isize := fld 0 CU16.
Definition s_fsize := fld 4 CS32.
Definition s_nfree := fld 8 CS16.
Definition s_free := fld 12 CS32.
Definition s_ninode := fld 212 CS16.
Definition s_inode := fld 214 CU16.
Definition s_flock := fld 414 CS8.
Definition s_ilock := fld 415 CS8.
Definition s_fmod := fld 416 CS8.
Definition s_ronly := fld 417 CS8.
Definition s_time := fld 420 CS32.
Definition sizeof_filsys : nat := 448.

(** [struct fblk] *)
Definition df_nfree := fld 0 CS32.
Definition df_free := fld 4 CS32.

(** [struct dinode] *)
Definition di_mode := fld 0 CU16.
Definition di_nlink := fld 2 CS16.
Definition di_uid := fld 4 CS16.
Definition di_gid := fld 6 CS16.
Definition di_size := fld 8 CS32.
Definition di_addr := fld 12 CS8.
Definition di_atime := fld 52 CS32.
Definition di_mtime := fld 56 CS32.
Definition di_ctime := fld 60 CS32.
Definition sizeof_dinode : nat := 64.

(** [struct direct] *)
Definition d_ino := fld 0 CU16.
Definition d_name := fld 2 CS8.
Definition sizeof_direct : nat := 16.

(** An array of [daddr_t] in a block. *)
Definition b_daddr := fld 0 CS32.
