(* ===== verification/State.v ===== *)
(** * State: the data of the kernel

    The structures of [h/*.h] and the global objects of the kernel.  Pointers into a table are
    indices into it and NULL is [None]; a buffer header is named by [bptr]
    because the headers of the pool, the free list, the device queues and the
    swap I/O are linked with one another.  Integers are kept at the width the
    structures give them.

    The kernel runs one process at a time: [u] is the user structure of the
    process whose system call is modelled, [ks] everything it shares with the
    others, and [env] what the others will do while it is off the processor,
    one transition of [ks] for each time it gives the processor up. *)

From S2P Require Import Prelude Bytes.
From S2P Require Import Malloc Clist Callout.

(** ** Names of objects *)

(** Buffer headers: [buf[i]], [bfreelist], [swbuf1], [swbuf2], and the queue
    head and the raw-I/O header of the driver with a major number. *)
Inductive bptr := Buf (i : nat) | Bfree | Swbuf1 | Swbuf2 | Dtab (maj : nat) | Rbuf (maj : nat).
#[export] Instance bptr_eq_dec : EqDecision bptr.
Proof. solve_decision. Defined.
#[export] Instance bptr_countable : Countable bptr.
Proof.
  refine (inj_countable'
    (fun b => match b with
              | Buf i => inl (inl i) | Bfree => inr 0%nat | Swbuf1 => inr 1%nat
              | Swbuf2 => inr 2%nat | Dtab m => inl (inr (inl m)) | Rbuf m => inl (inr (inr m))
              end)
    (fun x => match x with
              | inl (inl i) => Buf i | inl (inr (inl m)) => Dtab m | inl (inr (inr m)) => Rbuf m
              | inr O => Bfree | inr 1%nat => Swbuf1 | inr _ => Swbuf2
              end) _).
  by intros [].
Defined.

(** Addresses used as the event of a [sleep]: the address of an object, or of
    a member of it. [CNull] is address 0. *)
Inductive chan :=
| CNull
| CBuf (bp : bptr)
| CInode (ip : nat) (off : nat)      (* (caddr_t)ip + off *)
| CProc (p : nat)
| CText (xp : nat)
| CFs (bp : bptr) (f : field)        (* &fp->s_flock, &fp->s_ilock *)
| CRunin | CRunout | CLbolt | CIpc | CUser
| CRawq (tp : nat) | COutq (tp : nat)  (* &tp->t_rawq, &tp->t_outq *)
| CRaw (t : Z).                         (* an integer stored in a pointer's place *)
#[export] Instance cty_eq_dec : EqDecision cty.
Proof. solve_decision. Defined.
#[export] Instance field_eq_dec : EqDecision field.
Proof. solve_decision. Defined.
#[export] Instance chan_eq_dec : EqDecision chan.
Proof. solve_decision. Defined.

(** Where [u_base] points: into the user's address space, or at a kernel
    object ([u_segflg] set). *)
Inductive kobj := ODent | OAcct | OUser | OExdata | OBuf (bp : bptr).
#[export] Instance kobj_eq_dec : EqDecision kobj.
Proof. solve_decision. Defined.

(** ** The structures *)

(** [struct proc] *)
Record proc := mkproc {
  p_stat : Z; p_flag : Z; p_pri : Z; p_time : Z; p_cpu : Z; p_nice : Z;  (* char *)
  p_sig : Z; p_uid : Z; p_pgrp : Z; p_pid : Z; p_ppid : Z; p_addr : Z; p_size : Z; (* short *)
  p_wchan : chan;
  p_textp : option nat;
  p_link : option nat;
  p_clktim : Z;
  xp_utime : Z; xp_stime : Z        (* struct xproc: over p_wchan and p_textp *)
}.
#[export] Instance eta_proc : Eta proc := fun r =>
  mkproc (p_stat r) (p_flag r) (p_pri r) (p_time r) (p_cpu r) (p_nice r) (p_sig r) (p_uid r)
    (p_pgrp r) (p_pid r) (p_ppid r) (p_addr r) (p_size r) (p_wchan r) (p_textp r) (p_link r)
    (p_clktim r) (xp_utime r) (xp_stime r).

(** [struct text] *)
Record text := mktext {
  x_daddr : Z; x_caddr : Z; x_size : Z; x_iptr : option nat; x_count : Z; x_ccount : Z; x_flag : Z
}.
#[export] Instance eta_text : Eta text := fun r =>
  mktext (x_daddr r) (x_caddr r) (x_size r) (x_iptr r) (x_count r) (x_ccount r) (x_flag r).

(** [struct inode]; [i_rdev] shares the storage of [i_addr[0]]. *)
Record inode := mkinode {
  i_flag : Z; i_count : Z;                                    (* char *)
  i_dev : Z; i_number : Z; i_mode : Z; i_nlink : Z; i_uid : Z; i_gid : Z;
  i_size : Z;
  i_addr : list Z;                                            (* NADDR of them *)
  i_lastr : Z
}.
#[export] Instance eta_inode : Eta inode := fun r =>
  mkinode (i_flag r) (i_count r) (i_dev r) (i_number r) (i_mode r) (i_nlink r) (i_uid r)
    (i_gid r) (i_size r) (i_addr r) (i_lastr r).
Definition i_rdev (r : inode) : Z := nth 0 (i_addr r) 0.

(** [struct file] *)
Record file := mkfile { f_flag : Z; f_count : Z; f_inode : nat; f_offset : Z }.
#[export] Instance eta_file : Eta file := fun r =>
  mkfile (f_flag r) (f_count r) (f_inode r) (f_offset r).

(** [struct mount] *)
Record mount := mkmount { m_dev : Z; m_bufp : option bptr; m_inodp : option nat }.
#[export] Instance eta_mount : Eta mount := fun r => mkmount (m_dev r) (m_bufp r) (m_inodp r).

(** [struct buf].  [b_addr] is [None] when [b_un.b_addr] points at the
    header's own array of [buffers], whose contents are [b_data]; for swapping
    and raw I/O it is a physical address. *)
Record buf := mkbuf {
  b_flags : Z;
  b_forw : option bptr; b_back : option bptr; av_forw : option bptr; av_back : option bptr;
  b_dev : Z; b_bcount : Z; b_addr : option Z; b_data : list Z; b_blkno : Z; b_error : Z;
  b_resid : Z
}.
#[export] Instance eta_buf : Eta buf := fun r =>
  mkbuf (b_flags r) (b_forw r) (b_back r) (av_forw r) (av_back r) (b_dev r) (b_bcount r)
    (b_addr r) (b_data r) (b_blkno r) (b_error r) (b_resid r).

(** [u_base]: an address of the user, or of a kernel object. *)
Inductive uaddr := UA (a : Z) | KA (o : kobj) (off : Z).
Definition uadd (b : uaddr) (n : Z) : uaddr :=
  match b with UA a => UA (a + n) | KA o off => KA o (off + n) end.

(** The registers the user's stack frame saves, [u_ar0]. *)
Record regs := mkregs {
  r_eax : Z; r_ecx : Z; r_edx : Z; r_ebx : Z; r_esp : Z; r_ebp : Z; r_esi : Z; r_edi : Z;
  r_eip : Z; r_efl : Z
}.
#[export] Instance eta_regs : Eta regs := fun r =>
  mkregs (r_eax r) (r_ecx r) (r_edx r) (r_ebx r) (r_esp r) (r_ebp r) (r_esi r) (r_edi r)
    (r_eip r) (r_efl r).

(** [struct user], the members the modelled routines use. *)
Record user := mkuser {
  u_segflg : Z; u_error : Z;
  u_uid : Z; u_gid : Z; u_ruid : Z; u_rgid : Z;
  u_procp : nat;
  u_r_val1 : Z; u_r_val2 : Z;
  u_base : uaddr; u_count : Z; u_offset : Z;
  u_cdir : nat; u_rdir : option nat;
  u_dbuf : list Z;                  (* DIRSIZ characters *)
  u_dirp : Z;
  u_dent : list Z;                  (* a struct direct *)
  u_pdir : nat;
  u_ofile : list (option nat); u_pofile : list Z;
  u_arg : list Z;
  u_tsize : Z; u_dsize : Z; u_ssize : Z;
  u_signal : list Z;
  u_utime : Z; u_stime : Z; u_cutime : Z; u_cstime : Z;
  u_ttyd : Z; u_ttyp : option nat;
  u_comm : list Z; u_start : Z; u_acflag : Z; u_cmask : Z;
  pr_scale : Z;                     (* u_prof.pr_scale *)
  u_exdata : list Z;                (* the header of the program being executed *)
  u_ar0 : regs; u_sep : Z; u_fpsaved : Z;
  pr_base : Z; pr_size : Z; pr_off : Z;
  u_utab : list Z                   (* pages of text, data and stack; access to the text *)
}.
#[export] Instance eta_user : Eta user := fun r =>
  mkuser (u_segflg r) (u_error r) (u_uid r) (u_gid r) (u_ruid r) (u_rgid r) (u_procp r)
    (u_r_val1 r) (u_r_val2 r) (u_base r) (u_count r) (u_offset r) (u_cdir r) (u_rdir r)
    (u_dbuf r) (u_dirp r) (u_dent r) (u_pdir r) (u_ofile r) (u_pofile r) (u_arg r)
    (u_tsize r) (u_dsize r) (u_ssize r) (u_signal r) (u_utime r) (u_stime r) (u_cutime r)
    (u_cstime r) (u_ttyd r) (u_ttyp r) (u_comm r) (u_start r) (u_acflag r) (u_cmask r) (pr_scale r) (u_exdata r)
    (u_ar0 r) (u_sep r) (u_fpsaved r) (pr_base r) (pr_size r) (pr_off r) (u_utab r).

(** [io_info] of [bio.c]. *)
Record iostat := mkiostat { nread : Z; nreada : Z; ncache : Z; nwrite : Z; bufcount : list Z }.
#[export] Instance eta_iostat : Eta iostat := fun r =>
  mkiostat (nread r) (nreada r) (ncache r) (nwrite r) (bufcount r).

(** [struct tty]; [t_tc] is the characters of [struct tc] and [t_chan] tells
    whether the pointer of that name is set. *)
Record tty := mktty {
  t_rawq : clist; t_canq : clist; t_outq : clist;
  t_chan : bool;
  t_dev : Z; t_flags : Z; t_state : Z; t_pgrp : Z;
  t_delct : Z; t_line : Z; t_col : Z; t_erase : Z; t_kill : Z; t_char : Z; t_ispeed : Z; t_ospeed : Z;
  t_tc : list Z
}.
#[export] Instance eta_tty : Eta tty := fun r =>
  mktty (t_rawq r) (t_canq r) (t_outq r) (t_chan r) (t_dev r) (t_flags r) (t_state r) (t_pgrp r)
    (t_delct r) (t_line r) (t_col r) (t_erase r) (t_kill r) (t_char r) (t_ispeed r) (t_ospeed r)
    (t_tc r).

(** What the kernel prints on the console. *)
Inductive message := Printf (s : string) | Prdev (s : string) (dev : Z).

Record kernel := mkkernel {
  procs : list proc; slpque : list (option nat); runq : option nat;
  runin : Z; runout : Z; runrun : Z; curpri : Z; mpid : Z; pl : Z;
  lbolt : Z; time : Z; dk_busy : Z; dk_time : list Z;
  callout : list callo;
  coremap : list mapent; swapmap : list mapent;
  texts : list text;
  inodes : list inode; files : list file; mounts : list mount;
  rootdir : nat; rootdev : Z; pipedev : Z; swapdev : Z; swplo : Z; nswap : Z;
  updlock : Z; rablock : Z;
  bufs : gmap bptr buf; io_info : iostat;
  acctp : option nat; acctbuf : list Z;
  mpxip : option nat;
  ttys : list tty; tk_nin : Z; tk_nout : Z;
  cl : cstate;                      (* the cblocks; its queue and level are scratch *)
  ip_lock : Z; ip_req : Z; ip_addr : Z; ip_data : Z;  (* struct ipc of sig.c *)
  upt : list Z; uplo : Z; uphi : Z; maxmem : Z;  (* the user's page table *)
  pmem : Z -> Z;                    (* physical memory, by byte, from PHY up *)
  console : list message
}.
#[export] Instance eta_kernel : Eta kernel := fun r =>
  mkkernel (procs r) (slpque r) (runq r) (runin r) (runout r) (runrun r) (curpri r) (mpid r)
    (pl r) (lbolt r) (time r) (dk_busy r) (dk_time r) (callout r) (coremap r) (swapmap r) (texts r) (inodes r) (files r) (mounts r)
    (rootdir r) (rootdev r) (pipedev r) (swapdev r) (swplo r) (nswap r) (updlock r) (rablock r)
    (bufs r) (io_info r) (acctp r) (acctbuf r) (mpxip r) (ttys r) (tk_nin r) (tk_nout r) (cl r) (ip_lock r) (ip_req r) (ip_addr r) (ip_data r) (upt r) (uplo r) (uphi r) (maxmem r) (pmem r) (console r).

Record world := mkworld { u : user; ks : kernel; env : list (kernel -> kernel) }.
#[export] Instance eta_world : Eta world := fun r => mkworld (u r) (ks r) (env r).

Abbreviation KM := (M world).

(** ** Access to the state *)

Definition uf {A} (f : user -> A) : KM A := gets (fun w => f (u w)).
Definition umod (g : user -> user) : KM unit := modify (fun w => w <| u ::= g |>).
Definition uset {T} (f : user -> T) {S : Setter f} (v : T) : KM unit := umod (setf f (fun _ => v)).

Definition kf {A} (f : kernel -> A) : KM A := gets (fun w => f (ks w)).
Definition kmod (g : kernel -> kernel) : KM unit := modify (fun w => w <| ks ::= g |>).
Definition kset {T} (f : kernel -> T) {S : Setter f} (v : T) : KM unit := kmod (setf f (fun _ => v)).

(** A table of the kernel: reading an element through its index and
    assigning to it, both a fault outside the table. *)
Section Table.
Context {E : Type} (tab : kernel -> list E) {ST : Setter tab}.
Definition tget (i : nat) : KM E := t <- kf tab ;; the (t !! i).
Definition tmod (i : nat) (g : E -> E) : KM unit :=
  e <- tget i ;; kmod (setf tab (fun t => <[i := g e]> t)).
End Table.

(** A routine that works on one object of the kernel. *)
Definition zoom {T A} (f : kernel -> T) {S : Setter f} (m : M T A) : KM A := fun w =>
  let put t := w <| ks ::= setf f (fun _ => t) |> in
  match m (f (ks w)) with
  | Ret a t => Ret a (put t)
  | Panic msg t => Panic msg (put t)
  | Longjmp t => Longjmp (put t)
  | Asleep t => Asleep (put t)
  | Fault => Fault
  | NoFuel => NoFuel
  end.

Definition pf {A} (p : nat) (f : proc -> A) : KM A := r <- tget procs p ;; ret (f r).
Definition pset {T} (p : nat) (f : proc -> T) {S : Setter f} (v : T) : KM unit :=
  tmod procs p (setf f (fun _ => v)).
Definition xf {A} (x : nat) (f : text -> A) : KM A := r <- tget texts x ;; ret (f r).
Definition xset {T} (x : nat) (f : text -> T) {S : Setter f} (v : T) : KM unit :=
  tmod texts x (setf f (fun _ => v)).
Definition ipf {A} (i : nat) (f : inode -> A) : KM A := r <- tget inodes i ;; ret (f r).
Definition ipset {T} (i : nat) (f : inode -> T) {S : Setter f} (v : T) : KM unit :=
  tmod inodes i (setf f (fun _ => v)).
Definition ff {A} (i : nat) (f : file -> A) : KM A := r <- tget files i ;; ret (f r).
Definition fset {T} (i : nat) (f : file -> T) {S : Setter f} (v : T) : KM unit :=
  tmod files i (setf f (fun _ => v)).
Definition mpf {A} (i : nat) (f : mount -> A) : KM A := r <- tget mounts i ;; ret (f r).
Definition mpset {T} (i : nat) (f : mount -> T) {S : Setter f} (v : T) : KM unit :=
  tmod mounts i (setf f (fun _ => v)).

Definition tf {A} (i : nat) (f : tty -> A) : KM A := r <- tget ttys i ;; ret (f r).
Definition tset {T} (i : nat) (f : tty -> T) {S : Setter f} (v : T) : KM unit :=
  tmod ttys i (setf f (fun _ => v)).

Definition bget (bp : bptr) : KM buf := t <- kf bufs ;; the (t !! bp).
Definition bf {A} (bp : bptr) (f : buf -> A) : KM A := r <- bget bp ;; ret (f r).
Definition bset {T} (bp : bptr) (f : buf -> T) {S : Setter f} (v : T) : KM unit :=
  e <- bget bp ;; kmod (setf bufs (fun t => <[bp := setf f (fun _ => v) e]> t)).

(** Flags: [f |= m], [f &= ~m]. *)
Definition or_flag (m x : Z) : Z := Z.lor x m.

(** ** Constants of [h/param.h] *)

Definition NPROC : nat := 150.
Definition NINODE : nat := 200.
Definition NFILE : nat := 175.
Definition NMOUNT : nat := 8.
Definition NBUF : nat := 251.
Definition NTEXT : nat := 40.
Definition NOFILE : nat := 20.
Definition NSIG : Z := 17.
Definition NADDR : Z := 13.
Definition NINDIR : Z := 128.
Definition BSIZE : Z := 512.
Definition BMASK : Z := 511.
Definition BSHIFT : Z := 9.
Definition NMASK : Z := 127.
Definition NSHIFT : Z := 7.
Definition NODEV : Z := -1.
Definition ROOTINO : Z := 2.
Definition SUPERB : Z := 1.
Definition DIRSIZ : nat := 14.
Definition NICINOD : Z := 100.
Definition NICFREE : Z := 50.
Definition INOPB : Z := 8.
Definition USIZE : Z := 2.
Definition HZ : Z := 60.
Definition PGSH : Z := 12.
Definition PGSZ : Z := 4096.
Definition USTK : Z := 4194304.
Definition PHY : Z := 1073741824.

(** Units: clicks to disk blocks and to bytes, bytes to clicks. *)
Definition ctod (x : Z) : Z := Z.shiftl x 3.
Definition ctob (x : Z) : Z := Z.shiftl x 12.
Definition btoc (x : Z) : Z := Z.shiftr (u32 (x + 4095)) 12.

Definition PSWP : Z := 0.
Definition PINOD : Z := 10.
Definition PRIBIO : Z := 20.
Definition PZERO : Z := 25.
Definition NZERO : Z := 20.
Definition PPIPE : Z := 26.
Definition PWAIT : Z := 30.
Definition PSLEP : Z := 40.
Definition PUSER : Z := 50.

Definition SSLEEP : Z := 1.
Definition SRUN : Z := 3.
Definition SIDL : Z := 4.
Definition SZOMB : Z := 5.
Definition SSTOP : Z := 6.

Definition SLOAD : Z := 1.
Definition SSYS : Z := 2.
Definition SLOCK : Z := 4.
Definition SSWAP : Z := 8.
Definition STRC : Z := 16.
Definition SWTED : Z := 32.
Definition SULOCK : Z := 64.

Definition SIGINT : Z := 2.
Definition SIGQUIT : Z := 3.
Definition SIGINS : Z := 4.
Definition SIGTRC : Z := 5.
Definition SIGIOT : Z := 6.
Definition SIGEMT : Z := 7.
Definition SIGFPT : Z := 8.
Definition SIGBUS : Z := 10.
Definition SIGSEG : Z := 11.
Definition SIGSYS : Z := 12.

Definition EXCLOSE : Z := 1.

Definition EPERM : Z := 1.
Definition ENOENT : Z := 2.
Definition ESRCH : Z := 3.
Definition EINTR : Z := 4.
Definition EIO : Z := 5.
Definition ENXIO : Z := 6.
Definition E2BIG : Z := 7.
Definition ENOEXEC : Z := 8.
Definition EBADF : Z := 9.
Definition ECHILD : Z := 10.
Definition EAGAIN : Z := 11.
Definition ENOMEM : Z := 12.
Definition EACCES : Z := 13.
Definition EFAULT : Z := 14.
Definition ENOTBLK : Z := 15.
Definition EBUSY : Z := 16.
Definition EEXIST : Z := 17.
Definition EXDEV : Z := 18.
Definition ENODEV : Z := 19.
Definition ENOTDIR : Z := 20.
Definition EISDIR : Z := 21.
Definition EINVAL : Z := 22.
Definition ENFILE : Z := 23.
Definition EMFILE : Z := 24.
Definition ENOTTY : Z := 25.
Definition ETXTBSY : Z := 26.
Definition EFBIG : Z := 27.
Definition ENOSPC : Z := 28.
Definition ESPIPE : Z := 29.
Definition EROFS : Z := 30.
Definition EMLINK : Z := 31.
Definition EPIPE : Z := 32.

(** ** What every routine uses *)

Definition panic {A} (msg : string) : KM A := fun w => Panic msg w.
Definition printf (s : string) : KM unit := kmod (fun k => k <| console ::= fun l => l ++ [Printf s] |>).
(** [prdev(str, dev)] of [prf.c]. *)
Definition prdev (s : string) (dev : Z) : KM unit :=
  kmod (fun k => k <| console ::= fun l => l ++ [Prdev s dev] |>).

(** The processor level: each returns the level it replaces. *)
Definition spl (n : Z) : KM Z := s <- kf pl ;; kset pl n ;;; ret s.
Definition spl0 : KM unit := spl 0 ;;; ret tt.
Definition spl1 : KM unit := spl 1 ;;; ret tt.
Definition spl5 : KM unit := spl 5 ;;; ret tt.
Definition spl6 : KM Z := spl 6.
Definition spl7 : KM Z := spl 7.
Definition splx (s : Z) : KM unit := kset pl s.

(** [u.u_error = e], a [char]. *)
Definition set_error (e : Z) : KM unit := uset u_error (s8 e).

(** A list of the table's indices: [for (p = &tab[0]; p < &tab[n]; p++)]. *)
Definition slots (n : nat) : list nat := seq 0 n.

Definition major (dev : Z) : Z := Z.shiftr (u32 dev) 8.
Definition minor (dev : Z) : Z := Z.land dev 255.
Definition makedev (x y : Z) : Z := s16 (Z.lor (Z.shiftl x 8) y).

(** ** What lies outside the modelled sources

    The linker decides the addresses that [HASH] looks at, the generated
    [c.c] the contents of the device switches, the start-up code of [mch.s] the
    kernel's page tables; the compiler lays out [struct user]. *)

Record bdev := mkbdev {
  d_open : Z -> bool -> KM unit; d_close : Z -> bool -> KM unit;
  d_strategy : bptr -> KM unit; d_tab : option bptr
}.
Record cdev := mkcdev {
  cd_open : Z -> Z -> KM unit; cd_close : Z -> Z -> KM unit;
  cd_read : Z -> KM unit; cd_write : Z -> KM unit; cd_ioctl : Z -> Z -> Z -> Z -> KM unit;
  cd_stop : nat -> KM unit
}.
(** A line discipline of [linesw]. *)
Record ldisc := mkldisc {
  l_open : Z -> nat -> Z -> KM unit; l_close : nat -> KM unit; l_ioctl : Z -> nat -> Z -> KM unit
}.

Class Machine := {
  addr : chan -> Z;
  waitloc : Z;                        (* where [idle] waits *)
  addupc : Z -> Z -> KM unit;         (* the profiling of [mch.s] *)
  ptab : nat -> list Z;               (* the kernel's page tables, by directory index *)
  callfunc : nat -> Z -> KM unit;     (* the routines [timeout] is given *)
  buffers : Z;                        (* the address of [buffers], for alignment *)
  user_image : user -> list Z;        (* [u] as the compiler lays it out, and the stack after it *)
  user_poke : Z -> Z -> user -> option user;  (* a store there that a tracer may make *)
  bdevsw : list bdev;
  cdevsw : list cdev;
  linesw : list ldisc;
  t_oproc : nat -> KM unit            (* the driver's routine to start output *)
}.

(** [bdevsw[major(dev)]]: a fault past the table. *)
Definition bdevsw_at `{Machine} (dev : Z) : KM bdev := the (bdevsw !! Z.to_nat (major dev)).
Definition nblkdev `{Machine} : Z := Z.of_nat (length bdevsw).
Definition cdevsw_at `{Machine} (dev : Z) : KM cdev := the (cdevsw !! Z.to_nat (major dev)).
Definition nchrdev `{Machine} : Z := Z.of_nat (length cdevsw).

(** ** Stepping through accesses *)

Section Steps.
Context {E : Type} (tab : kernel -> list E) {ST : Setter tab}.

Lemma tget_ok w i e : tab (ks w) !! i = Some e -> tget tab i w = Ret e w.
Proof. intros H. unfold tget, kf, gets, bind. by rewrite H. Qed.

Lemma tmod_ok w i e g : tab (ks w) !! i = Some e ->
  tmod tab i g w = Ret tt (w <| ks ::= setf tab (fun t => <[i := g e]> t) |>).
Proof. intros H. unfold tmod. erewrite bind_ret_eq by (by apply tget_ok). done. Qed.

Lemma tfield_ok {A} (f : E -> A) w i e : tab (ks w) !! i = Some e ->
  (r <- tget tab i ;; ret (f r)) w = Ret (f e) w.
Proof. intros H. by erewrite bind_ret_eq by (by apply tget_ok). Qed.
End Steps.

Lemma pf_ok {A} (f : proc -> A) w p r : procs (ks w) !! p = Some r -> pf p f w = Ret (f r) w.
Proof. apply (tfield_ok procs). Qed.
Lemma ipf_ok {A} (f : inode -> A) w p r : inodes (ks w) !! p = Some r -> ipf p f w = Ret (f r) w.
Proof. apply (tfield_ok inodes). Qed.
Lemma ff_ok {A} (f : file -> A) w p r : files (ks w) !! p = Some r -> ff p f w = Ret (f r) w.
Proof. apply (tfield_ok files). Qed.
Lemma mpf_ok {A} (f : mount -> A) w p r : mounts (ks w) !! p = Some r -> mpf p f w = Ret (f r) w.
Proof. apply (tfield_ok mounts). Qed.
Lemma pset_ok {T} (f : proc -> T) {S : Setter f} v w p r : procs (ks w) !! p = Some r ->
  pset p f v w =
  Ret tt (w <| ks ::= fun k => k <| procs ::= <[p := setf f (fun _ => v) r]> |> |>).
Proof. apply (tmod_ok procs). Qed.
Lemma bget_ok w bp b : bufs (ks w) !! bp = Some b -> bget bp w = Ret b w.
Proof. intros H. unfold bget, kf, gets, bind. by rewrite H. Qed.
Lemma bf_ok {A} (f : buf -> A) w bp b : bufs (ks w) !! bp = Some b -> bf bp f w = Ret (f b) w.
Proof. intros H. unfold bf. by erewrite bind_ret_eq by (by apply bget_ok). Qed.
Lemma bset_ok {T} (f : buf -> T) {S : Setter f} v w bp b : bufs (ks w) !! bp = Some b ->
  bset bp f v w =
  Ret tt (w <| ks ::= fun k => k <| bufs ::= <[bp := setf f (fun _ => v) b]> |> |>).
Proof. intros H. unfold bset. by erewrite bind_ret_eq by (by apply bget_ok). Qed.

(** ** What the accesses leave alone *)

Section KeepsState.
Context {T : Type} (f : world -> T).

Lemma keeps_uf {A} (g : user -> A) : keeps f (uf g).
Proof. apply keeps_gets. Qed.
Lemma keeps_kf {A} (g : kernel -> A) : keeps f (kf g).
Proof. apply keeps_gets. Qed.
Lemma keeps_umod g : (forall w, f (w <| u ::= g |>) = f w) -> keeps f (umod g).
Proof. apply keeps_modify. Qed.
Lemma keeps_kmod g : (forall w, f (w <| ks ::= g |>) = f w) -> keeps f (kmod g).
Proof. apply keeps_modify. Qed.
Lemma keeps_tget {E} (tab : kernel -> list E) i : keeps f (tget tab i).
Proof. apply keeps_bind; [apply keeps_kf|intros t; apply keeps_the]. Qed.
Lemma keeps_tmod {E} (tab : kernel -> list E) {ST : Setter tab} i g :
  (forall w h, f (w <| ks ::= setf tab h |>) = f w) -> keeps f (tmod tab i g).
Proof.
  intros H. apply keeps_bind; [apply keeps_tget|]. intros e. apply keeps_kmod. intros w. apply H.
Qed.
Lemma keeps_panic {A} msg : keeps f (panic (A := A) msg).
Proof. by intros s a s'. Qed.
End KeepsState.

#[export] Hint Resolve keeps_uf keeps_kf keeps_tget keeps_panic : keeps.
#[export] Hint Extern 1 (keeps _ (umod _)) => (apply keeps_umod; intros []; reflexivity) : keeps.
#[export] Hint Extern 1 (keeps _ (kmod _)) => (apply keeps_kmod; intros []; reflexivity) : keeps.
#[export] Hint Extern 1 (keeps _ (tmod _ _ _)) => (apply keeps_tmod; intros []; reflexivity) : keeps.
(** ** The zeroed data the kernel starts with *)

Definition proc0 : proc := mkproc 0 0 0 0 0 0 0 0 0 0 0 0 0 CNull None None 0 0 0.
Definition inode0 : inode := mkinode 0 0 0 0 0 0 0 0 0 (replicate 13 0) 0.
Definition file0 : file := mkfile 0 0 0 0.
Definition mount0 : mount := mkmount 0 None None.
Definition buf0 : buf := mkbuf 0 None None None None 0 0 None (replicate 512 0) 0 0 0.
Definition text0 : text := mktext 0 0 0 None 0 0 0.
Definition user0 : user :=
  mkuser 0 0 0 0 0 0 0 0 0 (UA 0) 0 0 0 None (replicate 14 0) 0 (replicate 16 0) 0
    (replicate 20 None) (replicate 20 0) (replicate 5 0) 0 0 0 (replicate 17 0) 0 0 0 0 0 None
    (replicate 14 0) 0 0 0 0 (replicate 32 0)
    (mkregs 0 0 0 0 0 0 0 0 0 0) 0 0 0 0 0 [0; 0; 0; 7].
Definition kernel0 : kernel :=
  mkkernel [] (replicate 64 None) None 0 0 0 0 0 0 0 0 0 (replicate 32 0) [] [] [] [] [] [] [] 0 0 0 0 0 0 0 0 ∅
    (mkiostat 0 0 0 0 (replicate 251 0)) None (replicate 32 0) None [] 0 0 (mkcstate ∅ ∅ 0 0 0 (mkclist 0 0 0)) 0 0 0 0 (replicate 1024 0) 0 1023 1024 (fun _ => 0) [].
Definition world0 : world := mkworld user0 kernel0 [].

(** A machine whose objects all hash alike and which has no devices. *)
Definition machine0 : Machine := Build_Machine (fun _ => 0) 0 (fun _ _ => ret tt) (fun _ => []) (fun _ _ => ret tt) 0 (fun _ => []) (fun _ _ _ => None) [] [] [] (fun _ => ret tt).
