(* ===== verification/Utab.v ===== *)
(** * Utab: the user's page table ([sys/utab.c]) and his memory

    [estabur] checks and records the sizes of the segments, [sureg] maps them:
    text and data from page 0 up, the stack from page 1023 down.  A user's
    address reaches physical memory through the table. *)

From S2P Require Import Prelude Bytes State.

Definition NT : nat := 0.
Definition ND : nat := 1.
Definition NS : nat := 2.
Definition XX : nat := 3.
Definition RO : Z := 5.
Definition RW : Z := 7.

(** Bytes of physical memory. *)
Definition phys_read (m : Z -> Z) (a : Z) (n : nat) : list Z :=
  map (fun i => m (a + Z.of_nat i)) (seq 0 n).
Definition phys_write (m : Z -> Z) (a : Z) (l : list Z) : Z -> Z :=
  fun x => if (a <=? x) && (x <? a + Z.of_nat (length l)) then nth (Z.to_nat (x - a)) l 0 else m x.

Section Utab.
Context {MC : Machine}.

Definition upt_set (i v : Z) : KM unit :=
  if i <? 0 then fault else tmod upt (Z.to_nat i) (fun _ => v).
(** [for (n = ...; n--; a += PGSZ) upt[i++] = a | x], and downwards for the
    stack the indices that [upt[++i]] goes through. *)
Definition map_pages (i0 a n x : Z) : KM unit :=
  for_ (seqZ 0 n) (fun j => upt_set (i0 + j) (Z.lor (a + j * PGSZ) x)).

Definition sureg : KM unit :=
  ut <- uf u_utab ;;
  nt <- the (ut !! NT) ;; nd <- the (ut !! ND) ;; ns <- the (ut !! NS) ;; xx <- the (ut !! XX) ;;
  lo <- kf uplo ;;
  kset uplo (nt + nd) ;;;
  for_ (rev (seqZ (nt + nd) (lo - (nt + nd)))) (fun i => upt_set i 0) ;;;
  hi <- kf uphi ;;
  kset uphi (1023 - ns) ;;;
  for_ (seqZ (hi + 1) (1023 - ns - hi)) (fun i => upt_set i 0) ;;;
  p <- uf u_procp ;;
  daddr <- pf p p_addr ;;
  tp <- pf p p_textp ;;
  taddr <- match tp with Some tp => xf tp x_caddr | None => ret daddr end ;;
  map_pages 0 (taddr * PGSZ) nt xx ;;;
  let a := daddr * PGSZ + USIZE * PGSZ in
  map_pages nt a nd 7 ;;;
  map_pages (1023 - ns + 1) (a + nd * PGSZ) ns 7.

(** 0, or -1 with ENOMEM. *)
Definition estabur (nt nd ns xrw : Z) : KM Z :=
  mx <- kf maxmem ;;
  if (1023 <? s32 (nt + nd + ns)) || (mx <? s32 (nt + nd + ns + USIZE)) then
    set_error ENOMEM ;;; ret (-1)
  else
    uset u_utab [nt; nd; ns; xrw] ;;;
    sureg ;;;
    ret 0.

Definition clearseg (d : Z) : KM unit :=
  kmod (fun k => k <| pmem ::= fun m => phys_write m (PHY + ctob d) (replicate (Z.to_nat PGSZ) 0) |>).
Definition copyseg (s d : Z) : KM unit :=
  if s =? d then ret tt
  else kmod (fun k => k <| pmem ::= fun m =>
         phys_write m (PHY + ctob d) (phys_read m (PHY + ctob s) (Z.to_nat PGSZ)) |>).

(** The page tables: the user's is the first of the directory. *)
Definition page_entry (d : Z) (t : nat) : KM Z :=
  tab <- (if d =? 0 then kf upt else ret (ptab (Z.to_nat d))) ;; the (tab !! t).
Definition physaddr (addr : Z) : KM Z :=
  let d := Z.shiftr addr 22 in
  let t := Z.land (Z.shiftr addr 12) 1023 in
  let o := Z.land addr 4095 in
  e <- page_entry d (Z.to_nat t) ;;
  ret (clr e 4095 + o).

End Utab.

(** ** The user's memory ([fubyte], [subyte], [copyin], [copyout])

    The routines of [mch.s] let a user's address through when it lies below
    USTK and, for a store, not in text he cannot write; an access to a page
    that is not present ends them with -1. *)

(** Where the processor finds a user's byte: the entry's present bit is 1. *)
Definition uphys (k : kernel) (a : Z) : option Z :=
  match upt k !! Z.to_nat (Z.shiftr a 12) with
  | Some e => if e &? 1 then Some (PHY + clr e 4095 + Z.land a 4095) else None
  | None => None
  end.
Definition ureach (a n : Z) : bool := (0 <=? a) && (a <=? USTK) && (n <=? USTK - a).
Definition text_limit (us : user) : Z :=
  if nth XX (u_utab us) 0 =? RW then 0 else Z.shiftl (nth NT (u_utab us) 0) PGSH.

Definition ubyte (k : kernel) (a : Z) : option Z := uphys k a ≫= fun p => Some (pmem k p).
Definition ustore (k : kernel) (a c : Z) : option kernel :=
  uphys k a ≫= fun p => Some (k <| pmem ::= fun m => phys_write m p [u8 c] |>).

Definition fubyte (b : uaddr) : KM Z :=
  k <- kf (fun k => k) ;;
  ret (match b with
       | UA a => if ureach a 1 then match ubyte k a with Some c => c | None => -1 end else -1
       | KA _ _ => -1
       end).
Definition subyte (b : uaddr) (c : Z) : KM Z :=
  us <- uf (fun r => r) ;;
  k <- kf (fun k => k) ;;
  match b with
  | UA a =>
      if ureach a 1 && (text_limit us <=? a) then
        match ustore k a c with
        | Some k' => kmod (fun _ => k') ;;; ret 0
        | None => ret (-1)
        end
      else ret (-1)
  | KA _ _ => ret (-1)
  end.
Definition word_of (b0 b1 b2 b3 : Z) : Z := s32 (leval [b0; b1; b2; b3]).
Definition fuword (b : uaddr) : KM Z :=
  k <- kf (fun k => k) ;;
  ret (match b with
       | UA a =>
           if ureach a 4 then
             match ubyte k a, ubyte k (a + 1), ubyte k (a + 2), ubyte k (a + 3) with
             | Some b0, Some b1, Some b2, Some b3 => word_of b0 b1 b2 b3
             | _, _, _, _ => -1
             end
           else -1
       | KA _ _ => -1
       end).

(** A word at a time, up to the first word that is not all there. *)
Fixpoint words_in (k : kernel) (a : Z) (n : nat) : list Z * bool :=
  match n with
  | O => ([], true)
  | S n =>
      match ubyte k a, ubyte k (a + 1), ubyte k (a + 2), ubyte k (a + 3) with
      | Some b0, Some b1, Some b2, Some b3 =>
          let '(l, ok) := words_in k (a + 4) n in (b0 :: b1 :: b2 :: b3 :: l, ok)
      | _, _, _, _ => ([], false)
      end
  end.
Definition store_word (k : kernel) (a b0 b1 b2 b3 : Z) : option kernel :=
  if forallb (fun i => bool_decide (is_Some (uphys k (a + i)))) [0; 1; 2; 3] then
    ustore k a b0 ≫= fun k => ustore k (a + 1) b1 ≫= fun k => ustore k (a + 2) b2 ≫= fun k =>
    ustore k (a + 3) b3
  else None.
Fixpoint words_out (k : kernel) (a : Z) (l : list Z) : kernel * bool :=
  match l with
  | b0 :: b1 :: b2 :: b3 :: l =>
      match store_word k a b0 b1 b2 b3 with
      | Some k => words_out k (a + 4) l
      | None => (k, false)
      end
  | _ => (k, true)
  end.
(** The bytes that arrive, and whether all did; the memory after the stores. *)
Definition copyin (k : kernel) (a n : Z) : list Z * bool :=
  if ureach a n then words_in k a (Z.to_nat (n / 4)) else ([], false).
Definition copyout (us : user) (k : kernel) (l : list Z) (a : Z) : kernel * bool :=
  if ureach a (Z.of_nat (length l)) && (text_limit us <=? a) then words_out k a l
  else (k, false).
Definition suword (b : uaddr) (v : Z) : KM Z :=
  us <- uf (fun r => r) ;;
  k <- kf (fun k => k) ;;
  match b with
  | UA a =>
      let '(k', ok) := (if ureach a 4 && (text_limit us <=? a) then words_out k a (bytes_of 4 v) else (k, false)) in
      kmod (fun _ => k') ;;;
      ret (if ok : bool then 0 else -1)
  | KA _ _ => ret (-1)
  end.

(** ** The table [sureg] builds *)

(** Stores into the table, one for each [j] of a list. *)
Definition upt_fold (f g : Z -> Z) (l t : list Z) : list Z :=
  fold_left (fun t j => <[Z.to_nat (f j) := g j]> t) l t.

Lemma upt_fold_cons f g j l t :
  upt_fold f g (j :: l) t = upt_fold f g l (<[Z.to_nat (f j) := g j]> t).
Proof. done. Qed.

Lemma length_upt_fold f g l t : length (upt_fold f g l t) = length t.
Proof.
  revert t; induction l as [|j l IH]; intros t; [done|]. by rewrite upt_fold_cons, IH, length_insert.
Qed.

Lemma upt_fold_other f g l t v : 0 <= v -> (forall j, j ∈ l -> 0 <= f j /\ f j <> v) ->
  upt_fold f g l t !! Z.to_nat v = t !! Z.to_nat v.
Proof.
  intros Hv. revert t; induction l as [|j l IH]; intros t H; [done|].
  rewrite upt_fold_cons, IH by (intros j' Hj'; apply H; by right). apply list_lookup_insert_ne.
  destruct (H j (list_elem_of_here _ _)). lia.
Qed.

Lemma upt_fold_at f g l t j : NoDup l -> (forall i, i ∈ l -> 0 <= f i < Z.of_nat (length t)) ->
  (forall i, i ∈ l -> f i = f j -> i = j) -> j ∈ l ->
  upt_fold f g l t !! Z.to_nat (f j) = Some (g j).
Proof.
  intros Hnd. revert t; induction Hnd as [|i l Hi Hnd IH]; intros t Hr Hinj Hj; [by apply not_elem_of_nil in Hj|].
  rewrite upt_fold_cons. destruct (decide (j = i)) as [->|Hne].
  - pose proof (Hr i (list_elem_of_here _ _)). rewrite upt_fold_other; [|lia|].
    + apply list_lookup_insert_eq. lia.
    + intros x Hx. split; [by apply Hr; right|]. intros E. apply Hi.
      by rewrite <- (Hinj x) by (done || by right).
  - apply elem_of_cons in Hj as [|Hj]; [done|]. apply IH; try done.
    + intros x Hx. rewrite length_insert. apply Hr. by right.
    + intros x Hx. apply Hinj. by right.
Qed.

Definition with_upt (h : list Z -> list Z) (w : world) : world :=
  w <| ks ::= fun k => k <| upt ::= h |> |>.

Lemma upt_set_ok i v w : 0 <= i < Z.of_nat (length (upt (ks w))) ->
  upt_set i v w = Ret tt (with_upt (fun t => <[Z.to_nat i := v]> t) w).
Proof.
  intros H. unfold upt_set. rewrite (proj2 (Z.ltb_ge _ _)) by lia.
  destruct (lookup_lt_is_Some_2 (upt (ks w)) (Z.to_nat i)) as [e He]; [lia|].
  by rewrite (tmod_ok upt w _ e) by done.
Qed.

Lemma for_upt f g l : forall w, (forall j, j ∈ l -> 0 <= f j < Z.of_nat (length (upt (ks w)))) ->
  for_ l (fun j => upt_set (f j) (g j)) w = Ret tt (with_upt (upt_fold f g l) w).
Proof.
  induction l as [|j l IH]; intros w H; [by destruct w as [? [] ?]|]. cbn [for_].
  erewrite bind_ret_eq by (apply upt_set_ok, H, list_elem_of_here). cbn beta.
  rewrite IH; [done|]. intros j' Hj'. cbn. rewrite length_insert. apply H. by right.
Qed.

(** The entries outside the segments of the last image are 0. *)
Definition clean (k : kernel) : Prop :=
  length (upt k) = 1024%nat /\ 0 <= uplo k <= 1024 /\ 0 <= uphi k <= 1023 /\
  forall i, uplo k <= i <= uphi k -> upt k !! Z.to_nat i = Some 0.

(** Where the text of a process starts. *)
Definition text_at (k : kernel) (r : proc) : option Z :=
  match p_textp r with None => Some (p_addr r) | Some x => x_caddr <$> texts k !! x end.

(** The entry of page [v] for [nt] pages of text at [taddr], and [nd] pages
    of data and [ns] of stack after the user structure at [daddr]. *)
Definition image_entry (nt nd ns xx taddr daddr v : Z) : Z :=
  if v <? nt then Z.lor ((taddr + v) * PGSZ) xx
  else if v <? nt + nd then Z.lor ((daddr + USIZE + (v - nt)) * PGSZ) 7
  else if v <? 1024 - ns then 0
  else Z.lor ((daddr + USIZE + nd + (v - (1024 - ns))) * PGSZ) 7.

(** What the five loops of [sureg] make of the table. *)
Definition sureg_table (lo hi nt nd ns xx taddr daddr : Z) (t : list Z) : list Z :=
  let low := upt_fold (fun i => i) (fun _ => 0) (rev (seqZ (nt + nd) (lo - (nt + nd)))) t in
  let high := upt_fold (fun i => i) (fun _ => 0) (seqZ (hi + 1) (1023 - ns - hi)) low in
  let text := upt_fold (fun j => 0 + j) (fun j => Z.lor (taddr * PGSZ + j * PGSZ) xx) (seqZ 0 nt) high in
  let a := daddr * PGSZ + USIZE * PGSZ in
  let data := upt_fold (fun j => nt + j) (fun j => Z.lor (a + j * PGSZ) 7) (seqZ 0 nd) text in
  upt_fold (fun j => 1023 - ns + 1 + j) (fun j => Z.lor (a + nd * PGSZ + j * PGSZ) 7) (seqZ 0 ns) data.

Lemma elem_of_rev_seqZ m n j : j ∈ rev (seqZ m n) <-> m <= j < m + n.
Proof. rewrite List.rev_alt. fold (reverse (seqZ m n)). by rewrite elem_of_reverse, elem_of_seqZ. Qed.
Lemma NoDup_rev_seqZ m n : NoDup (rev (seqZ m n)).
Proof. apply NoDup_ListNoDup, List.NoDup_rev, NoDup_ListNoDup, NoDup_seqZ. Qed.

Section Image.
Context (lo hi nt nd ns xx taddr daddr : Z) (t : list Z).
Hypothesis sizes : 0 <= nt /\ 0 <= nd /\ 0 <= ns /\ nt + nd + ns <= 1023.
Hypothesis len : length t = 1024%nat.
Hypothesis rest : 0 <= lo <= 1024 /\ 0 <= hi <= 1023.
Hypothesis zero : forall i, lo <= i <= hi -> t !! Z.to_nat i = Some 0.

Lemma sureg_table_spec v : 0 <= v < 1024 ->
  sureg_table lo hi nt nd ns xx taddr daddr t !! Z.to_nat v
  = Some (image_entry nt nd ns xx taddr daddr v).
Proof using sizes len rest zero.
  intros Hv. unfold sureg_table, image_entry.
  set (low := upt_fold _ _ _ t). set (high := upt_fold _ _ _ low).
  set (text := upt_fold _ _ _ high). set (data := upt_fold _ _ _ text).
  assert (length high = 1024%nat) by (unfold high, low; by rewrite !length_upt_fold).
  assert (length text = 1024%nat) by (unfold text; by rewrite length_upt_fold).
  assert (length data = 1024%nat) by (unfold data; by rewrite length_upt_fold).
  destruct (Z.ltb_spec v nt); [|destruct (Z.ltb_spec v (nt + nd)); [|destruct (Z.ltb_spec v (1024 - ns))]].
  - rewrite upt_fold_other by (lia || (intros j ?%elem_of_seqZ; lia)).
    unfold data. rewrite upt_fold_other by (lia || (intros j ?%elem_of_seqZ; lia)).
    unfold text. replace v with (0 + v) by lia.
    rewrite upt_fold_at; [do 2 f_equal; unfold PGSZ; lia|apply NoDup_seqZ|..|apply elem_of_seqZ; lia];
      intros i ?%elem_of_seqZ; lia.
  - rewrite upt_fold_other by (lia || (intros j ?%elem_of_seqZ; lia)).
    unfold data. replace v with (nt + (v - nt)) at 1 by lia.
    rewrite upt_fold_at; [do 2 f_equal; unfold PGSZ; lia|apply NoDup_seqZ|..|apply elem_of_seqZ; lia];
      intros i ?%elem_of_seqZ; lia.
  - rewrite upt_fold_other by (lia || (intros j ?%elem_of_seqZ; lia)).
    unfold data. rewrite upt_fold_other by (lia || (intros j ?%elem_of_seqZ; lia)).
    unfold text. rewrite upt_fold_other by (lia || (intros j ?%elem_of_seqZ; lia)).
    unfold high. destruct (Z.lt_ge_cases hi v).
    { rewrite (upt_fold_at (fun i => i)); [done|apply NoDup_seqZ|..|apply elem_of_seqZ; lia];
        intros i ?%elem_of_seqZ; unfold low; rewrite ?length_upt_fold; lia. }
    rewrite upt_fold_other by (lia || (intros j ?%elem_of_seqZ; lia)).
    unfold low. destruct (Z.lt_ge_cases v lo).
    { rewrite (upt_fold_at (fun i => i)); [done|apply NoDup_rev_seqZ|..|apply elem_of_rev_seqZ; lia];
        intros i ?%elem_of_rev_seqZ; lia. }
    rewrite upt_fold_other; [apply zero; lia|lia|]. intros j ?%elem_of_rev_seqZ. lia.
  - replace v with (1023 - ns + 1 + (v - (1024 - ns))) at 1 by lia.
    rewrite upt_fold_at; [do 2 f_equal; unfold PGSZ; lia|apply NoDup_seqZ|..|apply elem_of_seqZ; lia];
      intros i ?%elem_of_seqZ; lia.
Qed.
End Image.

(** [sureg] maps the image of the current process. *)
Lemma sureg_ok (w : world) (nt nd ns xx taddr : Z) (r : proc) : clean (ks w) ->
  u_utab (u w) = [nt; nd; ns; xx] -> 0 <= nt -> 0 <= nd -> 0 <= ns -> nt + nd + ns <= 1023 ->
  procs (ks w) !! u_procp (u w) = Some r -> text_at (ks w) r = Some taddr ->
  exists t, let k' := (ks w) <| upt := t |> <| uplo := nt + nd |> <| uphi := 1023 - ns |> in
    sureg w = Ret tt (w <| ks := k' |>) /\ clean k' /\
    forall v, 0 <= v < 1024 -> t !! Z.to_nat v = Some (image_entry nt nd ns xx taddr (p_addr r) v).
Proof.
  intros (Hlen & Hlo & Hhi & Hz) Hu Hnt Hnd Hns Hsz Hr Ht.
  set (t := sureg_table (uplo (ks w)) (uphi (ks w)) nt nd ns xx taddr (p_addr r) (upt (ks w))).
  assert (Hspec : forall v, 0 <= v < 1024 -> t !! Z.to_nat v = Some (image_entry nt nd ns xx taddr (p_addr r) v)).
  { intros v Hv. by apply sureg_table_spec. }
  assert (Htx : forall w1, texts (ks w1) = texts (ks w) ->
    match p_textp r with Some tp => xf tp x_caddr | None => ret (p_addr r) end w1 = Ret taddr w1).
  { intros w1 E. unfold text_at in Ht. destruct (p_textp r) as [x|]; [|by injection Ht as <-].
    rewrite <- E in Ht. destruct (texts (ks w1) !! x) as [e|] eqn:Ex; [|done]. injection Ht as <-.
    by apply (tfield_ok texts x_caddr _ _ e). }
  exists t. split; [|split; [|done]].
  - unfold sureg. erewrite bind_ret_eq by reflexivity. cbn beta. rewrite Hu.
    do 4 (erewrite bind_ret_eq by reflexivity; cbn beta).
    do 2 (erewrite bind_ret_eq by reflexivity; cbn beta).
    erewrite bind_ret_eq.
    2: { apply (for_upt (fun i => i) (fun _ => 0)). intros j Hj%elem_of_rev_seqZ. cbn. lia. }
    cbn beta.
    do 2 (erewrite bind_ret_eq by reflexivity; cbn beta).
    erewrite bind_ret_eq.
    2: { apply (for_upt (fun i => i) (fun _ => 0)). intros j Hj%elem_of_seqZ. cbn in *.
         rewrite length_upt_fold. lia. }
    cbn beta. erewrite bind_ret_eq by reflexivity. cbn beta.
    erewrite bind_ret_eq by (by apply pf_ok). cbn beta.
    erewrite bind_ret_eq by (by apply pf_ok). cbn beta.
    erewrite bind_ret_eq.
    2: { by apply Htx. }
    cbn beta. unfold map_pages.
    erewrite bind_ret_eq.
    2: { apply (for_upt (fun j => 0 + j) (fun j => Z.lor (taddr * PGSZ + j * PGSZ) xx)).
         intros j Hj%elem_of_seqZ. cbn in *. rewrite !length_upt_fold. lia. }
    cbn beta.
    erewrite bind_ret_eq.
    2: { apply (for_upt (fun j => nt + j) (fun j => Z.lor (p_addr r * PGSZ + USIZE * PGSZ + j * PGSZ) 7)).
         intros j Hj%elem_of_seqZ. cbn in *. rewrite !length_upt_fold. lia. }
    cbn beta.
    rewrite (for_upt (fun j => 1023 - ns + 1 + j)
               (fun j => Z.lor (p_addr r * PGSZ + USIZE * PGSZ + nd * PGSZ + j * PGSZ) 7));
      [by destruct w as [? [] ?]|].
    intros j Hj%elem_of_seqZ. cbn in *. rewrite !length_upt_fold. lia.
  - split; [|split; [|split]]; cbn.
    + unfold t, sureg_table. by rewrite !length_upt_fold.
    + lia.
    + lia.
    + intros i Hi. rewrite Hspec by lia. unfold image_entry.
      rewrite (proj2 (Z.ltb_ge i nt)), (proj2 (Z.ltb_ge i (nt + nd))), (proj2 (Z.ltb_lt i (1024 - ns))) by lia.
      done.
Qed.

(** ** The user's stores *)

Lemma lor_low a x n : 0 <= n -> 0 <= x < 2 ^ n -> Z.lor (a * 2 ^ n) x = a * 2 ^ n + x.
Proof.
  intros Hn Hx. rewrite Z.add_nocarry_lxor.
  - apply Z.bits_inj'; intros i Hi. rewrite Z.lor_spec, Z.lxor_spec, <- Z.shiftl_mul_pow2 by lia.
    rewrite Z.shiftl_spec by lia.
    destruct (Z.lt_ge_cases i n).
    + rewrite Z.testbit_neg_r by lia. by destruct (Z.testbit x i).
    + replace (Z.testbit x i) with false; [by destruct (Z.testbit a (i - n))|].
      rewrite <- (Z.mod_small x (2 ^ n)) by lia. symmetry. by apply Z.mod_pow2_bits_high.
  - apply Z.bits_inj'; intros i Hi. rewrite Z.land_spec, Z.bits_0, <- Z.shiftl_mul_pow2 by lia.
    rewrite Z.shiftl_spec by lia. destruct (Z.lt_ge_cases i n).
    + by rewrite Z.testbit_neg_r by lia.
    + replace (Z.testbit x i) with false; [by destruct (Z.testbit a (i - n))|].
      rewrite <- (Z.mod_small x (2 ^ n)) by lia. symmetry. by apply Z.mod_pow2_bits_high.
Qed.

(** The frame and the presence of an entry built from a frame and flags. *)
Lemma entry_frame f x : 0 <= x < PGSZ -> clr (Z.lor (f * PGSZ) x) 4095 = f * PGSZ.
Proof.
  intros Hx. unfold PGSZ in *. change 4096 with (2 ^ 12) in *. rewrite lor_low by lia.
  change 4095 with (Z.ones 12). rewrite clr_ones by lia.
  rewrite Z.add_comm, Z.mod_add, Z.mod_small by lia. lia.
Qed.
Lemma entry_present f x : Z.lor (f * PGSZ) x &? 1 = x &? 1.
Proof.
  rewrite Z.land_lor_distr_l. replace (Z.land (f * PGSZ) 1) with 0; [done|].
  change 1 with (Z.ones 1). rewrite Z.land_ones by lia. unfold PGSZ.
  by replace (f * 4096) with (f * 2048 * 2 ^ 1) by lia; rewrite Z.mod_mul.
Qed.

Section Store.
Context (nt nd ns xx taddr daddr : Z).

Definition mapped (k : kernel) : Prop := forall v, 0 <= v < 1024 ->
  upt k !! Z.to_nat v = Some (image_entry nt nd ns xx taddr daddr v).

(** The frame of a page of the image, and where a byte of it is. *)
Definition present (v : Z) : bool := (v <? nt + nd) || (1024 - ns <=? v).
Definition image_frame (v : Z) : Z :=
  if v <? nt then taddr + v
  else if v <? nt + nd then daddr + USIZE + (v - nt)
  else daddr + USIZE + nd + (v - (1024 - ns)).
Definition image_byte (a : Z) : Z := PHY + image_frame (Z.shiftr a 12) * PGSZ + Z.land a 4095.
(** The user may store in his data and stack, and in text mapped for it. *)
Definition user_writable (a : Z) : bool :=
  (0 <=? a) && (a <? USTK) && present (Z.shiftr a 12) && ((nt <=? Z.shiftr a 12) || (xx =? RW)).
(** The bytes of the data and stack frames, and of such text. *)
Definition owned (x : Z) : Prop := exists f,
  PHY + f * PGSZ <= x < PHY + (f + 1) * PGSZ /\
  (daddr + USIZE <= f < daddr + USIZE + nd + ns \/ (xx = RW /\ taddr <= f < taddr + nt)).

Hypothesis sizes : 0 <= nt /\ 0 <= nd /\ 0 <= ns /\ nt + nd + ns <= 1023.
Hypothesis prot : xx = RO \/ xx = RW.

Lemma page_range a : 0 <= a < USTK -> 0 <= Z.shiftr a 12 < 1024.
Proof using.
  unfold USTK. intros H. rewrite Z.shiftr_div_pow2 by lia. change (2 ^ 12) with 4096.
  split; [apply Z.div_pos; lia|apply Z.div_lt_upper_bound; lia].
Qed.
Lemma offset_range a : 0 <= Z.land a 4095 < PGSZ.
Proof using. change 4095 with (Z.ones 12). rewrite Z.land_ones by lia. apply Z.mod_pos_bound. done. Qed.

Lemma uphys_image k a : mapped k -> 0 <= a < USTK ->
  uphys k a = if present (Z.shiftr a 12) then Some (image_byte a) else None.
Proof using sizes prot.
  intros Hm Ha. pose proof (page_range a Ha) as Hv. unfold uphys. rewrite (Hm _ Hv).
  unfold present, image_byte, image_frame, image_entry. set (v := Z.shiftr a 12) in *.
  assert (xx &? 1 = true /\ 0 <= xx < PGSZ) as [Hx1 Hx2] by (by destruct prot as [-> | ->]).
  destruct (Z.ltb_spec v nt); [|destruct (Z.ltb_spec v (nt + nd)); [|destruct (Z.ltb_spec v (1024 - ns))]].
  - rewrite entry_present, Hx1, entry_frame by done. by rewrite (proj2 (Z.ltb_lt _ _)) by lia.
  - rewrite entry_present, entry_frame by done. done.
  - by rewrite (proj2 (Z.leb_gt _ _)) by lia.
  - rewrite entry_present, entry_frame by done. by rewrite (proj2 (Z.leb_le _ _)) by lia.
Qed.

Lemma image_owned a : user_writable a = true -> owned (image_byte a).
Proof using sizes.
  unfold user_writable, present. intros H.
  pose proof (offset_range a). pose proof (page_range a) as Hv.
  exists (image_frame (Z.shiftr a 12)). unfold image_byte, image_frame, PGSZ in *.
  set (v := Z.shiftr a 12) in *. split; [lia|].
  destruct (Z.ltb_spec v nt); [|destruct (Z.ltb_spec v (nt + nd))]; lia.
Qed.

Lemma text_limit_page us a : u_utab us = [nt; nd; ns; xx] -> 0 <= a ->
  (text_limit us <=? a) = ((nt <=? Z.shiftr a 12) || (xx =? RW)).
Proof using sizes.
  intros Hu Ha. unfold text_limit. rewrite Hu. cbn [nth XX NT]. destruct (Z.eqb_spec xx RW).
  - rewrite orb_true_r. by apply Z.leb_le.
  - rewrite orb_false_r. unfold PGSH. rewrite Z.shiftl_mul_pow2, Z.shiftr_div_pow2 by lia.
    change (2 ^ 12) with 4096. apply Bool.eq_iff_eq_true. rewrite !Z.leb_le. split; intros H.
    + apply Z.div_le_lower_bound; lia.
    + pose proof (Z.mul_div_le a 4096). lia.
Qed.

Lemma store_ok (w : world) (a c : Z) :
  mapped (ks w) -> u_utab (u w) = [nt; nd; ns; xx] ->
  if user_writable a then
    let w' := w <| ks ::= fun k => k <| pmem ::= fun m => phys_write m (image_byte a) [u8 c] |> |> in
    subyte (UA a) c w = Ret 0 w' /\ owned (image_byte a) /\ fubyte (UA a) w' = Ret (u8 c) w'
  else subyte (UA a) c w = Ret (-1) w.
Proof using sizes prot.
  intros Hm Hu. pose proof (image_owned a) as Ho. unfold subyte.
  erewrite bind_ret_eq by reflexivity. cbn beta. erewrite bind_ret_eq by reflexivity. cbn beta.
  destruct (ureach a 1) eqn:Er.
  - assert (Ha : 0 <= a < USTK) by (unfold ureach in Er; lia).
    cbn [andb]. rewrite (text_limit_page _ _ Hu) by lia. unfold ustore.
    rewrite (uphys_image _ _ Hm Ha).
    assert (Ew : user_writable a = (present (Z.shiftr a 12) && ((nt <=? Z.shiftr a 12) || (xx =? RW)))).
    { unfold user_writable. by rewrite (proj2 (Z.leb_le _ _)), (proj2 (Z.ltb_lt _ _)) by lia. }
    rewrite Ew in *. destruct (present _) eqn:Ep; cbn [andb mbind option_bind] in *.
    + destruct (_ || _); [|done]. split; [by destruct w as [? [] ?]|]. split; [by apply Ho|].
      unfold fubyte. erewrite bind_ret_eq by reflexivity. cbn beta. rewrite Er. unfold ubyte.
      rewrite (uphys_image _ a) by done. rewrite Ep. cbn. unfold phys_write.
      cbn [length]. rewrite (proj2 (Z.leb_le _ _)), (proj2 (Z.ltb_lt _ _)), Z.sub_diag by lia. done.
    + by destruct (_ || _).
  - assert (user_writable a = false) as ->; [|done].
    unfold user_writable, ureach in *. destruct (Z.leb_spec 0 a), (Z.ltb_spec a USTK); cbn [andb]; try done.
    exfalso. lia.
Qed.
End Store.

Lemma estabur_ok (w : world) (nt nd ns xx taddr : Z) (r : proc) : clean (ks w) ->
  0 <= nt < 1048576 -> 0 <= nd < 1048576 -> 0 <= ns < 1048576 ->
  procs (ks w) !! u_procp (u w) = Some r -> text_at (ks w) r = Some taddr ->
  if (1023 <? nt + nd + ns) || (maxmem (ks w) <? nt + nd + ns + USIZE) then
    estabur nt nd ns xx w = Ret (-1) (w <| u ::= fun us => us <| u_error := ENOMEM |> |>)
  else
    exists k', estabur nt nd ns xx w
        = Ret 0 (w <| u ::= fun us => us <| u_utab := [nt; nd; ns; xx] |> |> <| ks := k' |>) /\
      k' = (ks w) <| upt := upt k' |> <| uplo := nt + nd |> <| uphi := 1023 - ns |> /\
      clean k' /\ mapped nt nd ns xx taddr (p_addr r) k'.
Proof.
  intros Hc Hnt Hnd Hns Hr Ht. unfold estabur. erewrite bind_ret_eq by reflexivity. cbn beta.
  unfold USIZE. rewrite !s32_id by lia. destruct (_ || _) eqn:E; [done|].
  erewrite bind_ret_eq by reflexivity. cbn beta.
  destruct (sureg_ok (w <| u ::= fun us => us <| u_utab := [nt; nd; ns; xx] |> |>) nt nd ns xx taddr r)
    as (t & Es & Hcl & Hm); try done || lia.
  exists ((ks w) <| upt := t |> <| uplo := nt + nd |> <| uphi := 1023 - ns |>).
  split; [|by split; [|split]]. by erewrite bind_ret_eq by exact Es.
Qed.

(** C1. [estabur] refuses sizes that do not fit the address space or the
    memory with ENOMEM, changing nothing else; otherwise the user's pages are
    exactly his image: text from page 0 with the protection asked for, data
    after it, the stack up to the last page, and nothing else present,
    whatever process was mapped before. *)
Theorem estabur_correct (w : world) (nt nd ns xx taddr : Z) (r : proc) : clean (ks w) ->
  0 <= nt < 1048576 -> 0 <= nd < 1048576 -> 0 <= ns < 1048576 ->
  procs (ks w) !! u_procp (u w) = Some r -> text_at (ks w) r = Some taddr ->
  if (1023 <? nt + nd + ns) || (maxmem (ks w) <? nt + nd + ns + USIZE) then
    estabur nt nd ns xx w = Ret (-1) (w <| u ::= fun us => us <| u_error := ENOMEM |> |>)
  else
    exists k', estabur nt nd ns xx w
        = Ret 0 (w <| u ::= fun us => us <| u_utab := [nt; nd; ns; xx] |> |> <| ks := k' |>) /\
      k' = (ks w) <| upt := upt k' |> <| uplo := nt + nd |> <| uphi := 1023 - ns |> /\
      clean k' /\ mapped nt nd ns xx taddr (p_addr r) k'.
Proof. apply estabur_ok. Qed.


(** A process of three pages in a freshly started system. *)
Definition small_proc : proc := proc0 <| p_addr := 20 |> <| p_textp := Some 0%nat |>.
Definition small_text : text := text0 <| x_caddr := 10 |>.
Definition fresh : world := world0 <| ks ::= fun k => k <| procs := [small_proc] |> <| texts := [small_text] |> <| maxmem := 640 |> |>.
Lemma estabur_correct_witness :
  estabur 1000 24 0 RO fresh = Ret (-1) (fresh <| u ::= fun us => us <| u_error := ENOMEM |> |>) /\
  exists k', estabur 1 1 1 RO fresh
        = Ret 0 (fresh <| u ::= fun us => us <| u_utab := [1; 1; 1; RO] |> |> <| ks := k' |>) /\
      k' = (ks fresh) <| upt := upt k' |> <| uplo := 1 + 1 |> <| uphi := 1023 - 1 |> /\
      clean k' /\ mapped 1 1 1 RO 10 20 k'.
Proof.
  assert (Hc : clean (ks fresh)).
  { split; [done|]. split; [cbn; lia|]. split; [cbn; lia|]. intros i Hi.
    change (0 <= i <= 1023) in Hi. change (replicate 1024 0 !! Z.to_nat i = Some 0).
    apply lookup_replicate_2. lia. }
  split.
  - apply (estabur_correct fresh 1000 24 0 RO 10 small_proc); done || lia.
  - apply (estabur_correct fresh 1 1 1 RO 10 small_proc); done || lia.
Defined.

