(* ===== verification/Sched.v ===== *)
(** * Sched: sleeping, waking and choosing processes ([sys/slp.c], [sys/sig.c])

    Sleeping processes hang, linked through [p_link], from the bucket of
    [slpque] their event hashes to; runnable ones from [runq].  [wakeup] and
    [setrun] call each other: [setrun] of a sleeping process wakes its event,
    and putting a swapped-out process on the run queue wakes the swapper. *)

From S2P Require Import Prelude Bytes State Utab.

Definition SQSIZE : Z := 64.

Section Slp.
Context {MC : Machine}.

Definition HASH (x : chan) : nat := Z.to_nat (Z.land (Z.shiftr (s32 (addr x)) 5) (SQSIZE - 1)).

(** Loops along [p_link] meet each process at most once. *)
Definition nprocs : KM nat := t <- kf procs ;; ret (length t).

(** ** The run queue *)

(** [for(q=runq; q!=NULL; q=q->p_link) if(q == p) ...] *)
Definition on_queue (p : nat) (q : option nat) : KM bool :=
  n <- nprocs ;;
  loop (S n) (fun q =>
    match q with
    | None => ret (inr false)
    | Some q =>
        if decide (q = p) then ret (inr true)
        else nx <- pf q p_link ;; ret (inl nx)
    end) q.

Definition setrq (p : nat) : KM unit :=
  s <- spl6 ;;
  q <- kf runq ;;
  found <- on_queue p q ;;
  (if found : bool then printf "proc on q"
   else
     pset p p_link q ;;;
     kset runq (Some p)) ;;;
  splx s.

(** [setrun] of a process that is not asleep: on the run queue, asking for
    the processor if its priority is the better one. *)
Definition setrun_start (p : nat) : KM unit :=
  pset p p_stat SRUN ;;;
  setrq p ;;;
  pri <- pf p p_pri ;;
  cur <- kf curpri ;;
  when (pri <? cur) (rr <- kf runrun ;; kset runrun (s8 (rr + 1))).

(** [setrun], given the [wakeup] it calls. *)
Definition setrun_with (wakeup : chan -> KM unit) (p : nat) : KM unit :=
  r <- tget procs p ;;
  (if (p_stat r =? 0) || (p_stat r =? SZOMB) then panic "Running a dead proc" else ret tt) ;;;
  if decide (p_wchan r <> CNull) then wakeup (p_wchan r)
  else
    setrun_start p ;;;
    ro <- kf runout ;;
    fl <- pf p p_flag ;;
    when (tst ro && negb (fl &? SLOAD)) (kset runout 0 ;;; wakeup CRunout).

(** ** The sleep queues *)

Definition slp_get (h : nat) : KM (option nat) := t <- kf slpque ;; the (t !! h).
Definition slp_set (h : nat) (p : option nat) : KM unit :=
  slp_get h ;;; kmod (fun k => k <| slpque ::= <[h := p]> |>).

(** [p->p_wchan==chan && p->p_stat!=SZOMB] *)
Definition woken (c : chan) (r : proc) : bool :=
  bool_decide (p_wchan r = c) && negb (p_stat r =? SZOMB).

(** One turn of the loop of [wakeup], given the [wakeup] it leads to. *)
Definition wakeup_body (wk : chan -> KM unit) (c : chan) (x : option nat * option nat) :
    KM (option nat * option nat + unit) :=
  let '(p, q) := x in
  match p with
  | None => ret (inr tt)
  | Some p =>
      r <- tget procs p ;;
      if woken c r then
        let sp := p_link r in
        (match q with
         | None => slp_set (HASH c) sp
         | Some q => pset q p_link sp
         end) ;;;
        pset p p_wchan CNull ;;;
        setrun_with wk p ;;;
        ret (inl (sp, q))
      else ret (inl (p_link r, Some p))
  end.

(** [wakeup], given the one it leads to. *)
Definition wakeup_with (wk : chan -> KM unit) (c : chan) : KM unit :=
  s <- spl6 ;;
  p <- slp_get (HASH c) ;;
  k <- nprocs ;;
  loop (S k) (wakeup_body wk c) (p, None) ;;;
  splx s.

(** [wakeup] calls [setrun], which calls [wakeup]: [n] bounds the nesting,
    which is never deeper than two ([wakeup_depth]). *)
Fixpoint wakeup_n (n : nat) : chan -> KM unit :=
  match n with
  | O => fun _ => nofuel
  | S n => wakeup_with (wakeup_n n)
  end.
Definition wakeup : chan -> KM unit := wakeup_n 3.
Definition setrun : nat -> KM unit := setrun_with wakeup.

(** ** Priorities *)

(** [setpri(pp)]: the result, and the priority before it is stored. *)
Definition user_pri (cpu nice : Z) : Z :=
  Z.min 127 (Z.land cpu 255 / 16 + (PUSER + nice - NZERO)).
Definition setpri (pp : nat) : KM Z :=
  r <- tget procs pp ;;
  let p := user_pri (p_cpu r) (p_nice r) in
  cur <- kf curpri ;;
  when (p <? cur) (rr <- kf runrun ;; kset runrun (s8 (rr + 1))) ;;;
  pset pp p_pri (s8 p) ;;;
  ret p.

(** ** Signals *)

(** [if(n & 1) return(i); n >>= 1;] *)
Definition fsig_step (x : Z * Z) : KM (Z * Z + Z) :=
  let '(i, n) := x in
  ret (if negb (i <? NSIG) then inr 0
       else if n &? 1 then inr i else inl (i + 1, Z.shiftr n 1)).
Definition fsig (p : nat) : KM Z :=
  n <- pf p p_sig ;; loop (Z.to_nat NSIG) fsig_step (1, n).

Definition psignal (p : nat) (sig : Z) : KM unit :=
  if NSIG <=? u32 sig then ret tt
  else
    when (tst sig) (m <- pf p p_sig ;; pset p p_sig (s16 (Z.lor m (Z.shiftl 1 (sig - 1))))) ;;;
    pri <- pf p p_pri ;;
    when (PUSER <? pri) (pset p p_pri PUSER) ;;;
    r <- tget procs p ;;
    when ((p_stat r =? SSLEEP) && (PZERO <? p_pri r)) (setrun p).

(** [signal(pgrp, sig)] *)
Definition signal (pgrp sig : Z) : KM unit :=
  if pgrp =? 0 then ret tt
  else
    n <- nprocs ;;
    for_ (slots n) (fun p =>
      g <- pf p p_pgrp ;;
      when (g =? pgrp) (psignal p sig)).

Definition issig_body (p : nat) (_ : unit) : KM (unit + Z) :=
  r <- tget procs p ;;
  if negb (tst (p_sig r)) then ret (inr 0)
  else
    n <- fsig p ;;
    sg <- uf u_signal ;;
    act <- the (sg !! Z.to_nat n) ;;
    fl <- pf p p_flag ;;
    if negb (act =? 1) || (fl &? STRC) then ret (inr n)
    else
      m <- pf p p_sig ;;
      pset p p_sig (s16 (clr m (Z.shiftl 1 (n - 1)))) ;;;
      ret (inl tt).
Definition issig : KM Z :=
  p <- uf u_procp ;; loop (Z.to_nat NSIG) (issig_body p) tt.

(** ** Giving up the processor *)

(** What a process finds when process 0 has picked it again: everything shared
    as the others have left it, and its image mapped.  Process 0 comes back
    without setting up the page table. *)
Definition resumed : KM unit := fun w =>
  match env w with
  | [] => Asleep w
  | e :: r =>
      (p <- uf u_procp ;; if Nat.eqb p 0 then ret tt else sureg) (w <| ks ::= e |> <| env := r |>)
  end.
(** [swtch()]: the state of the process is saved — of the floating point
    unit's, [u_fps], only that it is — and process 0, which looks for another,
    resumed. *)
Definition swtch : KM unit :=
  p <- uf u_procp ;;
  when (negb (Nat.eqb p 0)) (sv <- uf u_fpsaved ;; when (sv =? 0) (uset u_fpsaved 1)) ;;;
  resumed.

(** The search of [swtch()], run by process 0: the runnable loaded process
    with the best priority, the first of them on the queue, which is taken
    off the queue; [None] when there is none and the processor idles. *)
Definition swtch_search : KM (option (nat * option nat * Z)) :=
  q0 <- kf runq ;;
  n <- nprocs ;;
  loop (S n) (fun x : option nat * option nat * option (nat * option nat) * Z =>
    let '(p, q, best, n) := x in
    match p with
    | None => ret (inr (match best with Some (pp, pq) => Some (pp, pq, n) | None => None end))
    | Some p =>
        r <- tget procs p ;;
        let better := (p_stat r =? SRUN) && (p_flag r &? SLOAD) && (p_pri r <? n) in
        ret (inl (if better then (p_link r, Some p, Some (p, q), p_pri r)
                  else (p_link r, Some p, best, n)))
    end) (q0, None, None, 128).

(** The part of [swtch()] from [loop:] to the [resume]: the process resumed
    and whether it is resumed at [u_ssav]. *)
Definition swtch_pick : KM (option (nat * bool)) :=
  spl6 ;;;
  kset runrun 0 ;;;
  b <- swtch_search ;;
  match b with
  | None => ret None
  | Some (p, q, n) =>
      nx <- pf p p_link ;;
      (match q with
       | None => kset runq nx
       | Some q => pset q p_link nx
       end) ;;;
      kset curpri (s8 n) ;;;
      spl0 ;;;
      fl <- pf p p_flag ;;
      pset p p_flag (s8 (clr fl SSWAP)) ;;;
      ret (Some (p, fl &? SSWAP))
  end.

Definition qswtch : KM unit := p <- uf u_procp ;; setrq p ;;; swtch.

(** [sleep(chan, pri)]: at a priority above PZERO a signal ends it by the
    non-local goto to [u_qsav]. *)
Definition sleep (c : chan) (pri : Z) : KM unit :=
  rp <- uf u_procp ;;
  s <- spl6 ;;
  (if decide (c = CNull) then panic "zero wchan" else ret tt) ;;;
  pset rp p_stat SSLEEP ;;;
  pset rp p_wchan c ;;;
  pset rp p_pri (s8 pri) ;;;
  let h := HASH c in
  hd <- slp_get h ;;
  pset rp p_link hd ;;;
  slp_set h (Some rp) ;;;
  if PZERO <? pri then
    i <- issig ;;
    if tst i then
      pset rp p_wchan CNull ;;;
      pset rp p_stat SRUN ;;;
      nx <- pf rp p_link ;;
      slp_set h nx ;;;
      spl0 ;;;
      (fun w => Longjmp w)
    else
      spl0 ;;;
      ri <- kf runin ;;
      when (tst ri) (kset runin 0 ;;; wakeup CRunin) ;;;
      swtch ;;;
      i <- issig ;;
      if tst i then (fun w => Longjmp w) else splx s
  else
    spl0 ;;;
    swtch ;;;
    splx s.

(** ** Creating a process: the slot and the process number *)

(** The [for] loop of [newproc]: the first free slot is remembered in [p];
    a process that has [m] as its number or its group ends it. *)
Definition slot_scan (n : nat) (m : Z) (x : nat * option nat) :
    KM (nat * option nat + option nat * bool) :=
  let '(rpp, p) := x in
  if Nat.leb n rpp then ret (inr (p, false))
  else
    r <- tget procs rpp ;;
    let p := if (p_stat r =? 0) && bool_decide (p = None) then Some rpp else p in
    if (p_pid r =? m) || (p_pgrp r =? m) then ret (inr (p, true))
    else ret (inl (S rpp, p)).

(** One turn of the [retry] loop. *)
Definition slot_try (n : nat) (p : option nat) : KM (option nat + nat) :=
  m <- kf mpid ;;
  kset mpid (m + 1) ;;;
  if 30000 <=? m + 1 then kset mpid 0 ;;; ret (inl p)
  else
    x <- loop (S n) (slot_scan n (m + 1)) (0%nat, p) ;;
    let '(p, used) := x in
    if used : bool then ret (inl p)
    else match p with
         | None => panic "no procs"
         | Some p => ret (inr p)
         end.

(** [newproc()] up to the panic: a number for the new process and its slot. *)
Definition newproc_slot : KM nat :=
  n <- nprocs ;; loop (4 * n + 4) (slot_try n) None.

(** ** The depth of [wakeup]

    Only [setrun] of a swapped-out process while the swapper waits calls
    [wakeup] again, and it clears [runout] first, so that call ends the
    nesting. *)

Definition waits (w : world) : Z := runout (ks w).

Lemma pset_wchan p c w a w' : pset p p_wchan c w = Ret a w' ->
  exists r, procs (ks w') !! p = Some r /\ p_wchan r = c.
Proof.
  intros H. unfold pset, tmod in H. apply bind_inv_ret in H as (e & w1 & E & H).
  unfold tget in E. apply bind_inv_ret in E as (t & w2 & E & E').
  injection E as <- <-. destruct (procs (ks w) !! p) as [e'|] eqn:Ep; [|done].
  injection E' as -> ->. injection H as _ <-. eexists. cbn.
  rewrite list_lookup_insert_eq by (by eapply lookup_lt_Some). by split.
Qed.

(** [setrun] of a process that does not sleep does not depend on the
    [wakeup] it is given but for the event [runout]. *)
Lemma setrun_quiet wk1 wk2 p w r : procs (ks w) !! p = Some r -> p_wchan r = CNull ->
  (waits w = 0 \/ forall w', waits w' = 0 -> wk1 CRunout w' = wk2 CRunout w') ->
  setrun_with wk1 p w = setrun_with wk2 p w /\
  forall a w', waits w = 0 -> setrun_with wk1 p w = Ret a w' -> waits w' = 0.
Proof.
  intros Hr Hc Hq. unfold setrun_with.
  rewrite !(bind_ret_eq (tget procs p) _ w r w) by (by apply tget_ok). cbn beta.
  rewrite !decide_False by (intros H; by apply H).
  destruct ((p_stat r =? 0) || (p_stat r =? SZOMB)); [by unfold bind, panic; split; [|intros ? ? _ E]|].
  rewrite !(bind_ret_eq (ret tt) _ w tt w) by done. cbn beta. split.
  - apply bind_cong. intros [] w1 E1. kept waits E1 K1.
    apply bind_cong. intros ro w2 E2. injection E2 as <- <-.
    apply bind_cong. intros fl w3 E3. kept waits E3 K3.
    destruct (tst (runout (ks w1)) && negb (fl &? SLOAD)) eqn:E; [|done]. cbn [when].
    apply bind_cong. intros [] w4 E4. injection E4 as <-.
    destruct Hq as [H0|Hq]; [|by apply Hq]. exfalso.
    apply andb_prop in E as [E _]. apply tst_true in E. apply E. change (waits w1 = 0). congruence.
  - intros a w' H0 E.
    apply bind_inv_ret in E as ([] & w1 & E1 & E). kept waits E1 K1.
    apply bind_inv_ret in E as (ro & w2 & E2 & E). injection E2 as <- <-.
    apply bind_inv_ret in E as (fl & w3 & E3 & E). kept waits E3 K3.
    assert (runout (ks w1) = 0) as H1 by (change (waits w1 = 0); congruence).
    rewrite H1 in E. injection E as _ <-. congruence.
Qed.

(** The body of [wakeup]'s loop, given the [wakeup] below it. *)
Lemma wakeup_body_quiet wk1 wk2 c x w :
  (waits w = 0 \/ forall w', waits w' = 0 -> wk1 CRunout w' = wk2 CRunout w') ->
  wakeup_body wk1 c x w = wakeup_body wk2 c x w.
Proof.
  intros Hq. destruct x as [[p|] q]; [|done]. cbn [wakeup_body].
  apply bind_cong. intros r w1 E1. kept waits E1 K1.
  destruct (woken c r); [|done].
  apply bind_cong. intros [] w2 E2. kept waits E2 K2.
  apply bind_cong. intros [] w3 E3. kept waits E3 K3.
  destruct (pset_wchan _ _ _ _ _ E3) as (r3 & Hr3 & Hc3).
  unfold bind. destruct (setrun_quiet wk1 wk2 p w3 r3 Hr3 Hc3) as [-> _]; [|done].
  destruct Hq as [H0|Hq]; [left; congruence|by right].
Qed.

(** While the swapper does not wait, it keeps not waiting. *)
Lemma wakeup_body_waits wk c x w r w' : waits w = 0 -> wakeup_body wk c x w = Ret r w' -> waits w' = 0.
Proof.
  intros H0 E. destruct x as [[p|] q]; [|by injection E as _ <-]. cbn [wakeup_body] in E.
  apply bind_inv_ret in E as (r1 & w1 & E1 & E). kept waits E1 K1.
  destruct (woken c r1); [|injection E as _ <-; congruence].
  apply bind_inv_ret in E as ([] & w2 & E2 & E). kept waits E2 K2.
  apply bind_inv_ret in E as ([] & w3 & E3 & E). kept waits E3 K3.
  apply bind_inv_ret in E as ([] & w4 & E4 & E). injection E as _ <-.
  destruct (pset_wchan _ _ _ _ _ E3) as (r3 & Hr3 & Hc3).
  assert (waits w3 = 0) as H3 by congruence.
  by eapply (setrun_quiet wk wk p w3 r3 Hr3 Hc3 (or_introl H3)).
Qed.

Lemma wakeup_with_cong wk1 wk2 c w (I : world -> Prop) :
  (forall x w, I w -> wakeup_body wk1 c x w = wakeup_body wk2 c x w) ->
  (forall x w r w', I w -> wakeup_body wk1 c x w = Ret r w' -> I w') ->
  I (w <| ks ::= fun k => k <| pl := 6 |> |>) -> wakeup_with wk1 c w = wakeup_with wk2 c w.
Proof.
  intros He Hi H6. unfold wakeup_with, spl6, spl. rewrite !bind_assoc.
  apply bind_cong. intros s w1 E1. injection E1 as <- <-. rewrite !bind_assoc.
  apply bind_cong. intros [] w2 E2. injection E2 as <-.
  rewrite !(bind_ret_eq (ret _) _ _ _ _ eq_refl).
  apply bind_cong. intros p w3 E3. assert (w3 = w <| ks ::= fun k => k <| pl := 6 |> |>) as ->.
  { unfold slp_get in E3. apply bind_inv_ret in E3 as (t & w4 & E4 & E3). injection E4 as <- <-.
    unfold the in E3. destruct (_ !! _); [by injection E3|done]. }
  apply bind_cong. intros k w4 E4. injection E4 as <- <-.
  unfold bind. by rewrite (loop_ext I (wakeup_body wk1 c) (wakeup_body wk2 c)).
Qed.

(** Two levels of nesting are all there are. *)
Lemma wakeup_quiet n c w : waits w = 0 -> wakeup_n (S n) c w = wakeup_n 1 c w.
Proof.
  intros H0. apply (wakeup_with_cong (wakeup_n n) (wakeup_n 0) c w (fun w => waits w = 0)).
  - intros x w' H. apply wakeup_body_quiet. by left.
  - intros x w' r w'' H. by apply wakeup_body_waits.
  - exact H0.
Qed.

Lemma wakeup_depth n c w : wakeup_n (S (S n)) c w = wakeup_n 2 c w.
Proof.
  apply (wakeup_with_cong (wakeup_n (S n)) (wakeup_n 1) c w (fun _ => True)); [|done..].
  intros x w' _. apply wakeup_body_quiet. right. intros w'' H. by apply wakeup_quiet.
Qed.

(** ** Linked lists of processes *)

Fixpoint plist (ps : list proc) (hd : option nat) (l : list nat) : Prop :=
  match l with
  | [] => hd = None
  | p :: r => hd = Some p /\ exists pr, ps !! p = Some pr /\ plist ps (p_link pr) r
  end.

Lemma plist_ext ps ps' hd l : plist ps hd l ->
  (forall p, p ∈ l -> p_link <$> ps' !! p = p_link <$> ps !! p) -> plist ps' hd l.
Proof.
  revert hd; induction l as [|p l IH]; intros hd H E; [done|].
  destruct H as (-> & pr & Hp & H). split; [done|].
  assert (Ep : p_link <$> ps' !! p = p_link <$> ps !! p) by (apply E; left).
  rewrite Hp in Ep. destruct (ps' !! p) as [pr'|] eqn:Ep'; [|done].
  exists pr'. split; [done|]. injection Ep as ->. apply IH; [done|].
  intros x Hx. apply E. by right.
Qed.

(** A process not on a list can change without disturbing it. *)
Lemma plist_insert ps hd l p r : plist ps hd l -> p ∉ l -> plist (<[p := r]> ps) hd l.
Proof.
  intros H Hp. eapply plist_ext; [exact H|]. intros x Hx.
  rewrite list_lookup_insert_ne; [done|]. by intros ->.
Qed.

Lemma plist_bound ps hd l : plist ps hd l -> Forall (fun p => (p < length ps)%nat) l.
Proof.
  revert hd; induction l as [|p l IH]; intros hd H; [constructor|].
  destruct H as (_ & pr & Hp & H). constructor; [by eapply lookup_lt_Some|by eapply IH].
Qed.

Lemma plist_length ps hd l : plist ps hd l -> NoDup l -> (length l <= length ps)%nat.
Proof.
  intros H Hd. rewrite <- (length_seq (length ps) 0).
  apply submseteq_length, NoDup_submseteq; [done|].
  intros x Hx. apply elem_of_seq. pose proof (plist_bound _ _ _ H) as Hb.
  rewrite Forall_forall in Hb. specialize (Hb x Hx). lia.
Qed.

Lemma plist_app ps hd l1 l2 : plist ps hd (l1 ++ l2) ->
  match last l1 with
  | None => plist ps hd l2
  | Some q => exists r, ps !! q = Some r /\ plist ps (p_link r) l2
  end.
Proof.
  revert hd; induction l1 as [|p l1 IH]; intros hd H; [done|].
  destruct H as (_ & pr & Hp & H). specialize (IH _ H).
  rewrite last_cons. destruct (last l1) eqn:E; [done|].
  apply last_None in E as ->. by exists pr.
Qed.

Lemma nprocs_ok w : nprocs w = Ret (length (procs (ks w))) w.
Proof. done. Qed.

Lemma on_queue_loop p w l : forall n hd, (length l < n)%nat ->
  plist (procs (ks w)) hd l -> p ∉ l ->
  loop n (fun q =>
    match q with
    | None => ret (inr false)
    | Some q =>
        if decide (q = p) then ret (inr true)
        else nx <- pf q p_link ;; ret (inl nx)
    end) hd w = Ret false w.
Proof.
  induction l as [|x l IH]; intros n hd Hn H Hp; (destruct n as [|n]; [cbn in Hn; lia|]).
  - rewrite H. by erewrite loop_done.
  - destruct H as (-> & pr & Hx & H). apply not_elem_of_cons in Hp as [Hne Hp].
    erewrite loop_next.
    2: { rewrite decide_False by done. erewrite bind_ret_eq by (by apply pf_ok). done. }
    apply IH; [cbn in Hn; lia|done|done].
Qed.

Lemma on_queue_ok p w hd l : plist (procs (ks w)) hd l -> NoDup l -> p ∉ l ->
  on_queue p hd w = Ret false w.
Proof.
  intros H Hd Hp. unfold on_queue. erewrite bind_ret_eq by apply nprocs_ok.
  eapply on_queue_loop; [|done|done]. pose proof (plist_length _ _ _ H Hd). lia.
Qed.

(** [setrq] puts a process that is not there at the head of the queue. *)
Definition queued (p : nat) (r : proc) (k : kernel) : kernel :=
  k <| procs ::= <[p := r <| p_link := runq k |>]> |> <| runq := Some p |>.

Lemma setrq_ok p r w l : plist (procs (ks w)) (runq (ks w)) l -> NoDup l -> p ∉ l ->
  procs (ks w) !! p = Some r -> setrq p w = Ret tt (w <| ks ::= queued p r |>).
Proof.
  intros H Hd Hp Hr. destruct w as [us k en]. unfold setrq, spl6, spl, splx.
  repeat mstep. cbn [u ks env setf] in *.
  erewrite bind_ret_eq by (apply (on_queue_ok p _ _ l); cbn; done). cbn beta iota.
  rewrite bind_assoc. erewrite bind_ret_eq by (apply pset_ok; cbn; done). by destruct k.
Qed.

Lemma queued_plist p r k l : plist (procs k) (runq k) l -> p ∉ l -> is_Some (procs k !! p) ->
  plist (procs (queued p r k)) (runq (queued p r k)) (p :: l).
Proof.
  intros H Hp Hr. split; [done|]. eexists. cbn. split.
  - rewrite list_lookup_insert_eq; [done|]. by apply lookup_lt_is_Some.
  - by apply plist_insert.
Qed.

(** [setrun] of a process that is not asleep, while the swapper has nothing
    to wait for. *)
Definition started (p : nat) (r : proc) (k : kernel) : kernel :=
  queued p (r <| p_stat := SRUN |>) k
    <| runrun ::= fun n => if p_pri r <? curpri k then s8 (n + 1) else n |>.

Lemma setrun_start_ok p r w l : plist (procs (ks w)) (runq (ks w)) l -> NoDup l -> p ∉ l ->
  procs (ks w) !! p = Some r -> setrun_start p w = Ret tt (w <| ks ::= started p r |>).
Proof.
  intros H Hd Hp Hr. pose proof (lookup_lt_Some _ _ _ Hr) as Hlt.
  unfold setrun_start. erewrite bind_ret_eq by (by apply pset_ok). cbn beta.
  set (w1 := w <| ks ::= _ |>).
  assert (Hr1 : procs (ks w1) !! p = Some (r <| p_stat := SRUN |>))
    by (cbn; by apply list_lookup_insert_eq).
  erewrite bind_ret_eq by (apply (setrq_ok p (r <| p_stat := SRUN |>) w1 l); [by apply plist_insert|done..]).
  cbn beta. set (w2 := w1 <| ks ::= _ |>).
  assert (Hr2 : procs (ks w2) !! p = Some (r <| p_stat := SRUN |> <| p_link := runq (ks w) |>)).
  { cbn. apply list_lookup_insert_eq. by rewrite length_insert. }
  erewrite bind_ret_eq by (by apply pf_ok). cbn beta.
  erewrite bind_ret_eq by reflexivity. cbn beta.
  change (curpri (ks w2)) with (curpri (ks w)).
  change (p_pri (r <| p_stat := SRUN |> <| p_link := runq (ks w) |>)) with (p_pri r).
  subst w2 w1. unfold started, queued.
  destruct (p_pri r <? curpri (ks w)) eqn:E; destruct w as [us [] en]; cbn in E |- *;
    by rewrite E, list_insert_insert_eq.
Qed.

Lemma setrun_ok wk p r w l : plist (procs (ks w)) (runq (ks w)) l -> NoDup l -> p ∉ l ->
  procs (ks w) !! p = Some r -> p_wchan r = CNull -> p_stat r <> 0 -> p_stat r <> SZOMB ->
  runout (ks w) = 0 \/ p_flag r &? SLOAD = true -> setrun_with wk p w = Ret tt (w <| ks ::= started p r |>).
Proof.
  intros H Hd Hp Hr Hw H0 Hz Ho. pose proof (lookup_lt_Some _ _ _ Hr) as Hlt.
  unfold setrun_with. erewrite bind_ret_eq by (by apply tget_ok). cbn beta.
  rewrite (proj2 (Z.eqb_neq _ 0)), (proj2 (Z.eqb_neq _ SZOMB)) by done. cbn [orb].
  erewrite bind_ret_eq by reflexivity. cbn beta. rewrite decide_False by (intros E; by apply E).
  erewrite bind_ret_eq by (by eapply setrun_start_ok). cbn beta.
  erewrite bind_ret_eq by reflexivity. cbn beta.
  erewrite bind_ret_eq.
  2: { apply (pf_ok p_flag _ _ (r <| p_stat := SRUN |> <| p_link := runq (ks w) |>)).
       cbn. by apply list_lookup_insert_eq. }
  change (runout (ks (w <| ks ::= started p r |>))) with (runout (ks w)).
  change (p_flag _) with (p_flag r). destruct Ho as [-> | ->]; [done|]. by rewrite andb_false_r.
Qed.

(** ** Waking *)

(** What becomes of a process that [wakeup(c)] makes runnable. *)
Definition wake (c : chan) (r : proc) : proc :=
  if woken c r then r <| p_wchan := CNull |> <| p_stat := SRUN |> else r.
Definition woken_of (ps : list proc) (c : chan) (p : nat) : bool :=
  match ps !! p with Some r => woken c r | None => false end.

(** Waking the processes of [l] does not wake the swapper as well: it does
    not wait for something to bring in, or all of them are in core. *)
Definition undisturbed (k : kernel) (c : chan) (l : list nat) : Prop :=
  runout k = 0 \/
  forall p r, p ∈ l -> procs k !! p = Some r -> woken c r = true -> p_flag r &? SLOAD = true.
Lemma undisturbed_same k k' c l : procs k' = procs k -> runout k' = runout k ->
  undisturbed k c l -> undisturbed k' c l.
Proof. unfold undisturbed. by intros -> ->. Qed.

(** Equal processes but for the link. *)
Definition same_proc (r r' : proc) : Prop := r' = r <| p_link := p_link r' |>.

(** Nothing of the kernel but its queues and flags for them has changed. *)
Definition queues_only (k k' : kernel) : Prop :=
  k' = k <| procs := procs k' |> <| slpque := slpque k' |> <| runq := runq k' |>
         <| runrun := runrun k' |>.

Lemma same_proc_trans r1 r2 r3 : same_proc r1 r2 -> same_proc r2 r3 -> same_proc r1 r3.
Proof. unfold same_proc. intros E1 E2. rewrite E2 at 1. rewrite E1. by destruct r1. Qed.

Lemma queues_only_trans k1 k2 k3 : queues_only k1 k2 -> queues_only k2 k3 -> queues_only k1 k3.
Proof. unfold queues_only. intros E1 E2. rewrite E2 at 1. rewrite E1. by destruct k1. Qed.

Lemma same_proc_refl r : same_proc r r.
Proof. by destruct r. Qed.

(** [k1] differs from [k] in the queues and the links of processes other
    than [p]. *)
Record relinked (p : nat) (k k1 : kernel) : Prop := {
  rl_frame : queues_only k k1;
  rl_len : length (procs k1) = length (procs k);
  rl_self : procs k1 !! p = procs k !! p;
  rl_procs : forall x y, procs k !! x = Some y ->
    exists y', procs k1 !! x = Some y' /\ same_proc y y'
}.

(** Taking [p] off a list. *)
Lemma plist_remove ps hd l1 p l2 r : plist ps hd (l1 ++ p :: l2) -> NoDup (l1 ++ p :: l2) ->
  ps !! p = Some r ->
  match last l1 with
  | None => hd = Some p /\ plist ps (p_link r) (l1 ++ l2)
  | Some q => exists rq, ps !! q = Some rq /\
      plist (<[q := rq <| p_link := p_link r |>]> ps) hd (l1 ++ l2)
  end.
Proof.
  revert hd. induction l1 as [|x l1 IH]; intros hd H Hnd Hr.
  { destruct H as (-> & r' & Hr' & H). rewrite Hr in Hr'. by injection Hr' as <-. }
  destruct H as (-> & pr & Hx & H). apply NoDup_cons in Hnd as [Hx1 Hnd].
  assert (p_link pr = head (l1 ++ p :: l2)) as Hlk by (destruct l1; by destruct H).
  specialize (IH _ H Hnd Hr). rewrite last_cons. destruct (last l1) as [q|] eqn:E.
  - destruct IH as (rq & Hq & IH). exists rq. split; [done|]. split; [done|]. exists pr.
    split; [|done]. rewrite list_lookup_insert_ne; [done|]. intros ->.
    apply last_Some in E as [l0 ->]. apply Hx1, elem_of_app. left. apply elem_of_app. right. left.
  - apply last_None in E as ->. destruct IH as [_ IH]. exists pr. split; [done|]. split; [done|].
    eexists. rewrite list_lookup_insert_eq by (by eapply lookup_lt_Some). split; [done|].
    cbn [p_link setf]. apply plist_insert; [exact IH|]. intros ?. apply Hx1. by right.
Qed.

Lemma plist_in ps hd l p : plist ps hd l -> p ∈ l -> exists r, ps !! p = Some r.
Proof.
  intros H Hin. pose proof (plist_bound _ _ _ H) as Hb. rewrite Forall_forall in Hb.
  by apply lookup_lt_is_Some, Hb.
Qed.

(** Taking [p] out of its bucket. *)
Lemma unlink_ok i p r k rq hd K R us en :
  plist (procs k) (runq k) rq -> NoDup (K ++ p :: R ++ rq) -> procs k !! p = Some r ->
  slpque k !! i = Some hd -> plist (procs k) hd (K ++ p :: R) ->
  exists k1, (match last K with
              | None => slp_set i (p_link r)
              | Some q => pset q p_link (p_link r)
              end) (mkworld us k en) = Ret tt (mkworld us k1 en) /\
    relinked p k k1 /\ plist (procs k1) (runq k1) rq /\
    exists hd', slpque k1 = <[i := hd']> (slpque k) /\ plist (procs k1) hd' (K ++ R).
Proof.
  intros Hrq Hnd Hr Hhd Hpl.
  change (K ++ p :: R ++ rq) with (K ++ (p :: R) ++ rq) in Hnd. rewrite app_assoc in Hnd.
  apply NoDup_app in Hnd as (Hnd & Hoff & _).
  pose proof (plist_remove _ _ _ _ _ _ Hpl Hnd Hr) as Hrm.
  destruct (last K) as [q|] eqn:EK.
  - destruct Hrm as (rq' & Hq & Hpl').
    assert (HqK : q ∈ K) by (apply last_Some in EK as [K0 ->]; apply elem_of_app; right; left).
    assert (q <> p) as Hqp.
    { intros ->. apply NoDup_app in Hnd as (_ & Hn & _). apply (Hn p HqK). left. }
    eexists. split; [by eapply pset_ok|]. cbn [u ks env setf procs slpque runq].
    split; [split|split]; cbn [procs setf].
    + by destruct k.
    + apply length_insert.
    + by rewrite list_lookup_insert_ne.
    + intros x y Hx. destruct (decide (x = q)) as [->|Hne].
      * eexists. rewrite list_lookup_insert_eq by (by eapply lookup_lt_Some).
        split; [done|]. rewrite Hq in Hx. injection Hx as <-. by destruct rq'.
      * exists y. rewrite list_lookup_insert_ne by done. split; [done|apply same_proc_refl].
    + apply plist_insert; [done|]. apply Hoff, elem_of_app. by left.
    + exists hd. by rewrite list_insert_id.
  - destruct Hrm as [-> Hpl']. eexists. split.
    { unfold slp_set, slp_get. rewrite bind_assoc. erewrite bind_ret_eq by reflexivity.
      cbn beta. cbn [ks]. rewrite Hhd. reflexivity. }
    cbn [u ks env setf procs slpque runq]. split; [split|split]; try done.
    + intros x y Hx. exists y. split; [done|apply same_proc_refl].
    + by exists (p_link r).
Qed.

(** One process: unlinked from its bucket and started. *)
Lemma wake_one wk c i p r q k rq hd K R us en :
  plist (procs k) (runq k) rq -> NoDup (K ++ p :: R ++ rq) ->
  procs k !! p = Some r -> woken c r = true -> p_stat r <> 0 -> runout k = 0 \/ p_flag r &? SLOAD = true ->
  slpque k !! i = Some hd -> plist (procs k) hd (K ++ p :: R) -> q = last K ->
  exists k', ((match q with
               | None => slp_set i (p_link r)
               | Some q => pset q p_link (p_link r)
               end) ;;;
              pset p p_wchan CNull ;;;
              setrun_with wk p) (mkworld us k en) = Ret tt (mkworld us k' en) /\
    plist (procs k') (runq k') (p :: rq) /\
    (exists hd', slpque k' = <[i := hd']> (slpque k) /\ plist (procs k') hd' (K ++ R)) /\
    queues_only k k' /\ length (procs k') = length (procs k) /\
    (forall x y, procs k !! x = Some y -> exists y', procs k' !! x = Some y' /\
       same_proc (if decide (x = p) then wake c y else y) y').
Proof.
  intros Hrq Hnd Hr Hw H0 Ho Hhd Hpl ->.
  destruct (unlink_ok i p r k rq hd K R us en Hrq Hnd Hr Hhd Hpl)
    as (k1 & E1 & [Hf Hlen Hself Hps] & Hrq1 & hd' & Hs1 & Hpl1).
  apply NoDup_app in Hnd as (HK & HKp & Hpr). apply NoDup_cons in Hpr as [Hp Hrr].
  apply NoDup_app in Hrr as (_ & _ & Hrqd).
  assert (Hprq : p ∉ rq) by (intros ?; apply Hp, elem_of_app; by right).
  assert (HpKR : p ∉ K ++ R).
  { intros [Hin|Hin]%elem_of_app; [apply (HKp p Hin); left|apply Hp, elem_of_app; by left]. }
  apply andb_prop in Hw as Hw'. destruct Hw' as [_ Hz%negb_true_iff%Z.eqb_neq].
  rewrite Hr in Hself.
  assert (Hlt : (p < length (procs k1))%nat) by (by eapply lookup_lt_Some).
  set (r1 := r <| p_wchan := CNull |>). set (k2 := k1 <| procs ::= <[p := r1]> |>).
  assert (Hr2 : procs k2 !! p = Some r1) by (cbn; by apply list_lookup_insert_eq).
  assert (Ho1 : runout k1 = 0 \/ p_flag r1 &? SLOAD = true) by (rewrite Hf; exact Ho).
  assert (E3 : setrun_with wk p (mkworld us k2 en) = Ret tt (mkworld us (started p r1 k2) en)).
  { rewrite (setrun_ok wk p r1 (mkworld us k2 en) rq); try done. by apply plist_insert. }
  exists (started p r1 k2). split.
  { erewrite bind_ret_eq by exact E1. cbn beta.
    erewrite bind_ret_eq by (by apply pset_ok). exact E3. }
  split; [apply queued_plist; [by apply plist_insert|done|by exists r1]|].
  split.
  { exists hd'. split; [exact Hs1|]. cbn. by do 2 (apply plist_insert; [|done]). }
  split.
  { eapply queues_only_trans; [exact Hf|]. by destruct k1. }
  split; [cbn; by rewrite !length_insert|].
  intros x y Hx. destruct (decide (x = p)) as [->|Hne].
  - rewrite Hr in Hx. injection Hx as <-. unfold wake. rewrite Hw. eexists. cbn.
    rewrite list_lookup_insert_eq by (by rewrite length_insert). split; [done|]. by destruct r.
  - destruct (Hps x y Hx) as (y' & Hy' & Hs). exists y'. cbn.
    by rewrite !list_lookup_insert_ne by done.
Qed.

Definition wakes (k : kernel) (c : chan) (l : list nat) : list nat :=
  filter (fun p => woken_of (procs k) c p = true) l.
Definition stays (k : kernel) (c : chan) (l : list nat) : list nat :=
  filter (fun p => woken_of (procs k) c p = false) l.

Lemma same_proc_woken c r r' : same_proc r r' -> woken c r' = woken c r.
Proof. unfold same_proc. intros ->. by destruct r. Qed.

Lemma same_proc_wake c r r' : same_proc r r' -> same_proc (wake c r) (wake c r').
Proof.
  intros Hs. unfold wake. rewrite (same_proc_woken _ _ _ Hs). unfold same_proc in *.
  rewrite Hs. destruct r. by destruct (woken c _).
Qed.

(** What [wakeup] makes of the kernel when the processes [R] of its bucket
    are still to be looked at. *)
Record wakes_up (c : chan) (K R rq : list nat) (k k' : kernel) : Prop := {
  wu_runq : plist (procs k') (runq k') (reverse (wakes k c R) ++ rq);
  wu_slpque : exists hd, slpque k' = <[HASH c := hd]> (slpque k) /\
    plist (procs k') hd (K ++ stays k c R);
  wu_frame : queues_only k k';
  wu_procs : forall x y, procs k !! x = Some y -> exists y', procs k' !! x = Some y' /\
    same_proc (if decide (x ∈ R) then wake c y else y) y'
}.

Lemma woken_of_ext c k k' l :
  (forall x, x ∈ l -> exists y y', procs k !! x = Some y /\ procs k' !! x = Some y' /\ same_proc y y') ->
  wakes k' c l = wakes k c l /\ stays k' c l = stays k c l.
Proof.
  intros H. assert (E : forall x, x ∈ l -> woken_of (procs k') c x = woken_of (procs k) c x).
  { intros x Hx. destruct (H x Hx) as (y & y' & Hy & Hy' & Hs). unfold woken_of.
    by rewrite Hy, Hy', (same_proc_woken _ _ _ Hs). }
  clear H. unfold wakes, stays.
  induction l as [|a l IH]; [done|]. rewrite !filter_cons, (E a) by left.
  destruct IH as [IH1 IH2]; [intros x Hx; apply E; by right|]. rewrite IH1, IH2. done.
Qed.

Lemma head_link ps hd K R p r : plist ps hd (K ++ p :: R) -> ps !! p = Some r -> p_link r = head R.
Proof.
  intros H Hr. revert hd H; induction K as [|x K IH]; intros hd H.
  - destruct H as (_ & r' & Hr' & H). rewrite Hr in Hr'. injection Hr' as <-.
    destruct R; [exact H|]. by destruct H.
  - destruct H as (_ & pr & _ & H). by eapply IH.
Qed.

Lemma wakeup_loop wk c R us en : forall K k n hd rq, (length R < n)%nat ->
  plist (procs k) (runq k) rq -> NoDup (K ++ R ++ rq) ->
  slpque k !! HASH c = Some hd -> plist (procs k) hd (K ++ R) -> undisturbed k c R ->
  (forall x r, x ∈ R -> procs k !! x = Some r -> p_stat r <> 0) ->
  exists k', loop n (wakeup_body wk c) (head R, last K) (mkworld us k en) =
      Ret tt (mkworld us k' en) /\ wakes_up c K R rq k k'.
Proof.
  induction R as [|p R IH]; intros K k n hd rq Hn Hrq Hnd Hhd Hpl Ho Hst;
    (destruct n as [|n]; [cbn in Hn; lia|]).
  { exists k. split; [done|]. split.
    - done.
    - exists hd. split; [by rewrite list_insert_id|done].
    - by destruct k.
    - intros x y Hx. exists y. rewrite decide_False by apply not_elem_of_nil.
      split; [done|apply same_proc_refl]. }
  assert (exists r, procs k !! p = Some r) as [r Hr].
  { apply lookup_lt_is_Some. pose proof (plist_bound _ _ _ Hpl) as Hb.
    rewrite Forall_forall in Hb. apply Hb, elem_of_app. right. left. }
  pose proof (head_link _ _ _ _ _ _ Hpl Hr) as Hlink.
  assert (Hof : woken_of (procs k) c p = woken c r) by (unfold woken_of; by rewrite Hr).
  assert (HpR : p ∉ R).
  { apply NoDup_app in Hnd as (_ & _ & [Hp _]%NoDup_cons). intros ?. apply Hp, elem_of_app. by left. }
  destruct (woken c r) eqn:Ew.
  - (* woken *)
    destruct (wake_one wk c (HASH c) p r (last K) k rq hd K R us en Hrq Hnd Hr Ew)
      as (k1 & E1 & Hrq1 & (hd1 & Hs1 & Hpl1) & Hf1 & Hl1 & Hp1); [| |done..|].
    { apply (Hst p); [left|done]. }
    { destruct Ho as [Ho|Ho]; [by left|right]. apply (Ho p r); [left|done..]. }
    assert (Hst1 : forall x r, x ∈ R -> procs k1 !! x = Some r -> p_stat r <> 0).
    { intros x r1 Hx Hr1. assert (x <> p) as Hne by (by intros ->).
      assert (exists y, procs k !! x = Some y) as [y Hy].
      { apply lookup_lt_is_Some. rewrite <- Hl1. by eapply lookup_lt_Some. }
      destruct (Hp1 x y Hy) as (y' & Hy' & Hs). rewrite decide_False in Hs by done.
      rewrite Hr1 in Hy'. injection Hy' as <-. rewrite Hs. apply (Hst x y); [by right|done]. }
    destruct (IH K k1 n hd1 (p :: rq)) as (k' & E' & [Wr Ws Wf Wp]).
    + cbn in Hn; lia.
    + exact Hrq1.
    + by rewrite <- Permutation_middle.
    + rewrite Hs1. apply list_lookup_insert_eq. by eapply lookup_lt_Some.
    + exact Hpl1.
    + destruct Ho as [Ho|Ho]; [left; by rewrite Hf1|right]. intros x r1 Hx Hr1 Hw1.
      assert (x <> p) as Hne by (by intros ->).
      assert (exists y, procs k !! x = Some y) as [y Hy].
      { apply lookup_lt_is_Some. rewrite <- Hl1. by eapply lookup_lt_Some. }
      destruct (Hp1 x y Hy) as (y' & Hy' & Hs). rewrite decide_False in Hs by done.
      rewrite Hr1 in Hy'. injection Hy' as <-. rewrite (same_proc_woken _ _ _ Hs) in Hw1. rewrite Hs.
      apply (Ho x y); [by right|done..].
    + exact Hst1.
    + destruct (woken_of_ext c k k1 R) as [Ewk Est].
      { intros x Hx. assert (x <> p) as Hne by (by intros ->).
        assert (exists y, procs k !! x = Some y) as [y Hy].
        { apply lookup_lt_is_Some. pose proof (plist_bound _ _ _ Hpl) as Hb.
          rewrite Forall_forall in Hb. apply Hb, elem_of_app. right. by right. }
        destruct (Hp1 x y Hy) as (y' & Hy' & Hs). rewrite decide_False in Hs by done. by exists y, y'. }
      exists k'. split.
      * erewrite loop_next; [exact E'|]. cbn [wakeup_body head].
        erewrite bind_ret_eq by (by apply tget_ok). rewrite Ew, <- Hlink.
        exact (bind_then _ _ _ _ _ _ _ E1).
      * rewrite Ewk in Wr. rewrite Est in Ws. split.
        -- unfold wakes. rewrite filter_cons_True by done. by rewrite reverse_cons, <- app_assoc.
        -- destruct Ws as (hd' & Hs' & Hpl'). exists hd'. rewrite Hs', Hs1, list_insert_insert_eq.
           split; [done|]. unfold stays. by rewrite filter_cons_False by (by rewrite Hof).
        -- by eapply queues_only_trans.
        -- intros x y Hy. destruct (Hp1 x y Hy) as (y1 & Hy1 & Hs2).
           destruct (Wp x y1 Hy1) as (y2 & Hy2 & Hs3). exists y2. split; [done|].
           destruct (decide (x = p)) as [->|Hne].
           ++ rewrite decide_False in Hs3 by done. rewrite decide_True by left.
              by eapply same_proc_trans.
           ++ destruct (decide (x ∈ R)) as [Hin|Hin].
              ** rewrite decide_True by (by right).
                 eapply same_proc_trans; [by apply same_proc_wake|done].
              ** rewrite decide_False by (by intros [?|?]%elem_of_cons).
                 by eapply same_proc_trans.
  - (* passed over *)
    destruct (IH (K ++ [p]) k n hd rq) as (k' & E' & [Wr Ws Wf Wp]);
      rewrite <- ?app_assoc; [cbn in Hn; lia|done..| | |].
    { destruct Ho as [Ho|Ho]; [by left|right]. intros x r1 Hx. apply Ho. by right. }
    { intros x r1 Hx. apply Hst. by right. }
    exists k'. split.
    + erewrite loop_next; [exact E'|]. cbn [wakeup_body head].
      erewrite bind_ret_eq by (by apply tget_ok). rewrite Ew, Hlink, last_snoc. done.
    + split.
      * unfold wakes. by rewrite filter_cons_False by (by rewrite Hof).
      * destruct Ws as (hd' & Hs' & Hpl'). exists hd'. split; [done|]. unfold stays.
        rewrite filter_cons_True by done. by rewrite <- app_assoc in Hpl'.
      * done.
      * intros x y Hy. destruct (Wp x y Hy) as (y' & Hy' & Hs). exists y'. split; [done|].
        destruct (decide (x = p)) as [->|Hne].
        -- rewrite decide_False in Hs by done. rewrite decide_True by left.
           unfold wake. rewrite Hr in Hy. injection Hy as <-. by rewrite Ew.
        -- destruct (decide (x ∈ R)).
           ++ by rewrite decide_True by (by right).
           ++ by rewrite decide_False by (by intros [?|?]%elem_of_cons).
Qed.

(** The bucket of [c] lists [l] and the run queue [rq]; a process is on one
    queue, once, and is not dead. *)
Record sleepers (k : kernel) (c : chan) (l rq : list nat) : Prop := {
  sl_runq : plist (procs k) (runq k) rq;
  sl_slpque : exists hd, slpque k !! HASH c = Some hd /\ plist (procs k) hd l;
  sl_nodup : NoDup (l ++ rq);
  sl_alive : forall x r, x ∈ l -> procs k !! x = Some r -> p_stat r <> 0
}.

Lemma wakeup_ok n c w l rq : sleepers (ks w) c l rq -> undisturbed (ks w) c l ->
  exists k', wakeup_n (S n) c w = Ret tt (w <| ks := k' |>) /\ wakes_up c [] l rq (ks w) k'.
Proof.
  intros [Hrq (hd & Hhd & Hl) Hnd Hal] Ho. destruct w as [us k en]. cbn [ks] in *.
  set (k6 := k <| pl := 6 |>).
  destruct (wakeup_loop (wakeup_n n) c l us en [] k6 (S (length (procs k))) hd rq)
    as (k' & E & [Wr (hd' & Ws & Wp) Wf Wq]); try done.
  { apply NoDup_app in Hnd as (Hnd & _ & _). pose proof (plist_length _ _ _ Hl Hnd). lia. }
  exists (k' <| pl := pl k |>). split.
  - cbn [wakeup_n]. unfold wakeup_with, spl6, spl. repeat mstep.
    unfold slp_get. erewrite bind_assoc, bind_ret_eq by reflexivity. cbn beta.
    cbn [ks setf slpque]. rewrite Hhd. cbn [the].
    erewrite bind_ret_eq by reflexivity. cbn beta.
    erewrite bind_ret_eq by apply nprocs_ok. cbn beta.
    assert (Eh : hd = head l) by (destruct l; [done|by destruct Hl]). rewrite Eh.
    change (loop _ _ _) with (loop (S (length (procs k))) (wakeup_body (wakeup_n n) c) (head l, last [])).
    erewrite bind_ret_eq by exact E. done.
  - split; [done|by exists hd'| |done].
    unfold queues_only in *. rewrite Wf at 1. by destruct k.
Qed.

(** C30. [wakeup] makes runnable exactly the processes asleep on the event:
    they leave their bucket, which keeps the others in order, and join the
    run queue, and nothing else about any process changes but the links.  This
    holds while the swapper is not waiting for something to bring in
    ([runout] is 0), and also while it is, if the processes woken are all in
    core; otherwise a process can be missed. *)
Theorem wakeup_correct (c : chan) (w : world) (l rq : list nat) :
  sleepers (ks w) c l rq -> undisturbed (ks w) c l ->
  exists k', wakeup c w = Ret tt (w <| ks := k' |>) /\
    plist (procs k') (runq k') (reverse (wakes (ks w) c l) ++ rq) /\
    (exists hd, slpque k' = <[HASH c := hd]> (slpque (ks w)) /\ plist (procs k') hd (stays (ks w) c l)) /\
    queues_only (ks w) k' /\
    (forall x y, procs (ks w) !! x = Some y -> exists y', procs k' !! x = Some y' /\
       same_proc (if decide (x ∈ l) then wake c y else y) y').
Proof.
  intros Hs Ho. destruct (wakeup_ok 2 c w l rq Hs Ho) as (k' & E & [Wr Ws Wf Wp]).
  by exists k'.
Qed.

(** ** Choosing a process *)

Definition runnable (r : proc) : bool := (p_stat r =? SRUN) && (p_flag r &? SLOAD).

(** [p] is the first of the runnable processes of [l1 ++ p :: l2] with the
    best priority. *)
Definition best_at (ps : list proc) (l1 : list nat) (p : nat) (l2 : list nat) : Prop :=
  exists r, ps !! p = Some r /\ runnable r = true /\
    (forall x y, x ∈ l1 -> ps !! x = Some y -> runnable y = true -> p_pri r < p_pri y) /\
    (forall x y, x ∈ l2 -> ps !! x = Some y -> runnable y = true -> p_pri r <= p_pri y).

Definition none_runnable (ps : list proc) (l : list nat) : Prop :=
  forall x y, x ∈ l -> ps !! x = Some y -> runnable y = false.

(** What the search holds after it has gone over [A]. *)
Definition searched (ps : list proc) (A : list nat) (best : option (nat * option nat)) (n : Z) : Prop :=
  match best with
  | None => n = 128 /\ none_runnable ps A
  | Some (p, q) => exists l1 l2 r, A = l1 ++ p :: l2 /\ q = last l1 /\ ps !! p = Some r /\
      n = p_pri r /\ best_at ps l1 p l2
  end.

Lemma searched_skip ps A b n p r : ps !! p = Some r ->
  runnable r && (p_pri r <? n) = false -> p_pri r < 128 ->
  searched ps A b n -> searched ps (A ++ [p]) b n.
Proof.
  intros Hr Hb Hp H. destruct b as [[x q]|]; cbn in *.
  - destruct H as (l1 & l2 & rx & -> & -> & Hx & -> & r' & Hx' & Hrun & H1 & H2).
    rewrite Hx in Hx'. injection Hx' as <-.
    exists l1, (l2 ++ [p]), rx. rewrite <- app_assoc. do 4 (split; [done|]).
    exists rx. do 3 (split; [done|]). intros z y [Hz|Hz%list_elem_of_singleton]%elem_of_app Hy Hry.
    + by apply (H2 z y).
    + subst z. rewrite Hr in Hy. injection Hy as <-. rewrite Hry in Hb. cbn in Hb.
      apply Z.ltb_ge in Hb. done.
  - destruct H as [-> H]. split; [done|].
    intros z y [Hz|Hz%list_elem_of_singleton]%elem_of_app Hy; [by apply (H z y)|].
    subst z. rewrite Hr in Hy. injection Hy as <-. destruct (runnable r); [|done].
    cbn in Hb. apply Z.ltb_ge in Hb. lia.
Qed.

Lemma searched_take ps A b n p r : ps !! p = Some r -> runnable r = true -> p_pri r < n ->
  searched ps A b n -> searched ps (A ++ [p]) (Some (p, last A)) (p_pri r).
Proof.
  intros Hr Hrun Hp H. exists A, [], r. do 4 (split; [done|]). exists r.
  do 2 (split; [done|]). split; [|by intros z y ?%elem_of_nil].
  intros z y Hz Hy Hry. destruct b as [[x q]|]; cbn in H.
  - destruct H as (l1 & l2 & rx & -> & -> & Hx & -> & r' & Hx' & _ & H1 & H2).
    rewrite Hx in Hx'. injection Hx' as <-.
    apply elem_of_app in Hz as [Hz|[->|Hz]%elem_of_cons].
    + specialize (H1 z y Hz Hy Hry). lia.
    + rewrite Hx in Hy. injection Hy as <-. lia.
    + specialize (H2 z y Hz Hy Hry). lia.
  - destruct H as [-> H]. by rewrite (H z y Hz Hy) in Hry.
Qed.

Lemma search_loop w B : forall m A hd b n, (length B < m)%nat ->
  plist (procs (ks w)) hd B -> searched (procs (ks w)) A b n ->
  (forall x r, x ∈ B -> procs (ks w) !! x = Some r -> p_pri r < 128) ->
  exists b' n', searched (procs (ks w)) (A ++ B) b' n' /\
    loop m (fun x : option nat * option nat * option (nat * option nat) * Z =>
      let '(p, q, best, n) := x in
      match p with
      | None => ret (inr (match best with Some (pp, pq) => Some (pp, pq, n) | None => None end))
      | Some p =>
          r <- tget procs p ;;
          let better := (p_stat r =? SRUN) && (p_flag r &? SLOAD) && (p_pri r <? n) in
          ret (inl (if better then (p_link r, Some p, Some (p, q), p_pri r)
                    else (p_link r, Some p, best, n)))
      end) (hd, last A, b, n) w =
    Ret (match b' with Some (pp, pq) => Some (pp, pq, n') | None => None end) w.
Proof.
  induction B as [|p B IH]; intros m A hd b n Hm Hpl Hs Hpri; (destruct m as [|m]; [cbn in Hm; lia|]).
  - exists b, n. rewrite app_nil_r. split; [done|]. rewrite Hpl. by erewrite loop_done.
  - destruct Hpl as (-> & r & Hr & Hpl).
    assert (Hpr : p_pri r < 128) by (apply (Hpri p); [left|done]).
    replace (A ++ p :: B) with ((A ++ [p]) ++ B) by (by rewrite <- app_assoc).
    assert (Hpri' : forall x r, x ∈ B -> procs (ks w) !! x = Some r -> p_pri r < 128)
      by (intros x y Hx; apply Hpri; by right).
    destruct (runnable r && (p_pri r <? n)) eqn:E; unfold runnable in E.
    + apply andb_prop in E as E'. destruct E' as [Hrun Hlt%Z.ltb_lt].
      destruct (IH m (A ++ [p]) (p_link r) (Some (p, last A)) (p_pri r)) as (b' & n' & Hs' & El);
        [cbn in Hm; lia|done|by eapply searched_take|done|].
      exists b', n'. split; [done|]. rewrite last_snoc in El. rewrite <- El.
      apply loop_next. erewrite bind_ret_eq by (by apply tget_ok). by rewrite E.
    + destruct (IH m (A ++ [p]) (p_link r) b n) as (b' & n' & Hs' & El);
        [cbn in Hm; lia|done|by eapply searched_skip|done|].
      exists b', n'. split; [done|]. rewrite last_snoc in El. rewrite <- El.
      apply loop_next. erewrite bind_ret_eq by (by apply tget_ok). by rewrite E.
Qed.

Lemma swtch_search_ok w rq : plist (procs (ks w)) (runq (ks w)) rq -> NoDup rq ->
  (forall x r, x ∈ rq -> procs (ks w) !! x = Some r -> p_pri r < 128) ->
  exists b n, searched (procs (ks w)) rq b n /\
    swtch_search w = Ret (match b with Some (pp, pq) => Some (pp, pq, n) | None => None end) w.
Proof.
  intros Hrq Hnd Hpri. pose proof (plist_length _ _ _ Hrq Hnd).
  destruct (search_loop w rq (S (length (procs (ks w)))) [] (runq (ks w)) None 128)
    as (b & n & Hs & E); [lia|done|by split; [|intros x y ?%elem_of_nil]|done|].
  exists b, n. split; [done|]. exact E.
Qed.

(** C36. [swtch] resumes the first, on the run queue, of the loaded runnable
    processes with the numerically least priority, takes exactly it off the
    queue, makes its priority the current one and drops its "swapped" flag;
    with none runnable it idles with the queue as it was. *)
Theorem swtch_pick_correct (w : world) (rq : list nat) :
  plist (procs (ks w)) (runq (ks w)) rq -> NoDup rq ->
  (forall x r, x ∈ rq -> procs (ks w) !! x = Some r -> -128 <= p_pri r < 128) ->
  (none_runnable (procs (ks w)) rq /\
   exists k', swtch_pick w = Ret None (w <| ks := k' |>) /\ plist (procs k') (runq k') rq) \/
  (exists l1 p l2 r k', rq = l1 ++ p :: l2 /\ best_at (procs (ks w)) l1 p l2 /\
     procs (ks w) !! p = Some r /\
     swtch_pick w = Ret (Some (p, p_flag r &? SSWAP)) (w <| ks := k' |>) /\
     plist (procs k') (runq k') (l1 ++ l2) /\ curpri k' = p_pri r /\ runrun k' = 0 /\
     p_flag <$> procs k' !! p = Some (s8 (clr (p_flag r) SSWAP))).
Proof.
  intros Hrq Hnd Hpri. destruct w as [us k en]. cbn [ks] in *.
  set (k1 := k <| pl := 6 |> <| runrun := 0 |>).
  destruct (swtch_search_ok (mkworld us k1 en) rq) as (b & n & Hs & E); [done..| |].
  { intros x r Hx Hr. by apply (Hpri x r Hx Hr). }
  unfold swtch_pick. unfold spl6, spl. repeat mstep.
  destruct b as [[p q]|]; [right|left].
  - destruct Hs as (l1 & l2 & r & -> & -> & Hr & -> & Hb). cbn [procs k1 setf ks] in Hr, Hb.
    exists l1, p, l2, r. erewrite bind_ret_eq by (by apply pf_ok). cbn beta.
    pose proof (plist_remove _ _ _ _ _ _ Hrq Hnd Hr) as Hrm.
    assert (Hlt : forall q' rq', procs k !! q' = Some rq' -> (q' < length (procs k))%nat)
      by (intros ??; apply lookup_lt_Some).
    assert (Hrange : s8 (p_pri r) = p_pri r).
    { apply s8_id. apply (Hpri p r); [apply elem_of_app; right; left|done]. }
    assert (Hpl1 : p ∉ l1 ++ l2).
    { apply NoDup_app in Hnd as (_ & H1 & [H2 _]%NoDup_cons). intros [Hin|Hin]%elem_of_app; [|done].
      apply (H1 p Hin). left. }
    destruct (last l1) as [q|] eqn:El.
    + destruct Hrm as (rq' & Hq & Hpl).
      assert (Hqp : q <> p).
      { intros ->. apply Hpl1, elem_of_app. left. apply last_Some in El as [l0 ->].
        apply elem_of_app. right. left. }
      erewrite bind_ret_eq by (apply pset_ok; exact Hq). cbn beta.
      unfold spl0, spl. repeat mstep.
      erewrite bind_ret_eq by (apply (pf_ok p_flag _ _ r); cbn; by rewrite list_lookup_insert_ne).
      cbn beta.
      erewrite bind_ret_eq by (apply (pset_ok p_flag _ _ _ r); cbn; by rewrite list_lookup_insert_ne).
      cbn beta. eexists. do 3 (split; [done|]). split; [reflexivity|]. cbn.
      split; [by apply plist_insert|]. split; [done|]. split; [done|].
      rewrite list_lookup_insert_eq; [done|]. rewrite length_insert. by eapply Hlt.
    + destruct Hrm as [_ Hpl]. unfold spl0, spl. repeat mstep.
      erewrite bind_ret_eq by (apply (pf_ok p_flag _ _ r); exact Hr). cbn beta.
      erewrite bind_ret_eq by (apply (pset_ok p_flag _ _ _ r); exact Hr).
      cbn beta. eexists. do 3 (split; [done|]). split; [reflexivity|]. cbn.
      split; [by apply plist_insert|]. split; [done|]. split; [done|].
      rewrite list_lookup_insert_eq; [done|]. by eapply Hlt.
  - destruct Hs as [_ Hs]. split; [exact Hs|]. by exists k1.
Qed.

(** ** Signals *)

(** Signal [i] is in the set [sig]. *)
Definition pending_sig (sig i : Z) : bool := Z.testbit sig (i - 1).
(** [j] is the least signal of the set. *)
Definition lowest (sig j : Z) : Prop :=
  1 <= j < NSIG /\ pending_sig sig j = true /\ forall i, 1 <= i < j -> pending_sig sig i = false.
Definition short (x : Z) : Prop := -32768 <= x < 32768.

Lemma land_1 n : n &? 1 = Z.testbit n 0.
Proof.
  unfold tst. change 1 with (Z.ones 1). rewrite Z.land_ones by lia.
  change (2 ^ 1) with 2. rewrite <- Z.bit0_mod. by destruct (Z.testbit n 0).
Qed.

Lemma fsig_loop w sig : forall d i, 0 <= i -> i + Z.of_nat d = 16 ->
  (forall k, 1 <= k <= i -> pending_sig sig k = false) -> (exists k, 1 <= k < NSIG /\ pending_sig sig k = true) ->
  exists j, loop (S d) fsig_step (i + 1, Z.shiftr sig i) w = Ret j w /\ lowest sig j.
Proof.
  induction d as [|d IH]; intros i Hi Hd Hno (k & Hk & Hpk).
  { exfalso. unfold NSIG in *. rewrite Hno in Hpk by lia. done. }
  destruct (Z.testbit sig i) eqn:Eb.
  - exists (i + 1). split.
    + apply loop_done. unfold fsig_step. rewrite land_1, Z.shiftr_spec, Z.add_0_l, Eb by lia.
      unfold NSIG. by rewrite (proj2 (Z.ltb_lt _ _)) by lia.
    + unfold lowest, pending_sig, NSIG. rewrite Z.add_simpl_r. repeat split; [lia|lia|done|].
      intros m Hm. apply Hno. lia.
  - destruct (IH (i + 1)) as (j & E & Hl); [lia|lia| |by exists k|].
    { intros m Hm. destruct (Z.eq_dec m (i + 1)) as [->|]; [|apply Hno; lia].
      unfold pending_sig. by rewrite Z.add_simpl_r. }
    exists j. split; [|done]. erewrite loop_next; [exact E|].
    unfold fsig_step. rewrite land_1, Z.shiftr_spec, Z.add_0_l, Eb by lia. unfold NSIG.
    rewrite (proj2 (Z.ltb_lt _ _)) by lia. cbn. by rewrite Z.shiftr_shiftr by lia.
Qed.

Lemma short_pending sig : short sig -> sig <> 0 -> exists k, 1 <= k < NSIG /\ pending_sig sig k = true.
Proof.
  intros Hs H0. destruct (decide (Exists (fun k => pending_sig sig k = true) (map Z.of_nat (seq 1 16))))
    as [He|He].
  - apply Exists_exists in He as (k & Hk & Hp). exists k. split; [|done].
    apply list_elem_of_fmap in Hk as (m & -> & Hm). apply elem_of_seq in Hm. unfold NSIG. lia.
  - exfalso. apply H0, (bits_zero 16); [lia|exact Hs|]. intros i Hi.
    destruct (Z.testbit sig i) eqn:E; [|done]. exfalso. apply He, Exists_exists.
    exists (i + 1). split.
    + apply list_elem_of_fmap. exists (Z.to_nat (i + 1)). split; [lia|]. apply elem_of_seq. lia.
    + unfold pending_sig. by rewrite Z.add_simpl_r.
Qed.

Lemma fsig_ok p w r : procs (ks w) !! p = Some r -> short (p_sig r) -> p_sig r <> 0 ->
  exists j, fsig p w = Ret j w /\ lowest (p_sig r) j.
Proof.
  intros Hr Hs H0. unfold fsig. erewrite bind_ret_eq by (by apply pf_ok). cbn beta.
  apply (fsig_loop w (p_sig r) 16 0); [lia|lia|intros; lia|by apply short_pending].
Qed.

(** The current process acts on signal [i]: it is not ignored, or the
    process is traced. *)
Definition acts (us : user) (r : proc) (i : Z) : Prop :=
  u_signal us !! Z.to_nat i <> Some 1 \/ p_flag r &? STRC = true.

Lemma clr_pending sig j i : 1 <= j < NSIG -> 1 <= i < NSIG ->
  pending_sig (s16 (clr sig (Z.shiftl 1 (j - 1)))) i = pending_sig sig i && negb (i =? j).
Proof.
  unfold NSIG, pending_sig, clr, s16. intros Hj Hi.
  rewrite wrapS_testbit, Z.land_spec, Z.lnot_spec, Z.shiftl_1_l, Z.pow2_bits_eqb by lia.
  f_equal. f_equal. destruct (Z.eqb_spec (j - 1) (i - 1)), (Z.eqb_spec i j); lia || done.
Qed.

(** [issig_result us r j r']: with [r] the process before and [r'] after,
    [j] is the signal to act on. *)
Definition issig_result (us : user) (r : proc) (j : Z) (r' : proc) : Prop :=
  r' = r <| p_sig := p_sig r' |> /\ short (p_sig r') /\
  (forall i, 1 <= i < NSIG -> pending_sig (p_sig r) i = true -> j = 0 \/ i < j -> ~ acts us r i) /\
  ((j = 0 /\ p_sig r' = 0) \/
   (acts us r j /\ lowest (p_sig r') j /\
    forall i, j <= i < NSIG -> pending_sig (p_sig r') i = pending_sig (p_sig r) i)).

Lemma lowest_unique s j i : lowest s j -> 1 <= i < NSIG -> pending_sig s i = true -> j <= i.
Proof.
  intros (Hj & Hp & Hl) Hi Hpi. destruct (Z.le_gt_cases j i); [done|].
  rewrite Hl in Hpi by lia. done.
Qed.

Lemma procs_id w p r : procs (ks w) !! p = Some r ->
  w <| ks ::= fun k => k <| procs ::= <[p := r]> |> |> = w.
Proof. intros H. destruct w as [us [] en]. cbn in *. by rewrite list_insert_id. Qed.

Lemma issig_loop p : forall d n m w r, (d < n)%nat -> m + Z.of_nat d = NSIG -> 1 <= m ->
  procs (ks w) !! p = Some r -> short (p_sig r) -> length (u_signal (u w)) = Z.to_nat NSIG ->
  (forall k, 1 <= k < m -> pending_sig (p_sig r) k = false) ->
  exists j r', loop n (issig_body p) tt w =
      Ret j (w <| ks ::= fun k => k <| procs ::= <[p := r']> |> |>) /\ issig_result (u w) r j r'.
Proof.
  induction d as [d IH] using lt_wf_ind; intros n m w r Hn Hd Hm Hr Hs Hlen Hno.
  destruct n as [|n]; [lia|].
  destruct (Z.eq_dec (p_sig r) 0) as [E0|E0].
  { exists 0, r. rewrite procs_id by done. split.
    - apply loop_done. unfold issig_body.
      erewrite bind_ret_eq by (by apply tget_ok). by rewrite E0.
    - split; [by destruct r|]. split; [done|]. split; [|by left].
      intros i Hi. rewrite E0. unfold pending_sig. by rewrite Z.bits_0. }
  destruct (fsig_ok p w r Hr Hs E0) as (j & Ej & Hj).
  assert (Hmj : m <= j).
  { destruct (Z.le_gt_cases m j); [done|]. destruct Hj as (? & Hp & _). rewrite Hno in Hp by lia. done. }
  destruct Hj as (Hj1 & Hjp & Hjl).
  assert (exists act, u_signal (u w) !! Z.to_nat j = Some act) as [act Hact].
  { apply lookup_lt_is_Some. rewrite Hlen. lia. }
  assert (Hbody : issig_body p tt w =
    (if negb (act =? 1) || (p_flag r &? STRC) then ret (inr j)
     else pset p p_sig (s16 (clr (p_sig r) (Z.shiftl 1 (j - 1)))) ;;; ret (inl tt)) w).
  { unfold issig_body. erewrite bind_ret_eq by (by apply tget_ok). cbn beta.
    rewrite (proj2 (tst_true _)) by done. cbn [negb].
    erewrite bind_ret_eq by exact Ej. cbn beta. erewrite bind_ret_eq by reflexivity. cbn beta.
    rewrite Hact. cbn [the]. erewrite bind_ret_eq by reflexivity. cbn beta.
    erewrite bind_ret_eq by (by apply pf_ok). cbn beta. destruct (_ || _); [done|].
    by erewrite bind_ret_eq by (by apply pf_ok). }
  assert (Hacts : acts (u w) r j <-> negb (act =? 1) || (p_flag r &? STRC) = true).
  { unfold acts. rewrite Hact, orb_true_iff, negb_true_iff, Z.eqb_neq.
    split; (intros [?|?]; [left|by right]); congruence. }
  destruct (negb (act =? 1) || (p_flag r &? STRC)) eqn:Eact.
  - (* acted on *)
    exists j, r. rewrite procs_id by done. split; [by apply loop_done|].
    split; [by destruct r|]. split; [done|]. split.
    + intros i Hi Hpi [->|Hlt]; [lia|]. rewrite Hjl in Hpi by lia. done.
    + right. split; [by apply Hacts|]. by split.
  - (* ignored *)
    set (sig' := s16 (clr (p_sig r) (Z.shiftl 1 (j - 1)))) in *.
    set (w1 := w <| ks ::= fun k => k <| procs ::= <[p := r <| p_sig := sig' |>]> |> |>).
    assert (Hr1 : procs (ks w1) !! p = Some (r <| p_sig := sig' |>)).
    { cbn. apply list_lookup_insert_eq. by eapply lookup_lt_Some. }
    assert (Hna : ~ acts (u w) r j) by (intros H%Hacts; done).
    assert (Hpend : forall i, 1 <= i < NSIG -> pending_sig sig' i = pending_sig (p_sig r) i && negb (i =? j))
      by (intros i Hi; by apply clr_pending).
    destruct (IH (Z.to_nat (NSIG - (j + 1))) ltac:(unfold NSIG in *; lia) n (j + 1) w1 (r <| p_sig := sig' |>))
      as (j' & r' & E' & Hres); [unfold NSIG in *; lia|unfold NSIG in *; lia|lia|done| |done| |].
    { apply s16_range. }
    { intros k Hk. cbn. unfold NSIG in *. rewrite Hpend by (unfold NSIG in *; lia).
      destruct (Z.eqb_spec k j) as [->|]; [apply andb_false_r|]. rewrite Hjl by lia. done. }
    exists j', r'. split.
    + erewrite loop_next.
      2: { rewrite Hbody. by erewrite bind_ret_eq by (by apply pset_ok). }
      etransitivity; [exact E'|]. destruct w as [? [] ?]. cbn. by rewrite list_insert_insert_eq.
    + destruct Hres as (E1 & Hs' & Hlow & Hhigh). cbn [p_sig setf] in *.
      split; [rewrite E1; by destruct r|]. split; [done|]. split.
      * intros i Hi Hpi Hlt. destruct (Z.eq_dec i j) as [->|Hne]; [done|].
        apply (Hlow i Hi); [|done]. rewrite Hpend by done. rewrite Hpi.
        by rewrite (proj2 (Z.eqb_neq _ _)) by done.
      * destruct Hhigh as [?|(Ha & Hl & Hp)]; [by left|right].
        assert (j < j').
        { destruct Hl as (Hj' & Hpj & _). rewrite Hp in Hpj by lia.
          rewrite Hpend in Hpj by lia. apply andb_prop in Hpj as [Hpj ?%negb_true_iff%Z.eqb_neq].
          destruct (Z.lt_trichotomy j' j) as [?|[?|?]]; [|lia|done].
          rewrite Hjl in Hpj by lia. done. }
        split; [exact Ha|]. split; [done|]. intros i Hi. rewrite Hp by done.
        rewrite Hpend by lia. rewrite (proj2 (Z.eqb_neq _ _)) by lia. apply andb_true_r.
Qed.

(** [issig] returns the least pending signal that the process does not
    ignore — any pending signal if it is traced — or 0 when there is none;
    the ignored ones below it are discarded, those above it stay pending,
    and nothing else changes. *)
Theorem issig_correct (w : world) (r : proc) :
  procs (ks w) !! u_procp (u w) = Some r -> short (p_sig r) ->
  length (u_signal (u w)) = Z.to_nat NSIG ->
  exists j r', issig w = Ret j (w <| ks ::= fun k => k <| procs ::= <[u_procp (u w) := r']> |> |>) /\
    r' = r <| p_sig := p_sig r' |> /\ short (p_sig r') /\
    (forall i, 1 <= i < NSIG -> pending_sig (p_sig r) i = true -> j = 0 \/ i < j -> ~ acts (u w) r i) /\
    ((j = 0 /\ p_sig r' = 0) \/
     (acts (u w) r j /\ lowest (p_sig r') j /\
      forall i, j <= i < NSIG -> pending_sig (p_sig r') i = pending_sig (p_sig r) i)).
Proof.
  intros Hr Hs Hl. unfold issig. erewrite bind_ret_eq by reflexivity. cbn beta.
  destruct (issig_loop (u_procp (u w)) 16 (Z.to_nat NSIG) 1 w r) as (j & r' & E & H);
    [vm_compute; lia|done|lia|done|done|done|intros; lia|].
  exists j, r'. split; [exact E|exact H].
Qed.

(** What [psignal] does before it wakes the process: the signal is pending
    and the priority no worse than PUSER. *)
Definition signalled (sig : Z) (r : proc) : proc :=
  r <| p_sig := s16 (Z.lor (p_sig r) (Z.shiftl 1 (sig - 1))) |>
    <| p_pri := Z.min (p_pri r) PUSER |>.

(** [psignal] ignores numbers that are no signal; otherwise the signal
    becomes pending and the process is woken exactly if it sleeps at a
    priority above PZERO: a sleep at PZERO or below is not disturbed. *)
Theorem psignal_correct (w : world) (p : nat) (sig : Z) (r : proc) :
  procs (ks w) !! p = Some r -> 0 <> sig ->
  let w1 := w <| ks ::= fun k => k <| procs ::= <[p := signalled sig r]> |> |> in
  psignal p sig w =
    if NSIG <=? u32 sig then Ret tt w
    else if (p_stat r =? SSLEEP) && (PZERO <? Z.min (p_pri r) PUSER) then setrun p w1
    else Ret tt w1.
Proof.
  intros Hr H0 w1. unfold psignal. destruct (NSIG <=? u32 sig); [done|].
  rewrite (proj2 (tst_true sig)) by done. cbn [when].
  pose proof (lookup_lt_Some _ _ _ Hr) as Hlt.
  rewrite bind_assoc. erewrite bind_ret_eq by (by apply pf_ok). cbn beta.
  erewrite bind_ret_eq by (by apply pset_ok). cbn beta.
  set (r1 := r <| p_sig := s16 (Z.lor (p_sig r) (Z.shiftl 1 (sig - 1))) |>).
  set (w2 := w <| ks ::= _ |>).
  assert (Hr1 : procs (ks w2) !! p = Some r1) by (by apply list_lookup_insert_eq).
  erewrite bind_ret_eq by (by apply pf_ok). cbn beta. cbn [p_pri r1 setf].
  assert (Hr2 : procs (ks w1) !! p = Some (signalled sig r)) by (by apply list_lookup_insert_eq).
  erewrite bind_ret_eq.
  2: { instantiate (1 := w1). destruct (Z.ltb_spec PUSER (p_pri r)) as [Hp|Hp]; cbn [when].
       - erewrite pset_ok by exact Hr1. subst w1 w2. unfold signalled. rewrite Z.min_r by lia.
         destruct w as [? [] ?]. cbn. by rewrite list_insert_insert_eq.
       - subst w1 w2. unfold signalled, ret. rewrite Z.min_l by lia. by destruct r. }
  cbn beta. erewrite bind_ret_eq by (by apply tget_ok). cbn beta.
  cbn [p_stat p_pri signalled setf]. by destruct (_ && _).
Qed.

(** ** A number and a slot for a new process *)

(** The number after [m], the [k]th that [newproc] tries. *)
Definition candidate (m : Z) (k : nat) : Z := (m + Z.of_nat k) mod 29999 + 1.
Definition used_number (ps : list proc) (m : Z) : Prop :=
  exists r, r ∈ ps /\ (p_pid r = m \/ p_pgrp r = m).
(** The first slot not in use. *)
Definition is_first (ps : list proc) (p : nat) : Prop :=
  (exists r, ps !! p = Some r /\ p_stat r = 0) /\
  forall j r, (j < p)%nat -> ps !! j = Some r -> p_stat r <> 0.

Lemma candidate_S m k : 0 <= m < 29999 -> candidate (m + 1) k = candidate m (S k).
Proof. intros H. unfold candidate. do 2 f_equal. lia. Qed.

(** Among the first [2 * n + 1] candidates one is not in use by [n] processes. *)
Lemma candidate_free ps m : Z.of_nat (length ps) < 14999 -> 0 <= m ->
  exists j, (j <= 2 * length ps)%nat /\ ~ used_number ps (candidate m j).
Proof.
  intros Hn Hm. set (U := map p_pid ps ++ map p_pgrp ps).
  assert (HU : forall x, used_number ps x <-> x ∈ U).
  { intros x. unfold U, used_number. rewrite elem_of_app, !list_elem_of_fmap. split.
    - intros (r & Hr & [E|E]); [left|right]; by exists r.
    - intros [(r & E & Hr)|(r & E & Hr)]; exists r; (split; [done|]); [by left|by right]. }
  set (C := map (candidate m) (seq 0 (2 * length ps + 1))).
  assert (HC : NoDup C).
  { apply NoDup_fmap_2_strong; [|apply NoDup_seq].
    intros x y Hx Hy E. apply elem_of_seq in Hx, Hy. unfold candidate in E.
    assert (Hxy : (m + Z.of_nat x) mod 29999 = (m + Z.of_nat y) mod 29999) by lia.
    apply (f_equal (fun z => (z - m) mod 29999)) in Hxy. rewrite !Zminus_mod_idemp_l in Hxy.
    replace (m + Z.of_nat x - m) with (Z.of_nat x) in Hxy by lia.
    replace (m + Z.of_nat y - m) with (Z.of_nat y) in Hxy by lia.
    rewrite !Z.mod_small in Hxy by lia. lia. }
  destruct (decide (Forall (fun x => x ∈ U) C)) as [Hall|Hnot].
  - exfalso. assert (length C <= length U)%nat as Hle.
    { apply submseteq_length, NoDup_submseteq; [done|]. by apply Forall_forall. }
    unfold C, U in Hle. rewrite length_app, !length_map, length_seq in Hle. lia.
  - apply not_Forall_Exists in Hnot; [|intros; apply _].
    apply Exists_exists in Hnot as (x & Hx & HxU).
    apply list_elem_of_fmap in Hx as (j & -> & Hj). apply elem_of_seq in Hj.
    exists j. split; [lia|]. by rewrite HU.
Qed.

(** What the search remembers after the first [i] slots. *)
Definition seen (ps : list proc) (i : nat) (p : option nat) : Prop :=
  match p with
  | Some p => is_first ps p
  | None => forall j r, (j < i)%nat -> ps !! j = Some r -> p_stat r <> 0
  end.

Lemma seen_step ps i p r : ps !! i = Some r -> seen ps i p ->
  seen ps (S i) (if (p_stat r =? 0) && bool_decide (p = None) then Some i else p).
Proof.
  intros Hr H. destruct p as [x|]; [by rewrite andb_false_r|].
  rewrite bool_decide_eq_true_2, andb_true_r by done. destruct (Z.eqb_spec (p_stat r) 0) as [E|E].
  - split; [by exists r|exact H].
  - intros j y Hj Hy. destruct (Nat.eq_dec j i) as [->|]; [|apply (H j y); [lia|done]].
    rewrite Hr in Hy. by injection Hy as <-.
Qed.

Lemma seen_0 ps i p : seen ps i p -> seen ps 0 p.
Proof. destruct p; [done|]. intros _ j r Hj. lia. Qed.

Lemma slot_scan_ok w m : forall d n i p, let ps := procs (ks w) in
  (d < n)%nat -> (i + d)%nat = length ps -> seen ps i p ->
  (forall j r, (j < i)%nat -> ps !! j = Some r -> p_pid r <> m /\ p_pgrp r <> m) ->
  exists p' b, loop n (slot_scan (length ps) m) (i, p) w = Ret (p', b) w /\
    (b = true /\ used_number ps m /\ seen ps 0 p' \/
     b = false /\ ~ used_number ps m /\ seen ps (length ps) p').
Proof.
  induction d as [|d IH]; intros n i p ps Hn Hi Hs Hno; (destruct n as [|n]; [lia|]).
  - exists p, false. split.
    + apply loop_done. cbn [slot_scan]. by rewrite (proj2 (Nat.leb_le _ _)) by lia.
    + right. split; [done|]. replace (length ps) with i by lia. split; [|done].
      intros (r & [j Hj]%list_elem_of_lookup & E).
      pose proof (lookup_lt_Some _ _ _ Hj). destruct (Hno j r); [lia|done|]. tauto.
  - assert (exists r, ps !! i = Some r) as [r Hr] by (apply lookup_lt_is_Some; lia).
    assert (Hb : slot_scan (length ps) m (i, p) w =
      Ret (if (p_pid r =? m) || (p_pgrp r =? m)
           then inr (if (p_stat r =? 0) && bool_decide (p = None) then Some i else p, true)
           else inl (S i, if (p_stat r =? 0) && bool_decide (p = None) then Some i else p)) w).
    { cbn [slot_scan]. rewrite (proj2 (Nat.leb_gt _ _)) by lia.
      erewrite bind_ret_eq by (by apply tget_ok). cbn beta. by destruct (_ || _). }
    pose proof (seen_step _ _ _ _ Hr Hs) as Hs'.
    destruct ((p_pid r =? m) || (p_pgrp r =? m)) eqn:Eu.
    + eexists _, true. split; [by apply loop_done|]. left. split; [done|].
      split; [|by eapply seen_0]. exists r. split; [by eapply list_elem_of_lookup_2|].
      apply orb_prop in Eu as [E%Z.eqb_eq|E%Z.eqb_eq]; [by left|by right].
    + apply orb_false_elim in Eu as [E1%Z.eqb_neq E2%Z.eqb_neq].
      edestruct (IH n (S i)) as (p' & b & E & H); [lia|fold ps; lia|exact Hs'| |].
      { intros j y Hj Hy. destruct (Nat.eq_dec j i) as [->|]; [|apply (Hno j y); [lia|done]].
        fold ps in Hy. rewrite Hr in Hy. by injection Hy as <-. }
      exists p', b. split; [|exact H]. by erewrite loop_next by exact Hb.
Qed.

(** The outcome of the search for a process number and a slot. *)
Definition slot_result (w : world) (r : outcome world nat) : Prop :=
  let ps := procs (ks w) in
  exists m, 1 <= m < 30000 /\ ~ used_number ps m /\
    let w' := w <| ks ::= fun k => k <| mpid := m |> |> in
    (exists p, r = Ret p w' /\ is_first ps p) \/
    (r = Panic "no procs" w' /\ forall x, x ∈ ps -> p_stat x <> 0).

Lemma slot_turn w p : let ps := procs (ks w) in let m := mpid (ks w) + 1 in
  m < 30000 -> seen ps 0 p ->
  (exists p', slot_try (length ps) p w = Ret (inl p') (w <| ks ::= fun k => k <| mpid := m |> |>) /\
     used_number ps m /\ seen ps 0 p') \/
  ~ used_number ps m /\
  ((exists p', slot_try (length ps) p w = Ret (inr p') (w <| ks ::= fun k => k <| mpid := m |> |>) /\
      is_first ps p') \/
   (slot_try (length ps) p w = Panic "no procs" (w <| ks ::= fun k => k <| mpid := m |> |>) /\
      forall x, x ∈ ps -> p_stat x <> 0)).
Proof.
  intros ps m Hm Hs. unfold slot_try. repeat mstep. fold m.
  rewrite (proj2 (Z.leb_gt _ _)) by lia.
  set (w1 := w <| ks ::= fun k => k <| mpid := m |> |>).
  destruct (slot_scan_ok w1 m (length ps) (S (length ps)) 0 p) as (p' & b & E & H);
    [lia|done|done|intros; lia|].
  change (procs (ks w1)) with ps in E, H.
  erewrite bind_ret_eq by exact E. cbn beta iota.
  destruct H as [(-> & Hu & Hs')|(-> & Hu & Hs')].
  - left. by exists p'.
  - right. split; [done|]. destruct p' as [p'|]; [left; by exists p'|right].
    split; [done|]. intros x [j Hj]%list_elem_of_lookup. apply (Hs' j x); [|done].
    by eapply lookup_lt_Some.
Qed.

(** Numbers beyond 29999 start again from 1. *)
Lemma slot_reset w p n ps : procs (ks w) = ps -> mpid (ks w) = 29999 ->
  loop (S n) (slot_try (length ps)) p w =
  loop n (slot_try (length ps)) p (w <| ks ::= fun k => k <| mpid := 0 |> |>).
Proof.
  intros <- Hm. apply loop_next. unfold slot_try. repeat mstep. rewrite Hm. cbn.
  by destruct w as [? [] ?].
Qed.

Lemma slot_result_mpid w m r :
  slot_result (w <| ks ::= fun k => k <| mpid := m |> |>) r <-> slot_result w r.
Proof. by destruct w as [? [] ?]. Qed.

Lemma slot_loop ps j : forall n p w, procs (ks w) = ps -> 0 <= mpid (ks w) < 30000 ->
  (2 * j + 2 <= n)%nat -> Z.of_nat j < 29999 ->
  ~ used_number ps (candidate (mpid (ks w)) j) -> seen ps 0 p ->
  slot_result w (loop n (slot_try (length ps)) p w).
Proof.
  induction j as [j IH] using lt_wf_ind.
  assert (Hcore : forall n p w, procs (ks w) = ps -> 0 <= mpid (ks w) < 29999 ->
    (2 * j + 1 <= n)%nat -> Z.of_nat j < 29999 ->
    ~ used_number ps (candidate (mpid (ks w)) j) -> seen ps 0 p ->
    slot_result w (loop n (slot_try (length ps)) p w)).
  { intros n p w Hps Hm Hn Hj Hfree Hs. destruct n as [|n]; [lia|].
    set (m := mpid (ks w) + 1). set (w1 := w <| ks ::= fun k => k <| mpid := m |> |>).
    pose proof (slot_turn w p ltac:(lia)) as Ht. rewrite Hps in Ht. cbn zeta in Ht. fold m w1 in Ht.
    destruct (Ht Hs) as [(p' & E & Hu & Hs')|(Hfr & Hres)].
    - rewrite (loop_next _ _ _ _ _ _ E). destruct j as [|j].
      { exfalso. apply Hfree. unfold candidate. rewrite Z.add_0_r, Z.mod_small by lia. exact Hu. }
      apply (proj1 (slot_result_mpid w m _)). apply (IH j); [lia|done|unfold m; cbn; lia|lia|lia| |done].
      change (mpid (ks w1)) with (mpid (ks w) + 1). by rewrite candidate_S by lia.
    - exists m. split; [unfold m; lia|]. rewrite Hps. split; [done|]. cbn zeta. fold w1.
      destruct Hres as [(p' & E & Hf)|[E Hf]].
      + left. exists p'. split; [by apply loop_done|done].
      + right. split; [|done]. rewrite loop_S. unfold bind. by rewrite E. }
  intros n p w Hps Hm Hn Hj Hfree Hs.
  destruct (Z.eq_dec (mpid (ks w)) 29999) as [E|E]; [|apply Hcore; try done; lia].
  destruct n as [|n]; [lia|]. rewrite (slot_reset w p n ps) by done.
  apply (proj1 (slot_result_mpid w 0 _)). apply Hcore; try done; [lia|].
  replace (candidate _ j) with (candidate (mpid (ks w)) j); [done|].
  rewrite E. unfold candidate. f_equal. change (mpid _) with 0.
  rewrite <- Zplus_mod_idemp_l. done.
Qed.

(** C32. The search of [newproc] ends: it takes a process number from 1 to
    29999 that no process has as its number or its group, and the first free
    slot; it panics exactly if there is none. *)
Theorem newproc_slot_correct (w : world) :
  Z.of_nat (length (procs (ks w))) < 14999 -> 0 <= mpid (ks w) < 30000 ->
  exists m, 1 <= m < 30000 /\ ~ used_number (procs (ks w)) m /\
    let w' := w <| ks ::= fun k => k <| mpid := m |> |> in
    (exists p, newproc_slot w = Ret p w' /\ is_first (procs (ks w)) p) \/
    (newproc_slot w = Panic "no procs" w' /\ forall x, x ∈ procs (ks w) -> p_stat x <> 0).
Proof.
  intros Hn Hm. destruct (candidate_free (procs (ks w)) (mpid (ks w)) Hn) as (j & Hj & Hfree); [lia|].
  unfold newproc_slot. erewrite bind_ret_eq by apply nprocs_ok.
  by apply (slot_loop (procs (ks w)) j); [done|done|lia|lia|done|intros ? ? ?; lia].
Qed.

End Slp.

(** ** Concrete states *)

(** A process asleep on [c]. *)
Definition asleep (c : chan) (flag pri : Z) (link : option nat) : proc :=
  proc0 <| p_stat := SSLEEP |> <| p_flag := flag |> <| p_pri := pri |> <| p_wchan := c |>
    <| p_link := link |>.
Definition ready (pri : Z) (link : option nat) : proc :=
  proc0 <| p_stat := SRUN |> <| p_flag := SLOAD |> <| p_pri := pri |> <| p_link := link |>.

(** Processes 1 and 2 sleep on the clock, 0 on something else; 3 and 4 run. *)
Definition waiting : world :=
  world0 <| ks := kernel0
    <| procs := [asleep CIpc SLOAD 10 (Some 2%nat); asleep CLbolt SLOAD 40 (Some 0%nat);
                 asleep CLbolt SLOAD 40 None; ready 60 (Some 4%nat); ready 55 None] |>
    <| slpque := Some 1%nat :: replicate 63 None |> <| runq := Some 3%nat |> |>.

Lemma waiting_sleepers : @sleepers machine0 (ks waiting) CLbolt [1; 0; 2]%nat [3; 4]%nat.
Proof.
  constructor.
  - split; [done|]. eexists. split; [done|]. split; [done|]. by eexists.
  - eexists. split; [done|]. split; [done|]. eexists. split; [done|]. split; [done|].
    eexists. split; [done|]. split; [done|]. by eexists.
  - by apply (bool_decide_unpack _).
  - intros x r Hx Hr. repeat (apply elem_of_cons in Hx as [->|Hx]; [by injection Hr as <-|]).
    by apply elem_of_nil in Hx.
Qed.

Lemma wakeup_correct_witness :
  exists k', @wakeup machine0 CLbolt waiting = Ret tt (waiting <| ks := k' |>) /\
    plist (procs k') (runq k') [2; 1; 3; 4]%nat /\
    (exists hd, slpque k' = <[0%nat := hd]> (slpque (ks waiting)) /\ plist (procs k') hd [0%nat]) /\
    queues_only (ks waiting) k' /\
    (forall x y, procs (ks waiting) !! x = Some y -> exists y', procs k' !! x = Some y' /\
       same_proc (if decide (x ∈ [1; 0; 2]%nat) then wake CLbolt y else y) y').
Proof.
  exact (@wakeup_correct machine0 CLbolt waiting [1; 0; 2]%nat [3; 4]%nat waiting_sleepers (or_introl eq_refl)).
Defined.

(** The swapper, process 0, waits on [runout] in the same bucket between two
    processes that sleep on the clock; the first of them is swapped out. *)
Definition contended : world :=
  world0 <| ks := kernel0
    <| procs := [asleep CRunout (Z.lor SLOAD SSYS) 0 (Some 2%nat); asleep CLbolt 0 40 (Some 0%nat);
                 asleep CLbolt SLOAD 40 None] |>
    <| slpque := Some 1%nat :: replicate 63 None |> <| runout := 1 |> |>.

(** With the swapper waiting, [wakeup] can lose a wakeup: making the
    first process runnable wakes the swapper, which is the process saved as
    next to look at; it is by then on the run queue, the scan goes on there,
    and a process later in the bucket is left asleep on the event. *)
Theorem wakeup_lost :
  @sleepers machine0 (ks contended) CLbolt [1; 0; 2]%nat [] /\
  match @wakeup machine0 CLbolt contended with
  | Ret _ w' =>
      (fun r => (p_stat r, p_wchan r)) <$> procs (ks w') !! 2%nat = Some (SSLEEP, CLbolt) /\
      (fun r => p_stat r) <$> procs (ks w') !! 1%nat = Some SRUN
  | _ => False
  end.
Proof.
  split; [|by vm_compute].
  constructor; [done|..].
  - eexists. split; [done|]. split; [done|]. eexists. split; [done|]. split; [done|].
    eexists. split; [done|]. split; [done|]. by eexists.
  - by apply (bool_decide_unpack _).
  - intros x r Hx Hr. repeat (apply elem_of_cons in Hx as [->|Hx]; [by injection Hr as <-|]).
    by apply elem_of_nil in Hx.
Qed.

Lemma swtch_pick_correct_witness :
  (none_runnable (procs (ks waiting)) [3; 4]%nat /\
   exists k', swtch_pick waiting = Ret None (waiting <| ks := k' |>) /\
     plist (procs k') (runq k') [3; 4]%nat) \/
  (exists l1 p l2 r k', [3; 4]%nat = l1 ++ p :: l2 /\ best_at (procs (ks waiting)) l1 p l2 /\
     procs (ks waiting) !! p = Some r /\
     swtch_pick waiting = Ret (Some (p, p_flag r &? SSWAP)) (waiting <| ks := k' |>) /\
     plist (procs k') (runq k') (l1 ++ l2) /\ curpri k' = p_pri r /\ runrun k' = 0 /\
     p_flag <$> procs k' !! p = Some (s8 (clr (p_flag r) SSWAP))).
Proof.
  refine (swtch_pick_correct waiting [3; 4]%nat _ _ _).
  - exact (sl_runq _ _ _ _ waiting_sleepers).
  - by apply (bool_decide_unpack _).
  - intros x r Hx Hr. repeat (apply elem_of_cons in Hx as [->|Hx]; [by injection Hr as <-|]).
    by apply elem_of_nil in Hx.
Defined.

(** Process 0 with signals 2 (ignored) and 3 pending. *)
Definition interrupted : world :=
  world0 <| u := user0 <| u_signal := [0; 0; 1] ++ replicate 14 0 |> |>
    <| ks := kernel0 <| procs := [proc0 <| p_sig := 6 |>] |> |>.

Lemma issig_correct_witness :
  exists j r', issig interrupted =
      Ret j (interrupted <| ks ::= fun k => k <| procs ::= <[0%nat := r']> |> |>) /\
    r' = proc0 <| p_sig := p_sig r' |> /\ short (p_sig r') /\
    (forall i, 1 <= i < NSIG -> pending_sig 6 i = true -> j = 0 \/ i < j ->
       ~ acts (u interrupted) (proc0 <| p_sig := 6 |>) i) /\
    ((j = 0 /\ p_sig r' = 0) \/
     (acts (u interrupted) (proc0 <| p_sig := 6 |>) j /\ lowest (p_sig r') j /\
      forall i, j <= i < NSIG -> pending_sig (p_sig r') i = pending_sig 6 i)).
Proof.
  exact (issig_correct interrupted (proc0 <| p_sig := 6 |>) eq_refl
           ltac:(unfold short; cbn; lia) eq_refl).
Defined.

Lemma psignal_correct_witness :
  let r := asleep CLbolt SLOAD 40 (Some 0%nat) in
  let w1 := waiting <| ks ::= fun k => k <| procs ::= <[1%nat := signalled 3 r]> |> |> in
  @psignal machine0 1 3 waiting =
    if NSIG <=? u32 3 then Ret tt waiting
    else if (p_stat r =? SSLEEP) && (PZERO <? Z.min (p_pri r) PUSER)
         then @setrun machine0 1 w1 else Ret tt w1.
Proof. intros r w1. apply (@psignal_correct machine0 waiting 1 3 r eq_refl). lia. Defined.

Lemma newproc_slot_correct_witness :
  exists m, 1 <= m < 30000 /\ ~ used_number (procs (ks waiting)) m /\
    let w' := waiting <| ks ::= fun k => k <| mpid := m |> |> in
    (exists p, newproc_slot waiting = Ret p w' /\ is_first (procs (ks waiting)) p) \/
    (newproc_slot waiting = Panic "no procs" w' /\ forall x, x ∈ procs (ks waiting) -> p_stat x <> 0).
Proof. exact (newproc_slot_correct waiting ltac:(cbn; lia) ltac:(cbn; lia)). Defined.
