(* ===== verification/Clock.v ===== *)
(** * Clock: the clock interrupt of [sys/clock.c]

    Sixty times a second: age the callout table and make the calls that fall
    due, charge the running process, and once a second advance the time of
    day, wake those who wait for it, age the processes and run their alarms. *)

From S2P Require Import Prelude Bytes Callout State Sched.

(** The saved state of what the clock interrupts. *)
Record trap := mktrap { tr_pl : Z; tr_cs : Z; tr_eip : Z }.
Definition USERMODE (cs : Z) : bool := negb (Z.land cs 65535 =? 16).
Definition BASEPRI (pl : Z) : bool := negb (pl =? 65535).
Definition SIGCLK : Z := 14.

(** [while(p2->c_time<=0 && p2->c_func!=NULL) p2++; p2->c_time--;] *)
Definition callout_tick : TM unit :=
  p2 <- loop (S NCALL) (fun p2 =>
    e <- entry p2 ;;
    ret (if (c_time e <=? 0) && bool_decide (is_Some (c_func e)) then inl (S p2) else inr p2)) 0%nat ;;
  set_entry p2 (fun d => d <| c_time ::= fun c => s32 (c - 1) |>).

(** Moving the entries from [p1] on to the front of the table:
    [while(p2->c_func = p1->c_func) { copy the rest; p1++; p2++; }] *)
Definition callout_close (p1 : nat) : TM unit :=
  loop (S NCALL) (fun x : nat * nat =>
    let '(p1, p2) := x in
    e <- entry p1 ;;
    set_entry p2 (fun d => d <| c_func := c_func e |>) ;;;
    match c_func e with
    | None => ret (inr tt)
    | Some _ =>
        e <- entry p1 ;;
        set_entry p2 (fun d => d <| c_time := c_time e |>) ;;;
        set_entry p2 (fun d => d <| c_arg := c_arg e |>) ;;;
        ret (inl (S p1, S p2))
    end) (p1, 0%nat).

Section Clock.
Context {MC : Machine}.

(** Making the calls at the front of the table that are due. *)
Definition callout_call : KM nat :=
  loop (S NCALL) (fun p1 =>
    e <- zoom callout (entry p1) ;;
    match c_func e with
    | Some f =>
        if c_time e <=? 0 then callfunc f (c_arg e) ;;; ret (inl (S p1)) else ret (inr p1)
    | None => ret (inr p1)
    end) 0%nat.
Definition callout_run : KM unit :=
  p1 <- callout_call ;; zoom callout (callout_close p1).

(** What happens to each live process once a second. *)
Definition SCHMAG (x : Z) : Z := x * 8 / 10.
Definition age (pp : nat) : KM unit :=
  r <- tget procs pp ;;
  when (tst (p_stat r) && (p_stat r <? SZOMB))
    (when (negb (p_time r =? 127)) (pset pp p_time (s8 (p_time r + 1))) ;;;
     when (tst (p_clktim r))
       (pset pp p_clktim (s32 (p_clktim r - 1)) ;;;
        when (s32 (p_clktim r - 1) =? 0) (psignal pp SIGCLK)) ;;;
     r <- tget procs pp ;;
     let a := SCHMAG (Z.land (p_cpu r) 255) + p_nice r - NZERO in
     let a := if a <? 0 then 0 else a in
     let a := if 255 <? a then 255 else a in
     pset pp p_cpu (s8 a) ;;;
     pri <- pf pp p_pri ;;
     when (PUSER <=? pri) (setpri pp ;;; ret tt)).

(** Once a second. *)
Definition second : KM unit :=
  l <- kf lbolt ;;
  kset lbolt (l - HZ) ;;;
  t <- kf time ;; kset time (s32 (t + 1)) ;;;
  spl1 ;;;
  rr <- kf runrun ;; kset runrun (s8 (rr + 1)) ;;;
  wakeup CLbolt ;;;
  n <- nprocs ;;
  for_ (slots n) age ;;;
  ri <- kf runin ;;
  when (tst ri) (kset runin 0 ;;; wakeup CRunin).

(** Charging the interrupted process; [a] indexes the disk statistics. *)
Definition charge (tr : trap) : KM unit :=
  dk <- kf dk_busy ;;
  let a := Z.land dk 7 in
  pp <- uf u_procp ;;
  a <- (if USERMODE (tr_cs tr) then
          t <- uf u_utime ;; uset u_utime (s32 (t + 1)) ;;;
          sc <- uf pr_scale ;;
          when (tst sc) (addupc (tr_eip tr) 1) ;;;
          ni <- pf pp p_nice ;;
          ret (if NZERO <? ni then a + 8 else a)
        else
          t <- uf u_stime ;; uset u_stime (s32 (t + 1)) ;;;
          ret (if tr_eip tr =? waitloc then a + 16 + 8 else a + 16)) ;;
  dt <- kf dk_time ;; d <- the (dt !! Z.to_nat a) ;;
  kset dk_time (<[Z.to_nat a := s32 (d + 1)]> dt) ;;;
  c <- pf pp p_cpu ;;
  pset pp p_cpu (s8 (c + 1)) ;;;
  when (s8 (c + 1) =? 0) (pset pp p_cpu (s8 (s8 (c + 1) - 1))).

(** The callouts, up to the label [out:]. *)
Definition callouts (tr : trap) : KM unit :=
  e0 <- zoom callout (entry 0) ;;
  when (bool_decide (is_Some (c_func e0)))
    (zoom callout callout_tick ;;;
     when (negb (BASEPRI (tr_pl tr)))
       (spl5 ;;;
        e0 <- zoom callout (entry 0) ;;
        when (c_time e0 <=? 0) callout_run)).

Definition clock (tr : trap) : KM unit :=
  callouts tr ;;;
  charge tr ;;;
  l <- kf lbolt ;;
  kset lbolt (s32 (l + 1)) ;;;
  when ((HZ <=? s32 (l + 1)) && negb (BASEPRI (tr_pl tr))) second.

(** ** The callouts of one tick *)


(** The pending calls are due in order, none overdue. *)
Fixpoint ordered (t : Z) (cs : list call) : Prop :=
  match cs with [] => True | c :: r => t <= due c /\ ordered (due c) r end.

(** Making calls one after the other. *)
Definition call_all (cs : list call) : KM unit :=
  for_ cs (fun c => callfunc (fn c) (arg c)).

(** The next tick makes the calls with [due c <= 1]; the others come one
    tick nearer. *)
Definition due_now (cs : list call) : list call := filter (fun c => due c <= 1) cs.
Definition sooner (c : call) : call := mkcall (due c - 1) (fn c) (arg c).
Definition due_later (cs : list call) : list call := map sooner (filter (fun c => 1 < due c) cs).

(** Arming calls one after the other. *)
Definition arm (cs new : list call) : list call := foldl (fun l c => add_call c l) cs new.
Definition later (c : call) : Prop := 1 <= due c.

(** The routines called return, and leave the table of timeouts as it is or
    arm one more, as [ttrstrt] does for the next delay of its terminal. *)
Definition calls_return : Prop :=
  forall f a w cs, table (callout (ks w)) cs -> (length cs < NCALL - 1)%nat ->
  exists w' new, callfunc f a w = Ret tt w' /\ (length new <= 1)%nat /\ Forall later new /\
    table (callout (ks w')) (arm cs new).

Lemma pending_ordered us : forall t0, active us -> ordered t0 (pending t0 us) ->
  Forall (fun e => 0 <= c_time e) us.
Proof.
  induction us as [|e us IH]; intros t0 Ha Ho; [constructor|].
  apply Forall_cons in Ha as [[g Hg] Ha]. cbn in Ho. rewrite Hg in Ho. cbn in Ho. destruct Ho as [He Ho].
  constructor; [lia|]. by apply (IH (t0 + c_time e)).
Qed.

Lemma pending_shift us : forall t d,
  pending (t + d) us = map (fun c => mkcall (due c + d) (fn c) (arg c)) (pending t us).
Proof.
  induction us as [|e us IH]; intros t d; [done|]. cbn. destruct (c_func e); [|done].
  cbn. replace (t + d + c_time e) with (t + c_time e + d) by lia. by rewrite IH.
Qed.

(** Splitting the entries after those that are due. *)
Lemma split_due us : exists d k, us = d ++ k /\ Forall (fun e => c_time e <= 0) d /\
  match k with [] => True | e :: _ => 0 < c_time e end.
Proof.
  induction us as [|e us (d & k & -> & Hd & Hk)]; [by exists [], []|].
  destruct (Z.le_gt_cases (c_time e) 0).
  - exists (e :: d), k. split; [done|]. split; [by constructor|done].
  - exists [], (e :: d ++ k). split; [done|]. split; [constructor|lia].
Qed.

Lemma zoom_entry w pre e post : callout (ks w) = pre ++ e :: post ->
  zoom callout (entry (length pre)) w = Ret e w.
Proof.
  intros E. unfold zoom. rewrite E, entry_at. f_equal. destruct w as [us [] en]. cbn in *. by rewrite E.
Qed.

Lemma tick_find d : forall n pre k rest, (length d < n)%nat -> active d ->
  Forall (fun e => c_time e <= 0) d ->
  (0 < c_time k \/ c_func k = None) ->
  loop n (fun p2 =>
    e <- entry p2 ;;
    ret (if (c_time e <=? 0) && bool_decide (is_Some (c_func e)) then inl (S p2) else inr p2))
    (length pre) (pre ++ d ++ k :: rest) = Ret (length pre + length d)%nat (pre ++ d ++ k :: rest).
Proof.
  induction d as [|e d IH]; intros n pre k rest Hn Ha Hd Hk; (destruct n as [|n]; [cbn in *; lia|]); cbn [app].
  - erewrite loop_done. { by rewrite Nat.add_0_r. }
    erewrite bind_ret_eq by apply entry_at. cbn beta. destruct Hk as [Hk|Hk].
    + by rewrite (proj2 (Z.leb_gt _ _)) by lia.
    + rewrite Hk, bool_decide_eq_false_2 by (by intros []). by rewrite andb_false_r.
  - apply Forall_cons in Ha as [Hg Ha]. apply Forall_cons in Hd as [He Hd].
    erewrite loop_next.
    2: { erewrite bind_ret_eq by apply entry_at. cbn beta.
         by rewrite (proj2 (Z.leb_le _ _)), bool_decide_eq_true_2 by (done || lia). }
    specialize (IH n (pre ++ [e]) k rest ltac:(cbn in Hn; lia) Ha Hd Hk).
    rewrite length_app, <- app_assoc, Nat.add_1_r in IH. cbn [app] in IH.
    rewrite IH. cbn [length]. by rewrite Nat.add_succ_r.
Qed.

(** The entries are determined by the calls they stand for. *)
Lemma pending_prefix z : forall t us cs, active z -> active us -> pending t us = pending t z ++ cs ->
  exists k, us = z ++ k /\ pending (t + total z) k = cs.
Proof.
  induction z as [|e z IH]; intros t us cs Hz Hu E.
  - exists us. cbn in *. by rewrite Z.add_0_r.
  - apply Forall_cons in Hz as [[f Hf] Hz]. cbn in E. rewrite Hf in E. cbn in E.
    destruct us as [|x us]; [done|]. apply Forall_cons in Hu as [[g Hg] Hu]. cbn in E. rewrite Hg in E.
    injection E as Ed Ef Ea E. assert (c_time x = c_time e) as Et by lia. rewrite Et in E.
    destruct (IH _ us cs Hz Hu E) as (k & -> & Ek). exists k. split.
    + cbn. f_equal. destruct x, e. cbn in *. by subst.
    + cbn. fold (total z). by rewrite Z.add_assoc.
Qed.

Lemma add_call_after xs ys c : Forall (fun d => due d <= due c) xs ->
  add_call c (xs ++ ys) = xs ++ add_call c ys.
Proof.
  induction 1 as [|d xs Hd _ IH]; [done|]. cbn. by rewrite (proj2 (Z.leb_le _ _)), IH.
Qed.
Lemma arm_after xs new : Forall (fun d => due d = 0) xs -> Forall later new -> forall ys,
  arm (xs ++ ys) new = xs ++ arm ys new.
Proof.
  intros Hx. induction 1 as [|c new Hc _ IH]; intros ys; [done|]. cbn. rewrite add_call_after; [apply IH|].
  eapply Forall_impl; [exact Hx|]. unfold later in Hc. cbn. lia.
Qed.
Lemma arm_length new : forall cs, length (arm cs new) = (length cs + length new)%nat.
Proof.
  induction new as [|c new IH]; intros cs; cbn; [lia|]. fold (arm (add_call c cs) new).
  rewrite IH, add_call_length. lia.
Qed.
Lemma arm_Forall (P : call -> Prop) new : Forall P new -> forall cs, Forall P cs -> Forall P (arm cs new).
Proof. induction 1 as [|c new Hc _ IH]; intros cs H; [done|]. cbn. apply IH. by apply add_call_Forall. Qed.
Lemma arm_arm cs new1 new2 : arm (arm cs new1) new2 = arm cs (new1 ++ new2).
Proof. unfold arm. by rewrite foldl_app. Qed.

Lemma total_zero d : Forall (fun e => c_time e = 0) d -> total d = 0.
Proof. induction 1 as [|e d He _ IH]; [done|]. cbn. unfold total in IH. lia. Qed.

Lemma pending_zero d : Forall (fun e => c_time e = 0) d -> Forall (fun c => due c = 0) (pending 0 d).
Proof.
  induction 1 as [|e d He _ IH]; [constructor|]. cbn. destruct (c_func e); [|constructor].
  rewrite He. by constructor.
Qed.

(** A table whose entries [z] are due; [k] are the others. *)
Record split_table (l : list callo) (z k : list callo) (s : callo) (rest : list callo) : Prop := {
  st_eq : l = z ++ k ++ s :: rest;
  st_due : active z; st_zero : Forall (fun e => c_time e = 0) z;
  st_other : active k; st_later : Forall later (pending 0 k); st_end : c_func s = None;
  st_table : table l (pending 0 z ++ pending 0 k)
}.

(** Calls armed while the due ones are made do not disturb these. *)
Lemma split_armed l z k s rest l' new : split_table l z k s rest -> Forall later new ->
  table l' (arm (pending 0 z ++ pending 0 k) new) ->
  exists k' s' rest', split_table l' z k' s' rest' /\ pending 0 k' = arm (pending 0 k) new.
Proof.
  intros [_ Hz H0 Hk Hkl Hs _] Hnew Ht. rewrite arm_after in Ht by (done || by apply pending_zero).
  destruct (table_used _ _ Ht) as (us & s' & rest' & -> & Ha & Hs' & E & _).
  destruct (pending_prefix z 0 us _ Hz Ha (eq_sym E)) as (k' & -> & Ek). rewrite total_zero in Ek by done. change (0 + 0) with 0 in Ek.
  apply Forall_app in Ha as [_ Ha]. exists k', s', rest'. split; [|done]. rewrite <- Ek in Ht.
  constructor; try done; [by rewrite <- app_assoc|]. rewrite Ek. by apply arm_Forall.
Qed.

(** The loop that makes the calls, from the entry at [length pre] on. *)
Lemma call_loop (Hc : calls_return) d : forall n pre k s rest w, (length d < n)%nat ->
  split_table (callout (ks w)) (pre ++ d) k s rest ->
  (length (pre ++ d) + length k + length d <= NCALL - 1)%nat ->
  exists w' new k' s' rest', call_all (pending 0 d) w = Ret tt w' /\
    split_table (callout (ks w')) (pre ++ d) k' s' rest' /\
    pending 0 k' = arm (pending 0 k) new /\ Forall later new /\ (length new <= length d)%nat /\
    loop n (fun p1 =>
      e <- zoom callout (entry p1) ;;
      match c_func e with
      | Some f =>
          if c_time e <=? 0 then callfunc f (c_arg e) ;;; ret (inl (S p1)) else ret (inr p1)
      | None => ret (inr p1)
      end) (length pre) w = Ret (length pre + length d)%nat w'.
Proof.
  induction d as [|e d IH]; intros n pre k s rest w Hn Hst Hroom; (destruct n as [|n]; [cbn in *; lia|]).
  - exists w, [], k, s, rest. do 4 (split; [done|]). split; [done|]. rewrite Nat.add_0_r.
    destruct Hst as [El _ _ Hk Hkl Hs _]. rewrite app_nil_r in El. apply loop_done.
    destruct k as [|h k]; cbn [app] in El.
    + erewrite bind_ret_eq by (by eapply zoom_entry). by rewrite Hs.
    + erewrite bind_ret_eq by (by eapply zoom_entry). apply Forall_cons in Hk as [[g Hg] _]. cbn in Hkl. rewrite Hg in Hkl |- *.
      apply Forall_cons in Hkl as [Hh _]. unfold later in Hh. cbn in Hh. by rewrite (proj2 (Z.leb_gt _ _)) by lia.
  - pose proof Hst as [El Ha H0 Hk _ _ Ht].
    assert (is_Some (c_func e) /\ c_time e = 0) as [[g Hg] He].
    { apply Forall_app in Ha as [_ [Ha _]%Forall_cons]. by apply Forall_app in H0 as [_ [H0 _]%Forall_cons]. }
    rewrite !length_app in Hroom. cbn in Hroom.
    destruct (Hc g (c_arg e) w _ Ht) as (w1 & new1 & E1 & Hl1 & Hn1 & Ht1).
    { rewrite length_app, !pending_length, length_app by done. cbn. lia. }
    destruct (split_armed _ _ _ _ _ _ _ Hst Hn1 Ht1) as (k1 & s1 & rest1 & Hst1 & Ek1).
    assert (length k1 <= length k + 1)%nat as Hk1.
    { rewrite <- (pending_length 0 k1), Ek1, arm_length, pending_length by (done || by destruct Hst1). lia. }
    change (e :: d) with ([e] ++ d) in Hst1. rewrite app_assoc in Hst1.
    destruct (IH n (pre ++ [e]) k1 s1 rest1 w1 ltac:(cbn in Hn; lia) Hst1)
      as (w' & new2 & k' & s' & rest' & Eall & Hst2 & Ek2 & Hn2 & Hl2 & Eloop).
    { rewrite !length_app. cbn. lia. }
    exists w', (new1 ++ new2), k', s', rest'. split; [|split; [|split; [|split; [|split]]]].
    + assert (pending 0 (e :: d) = mkcall 0 g (c_arg e) :: pending 0 d) as -> by (cbn; by rewrite Hg, He).
      change (bind (callfunc g (c_arg e)) (fun _ => call_all (pending 0 d)) w = Ret tt w'). by erewrite bind_ret_eq by exact E1.
    + by rewrite <- app_assoc in Hst2.
    + by rewrite Ek2, Ek1, arm_arm.
    + by apply Forall_app.
    + rewrite length_app. cbn. lia.
    + erewrite loop_next.
      2: { erewrite bind_ret_eq. 2: { eapply zoom_entry. rewrite El, <- app_assoc. reflexivity. }
           rewrite Hg. rewrite (proj2 (Z.leb_le _ _)) by lia. by erewrite bind_ret_eq by exact E1. }
      rewrite length_app, Nat.add_1_r in Eloop. rewrite Eloop. cbn [length]. by rewrite Nat.add_succ_r.
Qed.

(** Moving [k] to the front over the [J] entries before it. *)
Lemma close_loop s rest k : forall n A J, (length k < n)%nat -> active k -> c_func s = None ->
  exists s' R, loop n (fun x : nat * nat =>
    let '(p1, p2) := x in
    e <- entry p1 ;;
    set_entry p2 (fun d => d <| c_func := c_func e |>) ;;;
    match c_func e with
    | None => ret (inr tt)
    | Some _ =>
        e <- entry p1 ;;
        set_entry p2 (fun d => d <| c_time := c_time e |>) ;;;
        set_entry p2 (fun d => d <| c_arg := c_arg e |>) ;;;
        ret (inl (S p1, S p2))
    end) (length A + length J, length A)%nat (A ++ J ++ k ++ s :: rest) =
    Ret tt (A ++ k ++ s' :: R) /\ c_func s' = None /\
    length (A ++ k ++ s' :: R) = length (A ++ J ++ k ++ s :: rest).
Proof.
  induction k as [|e k IH]; intros n A J Hn Ha Hs; (destruct n as [|n]; [cbn in Hn; lia|]); cbn [app].
  - assert (E1 : entry (length A + length J) (A ++ J ++ s :: rest) = Ret s (A ++ J ++ s :: rest)).
    { rewrite app_assoc, <- length_app. apply entry_at. }
    destruct J as [|j J]; cbn [app] in *.
    + exists s, rest. split; [|by split]. apply loop_done.
      erewrite bind_ret_eq by exact E1. cbn beta.
      erewrite bind_ret_eq by apply set_entry_at. cbn beta. rewrite Hs. destruct s. cbn in Hs. by subst.
    + exists (j <| c_func := None |>), (J ++ s :: rest). split; [|split; [done|by rewrite !length_app]].
      apply loop_done. erewrite bind_ret_eq by exact E1. cbn beta.
      erewrite bind_ret_eq by apply set_entry_at. cbn beta. by rewrite Hs.
  - apply Forall_cons in Ha as [[g Hg] Ha].
    assert (Ee : forall x, entry (length A + length J) (A ++ J ++ x :: k ++ s :: rest) =
      Ret x (A ++ J ++ x :: k ++ s :: rest)).
    { intros x. rewrite app_assoc, <- length_app. apply entry_at. }
    destruct J as [|j J]; cbn [app] in Ee |- *.
    + destruct (IH n (A ++ [e]) [] ltac:(cbn in Hn; lia) Ha Hs) as (s' & R & E & Hs' & Hl).
      exists s', R. rewrite <- !app_assoc in E, Hl. cbn [app] in E, Hl. split; [|by split].
      erewrite loop_next.
      2: { erewrite bind_ret_eq by apply Ee. cbn beta.
           erewrite bind_ret_eq by apply set_entry_at. cbn beta. rewrite Hg.
           erewrite bind_ret_eq by apply Ee. cbn beta.
           erewrite bind_ret_eq by apply set_entry_at. cbn beta.
           erewrite bind_ret_eq by apply set_entry_at. reflexivity. }
      rewrite length_app in E. rewrite <- E. f_equal; [f_equal; cbn; lia|].
      do 2 f_equal. destruct e. cbn in Hg. by rewrite Hg.
    + destruct (IH n (A ++ [e]) (J ++ [e]) ltac:(cbn in Hn; lia) Ha Hs) as (s' & R & E & Hs' & Hl).
      exists s', R. rewrite <- !app_assoc in E, Hl. cbn [app] in E, Hl.
      split; [|split; [done|repeat (rewrite !length_app in * || cbn in * ); lia]].
      assert (E2 : forall x, entry (length A + length (j :: J)) (A ++ x :: J ++ e :: k ++ s :: rest) =
        Ret e (A ++ x :: J ++ e :: k ++ s :: rest)).
      { intros x. change (A ++ x :: J ++ e :: k ++ s :: rest) with (A ++ (x :: J) ++ e :: k ++ s :: rest).
        rewrite app_assoc. replace (length A + length (j :: J))%nat with (length (A ++ x :: J))
          by (rewrite length_app; done). apply entry_at. }
      erewrite loop_next.
      2: { erewrite bind_ret_eq by apply E2. cbn beta.
           erewrite bind_ret_eq by apply set_entry_at. cbn beta. rewrite Hg.
           erewrite bind_ret_eq by apply E2. cbn beta.
           erewrite bind_ret_eq by apply set_entry_at. cbn beta.
           erewrite bind_ret_eq by apply set_entry_at. reflexivity. }
      rewrite !length_app in E. rewrite <- E. f_equal; [f_equal; cbn; lia|].
      do 2 f_equal. destruct e. cbn in Hg |- *. by rewrite Hg.
Qed.

(** The calls after a tick, before those that are due are made. *)
Definition ticked (c : call) : call := if due c <=? 0 then c else sooner c.

Lemma zero_times d : Forall (fun e => 0 <= c_time e) d -> Forall (fun e => c_time e <= 0) d ->
  Forall (fun e => c_time e = 0) d.
Proof. intros H1 H2. apply Forall_forall. rewrite Forall_forall in H1, H2. intros e He. specialize (H1 e He). specialize (H2 e He). lia. Qed.

Lemma pending_pos t k : active k -> Forall (fun e => 0 <= c_time e) k ->
  match k with [] => True | e :: _ => 0 < c_time e end -> 0 <= t ->
  Forall (fun c => 1 <= due c) (pending t k).
Proof.
  intros Ha H Hk Ht. destruct k as [|e k]; [constructor|].
  apply Forall_cons in Ha as [[g Hg] Ha]. apply Forall_cons in H as [_ H]. cbn. rewrite Hg.
  constructor; [cbn; lia|]. revert H Ha. assert (1 <= t + c_time e) as Ht' by lia. revert Ht'.
  generalize (t + c_time e). clear. induction k as [|e k IH]; intros t Ht H Ha; [constructor|].
  apply Forall_cons in Ha as [[g Hg] Ha]. apply Forall_cons in H as [He H]. cbn. rewrite Hg.
  constructor; [cbn; lia|]. apply IH; [lia|done|done].
Qed.

(** The table after the tick. *)
Lemma tick_ok us s rest : length (us ++ s :: rest) = NCALL -> active us -> c_func s = None ->
  Forall (fun e => small (c_time e)) us -> Forall (fun e => 0 <= c_time e) us ->
  exists us' s', callout_tick (us ++ s :: rest) = Ret tt (us' ++ s' :: rest) /\
    length us' = length us /\ active us' /\ c_func s' = None /\
    Forall (fun e => 0 <= c_time e) us' /\ pending 0 us' = map ticked (pending 0 us).
Proof.
  intros Hl Ha Hs Hsm H0. destruct (split_due us) as (d & k & -> & Hd & Hk).
  rewrite !length_app in Hl. cbn in Hl. unfold NCALL in Hl.
  apply Forall_app in Ha as [Ha1 Ha2]. apply Forall_app in H0 as [H1 H2].
  pose proof (zero_times _ H1 Hd) as Hz. pose proof (pending_zero _ Hz) as Hpz.
  assert (Hmap : map ticked (pending 0 d) = pending 0 d).
  { clear -Hpz. induction Hpz as [|c cs Hc _ IH]; [done|]. cbn. rewrite IH. unfold ticked. by rewrite Hc. }
  unfold callout_tick. rewrite <- app_assoc. destruct k as [|e k]; cbn [app].
  - exists d, (s <| c_time ::= fun c => s32 (c - 1) |>). rewrite !app_nil_r in *.
    erewrite bind_ret_eq by (apply (tick_find d (S NCALL) [] s rest); [unfold NCALL; lia|done|done|by right]).
    cbn [length app Nat.add]. rewrite set_entry_at. by rewrite Hmap.
  - exists (d ++ e <| c_time ::= fun c => s32 (c - 1) |> :: k), s.
    apply Forall_cons in Ha2 as [[g Hg] Ha2]. apply Forall_cons in H2 as [_ H2].
    apply Forall_app in Hsm as [_ [Hse _]%Forall_cons]. unfold small in Hse.
    erewrite bind_ret_eq
      by (apply (tick_find d (S NCALL) [] e (k ++ s :: rest)); [unfold NCALL; lia|done|done|by left]).
    cbn [length app Nat.add]. rewrite set_entry_at, <- app_assoc. split; [done|].
    split; [by rewrite !length_app|]. split; [by apply Forall_app; split; [|constructor; [exists g|]]|].
    split; [done|]. split.
    { apply Forall_app; split; [done|]. constructor; [cbn; rewrite s32_id; lia|done]. }
    rewrite !pending_app, map_app, Hmap by done. f_equal. rewrite (total_zero d Hz).
    cbn. rewrite Hg. cbn. rewrite s32_id by lia. unfold ticked at 1. cbn [due].
    rewrite (proj2 (Z.leb_gt _ _)) by lia. f_equal.
    replace (0 + 0 + (c_time e - 1)) with (c_time e + -1) by lia.
    replace (0 + 0 + c_time e) with (c_time e) by lia. rewrite pending_shift.
    assert (Hpos : forall t, 0 < t -> map (fun c => mkcall (due c + -1) (fn c) (arg c)) (pending t k) =
      map ticked (pending t k)).
    { clear -Ha2 H2. induction k as [|e k IH]; intros t Ht; [done|].
      apply Forall_cons in Ha2 as [[g Hg] Ha2]. apply Forall_cons in H2 as [He H2]. cbn. rewrite Hg. cbn.
      rewrite IH by (done || lia). unfold ticked at 2. cbn [due].
      by rewrite (proj2 (Z.leb_gt _ _)) by lia. }
    apply Hpos. lia.
Qed.

(** Calls depend on routine and argument only. *)
Definition routine (c : call) : nat * Z := (fn c, arg c).
Lemma call_all_ext cs1 cs2 : map routine cs1 = map routine cs2 -> forall w, call_all cs1 w = call_all cs2 w.
Proof.
  revert cs2; induction cs1 as [|c1 cs1 IH]; intros [|c2 cs2] E w; try done.
  injection E as E1 E2 E. cbn. rewrite E1, E2. apply bind_cong. intros [] s' _. by apply IH.
Qed.

Lemma ticked_due cs : forall t, 0 <= t -> ordered t cs ->
  map routine (due_now cs) = map routine (filter (fun c => due c <= 0) (map ticked cs)) /\
  due_later cs = filter (fun c => 0 < due c) (map ticked cs).
Proof.
  induction cs as [|c cs IH]; intros t Ht Ho; [done|]. destruct Ho as [Hc Ho].
  destruct (IH (due c)) as [IH1 IH2]; [lia|done|].
  unfold due_now, due_later in *. rewrite !filter_cons. cbn [map]. rewrite !filter_cons.
  assert (Hd : due (ticked c) = Z.max 0 (due c - 1)).
  { unfold ticked. destruct (Z.leb_spec (due c) 0); cbn; lia. }
  rewrite Hd. destruct (Z.le_gt_cases (due c) 1).
  - rewrite !decide_True by lia. rewrite !decide_False by lia. cbn. rewrite IH1. split; [|done].
    f_equal. unfold ticked. by destruct (_ <=? _).
  - rewrite !decide_False by lia. rewrite !decide_True by lia. cbn. rewrite IH2. split; [done|].
    f_equal. unfold ticked. by rewrite (proj2 (Z.leb_gt _ _)) by lia.
Qed.

Lemma filter_none {A} (P : A -> Prop) `{forall x, Decision (P x)} l : Forall (fun x => ~ P x) l -> filter P l = [].
Proof. induction 1; [done|]. by rewrite filter_cons_False. Qed.
Lemma filter_every {A} (P : A -> Prop) `{forall x, Decision (P x)} l : Forall P l -> filter P l = l.
Proof. induction 1; [done|]. rewrite filter_cons_True by done. by f_equal. Qed.

(** A table in order is its due calls and the others. *)
Lemma split_of us s rest : table (us ++ s :: rest) (pending 0 us) -> active us -> c_func s = None ->
  Forall (fun e => 0 <= c_time e) us ->
  exists z k, us = z ++ k /\ split_table (us ++ s :: rest) z k s rest /\
    filter (fun c => due c <= 0) (pending 0 us) = pending 0 z /\
    filter (fun c => 0 < due c) (pending 0 us) = pending 0 k.
Proof.
  intros Ht Ha Hs H0. destruct (split_due us) as (d & k & -> & Hd & Hk).
  apply Forall_app in Ha as [Ha1 Ha2]. apply Forall_app in H0 as [H1 H2].
  pose proof (zero_times _ H1 Hd) as Hz. pose proof (pending_zero _ Hz) as Hfd.
  assert (Hfk : Forall later (pending 0 k)) by (by apply pending_pos).
  assert (Hp : pending 0 (d ++ k) = pending 0 d ++ pending 0 k).
  { rewrite pending_app by done. by rewrite (total_zero d Hz). }
  exists d, k. split; [done|]. split.
  { rewrite Hp in Ht. constructor; try done. by rewrite <- app_assoc. }
  rewrite Hp, !filter_app. split.
  - rewrite filter_every, filter_none, app_nil_r; [done|..];
      [eapply Forall_impl; [exact Hfk|]|eapply Forall_impl; [exact Hfd|]]; unfold later; cbn; lia.
  - rewrite filter_none, filter_every; [done|..];
      [eapply Forall_impl; [exact Hfk|]|eapply Forall_impl; [exact Hfd|]]; unfold later; cbn; lia.
Qed.

(** Making the calls that are due in a table just ticked. *)
Lemma run_ok (Hc : calls_return) z k s rest w : split_table (callout (ks w)) z k s rest ->
  (length z + length k + length z <= NCALL - 1)%nat ->
  exists new l' w', call_all (pending 0 z) w = Ret tt w' /\
    table (callout (ks w')) (arm (pending 0 z ++ pending 0 k) new) /\
    Forall later new /\ (length new <= length z)%nat /\
    callout_run w = Ret tt (w' <| ks ::= fun q => q <| callout := l' |> |>) /\
    table l' (arm (pending 0 k) new).
Proof.
  intros Hst Hroom.
  destruct (call_loop Hc z (S NCALL) [] k s rest w) as (w' & new & k' & s' & rest' & Ecall & Hst' & Ek & Hnew & Hl & Eloop);
    [unfold NCALL in *; lia|done|cbn [app]; lia|].
  destruct Hst' as [El Ha H0 Hk Hkl Hs Ht]. cbn [app length Nat.add] in *.
  pose proof (tb_len _ _ Ht) as Hlen. pose proof (tb_end _ _ Ht) as Hend. pose proof (tb_small _ _ Ht) as Hsm.
  rewrite length_app in Hend.
  rewrite El in Hlen. pose proof Hlen as Hlen'. rewrite !length_app in Hlen'. cbn in Hlen'.
  destruct (close_loop s' rest' k' (S NCALL) [] z) as (s2 & R & Eclose & Hs2 & Hl2);
    [unfold NCALL in *; lia|done|done|]. cbn [app length Nat.add] in *.
  exists new, (k' ++ s2 :: R), w'. split; [done|].
  split. { rewrite arm_after by (done || by apply pending_zero; destruct Hst). by rewrite <- Ek. }
  do 2 (split; [done|]). split.
  - unfold callout_run. erewrite bind_ret_eq by exact Eloop. cbn beta. unfold zoom.
    rewrite El. unfold callout_close. by rewrite Eclose.
  - constructor.
    + by rewrite Hl2.
    + rewrite pending_app by done. cbn. by rewrite Hs2, app_nil_r.
    + rewrite <- Ek. lia.
    + rewrite <- Ek. by apply Forall_app in Hsm as [_ ?].
Qed.

Lemma small_times us : forall t, active us -> 0 <= t -> ordered t (pending t us) ->
  Forall (fun c => small (due c)) (pending t us) -> Forall (fun e => small (c_time e)) us.
Proof.
  induction us as [|e us IH]; intros t Ha Ht Ho Hs; [constructor|].
  apply Forall_cons in Ha as [[g Hg] Ha]. cbn in Ho, Hs. rewrite Hg in Ho, Hs. cbn in Ho.
  destruct Ho as [He Ho]. apply Forall_cons in Hs as [Hse Hs]. cbn in Hse.
  constructor; [unfold small in *; lia|]. apply (IH (t + c_time e)); [done|lia|done|done].
Qed.

Lemma due_later_small cs : Forall (fun c => small (due c)) cs -> Forall (fun c => small (due c)) (due_later cs).
Proof.
  intros H. unfold due_later. apply Forall_map. apply Forall_forall. intros c Hc.
  apply list_elem_of_filter in Hc as [H1 Hc]. rewrite Forall_forall in H. specialize (H c Hc).
  unfold small in *. cbn. lia.
Qed.

Lemma due_later_length cs : (length (due_later cs) <= length cs)%nat.
Proof. unfold due_later. rewrite length_map. apply length_filter. Qed.

Lemma table_later l cs l' : table l cs -> length l' = NCALL -> pending 0 l' = due_later cs -> table l' (due_later cs).
Proof.
  intros [_ _ He Hs] H1 H2. constructor; [done|done| |by apply due_later_small].
  pose proof (due_later_length cs). lia.
Qed.

(** The table after the tick of a table that is not empty. *)
Lemma ticked_table l cs : table l cs -> ordered 0 cs -> cs <> [] ->
  exists us s rest, callout_tick l = Ret tt (us ++ s :: rest) /\ table (us ++ s :: rest) (pending 0 us) /\
    pending 0 us = map ticked cs /\ active us /\ c_func s = None /\ Forall (fun e => 0 <= c_time e) us.
Proof.
  intros Ht Ho Hne. pose proof (tb_len _ _ Ht) as Hlen. pose proof (tb_small _ _ Ht) as Hsm. pose proof (tb_end _ _ Ht) as Hend.
  destruct (table_used _ _ Ht) as (us & s & rest & -> & Ha & Hs & -> & Ell).
  pose proof (pending_ordered us 0 Ha Ho) as H0.
  pose proof (small_times us 0 Ha (Z.le_refl 0) Ho Hsm) as Hst.
  destruct (tick_ok us s rest Hlen Ha Hs Hst H0) as (us' & s' & Et & Hl' & Ha' & Hs' & H0' & Hp).
  exists us', s', rest. split; [done|]. split; [|done]. constructor.
  - rewrite <- Hlen, !length_app, Hl'. done.
  - rewrite pending_app by done. cbn. by rewrite Hs', app_nil_r.
  - by rewrite Hp, length_map.
  - rewrite Hp. apply Forall_map. apply Forall_forall. intros c Hcc. rewrite Forall_forall in Hsm.
    specialize (Hsm c Hcc). unfold small, ticked in *. cbn. destruct (Z.leb_spec (due c) 0); cbn; lia.
Qed.

(** What a tick at low priority does. *)
Lemma callouts_ok (tr : trap) (w : world) (cs : list call) : calls_return ->
  table (callout (ks w)) cs -> ordered 0 cs -> (length cs + length (due_now cs) <= NCALL - 1)%nat ->
  BASEPRI (tr_pl tr) = false ->
  exists p l1 w2 new l',
    call_all (due_now cs) (w <| ks ::= fun k => k <| callout := l1 |> <| pl := p |> |>) = Ret tt w2 /\
    table (callout (ks w2)) (arm (map ticked cs) new) /\
    Forall later new /\ (length new <= length (due_now cs))%nat /\
    callouts tr w = Ret tt (w2 <| ks ::= fun k => k <| callout := l' |> |>) /\
    table l' (arm (due_later cs) new).
Proof.
  intros Hc Ht Ho Hroom Hb. unfold callouts.
  destruct (table_used _ _ Ht) as (us & s & rest & El & Ha & Hs & Ecs & _). destruct us as [|e us].
  { (* nothing pending *)
    subst cs. exists (pl (ks w)), (callout (ks w)), w, [], (callout (ks w)).
    split; [by destruct w as [? [] ?]|]. do 3 (split; [done|]). split; [|done].
    erewrite bind_ret_eq by (apply (zoom_entry w [] s rest); exact El). cbn beta.
    rewrite Hs, bool_decide_eq_false_2 by (by intros []). by destruct w as [us0 [] en]. }
  erewrite bind_ret_eq by (apply (zoom_entry w [] e (us ++ s :: rest)); exact El). cbn beta.
  assert (is_Some (c_func e)) as He by (by apply Forall_cons in Ha as [? _]).
  rewrite bool_decide_eq_true_2 by done. cbn [when].
  assert (cs <> []) as Hne by (rewrite Ecs; destruct He as [g Hg]; cbn; by rewrite Hg).
  destruct (ticked_table _ _ Ht Ho Hne) as (us' & s' & rest' & Et & Ht' & Hp & Ha' & Hs' & H0').
  destruct (ticked_due cs 0 (Z.le_refl 0) Ho) as [Hnow Hlater]. clear El Ecs Ha Hs He us s rest e.
  assert (length (due_now cs) = length (filter (fun c => due c <= 0) (map ticked cs))) as Hnl.
  { by rewrite <- (length_map routine), Hnow, length_map. }
  rewrite <- Hp in Hnow, Hlater, Hnl.
  destruct (split_of us' s' rest' Ht' Ha' Hs' H0') as (z & k & -> & Hst & Hf1 & Hf2).
  rewrite Hf1 in Hnow, Hnl. rewrite Hf2 in Hlater. rewrite pending_length in Hnl by (by destruct Hst).
  assert (length cs = length z + length k)%nat as Hcs.
  { rewrite <- (length_map ticked), <- Hp, pending_length, length_app by done. done. }
  assert (pending 0 (z ++ k) = pending 0 z ++ pending 0 k) as Epk.
  { destruct Hst. rewrite pending_app by done. by rewrite total_zero. }
  set (l1 := (z ++ k) ++ s' :: rest') in *.
  set (w1 := w <| ks ::= fun k => k <| callout := l1 |> <| pl := 5 |> |>).
  erewrite (bind_ret_eq (zoom callout callout_tick) _ w tt (w <| ks ::= fun k => k <| callout := l1 |> |>)).
  2: { unfold zoom. rewrite Et. done. }
  cbn beta. rewrite Hb. cbn [negb when]. unfold spl5, spl. repeat mstep. fold w1.
  destruct (z ++ k) as [|e' us'] eqn:Ezk.
  { destruct cs as [|? [|? ?]]; [done|by apply (f_equal length) in Hp|by apply (f_equal length) in Hp]. }
  erewrite (bind_ret_eq (zoom callout (entry 0)) _ _ e' w1) by (by apply (zoom_entry w1 [] e' (us' ++ s' :: rest'))).
  cbn beta. destruct (Z.leb_spec (c_time e') 0) as [Hle|Hgt]; cbn [when].
  - destruct (run_ok Hc z k s' rest' w1) as (new & l' & w2 & Ecall & Ht2 & Hnew & Hln & Erun & Htl);
      [done|lia|].
    exists 5, l1, w2, new, l'. split; [by rewrite <- Ecall; apply call_all_ext|]. split; [by rewrite <- Hp, Epk|].
    split; [done|]. split; [by rewrite Hnl|]. split; [exact Erun|]. by rewrite Hlater.
  - assert (z = []) as ->.
    { destruct z as [|e0 z]; [done|]. injection Ezk as -> _. destruct Hst as [_ _ [H _]%Forall_cons _ _ _ _]. lia. }
    exists 5, l1, w1, [], l1. split; [by rewrite (call_all_ext _ []) by done|]. split; [by rewrite <- Hp|].
    split; [done|]. split; [cbn; lia|]. split; [by destruct w as [? [] ?]|].
    cbn [arm foldl]. rewrite Hlater. cbn [app] in Ezk. subst k. cbn [app] in Epk. by destruct Hst.
Qed.

(** At a clock tick taken at low priority, exactly the calls due within
    one tick are made, in the order in which they are due, and every other
    pending call comes one tick nearer; a call that one of them arms falls due
    as many ticks later as it asked for. *)
Theorem callouts_correct (tr : trap) (w : world) (cs : list call) : calls_return ->
  table (callout (ks w)) cs -> ordered 0 cs -> (length cs + length (due_now cs) <= NCALL - 1)%nat ->
  BASEPRI (tr_pl tr) = false ->
  exists p l1 w2 new l',
    call_all (due_now cs) (w <| ks ::= fun k => k <| callout := l1 |> <| pl := p |> |>) = Ret tt w2 /\
    table (callout (ks w2)) (arm (map ticked cs) new) /\
    Forall later new /\ (length new <= length (due_now cs))%nat /\
    callouts tr w = Ret tt (w2 <| ks ::= fun k => k <| callout := l' |> |>) /\
    table l' (arm (due_later cs) new).
Proof. apply callouts_ok. Qed.

End Clock.

(** ** A concrete tick: of three calls to come the first is due at once, and
    the routine it calls arms itself again *)

(** Routine 1 comes back 60 ticks later; every call is noted on the console,
    the routine by as many marks as its number. *)
Fixpoint tally (n : nat) : string := match n with O => EmptyString | S n => String (Ascii.ascii_of_nat 124) (tally n) end.
Definition clockwork : Machine :=
  Build_Machine (fun _ => 0) 0 (fun _ _ => ret tt) (fun _ => [])
    (fun f a => kmod (fun k => k <| console ::= fun l => l ++ [Prdev (tally f) a] |>) ;;;
                when (Nat.eqb f 1) (zoom callout (Callout.timeout f a 60)))
    0 (fun _ => []) (fun _ _ _ => None) [] [] [] (fun _ => ret tt).

Lemma clockwork_returns : @calls_return clockwork.
Proof.
  intros f a w cs Ht Hl. cbn [callfunc clockwork].
  set (w1 := w <| ks ::= fun k => k <| console ::= fun l => l ++ [Prdev (tally f) a] |> |>).
  assert (callout (ks w1) = callout (ks w)) as Ew by done.
  destruct (Nat.eqb_spec f 1) as [->|Hf]; cbn [when].
  - destruct (timeout_correct (callout (ks w)) cs 1%nat a 60 Ht Hl ltac:(unfold small; lia)) as (l' & E & Ht').
    exists (w1 <| ks ::= fun k => k <| callout := l' |> |>), [mkcall 60 1 a].
    split; [|split; [cbn; lia|split; [by repeat constructor|done]]].
    erewrite bind_ret_eq by reflexivity. cbn beta. fold w1. unfold zoom. by rewrite Ew, E.
  - exists w1, []. do 2 (split; [done || cbn; lia|]). by split.
Qed.

Definition ticking : world :=
  world0 <| ks := kernel0 <| callout :=
    mkcallo 1 100 (Some 1%nat) :: mkcallo 4 200 (Some 2%nat) :: mkcallo 0 300 (Some 3%nat) ::
    replicate 17 free_entry |> |>.

Lemma callouts_correct_witness :
  let cs := [mkcall 1 1 100; mkcall 5 2 200; mkcall 5 3 300] in
  exists p l1 w2 new l',
    @call_all clockwork (due_now cs) (ticking <| ks ::= fun k => k <| callout := l1 |> <| pl := p |> |>) = Ret tt w2 /\
    table (callout (ks w2)) (arm (map ticked cs) new) /\
    Forall later new /\ (length new <= length (due_now cs))%nat /\
    @callouts clockwork (mktrap 65535 0 0) ticking = Ret tt (w2 <| ks ::= fun k => k <| callout := l' |> |>) /\
    table l' (arm (due_later cs) new).
Proof.
  refine (@callouts_correct clockwork (mktrap 65535 0 0) ticking _ clockwork_returns _ _ _ eq_refl).
  - by repeat constructor.
  - cbn. lia.
  - vm_compute. lia.
Defined.
