(* ===== verification/Timers.v ===== *)
(** * Timers: a timeout comes

    What the theorems of [Callout] and [Clock] on one call of [timeout] and on
    one tick add up to, over any sequence of ticks, of further timeouts and of
    whatever else the kernel does between them. *)

From S2P Require Import Prelude Callout State Sched Clock.

(** What happens to the table of timeouts: an interrupt of the clock, a call
    of [timeout], anything else. *)
Inductive event := Tick (tr : trap) | Arm (f : nat) (a tim : Z) | Other (m : KM unit).

Section Timers.
Context {MC : Machine}.

Definition happen (e : event) : KM unit :=
  match e with
  | Tick tr => callouts tr
  | Arm f a tim => zoom callout (Callout.timeout f a tim)
  | Other m => m
  end.
Definition history (evs : list event) : KM unit := for_ evs happen.

Definition is_tick (e : event) : bool := match e with Tick _ => true | _ => false end.
Definition is_arm (e : event) : bool := match e with Arm _ _ _ => true | _ => false end.
Definition ticks (evs : list event) : nat := length (filter (fun e => is_tick e = true) evs).
Definition arms (evs : list event) : nat := length (filter (fun e => is_arm e = true) evs).

(** [seen w]: the calls made so far, each a routine and its argument, in a
    world that keeps account of them. *)
Context (seen : world -> list (nat * Z)).
Definition accounts : Prop :=
  (forall f a w w', callfunc f a w = Ret tt w' -> seen w' = seen w ++ [(f, a)]) /\
  (forall w w', u w' = u w -> ks w' = (ks w) <| callout := callout (ks w') |> <| pl := pl (ks w') |> ->
    seen w' = seen w).

(** Timeouts are not for the past, and what else happens comes to an end and
    leaves the table alone. *)
Definition proper (e : event) : Prop :=
  match e with
  | Tick _ => True
  | Arm _ _ tim => 0 <= tim /\ small tim
  | Other m => forall w, exists w' new,
      m w = Ret tt w' /\ callout (ks w') = callout (ks w) /\ seen w' = seen w ++ new
  end.

(** ** The pending calls over one event *)

(** Some pending call of [f] on [a] is due in [d] ticks at the latest. *)
Definition awaited (f : nat) (a d : Z) (cs : list call) : Prop :=
  exists c, c ∈ cs /\ fn c = f /\ Callout.arg c = a /\ due c <= Z.max 0 d.

(** The table of [w] holds the calls [cs], and has room for [k] more and for
    all that a tick may arm while it is made. *)
Record timers (w : world) (cs : list call) (k : nat) : Prop := {
  tm_table : table (callout (ks w)) cs;
  tm_order : ordered 0 cs;
  tm_room : (2 * (length cs + k) <= NCALL - 1)%nat
}.

Lemma add_call_elem c d cs : d ∈ add_call c cs <-> d = c \/ d ∈ cs.
Proof.
  induction cs as [|x cs IH]; cbn.
  - rewrite list_elem_of_singleton. split; [by left|]. intros [?|H]; [done|]. by apply not_elem_of_nil in H.
  - destruct (_ <=? _); rewrite !elem_of_cons; [rewrite IH|]; tauto.
Qed.
Lemma arm_elem new : forall d cs, d ∈ cs -> d ∈ arm cs new.
Proof. induction new as [|c new IH]; intros d cs H; [done|]. cbn. apply IH, add_call_elem. by right. Qed.

Lemma add_call_order c cs : forall t, t <= due c -> ordered t cs -> ordered t (add_call c cs).
Proof.
  induction cs as [|x cs IH]; intros t Hc Ho; cbn; [done|]. destruct Ho as [Hx Ho].
  destruct (Z.leb_spec (due x) (due c)); cbn; [|lia || (split; [done|split; [lia|done]])].
  split; [done|]. by apply IH.
Qed.
Lemma arm_order new : Forall later new -> forall cs, ordered 0 cs -> ordered 0 (arm cs new).
Proof.
  induction 1 as [|c new Hc _ IH]; intros cs Ho; [done|]. cbn. apply IH, add_call_order; [|done].
  unfold later in Hc. lia.
Qed.
Lemma ordered_weaken t t' cs : t' <= t -> ordered t cs -> ordered t' cs.
Proof. destruct cs as [|c cs]; [done|]. cbn. intros ? [? ?]. split; [lia|done]. Qed.
Lemma ordered_elem cs : forall t c, ordered t cs -> c ∈ cs -> t <= due c.
Proof.
  induction cs as [|x cs IH]; intros t c Ho Hc; [by apply not_elem_of_nil in Hc|]. destruct Ho as [Hx Ho].
  apply elem_of_cons in Hc as [->|Hc]; [done|]. pose proof (IH _ c Ho Hc). lia.
Qed.
Lemma due_later_order cs : forall t, 0 <= t -> ordered t cs -> ordered (t - 1) (due_later cs).
Proof.
  induction cs as [|c cs IH]; intros t Ht Ho; [done|]. destruct Ho as [Hc Ho]. unfold due_later in *.
  rewrite filter_cons. pose proof (IH (due c) ltac:(lia) Ho) as H. case_decide; cbn.
  - split; [lia|done].
  - eapply ordered_weaken; [|exact H]. lia.
Qed.
Lemma due_later_zero cs : ordered 0 cs -> ordered 0 (due_later cs).
Proof.
  intros Ho. pose proof (due_later_order cs 0 ltac:(lia) Ho) as H. revert H. unfold due_later.
  induction cs as [|c cs _] in Ho |- *; [done|]. intros H.
  destruct (filter (fun c => 1 < due c) (c :: cs)) as [|x xs] eqn:E; [done|]. cbn in H |- *. split; [|tauto].
  assert (x ∈ filter (fun c => 1 < due c) (c :: cs)) as Hx by (rewrite E; left).
  apply list_elem_of_filter in Hx as [Hx _]. lia.
Qed.
Lemma due_counts cs : (length (due_later cs) + length (due_now cs) = length cs)%nat.
Proof.
  unfold due_later, due_now. rewrite length_map.
  induction cs as [|c cs IH]; [done|]. rewrite !filter_cons. repeat case_decide; cbn; lia.
Qed.
Lemma ticked_order cs : ordered 0 cs -> ordered 0 (map ticked cs).
Proof.
  assert (forall t t', t' <= Z.max 0 (t - 1) -> ordered t cs -> 0 <= t -> ordered t' (map ticked cs)) as H.
  { induction cs as [|c cs IH]; intros t t' Ht Ho H0; [done|]. destruct Ho as [Hc Ho]. cbn.
    assert (due (ticked c) = Z.max 0 (due c - 1)) as Ed.
    { unfold ticked. destruct (Z.leb_spec (due c) 0); cbn; lia. }
    rewrite Ed. split; [lia|]. apply (IH (due c)); [lia|done|lia]. }
  intros Ho. by apply (H 0 0).
Qed.

(** The calls of a tick are the ones the account grows by. *)
Lemma seen_all (Ha : accounts) cs : forall w w', call_all cs w = Ret tt w' -> seen w' = seen w ++ map routine cs.
Proof.
  induction cs as [|c cs IH]; intros w w' E.
  - injection E as <-. by rewrite app_nil_r.
  - unfold call_all in E. cbn [for_] in E. apply bind_inv_ret in E as ([] & w1 & E1 & E2).
    rewrite (IH _ _ E2), (proj1 Ha _ _ _ _ E1), <- app_assoc. done.
Qed.

(** A tick at low priority. *)
Lemma tick_low (Hc : calls_return) (Ha : accounts) tr w cs k : timers w cs k -> BASEPRI (tr_pl tr) = false ->
  exists w' cs', callouts tr w = Ret tt w' /\ timers w' cs' k /\
    seen w' = seen w ++ map routine (due_now cs) /\ (forall d, d ∈ due_later cs -> d ∈ cs').
Proof.
  intros [Ht Ho Hk] Hb.
  assert (length cs + length (due_now cs) <= NCALL - 1)%nat as Hroom.
  { pose proof (due_counts cs). unfold NCALL in *. lia. }
  destruct (callouts_ok tr w cs Hc Ht Ho Hroom Hb) as (p & l1 & w2 & new & l' & Eall & _ & Hnew & Hl & E & Ht').
  eexists _, (arm (due_later cs) new). split; [exact E|]. split; [|split].
  - constructor; [done| |].
    + by apply arm_order, due_later_zero.
    + rewrite arm_length. pose proof (due_counts cs). lia.
  - rewrite (proj2 Ha w2) by (done || by destruct w2 as [? [] ?]).
    rewrite (seen_all Ha _ _ _ Eall). f_equal. apply (proj2 Ha); [done|]. by destruct w as [? [] ?].
  - intros d. apply arm_elem.
Qed.

(** A tick at high priority, which makes no call. *)
Lemma tick_high (Ha : accounts) tr w cs k : timers w cs k -> BASEPRI (tr_pl tr) = true ->
  exists w', callouts tr w = Ret tt w' /\ timers w' (map ticked cs) k /\ seen w' = seen w.
Proof.
  intros [Ht Ho Hk] Hb. unfold callouts.
  destruct (table_used _ _ Ht) as (us & s & rest & El & Hus & Hs & Ecs & _). destruct us as [|e us].
  - subst cs. exists w. split; [|by split].
    erewrite bind_ret_eq by (apply (zoom_entry w [] s rest); exact El). cbn beta.
    by rewrite Hs, bool_decide_eq_false_2 by (by intros []).
  - erewrite bind_ret_eq by (apply (zoom_entry w [] e (us ++ s :: rest)); exact El). cbn beta.
    apply Forall_cons in Hus as [[g Hg] Hus]. rewrite Hg, bool_decide_eq_true_2 by done. cbn [when].
    assert (cs <> []) as Hne by (rewrite Ecs; cbn; by rewrite Hg).
    destruct (ticked_table _ _ Ht Ho Hne) as (us' & s' & rest' & Et & Ht' & Hp & _).
    exists (w <| ks ::= fun q => q <| callout := us' ++ s' :: rest' |> |>). rewrite Hb. cbn [negb when].
    split; [|split].
    + unfold bind at 1. unfold zoom. by rewrite Et.
    + constructor; [by rewrite <- Hp|by apply ticked_order|by rewrite length_map].
    + apply (proj2 Ha); [done|]. by destruct w as [? [] ?].
Qed.

(** One event. *)
Lemma happen_ok (Hc : calls_return) (Ha : accounts) e w cs k : timers w cs (arms [e] + k) -> proper e ->
  exists w' cs' new, happen e w = Ret tt w' /\ timers w' cs' k /\ seen w' = seen w ++ new /\
    forall f a d, awaited f a d cs ->
      (f, a) ∈ new \/ awaited f a (d - Z.of_nat (ticks [e])) cs'.
Proof.
  intros Ht He. destruct e as [tr|f a tim|m]; cbn [happen].
  - change (ticks [Tick tr]) with 1%nat. destruct (BASEPRI (tr_pl tr)) eqn:Hb.
    + destruct (tick_high Ha tr w cs k Ht Hb) as (w' & E & Ht' & Hs).
      exists w', (map ticked cs), []. rewrite app_nil_r. do 3 (split; [done|]).
      intros f a d (c & Hin & Hf & Harg & Hd). right. exists (ticked c). cbn.
      split; [by apply list_elem_of_fmap_2|]. unfold ticked. destruct (Z.leb_spec (due c) 0); cbn; lia.
    + destruct (tick_low Hc Ha tr w cs k Ht Hb) as (w' & cs' & E & Ht' & Hs & Hin').
      exists w', cs', (map routine (due_now cs)). do 3 (split; [done|]).
      intros f a d (c & Hin & <- & <- & Hd). destruct (Z.le_gt_cases (due c) 1) as [H1|H1].
      * left. apply (list_elem_of_fmap_2 routine). by apply list_elem_of_filter.
      * right. exists (sooner c). cbn. split; [|cbn; lia].
        apply Hin', (list_elem_of_fmap_2 sooner). by apply list_elem_of_filter.
  - destruct Ht as [Ht Ho Hk]. change (arms [Arm f a tim]) with 1%nat in Hk. destruct He as [H0 Hsm]. unfold NCALL in Hk.
    destruct (timeout_correct _ cs f a tim Ht ltac:(unfold NCALL; lia) Hsm) as (l' & E & Ht').
    exists (w <| ks ::= fun q => q <| callout := l' |> |>), (add_call (mkcall tim f a) cs), [].
    split; [unfold zoom; by rewrite E|]. split; [|split].
    + constructor; [done|by apply add_call_order|]. rewrite add_call_length. unfold NCALL. lia.
    + rewrite app_nil_r. apply (proj2 Ha); [done|]. by destruct w as [? [] ?].
    + intros g b d (c & Hin & Hf & Harg & Hd). right. exists c. change (ticks [Arm f a tim]) with 0%nat. rewrite Z.sub_0_r.
      split; [|done]. apply add_call_elem. by right.
  - destruct (He w) as (w' & new & E & Ec & Hs). exists w', cs, new. split; [done|]. split.
    { destruct Ht. constructor; [by rewrite Ec|done|done]. }
    split; [done|]. intros f a d H. right. change (ticks [Other m]) with 0%nat. by rewrite Z.sub_0_r.
Qed.

Lemma history_ok (Hc : calls_return) (Ha : accounts) evs : forall w cs k, timers w cs (arms evs + k) ->
  Forall proper evs ->
  exists w' cs' new, history evs w = Ret tt w' /\ timers w' cs' k /\ seen w' = seen w ++ new /\
    forall f a d, awaited f a d cs ->
      (f, a) ∈ new \/ awaited f a (d - Z.of_nat (ticks evs)) cs'.
Proof.
  induction evs as [|e evs IH]; intros w cs k Ht Hp.
  - exists w, cs, []. rewrite app_nil_r. do 3 (split; [done|]). intros f a d H. right. cbn. by rewrite Z.sub_0_r.
  - apply Forall_cons in Hp as [He Hp].
    assert (arms (e :: evs) = arms [e] + arms evs /\ ticks (e :: evs) = ticks [e] + ticks evs)%nat as [Ea Et].
    { unfold arms, ticks. rewrite <- !length_app, <- !filter_app. done. }
    rewrite Ea, <- Nat.add_assoc in Ht. destruct (happen_ok Hc Ha e w cs _ Ht He) as (w1 & cs1 & n1 & E1 & Ht1 & Hs1 & Hw1).
    destruct (IH w1 cs1 k Ht1 Hp) as (w2 & cs2 & n2 & E2 & Ht2 & Hs2 & Hw2).
    exists w2, cs2, (n1 ++ n2). split; [|split; [done|split]].
    + unfold history. cbn [for_]. by erewrite bind_ret_eq by exact E1.
    + by rewrite Hs2, Hs1, app_assoc.
    + intros f a d H. rewrite elem_of_app. destruct (Hw1 f a d H) as [?|H1]; [by left; left|].
      destruct (Hw2 f a _ H1) as [?|H2]; [by left; right|]. right. rewrite Et, Nat2Z.inj_add, Z.sub_add_distr. done.
Qed.

(** C35. A call armed with [timeout] is made: whatever ticks, timeouts and
    other routines follow, as long as the table has room for them, every one of
    them comes to its end, and by the first tick taken at low priority that is
    not before the time asked for, the routine has been called on its
    argument. *)
Theorem timeout_fires (w : world) (cs : list call) (f : nat) (a tim : Z) (evs : list event) (tr : trap) :
  calls_return -> accounts -> table (callout (ks w)) cs -> ordered 0 cs ->
  0 <= tim -> small tim -> Forall proper evs ->
  (2 * (length cs + 1 + arms evs) <= NCALL - 1)%nat ->
  tim <= Z.of_nat (ticks evs) + 1 -> BASEPRI (tr_pl tr) = false ->
  exists w' new, history (Arm f a tim :: evs ++ [Tick tr]) w = Ret tt w' /\
    seen w' = seen w ++ new /\ (f, a) ∈ new.
Proof.
  intros Hc Ha Ht Ho H0 Hsm Hp Hroom Htick Hb. unfold NCALL in Hroom.
  destruct (timeout_correct _ cs f a tim Ht ltac:(unfold NCALL; lia) Hsm) as (l' & E & Ht').
  set (w0 := w <| ks ::= fun q => q <| callout := l' |> |>).
  assert (timers w0 (add_call (mkcall tim f a) cs) (arms evs + 0)) as Ht0.
  { constructor; [done|by apply add_call_order|]. rewrite add_call_length. unfold NCALL. lia. }
  destruct (history_ok Hc Ha evs w0 _ 0%nat Ht0 Hp) as (w1 & cs1 & n1 & E1 & Ht1 & Hs1 & Hw1).
  destruct (tick_low Hc Ha tr w1 cs1 0%nat Ht1 Hb) as (w2 & cs2 & E2 & _ & Hs2 & _).
  assert (seen w0 = seen w) as Hs0 by (apply (proj2 Ha); [done|by destruct w as [? [] ?]]).
  exists w2, (n1 ++ map routine (due_now cs1)). split; [|split].
  - unfold history. cbn [for_].
    erewrite (bind_ret_eq (happen _) _ w tt w0) by (cbn [happen]; unfold zoom; by rewrite E).
    cbn beta. erewrite for_app by exact E1. cbn [for_ happen].
    by erewrite bind_ret_eq by exact E2.
  - by rewrite Hs2, Hs1, Hs0, app_assoc.
  - apply elem_of_app. destruct (Hw1 f a tim) as [?|(c & Hin & <- & <- & Hd)]; [|by left|right].
    + eexists. split; [apply add_call_elem; by left|]. cbn. lia.
    + apply (list_elem_of_fmap_2 routine). apply list_elem_of_filter. split; [lia|done].
Qed.
End Timers.

(** ** A concrete history

    The world of [ticking], where routine 1 arms itself again; a timeout two
    ticks away, an interrupt at high priority, another timeout and the second
    tick. *)

Definition noted (w : world) : list (nat * Z) :=
  map (fun m => match m with Prdev s a => (String.length s, a) | Printf _ => (0%nat, 0) end) (console (ks w)).

Lemma tally_length n : String.length (tally n) = n.
Proof. induction n as [|n IH]; [done|]. cbn. by f_equal. Qed.

Lemma clockwork_accounts : @accounts clockwork noted.
Proof.
  split.
  - intros f a w w' E. cbn [callfunc clockwork] in E.
    apply bind_inv_ret in E as ([] & w1 & E1 & E2). injection E1 as <-.
    transitivity (noted (w <| ks ::= fun k => k <| console ::= fun l => l ++ [Prdev (tally f) a] |> |>)).
    + destruct (Nat.eqb f 1); cbn [when] in E2; [|by injection E2 as <-].
      unfold zoom in E2. destruct (Callout.timeout _ _ _ _); try done. by injection E2 as _ <-.
    + unfold noted. cbn. rewrite map_app. cbn. by rewrite tally_length.
  - intros w w' _ E. unfold noted. by rewrite E.
Qed.

Lemma timeout_fires_witness :
  exists w' new, @history clockwork
    (Arm 2 77 2 :: [Tick (mktrap 0 0 0); Arm 3 5 0; Other (kset lbolt 9)] ++ [Tick (mktrap 65535 0 0)]) ticking =
      Ret tt w' /\ noted w' = noted ticking ++ new /\ (2%nat, 77) ∈ new.
Proof.
  refine (@timeout_fires clockwork noted ticking [mkcall 1 1 100; mkcall 5 2 200; mkcall 5 3 300] 2 77 2
    [Tick (mktrap 0 0 0); Arm 3 5 0; Other (kset lbolt 9)] (mktrap 65535 0 0)
    clockwork_returns clockwork_accounts _ _ _ _ _ _ _ eq_refl).
  - by repeat constructor.
  - cbn. lia.
  - lia.
  - unfold small. lia.
  - repeat constructor; try lia. intros w. eexists _, []. rewrite app_nil_r. by repeat split.
  - vm_compute. lia.
  - vm_compute. congruence.
Defined.
