(* ===== verification/Bio.v ===== *)
(** * Bio: the buffer cache ([dev/bio.c]) and the memory disk ([dev/md.c])

    Every buffer of the pool hangs in a doubly linked list headed by its
    device's [d_tab] (or by [bfreelist], when it belongs to none) and, unless
    it is busy, in the list of available buffers headed by [bfreelist], in the
    order in which they were last used. *)

From S2P Require Import Prelude Bytes State Sched Utab.

Definition B_WRITE : Z := 0.
Definition B_READ : Z := 1.
Definition B_DONE : Z := 2.
Definition B_ERROR : Z := 4.
Definition B_BUSY : Z := 8.
Definition B_PHYS : Z := 16.
Definition B_WANTED : Z := 64.
Definition B_AGE : Z := 128.
Definition B_ASYNC : Z := 256.
Definition B_DELWRI : Z := 512.
Definition B_TAPE : Z := 1024.

(** [bp->b_flags |= m], [bp->b_flags &= ~m]; a test of them. *)
Definition bor (bp : bptr) (m : Z) : KM unit := f <- bf bp b_flags ;; bset bp b_flags (Z.lor f m).
Definition bclr (bp : bptr) (m : Z) : KM unit := f <- bf bp b_flags ;; bset bp b_flags (clr f m).
Definition bhas (bp : bptr) (m : Z) : KM bool := f <- bf bp b_flags ;; ret (f &? m).
(** The buffer a link leads to; NULL is a fault. *)
Definition blink (bp : bptr) (f : buf -> option bptr) : KM bptr := o <- bf bp f ;; the o.

Definition count_io (f : iostat -> iostat) : KM unit := kmod (fun k => k <| io_info ::= f |>).
(** Lists of buffers go round after at most this many steps. *)
Definition nbufs : KM nat := b <- kf bufs ;; ret (S (size b)).

Section Bio.
Context {MC : Machine}.

Definition strategy (dev : Z) (bp : bptr) : KM unit := sw <- bdevsw_at dev ;; d_strategy sw bp.

(** Pick up the device's error number and pass it to the user. *)
Definition geterror (bp : bptr) : KM unit :=
  e <- bhas bp B_ERROR ;;
  when e (n <- bf bp b_error ;; set_error n ;;; when (n =? 0) (set_error EIO)).

(** Unlink a buffer from the available list and mark it busy. *)
Definition notavail (bp : bptr) : KM unit :=
  s <- spl6 ;;
  b <- blink bp av_back ;; f <- bf bp av_forw ;; bset b av_forw f ;;;
  f <- blink bp av_forw ;; b <- bf bp av_back ;; bset f av_back b ;;;
  bor bp B_BUSY ;;;
  splx s.

(** [brelse] after its wakeups. *)
Definition brelse_put (bp : bptr) : KM unit :=
  e <- bhas bp B_ERROR ;;
  when e (bset bp b_dev NODEV) ;;;
  s <- spl6 ;;
  age <- bhas bp B_AGE ;;
  (if age : bool then
     f <- blink Bfree av_forw ;;
     bset f av_back (Some bp) ;;;
     f <- bf Bfree av_forw ;; bset bp av_forw f ;;;
     bset Bfree av_forw (Some bp) ;;;
     bset bp av_back (Some Bfree)
   else
     b <- blink Bfree av_back ;;
     bset b av_forw (Some bp) ;;;
     b <- bf Bfree av_back ;; bset bp av_back b ;;;
     bset Bfree av_back (Some bp) ;;;
     bset bp av_forw (Some Bfree)) ;;;
  bclr bp (Z.lor (Z.lor (Z.lor B_WANTED B_BUSY) B_ASYNC) B_AGE) ;;;
  splx s.

Definition brelse (bp : bptr) : KM unit :=
  w <- bhas bp B_WANTED ;;
  when w (wakeup (CBuf bp)) ;;;
  w <- bhas Bfree B_WANTED ;;
  when w (bclr Bfree B_WANTED ;;; wakeup (CBuf Bfree)) ;;;
  brelse_put bp.

(** Mark I/O complete, release the buffer if it is asynchronous. *)
Definition iodone (bp : bptr) : KM unit :=
  bor bp B_DONE ;;;
  a <- bhas bp B_ASYNC ;;
  if a : bool then brelse bp
  else bclr bp B_WANTED ;;; wakeup (CBuf bp).

(** Loops that sleep: each round that sleeps uses up a step of [env]. *)
Definition rounds : KM nat := e <- gets env ;; ret (S (length e)).

(** [while ((bp->b_flags&B_DONE)==0) sleep(bp, pri);] *)
Definition wait_done (bp : bptr) (pri : Z) : KM unit :=
  n <- rounds ;;
  loop n (fun _ : unit =>
    d <- bhas bp B_DONE ;;
    if d : bool then ret (inr tt) else sleep (CBuf bp) pri ;;; ret (inl tt)) tt.

Definition iowait (bp : bptr) : KM unit :=
  spl6 ;;; wait_done bp PRIBIO ;;; spl0 ;;; geterror bp.

Definition bwrite (bp : bptr) : KM unit :=
  flag <- bf bp b_flags ;;
  bclr bp (Z.lor (Z.lor (Z.lor (Z.lor B_READ B_DONE) B_ERROR) B_DELWRI) B_AGE) ;;;
  bset bp b_bcount BSIZE ;;;
  count_io (fun i => i <| nwrite ::= fun n => n + 1 |>) ;;;
  dev <- bf bp b_dev ;;
  strategy dev bp ;;;
  if negb (flag &? B_ASYNC) then iowait bp ;;; brelse bp
  else if flag &? B_DELWRI then bor bp B_AGE
  else geterror bp.

Definition bawrite (bp : bptr) : KM unit := bor bp B_ASYNC ;;; bwrite bp.

Definition bdwrite (bp : bptr) : KM unit :=
  dev <- bf bp b_dev ;;
  sw <- bdevsw_at dev ;;
  dp <- the (d_tab sw) ;;
  t <- bhas dp B_TAPE ;;
  if t : bool then bawrite bp
  else bor bp (Z.lor B_DELWRI B_DONE) ;;; brelse bp.

(** [for (bp=dp->b_forw; bp != dp; bp = bp->b_forw)] up to a buffer with the
    block. *)
Definition find_block (dp : bptr) (dev blkno : Z) : KM (option bptr) :=
  b0 <- blink dp b_forw ;;
  n <- nbufs ;;
  loop n (fun bp =>
    if decide (bp = dp) then ret (inr None)
    else
      b <- bget bp ;;
      if (b_blkno b =? blkno) && (b_dev b =? dev) then ret (inr (Some bp))
      else nx <- the (b_forw b) ;; ret (inl nx)) b0.

Definition incore (dev blkno : Z) : KM bool :=
  sw <- bdevsw_at dev ;;
  dp <- the (d_tab sw) ;;
  o <- find_block dp dev blkno ;;
  ret (bool_decide (is_Some o)).

(** How far the buffer is from the end of the available list, for
    [io_info.bufcount]. *)
Definition av_distance (bp : bptr) : KM nat :=
  d0 <- blink bp av_forw ;;
  n <- nbufs ;;
  loop n (fun x : bptr * nat =>
    let '(d, i) := x in
    if decide (d = Bfree) then ret (inr i)
    else nx <- blink d av_forw ;; ret (inl (nx, S i))) (d0, 0%nat).

(** Give the buffer to [dp]'s list for block [blkno] of [dev]: the end of
    [getblk] and of [geteblk]. *)
Definition reassign (bp dp : bptr) : KM unit :=
  bset bp b_flags B_BUSY ;;;
  b <- blink bp b_back ;; f <- bf bp b_forw ;; bset b b_forw f ;;;
  f <- blink bp b_forw ;; b <- bf bp b_back ;; bset f b_back b ;;;
  f <- bf dp b_forw ;; bset bp b_forw f ;;;
  bset bp b_back (Some dp) ;;;
  f <- blink dp b_forw ;; bset f b_back (Some bp) ;;;
  bset dp b_forw (Some bp).

(** [getblk] and [geteblk] start over after sleeping and after writing out a
    delayed write; between two sleeps there are at most as many of those as
    buffers. *)
Definition retries : KM nat :=
  e <- gets env ;; n <- nbufs ;; ret (S (length e) * S n)%nat.

Definition getblk_hit (bp : bptr) : KM (unit + bptr) :=
  spl6 ;;;
  busy <- bhas bp B_BUSY ;;
  if busy : bool then
    bor bp B_WANTED ;;;
    sleep (CBuf bp) (PRIBIO + 1) ;;;
    ret (inl tt)
  else
    spl0 ;;;
    i <- av_distance bp ;;
    when (Nat.ltb i NBUF)
      (count_io (fun s => s <| bufcount ::= fun l => <[i := nth i l 0 + 1]> l |>)) ;;;
    notavail bp ;;;
    ret (inr bp).

Definition getblk_miss (dp : bptr) (dev blkno : Z) : KM (unit + bptr) :=
  spl6 ;;;
  bp <- blink Bfree av_forw ;;
  if decide (bp = Bfree) then
    bor Bfree B_WANTED ;;;
    sleep (CBuf Bfree) (PRIBIO + 1) ;;;
    ret (inl tt)
  else
    spl0 ;;;
    notavail bp ;;;
    dw <- bhas bp B_DELWRI ;;
    if dw : bool then
      bor bp B_ASYNC ;;;
      bwrite bp ;;;
      ret (inl tt)
    else
      reassign bp dp ;;;
      bset bp b_dev dev ;;;
      bset bp b_blkno blkno ;;;
      ret (inr bp).

(** From [loop:] to a [goto loop] or a [return]. *)
Definition getblk_round (dev blkno : Z) : KM (unit + bptr) :=
  spl0 ;;;
  sw <- bdevsw_at dev ;;
  match d_tab sw with
  | None => panic "devtab"
  | Some dp =>
      o <- find_block dp dev blkno ;;
      match o with
      | Some bp => getblk_hit bp
      | None => getblk_miss dp dev blkno
      end
  end.

Definition getblk (dev blkno : Z) : KM bptr :=
  (if nblkdev <=? major dev then panic "blkdev" else ret tt) ;;;
  n <- retries ;;
  loop n (fun _ : unit => getblk_round dev blkno) tt.

Definition geteblk : KM bptr :=
  n <- retries ;;
  loop n (fun _ : unit =>
    spl6 ;;;
    m <- rounds ;;
    loop m (fun _ : unit =>
      f <- blink Bfree av_forw ;;
      if decide (f = Bfree) then
        bor Bfree B_WANTED ;;;
        sleep (CBuf Bfree) (PRIBIO + 1) ;;;
        ret (inl tt)
      else ret (inr tt)) tt ;;;
    spl0 ;;;
    bp <- blink Bfree av_forw ;;
    notavail bp ;;;
    dw <- bhas bp B_DELWRI ;;
    if dw : bool then
      bor bp B_ASYNC ;;;
      bwrite bp ;;;
      ret (inl tt)
    else
      reassign bp Bfree ;;;
      bset bp b_dev NODEV ;;;
      ret (inr bp)) tt.

Definition bread (dev blkno : Z) : KM bptr :=
  bp <- getblk dev blkno ;;
  d <- bhas bp B_DONE ;;
  if d : bool then
    count_io (fun i => i <| ncache ::= fun n => n + 1 |>) ;;;
    ret bp
  else
    bor bp B_READ ;;;
    bset bp b_bcount BSIZE ;;;
    strategy dev bp ;;;
    count_io (fun i => i <| nread ::= fun n => n + 1 |>) ;;;
    iowait bp ;;;
    ret bp.

Definition breada (dev blkno rablkno : Z) : KM bptr :=
  c <- incore dev blkno ;;
  bp <- (if negb c then
           bp <- getblk dev blkno ;;
           d <- bhas bp B_DONE ;;
           when (negb d)
             (bor bp B_READ ;;;
              bset bp b_bcount BSIZE ;;;
              strategy dev bp ;;;
              count_io (fun i => i <| nread ::= fun n => n + 1 |>)) ;;;
           ret (Some bp)
         else ret None) ;;
  (if tst rablkno then
     c <- incore dev rablkno ;;
     when (negb c)
       (rabp <- getblk dev rablkno ;;
        d <- bhas rabp B_DONE ;;
        if d : bool then brelse rabp
        else
          bor rabp (Z.lor B_READ B_ASYNC) ;;;
          bset rabp b_bcount BSIZE ;;;
          strategy dev rabp ;;;
          count_io (fun i => i <| nreada ::= fun n => n + 1 |>))
   else ret tt) ;;;
  match bp with
  | None => bread dev blkno
  | Some bp => iowait bp ;;; ret bp
  end.

(** Zero the core associated with a buffer of the cache. *)
Definition clrbuf (bp : bptr) : KM unit :=
  d <- bf bp b_data ;;
  bset bp b_data (splice 0 (replicate (Z.to_nat BSIZE) 0) d) ;;;
  bset bp b_resid 0.

(** Write out the delayed writes of [dev], or all of them. *)
Definition bflush (dev : Z) : KM unit :=
  n <- retries ;;
  loop n (fun _ : unit =>
    spl6 ;;;
    b0 <- blink Bfree av_forw ;;
    m <- nbufs ;;
    o <- loop m (fun bp =>
      if decide (bp = Bfree) then ret (inr None)
      else
        b <- bget bp ;;
        if (b_flags b &? B_DELWRI) && ((dev =? NODEV) || (dev =? b_dev b)) then ret (inr (Some bp))
        else nx <- the (av_forw b) ;; ret (inl nx)) b0 ;;
    match o with
    | Some bp =>
        bor bp B_ASYNC ;;;
        notavail bp ;;;
        bwrite bp ;;;
        ret (inl tt)
    | None => spl0 ;;; ret (inr tt)
    end) tt.

(** Swap I/O: [count] clicks between the swap device and core. *)
Definition swap (blkno coreaddr count rdflg : Z) : KM unit :=
  b1 <- bhas Swbuf1 B_BUSY ;;
  w2 <- bhas Swbuf2 B_WANTED ;;
  let bp := if b1 && negb w2 then Swbuf2 else Swbuf1 in
  spl6 ;;;
  n <- rounds ;;
  loop n (fun _ : unit =>
    busy <- bhas bp B_BUSY ;;
    if busy : bool then bor bp B_WANTED ;;; sleep (CBuf bp) (PSWP + 1) ;;; ret (inl tt)
    else ret (inr tt)) tt ;;;
  loop (S (Z.to_nat count)) (fun x : Z * Z * Z =>
    let '(blkno, coreaddr, count) := x in
    if negb (tst count) then ret (inr tt)
    else
      bset bp b_flags (Z.lor (Z.lor B_BUSY B_PHYS) rdflg) ;;;
      dev <- kf swapdev ;;
      bset bp b_dev dev ;;;
      let tcount := if 31 <=? count then 31 else count in
      bset bp b_bcount (ctob tcount) ;;;
      lo <- kf swplo ;;
      bset bp b_blkno (lo + blkno) ;;;
      bset bp b_addr (Some (PHY + ctob coreaddr)) ;;;
      strategy dev bp ;;;
      spl6 ;;;
      wait_done bp PSWP ;;;
      ret (inl (blkno + ctod tcount, coreaddr + tcount, count - tcount))) (blkno, coreaddr, count) ;;;
  w <- bhas bp B_WANTED ;;
  when w (wakeup (CBuf bp)) ;;;
  spl0 ;;;
  bclr bp (Z.lor B_BUSY B_WANTED) ;;;
  e <- bhas bp B_ERROR ;;
  if e : bool then panic "IO err in swap" else ret tt.

(** Raw I/O from the user's address space: the header is taken and filled in,
    unless the user may not have the transfer; and what follows the request. *)
Definition physio_request (bp : bptr) (dev rw : Z) : KM bool :=
  b <- uf u_base ;;
  base <- (match b with UA a => ret (u32 a) | KA _ _ => fault end) ;;
  count <- uf u_count ;;
  ts <- uf u_tsize ;; ds <- uf u_dsize ;; ss <- uf u_ssize ;;
  let nb := Z.shiftr base 12 in
  let eb := Z.shiftr (u32 (base + count - 1)) 12 in
  if (u32 (base + count) <=? base) ||
     ((nb <? ts) || (1024 <=? eb)) ||
     ((u32 (ts + ds) <? eb) && (nb <? u32 (1024 - ss)))
  then set_error EFAULT ;;; ret false
  else
    spl6 ;;;
    n <- rounds ;;
    loop n (fun _ : unit =>
      busy <- bhas bp B_BUSY ;;
      if busy : bool then bor bp B_WANTED ;;; sleep (CBuf bp) (PRIBIO + 1) ;;; ret (inl tt)
      else ret (inr tt)) tt ;;;
    bset bp b_flags (Z.lor (Z.lor B_BUSY B_PHYS) rw) ;;;
    bset bp b_dev dev ;;;
    pa <- physaddr base ;;
    bset bp b_addr (Some (PHY + pa)) ;;;
    off <- uf u_offset ;;
    bset bp b_blkno (Z.shiftr off BSHIFT) ;;;
    bset bp b_bcount count ;;;
    bset bp b_error 0 ;;;
    p <- uf u_procp ;;
    fl <- pf p p_flag ;; pset p p_flag (s8 (Z.lor fl SLOCK)) ;;;
    ret true.

Definition physio_done (bp : bptr) : KM unit :=
  spl6 ;;;
  wait_done bp PRIBIO ;;;
  p <- uf u_procp ;;
  fl <- pf p p_flag ;; pset p p_flag (s8 (clr fl SLOCK)) ;;;
  w <- bhas bp B_WANTED ;;
  when w (wakeup (CBuf bp)) ;;;
  spl0 ;;;
  bclr bp (Z.lor B_BUSY B_WANTED) ;;;
  r <- bf bp b_resid ;;
  uset u_count r ;;;
  geterror bp.

Definition physio (strat : bptr -> KM unit) (bp : bptr) (dev rw : Z) : KM unit :=
  go <- physio_request bp dev rw ;;
  when go (strat bp ;;; physio_done bp).

(** ** The memory disk *)

Definition mdmem : Z := PHY + 14680064.      (* PHY + 0xe00000 *)
Definition mdsz : Z := 4096.

(** [n] bytes at the buffer's core address; the array of a cache buffer
    holds BSIZE of them. *)
Definition core_read (bp : bptr) (n : nat) : KM (list Z) :=
  b <- bget bp ;;
  match b_addr b with
  | Some a => m <- kf pmem ;; ret (phys_read m a n)
  | None => if Nat.leb n (length (b_data b)) then ret (take n (b_data b)) else fault
  end.
Definition core_write (bp : bptr) (l : list Z) : KM unit :=
  b <- bget bp ;;
  match b_addr b with
  | Some a => kmod (fun k => k <| pmem ::= fun m => phys_write m a l |>)
  | None => if Nat.leb (length l) (length (b_data b)) then bset bp b_data (splice 0 l (b_data b)) else fault
  end.

Definition mdstrategy (bp : bptr) : KM unit :=
  b <- bget bp ;;
  let sz := Z.shiftr (u32 (b_bcount b + BMASK)) BSHIFT in
  if mdsz <? u32 (b_blkno b + sz) then bor bp B_ERROR ;;; iodone bp
  else
    bset bp av_forw None ;;;
    let x := Z.shiftl (b_blkno b) BSHIFT in
    let n := Z.to_nat (b_bcount b) in
    (if b_flags b &? B_READ then
       m <- kf pmem ;; core_write bp (phys_read m (mdmem + x) n)
     else
       l <- core_read bp n ;; kmod (fun k => k <| pmem ::= fun m => phys_write m (mdmem + x) l |>)) ;;;
    bset bp b_resid 0 ;;;
    iodone bp.

Definition mdread (maj : nat) (dev : Z) : KM unit := physio mdstrategy (Rbuf maj) dev B_READ.
Definition mdwrite (maj : nat) (dev : Z) : KM unit := physio mdstrategy (Rbuf maj) dev B_WRITE.

(** ** Initialisation: [binit] of [sys/main.c] *)

Definition binit : KM unit :=
  bset Bfree av_back (Some Bfree) ;;;
  bset Bfree av_forw (Some Bfree) ;;;
  bset Bfree b_back (Some Bfree) ;;;
  bset Bfree b_forw (Some Bfree) ;;;
  for_ (seq 0 NBUF) (fun i =>
    let bp := Buf i in
    bset bp b_dev NODEV ;;;
    bset bp b_addr None ;;;
    bset bp b_back (Some Bfree) ;;;
    f <- bf Bfree b_forw ;; bset bp b_forw f ;;;
    f <- blink Bfree b_forw ;; bset f b_back (Some bp) ;;;
    bset Bfree b_forw (Some bp) ;;;
    bset bp b_flags B_BUSY ;;;
    brelse bp) ;;;
  for_ bdevsw (fun bdp =>
    match d_tab bdp with
    | Some dp => bset dp b_forw (Some dp) ;;; bset dp b_back (Some dp)
    | None => ret tt
    end).

End Bio.

