(* ===== verification/Cache.v ===== *)
(** * Cache: the invariant of the buffer cache

    The lists of [Bio] as rings, the invariant they form, what [notavail],
    [reassign], [find_block], the release and a strategy routine that queues
    a delayed write ([queues]) do to it, and the theorems on [getblk] and
    [brelse]. *)

From S2P Require Import Prelude Bytes State Sched Bio.

(** ** Doubly linked rings

    A ring is described by the two link fields as functions, so that stores
    into other fields do not disturb it. *)

Definition links := bptr -> option bptr.
Definition upd (f : links) (a : bptr) (v : option bptr) : links :=
  fun x => if decide (x = a) then v else f x.

(** From [x] forward over [l] to [y], and backward. *)
Fixpoint seg (fw bk : links) (x : bptr) (l : list bptr) (y : bptr) : Prop :=
  match l with
  | [] => fw x = Some y /\ bk y = Some x
  | z :: r => fw x = Some z /\ bk z = Some x /\ seg fw bk z r y
  end.
Definition ring (fw bk : links) (h : bptr) (l : list bptr) : Prop :=
  seg fw bk h l h /\ NoDup (h :: l).

Lemma seg_ext fw bk fw' bk' l : forall x y, seg fw bk x l y ->
  (forall a, a ∈ x :: l -> fw' a = fw a) -> (forall a, a ∈ l ++ [y] -> bk' a = bk a) ->
  seg fw' bk' x l y.
Proof.
  induction l as [|z l IH]; intros x y H Hf Hb; cbn in *.
  - rewrite Hf, Hb by left. done.
  - destruct H as (H1 & H2 & H3). rewrite Hf, Hb by left. do 2 (split; [done|]).
    apply IH; [done|..]; intros a Ha; [apply Hf|apply Hb]; by right.
Qed.

Lemma ring_ext fw bk fw' bk' h l : ring fw bk h l ->
  (forall a, a ∈ h :: l -> fw' a = fw a /\ bk' a = bk a) -> ring fw' bk' h l.
Proof.
  intros [H Hn] E. split; [|done]. eapply seg_ext; [exact H|..]; intros a Ha; apply E; [done|].
  apply elem_of_app in Ha as [Ha| ->%list_elem_of_singleton]; [by right|left].
Qed.

Lemma seg_app fw bk l1 l2 : forall x z y,
  seg fw bk x (l1 ++ z :: l2) y <-> seg fw bk x l1 z /\ seg fw bk z l2 y.
Proof.
  induction l1 as [|a l1 IH]; intros x z y; cbn; [tauto|]. rewrite IH. tauto.
Qed.

(** The neighbours of a member. *)
Lemma seg_last fw bk l : forall x y, seg fw bk x l y -> fw (default x (last l)) = Some y.
Proof.
  induction l as [|a l IH]; intros x y H; cbn in *; [by destruct H|].
  destruct H as (_ & _ & H). rewrite last_cons. specialize (IH _ _ H).
  by destruct (last l).
Qed.
Lemma seg_head fw bk l x y : seg fw bk x l y -> bk (default y (head l)) = Some x.
Proof. destruct l; cbn; tauto. Qed.

Lemma seg_upd_last fw bk l : forall x y y', seg fw bk x l y -> NoDup (x :: l) ->
  (y' ∉ l) -> seg (upd fw (default x (last l)) (Some y')) (upd bk y' (Some (default x (last l)))) x l y'.
Proof.
  unfold upd. induction l as [|a l IH]; intros x y y' H Hn Hy; cbn in *.
  - by rewrite !decide_True by done.
  - destruct H as (H1 & H2 & H3). apply NoDup_cons in Hn as [Hx Hn].
    apply not_elem_of_cons in Hy as [Hya Hy]. rewrite last_cons.
    assert (E : default x (match last l with Some y0 => Some y0 | None => Some a end) = default a (last l))
      by (by destruct (last l)). rewrite E.
    split. { rewrite decide_False; [done|]. intros ->. apply Hx. destruct (last l) as [z|] eqn:El; [|left].
             right. apply last_Some in El as [l0 ->]. apply elem_of_app. right. left. }
    split; [by rewrite decide_False|]. by eapply IH.
Qed.

(** Unlinking [x]: its neighbours are linked to each other. *)
Lemma ring_remove fw bk h l1 x l2 p n : ring fw bk h (l1 ++ x :: l2) ->
  bk x = Some p -> fw x = Some n ->
  ring (upd fw p (Some n)) (upd bk n (Some p)) h (l1 ++ l2).
Proof.
  intros [H Hnd] Hp Hn. apply seg_app in H as [H1 H2].
  assert (Hnd' : NoDup (h :: l1 ++ l2)).
  { rewrite <- Permutation_middle in Hnd. apply NoDup_cons in Hnd as [Hh Hnd].
    apply NoDup_cons in Hnd as [_ Hnd]. apply NoDup_cons. split; [|done]. intros ?. apply Hh. by right. }
  assert (p = default h (last l1)) as ->.
  { clear -H1 Hp. revert H1 Hp. generalize h. induction l1 as [|a l1 IH]; intros g H1 Hp; cbn in *.
    - destruct H1 as [_ H1]. congruence.
    - destruct H1 as (_ & _ & H1). rewrite last_cons. specialize (IH _ H1 Hp). by destruct (last l1). }
  assert (n = default h (head l2)) as ->.
  { destruct l2 as [|b l2]; cbn in H2 |- *; destruct H2 as [H2 _]; congruence. }
  split; [|done].
  assert (Hnd1 : NoDup (h :: l1)).
  { apply NoDup_cons in Hnd' as [Hh Hnd']. apply NoDup_app in Hnd' as (Hd & _ & _).
    apply NoDup_cons. split; [|done]. intros ?. apply Hh, elem_of_app. by left. }
  destruct l2 as [|b l2]; cbn [head default from_option id].
  - rewrite app_nil_r in *. eapply seg_upd_last; [exact H1|done|]. by apply NoDup_cons in Hnd' as [? _].
  - apply seg_app. cbn in H2. destruct H2 as (_ & _ & H2). split.
    + eapply seg_upd_last; [exact H1|done|].
      apply NoDup_cons in Hnd' as [_ Hnd']. apply NoDup_app in Hnd' as (_ & Hd & _).
      intros Hin. apply (Hd b Hin). left.
    + eapply seg_ext; [exact H2|..]; intros a Ha; unfold upd; rewrite decide_False; try done.
      * intros ->. assert (default h (last l1) ∈ h :: l1) as Hl.
        { destruct (last l1) as [z|] eqn:El; [|left]. right.
          apply last_Some in El as [l0 ->]. apply elem_of_app. right. left. }
        apply elem_of_cons in Hl as [Hl|Hl].
        -- rewrite Hl in Ha. apply NoDup_cons in Hnd' as [Hh _]. apply Hh, elem_of_app. by right.
        -- apply NoDup_cons in Hnd' as [_ Hnd']. apply NoDup_app in Hnd' as (_ & Hd & _).
           by apply (Hd _ Hl).
      * intros ->. apply elem_of_app in Ha as [Ha|Ha%list_elem_of_singleton].
        -- apply NoDup_cons in Hnd' as [_ Hnd']. apply NoDup_app in Hnd' as (_ & _ & Hnd').
           by apply NoDup_cons in Hnd' as [? _].
        -- subst b. apply NoDup_cons in Hnd' as [Hh _]. apply Hh, elem_of_app. right. left.
Qed.

(** Linking [x] in at the front, and at the back. *)
Lemma ring_front fw bk h l x n : ring fw bk h l -> x ∉ h :: l -> fw h = Some n ->
  ring (upd (upd fw x (Some n)) h (Some x)) (upd (upd bk x (Some h)) n (Some x)) h (x :: l).
Proof.
  intros [H Hnd] Hx Hn. apply not_elem_of_cons in Hx as [Hxh Hxl].
  assert (n = default h (head l)) as -> by (destruct l; cbn in *; destruct H; congruence).
  split.
  2: { apply NoDup_cons in Hnd as [Hh Hnd]. apply NoDup_cons. split; [|by apply NoDup_cons].
       by intros [?|?]%elem_of_cons. }
  cbn. unfold upd. rewrite decide_True by done. split; [done|].
  destruct l as [|a l]; cbn in *.
  - repeat split; repeat case_decide; congruence.
  - apply not_elem_of_cons in Hxl as [Hxa Hxl]. apply NoDup_cons in Hnd as [Hh Hnd].
    apply not_elem_of_cons in Hh as [Hha Hhl]. apply NoDup_cons in Hnd as [Ha Hnd].
    do 3 (split; [repeat case_decide; congruence|]).
    destruct H as (_ & _ & H). eapply seg_ext; [exact H|..]; intros b Hb.
    + assert (b <> h) by (intros ->; apply elem_of_cons in Hb as [?|?]; done).
      assert (b <> x) by (intros ->; apply elem_of_cons in Hb as [?|?]; congruence).
      by rewrite !decide_False.
    + assert (b <> a).
      { intros ->. apply elem_of_app in Hb as [Hb|Hb%list_elem_of_singleton]; congruence. }
      rewrite decide_False by done. rewrite decide_False; [done|].
      intros ->. apply elem_of_app in Hb as [Hb|Hb%list_elem_of_singleton]; [done|congruence].
Qed.

Lemma seg_reverse fw bk l : forall x y, seg fw bk x l y -> seg bk fw y (reverse l) x.
Proof.
  induction l as [|z l IH]; intros x y H; cbn in H; [by destruct H|].
  destruct H as (H1 & H2 & H3). rewrite reverse_cons. apply seg_app. split; [by apply IH|done].
Qed.

Lemma ring_reverse fw bk h l : ring fw bk h l -> ring bk fw h (reverse l).
Proof.
  intros [H Hn]. split; [by apply seg_reverse|]. by rewrite reverse_Permutation.
Qed.

Lemma ring_back fw bk h l x p : ring fw bk h l -> x ∉ h :: l -> bk h = Some p ->
  ring (upd (upd fw x (Some h)) p (Some x)) (upd (upd bk x (Some p)) h (Some x)) h (l ++ [x]).
Proof.
  intros H Hx Hp. rewrite <- (reverse_involutive (l ++ [x])). apply ring_reverse.
  rewrite reverse_snoc. apply ring_front; [by apply ring_reverse| |done].
  intros Hin. apply Hx. apply elem_of_cons in Hin as [->|Hin]; [left|].
  right. by apply elem_of_reverse.
Qed.

(** ** The cache *)

(** The members of a ring but [x]. *)
Definition without (x : bptr) (l : list bptr) : list bptr := filter (fun y => y <> x) l.

Lemma without_not x l : x ∉ l -> without x l = l.
Proof.
  unfold without. induction l as [|a l IH]; intros H; [done|].
  apply not_elem_of_cons in H as [Ha H]. rewrite filter_cons_True by congruence. by rewrite IH.
Qed.

Lemma without_split x l1 l2 : NoDup (l1 ++ x :: l2) -> without x (l1 ++ x :: l2) = l1 ++ l2.
Proof.
  intros H. apply NoDup_app in H as (_ & H1 & [H2 _]%NoDup_cons). unfold without.
  rewrite filter_app, filter_cons_False by (intros E; by apply E).
  change (filter (fun y => y <> x)) with (without x). rewrite !without_not; [done|done|].
  intros Hin. apply (H1 x Hin). left.
Qed.

Lemma elem_of_without x y l : y ∈ without x l <-> y ∈ l /\ y <> x.
Proof. unfold without. rewrite list_elem_of_filter. tauto. Qed.

(** A link field of the headers [m]. *)
Definition lk (f : buf -> option bptr) (m : gmap bptr buf) : links := fun x => m !! x ≫= f.

Lemma lk_is_Some f m x y : lk f m x = Some y -> is_Some (m !! x).
Proof. unfold lk. destruct (m !! x); [by eexists|done]. Qed.

(** [cache m hs H av]: the headers [m] form the cache with the list heads
    [hs]; the buffers of head [h] are [H h], the available ones [av]. *)
Record cache (m : gmap bptr buf) (hs : list bptr) (H : bptr -> list bptr) (av : list bptr) : Prop := {
  ca_av : ring (lk av_forw m) (lk av_back m) Bfree av;
  ca_hash : forall h, h ∈ hs -> ring (lk b_forw m) (lk b_back m) h (H h);
  ca_disj : forall h h' x, h ∈ hs -> h' ∈ hs -> x ∈ H h -> x ∈ H h' -> h = h';
  ca_head : forall h x, h ∈ hs -> x ∈ H h -> x ∉ Bfree :: hs;
  ca_sub : forall x, x ∈ av -> exists h, h ∈ hs /\ x ∈ H h;
  ca_busy : forall h x b, h ∈ hs -> x ∈ H h -> m !! x = Some b ->
    (x ∈ av <-> b_flags b &? B_BUSY = false);
  ca_key : forall h x y bx by_, h ∈ hs -> h <> Bfree -> x ∈ H h -> y ∈ H h ->
    m !! x = Some bx -> m !! y = Some by_ -> b_dev bx <> NODEV ->
    b_dev bx = b_dev by_ -> b_blkno bx = b_blkno by_ -> x = y
}.

(** Equal headers but for the links. *)
Definition same_buf (b b' : buf) : Prop :=
  b' = b <| b_forw := b_forw b' |> <| b_back := b_back b' |>
         <| av_forw := av_forw b' |> <| av_back := av_back b' |>.

Lemma same_buf_refl b : same_buf b b.
Proof. by destruct b. Qed.
Lemma same_buf_trans b1 b2 b3 : same_buf b1 b2 -> same_buf b2 b3 -> same_buf b1 b3.
Proof. unfold same_buf. intros E1 E2. rewrite E2 at 1. rewrite E1. by destruct b1. Qed.

(** [changed m m' x g]: links aside, [m'] is [m] with [g] applied at [x]. *)
Definition changed (m m' : gmap bptr buf) (x : bptr) (g : buf -> buf) : Prop :=
  forall y b, m !! y = Some b -> exists b', m' !! y = Some b' /\
    same_buf (if decide (y = x) then g b else b) b'.

Lemma same_buf_flags b b' : same_buf b b' -> b_flags b' = b_flags b.
Proof. unfold same_buf. by intros ->. Qed.
Lemma same_buf_key b b' : same_buf b b' -> b_dev b' = b_dev b /\ b_blkno b' = b_blkno b.
Proof. unfold same_buf. by intros ->. Qed.

Lemma changed_key (m m' : gmap bptr buf) x g y b b' (P : buf -> Prop) : changed m m' x g ->
  (forall b, b_dev (g b) = b_dev b /\ b_blkno (g b) = b_blkno b /\ P b) ->
  m !! y = Some b -> m' !! y = Some b' -> b_dev b' = b_dev b /\ b_blkno b' = b_blkno b.
Proof.
  intros H Hg E E'. destruct (H y b E) as (b'' & E'' & Hs). rewrite E' in E''. injection E'' as <-.
  apply same_buf_key in Hs as [-> ->]. case_decide; [|done]. by destruct (Hg b) as (? & ? & _).
Qed.

(** *** Running on the headers *)

Definition setb (w : world) (m : gmap bptr buf) : world := w <| ks ::= fun k => k <| bufs := m |> |>.
Definition setpl (w : world) (n : Z) : world := w <| ks ::= fun k => k <| pl := n |> |>.

Lemma setb_id w : w = setb w (bufs (ks w)).
Proof. by destruct w as [? [] ?]. Qed.

Lemma bget_setb w m bp b : m !! bp = Some b -> bget bp (setb w m) = Ret b (setb w m).
Proof. intros E. by apply bget_ok. Qed.
Lemma bf_setb {A} (f : buf -> A) w m bp b : m !! bp = Some b -> bf bp f (setb w m) = Ret (f b) (setb w m).
Proof. intros E. by apply bf_ok. Qed.
Lemma bfl_setb (f : buf -> option bptr) w m bp x : lk f m bp = Some x ->
  bf bp f (setb w m) = Ret (Some x) (setb w m).
Proof.
  unfold lk. intros E. destruct (m !! bp) as [b|] eqn:Eb; [|done]. cbn in E.
  erewrite bf_setb by done. by rewrite E.
Qed.
Lemma blink_setb (f : buf -> option bptr) w m bp x : lk f m bp = Some x ->
  blink bp f (setb w m) = Ret x (setb w m).
Proof. intros E. unfold blink. by erewrite bind_ret_eq by (by apply bfl_setb). Qed.
Lemma bset_setb {T} (f : buf -> T) {S : Setter f} v w m bp : is_Some (m !! bp) ->
  bset bp f v (setb w m) = Ret tt (setb w (alter (setf f (fun _ => v)) bp m)).
Proof.
  intros [b E]. erewrite bset_ok by exact E. f_equal. unfold setb.
  replace (alter (setf f (fun _ => v)) bp m) with (<[bp := setf f (fun _ => v) b]> m); [done|].
  apply map_eq. intros x. destruct (decide (x = bp)) as [->|].
  - by rewrite lookup_insert_eq, lookup_alter_eq, E.
  - by rewrite lookup_insert_ne, lookup_alter_ne by done.
Qed.

Definition or_flags (n : Z) (b : buf) : buf := b <| b_flags := Z.lor (b_flags b) n |>.
Definition clr_flags (n : Z) (b : buf) : buf := b <| b_flags := clr (b_flags b) n |>.

Lemma alter_cong {A} (g1 g2 : A -> A) (m : gmap bptr A) x b : m !! x = Some b -> g1 b = g2 b ->
  alter g1 x m = alter g2 x m.
Proof.
  intros E H. apply map_eq. intros y. destruct (decide (y = x)) as [->|].
  - by rewrite !lookup_alter_eq, E; cbn; rewrite H.
  - by rewrite !lookup_alter_ne by done.
Qed.

Lemma bor_setb w m bp n : is_Some (m !! bp) -> bor bp n (setb w m) = Ret tt (setb w (alter (or_flags n) bp m)).
Proof.
  intros [b E]. unfold bor. erewrite bind_ret_eq by (by apply bf_setb). cbn beta.
  rewrite bset_setb by (by eexists). do 2 f_equal. by eapply alter_cong.
Qed.
Lemma bclr_setb w m bp n : is_Some (m !! bp) -> bclr bp n (setb w m) = Ret tt (setb w (alter (clr_flags n) bp m)).
Proof.
  intros [b E]. unfold bclr. erewrite bind_ret_eq by (by apply bf_setb). cbn beta.
  rewrite bset_setb by (by eexists). do 2 f_equal. by eapply alter_cong.
Qed.
Lemma bhas_setb w m bp b n : m !! bp = Some b -> bhas bp n (setb w m) = Ret (b_flags b &? n) (setb w m).
Proof. intros E. unfold bhas. by erewrite bind_ret_eq by (by apply bf_setb). Qed.
Lemma spl_setb n w m : spl n (setb w m) = Ret (pl (ks w)) (setb (setpl w n) m).
Proof. by destruct w as [? [] ?]. Qed.
Lemma splx_setb n w m : splx n (setb w m) = Ret tt (setb (setpl w n) m).
Proof. by destruct w as [? [] ?]. Qed.

(** *** The links after an assignment *)

Lemma alter_Some {A} (g : A -> A) (m : gmap bptr A) a x : is_Some (m !! x) -> is_Some (alter g a m !! x).
Proof. intros [b E]. destruct (decide (x = a)) as [->|]; [rewrite lookup_alter_eq, E|rewrite lookup_alter_ne by done]; by eexists. Qed.

Lemma lk_alter f g m a : (forall b, f (g b) = f b) -> forall x, lk f (alter g a m) x = lk f m x.
Proof.
  intros H x. unfold lk. destruct (decide (x = a)) as [->|]; [|by rewrite lookup_alter_ne].
  rewrite lookup_alter_eq. destruct (m !! a); [apply H|done].
Qed.
Lemma lk_set f {S : Setter f} m a v : is_Some (m !! a) -> (forall b, f (setf f (fun _ => v) b) = v) ->
  forall x, lk f (alter (setf f (fun _ => v)) a m) x = upd (lk f m) a v x.
Proof.
  intros [b E] H x. unfold lk, upd. destruct (decide (x = a)) as [->|]; [|by rewrite lookup_alter_ne].
  rewrite lookup_alter_eq, E. apply H.
Qed.

(** *** What changes *)

Lemma changed_refl m x : changed m m x (fun b => b).
Proof. intros y b E. exists b. split; [done|]. case_decide; apply same_buf_refl. Qed.

Lemma changed_alter m m' x g f : changed m m' x g -> (forall b b', same_buf b b' -> same_buf (f b) (f b')) ->
  changed m (alter f x m') x (fun b => f (g b)).
Proof.
  intros H Hf y b E. destruct (H y b E) as (b' & E' & Hs). destruct (decide (y = x)) as [->|Hne].
  - exists (f b'). rewrite lookup_alter_eq, E'. split; [done|]. by apply Hf.
  - exists b'. by rewrite lookup_alter_ne.
Qed.

Lemma changed_link m m' x g f a : changed m m' x g -> (forall b, same_buf b (f b)) ->
  changed m (alter f a m') x g.
Proof.
  intros H Hf y b E. destruct (H y b E) as (b' & E' & Hs). destruct (decide (y = a)) as [->|Hne].
  - exists (f b'). rewrite lookup_alter_eq, E'. split; [done|].
    eapply same_buf_trans; [exact Hs|apply Hf].
  - exists b'. by rewrite lookup_alter_ne.
Qed.

Lemma changed_trans m1 m2 m3 x g1 g2 : changed m1 m2 x g1 -> changed m2 m3 x g2 ->
  (forall b b', same_buf b b' -> same_buf (g2 b) (g2 b')) -> changed m1 m3 x (fun b => g2 (g1 b)).
Proof.
  intros H1 H2 Hg y b E. destruct (H1 y b E) as (b1 & E1 & S1). destruct (H2 y b1 E1) as (b2 & E2 & S2).
  exists b2. split; [done|]. eapply same_buf_trans; [|exact S2]. case_decide; [by apply Hg|done].
Qed.

Lemma changed_eq m m' x g g' : changed m m' x g -> (forall b, g b = g' b) -> changed m m' x g'.
Proof.
  intros H E y b Eb. destruct (H y b Eb) as (b' & E' & Hs). exists b'. by rewrite <- E.
Qed.

Lemma changed_Some m m' x g y : changed m m' x g -> is_Some (m !! y) -> is_Some (m' !! y).
Proof. intros H [b E]. destruct (H y b E) as (b' & E' & _). by exists b'. Qed.

Lemma ring_member fw bk h l1 x l2 : ring fw bk h (l1 ++ x :: l2) ->
  exists p n, bk x = Some p /\ fw x = Some n /\ fw p = Some x /\ bk n = Some x /\ p <> x /\ n <> x /\
    p ∈ h :: l1 /\ n ∈ l2 ++ [h].
Proof.
  intros [H Hnd]. apply seg_app in H as [H1 H2].
  exists (default h (last l1)), (default h (head l2)).
  assert (Hxh : x <> h).
  { intros ->. apply NoDup_cons in Hnd as [Hh _]. apply Hh, elem_of_app. right. left. }
  apply NoDup_cons in Hnd as [_ Hnd]. apply NoDup_app in Hnd as (_ & Hd & [Hx _]%NoDup_cons).
  assert (E : bk x = Some (default h (last l1))).
  { clear -H1. revert H1. generalize h. induction l1 as [|a l1 IH]; intros g H1; cbn in *; [by destruct H1|].
    destruct H1 as (_ & _ & H1). rewrite last_cons. specialize (IH _ H1). by destruct (last l1). }
  split; [exact E|]. split; [by destruct l2; destruct H2|].
  split; [by apply (seg_last _ _ _ _ _ H1)|]. split; [by apply (seg_head _ _ _ _ _ H2)|]. split.
  - destruct (last l1) as [z|] eqn:El; [|done]. cbn. intros ->. apply (Hd x); [|left].
    apply last_Some in El as [l0 ->]. apply elem_of_app. right. left.
  - split; [|split].
    + destruct l2 as [|z l2]; [done|]. cbn. intros ->. apply Hx. left.
    + destruct (last l1) as [z|] eqn:El; [|left]. right.
      apply last_Some in El as [l0 ->]. apply elem_of_app. right. left.
    + destruct l2; [cbn; left|left].
Qed.

Lemma ring_head fw bk h l : ring fw bk h l ->
  exists q, fw h = Some q /\ bk q = Some h /\ q = default h (head l) /\ q ∈ h :: l.
Proof.
  intros [H _]. destruct l as [|a l]; cbn in H; [exists h|exists a]; cbn.
  - destruct H. repeat split; try done. left.
  - destruct H as (? & ? & _). repeat split; try done. right. left.
Qed.

Lemma ring_fun fw bk fw' bk' h l : (forall x, fw' x = fw x) -> (forall x, bk' x = bk x) ->
  ring fw bk h l -> ring fw' bk' h l.
Proof. intros Hf Hb H. eapply ring_ext; [exact H|]. intros a _. by rewrite Hf, Hb. Qed.

Section BioSteps.
Context {MC : Machine}.

Lemma notavail_ok w m x av1 av2 :
  ring (lk av_forw m) (lk av_back m) Bfree (av1 ++ x :: av2) ->
  exists m', notavail x (setb w m) = Ret tt (setb w m') /\
    ring (lk av_forw m') (lk av_back m') Bfree (av1 ++ av2) /\
    (forall y, lk b_forw m' y = lk b_forw m y /\ lk b_back m' y = lk b_back m y) /\
    changed m m' x (or_flags B_BUSY).
Proof.
  intros H. destruct (ring_member _ _ _ _ _ _ H) as (p & n & Hp & Hn & Hpx & Hnx & Npx & Nnx & Ip & In_).
  assert (Sx : is_Some (m !! x)) by (by eapply lk_is_Some).
  set (m1 := alter (setf av_forw (fun _ => Some n)) p m).
  set (m2 := alter (setf av_back (fun _ => Some p)) n m1).
  set (m3 := alter (or_flags B_BUSY) x m2).
  assert (Sp : is_Some (m !! p)) by (by eapply lk_is_Some).
  assert (Sn : is_Some (m1 !! n)) by (apply alter_Some; by eapply lk_is_Some).
  assert (Hx1 : lk av_forw m1 x = Some n).
  { unfold m1. rewrite lk_set by done. unfold upd. by rewrite decide_False. }
  assert (Hb1 : lk av_back m1 x = Some p) by (unfold m1; by rewrite lk_alter).
  exists m3. split.
  { unfold notavail, spl6. erewrite bind_ret_eq by apply spl_setb. cbn beta.
    erewrite bind_ret_eq by (by apply blink_setb). cbn beta.
    erewrite bind_ret_eq by (by apply bfl_setb). cbn beta.
    erewrite bind_ret_eq by (by apply bset_setb). cbn beta. fold m1.
    erewrite bind_ret_eq by (by apply blink_setb). cbn beta.
    erewrite bind_ret_eq by (by apply bfl_setb). cbn beta.
    erewrite bind_ret_eq by (by apply bset_setb). cbn beta. fold m2.
    erewrite bind_ret_eq by (apply bor_setb; by do 2 apply alter_Some). cbn beta. fold m3.
    rewrite splx_setb. by destruct w as [? [] ?]. }
  split; [|split].
  - eapply ring_fun; [..|exact (ring_remove _ _ _ _ _ _ _ _ H Hp Hn)]; intros y.
    + unfold m3, m2. rewrite !lk_alter by done. unfold m1. by rewrite lk_set.
    + unfold m3. rewrite lk_alter by done. unfold m2. rewrite lk_set by done.
      unfold upd. case_decide; [done|]. unfold m1. by rewrite lk_alter.
  - intros y. unfold m3, m2, m1. by rewrite !lk_alter by done.
  - apply changed_alter with (g := fun b => b).
    + do 2 (eapply changed_link; [|by intros []]). apply changed_refl.
    + unfold same_buf. intros b b' ->. by destruct b.
Qed.

(** Moving a buffer to the front of the list of [dp]. *)
Lemma reassign_ok w m x dp h l1 l2 l :
  ring (lk b_forw m) (lk b_back m) h (l1 ++ x :: l2) -> dp <> x ->
  (h = dp /\ l = l1 ++ l2 \/ ring (lk b_forw m) (lk b_back m) dp l /\ (x ∉ l) /\
     (forall y, y ∈ h :: l1 ++ x :: l2 -> y ∉ dp :: l)) ->
  exists m', reassign x dp (setb w m) = Ret tt (setb w m') /\
    ring (lk b_forw m') (lk b_back m') dp (x :: l) /\
    (h <> dp -> ring (lk b_forw m') (lk b_back m') h (l1 ++ l2)) /\
    (forall g l', ring (lk b_forw m) (lk b_back m) g l' ->
       (forall y, y ∈ g :: l' -> (y ∉ h :: l1 ++ x :: l2) /\ (y ∉ dp :: l)) ->
       ring (lk b_forw m') (lk b_back m') g l') /\
    (forall y, lk av_forw m' y = lk av_forw m y /\ lk av_back m' y = lk av_back m y) /\
    changed m m' x (fun b => (b <| b_flags := B_BUSY |>)).
Proof.
  intros H Hdp Hl. destruct (ring_member _ _ _ _ _ _ H) as (p & n & Hp & Hn & Hpx & Hnx & Npx & Nnx & Ip & In_).
  assert (Sx : is_Some (m !! x)) by (by eapply lk_is_Some).
  set (m1 := alter (setf b_flags (fun _ => B_BUSY)) x m).
  set (m2 := alter (setf b_forw (fun _ => Some n)) p m1).
  set (m3 := alter (setf b_back (fun _ => Some p)) n m2).
  assert (Sp : is_Some (m1 !! p)) by (apply alter_Some; by eapply lk_is_Some).
  assert (Sn : is_Some (m2 !! n)) by (do 2 apply alter_Some; by eapply lk_is_Some).
  assert (F3 : forall y, lk b_forw m3 y = upd (lk b_forw m) p (Some n) y).
  { intros y. unfold m3. rewrite lk_alter by done. unfold m2. rewrite lk_set by done. unfold upd.
    case_decide; [done|]. unfold m1. by rewrite lk_alter. }
  assert (B3 : forall y, lk b_back m3 y = upd (lk b_back m) n (Some p) y).
  { intros y. unfold m3. rewrite lk_set by done. unfold upd.
    case_decide; [done|]. unfold m2, m1. by rewrite !lk_alter. }
  assert (Hrem : ring (lk b_forw m3) (lk b_back m3) h (l1 ++ l2)).
  { eapply ring_fun; [exact F3|exact B3|]. exact (ring_remove _ _ _ _ _ _ _ _ H Hp Hn). }
  assert (Hpi : p ∈ h :: l1 ++ x :: l2).
  { apply elem_of_cons in Ip as [->|Ip]; [left|right]. apply elem_of_app. by left. }
  assert (Hni : n ∈ h :: l1 ++ x :: l2).
  { apply elem_of_app in In_ as [In_|In_%list_elem_of_singleton]; [|subst; left].
    right. apply elem_of_app. right. by right. }
  assert (Hxh : x ∉ h :: l1 ++ l2).
  { destruct H as [_ Hnd]. rewrite <- Permutation_middle in Hnd. apply NoDup_cons in Hnd as [Hh Hnd].
    apply NoDup_cons in Hnd as [Hx _]. intros [->|Hin]%elem_of_cons; [apply Hh; left|done]. }
  assert (Hxl : x ∉ dp :: l).
  { intros [->|Hin]%elem_of_cons; [done|]. destruct Hl as [[_ ->]|(_ & Hxl & _)]; [|done].
    apply Hxh. by right. }
  assert (Hd3 : ring (lk b_forw m3) (lk b_back m3) dp l).
  { destruct Hl as [[<- ->]|(Hr & _ & Hdis)]; [done|].
    eapply ring_ext; [exact Hr|]. intros y Hy. rewrite F3, B3. unfold upd.
    rewrite !decide_False; [done|..]; intros ->; [by apply (Hdis n)|by apply (Hdis p)]. }
  destruct (ring_head _ _ _ _ Hd3) as (q & Hq & Hqb & _ & Hql).
  set (m4 := alter (setf b_forw (fun _ => Some q)) x m3).
  set (m5 := alter (setf b_back (fun _ => Some dp)) x m4).
  set (m6 := alter (setf b_back (fun _ => Some x)) q m5).
  set (m7 := alter (setf b_forw (fun _ => Some x)) dp m6).
  assert (Sx3 : is_Some (m3 !! x)) by (by do 3 apply alter_Some).
  assert (Sx4 : is_Some (m4 !! x)) by (by apply alter_Some).
  assert (Sq5 : is_Some (m5 !! q)) by (do 2 apply alter_Some; by eapply lk_is_Some).
  assert (Sd6 : is_Some (m6 !! dp)) by (do 3 apply alter_Some; by eapply lk_is_Some).
  assert (F5 : forall y, lk b_forw m5 y = upd (lk b_forw m3) x (Some q) y).
  { intros y. unfold m5. rewrite lk_alter by done. unfold m4. by rewrite lk_set. }
  assert (Hq5 : lk b_forw m5 dp = Some q) by (rewrite F5; unfold upd; by rewrite decide_False).
  assert (F7 : forall y, lk b_forw m7 y = upd (upd (lk b_forw m3) x (Some q)) dp (Some x) y).
  { intros y. unfold m7. rewrite lk_set by done. unfold upd at 1 2. case_decide; [done|].
    unfold m6. rewrite lk_alter by done. apply F5. }
  assert (B7 : forall y, lk b_back m7 y = upd (upd (lk b_back m3) x (Some dp)) q (Some x) y).
  { intros y. unfold m7. rewrite lk_alter by done. unfold m6. rewrite lk_set by done.
    unfold upd at 1 2. case_decide; [done|]. unfold m5. rewrite lk_set by done.
    unfold upd. case_decide; [done|]. unfold m4. by rewrite lk_alter. }
  assert (Hother : forall g l', ring (lk b_forw m3) (lk b_back m3) g l' ->
    (forall y, y ∈ g :: l' -> y <> x /\ y ∉ dp :: l) -> ring (lk b_forw m7) (lk b_back m7) g l').
  { intros g l' Hr Hd. eapply ring_ext; [exact Hr|]. intros y Hy. destruct (Hd y Hy) as [Hyx Hyd].
    rewrite F7, B7. unfold upd. rewrite !decide_False; try done; intros ->; [done|apply Hyd; left]. }
  exists m7. split.
  { unfold reassign.
    erewrite bind_ret_eq by (by apply bset_setb). cbn beta. fold m1.
    erewrite bind_ret_eq by (apply blink_setb; unfold m1; by rewrite lk_alter). cbn beta.
    erewrite bind_ret_eq by (apply bfl_setb; unfold m1; by rewrite lk_alter). cbn beta.
    erewrite bind_ret_eq by (by apply bset_setb). cbn beta. fold m2.
    assert (Hx2 : lk b_forw m2 x = Some n).
    { unfold m2. rewrite lk_set by done. unfold upd. rewrite decide_False by done.
      unfold m1. by rewrite lk_alter. }
    erewrite bind_ret_eq by (by apply blink_setb). cbn beta.
    erewrite bind_ret_eq by (apply bfl_setb; unfold m2, m1; by rewrite !lk_alter). cbn beta.
    erewrite bind_ret_eq by (by apply bset_setb). cbn beta. fold m3.
    erewrite bind_ret_eq by (by apply bfl_setb). cbn beta.
    erewrite bind_ret_eq by (by apply bset_setb). cbn beta. fold m4.
    erewrite bind_ret_eq by (by apply bset_setb). cbn beta. fold m5.
    erewrite bind_ret_eq by (by apply blink_setb). cbn beta.
    erewrite bind_ret_eq by (by apply bset_setb). cbn beta. fold m6.
    by rewrite bset_setb. }
  split; [eapply ring_fun; [exact F7|exact B7|]; by apply ring_front|].
  split.
  { intros Hne. destruct Hl as [[? _]|(Hr & _ & Hdis)]; [done|].
    apply Hother; [exact Hrem|]. intros y Hy. split; [by intros ->|]. apply Hdis.
    apply elem_of_cons in Hy as [->|Hy]; [left|right]. apply elem_of_app.
    apply elem_of_app in Hy as [?|?]; [by left|right; by right]. }
  split.
  { intros g l' Hr Hd. apply Hother.
    - eapply ring_ext; [exact Hr|]. intros y Hy. destruct (Hd y Hy) as [Hyh _].
      rewrite F3, B3. unfold upd. rewrite !decide_False; [done|..]; by intros ->.
    - intros y Hy. destruct (Hd y Hy) as [Hyh Hyd]. split; [|done]. intros ->. apply Hyh. right.
      apply elem_of_app. right. left. }
  split.
  { intros y. unfold m7, m6, m5, m4, m3, m2, m1. by rewrite !lk_alter by done. }
  do 6 (eapply changed_link; [|by intros []]).
  apply (changed_alter m m x (fun b => b)); [apply changed_refl|].
  unfold same_buf. intros b b' ->. by destruct b.
Qed.
(** *** Finding a block *)

Definition has_block (m : gmap bptr buf) (dev blkno : Z) (x : bptr) : Prop :=
  exists b, m !! x = Some b /\ b_blkno b = blkno /\ b_dev b = dev.

Lemma length_members (m : gmap bptr buf) l : NoDup l -> (forall x, x ∈ l -> is_Some (m !! x)) ->
  (length l <= size m)%nat.
Proof.
  intros Hn Hm. rewrite <- size_dom, <- (size_list_to_set (C := gset bptr)) by done.
  apply subseteq_size. intros x Hx. apply elem_of_list_to_set in Hx.
  apply elem_of_dom. by apply Hm.
Qed.

Lemma find_block_loop w m dp dev blkno l : forall n x0 x, (length l < n)%nat ->
  seg (lk b_forw m) (lk b_back m) x0 l dp -> dp ∉ l -> lk b_forw m x0 = Some x ->
  exists o, loop n (fun bp =>
      if decide (bp = dp) then ret (inr None)
      else
        b <- bget bp ;;
        if (b_blkno b =? blkno) && (b_dev b =? dev) then ret (inr (Some bp))
        else nx <- the (b_forw b) ;; ret (inl nx)) x (setb w m) = Ret o (setb w m) /\
    match o with
    | Some y => y ∈ l /\ has_block m dev blkno y
    | None => forall y, y ∈ l -> ~ has_block m dev blkno y
    end.
Proof.
  induction l as [|z l IH]; intros n x0 x Hn H Hdp Hx; (destruct n as [|n]; [cbn in Hn; lia|]); cbn in H.
  - destruct H as [H _]. rewrite Hx in H. injection H as ->. exists None. split.
    + apply loop_done. by rewrite decide_True.
    + by intros y ?%elem_of_nil.
  - destruct H as (H1 & H2 & H3). rewrite Hx in H1. injection H1 as ->.
    apply not_elem_of_cons in Hdp as [Hzd Hdp].
    destruct (lk_is_Some _ _ _ _ H2) as [b Hb].
    assert (exists n', lk b_forw m z = Some n') as [n' Hn'].
    { destruct l as [|a l]; cbn in H3; destruct H3 as [H3 _]; by eexists. }
    assert (Hfw : b_forw b = Some n') by (unfold lk in Hn'; by rewrite Hb in Hn').
    destruct ((b_blkno b =? blkno) && (b_dev b =? dev)) eqn:E.
    + exists (Some z). split.
      * apply loop_done. rewrite decide_False by congruence.
        erewrite bind_ret_eq by (by apply bget_setb). cbn beta. by rewrite E.
      * split; [left|]. exists b. apply andb_prop in E as [E1%Z.eqb_eq E2%Z.eqb_eq]. done.
    + destruct (IH n z n') as (o & Eo & Ho); [cbn in Hn; lia|done|done|done|].
      exists o. split.
      * erewrite loop_next; [exact Eo|]. rewrite decide_False by congruence.
        erewrite bind_ret_eq by (by apply bget_setb). cbn beta. by rewrite E, Hfw.
      * destruct o as [y|].
        -- destruct Ho as [Hy Hb']. split; [by right|done].
        -- intros y [->|Hy]%elem_of_cons; [|by apply Ho].
           intros (b' & Hb' & E1 & E2). rewrite Hb in Hb'. injection Hb' as <-.
           by rewrite E1, E2, !Z.eqb_refl in E.
Qed.

Lemma ring_Some f1 f2 m h l x : ring (lk f1 m) (lk f2 m) h l -> x ∈ h :: l -> is_Some (m !! x).
Proof.
  intros [H Hn] Hx. apply elem_of_cons in Hx as [->|Hx].
  - destruct l; cbn in H; destruct H as [H _]; by eapply lk_is_Some.
  - apply list_elem_of_split in Hx as (l1 & l2 & ->). apply seg_app in H as [_ H].
    destruct l2; cbn in H; destruct H as [H _]; by eapply lk_is_Some.
Qed.

Lemma find_block_ok w m hs H av dp dev blkno : cache m hs H av -> dp ∈ hs ->
  exists o, find_block dp dev blkno (setb w m) = Ret o (setb w m) /\
    match o with
    | Some y => y ∈ H dp /\ has_block m dev blkno y
    | None => forall y, y ∈ H dp -> ~ has_block m dev blkno y
    end.
Proof.
  intros Hc Hdp. pose proof (ca_hash _ _ _ _ Hc dp Hdp) as Hr.
  destruct (ring_head _ _ _ _ Hr) as (q & Hq & _ & _ & _).
  unfold find_block. erewrite bind_ret_eq by (by apply blink_setb). cbn beta.
  erewrite bind_ret_eq by reflexivity. cbn beta.
  destruct (Hr) as [Hs Hn]. apply NoDup_cons in Hn as [Hnd Hn].
  eapply find_block_loop; [|exact Hs|done|done].
  assert (length (H dp) <= size m)%nat; [|cbn; lia].
  apply length_members; [done|]. intros x Hx. eapply ring_Some; [exact Hr|]. by right.
Qed.


(** *** The place of a buffer in the available list *)

Lemma av_distance_loop w m l : forall n x0 x k, (length l < n)%nat ->
  seg (lk av_forw m) (lk av_back m) x0 l Bfree -> Bfree ∉ l -> lk av_forw m x0 = Some x ->
  loop n (fun x : bptr * nat =>
    let '(d, i) := x in
    if decide (d = Bfree) then ret (inr i)
    else nx <- blink d av_forw ;; ret (inl (nx, S i))) (x, k) (setb w m)
  = Ret (k + length l)%nat (setb w m).
Proof.
  induction l as [|z l IH]; intros n x0 x k Hn H Hb Hx; (destruct n as [|n]; [cbn in Hn; lia|]); cbn in H.
  - destruct H as [H _]. rewrite Hx in H. injection H as ->. rewrite Nat.add_0_r.
    by apply loop_done.
  - destruct H as (H1 & _ & H3). rewrite Hx in H1. injection H1 as ->.
    apply not_elem_of_cons in Hb as [Hzb Hb].
    assert (exists n', lk av_forw m z = Some n') as [n' Hn'].
    { destruct l as [|a l]; cbn in H3; destruct H3 as [H3 _]; by eexists. }
    erewrite loop_next.
    + rewrite (IH n z n' (S k)); [f_equal; cbn; lia|cbn in Hn; lia|done|done|done].
    + cbn beta iota. rewrite decide_False by congruence.
      by erewrite bind_ret_eq by (by apply blink_setb).
Qed.

Lemma av_distance_ok w m av1 x av2 : ring (lk av_forw m) (lk av_back m) Bfree (av1 ++ x :: av2) ->
  av_distance x (setb w m) = Ret (length av2) (setb w m).
Proof.
  intros Hr. destruct (Hr) as [Hs Hn]. apply seg_app in Hs as [_ Hs].
  assert (exists n', lk av_forw m x = Some n') as [n' Hn'].
  { destruct av2; cbn in Hs; destruct Hs as [Hs _]; by eexists. }
  apply NoDup_cons in Hn as [Hb Hn]. apply NoDup_app in Hn as (_ & _ & [_ Hn]%NoDup_cons).
  unfold av_distance. erewrite bind_ret_eq by (by apply blink_setb). cbn beta.
  erewrite bind_ret_eq by reflexivity. cbn beta.
  change (length av2) with (0 + length av2)%nat.
  eapply av_distance_loop; [|exact Hs| |done].
  - assert (length av2 <= size m)%nat; [|cbn; lia].
    apply length_members; [done|]. intros y Hy. eapply ring_Some; [exact Hr|].
    right. apply elem_of_app. right. by right.
  - intros Hin. apply Hb, elem_of_app. right. by right.
Qed.

End BioSteps.

(** ** The theorems *)

(** [io_info.bufcount[i]++] for a hit [i] places from the end of the list. *)
Definition counted (i : nat) (w : world) : world :=
  if Nat.ltb i NBUF then
    w <| ks ::= fun k => k <| io_info ::= fun s => s <| bufcount ::= fun l => <[i := nth i l 0 + 1]> l |> |> |>
  else w.

(** The device's queue head is [dp]. *)
Definition on_dev {MC : Machine} (dev : Z) (dp : bptr) : Prop :=
  major dev < nblkdev /\ exists sw, bdevsw !! Z.to_nat (major dev) = Some sw /\ d_tab sw = Some dp.

Section CacheTheorems.
Context {MC : Machine}.

Lemma bdevsw_at_ok dev sw w : bdevsw !! Z.to_nat (major dev) = Some sw -> bdevsw_at dev w = Ret sw w.
Proof. intros E. unfold bdevsw_at. by rewrite E. Qed.

(** A first round that returns is all there is to [getblk]. *)
Lemma getblk_once dev blkno x w w' : major dev < nblkdev ->
  getblk_round dev blkno w = Ret (inr x) w' -> getblk dev blkno w = Ret x w'.
Proof.
  intros Hmaj E. unfold getblk. rewrite (proj2 (Z.leb_gt _ _)) by done.
  erewrite bind_ret_eq by reflexivity. cbn beta.
  erewrite bind_ret_eq by reflexivity. cbn beta.
  change (S (length (env w)) * S (S (size (bufs (ks w)))))%nat
    with (S (S (size (bufs (ks w))) + length (env w) * S (S (size (bufs (ks w)))))).
  by apply loop_done.
Qed.

Lemma getblk_round_ok w m hs H av dev blkno dp : cache m hs H av -> on_dev dev dp -> dp ∈ hs ->
  exists o, getblk_round dev blkno (setb w m) =
    match o with Some bp => getblk_hit bp | None => getblk_miss dp dev blkno end (setb (setpl w 0) m) /\
    match o with
    | Some y => y ∈ H dp /\ has_block m dev blkno y
    | None => forall y, y ∈ H dp -> ~ has_block m dev blkno y
    end.
Proof.
  intros Hc (Hmaj & sw & Esw & Edp) Hdp.
  destruct (find_block_ok (setpl w 0) m hs H av dp dev blkno Hc Hdp) as (o & Eo & Ho).
  exists o. split; [|exact Ho]. unfold getblk_round.
  erewrite bind_ret_eq by reflexivity. cbn beta.
  erewrite bind_ret_eq by (by apply bdevsw_at_ok). rewrite Edp.
  by erewrite bind_ret_eq by exact Eo.
Qed.


Lemma notavail_cache m m' hs H av x g : cache m hs H av -> x ∈ av ->
  ring (lk av_forw m') (lk av_back m') Bfree (without x av) ->
  (forall y, lk b_forw m' y = lk b_forw m y /\ lk b_back m' y = lk b_back m y) ->
  changed m m' x g ->
  (forall b, b_dev (g b) = b_dev b /\ b_blkno (g b) = b_blkno b /\ b_flags (g b) &? B_BUSY = true) ->
  cache m' hs H (without x av).
Proof.
  intros Hc Hx Hav Hlk Hch Hg. split.
  - done.
  - intros h Hh. eapply ring_fun; [..|by apply (ca_hash _ _ _ _ Hc)]; apply Hlk.
  - apply (ca_disj _ _ _ _ Hc).
  - apply (ca_head _ _ _ _ Hc).
  - intros y [Hy _]%elem_of_without. by apply (ca_sub _ _ _ _ Hc).
  - intros h y b' Hh Hy Eb'. rewrite elem_of_without.
    destruct (ring_Some _ _ _ _ _ y (ca_hash _ _ _ _ Hc h Hh)) as [b Eb]; [by right|].
    destruct (Hch y b Eb) as (b'' & E'' & Hs). rewrite Eb' in E''. injection E'' as <-.
    rewrite (same_buf_flags _ _ Hs). destruct (decide (y = x)) as [->|Hne].
    + destruct (Hg b) as (_ & _ & ->). split; [by intros [_ ?]|done].
    + rewrite <- (ca_busy _ _ _ _ Hc h y b) by done. split; [by intros []|done].
  - intros h y z by' bz' Hh Hhf Hy Hz Ey' Ez'.
    destruct (ring_Some _ _ _ _ _ y (ca_hash _ _ _ _ Hc h Hh)) as [by_ Ey]; [by right|].
    destruct (ring_Some _ _ _ _ _ z (ca_hash _ _ _ _ Hc h Hh)) as [bz Ez]; [by right|].
    destruct (changed_key _ _ _ _ _ _ _ _ Hch Hg Ey Ey') as [-> ->].
    destruct (changed_key _ _ _ _ _ _ _ _ Hch Hg Ez Ez') as [-> ->].
    by apply (ca_key _ _ _ _ Hc h).
Qed.

Lemma getblk_hit_ok w m hs H av x b : cache m hs H av -> x ∈ av -> m !! x = Some b ->
  b_flags b &? B_BUSY = false ->
  exists av1 av2 m', av = av1 ++ x :: av2 /\
    getblk_hit x (setb (setpl w 0) m) = Ret (inr x) (setb (counted (length av2) (setpl w 0)) m') /\
    cache m' hs H (without x av) /\ changed m m' x (or_flags B_BUSY).
Proof.
  intros Hc Hx Eb Hb. pose proof (ca_av _ _ _ _ Hc) as Hr.
  apply list_elem_of_split in Hx as (av1 & av2 & ->).
  destruct (notavail_ok (counted (length av2) (setpl w 0)) m x av1 av2 Hr) as (m' & E & H1 & H2 & H3).
  assert (Hnd : NoDup (av1 ++ x :: av2)) by (by destruct Hr as [_ [_ ?]%NoDup_cons]).
  exists av1, av2, m'. split; [done|]. split; [|split; [|done]].
  - unfold getblk_hit. erewrite bind_ret_eq by reflexivity. cbn beta.
    erewrite bind_ret_eq by (apply (bhas_setb (setpl w 6)); exact Eb). cbn beta. rewrite Hb.
    erewrite bind_ret_eq by reflexivity. cbn beta.
    erewrite bind_ret_eq by (by apply (av_distance_ok (setpl w 0) m av1 x av2)). cbn beta.
    erewrite bind_ret_eq.
    2: { instantiate (1 := setb (counted (length av2) (setpl w 0)) m). instantiate (1 := tt).
         unfold counted, when. by destruct (Nat.ltb _ _). }
    cbn beta. by erewrite bind_ret_eq by exact E.
  - rewrite without_split by done.
    eapply notavail_cache in H3; [|exact Hc|apply elem_of_app; right; left| |exact H2|].
    + by rewrite without_split in H3.
    + by rewrite without_split.
    + intros c. split; [done|]. split; [done|]. by apply lor_set.
Qed.

Lemma getblk_cached_ok w m hs H av dev blkno dp x b :
  cache m hs H av -> on_dev dev dp -> dp ∈ hs -> dp <> Bfree -> dev <> NODEV ->
  x ∈ H dp -> m !! x = Some b -> b_blkno b = blkno -> b_dev b = dev ->
  b_flags b &? B_BUSY = false ->
  exists av1 av2 m', av = av1 ++ x :: av2 /\
    getblk dev blkno (setb w m) = Ret x (setb (counted (length av2) (setpl w 0)) m') /\
    (forall y, y ∈ H dp -> has_block m dev blkno y -> y = x) /\
    cache m' hs H (av1 ++ av2) /\ changed m m' x (or_flags B_BUSY).
Proof.
  intros Hc Hd Hdp Hdf Hdev Hx Eb Ebn Ebd Hb.
  assert (Hu : forall y, y ∈ H dp -> has_block m dev blkno y -> y = x).
  { intros y Hy (b' & Eb' & E1 & E2). apply (ca_key _ _ _ _ Hc dp y x b' b); congruence. }
  destruct (getblk_round_ok w m hs H av dev blkno dp Hc Hd Hdp) as ([y|] & E & Ho).
  2: { exfalso. apply (Ho x Hx). by exists b. }
  rewrite (Hu y) in E by apply Ho.
  assert (Hxa : x ∈ av) by (by apply (ca_busy _ _ _ _ Hc dp x b)).
  destruct (getblk_hit_ok w m hs H av x b Hc Hxa Eb Hb) as (av1 & av2 & m' & Eav & E' & Hc' & Hch).
  exists av1, av2, m'. split; [done|]. split; [|split; [done|]].
  - apply getblk_once; [apply Hd|]. rewrite E, E'. done.
  - subst av. rewrite without_split in Hc'; [done|].
    by destruct (ca_av _ _ _ _ Hc) as [_ [_ ?]%NoDup_cons].
Qed.

(** C2. A block that is in the cache and not busy: [getblk] returns its
    buffer, the only one that has the block; the buffer is off the list of
    available ones, which keeps its order, and busy; no header differs in
    anything else, and the cache is well formed. *)
Theorem getblk_cached w m hs H av dev blkno dp x b :
  cache m hs H av -> on_dev dev dp -> dp ∈ hs -> dp <> Bfree -> dev <> NODEV ->
  x ∈ H dp -> m !! x = Some b -> b_blkno b = blkno -> b_dev b = dev ->
  b_flags b &? B_BUSY = false ->
  exists av1 av2 m', av = av1 ++ x :: av2 /\
    getblk dev blkno (setb w m) = Ret x (setb (counted (length av2) (setpl w 0)) m') /\
    (forall y, y ∈ H dp -> has_block m dev blkno y -> y = x) /\
    cache m' hs H (av1 ++ av2) /\ changed m m' x (or_flags B_BUSY).
Proof. apply getblk_cached_ok. Qed.

(** The lists when [x] has gone to the front of [dp]'s. *)
Definition moved (x dp : bptr) (H : bptr -> list bptr) (h : bptr) : list bptr :=
  if decide (h = dp) then x :: without x (H h) else without x (H h).

Lemma elem_of_moved x dp H h y :
  y ∈ moved x dp H h <-> (y = x /\ h = dp) \/ (y ∈ H h /\ y <> x).
Proof.
  unfold moved. case_decide as E; rewrite ?elem_of_cons, elem_of_without; tauto.
Qed.

Definition given (dev blkno : Z) (b : buf) : buf :=
  b <| b_flags := B_BUSY |> <| b_dev := dev |> <| b_blkno := blkno |>.

Lemma reassign_rings w m hs H av dp x h : cache m hs H av -> dp ∈ hs -> h ∈ hs -> x ∈ H h ->
  forall m1, (forall y, lk b_forw m1 y = lk b_forw m y /\ lk b_back m1 y = lk b_back m y) ->
  exists m2, reassign x dp (setb w m1) = Ret tt (setb w m2) /\
    (forall g, g ∈ hs -> ring (lk b_forw m2) (lk b_back m2) g (moved x dp H g)) /\
    (forall y, lk av_forw m2 y = lk av_forw m1 y /\ lk av_back m2 y = lk av_back m1 y) /\
    changed m1 m2 x (fun b => (b <| b_flags := B_BUSY |>)).
Proof.
  intros Hc Hdp Hh Hx m1 Hlk.
  assert (Hr1 : forall g, g ∈ hs -> ring (lk b_forw m1) (lk b_back m1) g (H g)).
  { intros g Hg. eapply ring_fun; [..|by apply (ca_hash _ _ _ _ Hc)]; apply Hlk. }
  assert (Hsep : forall g g', g ∈ hs -> g' ∈ hs -> g <> g' -> forall y, y ∈ g :: H g -> y ∉ g' :: H g').
  { intros g g' Hg Hg' Hne y Hy. rewrite not_elem_of_cons.
    apply elem_of_cons in Hy as [->|Hy]; (split; [|intros Hy']).
    - done.
    - apply (ca_head _ _ _ _ Hc g' g Hg' Hy'). by right.
    - intros ->. apply (ca_head _ _ _ _ Hc g g' Hg Hy). by right.
    - apply Hne. by apply (ca_disj _ _ _ _ Hc g g' y). }
  assert (Hxd : dp <> x).
  { intros ->. apply (ca_head _ _ _ _ Hc h x Hh Hx). by right. }
  pose proof Hx as Hx'. apply list_elem_of_split in Hx' as (l1 & l2 & El).
  assert (Ew : without x (H h) = l1 ++ l2).
  { rewrite El. apply without_split. rewrite <- El.
    by destruct (Hr1 h Hh) as [_ [_ ?]%NoDup_cons]. }
  assert (Hout : forall g, g ∈ hs -> g <> h -> x ∉ H g).
  { intros g Hg Hne Hin. apply Hne. by apply (ca_disj _ _ _ _ Hc g h x). }
  pose proof (Hr1 h Hh) as Hrh. rewrite El in Hrh.
  destruct (reassign_ok w m1 x dp h l1 l2 (without x (H dp)) Hrh Hxd) as (m2 & E & R1 & R2 & R3 & Hav & Hch).
  { destruct (decide (h = dp)) as [<-|Hne]; [by left|right].
    rewrite without_not by (by apply Hout). rewrite <- El.
    split; [by apply Hr1|]. split; [by apply Hout|]. by apply Hsep. }
  exists m2. split; [done|]. split; [|done].
  intros g Hg. unfold moved. case_decide as Egd; [by subst g|].
  destruct (decide (g = h)) as [->|Hgh].
  - rewrite Ew. by apply R2.
  - rewrite without_not by (by apply Hout). apply R3; [by apply Hr1|]. intros y Hy.
    rewrite <- El. split; [by apply (Hsep g h)|].
    intros Hin. apply (Hsep g dp Hg Hdp Egd y Hy).
    apply elem_of_cons in Hin as [->|Hin]; [left|right]. by apply elem_of_without in Hin as [? _].
Qed.

Lemma given_cache m m' hs H av x dp dev blkno b : cache m hs H (x :: av) -> dp ∈ hs ->
  (dp = Bfree \/ forall y, y ∈ H dp -> ~ has_block m dev blkno y) -> m !! x = Some b ->
  (forall g, g ∈ hs -> ring (lk b_forw m') (lk b_back m') g (moved x dp H g)) ->
  ring (lk av_forw m') (lk av_back m') Bfree av ->
  changed m m' x (given dev blkno) -> cache m' hs (moved x dp H) av.
Proof.
  intros Hc Hdp Hnb Eb Hr Hav Hch.
  destruct (ca_sub _ _ _ _ Hc x) as (hx & Hhx & Hxx); [left|].
  assert (Hxav : x ∉ av).
  { by destruct (ca_av _ _ _ _ Hc) as [_ [_ [? _]%NoDup_cons]%NoDup_cons]. }
  assert (Hold : forall y b, m' !! y = Some b -> y <> x -> is_Some (m !! y) ->
    exists b0, m !! y = Some b0 /\ same_buf b0 b).
  { intros y b' E' Hne [b0 E0]. destruct (Hch y b0 E0) as (b'' & E'' & Hs).
    rewrite decide_False in Hs by done. rewrite E' in E''. injection E'' as <-. by exists b0. }
  assert (Hnew : forall b', m' !! x = Some b' ->
    b_flags b' = B_BUSY /\ b_dev b' = dev /\ b_blkno b' = blkno).
  { intros b' E'. destruct (Hch x b Eb) as (b'' & E'' & Hs). rewrite decide_True in Hs by done.
    rewrite E' in E''. injection E'' as <-. rewrite (same_buf_flags _ _ Hs).
    apply same_buf_key in Hs as [-> ->]. done. }
  assert (Hmem : forall g y, g ∈ hs -> y ∈ H g -> is_Some (m !! y)).
  { intros g y Hg Hy. eapply ring_Some; [by apply (ca_hash _ _ _ _ Hc)|by right]. }
  split.
  - done.
  - exact Hr.
  - intros h h' y Hh Hh'. rewrite !elem_of_moved. intros [[-> ->]|[Hy Hyx]] [[? ->]|[Hy' Hyx']]; try done.
    by apply (ca_disj _ _ _ _ Hc h h' y).
  - intros h y Hh. rewrite elem_of_moved. intros [[-> _]|[Hy _]].
    + by apply (ca_head _ _ _ _ Hc hx).
    + by apply (ca_head _ _ _ _ Hc h).
  - intros y Hy. destruct (ca_sub _ _ _ _ Hc y) as (h & Hh & Hyh); [by right|].
    exists h. split; [done|]. apply elem_of_moved. right. split; [done|]. by intros ->.
  - intros h y b' Hh Hy Eb'. apply elem_of_moved in Hy as [[-> ->]|[Hy Hyx]].
    + destruct (Hnew b' Eb') as (-> & _ & _). done.
    + destruct (Hold y b' Eb' Hyx) as (b0 & E0 & Hs); [by apply (Hmem h)|].
      rewrite (same_buf_flags _ _ Hs), <- (ca_busy _ _ _ _ Hc h y b0) by done.
      rewrite elem_of_cons. tauto.
  - intros h y z by' bz' Hh Hhf Hy Hz Ey Ez.
    apply elem_of_moved in Hy as [[-> ->]|[Hy Hyx]]; apply elem_of_moved in Hz as [[-> Edp]|[Hz Hzx]].
    + done.
    + destruct (Hnew by' Ey) as (_ & -> & ->). destruct (Hold z bz' Ez Hzx) as (z0 & E0 & Hs); [by apply (Hmem dp)|].
      apply same_buf_key in Hs as [-> ->]. intros _ E1 E2. exfalso.
      destruct Hnb as [?|Hnb]; [done|]. apply (Hnb z Hz). by exists z0.
    + subst h. destruct (Hnew bz' Ez) as (_ & -> & ->). destruct (Hold y by' Ey Hyx) as (y0 & E0 & Hs); [by apply (Hmem dp)|].
      apply same_buf_key in Hs as [-> ->]. intros _ E1 E2. exfalso.
      destruct Hnb as [?|Hnb]; [done|]. apply (Hnb y Hy). by exists y0.
    + destruct (Hold y by' Ey Hyx) as (y0 & E0 & Hs); [by apply (Hmem h)|].
      destruct (Hold z bz' Ez Hzx) as (z0 & E1 & Hs'); [by apply (Hmem h)|].
      apply same_buf_key in Hs as [-> ->]. apply same_buf_key in Hs' as [-> ->].
      by apply (ca_key _ _ _ _ Hc h).
Qed.

Lemma getblk_miss_ok w m hs H av dp dev blkno x b : cache m hs H (x :: av) -> dp ∈ hs -> dp <> Bfree ->
  (forall y, y ∈ H dp -> ~ has_block m dev blkno y) -> m !! x = Some b -> b_flags b &? B_DELWRI = false ->
  exists m', getblk_miss dp dev blkno (setb (setpl w 0) m) = Ret (inr x) (setb (setpl w 0) m') /\
    cache m' hs (moved x dp H) av /\ changed m m' x (given dev blkno).
Proof.
  intros Hc Hdp Hdf Hnb Eb Hdw. pose proof (ca_av _ _ _ _ Hc) as Hav.
  destruct (ca_sub _ _ _ _ Hc x) as (h & Hh & Hx); [left|].
  destruct (notavail_ok (setpl w 0) m x [] av Hav) as (m1 & E1 & Hav1 & Hlk1 & Hch1).
  destruct (reassign_rings (setpl w 0) m hs H (x :: av) dp x h Hc Hdp Hh Hx m1 Hlk1) as (m2 & E2 & Hr2 & Hav2 & Hch2).
  set (m3 := alter (setf b_dev (fun _ => dev)) x m2).
  set (m4 := alter (setf b_blkno (fun _ => blkno)) x m3).
  assert (Hch : changed m m4 x (given dev blkno)).
  { eapply changed_eq; [eapply changed_alter; [eapply changed_alter; [eapply changed_trans|]|]|].
    1: exact Hch1. 1: exact Hch2. all: unfold same_buf; (by intros []) || (intros c c' ->; by destruct c). }
  assert (Hx1 : is_Some (m2 !! x)) by (do 2 (eapply changed_Some; [eassumption|]); by eexists).
  exists m4. split; [|split; [|done]].
  - unfold getblk_miss. erewrite bind_ret_eq by reflexivity. cbn beta.
    erewrite bind_ret_eq by (apply (blink_setb av_forw (setpl w 6)); exact (proj1 (proj1 Hav))). cbn beta.
    rewrite decide_False by (by destruct Hav as [_ [[? _]%not_elem_of_cons _]%NoDup_cons]).
    erewrite bind_ret_eq by reflexivity. cbn beta.
    erewrite bind_ret_eq by exact E1. cbn beta.
    destruct (Hch1 x b Eb) as (b1 & Eb1 & Hs). rewrite decide_True in Hs by done.
    erewrite bind_ret_eq by (by apply bhas_setb). cbn beta.
    rewrite (same_buf_flags _ _ Hs). cbn [or_flags b_flags setf].
    rewrite lor_keep, Hdw by done.
    erewrite bind_ret_eq by exact E2. cbn beta.
    erewrite bind_ret_eq by (by apply bset_setb). cbn beta. fold m3.
    by erewrite bind_ret_eq by (apply bset_setb; by apply alter_Some).
  - apply (given_cache m m4 hs H av x dp dev blkno b); try done; [by right|..].
    + intros g Hg. eapply ring_fun; [..|by apply Hr2]; intros y; unfold m4, m3; by rewrite !lk_alter.
    + eapply ring_fun; [..|exact Hav1]; intros y; unfold m4, m3; rewrite !lk_alter by done; apply Hav2.
Qed.

(** *** Delayed writes on the way

    A strategy routine that queues a write it is given: the header stays
    busy, the routine may use the links of the available list of busy headers
    and what the heads of devices hold besides their two links, and [sent] —
    the writes the devices have been given: device, block and contents —
    grows by one. *)

Definition write_request (b : buf) : Prop :=
  b_flags b &? B_BUSY = true /\ b_flags b &? B_ASYNC = true /\
  b_flags b &? Z.lor (Z.lor (Z.lor B_READ B_DONE) B_ERROR) B_DELWRI = false /\ b_bcount b = BSIZE.

(** What [c] and [c'], the header [z] before and after, have in common. *)
Definition queued (hs : list bptr) (m m' : gmap bptr buf) : Prop := forall z c, m !! z = Some c ->
  exists c', m' !! z = Some c' /\ b_forw c' = b_forw c /\ b_back c' = b_back c /\
    (z = Bfree \/ z ∉ hs -> same_buf c c' /\
       (z = Bfree \/ b_flags c &? B_BUSY = false -> av_forw c' = av_forw c /\ av_back c' = av_back c)).

Record queues (hs : list bptr) (sent : world -> list (Z * Z * list Z)) (strat : bptr -> KM unit) : Prop := {
  qu_bufs : forall w m, sent (setb w m) = sent w;
  qu_pl : forall w n, sent (setpl w n) = sent w;
  qu_io : forall w f, sent (w <| ks ::= fun k => k <| io_info ::= f |> |>) = sent w;
  qu_write : forall w m y b, m !! y = Some b -> write_request b ->
    exists w' m', strat y (setb w m) = Ret tt (setb w' m') /\ env w' = env w /\
      sent w' = sent w ++ [(b_dev b, b_blkno b, b_data b)] /\ queued hs m m'
}.

(** Header and entry of a delayed write that is on the way. *)
Definition sent_out (b : buf) : buf :=
  b <| b_flags := Z.lor (clr (Z.lor (Z.lor (b_flags b) B_BUSY) B_ASYNC)
         (Z.lor (Z.lor (Z.lor (Z.lor B_READ B_DONE) B_ERROR) B_DELWRI) B_AGE)) B_AGE |>
    <| b_bcount := BSIZE |>.
Definition entry (m : gmap bptr buf) (y : bptr) : Z * Z * list Z :=
  match m !! y with Some b => (b_dev b, b_blkno b, b_data b) | None => (0, 0, []) end.

(** [y] holds a delayed write for a device that queues it. *)
Definition dirty (hs : list bptr) (sent : world -> list (Z * Z * list Z)) (m : gmap bptr buf) (y : bptr) : Prop :=
  exists b sw, m !! y = Some b /\ b_flags b &? B_DELWRI = true /\
    bdevsw !! Z.to_nat (major (b_dev b)) = Some sw /\ queues hs sent (d_strategy sw).

(** Links aside, [g] says what has become of each header that is not a
    device's head. *)
Definition became (hs : list bptr) (m m' : gmap bptr buf) (g : bptr -> buf -> buf) : Prop :=
  forall z c, m !! z = Some c -> z = Bfree \/ z ∉ hs -> exists c', m' !! z = Some c' /\ same_buf (g z c) c'.

Lemma ring_queued hs m m' h l : queued hs m m' -> ring (lk b_forw m) (lk b_back m) h l ->
  ring (lk b_forw m') (lk b_back m') h l.
Proof.
  intros Hq Hr. eapply ring_ext; [exact Hr|]. intros a Ha.
  destruct (ring_Some _ _ _ _ _ a Hr Ha) as [c Ec]. destruct (Hq a c Ec) as (c' & Ec' & E1 & E2 & _).
  unfold lk. by rewrite Ec, Ec'; cbn.
Qed.

Lemma queued_cache hs m m' H av : cache m hs H av -> queued hs m m' -> cache m' hs H av.
Proof.
  intros Hc Hq.
  assert (Hav : forall y, y ∈ av -> exists c, m !! y = Some c /\ b_flags c &? B_BUSY = false /\ y ∉ hs).
  { intros y Hy. destruct (ca_sub _ _ _ _ Hc y Hy) as (h & Hh & Hyh).
    destruct (ring_Some _ _ _ _ _ y (ca_hash _ _ _ _ Hc h Hh)) as [c Ec]; [by right|].
    exists c. split; [done|]. split; [by apply (ca_busy _ _ _ _ Hc h y c)|].
    intros Hin. apply (ca_head _ _ _ _ Hc h y Hh Hyh). by right. }
  assert (Hold : forall h y c', h ∈ hs -> y ∈ H h -> m' !! y = Some c' -> exists c, m !! y = Some c /\ same_buf c c').
  { intros h y c' Hh Hy Ec'. destruct (ring_Some _ _ _ _ _ y (ca_hash _ _ _ _ Hc h Hh)) as [c Ec]; [by right|].
    destruct (Hq y c Ec) as (c2 & E2 & _ & _ & Hs). rewrite Ec' in E2. injection E2 as <-.
    exists c. split; [done|]. apply Hs. right. intros Hin. apply (ca_head _ _ _ _ Hc h y Hh Hy). by right. }
  split.
  - eapply ring_ext; [apply (ca_av _ _ _ _ Hc)|]. intros a Ha.
    destruct (ring_Some _ _ _ _ _ a (ca_av _ _ _ _ Hc) Ha) as [c Ec].
    destruct (Hq a c Ec) as (c' & Ec' & _ & _ & Hs). unfold lk. rewrite Ec, Ec'. cbn.
    apply elem_of_cons in Ha as [->|Ha]; [apply Hs; by left|].
    destruct (Hav a Ha) as (c2 & E2 & Hb & Hh). rewrite Ec in E2. injection E2 as <-. apply Hs; by right.
  - intros h Hh. eapply ring_queued; [exact Hq|]. by apply (ca_hash _ _ _ _ Hc).
  - apply (ca_disj _ _ _ _ Hc).
  - apply (ca_head _ _ _ _ Hc).
  - apply (ca_sub _ _ _ _ Hc).
  - intros h y c' Hh Hy Ec'. destruct (Hold h y c' Hh Hy Ec') as (c & Ec & Hs).
    rewrite (same_buf_flags _ _ Hs). by apply (ca_busy _ _ _ _ Hc h).
  - intros h y z by' bz' Hh Hf Hy Hz Ey Ez.
    destruct (Hold h y by' Hh Hy Ey) as (y0 & Ey0 & [-> ->]%same_buf_key).
    destruct (Hold h z bz' Hh Hz Ez) as (z0 & Ez0 & [-> ->]%same_buf_key).
    by apply (ca_key _ _ _ _ Hc h).
Qed.

(** A change at a buffer that is not available. *)
Lemma alter_cache m hs H av y f : cache m hs H av -> y ∉ av ->
  (forall g, g = b_forw \/ g = b_back \/ g = av_forw \/ g = av_back -> forall b, g (f b) = g b) ->
  (forall b, b_dev (f b) = b_dev b /\ b_blkno (f b) = b_blkno b /\ (b_flags b &? B_BUSY = true -> b_flags (f b) &? B_BUSY = true)) ->
  (forall b b', same_buf b b' -> same_buf (f b) (f b')) ->
  cache (alter f y m) hs H av.
Proof.
  intros Hc Hy Hl Hf Hs.
  assert (Hlk : forall g, g = b_forw \/ g = b_back \/ g = av_forw \/ g = av_back -> forall a, lk g (alter f y m) a = lk g m a).
  { intros g Hg a. apply lk_alter. by apply Hl. }
  split.
  - eapply ring_fun; [..|apply (ca_av _ _ _ _ Hc)]; apply Hlk; tauto.
  - intros h Hh. eapply ring_fun; [..|by apply (ca_hash _ _ _ _ Hc)]; apply Hlk; tauto.
  - apply (ca_disj _ _ _ _ Hc).
  - apply (ca_head _ _ _ _ Hc).
  - apply (ca_sub _ _ _ _ Hc).
  - intros h z c' Hh Hz Ec'. destruct (decide (z = y)) as [->|Hne].
    + rewrite lookup_alter_eq in Ec'. destruct (m !! y) as [c|] eqn:Ec; [|done]. injection Ec' as <-.
      pose proof (ca_busy _ _ _ _ Hc h y c Hh Hz Ec) as Hb. destruct (b_flags c &? B_BUSY) eqn:Eb; [|tauto].
      destruct (Hf c) as (_ & _ & ->); [|done]. split; [by intros|done].
    + rewrite lookup_alter_ne in Ec' by done. by apply (ca_busy _ _ _ _ Hc h).
  - assert (Hk : forall z c', alter f y m !! z = Some c' ->
      exists c, m !! z = Some c /\ b_dev c' = b_dev c /\ b_blkno c' = b_blkno c).
    { intros z c' Ec'. destruct (decide (z = y)) as [->|Hne].
      - rewrite lookup_alter_eq in Ec'. destruct (m !! y) as [c|] eqn:Ec; [|done]. injection Ec' as <-.
        exists c. split; [done|]. split; apply Hf.
      - rewrite lookup_alter_ne in Ec' by done. by exists c'. }
    intros h z1 z2 c1 c2 Hh Hd H1 H2 E1 E2.
    destruct (Hk z1 c1 E1) as (? & ? & -> & ->). destruct (Hk z2 c2 E2) as (? & ? & -> & ->).
    by apply (ca_key _ _ _ _ Hc h).
Qed.

(** The header as its device gets it. *)
Definition going (b : buf) : buf :=
  b <| b_flags := clr (Z.lor (b_flags b) B_ASYNC)
         (Z.lor (Z.lor (Z.lor (Z.lor B_READ B_DONE) B_ERROR) B_DELWRI) B_AGE) |>
    <| b_bcount := BSIZE |>.

Lemma going_request b : b_flags b &? B_BUSY = true -> write_request (going b).
Proof.
  intros Hb. unfold write_request, going. cbn [b_flags b_bcount setf].
  rewrite (clr_keep _ _ B_BUSY), (clr_keep _ _ B_ASYNC) by done.
  rewrite (lor_keep _ _ B_BUSY), (lor_set _ B_ASYNC) by done.
  repeat split; [done|]. apply tst_false. unfold clr. rewrite <- Z.land_assoc.
  replace (Z.land _ (Z.lor (Z.lor (Z.lor B_READ B_DONE) B_ERROR) B_DELWRI)) with 0 by reflexivity.
  apply Z.land_0_r.
Qed.

(** [bwrite] of a delayed write: the request is queued, and the header marked
    to go to the front of the available list when it is done. *)
Lemma bwrite_delayed_ok hs sent w m y b sw : m !! y = Some b -> b_flags b &? B_BUSY = true ->
  b_flags b &? B_DELWRI = true -> bdevsw !! Z.to_nat (major (b_dev b)) = Some sw ->
  queues hs sent (d_strategy sw) ->
  exists w' m3, (bor y B_ASYNC ;;; bwrite y) (setb w m) = Ret tt (setb w' (alter (or_flags B_AGE) y m3)) /\
    env w' = env w /\ sent w' = sent w ++ [(b_dev b, b_blkno b, b_data b)] /\
    queued hs (alter going y m) m3.
Proof.
  intros Eb Hby Hdw Esw Hq.
  set (w1 := w <| ks ::= fun k => k <| io_info ::= fun i => i <| nwrite ::= fun n => n + 1 |> |> |>).
  set (ma := alter (or_flags B_ASYNC) y m).
  assert (Ea : ma !! y = Some (or_flags B_ASYNC b)) by (unfold ma; by rewrite lookup_alter_eq, Eb).
  set (rel := Z.lor (Z.lor (Z.lor (Z.lor B_READ B_DONE) B_ERROR) B_DELWRI) B_AGE).
  set (m2 := alter going y m).
  assert (E2 : alter (setf b_bcount (fun _ => BSIZE)) y (alter (clr_flags rel) y ma) = m2).
  { apply map_eq. intros z. unfold ma, m2. destruct (decide (z = y)) as [->|].
    - rewrite !lookup_alter_eq, Eb. reflexivity.
    - by rewrite !lookup_alter_ne by done. }
  assert (Eg : m2 !! y = Some (going b)) by (unfold m2; by rewrite lookup_alter_eq, Eb).
  destruct (qu_write _ _ _ Hq w1 m2 y (going b) Eg (going_request b Hby)) as (w' & m3 & E & Henv & Hsent & Hqd).
  exists w', m3. split; [|split; [exact Henv|split; [|exact Hqd]]].
  - erewrite bind_ret_eq by (apply bor_setb; by eexists). cbn beta. fold ma.
    unfold bwrite. erewrite bind_ret_eq by (by apply bf_setb). cbn beta. fold rel.
    erewrite bind_ret_eq by (apply bclr_setb; by eexists). cbn beta.
    erewrite bind_ret_eq by (apply bset_setb; apply alter_Some; by eexists). cbn beta. rewrite E2.
    erewrite bind_ret_eq by (instantiate (1 := setb w1 m2); reflexivity). cbn beta.
    erewrite bind_ret_eq by (by apply bf_setb). cbn beta.
    erewrite bind_ret_eq.
    2: { unfold strategy. erewrite bind_ret_eq by (apply bdevsw_at_ok; exact Esw). cbn beta. exact E. }
    cbn beta. cbn [or_flags b_flags setf].
    rewrite lor_set by done. rewrite (lor_keep _ _ B_DELWRI), Hdw by done. cbn [negb].
    apply bor_setb. destruct (Hqd y (going b) Eg) as (c' & Ec' & _). by eexists.
  - rewrite Hsent. unfold w1. by rewrite (qu_io _ _ _ Hq).
Qed.

Definition sent_one (y : bptr) : bptr -> buf -> buf := fun z c => if decide (z = y) then sent_out c else c.

(** One delayed write at the head of the available list: it is sent out, and
    [getblk] starts over with the rest of the list. *)
Lemma getblk_delayed_ok hs sent w m H av dp dev blkno y : cache m hs H (y :: av) -> dp ∈ hs ->
  dirty hs sent m y ->
  exists w' m', getblk_miss dp dev blkno (setb (setpl w 0) m) = Ret (inl tt) (setb w' m') /\
    env w' = env w /\ sent w' = sent w ++ [entry m y] /\ cache m' hs H av /\
    became hs m m' (sent_one y).
Proof.
  intros Hc Hdp (b & sw & Eb & Hdw & Esw & Hq). pose proof (ca_av _ _ _ _ Hc) as Hav.
  destruct (notavail_ok (setpl w 0) m y [] av Hav) as (m1 & E1 & Hav1 & Hlk1 & Hch1).
  assert (Hy : y ∉ av) by (by destruct Hav as [_ [_ [? _]%NoDup_cons]%NoDup_cons]).
  destruct (Hch1 y b Eb) as (b1 & Eb1 & Hs1). rewrite decide_True in Hs1 by done.
  assert (Hk1 : b_dev b1 = b_dev b /\ b_blkno b1 = b_blkno b /\ b_data b1 = b_data b /\
    b_flags b1 = Z.lor (b_flags b) B_BUSY) by (unfold same_buf in Hs1; rewrite Hs1; done).
  destruct Hk1 as (Kd & Kb & Kt & Kf).
  destruct (bwrite_delayed_ok hs sent (setpl w 0) m1 y b1 sw Eb1) as (w' & m3 & E2 & Henv & Hsent & Hqd).
  { rewrite Kf. by apply lor_set. }
  { rewrite Kf. by rewrite lor_keep. }
  { by rewrite Kd. }
  { done. }
  exists w', (alter (or_flags B_AGE) y m3). split; [|split; [exact Henv|split; [|split]]].
  - unfold getblk_miss. erewrite bind_ret_eq by reflexivity. cbn beta.
    erewrite bind_ret_eq by (apply (blink_setb av_forw (setpl w 6)); exact (proj1 (proj1 Hav))). cbn beta.
    rewrite decide_False by (by destruct Hav as [_ [[? _]%not_elem_of_cons _]%NoDup_cons]).
    erewrite bind_ret_eq by reflexivity. cbn beta.
    erewrite bind_ret_eq by exact E1. cbn beta.
    erewrite bind_ret_eq by (by apply bhas_setb). cbn beta. rewrite Kf, lor_keep, Hdw by done.
    revert E2. unfold bind. destruct (bor y B_ASYNC (setb (setpl w 0) m1)); [|done..].
    intros ->. done.
  - rewrite Hsent, (qu_pl _ _ _ Hq), Kd, Kb, Kt. unfold entry. by rewrite Eb.
  - assert (Hc1 : cache m1 hs H av).
    { pose proof (without_split y [] av) as Ew. cbn [app] in Ew.
      rewrite <- Ew by (by destruct Hav as [_ [_ ?]%NoDup_cons]).
      eapply notavail_cache; [exact Hc|left| |exact Hlk1|exact Hch1|].
      - rewrite Ew by (by destruct Hav as [_ [_ ?]%NoDup_cons]). exact Hav1.
      - intros c. split; [done|]. split; [done|]. by apply lor_set. }
    assert (Hc2 : cache (alter going y m1) hs H av).
    { apply alter_cache; try done.
      - intros g [->|[->|[->| ->]]] c; done.
      - intros c. split; [done|]. split; [done|]. intros Hb. by destruct (going_request c Hb).
      - unfold same_buf. intros c c' ->. by destruct c. }
    apply alter_cache; [by eapply queued_cache|done|..].
    + intros g [->|[->|[->| ->]]] c; done.
    + intros c. split; [done|]. split; [done|]. intros Hb. cbn. by rewrite lor_keep.
    + unfold same_buf. intros c c' ->. by destruct c.
  - intros z c Ec Hz. destruct (Hch1 z c Ec) as (c1 & Ec1 & Hsz). unfold sent_one.
    destruct (decide (z = y)) as [->|Hne].
    + assert (Eg : alter going y m1 !! y = Some (going c1)) by (by rewrite lookup_alter_eq, Ec1).
      destruct (Hqd y _ Eg) as (c3 & Ec3 & _ & _ & Hs3). destruct (Hs3 Hz) as [Hs _].
      exists (or_flags B_AGE c3). rewrite lookup_alter_eq, Ec3. split; [done|].
      unfold same_buf in *. rewrite Hs, Hsz. by destruct c.
    + assert (Eg : alter going y m1 !! z = Some c1) by (by rewrite lookup_alter_ne).
      destruct (Hqd z _ Eg) as (c3 & Ec3 & _ & _ & Hs3). destruct (Hs3 Hz) as [Hs _].
      exists c3. rewrite lookup_alter_ne by done. split; [done|]. by eapply same_buf_trans.
Qed.

(** What [getblk] relies on is still there after it has sent out [y]. *)

Lemma became_other hs m m1 y z c : became hs m m1 (sent_one y) -> z ∉ hs -> z <> y -> m !! z = Some c ->
  exists c1, m1 !! z = Some c1 /\ same_buf c c1.
Proof.
  intros Hb Hz Hne Ec. destruct (Hb z c Ec) as (c1 & Ec1 & Hs); [by right|].
  exists c1. unfold sent_one in Hs. by rewrite decide_False in Hs.
Qed.

Lemma became_dirty hs sent m m1 y z : became hs m m1 (sent_one y) -> z ∉ hs -> z <> y ->
  dirty hs sent m z -> dirty hs sent m1 z /\ entry m1 z = entry m z.
Proof.
  intros Hb Hz Hne (c & sw & Ec & Hw & Esw & Hq).
  destruct (became_other hs m m1 y z c) as (c1 & Ec1 & Hs); try done. split.
  - exists c1, sw. rewrite (same_buf_flags _ _ Hs). apply same_buf_key in Hs as [-> _]. done.
  - unfold entry. rewrite Ec, Ec1. unfold same_buf in Hs. by rewrite Hs.
Qed.

Lemma became_absent hs m m1 H av y dp dev blkno : cache m hs H av -> dp ∈ hs ->
  became hs m m1 (sent_one y) -> (forall z, z ∈ H dp -> ~ has_block m dev blkno z) ->
  forall z, z ∈ H dp -> ~ has_block m1 dev blkno z.
Proof.
  intros Hc Hdp Hb Hnb z Hz (c1 & Ec1 & E3 & E4).
  destruct (ring_Some _ _ _ _ _ z (ca_hash _ _ _ _ Hc dp Hdp)) as [c Ec]; [by right|].
  destruct (Hb z c Ec) as (c2 & Ec2 & Hs).
  { right. intros Hhs. apply (ca_head _ _ _ _ Hc dp z Hdp Hz). by right. }
  rewrite Ec1 in Ec2. injection Ec2 as <-. apply (Hnb z Hz). exists c. split; [done|].
  unfold sent_one in Hs. apply same_buf_key in Hs as [E5 E6]. rewrite <- E3, <- E4, E5, E6. by case_decide.
Qed.

(** What becomes of the headers: [x] is given away, [ds] are sent out. *)
Definition given_and_sent (x : bptr) (ds : list bptr) (dev blkno : Z) : bptr -> buf -> buf := fun z c =>
  if decide (z = x) then given dev blkno c else if decide (z ∈ ds) then sent_out c else c.

Lemma became_trans hs m m1 m2 x y ds dev blkno : x <> y -> y ∉ ds ->
  became hs m m1 (sent_one y) -> became hs m1 m2 (given_and_sent x ds dev blkno) ->
  became hs m m2 (given_and_sent x (y :: ds) dev blkno).
Proof.
  unfold given_and_sent, sent_one. intros Hxy Hy H1 H2 z c Ec Hz.
  destruct (H1 z c Ec Hz) as (c1 & Ec1 & S1). destruct (H2 z c1 Ec1 Hz) as (c2 & Ec2 & S2).
  exists c2. split; [done|]. eapply same_buf_trans; [|exact S2].
  destruct (decide (z = x)) as [->|Hzx].
  { rewrite decide_False in S1 by done. unfold same_buf in *. rewrite S1. by destruct c. }
  destruct (decide (z = y)) as [->|Hzy].
  { rewrite (decide_False (P := (y ∈ ds))) by done. by rewrite decide_True by left. }
  destruct (decide (z ∈ ds)).
  - rewrite decide_True by (by right). unfold same_buf in *. rewrite S1. by destruct c.
  - rewrite decide_False by (by rewrite elem_of_cons; intros [|]). done.
Qed.

(** The whole loop: the delayed writes [ds] go out, in their order, and the
    first clean buffer is taken. *)
Lemma getblk_loop_ok sent hs H av dev blkno dp x : forall ds n w m b,
  cache m hs H (ds ++ x :: av) -> on_dev dev dp -> dp ∈ hs -> dp <> Bfree ->
  (forall y, y ∈ H dp -> ~ has_block m dev blkno y) ->
  (forall y, y ∈ ds -> dirty hs sent m y) -> m !! x = Some b -> b_flags b &? B_DELWRI = false ->
  (length ds < n)%nat ->
  exists w' m', loop n (fun _ : unit => getblk_round dev blkno) tt (setb w m) = Ret x (setb w' m') /\
    env w' = env w /\ (ds <> [] -> sent w' = sent w ++ map (entry m) ds) /\
    cache m' hs (moved x dp H) av /\ became hs m m' (given_and_sent x ds dev blkno) /\
    (ds = [] -> w' = setpl w 0 /\ changed m m' x (given dev blkno)).
Proof.
  induction ds as [|y ds IH]; intros n w m b Hc Hd Hdp Hdf Hnb Hds Eb Hdw Hn;
    (destruct n as [|n]; [cbn in Hn; lia|]);
    (destruct (getblk_round_ok w m hs H _ dev blkno dp Hc Hd Hdp) as ([z|] & E & Ho); [exfalso; by apply (Hnb z); apply Ho|]).
  - destruct (getblk_miss_ok w m hs H av dp dev blkno x b) as (m' & E' & Hc' & Hch); try done.
    exists (setpl w 0), m'. split; [apply loop_done; by rewrite E, E'|].
    split; [done|]. split; [done|]. split; [done|]. split; [|done].
    intros z c Ec _. destruct (Hch z c Ec) as (c' & Ec' & Hs). exists c'. split; [done|].
    unfold given_and_sent. case_decide; [done|]. rewrite decide_False by apply not_elem_of_nil. done.
  - assert (Dy : dirty hs sent m y) by (apply Hds; left).
    destruct (getblk_delayed_ok hs sent w m H (ds ++ x :: av) dp dev blkno y Hc Hdp Dy)
      as (w1 & m1 & E1 & Henv1 & Hs1 & Hc1 & Hb1).
    assert (Hnd : NoDup (y :: ds ++ x :: av)) by (by destruct (ca_av _ _ _ _ Hc) as [_ [_ ?]%NoDup_cons]).
    apply NoDup_cons in Hnd as [Hy Hnd].
    assert (Hin : forall z, z ∈ ds ++ x :: av -> (z ∉ hs) /\ z <> y).
    { intros z Hz. split; [|by intros ->]. destruct (ca_sub _ _ _ _ Hc z) as (h & Hh & Hzh); [by right|].
      intros Hhs. apply (ca_head _ _ _ _ Hc h z Hh Hzh). by right. }
    assert (Hinx : x ∈ ds ++ x :: av) by (apply elem_of_app; right; left).
    assert (Hids : forall z, z ∈ ds -> dirty hs sent m1 z /\ entry m1 z = entry m z).
    { intros z Hz. apply (became_dirty hs sent m m1 y z Hb1); [apply Hin, elem_of_app; by left..|].
      apply Hds. by right. }
    destruct (became_other hs m m1 y x b) as (b1 & Eb1 & Hsx); [done|by apply Hin..|done|].
    destruct (IH n w1 m1 b1 Hc1 Hd Hdp Hdf) as (w' & m' & E2 & Henv2 & Hs2 & Hc2 & Hb2 & Hw2);
      [exact (became_absent hs m m1 H _ y dp dev blkno Hc Hdp Hb1 Hnb)|intros z Hz; by apply Hids|done|by rewrite (same_buf_flags _ _ Hsx)|cbn in Hn; lia|].
    exists w', m'. split; [erewrite loop_next; [exact E2|by rewrite E, E1]|].
    split; [congruence|]. split; [intros _|split; [done|split; [|done]]].
    + cbn [map]. rewrite <- (map_ext_in (entry m1) (entry m)) by (intros z Hz%list_elem_of_In; by apply Hids).
      destruct ds as [|d ds]; [|by rewrite Hs2, Hs1, <- app_assoc by done].
      destruct Hw2 as [-> _]; [done|]. destruct Dy as (c & sw & _ & _ & _ & Hq).
      by rewrite (qu_pl _ _ _ Hq), Hs1.
    + apply became_trans with m1; try done; [apply Hin, Hinx|].
      intros Hi. apply Hy, elem_of_app. by left.
Qed.

(** C3. A block that is not in the cache: the delayed writes [ds] at the head
    of the list of available buffers are sent to their devices first, in
    their order and with their contents, and are then marked [B_AGE], no
    longer delayed and busy until they are done.  The first buffer [x] of the
    list that holds none is taken: it is off the list, at the front of the
    device's buffers, busy and with the block's number, and is what [getblk]
    returns.  All other headers keep their contents, and the cache is well
    formed, so that the block is in no second buffer; without delayed writes
    at the head nothing else at all has changed.  (A device that is sent
    delayed writes only queues them.) *)
Theorem getblk_uncached sent w m hs H ds x av dev blkno dp b :
  cache m hs H (ds ++ x :: av) -> on_dev dev dp -> dp ∈ hs -> dp <> Bfree ->
  (forall y, y ∈ H dp -> ~ has_block m dev blkno y) ->
  (forall y, y ∈ ds -> dirty hs sent m y) -> m !! x = Some b -> b_flags b &? B_DELWRI = false ->
  exists w' m', getblk dev blkno (setb w m) = Ret x (setb w' m') /\
    env w' = env w /\ (ds <> [] -> sent w' = sent w ++ map (entry m) ds) /\
    cache m' hs (moved x dp H) av /\
    became hs m m' (given_and_sent x ds dev blkno) /\
    (ds = [] -> w' = setpl w 0 /\ changed m m' x (given dev blkno)).
Proof.
  intros Hc Hd Hdp Hdf Hnb Hds Eb Hdw. unfold getblk.
  rewrite (proj2 (Z.leb_gt _ _)) by apply Hd.
  erewrite bind_ret_eq by reflexivity. cbn beta.
  erewrite bind_ret_eq by reflexivity. cbn beta.
  eapply getblk_loop_ok; try done.
  assert (length (ds ++ x :: av) <= size m)%nat as Hl.
  { apply length_members; [by destruct (ca_av _ _ _ _ Hc) as [_ [_ ?]%NoDup_cons]|].
    intros z Hz. eapply ring_Some; [apply (ca_av _ _ _ _ Hc)|by right]. }
  rewrite length_app in Hl. cbn in *. lia.
Qed.

(** What [brelse] makes of the header. *)
Definition released (b : buf) : buf :=
  (if b_flags b &? B_ERROR then b <| b_dev := NODEV |> else b)
    <| b_flags := clr (b_flags b) (Z.lor (Z.lor (Z.lor B_WANTED B_BUSY) B_ASYNC) B_AGE) |>.

Lemma queues_bufs k m k' : queues_only (k <| bufs := m |>) k' ->
  bufs k' = m /\ queues_only k (k' <| bufs := bufs k |>).
Proof.
  intros H. split; [rewrite H; reflexivity|].
  unfold queues_only in *. rewrite H at 1. destruct k. reflexivity.
Qed.

Lemma wakeup_setb w m c l rq : sleepers (ks w) c l rq -> undisturbed (ks w) c l ->
  exists k', wakeup c (setb w m) = Ret tt (setb (w <| ks := k' |>) m) /\ wakes_up c [] l rq (ks w) k'.
Proof.
  intros [Sr Ss Sn Sa] Ho. destruct (wakeup_ok 2 c (setb w m) l rq) as (k' & E & [Wr Ws Wf Wp]); [by constructor|done|].
  destruct (queues_bufs (ks w) m k' Wf) as [Eb Hq].
  exists (k' <| bufs := bufs (ks w) |>). split.
  - unfold wakeup. rewrite E, <- Eb. destruct k'. reflexivity.
  - constructor; done.
Qed.

Lemma released_cache m m' hs H av av' h x b : cache m hs H av -> h ∈ hs -> x ∈ H h ->
  m !! x = Some b -> (forall y, y ∈ av' <-> y = x \/ y ∈ av) ->
  ring (lk av_forw m') (lk av_back m') Bfree av' ->
  (forall y, lk b_forw m' y = lk b_forw m y /\ lk b_back m' y = lk b_back m y) ->
  changed m m' x released -> cache m' hs H av'.
Proof.
  intros Hc Hh Hx Eb Hav' Hr Hlk Hch.
  assert (Hold : forall g y b, g ∈ hs -> y ∈ H g -> m' !! y = Some b ->
    exists b0, m !! y = Some b0 /\ same_buf (if decide (y = x) then released b0 else b0) b).
  { intros g y b' Hg Hy E'. destruct (ring_Some _ _ _ _ _ y (ca_hash _ _ _ _ Hc g Hg)) as [b0 E0]; [by right|].
    destruct (Hch y b0 E0) as (b'' & E'' & Hs). rewrite E' in E''. injection E'' as <-. by exists b0. }
  assert (Hflag : forall b, b_flags (released b) &? B_BUSY = false).
  { intros c. unfold released. cbn [b_flags setf]. rewrite tst_false. apply Z.bits_inj'. intros i Hi.
    rewrite Z.land_spec, Z.bits_0. unfold clr. rewrite Z.land_spec, Z.lnot_spec by done.
    destruct (decide (i = 3)) as [->|]; [by rewrite andb_false_r|].
    change B_BUSY with (2 ^ 3). rewrite Z.pow2_bits_false by done. by rewrite andb_false_r. }
  assert (Hkey : forall b0 b, same_buf (released b0) b -> b_dev b <> NODEV ->
    b_dev b = b_dev b0 /\ b_blkno b = b_blkno b0).
  { intros b0 b' [-> ->]%same_buf_key. unfold released.
    destruct (b_flags b0 &? B_ERROR); [by intros Hn; destruct (Hn eq_refl)|done]. }
  split.
  - done.
  - intros g Hg. eapply ring_fun; [..|by apply (ca_hash _ _ _ _ Hc)]; apply Hlk.
  - apply (ca_disj _ _ _ _ Hc).
  - apply (ca_head _ _ _ _ Hc).
  - intros y [->|Hy]%Hav'; [by exists h|]. by apply (ca_sub _ _ _ _ Hc).
  - intros g y b' Hg Hy E'. destruct (Hold g y b' Hg Hy E') as (b0 & E0 & Hs).
    rewrite Hav', (same_buf_flags _ _ Hs). case_decide as Hyx.
    + rewrite Hflag. split; [done|by left].
    + rewrite <- (ca_busy _ _ _ _ Hc g y b0) by done. tauto.
  - intros g y z by' bz' Hg Hgf Hy Hz Ey Ez Hd E1 E2.
    destruct (Hold g y by' Hg Hy Ey) as (y0 & Ey0 & Hsy). destruct (Hold g z bz' Hg Hz Ez) as (z0 & Ez0 & Hsz).
    assert (b_dev by' = b_dev y0 /\ b_blkno by' = b_blkno y0) as [E3 E4].
    { destruct (decide (y = x)); [by apply Hkey|by apply same_buf_key in Hsy]. }
    assert (b_dev bz' = b_dev z0 /\ b_blkno bz' = b_blkno z0) as [E5 E6].
    { destruct (decide (z = x)); [apply Hkey; [done|congruence]|by apply same_buf_key in Hsz]. }
    apply (ca_key _ _ _ _ Hc g y z y0 z0); congruence.
Qed.

(** Linking [x] in at the front of the available list, and at its end. *)
Lemma link_front_ok w m av x : ring (lk av_forw m) (lk av_back m) Bfree av ->
  x ∉ Bfree :: av -> is_Some (m !! x) ->
  exists m', (f <- blink Bfree av_forw ;;
     bset f av_back (Some x) ;;;
     f <- bf Bfree av_forw ;; bset x av_forw f ;;;
     bset Bfree av_forw (Some x) ;;;
     bset x av_back (Some Bfree)) (setb w m) = Ret tt (setb w m') /\
    ring (lk av_forw m') (lk av_back m') Bfree (x :: av) /\
    (forall y, lk b_forw m' y = lk b_forw m y /\ lk b_back m' y = lk b_back m y) /\
    changed m m' x (fun b => b).
Proof.
  intros Hr Hx Sx. apply not_elem_of_cons in Hx as Hx'. destruct Hx' as [Hxf Hxa].
  destruct (ring_head _ _ _ _ Hr) as (q & Hq & Hqb & _ & Hql).
  set (m1 := alter (setf av_back (fun _ => Some x)) q m).
  set (m2 := alter (setf av_forw (fun _ => Some q)) x m1).
  set (m3 := alter (setf av_forw (fun _ => Some x)) Bfree m2).
  set (m4 := alter (setf av_back (fun _ => Some Bfree)) x m3).
  assert (Sq : is_Some (m !! q)) by (by eapply lk_is_Some).
  assert (Sf : is_Some (m !! Bfree)) by (by eapply lk_is_Some).
  exists m4. split; [|split; [|split]].
  - erewrite bind_ret_eq by (by apply blink_setb). cbn beta.
    erewrite bind_ret_eq by (by apply bset_setb). cbn beta. fold m1.
    erewrite bind_ret_eq by (apply bfl_setb; unfold m1; by rewrite lk_alter). cbn beta.
    erewrite bind_ret_eq by (apply bset_setb; by apply alter_Some). cbn beta. fold m2.
    erewrite bind_ret_eq by (apply bset_setb; by do 2 apply alter_Some). cbn beta. fold m3.
    apply bset_setb. by do 3 apply alter_Some.
  - eapply ring_fun; [..|exact (ring_front _ _ _ _ x q Hr Hx Hq)]; intros y.
    + unfold m4. rewrite lk_alter by done. unfold m3. rewrite lk_set by (done || by do 2 apply alter_Some).
      unfold upd. case_decide; [done|]. unfold m2. rewrite lk_set by (done || by apply alter_Some).
      unfold upd. case_decide; [done|]. unfold m1. by rewrite lk_alter.
    + unfold m4. rewrite lk_set by (done || by do 3 apply alter_Some). unfold m3, m2.
      unfold upd. destruct (decide (y = x)) as [->|Hyx].
      { rewrite decide_False; [done|]. intros ->. by apply (Hx Hql). }
      rewrite !lk_alter by done. unfold m1. by rewrite lk_set.
  - intros y. unfold m4, m3, m2, m1. by rewrite !lk_alter by done.
  - do 4 (eapply changed_link; [|by intros []]). apply changed_refl.
Qed.

(** At its end. *)
Lemma link_back_ok w m av x : ring (lk av_forw m) (lk av_back m) Bfree av ->
  x ∉ Bfree :: av -> is_Some (m !! x) ->
  exists m', (b <- blink Bfree av_back ;;
     bset b av_forw (Some x) ;;;
     b <- bf Bfree av_back ;; bset x av_back b ;;;
     bset Bfree av_back (Some x) ;;;
     bset x av_forw (Some Bfree)) (setb w m) = Ret tt (setb w m') /\
    ring (lk av_forw m') (lk av_back m') Bfree (av ++ [x]) /\
    (forall y, lk b_forw m' y = lk b_forw m y /\ lk b_back m' y = lk b_back m y) /\
    changed m m' x (fun b => b).
Proof.
  intros Hr Hx Sx. apply not_elem_of_cons in Hx as Hx'. destruct Hx' as [Hxf Hxa].
  destruct (ring_head _ _ _ _ (ring_reverse _ _ _ _ Hr)) as (q & Hq & Hqb & _ & Hql).
  assert (Hql' : q ∈ Bfree :: av) by (rewrite elem_of_cons, elem_of_reverse in Hql; by rewrite elem_of_cons).
  set (m1 := alter (setf av_forw (fun _ => Some x)) q m).
  set (m2 := alter (setf av_back (fun _ => Some q)) x m1).
  set (m3 := alter (setf av_back (fun _ => Some x)) Bfree m2).
  set (m4 := alter (setf av_forw (fun _ => Some Bfree)) x m3).
  assert (Sq : is_Some (m !! q)) by (by eapply lk_is_Some).
  assert (Sf : is_Some (m !! Bfree)) by (by eapply lk_is_Some).
  exists m4. split; [|split; [|split]].
  - erewrite bind_ret_eq by (by apply blink_setb). cbn beta.
    erewrite bind_ret_eq by (by apply bset_setb). cbn beta. fold m1.
    erewrite bind_ret_eq by (apply bfl_setb; unfold m1; by rewrite lk_alter). cbn beta.
    erewrite bind_ret_eq by (apply bset_setb; by apply alter_Some). cbn beta. fold m2.
    erewrite bind_ret_eq by (apply bset_setb; by do 2 apply alter_Some). cbn beta. fold m3.
    apply bset_setb. by do 3 apply alter_Some.
  - eapply ring_fun; [..|exact (ring_back _ _ _ _ x q Hr Hx Hq)]; intros y.
    + unfold m4. rewrite lk_set by (done || by do 3 apply alter_Some). unfold m3, m2.
      unfold upd. destruct (decide (y = x)) as [->|Hyx].
      { rewrite decide_False; [done|]. intros ->. by apply (Hx Hql'). }
      rewrite !lk_alter by done. unfold m1. by rewrite lk_set.
    + unfold m4. rewrite lk_alter by done. unfold m3. rewrite lk_set by (done || by do 2 apply alter_Some).
      unfold upd. case_decide; [done|]. unfold m2. rewrite lk_set by (done || by apply alter_Some).
      unfold upd. case_decide; [done|]. unfold m1. by rewrite lk_alter.
  - intros y. unfold m4, m3, m2, m1. by rewrite !lk_alter by done.
  - do 4 (eapply changed_link; [|by intros []]). apply changed_refl.
Qed.



(** The header just before it is linked in. *)
Definition errored (b : buf) : buf := if b_flags b &? B_ERROR then b <| b_dev := NODEV |> else b.

Lemma brelse_error_ok w m x b : m !! x = Some b ->
  exists m1, when (b_flags b &? B_ERROR) (bset x b_dev NODEV) (setb w m) = Ret tt (setb w m1) /\
    (forall f, (forall d c, f (c <| b_dev := d |>) = f c) -> forall y, lk f m1 y = lk f m y) /\
    changed m m1 x errored.
Proof.
  intros Eb. destruct (b_flags b &? B_ERROR) eqn:Ef; cbn [when].
  - eexists. split; [apply bset_setb; by eexists|]. split.
    + intros f Hf y. apply lk_alter. intros c. apply Hf.
    + intros y c Ec. destruct (decide (y = x)) as [->|].
      * rewrite Eb in Ec. injection Ec as <-. rewrite lookup_alter_eq, Eb. eexists. split; [done|].
        unfold errored. rewrite Ef. apply same_buf_refl.
      * rewrite lookup_alter_ne by done. exists c. split; [done|]. apply same_buf_refl.
  - exists m. split; [done|]. split; [done|]. intros y c Ec. exists c. split; [done|].
    destruct (decide (y = x)) as [->|]; [|apply same_buf_refl].
    rewrite Eb in Ec. injection Ec as <-. unfold errored. rewrite Ef. apply same_buf_refl.
Qed.

Lemma brelse_put_ok w m hs H av h x b : cache m hs H av -> h ∈ hs -> x ∈ H h -> x ∉ av ->
  m !! x = Some b ->
  exists m', brelse_put x (setb w m) = Ret tt (setb w m') /\
    cache m' hs H (if b_flags b &? B_AGE then x :: av else av ++ [x]) /\
    changed m m' x released.
Proof.
  intros Hc Hh Hx Hxa Eb.
  destruct (brelse_error_ok w m x b Eb) as (m1 & E1 & Hl1 & Hch1).
  destruct (Hch1 x b Eb) as (b1 & Eb1 & Hs1). rewrite decide_True in Hs1 by done.
  assert (Hav1 : ring (lk av_forw m1) (lk av_back m1) Bfree av).
  { eapply ring_fun; [by apply Hl1|by apply Hl1|]. apply (ca_av _ _ _ _ Hc). }
  assert (Hxf : x ∉ Bfree :: av).
  { apply not_elem_of_cons. split; [|done]. intros ->. apply (ca_head _ _ _ _ Hc h Bfree Hh Hx). left. }
  assert (Hage : b_flags b1 = b_flags b).
  { rewrite (same_buf_flags _ _ Hs1). unfold errored. by destruct (b_flags b &? B_ERROR). }
  set (av' := if b_flags b &? B_AGE then x :: av else av ++ [x]).
  assert (exists m2, (if b_flags b1 &? B_AGE then
     f <- blink Bfree av_forw ;;
     bset f av_back (Some x) ;;;
     f <- bf Bfree av_forw ;; bset x av_forw f ;;;
     bset Bfree av_forw (Some x) ;;;
     bset x av_back (Some Bfree)
   else
     b <- blink Bfree av_back ;;
     bset b av_forw (Some x) ;;;
     b <- bf Bfree av_back ;; bset x av_back b ;;;
     bset Bfree av_back (Some x) ;;;
     bset x av_forw (Some Bfree)) (setb (setpl w 6) m1) = Ret tt (setb (setpl w 6) m2) /\
    ring (lk av_forw m2) (lk av_back m2) Bfree av' /\
    (forall y, lk b_forw m2 y = lk b_forw m1 y /\ lk b_back m2 y = lk b_back m1 y) /\
    changed m1 m2 x (fun b => b)) as (m2 & E2 & Hav2 & Hlk2 & Hch2).
  { unfold av'. rewrite Hage. destruct (b_flags b &? B_AGE);
      [apply link_front_ok|apply link_back_ok]; try done; by eexists. }
  assert (S2 : is_Some (m2 !! x)) by (eapply changed_Some; [exact Hch2|by eexists]).
  set (rel := Z.lor (Z.lor (Z.lor B_WANTED B_BUSY) B_ASYNC) B_AGE).
  assert (Hch : changed m (alter (clr_flags rel) x m2) x released).
  { eapply changed_eq; [eapply changed_alter; [eapply changed_trans; [exact Hch1|exact Hch2|done]|]|].
    - unfold same_buf. intros c c' ->. by destruct c.
    - intros c. unfold errored, released, clr_flags. by destruct (b_flags c &? B_ERROR). }
  exists (alter (clr_flags rel) x m2). split; [|split].
  - unfold brelse_put. erewrite bind_ret_eq by (by apply bhas_setb). cbn beta.
    erewrite bind_ret_eq by exact E1. cbn beta. unfold spl6.
    erewrite bind_ret_eq by apply spl_setb. cbn beta.
    erewrite bind_ret_eq by (by apply bhas_setb). cbn beta.
    erewrite bind_ret_eq by exact E2. cbn beta.
    erewrite bind_ret_eq by (by apply bclr_setb). cbn beta.
    rewrite splx_setb. by destruct w as [? [] ?].
  - apply (released_cache m (alter (clr_flags rel) x m2) hs H av av' h x b); try done.
    + intros y. unfold av'. destruct (b_flags b &? B_AGE); rewrite ?elem_of_cons, ?elem_of_app, ?list_elem_of_singleton; tauto.
    + eapply ring_fun; [..|exact Hav2]; intros y; by rewrite lk_alter.
    + intros y. rewrite !lk_alter by done. destruct (Hlk2 y) as [-> ->]. by split; apply Hl1.
  - exact Hch.
Qed.

(** Giving back a buffer: the processes waiting for it are made runnable
    and it becomes available again, at the end of the list, or at the front
    if it is marked [B_AGE]; a buffer in error loses its block.  All other
    headers keep their contents and the cache is well formed.  (No process
    waits for just any buffer.) *)
Theorem brelse_correct w m hs H av h x b fb l rq : cache m hs H av -> h ∈ hs -> x ∈ H h -> x ∉ av ->
  m !! x = Some b -> m !! Bfree = Some fb -> b_flags fb &? B_WANTED = false ->
  sleepers (ks w) (CBuf x) l rq -> undisturbed (ks w) (CBuf x) l ->
  exists m' k', brelse x (setb w m) = Ret tt (setb (w <| ks := k' |>) m') /\
    (if b_flags b &? B_WANTED then wakes_up (CBuf x) [] l rq (ks w) k' else k' = ks w) /\
    cache m' hs H (if b_flags b &? B_AGE then x :: av else av ++ [x]) /\
    changed m m' x released.
Proof.
  intros Hc Hh Hx Hxa Eb Ef Hwf Hs Ho.
  assert (exists k', when (b_flags b &? B_WANTED) (wakeup (CBuf x)) (setb w m)
            = Ret tt (setb (w <| ks := k' |>) m) /\
          (if b_flags b &? B_WANTED then wakes_up (CBuf x) [] l rq (ks w) k' else k' = ks w)) as (k' & E1 & Hk).
  { destruct (b_flags b &? B_WANTED); [by apply wakeup_setb|].
    exists (ks w). split; [by destruct w|done]. }
  destruct (brelse_put_ok (w <| ks := k' |>) m hs H av h x b Hc Hh Hx Hxa Eb) as (m' & E2 & Hc' & Hch).
  exists m', k'. split; [|done].
  unfold brelse. erewrite bind_ret_eq by (by apply bhas_setb). cbn beta.
  erewrite bind_ret_eq by exact E1. cbn beta.
  erewrite bind_ret_eq by (by apply bhas_setb). cbn beta. rewrite Hwf.
  by erewrite bind_ret_eq by reflexivity.
Qed.

End CacheTheorems.

(** ** Concrete caches

    Two buffers of device 0, for blocks 5 and 7; in the second cache the one
    of block 7 is busy. *)

Definition hdr (flags blkno : Z) (fw bk avf avb : bptr) : buf :=
  buf0 <| b_flags := flags |> <| b_blkno := blkno |> <| b_forw := Some fw |> <| b_back := Some bk |>
    <| av_forw := Some avf |> <| av_back := Some avb |>.
Definition idle_cache : gmap bptr buf := list_to_map
  [(Bfree, hdr 0 0 Bfree Bfree (Buf 1) (Buf 0)); (Dtab 0, hdr 0 0 (Buf 0) (Buf 1) Bfree Bfree);
   (Buf 0, hdr B_DONE 5 (Buf 1) (Dtab 0) Bfree (Buf 1)); (Buf 1, hdr B_DONE 7 (Dtab 0) (Buf 0) (Buf 0) Bfree)].
Definition busy_cache : gmap bptr buf := list_to_map
  [(Bfree, hdr 0 0 Bfree Bfree (Buf 0) (Buf 0)); (Dtab 0, hdr 0 0 (Buf 0) (Buf 1) Bfree Bfree);
   (Buf 0, hdr B_DONE 5 (Buf 1) (Dtab 0) Bfree Bfree);
   (Buf 1, hdr (Z.lor (Z.lor B_DONE B_BUSY) B_WANTED) 7 (Dtab 0) (Buf 0) Bfree Bfree)].
Definition two_heads : list bptr := [Bfree; Dtab 0].
Definition two_bufs (h : bptr) : list bptr := 
  match h with Dtab O => [Buf 0; Buf 1] | _ => [] end.
Definition disk_machine : Machine :=
  Build_Machine (fun _ => 0) 0 (fun _ _ => ret tt) (fun _ => []) (fun _ _ => ret tt) 0 (fun _ => []) (fun _ _ _ => None)
    [mkbdev (fun _ _ => ret tt) (fun _ _ => ret tt) (fun _ => ret tt) (Some (Dtab 0))] [] [] (fun _ => ret tt).

Ltac members := repeat match goal with
  | H : _ ∈ [] |- _ => by apply elem_of_nil in H
  | H : _ ∈ _ :: _ |- _ => apply elem_of_cons in H as [->|H]
  end.
Ltac by_computation := apply (bool_decide_unpack _); vm_compute; exact I.
Ltac small_cache := constructor;
  [ split; [cbn; repeat split|by_computation]
  | intros h Hh; unfold two_heads in Hh; members; (split; [cbn; repeat split|by_computation])
  | intros h h' x Hh Hh' Hx Hx'; unfold two_heads in Hh, Hh'; members; try done; cbn in Hx, Hx'; members
  | intros h x Hh Hx; unfold two_heads in Hh; members; cbn in Hx; members; by_computation
  | intros x Hx; exists (Dtab 0); members; (split; by_computation)
  | intros h x b Hh Hx Hb; unfold two_heads in Hh; members; cbn in Hx; members; (injection Hb as <-;
      (split; intros Hf; first [discriminate Hf | vm_compute; reflexivity | by_computation | by members]))
  | intros h x y bx b_y Hh Hf Hx Hy Ex Ey Hd E1 E2; unfold two_heads in Hh; members; try done;
      cbn in Hx, Hy; members; try done; injection Ex as <-; injection Ey as <-; discriminate ].

Lemma idle_cache_ok : cache idle_cache two_heads two_bufs [Buf 1; Buf 0].
Proof. small_cache. Qed.
Lemma busy_cache_ok : cache busy_cache two_heads two_bufs [Buf 0].
Proof. small_cache. Qed.

Lemma getblk_cached_witness :
  exists av1 av2 m', [Buf 1; Buf 0] = av1 ++ Buf 1 :: av2 /\
    @getblk disk_machine 0 7 (setb world0 idle_cache) =
      Ret (Buf 1) (setb (counted (length av2) (setpl world0 0)) m') /\
    (forall y, y ∈ two_bufs (Dtab 0) -> has_block idle_cache 0 7 y -> y = Buf 1) /\
    cache m' two_heads two_bufs (av1 ++ av2) /\ changed idle_cache m' (Buf 1) (or_flags B_BUSY).
Proof.
  apply (@getblk_cached disk_machine world0 idle_cache two_heads two_bufs [Buf 1; Buf 0] 0 7 (Dtab 0) (Buf 1)
    (hdr B_DONE 7 (Dtab 0) (Buf 0) (Buf 0) Bfree)); try done.
  - exact idle_cache_ok.
  - split; [done|]. by eexists.
  - right. left.
  - right. left.
Defined.

(** A device that writes down the requests it is given, in a table the cache
    does not use; the buffer of block 7 holds a delayed write. *)
Definition noted (w : world) : list (Z * Z * list Z) :=
  map (fun t => (t_dev t, t_col t, t_tc t)) (ttys (ks w)).
Definition entry_note (b : buf) : tty :=
  let q := Clist.mkclist 0 0 0 in
  mktty q q q false (b_dev b) 0 0 0 0 0 (b_blkno b) 0 0 0 0 0 (b_data b).
Definition note (bp : bptr) : KM unit :=
  b <- bget bp ;; kmod (fun k => k <| ttys ::= fun l => l ++ [entry_note b] |>).
Definition noting_machine : Machine :=
  Build_Machine (fun _ => 0) 0 (fun _ _ => ret tt) (fun _ => []) (fun _ _ => ret tt) 0 (fun _ => []) (fun _ _ _ => None)
    [mkbdev (fun _ _ => ret tt) (fun _ _ => ret tt) note (Some (Dtab 0))] [] [] (fun _ => ret tt).
Definition late : buf :=
  (hdr (Z.lor B_DELWRI B_DONE) 7 (Dtab 0) (Buf 0) (Buf 0) Bfree) <| b_data := [1; 2; 3] |>.
Definition late_cache : gmap bptr buf := <[Buf 1 := late]> idle_cache.

Lemma late_cache_ok : cache late_cache two_heads two_bufs [Buf 1; Buf 0].
Proof. small_cache. Qed.

Lemma note_queues hs : @queues hs noted note.
Proof.
  constructor; try done.
  intros w m y b Eb _. exists (w <| ks ::= fun k => k <| ttys ::= fun l => l ++ [entry_note b] |> |>), m.
  split; [|split; [done|split]].
  - unfold note. erewrite bind_ret_eq by (by apply bget_setb). reflexivity.
  - unfold noted. cbn. by rewrite map_app.
  - intros z c Ec. exists c. split; [done|]. split; [done|]. split; [done|]. intros _.
    split; [apply same_buf_refl|done].
Qed.

Lemma getblk_uncached_witness :
  exists w' m', @getblk noting_machine 0 9 (setb world0 late_cache) = Ret (Buf 0) (setb w' m') /\
    env w' = env world0 /\
    ([Buf 1] <> [] -> noted w' = noted world0 ++ map (entry late_cache) [Buf 1]) /\
    cache m' two_heads (moved (Buf 0) (Dtab 0) two_bufs) [] /\
    became two_heads late_cache m' (given_and_sent (Buf 0) [Buf 1] 0 9) /\
    ([Buf 1] = [] -> w' = setpl world0 0 /\ changed late_cache m' (Buf 0) (given 0 9)).
Proof.
  apply (@getblk_uncached noting_machine noted world0 late_cache two_heads two_bufs [Buf 1] (Buf 0) [] 0 9 (Dtab 0)
    (hdr B_DONE 5 (Buf 1) (Dtab 0) Bfree (Buf 1))); try done.
  - exact late_cache_ok.
  - split; [done|]. by eexists.
  - right. left.
  - intros y Hy (b & Eb & E & _). cbn in Hy. members; injection Eb as <-; discriminate E.
  - intros y ->%list_elem_of_singleton. exists late. eexists. split; [done|]. split; [done|].
    split; [done|]. apply note_queues.
Defined.

Lemma brelse_correct_witness :
  exists m' k', @brelse disk_machine (Buf 1) (setb waiting busy_cache) =
      Ret tt (setb (waiting <| ks := k' |>) m') /\
    @wakes_up disk_machine (CBuf (Buf 1)) [] [1; 0; 2]%nat [3; 4]%nat (ks waiting) k' /\
    cache m' two_heads two_bufs [Buf 0; Buf 1] /\ changed busy_cache m' (Buf 1) released.
Proof.
  apply (@brelse_correct disk_machine waiting busy_cache two_heads two_bufs [Buf 0] (Dtab 0) (Buf 1)
    (hdr (Z.lor (Z.lor B_DONE B_BUSY) B_WANTED) 7 (Dtab 0) (Buf 0) Bfree Bfree)
    (hdr 0 0 Bfree Bfree (Buf 0) (Buf 0)) [1; 0; 2]%nat [3; 4]%nat); try done.
  - exact busy_cache_ok.
  - right. left.
  - right. left.
  - by_computation.
  - destruct waiting_sleepers. by constructor.
  - by left.
Defined.
