(* ===== verification/Alloc.v ===== *)
(** * Alloc: the free lists of a file system ([sys/alloc.c])

    The super block of a mounted file system is kept in the buffer its mount
    entry names; a pointer to it is that buffer.  It lists up to NICFREE free
    blocks, the first of which holds the list continued, and up to NICINOD
    free i-numbers. *)

From S2P Require Import Prelude Bytes State Sched Bio.

(** ** The super block in its buffer *)

Definition fsget (fp : bptr) (f : field) : KM Z := d <- bf fp b_data ;; ret (rdf f d).
Definition fsset (fp : bptr) (f : field) (v : Z) : KM unit :=
  d <- bf fp b_data ;; bset fp b_data (wrf f v d).
(** [fp->s_free[n]], [fp->s_inode[n]] *)
Definition s_free_at (n : Z) : field := fld (Z.to_nat (12 + 4 * n)) CS32.
Definition s_inode_at (n : Z) : field := fld (Z.to_nat (214 + 2 * n)) CU16.
Definition sizeof_s_free : nat := 200.

Section Alloc.
Context {MC : Machine}.

(** [while(fp->s_flock) sleep(&fp->s_flock, PINOD);] *)
Definition wait_lock (fp : bptr) (f : field) : KM unit :=
  n <- rounds ;;
  loop n (fun _ : unit =>
    l <- fsget fp f ;;
    if tst l then sleep (CFs fp f) PINOD ;;; ret (inl tt) else ret (inr tt)) tt.

(** The super block of a device; the counts are checked and, when they are
    out of range, cleared. *)
Definition getfs (dev : Z) : KM bptr :=
  o <- for_find (slots NMOUNT) (fun mp =>
    m <- tget mounts mp ;;
    match m_bufp m with
    | Some fp => ret (if m_dev m =? dev then Some fp else None)
    | None => ret None
    end) ;;
  match o with
  | Some fp =>
      nf <- fsget fp s_nfree ;; ni <- fsget fp s_ninode ;;
      when ((NICFREE <? nf) || (NICINOD <? ni))
        (prdev "bad count" dev ;;; fsset fp s_nfree 0 ;;; fsset fp s_ninode 0) ;;;
      ret fp
  | None => panic "no fs"
  end.

Definition badblock (fp : bptr) (bn dev : Z) : KM bool :=
  isize <- fsget fp s_isize ;; fsize <- fsget fp s_fsize ;;
  if (bn <? isize) || (fsize <=? bn) then prdev "bad block" dev ;;; ret true
  else ret false.

Definition nospace (fp : bptr) (dev : Z) : KM (option bptr) :=
  fsset fp s_nfree 0 ;;;
  prdev "no space" dev ;;;
  set_error ENOSPC ;;;
  ret None.

(** The [do] loop: a block number off the list, or [None] for [nospace]. *)
Definition alloc_take (fp : bptr) (dev : Z) : KM (option Z) :=
  loop (S (S (Z.to_nat NICFREE))) (fun _ : unit =>
    nf <- fsget fp s_nfree ;;
    if nf <=? 0 then ret (inr None)
    else if NICFREE <? nf then prdev "Bad free count" dev ;;; ret (inr None)
    else
      fsset fp s_nfree (nf - 1) ;;;
      bno <- fsget fp (s_free_at (nf - 1)) ;;
      if bno =? 0 then ret (inr None)
      else
        bad <- badblock fp bno dev ;;
        ret (if bad : bool then inl tt else inr (Some bno))) tt.

(** Take in the list that the block just taken continues. *)
Definition alloc_refill (fp : bptr) (dev bno : Z) : KM unit :=
  l <- fsget fp s_flock ;; fsset fp s_flock (l + 1) ;;;
  bp <- bread dev bno ;;
  e <- bhas bp B_ERROR ;;
  when (negb e)
    (d <- bf bp b_data ;;
     fsset fp s_nfree (rdf df_nfree d) ;;;
     s <- bf fp b_data ;;
     bset fp b_data (splice (f_off s_free) (sub (f_off df_free) sizeof_s_free d) s)) ;;;
  brelse bp ;;;
  fsset fp s_flock 0 ;;;
  wakeup (CFs fp s_flock).

Definition alloc (dev : Z) : KM (option bptr) :=
  fp <- getfs dev ;;
  wait_lock fp s_flock ;;;
  o <- alloc_take fp dev ;;
  match o with
  | None => nospace fp dev
  | Some bno =>
      nf <- fsget fp s_nfree ;;
      when (nf <=? 0) (alloc_refill fp dev bno) ;;;
      nf' <- fsget fp s_nfree ;;
      if (nf <=? 0) && (nf' <=? 0) then nospace fp dev
      else
        bp <- getblk dev bno ;;
        clrbuf bp ;;;
        fsset fp s_fmod 1 ;;;
        ret (Some bp)
  end.

(** The full list goes into the block, which becomes the first of a new one. *)
Definition free_spill (fp : bptr) (dev bno : Z) : KM unit :=
  l <- fsget fp s_flock ;; fsset fp s_flock (l + 1) ;;;
  bp <- getblk dev bno ;;
  nf <- fsget fp s_nfree ;;
  d <- bf bp b_data ;;
  s <- bf fp b_data ;;
  bset bp b_data (splice (f_off df_free) (sub (f_off s_free) sizeof_s_free s) (wrf df_nfree nf d)) ;;;
  fsset fp s_nfree 0 ;;;
  bwrite bp ;;;
  fsset fp s_flock 0 ;;;
  wakeup (CFs fp s_flock).

Definition free (dev bno : Z) : KM unit :=
  fp <- getfs dev ;;
  fsset fp s_fmod 1 ;;;
  wait_lock fp s_flock ;;;
  bad <- badblock fp bno dev ;;
  if bad : bool then ret tt
  else
    nf <- fsget fp s_nfree ;;
    when (nf <=? 0) (fsset fp s_nfree 1 ;;; fsset fp (s_free_at 0) 0) ;;;
    nf <- fsget fp s_nfree ;;
    when (NICFREE <=? nf) (free_spill fp dev bno) ;;;
    nf <- fsget fp s_nfree ;;
    fsset fp (s_free_at nf) bno ;;;
    fsset fp s_nfree (nf + 1) ;;;
    fsset fp s_fmod 1.

Definition ifree (dev ino : Z) : KM unit :=
  fp <- getfs dev ;;
  l <- fsget fp s_ilock ;;
  if tst l then ret tt
  else
    ni <- fsget fp s_ninode ;;
    if NICINOD <=? ni then ret tt
    else
      fsset fp (s_inode_at ni) ino ;;;
      fsset fp s_ninode (ni + 1) ;;;
      fsset fp s_fmod 1.

(** The root's super block at start: in a buffer of its own, unlocked and
    writable; it gives the time if there is none yet. *)
Definition iinit : KM unit :=
  root <- kf rootdev ;;
  sw <- bdevsw_at root ;;
  d_open sw root true ;;;
  bp <- bread root SUPERB ;;
  cp <- geteblk ;;
  e <- uf u_error ;;
  (if tst e then panic "iinit" else ret tt) ;;;
  d <- bf bp b_data ;;
  c <- bf cp b_data ;;
  bset cp b_data (splice 0 (take sizeof_filsys d) c) ;;;
  brelse bp ;;;
  mpset 0 m_bufp (Some cp) ;;;
  mpset 0 m_dev root ;;;
  fsset cp s_flock 0 ;;;
  fsset cp s_ilock 0 ;;;
  fsset cp s_ronly 0 ;;;
  t <- kf time ;;
  when (t =? 0) (t <- fsget cp s_time ;; kset time t).

End Alloc.
