(* ===== verification/Inode.v ===== *)
(** * Inode: inodes in core and on the disk ([sys/iget.c], the rest of
      [sys/alloc.c], and [plock] and [prele] of [sys/pipe.c])

    [iget] and [iput] count the references to an entry of the inode table and
    lock it; [iexpand] and [iupdat] convert it from and to its form on the
    disk, where an address takes three bytes. *)

From S2P Require Import Prelude Bytes State Sched Bio Alloc.

Definition ILOCK : Z := 1.
Definition IUPD : Z := 2.
Definition IACC : Z := 4.
Definition IMOUNT : Z := 8.
Definition IWANT : Z := 16.
Definition ITEXT : Z := 32.
Definition ICHG : Z := 64.

Definition IFMT : Z := 61440.
Definition IFDIR : Z := 16384.
Definition IFCHR : Z := 8192.
Definition IFBLK : Z := 24576.
Definition IFREG : Z := 32768.
Definition IFMPC : Z := 12288.
Definition IFMPB : Z := 28672.
Definition ISUID : Z := 2048.
Definition ISGID : Z := 1024.
Definition ISVTX : Z := 512.
Definition IREAD : Z := 256.
Definition IWRITE : Z := 128.
Definition IEXEC : Z := 64.

(** inumber to disk address and to disk offset *)
Definition itod (ino : Z) : Z := Z.shiftr (u32 (ino + 15)) 3.
Definition itoo (ino : Z) : Z := Z.land (ino + 15) 7.

(** [ip->i_flag |= m], [ip->i_flag &= ~m]; the type of the file. *)
Definition ior (ip : nat) (m : Z) : KM unit := f <- ipf ip i_flag ;; ipset ip i_flag (s8 (Z.lor f m)).
Definition iclr (ip : nat) (m : Z) : KM unit := f <- ipf ip i_flag ;; ipset ip i_flag (s8 (clr f m)).
Definition ihas (ip : nat) (m : Z) : KM bool := f <- ipf ip i_flag ;; ret (f &? m).
Definition ifmt (mode : Z) : Z := Z.land mode IFMT.

(** ** The form on the disk *)

(** The fields of inode [k] of a block. *)
Definition dino (k : Z) (f : field) : field := at_ (Z.to_nat k * sizeof_dinode) f.

(** The thirteen addresses, three bytes of each; [iexpand] makes the fourth 0. *)
Definition expand_addr (base : nat) (d : list Z) : list Z :=
  map (fun i => leval (sub (base + f_off di_addr + 3 * i) 3 d)) (seq 0 (Z.to_nat NADDR)).

Definition iexpand (k : Z) (d : list Z) (r : inode) : inode :=
  r <| i_mode := rdf (dino k di_mode) d |> <| i_nlink := rdf (dino k di_nlink) d |>
    <| i_uid := rdf (dino k di_uid) d |> <| i_gid := rdf (dino k di_gid) d |>
    <| i_size := rdf (dino k di_size) d |>
    <| i_addr := expand_addr (Z.to_nat k * sizeof_dinode) d |>.

(** [iupdat]'s stores into the block. *)
Definition pack_addr (base : nat) (addr : list Z) (d : list Z) : list Z :=
  fold_left (fun d i => splice (base + f_off di_addr + 3 * i) (bytes_of 3 (nth i addr 0)) d)
    (seq 0 (Z.to_nat NADDR)) d.
Definition dupdate (k : Z) (r : inode) (d : list Z) : list Z :=
  pack_addr (Z.to_nat k * sizeof_dinode) (i_addr r)
    (wrf (dino k di_size) (i_size r)
    (wrf (dino k di_gid) (i_gid r)
    (wrf (dino k di_uid) (i_uid r)
    (wrf (dino k di_nlink) (i_nlink r)
    (wrf (dino k di_mode) (i_mode r) d))))).

(** An address whose top byte the disk has no room for is complained about,
    except in a multiplexed special file. *)
Definition wide (addr : Z) : bool := tst (nth 3 (bytes_of 4 addr) 0).

Section Inode.
Context {MC : Machine}.

(** ** Locking ([pipe.c]) *)

Definition plock (ip : nat) : KM unit :=
  n <- rounds ;;
  loop n (fun _ : unit =>
    l <- ihas ip ILOCK ;;
    if l : bool then ior ip IWANT ;;; sleep (CInode ip 0) PINOD ;;; ret (inl tt)
    else ret (inr tt)) tt ;;;
  ior ip ILOCK.

Definition prele (ip : nat) : KM unit :=
  iclr ip ILOCK ;;;
  w <- ihas ip IWANT ;;
  when w (iclr ip IWANT ;;; wakeup (CInode ip 0)).

(** ** Writing an inode back *)

(** [ta] and [tm] are [*ta] and [*tm]. *)
Definition iupdat (ip : nat) (ta tm : KM Z) : KM unit :=
  dirty <- ihas ip (Z.lor (Z.lor IUPD IACC) ICHG) ;;
  if negb dirty then ret tt
  else
    dev <- ipf ip i_dev ;;
    fp <- getfs dev ;;
    ro <- fsget fp s_ronly ;;
    if tst ro then ret tt
    else
      ino <- ipf ip i_number ;;
      bp <- bread dev (itod ino) ;;
      e <- bhas bp B_ERROR ;;
      if e : bool then brelse bp
      else
        r <- tget inodes ip ;;
        let k := itoo (i_number r) in
        d <- bf bp b_data ;;
        bset bp b_data (dupdate k r d) ;;;
        for_ (i_addr r) (fun a =>
          when (wide a && negb (ifmt (i_mode r) =? IFMPC) && negb (ifmt (i_mode r) =? IFMPB))
            (printf "iaddress > 2^24")) ;;;
        when (i_flag r &? IACC)
          (t <- ta ;; d <- bf bp b_data ;; bset bp b_data (wrf (dino k di_atime) t d)) ;;;
        when (i_flag r &? IUPD)
          (t <- tm ;; d <- bf bp b_data ;; bset bp b_data (wrf (dino k di_mtime) t d)) ;;;
        when (i_flag r &? ICHG)
          (t <- kf time ;; d <- bf bp b_data ;; bset bp b_data (wrf (dino k di_ctime) t d)) ;;;
        iclr ip (Z.lor (Z.lor IUPD IACC) ICHG) ;;;
        bdwrite bp.

(** ** Freeing the blocks of a file *)

(** The loop of [tloop] over an indirect block, given what it does with each
    address: from the last to the first, with the block read in again after a
    nested [tloop] gave it up; [None] when it cannot be read. *)
Definition tloop_body (dev bn : Z) (sub : option (Z -> KM unit)) (x : nat * option bptr) :
    KM (nat * option bptr + option (option bptr)) :=
  let '(n, bp) := x in
  match n with
  | O => ret (inr (Some bp))
  | S i =>
      o <- match bp with
           | Some bp => ret (Some bp)
           | None =>
               bp <- bread dev bn ;;
               e <- bhas bp B_ERROR ;;
               if e : bool then brelse bp ;;; ret None else ret (Some bp)
           end ;;
      match o with
      | None => ret (inr None)
      | Some bp =>
          d <- bf bp b_data ;;
          let nb := rdf (elt b_daddr i) d in
          if nb =? 0 then ret (inl (i, Some bp))
          else match sub with
               | Some tl => brelse bp ;;; tl nb ;;; ret (inl (i, None))
               | None => free dev nb ;;; ret (inl (i, Some bp))
               end
      end
  end.

(** [tloop(dev, bn, f1, f2)]; each call clears a flag, so the depth is at
    most 3. *)
Fixpoint tloop_n (n : nat) (dev bn : Z) (f1 f2 : bool) : KM unit :=
  match n with
  | O => nofuel
  | S n =>
      o <- loop (S (Z.to_nat NINDIR))
             (tloop_body dev bn (if f1 then Some (fun nb => tloop_n n dev nb f2 false) else None))
             (Z.to_nat NINDIR, None) ;;
      match o with
      | None => ret tt
      | Some bp =>
          match bp with Some bp => brelse bp | None => ret tt end ;;;
          free dev bn
      end
  end.
Definition tloop : Z -> Z -> bool -> bool -> KM unit := tloop_n 3.

Definition itrunc (ip : nat) : KM unit :=
  mode <- ipf ip i_mode ;;
  if negb (ifmt mode =? IFREG) && negb (ifmt mode =? IFDIR) then ret tt
  else
    dev <- ipf ip i_dev ;;
    for_ (rev (seq 0 (Z.to_nat NADDR))) (fun i =>
      a <- ipf ip i_addr ;;
      let bn := nth i a 0 in
      if bn =? 0 then ret tt
      else
        ipset ip i_addr (<[i := 0]> a) ;;;
        if Nat.eqb i 10 then tloop dev bn false false
        else if Nat.eqb i 11 then tloop dev bn true false
        else if Nat.eqb i 12 then tloop dev bn true true
        else free dev bn) ;;;
    ipset ip i_size 0 ;;;
    ior ip (Z.lor ICHG IUPD).

(** ** References *)

Definition iput (ip : nat) : KM unit :=
  c <- ipf ip i_count ;;
  when (c =? 1)
    (ior ip ILOCK ;;;
     nl <- ipf ip i_nlink ;;
     when (nl <=? 0)
       (itrunc ip ;;;
        ipset ip i_mode 0 ;;;
        ior ip (Z.lor IUPD ICHG) ;;;
        dev <- ipf ip i_dev ;; ino <- ipf ip i_number ;;
        ifree dev ino) ;;;
     iupdat ip (kf time) (kf time) ;;;
     prele ip ;;;
     ipset ip i_flag 0 ;;;
     ipset ip i_number 0) ;;;
  c <- ipf ip i_count ;;
  ipset ip i_count (s8 (c - 1)) ;;;
  prele ip.

(** What the search of the inode table finds: the inode in core, or the
    first free slot, if there is one. *)
Inductive found := InCore (ip : nat) | Slot (oip : option nat).
Definition iget_scan (dev ino : Z) : KM found :=
  t <- kf inodes ;;
  loop (S (length t)) (fun x : nat * option nat =>
    let '(ip, oip) := x in
    if Nat.leb (length t) ip then ret (inr (Slot oip))
    else
      r <- tget inodes ip ;;
      if (ino =? i_number r) && (dev =? i_dev r) then ret (inr (InCore ip))
      else ret (inl (S ip, if bool_decide (oip = None) && (i_count r =? 0) then Some ip else oip)))
    (0%nat, None).

(** The mount entry on an inode. *)
Definition mounted_on (ip : nat) : KM (option nat) :=
  for_find (slots NMOUNT) (fun mp =>
    i <- mpf mp m_inodp ;; ret (if bool_decide (i = Some ip) then Some mp else None)).

(** Bring inode [ino] into the free entry [ip]. *)
Definition iget_read (ip : nat) (dev ino : Z) : KM (option nat) :=
  ipset ip i_dev dev ;;;
  ipset ip i_number ino ;;;
  ipset ip i_flag ILOCK ;;;
  c <- ipf ip i_count ;; ipset ip i_count (s8 (c + 1)) ;;;
  ipset ip i_lastr 0 ;;;
  bp <- bread dev (itod ino) ;;
  e <- bhas bp B_ERROR ;;
  if e : bool then
    brelse bp ;;;
    iput ip ;;;
    ret None
  else
    d <- bf bp b_data ;;
    tmod inodes ip (iexpand (itoo ino) d) ;;;
    brelse bp ;;;
    ret (Some ip).

(** Each [goto loop] of [iget] follows a sleep or the step through a mount
    point. *)
Definition iget (dev ino : Z) : KM (option nat) :=
  n <- rounds ;;
  loop (n * S NMOUNT) (fun x : Z * Z =>
    let '(dev, ino) := x in
    f <- iget_scan dev ino ;;
    match f with
    | InCore ip =>
        l <- ihas ip ILOCK ;;
        if l : bool then
          ior ip IWANT ;;;
          sleep (CInode ip 0) PINOD ;;;
          ret (inl (dev, ino))
        else
          m <- ihas ip IMOUNT ;;
          if m : bool then
            o <- mounted_on ip ;;
            match o with
            | Some mp => d <- mpf mp m_dev ;; ret (inl (d, ROOTINO))
            | None => panic "no imt"
            end
          else
            c <- ipf ip i_count ;; ipset ip i_count (s8 (c + 1)) ;;;
            ior ip ILOCK ;;;
            ret (inr (Some ip))
    | Slot None =>
        printf "Inode table overflow" ;;;
        set_error ENFILE ;;;
        ret (inr None)
    | Slot (Some ip) => o <- iget_read ip dev ino ;; ret (inr o)
    end) (dev, ino).

(** ** Allocating an inode ([alloc.c]) *)

(** The inodes of a block of the i-list that are free and not in core go
    into the super block's list. *)
Definition in_core (dev ino : Z) : KM bool :=
  t <- kf inodes ;;
  ret (existsb (fun r => (dev =? i_dev r) && (ino =? i_number r)) t).
Definition ialloc_block (fp bp : bptr) (dev ino : Z) : KM Z :=
  loop (S (Z.to_nat INOPB)) (fun x : nat * Z =>
    let '(i, ino) := x in
    if Nat.leb (Z.to_nat INOPB) i then ret (inr ino)
    else
      d <- bf bp b_data ;;
      core <- in_core dev ino ;;
      if tst (rdf (dino (Z.of_nat i) di_mode) d) || core then ret (inl (S i, u16 (ino + 1)))
      else
        ni <- fsget fp s_ninode ;;
        fsset fp s_ninode (ni + 1) ;;;
        fsset fp (s_inode_at ni) ino ;;;
        ni <- fsget fp s_ninode ;;
        if NICINOD <=? ni then ret (inr ino) else ret (inl (S i, u16 (ino + 1)))) (0%nat, ino).

(** The linear search through the i-list. *)
Definition ialloc_search (fp : bptr) (dev : Z) : KM unit :=
  n <- fsget fp s_isize ;;
  loop (S (Z.to_nat n)) (fun x : Z * Z =>
    let '(adr, ino) := x in
    isize <- fsget fp s_isize ;;
    if isize <=? adr then ret (inr tt)
    else
      bp <- bread dev adr ;;
      e <- bhas bp B_ERROR ;;
      if e : bool then brelse bp ;;; ret (inl (adr + 1, u16 (ino + INOPB)))
      else
        ino <- ialloc_block fp bp dev ino ;;
        brelse bp ;;;
        ni <- fsget fp s_ninode ;;
        ret (if NICINOD <=? ni then inr tt else inl (adr + 1, ino))) (SUPERB + 1, 1).

(** One round of [ialloc], up to a [goto loop] or a [return]. *)
Definition ialloc_round (fp : bptr) (dev : Z) : KM (unit + option nat) :=
  ni <- fsget fp s_ninode ;;
  if 0 <? ni then
    fsset fp s_ninode (ni - 1) ;;;
    ino <- fsget fp (s_inode_at (ni - 1)) ;;
    if ino <? ROOTINO then ret (inl tt)
    else
      o <- iget dev ino ;;
      match o with
      | None => ret (inr None)
      | Some ip =>
          mode <- ipf ip i_mode ;;
          if mode =? 0 then
            ipset ip i_addr (replicate (Z.to_nat NADDR) 0) ;;;
            fsset fp s_fmod 1 ;;;
            ret (inr (Some ip))
          else iput ip ;;; ret (inl tt)
      end
  else
    l <- fsget fp s_ilock ;; fsset fp s_ilock (l + 1) ;;;
    ialloc_search fp dev ;;;
    fsset fp s_ilock 0 ;;;
    wakeup (CFs fp s_ilock) ;;;
    ni <- fsget fp s_ninode ;;
    if 0 <? ni then ret (inl tt)
    else
      prdev "Out of inodes" dev ;;;
      set_error ENOSPC ;;;
      ret (inr None).

(** Rounds without a search use up the list, at most NICINOD of them; a
    search finds an i-number that is then taken unless another process got it
    meanwhile, so [fuel] counts the lists. *)
Definition ialloc_fuel (fuel : nat) (dev : Z) : KM (option nat) :=
  fp <- getfs dev ;;
  wait_lock fp s_ilock ;;;
  loop (fuel * S (S (Z.to_nat NICINOD))) (fun _ : unit => ialloc_round fp dev) tt.
Definition ialloc (dev : Z) : KM (option nat) := n <- rounds ;; ialloc_fuel (2 * n) dev.

(** ** [update] ([alloc.c]) *)

Definition update : KM unit :=
  lk <- kf updlock ;;
  if tst lk then ret tt
  else
    kset updlock (lk + 1) ;;;
    for_ (slots NMOUNT) (fun mp =>
      m <- tget mounts mp ;;
      match m_bufp m with
      | None => ret tt
      | Some fp =>
          fm <- fsget fp s_fmod ;; il <- fsget fp s_ilock ;;
          fl <- fsget fp s_flock ;; ro <- fsget fp s_ronly ;;
          if (fm =? 0) || tst il || tst fl || tst ro then ret tt
          else
            bp <- getblk (m_dev m) SUPERB ;;
            e <- bhas bp B_ERROR ;;
            if e : bool then ret tt
            else
              fsset fp s_fmod 0 ;;;
              t <- kf time ;; fsset fp s_time t ;;;
              d <- bf fp b_data ;;
              bset bp b_data (take (Z.to_nat BSIZE) d) ;;;
              bwrite bp
      end) ;;;
    n <- kf inodes ;;
    for_ (slots (length n)) (fun ip =>
      r <- tget inodes ip ;;
      when (negb (i_flag r &? ILOCK) && tst (i_count r))
        (ior ip ILOCK ;;;
         c <- ipf ip i_count ;; ipset ip i_count (s8 (c + 1)) ;;;
         iupdat ip (kf time) (kf time) ;;;
         iput ip)) ;;;
    kset updlock 0 ;;;
    bflush NODEV.

End Inode.

(** ** The two forms of an inode *)

(** The fields of inode [k] of a block lie in its 64 bytes. *)
Definition inode_field (f : field) : Prop := (f_off f + width (f_ty f) <= sizeof_dinode)%nat.
Definition k_ok (k : Z) : Prop := 0 <= k < INOPB.
Abbreviation block d := (length d = Z.to_nat BSIZE).

Lemma dino_bounds k f (d : list Z) : k_ok k -> inode_field f -> block d -> in_bounds (dino k f) d.
Proof.
  unfold k_ok, inode_field, in_bounds, dino, at_, INOPB, BSIZE, sizeof_dinode. cbn [f_off f_ty]. lia.
Qed.

(** The stores of the thirteen addresses. *)
Definition addr_off (base i : nat) : nat := base + f_off di_addr + 3 * i.
Lemma pack_fold base addr l : forall d, (forall i, i ∈ l -> (i < 13)%nat) -> (addr_off base 13 <= length d)%nat ->
  let d' := fold_left (fun d i => splice (addr_off base i) (bytes_of 3 (nth i addr 0)) d) l d in
  length d' = length d /\
  (forall o n, (forall i, i ∈ l -> (o + n <= addr_off base i \/ addr_off base i + 3 <= o)%nat) -> sub o n d' = sub o n d) /\
  (NoDup l -> forall i, i ∈ l -> sub (addr_off base i) 3 d' = bytes_of 3 (nth i addr 0)).
Proof.
  induction l as [|j l IH]; intros d Hl Hd d'.
  { split; [done|]. split; [done|]. intros _ i Hi. by apply not_elem_of_nil in Hi. }
  pose proof (Hl j (list_elem_of_here _ _)) as Hj.
  assert (Hs : (addr_off base j + length (bytes_of 3 (nth j addr 0%Z)) <= length d)%nat)
    by (rewrite length_bytes_of; unfold addr_off in *; lia).
  set (d1 := splice (addr_off base j) (bytes_of 3 (nth j addr 0)) d).
  assert (Hd1 : length d1 = length d) by (by apply length_splice).
  destruct (IH d1) as (E1 & E2 & E3); [intros i Hi; apply Hl; by right|by rewrite Hd1|].
  subst d'. cbn [fold_left]. fold d1. split; [by rewrite E1|]. split.
  - intros o n H. rewrite E2 by (intros i Hi; apply H; by right).
    apply sub_splice_ne; [done|]. rewrite length_bytes_of. apply H, list_elem_of_here.
  - intros [Hnj Hnd]%NoDup_cons i [->|Hi]%elem_of_cons; [|by apply E3].
    rewrite E2; [by apply sub_splice; rewrite ?length_bytes_of|].
    intros i Hi. assert (i <> j) by (by intros ->). unfold addr_off. lia.
Qed.

Lemma pack_addr_ok base addr (d : list Z) : (addr_off base 13 <= length d)%nat ->
  let d' := pack_addr base addr d in
  length d' = length d /\
  (forall o n, (o + n <= addr_off base 0 \/ addr_off base 13 <= o)%nat -> sub o n d' = sub o n d) /\
  (forall i, (i < 13)%nat -> sub (addr_off base i) 3 d' = bytes_of 3 (nth i addr 0)).
Proof.
  intros Hd d'. destruct (pack_fold base addr (seq 0 13) d) as (E1 & E2 & E3); [intros i ?%elem_of_seq; lia|done|].
  split; [done|]. split.
  - intros o n H. apply E2. intros i ?%elem_of_seq. unfold addr_off in *. lia.
  - intros i Hi. apply E3; [apply NoDup_seq|]. apply elem_of_seq. lia.
Qed.

(** A field clear of the addresses is not touched by them. *)
Lemma rdf_pack base addr f (d : list Z) : (addr_off base 13 <= length d)%nat ->
  (f_off f + width (f_ty f) <= addr_off base 0 \/ addr_off base 13 <= f_off f)%nat ->
  rdf f (pack_addr base addr d) = rdf f d.
Proof. intros Hd Hf. unfold rdf. by rewrite (proj1 (proj2 (pack_addr_ok base addr d Hd))). Qed.
Lemma in_bounds_pack base addr f (d : list Z) : (addr_off base 13 <= length d)%nat ->
  in_bounds f d -> in_bounds f (pack_addr base addr d).
Proof. intros Hd. unfold in_bounds. by rewrite (proj1 (pack_addr_ok base addr d Hd)). Qed.

Lemma expand_pack base addr (d : list Z) : (addr_off base 13 <= length d)%nat ->
  length addr = 13%nat -> Forall (fun a => 0 <= a < 2 ^ 24) addr ->
  expand_addr base (pack_addr base addr d) = addr.
Proof.
  intros Hd Hl Ha. destruct (pack_addr_ok base addr d Hd) as (_ & _ & E).
  unfold expand_addr. change (Z.to_nat NADDR) with 13%nat.
  apply (nth_ext _ _ 0 0); [by rewrite length_map, length_seq|].
  rewrite length_map, length_seq. intros i Hi.
  rewrite (nth_indep _ 0 (leval (sub (addr_off base 0) 3 (pack_addr base addr d)))) by (by rewrite length_map, length_seq).
  rewrite (map_nth (fun i => leval (sub (addr_off base i) 3 (pack_addr base addr d)))), seq_nth by done.
  rewrite E by done. rewrite leval_bytes_of. apply Z.mod_small.
  eapply (Forall_nth _ 0 addr) in Ha; [exact Ha|lia].
Qed.

(** The other direction: packing what was expanded. *)
Lemma splice_sub {A} off n (l : list A) : (off + n <= length l)%nat -> splice off (sub off n l) l = l.
Proof.
  intros H. apply list_eq; intros i. rewrite lookup_splice by (rewrite length_sub; lia).
  rewrite length_sub by done. destruct (decide _); [|done]. rewrite lookup_sub by lia. f_equal. lia.
Qed.
Lemma sub_byte off n l : Forall byte l -> Forall byte (sub off n l).
Proof. intros H. by apply Forall_take, Forall_drop. Qed.

Lemma bytes_of_sub off n l : (off + n <= length l)%nat -> Forall byte l ->
  bytes_of n (leval (sub off n l)) = sub off n l.
Proof.
  intros Hd Hb. rewrite <- (bytes_of_leval (sub off n l)) at 2 by (by apply sub_byte). by rewrite length_sub.
Qed.

Lemma bytes_of_mod n v w : v mod 256 ^ Z.of_nat n = w mod 256 ^ Z.of_nat n -> bytes_of n v = bytes_of n w.
Proof.
  intros H. rewrite <- (bytes_of_leval (bytes_of n v)), <- (bytes_of_leval (bytes_of n w)) by apply bytes_of_byte.
  by rewrite !length_bytes_of, !leval_bytes_of, H.
Qed.
Lemma cast_congr t v : cast t v mod 256 ^ Z.of_nat (width t) = v mod 256 ^ Z.of_nat (width t).
Proof.
  destruct t; cbn [cast width]; unfold u8, s8, u16, s16, u32, s32, wrapU;
    first [by rewrite Z.mod_mod|apply (wrapS_mod 8)|apply (wrapS_mod 16)|apply (wrapS_mod 32)]; lia.
Qed.
Lemma wrf_rdf f l : in_bounds f l -> Forall byte l -> wrf f (rdf f l) l = l.
Proof.
  intros Hb Hl. unfold wrf, rdf. rewrite (bytes_of_mod _ _ (leval (sub (f_off f) (width (f_ty f)) l))) by apply cast_congr.
  rewrite bytes_of_sub by done. by apply splice_sub.
Qed.

Lemma pack_expand base (d : list Z) : (addr_off base 13 <= length d)%nat -> Forall byte d ->
  pack_addr base (expand_addr base d) d = d.
Proof.
  intros Hd Hb. unfold pack_addr. change (Z.to_nat NADDR) with 13%nat.
  assert (H : forall l, (forall i, i ∈ l -> (i < 13)%nat) ->
    fold_left (fun d' i => splice (base + f_off di_addr + 3 * i) (bytes_of 3 (nth i (expand_addr base d) 0)) d') l d = d).
  { induction l as [|i l IH]; intros Hl; [done|]. cbn [fold_left].
    assert (Hi : (i < 13)%nat) by apply Hl, list_elem_of_here.
    assert (E : nth i (expand_addr base d) 0 = leval (sub (addr_off base i) 3 d)).
    { unfold expand_addr. rewrite (nth_indep _ 0 (leval (sub (addr_off base 0) 3 d))) by (by rewrite length_map, length_seq).
      by rewrite (map_nth (fun i => leval (sub (addr_off base i) 3 d))), seq_nth. }
    rewrite E. fold (addr_off base i).
    rewrite bytes_of_sub by (done || unfold addr_off in *; lia).
    rewrite splice_sub by (unfold addr_off in *; lia). apply IH. intros j Hj. apply Hl. by right. }
  apply H. intros i ?%elem_of_seq. lia.
Qed.

(** The values an inode's fields can have, its addresses those the disk has
    room for. *)
Record fits (r : inode) : Prop := {
  ft_mode : 0 <= i_mode r < 65536;
  ft_nlink : -32768 <= i_nlink r < 32768;
  ft_uid : -32768 <= i_uid r < 32768;
  ft_gid : -32768 <= i_gid r < 32768;
  ft_size : -2147483648 <= i_size r < 2147483648;
  ft_addr : length (i_addr r) = 13%nat;
  ft_small : Forall (fun a => 0 <= a < 2 ^ 24) (i_addr r)
}.

Ltac in_block := repeat apply in_bounds_wrf; (apply dino_bounds; [done|unfold inode_field, sizeof_dinode; cbn; lia|done]).
Ltac dino_apart := unfold apart, addr_off, dino, at_, k_ok, INOPB, sizeof_dinode in *; cbn in *; lia.

Lemma sub_wrf_ne off n f v l : in_bounds f l ->
  (off + n <= f_off f \/ f_off f + width (f_ty f) <= off)%nat -> sub off n (wrf f v l) = sub off n l.
Proof. intros Hb Ho. apply sub_splice_ne; by rewrite length_bytes_of. Qed.

Section Forms.
Context (k : Z) (d : list Z).
Hypothesis k_in : k_ok k.
Hypothesis d_block : block d.

(** The header fields, before the addresses. *)
Definition put_header (r : inode) : list Z :=
    wrf (dino k di_size) (i_size r)
    (wrf (dino k di_gid) (i_gid r)
    (wrf (dino k di_uid) (i_uid r)
    (wrf (dino k di_nlink) (i_nlink r)
    (wrf (dino k di_mode) (i_mode r) d)))).
Lemma length_header r : length (put_header r) = length d.
Proof using k_in d_block. unfold put_header. rewrite !length_wrf; [done|in_block..]. Qed.
Lemma header_room r : (addr_off (Z.to_nat k * sizeof_dinode) 13 <= length (put_header r))%nat.
Proof using k_in d_block.
  rewrite length_header, d_block. unfold addr_off, k_ok, INOPB, BSIZE, sizeof_dinode in *. cbn. lia.
Qed.
Lemma length_dupdate r : length (dupdate k r d) = length d.
Proof using k_in d_block.
  unfold dupdate. fold (put_header r). rewrite (proj1 (pack_addr_ok _ _ _ (header_room r))). apply length_header.
Qed.

(** A field of any inode of the block that [iupdat] does not store. *)
Lemma dupdate_other r j f : k_ok j -> inode_field f ->
  j <> k \/ (52 <= f_off f)%nat -> rdf (dino j f) (dupdate k r d) = rdf (dino j f) d.
Proof using k_in d_block.
  intros Hj Hf Ho. unfold dupdate. fold (put_header r). unfold inode_field in Hf.
  rewrite rdf_pack by (apply header_room || dino_apart).
  unfold put_header. rewrite !rdf_wrf_ne; try done; in_block || dino_apart.
Qed.
Lemma dupdate_other_addr r j : k_ok j -> j <> k ->
  expand_addr (Z.to_nat j * sizeof_dinode) (dupdate k r d) = expand_addr (Z.to_nat j * sizeof_dinode) d.
Proof using k_in d_block.
  intros Hj Ho. unfold expand_addr. apply map_ext_in. intros i Hi%List.in_seq. f_equal.
  change (Z.to_nat NADDR) with 13%nat in Hi.
  unfold dupdate. fold (put_header r).
  rewrite (proj1 (proj2 (pack_addr_ok _ _ _ (header_room r)))) by dino_apart.
  unfold put_header. rewrite !sub_wrf_ne; try done; in_block || dino_apart.
Qed.
End Forms.

(** C34. [iupdat] and [iexpand] are inverse: what an inode's entry is written
    as in its block of the i-list reads back as the same mode, links, owner,
    size and thirteen addresses, as long as the addresses fit three bytes; the
    seven other inodes of the block and all times are left as they were, and
    writing back an inode just read changes nothing on the disk. *)
Theorem inode_roundtrip (k : Z) (d : list Z) (r r0 : inode) : k_ok k -> block d -> fits r ->
  let d' := dupdate k r d in
  length d' = length d /\
  iexpand k d' r0 = r0 <| i_mode := i_mode r |> <| i_nlink := i_nlink r |> <| i_uid := i_uid r |>
                      <| i_gid := i_gid r |> <| i_size := i_size r |> <| i_addr := i_addr r |> /\
  (forall j, k_ok j -> j <> k -> iexpand j d' r0 = iexpand j d r0) /\
  (forall j f, k_ok j -> f ∈ [di_atime; di_mtime; di_ctime] -> rdf (dino j f) d' = rdf (dino j f) d) /\
  (Forall byte d -> dupdate k (iexpand k d r0) d = d).
Proof.
  intros Hk Hd Hr d'. pose proof (header_room k d Hk Hd r) as Hroom.
  split; [by apply length_dupdate|]. split; [|split; [|split]].
  - destruct Hr as [? ? ? ? ? Hl Ha]. unfold iexpand. subst d'. unfold dupdate. fold (put_header k d r).
    rewrite (expand_pack _ _ _ Hroom Hl Ha).
    rewrite !rdf_pack by (done || dino_apart). unfold put_header.
    repeat (first [rewrite rdf_wrf by in_block | rewrite (rdf_wrf_ne _ _ _ _) by (in_block || dino_apart)]).
    cbn [f_ty dino at_ cast di_mode di_nlink di_uid di_gid di_size].
    by rewrite u16_id, !s16_id, s32_id by done.
  - intros j Hj Hne. subst d'. unfold iexpand.
    rewrite !dupdate_other by (try done; try (by left); unfold inode_field, sizeof_dinode; cbn; lia).
    by rewrite dupdate_other_addr.
  - intros j f Hj Hf. apply dupdate_other; try done;
      repeat (apply elem_of_cons in Hf as [->|Hf]); try (by apply not_elem_of_nil in Hf);
      unfold inode_field, sizeof_dinode; cbn; lia.
  - intros Hb. unfold dupdate, iexpand. cbn [i_mode i_nlink i_uid i_gid i_size i_addr setf].
    rewrite !wrf_rdf by (done || in_block).
    apply pack_expand; [|done]. by rewrite length_header in Hroom.
Qed.

Lemma inode_roundtrip_witness :
  let r := inode0 <| i_mode := 33188 |> <| i_nlink := 2 |> <| i_uid := -1 |> <| i_size := 70000 |>
                  <| i_addr := [16777215; 5; 6; 7; 8; 9; 10; 11; 12; 13; 14; 0; 0] |> in
  let d := replicate 512 0 in let d' := dupdate 3 r d in
  length d' = length d /\
  iexpand 3 d' inode0 = inode0 <| i_mode := i_mode r |> <| i_nlink := i_nlink r |> <| i_uid := i_uid r |>
                      <| i_gid := i_gid r |> <| i_size := i_size r |> <| i_addr := i_addr r |> /\
  (forall j, k_ok j -> j <> 3 -> iexpand j d' inode0 = iexpand j d inode0) /\
  (forall j f, k_ok j -> f ∈ [di_atime; di_mtime; di_ctime] -> rdf (dino j f) d' = rdf (dino j f) d) /\
  (Forall byte d -> dupdate 3 (iexpand 3 d inode0) d = d).
Proof.
  intros r d. apply (inode_roundtrip 3 d r inode0); [done|done|].
  constructor; cbn; try lia; try done. repeat constructor; lia.
Defined.
