(* ===== verification/Rdwri.v ===== *)
(** * Rdwri: files as arrays of bytes ([sys/subr.c], [sys/rdwri.c])

    [bmap] maps a block of a file to a block of the device through up to
    three levels of indirect blocks; [readi] and [writei] move bytes between
    the buffers of a file's blocks and the place [u_base] names, with
    [iomove]. *)

From S2P Require Import Prelude Bytes State Sched Utab Bio Alloc Inode.

(** ** Bytes of kernel objects, for [u_segflg] *)

Section Rdwri.
Context {MC : Machine}.

Definition kload (o : kobj) (off : Z) : KM Z :=
  l <- match o with
       | ODent => uf u_dent
       | OAcct => kf acctbuf
       | OExdata => uf u_exdata
       | OUser => uf user_image
       | OBuf bp => bf bp b_data
       end ;;
  the (l !! Z.to_nat off).
Definition kstore (o : kobj) (off c : Z) : KM unit :=
  kload o off ;;;
  let i := Z.to_nat off in
  match o with
  | ODent => umod (fun r => r <| u_dent ::= <[i := u8 c]> |>)
  | OAcct => kmod (fun k => k <| acctbuf ::= <[i := u8 c]> |>)
  | OExdata => umod (fun r => r <| u_exdata ::= <[i := u8 c]> |>)
  | OUser => fault
  | OBuf bp => d <- bf bp b_data ;; bset bp b_data (<[i := u8 c]> d)
  end.

(** ** [subr.c] *)

(** What the two routines do to the arguments after a byte. *)
Definition advance (n : Z) : KM unit :=
  umod (fun r => r <| u_count ::= fun c => u32 (c - n) |> <| u_offset ::= fun o => s32 (o + n) |>
                   <| u_base ::= fun b => uadd b n |>).

Definition passc (c : Z) : KM Z :=
  seg <- uf u_segflg ;;
  b <- uf u_base ;;
  ok <- (if tst seg then
           match b with KA o off => kstore o off c ;;; ret true | UA _ => fault end
         else
           t <- subyte b c ;;
           if t <? 0 then set_error EFAULT ;;; ret false else ret true) ;;
  if negb ok then ret (-1)
  else
    advance 1 ;;;
    n <- uf u_count ;;
    ret (if n =? 0 then -1 else 0).

Definition cpass : KM Z :=
  n <- uf u_count ;;
  if n =? 0 then ret (-1)
  else
    seg <- uf u_segflg ;;
    b <- uf u_base ;;
    c <- (if tst seg then
            match b with KA o off => kload o off | UA _ => fault end
          else fubyte b) ;;
    if negb (tst seg) && (c <? 0) then set_error EFAULT ;;; ret (-1)
    else advance 1 ;;; ret (Z.land c 255).

Definition nodev : KM unit := set_error ENODEV.
Definition nulldev : KM unit := ret tt.

(** How many levels of indirection: the level [j] counts down from 3 as in
    the code, with the shift and the block number within the level. *)
Fixpoint level (j : nat) (sh nb bn : Z) : option (nat * Z * Z) :=
  match j with
  | O => None
  | S j' =>
      let sh := sh + NSHIFT in
      let nb := Z.shiftl nb NSHIFT in
      if bn <? nb then Some (j, sh, bn) else level j' sh nb (bn - nb)
  end.

(** A block for an address that is 0: [None] when reading, or without space. *)
Definition bmap_alloc (dev rwflg : Z) : KM (option Z) :=
  if rwflg =? B_READ then ret None
  else
    o <- alloc dev ;;
    match o with
    | None => ret None
    | Some bp => nb <- bf bp b_blkno ;; bdwrite bp ;;; ret (Some nb)
    end.

(** The address [i_addr[i]], allocated when it is missing. *)
Definition bmap_inode (ip i : nat) (dev rwflg : Z) : KM (option Z) :=
  a <- ipf ip i_addr ;;
  nb <- the (a !! i) ;;
  if negb (nb =? 0) then ret (Some nb)
  else
    o <- bmap_alloc dev rwflg ;;
    match o with
    | None => ret None
    | Some nb =>
        a <- ipf ip i_addr ;;
        ipset ip i_addr (<[i := nb]> a) ;;;
        ior ip (Z.lor IUPD ICHG) ;;;
        ret (Some nb)
    end.

(** One indirect block: a result that ends [bmap], or the address and the
    buffer it is in. *)
Definition bmap_indirect (dev rwflg nb : Z) (i : nat) : KM (Z + Z * bptr) :=
  bp <- bread dev nb ;;
  e <- bhas bp B_ERROR ;;
  if e : bool then brelse bp ;;; ret (inl 0)
  else
    d <- bf bp b_data ;;
    let nb := rdf (elt b_daddr i) d in
    if nb =? 0 then
      o <- bmap_alloc dev rwflg ;;
      match o with
      | None => brelse bp ;;; ret (inl (-1))
      | Some nb =>
          d <- bf bp b_data ;;
          bset bp b_data (wrf (elt b_daddr i) nb d) ;;;
          bdwrite bp ;;;
          ret (inr (nb, bp))
      end
    else brelse bp ;;; ret (inr (nb, bp)).

(** [for(; j<=3; j++)], with [k] levels to go, and the read-ahead after it,
    from the last block and index. *)
Fixpoint bmap_levels (k : nat) (dev rwflg nb sh bn : Z) (last : option (bptr * nat)) : KM Z :=
  match k with
  | O =>
      match last with
      | Some (bp, i) =>
          d <- bf bp b_data ;;
          when (Nat.ltb i 127) (kset rablock (rdf (elt b_daddr (S i)) d))
      | None => ret tt
      end ;;;
      ret nb
  | S k =>
      let sh := sh - NSHIFT in
      let i := Z.to_nat (Z.land (Z.shiftr bn sh) NMASK) in
      r <- bmap_indirect dev rwflg nb i ;;
      match r with
      | inl z => ret z
      | inr (nb, bp) => bmap_levels k dev rwflg nb sh bn (Some (bp, i))
      end
  end.

Definition bmap (ip : nat) (bn rwflg : Z) : KM Z :=
  if bn <? 0 then set_error EFBIG ;;; ret 0
  else
    dev <- ipf ip i_dev ;;
    kset rablock 0 ;;;
    if bn <? NADDR - 3 then
      let i := Z.to_nat bn in
      o <- bmap_inode ip i dev rwflg ;;
      match o with
      | None => ret (-1)
      | Some nb =>
          a <- ipf ip i_addr ;;
          when (bn <? NADDR - 4) (nx <- the (a !! S i) ;; kset rablock nx) ;;;
          ret nb
      end
    else
      match level 3 0 1 (bn - (NADDR - 3)) with
      | None => set_error EFBIG ;;; ret 0
      | Some (j, sh, bn) =>
          o <- bmap_inode ip (13 - j) dev rwflg ;;
          match o with
          | None => ret (-1)
          | Some nb => bmap_levels (4 - j) dev rwflg nb sh bn None
          end
      end.

(** ** [rdwri.c] *)

Definition max (a b : Z) : Z := if u32 b <? u32 a then a else b.
Definition min (a b : Z) : Z := if u32 a <? u32 b then a else b.

Definition NBPW : Z := 4.
(** The address of byte [on] of a buffer's core, for its alignment. *)
Definition core_addr (bp : bptr) (on : Z) : Z :=
  match bp with Buf i => buffers + 514 * Z.of_nat i + on | _ => on end.
Definition aligned (x : Z) : bool := Z.land x (NBPW - 1) =? 0.

Definition iomove_in (bp : bptr) (on : Z) (k : nat) : KM unit :=
  loop (S k) (fun x : nat * Z =>
    let '(k, on) := x in
    match k with
    | O => ret (inr tt)
    | S k =>
        t <- cpass ;;
        if t <? 0 then ret (inr tt)
        else kstore (OBuf bp) on t ;;; ret (inl (k, on + 1))
    end) (k, on).
Definition iomove_out (bp : bptr) (on : Z) (k : nat) : KM unit :=
  loop (S k) (fun x : nat * Z =>
    let '(k, on) := x in
    match k with
    | O => ret (inr tt)
    | S k =>
        c <- kload (OBuf bp) on ;;
        t <- passc c ;;
        ret (if t <? 0 then inr tt else inl (k, on + 1))
    end) (k, on).

(** [iomove(bp->b_un.b_addr+on, n, flag)] *)
Definition iomove (bp : bptr) (on n flag : Z) : KM unit :=
  if n =? 0 then ret tt
  else
    us <- uf (fun r => r) ;;
    let user_aligned := match u_base us with UA a => aligned a | KA _ _ => false end in
    if negb (u_segflg us =? 1) && aligned n && aligned (core_addr bp on) && user_aligned then
      a <- match u_base us with UA a => ret a | KA _ _ => fault end ;;
      d <- bf bp b_data ;;
      ok <- (if flag =? B_WRITE then
               k <- kf (fun k => k) ;;
               let '(l, ok) := copyin k a n in
               bset bp b_data (splice (Z.to_nat on) l d) ;;; ret ok
             else
               k <- kf (fun k => k) ;;
               let '(k', ok) := copyout us k (sub (Z.to_nat on) (Z.to_nat n) d) a in
               kmod (fun _ => k') ;;; ret ok) ;;
      if negb ok then set_error EFAULT else advance n
    else if flag =? B_WRITE then iomove_in bp on (Z.to_nat n)
    else iomove_out bp on (Z.to_nat n).

(** One round of the [do] loop of [readi]: whether to go on. *)
Definition readi_round (ip : nat) (type dev : Z) : KM (Z + unit) :=
  off <- uf u_offset ;; cnt <- uf u_count ;;
  let lbn := Z.shiftr off BSHIFT in
  let on := Z.land off BMASK in
  let n := min (BSIZE - on) cnt in
  r <- (if negb (type =? IFBLK) && negb (type =? IFMPB) then
          size <- ipf ip i_size ;;
          let diff := s32 (size - off) in
          if diff <=? 0 then ret None
          else
            let n := if diff <? n then diff else n in
            bn <- bmap ip lbn B_READ ;;
            err <- uf u_error ;;
            if tst err then ret None
            else dev <- ipf ip i_dev ;; ret (Some (bn, n, dev))
        else kset rablock (lbn + 1) ;;; ret (Some (lbn, n, dev))) ;;
  match r with
  | None => ret (inr tt)
  | Some (bn, n, dev) =>
      lastr <- ipf ip i_lastr ;;
      bp <- (if bn <? 0 then bp <- geteblk ;; clrbuf bp ;;; ret bp
             else if lastr + 1 =? lbn then ra <- kf rablock ;; breada dev bn ra
             else bread dev bn) ;;
      ipset ip i_lastr lbn ;;;
      resid <- bf bp b_resid ;;
      let n := min n (BSIZE - resid) in
      when (negb (n =? 0)) (iomove bp on n B_READ) ;;;
      brelse bp ;;;
      err <- uf u_error ;; cnt <- uf u_count ;;
      ret (if (err =? 0) && negb (cnt =? 0) && (0 <? n) then inl dev else inr tt)
  end.

Definition readi (ip : nat) : KM unit :=
  cnt <- uf u_count ;;
  if cnt =? 0 then ret tt
  else
    off <- uf u_offset ;;
    if off <? 0 then set_error EINVAL
    else
      ior ip IACC ;;;
      r <- tget inodes ip ;;
      let dev := s16 (i_rdev r) in
      let type := ifmt (i_mode r) in
      if (type =? IFCHR) || (type =? IFMPC) then
        sw <- cdevsw_at dev ;; cd_read sw dev
      else loop (S (Z.to_nat cnt)) (readi_round ip type) dev.

Definition writei_round (ip : nat) (type dev : Z) : KM (Z + unit) :=
  off <- uf u_offset ;; cnt <- uf u_count ;;
  let bn := Z.shiftr off BSHIFT in
  let on := Z.land off BMASK in
  let n := min (BSIZE - on) cnt in
  r <- (if negb (type =? IFBLK) && negb (type =? IFMPB) then
          bn <- bmap ip bn B_WRITE ;;
          if bn <? 0 then ret None
          else dev <- ipf ip i_dev ;; ret (Some (bn, dev))
        else ret (Some (bn, dev))) ;;
  match r with
  | None => ret (inr tt)
  | Some (bn, dev) =>
      bp <- (if n =? BSIZE then getblk dev bn else bread dev bn) ;;
      iomove bp on n B_WRITE ;;;
      err <- uf u_error ;;
      (if negb (err =? 0) then brelse bp else bdwrite bp) ;;;
      off <- uf u_offset ;; size <- ipf ip i_size ;;
      when ((size <? off) && ((type =? IFDIR) || (type =? IFREG))) (ipset ip i_size off) ;;;
      ior ip (Z.lor IUPD ICHG) ;;;
      err <- uf u_error ;; cnt <- uf u_count ;;
      ret (if (err =? 0) && negb (cnt =? 0) then inl dev else inr tt)
  end.

Definition writei (ip : nat) : KM unit :=
  off <- uf u_offset ;;
  if off <? 0 then set_error EINVAL
  else
    r <- tget inodes ip ;;
    let dev := s16 (i_rdev r) in
    let type := ifmt (i_mode r) in
    if (type =? IFCHR) || (type =? IFMPC) then
      ior ip (Z.lor IUPD ICHG) ;;;
      sw <- cdevsw_at dev ;; cd_write sw dev
    else
      cnt <- uf u_count ;;
      if cnt =? 0 then ret tt
      else loop (S (Z.to_nat cnt)) (writei_round ip type) dev.

End Rdwri.
