(* ===== verification/Blocks.v ===== *)
(** * Blocks: finding the blocks of a file in the cache

    [bmap] of [Rdwri] run on the buffer cache of [Cache]: with a file's
    indirect blocks at rest in the cache, it follows the file's tree of
    addresses. *)

From S2P Require Import Prelude Bytes State Sched Bio Cache Alloc Inode Rdwri.

(** ** A block at rest in the cache *)

Definition REST : Z := Z.lor (Z.lor (Z.lor B_DONE B_BUSY) B_WANTED) B_ERROR.
(** Its contents are valid and nobody has or wants it. *)
Definition at_rest (b : buf) : Prop := Z.land (b_flags b) REST = B_DONE.

Lemma land_sub f k n : Z.land k n = n -> Z.land f n = Z.land (Z.land f k) n.
Proof. intros E. by rewrite <- Z.land_assoc, E. Qed.

Lemma at_rest_busy b : at_rest b -> b_flags b &? B_BUSY = false.
Proof. intros H. unfold at_rest in H. by rewrite (land_sub _ REST), H by done. Qed.

(** The buffers to be written out later still are, each for its block. *)
Definition keeps_delayed (m m' : gmap bptr buf) : Prop :=
  forall x b, m !! x = Some b -> b_flags b &? B_DELWRI = true ->
    exists b', m' !! x = Some b' /\ b_dev b' = b_dev b /\ b_blkno b' = b_blkno b /\ b_flags b' &? B_DELWRI = true.

Lemma keeps_delayed_refl m : keeps_delayed m m.
Proof. intros x b Hx Hd. by exists b. Qed.
Lemma keeps_delayed_trans m1 m2 m3 : keeps_delayed m1 m2 -> keeps_delayed m2 m3 -> keeps_delayed m1 m3.
Proof.
  intros H1 H2 x b Hx Hd. destruct (H1 x b Hx Hd) as (b' & Hx' & E1 & E2 & Hd').
  destruct (H2 x b' Hx' Hd') as (c & Hc & E3 & E4 & Hd2). exists c. repeat split; congruence.
Qed.

Lemma changed_delayed m m' x f : changed m m' x f ->
  (forall b, m !! x = Some b -> b_dev (f b) = b_dev b /\ b_blkno (f b) = b_blkno b /\
    (b_flags b &? B_DELWRI = true -> b_flags (f b) &? B_DELWRI = true)) -> keeps_delayed m m'.
Proof.
  intros Hch Hf y b Hy Hd. destruct (Hch y b Hy) as (b' & Hy' & Hs). exists b'. split; [done|].
  pose proof (same_buf_key _ _ Hs) as [-> ->]. rewrite (same_buf_flags _ _ Hs).
  case_decide as E; [|done]. subst y. destruct (Hf b Hy) as (E1 & E2 & E3). auto.
Qed.

Lemma lor_delayed n f : f &? B_DELWRI = true -> Z.lor f n &? B_DELWRI = true.
Proof.
  rewrite !tst_true, Z.land_lor_distr_l. intros H E. by apply Z.lor_eq_0_iff in E as [E _].
Qed.
Lemma clr_delayed n f : Z.land n B_DELWRI = 0 -> f &? B_DELWRI = true -> clr f n &? B_DELWRI = true.
Proof.
  intros Hn. rewrite !tst_true. intros H E. apply H. rewrite <- E. unfold clr.
  apply Z.bits_inj'. intros i Hi. apply (f_equal (fun z => Z.testbit z i)) in Hn.
  rewrite !Z.land_spec, Z.bits_0 in *. rewrite Z.lnot_spec by done.
  destruct (Z.testbit f i), (Z.testbit n i), (Z.testbit B_DELWRI i); done.
Qed.

(** The world but for the cache, its counts, the block to read ahead and the
    processor's level; of the cache, the delayed writes stay. *)
Definition cache_frame (w w' : world) : Prop :=
  w' = w <| ks ::= fun k => k <| bufs := bufs (ks w') |> <| io_info := io_info (ks w') |>
                             <| rablock := rablock (ks w') |> <| pl := pl (ks w') |> |>.
Definition cache_only (w w' : world) : Prop :=
  cache_frame w w' /\ keeps_delayed (bufs (ks w)) (bufs (ks w')).

(** With the buffers as they were. *)
Lemma cache_only_same_bufs w w' : cache_frame w w' -> bufs (ks w') = bufs (ks w) -> cache_only w w'.
Proof. intros Hf E. split; [done|]. rewrite E. apply keeps_delayed_refl. Qed.
Lemma cache_only_refl w : cache_only w w.
Proof. apply cache_only_same_bufs; [|done]. unfold cache_frame. by destruct w as [? [] ?]. Qed.
Lemma cache_only_trans w1 w2 w3 : cache_only w1 w2 -> cache_only w2 w3 -> cache_only w1 w3.
Proof.
  intros [E1 D1] [E2 D2]. split; [|by eapply keeps_delayed_trans]. clear D1 D2.
  unfold cache_frame in *. rewrite E2 at 1. rewrite E1. by destruct w1 as [? [] ?].
Qed.

(** The world with entry [ip] of the table set. *)
Definition with_inode (ip : nat) (r : inode) (w : world) : world :=
  w <| ks ::= fun k => k <| inodes ::= <[ip := r]> |> |>.

Lemma ipset_with {T} (f : inode -> T) {S : Setter f} v w ip r : inodes (ks w) !! ip = Some r ->
  ipset ip f v w = Ret tt (with_inode ip (setf f (fun _ => v) r) w).
Proof. apply (tmod_ok inodes). Qed.
Lemma inodes_with ip r w : is_Some (inodes (ks w) !! ip) -> inodes (ks (with_inode ip r w)) !! ip = Some r.
Proof. intros [? Hr]. apply list_lookup_insert_eq. by eapply lookup_lt_Some. Qed.
Lemma with_inode_twice ip r r' w : with_inode ip r' (with_inode ip r w) = with_inode ip r' w.
Proof. destruct w as [? [] ?]. unfold with_inode. cbn. do 2 f_equal. apply list_insert_insert_eq. Qed.

Lemma with_inode_id ip r w : inodes (ks w) !! ip = Some r -> with_inode ip r w = w.
Proof. intros Hr. destruct w as [us [] en]. unfold with_inode. cbn in *. do 2 f_equal. by apply list_insert_id. Qed.

(** The head of a list is not in it. *)
Lemma head_not_in m hs H av h : cache m hs H av -> h ∈ hs -> h ∉ H h.
Proof. intros Hc Hh Hin. apply (ca_head _ _ _ _ Hc h h Hh Hin). by right. Qed.

Section Blocks.
Context {MC : Machine} (dev : Z) (dp : bptr) (hs : list bptr) (H : bptr -> list bptr).
Context (Hdev : on_dev dev dp) (Hdp : dp ∈ hs) (Hdf : dp <> Bfree) (Hnd : dev <> NODEV).

(** The blocks [C] of the device, a disk, are at rest in the cache, read in
    full. *)
Record resident (C : gmap Z (list Z)) (w : world) : Prop := {
  rs_cache : exists av, cache (bufs (ks w)) hs H av;
  rs_free : exists fb, bufs (ks w) !! Bfree = Some fb /\ b_flags fb &? B_WANTED = false;
  rs_disk : exists db, bufs (ks w) !! dp = Some db /\ b_flags db &? B_TAPE = false;
  rs_blocks : forall n d, C !! n = Some d -> exists x b, x ∈ H dp /\ bufs (ks w) !! x = Some b /\
    b_dev b = dev /\ b_blkno b = n /\ at_rest b /\ b_resid b = 0 /\ b_data b = d
}.

Lemma released_clean b : b_flags b &? B_ERROR = false ->
  released b = b <| b_flags := clr (b_flags b) (Z.lor (Z.lor (Z.lor B_WANTED B_BUSY) B_ASYNC) B_AGE) |>.
Proof. unfold released. by intros ->. Qed.

(** What reading a block does to the rest of the kernel: the counts. *)
Definition read_frame (w w1 : world) : Prop :=
  w1 = w <| ks ::= fun k => k <| bufs := bufs (ks w1) |> <| io_info := io_info (ks w1) |> <| pl := pl (ks w1) |> |>.
Definition read_only (w w1 : world) : Prop := read_frame w w1 /\ keeps_delayed (bufs (ks w)) (bufs (ks w1)).

(** Buffer [x] is taken, for block [n]; the other blocks are at rest. *)
Record taken (C : gmap Z (list Z)) (n : Z) (x : bptr) (b : buf) (w : world) : Prop := {
  tk_cache : exists av, cache (bufs (ks w)) hs H av /\ x ∉ av;
  tk_free : exists fb, bufs (ks w) !! Bfree = Some fb /\ b_flags fb &? B_WANTED = false;
  tk_disk : exists db, bufs (ks w) !! dp = Some db /\ b_flags db &? B_TAPE = false;
  tk_in : x ∈ H dp; tk_buf : bufs (ks w) !! x = Some b; tk_dev : b_dev b = dev; tk_blk : b_blkno b = n;
  tk_flags : Z.land (b_flags b) REST = Z.lor B_DONE B_BUSY; tk_resid : b_resid b = 0;
  tk_rest : forall n' d, n' <> n -> C !! n' = Some d -> exists y b', y <> x /\ y ∈ H dp /\ bufs (ks w) !! y = Some b' /\
    b_dev b' = dev /\ b_blkno b' = n' /\ at_rest b' /\ b_resid b' = 0 /\ b_data b' = d
}.

Lemma taken_bits C n x b w : taken C n x b w ->
  b_flags b &? B_DONE = true /\ b_flags b &? B_ERROR = false /\ b_flags b &? B_WANTED = false.
Proof using Type.
  intros T. rewrite (land_sub _ REST B_DONE), (land_sub _ REST B_ERROR), (land_sub _ REST B_WANTED) by done.
  by rewrite (tk_flags _ _ _ _ _ T).
Qed.

Lemma taken_bufs C n x b w w' : taken C n x b w -> bufs (ks w') = bufs (ks w) -> taken C n x b w'.
Proof using Type. by intros [? ? ? ? ? ? ? ? ? ?] E; constructor; rewrite ?E. Qed.

(** Taking such a block. *)
Lemma getblk_taken C w n d : resident C w -> C !! n = Some d ->
  exists x b w1, getblk dev n w = Ret x w1 /\ taken C n x b w1 /\ b_data b = d /\ read_only w w1.
Proof using Hdev Hdp Hdf Hnd.
  intros [[av Hc] (fb & Hfb & Hfw) (db & Hdb & Htp) Hbl] Hn.
  destruct (Hbl n d Hn) as (x & b & Hx & Eb & Ed & En & Hr & Eres & Edata).
  destruct (getblk_cached_ok w (bufs (ks w)) hs H av dev n dp x b)
    as (av1 & av2 & m1 & -> & E1 & Hu & Hc1 & Hch1); [done..|by apply at_rest_busy|].
  rewrite <- setb_id in E1.
  assert (Hxf : x <> Bfree).
  { intros ->. apply (ca_head _ _ _ _ Hc dp Bfree Hdp Hx). left. }
  destruct (Hch1 x b Eb) as (b1 & Eb1 & Hs1). rewrite decide_True in Hs1 by done.
  assert (b_flags b1 = Z.lor (b_flags b) B_BUSY) as Ef by apply (same_buf_flags _ _ Hs1).
  exists x, b1, (setb (counted (length av2) (setpl w 0)) m1).
  split; [done|]. split; [|split; [by rewrite Hs1|]].
  2: { split.
       - unfold read_frame, counted; destruct (Nat.ltb _ _); by destruct w as [? [] ?].
       - apply (changed_delayed _ _ _ _ Hch1). intros b0 _. split; [done|]. split; [done|]. apply lor_delayed. }
  constructor; try done; try (by rewrite Hs1).
  - exists (av1 ++ av2). split; [done|].
    destruct (ca_av _ _ _ _ Hc) as [_ [_ Hn2]%NoDup_cons]. apply NoDup_app in Hn2 as (_ & H1 & H2).
    apply NoDup_cons in H2 as [H2 _]. intros [?|?]%elem_of_app; [|done]. apply (H1 x); [done|left].
  - destruct (Hch1 Bfree fb Hfb) as (fb1 & Efb1 & Hsf). rewrite decide_False in Hsf by done.
    exists fb1. split; [done|]. by rewrite (same_buf_flags _ _ Hsf).
  - assert (dp <> x) as Hxd by (intros <-; by apply (head_not_in _ _ _ _ dp Hc)).
    destruct (Hch1 dp db Hdb) as (db1 & Edb1 & Hsd). rewrite decide_False in Hsd by done.
    exists db1. split; [done|]. by rewrite (same_buf_flags _ _ Hsd).
  - rewrite Ef. unfold at_rest in Hr. rewrite Z.land_lor_distr_l, Hr. done.
  - intros n' d' Hne Hn'. destruct (Hbl n' d' Hn') as (y & b' & Hy & Eb' & Ed' & En' & Hr' & Eres' & Edata').
    assert (y <> x) as Hyx by (intros ->; congruence).
    destruct (Hch1 y b' Eb') as (b2 & E2 & Hs2). rewrite decide_False in Hs2 by done.
    exists y, b2. pose proof (same_buf_key _ _ Hs2) as [Hk1 Hk2]. pose proof (same_buf_flags _ _ Hs2) as Hf2.
    repeat split; try congruence; try done; by rewrite Hs2.
Qed.

(** Giving it back, whatever its contents are now. *)
Lemma brelse_taken C w n x b : taken C n x b w ->
  exists m2 b2, brelse x w = Ret tt (setb w m2) /\ m2 !! x = Some b2 /\ b_data b2 = b_data b /\
    keeps_delayed (bufs (ks w)) m2 /\ resident (<[n := b_data b]> C) (setb w m2).
Proof using Hdev Hdp Hdf Hnd.
  intros T. pose proof (taken_bits _ _ _ _ _ T) as (Hdone & Herr & Hwant).
  destruct T as [(av & Hc & Hxa) (fb & Hfb & Hfw) (db & Hdb & Htp) Hx Eb Ed En Hfl Eres Hrest].
  assert (Hxd : dp <> x) by (intros <-; by apply (head_not_in _ _ _ _ dp Hc)).
  assert (Hxf : x <> Bfree).
  { intros ->. apply (ca_head _ _ _ _ Hc dp Bfree Hdp Hx). left. }
  destruct (brelse_put_ok w (bufs (ks w)) hs H av dp x b Hc Hdp Hx Hxa Eb) as (m2 & E2 & Hc2 & Hch2).
  rewrite <- setb_id in E2.
  destruct (Hch2 x b Eb) as (b2 & Eb2 & Hs2). rewrite decide_True in Hs2 by done.
  rewrite released_clean in Hs2 by done.
  exists m2, b2. split; [|split; [done|split; [by rewrite Hs2|split]]].
  2: { apply (changed_delayed _ _ _ _ Hch2). intros b0 E0. rewrite Eb in E0. injection E0 as <-.
       rewrite released_clean by done. split; [done|]. split; [done|]. by apply clr_delayed. }
  - unfold brelse, bhas. erewrite bind_ret_eq by (erewrite bind_ret_eq by (by apply bf_ok); cbn beta; rewrite Hwant; reflexivity).
    cbn beta iota. erewrite bind_ret_eq by reflexivity. cbn beta.
    erewrite bind_ret_eq by (erewrite bind_ret_eq by (by apply bf_ok); cbn beta; rewrite Hfw; reflexivity).
    cbn beta iota. by erewrite bind_ret_eq by reflexivity.
  - constructor.
    + by eexists.
    + destruct (Hch2 Bfree fb Hfb) as (fb2 & E & Hs). rewrite decide_False in Hs by done.
      exists fb2. split; [done|]. by rewrite (same_buf_flags _ _ Hs).
    + destruct (Hch2 dp db Hdb) as (db2 & E & Hs). rewrite decide_False in Hs by done.
      exists db2. split; [done|]. by rewrite (same_buf_flags _ _ Hs).
    + intros n' d Hn'. destruct (decide (n' = n)) as [->|Hne].
      * rewrite lookup_insert_eq in Hn'. injection Hn' as <-. exists x, b2.
        repeat (split; [first [done|by rewrite Hs2]|]). split; [|by rewrite Hs2].
        unfold at_rest. rewrite (same_buf_flags _ _ Hs2). cbn [b_flags setf].
        unfold clr. rewrite <- Z.land_assoc, (Z.land_comm (Z.lnot _)), Z.land_assoc, Hfl. done.
      * rewrite lookup_insert_ne in Hn' by done.
        destruct (Hrest n' d Hne Hn') as (y & b' & Hyx & Hy & Eb' & Ed' & En' & Hr' & Eres' & Edata').
        destruct (Hch2 y b' Eb') as (b3 & E3 & Hs3). rewrite decide_False in Hs3 by done.
        exists y, b3. pose proof (same_buf_key _ _ Hs3) as [Hk1 Hk2].
        pose proof (same_buf_flags _ _ Hs3) as Hf3.
        repeat split; try congruence; try done; try (by rewrite Hs3).
Qed.

(** Reading it: the contents are valid; given back, whatever happened
    meanwhile to the rest of the kernel, it is at rest again. *)
Lemma bread_taken C w n d : resident C w -> C !! n = Some d ->
  exists x b w1, bread dev n w = Ret x w1 /\ taken C n x b w1 /\ b_data b = d /\ read_only w w1.
Proof using Hdev Hdp Hdf Hnd.
  intros HC Hn. destruct (getblk_taken C w n d HC Hn) as (x & b & w1 & E1 & T & Ed & Ho).
  pose proof (taken_bits _ _ _ _ _ T) as (Hdone & _ & _).
  exists x, b, (w1 <| ks ::= fun k => k <| io_info ::= fun i => i <| ncache ::= fun n => n + 1 |> |> |>).
  split; [|split; [by eapply taken_bufs|split; [done|]]].
  - unfold bread. erewrite bind_ret_eq by exact E1. cbn beta.
    erewrite bind_ret_eq by (unfold bhas; erewrite bind_ret_eq by (by apply bf_ok, T); reflexivity).
    cbn beta. rewrite Hdone. by erewrite bind_ret_eq by reflexivity.
  - destruct Ho as [Ho Hk]. split; [|exact Hk]. clear Hk. unfold read_frame in *. rewrite Ho. by destruct w as [? [] ?].
Qed.

Lemma bread_resident C w n d : resident C w -> C !! n = Some d ->
  exists x b w1, bread dev n w = Ret x w1 /\ bufs (ks w1) !! x = Some b /\ b_data b = d /\ b_resid b = 0 /\
    b_flags b &? B_ERROR = false /\ read_only w w1 /\
    forall w1', bufs (ks w1') = bufs (ks w1) -> exists m2 b2, brelse x w1' = Ret tt (setb w1' m2) /\
      m2 !! x = Some b2 /\ b_data b2 = d /\ keeps_delayed (bufs (ks w1)) m2 /\ resident C (setb w1' m2).
Proof using Hdev Hdp Hdf Hnd.
  intros HC Hn. destruct (bread_taken C w n d HC Hn) as (x & b & w1 & E1 & T & Ed & Ho).
  exists x, b, w1. split; [done|]. split; [apply T|]. split; [done|]. split; [apply T|].
  split; [by apply (taken_bits _ _ _ _ _ T)|]. split; [done|]. intros w1' Em.
  destruct (brelse_taken C w1' n x b) as (m2 & b2 & E & Eb2 & Ed2 & Hk & H2); [by eapply taken_bufs|].
  exists m2, b2. rewrite Ed in *. rewrite insert_id in H2 by done. rewrite Em in Hk. done.
Qed.

Lemma read_cache_only w w1 m2 : read_only w w1 -> keeps_delayed (bufs (ks w1)) m2 ->
  cache_only w (setb w1 m2) /\ rablock (ks (setb w1 m2)) = rablock (ks w).
Proof using Type.
  intros [Hf Hk] Hk2. split; [split|].
  - clear Hk Hk2. unfold read_frame, cache_frame in *. rewrite Hf. by destruct w as [? [] ?].
  - by eapply keeps_delayed_trans.
  - clear Hk Hk2. unfold read_frame in *. rewrite Hf. by destruct w as [? [] ?].
Qed.

Lemma resident_bufs C w w' : resident C w -> bufs (ks w') = bufs (ks w) -> resident C w'.
Proof using Type. by intros [? ? ? ?] E; constructor; rewrite E. Qed.

(** ** The tree of addresses *)

(** From the address [a], through the entries [es] of indirect blocks; -1 for
    a block that the file does not have. *)
Fixpoint follow (C : gmap Z (list Z)) (a : Z) (es : list nat) : option Z :=
  if a =? 0 then Some (-1)
  else
    match es with
    | [] => Some a
    | i :: es => C !! a ≫= fun d => follow C (rdf (elt b_daddr i) d) es
    end.

(** The entries that lead to block [bn] under [k] levels of indirect blocks
    of 128 entries each: its [k] digits to the base 128, the highest first. *)
Fixpoint entries (k : nat) (bn : Z) : list nat :=
  match k with
  | O => []
  | S k => Z.to_nat (bn / 128 ^ Z.of_nat k mod 128) :: entries k bn
  end.

(** The address in the inode and the entries for block [bn] of a file: the
    first ten addresses are the blocks', and 128, 128^2 and 128^3 blocks are
    under the three that follow. *)
Definition path (bn : Z) : option (nat * list nat) :=
  if bn <? 10 then Some (Z.to_nat bn, [])
  else if bn <? 10 + 128 then Some (10%nat, entries 1 (bn - 10))
  else if bn <? 10 + 128 + 128 ^ 2 then Some (11%nat, entries 2 (bn - 10 - 128))
  else if bn <? 10 + 128 + 128 ^ 2 + 128 ^ 3 then Some (12%nat, entries 3 (bn - 10 - 128 - 128 ^ 2))
  else None.

(** The code finds the same path by shifting and masking. *)
Lemma digit_eq bn k :
  Z.land (Z.shiftr bn (NSHIFT * Z.of_nat k)) NMASK = bn / 128 ^ Z.of_nat k mod 128.
Proof using Type.
  unfold NSHIFT, NMASK. change 127 with (Z.ones 7). rewrite Z.land_ones by lia.
  rewrite Z.shiftr_div_pow2 by lia. rewrite Z.pow_mul_r by lia. done.
Qed.

Lemma level_cases bn :
  level 3 0 1 bn =
    if bn <? 128 then Some (3%nat, 7, bn)
    else if bn <? 128 + 16384 then Some (2%nat, 14, bn - 128)
    else if bn <? 128 + 16384 + 2097152 then Some (1%nat, 21, bn - 128 - 16384)
    else None.
Proof using Type.
  cbn [level]. change (Z.shiftl 1 NSHIFT) with 128. change (Z.shiftl 128 NSHIFT) with 16384.
  change (Z.shiftl 16384 NSHIFT) with 2097152. change (0 + NSHIFT) with 7.
  change (7 + NSHIFT) with 14. change (14 + NSHIFT) with 21.
  destruct (Z.ltb_spec bn 128); [done|].
  destruct (Z.ltb_spec (bn - 128) 16384), (Z.ltb_spec bn (128 + 16384)); try lia; [done|].
  destruct (Z.ltb_spec (bn - 128 - 16384) 2097152), (Z.ltb_spec bn (128 + 16384 + 2097152)); try lia; done.
Qed.

Lemma path_level bn : path bn =
  if bn <? 10 then Some (Z.to_nat bn, [])
  else match level 3 0 1 (bn - 10) with
       | Some (j, sh, r) => Some ((13 - j)%nat, entries (4 - j) r)
       | None => None
       end.
Proof using Type.
  rewrite level_cases. unfold path. change (128 ^ 2) with 16384. change (128 ^ 3) with 2097152.
  destruct (Z.ltb_spec bn 10); [done|].
  destruct (Z.ltb_spec bn (10 + 128)), (Z.ltb_spec (bn - 10) 128); try lia; [done|].
  destruct (Z.ltb_spec bn (10 + 128 + 16384)), (Z.ltb_spec (bn - 10) (128 + 16384)); try lia; [done|].
  by destruct (Z.ltb_spec bn (10 + 128 + 16384 + 2097152)),
    (Z.ltb_spec (bn - 10) (128 + 16384 + 2097152)); try lia.
Qed.

(** The entry next to the last one, the block to read ahead. *)
Definition next_entry (i : nat) (d : list Z) : option Z :=
  if Nat.ltb i 127 then Some (rdf (elt b_daddr (S i)) d) else None.
Fixpoint ahead (C : gmap Z (list Z)) (a : Z) (es : list nat) : option Z :=
  match es with
  | [] => None
  | [i] => C !! a ≫= next_entry i
  | i :: es => C !! a ≫= fun d => ahead C (rdf (elt b_daddr i) d) es
  end.

Lemma cache_only_read w w1 w2 : cache_only w w1 -> read_only w1 w2 -> cache_only w w2.
Proof using Type.
  intros Hc [Hf Hk]. eapply cache_only_trans; [exact Hc|]. split; [|exact Hk]. clear Hk.
  unfold read_frame, cache_frame in *. rewrite Hf. by destruct w1 as [? [] ?].
Qed.
Lemma cache_only_setb w w1 m : cache_only w w1 -> keeps_delayed (bufs (ks w1)) m -> cache_only w (setb w1 m).
Proof using Type.
  intros Hc Hk. eapply cache_only_trans; [exact Hc|]. split; [|exact Hk]. unfold cache_frame. by destruct w1 as [? [] ?].
Qed.

Lemma indirect_ok C w rw nb d i : resident C w -> C !! nb = Some d ->
  exists w2, resident C w2 /\ cache_only w w2 /\ rablock (ks w2) = rablock (ks w) /\
    let a := rdf (elt b_daddr i) d in
    if a =? 0 then rw = B_READ -> bmap_indirect dev rw nb i w = Ret (inl (-1)) w2
    else exists x b, bmap_indirect dev rw nb i w = Ret (inr (a, x)) w2 /\ bufs (ks w2) !! x = Some b /\ b_data b = d.
Proof using Hdev Hdp Hdf Hnd.
  intros HC Hn. destruct (bread_resident C w nb d HC Hn)
    as (x & b & w1 & E1 & Eb & Ed & _ & He & Hro & Hback).
  destruct (Hback w1 eq_refl) as (m2 & b2 & E2 & Eb2 & Ed2 & Hk & H2).
  destruct (read_cache_only w w1 m2 Hro Hk) as [Ho Hra].
  exists (setb w1 m2). split; [done|]. split; [done|]. split; [done|]. cbv zeta. unfold bmap_indirect.
  assert (forall k, (bp <- bread dev nb ;; e <- bhas bp B_ERROR ;;
      if e then brelse bp ;;; ret (inl 0) else d <- bf bp b_data ;; k bp d) w = k x d w1 :> outcome world (Z + Z * bptr)) as Hrun.
  { intros k. erewrite bind_ret_eq by exact E1. cbn beta.
    erewrite bind_ret_eq by (unfold bhas; erewrite bind_ret_eq by (by apply bf_ok); reflexivity).
    cbn beta. rewrite He. erewrite bind_ret_eq by (by apply bf_ok). by rewrite Ed. }
  rewrite (Hrun (fun bp d => let nb := rdf (elt b_daddr i) d in _)). cbv zeta.
  destruct (rdf (elt b_daddr i) d =? 0).
  - intros ->. erewrite bind_ret_eq by reflexivity. cbn beta iota. by erewrite bind_ret_eq by exact E2.
  - exists x, b2. split; [by erewrite bind_ret_eq by exact E2|]. by split.
Qed.

(** The block to read ahead is set to the one found last, [la], or not. *)
Definition ra_set (w w2 : world) (la : option Z) : Prop :=
  rablock (ks w2) = rablock (ks w) \/ Some (rablock (ks w2)) = la.

Lemma levels_ok C rw k : forall w nb bn last la z, resident C w -> nb <> 0 -> rw = B_READ \/ z <> -1 ->
  (forall x i, last = Some (x, i) -> exists b, bufs (ks w) !! x = Some b /\ la = next_entry i (b_data b)) ->
  follow C nb (entries k bn) = Some z ->
  exists w2, bmap_levels k dev rw nb (NSHIFT * Z.of_nat k) bn last w = Ret z w2 /\
    resident C w2 /\ cache_only w w2 /\ ra_set w w2 (match entries k bn with [] => la | es => ahead C nb es end).
Proof using Hdev Hdp Hdf Hnd.
  induction k as [|k IH]; intros w nb bn last la z HC Hnb Hrw Hl Hz; cbn [entries follow] in Hz;
    rewrite (proj2 (Z.eqb_neq _ _) Hnb) in Hz.
  - injection Hz as <-. cbn [bmap_levels entries]. destruct last as [[x i]|].
    + destruct (Hl x i eq_refl) as (b & Hb & ->). unfold next_entry. destruct (Nat.ltb i 127) eqn:Ei.
      * exists (w <| ks ::= fun k => k <| rablock := rdf (elt b_daddr (S i)) (b_data b) |> |>).
        erewrite bind_ret_eq by (erewrite bind_ret_eq by (by apply bf_ok); reflexivity).
        split; [done|]. split; [by eapply resident_bufs|]. split; [|by right].
        apply cache_only_same_bufs; [unfold cache_frame|done]. by destruct w as [? [] ?].
      * exists w. erewrite bind_ret_eq by (erewrite bind_ret_eq by (by apply bf_ok); reflexivity).
        split; [done|]. split; [done|]. split; [apply cache_only_refl|by left].
    + exists w. split; [done|]. split; [done|]. split; [apply cache_only_refl|by left].
  - destruct (C !! nb) as [d|] eqn:Ed; [|done]. cbn [mbind option_bind] in Hz.
    cbn [bmap_levels]. replace (NSHIFT * Z.of_nat (S k) - NSHIFT) with (NSHIFT * Z.of_nat k) by lia.
    cbn [entries]. rewrite digit_eq. set (i := Z.to_nat _) in *.
    destruct (indirect_ok C w rw nb d i HC Ed) as (w1 & H1 & Ho1 & Hra1 & E1). cbv zeta in E1.
    destruct (rdf (elt b_daddr i) d =? 0) eqn:Ez.
    + apply Z.eqb_eq in Ez. rewrite Ez in Hz.
      assert (z = -1) as -> by (destruct (entries k bn); cbn in Hz; by injection Hz as <-).
      erewrite bind_ret_eq by (apply E1; by destruct Hrw). exists w1.
      split; [done|]. split; [done|]. split; [done|by left].
    + destruct E1 as (x & b & E1 & Hx & Hbd). erewrite bind_ret_eq by exact E1. cbn beta iota.
      apply Z.eqb_neq in Ez.
      destruct (IH w1 (rdf (elt b_daddr i) d) bn (Some (x, i)) (next_entry i d) z H1 Ez Hrw) as (w2 & E2 & H2 & Ho2 & Hra2);
        [intros ? ? [= <- <-]; exists b; by rewrite Hbd|done|].
      exists w2. split; [done|]. split; [done|]. split; [by eapply cache_only_trans|].
      unfold ra_set in *. rewrite Hra1 in Hra2. cbn [ahead]. rewrite Ed. cbn [mbind option_bind].
      by destruct (entries k bn).
Qed.

Lemma at_nth (l : list Z) i : (i < length l)%nat -> l !! i = Some (nth i l 0).
Proof. intros Hi. destruct (nth_lookup_or_length l i 0); [done|lia]. Qed.

(** ** [bmap] for reading *)

Lemma bmap_inode_ok w ip r i nb rw : inodes (ks w) !! ip = Some r -> i_addr r !! i = Some nb ->
  rw = B_READ \/ nb <> 0 ->
  bmap_inode ip i dev rw w = Ret (if nb =? 0 then None else Some nb) w.
Proof using Type.
  intros Hr Hi Hrw. unfold bmap_inode. erewrite bind_ret_eq by (by apply ipf_ok). cbn beta.
  rewrite Hi. erewrite bind_ret_eq by reflexivity. cbn beta.
  destruct (Z.eqb_spec nb 0); [|done]. by destruct Hrw as [->|].
Qed.

Lemma level_some bn j sh r : level 3 0 1 bn = Some (j, sh, r) ->
  (1 <= j <= 3)%nat /\ sh = NSHIFT * Z.of_nat (4 - j).
Proof.
  cbn [level]. repeat destruct (_ <? _); intros [= <- <- <-]; (split; [lia|done]).
Qed.

(** The block that a file may have read ahead with a block, from its path. *)
Definition ahead_of (C : gmap Z (list Z)) (addrs : list Z) (s : nat) (es : list nat) : option Z :=
  match es with
  | [] => if Nat.ltb s 9 then addrs !! S s else None
  | _ => ahead C (nth s addrs 0) es
  end.

(** What [bmap] leaves: the address, the cache at rest and the block to read
    ahead, if any. *)
Definition maps_to (C : gmap Z (list Z)) (w : world) (m : KM Z) (z : Z) (la : option Z) : Prop :=
  exists w2, m w = Ret z w2 /\ resident C w2 /\ cache_only w w2 /\
    (rablock (ks w2) = 0 \/ Some (rablock (ks w2)) = la).

(** A block of the first ten. *)
Lemma bmap_direct C w ip r bn z rw : rw = B_READ \/ z <> -1 -> resident C w -> inodes (ks w) !! ip = Some r -> i_dev r = dev ->
  length (i_addr r) = 13%nat -> 0 <= bn < 10 ->
  follow C (nth (Z.to_nat bn) (i_addr r) 0) [] = Some z ->
  maps_to C w (bmap ip bn rw) z (ahead_of C (i_addr r) (Z.to_nat bn) []).
Proof using Type.
  intros Hrw HC Hr Hd Hl Hbn Hz. unfold maps_to, bmap. rewrite (proj2 (Z.ltb_ge bn 0)) by lia.
  erewrite bind_ret_eq by (by apply ipf_ok). cbn beta. rewrite Hd.
  set (w1 := w <| ks ::= fun k => k <| rablock := 0 |> |>).
  erewrite (bind_ret_eq (kset rablock 0) _ _ tt w1) by reflexivity. cbn beta.
  rewrite (proj2 (Z.ltb_lt bn (NADDR - 3))) by (unfold NADDR; lia).
  assert (Hat : forall i, (i < 13)%nat -> i_addr r !! i = Some (nth i (i_addr r) 0)).
  { intros i Hi. apply at_nth. lia. }
  assert (inodes (ks w1) !! ip = Some r) as Hr1 by done.
  assert (rw = B_READ \/ nth (Z.to_nat bn) (i_addr r) 0 <> 0) as Hrw1
    by (destruct Hrw as [|Hrw]; [by left|right]; intros E0; rewrite E0 in Hz; by injection Hz as <-).
  erewrite bind_ret_eq by (apply (bmap_inode_ok w1 ip r _ (nth (Z.to_nat bn) (i_addr r) 0) rw Hr1); [apply Hat; lia|done]). cbn beta.
  cbn [follow] in Hz. destruct (nth (Z.to_nat bn) (i_addr r) 0 =? 0).
  - injection Hz as <-. exists w1. split; [done|]. split; [by eapply resident_bufs|].
    split; [|by left]. apply cache_only_same_bufs; [unfold cache_frame|done]. by destruct w as [? [] ?].
  - injection Hz as <-. erewrite bind_ret_eq by (by apply ipf_ok). cbn beta.
    exists (w <| ks ::= fun k => k <| rablock :=
      if bn <? NADDR - 4 then nth (S (Z.to_nat bn)) (i_addr r) 0 else 0 |> |>).
    split; [|split; [by eapply resident_bufs|split; [apply cache_only_same_bufs; [unfold cache_frame; by destruct w as [? [] ?]|done]|]]].
    + destruct (bn <? NADDR - 4); [|done]. cbn [when]. rewrite Hat by lia.
      erewrite bind_ret_eq by (erewrite bind_ret_eq by reflexivity; reflexivity).
      unfold ret. f_equal.
    + cbn [rablock ks setf ahead_of]. destruct (Z.ltb_spec bn (NADDR - 4)) as [Hlt|]; [right|by left].
      unfold NADDR in Hlt. rewrite (proj2 (Nat.ltb_lt _ _)) by lia. rewrite Hat by lia. done.
Qed.
(** A block under indirect blocks. *)
Lemma bmap_indirects C w ip r bn j sh q z rw : rw = B_READ \/ z <> -1 -> resident C w -> inodes (ks w) !! ip = Some r -> i_dev r = dev ->
  length (i_addr r) = 13%nat -> 10 <= bn -> level 3 0 1 (bn - 10) = Some (j, sh, q) ->
  follow C (nth (13 - j) (i_addr r) 0) (entries (4 - j) q) = Some z ->
  maps_to C w (bmap ip bn rw) z (ahead_of C (i_addr r) (13 - j) (entries (4 - j) q)).
Proof using Hdev Hdp Hdf Hnd.
  intros Hrw HC Hr Hd Hl Hbn El Hz. unfold maps_to, bmap. rewrite (proj2 (Z.ltb_ge bn 0)) by lia.
  erewrite bind_ret_eq by (by apply ipf_ok). cbn beta. rewrite Hd.
  set (w1 := w <| ks ::= fun k => k <| rablock := 0 |> |>).
  erewrite (bind_ret_eq (kset rablock 0) _ _ tt w1) by reflexivity. cbn beta.
  rewrite (proj2 (Z.ltb_ge bn (NADDR - 3))) by (unfold NADDR; lia).
  change (NADDR - 3) with 10. rewrite El. cbn beta iota.
  destruct (level_some _ _ _ _ El) as [Hj ->].
  assert (inodes (ks w1) !! ip = Some r) as Hr1 by done.
  assert (resident C w1 /\ cache_only w w1) as [H1 Ho1].
  { split; [by eapply resident_bufs|apply cache_only_same_bufs; [unfold cache_frame; by destruct w as [? [] ?]|done]]. }
  assert (rw = B_READ \/ nth (13 - j) (i_addr r) 0 <> 0) as Hrw1.
  { destruct Hrw as [|Hrw]; [by left|right]. intros E0. rewrite E0 in Hz.
    destruct (entries (4 - j) q); cbn in Hz; by injection Hz as <-. }
  erewrite bind_ret_eq by (apply (bmap_inode_ok w1 ip r _ (nth (13 - j) (i_addr r) 0) rw Hr1); [apply at_nth; lia|done]).
  cbn beta. destruct (nth (13 - j) (i_addr r) 0 =? 0) eqn:Ez.
  - exists w1. apply Z.eqb_eq in Ez. rewrite Ez in Hz.
    split; [destruct (entries (4 - j) q); cbn in Hz; by injection Hz as <-|]. split; [done|]. split; [done|by left].
  - apply Z.eqb_neq in Ez.
    destruct (levels_ok C rw (4 - j) w1 (nth (13 - j) (i_addr r) 0) q None None z H1 Ez Hrw) as (w2 & E2 & H2 & Ho2 & Hra);
      [done|done|].
    exists w2. split; [exact E2|]. split; [done|]. split; [by eapply cache_only_trans|].
    unfold ra_set in Hra. destruct Hra as [Hra|Hra]; [left; exact Hra|right]. rewrite Hra.
    destruct (4 - j)%nat eqn:E4; [lia|done].
Qed.

(** A block of a file all of whose blocks on the way are at rest. *)
Lemma bmap_found C w ip r bn s es z rw : rw = B_READ \/ z <> -1 -> resident C w -> inodes (ks w) !! ip = Some r -> i_dev r = dev ->
  length (i_addr r) = 13%nat -> 0 <= bn -> path bn = Some (s, es) ->
  follow C (nth s (i_addr r) 0) es = Some z ->
  maps_to C w (bmap ip bn rw) z (ahead_of C (i_addr r) s es).
Proof using Hdev Hdp Hdf Hnd.
  intros Hrw HC Hr Hdv Hl Hbn. rewrite path_level. destruct (Z.ltb_spec bn 10).
  - intros [= <- <-] Hz. by apply bmap_direct.
  - destruct (level 3 0 1 (bn - 10)) as [[[j sh] q]|] eqn:El; [|done].
    intros [= <- <-] Hz. by eapply bmap_indirects.
Qed.
End Blocks.

(** C4. Reading, [bmap] follows the file's tree of addresses along the path
    that the block's number spells — its digits to the base 128, behind the
    ten blocks the inode names itself: with the indirect blocks on the way at
    rest in the cache, it returns the address of the block — -1 if the file
    has no such block — and leaves everything but the cache and the block to
    read ahead as it was: the cached blocks again at rest, delayed writes still
    marked, and the block to read ahead the next one under the same indirect
    block, or none.  A block past the largest is refused with EFBIG. *)
Theorem bmap_read_correct (MC : Machine) (dev : Z) (dp : bptr) (hs : list bptr) (H : bptr -> list bptr)
    (C : gmap Z (list Z)) (w : world) (ip : nat) (r : inode) (bn : Z) :
  on_dev dev dp -> dp ∈ hs -> dp <> Bfree -> dev <> NODEV -> resident dev dp hs H C w ->
  inodes (ks w) !! ip = Some r -> i_dev r = dev -> length (i_addr r) = 13%nat -> 0 <= bn ->
  match path bn with
  | Some (s, es) => forall z, follow C (nth s (i_addr r) 0) es = Some z ->
      exists w2, bmap ip bn B_READ w = Ret z w2 /\ resident dev dp hs H C w2 /\ cache_only w w2 /\
        (rablock (ks w2) = 0 \/ Some (rablock (ks w2)) = ahead_of C (i_addr r) s es)
  | None => bmap ip bn B_READ w =
      Ret 0 (w <| ks ::= fun k => k <| rablock := 0 |> |> <| u ::= fun us => us <| u_error := EFBIG |> |>)
  end.
Proof.
  intros Hd Hdp Hdf Hn HC Hr Hdev Hl Hbn. destruct (path bn) as [[s es]|] eqn:Ep.
  - intros z Hz. eapply (bmap_found dev dp hs H); eauto.
  - rewrite path_level in Ep. destruct (Z.ltb_spec bn 10) as [|Hge]; [done|].
    destruct (level 3 0 1 (bn - 10)) as [[[j sh] q]|] eqn:El; [done|].
    unfold bmap. rewrite (proj2 (Z.ltb_ge bn 0)) by lia.
    erewrite bind_ret_eq by (by apply ipf_ok). cbn beta.
    erewrite bind_ret_eq by reflexivity. cbn beta.
    rewrite (proj2 (Z.ltb_ge bn (NADDR - 3))) by (unfold NADDR; lia).
    change (NADDR - 3) with 10. rewrite El. done.
Qed.

(** ** The shape of the tree *)

Definition MAXBLOCK : Z := 10 + 128 + 128 * 128 + 128 * 128 * 128.

(** The entries are the digits of the number to the base 128. *)
Definition number (es : list nat) (v : Z) : Z := foldl (fun v i => v * 128 + Z.of_nat i) v es.

Lemma number_entries k bn : forall v, 0 <= bn ->
  number (entries k bn) v = v * 128 ^ Z.of_nat k + bn mod 128 ^ Z.of_nat k.
Proof.
  induction k as [|k IH]; intros v Hb.
  - cbn. rewrite Z.mod_1_r. lia.
  - cbn [entries]. unfold number in *. cbn [foldl]. rewrite IH by done.
    rewrite Z2Nat.id by (apply Z.mod_pos_bound; lia).
    rewrite Nat2Z.inj_succ, Z.pow_succ_r by lia. rewrite (Z.mul_comm 128), Z.rem_mul_r by lia. lia.
Qed.

Lemma entries_bound k bn : 0 <= bn -> Forall (fun i => (i < 128)%nat) (entries k bn) /\ length (entries k bn) = k.
Proof.
  intros Hb. induction k as [|k [IH IHl]]; [by split; [constructor|]|]. cbn [entries length].
  split; [|by rewrite IHl]. constructor; [|done]. 
  pose proof (Z.mod_pos_bound (bn / 128 ^ Z.of_nat k) 128). lia.
Qed.

Lemma entries_inj k a b : 0 <= a < 128 ^ Z.of_nat k -> 0 <= b < 128 ^ Z.of_nat k ->
  entries k a = entries k b -> a = b.
Proof.
  intros Ha Hb E. apply (f_equal (fun l => number l 0)) in E.
  rewrite !number_entries in E by lia. by rewrite !Z.mod_small in E by lia.
Qed.

(** The four kinds of path. *)
Lemma path_cases bn s es : 0 <= bn -> path bn = Some (s, es) ->
  (bn < 10 /\ s = Z.to_nat bn /\ es = []) \/
  exists k base, (1 <= k <= 3)%nat /\ s = (9 + k)%nat /\ es = entries k (bn - base) /\
    base = nth k [0; 10; 138; 16522] 0 /\ 0 <= bn - base < 128 ^ Z.of_nat k.
Proof.
  intros Hb. rewrite path_level. destruct (Z.ltb_spec bn 10).
  - intros [= <- <-]. by left.
  - rewrite level_cases. intros E. right.
    destruct (Z.ltb_spec (bn - 10) 128); [|destruct (Z.ltb_spec (bn - 10) (128 + 16384));
      [|destruct (Z.ltb_spec (bn - 10) (128 + 16384 + 2097152)); [|done]]]; injection E as <- <-.
    + exists 1%nat, 10. repeat split; try lia.
    + exists 2%nat, 138. replace (bn - 138) with (bn - 10 - 128) by lia. repeat split; try lia.
    + exists 3%nat, 16522. replace (bn - 16522) with (bn - 10 - 128 - 16384) by lia. repeat split; try lia.
Qed.

(** The tree of a file has a place for exactly the blocks below 10 + 128 +
    128^2 + 128^3: the path of each stays within the inode's addresses and
    within the 128 entries of each indirect block, and no two blocks have the
    same path. *)
Theorem bmap_paths (bn : Z) : 0 <= bn ->
  (path bn = None <-> MAXBLOCK <= bn) /\
  forall s es, path bn = Some (s, es) ->
    (s < 13)%nat /\ Forall (fun i => (i < 128)%nat) es /\ length es = (s - 9)%nat /\
    forall bn', 0 <= bn' -> path bn' = Some (s, es) -> bn' = bn.
Proof.
  intros Hb. split.
  - rewrite path_level. unfold MAXBLOCK. destruct (Z.ltb_spec bn 10); [split; [done|lia]|].
    rewrite level_cases.
    destruct (Z.ltb_spec (bn - 10) 128); [split; [done|lia]|].
    destruct (Z.ltb_spec (bn - 10) (128 + 16384)); [split; [done|lia]|].
    destruct (Z.ltb_spec (bn - 10) (128 + 16384 + 2097152)); [split; [done|lia]|].
    split; [lia|done].
  - intros s es Hp. destruct (path_cases bn s es Hb Hp) as [(Hlt & -> & ->)|(k & base & Hk & -> & -> & Hbase & Hr)].
    + split; [lia|]. split; [constructor|]. split; [cbn; lia|]. intros bn' Hb' Hp'.
      destruct (path_cases bn' _ _ Hb' Hp') as [(? & ? & _)|(k & base & ? & ? & _)]; lia.
    + destruct (entries_bound k (bn - base)) as [Hf Hl]; [lia|].
      split; [lia|]. split; [done|]. split; [lia|]. intros bn' Hb' Hp'.
      destruct (path_cases bn' _ _ Hb' Hp') as [(? & ? & _)|(k' & base' & Hk' & Ek & Ee & Hbase' & Hr')]; [lia|].
      assert (k' = k) as -> by lia. assert (base' = base) as -> by congruence.
      apply entries_inj in Ee; lia.
Qed.

Lemma bmap_paths_witness :
  (path 16522 = None <-> MAXBLOCK <= 16522) /\
  forall s es, path 16522 = Some (s, es) ->
    (s < 13)%nat /\ Forall (fun i => (i < 128)%nat) es /\ length es = (s - 9)%nat /\
    forall bn', 0 <= bn' -> path bn' = Some (s, es) -> bn' = 16522.
Proof. apply (bmap_paths 16522). lia. Defined.

(** A file whose block 12 is under the indirect block 7. *)
Definition tree : gmap Z (list Z) := {[ 7 := splice 8 (bytes_of 4 99) (replicate 512 0) ]}.
Definition tree_cache : gmap bptr buf :=
  alter (fun b => b <| b_data := splice 8 (bytes_of 4 99) (replicate 512 0) |>) (Buf 1) idle_cache.
Definition tree_inode : inode := inode0 <| i_addr := [20; 21; 22; 23; 24; 25; 26; 27; 28; 29; 7; 0; 0] |>.
Definition tree_world : world :=
  setb (world0 <| ks ::= fun k => k <| inodes := [tree_inode] |> |>) tree_cache.

Lemma tree_resident : resident 0 (Dtab 0) two_heads two_bufs tree tree_world.
Proof.
  constructor.
  - exists [Buf 1; Buf 0]. change (bufs (ks tree_world)) with tree_cache. small_cache.
  - eexists. by split.
  - eexists. by split.
  - intros n d Hn. unfold tree in Hn. apply lookup_singleton_Some in Hn as [<- <-].
    exists (Buf 1). eexists. split; [right; left|]. by split.
Qed.

Lemma bmap_read_correct_witness :
  exists w2, @bmap disk_machine 0 12 B_READ tree_world = Ret 99 w2 /\
    resident 0 (Dtab 0) two_heads two_bufs tree w2 /\ cache_only tree_world w2 /\
    (rablock (ks w2) = 0 \/ Some (rablock (ks w2)) = ahead_of tree (i_addr tree_inode) 10 [2%nat]).
Proof.
  apply (bmap_read_correct disk_machine 0 (Dtab 0) two_heads two_bufs tree tree_world 0 tree_inode 12);
    try done.
  - split; [done|]. by eexists.
  - right. left.
  - exact tree_resident.
Defined.
