(* ===== verification/Freelist.v ===== *)
(** * Freelist: the free list of a super block, under [free] and [alloc]

    As long as no block of free addresses has to be written or read, [free]
    and the loop of [alloc] ([Alloc.alloc_take]) work on the list in the super
    block alone, as on a stack. *)

From S2P Require Import Prelude Bytes State Sched Bio Cache Alloc.

(** ** The super block in the headers *)

(** The headers with the super block in [fp] replaced. *)
Definition sup (m : gmap bptr buf) (fp : bptr) (d : list Z) : gmap bptr buf :=
  alter (setf b_data (fun _ => d)) fp m.

Section Sup.
Context (w : world) (m : gmap bptr buf) (fp : bptr) (Hfp : is_Some (m !! fp)).

Lemma sup_at d : exists b, sup m fp d !! fp = Some b /\ b_data b = d.
Proof using Hfp. destruct Hfp as [b Hb]. unfold sup. rewrite lookup_alter_eq, Hb. by eexists. Qed.

Lemma fsget_sup f d : fsget fp f (setb w (sup m fp d)) = Ret (rdf f d) (setb w (sup m fp d)).
Proof using Hfp.
  destruct (sup_at d) as (b & Eb & Ed). unfold fsget.
  erewrite bind_ret_eq by (by apply bf_setb). by rewrite Ed.
Qed.

Lemma fsset_sup f v d : fsset fp f v (setb w (sup m fp d)) = Ret tt (setb w (sup m fp (wrf f v d))).
Proof using Hfp.
  destruct (sup_at d) as (b & Eb & Ed). unfold fsset.
  erewrite bind_ret_eq by (by apply bf_setb). cbn beta. rewrite Ed.
  rewrite bset_setb by (by exists b). do 2 f_equal. unfold sup. by rewrite alter_alter_eq.
Qed.
End Sup.

(** ** The list *)

(** Agreement outside the fields [fs]. *)
Definition agree_off (fs : list field) (d d' : list Z) : Prop :=
  length d' = length d /\ forall f, Forall (apart f) fs -> rdf f d' = rdf f d.

Lemma agree_wrf fs f v d d' : agree_off fs d d' -> f ∈ fs -> in_bounds f d -> agree_off fs d (wrf f v d').
Proof.
  intros [Hl H] Hf Hb. assert (in_bounds f d') as Hb' by (unfold in_bounds in *; by rewrite Hl).
  split; [by rewrite length_wrf|]. intros g Hg. rewrite rdf_wrf_ne; [by apply H|done|].
  rewrite Forall_forall in Hg. by apply Hg.
Qed.
Lemma agree_refl fs d : agree_off fs d d.
Proof. done. Qed.

(** The super block [d] lists the free blocks [L], the next to go last. *)
Record lists (d : list Z) (L : list Z) : Prop := {
  li_len : length d = 512%nat;
  li_room : (length L <= 50)%nat;
  li_count : rdf s_nfree d = Z.of_nat (length L);
  li_at : forall i b, L !! i = Some b -> rdf (s_free_at (Z.of_nat i)) d = b
}.

Ltac field_side := unfold apart, in_bounds, s_free_at; cbn; lia.

Lemma free_at_apart i j : i <> j -> apart (s_free_at (Z.of_nat i)) (s_free_at (Z.of_nat j)).
Proof. intros H. unfold apart, s_free_at. cbn. lia. Qed.
Lemma free_at_bounds i d : length d = 512%nat -> (i < 50)%nat -> in_bounds (s_free_at (Z.of_nat i)) d.
Proof. intros H Hi. unfold in_bounds, s_free_at. cbn. lia. Qed.

(** One block more. *)
Lemma lists_push d L b : lists d L -> (length L < 50)%nat -> -2147483648 <= b < 2147483648 ->
  lists (wrf s_nfree (Z.of_nat (length L) + 1) (wrf (s_free_at (Z.of_nat (length L))) b d)) (L ++ [b]).
Proof.
  intros [Hl Hr Hc Ha] Hroom Hb.
  assert (in_bounds (s_free_at (Z.of_nat (length L))) d) as Hb1 by (by apply free_at_bounds).
  assert (in_bounds s_nfree (wrf (s_free_at (Z.of_nat (length L))) b d)) as Hb2.
  { unfold in_bounds. rewrite length_wrf by done. cbn. lia. }
  constructor.
  - by rewrite !length_wrf.
  - rewrite length_app. cbn. lia.
  - rewrite rdf_wrf, length_app by done. cbn [f_ty s_nfree cast length]. rewrite s16_id by lia. lia.
  - intros i x Hx. rewrite rdf_wrf_ne by (done || field_side).
    apply lookup_app_Some in Hx as [Hx|[Hi Hx]].
    + pose proof (lookup_lt_Some _ _ _ Hx). rewrite rdf_wrf_ne; [by apply Ha|done|apply free_at_apart; lia].
    + destruct (i - length L)%nat eqn:E; [|done]. injection Hx as <-.
      replace i with (length L) by lia. rewrite rdf_wrf by done. cbn [f_ty s_free_at cast]. by apply s32_id.
Qed.

(** One block less. *)
Lemma lists_pop d L b : lists d (L ++ [b]) ->
  rdf s_nfree d = Z.of_nat (length L) + 1 /\ rdf (s_free_at (Z.of_nat (length L))) d = b /\
  lists (wrf s_nfree (Z.of_nat (length L)) d) L.
Proof.
  intros [Hl Hr Hc Ha]. rewrite length_app in Hr, Hc. cbn [length] in Hr, Hc.
  assert (in_bounds s_nfree d) as Hb by field_side.
  split; [lia|]. split; [apply Ha; by apply list_lookup_middle|]. constructor.
  - by rewrite length_wrf.
  - lia.
  - rewrite rdf_wrf by done. cbn [f_ty s_nfree cast]. apply s16_id. lia.
  - intros i x Hx. rewrite rdf_wrf_ne by (done || field_side). apply Ha. by apply lookup_app_l_Some.
Qed.

(** ** [free] and [alloc_take] *)

(** The super block of [dev] is in [fp]. *)
Definition mounted (k : kernel) (dev : Z) (fp : bptr) : Prop :=
  exists pre ip post, mounts k = pre ++ mkmount dev (Some fp) ip :: post /\
    Forall (fun m => m_bufp m = None \/ m_dev m <> dev) pre /\ (length pre < NMOUNT)%nat.

(** Bad blocks complained about. *)
Definition noted (n : nat) (dev : Z) (w : world) : world :=
  w <| ks ::= fun k => k <| console ::= fun l => l ++ replicate n (Prdev "bad block" dev) |> |>.
Definition bad (d : list Z) (b : Z) : bool := (b <? rdf s_isize d) || (rdf s_fsize d <=? b).

(** What is taken off the list: from its end, the first block that is good;
    none past an entry 0. The rest of the list, and how many were bad. *)
Fixpoint take_back (d : list Z) (r : list Z) : option Z * list Z * nat :=
  match r with
  | [] => (None, [], O)
  | b :: r =>
      if b =? 0 then (None, r, O)
      else if bad d b then let '(o, r', n) := take_back d r in (o, r', S n)
      else (Some b, r, O)
  end.

Lemma take_back_agree d d' r : rdf s_isize d' = rdf s_isize d -> rdf s_fsize d' = rdf s_fsize d ->
  take_back d' r = take_back d r.
Proof. intros E1 E2. induction r as [|b r IH]; [done|]. cbn. unfold bad. by rewrite IH, E1, E2. Qed.

Section Free.
Context {MC : Machine} (w : world) (m : gmap bptr buf) (fp : bptr) (dev : Z).
Context (Hfp : is_Some (m !! fp)).

Lemma badblock_ok b d : badblock fp b dev (setb w (sup m fp d)) =
  Ret (bad d b) (setb (noted (if bad d b then 1 else 0) dev w) (sup m fp d)).
Proof using Hfp.
  unfold badblock. erewrite bind_ret_eq by (by apply fsget_sup). cbn beta.
  erewrite bind_ret_eq by (by apply fsget_sup). cbn beta. fold (bad d b). destruct (bad d b); [done|].
  unfold ret, noted. cbn [replicate]. f_equal. destruct w as [? [] ?]. cbn. by rewrite app_nil_r.
Qed.

Lemma getfs_ok d L : mounted (ks w) dev fp -> lists d L -> rdf s_ninode d <= 100 ->
  getfs dev (setb w (sup m fp d)) = Ret fp (setb w (sup m fp d)).
Proof using Hfp.
  intros (pre & ip & post & Em & Hpre & Hlen) HL Hni. unfold getfs.
  set (body := fun mp : nat => _). set (s := setb w (sup m fp d)).
  assert (forall l1 l2, pre = l1 ++ l2 ->
    for_find (seq (length l1) (NMOUNT - length l1)) body s = Ret (Some fp) s) as Hfind.
  { intros l1 l2. revert l1. induction l2 as [|x l2 IH]; intros l1 E.
    - rewrite app_nil_r in E. subst l1.
      replace (NMOUNT - length pre)%nat with (S (NMOUNT - length pre - 1)) by lia. cbn [seq for_find].
      erewrite (bind_ret_eq (body (length pre)) _ _ (Some fp) s); [done|]. unfold body.
      erewrite bind_ret_eq by (apply tget_ok; change (mounts (ks s)) with (mounts (ks w)); rewrite Em;
        by apply list_lookup_middle).
      cbn. by rewrite Z.eqb_refl.
    - assert (length l1 < length pre)%nat as Hl by (rewrite E, length_app; cbn; lia).
      replace (NMOUNT - length l1)%nat with (S (NMOUNT - length (l1 ++ [x]))) by (rewrite length_app; cbn; unfold NMOUNT in *; lia).
      cbn [seq for_find]. erewrite (bind_ret_eq (body (length l1)) _ _ None s).
      2: { unfold body. erewrite bind_ret_eq by (apply tget_ok; change (mounts (ks s)) with (mounts (ks w));
             rewrite Em, E, <- app_assoc; by apply list_lookup_middle).
           cbn beta. rewrite E, Forall_app, Forall_cons in Hpre. destruct Hpre as (_ & Hx & _).
           destruct Hx as [->|Hx]; [done|]. destruct (m_bufp x); [|done]. by rewrite (proj2 (Z.eqb_neq _ _) Hx). }
      replace (S (length l1)) with (length (l1 ++ [x])) by (rewrite length_app; cbn; lia).
      apply IH. by rewrite <- app_assoc. }
  erewrite bind_ret_eq by exact (Hfind [] pre eq_refl). cbn beta iota.
  erewrite bind_ret_eq by (by apply fsget_sup). cbn beta.
  erewrite bind_ret_eq by (by apply fsget_sup). cbn beta.
  rewrite (li_count _ _ HL), (proj2 (Z.ltb_ge _ _)) by (pose proof (li_room _ _ HL); unfold NICFREE; lia).
  rewrite (proj2 (Z.ltb_ge _ _)) by (unfold NICINOD; lia). done.
Qed.

Lemma wait_lock_ok f d : rdf f d = 0 ->
  wait_lock fp f (setb w (sup m fp d)) = Ret tt (setb w (sup m fp d)).
Proof using Hfp.
  intros E. unfold wait_lock. erewrite bind_ret_eq by reflexivity. eapply loop_done.
  erewrite bind_ret_eq by (by apply fsget_sup). cbn beta. by rewrite E.
Qed.
End Free.

Lemma noted_add n k dev w : noted n dev (noted k dev w) = noted (k + n) dev w.
Proof. unfold noted. destruct w as [? [] ?]. cbn. by rewrite <- app_assoc, replicate_add. Qed.
Lemma noted_0 dev w : noted 0 dev w = w.
Proof. unfold noted. destruct w as [? [] ?]. cbn. by rewrite app_nil_r. Qed.

Section Take.
Context {MC : Machine} (m : gmap bptr buf) (fp : bptr) (dev : Z) (Hfp : is_Some (m !! fp)).

(** The body of the loop of [alloc_take]. *)
Definition take_step (_ : unit) : KM (unit + option Z) :=
  nf <- fsget fp s_nfree ;;
  if nf <=? 0 then ret (inr None)
  else if NICFREE <? nf then prdev "Bad free count" dev ;;; ret (inr None)
  else
    fsset fp s_nfree (nf - 1) ;;;
    bno <- fsget fp (s_free_at (nf - 1)) ;;
    if bno =? 0 then ret (inr None)
    else
      bad <- badblock fp bno dev ;;
      ret (if bad : bool then inl tt else inr (Some bno)).

Lemma take_step_empty w d : lists d [] -> take_step tt (setb w (sup m fp d)) = Ret (inr None) (setb w (sup m fp d)).
Proof using Hfp.
  intros HL. unfold take_step. erewrite bind_ret_eq by (by apply fsget_sup). cbn beta.
  by rewrite (li_count _ _ HL).
Qed.

(** A turn with [b] at the end of the list; the super block it leaves. *)
Lemma take_step_pop w d L b : lists d (L ++ [b]) ->
  let d1 := wrf s_nfree (Z.of_nat (length L)) d in
  lists d1 L /\ agree_off [s_nfree] d d1 /\
  take_step tt (setb w (sup m fp d)) =
    Ret (if b =? 0 then inr None else if bad d b then inl tt else inr (Some b))
      (setb (if b =? 0 then w else noted (if bad d b then 1 else 0) dev w) (sup m fp d1)).
Proof using Hfp.
  intros HL d1. destruct (lists_pop d L b HL) as (Hc & Hb & HL'). fold d1 in HL'.
  pose proof (li_room _ _ HL) as Hroom. rewrite length_app in Hroom. cbn [length] in Hroom.
  assert (agree_off [s_nfree] d d1) as Ha.
  { apply agree_wrf; [apply agree_refl|left|]. unfold in_bounds. rewrite (li_len _ _ HL). cbn. lia. }
  split; [done|]. split; [done|]. destruct Ha as [_ Ha].
  assert (rdf (s_free_at (Z.of_nat (length L))) d1 = b) as Hb1.
  { rewrite Ha; [done|]. apply Forall_singleton. field_side. }
  assert (bad d1 b = bad d b) as Hbad.
  { unfold bad. rewrite !Ha; [done|apply Forall_singleton; field_side..]. }
  unfold take_step. erewrite bind_ret_eq by (by apply fsget_sup). cbn beta. rewrite Hc.
  rewrite (proj2 (Z.leb_gt _ _)), (proj2 (Z.ltb_ge _ _)) by (unfold NICFREE; lia).
  rewrite Z.add_simpl_r. erewrite bind_ret_eq by (by apply fsset_sup). cbn beta. fold d1.
  erewrite bind_ret_eq by (by apply fsget_sup). cbn beta. rewrite Hb1.
  destruct (b =? 0); [done|]. erewrite bind_ret_eq by (by apply badblock_ok). cbn beta.
  rewrite Hbad. by destruct (bad d b).
Qed.

Lemma take_loop L : forall n w d, lists d L -> (length L < n)%nat ->
  let '(o, r, k) := take_back d (reverse L) in
  exists d', loop n take_step tt (setb w (sup m fp d)) = Ret o (setb (noted k dev w) (sup m fp d')) /\
    lists d' (reverse r) /\ agree_off [s_nfree] d d'.
Proof using Hfp.
  induction L as [|b L IH] using rev_ind; intros n w d HL Hn; (destruct n as [|n]; [lia|]).
  - cbn [reverse rev_append take_back]. exists d. erewrite loop_done by (by apply take_step_empty).
    by rewrite noted_0.
  - destruct (take_step_pop w d L b HL) as (HL' & Ha & Hstep). set (d1 := wrf _ _ d) in *.
    rewrite length_app in Hn. cbn [length] in Hn. rewrite reverse_snoc. cbn [take_back].
    destruct (b =? 0).
    { exists d1. erewrite loop_done by exact Hstep. by rewrite reverse_involutive, noted_0. }
    destruct (bad d b).
    + specialize (IH n (noted 1 dev w) d1 HL' ltac:(lia)). destruct Ha as [Hl1 Ha].
      rewrite (take_back_agree d) in IH by (apply Ha, Forall_singleton; field_side).
      destruct (take_back d (reverse L)) as [[o r] k]. destruct IH as (d' & E & HL2 & Hl2 & Ha2).
      exists d'. erewrite loop_next by exact Hstep. rewrite E, noted_add. split; [done|]. split; [done|].
      split; [congruence|]. intros f Hf. by rewrite Ha2, Ha.
    + exists d1. erewrite loop_done by exact Hstep. by rewrite reverse_involutive.
Qed.
End Take.

(** The fields that [free] may change. *)
Definition free_fields : list field :=
  s_nfree :: s_fmod :: map (fun i => s_free_at (Z.of_nat i)) (seq 0 50).

Lemma free_field_at i : (i < 50)%nat -> s_free_at (Z.of_nat i) ∈ free_fields.
Proof. intros Hi. do 2 right. apply list_elem_of_fmap. exists i. split; [done|]. apply elem_of_seq. lia. Qed.

Lemma lists_fmod d L v : lists d L -> lists (wrf s_fmod v d) L.
Proof.
  intros [Hl Hr Hc Ha]. assert (in_bounds s_fmod d) as Hb by (unfold in_bounds; rewrite Hl; cbn; lia).
  constructor; [by rewrite length_wrf|done|..].
  - rewrite rdf_wrf_ne; [done|done|]. field_side.
  - intros i b Hi. rewrite rdf_wrf_ne; [by apply Ha|done|]. pose proof (lookup_lt_Some _ _ _ Hi). field_side.
Qed.

(** The super block after the block [b] is put on the list [L]. *)
Definition pushed (L : list Z) (b : Z) (d : list Z) : list Z :=
  wrf s_fmod 1 (wrf s_nfree (Z.of_nat (length L) + 1) (wrf (s_free_at (Z.of_nat (length L))) b d)).

Lemma pushed_ok d0 d L b : lists d L -> (length L < 50)%nat -> -2147483648 <= b < 2147483648 ->
  agree_off free_fields d0 d -> length d0 = 512%nat ->
  lists (pushed L b d) (L ++ [b]) /\ rdf s_fmod (pushed L b d) = 1 /\ agree_off free_fields d0 (pushed L b d).
Proof.
  intros HL Hroom Hb Ha H0. pose proof (lists_push d L b HL Hroom Hb) as HL'. unfold pushed.
  split; [by apply lists_fmod|]. split.
  - rewrite rdf_wrf; [done|]. unfold in_bounds. rewrite (li_len _ _ HL'). cbn. lia.
  - assert (forall f, (f_off f + width (f_ty f) <= 512)%nat -> in_bounds f d0) as Hin
      by (intros f Hf; unfold in_bounds; by rewrite H0).
    apply agree_wrf; [|right; left|apply Hin; cbn; lia].
    apply agree_wrf; [|left|apply Hin; cbn; lia].
    apply agree_wrf; [done|by apply free_field_at|apply Hin; unfold s_free_at; cbn; lia].
Qed.

(** The end of [free], where the list has room. *)
Definition free_end (dev b : Z) (fp : bptr) {MC : Machine} : KM unit :=
  nf <- fsget fp s_nfree ;;
  when (NICFREE <=? nf) (free_spill fp dev b) ;;;
  nf <- fsget fp s_nfree ;;
  fsset fp (s_free_at nf) b ;;;
  fsset fp s_nfree (nf + 1) ;;;
  fsset fp s_fmod 1.

Lemma free_end_ok (MC : Machine) w m fp dev b d L : is_Some (m !! fp) -> lists d L -> (length L < 50)%nat ->
  free_end dev b fp (setb w (sup m fp d)) = Ret tt (setb w (sup m fp (pushed L b d))).
Proof.
  intros Hfp HL Hroom. unfold free_end.
  erewrite bind_ret_eq by (by apply fsget_sup). cbn beta. rewrite (li_count _ _ HL).
  rewrite (proj2 (Z.leb_gt _ _)) by (unfold NICFREE; lia). erewrite bind_ret_eq by reflexivity. cbn beta.
  erewrite bind_ret_eq by (by apply fsget_sup). cbn beta. rewrite (li_count _ _ HL).
  erewrite bind_ret_eq by (by apply fsset_sup). cbn beta.
  erewrite bind_ret_eq by (by apply fsset_sup). cbn beta. by apply fsset_sup.
Qed.

(** An empty list gets the entry 0. *)
Definition emptied (d : list Z) : list Z := wrf (s_free_at 0) 0 (wrf s_nfree 1 d).
Lemma emptied_ok d0 d : lists d [] -> agree_off free_fields d0 d -> length d0 = 512%nat ->
  lists (emptied d) [0] /\ agree_off free_fields d0 (emptied d).
Proof.
  intros HL Ha H0. pose proof (li_len _ _ HL) as Hlen.
  assert (in_bounds s_nfree d) as B1 by (unfold in_bounds; rewrite Hlen; cbn; lia).
  assert (in_bounds (s_free_at 0) (wrf s_nfree 1 d)) as B2
    by (unfold in_bounds; rewrite length_wrf, Hlen by done; cbn; lia).
  unfold emptied. split.
  - constructor; [by rewrite !length_wrf|cbn; lia|..].
    + rewrite rdf_wrf_ne, rdf_wrf; [done|done|done|field_side].
    + intros [|i] x Hx; [|done]. injection Hx as <-. change (Z.of_nat 0) with 0. by rewrite rdf_wrf.
  - apply agree_wrf; [apply agree_wrf; [done|left|]|apply (free_field_at 0); lia|];
      unfold in_bounds; rewrite H0; cbn; lia.
Qed.

(** Freeing a block whose number is in range puts it last on the free list
    of the super block, which has room — an empty list first gets the 0 that
    ends the chain — and marks the super block modified; nothing else in it
    or in the kernel changes.  A number out of range is complained about, and
    the list left alone. *)
Theorem free_correct (MC : Machine) (w : world) (m : gmap bptr buf) (fp : bptr) (dev b : Z) (d L : list Z) :
  is_Some (m !! fp) -> mounted (ks w) dev fp -> lists d L -> (length L < 50)%nat ->
  rdf s_ninode d <= 100 -> rdf s_flock d = 0 -> -2147483648 <= b < 2147483648 ->
  if bad d b then
    free dev b (setb w (sup m fp d)) = Ret tt (setb (noted 1 dev w) (sup m fp (wrf s_fmod 1 d)))
  else
    exists d', free dev b (setb w (sup m fp d)) = Ret tt (setb w (sup m fp d')) /\
      lists d' ((if decide (L = []) then [0] else L) ++ [b]) /\ rdf s_fmod d' = 1 /\
      agree_off free_fields d d'.
Proof.
  intros Hfp Hm HL Hroom Hni Hlk Hb. set (d1 := wrf s_fmod 1 d).
  assert (in_bounds s_fmod d) as Hbf by (unfold in_bounds; rewrite (li_len _ _ HL); cbn; lia).
  pose proof (lists_fmod d L 1 HL) as HL1. fold d1 in HL1.
  assert (bad d1 b = bad d b) as Hbad.
  { unfold bad, d1. rewrite !rdf_wrf_ne; [done|done|field_side|done|field_side]. }
  assert (agree_off free_fields d d1) as Ha1 by (apply agree_wrf; [apply agree_refl|right; left|done]).
  assert (Hrun : forall k, (fp <- getfs dev ;; fsset fp s_fmod 1 ;;; wait_lock fp s_flock ;;;
      bad <- badblock fp b dev ;; k fp bad : KM unit) (setb w (sup m fp d)) =
      k fp (bad d b) (setb (noted (if bad d b then 1 else 0) dev w) (sup m fp d1))).
  { intros k. erewrite bind_ret_eq by (by eapply getfs_ok). cbn beta.
    erewrite bind_ret_eq by (by apply fsset_sup). cbn beta. fold d1.
    erewrite bind_ret_eq by (apply wait_lock_ok; [done|]; unfold d1; rewrite rdf_wrf_ne; [done|done|field_side]).
    cbn beta. erewrite bind_ret_eq by (by apply badblock_ok). by rewrite Hbad. }
  unfold free. rewrite Hrun. destruct (bad d b); [done|]. rewrite noted_0. clear Hrun.
  pose proof (li_len _ _ HL) as Hlen. erewrite bind_ret_eq by (by apply fsget_sup). cbn beta.
  rewrite (li_count _ _ HL1). destruct (decide (L = [])) as [->|Hne].
  - destruct (emptied_ok d d1 HL1 Ha1 Hlen) as [HL2 Ha2].
    destruct (pushed_ok d _ [0] b HL2) as (P1 & P2 & P3); [cbn; lia|done|done|done|].
    exists (pushed [0] b (emptied d1)). split; [|done].
    erewrite (bind_ret_eq (when _ _) _ _ tt (setb w (sup m fp (emptied d1)))); [by apply free_end_ok; [..|cbn; lia]|].
    change (Z.of_nat (length []) <=? 0) with true. cbn [when].
    erewrite bind_ret_eq by (by apply fsset_sup). cbn beta. by apply fsset_sup.
  - destruct (pushed_ok d d1 L b HL1 Hroom Hb Ha1 Hlen) as (P1 & P2 & P3).
    exists (pushed L b d1). split; [|done]. rewrite (proj2 (Z.leb_gt _ _)) by (destruct L; [done|cbn; lia]).
    erewrite bind_ret_eq by reflexivity. by apply free_end_ok.
Qed.

(** [alloc] takes from the end of the free list: the first block whose
    number is in range, complaining about each that is not; it takes none
    past an entry 0 or from an empty list.  What was below on the list stays,
    and no other field of the super block changes. *)
Theorem alloc_take_correct (w : world) (m : gmap bptr buf) (fp : bptr) (dev : Z) (d L : list Z) :
  is_Some (m !! fp) -> lists d L ->
  let '(o, r, k) := take_back d (reverse L) in
  exists d', alloc_take fp dev (setb w (sup m fp d)) = Ret o (setb (noted k dev w) (sup m fp d')) /\
    lists d' (reverse r) /\ agree_off [s_nfree] d d'.
Proof.
  intros Hfp HL. apply (take_loop m fp dev Hfp L); [done|]. pose proof (li_room _ _ HL).
  unfold NICFREE. cbn. lia.
Qed.

(** A super block with the blocks 0 and 50 on its list, in a volume of the
    blocks 10 to 99. *)
Definition super_data : list Z :=
  wrf (s_free_at 1) 50 (wrf s_nfree 2 (wrf s_fsize 100 (wrf s_isize 10 (replicate 512 0)))).
Definition super_world : world :=
  world0 <| ks ::= fun k => k <| mounts := [mkmount 0 (Some (Buf 0)) None] |> |>.
Definition super_bufs : gmap bptr buf := {[ Buf 0 := buf0 ]}.

Lemma super_lists : lists super_data [0; 50].
Proof.
  constructor; [reflexivity|cbn; lia|reflexivity|].
  intros [|[|i]] b Hi; [..|done]; by injection Hi as <-.
Qed.

Lemma free_correct_witness :
  exists d', @free machine0 0 60 (setb super_world (sup super_bufs (Buf 0) super_data)) =
      Ret tt (setb super_world (sup super_bufs (Buf 0) d')) /\
    lists d' ([0; 50] ++ [60]) /\ rdf s_fmod d' = 1 /\ agree_off free_fields super_data d'.
Proof.
  refine (free_correct machine0 super_world super_bufs (Buf 0) 0 60 super_data [0; 50] _ _ super_lists _ _ _ _).
  - by eexists.
  - exists [], None, []. split; [reflexivity|]. split; [constructor|unfold NMOUNT; cbn; lia].
  - cbn. lia.
  - by vm_compute.
  - reflexivity.
  - lia.
Defined.

Lemma alloc_take_correct_witness :
  exists d', alloc_take (Buf 0) 0 (setb super_world (sup super_bufs (Buf 0) super_data)) =
      Ret (Some 50) (setb (noted 0 0 super_world) (sup super_bufs (Buf 0) d')) /\
    lists d' (reverse [0]) /\ agree_off [s_nfree] super_data d'.
Proof.
  refine (alloc_take_correct super_world super_bufs (Buf 0) 0 super_data [0; 50] _ super_lists).
  by eexists.
Defined.
