(* ===== verification/Files.v ===== *)
(** * Files: reading a file out of the cache into the user's memory

    [readi] of [Rdwri] over the cache of [Cache] and the tree of [Blocks]: the
    bytes of a file whose blocks are at rest in the cache arrive in the
    user's memory, whichever way [iomove] takes. *)

From S2P Require Import Prelude Bytes State Utab Sched Bio Cache Alloc Inode Rdwri Blocks.

(** ** Writing the user's memory *)

(** The bytes [l] from the user's address [a] on, [p] being his pages. *)
Fixpoint user_write (p : Z -> option Z) (m : Z -> Z) (a : Z) (l : list Z) : Z -> Z :=
  match l with
  | [] => m
  | c :: l => user_write p (match p a with Some x => phys_write m x [u8 c] | None => m end) (a + 1) l
  end.

Lemma user_write_app p l1 : forall m a l2,
  user_write p m a (l1 ++ l2) = user_write p (user_write p m a l1) (a + Z.of_nat (length l1)) l2.
Proof.
  induction l1 as [|c l1 IH]; intros m a l2; cbn [app user_write length]; [by rewrite Z.add_0_r|].
  rewrite IH. f_equal. lia.
Qed.

Definition with_mem (w : world) (m : Z -> Z) : world := w <| ks ::= fun k => k <| pmem := m |> |>.

(** He may write all of the [n] bytes from [a]. *)
Record may_store (us : user) (k : kernel) (a n : Z) : Prop := {
  ms_low : 0 <= a; ms_high : a + n <= USTK; ms_text : text_limit us <= a;
  ms_pages : forall i, a <= i < a + n -> is_Some (uphys k i)
}.

Lemma may_store_sub us k a n b m : may_store us k a n -> a <= b -> b + m <= a + n -> may_store us k b m.
Proof. intros [? ? ? Hp] ? ?. constructor; [lia..|]. intros i Hi. apply Hp. lia. Qed.

Lemma may_store_same us k us' k' a n : u_utab us' = u_utab us -> upt k' = upt k ->
  may_store us k a n -> may_store us' k' a n.
Proof.
  intros Eu Et [? ? Ht Hp]. constructor; [done|done|unfold text_limit in *; by rewrite Eu|].
  intros i Hi. unfold uphys. rewrite Et. by apply Hp.
Qed.

Section UserBytes.
Context {MC : Machine}.

Lemma subyte_ok w a c : may_store (u w) (ks w) a 1 ->
  subyte (UA a) c w = Ret 0 (with_mem w (user_write (uphys (ks w)) (pmem (ks w)) a [c])).
Proof.
  intros [Hl Hh Ht Hp]. destruct (Hp a) as [x Hx]; [lia|]. unfold subyte.
  do 2 (erewrite bind_ret_eq by reflexivity; cbn beta).
  unfold ureach. rewrite (proj2 (Z.leb_le 0 a)), (proj2 (Z.leb_le a USTK)), (proj2 (Z.leb_le 1 _)),
    (proj2 (Z.leb_le (text_limit _) _)) by lia.
  cbn [andb user_write]. unfold ustore. rewrite Hx. by destruct w as [? [] ?].
Qed.

(** What [passc] and [iomove] do to the arguments, after [n] bytes. *)
Definition advanced (n : Z) (w : world) : world :=
  w <| u ::= fun r => r <| u_count ::= fun c => u32 (c - n) |> <| u_offset ::= fun o => s32 (o + n) |>
                        <| u_base ::= fun b => uadd b n |> |>.
(** The bytes [l] put where [u_base] points, which moves on. *)
Definition delivered (w : world) (l : list Z) : world :=
  match u_base (u w) with
  | UA a => advanced (Z.of_nat (length l)) (with_mem w (user_write (uphys (ks w)) (pmem (ks w)) a l))
  | KA _ _ => w
  end.

Lemma advanced_trans n m w : advanced n (advanced m w) = advanced (m + n) w.
Proof.
  unfold advanced. destruct w as [us ? ?]. cbn. f_equal. destruct us. cbn. f_equal.
  - destruct u_base; cbn; f_equal; lia.
  - rewrite u32_sub. f_equal. lia.
  - rewrite s32_add. f_equal. lia.
Qed.
Lemma delivered_app w l1 l2 : delivered (delivered w l1) l2 = delivered w (l1 ++ l2).
Proof.
  unfold delivered. destruct (u_base (u w)) as [a|o off] eqn:Eb; [|by rewrite Eb].
  cbn [u u_base advanced with_mem setf]. rewrite Eb. cbn [uadd].
  rewrite length_app, Nat2Z.inj_add, <- advanced_trans, user_write_app.
  by destruct w as [[] [] ?].
Qed.

Lemma passc_ok w a c : u_segflg (u w) = 0 -> u_base (u w) = UA a -> may_store (u w) (ks w) a 1 ->
  passc c w = Ret (if u32 (u_count (u w) - 1) =? 0 then -1 else 0) (delivered w [c]).
Proof.
  intros Hs Hb Hm. unfold passc. do 2 (erewrite bind_ret_eq by reflexivity; cbn beta).
  rewrite Hs, Hb. change (tst 0) with false. cbn match.
  erewrite bind_ret_eq by (erewrite bind_ret_eq by (by apply subyte_ok); reflexivity). cbn beta iota.
  unfold advance. cbn [negb]. erewrite bind_ret_eq by reflexivity. cbn beta.
  unfold delivered. rewrite Hb. by destruct w as [[] [] ?].
Qed.

(** [user_write] keeps what the next byte needs. *)
Lemma may_store_delivered w a n l : u_base (u w) = UA a -> may_store (u w) (ks w) a n ->
  Z.of_nat (length l) <= n ->
  u_base (u (delivered w l)) = UA (a + Z.of_nat (length l)) /\
  may_store (u (delivered w l)) (ks (delivered w l)) (a + Z.of_nat (length l)) (n - Z.of_nat (length l)).
Proof.
  intros Hb Hm Hn. unfold delivered. rewrite Hb. split; [cbn; by rewrite Hb|].
  assert (may_store (u w) (ks w) (a + Z.of_nat (length l)) (n - Z.of_nat (length l))) as [? ? ? ?]
    by (apply (may_store_sub _ _ _ _ _ _ Hm); lia).
  by constructor.
Qed.

(** ** [iomove] *)

Lemma delivered_same w l : bufs (ks (delivered w l)) = bufs (ks w) /\ u_segflg (u (delivered w l)) = u_segflg (u w) /\
  u_error (u (delivered w l)) = u_error (u w) /\ inodes (ks (delivered w l)) = inodes (ks w).
Proof. unfold delivered. by destruct (u_base (u w)). Qed.

Lemma delivered_count w a l : u_base (u w) = UA a ->
  u_count (u (delivered w l)) = u32 (u_count (u w) - Z.of_nat (length l)).
Proof. unfold delivered. by intros ->. Qed.

Lemma iomove_bytes x d : forall l n w a on, (length l < n)%nat -> 0 <= on ->
  (exists b, bufs (ks w) !! x = Some b /\ b_data b = d) -> (forall i c, l !! i = Some c -> d !! (Z.to_nat on + i)%nat = Some c) ->
  u_segflg (u w) = 0 -> u_base (u w) = UA a -> may_store (u w) (ks w) a (Z.of_nat (length l)) ->
  Z.of_nat (length l) <= u_count (u w) < 4294967296 ->
  loop n (fun x0 : nat * Z => let '(k, on) := x0 in
    match k with
    | O => ret (inr tt)
    | S k => c <- kload (OBuf x) on ;; t <- passc c ;; ret (if t <? 0 then inr tt else inl (k, on + 1))
    end) (length l, on) w = Ret tt (if decide (l = []) then w else delivered w l).
Proof.
  induction l as [|c l IH]; intros [|n] w a on Hn Hon Hx Hl Hs Hb Hm Hc; try (cbn in Hn; lia); [done|].
  cbn [length]. rewrite loop_S. cbn [length] in Hm, Hc.
  assert (d !! Z.to_nat on = Some c) as Hd by (rewrite <- (Nat.add_0_r (Z.to_nat on)); by apply Hl).
  destruct Hx as (b & Eb & Hbd).
  assert (may_store (u w) (ks w) a 1) as Hm1 by (apply (may_store_sub _ _ _ _ _ _ Hm); lia).
  erewrite (bind_ret_eq _ _ _ (if u32 (u_count (u w) - 1) =? 0 then inr tt else inl (length l, on + 1)) (delivered w [c])).
  2: { erewrite bind_ret_eq by (unfold kload; erewrite bind_ret_eq by (by apply bf_ok); rewrite Hbd, Hd; reflexivity).
       cbn beta. erewrite bind_ret_eq by (by eapply passc_ok). cbn beta. by destruct (u32 _ =? 0). }
  cbn beta. rewrite u32_id by lia. rewrite decide_False by done.
  destruct (Z.eqb_spec (u_count (u w) - 1) 0) as [Hz|Hz].
  - assert (l = []) as -> by (destruct l; [done|cbn [length] in Hc; lia]). done.
  - destruct (may_store_delivered w a _ [c] Hb Hm) as [Hb1 Hm1']; [cbn [length]; lia|].
    destruct (delivered_same w [c]) as (Eb1 & Es1 & _).
    rewrite (IH n (delivered w [c]) (a + 1) (on + 1)).
    + case_decide; [by subst l|]. by rewrite delivered_app.
    + cbn in Hn. lia.
    + lia.
    + exists b. by rewrite Eb1.
    + intros i y Hi. replace (Z.to_nat (on + 1) + i)%nat with (Z.to_nat on + S i)%nat by lia. by apply Hl.
    + by rewrite Es1.
    + done.
    + replace (Z.of_nat (length l)) with (Z.of_nat (S (length l)) - Z.of_nat (length [c])) by (cbn [length]; lia). exact Hm1'.
    + rewrite (delivered_count w a [c] Hb). cbn [length]. rewrite u32_id by lia. lia.
Qed.

Lemma words_out_ok us k : forall n l a m, length l = (4 * n)%nat -> may_store us (k <| pmem := m |>) a (Z.of_nat (length l)) ->
  words_out (k <| pmem := m |>) a l = (k <| pmem := user_write (uphys k) m a l |>, true).
Proof.
  induction n as [|n IH]; intros l a m Hl Hm; [by destruct l|].
  destruct l as [|b0 [|b1 [|b2 [|b3 l]]]]; try (cbn in Hl; lia).
  assert (forall i, 0 <= i < 4 -> is_Some (uphys k (a + i))) as Hp.
  { intros i Hi. apply (ms_pages _ _ _ _ Hm). cbn [length]. lia. }
  destruct (Hp 0) as [x0 E0]; [lia|]. destruct (Hp 1) as [x1 E1]; [lia|].
  destruct (Hp 2) as [x2 E2]; [lia|]. destruct (Hp 3) as [x3 E3]; [lia|]. rewrite Z.add_0_r in E0.
  assert (store_word (k <| pmem := m |>) a b0 b1 b2 b3 =
      Some (k <| pmem := user_write (uphys k) m a [b0; b1; b2; b3] |>)) as Ew.
  { unfold store_word, ustore. cbn [forallb].
    repeat change (uphys (setf pmem ?g ?j)) with (uphys j). rewrite Z.add_0_r, E0, E1, E2, E3.
    change (_ && _) with true. cbn match. cbn [mbind option_bind].
    repeat change (uphys (setf pmem ?g ?j)) with (uphys j). rewrite E1. cbn [mbind option_bind].
    repeat change (uphys (setf pmem ?g ?j)) with (uphys j). rewrite E2. cbn [mbind option_bind].
    repeat change (uphys (setf pmem ?g ?j)) with (uphys j). rewrite E3.
    cbn [user_write]. replace (a + 1 + 1) with (a + 2) by lia. replace (a + 2 + 1) with (a + 3) by lia.
    rewrite E0, E1, E2, E3. by destruct k. }
  cbn [words_out]. rewrite Ew. cbn [length] in Hl, Hm. rewrite IH; [|lia|].
  - f_equal. change (b0 :: b1 :: b2 :: b3 :: l) with ([b0; b1; b2; b3] ++ l). by rewrite user_write_app.
  - assert (may_store us (k <| pmem := m |>) (a + 4) (Z.of_nat (length l))) as [? ? ? Hq]
      by (apply (may_store_sub _ _ _ _ _ _ Hm); lia).
    by constructor.
Qed.

Lemma aligned_words (n : Z) (l : list Z) : aligned n = true -> Z.of_nat (length l) = n ->
  exists k, length l = (4 * k)%nat.
Proof.
  unfold aligned. change (NBPW - 1) with (Z.ones 2). rewrite Z.land_ones by lia. change (2 ^ 2) with 4.
  intros Ha%Z.eqb_eq Hl. exists (Z.to_nat (n / 4)). pose proof (Z.div_mod n 4). lia.
Qed.

(** Out of a buffer, whichever way it goes. *)
Lemma iomove_out_ok w x b a on l : bufs (ks w) !! x = Some b ->
  sub (Z.to_nat on) (length l) (b_data b) = l -> 0 <= on -> l <> [] ->
  u_segflg (u w) = 0 -> u_base (u w) = UA a -> may_store (u w) (ks w) a (Z.of_nat (length l)) ->
  Z.of_nat (length l) <= u_count (u w) < 4294967296 ->
  iomove x on (Z.of_nat (length l)) B_READ w = Ret tt (delivered w l).
Proof.
  intros Hb Hsub Hon Hne Hs Hu Hm Hc. unfold iomove.
  rewrite (proj2 (Z.eqb_neq _ _)) by (destruct l; [done|cbn [length]; lia]).
  erewrite bind_ret_eq by reflexivity. cbn beta zeta. rewrite Hu, Hs.
  change (negb (0 =? 1)) with true. cbn [andb]. rewrite !Nat2Z.id.
  destruct (aligned (Z.of_nat (length l)) && _ && _) eqn:Eal.
  - apply andb_prop in Eal as [[Eal _]%andb_prop _]. destruct (aligned_words _ l Eal eq_refl) as [k Hk].
    erewrite bind_ret_eq by reflexivity. cbn beta.
    erewrite bind_ret_eq by (by apply bf_ok). cbn beta. change (B_READ =? B_WRITE) with false. cbn match.
    erewrite (bind_ret_eq _ _ _ true (with_mem w (user_write (uphys (ks w)) (pmem (ks w)) a l))).
    2: { erewrite bind_ret_eq by reflexivity. cbn beta. rewrite Hsub. destruct (Hm) as [Hl0 Hh Ht _].
         unfold copyout, ureach. rewrite (proj2 (Z.leb_le 0 a)), (proj2 (Z.leb_le a USTK)),
           (proj2 (Z.leb_le _ (USTK - a))), (proj2 (Z.leb_le (text_limit _) _)) by lia. cbn [andb].
         assert (ks w = (ks w) <| pmem := pmem (ks w) |>) as Ek by (by destruct (ks w)).
         pose proof (words_out_ok (u w) (ks w) k l a (pmem (ks w)) Hk) as Ew. rewrite <- Ek in Ew. rewrite Ew by done.
         cbn beta iota. erewrite bind_ret_eq by reflexivity. by destruct w as [? [] ?]. }
    cbn [negb]. unfold delivered. rewrite Hu. reflexivity.
  - change (B_READ =? B_WRITE) with false. cbn match. unfold iomove_out.
    erewrite (iomove_bytes x (b_data b) l); [by rewrite decide_False|lia|done|by exists b| |done..].
    intros i c Hi. rewrite <- Hsub in Hi. unfold sub in Hi. apply lookup_take_Some in Hi as [Hi _].
    by rewrite lookup_drop in Hi.
Qed.
End UserBytes.

(** ** The bytes of a file *)

(** The contents of block [bn] of the file with the addresses [addrs]. *)
Definition file_block (C : gmap Z (list Z)) (addrs : list Z) (bn : Z) : option (list Z) :=
  path bn ≫= fun se => follow C (nth se.1 addrs 0) se.2 ≫= fun z => if z <? 0 then None else C !! z.
Definition file_byte (C : gmap Z (list Z)) (addrs : list Z) (o : Z) : option Z :=
  file_block C addrs (o / 512) ≫= fun d => d !! Z.to_nat (o mod 512).
(** [l] is what the file has from [off] on. *)
Definition spells (C : gmap Z (list Z)) (addrs : list Z) (off : Z) (l : list Z) : Prop :=
  forall i c, l !! i = Some c ->
    file_byte C addrs (off + Z.of_nat i) = Some c.
(** The block that may be read ahead with block [bn] is in the cache too. *)
Definition ahead_in (C : gmap Z (list Z)) (addrs : list Z) (bn : Z) : Prop :=
  forall s es a, path bn = Some (s, es) -> ahead_of C addrs s es = Some a -> a = 0 \/ is_Some (C !! a).

Lemma spells_app C addrs off l1 l2 : spells C addrs off (l1 ++ l2) ->
  spells C addrs off l1 /\ spells C addrs (off + Z.of_nat (length l1)) l2.
Proof.
  intros H. split; intros i c Hi.
  - apply H. by rewrite lookup_app_l by (by eapply lookup_lt_Some).
  - replace (off + Z.of_nat (length l1) + Z.of_nat i) with (off + Z.of_nat (length l1 + i)) by lia.
    apply H. rewrite lookup_app_r by lia. by replace (length l1 + i - length l1)%nat with i by lia.
Qed.

(** Within one block. *)
Lemma spells_block C addrs off l : spells C addrs off l -> 0 <= off -> l <> [] ->
  Z.of_nat (length l) <= 512 - off mod 512 ->
  exists d, file_block C addrs (off / 512) = Some d /\ sub (Z.to_nat (off mod 512)) (length l) d = l.
Proof.
  intros H Ho Hne Hl. pose proof (Z.div_mod off 512) as Ed. pose proof (Z.mod_pos_bound off 512) as Em.
  assert (forall i, (i < length l)%nat -> (off + Z.of_nat i) / 512 = off / 512 /\
    (off + Z.of_nat i) mod 512 = off mod 512 + Z.of_nat i) as Hi.
  { intros i Hi. split; symmetry; [apply Z.div_unique with (off mod 512 + Z.of_nat i)|apply Z.mod_unique with (off / 512)]; lia. }
  destruct l as [|c0 l0] eqn:El; [done|]. rewrite <- El in *.
  assert (length l <> 0%nat) as Hl0 by (by rewrite El).
  destruct (file_block C addrs (off / 512)) as [d|] eqn:Eb.
  - exists d. split; [done|]. apply list_eq_same_length with (length l); [done| |].
    + unfold sub. rewrite length_take, length_drop.
      destruct (lookup_lt_is_Some_2 l (length l - 1)) as [c Hc]; [lia|].
      pose proof (H _ _ Hc) as Hd. unfold file_byte in Hd. destruct (Hi (length l - 1)%nat) as [E1 E2]; [lia|].
      rewrite E1, E2, Eb in Hd. apply lookup_lt_Some in Hd. lia.
    + intros i x y Hin Hx Hy. unfold sub in Hx. apply lookup_take_Some in Hx as [Hx _].
      rewrite lookup_drop in Hx. pose proof (H _ _ Hy) as Hd. unfold file_byte in Hd. destruct (Hi i) as [E1 E2]; [done|].
      rewrite E1, E2, Eb in Hd. cbn in Hd. rewrite Z2Nat.inj_add, Nat2Z.id in Hd by lia. congruence.
  - pose proof (H 0%nat c0) as Hd. unfold file_byte in Hd. destruct (Hi 0%nat) as [E1 _]; [lia|]. rewrite E1, Eb in Hd.
    by specialize (Hd ltac:(by rewrite El)).
Qed.

Section Reading.
Context {MC : Machine} (dev : Z) (dp : bptr) (hs : list bptr) (H : bptr -> list bptr) (C : gmap Z (list Z)).
Context (Hdev : on_dev dev dp) (Hdp : dp ∈ hs) (Hdf : dp <> Bfree) (Hnd : dev <> NODEV).

Abbreviation resident := (resident dev dp hs H C).

Lemma incore_ok w n : resident w -> is_Some (C !! n) -> incore dev n w = Ret true w.
Proof using Hdev Hdp.
  intros HC [d Hn]. destruct (rs_cache _ _ _ _ _ _ HC) as [av Hc].
  destruct (rs_blocks _ _ _ _ _ _ HC n d Hn) as (x & b & Hx & Eb & Ed & En & _).
  destruct Hdev as (_ & sw & Hsw & Htab). unfold incore.
  erewrite bind_ret_eq by (unfold bdevsw_at; rewrite Hsw; reflexivity). cbn beta.
  rewrite Htab. erewrite bind_ret_eq by reflexivity. cbn beta.
  destruct (find_block_ok w (bufs (ks w)) hs H av dp dev n Hc Hdp) as ([y|] & E & Ho); rewrite <- setb_id in E.
  - by erewrite bind_ret_eq by exact E.
  - exfalso. apply (Ho x Hx). by exists b.
Qed.

Lemma breada_resident w n ra : resident w -> is_Some (C !! n) -> (ra = 0 \/ is_Some (C !! ra)) ->
  breada dev n ra w = bread dev n w.
Proof using Hdev Hdp.
  intros HC Hn Hra. unfold breada. erewrite bind_ret_eq by (by apply incore_ok). cbn beta. cbn [negb].
  erewrite bind_ret_eq by reflexivity. cbn beta.
  erewrite (bind_ret_eq (if tst ra then _ else _) _ _ tt w); [done|].
  unfold tst. destruct (Z.eqb_spec ra 0) as [->|Hne]; [done|]. cbn [negb].
  destruct Hra as [?|Hra]; [done|]. by erewrite bind_ret_eq by (by apply incore_ok).
Qed.

(** The block's number is kept in [i_lastr]. *)
Definition lastr_set (ip : nat) (r : inode) (bn : Z) (w : world) : world :=
  w <| ks ::= fun k => k <| inodes ::= <[ip := r <| i_lastr := bn |>]> |> |>.

Lemma cache_only_delivered w w1 ip r bn l : cache_only w w1 ->
  cache_only (delivered (lastr_set ip r bn w) l) (delivered (lastr_set ip r bn w1) l).
Proof using Type.
  intros [E Hk]. split.
  - clear Hk. unfold cache_frame in *. rewrite E. destruct w as [[] [] ?]. unfold delivered. cbn. by destruct u_base.
  - destruct (delivered_same (lastr_set ip r bn w) l) as (-> & _), (delivered_same (lastr_set ip r bn w1) l) as (-> & _). done.
Qed.

(** The state a round of reading needs: arguments in the user structure,
    whose bytes go to the user's memory from [a] on. *)
Record asking (w : world) (ip : nat) (r : inode) (a : Z) : Prop := {
  ak_inode : inodes (ks w) !! ip = Some r; ak_dev : i_dev r = dev; ak_addrs : length (i_addr r) = 13%nat;
  ak_size : 0 <= i_size r < 2147483648; ak_off : 0 <= u_offset (u w) < 2147483648; ak_count : 0 <= u_count (u w) < 4294967296;
  ak_seg : u_segflg (u w) = 0; ak_base : u_base (u w) = UA a; ak_error : u_error (u w) = 0
}.

Lemma bmap_round w ip r a d : resident w -> asking w ip r a -> file_block C (i_addr r) (u_offset (u w) / 512) = Some d ->
  ahead_in C (i_addr r) (u_offset (u w) / 512) ->
  exists z w1, bmap ip (Z.shiftr (u_offset (u w)) BSHIFT) B_READ w = Ret z w1 /\ 0 <= z /\ C !! z = Some d /\
    resident w1 /\ cache_only w w1 /\ (rablock (ks w1) = 0 \/ is_Some (C !! rablock (ks w1))).
Proof using Hdev Hdp Hdf Hnd.
  intros HC Ha Hb Hra. rewrite Z.shiftr_div_pow2 by done. change (2 ^ BSHIFT) with 512. unfold file_block in Hb.
  destruct (path _) as [[s es]|] eqn:Ep; [|done]. cbn [mbind option_bind fst snd] in Hb.
  destruct (follow C (nth s (i_addr r) 0) es) as [z|] eqn:Ef; [|done]. cbn [mbind option_bind] in Hb.
  destruct (Z.ltb_spec z 0); [done|].
  destruct (bmap_found dev dp hs H Hdev Hdp Hdf Hnd C w ip r (u_offset (u w) / 512) s es z B_READ)
    as (w1 & E & H1 & Ho & Hr); [by left|done|apply Ha..|apply Z.div_pos; [apply Ha|lia]|done|done|].
  exists z, w1. repeat (split; [done|]). destruct Hr as [Hr|Hr]; [by left|by apply (Hra s es)].
Qed.

(** How many bytes a round takes. *)
Lemma round_length off cnt size : 0 <= off < size -> size < 2147483648 -> 0 <= cnt < 4294967296 ->
  let n := min (BSIZE - Z.land off BMASK) cnt in
  let diff := s32 (size - off) in
  0 < diff /\ (if diff <? n then diff else n) = Z.min (Z.min (512 - off mod 512) cnt) (size - off) /\
  Z.land off BMASK = off mod 512.
Proof using.
  intros Ho Hs Hc. cbv zeta. rewrite s32_id by lia. change BMASK with (Z.ones 9). rewrite Z.land_ones by lia.
  change (2 ^ 9) with 512. pose proof (Z.mod_pos_bound off 512). unfold min, BSIZE. rewrite !u32_id by lia.
  split; [lia|]. split; [|done].
  destruct (Z.ltb_spec (512 - off mod 512) cnt); match goal with |- context [Z.ltb ?x ?y] => destruct (Z.ltb_spec x y) end; lia.
Qed.

Lemma readi_round_ok w ip r a type dv l : resident w -> asking w ip r a ->
  type <> IFBLK -> type <> IFMPB -> l <> [] -> u_offset (u w) < i_size r ->
  Z.of_nat (length l) = Z.min (Z.min (512 - u_offset (u w) mod 512) (u_count (u w))) (i_size r - u_offset (u w)) ->
  spells C (i_addr r) (u_offset (u w)) l -> ahead_in C (i_addr r) (u_offset (u w) / 512) ->
  may_store (u w) (ks w) a (Z.of_nat (length l)) ->
  exists w', readi_round ip type dv w =
      Ret (if Z.of_nat (length l) =? u_count (u w) then inr tt else inl dev) w' /\
    resident w' /\ cache_only (delivered (lastr_set ip r (u_offset (u w) / 512) w) l) w'.
Proof using Hdev Hdp Hdf Hnd.
  intros HC Ha Ht1 Ht2 Hne Hlt Hlen Hsp Hra Hms. set (off := u_offset (u w)) in *. set (cnt := u_count (u w)) in *.
  destruct (spells_block C (i_addr r) off l Hsp (proj1 (ak_off _ _ _ _ Ha)) Hne) as (d & Hfb & Hsub); [lia|].
  destruct (bmap_round w ip r a d HC Ha Hfb Hra) as (z & w1 & E1 & Hz & Hd & H1 & Ho1 & Hra1). fold off in E1.
  destruct (round_length off cnt (i_size r)) as (Hdiff & Hn & Hon);
    [split; [apply Ha|done]|apply Ha|apply Ha|].
  unfold readi_round. do 2 (erewrite bind_ret_eq by reflexivity; cbn beta). fold off cnt.
  rewrite (proj2 (Z.eqb_neq type IFBLK)), (proj2 (Z.eqb_neq type IFMPB)) by done. cbn [negb andb]. cbv zeta.
  erewrite (bind_ret_eq _ _ _ (Some (z, Z.of_nat (length l), dev)) w1).
  2: { erewrite bind_ret_eq by (apply ipf_ok, Ha). cbn beta. rewrite (proj2 (Z.leb_gt _ _)) by done.
       erewrite bind_ret_eq by exact E1. cbn beta.
       assert (u w1 = u w /\ inodes (ks w1) = inodes (ks w)) as [Eu Ei] by (by rewrite (proj1 Ho1)).
       erewrite (bind_ret_eq _ _ _ 0 w1) by (unfold uf, gets; by rewrite Eu, (ak_error _ _ _ _ Ha)). cbn beta.
       change (tst 0) with false. cbn match.
       erewrite bind_ret_eq by (apply ipf_ok; rewrite Ei; apply Ha). cbn beta.
       rewrite (ak_dev _ _ _ _ Ha), Hn, Hlen. done. }
  cbn beta iota. assert (inodes (ks w1) !! ip = Some r) as Hr1 by (rewrite (proj1 Ho1); apply Ha).
  erewrite bind_ret_eq by (by apply ipf_ok). cbn beta. rewrite (proj2 (Z.ltb_ge z 0)) by done.
  destruct (bread_resident dev dp hs H Hdev Hdp Hdf Hnd C w1 z d H1 Hd)
    as (x & b & w2 & E2 & Eb & Ed & Er & _ & Hro & Hback).
  erewrite (bind_ret_eq _ _ _ x w2).
  2: { destruct (_ =? _); [|done]. erewrite bind_ret_eq by reflexivity. by rewrite breada_resident by eauto. }
  assert (cache_only w w2) as Ho2 by (by eapply cache_only_read).
  cbn beta. erewrite (bind_ret_eq (ipset ip i_lastr _) _ _ tt (lastr_set ip r (off / 512) w2)).
  2: { unfold ipset. erewrite (tmod_ok inodes _ _ r) by (by rewrite (proj1 Hro)).
       rewrite Z.shiftr_div_pow2 by done. done. }
  cbn beta. erewrite bind_ret_eq by (by apply bf_ok). cbn beta. rewrite Er.
  set (w3 := lastr_set ip r (off / 512) w2).
  assert (min (Z.of_nat (length l)) (BSIZE - 0) = Z.of_nat (length l)) as ->.
  { pose proof (Z.mod_pos_bound off 512). unfold min, BSIZE. rewrite !u32_id by lia.
    destruct (Z.ltb_spec (Z.of_nat (length l)) (512 - 0)); lia. }
  assert (u w3 = u w /\ upt (ks w3) = upt (ks w) /\ bufs (ks w3) = bufs (ks w2)) as (Eu & Et & Eb3)
    by (unfold w3, lastr_set; split; [by rewrite (proj1 Ho2)|split; [by rewrite (proj1 Ho2)|done]]).
  erewrite (bind_ret_eq (when _ _) _ _ tt (delivered w3 l)).
  2: { rewrite (proj2 (Z.eqb_neq _ 0)) by (destruct l; [done|cbn [length]; lia]). cbn [negb when]. rewrite Hon.
       apply (iomove_out_ok w3 x b a); try rewrite Eu; try apply Ha; [done|by rewrite Ed|apply Z.mod_pos_bound; lia|done| |split; [|apply Ha]].
       - destruct Hms as [? ? ? Hp]. constructor; [done..|]. intros i Hi. unfold uphys. rewrite Et. by apply Hp.
       - unfold cnt in *. lia. }
  cbn beta. destruct (delivered_same w3 l) as (Ebd & _ & Eed & _).
  destruct (Hback (delivered w3 l)) as (m2 & b2 & E3 & Eb2 & _ & Hk3 & H3); [by rewrite Ebd|].
  erewrite bind_ret_eq by exact E3. cbn beta. exists (setb (delivered w3 l) m2).
  split; [|split; [done|]].
  - do 2 (erewrite bind_ret_eq by reflexivity; cbn beta). change (ks (setb ?v _)) with (ks v).
    change (u (setb ?v ?m)) with (u v). rewrite Eed, Eu, (ak_error _ _ _ _ Ha).
    rewrite (delivered_count w3 a l) by (rewrite Eu; apply Ha). rewrite Eu. fold cnt.
    pose proof (ak_count _ _ _ _ Ha) as Hc. fold cnt in Hc. rewrite u32_id by lia.
    cbn [Z.eqb andb]. rewrite (proj2 (Z.ltb_lt 0 (Z.of_nat (length l)))) by (destruct l; [done|cbn [length]; lia]).
    rewrite andb_true_r. unfold ret. f_equal.
    destruct (Z.eqb_spec (cnt - Z.of_nat (length l)) 0), (Z.eqb_spec (Z.of_nat (length l)) cnt); done || lia.
  - pose proof (cache_only_delivered w w2 ip r (off / 512) l Ho2) as Hod.
    apply cache_only_setb; [exact Hod|]. fold w3. by rewrite Ebd.
Qed.

(** After all rounds, the block read last. *)
Definition read_done (ip : nat) (r : inode) (w : world) (l : list Z) : world :=
  if decide (l = []) then w
  else delivered (lastr_set ip r ((u_offset (u w) + Z.of_nat (length l) - 1) / 512) w) l.

Lemma lastr_delivered ip r a b w l1 l2 :
  delivered (lastr_set ip (r <| i_lastr := a |>) b (delivered (lastr_set ip r a w) l1)) l2 =
  delivered (lastr_set ip r b w) (l1 ++ l2).
Proof using Type.
  rewrite <- delivered_app. f_equal. unfold delivered. cbn [u lastr_set setf]. destruct (u_base (u w)).
  - destruct w as [us [] ?]. unfold lastr_set, advanced, with_mem. cbn. do 2 f_equal. apply list_insert_insert_eq.
  - destruct w as [us [] ?]. unfold lastr_set. cbn. do 2 f_equal. apply list_insert_insert_eq.
Qed.

(** What the next round starts from. *)
Lemma asking_next w w1 ip r a l : asking w ip r a -> u_offset (u w) + Z.of_nat (length l) <= i_size r ->
  Z.of_nat (length l) <= u_count (u w) -> cache_only (delivered (lastr_set ip r (u_offset (u w) / 512) w) l) w1 ->
  asking w1 ip (r <| i_lastr := u_offset (u w) / 512 |>) (a + Z.of_nat (length l)) /\
  u_offset (u w1) = u_offset (u w) + Z.of_nat (length l) /\ u_count (u w1) = u_count (u w) - Z.of_nat (length l) /\
  u_utab (u w1) = u_utab (u w) /\ upt (ks w1) = upt (ks w).
Proof using Type.
  intros [Hi Hd Ha Hs Ho Hc Hg Hb He] Hoff Hcnt Hw1.
  assert (u w1 = u (delivered w l) /\ upt (ks w1) = upt (ks w) /\
          inodes (ks w1) = <[ip := r <| i_lastr := u_offset (u w) / 512 |>]> (inodes (ks w))) as (Eu & Et & Ei).
  { unfold delivered in *. cbn [u u_base lastr_set setf] in Hw1. rewrite Hb in *.
    rewrite (proj1 Hw1). by destruct w as [[] [] ?]. }
  unfold delivered in Eu. rewrite Hb in Eu. rewrite Eu, Et.
  cbn [u advanced with_mem setf u_offset u_count u_utab]. rewrite s32_id, u32_id by lia.
  split; [|done]. constructor; try rewrite Eu; try done; cbn [u advanced with_mem setf u_offset u_count u_base u_segflg u_error].
  - rewrite Ei. apply list_lookup_insert_eq. by eapply lookup_lt_Some.
  - rewrite s32_id; lia.
  - rewrite u32_id; lia.
  - by rewrite Hb.
Qed.

(** At the end of the file. *)
Lemma readi_round_end w ip r type dv : inodes (ks w) !! ip = Some r -> type <> IFBLK -> type <> IFMPB ->
  0 <= u_offset (u w) < 2147483648 -> 0 <= i_size r <= u_offset (u w) ->
  readi_round ip type dv w = Ret (inr tt) w.
Proof using Type.
  intros Hr Ht1 Ht2 Ho Hs. unfold readi_round. do 2 (erewrite bind_ret_eq by reflexivity; cbn beta). cbv zeta.
  rewrite (proj2 (Z.eqb_neq type IFBLK)), (proj2 (Z.eqb_neq type IFMPB)) by done. cbn [negb andb].
  erewrite (bind_ret_eq _ _ _ None w); [done|]. erewrite bind_ret_eq by (by apply ipf_ok). cbn beta.
  rewrite s32_id by lia. by rewrite (proj2 (Z.leb_le _ 0)) by lia.
Qed.

Lemma readi_loop ip type : type <> IFBLK -> type <> IFMPB -> forall n w r a dv l,
  (Z.to_nat (u_count (u w)) < n)%nat -> resident w -> asking w ip r a -> 0 < u_count (u w) ->
  Z.of_nat (length l) = Z.min (u_count (u w)) (Z.max 0 (i_size r - u_offset (u w))) ->
  spells C (i_addr r) (u_offset (u w)) l ->
  (forall bn, u_offset (u w) / 512 <= bn <= (u_offset (u w) + Z.of_nat (length l) - 1) / 512 -> ahead_in C (i_addr r) bn) ->
  may_store (u w) (ks w) a (Z.of_nat (length l)) ->
  exists w', loop n (readi_round ip type) dv w = Ret tt w' /\ resident w' /\ cache_only (read_done ip r w l) w'.
Proof using Hdev Hdp Hdf Hnd.
  intros Ht1 Ht2. induction n as [|n IH]; intros w r a dv l Hn HC Ha Hcnt Hlen Hsp Hra Hms; [lia|].
  pose proof (ak_off _ _ _ _ Ha) as Ho. pose proof (ak_size _ _ _ _ Ha) as Hsz.
  destruct (decide (l = [])) as [->|Hne].
  { exists w. cbn [length] in Hlen.
    rewrite (loop_done _ _ _ tt w w) by (apply readi_round_end with r; [apply Ha|done|done|done|lia]).
    split; [done|]. split; [done|]. unfold read_done. rewrite decide_True by done. apply cache_only_refl. }
  assert (0 < length l)%nat as Hl0 by (destruct l; [done|cbn [length]; lia]).
  pose proof (Z.mod_pos_bound (u_offset (u w)) 512) as Hmod. pose proof (Z.div_mod (u_offset (u w)) 512) as Hdm.
  set (k := Z.to_nat (Z.min (512 - u_offset (u w) mod 512) (Z.of_nat (length l)))).
  assert (l = take k l ++ drop k l) as El by (by rewrite take_drop).
  assert (length (take k l) = k) as Hk by (rewrite length_take; lia).
  assert (take k l <> []) as Hk0 by (intros E; rewrite E in Hk; cbn in Hk; lia).
  rewrite El in Hsp. apply spells_app in Hsp as [Hsp1 Hsp2].
  destruct (readi_round_ok w ip r a type dv (take k l)) as (w1 & E1 & H1 & Ho1); [done..|lia|lia|done| | |].
  { apply Hra. split; [lia|]. apply Z.div_le_mono; lia. }
  { apply (may_store_sub _ _ _ _ _ _ Hms); lia. }
  rewrite Hk in *. destruct (Z.eqb_spec (Z.of_nat k) (u_count (u w))) as [Hlast|Hmore].
  - exists w1. rewrite (loop_done _ _ _ tt w w1) by exact E1. split; [done|]. split; [done|].
    assert (take k l = l) as Etk by (apply take_ge; lia). rewrite Etk in Ho1. unfold read_done. rewrite decide_False by done.
    assert ((u_offset (u w) + Z.of_nat (length l) - 1) / 512 = u_offset (u w) / 512) as ->; [|done].
    symmetry. apply Z.div_unique with (u_offset (u w) mod 512 + Z.of_nat (length l) - 1); lia.
  - rewrite (loop_next _ _ _ dev w w1) by exact E1.
    destruct (asking_next w w1 ip r a (take k l) Ha) as (Ha1 & Eo & Ec & Eut & Et); [lia|lia|done|].
    rewrite Hk in *.
    assert (length (drop k l) = length l - k)%nat as Hdl by apply length_drop.
    destruct (IH w1 _ _ dev (drop k l) ltac:(lia) H1 Ha1) as (w2 & E2 & H2 & Ho2).
    + lia.
    + cbn [i_size setf]. lia.
    + by rewrite Eo.
    + rewrite Eo. intros bn Hbn. apply Hra. split; [etrans; [|apply Hbn]; apply Z.div_le_mono; lia|].
      etrans; [apply Hbn|]. apply Z.div_le_mono; lia.
    + apply (may_store_same (u w) (ks w)); [done|done|]. apply (may_store_sub _ _ _ _ _ _ Hms); lia.
    + exists w2. split; [done|]. split; [done|]. eapply cache_only_trans; [|exact Ho2].
      unfold read_done. rewrite decide_False by done. destruct (decide (drop k l = [])) as [Ed|Ed].
      * rewrite Ed in Hdl. cbn [length] in Hdl. rewrite El, Ed, app_nil_r.
        assert ((u_offset (u w) + Z.of_nat (length (take k l)) - 1) / 512 = u_offset (u w) / 512) as ->; [|done].
        symmetry. apply Z.div_unique with (u_offset (u w) mod 512 + Z.of_nat (length (take k l)) - 1); lia.
      * rewrite El at 2. rewrite <- (lastr_delivered ip r (u_offset (u w) / 512)).
        replace (u_offset (u w) + Z.of_nat (length l) - 1) with (u_offset (u w1) + Z.of_nat (length (drop k l)) - 1) by lia.
        by apply cache_only_delivered.
Qed.
End Reading.

(** In memory whose pages are distinct the bytes can be read back. *)
Definition distinct_pages (k : kernel) (a n : Z) : Prop :=
  forall i j, a <= i < a + n -> a <= j < a + n -> uphys k i = uphys k j -> i = j.

Lemma user_write_other p l : forall m a x, (forall i, a <= i < a + Z.of_nat (length l) -> p i <> Some x) ->
  user_write p m a l x = m x.
Proof.
  induction l as [|c l IH]; intros m a x Hp; [done|]. cbn [user_write length] in *. rewrite IH.
  - pose proof (Hp a ltac:(lia)) as Ha. destruct (p a) as [y|]; [|done]. unfold phys_write. cbn [length].
    destruct (Z.leb_spec y x), (Z.ltb_spec x (y + Z.of_nat 1)); try done. exfalso. apply Ha. f_equal. lia.
  - intros i Hi. apply Hp. lia.
Qed.

Lemma user_write_back k l : forall m a i c,
  (forall j, a <= j < a + Z.of_nat (length l) -> is_Some (uphys k j)) ->
  distinct_pages k a (Z.of_nat (length l)) -> l !! i = Some c ->
  exists x, uphys k (a + Z.of_nat i) = Some x /\ user_write (uphys k) m a l x = u8 c.
Proof.
  induction l as [|c0 l IH]; intros m a i c Hp Hd Hi; [done|]. cbn [length user_write] in *.
  destruct i as [|i].
  - injection Hi as <-. destruct (Hp a) as [x Hx]; [lia|]. exists x. rewrite Z.add_0_r, Hx. split; [done|].
    rewrite user_write_other.
    + unfold phys_write. cbn [length]. rewrite (proj2 (Z.leb_le _ _)), (proj2 (Z.ltb_lt _ _)), Z.sub_diag by lia. done.
    + intros j Hj E. assert (a = j); [|lia]. apply Hd; [lia..|congruence].
  - replace (a + Z.of_nat (S i)) with (a + 1 + Z.of_nat i) by lia. apply IH; [|intros j j' ? ?; apply Hd; lia|done].
    intros j Hj. apply Hp. lia.
Qed.

(** The entry after the access. *)
Definition accessed (r : inode) : inode := r <| i_flag := s8 (Z.lor (i_flag r) IACC) |>.

Lemma readi_ok (MC : Machine) (dev : Z) (dp : bptr) (hs : list bptr) (H : bptr -> list bptr)
    (C : gmap Z (list Z)) (w : world) (ip : nat) (r : inode) (a : Z) (l : list Z) :
  on_dev dev dp -> dp ∈ hs -> dp <> Bfree -> dev <> NODEV -> resident dev dp hs H C w ->
  asking dev w ip r a -> ifmt (i_mode r) = IFREG \/ ifmt (i_mode r) = IFDIR -> 0 < u_count (u w) ->
  Z.of_nat (length l) = Z.min (u_count (u w)) (Z.max 0 (i_size r - u_offset (u w))) ->
  spells C (i_addr r) (u_offset (u w)) l ->
  (forall bn, u_offset (u w) / 512 <= bn <= (u_offset (u w) + Z.of_nat (length l) - 1) / 512 -> ahead_in C (i_addr r) bn) ->
  may_store (u w) (ks w) a (Z.of_nat (length l)) ->
  exists w', readi ip w = Ret tt w' /\ resident dev dp hs H C w' /\
    cache_only (read_done ip (accessed r) (with_inode ip (accessed r) w) l) w'.
Proof.
  intros Hdev Hdp Hdf Hnd HC Ha Hty Hcnt Hlen Hsp Hra Hms. set (w1 := with_inode ip (accessed r) w).
  destruct (readi_loop dev dp hs H C Hdev Hdp Hdf Hnd ip (ifmt (i_mode r)) ltac:(by destruct Hty as [-> | ->])
    ltac:(by destruct Hty as [-> | ->]) (S (Z.to_nat (u_count (u w)))) w1 (accessed r) a (s16 (i_rdev r)) l)
    as (w' & E & HC' & Ho).
  { cbn. lia. }
  { by eapply resident_bufs. }
  { destruct Ha as [Hi ? ? ? ? ? ? ? ?]. constructor; try done. apply list_lookup_insert_eq. by eapply lookup_lt_Some. }
  { done. }
  { exact Hlen. }
  { done. }
  { done. }
  { by apply (may_store_same (u w) (ks w)). }
  exists w'. split; [|by split].
  pose proof (ak_inode _ _ _ _ _ Ha) as Hi. unfold readi. erewrite bind_ret_eq by reflexivity. cbn beta.
  rewrite (proj2 (Z.eqb_neq _ 0)) by lia. erewrite bind_ret_eq by reflexivity. cbn beta.
  rewrite (proj2 (Z.ltb_ge _ 0)) by apply Ha.
  erewrite (bind_ret_eq (ior _ _) _ _ tt w1).
  2: { unfold ior. erewrite bind_ret_eq by (by apply ipf_ok). unfold ipset. by erewrite (tmod_ok inodes _ _ r). }
  cbn beta. erewrite (bind_ret_eq _ _ _ (accessed r) w1).
  2: { apply tget_ok, list_lookup_insert_eq. by eapply lookup_lt_Some. }
  cbn beta zeta. change (i_mode (accessed r)) with (i_mode r).
  assert ((ifmt (i_mode r) =? IFCHR) || (ifmt (i_mode r) =? IFMPC) = false) as -> by (by destruct Hty as [-> | ->]).
  exact E.
Qed.

(** What the user finds in his memory. *)
Lemma read_done_bytes dev w ip r a l w' : asking dev w ip r a -> cache_only (read_done ip (accessed r) (with_inode ip (accessed r) w) l) w' ->
  may_store (u w) (ks w) a (Z.of_nat (length l)) -> distinct_pages (ks w) a (Z.of_nat (length l)) ->
  forall i c, l !! i = Some c -> ubyte (ks w') (a + Z.of_nat i) = Some (u8 c).
Proof.
  intros Ha Ho Hms Hd i c Hi. set (w1 := with_inode ip (accessed r) w) in Ho.
  unfold read_done in Ho. rewrite decide_False in Ho by (by intros ->).
  unfold delivered in Ho. cbn [u u_base lastr_set w1 with_inode setf] in Ho. rewrite (ak_base _ _ _ _ _ Ha) in Ho.
  destruct (user_write_back (ks w) l (pmem (ks w)) a i c (ms_pages _ _ _ _ Hms) Hd Hi) as (x & Hx & Hv).
  unfold ubyte. assert (uphys (ks w') = uphys (ks w) /\ pmem (ks w') = user_write (uphys (ks w)) (pmem (ks w)) a l) as [-> ->].
  { rewrite (proj1 Ho). by destruct w as [? [] ?]. }
  rewrite Hx. cbn. by rewrite Hv.
Qed.

(** C19. [readi] of a file whose blocks are at rest in the cache puts into the
    user's memory the bytes the file has from [u_offset] on, as many as asked
    for and no more than the file has: the arguments move on by that number,
    the inode is marked accessed with the block read last, the cache is at
    rest again, and nothing else changes.  If the pages written to are
    distinct, the user finds exactly those bytes there. *)
Theorem readi_correct (MC : Machine) (dev : Z) (dp : bptr) (hs : list bptr) (H : bptr -> list bptr)
    (C : gmap Z (list Z)) (w : world) (ip : nat) (r : inode) (a : Z) (l : list Z) :
  on_dev dev dp -> dp ∈ hs -> dp <> Bfree -> dev <> NODEV -> resident dev dp hs H C w ->
  asking dev w ip r a -> ifmt (i_mode r) = IFREG \/ ifmt (i_mode r) = IFDIR -> 0 < u_count (u w) ->
  Z.of_nat (length l) = Z.min (u_count (u w)) (Z.max 0 (i_size r - u_offset (u w))) ->
  spells C (i_addr r) (u_offset (u w)) l ->
  (forall bn, u_offset (u w) / 512 <= bn <= (u_offset (u w) + Z.of_nat (length l) - 1) / 512 -> ahead_in C (i_addr r) bn) ->
  may_store (u w) (ks w) a (Z.of_nat (length l)) ->
  exists w', readi ip w = Ret tt w' /\ resident dev dp hs H C w' /\
    cache_only (read_done ip (accessed r) (with_inode ip (accessed r) w) l) w' /\
    (distinct_pages (ks w) a (Z.of_nat (length l)) ->
     forall i c, l !! i = Some c -> ubyte (ks w') (a + Z.of_nat i) = Some (u8 c)).
Proof.
  intros Hdev Hdp Hdf Hnd HC Ha Hty Hcnt Hlen Hsp Hra Hms.
  destruct (readi_ok MC dev dp hs H C w ip r a l) as (w' & E & HC' & Ho); try done.
  exists w'. do 3 (split; [done|]). by eapply read_done_bytes.
Qed.

(** A file of two characters in block 7, read into page 1. *)
Definition hi_block : list Z := splice 0 [72; 105] (replicate 512 0).
Definition hi_file : gmap Z (list Z) := {[ 7 := hi_block ]}.
Definition hi_inode : inode :=
  inode0 <| i_mode := IFREG |> <| i_size := 2 |> <| i_addr := [7; 0; 0; 0; 0; 0; 0; 0; 0; 0; 0; 0; 0] |>.
Definition hi_cache : gmap bptr buf := alter (fun b => b <| b_data := hi_block |>) (Buf 1) idle_cache.
Definition hi_world : world :=
  setb (world0 <| u ::= fun r => r <| u_count := 10 |> <| u_base := UA 4096 |> |>
               <| ks ::= fun k => k <| inodes := [hi_inode] |>
                                    <| upt := <[1%nat := 65543]> (replicate 1024 0) |> |>) hi_cache.

Lemma hi_resident : resident 0 (Dtab 0) two_heads two_bufs hi_file hi_world.
Proof.
  constructor.
  - exists [Buf 1; Buf 0]. change (bufs (ks hi_world)) with hi_cache. small_cache.
  - eexists. by split.
  - eexists. by split.
  - intros n d Hn. unfold hi_file in Hn. apply lookup_singleton_Some in Hn as [<- <-].
    exists (Buf 1). eexists. split; [right; left|]. by split.
Qed.

Lemma hi_pages i : 4096 <= i < 4098 -> uphys (ks hi_world) i = Some (PHY + 61440 + i).
Proof. intros Hi. assert (i = 4096 \/ i = 4097) as [-> | ->] by lia; reflexivity. Qed.

Lemma readi_correct_witness : exists w', @readi disk_machine 0 hi_world = Ret tt w' /\
  ubyte (ks w') 4096 = Some 72 /\ ubyte (ks w') 4097 = Some 105.
Proof.
  destruct (readi_correct disk_machine 0 (Dtab 0) two_heads two_bufs hi_file hi_world 0 hi_inode 4096 [72; 105])
    as (w' & E & _ & _ & Hb).
  - split; [done|]. by eexists.
  - right. left.
  - done.
  - done.
  - exact hi_resident.
  - by constructor.
  - by left.
  - done.
  - done.
  - intros [|[|i]] c Hi; [..|done]; by injection Hi as <-.
  - intros bn Hbn. assert (bn = 0) as -> by (change (0 <= bn <= 0) in Hbn; lia).
    intros s es z Hp Hz. injection Hp as <- <-. injection Hz as <-. by left.
  - constructor; [done..|]. intros i Hi. rewrite hi_pages by (cbn in Hi; lia). done.
  - exists w'. split; [exact E|]. assert (distinct_pages (ks hi_world) 4096 2) as Hd.
    { intros i j Hi Hj. rewrite !hi_pages by lia. intros [= ?]. lia. }
    split; [apply (Hb Hd 0%nat 72)|apply (Hb Hd 1%nat 105)]; done.
Defined.
