(* ===== verification/Writes.v ===== *)
(** * Writes: writing a file into the cache out of the user's memory

    [writei] of [Rdwri] over the cache of [Cache] and the tree of [Blocks],
    within the blocks a file has: the counterpart of [Files]. *)

From S2P Require Import Prelude Bytes State Utab Sched Bio Cache Alloc Inode Rdwri Blocks Files.

(** ** Reading the user's memory *)

(** The user's memory has the bytes [l] from [a] on. *)
Record may_load (k : kernel) (a : Z) (l : list Z) : Prop := {
  ml_low : 0 <= a; ml_high : a + Z.of_nat (length l) <= USTK;
  ml_bytes : Forall (fun c => 0 <= c < 256) l;
  ml_there : forall i c, l !! i = Some c -> ubyte k (a + Z.of_nat i) = Some c
}.

Lemma may_load_app k a l1 l2 : may_load k a (l1 ++ l2) ->
  may_load k a l1 /\ may_load k (a + Z.of_nat (length l1)) l2.
Proof.
  intros [Hl Hh Hb Ht]. rewrite length_app, Nat2Z.inj_add in Hh. apply Forall_app in Hb as [Hb1 Hb2].
  split; constructor; try done; try lia.
  - intros i c Hi. apply Ht. by rewrite lookup_app_l by (by eapply lookup_lt_Some).
  - intros i c Hi. replace (a + Z.of_nat (length l1) + Z.of_nat i) with (a + Z.of_nat (length l1 + i)) by lia.
    apply Ht. rewrite lookup_app_r by lia. by replace (length l1 + i - length l1)%nat with i by lia.
Qed.

Lemma may_load_same k k' a l : upt k' = upt k -> pmem k' = pmem k -> may_load k a l -> may_load k' a l.
Proof. intros Et Em [? ? ? Ht]. constructor; [done..|]. unfold ubyte, uphys. by rewrite Et, Em. Qed.

Lemma words_in_ok k : forall n l a, length l = (4 * n)%nat -> may_load k a l -> words_in k a n = (l, true).
Proof.
  induction n as [|n IH]; intros l a Hl Hm; [by destruct l|].
  destruct l as [|b0 [|b1 [|b2 [|b3 l]]]]; try (cbn in Hl; lia).
  pose proof (ml_there _ _ _ Hm) as Ht.
  pose proof (Ht 0%nat b0 eq_refl) as E0. pose proof (Ht 1%nat b1 eq_refl) as E1.
  pose proof (Ht 2%nat b2 eq_refl) as E2. pose proof (Ht 3%nat b3 eq_refl) as E3.
  change (Z.of_nat 0) with 0 in E0. change (Z.of_nat 1) with 1 in E1. change (Z.of_nat 2) with 2 in E2.
  change (Z.of_nat 3) with 3 in E3. rewrite Z.add_0_r in E0.
  cbn [words_in]. rewrite E0, E1, E2, E3.
  destruct (may_load_app k a [b0; b1; b2; b3] l Hm) as [_ Hm2].
  rewrite (IH l (a + 4)); [done|cbn in Hl; lia|exact Hm2].
Qed.

(** Where the bytes [l] to be written come from: the user's memory, or the
    directory entry in his [u] structure. *)
Definition supplies (us : user) (k : kernel) (l : list Z) : Prop :=
  match u_base us with
  | UA a => u_segflg us = 0 /\ may_load k a l
  | KA ODent o => u_segflg us = 1 /\ 0 <= o /\ Forall (fun c => 0 <= c < 256) l /\
      forall i c, l !! i = Some c -> u_dent us !! (Z.to_nat o + i)%nat = Some c
  | KA _ _ => False
  end.

Lemma supplies_user us k a l : u_base us = UA a -> u_segflg us = 0 -> may_load k a l -> supplies us k l.
Proof. unfold supplies. intros -> H1 H2. by split. Qed.

Lemma supplies_bytes us k l : supplies us k l -> Forall (fun c => 0 <= c < 256) l.
Proof. unfold supplies. destruct (u_base us) as [a|[] o]; [intros [_ []]|intros (_ & _ & ? & _)|..]; done. Qed.

(** The first bytes, and what is left after them. *)
Lemma supplies_app us us' k k' l1 l2 : supplies us k (l1 ++ l2) -> upt k' = upt k -> pmem k' = pmem k ->
  u_segflg us' = u_segflg us -> u_base us' = uadd (u_base us) (Z.of_nat (length l1)) -> u_dent us' = u_dent us ->
  supplies us k l1 /\ supplies us' k' l2.
Proof.
  unfold supplies. intros Hs Et Em Eg -> Ed. destruct (u_base us) as [a|[] o]; cbn [uadd]; try done.
  - destruct Hs as [Hs Hm]. destruct (may_load_app _ _ _ _ Hm) as [H1 H2]. rewrite Eg.
    split; split; [done..|by apply (may_load_same k)].
  - destruct Hs as (Hs & Ho & Hb & Hd). apply Forall_app in Hb as [Hb1 Hb2]. rewrite Eg, Ed. split.
    + repeat (split; [done|]). intros i c Hi. apply Hd. by rewrite lookup_app_l by (by eapply lookup_lt_Some).
    + split; [done|]. split; [lia|]. split; [done|]. intros i c Hi.
      replace (Z.to_nat (o + Z.of_nat (length l1)) + i)%nat with (Z.to_nat o + (length l1 + i))%nat by lia.
      apply Hd. rewrite lookup_app_r by lia. by replace (length l1 + i - length l1)%nat with i by lia.
Qed.

Lemma supplies_same us us' k k' l : supplies us k l -> upt k' = upt k -> pmem k' = pmem k ->
  u_segflg us' = u_segflg us -> u_base us' = u_base us -> u_dent us' = u_dent us -> supplies us' k' l.
Proof.
  intros Hs Et Em Eg Eb Ed. destruct (supplies_app us us' k k' [] l) as [_ ?]; try done.
  rewrite Eb. destruct (u_base us); cbn; by rewrite Z.add_0_r.
Qed.

(** The contents of a buffer replaced. *)
Definition with_data (x : bptr) (b : buf) (d : list Z) (w : world) : world :=
  w <| ks ::= fun k => k <| bufs ::= <[x := b <| b_data := d |>]> |> |>.

Section UserBytes.
Context {MC : Machine}.

Lemma cpass_ok w c : u_count (u w) <> 0 -> supplies (u w) (ks w) [c] -> cpass w = Ret c (advanced 1 w).
Proof.
  intros Hc Hs. pose proof (supplies_bytes _ _ _ Hs) as Hr. apply Forall_cons in Hr as [Hr _].
  assert (advance 1 w = Ret tt (advanced 1 w)) as Ea by done.
  assert (Z.land c 255 = c) as El.
  { change 255 with (Z.ones 8). rewrite Z.land_ones by lia. apply Z.mod_small. change (2 ^ 8) with 256. lia. }
  unfold cpass. erewrite bind_ret_eq by reflexivity. cbn beta.
  rewrite (proj2 (Z.eqb_neq _ _)) by done. do 2 (erewrite bind_ret_eq by reflexivity; cbn beta).
  unfold supplies in Hs. destruct (u_base (u w)) as [a|[] o] eqn:Eb; try done.
  - destruct Hs as [Hs Hm]. rewrite Hs. change (tst 0) with false. cbn match.
    pose proof (ml_there _ _ _ Hm 0%nat c eq_refl) as Hu. rewrite Z.add_0_r in Hu.
    destruct Hm as [Hl Hh _ _]. cbn [length] in Hh.
    erewrite (bind_ret_eq _ _ _ c w).
    2: { unfold fubyte. erewrite bind_ret_eq by reflexivity. cbn beta. unfold ureach.
         rewrite (proj2 (Z.leb_le 0 a)), (proj2 (Z.leb_le a USTK)), (proj2 (Z.leb_le 1 _)) by lia. cbn [andb]. by rewrite Hu. }
    cbn beta. cbn [negb andb]. rewrite (proj2 (Z.ltb_ge c 0)) by lia.
    erewrite bind_ret_eq by exact Ea. by rewrite El.
  - destruct Hs as (Hs & _ & _ & Hd). rewrite Hs. change (tst 1) with true. cbn match.
    specialize (Hd 0%nat c eq_refl). rewrite Nat.add_0_r in Hd.
    erewrite (bind_ret_eq _ _ _ c w).
    2: { unfold kload. erewrite bind_ret_eq by reflexivity. cbn beta. by rewrite Hd. }
    cbn beta. cbn [negb andb]. erewrite bind_ret_eq by exact Ea. by rewrite El.
Qed.

Lemma splice_cons (on : nat) (c : Z) (l d : list Z) : (on + S (length l) <= length d)%nat ->
  splice (S on) l (<[on := c]> d) = splice on (c :: l) d.
Proof.
  intros Hl. apply list_eq. intros i. rewrite lookup_splice by (rewrite length_insert; lia).
  rewrite lookup_splice by (cbn [length]; lia). cbn [length].
  destruct (decide (i = on)) as [->|Hne].
  - rewrite decide_False, decide_True by lia. rewrite list_lookup_insert_eq by lia. by rewrite Nat.sub_diag.
  - destruct (decide (S on <= i < S on + length l)%nat) as [Hin|Hin].
    + rewrite decide_True by lia. by replace (i - on)%nat with (S (i - S on)) by lia.
    + rewrite decide_False by lia. by rewrite list_lookup_insert_ne.
Qed.

Lemma with_data_twice x b d1 d2 n w : with_data x (b <| b_data := d1 |>) d2 (with_data x b d1 (advanced n w)) =
  advanced n (with_data x b d2 w).
Proof. destruct w as [? [] ?]. unfold with_data, advanced. cbn. do 2 f_equal. apply insert_insert_eq. Qed.

Lemma iomove_in_loop x : forall l n w on b, (length l < n)%nat -> 0 <= on ->
  bufs (ks w) !! x = Some b -> (Z.to_nat on + length l <= length (b_data b))%nat ->
  supplies (u w) (ks w) l -> Z.of_nat (length l) <= u_count (u w) < 4294967296 ->
  loop n (fun x0 : nat * Z => let '(k, on) := x0 in
    match k with
    | O => ret (inr tt)
    | S k => t <- cpass ;; if t <? 0 then ret (inr tt) else kstore (OBuf x) on t ;;; ret (inl (k, on + 1))
    end) (length l, on) w =
  Ret tt (if decide (l = []) then w
          else advanced (Z.of_nat (length l)) (with_data x b (splice (Z.to_nat on) l (b_data b)) w)).
Proof.
  induction l as [|c l IH]; intros [|n] w on b Hn Hon Hb Hd Hm Hc; try (cbn in Hn; lia); [done|].
  cbn [length] in *. rewrite decide_False by done.
  set (d1 := <[Z.to_nat on := c]> (b_data b)). set (w1 := with_data x b d1 (advanced 1 w)).
  destruct (supplies_app (u w) (u w1) (ks w) (ks w1) [c] l Hm) as [Hm1 Hm2]; [done..|].
  pose proof (supplies_bytes _ _ _ Hm1) as Hr. apply Forall_cons in Hr as [Hr _].
  assert (is_Some (b_data b !! Z.to_nat on)) as [c0 Hc0] by (apply lookup_lt_is_Some_2; lia).
  erewrite (loop_next _ _ _ (length l, on + 1) w w1).
  2: { erewrite bind_ret_eq by (apply cpass_ok; [lia|done]). cbn beta.
       rewrite (proj2 (Z.ltb_ge c 0)) by lia.
       erewrite (bind_ret_eq (kstore _ _ _) _ _ tt w1); [done|]. unfold kstore.
       erewrite bind_ret_eq by (unfold kload; erewrite bind_ret_eq by (by apply bf_ok); rewrite Hc0; reflexivity). cbn beta zeta.
       erewrite bind_ret_eq by (by apply bf_ok). cbn beta. rewrite u8_id by lia. by apply bset_ok. }
  rewrite (IH n w1 (on + 1) (b <| b_data := d1 |>)).
  - replace (Z.to_nat (on + 1)) with (S (Z.to_nat on)) by lia.
    change (b_data (b <| b_data := d1 |>)) with d1. unfold d1 at 2. rewrite splice_cons by done.
    unfold w1. case_decide as El.
    + subst l. cbn [length]. unfold d1, with_data, advanced. destruct w as [[] [] ?]. cbn. do 4 f_equal.
      unfold splice. cbn [length app]. rewrite Nat.add_1_r. by rewrite insert_take_drop by lia.
    + rewrite with_data_twice, advanced_trans. f_equal. f_equal. cbn [length]. lia.
  - lia.
  - lia.
  - apply lookup_insert_eq.
  - cbn [b_data setf]. unfold d1. rewrite length_insert. lia.
  - done.
  - change (u_count (u w1)) with (u32 (u_count (u w) - 1)). rewrite u32_id by lia. lia.
Qed.

(** Into a buffer, whichever way it goes. *)
Lemma iomove_in_ok w x b on l : bufs (ks w) !! x = Some b -> 0 <= on -> l <> [] ->
  (Z.to_nat on + length l <= length (b_data b))%nat ->
  supplies (u w) (ks w) l -> Z.of_nat (length l) <= u_count (u w) < 4294967296 ->
  iomove x on (Z.of_nat (length l)) B_WRITE w =
    Ret tt (advanced (Z.of_nat (length l)) (with_data x b (splice (Z.to_nat on) l (b_data b)) w)).
Proof.
  intros Hb Hon Hne Hd Hm Hc. unfold iomove.
  rewrite (proj2 (Z.eqb_neq _ _)) by (destruct l; [done|cbn [length]; lia]).
  erewrite bind_ret_eq by reflexivity. cbn beta zeta.
  rewrite !Nat2Z.id. change (B_WRITE =? B_WRITE) with true. cbn match.
  destruct (_ && aligned (Z.of_nat (length l)) && _ && _) eqn:Eal.
  - apply andb_prop in Eal as [[[_ Eal]%andb_prop _]%andb_prop Eua]. unfold supplies in Hm.
    destruct (u_base (u w)) as [a|]; [|done]. destruct Hm as [Hs Hm]. destruct (aligned_words _ l Eal eq_refl) as [k Hk].
    erewrite bind_ret_eq by reflexivity. cbn beta.
    erewrite bind_ret_eq by (by apply bf_ok). cbn beta.
    erewrite (bind_ret_eq _ _ _ true (with_data x b (splice (Z.to_nat on) l (b_data b)) w)); [done|].
    erewrite bind_ret_eq by reflexivity. cbn beta.
    assert (copyin (ks w) a (Z.of_nat (length l)) = (l, true)) as ->.
    { destruct (Hm) as [Hl0 Hh _ _]. unfold copyin, ureach. rewrite (proj2 (Z.leb_le 0 a)), (proj2 (Z.leb_le a USTK)),
        (proj2 (Z.leb_le _ (USTK - a))) by lia. cbn [andb].
      replace (Z.to_nat (Z.of_nat (length l) / 4)) with k by (rewrite Hk, Nat2Z.inj_mul, Z.mul_comm, Z.div_mul by lia; lia).
      by apply words_in_ok. }
    cbn beta iota. by erewrite bind_ret_eq by (by apply bset_ok).
  - unfold iomove_in. erewrite (iomove_in_loop x l); [by rewrite decide_False|lia|done..].
Qed.
End UserBytes.

(** ** A taken buffer changed and given back for a delayed write *)

(** [b'] stands where [b] stood: the same links, name and state. *)
Record stands (b b' : buf) : Prop := {
  sd_links : b_forw b' = b_forw b /\ b_back b' = b_back b /\ av_forw b' = av_forw b /\ av_back b' = av_back b;
  sd_name : b_dev b' = b_dev b /\ b_blkno b' = b_blkno b; sd_resid : b_resid b' = b_resid b;
  sd_state : Z.land (b_flags b') REST = Z.land (b_flags b) REST
}.

Lemma lk_insert f m x b b' y : m !! x = Some b -> f b' = f b -> lk f (<[x := b']> m) y = lk f m y.
Proof.
  intros Hb Hf. unfold lk. destruct (decide (y = x)) as [->|Hne].
  - rewrite lookup_insert_eq, Hb. cbn. by rewrite Hf.
  - by rewrite lookup_insert_ne.
Qed.

Lemma alter_as_insert (g : buf -> buf) (m : gmap bptr buf) x b : m !! x = Some b -> alter g x m = <[x := g b]> m.
Proof.
  intros Hb. apply map_eq. intros y. destruct (decide (y = x)) as [->|Hne].
  - by rewrite lookup_alter_eq, lookup_insert_eq, Hb.
  - by rewrite lookup_alter_ne, lookup_insert_ne.
Qed.

Lemma stands_cache m hs H av x b b' : cache m hs H av -> m !! x = Some b -> stands b b' -> cache (<[x := b']> m) hs H av.
Proof.
  intros [Hav Hh Hdj Hhd Hsub Hbz Hkey] Hb [(L1 & L2 & L3 & L4) [Hn1 Hn2] _ Hst].
  assert (forall y c, <[x := b']> m !! y = Some c -> exists c0, m !! y = Some c0 /\
    b_dev c = b_dev c0 /\ b_blkno c = b_blkno c0 /\ (b_flags c &? B_BUSY) = (b_flags c0 &? B_BUSY)) as Hold.
  { intros y c Hy. destruct (decide (y = x)) as [->|Hne].
    - rewrite lookup_insert_eq in Hy. injection Hy as <-. exists b. split; [done|]. split; [done|]. split; [done|].
      by rewrite (land_sub (b_flags b') REST), (land_sub (b_flags b) REST), Hst by done.
    - rewrite lookup_insert_ne in Hy by done. by exists c. }
  constructor; try done.
  - eapply ring_fun; [..|exact Hav]; intros y; by apply (lk_insert _ _ _ b).
  - intros h Hin. eapply ring_fun; [..|by apply Hh]; intros y; by apply (lk_insert _ _ _ b).
  - intros h y c Hin Hy Hc. destruct (Hold y c Hc) as (c0 & E & _ & _ & ->). by apply (Hbz h y c0).
  - intros h y z cy cz Hin Hne Hy Hz Ey Ez Hd E1 E2.
    destruct (Hold y cy Ey) as (y0 & Ey0 & ? & ? & _), (Hold z cz Ez) as (z0 & Ez0 & ? & ? & _).
    apply (Hkey h y z y0 z0); congruence.
Qed.

Section Taken.
Context {MC : Machine} (dev : Z) (dp : bptr) (hs : list bptr) (H : bptr -> list bptr).
Context (Hdev : on_dev dev dp) (Hdp : dp ∈ hs) (Hdf : dp <> Bfree) (Hnd : dev <> NODEV).

Lemma taken_changed C n x b b' w w' : taken dev dp hs H C n x b w -> bufs (ks w') = <[x := b']> (bufs (ks w)) ->
  stands b b' -> taken dev dp hs H C n x b' w'.
Proof using Hdp.
  intros [(av & Hc & Hxa) (fb & Hfb & Hfw) (db & Hdb & Htp) Hx Eb Ed En Hfl Eres Hrest] Ew Hst.
  assert (x <> Bfree) as Hxf by (intros ->; apply (ca_head _ _ _ _ Hc dp Bfree Hdp Hx); left).
  assert (x <> dp) as Hxd by (intros ->; by apply (head_not_in _ _ _ _ dp Hc)).
  pose proof Hst as [_ [Hn1 Hn2] Hr Hs]. constructor; rewrite ?Ew; try congruence; try done.
  - exists av. split; [|done]. by eapply stands_cache.
  - exists fb. by rewrite lookup_insert_ne.
  - exists db. by rewrite lookup_insert_ne.
  - apply lookup_insert_eq.
  - intros n' d Hne Hn'. destruct (Hrest n' d Hne Hn') as (y & c & Hy & ? & Ec & ?).
    exists y, c. rewrite lookup_insert_ne by done. done.
Qed.

(** The buffer of block [n] waits to be written out. *)
Definition delayed (n : Z) (w : world) : Prop :=
  exists x b, x ∈ H dp /\ bufs (ks w) !! x = Some b /\ b_dev b = dev /\ b_blkno b = n /\ b_flags b &? B_DELWRI = true.

Lemma delayed_keeps n w w' : delayed n w -> keeps_delayed (bufs (ks w)) (bufs (ks w')) -> delayed n w'.
Proof using Type.
  intros (x & b & Hx & Hb & Ed & En & Hd) Hk. destruct (Hk x b Hb Hd) as (b' & Hb' & E1 & E2 & Hd').
  exists x, b'. repeat split; congruence.
Qed.

Lemma with_data_delayed x b d m : m !! x = Some b -> keeps_delayed m (<[x := b <| b_data := d |>]> m).
Proof using Type.
  intros Hb y c Hy Hd. destruct (decide (y = x)) as [->|Hne].
  - rewrite lookup_insert_eq. rewrite Hb in Hy. injection Hy as <-. by eexists.
  - rewrite lookup_insert_ne by done. by exists c.
Qed.

Lemma bdwrite_taken C n x b w : taken dev dp hs H C n x b w ->
  exists m2, bdwrite x w = Ret tt (setb w m2) /\ resident dev dp hs H (<[n := b_data b]> C) (setb w m2) /\
    keeps_delayed (bufs (ks w)) m2 /\ delayed n (setb w m2).
Proof using Hdev Hdp Hdf Hnd.
  intros T. destruct (tk_disk _ _ _ _ _ _ _ _ _ T) as (db & Hdb & Htp).
  pose proof (tk_buf _ _ _ _ _ _ _ _ _ T) as Eb. destruct (Hdev) as (_ & sw & Hsw & Htab). unfold bdwrite.
  erewrite bind_ret_eq by (by apply bf_ok). cbn beta. rewrite (tk_dev _ _ _ _ _ _ _ _ _ T).
  erewrite bind_ret_eq by (unfold bdevsw_at; rewrite Hsw; reflexivity). cbn beta. rewrite Htab.
  erewrite bind_ret_eq by reflexivity. cbn beta. unfold bhas.
  erewrite bind_ret_eq by (erewrite bind_ret_eq by (by apply bf_ok); cbn beta; rewrite Htp; reflexivity). cbn beta iota.
  set (b' := or_flags (Z.lor B_DELWRI B_DONE) b). set (w1 := setb w (alter (or_flags (Z.lor B_DELWRI B_DONE)) x (bufs (ks w)))).
  erewrite (bind_ret_eq (bor _ _) _ _ tt w1).
  2: { rewrite (setb_id w) at 1. apply bor_setb. by eexists. }
  destruct (brelse_taken dev dp hs H Hdev Hdp Hdf Hnd C w1 n x b') as (m2 & b2 & E & _ & _ & Hk & HC).
  { apply (taken_changed C n x b b' w); [done|by apply alter_as_insert|].
    constructor; [done|done|done|]. cbn [b' or_flags b_flags setf].
    rewrite Z.land_lor_distr_l, (tk_flags _ _ _ _ _ _ _ _ _ T). done. }
  exists m2. split; [exact E|]. split; [exact HC|].
  assert (bufs (ks w1) = <[x := b']> (bufs (ks w))) as Em1 by (by apply alter_as_insert).
  assert (b_flags b' &? B_DELWRI = true) as Hd' by (cbn; rewrite Z.lor_comm; by apply lor_delayed).
  split.
  - eapply keeps_delayed_trans; [|exact Hk]. rewrite Em1. intros y c Hy Hd. destruct (decide (y = x)) as [->|Hne].
    + rewrite lookup_insert_eq. rewrite Eb in Hy. injection Hy as <-. by eexists.
    + rewrite lookup_insert_ne by done. by exists c.
  - apply (delayed_keeps n w1); [|exact Hk]. exists x, b'. rewrite Em1, lookup_insert_eq.
    split; [apply T|]. split; [done|]. split; [apply T|]. split; [apply T|exact Hd'].
Qed.
End Taken.

(** ** A file whose blocks are written *)

(** The indirect blocks on a path, and the address a block has. *)
Fixpoint through (C : gmap Z (list Z)) (a : Z) (es : list nat) : list Z :=
  match es with
  | [] => []
  | i :: es => a :: match C !! a with Some d => through C (rdf (elt b_daddr i) d) es | None => [] end
  end.
Definition file_addr (C : gmap Z (list Z)) (addrs : list Z) (bn : Z) : option Z :=
  path bn ≫= fun se => follow C (nth se.1 addrs 0) se.2.

Lemma file_block_addr C addrs bn :
  file_block C addrs bn = file_addr C addrs bn ≫= fun z => if z <? 0 then None else C !! z.
Proof. unfold file_block, file_addr. by destruct (path bn) as [[s es]|]. Qed.

Lemma through_update C z d' es : forall a, z ∉ through C a es ->
  follow (<[z := d']> C) a es = follow C a es /\ through (<[z := d']> C) a es = through C a es.
Proof.
  induction es as [|i es IH]; intros a Hz; [done|]. cbn [through follow] in *.
  apply not_elem_of_cons in Hz as [Hza Hz]. rewrite lookup_insert_ne by done.
  destruct (C !! a) as [d|]; [|done]. cbn [mbind option_bind]. destruct (IH _ Hz) as [-> ->]. done.
Qed.

Lemma ahead_update C z d' es : forall a, z ∉ through C a es -> ahead (<[z := d']> C) a es = ahead C a es.
Proof.
  induction es as [|i es IH]; intros a Hz; [done|]. cbn [through ahead] in *.
  apply not_elem_of_cons in Hz as [Hza Hz]. rewrite lookup_insert_ne by done.
  destruct (C !! a) as [d|]; [|done]. cbn [mbind option_bind]. destruct es; [done|]. by apply IH.
Qed.

(** Blocks [lo] to [hi] of the file are there, each at an address of its own
    that is no indirect block. *)
Record sound (C : gmap Z (list Z)) (addrs : list Z) (lo hi : Z) : Prop := {
  so_block : forall bn, lo <= bn <= hi -> exists z d, file_addr C addrs bn = Some z /\ 0 <= z /\
    C !! z = Some d /\ length d = 512%nat;
  so_inj : forall bn bn' z, lo <= bn <= hi -> lo <= bn' <= hi ->
    file_addr C addrs bn = Some z -> file_addr C addrs bn' = Some z -> bn = bn';
  so_apart : forall bn bn' s es z, lo <= bn <= hi -> lo <= bn' <= hi ->
    file_addr C addrs bn = Some z -> path bn' = Some (s, es) -> z ∉ through C (nth s addrs 0) es
}.

(** The bytes [l] have been written from [off] on. *)
Record wrote (lo hi : Z) (addrs : list Z) (C C' : gmap Z (list Z)) (off : Z) (l : list Z) : Prop := {
  wr_addr : forall bn, lo <= bn <= hi -> file_addr C' addrs bn = file_addr C addrs bn;
  wr_bytes : forall o, lo <= o / 512 <= hi -> file_byte C' addrs o =
    if decide (off <= o < off + Z.of_nat (length l)) then l !! Z.to_nat (o - off) else file_byte C addrs o;
  wr_other : forall n, (forall bn, off / 512 <= bn <= (off + Z.of_nat (length l) - 1) / 512 -> file_addr C addrs bn <> Some n) ->
    C' !! n = C !! n;
  wr_sound : sound C' addrs lo hi;
  wr_ahead : forall bn, lo <= bn <= hi -> ahead_in C addrs bn -> ahead_in C' addrs bn
}.

Section Sound.
Context (C : gmap Z (list Z)) (addrs : list Z) (lo hi : Z) (Hso : sound C addrs lo hi).

Lemma addr_update bn z d' bn' : lo <= bn <= hi -> file_addr C addrs bn = Some z -> lo <= bn' <= hi ->
  file_addr (<[z := d']> C) addrs bn' = file_addr C addrs bn' /\
  forall s es, path bn' = Some (s, es) -> through (<[z := d']> C) (nth s addrs 0) es = through C (nth s addrs 0) es.
Proof using Hso.
  intros Hbn Hz Hbn'. unfold file_addr. destruct (path bn') as [[s es]|] eqn:Ep; [|by split; [|intros ? ? [=]]].
  cbn [mbind option_bind fst snd]. pose proof (so_apart _ _ _ _ Hso bn bn' s es z Hbn Hbn' Hz Ep) as Ha.
  destruct (through_update C z d' es _ Ha) as [E1 E2]. split; [done|]. by intros ? ? [= <- <-].
Qed.

Lemma sound_update bn z d' : lo <= bn <= hi -> file_addr C addrs bn = Some z -> length d' = 512%nat ->
  sound (<[z := d']> C) addrs lo hi.
Proof using Hso.
  intros Hbn Hz Hd'. constructor.
  - intros bn' Hb. destruct (addr_update bn z d' bn' Hbn Hz Hb) as [-> _].
    destruct (so_block _ _ _ _ Hso bn' Hb) as (z' & d & Ez & H0 & Ed & Hl).
    destruct (decide (z' = z)) as [->|Hne].
    + exists z, d'. by rewrite lookup_insert_eq.
    + exists z', d. by rewrite lookup_insert_ne.
  - intros b1 b2 x H1 H2. destruct (addr_update bn z d' b1 Hbn Hz H1) as [-> _], (addr_update bn z d' b2 Hbn Hz H2) as [-> _].
    by apply (so_inj _ _ _ _ Hso).
  - intros b1 b2 s es x H1 H2. destruct (addr_update bn z d' b1 Hbn Hz H1) as [-> _].
    intros Hx Hp. destruct (addr_update bn z d' b2 Hbn Hz H2) as [_ Ht]. rewrite (Ht s es Hp).
    by apply (so_apart _ _ _ _ Hso b1 b2).
Qed.

(** Within one block. *)
Lemma wrote_block off l z d : lo <= off / 512 <= hi -> 0 <= off -> l <> [] -> Z.of_nat (length l) <= 512 - off mod 512 ->
  file_addr C addrs (off / 512) = Some z -> 0 <= z -> C !! z = Some d -> length d = 512%nat ->
  wrote lo hi addrs C (<[z := splice (Z.to_nat (off mod 512)) l d]> C) off l.
Proof using Hso.
  intros Hb Ho Hne Hl Hz H0 Hd Hdl. pose proof (Z.mod_pos_bound off 512) as Hm. pose proof (Z.div_mod off 512) as Hdm.
  set (d' := splice _ l d). assert (length d' = 512%nat) as Hdl' by (unfold d'; rewrite length_splice; [done|lia]).
  assert ((off + Z.of_nat (length l) - 1) / 512 = off / 512) as Elast.
  { assert (0 < length l)%nat by (destruct l; [done|cbn [length]; lia]).
    symmetry. apply Z.div_unique with (off mod 512 + Z.of_nat (length l) - 1); lia. }
  constructor.
  - intros bn Hbn. by apply (addr_update (off / 512) z d' bn).
  - intros o Hbo. unfold file_byte. rewrite !file_block_addr.
    destruct (addr_update (off / 512) z d' (o / 512) Hb Hz Hbo) as [-> _].
    destruct (so_block _ _ _ _ Hso (o / 512) Hbo) as (zo & do_ & Ezo & H0o & Edo & Hlo). rewrite Ezo.
    cbn [mbind option_bind]. rewrite (proj2 (Z.ltb_ge _ 0)) by done.
    pose proof (Z.mod_pos_bound o 512) as Hmo. pose proof (Z.div_mod o 512) as Hdmo.
    destruct (decide (o / 512 = off / 512)) as [Eb|Eb].
    + rewrite Eb, Hz in Ezo. injection Ezo as <-. rewrite Hd in Edo. injection Edo as <-.
      rewrite lookup_insert_eq, Hd. cbn [mbind option_bind]. unfold d'. rewrite lookup_splice by lia.
      destruct (decide (off <= o < off + Z.of_nat (length l))).
      * rewrite decide_True by lia. f_equal. lia.
      * rewrite decide_False by lia. done.
    + rewrite lookup_insert_ne by (intros ->; apply Eb; by apply (so_inj _ _ _ _ Hso _ _ zo)).
      rewrite decide_False; [done|]. intros Hin. apply Eb.
      symmetry. apply Z.div_unique with (o - 512 * (off / 512)); lia.
  - intros n Hn. apply lookup_insert_ne. intros ->. apply (Hn (off / 512)); [lia|done].
  - by apply (sound_update (off / 512)).
  - intros bn Hbn Ha s es a Hp Hof.
    assert (ahead_of C addrs s es = Some a) as Hof'.
    { destruct es as [|i es]; [done|]. cbn [ahead_of] in *. rewrite <- Hof. symmetry. apply ahead_update.
      by apply (so_apart _ _ _ _ Hso (off / 512) bn s (i :: es) z). }
    destruct (Ha s es a Hp Hof') as [?|[x Hx]]; [by left|right].
    destruct (decide (z = a)) as [->|Hza]; [rewrite lookup_insert_eq|rewrite lookup_insert_ne by done]; by eexists.
Qed.
End Sound.

Lemma wrote_app lo hi addrs C C1 C2 off l1 l2 : 0 <= off -> l1 <> [] -> l2 <> [] ->
  lo <= off / 512 -> (off + Z.of_nat (length l1) + Z.of_nat (length l2) - 1) / 512 <= hi ->
  wrote lo hi addrs C C1 off l1 -> wrote lo hi addrs C1 C2 (off + Z.of_nat (length l1)) l2 ->
  wrote lo hi addrs C C2 off (l1 ++ l2).
Proof.
  intros Ho Hn1 Hn2 Hlo Hhi [A1 B1 O1 _ R1] [A2 B2 O2 S2 R2].
  assert (0 < length l1)%nat by (destruct l1; [done|cbn [length]; lia]).
  assert (0 < length l2)%nat by (destruct l2; [done|cbn [length]; lia]).
  constructor; [..|done|by eauto].
  - intros bn Hbn. by rewrite A2, A1.
  - intros o Hbo. rewrite B2, B1, length_app, Nat2Z.inj_add by done.
    destruct (decide (off <= o < off + (Z.of_nat (length l1) + Z.of_nat (length l2)))) as [Hin|Hout].
    + destruct (decide (off + Z.of_nat (length l1) <= o < off + Z.of_nat (length l1) + Z.of_nat (length l2))).
      * rewrite lookup_app_r by lia. f_equal. lia.
      * rewrite decide_True by lia. by rewrite lookup_app_l by lia.
    + rewrite !decide_False by lia. done.
  - rewrite length_app, Nat2Z.inj_add. intros n Hn.
    rewrite O2, O1; [done|..].
    + intros bn Hbn. apply Hn. split; [lia|]. etrans; [apply Hbn|]. apply Z.div_le_mono; lia.
    + intros bn Hbn. assert (off / 512 <= (off + Z.of_nat (length l1)) / 512) by (apply Z.div_le_mono; lia).
      rewrite A1; [apply Hn; split; [lia|]; etrans; [apply Hbn|]; apply Z.div_le_mono; lia|].
      split; [lia|]. etrans; [apply Hbn|]. exact Hhi.
Qed.

(** ** [writei] *)

(** The entry after a write that reached [o]. *)
Definition written (r : inode) (o : Z) : inode :=
  r <| i_size := Z.max (i_size r) o |> <| i_flag := s8 (Z.lor (i_flag r) (Z.lor IUPD ICHG)) |>.

(** What [writei] is asked: the file and the place in it. *)
Record placed (dev : Z) (w : world) (ip : nat) (r : inode) : Prop := {
  pl_inode : inodes (ks w) !! ip = Some r; pl_dev : i_dev r = dev; pl_addrs : length (i_addr r) = 13%nat;
  pl_size : 0 <= i_size r < 2147483648; pl_off : 0 <= u_offset (u w) < 2147483648;
  pl_count : 0 <= u_count (u w) < 4294967296; pl_error : u_error (u w) = 0
}.

Section Writing.
Context {MC : Machine} (dev : Z) (dp : bptr) (hs : list bptr) (H : bptr -> list bptr).
Context (Hdev : on_dev dev dp) (Hdp : dp ∈ hs) (Hdf : dp <> Bfree) (Hnd : dev <> NODEV).

Abbreviation resident := (resident dev dp hs H).
Abbreviation placed := (placed dev).

Lemma bmap_write C lo hi w ip r : resident C w -> placed w ip r -> sound C (i_addr r) lo hi ->
  lo <= u_offset (u w) / 512 <= hi ->
  exists z d w1, bmap ip (Z.shiftr (u_offset (u w)) BSHIFT) B_WRITE w = Ret z w1 /\ 0 <= z /\
    file_addr C (i_addr r) (u_offset (u w) / 512) = Some z /\ C !! z = Some d /\ length d = 512%nat /\
    resident C w1 /\ cache_only w w1.
Proof using Hdev Hdp Hdf Hnd.
  intros HC Ha Hso Hb. rewrite Z.shiftr_div_pow2 by done. change (2 ^ BSHIFT) with 512.
  destruct (so_block _ _ _ _ Hso _ Hb) as (z & d & Hz & H0 & Hd & Hl). pose proof Hz as Hz'. unfold file_addr in Hz'.
  destruct (path _) as [[s es]|] eqn:Ep; [|done]. cbn [mbind option_bind fst snd] in Hz'.
  destruct (bmap_found dev dp hs H Hdev Hdp Hdf Hnd C w ip r (u_offset (u w) / 512) s es z B_WRITE)
    as (w1 & E & H1 & Ho & _); [right; lia|done|apply Ha..|apply Z.div_pos; [apply Ha|lia]|done|done|].
  by exists z, d, w1.
Qed.

Lemma getblk_or_bread C w n d (full : bool) : resident C w -> C !! n = Some d ->
  exists x b w1, (if full then getblk dev n else bread dev n) w = Ret x w1 /\
    taken dev dp hs H C n x b w1 /\ b_data b = d /\ read_only w w1.
Proof using Hdev Hdp Hdf Hnd. intros HC Hd. destruct full; [by apply getblk_taken|by apply bread_taken]. Qed.

(** What the end of a round does to the entry. *)
Lemma grow_ok w ip r o type : inodes (ks w) !! ip = Some r -> type = IFREG \/ type = IFDIR ->
  when ((i_size r <? o) && ((type =? IFDIR) || (type =? IFREG))) (ipset ip i_size o) w =
    Ret tt (with_inode ip (r <| i_size := Z.max (i_size r) o |>) w).
Proof using Type.
  intros Hr Ht. assert ((type =? IFDIR) || (type =? IFREG) = true) as -> by (by destruct Ht as [-> | ->]).
  rewrite andb_true_r. destruct (Z.ltb_spec (i_size r) o); cbn [when].
  - rewrite (ipset_with i_size o w ip r Hr). by rewrite Z.max_r by lia.
  - unfold ret. f_equal. rewrite Z.max_l by lia. destruct w as [us k e]. unfold with_inode. cbn. f_equal.
    destruct k. cbn in *. f_equal. symmetry. apply list_insert_id. rewrite Hr. by destruct r.
Qed.

Lemma mark_ok w ip r m : inodes (ks w) !! ip = Some r ->
  ior ip m w = Ret tt (with_inode ip (r <| i_flag := s8 (Z.lor (i_flag r) m) |>) w).
Proof using Type.
  intros Hr. unfold ior. erewrite bind_ret_eq by (by apply ipf_ok). by apply ipset_with.
Qed.

Lemma written_world w w1 w2 n ip r' x b d m2 : cache_only w w1 -> read_only w1 w2 ->
  bufs (ks w2) !! x = Some b -> keeps_delayed (bufs (ks (with_data x b d w2))) m2 ->
  cache_only (advanced n (with_inode ip r' w)) (with_inode ip r' (setb (advanced n (with_data x b d w2)) m2)).
Proof using Type.
  intros [H1 K1] [H2 K2] Hx K3. split.
  - clear K1 K2 K3 Hx. unfold cache_frame, read_frame in *. rewrite H2, H1. by destruct w as [? [] ?].
  - eapply keeps_delayed_trans; [exact K1|]. eapply keeps_delayed_trans; [exact K2|].
    eapply keeps_delayed_trans; [by apply (with_data_delayed x b d)|exact K3].
Qed.

(** The blocks that the bytes [l] from [off] on lie in wait to be written
    out. *)
Definition to_write (C : gmap Z (list Z)) (addrs : list Z) (off : Z) (l : list Z) (w : world) : Prop :=
  forall bn z, off / 512 <= bn <= (off + Z.of_nat (length l) - 1) / 512 -> file_addr C addrs bn = Some z ->
    delayed dev dp H z w.

Lemma writei_round_ok C lo hi w ip r type dv l : resident C w -> placed w ip r -> sound C (i_addr r) lo hi ->
  type = IFREG \/ type = IFDIR -> lo <= u_offset (u w) / 512 <= hi -> l <> [] ->
  Z.of_nat (length l) = Z.min (512 - u_offset (u w) mod 512) (u_count (u w)) ->
  u_offset (u w) + Z.of_nat (length l) < 2147483648 -> supplies (u w) (ks w) l ->
  exists w' C', writei_round ip type dv w = Ret (if Z.of_nat (length l) =? u_count (u w) then inr tt else inl dev) w' /\
    resident C' w' /\ wrote lo hi (i_addr r) C C' (u_offset (u w)) l /\
    cache_only (advanced (Z.of_nat (length l)) (with_inode ip (written r (u_offset (u w) + Z.of_nat (length l))) w)) w' /\
    to_write C (i_addr r) (u_offset (u w)) l w'.
Proof using Hdev Hdp Hdf Hnd.
  intros HC Ha Hso Hty Hb Hne Hlen Hoff Hml. set (off := u_offset (u w)) in *. set (cnt := u_count (u w)) in *.
  assert (0 < length l)%nat as Hl0 by (destruct l; [done|cbn [length]; lia]).
  destruct (bmap_write C lo hi w ip r HC Ha Hso Hb) as (z & d & w1 & E1 & Hz & Haddr & Hd & Hdl & H1 & Ho1). fold off in E1, Haddr.
  pose proof (pl_off _ _ _ _ Ha) as Hoffr. pose proof (pl_count _ _ _ _ Ha) as Hcr. fold off cnt in Hoffr, Hcr.
  pose proof (Z.mod_pos_bound off 512) as Hmod.
  assert (Z.land off BMASK = off mod 512) as Hon.
  { change BMASK with (Z.ones 9). by rewrite Z.land_ones by lia. }
  assert (min (BSIZE - Z.land off BMASK) cnt = Z.of_nat (length l)) as Hmin.
  { rewrite Hon. unfold min, BSIZE. rewrite !u32_id by lia. destruct (Z.ltb_spec (512 - off mod 512) cnt); lia. }
  unfold writei_round. do 2 (erewrite bind_ret_eq by reflexivity; cbn beta). fold off cnt. cbv zeta. rewrite Hmin, Hon.
  assert (negb (type =? IFBLK) && negb (type =? IFMPB) = true) as -> by (by destruct Hty as [-> | ->]).
  erewrite (bind_ret_eq _ _ _ (Some (z, dev)) w1).
  2: { erewrite bind_ret_eq by exact E1. cbn beta. rewrite (proj2 (Z.ltb_ge z 0)) by done.
       erewrite bind_ret_eq by (apply ipf_ok; rewrite (proj1 Ho1); apply Ha). cbn beta. by rewrite (pl_dev _ _ _ _ Ha). }
  cbn beta iota.
  destruct (getblk_or_bread C w1 z d (Z.of_nat (length l) =? BSIZE) H1 Hd) as (x & b & w2 & E2 & T & Ed & Hro).
  erewrite bind_ret_eq by (rewrite <- E2; by destruct (_ =? BSIZE)). cbn beta.
  set (d' := splice (Z.to_nat (off mod 512)) l d).
  assert (length d' = 512%nat) as Hdl' by (unfold d'; rewrite length_splice; [done|lia]).
  assert (u w2 = u w /\ upt (ks w2) = upt (ks w) /\ pmem (ks w2) = pmem (ks w) /\ inodes (ks w2) = inodes (ks w))
    as (Eu & Et & Em & Ei) by (destruct Hro as [Er _], Ho1 as [Ec _]; unfold read_frame, cache_frame in *; by rewrite Er, Ec).
  set (w3 := advanced (Z.of_nat (length l)) (with_data x b d' w2)).
  erewrite (bind_ret_eq (iomove _ _ _ _) _ _ tt w3).
  2: { unfold w3, d'. rewrite <- Ed. apply (iomove_in_ok w2 x b); rewrite ?Eu.
       - by apply T.
       - lia.
       - done.
       - rewrite Ed. lia.
       - by apply (supplies_same (u w) (u w) (ks w)).
       - fold cnt. lia. }
  cbn beta. erewrite (bind_ret_eq (uf u_error) _ _ 0 w3).
  2: { unfold uf, gets. f_equal. change (u_error (u w3)) with (u_error (u w2)). rewrite Eu. apply Ha. }
  cbn beta. change (negb (0 =? 0)) with false. cbn match.
  destruct (bdwrite_taken dev dp hs H Hdev Hdp Hdf Hnd C z x (b <| b_data := d' |>) w3) as (m2 & E3 & H3 & K3 & D3).
  { apply (taken_changed dev dp hs H Hdp C z x b _ w2); [done|done|]. by constructor. }
  erewrite bind_ret_eq by exact E3. cbn beta. set (w4 := setb w3 m2) in *.
  assert (u_offset (u w4) = off + Z.of_nat (length l) /\ u_count (u w4) = cnt - Z.of_nat (length l) /\
          u_error (u w4) = 0 /\ inodes (ks w4) !! ip = Some r) as (Eo & Ec & Ee & Eip).
  { cbn [u ks u_offset u_count u_error inodes w4 w3 setb advanced with_data setf]. rewrite Eu, Ei. fold off cnt.
    rewrite s32_id, u32_id by lia. repeat split; apply Ha. }
  erewrite (bind_ret_eq (uf u_offset) _ _ _ w4) by reflexivity. cbn beta. rewrite Eo.
  erewrite bind_ret_eq by (by apply ipf_ok). cbn beta.
  erewrite bind_ret_eq by (by apply grow_ok). cbn beta.
  erewrite bind_ret_eq by (apply mark_ok, inodes_with; by exists r). cbn beta. rewrite with_inode_twice.
  change (setf i_flag _ _) with (written r (off + Z.of_nat (length l))). set (w5 := with_inode ip _ w4).
  exists w5, (<[z := d']> C). split; [|split; [|split; [|split]]].
  - do 2 (erewrite bind_ret_eq by reflexivity; cbn beta). change (u w5) with (u w4). rewrite Ee, Ec. cbn [Z.eqb andb].
    unfold ret. f_equal. destruct (Z.eqb_spec (cnt - Z.of_nat (length l)) 0), (Z.eqb_spec (Z.of_nat (length l)) cnt); done || lia.
  - by eapply resident_bufs.
  - apply wrote_block; try done; lia.
  - apply written_world with w1; try done. apply T.
  - intros bn z' Hbn Hz'. assert ((off + Z.of_nat (length l) - 1) / 512 = off / 512) as Elast.
    { symmetry. pose proof (Z.div_mod off 512). apply Z.div_unique with (off mod 512 + Z.of_nat (length l) - 1); lia. }
    assert (bn = off / 512) as -> by lia. rewrite Haddr in Hz'. injection Hz' as <-.
    by apply (delayed_keeps dev dp H z w4); [|apply keeps_delayed_refl].
Qed.

Lemma written_twice r o1 o2 : o1 <= o2 -> written (written r o1) o2 = written r o2.
Proof using Type.
  intros Ho. unfold written. cbn. f_equal; [|lia]. unfold s8. rewrite wrapS_lor by lia.
  by rewrite <- Z.lor_assoc, Z.lor_diag.
Qed.

Lemma writing_twice n1 n2 ip r o1 o2 w : o1 <= o2 ->
  advanced n2 (with_inode ip (written (written r o1) o2) (advanced n1 (with_inode ip (written r o1) w))) =
  advanced (n1 + n2) (with_inode ip (written r o2) w).
Proof using Type.
  intros Ho. rewrite written_twice by done. rewrite <- advanced_trans. f_equal.
  change (with_inode ip ?r' (advanced n1 ?v)) with (advanced n1 (with_inode ip r' v)). by rewrite with_inode_twice.
Qed.

Lemma cache_only_writing w w1 n ip r : cache_only w w1 -> cache_only (advanced n (with_inode ip r w)) (advanced n (with_inode ip r w1)).
Proof using Type.
  intros [E Hk]. split; [|exact Hk]. unfold cache_frame in *. rewrite E. by destruct w as [? [] ?].
Qed.

(** What the next round starts from. *)
Lemma writing_next w w1 ip r (l : list Z) : placed w ip r -> u_offset (u w) + Z.of_nat (length l) < 2147483648 ->
  Z.of_nat (length l) <= u_count (u w) ->
  cache_only (advanced (Z.of_nat (length l)) (with_inode ip (written r (u_offset (u w) + Z.of_nat (length l))) w)) w1 ->
  placed w1 ip (written r (u_offset (u w) + Z.of_nat (length l))) /\
  u_offset (u w1) = u_offset (u w) + Z.of_nat (length l) /\ u_count (u w1) = u_count (u w) - Z.of_nat (length l) /\
  forall l2, supplies (u w) (ks w) (l ++ l2) -> supplies (u w) (ks w) l /\ supplies (u w1) (ks w1) l2.
Proof using Type.
  intros [Hi Hd Ha Hs Ho Hc He] Hoff Hcnt Hw1. set (r1 := written r _) in *.
  assert (u w1 = u (advanced (Z.of_nat (length l)) w) /\ upt (ks w1) = upt (ks w) /\ pmem (ks w1) = pmem (ks w) /\
          inodes (ks w1) = <[ip := r1]> (inodes (ks w))) as (Eu & Et & Em & Ei).
  { rewrite (proj1 Hw1). by destruct w as [[] [] ?]. }
  split; [|rewrite Eu; cbn [u advanced setf u_offset u_count]; rewrite s32_id, u32_id by lia; split; [done|split; [done|]]].
  - constructor; try rewrite Eu; try done; cbn [u advanced setf u_offset u_count u_error].
    + rewrite Ei. apply list_lookup_insert_eq. by eapply lookup_lt_Some.
    + unfold r1, written. cbn [i_size setf]. lia.
    + rewrite s32_id; lia.
    + rewrite u32_id; lia.
  - intros l2 Hs2. by apply (supplies_app _ _ _ _ l l2 Hs2); rewrite ?Et, ?Em, ?Eu.
Qed.

Lemma writei_loop ip type lo hi : type = IFREG \/ type = IFDIR -> forall n C w r dv l,
  (Z.to_nat (u_count (u w)) < n)%nat -> resident C w -> placed w ip r -> sound C (i_addr r) lo hi ->
  l <> [] -> Z.of_nat (length l) = u_count (u w) ->
  lo <= u_offset (u w) / 512 -> (u_offset (u w) + Z.of_nat (length l) - 1) / 512 <= hi ->
  u_offset (u w) + Z.of_nat (length l) < 2147483648 -> supplies (u w) (ks w) l ->
  exists w' C', loop n (writei_round ip type) dv w = Ret tt w' /\ resident C' w' /\
    wrote lo hi (i_addr r) C C' (u_offset (u w)) l /\
    cache_only (advanced (Z.of_nat (length l)) (with_inode ip (written r (u_offset (u w) + Z.of_nat (length l))) w)) w' /\
    to_write C (i_addr r) (u_offset (u w)) l w'.
Proof using Hdev Hdp Hdf Hnd.
  intros Hty. induction n as [|n IH]; intros C w r dv l Hn HC Ha Hso Hne Hlen Hlo Hhi Hoff Hml; [lia|].
  pose proof (pl_off _ _ _ _ Ha) as Ho.
  assert (0 < length l)%nat as Hl0 by (destruct l; [done|cbn [length]; lia]).
  pose proof (Z.mod_pos_bound (u_offset (u w)) 512) as Hmod.
  set (k := Z.to_nat (Z.min (512 - u_offset (u w) mod 512) (u_count (u w)))).
  assert (l = take k l ++ drop k l) as El by (by rewrite take_drop).
  assert (length (take k l) = k) as Hk by (rewrite length_take; lia).
  assert (take k l <> []) as Hk0 by (intros E; rewrite E in Hk; cbn in Hk; lia).
  assert (u_offset (u w) / 512 <= hi) as Hb by (etrans; [|exact Hhi]; apply Z.div_le_mono; lia).
  assert (supplies (u w) (ks w) (take k l)) as Hm1.
  { rewrite El in Hml. by eapply (supplies_app _ (u (advanced (Z.of_nat (length (take k l))) w)) _ (ks w) _ (drop k l)). }
  destruct (writei_round_ok C lo hi w ip r type dv (take k l)) as (w1 & C1 & E1 & H1 & Hw1 & Ho1 & D1);
    [done..|lia|lia|done|].
  rewrite Hk in *. destruct (Z.eqb_spec (Z.of_nat k) (u_count (u w))) as [Hlast|Hmore].
  - exists w1, C1. rewrite (loop_done _ _ _ tt w w1) by exact E1.
    assert (take k l = l) as Etk by (apply take_ge; lia). rewrite Etk in Hw1, D1.
    by replace (Z.of_nat (length l)) with (Z.of_nat k) by lia.
  - rewrite (loop_next _ _ _ dev w w1) by exact E1.
    destruct (writing_next w w1 ip r (take k l) Ha) as (Ha1 & Eo & Ec & Hm2);
      [lia|lia|by rewrite Hk|]. rewrite Hk in *.
    destruct (Hm2 (drop k l)) as [_ Hm3]; [by rewrite <- El|].
    assert (length (drop k l) = length l - k)%nat as Hdl by apply length_drop.
    assert (drop k l <> []) as Hd0 by (intros E; rewrite E in Hdl; cbn in Hdl; lia).
    assert (lo <= u_offset (u w1) / 512) as Hlo1 by (rewrite Eo; etrans; [exact Hlo|]; apply Z.div_le_mono; lia).
    assert ((u_offset (u w1) + Z.of_nat (length (drop k l)) - 1) / 512 <= hi) as Hhi1.
    { etrans; [|exact Hhi]. apply Z.div_le_mono; lia. }
    destruct (IH C1 w1 _ dev (drop k l) ltac:(lia) H1 Ha1) as (w2 & C2 & E2 & H2 & Hw2 & Ho2 & D2);
      [apply Hw1|done|lia|done|done|lia|done|].
    exists w2, C2. split; [done|]. split; [done|]. split; [|split].
    + rewrite El. apply wrote_app with C1; rewrite ?Hk; try done; [lia| |by rewrite <- Eo].
      etrans; [|exact Hhi]. apply Z.div_le_mono; lia.
    + eapply cache_only_trans; [|exact Ho2].
      replace (Z.of_nat (length l)) with (Z.of_nat k + Z.of_nat (length (drop k l))) by lia.
      rewrite Eo, Z.add_assoc, <- (writing_twice _ _ ip r (u_offset (u w) + Z.of_nat k)) by lia.
      by apply cache_only_writing.
    + intros bn z Hbn Hz. destruct (Z.le_gt_cases bn ((u_offset (u w) + Z.of_nat k - 1) / 512)) as [Hle|Hgt].
      * apply (delayed_keeps dev dp H z w1); [|apply Ho2]. apply (D1 bn); [rewrite Hk; lia|done].
      * apply (D2 bn); [|rewrite <- Hz; apply (wr_addr _ _ _ _ _ _ _ Hw1); lia]. rewrite Eo.
        replace (u_offset (u w) + Z.of_nat k + Z.of_nat (length (drop k l)) - 1)
          with (u_offset (u w) + Z.of_nat (length l) - 1) by lia.
        split; [|lia]. assert ((u_offset (u w) + Z.of_nat k) / 512 <= (u_offset (u w) + Z.of_nat k - 1) / 512 + 1); [|lia].
        rewrite <- Z.div_add by lia. apply Z.div_le_mono; lia.
Qed.
End Writing.

Lemma asking_placed dev w ip r a : asking dev w ip r a -> placed dev w ip r.
Proof. by intros []. Qed.

Lemma writei_full (MC : Machine) (dev : Z) (dp : bptr) (hs : list bptr) (H : bptr -> list bptr)
    (C : gmap Z (list Z)) (w : world) (ip : nat) (r : inode) (lo hi : Z) (l : list Z) :
  on_dev dev dp -> dp ∈ hs -> dp <> Bfree -> dev <> NODEV -> resident dev dp hs H C w ->
  placed dev w ip r -> ifmt (i_mode r) = IFREG \/ ifmt (i_mode r) = IFDIR ->
  l <> [] -> Z.of_nat (length l) = u_count (u w) -> u_offset (u w) + Z.of_nat (length l) < 2147483648 ->
  supplies (u w) (ks w) l -> sound C (i_addr r) lo hi ->
  lo <= u_offset (u w) / 512 -> (u_offset (u w) + Z.of_nat (length l) - 1) / 512 <= hi ->
  exists w' C', writei ip w = Ret tt w' /\ resident dev dp hs H C' w' /\
    wrote lo hi (i_addr r) C C' (u_offset (u w)) l /\ spells C' (i_addr r) (u_offset (u w)) l /\
    cache_only (advanced (Z.of_nat (length l)) (with_inode ip (written r (u_offset (u w) + Z.of_nat (length l))) w)) w' /\
    to_write dev dp H C (i_addr r) (u_offset (u w)) l w'.
Proof.
  intros Hdev Hdp Hdf Hnd HC Ha Hty Hne Hlen Hoff Hml Hso Hlo Hhi.
  assert (0 < length l)%nat as Hl0 by (destruct l; [done|cbn [length]; lia]).
  pose proof (pl_off _ _ _ _ Ha) as Ho.
  destruct (writei_loop dev dp hs H Hdev Hdp Hdf Hnd ip (ifmt (i_mode r)) lo hi Hty (S (Z.to_nat (u_count (u w)))) C w r
    (s16 (i_rdev r)) l) as (w' & C' & E & HC' & Hw & Ho' & Hd'); [lia|done..|].
  exists w', C'. split; [|split; [done|split; [done|split; [|by split]]]].
  - unfold writei. erewrite bind_ret_eq by reflexivity. cbn beta. rewrite (proj2 (Z.ltb_ge _ 0)) by lia.
    erewrite bind_ret_eq by (apply tget_ok, Ha). cbn beta zeta.
    assert ((ifmt (i_mode r) =? IFCHR) || (ifmt (i_mode r) =? IFMPC) = false) as -> by (by destruct Hty as [-> | ->]).
    erewrite bind_ret_eq by reflexivity. cbn beta. by rewrite (proj2 (Z.eqb_neq _ 0)) by lia.
  - intros i c Hi. pose proof (lookup_lt_Some _ _ _ Hi) as Hil. rewrite (wr_bytes _ _ _ _ _ _ _ Hw).
    + rewrite decide_True by lia. by replace (Z.to_nat _) with i by lia.
    + split; [etrans; [exact Hlo|]; apply Z.div_le_mono; lia|].
      etrans; [|exact Hhi]. apply Z.div_le_mono; lia.
Qed.

Lemma writei_ok (MC : Machine) (dev : Z) (dp : bptr) (hs : list bptr) (H : bptr -> list bptr)
    (C : gmap Z (list Z)) (w : world) (ip : nat) (r : inode) (lo hi : Z) (l : list Z) :
  on_dev dev dp -> dp ∈ hs -> dp <> Bfree -> dev <> NODEV -> resident dev dp hs H C w ->
  placed dev w ip r -> ifmt (i_mode r) = IFREG \/ ifmt (i_mode r) = IFDIR ->
  l <> [] -> Z.of_nat (length l) = u_count (u w) -> u_offset (u w) + Z.of_nat (length l) < 2147483648 ->
  supplies (u w) (ks w) l -> sound C (i_addr r) lo hi ->
  lo <= u_offset (u w) / 512 -> (u_offset (u w) + Z.of_nat (length l) - 1) / 512 <= hi ->
  exists w' C', writei ip w = Ret tt w' /\ resident dev dp hs H C' w' /\
    wrote lo hi (i_addr r) C C' (u_offset (u w)) l /\ spells C' (i_addr r) (u_offset (u w)) l /\
    cache_only (advanced (Z.of_nat (length l)) (with_inode ip (written r (u_offset (u w) + Z.of_nat (length l))) w)) w'.
Proof.
  intros H1 H2 H3 H4 H5 H6 H7 H8 H9 H10 H11 H12 H13 H14.
  destruct (writei_full MC dev dp hs H C w ip r lo hi l H1 H2 H3 H4 H5 H6 H7 H8 H9 H10 H11 H12 H13 H14)
    as (w' & C' & ? & ? & ? & ? & ? & _). by exists w', C'.
Qed.

(** C20. [writei] of bytes in the user's memory, or of a directory entry in his
    [u] structure, to a file that has blocks of its own where they go, at
    rest in the cache: afterwards the file has exactly those bytes there and
    its other bytes as before, no block of another file is touched, each
    block written is at rest again and marked to be written out later, as are
    all that were before, the file has grown if the bytes went past its end,
    its entry is marked, the arguments have moved on, and nothing else has
    changed. *)
Theorem writei_correct (MC : Machine) (dev : Z) (dp : bptr) (hs : list bptr) (H : bptr -> list bptr)
    (C : gmap Z (list Z)) (w : world) (ip : nat) (r : inode) (lo hi : Z) (l : list Z) :
  on_dev dev dp -> dp ∈ hs -> dp <> Bfree -> dev <> NODEV -> resident dev dp hs H C w ->
  placed dev w ip r -> ifmt (i_mode r) = IFREG \/ ifmt (i_mode r) = IFDIR ->
  l <> [] -> Z.of_nat (length l) = u_count (u w) -> u_offset (u w) + Z.of_nat (length l) < 2147483648 ->
  supplies (u w) (ks w) l -> sound C (i_addr r) lo hi ->
  lo <= u_offset (u w) / 512 -> (u_offset (u w) + Z.of_nat (length l) - 1) / 512 <= hi ->
  exists w' C', writei ip w = Ret tt w' /\ resident dev dp hs H C' w' /\
    wrote lo hi (i_addr r) C C' (u_offset (u w)) l /\ spells C' (i_addr r) (u_offset (u w)) l /\
    cache_only (advanced (Z.of_nat (length l)) (with_inode ip (written r (u_offset (u w) + Z.of_nat (length l))) w)) w' /\
    to_write dev dp H C (i_addr r) (u_offset (u w)) l w'.
Proof. apply writei_full. Qed.

(** Three bytes from page 1 into the file of [Files], past its end. *)
Definition pen_world : world :=
  hi_world <| u ::= fun r => r <| u_count := 3 |> <| u_offset := 1 |> |>
           <| ks ::= fun k => k <| pmem := phys_write (fun _ => 0) (PHY + 65536) [111; 33; 10] |> |>.

Lemma hi_sound : sound hi_file (i_addr hi_inode) 0 0.
Proof.
  constructor.
  - intros bn Hbn. assert (bn = 0) as -> by lia. by exists 7, hi_block.
  - intros bn bn' z ? ?. lia.
  - intros bn bn' s es z _ Hbn' _. assert (bn' = 0) as -> by lia. intros [= <- <-]. apply not_elem_of_nil.
Qed.

Lemma writei_correct_witness : exists w' C', @writei disk_machine 0 pen_world = Ret tt w' /\
  spells C' (i_addr hi_inode) 1 [111; 33; 10] /\ (i_size <$> inodes (ks w') !! 0%nat) = Some 4 /\
  delayed 0 (Dtab 0) two_bufs 7 w'.
Proof.
  destruct (writei_correct disk_machine 0 (Dtab 0) two_heads two_bufs hi_file pen_world 0 hi_inode 0 0 [111; 33; 10])
    as (w' & C' & E & _ & _ & Hs & Ho & Hd).
  - split; [done|]. by eexists.
  - right. left.
  - done.
  - done.
  - exact (resident_bufs 0 (Dtab 0) two_heads two_bufs hi_file hi_world pen_world hi_resident eq_refl).
  - by constructor.
  - by left.
  - done.
  - done.
  - done.
  - split; [done|]. constructor; [done|done|by repeat constructor|].
    intros [|[|[|i]]] c Hi; [..|done]; by injection Hi as <-.
  - exact hi_sound.
  - done.
  - done.
  - exists w', C'. split; [exact E|]. split; [exact Hs|].
    split; [by rewrite (proj1 Ho)|]. apply (Hd 0 7); [by split|reflexivity].
Defined.
