(* ===== verification/Iget.v ===== *)
(** * Iget: the inode table, under [iget]

    [iget] of [Inode] over the cache of [Cache]: the entry it finds or fills,
    and that no two entries are ever the same inode. *)

From S2P Require Import Prelude Bytes State Sched Bio Cache Alloc Inode Rdwri Blocks.

(** Entry [r] is inode [ino] of the device; a free entry. *)
Definition is_inode (dev ino : Z) (r : inode) : Prop := i_number r = ino /\ i_dev r = dev.
#[export] Instance is_inode_dec dev ino r : Decision (is_inode dev ino r).
Proof. unfold is_inode. apply _. Defined.
Definition idle (r : inode) : Prop := i_count r = 0.
#[export] Instance idle_dec r : Decision (idle r).
Proof. unfold idle. apply _. Defined.

(** What the search finds in the table [t]. *)
Definition searched (dev ino : Z) (t : list inode) : found :=
  match list_find (is_inode dev ino) t with
  | Some (ip, _) => InCore ip
  | None => Slot (fst <$> list_find idle t)
  end.

(** An inode number is in the table once for each device; entries that are no
    inode have number 0. *)
Definition distinct (t : list inode) : Prop :=
  forall i j ri rj, t !! i = Some ri -> t !! j = Some rj -> i_number ri <> 0 ->
    i_number ri = i_number rj -> i_dev ri = i_dev rj -> i = j.

Lemma distinct_insert t ip r r' dev ino : distinct t -> t !! ip = Some r ->
  list_find (is_inode dev ino) t = None -> i_number r' = ino -> i_dev r' = dev -> distinct (<[ip := r']> t).
Proof.
  intros Hd Hr Hf Hn Hdv. rewrite list_find_None, Forall_lookup in Hf.
  assert (forall i ri, <[ip := r']> t !! i = Some ri -> (i = ip /\ ri = r') \/ (i <> ip /\ t !! i = Some ri)) as Hcase.
  { intros i ri. destruct (decide (i = ip)) as [->|Hne].
    - rewrite list_lookup_insert_eq by (by eapply lookup_lt_Some). intros [= <-]. by left.
    - rewrite list_lookup_insert_ne by done. by right. }
  intros i j ri rj Hi Hj H0 En Ed.
  destruct (Hcase i ri Hi) as [[-> ->]|[Hni Hi']], (Hcase j rj Hj) as [[-> ->]|[Hnj Hj']].
  - done.
  - destruct (Hf j rj Hj'). split; congruence.
  - destruct (Hf i ri Hi'). split; congruence.
  - by apply (Hd i j ri rj).
Qed.

Lemma distinct_same t ip r r' : distinct t -> t !! ip = Some r -> i_number r' = i_number r -> i_dev r' = i_dev r ->
  distinct (<[ip := r']> t).
Proof.
  intros Hd Hr Hn Hdv.
  assert (forall i ri, <[ip := r']> t !! i = Some ri ->
    exists ri', t !! i = Some ri' /\ i_number ri' = i_number ri /\ i_dev ri' = i_dev ri) as Hcase.
  { intros i ri. destruct (decide (i = ip)) as [->|Hne].
    - rewrite list_lookup_insert_eq by (by eapply lookup_lt_Some). intros [= <-]. by exists r.
    - rewrite list_lookup_insert_ne by done. by exists ri. }
  intros i j ri rj Hi Hj H0 En Ed.
  destruct (Hcase i ri Hi) as (ri' & Ei & ? & ?), (Hcase j rj Hj) as (rj' & Ej & ? & ?).
  apply (Hd i j ri' rj'); congruence.
Qed.

Section Iget.
Context {MC : Machine}.

(** One entry of the search, and what the search of the entries [suf], the
    first of which is number [k], gives. *)
Definition scan_body (dev ino : Z) (t : list inode) (x : nat * option nat) : KM (nat * option nat + found) :=
  let '(ip, oip) := x in
  if Nat.leb (length t) ip then ret (inr (Slot oip))
  else
    r <- tget inodes ip ;;
    if (ino =? i_number r) && (dev =? i_dev r) then ret (inr (InCore ip))
    else ret (inl (S ip, if bool_decide (oip = None) && (i_count r =? 0) then Some ip else oip)).
Definition search_from (dev ino : Z) (k : nat) (oip : option nat) (suf : list inode) : found :=
  match list_find (is_inode dev ino) suf with
  | Some (i, _) => InCore (k + i)
  | None => Slot (match oip with Some _ => oip | None => (fun x => k + x.1)%nat <$> list_find idle suf end)
  end.

Lemma search_next dev ino k oip r suf : ~ is_inode dev ino r ->
  search_from dev ino k oip (r :: suf) =
  search_from dev ino (S k) (if bool_decide (oip = None) && (i_count r =? 0) then Some k else oip) suf.
Proof.
  intros Hr. unfold search_from. cbn [list_find]. rewrite decide_False by done.
  destruct (list_find (is_inode dev ino) suf) as [[i ri]|]; [cbn; f_equal; lia|]. cbn [fmap option_fmap option_map].
  f_equal. destruct oip as [o|]; [done|]. rewrite bool_decide_true by done. cbn [andb].
  destruct (Z.eqb_spec (i_count r) 0).
  - rewrite decide_True by done. cbn. f_equal. lia.
  - rewrite decide_False by done. destruct (list_find idle suf) as [[i ri]|]; cbn; [f_equal; lia|done].
Qed.

Lemma scan_loop dev ino w : forall suf pre oip n, inodes (ks w) = pre ++ suf -> (length suf < n)%nat ->
  loop n (scan_body dev ino (inodes (ks w))) (length pre, oip) w =
  Ret (search_from dev ino (length pre) oip suf) w.
Proof.
  induction suf as [|r suf IH]; intros pre oip [|n] Et Hn; try (cbn in Hn; lia).
  - erewrite loop_done; [|unfold scan_body; rewrite Et, app_nil_r, Nat.leb_refl; reflexivity]. by destruct oip.
  - assert (inodes (ks w) !! length pre = Some r) as Hr by (rewrite Et; by apply list_lookup_middle).
    assert (inodes (ks w) = (pre ++ [r]) ++ suf) as Et' by (by rewrite <- app_assoc).
    assert (scan_body dev ino (inodes (ks w)) (length pre, oip) w =
      Ret (if decide (is_inode dev ino r) then inr (InCore (length pre)) else
           inl (S (length pre), if bool_decide (oip = None) && (i_count r =? 0) then Some (length pre) else oip)) w) as E.
    { unfold scan_body. rewrite (proj2 (Nat.leb_gt _ _)) by (rewrite Et, length_app; cbn; lia).
      erewrite bind_ret_eq by (by apply tget_ok). cbn beta. case_decide as Hk.
      - destruct Hk as [-> ->]. by rewrite !Z.eqb_refl.
      - assert ((ino =? i_number r) && (dev =? i_dev r) = false) as ->; [|done].
        apply not_true_iff_false. rewrite andb_true_iff, !Z.eqb_eq. intros [-> ->]. by apply Hk. }
    case_decide as Hk.
    + erewrite loop_done by exact E. unfold search_from. cbn [list_find]. rewrite decide_True by done.
      f_equal. f_equal. lia.
    + erewrite loop_next by exact E. rewrite search_next by done. cbn in Hn.
      replace (S (length pre)) with (length (pre ++ [r])) by (rewrite length_app; cbn; lia).
      apply IH; [done|lia].
Qed.

Lemma iget_scan_ok dev ino w : iget_scan dev ino w = Ret (searched dev ino (inodes (ks w))) w.
Proof.
  unfold iget_scan. erewrite bind_ret_eq by reflexivity. cbn beta.
  rewrite (scan_loop dev ino w (inodes (ks w)) [] None) by (done || lia).
  unfold search_from, searched. by destruct (list_find _ _) as [[]|].
Qed.

(** A held entry, and one being filled. *)
Definition held (r : inode) : inode :=
  r <| i_count := s8 (i_count r + 1) |> <| i_flag := s8 (Z.lor (i_flag r) ILOCK) |>.
Definition fresh (dev ino : Z) (r : inode) : inode :=
  r <| i_dev := dev |> <| i_number := ino |> <| i_flag := ILOCK |> <| i_count := s8 (i_count r + 1) |> <| i_lastr := 0 |>.

(** A turn of [iget]'s loop. *)
Definition iget_found (dev ino : Z) (f : found) : KM (Z * Z + option nat) :=
  match f with
  | InCore ip =>
      l <- ihas ip ILOCK ;;
      if l : bool then
        ior ip IWANT ;;;
        sleep (CInode ip 0) PINOD ;;;
        ret (inl (dev, ino))
      else
        m <- ihas ip IMOUNT ;;
        if m : bool then
          o <- mounted_on ip ;;
          match o with
          | Some mp => d <- mpf mp m_dev ;; ret (inl (d, ROOTINO))
          | None => panic "no imt"
          end
        else
          c <- ipf ip i_count ;; ipset ip i_count (s8 (c + 1)) ;;;
          ior ip ILOCK ;;;
          ret (inr (Some ip))
  | Slot None =>
      printf "Inode table overflow" ;;;
      set_error ENFILE ;;;
      ret (inr None)
  | Slot (Some ip) => o <- iget_read ip dev ino ;; ret (inr o)
  end.

Lemma iget_once dev ino w o w' : iget_found dev ino (searched dev ino (inodes (ks w))) w = Ret (inr o) w' ->
  iget dev ino w = Ret o w'.
Proof.
  intros E. unfold iget, rounds. erewrite bind_ret_eq by reflexivity. cbn beta.
  change (S (length (env w)) * S NMOUNT)%nat with (S (NMOUNT + length (env w) * S NMOUNT)).
  apply loop_done. erewrite bind_ret_eq by apply iget_scan_ok. exact E.
Qed.

Lemma found_held dev ino w ip r : inodes (ks w) !! ip = Some r ->
  i_flag r &? ILOCK = false -> i_flag r &? IMOUNT = false ->
  iget_found dev ino (InCore ip) w = Ret (inr (Some ip)) (with_inode ip (held r) w).
Proof.
  intros Hr Hl Hm. cbn [iget_found]. unfold ihas.
  erewrite bind_ret_eq by (erewrite bind_ret_eq by (by apply ipf_ok); cbn beta; rewrite Hl; reflexivity). cbn beta iota.
  erewrite bind_ret_eq by (erewrite bind_ret_eq by (by apply ipf_ok); cbn beta; rewrite Hm; reflexivity). cbn beta iota.
  erewrite bind_ret_eq by (by apply ipf_ok). cbn beta.
  erewrite bind_ret_eq by (by apply ipset_with). cbn beta.
  erewrite (bind_ret_eq (ior _ _) _ _ tt (with_inode ip (held r) w)); [done|].
  unfold ior. erewrite bind_ret_eq by (by apply ipf_ok, inodes_with). cbn beta.
  erewrite ipset_with by (by apply inodes_with). by rewrite with_inode_twice.
Qed.
End Iget.

Lemma read_keeps_inode w w1 m ip r : read_only w w1 -> keeps_delayed (bufs (ks w1)) m ->
  cache_only (with_inode ip r w) (setb (with_inode ip r w1) m).
Proof.
  intros [Hf Hk] Hk2. split; [|by eapply keeps_delayed_trans].
  clear Hk Hk2. unfold read_frame, cache_frame in *. rewrite Hf. by destruct w as [? [] ?].
Qed.

Section Cached.
Context {MC : Machine} (dev : Z) (dp : bptr) (hs : list bptr) (H : bptr -> list bptr) (C : gmap Z (list Z)).
Context (Hdev : on_dev dev dp) (Hdp : dp ∈ hs) (Hdf : dp <> Bfree) (Hnd : dev <> NODEV).

(** Filling a free entry from a block of the i-list at rest in the cache. *)
Lemma iget_read_ok w ip r ino d : resident dev dp hs H C w -> inodes (ks w) !! ip = Some r -> C !! itod ino = Some d ->
  exists w', iget_read ip dev ino w = Ret (Some ip) w' /\ resident dev dp hs H C w' /\
    cache_only (with_inode ip (iexpand (itoo ino) d (fresh dev ino r)) w) w'.
Proof using Hdev Hdp Hdf Hnd.
  intros HC Hr Hd. unfold iget_read.
  assert (forall r', inodes (ks (with_inode ip r' w)) !! ip = Some r') as Hw by (intros; by apply inodes_with).
  erewrite bind_ret_eq by (by apply ipset_with). cbn beta.
  do 2 (erewrite bind_ret_eq by (by apply ipset_with, Hw); cbn beta; rewrite with_inode_twice).
  erewrite bind_ret_eq by (by apply ipf_ok, Hw). cbn beta.
  do 2 (erewrite bind_ret_eq by (by apply ipset_with, Hw); cbn beta; rewrite with_inode_twice).
  change (setf i_lastr _ _) with (fresh dev ino r). set (w1 := with_inode ip (fresh dev ino r) w).
  assert (resident dev dp hs H C w1) as H1 by (by eapply resident_bufs).
  destruct (bread_resident dev dp hs H Hdev Hdp Hdf Hnd C w1 (itod ino) d H1 Hd)
    as (x & b & w2 & E2 & Eb & Ed & _ & He & Hro & Hback).
  erewrite bind_ret_eq by exact E2. cbn beta.
  erewrite bind_ret_eq by (unfold bhas; erewrite bind_ret_eq by (by apply bf_ok); cbn beta; rewrite He; reflexivity).
  cbn beta iota. erewrite bind_ret_eq by (by apply bf_ok). cbn beta. rewrite Ed.
  assert (inodes (ks w2) !! ip = Some (fresh dev ino r)) as Hr2 by (rewrite (proj1 Hro); apply Hw).
  erewrite bind_ret_eq by (by apply (tmod_ok inodes)). cbn beta.
  match goal with |- context [bind _ _ ?v = _] => set (w3 := v) end.
  destruct (Hback w3 eq_refl) as (m2 & b2 & E3 & _ & _ & Hk3 & H3).
  erewrite bind_ret_eq by exact E3. exists (setb w3 m2). split; [done|]. split; [done|].
  pose proof (read_keeps_inode w1 w2 m2 ip (iexpand (itoo ino) d (fresh dev ino r)) Hro Hk3) as Ho.
  unfold w1 in Ho. by rewrite with_inode_twice in Ho.
Qed.
End Cached.

(** C24. [iget] of an inode that is in core gives its entry, held once more
    and locked; of one that is not, with its block of the i-list at rest in
    the cache, the first free entry, filled from the block, locked and held
    once; with no free entry it fails with ENFILE.  Nothing else changes but
    the cache, and the table never has an inode twice. *)
Theorem iget_correct (MC : Machine) (dev : Z) (dp : bptr) (hs : list bptr) (H : bptr -> list bptr)
    (C : gmap Z (list Z)) (w : world) (ino : Z) :
  on_dev dev dp -> dp ∈ hs -> dp <> Bfree -> dev <> NODEV -> resident dev dp hs H C w ->
  distinct (inodes (ks w)) ->
  match list_find (is_inode dev ino) (inodes (ks w)) with
  | Some (ip, r) => i_flag r &? ILOCK = false -> i_flag r &? IMOUNT = false ->
      iget dev ino w = Ret (Some ip) (with_inode ip (held r) w) /\
      distinct (inodes (ks (with_inode ip (held r) w)))
  | None =>
      match list_find idle (inodes (ks w)) with
      | Some (ip, r) => forall d, C !! itod ino = Some d -> exists w',
          iget dev ino w = Ret (Some ip) w' /\ resident dev dp hs H C w' /\
          cache_only (with_inode ip (iexpand (itoo ino) d (fresh dev ino r)) w) w' /\
          distinct (inodes (ks w'))
      | None => iget dev ino w = Ret None (w <| ks ::= fun k => k <| console ::= fun l => l ++ [Printf "Inode table overflow"] |> |>
                                             <| u ::= fun us => us <| u_error := ENFILE |> |>)
      end
  end.
Proof.
  intros Hdev Hdp Hdf Hnd HC Hdis.
  assert (forall f, searched dev ino (inodes (ks w)) = f -> forall o w', iget_found dev ino f w = Ret (inr o) w' ->
    iget dev ino w = Ret o w') as Hone by (intros f <- o w'; apply iget_once).
  unfold searched in Hone. destruct (list_find (is_inode dev ino) _) as [[ip r]|] eqn:Ef.
  - pose proof Ef as (Hr & _ & _)%list_find_Some. intros Hl Hm.
    split; [eapply Hone; [done|by apply found_held]|]. by eapply distinct_same.
  - destruct (list_find idle _) as [[ip r]|] eqn:Ei.
    + pose proof Ei as (Hr & _ & _)%list_find_Some. intros d Hd.
      destruct (iget_read_ok dev dp hs H C Hdev Hdp Hdf Hnd w ip r ino d HC Hr Hd) as (w' & E & HC' & Ho).
      exists w'. split; [|split; [done|split; [done|]]].
      * eapply Hone; [done|]. cbn [fmap option_fmap option_map fst iget_found]. by erewrite bind_ret_eq by exact E.
      * assert (inodes (ks w') = <[ip := iexpand (itoo ino) d (fresh dev ino r)]> (inodes (ks w))) as ->
          by (by rewrite (proj1 Ho)).
        by eapply distinct_insert.
    + by eapply Hone.
Qed.

(** The root in core, and inode 41, the first of block 7, to be read. *)
Definition root_entry : inode := inode0 <| i_number := 2 |> <| i_count := 1 |>.
Definition table_world : world :=
  setb (world0 <| ks ::= fun k => k <| inodes := [root_entry; inode0] |> |>) idle_cache.
Definition blank_ilist : gmap Z (list Z) := {[ 7 := replicate 512 0 ]}.

Lemma table_resident : resident 0 (Dtab 0) two_heads two_bufs blank_ilist table_world.
Proof.
  constructor.
  - exists [Buf 1; Buf 0]. change (bufs (ks table_world)) with idle_cache. small_cache.
  - eexists. by split.
  - eexists. by split.
  - intros n d Hn. unfold blank_ilist in Hn. apply lookup_singleton_Some in Hn as [<- <-].
    exists (Buf 1). eexists. split; [right; left|]. by split.
Qed.
Lemma table_distinct : distinct (inodes (ks table_world)).
Proof.
  intros i j ri rj Hi Hj H0 En _. destruct i as [|[|i]], j as [|[|j]]; try done; cbn in Hi, Hj;
    injection Hi as <-; injection Hj as <-; done.
Qed.

Lemma iget_correct_witness : exists w', @iget disk_machine 0 41 table_world = Ret (Some 1%nat) w' /\
  inodes (ks w') !! 1%nat = Some (iexpand 0 (replicate 512 0) (fresh 0 41 inode0)) /\ distinct (inodes (ks w')).
Proof.
  pose proof (iget_correct disk_machine 0 (Dtab 0) two_heads two_bufs blank_ilist table_world 41) as Hg.
  destruct Hg with (d := replicate 512 0) as (w' & E & _ & Ho & Hd).
  - split; [done|]. by eexists.
  - right. left.
  - done.
  - done.
  - exact table_resident.
  - exact table_distinct.
  - done.
  - exists w'. split; [exact E|]. split; [|exact Hd]. by rewrite (proj1 Ho).
Defined.
