(* ===== verification/Text.v ===== *)
(** * Text: swapping and shared text ([sys/text.c], [sys/slp.c])

    Programs' pure text is shared through the text table; processes move
    between core and the swap area with [xswap] and [swapin], which [sched],
    the loop of process 0, decides on.  [newproc] and [expand] copy processes'
    images. *)

From S2P Require Import Prelude Bytes Malloc State Utab Sched Bio Inode Rdwri.

Definition XTRC : Z := 1.
Definition XWRIT : Z := 2.
Definition XLOAD : Z := 4.
Definition XLOCK : Z := 8.
Definition XWANT : Z := 16.
Definition SIGKIL : Z := 9.

(** The fields of the header [struct] of an executable file. *)
Definition ux_mag := fld 0 CS32.
Definition ux_tsize := fld 4 CU32.
Definition ux_dsize := fld 8 CU32.
Definition ux_bsize := fld 12 CU32.
Definition ux_entloc := fld 20 CU32.
Definition sizeof_exdata : Z := 32.
Definition exdata (f : field) : KM Z := l <- uf u_exdata ;; ret (rdf f l).

Section Text.
Context {MC : Machine}.

(** [mp->x_flag |= m], [mp->x_flag &= ~m] *)
Definition xor_ (xp : nat) (m : Z) : KM unit := f <- xf xp x_flag ;; xset xp x_flag (s8 (Z.lor f m)).
Definition xclr (xp : nat) (m : Z) : KM unit := f <- xf xp x_flag ;; xset xp x_flag (s8 (clr f m)).
Definition por (p : nat) (m : Z) : KM unit := f <- pf p p_flag ;; pset p p_flag (s8 (Z.lor f m)).
Definition pclr (p : nat) (m : Z) : KM unit := f <- pf p p_flag ;; pset p p_flag (s8 (clr f m)).

(** The two maps; freeing core wakes the swapper. *)
Definition malloc_core (size : Z) : KM Z := zoom coremap (malloc size).
Definition malloc_swap (size : Z) : KM Z := zoom swapmap (malloc size).
Definition mfree_core (size a : Z) : KM unit :=
  ri <- kf runin ;;
  when (tst ri) (kset runin 0 ;;; wakeup CRunin) ;;;
  zoom coremap (mfree_map size a).
Definition mfree_swap (size a : Z) : KM unit := zoom swapmap (mfree_map size a).

(** ** Locks and use counts *)

Definition xlock (xp : nat) : KM unit :=
  n <- rounds ;;
  loop n (fun _ : unit =>
    f <- xf xp x_flag ;;
    if f &? XLOCK then xor_ xp XWANT ;;; sleep (CText xp) PSWP ;;; ret (inl tt)
    else ret (inr tt)) tt ;;;
  xor_ xp XLOCK.

Definition xunlock (xp : nat) : KM unit :=
  f <- xf xp x_flag ;;
  when (f &? XWANT) (wakeup (CText xp)) ;;;
  xclr xp (Z.lor XLOCK XWANT).

Definition xccdec (xp : option nat) : KM unit :=
  match xp with
  | None => ret tt
  | Some xp =>
      c <- xf xp x_ccount ;;
      if c =? 0 then ret tt
      else
        xlock xp ;;;
        c <- xf xp x_ccount ;;
        xset xp x_ccount (s8 (c - 1)) ;;;
        when (s8 (c - 1) =? 0)
          (f <- xf xp x_flag ;;
           when (f &? XWRIT)
             (xclr xp XWRIT ;;;
              r <- tget texts xp ;;
              swap (x_daddr r) (x_caddr r) (x_size r) B_WRITE) ;;;
           r <- tget texts xp ;;
           mfree_core (x_size r) (x_caddr r)) ;;;
        xunlock xp
  end.

(** Swap out process [p]; [ff] frees its core, [os] is the size of it if it
    is not 0. *)
Definition xswap (p : nat) (ff : bool) (os : Z) : KM unit :=
  size <- pf p p_size ;;
  let os := if os =? 0 then size else os in
  a <- malloc_swap (ctod size) ;;
  (if a =? 0 then panic "out of swap space" else ret tt) ;;;
  por p SLOCK ;;;
  tp <- pf p p_textp ;;
  xccdec tp ;;;
  ad <- pf p p_addr ;;
  swap a ad os B_WRITE ;;;
  ad <- pf p p_addr ;;
  when ff (mfree_core os ad) ;;;
  pset p p_addr (s16 a) ;;;
  pclr p (Z.lor SLOAD SLOCK) ;;;
  pset p p_time 0 ;;;
  ro <- kf runout ;;
  when (tst ro) (kset runout 0 ;;; wakeup CRunout).

(** The inode of a text that is given up. *)
Definition text_iput (ip : nat) : KM unit :=
  iclr ip ITEXT ;;;
  l <- ihas ip ILOCK ;;
  if l : bool then c <- ipf ip i_count ;; ipset ip i_count (s8 (c - 1))
  else iput ip.

Definition xfree : KM unit :=
  p <- uf u_procp ;;
  tp <- pf p p_textp ;;
  match tp with
  | None => ret tt
  | Some xp =>
      xlock xp ;;;
      xclr xp XLOCK ;;;
      pset p p_textp None ;;;
      r <- tget texts xp ;;
      ip <- the (x_iptr r) ;;
      xset xp x_count (s8 (x_count r - 1)) ;;;
      mode <- ipf ip i_mode ;;
      if (s8 (x_count r - 1) =? 0) && negb (mode &? ISVTX) then
        xset xp x_iptr None ;;;
        mfree_swap (ctod (x_size r)) (x_daddr r) ;;;
        mfree_core (x_size r) (x_caddr r) ;;;
        text_iput ip
      else xccdec (Some xp)
  end.

(** Core for a text; with none, the process is swapped out and goes on when
    it and its text are in core again. *)
Definition xexpand (xp : nat) : KM unit :=
  size <- xf xp x_size ;;
  a <- malloc_core size ;;
  xset xp x_caddr (s16 a) ;;;
  if negb (s16 a =? 0) then
    r <- tget texts xp ;;
    when (negb (x_flag r &? XLOAD)) (swap (x_daddr r) (x_caddr r) (x_size r) B_READ) ;;;
    c <- xf xp x_ccount ;; xset xp x_ccount (s8 (c + 1)) ;;;
    xunlock xp
  else
    p <- uf u_procp ;;
    xswap p true 0 ;;;
    xunlock xp ;;;
    por p SSWAP ;;;
    qswtch.

(** The text whose prototype is [ip], or the first free entry. *)
Definition text_scan (ip : nat) : KM found :=
  t <- kf texts ;;
  loop (S (length t)) (fun x : nat * option nat =>
    let '(xp, xp1) := x in
    if Nat.leb (length t) xp then ret (inr (Slot xp1))
    else
      r <- tget texts xp ;;
      ret (match x_iptr r with
           | None => inl (S xp, match xp1 with None => Some xp | _ => xp1 end)
           | Some i => if Nat.eqb i ip then inr (InCore xp) else inl (S xp, xp1)
           end)) (0%nat, None).

Definition xalloc (ip : nat) : KM unit :=
  tsize <- exdata ux_tsize ;;
  if tsize =? 0 then ret tt
  else
    p <- uf u_procp ;;
    f <- text_scan ip ;;
    match f with
    | InCore xp =>
        xlock xp ;;;
        c <- xf xp x_count ;; xset xp x_count (s8 (c + 1)) ;;;
        pset p p_textp (Some xp) ;;;
        cc <- xf xp x_ccount ;;
        (if cc =? 0 then xexpand xp else xset xp x_ccount (s8 (cc + 1))) ;;;
        xunlock xp
    | Slot None => printf "out of text" ;;; psignal p SIGKIL
    | Slot (Some xp) =>
        xset xp x_flag (Z.lor XLOAD XLOCK) ;;;
        xset xp x_count 1 ;;;
        xset xp x_ccount 0 ;;;
        xset xp x_iptr (Some ip) ;;;
        ior ip ITEXT ;;;
        c <- ipf ip i_count ;; ipset ip i_count (s8 (c + 1)) ;;;
        let ts := btoc tsize in
        xset xp x_size (s16 ts) ;;;
        a <- malloc_swap (s32 (ctod ts)) ;;
        xset xp x_daddr (s16 a) ;;;
        (if s16 a =? 0 then panic "out of swap space" else ret tt) ;;;
        pset p p_textp (Some xp) ;;;
        xexpand xp ;;;
        estabur ts 0 0 RW ;;;
        tsize <- exdata ux_tsize ;;
        uset u_count tsize ;;;
        uset u_offset sizeof_exdata ;;;
        uset u_base (UA 0) ;;;
        uset u_segflg 2 ;;;
        por p SLOCK ;;;
        readi ip ;;;
        pclr p SLOCK ;;;
        uset u_segflg 0 ;;;
        xset xp x_flag XWRIT
    end.

(** Remove a text nobody uses from the table. *)
Definition xuntext (xp : nat) : KM unit :=
  xlock xp ;;;
  c <- xf xp x_count ;;
  if tst c then xunlock xp
  else
    r <- tget texts xp ;;
    ip <- the (x_iptr r) ;;
    xclr xp XLOCK ;;;
    xset xp x_iptr None ;;;
    mfree_swap (ctod (x_size r)) (x_daddr r) ;;;
    text_iput ip.

Definition xumount (dev : Z) : KM unit :=
  t <- kf texts ;;
  for_ (slots (length t)) (fun xp =>
    o <- xf xp x_iptr ;;
    match o with
    | Some ip => d <- ipf ip i_dev ;; when (dev =? d) (xuntext xp)
    | None => ret tt
    end).

(** The test of ITEXT at its head is [ip->i_flag & (ITEXT==0)], which never
    holds. *)
Definition xrele (ip : nat) : KM unit :=
  f <- ipf ip i_flag ;;
  if f &? (if ITEXT =? 0 then 1 else 0) then ret tt
  else
    t <- kf texts ;;
    for_ (slots (length t)) (fun xp =>
      o <- xf xp x_iptr ;;
      when (bool_decide (o = Some ip)) (xuntext xp)).

(** ** The swapper *)

(** The text of a process, in core. *)
Definition swapin_text (xp : nat) : KM bool :=
  xlock xp ;;;
  cc <- xf xp x_ccount ;;
  ok <- (if cc =? 0 then
           size <- xf xp x_size ;;
           x <- malloc_core size ;;
           if x =? 0 then xunlock xp ;;; ret false
           else
             xset xp x_caddr (s16 x) ;;;
             r <- tget texts xp ;;
             when (negb (x_flag r &? XLOAD)) (swap (x_daddr r) x (x_size r) B_READ) ;;;
             ret true
         else ret true) ;;
  if ok : bool then
    cc <- xf xp x_ccount ;;
    xset xp x_ccount (s8 (cc + 1)) ;;;
    xunlock xp ;;;
    ret true
  else ret false.

Definition swapin (p : nat) : KM bool :=
  size <- pf p p_size ;;
  a <- malloc_core size ;;
  if a =? 0 then ret false
  else
    tp <- pf p p_textp ;;
    ok <- match tp with Some xp => swapin_text xp | None => ret true end ;;
    size <- pf p p_size ;;
    if negb ok then mfree_core size a ;;; ret false
    else
      ad <- pf p p_addr ;;
      swap ad a size B_READ ;;;
      size <- pf p p_size ;; ad <- pf p p_addr ;;
      mfree_swap (ctod size) ad ;;;
      pset p p_addr (s16 a) ;;;
      por p SLOAD ;;;
      pset p p_time 0 ;;;
      ret true.

(** The swapped-out process that has been out longest, with how long. *)
Definition outage_of (r : proc) : Z := p_time r - (p_nice r - NZERO) * 8.
Definition pick_in_step (x : option nat * Z) (y : nat * proc) : option nat * Z :=
  let '(p, outage) := x in let '(i, r) := y in
  if (p_stat r =? SRUN) && negb (p_flag r &? SLOAD) && (outage <? outage_of r)
  then (Some i, outage_of r) else (p, outage).
Definition numbered {A} (l : list A) : list (nat * A) := combine (seq 0 (length l)) l.
Definition pick_in (ps : list proc) : option nat * Z :=
  fold_left pick_in_step (numbered ps) (None, -20000).

(** The process to swap out: the largest of those asleep at a bad priority
    or stopped; else the one longest in core. *)
Definition text_locked (ts : list text) (tp : option nat) : bool :=
  match tp with
  | Some xp => match ts !! xp with Some x => x_flag x &? XLOCK | None => false end
  | None => false
  end.
Definition pick_out_step (ts : list text) (x : option nat * Z * Z) (y : nat * proc) :
    option nat * Z * Z :=
  let '(p, maxsize, inage) := x in let '(i, r) := y in
  if (p_stat r =? SZOMB)
     || negb (Z.land (p_flag r) (Z.lor (Z.lor (Z.lor SSYS SLOCK) SULOCK) SLOAD) =? SLOAD)
     || text_locked ts (p_textp r) then x
  else if ((p_stat r =? SSLEEP) && (PZERO <=? p_pri r)) || (p_stat r =? SSTOP) then
    if maxsize <? p_size r then (Some i, p_size r, inage) else x
  else if (maxsize <? 0) && ((p_stat r =? SRUN) || (p_stat r =? SSLEEP)) then
    let age := p_time r + p_nice r - NZERO in
    if inage <? age then (Some i, maxsize, age) else x
  else x.
Definition pick_out (ps : list proc) (ts : list text) : option nat * Z * Z :=
  fold_left (pick_out_step ts) (numbered ps) (None, -1, -1).

(** [sched()] from [loop:] to a [goto loop]. *)
Definition sched_round : KM unit :=
  spl6 ;;;
  ps <- kf procs ;;
  let '(p, outage) := pick_in ps in
  if outage =? -20000 then
    ro <- kf runout ;; kset runout (s8 (ro + 1)) ;;;
    sleep CRunout PSWP
  else
    spl0 ;;;
    p <- the p ;;
    ok <- swapin p ;;
    if ok : bool then ret tt
    else
      spl6 ;;;
      ps <- kf procs ;; ts <- kf texts ;;
      let '(p, maxsize, inage) := pick_out ps ts in
      spl0 ;;;
      if (0 <=? maxsize) || ((3 <=? outage) && (2 <=? inage)) then
        p <- the p ;;
        pclr p SLOAD ;;;
        xswap p true 0
      else
        spl6 ;;;
        ri <- kf runin ;; kset runin (s8 (ri + 1)) ;;;
        sleep CRunin PSWP.

(** ** New processes and their size *)

(** [while(n--) copyseg(a1++, a2++);] *)
Definition copysegs (a1 a2 n : Z) : KM unit :=
  for_ (seqZ 0 n) (fun i => copyseg (a1 + i) (a2 + i)).

(** References of the new process to open files, text and directories. *)
Definition newproc_refs (textp : option nat) : KM unit :=
  l <- uf u_ofile ;;
  for_ l (fun o =>
    match o with
    | Some fp => c <- ff fp f_count ;; fset fp f_count (s8 (c + 1))
    | None => ret tt
    end) ;;;
  match textp with
  | Some xp =>
      c <- xf xp x_count ;; xset xp x_count (s8 (c + 1)) ;;;
      cc <- xf xp x_ccount ;; xset xp x_ccount (s8 (cc + 1))
  | None => ret tt
  end ;;;
  cd <- uf u_cdir ;;
  c <- ipf cd i_count ;; ipset cd i_count (s8 (c + 1)) ;;;
  rd <- uf u_rdir ;;
  match rd with
  | Some rd => c <- ipf rd i_count ;; ipset rd i_count (s8 (c + 1))
  | None => ret tt
  end.

(** The table entry of the new process. *)
Definition newproc_entry (rip : proc) (pid : Z) (r : proc) : proc :=
  r <| p_stat := SRUN |> <| p_clktim := 0 |> <| p_flag := SLOAD |> <| p_uid := p_uid rip |>
    <| p_pgrp := p_pgrp rip |> <| p_nice := p_nice rip |> <| p_textp := p_textp rip |>
    <| p_pid := s16 pid |> <| p_ppid := p_pid rip |> <| p_time := 0 |> <| p_cpu := 0 |>.

(** [newproc()] in the parent, where it returns 0; the result is the new
    process with the user structure its image is made with.  It starts in
    [sureg] and returns 1. *)
Definition newproc : KM (nat * user) :=
  p <- newproc_slot ;;
  up <- uf u_procp ;;
  rip <- tget procs up ;;
  pid <- kf mpid ;;
  tmod procs p (newproc_entry rip pid) ;;;
  newproc_refs (p_textp rip) ;;;
  uset u_procp p ;;;
  rip <- tget procs up ;;
  let n := p_size rip in let a1 := p_addr rip in
  pset p p_size n ;;;
  child <- uf (fun us => us) ;;
  a2 <- malloc_core n ;;
  (if a2 =? 0 then
     pset up p_stat SIDL ;;;
     pset p p_addr a1 ;;;
     xswap p false 0 ;;;
     pset up p_stat SRUN
   else
     pset p p_addr (s16 a2) ;;;
     copysegs a1 a2 n) ;;;
  uset u_procp up ;;;
  setrq p ;;;
  por p SSWAP ;;;
  ret (p, child).

Definition expand (newsize : Z) : KM unit :=
  p <- uf u_procp ;;
  n <- pf p p_size ;;
  pset p p_size (s16 newsize) ;;;
  a1 <- pf p p_addr ;;
  if newsize <=? n then mfree_core (n - newsize) (a1 + newsize)
  else
    a2 <- malloc_core newsize ;;
    if a2 =? 0 then
      xswap p true n ;;;
      por p SSWAP ;;;
      qswtch
    else
      pset p p_addr (s16 a2) ;;;
      copysegs a1 a2 n ;;;
      mfree_core n a1 ;;;
      sureg.

End Text.

(** ** What the swapper chooses *)

Lemma combine_snoc {A B} (l : list A) (m : list B) a b : length l = length m ->
  combine (l ++ [a]) (m ++ [b]) = combine l m ++ [(a, b)].
Proof.
  revert m; induction l as [|x l IH]; intros [|y m] H; try done. cbn. by rewrite IH by (by injection H).
Qed.
Lemma numbered_snoc {A} (l : list A) x : numbered (l ++ [x]) = numbered l ++ [(length l, x)].
Proof.
  unfold numbered. rewrite length_snoc, seq_S. by apply combine_snoc, length_seq.
Qed.

Section Choice.
Context {A : Type} (ok : A -> bool) (key : A -> Z).

(** Entry [i] of [l] is the first of those with [ok] whose [key] is greatest. *)
Definition first_best (l : list A) (i : nat) : Prop :=
  exists x, l !! i = Some x /\ ok x = true /\
    forall j y, l !! j = Some y -> ok y = true -> key y <= key x /\ (key y = key x -> (i <= j)%nat).
Definition none_ok (l : list A) : Prop := forall y, y ∈ l -> ok y = false.

Lemma none_ok_snoc l x : none_ok (l ++ [x]) <-> none_ok l /\ ok x = false.
Proof.
  split.
  - intros H. split; [intros y Hy|]; apply H, elem_of_app; [by left|right; apply list_elem_of_here].
  - intros [Hl Hx] y [Hy|Hy]%elem_of_app; [by apply Hl|]. by apply list_elem_of_singleton in Hy as ->.
Qed.

Lemma lookup_snoc (l : list A) x j y :
  (l ++ [x]) !! j = Some y -> l !! j = Some y \/ (j = length l /\ y = x).
Proof.
  intros [H|[Hl H]]%lookup_app_Some; [by left|]. right.
  apply list_lookup_singleton_Some in H as [E ->]. split; [lia|done].
Qed.

Lemma first_best_keep l x i z : first_best l i -> l !! i = Some z ->
  (ok x = true -> key x <= key z) -> first_best (l ++ [x]) i.
Proof.
  intros (z' & Hi & Ho & Hb) Hz Hx. assert (z' = z) as -> by congruence.
  exists z. split; [by apply lookup_app_l_Some|]. split; [done|].
  intros j y [Hj|[-> ->]]%lookup_snoc Hy; [by apply Hb|]. split; [by apply Hx|].
  intros _. apply lookup_lt_Some in Hi. lia.
Qed.

Lemma first_best_new l x : ok x = true ->
  (forall j y, l !! j = Some y -> ok y = true -> key y < key x) ->
  first_best (l ++ [x]) (length l).
Proof.
  intros Hx Hl. exists x. split; [by rewrite lookup_app_r, Nat.sub_diag|]. split; [done|].
  intros j y [Hj|[-> ->]]%lookup_snoc Hy; [|split; [lia|intros _; lia]].
  specialize (Hl j y Hj Hy). lia.
Qed.
End Choice.

Lemma key_at {A} (key : A -> Z) (l : list A) r i n :
  key <$> l !! i = Some n -> key <$> (l ++ [r]) !! i = Some n.
Proof. destruct (l !! i) eqn:E; [|done]. by rewrite (lookup_app_l_Some _ _ _ _ E). Qed.
Lemma key_last {A} (key : A -> Z) (l : list A) r : key <$> (l ++ [r]) !! length l = Some (key r).
Proof. by rewrite lookup_app_r, Nat.sub_diag. Qed.

(** Adding an entry to a table whose best is [i]. *)
Lemma first_best_step {A} (ok : A -> bool) key (l : list A) r i n :
  first_best ok key l i -> key <$> l !! i = Some n ->
  if ok r && (n <? key r) then first_best ok key (l ++ [r]) (length l)
  else first_best ok key (l ++ [r]) i.
Proof.
  intros Hi Hn. destruct (l !! i) as [z|] eqn:Ez; [|done]. injection Hn as <-.
  destruct (ok r) eqn:Er; cbn [andb]; [destruct (Z.ltb_spec (key z) (key r))|].
  - apply first_best_new; [done|]. intros j y Hj Hy. destruct Hi as (z' & Ez' & _ & Hi).
    assert (z' = z) as -> by congruence. destruct (Hi j y Hj Hy). lia.
  - by apply (first_best_keep _ _ _ _ _ z).
  - apply (first_best_keep _ _ _ _ _ z); [done|done|congruence].
Qed.
Lemma first_best_first {A} (ok : A -> bool) key (l : list A) r :
  none_ok ok l -> ok r = true -> first_best ok key (l ++ [r]) (length l).
Proof.
  intros Hn Hr. apply first_best_new; [done|]. intros j y Hj Hy.
  rewrite (Hn y) in Hy; [done|by eapply list_elem_of_lookup_2].
Qed.

Definition wants_in (r : proc) : bool := (p_stat r =? SRUN) && negb (p_flag r &? SLOAD).

Lemma pick_in_snoc ps r : pick_in (ps ++ [r]) = pick_in_step (pick_in ps) (length ps, r).
Proof. unfold pick_in. by rewrite numbered_snoc, fold_left_app. Qed.

(** The swapper brings in the first of the runnable swapped-out processes
    that has been out longest, counting eight time units for each step of
    niceness, and finds none exactly when there is no such process. *)
Theorem pick_in_correct (ps : list proc) : (forall r, r ∈ ps -> -20000 < outage_of r) ->
  match pick_in ps with
  | (None, n) => n = -20000 /\ none_ok wants_in ps
  | (Some i, n) => first_best wants_in outage_of ps i /\ (outage_of <$> ps !! i) = Some n
  end.
Proof.
  induction ps as [|r ps IH] using rev_ind; intros Hb.
  { split; [done|]. intros y Hy. by apply not_elem_of_nil in Hy. }
  rewrite pick_in_snoc.
  specialize (IH (fun r Hr => Hb r (proj2 (elem_of_app _ _ _) (or_introl Hr)))).
  specialize (Hb r (proj2 (elem_of_app _ _ _) (or_intror (list_elem_of_here _ _)))).
  destruct (pick_in ps) as [[i|] n]; cbn [pick_in_step]; fold (wants_in r); destruct IH as [Hi Hn].
  - pose proof (first_best_step _ _ _ r _ _ Hi Hn) as Hs.
    destruct (wants_in r && (n <? outage_of r)); (split; [done|]); [apply key_last|by apply key_at].
  - subst n. rewrite (proj2 (Z.ltb_lt _ _)) by done. rewrite andb_true_r.
    destruct (wants_in r) eqn:Er; (split; [|]); [by apply first_best_first|apply key_last|done|].
    apply none_ok_snoc. by split.
Qed.

(** A process that may be swapped out; one asleep at a bad priority or
    stopped, and the rest of the runnable and sleeping ones. *)
Definition movable (ts : list text) (r : proc) : bool :=
  negb ((p_stat r =? SZOMB)
     || negb (Z.land (p_flag r) (Z.lor (Z.lor (Z.lor SSYS SLOCK) SULOCK) SLOAD) =? SLOAD)
     || text_locked ts (p_textp r)).
Definition badly_asleep (r : proc) : bool :=
  ((p_stat r =? SSLEEP) && (PZERO <=? p_pri r)) || (p_stat r =? SSTOP).
Definition lazy_one (ts : list text) (r : proc) : bool := movable ts r && badly_asleep r.
Definition in_core_for (r : proc) : Z := p_time r + p_nice r - NZERO.
Definition active_one (ts : list text) (r : proc) : bool :=
  movable ts r && negb (badly_asleep r) && ((p_stat r =? SRUN) || (p_stat r =? SSLEEP))
  && (-1 <? in_core_for r).

Lemma pick_out_snoc ps ts r :
  pick_out (ps ++ [r]) ts = pick_out_step ts (pick_out ps ts) (length ps, r).
Proof. unfold pick_out. by rewrite numbered_snoc, fold_left_app. Qed.

(** One step in terms of the two kinds of candidates. *)
Lemma pick_out_step_kinds ts p mx ag i r : -1 <= ag ->
  pick_out_step ts (p, mx, ag) (i, r) =
    if lazy_one ts r then if mx <? p_size r then (Some i, p_size r, ag) else (p, mx, ag)
    else if (mx <? 0) && active_one ts r && (ag <? in_core_for r) then (Some i, mx, in_core_for r)
    else (p, mx, ag).
Proof.
  intros Hag. unfold pick_out_step, lazy_one, active_one, movable, in_core_for, badly_asleep.
  destruct (_ || text_locked _ _); cbn [negb andb]; [by rewrite andb_false_r|].
  destruct (((p_stat r =? SSLEEP) && (PZERO <=? p_pri r)) || (p_stat r =? SSTOP)); [done|].
  cbn [negb andb].
  destruct (mx <? 0); cbn [andb]; [|done].
  destruct ((p_stat r =? SRUN) || (p_stat r =? SSLEEP)); cbn [andb]; [|done].
  destruct (Z.ltb_spec ag (p_time r + p_nice r - NZERO)),
    (Z.ltb_spec (-1) (p_time r + p_nice r - NZERO)); cbn [andb]; done || lia.
Qed.

Definition picked (ps : list proc) (ts : list text) (x : option nat * Z * Z) : Prop :=
  match x with
  | (Some i, size, age) =>
      -1 <= age /\
      if 0 <=? size then
        first_best (lazy_one ts) p_size ps i /\ (p_size <$> ps !! i) = Some size
      else
        size = -1 /\ none_ok (lazy_one ts) ps /\
        first_best (active_one ts) in_core_for ps i /\ (in_core_for <$> ps !! i) = Some age
  | (None, size, age) =>
      size = -1 /\ age = -1 /\ none_ok (lazy_one ts) ps /\ none_ok (active_one ts) ps
  end.

Lemma lazy_not_active ts r : lazy_one ts r = true -> active_one ts r = false.
Proof. unfold lazy_one, active_one. intros [-> ->]%andb_true_iff. done. Qed.

Lemma picked_snoc ps ts x r : picked ps ts x -> 0 <= p_size r ->
  picked (ps ++ [r]) ts (pick_out_step ts x (length ps, r)).
Proof.
  intros Hx Hr. destruct x as [[p mx] ag].
  assert (Hag : -1 <= ag) by (destruct p; [apply Hx|]; destruct Hx as (_ & -> & _); lia).
  rewrite pick_out_step_kinds by done. destruct (lazy_one ts r) eqn:Er.
  - pose proof (lazy_not_active ts r Er) as Ha. destruct p as [i|]; cbn in Hx.
    + destruct Hx as [_ Hx]. destruct (Z.leb_spec 0 mx).
      * destruct Hx as [Hi Hn]. pose proof (first_best_step _ _ _ r _ _ Hi Hn) as Hs.
        rewrite Er in Hs. cbn [andb] in Hs. destruct (mx <? p_size r); split; try done.
        -- rewrite (proj2 (Z.leb_le _ _)) by done. split; [done|apply key_last].
        -- rewrite (proj2 (Z.leb_le _ _)) by done. split; [done|by apply key_at].
      * destruct Hx as (-> & Hn & _). rewrite (proj2 (Z.ltb_lt _ _)) by lia. split; [done|].
        rewrite (proj2 (Z.leb_le _ _)) by done. split; [by apply first_best_first|apply key_last].
    + destruct Hx as (-> & -> & Hn & _). rewrite (proj2 (Z.ltb_lt _ _)) by lia. split; [done|].
      rewrite (proj2 (Z.leb_le _ _)) by done. split; [by apply first_best_first|apply key_last].
  - destruct p as [i|]; cbn in Hx.
    + destruct Hx as [_ Hx]. destruct (Z.leb_spec 0 mx).
      * rewrite (proj2 (Z.ltb_ge _ _)) by done. cbn [andb]. destruct Hx as [Hi Hn].
        pose proof (first_best_step _ _ _ r _ _ Hi Hn) as Hs. rewrite Er in Hs. split; [done|].
        rewrite (proj2 (Z.leb_le _ _)) by done. split; [done|by apply key_at].
      * destruct Hx as (-> & Hl & Hi & Hn). change (-1 <? 0) with true. cbn [andb].
        pose proof (first_best_step _ _ _ r _ _ Hi Hn) as Hs.
        assert (none_ok (lazy_one ts) (ps ++ [r])) by (apply none_ok_snoc; by split).
        destruct (active_one ts r && (ag <? in_core_for r)) eqn:Eb.
        -- apply andb_true_iff in Eb as [_ Eb%Z.ltb_lt]. split; [lia|]. repeat split; try done. apply key_last.
        -- split; [done|]. repeat split; try done. by apply key_at.
    + destruct Hx as (-> & -> & Hl & Ha). change (-1 <? 0) with true. cbn [andb].
      assert (none_ok (lazy_one ts) (ps ++ [r])) by (apply none_ok_snoc; by split).
      destruct (active_one ts r) eqn:Ea; cbn [andb].
      * assert (-1 < in_core_for r) as Hg.
        { unfold active_one in Ea. apply andb_true_iff in Ea as [_ Ea]. lia. }
        rewrite (proj2 (Z.ltb_lt _ _)) by done. split; [lia|]. repeat split; try done.
        -- by apply first_best_first.
        -- apply key_last.
      * repeat split; try done. apply none_ok_snoc. by split.
Qed.

Lemma pick_out_ok ps ts : (forall r, r ∈ ps -> 0 <= p_size r) -> picked ps ts (pick_out ps ts).
Proof.
  induction ps as [|r ps IH] using rev_ind; intros Hb.
  - repeat split; intros y Hy; by apply not_elem_of_nil in Hy.
  - rewrite pick_out_snoc. apply picked_snoc.
    + apply IH. intros x Hx. apply Hb, elem_of_app. by left.
    + apply Hb, elem_of_app. right. apply list_elem_of_here.
Qed.

(** The swapper throws out the first of the largest processes that sleep
    at a bad priority or are stopped; with none of those, the first of the
    runnable or sleeping ones that have been longest in core.  It never picks a
    process that is locked in core, is not in core, belongs to the system or
    has its text on the move. *)
Theorem pick_out_correct (ps : list proc) (ts : list text) : (forall r, r ∈ ps -> 0 <= p_size r) ->
  match pick_out ps ts with
  | (Some i, size, age) =>
      if 0 <=? size then
        first_best (lazy_one ts) p_size ps i /\ (p_size <$> ps !! i) = Some size
      else
        size = -1 /\ none_ok (lazy_one ts) ps /\
        first_best (active_one ts) in_core_for ps i /\ (in_core_for <$> ps !! i) = Some age
  | (None, size, age) =>
      size = -1 /\ age = -1 /\ none_ok (lazy_one ts) ps /\ none_ok (active_one ts) ps
  end.
Proof.
  intros Hb. pose proof (pick_out_ok ps ts Hb) as H. unfold picked in H.
  destruct (pick_out ps ts) as [[[i|] size] age]; [|done]. by destruct H.
Qed.

(** The system, a large sleeper, a larger one that is locked, a stopped one,
    and two runnable ones on the swap device. *)
Definition six_procs : list proc :=
  [proc0 <| p_stat := SRUN |> <| p_flag := Z.lor SLOAD SSYS |> <| p_nice := 20 |>;
   proc0 <| p_stat := SSLEEP |> <| p_flag := SLOAD |> <| p_pri := 40 |> <| p_size := 30 |> <| p_nice := 20 |>;
   proc0 <| p_stat := SSLEEP |> <| p_flag := Z.lor SLOAD SLOCK |> <| p_pri := 40 |> <| p_size := 60 |> <| p_nice := 20 |>;
   proc0 <| p_stat := SSTOP |> <| p_flag := SLOAD |> <| p_size := 30 |> <| p_nice := 20 |>;
   proc0 <| p_stat := SRUN |> <| p_time := 5 |> <| p_nice := 20 |>;
   proc0 <| p_stat := SRUN |> <| p_time := 9 |> <| p_nice := 24 |>].

Lemma pick_in_correct_witness :
  pick_in six_procs = (Some 4%nat, 5) /\
  first_best wants_in outage_of six_procs 4 /\ (outage_of <$> six_procs !! 4%nat) = Some 5.
Proof.
  split; [done|]. apply (pick_in_correct six_procs). apply Forall_forall.
  repeat constructor; done.
Defined.

Lemma pick_out_correct_witness :
  pick_out six_procs [] = (Some 1%nat, 30, -1) /\
  first_best (lazy_one []) p_size six_procs 1 /\ (p_size <$> six_procs !! 1%nat) = Some 30.
Proof.
  split; [done|]. apply (pick_out_correct six_procs []). apply Forall_forall.
  repeat constructor; done.
Defined.
