(* ===== verification/Nami.v ===== *)
(** * Nami: path names and permissions ([sys/nami.c], [access], [owner] and
      [suser] of [sys/fio.c], [maknode] and [wdir] of [sys/iget.c])

    [namei] walks a path name a component at a time from the root or the
    current directory to a locked inode, through mount points in both
    directions, checking the permission to search each directory. *)

From S2P Require Import Prelude Bytes State Utab Sched Bio Alloc Inode Rdwri Text.

Definition ASU : Z := 2.
Definition SLASH : Z := 47.
Definition BANG : Z := 33.
Definition DOT : Z := 46.

Section Nami.
Context {MC : Machine}.

(** ** Permissions *)

(** The permission bits that apply to the user: the mode shifted to the
    owner's, the group's or the others' field. *)
Definition access_bits (us : user) (r : inode) (m : Z) : Z :=
  if u_uid us =? i_uid r then m
  else if u_gid us =? i_gid r then Z.shiftr m 3
  else Z.shiftr (Z.shiftr m 3) 3.

(** Whether it is denied, and then with what error. *)
Definition access (ip : nat) (mode : Z) : KM bool :=
  denied <- (if mode =? IWRITE then
      dev <- ipf ip i_dev ;;
      fp <- getfs dev ;;
      ro <- fsget fp s_ronly ;;
      if negb (ro =? 0) then set_error EROFS ;;; ret true
      else
        t <- ihas ip ITEXT ;;
        when t (xrele ip) ;;;
        t <- ihas ip ITEXT ;;
        if t : bool then set_error ETXTBSY ;;; ret true else ret false
    else ret false) ;;
  if denied : bool then ret true
  else
    us <- uf (fun r => r) ;;
    if u_uid us =? 0 then ret false
    else
      r <- tget inodes ip ;;
      if i_mode r &? access_bits us r mode then ret false
      else set_error EACCES ;;; ret true.

Definition suser : KM bool :=
  uid <- uf u_uid ;;
  if uid =? 0 then f <- uf u_acflag ;; uset u_acflag (Z.lor f ASU) ;;; ret true
  else set_error EPERM ;;; ret false.

(** ** The characters of a name *)

(** From the kernel string [s], with [u_dirp] as the place in it. *)
Definition schar (s : list Z) : KM Z :=
  i <- uf u_dirp ;;
  uset u_dirp (i + 1) ;;;
  c <- the (s !! Z.to_nat i) ;;
  ret (Z.land c 255).
Definition uchar : KM Z :=
  a <- uf u_dirp ;;
  uset u_dirp (a + 1) ;;;
  c <- fubyte (UA a) ;;
  when (c =? -1) (set_error EFAULT) ;;;
  ret c.

(** No name has more characters than the user has memory. *)
Definition NAMELEN : nat := Z.to_nat (USTK + 2).

(** [while(c == '/') c = func();] *)
Definition skip_slashes (func : KM Z) (c : Z) : KM Z :=
  loop NAMELEN (fun c => if c =? SLASH then c <- func ;; ret (inl c) else ret (inr c)) c.

(** The characters of a component go into [u_dbuf]; the rest of it is
    cleared. *)
Definition gather (func : KM Z) (c : Z) : KM Z :=
  mpx <- kf mpxip ;;
  x <- loop NAMELEN (fun x : nat * Z =>
    let '(cp, c) := x in
    err <- uf u_error ;;
    if negb (c =? SLASH) && negb (c =? 0) && (err =? 0) then
      if bool_decide (is_Some mpx) && (c =? BANG) then ret (inr (cp, c))
      else
        when (Nat.ltb cp DIRSIZ) (umod (fun r => r <| u_dbuf ::= <[cp := u8 c]> |>)) ;;;
        let cp := if Nat.ltb cp DIRSIZ then S cp else cp in
        c <- func ;;
        ret (inl (cp, c))
    else ret (inr (cp, c))) (0%nat, c) ;;
  let '(cp, c) := x in
  umod (fun r => r <| u_dbuf ::= fun b => take cp b ++ replicate (DIRSIZ - cp) 0 |>) ;;;
  ret c.

(** ** Searching a directory *)

(** How the search of a directory ends: [namei] returns, leaves through
    [out], or has the entry in [u_dent]. *)
Inductive dirend := DRet (r : option nat) | DOut | DMatch.

Definition brelse_opt (bp : option bptr) : KM unit :=
  match bp with Some bp => brelse bp | None => ret tt end.

(** The entry at [u_offset] is not there. *)
Definition dir_end (dp : nat) (flag c eo : Z) : KM dirend :=
  if (flag =? 1) && (c =? 0) then
    no <- access dp IWRITE ;;
    if no : bool then ret DOut
    else
      uset u_pdir dp ;;;
      (if tst eo then uset u_offset (eo - Z.of_nat sizeof_direct)
       else ior dp (Z.lor IUPD ICHG)) ;;;
      ret (DRet None)
  else set_error ENOENT ;;; ret DOut.

(** From [eloop:] to the next [goto eloop]; [eo] is the end of the first
    empty entry and [bp] the block in hand. *)
Definition dir_step (dp : nat) (flag c : Z) (x : Z * option bptr) :
    KM (Z * option bptr + dirend) :=
  let '(eo, bp) := x in
  off <- uf u_offset ;; size <- ipf dp i_size ;;
  if size <=? off then brelse_opt bp ;;; e <- dir_end dp flag c eo ;; ret (inr e)
  else
    bp <- (if Z.land off BMASK =? 0 then
             brelse_opt bp ;;;
             bn <- bmap dp (Z.shiftr off BSHIFT) B_READ ;;
             dev <- ipf dp i_dev ;;
             bp <- bread dev bn ;;
             e <- bhas bp B_ERROR ;;
             if e : bool then brelse bp ;;; ret None else ret (Some bp)
           else bp <- the bp ;; ret (Some bp)) ;;
    match bp with
    | None => ret (inr DOut)
    | Some bp =>
        d <- bf bp b_data ;;
        off <- uf u_offset ;;
        let dent := sub (Z.to_nat (Z.land off BMASK)) sizeof_direct d in
        uset u_dent dent ;;;
        uset u_offset (s32 (off + Z.of_nat sizeof_direct)) ;;;
        if rdf d_ino dent =? 0 then
          off <- uf u_offset ;;
          ret (inl (if eo =? 0 then off else eo, Some bp))
        else
          name <- uf u_dbuf ;;
          if bool_decide (name = drop 2 dent) then brelse bp ;;; ret (inr DMatch)
          else ret (inl (eo, Some bp))
    end.

Definition dir_search (dp : nat) (flag c : Z) : KM dirend :=
  uset u_offset 0 ;;;
  uset u_segflg 1 ;;;
  size <- ipf dp i_size ;;
  loop (S (S (Z.to_nat (size / Z.of_nat sizeof_direct)))) (dir_step dp flag c) (0, None).

(** The mount entry, other than the root's, of a device. *)
Definition mount_of (dev : Z) : KM (option nat) :=
  for_find (seq 1 (NMOUNT - 1)) (fun i =>
    m <- tget mounts i ;;
    ret (if bool_decide (is_Some (m_bufp m)) && (m_dev m =? dev) then Some i else None)).

(** From [seloop:] on: [inl] is the next directory to search, [inr (inl dp)]
    the inode of the component and [inr (inr r)] what [namei] returns. *)
Definition namei_out (dp : nat) : KM (nat + (nat + option nat)) := iput dp ;;; ret (inr (inr None)).

(** The entry is there. *)
Definition next_dir (flag c : Z) (dp : nat) : KM (nat + (nat + option nat)) :=
  if (flag =? 2) && (c =? 0) then
    no <- access dp IWRITE ;;
    if no : bool then namei_out dp else ret (inr (inr (Some dp)))
  else
    d <- ipf dp i_dev ;;
    dent <- uf u_dent ;;
    num <- ipf dp i_number ;;
    up <- (if (rdf d_ino dent =? ROOTINO) && (num =? ROOTINO) && (rdf (elt d_name 1) dent =? DOT)
           then mount_of d else ret None) ;;
    match up with
    | Some i =>
        iput dp ;;;
        o <- mpf i m_inodp ;;
        dp <- the o ;;
        cnt <- ipf dp i_count ;; ipset dp i_count (s8 (cnt + 1)) ;;;
        plock dp ;;;
        ret (inl dp)
    | None =>
        iput dp ;;;
        dent <- uf u_dent ;;
        o <- iget d (rdf d_ino dent) ;;
        ret (inr (match o with Some dp => inl dp | None => inr None end))
    end.

Definition seloop (flag c : Z) (dp : nat) : KM (nat + (nat + option nat)) :=
  mode <- ipf dp i_mode ;;
  when (negb (ifmt mode =? IFDIR)) (set_error ENOTDIR) ;;;
  access dp IEXEC ;;;
  err <- uf u_error ;;
  if tst err then namei_out dp
  else
    e <- dir_search dp flag c ;;
    match e with
    | DRet r => ret (inr (inr r))
    | DOut => namei_out dp
    | DMatch => next_dir flag c dp
    end.

(** From [cloop:] to the next [goto cloop] or the return. *)
Definition cloop (func : KM Z) (flag : Z) (x : nat * Z) : KM (nat * Z + option nat) :=
  let '(dp, c) := x in
  err <- uf u_error ;;
  if tst err then iput dp ;;; ret (inr None)
  else if c =? 0 then ret (inr (Some dp))
  else
    c <- gather func c ;;
    c <- skip_slashes func c ;;
    mpx <- kf mpxip ;;
    match (if c =? BANG then mpx else None) with
    | Some mp =>
        iput dp ;;;
        plock mp ;;;
        cnt <- ipf mp i_count ;; ipset mp i_count (s8 (cnt + 1)) ;;;
        ret (inr (Some mp))
    | None =>
        r <- loop (S NMOUNT) (seloop flag c) dp ;;
        ret (match r with inl dp => inl (dp, c) | inr o => inr o end)
    end.

Definition namei (func : KM Z) (flag : Z) : KM (option nat) :=
  cdir <- uf u_cdir ;;
  c <- func ;;
  dp <- (if c =? SLASH then
           rd <- uf u_rdir ;; match rd with Some dp => ret dp | None => kf rootdir end
         else ret cdir) ;;
  r <- tget inodes dp ;;
  iget (i_dev r) (i_number r) ;;;
  c <- skip_slashes func c ;;
  when ((c =? 0) && negb (flag =? 0)) (set_error ENOENT) ;;;
  loop NAMELEN (cloop func flag) (dp, c).

Definition owner : KM (option nat) :=
  o <- namei uchar 0 ;;
  match o with
  | None => ret None
  | Some ip =>
      uid <- uf u_uid ;; own <- ipf ip i_uid ;;
      if uid =? own then ret (Some ip)
      else
        su <- suser ;;
        if su : bool then ret (Some ip) else iput ip ;;; ret None
  end.

(** ** Making files *)

(** Write a directory entry where [namei] left [u_offset]. *)
Definition wdir (ip : nat) : KM unit :=
  pd <- uf u_pdir ;;
  nl <- ipf pd i_nlink ;;
  (if nl <=? 0 then set_error ENOTDIR
   else
     ino <- ipf ip i_number ;;
     name <- uf u_dbuf ;;
     umod (fun r => r <| u_dent ::= fun d => splice 2 (take DIRSIZ name) (wrf d_ino ino d) |>) ;;;
     uset u_count (Z.of_nat sizeof_direct) ;;;
     uset u_segflg 1 ;;;
     uset u_base (KA ODent 0) ;;;
     writei pd) ;;;
  pd <- uf u_pdir ;;
  iput pd.

Definition maknode (mode : Z) : KM (option nat) :=
  pd <- uf u_pdir ;;
  dev <- ipf pd i_dev ;;
  o <- ialloc dev ;;
  match o with
  | None => pd <- uf u_pdir ;; iput pd ;;; ret None
  | Some ip =>
      ior ip (Z.lor (Z.lor IACC IUPD) ICHG) ;;;
      let mode := if ifmt mode =? 0 then Z.lor mode IFREG else mode in
      us <- uf (fun r => r) ;;
      ipset ip i_mode (u16 (clr mode (u_cmask us))) ;;;
      ipset ip i_nlink 1 ;;;
      ipset ip i_uid (u_uid us) ;;;
      ipset ip i_gid (u_gid us) ;;;
      wdir ip ;;;
      ret (Some ip)
  end.

End Nami.
