(* ===== verification/Dirs.v ===== *)
(** * Dirs: searching a directory

    The search of [namei] over the cache of [Cache] and the tree of [Blocks]:
    a directory is a list of entries of 16 bytes, and the search finds the
    first one in use that has the name, or the place for a new one. *)

From S2P Require Import Prelude Bytes State Utab Sched Bio Cache Alloc Inode Rdwri Blocks Files Nami.

(** ** Directories as lists of entries *)

Definition in_use (d : list Z) : Prop := rdf d_ino d <> 0.
(** The entry of a name, and the first one that is free. *)
Definition entry_of (name : list Z) (dents : list (list Z)) : option (nat * list Z) :=
  list_find (fun d => rdf d_ino d <> 0 /\ name = drop 2 d) dents.
Definition free_entry (dents : list (list Z)) : option (nat * list Z) :=
  list_find (fun d => rdf d_ino d = 0) dents.
(** [eo] of the code: the end of the first free entry, or 0. *)
Definition free_end (dents : list (list Z)) : Z :=
  match free_entry dents with Some (k, _) => 16 * Z.of_nat (S k) | None => 0 end.

(** The bytes of the file [r] are the entries [dents]. *)
Record directory (C : gmap Z (list Z)) (r : inode) (dents : list (list Z)) : Prop := {
  di_size_ok : i_size r = 16 * Z.of_nat (length dents); di_small : i_size r < 2147483648;
  di_addrs : length (i_addr r) = 13%nat;
  di_ents : forall k d, dents !! k = Some d -> length d = 16%nat /\ spells C (i_addr r) (16 * Z.of_nat k) d
}.

(** The world after entry [dent] has been read, the next being at [off]. *)
Definition scanned (off : Z) (dent : list Z) (w : world) : world :=
  w <| u ::= fun r => r <| u_dent := dent |> <| u_offset := off |> |>.

Lemma cache_only_same w w1 : cache_only w w1 -> u w1 = u w /\ inodes (ks w1) = inodes (ks w) /\ env w1 = env w.
Proof. unfold cache_only, cache_frame. by intros [-> _]. Qed.

Lemma cache_only_scanned off d w w1 : cache_only w w1 -> cache_only (scanned off d w) (scanned off d w1).
Proof. intros [E Hk]. split; [|exact Hk]. unfold cache_frame in *. rewrite E. by destruct w as [[] [] ?]. Qed.

Lemma scanned_twice o1 d1 o2 d2 w : scanned o2 d2 (scanned o1 d1 w) = scanned o2 d2 w.
Proof. by destruct w as [[] ? ?]. Qed.

Section Search.
Context {MC : Machine} (dev : Z) (dp : bptr) (hs : list bptr) (H : bptr -> list bptr) (C : gmap Z (list Z)).
Context (Hdev : on_dev dev dp) (Hdp : dp ∈ hs) (Hdf : dp <> Bfree) (Hnd : dev <> NODEV).

Abbreviation resident := (resident dev dp hs H C).
Abbreviation taken := (taken dev dp hs H C).

(** The block in hand before entry [k]: none yet, or that of the entry
    before. *)
Definition in_hand (addrs : list Z) (bp : option bptr) (k : nat) (w : world) : Prop :=
  match bp with
  | None => k = 0%nat /\ resident w
  | Some x => exists n b, taken n x b w /\ C !! n = Some (b_data b) /\
      (16 * Z.of_nat k mod 512 <> 0 -> file_block C addrs (16 * Z.of_nat k / 512) = Some (b_data b))
  end.

Lemma give_back addrs bp k w : in_hand addrs bp k w ->
  exists w1, brelse_opt bp w = Ret tt w1 /\ resident w1 /\ cache_only w w1.
Proof using Hdev Hdp Hdf Hnd.
  destruct bp as [x|]; cbn [in_hand brelse_opt].
  - intros (n & b & T & Hn & _). destruct (brelse_taken dev dp hs H Hdev Hdp Hdf Hnd C w n x b T) as (m2 & b2 & E & _ & _ & Hk & HC).
    rewrite insert_id in HC by done. exists (setb w m2). split; [done|]. split; [done|].
    apply (cache_only_setb w w m2); [apply cache_only_refl|exact Hk].
  - intros [_ HC]. exists w. split; [done|]. split; [done|]. apply cache_only_refl.
Qed.

(** The block of the entry at [u_offset]. *)
Definition dir_block (ip : nat) (bp : option bptr) (off : Z) : KM (option bptr) :=
  if Z.land off BMASK =? 0 then
    brelse_opt bp ;;;
    bn <- bmap ip (Z.shiftr off BSHIFT) B_READ ;;
    dev <- ipf ip i_dev ;;
    bp <- bread dev bn ;;
    e <- bhas bp B_ERROR ;;
    if e : bool then brelse bp ;;; ret None else ret (Some bp)
  else bp <- the bp ;; ret (Some bp).

Lemma dir_block_ok w ip r bp k d : in_hand (i_addr r) bp k w -> inodes (ks w) !! ip = Some r -> i_dev r = dev ->
  length (i_addr r) = 13%nat -> file_block C (i_addr r) (16 * Z.of_nat k / 512) = Some d ->
  exists x n b w1, dir_block ip bp (16 * Z.of_nat k) w = Ret (Some x) w1 /\ taken n x b w1 /\
    C !! n = Some d /\ b_data b = d /\ cache_only w w1.
Proof using Hdev Hdp Hdf Hnd.
  intros Hh Hr Hdv Hl Hfb. unfold dir_block. change BMASK with (Z.ones 9). rewrite Z.land_ones by lia. change (2 ^ 9) with 512.
  destruct (Z.eqb_spec (16 * Z.of_nat k mod 512) 0) as [Ez|Ez].
  - destruct (give_back _ _ _ _ Hh) as (w1 & E1 & HC1 & Ho1). erewrite bind_ret_eq by exact E1. cbn beta.
    destruct (cache_only_same _ _ Ho1) as (_ & Ei & _). rewrite <- Ei in Hr.
    rewrite Z.shiftr_div_pow2 by done. change (2 ^ BSHIFT) with 512. unfold file_block in Hfb.
    destruct (path _) as [[s es]|] eqn:Ep; [|done]. cbn [mbind option_bind fst snd] in Hfb.
    destruct (follow C (nth s (i_addr r) 0) es) as [z|] eqn:Ef; [|done]. cbn [mbind option_bind] in Hfb.
    destruct (Z.ltb_spec z 0); [done|].
    destruct (bmap_found dev dp hs H Hdev Hdp Hdf Hnd C w1 ip r (16 * Z.of_nat k / 512) s es z B_READ)
      as (w2 & E2 & HC2 & Ho2 & _); [by left|done..|apply Z.div_pos; lia|done|done|].
    erewrite bind_ret_eq by exact E2. cbn beta. destruct (cache_only_same _ _ Ho2) as (_ & Ei2 & _). rewrite <- Ei2 in Hr.
    erewrite bind_ret_eq by (by apply ipf_ok). cbn beta. rewrite Hdv.
    destruct (bread_taken dev dp hs H Hdev Hdp Hdf Hnd C w2 z d HC2 Hfb) as (x & b & w3 & E3 & T & Ed & Ho3).
    erewrite bind_ret_eq by exact E3. cbn beta. pose proof (taken_bits _ _ _ _ _ _ _ _ _ T) as (_ & He & _).
    erewrite bind_ret_eq by (unfold bhas; erewrite bind_ret_eq by (by apply bf_ok, T); reflexivity). cbn beta. rewrite He.
    exists x, z, b, w3. do 4 (split; [done|]). eapply cache_only_trans; [exact Ho1|]. by eapply cache_only_read.
  - destruct bp as [x|]; [|by destruct Hh as [-> _]]. destruct Hh as (n & b & T & Hn & Hd). specialize (Hd Ez).
    rewrite Hfb in Hd. injection Hd as ->. exists x, n, b, w. do 4 (split; [done|]). apply cache_only_refl.
Qed.

(** One entry: what it is decides how the search goes on. *)
Lemma dir_step_ok w ip r flag c eo bp k dent : in_hand (i_addr r) bp k w -> inodes (ks w) !! ip = Some r -> i_dev r = dev ->
  length (i_addr r) = 13%nat -> u_offset (u w) = 16 * Z.of_nat k -> 16 * Z.of_nat (S k) <= i_size r < 2147483648 ->
  length dent = 16%nat -> spells C (i_addr r) (16 * Z.of_nat k) dent ->
  exists x w1, cache_only (scanned (16 * Z.of_nat (S k)) dent w) w1 /\
    if decide (rdf d_ino dent = 0) then
      dir_step ip flag c (eo, bp) w = Ret (inl (if eo =? 0 then 16 * Z.of_nat (S k) else eo, Some x)) w1 /\
      in_hand (i_addr r) (Some x) (S k) w1
    else if decide (u_dbuf (u w) = drop 2 dent) then dir_step ip flag c (eo, bp) w = Ret (inr DMatch) w1 /\ resident w1
    else dir_step ip flag c (eo, bp) w = Ret (inl (eo, Some x)) w1 /\ in_hand (i_addr r) (Some x) (S k) w1.
Proof using Hdev Hdp Hdf Hnd.
  intros Hh Hr Hdv Hl Ho Hs Hd Hsp.
  destruct (spells_block C (i_addr r) (16 * Z.of_nat k) dent Hsp) as (d & Hfb & Hsub);
    [lia|by intros ->|rewrite Hd; pose proof (Z.mod_pos_bound (16 * Z.of_nat k) 512); rewrite (Z.mul_comm 16), (Z.mul_mod_distr_r _ 32 16) in * by lia;
      pose proof (Z.mod_pos_bound (Z.of_nat k) 32); lia|].
  destruct (dir_block_ok w ip r bp k d Hh Hr Hdv Hl Hfb) as (x & n & b & w1 & E1 & T & Hn & Ed & Ho1).
  destruct (cache_only_same _ _ Ho1) as (Eu & _ & _).
  set (w2 := scanned (16 * Z.of_nat (S k)) dent w1).
  assert (taken n x b w2) as T2 by (by eapply taken_bufs).
  assert (in_hand (i_addr r) (Some x) (S k) w2) as Hh2.
  { exists n, b. split; [done|]. rewrite Ed. split; [done|]. intros Hm. rewrite <- Hfb. f_equal.
    rewrite !(Z.mul_comm 16), (Z.mul_mod_distr_r _ 32 16) in Hm by lia. rewrite !(Z.mul_comm 16), !(Z.div_mul_cancel_r _ 32 16) by lia.
    pose proof (Z.div_mod (Z.of_nat (S k)) 32). pose proof (Z.mod_pos_bound (Z.of_nat (S k)) 32).
    apply Z.div_unique with (Z.of_nat (S k) mod 32 - 1); lia. }
  destruct (give_back _ _ _ _ Hh2) as (w3 & E3 & HC3 & Ho3). cbn [brelse_opt] in E3.
  assert (cache_only (scanned (16 * Z.of_nat (S k)) dent w) w2) as Hc2 by (by apply cache_only_scanned).
  assert (dir_step ip flag c (eo, bp) w =
    (if rdf d_ino dent =? 0 then Ret (inl (if eo =? 0 then 16 * Z.of_nat (S k) else eo, Some x)) w2
     else if bool_decide (u_dbuf (u w) = drop 2 dent) then Ret (inr DMatch) w3 else Ret (inl (eo, Some x)) w2)) as E.
  { unfold dir_step. erewrite bind_ret_eq by reflexivity. cbn beta. rewrite Ho.
    erewrite bind_ret_eq by (by apply ipf_ok). cbn beta. rewrite (proj2 (Z.leb_gt _ _)) by lia.
    erewrite bind_ret_eq by exact E1. cbn beta iota.
    erewrite bind_ret_eq by (by apply bf_ok, T). cbn beta.
    erewrite bind_ret_eq by reflexivity. cbn beta zeta. rewrite Eu, Ho, Ed.
    assert (sub (Z.to_nat (Z.land (16 * Z.of_nat k) BMASK)) sizeof_direct d = dent) as ->.
    { change BMASK with (Z.ones 9). rewrite Z.land_ones by lia. change (2 ^ 9) with 512. by rewrite Hd in Hsub. }
    erewrite (bind_ret_eq (uset u_dent dent)) by reflexivity. cbn beta.
    erewrite (bind_ret_eq (uset u_offset _) _ _ tt w2).
    2: { unfold w2, scanned, uset, umod, modify. change (Z.of_nat sizeof_direct) with 16. rewrite s32_id by lia.
         replace (16 * Z.of_nat k + 16) with (16 * Z.of_nat (S k)) by lia. by destruct w1 as [[] ? ?]. }
    cbn beta. destruct (rdf d_ino dent =? 0); [by erewrite bind_ret_eq by reflexivity|].
    erewrite bind_ret_eq by reflexivity. cbn beta.
    assert (u_dbuf (u w2) = u_dbuf (u w)) as -> by (unfold w2; cbn; by rewrite Eu).
    destruct (bool_decide _); [by erewrite bind_ret_eq by exact E3|done]. }
  destruct (Z.eqb_spec (rdf d_ino dent) 0).
  - exists x, w2. rewrite decide_True by done. done.
  - destruct (decide (u_dbuf (u w) = drop 2 dent)) as [Hn'|Hn'].
    + exists x, w3. rewrite decide_False by done. rewrite bool_decide_eq_true_2 in E by done.
      split; [by eapply cache_only_trans|done].
    + exists x, w2. rewrite decide_False by done. rewrite bool_decide_eq_false_2 in E by done. done.
Qed.

(** ** The whole search *)

(** The cases of the search from entry [k] on, with [eo] as found so far. *)
Definition end_of_free (eo : Z) (k : nat) (suf : list (list Z)) : Z :=
  if eo =? 0 then match free_entry suf with Some (i, _) => 16 * Z.of_nat (S (k + i)) | None => 0 end else eo.

Lemma end_of_free_next eo k d suf :
  end_of_free (if decide (rdf d_ino d = 0) then (if eo =? 0 then 16 * Z.of_nat (S k) else eo) else eo) (S k) suf =
  end_of_free eo k (d :: suf).
Proof using Type.
  unfold end_of_free, free_entry. cbn [list_find]. destruct (decide (rdf d_ino d = 0)) as [E|E].
  - destruct (Z.eqb_spec eo 0) as [Ee|Ee]; [|by rewrite (proj2 (Z.eqb_neq eo 0)) by done].
    rewrite (proj2 (Z.eqb_neq _ 0)) by lia. by rewrite Nat.add_0_r.
  - destruct (eo =? 0); [|done]. destruct (list_find _ suf) as [[i x]|]; [|done]. cbn. by rewrite Nat.add_succ_r.
Qed.

Lemma dir_loop_ok ip r flag c : forall suf n w eo bp k, (length suf < n)%nat ->
  in_hand (i_addr r) bp k w -> inodes (ks w) !! ip = Some r -> i_dev r = dev -> length (i_addr r) = 13%nat ->
  u_offset (u w) = 16 * Z.of_nat k -> i_size r = 16 * Z.of_nat (k + length suf) -> i_size r < 2147483648 ->
  (forall i d, suf !! i = Some d -> length d = 16%nat /\ spells C (i_addr r) (16 * Z.of_nat (k + i)) d) ->
  match entry_of (u_dbuf (u w)) suf with
  | Some (i, d) => exists w1, loop n (dir_step ip flag c) (eo, bp) w = Ret DMatch w1 /\ resident w1 /\
      cache_only (scanned (16 * Z.of_nat (S (k + i))) d w) w1
  | None => exists w1 dent, resident w1 /\ cache_only (scanned (i_size r) dent w) w1 /\
      loop n (dir_step ip flag c) (eo, bp) w = dir_end ip flag c (end_of_free eo k suf) w1
  end.
Proof using Hdev Hdp Hdf Hnd.
  induction suf as [|d suf IH]; intros [|n] w eo bp k Hn Hh Hr Hdv Hl Ho Hsz Hs Hsp; try (cbn in Hn; lia).
  - cbn [entry_of list_find length] in *. destruct (give_back _ _ _ _ Hh) as (w1 & E1 & HC1 & Ho1).
    exists w1, (u_dent (u w)). split; [done|]. split.
    { replace (scanned (i_size r) (u_dent (u w)) w) with w; [done|]. destruct w as [[] ? ?]. unfold scanned. cbn in *. rewrite Ho, Hsz.
      do 3 f_equal. lia. }
    unfold end_of_free. cbn [free_entry list_find]. replace (if eo =? 0 then 0 else eo) with eo by (destruct (Z.eqb_spec eo 0); congruence).
    rewrite loop_S. unfold dir_step. rewrite bind_assoc. erewrite bind_ret_eq by reflexivity. cbn beta. rewrite Ho.
    rewrite bind_assoc. erewrite bind_ret_eq by (by apply ipf_ok). cbn beta. rewrite (proj2 (Z.leb_le _ _)) by lia.
    rewrite bind_assoc. erewrite bind_ret_eq by exact E1. cbn beta. rewrite bind_assoc.
    unfold bind at 1. by destruct (dir_end ip flag c eo w1).
  - destruct (Hsp 0%nat d eq_refl) as [Hd Hspd]. rewrite Nat.add_0_r in Hspd. cbn [length] in *.
    destruct (dir_step_ok w ip r flag c eo bp k d Hh Hr Hdv Hl Ho) as (x & w1 & Ho1 & Hst); [lia|done..|].
    destruct (cache_only_same _ _ Ho1) as (Eu & Ei & _).
    assert (forall eo', loop (S n) (dir_step ip flag c) (eo, bp) w = loop n (dir_step ip flag c) (eo', Some x) w1 ->
      in_hand (i_addr r) (Some x) (S k) w1 -> end_of_free eo' (S k) suf = end_of_free eo k (d :: suf) ->
      ~ (rdf d_ino d <> 0 /\ u_dbuf (u w) = drop 2 d) ->
      match entry_of (u_dbuf (u w)) (d :: suf) with
      | Some (i, d) => exists w1, loop (S n) (dir_step ip flag c) (eo, bp) w = Ret DMatch w1 /\ resident w1 /\
          cache_only (scanned (16 * Z.of_nat (S (k + i))) d w) w1
      | None => exists w1 dent, resident w1 /\ cache_only (scanned (i_size r) dent w) w1 /\
          loop (S n) (dir_step ip flag c) (eo, bp) w = dir_end ip flag c (end_of_free eo k (d :: suf)) w1
      end) as Hgo.
    { intros eo' El Hh1 Eeo Hno. rewrite El, <- Eeo.
      specialize (IH n w1 eo' (Some x) (S k) ltac:(lia) Hh1 ltac:(by rewrite Ei) Hdv Hl ltac:(by rewrite Eu)
        ltac:(rewrite Hsz; lia) Hs). rewrite Eu in IH. change (u_dbuf (u (scanned _ _ w))) with (u_dbuf (u w)) in IH.
      unfold entry_of in *. cbn [list_find]. rewrite decide_False by done.
      destruct (list_find _ suf) as [[i e]|] eqn:Ef; cbn.
      - destruct IH as (w2 & E2 & HC2 & Ho2).
        { intros j z Hj. rewrite Nat.add_succ_l, <- Nat.add_succ_r. by apply Hsp. }
        exists w2. split; [done|]. split; [done|]. rewrite Nat.add_succ_r. eapply cache_only_trans; [|exact Ho2].
        erewrite <- (scanned_twice _ d _ e w). by apply cache_only_scanned.
      - destruct IH as (w2 & e & HC2 & Ho2 & E2).
        { intros j z Hj. rewrite Nat.add_succ_l, <- Nat.add_succ_r. by apply Hsp. }
        exists w2, e. split; [done|]. split; [|done]. eapply cache_only_trans; [|exact Ho2].
        erewrite <- (scanned_twice _ d _ e w). by apply cache_only_scanned. }
    destruct (decide (rdf d_ino d = 0)) as [Ez|Ez].
    + destruct Hst as [E1 Hh1]. eapply Hgo; [by erewrite loop_next by exact E1|done| |by intros [? _]].
      pose proof (end_of_free_next eo k d suf) as En. by rewrite decide_True in En by done.
    + destruct (decide (u_dbuf (u w) = drop 2 d)) as [En|En].
      * destruct Hst as [E1 HC1]. unfold entry_of. cbn [list_find]. rewrite decide_True by done.
        exists w1. rewrite Nat.add_0_r. split; [by apply loop_done|done].
      * destruct Hst as [E1 Hh1]. eapply Hgo; [by erewrite loop_next by exact E1|done| |by intros [_ ?]].
        pose proof (end_of_free_next eo k d suf) as Ee. by rewrite decide_False in Ee by done.
Qed.
End Search.

Section Whole.
Context {MC : Machine} (dev : Z) (dp : bptr) (hs : list bptr) (H : bptr -> list bptr) (C : gmap Z (list Z)).
Context (Hdev : on_dev dev dp) (Hdp : dp ∈ hs) (Hdf : dp <> Bfree) (Hnd : dev <> NODEV).

Lemma dir_search_ok w ip r dents flag c : resident dev dp hs H C w -> inodes (ks w) !! ip = Some r -> i_dev r = dev ->
  directory C r dents ->
  let w0 := w <| u ::= fun us => us <| u_segflg := 1 |> |> in
  match entry_of (u_dbuf (u w)) dents with
  | Some (k, d) => exists w1, dir_search ip flag c w = Ret DMatch w1 /\ resident dev dp hs H C w1 /\
      cache_only (scanned (16 * Z.of_nat (S k)) d w0) w1
  | None => exists w1 dent, resident dev dp hs H C w1 /\ cache_only (scanned (i_size r) dent w0) w1 /\
      dir_search ip flag c w = dir_end ip flag c (free_end dents) w1
  end.
Proof using Hdev Hdp Hdf Hnd.
  intros HC Hr Hdv [Hsz Hs Hl He] w0. set (w1 := w <| u ::= fun us => us <| u_offset := 0 |> <| u_segflg := 1 |> |>).
  assert (forall o d, scanned o d w1 = scanned o d w0) as Esc by (by intros; destruct w as [[] ? ?]).
  assert (dir_search ip flag c w =
    loop (S (S (length dents))) (dir_step ip flag c) (0, None) w1) as ->.
  { unfold dir_search. do 2 (erewrite bind_ret_eq by reflexivity; cbn beta). erewrite bind_ret_eq by (by apply ipf_ok). cbn beta.
    rewrite Hsz. change (Z.of_nat sizeof_direct) with 16. rewrite (Z.mul_comm 16), Z.div_mul by lia. by rewrite Nat2Z.id. }
  pose proof (dir_loop_ok dev dp hs H C Hdev Hdp Hdf Hnd ip r flag c dents (S (S (length dents))) w1 0 None 0) as Hgo.
  change (u_dbuf (u w1)) with (u_dbuf (u w)) in Hgo. change (end_of_free 0 0 dents) with (free_end dents) in Hgo.
  destruct (entry_of _ dents) as [[k d]|].
  - rewrite Esc in Hgo. apply Hgo; try done; [lia|]. split; [done|by eapply resident_bufs].
  - destruct Hgo as (w2 & dent & HC2 & Ho & E); try done; [lia|split; [done|by eapply resident_bufs]|].
    rewrite Esc in Ho. by exists w2, dent.
Qed.

(** The entry found is the first in use with the name. *)
Lemma entry_of_first name dents k d : entry_of name dents = Some (k, d) <->
  dents !! k = Some d /\ rdf d_ino d <> 0 /\ name = drop 2 d /\
  forall i e, (i < k)%nat -> dents !! i = Some e -> rdf d_ino e <> 0 -> name <> drop 2 e.
Proof using Type.
  unfold entry_of. rewrite list_find_Some. split.
  - intros (Hk & [H1 H2] & H3). split; [done|]. split; [done|]. split; [done|]. intros i e Hi He Hu Hn.
    eapply H3; [exact He|done|]. by split.
  - intros (Hk & H1 & H2 & H3). split; [done|]. split; [done|]. intros i e He Hi [Hu Hn]. by eapply H3.
Qed.
End Whole.

(** C15. A directory whose blocks are at rest in the cache is searched in the
    order of its entries: the first one in use with the name wanted is left
    in [u_dent], with [u_offset] past it.  If there is none, a lookup fails
    with ENOENT, and a creation — by the super-user or with permission to
    write the directory — is left [u_offset] at the first free entry or else
    at the end, in [u_pdir] the directory, marked changed if it is to grow.
    The cache is at rest again and nothing else is changed. *)
Theorem dir_search_correct (MC : Machine) (dev : Z) (dp : bptr) (hs : list bptr) (H : bptr -> list bptr)
    (C : gmap Z (list Z)) (w : world) (ip : nat) (r : inode) (dents : list (list Z)) (flag c : Z) :
  on_dev dev dp -> dp ∈ hs -> dp <> Bfree -> dev <> NODEV -> resident dev dp hs H C w ->
  inodes (ks w) !! ip = Some r -> i_dev r = dev -> directory C r dents ->
  let w0 := w <| u ::= fun us => us <| u_segflg := 1 |> |> in
  (forall k d, dents !! k = Some d -> rdf d_ino d <> 0 -> u_dbuf (u w) = drop 2 d ->
    (forall i e, (i < k)%nat -> dents !! i = Some e -> rdf d_ino e <> 0 -> u_dbuf (u w) <> drop 2 e) ->
    exists w1, dir_search ip flag c w = Ret DMatch w1 /\ resident dev dp hs H C w1 /\
      cache_only (scanned (16 * Z.of_nat (S k)) d w0) w1) /\
  ((forall k d, dents !! k = Some d -> rdf d_ino d <> 0 -> u_dbuf (u w) <> drop 2 d) ->
    exists w1 dent, resident dev dp hs H C w1 /\ cache_only (scanned (i_size r) dent w0) w1 /\
    if (flag =? 1) && (c =? 0) then
      forall denied w2 r2, access ip IWRITE w1 = Ret denied w2 -> inodes (ks w2) !! ip = Some r2 ->
      dir_search ip flag c w =
        (if denied then Ret DOut w2
         else match free_entry dents with
              | Some (k, _) => Ret (DRet None) (w2 <| u ::= fun us => us <| u_pdir := ip |> <| u_offset := 16 * Z.of_nat k |> |>)
              | None => Ret (DRet None) (with_inode ip (r2 <| i_flag := s8 (Z.lor (i_flag r2) (Z.lor IUPD ICHG)) |>)
                                           (w2 <| u ::= fun us => us <| u_pdir := ip |> |>))
              end)
    else dir_search ip flag c w = Ret DOut (w1 <| u ::= fun us => us <| u_error := ENOENT |> |>)).
Proof.
  intros Hdev Hdp Hdf Hnd HC Hr Hdv Hdir w0.
  pose proof (dir_search_ok dev dp hs H C Hdev Hdp Hdf Hnd w ip r dents flag c HC Hr Hdv Hdir) as Hs. cbv zeta in Hs. fold w0 in Hs.
  split.
  - intros k d Hk H1 H2 H3. by rewrite (proj2 (entry_of_first _ dents k d)) in Hs.
  - intros Hno. assert (entry_of (u_dbuf (u w)) dents = None) as En.
    { apply list_find_None, Forall_lookup. intros i e He [Hu Hn]. by eapply Hno. }
    rewrite En in Hs. destruct Hs as (w1 & dent & HC1 & Ho & E). exists w1, dent. split; [done|]. split; [done|].
    rewrite E. unfold dir_end. destruct ((flag =? 1) && (c =? 0)); [|done]. intros denied w2 r2 Ea Hr2.
    erewrite bind_ret_eq by exact Ea. cbn beta. destruct denied; [done|]. erewrite bind_ret_eq by reflexivity. cbn beta.
    unfold free_end. destruct (free_entry dents) as [[k d]|].
    + unfold tst. rewrite (proj2 (Z.eqb_neq _ 0)) by lia. cbn [negb]. erewrite bind_ret_eq by reflexivity.
      change (Z.of_nat sizeof_direct) with 16. replace (16 * Z.of_nat (S k) - 16) with (16 * Z.of_nat k) by lia.
      by destruct w2 as [[] ? ?].
    + set (w3 := w2 <| u ::= fun us => us <| u_pdir := ip |> |>).
      assert (inodes (ks w3) !! ip = Some r2) as Hr3 by done. change (tst 0) with false. cbn match.
      match goal with |- context [bind (ior ?i ?m) ?k ?v = _] => change v with w3 end.
      erewrite (bind_ret_eq _ _ w3 tt); [reflexivity|]. unfold ior. erewrite bind_ret_eq by (by apply ipf_ok). by apply ipset_with.
Qed.

(** A directory of three entries in block 7, the second one free. *)
Definition dent (ino : Z) (name : list Z) : list Z := bytes_of 2 ino ++ take 14 (name ++ replicate 14 0).
Definition home_dents : list (list Z) := [dent 2 [46]; dent 0 [120]; dent 30 [104; 105]].
Definition home_block : list Z := splice 0 (concat home_dents) (replicate 512 0).
Definition home_blocks : gmap Z (list Z) := {[ 7 := home_block ]}.
Definition home_inode : inode :=
  inode0 <| i_mode := IFDIR |> <| i_size := 48 |> <| i_addr := [7; 0; 0; 0; 0; 0; 0; 0; 0; 0; 0; 0; 0] |>.
Definition home_world (name : list Z) : world :=
  setb (world0 <| u ::= fun us => us <| u_dbuf := name |> |> <| ks ::= fun k => k <| inodes := [home_inode] |> |>)
    (alter (fun b => b <| b_data := home_block |>) (Buf 1) idle_cache).

Lemma home_resident name : resident 0 (Dtab 0) two_heads two_bufs home_blocks (home_world name).
Proof.
  constructor.
  - exists [Buf 1; Buf 0]. change (bufs (ks (home_world name))) with (alter (fun b => b <| b_data := home_block |>) (Buf 1) idle_cache).
    small_cache.
  - eexists. by split.
  - eexists. by split.
  - intros n d Hn. unfold home_blocks in Hn. apply lookup_singleton_Some in Hn as [<- <-].
    exists (Buf 1). eexists. split; [right; left|]. by split.
Qed.

Lemma home_directory : directory home_blocks home_inode home_dents.
Proof.
  constructor; [done..|]. intros k d Hk. split.
  - destruct k as [|[|[|k]]]; [..|done]; by injection Hk as <-.
  - intros i x Hi. assert (i < 16)%nat as Hl.
    { apply lookup_lt_Some in Hi. destruct k as [|[|[|k]]]; [..|done]; injection Hk as <-; exact Hi. }
    revert Hi. do 16 (destruct i as [|i]; [destruct k as [|[|[|k]]]; [..|done]; injection Hk as <-; intros [= <-]; reflexivity|]). lia.
Qed.

Lemma dir_search_correct_witness :
  let w := home_world (take 14 ([104; 105] ++ replicate 14 0)) in
  exists w1, @dir_search disk_machine 0 0 0 w = Ret DMatch w1 /\ u_offset (u w1) = 48 /\ u_dent (u w1) = dent 30 [104; 105].
Proof.
  intros w. destruct (dir_search_correct disk_machine 0 (Dtab 0) two_heads two_bufs home_blocks w 0 home_inode home_dents 0 0)
    as [Hf _].
  - split; [done|]. by eexists.
  - right. left.
  - done.
  - done.
  - apply home_resident.
  - done.
  - done.
  - exact home_directory.
  - destruct (Hf 2%nat (dent 30 [104; 105])) as (w1 & E & _ & Ho).
    + done.
    + vm_compute. discriminate.
    + done.
    + intros [|[|i]] e Hi He Hu; [..|lia]; injection He as <-; [vm_compute; discriminate|]. by vm_compute in Hu.
    + exists w1. split; [exact E|]. by rewrite (proj1 Ho).
Defined.
