(* ===== verification/Paths.v ===== *)
(** * Paths: from a path name to an inode

    [namei] over the search of [Dirs], the inode table of [Iget] and the cache:
    in a quiet table it resolves a path as a walk through the directories
    does, holds nothing of the way and only the inode it ends at. *)

From S2P Require Import Prelude Bytes State Utab Sched Bio Cache Alloc Inode Rdwri Blocks Files Writes Iget Nami Dirs.

(** ** What a lookup may change *)

(** The arguments of [namei] in the user structure, the inode table and the
    cache. *)
Definition visited (w w' : world) : Prop :=
  w' = w <| u ::= fun r => r <| u_dbuf := u_dbuf (u w') |> <| u_dirp := u_dirp (u w') |> <| u_dent := u_dent (u w') |>
                             <| u_offset := u_offset (u w') |> <| u_segflg := u_segflg (u w') |> <| u_error := u_error (u w') |> |>
         <| ks ::= fun k => k <| inodes := inodes (ks w') |> <| bufs := bufs (ks w') |> <| io_info := io_info (ks w') |>
                             <| rablock := rablock (ks w') |> <| pl := pl (ks w') |> |>.

Lemma visited_refl w : visited w w.
Proof. unfold visited. by destruct w as [[] [] ?]. Qed.
Lemma visited_trans w1 w2 w3 : visited w1 w2 -> visited w2 w3 -> visited w1 w3.
Proof. unfold visited. intros E1 E2. rewrite E2 at 1. rewrite E1. by destruct w1 as [[] [] ?]. Qed.
Lemma visited_cache w w' : cache_only w w' -> visited w w'.
Proof. intros [E _]. unfold visited, cache_frame in *. rewrite E. by destruct w as [[] [] ?]. Qed.
Lemma visited_inode w ip r : visited w (with_inode ip r w).
Proof. unfold visited, with_inode. by destruct w as [[] [] ?]. Qed.

Definition at_char (p : Z) (w : world) : world := w <| u ::= fun r => r <| u_dirp := p |> |>.
Definition named (b : list Z) (w : world) : world := w <| u ::= fun r => r <| u_dbuf := b |> |>.
Definition failed (e : Z) (w : world) : world := w <| u ::= fun r => r <| u_error := e |> |>.
Lemma visited_char w p : visited w (at_char p w).
Proof. unfold visited. by destruct w as [[] [] ?]. Qed.
Lemma visited_named w b : visited w (named b w).
Proof. unfold visited. by destruct w as [[] [] ?]. Qed.
Lemma visited_failed w e : visited w (failed e w).
Proof. unfold visited. by destruct w as [[] [] ?]. Qed.
Lemma visited_scanned w o d : visited w (scanned o d (w <| u ::= fun us => us <| u_segflg := 1 |> |>)).
Proof. unfold visited. by destruct w as [[] [] ?]. Qed.
Create HintDb visited.
#[export] Hint Resolve visited_refl visited_cache visited_inode visited_char visited_named visited_failed visited_scanned : visited.

(** What it does not change. *)
Lemma visited_same w w' : visited w w' ->
  upt (ks w') = upt (ks w) /\ pmem (ks w') = pmem (ks w) /\ mpxip (ks w') = mpxip (ks w) /\ mounts (ks w') = mounts (ks w) /\
  u_uid (u w') = u_uid (u w) /\ u_gid (u w') = u_gid (u w) /\ env w' = env w.
Proof. unfold visited. by intros ->. Qed.

(** ** The characters of a path *)

(** [func] gives the characters [s], the first with [u_dirp] at [base]. *)
Definition reads {MC : Machine} (func : KM Z) (base : Z) (s : list Z) (w : world) : Prop :=
  forall w' i c, visited w w' -> s !! i = Some c -> u_dirp (u w') = base + Z.of_nat i ->
    func w' = Ret c (at_char (base + Z.of_nat i + 1) w').

(** A path spelled: names, with slashes between them and perhaps after. *)
Definition plain (c : Z) : Prop := 0 < c < 256 /\ c <> SLASH.
Inductive spelled : list (list Z) -> list Z -> Prop :=
| sp_end : spelled [] [0]
| sp_name n names k s : n <> [] -> Forall plain n -> spelled names s -> (k = 0%nat -> names = []) ->
    spelled (n :: names) (n ++ replicate k SLASH ++ s).

(** The name as entries have it. *)
Definition padded (n : list Z) : list Z := take DIRSIZ n ++ replicate (DIRSIZ - length n) 0.

Section Chars.
Context {MC : Machine} (func : KM Z) (base : Z) (s : list Z).

Lemma reads_visited w w' : reads func base s w -> visited w w' -> reads func base s w'.
Proof using Type. intros Hr Hv w2 i c Hv2. apply Hr. by eapply visited_trans. Qed.

(** The user's memory from [base] on. *)
Lemma uchar_reads w : may_load (ks w) base s -> reads uchar base s w.
Proof using Type.
  intros [Hlo Hhi Hb Ht] w' i c Hv Hi Hp. destruct (visited_same _ _ Hv) as (Et & Em & _).
  unfold uchar. erewrite bind_ret_eq by reflexivity. cbn beta. rewrite Hp. erewrite bind_ret_eq by reflexivity. cbn beta.
  pose proof (lookup_lt_Some _ _ _ Hi) as Hl. rewrite Forall_lookup in Hb. specialize (Hb i c Hi). cbn in Hb.
  set (w2 := w' <| u ::= setf u_dirp (fun _ => base + Z.of_nat i + 1) |>).
  erewrite (bind_ret_eq (fubyte _) _ _ c w2).
  - cbn beta. rewrite (proj2 (Z.eqb_neq c (-1))) by lia. cbn [when]. by erewrite bind_ret_eq by reflexivity.
  - unfold fubyte. erewrite bind_ret_eq by reflexivity. cbn beta. unfold ureach.
    rewrite (proj2 (Z.leb_le 0 _)), (proj2 (Z.leb_le _ USTK)), (proj2 (Z.leb_le 1 _)) by lia. cbn [andb].
    assert (ubyte (ks w2) (base + Z.of_nat i) = Some c) as ->; [|done].
    rewrite <- (Ht i c Hi). unfold ubyte, uphys. change (ks w2) with (ks w'). by rewrite Et, Em.
Qed.

(** A string of the kernel. *)
Lemma schar_reads w : Forall (fun c => 0 <= c < 256) s -> base = 0 -> reads (schar s) base s w.
Proof using Type.
  intros Hb -> w' i c Hv Hi Hp. unfold schar. erewrite bind_ret_eq by reflexivity. cbn beta. rewrite Hp.
  erewrite bind_ret_eq by reflexivity. cbn beta. rewrite Z.add_0_l, Nat2Z.id, Hi. erewrite bind_ret_eq by reflexivity.
  rewrite Forall_lookup in Hb. specialize (Hb i c Hi). cbn in Hb. unfold ret. f_equal.
  change 255 with (Z.ones 8). rewrite Z.land_ones by lia. by apply Z.mod_small.
Qed.

Lemma func_ok w i c : reads func base s w -> s !! i = Some c -> u_dirp (u w) = base + Z.of_nat i ->
  func w = Ret c (at_char (base + Z.of_nat (S i)) w).
Proof using Type.
  intros Hr Hi Hp. rewrite (Hr w i c (visited_refl w) Hi Hp). do 2 f_equal. lia.
Qed.

Lemma at_char_twice p q w : at_char p (at_char q w) = at_char p w.
Proof using Type. by destruct w as [[] ? ?]. Qed.

(** Slashes. *)
Lemma slashes_ok : forall k n w i c, (k < n)%nat -> reads func base s w ->
  (forall j, (j < k)%nat -> s !! (i + j)%nat = Some SLASH) -> s !! (i + k)%nat = Some c -> c <> SLASH ->
  u_dirp (u w) = base + Z.of_nat (S i) ->
  loop n (fun c => if c =? SLASH then c <- func ;; ret (inl c) else ret (inr c)) (if Nat.eqb k 0 then c else SLASH) w =
  Ret c (at_char (base + Z.of_nat (S (i + k))) w).
Proof using Type.
  induction k as [|k IH]; intros [|n] w i c Hn Hr Hs Hc Hne Hp; try lia; cbn [Nat.eqb].
  - rewrite Nat.add_0_r in *. rewrite (loop_done _ _ _ c w w) by (by rewrite (proj2 (Z.eqb_neq c SLASH)) by done).
    f_equal. rewrite <- Hp. by destruct w as [[] ? ?].
  - assert (s !! S i = Some (if Nat.eqb k 0 then c else SLASH)) as Hnx.
    { destruct k; cbn [Nat.eqb]; [by rewrite Nat.add_1_r in Hc|]. rewrite <- (Nat.add_1_r i). apply Hs. lia. }
    erewrite loop_next.
    2: { rewrite Z.eqb_refl. erewrite bind_ret_eq by (by apply func_ok). reflexivity. }
    rewrite (IH n _ (S i)).
    + rewrite at_char_twice. do 2 f_equal. lia.
    + lia.
    + eapply reads_visited; [done|]. apply visited_char.
    + intros j Hj. rewrite Nat.add_succ_l, <- Nat.add_succ_r. apply Hs. lia.
    + by rewrite Nat.add_succ_l, <- Nat.add_succ_r.
    + done.
    + done.
Qed.
(** One character of a name. *)
Definition gather_char (x : nat * Z) : KM (nat * Z + nat * Z) :=
  let '(cp, c) := x in
  err <- uf u_error ;;
  if negb (c =? SLASH) && negb (c =? 0) && (err =? 0) then
    if bool_decide (is_Some (None : option nat)) && (c =? BANG) then ret (inr (cp, c))
    else
      when (Nat.ltb cp DIRSIZ) (umod (fun r => r <| u_dbuf ::= <[cp := u8 c]> |>)) ;;;
      let cp := if Nat.ltb cp DIRSIZ then S cp else cp in
      c <- func ;;
      ret (inl (cp, c))
  else ret (inr (cp, c)).

Lemma gather_char_ok w i cp c c' : reads func base s w -> plain c -> s !! S i = Some c' ->
  u_dirp (u w) = base + Z.of_nat (S i) -> u_error (u w) = 0 -> length (u_dbuf (u w)) = DIRSIZ -> (cp <= DIRSIZ)%nat ->
  exists b, gather_char (cp, c) w = Ret (inl (Nat.min DIRSIZ (S cp), c')) (at_char (base + Z.of_nat (S (S i))) (named b w)) /\
    length b = DIRSIZ /\ take (Nat.min DIRSIZ (S cp)) b = take cp (u_dbuf (u w)) ++ take (DIRSIZ - cp) [c].
Proof using Type.
  intros Hr [Hc Hsl] Hi Hp He Hb Hcp. set (b := if Nat.ltb cp DIRSIZ then <[cp := u8 c]> (u_dbuf (u w)) else u_dbuf (u w)).
  exists b. assert (when (Nat.ltb cp DIRSIZ) (umod (fun r => r <| u_dbuf ::= <[cp := u8 c]> |>)) w = Ret tt (named b w)) as E1
    by (unfold b; destruct (Nat.ltb _ _); [by destruct w as [[] ? ?]|]; unfold named; by destruct w as [[] ? ?]).
  split.
  - unfold gather_char. erewrite bind_ret_eq by reflexivity. cbn beta.
    rewrite He, (proj2 (Z.eqb_neq c SLASH)), (proj2 (Z.eqb_neq c 0)) by (done || lia). cbn [negb andb Z.eqb].
    rewrite bool_decide_eq_false_2 by (by intros []). cbn [andb]. erewrite bind_ret_eq by exact E1. cbn beta zeta.
    erewrite bind_ret_eq.
    2: { apply func_ok; [eapply reads_visited; [exact Hr|apply visited_named]|exact Hi|exact Hp]. }
    unfold ret. do 3 f_equal. destruct (Nat.ltb_spec cp DIRSIZ); lia.
  - unfold b. destruct (Nat.ltb_spec cp DIRSIZ).
    + rewrite length_insert. split; [done|]. rewrite Nat.min_r by lia. destruct (DIRSIZ - cp)%nat eqn:Ed; [lia|].
      cbn [take]. rewrite firstn_nil, u8_id by lia.
      rewrite (take_S_r _ _ c) by (apply list_lookup_insert_eq; lia). by rewrite take_insert_ge by lia.
    + split; [done|]. replace cp with DIRSIZ by lia. rewrite Nat.sub_diag, Nat.min_l by lia. by rewrite app_nil_r.
Qed.

(** All the characters of a name. *)
Lemma gather_loop t : (t = SLASH \/ t = 0) -> forall l n cp w i c, (S (length l) < n)%nat -> reads func base s w ->
  Forall plain (c :: l) -> (forall j x, (l ++ [t]) !! j = Some x -> s !! (S i + j)%nat = Some x) ->
  u_dirp (u w) = base + Z.of_nat (S i) -> u_error (u w) = 0 -> length (u_dbuf (u w)) = DIRSIZ -> (cp <= DIRSIZ)%nat ->
  exists b, loop n gather_char (cp, c) w =
      Ret (Nat.min DIRSIZ (cp + S (length l)), t) (at_char (base + Z.of_nat (S (S i + length l))) (named b w)) /\
    take (Nat.min DIRSIZ (cp + S (length l))) b = take cp (u_dbuf (u w)) ++ take (DIRSIZ - cp) (c :: l).
Proof using Type.
  intros Ht. induction l as [|c' l IH]; intros [|n] cp w i c Hn Hr Hpl Hl Hp He Hb Hcp; try (cbn in Hn; lia);
    apply Forall_cons in Hpl as [Hc Hpl].
  - destruct (gather_char_ok w i cp c t Hr Hc) as (b & E & _ & Hb1); [rewrite <- (Nat.add_0_r (S i)); by apply Hl|done..|].
    exists b. erewrite loop_next by exact E. cbn [length]. rewrite Nat.add_0_r, Nat.add_1_r. split; [|done].
    destruct n as [|n]; [cbn in Hn; lia|]. apply loop_done. unfold gather_char. erewrite bind_ret_eq by reflexivity. cbn beta.
    by destruct Ht as [-> | ->].
  - destruct (gather_char_ok w i cp c c' Hr Hc) as (b & E & Hlb & Hb1); [rewrite <- (Nat.add_0_r (S i)); by apply Hl|done..|].
    erewrite loop_next by exact E. set (w1 := at_char _ _).
    assert (visited w w1) as Hv by (eapply visited_trans; [apply visited_named|apply visited_char]).
    destruct (IH n (Nat.min DIRSIZ (S cp)) w1 (S i) c') as (b2 & E2 & Hb2); try done.
    + cbn in Hn. lia.
    + intros j x Hj. rewrite Nat.add_succ_l, <- Nat.add_succ_r. by apply Hl.
    + lia.
    + exists b2. rewrite E2. cbn [length]. replace (Nat.min DIRSIZ (cp + S (S (length l)))) with
        (Nat.min DIRSIZ (Nat.min DIRSIZ (S cp) + S (length l))) by lia. split.
      * f_equal. unfold w1, at_char, named. cbn. destruct w as [[] ? ?]. cbn. do 3 f_equal. lia.
      * rewrite Hb2. change (u_dbuf (u w1)) with b. rewrite Hb1, <- app_assoc. f_equal.
        destruct (Nat.lt_ge_cases cp DIRSIZ).
        -- rewrite Nat.min_r by lia. replace (DIRSIZ - cp)%nat with (S (DIRSIZ - S cp)) by lia. cbn [take]. by rewrite firstn_nil.
        -- rewrite Nat.min_l by lia. replace cp with DIRSIZ by lia. by rewrite Nat.sub_diag.
Qed.

Lemma clear_rest b v cp p w : take cp b ++ replicate (DIRSIZ - cp) 0 = v ->
  umod (fun r => r <| u_dbuf ::= fun b => take cp b ++ replicate (DIRSIZ - cp) 0 |>) (at_char p (named b w)) =
  Ret tt (named v (at_char p (named b w))).
Proof using Type. intros <-. by destruct w as [[] ? ?]. Qed.

(** A name, then slashes or the end of the path, and the character after
    them. *)
Lemma name_ok w i n k c0 c : reads func base s w -> (Z.of_nat (length s) <= USTK) -> n <> [] -> Forall plain n ->
  (k <> 0%nat -> c <> SLASH) -> (k = 0%nat -> c = 0) ->
  (forall j x, (n ++ replicate k SLASH ++ [c]) !! j = Some x -> s !! (i + j)%nat = Some x) ->
  u_dirp (u w) = base + Z.of_nat (S i) -> u_error (u w) = 0 -> length (u_dbuf (u w)) = DIRSIZ -> mpxip (ks w) = None ->
  n !! 0%nat = Some c0 ->
  (x <- gather func c0 ;; skip_slashes func x) w =
    Ret c (at_char (base + Z.of_nat (S (i + length n + k))) (named (padded n) w)).
Proof using Type.
  intros Hr Hs Hn Hpl Hk Hk0 Hl Hp He Hb Hm Ht. destruct n as [|c1 n]; [done|]. injection Ht as ->.
  set (t := if Nat.eqb k 0 then c else SLASH).
  assert ((n ++ [t]) `prefix_of` (n ++ replicate k SLASH ++ [c])) as [post Hpre].
  { unfold t. destruct k; [exists []; by rewrite app_nil_r|]. exists (replicate k SLASH ++ [c]). cbn. by rewrite <- app_assoc. }
  assert (forall j x, (t :: post) !! j = Some x -> s !! (S i + length n + j)%nat = Some x) as Hl2.
  { intros j x Hj. replace (S i + length n + j)%nat with (i + S (length n + j))%nat by lia. apply Hl.
    cbn [app]. rewrite lookup_cons_ne_0 by done. cbn [Nat.pred]. rewrite Hpre, <- app_assoc. cbn [app].
    rewrite lookup_app_r by lia. by replace (length n + j - length n)%nat with j by lia. }
  assert (S i + length n < length s)%nat as Hls.
  { rewrite <- (Nat.add_0_r (S i + length n)). eapply lookup_lt_Some. by apply (Hl2 0%nat). }
  assert (S (S (length s)) <= NAMELEN)%nat as HN by (unfold NAMELEN; lia).
  unfold gather, skip_slashes. generalize dependent NAMELEN. intros N HN.
  destruct (gather_loop t) with (l := n) (n := N) (cp := 0%nat) (w := w) (i := i) (c := c0) as (b & E & Hbt);
    [unfold t; destruct (Nat.eqb_spec k 0); [right; by apply Hk0|by left]|lia|done|done| |done|done|done|lia|].
  { intros j x Hj. replace (S i + j)%nat with (i + S j)%nat by lia. apply Hl. cbn [app].
    rewrite lookup_cons_ne_0 by done. cbn [Nat.pred]. rewrite Hpre. by apply lookup_app_l_Some. }
  rewrite bind_assoc. erewrite (bind_ret_eq (kf mpxip)) by reflexivity. cbn beta. rewrite Hm, bind_assoc.
  erewrite bind_ret_eq by exact E. cbn beta iota. rewrite bind_assoc. set (w1 := at_char _ _).
  set (w2 := named (padded (c0 :: n)) w1).
  erewrite (bind_ret_eq (umod _) _ _ tt w2).
  2: { cbn [Nat.add take app] in Hbt. rewrite Nat.sub_0_r in Hbt.
       assert (take (Nat.min DIRSIZ (0 + S (length n))) b ++ replicate (DIRSIZ - Nat.min DIRSIZ (0 + S (length n))) 0 =
         padded (c0 :: n)) as Eb.
       { cbn [Nat.add]. rewrite Hbt. unfold padded. cbn [length]. do 2 f_equal. lia. }
       by apply clear_rest. }
  cbn beta. erewrite bind_ret_eq by reflexivity. cbn beta.
  assert (forall j x, (replicate k SLASH ++ [c]) !! j = Some x -> s !! (S i + length n + j)%nat = Some x) as Hl3.
  { intros j x Hj. replace (S i + length n + j)%nat with (i + (length (c0 :: n) + j))%nat by (cbn; lia). apply Hl.
    rewrite lookup_app_r by lia. by replace (length (c0 :: n) + j - length (c0 :: n))%nat with j by lia. }
  assert (k < length s)%nat as Hks.
  { assert (S i + length n + k < length s)%nat; [|lia]. eapply lookup_lt_Some. apply (Hl3 k c).
    rewrite lookup_app_r by (by rewrite length_replicate). by rewrite length_replicate, Nat.sub_diag. }
  unfold t at 1. rewrite (slashes_ok k N w2 (S i + length n) c); [|lia| | | | |done].
  - f_equal. unfold w2, w1. destruct w as [[] ? ?]. unfold at_char, named. cbn. do 3 f_equal. lia.
  - eapply reads_visited; [exact Hr|]. eapply visited_trans; [apply (visited_named w b)|]. eapply visited_trans; [apply visited_char|apply visited_named].
  - intros j Hj. apply Hl3. rewrite lookup_app_l by (by rewrite length_replicate). by apply lookup_replicate_2.
  - apply Hl3. rewrite lookup_app_r by (by rewrite length_replicate). by rewrite length_replicate, Nat.sub_diag.
  - destruct (decide (k = 0%nat)) as [Ek|Ek]; [rewrite (Hk0 Ek); done|by apply Hk].
Qed.
End Chars.

(** ** The inode table at rest *)

Definition free_slot (r : inode) : Prop := i_count r = 0 /\ i_number r = 0.
(** Held, but by nobody at work: not locked, wanted or mounted on. *)
Record settled (r : inode) : Prop := {
  se_count : 1 <= i_count r < 127; se_flag : -128 <= i_flag r < 128;
  se_idle : Z.land (i_flag r) (Z.lor (Z.lor ILOCK IWANT) IMOUNT) = 0
}.
Record quiet (T : list inode) : Prop := {
  qu_distinct : distinct T; qu_each : forall ip r, T !! ip = Some r -> free_slot r \/ settled r;
  qu_room : exists ip r, T !! ip = Some r /\ free_slot r
}.
(** The same entries in use. *)
Definition like (T0 T : list inode) : Prop := Forall2 (fun r0 r => r = r0 \/ free_slot r0 /\ free_slot r) T0 T.

Lemma like_refl T : like T T.
Proof. apply Forall2_same_length_lookup_2; [done|]. intros i x y Hx Hy. left. congruence. Qed.

Lemma settled_bits r m : settled r -> Z.land (Z.lor (Z.lor ILOCK IWANT) IMOUNT) m = m -> i_flag r &? m = false.
Proof.
  intros [_ _ Hf] Hm. apply tst_false. rewrite <- Hm, Z.land_assoc, Hf. apply Z.land_0_l.
Qed.

Lemma like_lookup T0 T ip r0 : like T0 T -> T0 !! ip = Some r0 ->
  exists r, T !! ip = Some r /\ (r = r0 \/ free_slot r0 /\ free_slot r).
Proof. intros Hl Hr. destruct (Forall2_lookup_l _ _ _ _ _ Hl Hr) as (r & E & Hr'). by exists r. Qed.

Lemma like_find T0 T dv ino : like T0 T -> ino <> 0 ->
  list_find (is_inode dv ino) T = list_find (is_inode dv ino) T0.
Proof.
  intros Hl Hi. induction Hl as [|r0 r T0 T Hr _ IH]; [done|]. cbn [list_find].
  assert (is_inode dv ino r <-> is_inode dv ino r0) as Heq.
  { destruct Hr as [->|[[_ H0] [_ H1]]]; [done|]. unfold is_inode. rewrite H0, H1. split; intros [? _]; done. }
  destruct (decide (is_inode dv ino r)) as [Hd|Hd], (decide (is_inode dv ino r0)) as [Hd0|Hd0]; try tauto; [|by rewrite IH].
  destruct Hr as [->|[[_ H0] _]]; [done|]. by destruct Hd0 as [E _]; rewrite H0 in E.
Qed.

Lemma like_idle T0 T : like T0 T -> fst <$> list_find idle T = fst <$> list_find idle T0.
Proof.
  intros Hl. induction Hl as [|r0 r T0 T Hr _ IH]; [done|]. cbn [list_find].
  assert (idle r <-> idle r0) as Heq by (destruct Hr as [->|[[H0 _] [H1 _]]]; unfold idle; [done|lia]).
  destruct (decide (idle r)), (decide (idle r0)); try tauto; try done.
  destruct (list_find idle T) as [[]|], (list_find idle T0) as [[]|]; cbn in *; congruence.
Qed.

Lemma like_insert T0 T ip r0 r : like T0 T -> T0 !! ip = Some r0 -> r = r0 \/ free_slot r0 /\ free_slot r ->
  like T0 (<[ip := r]> T).
Proof.
  intros Hl H0 Hr. rewrite <- (list_insert_id T0 ip r0) by done. by apply Forall2_insert.
Qed.

(** Letting go of a held entry. *)
Lemma lock_flag f : -128 <= f < 128 -> f &? ILOCK = false -> s8 (clr (s8 (Z.lor f ILOCK)) ILOCK) = f /\
  forall m, Z.land m ILOCK = 0 -> s8 (Z.lor f ILOCK) &? m = f &? m.
Proof.
  intros Hf Hl. pose proof (Z.add_lor_land f ILOCK) as E. rewrite (proj1 (tst_false _) Hl), Z.add_0_r in E. change ILOCK with 1 in E at 2.
  assert (exists q, f = 2 * q) as [q ->].
  { exists (f / 2). pose proof (Z.div_mod f 2 ltac:(lia)). apply tst_false in Hl. change ILOCK with (Z.ones 1) in Hl.
    rewrite Z.land_ones in Hl by lia. change (2 ^ 1) with 2 in Hl. lia. }
  split.
  - rewrite E, (s8_id (2 * q + 1)) by lia. unfold clr. change (Z.lnot ILOCK) with (-2).
    assert (Z.land (2 * q + 1) (-2) = 2 * q) as ->; [|by apply s8_id].
    change (-2) with (Z.lnot (Z.ones 1)). rewrite <- Z.ldiff_land, Z.ldiff_ones_r by lia. rewrite Z.shiftr_div_pow2, Z.shiftl_mul_pow2 by lia.
    change (2 ^ 1) with 2. rewrite (Z.mul_comm 2), Z.div_add_l by lia. change (1 / 2) with 0. lia.
  - intros m Hm. rewrite E, s8_id, <- E by lia. by rewrite lor_keep by (by rewrite Z.land_comm).
Qed.

(** What [iget] gives for an inode in a quiet table: its entry held, or one
    filled from the disk. *)
Definition from_disk (dev ino : Z) (d : list Z) : inode := iexpand (itoo ino) d (fresh dev ino inode0).
Lemma fresh_slot dev ino d r : free_slot r -> iexpand (itoo ino) d (fresh dev ino r) = from_disk dev ino d.
Proof. intros [Hc _]. unfold from_disk, fresh, iexpand. destruct r. cbn in *. by rewrite Hc. Qed.

Definition opened (dev : Z) (C : gmap Z (list Z)) (T : list inode) (ino : Z) : option inode :=
  match list_find (is_inode dev ino) T with
  | Some (_, r) => Some (held r)
  | None => from_disk dev ino <$> C !! itod ino
  end.
(** The world in which just that is held. *)
Record holds (dev : Z) (C : gmap Z (list Z)) (T0 : list inode) (ino : Z) (ip : nat) (r : inode) (w : world) : Prop := {
  ho_opened : opened dev C T0 ino = Some r; ho_entry : inodes (ks w) !! ip = Some r; ho_number : is_inode dev ino r; ho_nonzero : ino <> 0;
  ho_rest : exists T, like T0 T /\ inodes (ks w) = <[ip := r]> T;
  ho_slot : match list_find (is_inode dev ino) T0 with Some (i, _) => i = ip | None => exists r0, T0 !! ip = Some r0 /\ free_slot r0 end
}.

Section Table.
Context {MC : Machine} (dev : Z) (dp : bptr) (hs : list bptr) (H : bptr -> list bptr) (C : gmap Z (list Z)).
Context (Hdev : on_dev dev dp) (Hdp : dp ∈ hs) (Hdf : dp <> Bfree) (Hnd : dev <> NODEV).
Context (T0 : list inode) (Hq : quiet T0).

Abbreviation resident := (resident dev dp hs H C).
Abbreviation holds := (holds dev C T0).
Abbreviation opened := (opened dev C T0).

Lemma prele_ok w ip r : inodes (ks w) !! ip = Some r -> s8 (clr (i_flag r) ILOCK) &? IWANT = false ->
  prele ip w = Ret tt (with_inode ip (r <| i_flag := s8 (clr (i_flag r) ILOCK) |>) w).
Proof using Type.
  intros Hr Hw. unfold prele, iclr.
  erewrite bind_ret_eq by (erewrite bind_ret_eq by (by apply ipf_ok); by apply ipset_with). cbn beta.
  unfold ihas. erewrite bind_ret_eq by (erewrite bind_ret_eq by (by apply ipf_ok, inodes_with); reflexivity). cbn beta.
  cbn [i_flag setf]. by rewrite Hw.
Qed.

Lemma like_with w ip r0 r r1 T : like T0 T -> T0 !! ip = Some r0 -> inodes (ks w) = <[ip := r1]> T ->
  r = r0 \/ free_slot r0 /\ free_slot r -> like T0 (inodes (ks (with_inode ip r w))).
Proof using Type.
  intros Hl Hr Ei Hd. cbn [with_inode ks setf inodes]. rewrite Ei, list_insert_insert_eq. by eapply like_insert.
Qed.

(** Entries in core are let go by counting down. *)
Lemma iput_core w ip r0 : inodes (ks w) !! ip = Some (held r0) -> settled r0 ->
  iput ip w = Ret tt (with_inode ip r0 w).
Proof using Type.
  intros Hr Hs. pose proof (se_count _ Hs) as Hc. unfold iput. erewrite bind_ret_eq by (by apply ipf_ok). cbn beta.
  change (i_count (held r0)) with (s8 (i_count r0 + 1)). rewrite s8_id, (proj2 (Z.eqb_neq _ 1)) by lia. cbn [when].
  erewrite bind_ret_eq by reflexivity. cbn beta. erewrite bind_ret_eq by (by apply ipf_ok). cbn beta.
  change (i_count (held r0)) with (s8 (i_count r0 + 1)). rewrite (s8_id (i_count r0 + 1)), Z.add_simpl_r, s8_id by lia.
  erewrite bind_ret_eq by (by apply ipset_with). cbn beta.
  destruct (lock_flag (i_flag r0)) as [E1 E2]; [apply Hs|by apply (settled_bits r0 ILOCK)|].
  assert (s8 (clr (i_flag (held r0)) ILOCK) = i_flag r0) as E3 by exact E1.
  erewrite prele_ok; [rewrite with_inode_twice|by apply inodes_with|].
  - do 2 f_equal. clear E3. destruct r0. cbn in *. by rewrite E1.
  - cbn [i_flag setf]. rewrite E3. by apply (settled_bits r0 IWANT).
Qed.

(** Those read in are let go for good. *)
Lemma iput_disk w ip r : inodes (ks w) !! ip = Some r -> i_count r = 1 -> i_flag r = ILOCK -> 0 < i_nlink r ->
  iput ip w = Ret tt (with_inode ip (r <| i_flag := 0 |> <| i_number := 0 |> <| i_count := 0 |>) w).
Proof using Type.
  intros Hr Hc Hf Hn.
  assert (forall r', inodes (ks (with_inode ip r' w)) !! ip = Some r') as Hw by (intros; by apply inodes_with).
  unfold iput. erewrite bind_ret_eq by (by apply ipf_ok). cbn beta. rewrite Hc. cbn [Z.eqb when Pos.eqb].
  erewrite (bind_ret_eq _ _ w tt (with_inode ip (r <| i_flag := 0 |> <| i_number := 0 |>) w)).
  - cbn beta. erewrite bind_ret_eq by (apply ipf_ok, Hw). cbn beta. cbn [i_count setf]. rewrite Hc.
    change (s8 (1 - 1)) with 0. erewrite bind_ret_eq by (apply ipset_with, Hw). cbn beta. rewrite with_inode_twice.
    erewrite prele_ok by (apply Hw || done). by rewrite with_inode_twice.
  - assert (ior ip ILOCK w = Ret tt w) as E1.
    { unfold ior. erewrite bind_ret_eq by (by apply ipf_ok). rewrite Hf. change (s8 (Z.lor ILOCK ILOCK)) with ILOCK.
      erewrite ipset_with by done. assert (setf i_flag (fun _ => ILOCK) r = r) as -> by (rewrite <- Hf; by destruct r).
      by rewrite with_inode_id. }
    erewrite bind_ret_eq by exact E1. cbn beta. erewrite bind_ret_eq by (by apply ipf_ok). cbn beta.
    rewrite (proj2 (Z.leb_gt _ _)) by lia. cbn [when]. erewrite bind_ret_eq by reflexivity. cbn beta.
    erewrite (bind_ret_eq (iupdat _ _ _) _ _ tt w).
    2: { unfold iupdat, ihas. erewrite bind_ret_eq by (erewrite bind_ret_eq by (by apply ipf_ok); reflexivity). by rewrite Hf. }
    cbn beta. erewrite bind_ret_eq by (apply prele_ok; [exact Hr|by rewrite Hf]). cbn beta. rewrite Hf.
    do 1 (erewrite bind_ret_eq by (apply ipset_with, Hw); cbn beta; rewrite with_inode_twice).
    erewrite ipset_with by apply Hw. by rewrite with_inode_twice.
Qed.

Lemma iput_ok w ino ip r : resident w -> holds ino ip r w -> 0 < i_nlink r ->
  exists w', iput ip w = Ret tt w' /\ visited w w' /\ resident w' /\ like T0 (inodes (ks w')) /\ u w' = u w.
Proof using Hq.
  intros HC [Ho Hr Hn Hnz (T & Hl & Ei) Hsl] Hnl. unfold Paths.opened in Ho.
  destruct (list_find (is_inode dev ino) T0) as [[i r0]|] eqn:Ef.
  - injection Ho as <-. subst i. apply list_find_Some in Ef as (H0 & [En0 _] & _).
    destruct (qu_each _ Hq ip r0 H0) as [[Hc0 Hn0]|Hs].
    { congruence. }
    exists (with_inode ip r0 w). split; [by apply iput_core|]. split; [apply visited_inode|].
    split; [by eapply resident_bufs|]. split; [|done]. eapply like_with; [done|done|done|by left].
  - destruct Hsl as (r0 & H0 & Hf0). destruct (C !! itod ino) as [d|]; [|done]. injection Ho as <-.
    eexists. split; [by apply iput_disk|]. split; [apply visited_inode|]. split; [by eapply resident_bufs|]. split; [|done].
    eapply like_with; [done|done|done|right; by split].
Qed.

Lemma iget_ok w ino r : resident w -> like T0 (inodes (ks w)) -> ino <> 0 -> opened ino = Some r ->
  exists ip w', iget dev ino w = Ret (Some ip) w' /\ visited w w' /\ resident w' /\ holds ino ip r w' /\ u w' = u w.
Proof using Hdev Hdp Hdf Hnd Hq.
  intros HC Hl Hi Ho. pose proof Ho as Ho'. unfold Paths.opened in Ho.
  pose proof (like_find T0 (inodes (ks w)) dev ino Hl Hi) as Ef. pose proof (like_idle T0 _ Hl) as Ei.
  assert (forall o w', iget_found dev ino (searched dev ino (inodes (ks w))) w = Ret (inr o) w' -> iget dev ino w = Ret o w') as Hone
    by (intros; by apply iget_once).
  unfold searched in Hone. rewrite Ef in Hone. destruct (list_find (is_inode dev ino) T0) as [[ip r0]|] eqn:E0.
  - injection Ho as <-. pose proof E0 as (H0 & [En0 Ed0] & _)%list_find_Some.
    destruct (qu_each _ Hq ip r0 H0) as [[_ Hz]|Hs]; [congruence|].
    destruct (like_lookup _ _ ip r0 Hl H0) as (r1 & Hr1 & [->|[[_ Hz] _]]); [|congruence].
    exists ip, (with_inode ip (held r0) w).
    split; [apply Hone, found_held; [done|by apply (settled_bits r0 ILOCK)|by apply (settled_bits r0 IMOUNT)]|].
    split; [apply visited_inode|]. split; [by eapply resident_bufs|]. split; [|done].
    constructor; [done|by apply inodes_with|done|done| |by rewrite E0]. by exists (inodes (ks w)).
  - destruct (C !! itod ino) as [d|] eqn:Ed; [|done]. injection Ho as <-.
    destruct (list_find idle T0) as [[ip r0]|] eqn:Ei0.
    2: { destruct (qu_room _ Hq) as (ip & r0 & H0 & [Hc0 _]). apply list_find_None in Ei0. rewrite Forall_lookup in Ei0.
         by destruct (Ei0 ip r0 H0). }
    destruct (list_find idle (inodes (ks w))) as [[ip' r1]|] eqn:Ei1; [|done]. injection Ei as ->.
    pose proof Ei1 as (H1 & Hid1 & _)%list_find_Some. pose proof Ei0 as (H0 & Hid0 & _)%list_find_Some.
    assert (free_slot r0) as Hf0 by (destruct (qu_each _ Hq ip r0 H0) as [|[Hc _ _]]; [done|unfold idle in Hid0; lia]).
    assert (free_slot r1) as Hf1.
    { destruct (like_lookup _ _ ip r0 Hl H0) as (r2 & Hr2 & [->|[_ Hf]]); rewrite H1 in Hr2; by injection Hr2 as ->. }
    destruct (iget_read_ok dev dp hs H C Hdev Hdp Hdf Hnd w ip r1 ino d HC H1 Ed) as (w' & E & HC' & Hw').
    rewrite fresh_slot in Hw' by done. destruct (cache_only_same _ _ Hw') as (Eu & Ei' & _).
    exists ip, w'. split; [|split; [|split; [done|split; [|by rewrite Eu]]]].
    + apply Hone. cbn [fmap option_fmap option_map fst iget_found]. by erewrite bind_ret_eq by exact E.
    + eapply visited_trans; [apply visited_inode|by apply visited_cache].
    + assert (inodes (ks w') !! ip = Some (from_disk dev ino d)) as Hip by (rewrite Ei'; by apply inodes_with; eexists).
      constructor; [done|done|done|done| |by rewrite E0; exists r0]. exists (inodes (ks w)). split; [done|]. by rewrite Ei'.
Qed.

(** ** One component *)

(** The directory may be searched by the user. *)
Definition may_search (us : user) (r : inode) : bool :=
  (u_uid us =? 0) || (i_mode r &? access_bits us r IEXEC).

Lemma access_exec_ok w ip r : inodes (ks w) !! ip = Some r ->
  access ip IEXEC w = if may_search (u w) r then Ret false w else Ret true (failed EACCES w).
Proof using Type.
  intros Hr. unfold access. change (IEXEC =? IWRITE) with false. cbn match. erewrite bind_ret_eq by reflexivity. cbn beta iota.
  erewrite bind_ret_eq by reflexivity. cbn beta. unfold may_search. destruct (u_uid (u w) =? 0); [done|]. cbn [orb].
  erewrite bind_ret_eq by (by apply tget_ok). cbn beta. by destruct (i_mode r &? _).
Qed.

(** No file system is mounted on one of the device. *)
Definition no_mounts (w : world) : Prop :=
  forall i, (1 <= i < NMOUNT)%nat -> exists m, mounts (ks w) !! i = Some m /\ (m_bufp m = None \/ m_dev m <> dev).

Lemma mount_of_none w : no_mounts w -> mount_of dev w = Ret None w.
Proof using Type.
  intros Hm. unfold mount_of. assert (Forall (fun i => 1 <= i < NMOUNT)%nat (seq 1 (NMOUNT - 1))) as Hall.
  { apply Forall_forall. intros i Hi. apply elem_of_seq in Hi. unfold NMOUNT in *. lia. }
  induction Hall as [|i l Hi _ IH]; [done|]. cbn [for_find]. destruct (Hm i Hi) as (m & Em & Hd).
  erewrite (bind_ret_eq _ _ _ None w); [exact IH|]. erewrite bind_ret_eq by (by apply tget_ok). cbn beta.
  destruct Hd as [->|Hd]; [by rewrite bool_decide_eq_false_2 by (by intros [])|].
  by rewrite (proj2 (Z.eqb_neq _ _)), andb_false_r by done.
Qed.

(** What the component [name] of directory [ino] leads to: an inode or an
    error. *)
Inductive leads (us : user) (ino : Z) (name : list Z) : Z + Z -> Prop :=
| ld_refused r : opened ino = Some r -> 0 < i_nlink r -> ifmt (i_mode r) <> IFDIR \/ may_search us r = false ->
    leads us ino name (inr (if may_search us r then ENOTDIR else EACCES))
| ld_absent r dents : opened ino = Some r -> 0 < i_nlink r -> ifmt (i_mode r) = IFDIR -> may_search us r = true ->
    directory C r dents -> entry_of name dents = None -> leads us ino name (inr ENOENT)
| ld_entry r dents k d : opened ino = Some r -> 0 < i_nlink r -> ifmt (i_mode r) = IFDIR -> may_search us r = true ->
    directory C r dents -> entry_of name dents = Some (k, d) -> is_Some (opened (rdf d_ino d)) ->
    leads us ino name (inl (rdf d_ino d)).

Lemma holds_same w w' ino ip r : inodes (ks w') = inodes (ks w) -> holds ino ip r w -> holds ino ip r w'.
Proof using Type. intros E [? ? ? ? ? ?]. constructor; rewrite ?E; done. Qed.

Lemma holds_like w ino ip r : holds ino ip r w -> opened ino = Some r.
Proof using Type. by intros []. Qed.

(** The end of a failing lookup. *)
Lemma namei_out_ok w ino ip r : resident w -> holds ino ip r w -> 0 < i_nlink r ->
  exists w', namei_out ip w = Ret (inr (inr None)) w' /\ visited w w' /\ resident w' /\ like T0 (inodes (ks w')) /\ u w' = u w.
Proof using Hq.
  intros HC Hh Hn. destruct (iput_ok w ino ip r HC Hh Hn) as (w' & E & Hw'). exists w'. split; [|done].
  unfold namei_out. by erewrite bind_ret_eq by exact E.
Qed.

(** A directory that cannot be searched. *)
Lemma refused_ok w ino ip r c n : resident w -> holds ino ip r w -> 0 < i_nlink r ->
  ifmt (i_mode r) <> IFDIR \/ may_search (u w) r = false ->
  exists w', loop (S n) (seloop 0 c) ip w = Ret (inr None) w' /\ visited w w' /\ resident w' /\
    like T0 (inodes (ks w')) /\ u_error (u w') = (if may_search (u w) r then ENOTDIR else EACCES).
Proof using Hq.
  intros HC Hh Hnl Hb. pose proof (ho_entry _ _ _ _ _ _ _ Hh) as Hr. set (e := if may_search (u w) r then ENOTDIR else EACCES).
  destruct (namei_out_ok (failed e w) ino ip r) as (w' & E & Hv & HC' & Hl' & Eu);
    [by eapply resident_bufs|by apply (holds_same w)|done|].
  exists w'. split; [|split; [eapply visited_trans; [apply visited_failed|exact Hv]|by rewrite Eu]].
  apply loop_done. unfold seloop. erewrite bind_ret_eq by (by apply ipf_ok). cbn beta.
  set (w1 := if ifmt (i_mode r) =? IFDIR then w else failed ENOTDIR w).
  erewrite (bind_ret_eq (when _ _) _ _ tt w1) by (unfold w1; by destruct (ifmt _ =? _)). cbn beta.
  assert (access ip IEXEC w1 = Ret (negb (may_search (u w) r)) (failed e w)) as Ea.
  { rewrite (access_exec_ok w1 ip r) by (unfold w1; by destruct (ifmt _ =? _)).
    assert (may_search (u w1) r = may_search (u w) r) as -> by (unfold w1; by destruct (ifmt _ =? _)).
    unfold e. destruct (may_search (u w) r); [|unfold w1; by destruct (ifmt _ =? _); destruct w as [[] ? ?]].
    destruct Hb as [Hb|Hb]; [|done]. unfold w1. by rewrite (proj2 (Z.eqb_neq _ _)) by done. }
  erewrite bind_ret_eq by exact Ea. cbn beta. erewrite bind_ret_eq by reflexivity. cbn beta.
  assert (tst (u_error (u (failed e w))) = true) as -> by (cbn; unfold e; by destruct (may_search _ _)). exact E.
Qed.

(** One that can is, and the search decides. *)
Lemma seloop_search w ip r c e w1 : inodes (ks w) !! ip = Some r -> u_error (u w) = 0 -> may_search (u w) r = true ->
  ifmt (i_mode r) = IFDIR -> dir_search ip 0 c w = Ret e w1 ->
  seloop 0 c ip w = (match e with DRet r => ret (inr (inr r)) | DOut => namei_out ip | DMatch => next_dir 0 c ip end) w1.
Proof using Type.
  intros Hr He Hs Hd E1. unfold seloop. erewrite bind_ret_eq by (by apply ipf_ok). cbn beta. rewrite Hd.
  erewrite bind_ret_eq by reflexivity. cbn beta.
  erewrite bind_ret_eq by (rewrite (access_exec_ok w ip r) by done; rewrite Hs; reflexivity). cbn beta.
  erewrite bind_ret_eq by reflexivity. cbn beta. rewrite He. change (tst 0) with false. cbn match.
  by erewrite bind_ret_eq by exact E1.
Qed.

(** The entry found is opened and the directory let go. *)
Lemma next_dir_ok w ino ip r c r' : resident w -> holds ino ip r w -> 0 < i_nlink r -> no_mounts w ->
  rdf d_ino (u_dent (u w)) <> 0 -> opened (rdf d_ino (u_dent (u w))) = Some r' ->
  exists ip' w', next_dir 0 c ip w = Ret (inr (inl ip')) w' /\ holds (rdf d_ino (u_dent (u w))) ip' r' w' /\
    visited w w' /\ resident w' /\ u w' = u w.
Proof using Hdev Hdp Hdf Hnd Hq.
  intros HC Hh Hnl Hm Hnz Hr'. pose proof (ho_entry _ _ _ _ _ _ _ Hh) as Hr. destruct (ho_number _ _ _ _ _ _ _ Hh) as [_ Hdv].
  destruct (iput_ok w ino ip r HC Hh Hnl) as (w2 & E2 & Hv2 & HC2 & Hl2 & Eu2).
  destruct (iget_ok w2 _ r' HC2 Hl2 Hnz Hr') as (ip' & w3 & E3 & Hv3 & HC3 & Hh3 & Eu3).
  exists ip', w3. split; [|split; [done|split; [by eapply visited_trans|split; [done|by rewrite Eu3]]]].
  unfold next_dir. change (_ && _) with false at 1. cbn match.
  erewrite bind_ret_eq by (by apply ipf_ok). cbn beta. rewrite Hdv. erewrite bind_ret_eq by reflexivity. cbn beta.
  erewrite bind_ret_eq by (by apply ipf_ok). cbn beta.
  erewrite (bind_ret_eq _ _ w None w) by (destruct (_ && _); [by apply mount_of_none|done]).
  cbn beta iota. erewrite bind_ret_eq by exact E2. cbn beta. erewrite bind_ret_eq by reflexivity. cbn beta.
  rewrite Eu2. by erewrite bind_ret_eq by exact E3.
Qed.

Lemma component_ok w ino ip r c x n : resident w -> holds ino ip r w -> u_error (u w) = 0 -> no_mounts w ->
  leads (u w) ino (u_dbuf (u w)) x ->
  match x with
  | inl j => exists ip' r' w', loop (S n) (seloop 0 c) ip w = Ret (inl ip') w' /\ holds j ip' r' w' /\ visited w w' /\
      resident w' /\ u_error (u w') = 0 /\ u_dirp (u w') = u_dirp (u w) /\ u_dbuf (u w') = u_dbuf (u w)
  | inr e => exists w', loop (S n) (seloop 0 c) ip w = Ret (inr None) w' /\ visited w w' /\ resident w' /\
      like T0 (inodes (ks w')) /\ u_error (u w') = e
  end.
Proof using Hdev Hdp Hdf Hnd Hq.
  intros HC Hh He Hm Hld. pose proof (ho_entry _ _ _ _ _ _ _ Hh) as Hr. pose proof (ho_opened _ _ _ _ _ _ _ Hh) as Ho.
  destruct (ho_number _ _ _ _ _ _ _ Hh) as [_ Hdv].
  destruct Hld as [r1 Ho1 Hnl Hb|r1 dents Ho1 Hnl Hd Hs Hdir Hent|r1 dents k d Ho1 Hnl Hd Hs Hdir Hent [r' Hr']];
    rewrite Ho in Ho1; injection Ho1 as <-; [by eapply refused_ok|..];
    pose proof (dir_search_ok dev dp hs H C Hdev Hdp Hdf Hnd w ip r dents 0 c HC Hr Hdv Hdir) as Hs1; cbv zeta in Hs1;
    rewrite Hent in Hs1.
  - destruct Hs1 as (w1 & dent & HC1 & Hw1 & E1). destruct (cache_only_same _ _ Hw1) as (Eu1 & Ei1 & _).
    destruct (namei_out_ok (failed ENOENT w1) ino ip r) as (w' & E & Hv & HC' & Hl' & Eu);
      [by eapply resident_bufs|by apply (holds_same w)|done|].
    exists w'. split; [|split; [|by rewrite Eu]].
    + apply loop_done. rewrite (seloop_search w ip r c DOut (failed ENOENT w1)); [exact E|done..|by rewrite E1].
    + eapply visited_trans; [apply visited_scanned|]. eapply visited_trans; [apply visited_cache, Hw1|].
      eapply visited_trans; [apply visited_failed|exact Hv].
  - destruct Hs1 as (w1 & E1 & HC1 & Hw1). destruct (cache_only_same _ _ Hw1) as (Eu1 & Ei1 & _).
    apply entry_of_first in Hent as (_ & Hnz & _).
    assert (visited w w1) as Hv1 by (eapply visited_trans; [apply visited_scanned|apply visited_cache, Hw1]).
    destruct (visited_same _ _ Hv1) as (_ & _ & _ & Em & _).
    destruct (next_dir_ok w1 ino ip r c r' HC1) as (ip' & w3 & E3 & Hh3 & Hv3 & HC3 & Eu3);
      rewrite ?Eu1; try done; [by apply (holds_same w)|by unfold no_mounts; rewrite Em|].
    exists ip', r', w3. rewrite Eu1 in Hh3. split; [|split; [done|split; [by eapply visited_trans|split; [done|by rewrite Eu3, Eu1]]]].
    apply loop_done. by rewrite (seloop_search w ip r c DMatch w1).
Qed.

(** ** The whole path *)

Inductive resolves (us : user) : Z -> list (list Z) -> Z + Z -> Prop :=
| rs_end i : resolves us i [] (inl i)
| rs_fails i n names e : leads us i (padded n) (inr e) -> resolves us i (n :: names) (inr e)
| rs_next i n names j x : leads us i (padded n) (inl j) -> resolves us j names x -> resolves us i (n :: names) x.

Lemma leads_visited w w' ino name x : visited w w' -> leads (u w) ino name x -> leads (u w') ino name x.
Proof using Type.
  intros Hv. destruct (visited_same _ _ Hv) as (_ & _ & _ & _ & Eu & Eg & _).
  assert (forall r, may_search (u w') r = may_search (u w) r) as Hms by (intros; unfold may_search, access_bits; by rewrite Eu, Eg).
  intros [r ? ? ?|r dents|r dents k d]; rewrite <- ?Hms in *; [eapply ld_refused|eapply ld_absent|eapply ld_entry]; eauto; by rewrite Hms.
Qed.
Lemma resolves_visited w w' ino names x : visited w w' -> resolves (u w) ino names x -> resolves (u w') ino names x.
Proof using Type.
  intros Hv. induction 1; [constructor|eapply rs_fails|eapply rs_next]; try done; by eapply leads_visited.
Qed.

Lemma no_mounts_visited w w' : visited w w' -> no_mounts w -> no_mounts w'.
Proof using Type. intros Hv. destruct (visited_same _ _ Hv) as (_ & _ & _ & Em & _). unfold no_mounts. by rewrite Em. Qed.

Lemma padded_length n : length (padded n) = DIRSIZ.
Proof using Type. unfold padded. rewrite length_app, length_take, length_replicate. lia. Qed.

(** What the rest of a path starts with. *)
Lemma spelled_first names str : spelled names str ->
  exists c, str !! 0%nat = Some c /\ c <> SLASH /\ (c = 0 <-> names = []).
Proof using Type.
  intros [|n names' k s' Hn Hp _ _]; [by exists 0|]. destruct n as [|c n]; [done|]. exists c.
  apply Forall_cons in Hp as [[Hc Hs] _]. split; [done|]. split; [done|]. split; [lia|done].
Qed.

Section Walk.
Context (func : KM Z) (base : Z) (s : list Z) (Hlen : Z.of_nat (length s) <= USTK).

(** The state between two components, before character [i]. *)
Record walking (w : world) (i : nat) (str : list Z) (ino : Z) (ip : nat) (r : inode) : Prop := {
  wk_reads : reads func base s w; wk_str : forall j y, str !! j = Some y -> s !! (i + j)%nat = Some y;
  wk_pos : u_dirp (u w) = base + Z.of_nat (S i); wk_rest : resident w; wk_holds : holds ino ip r w;
  wk_error : u_error (u w) = 0; wk_buf : length (u_dbuf (u w)) = DIRSIZ; wk_mpx : mpxip (ks w) = None; wk_mounts : no_mounts w
}.

Lemma cloop_next w i n k str names ino ip r c x : walking w i (n ++ replicate k SLASH ++ str) ino ip r ->
  n <> [] -> Forall plain n -> spelled names str -> (k = 0%nat -> names = []) -> n !! 0%nat = Some c ->
  leads (u w) ino (padded n) x ->
  match x with
  | inl j => exists c' ip' r' w', cloop func 0 (ip, c) w = Ret (inl (ip', c')) w' /\ str !! 0%nat = Some c' /\
      visited w w' /\ walking w' (i + length n + k) str j ip' r'
  | inr e => exists w', cloop func 0 (ip, c) w = Ret (inr None) w' /\ visited w w' /\ resident w' /\
      like T0 (inodes (ks w')) /\ u_error (u w') = e
  end.
Proof using Hdev Hdp Hdf Hnd Hq Hlen.
  intros [Hrd Hstr Hpos HC Hh He Hb Hmp Hm] Hn Hpl Hsp Hk Hc Hld.
  destruct (spelled_first _ _ Hsp) as (c' & Hc' & Hsl & Hz).
  assert (c <> 0) as Hc0 by (rewrite Forall_lookup in Hpl; destruct (Hpl _ _ Hc); lia).
  set (w1 := at_char (base + Z.of_nat (S (i + length n + k))) (named (padded n) w)).
  assert (visited w w1) as Hv1 by (eapply visited_trans; [apply visited_named|apply visited_char]).
  assert ((x <- gather func c ;; skip_slashes func x) w = Ret c' w1) as E1.
  { apply (name_ok func base s w i n k c c'); try done; [intros Hk0; apply Hz, Hk, Hk0|].
    intros j y Hj. apply Hstr. rewrite app_assoc in Hj |- *. apply lookup_app_Some in Hj as [Hj|[Hl Hj]].
    - by apply lookup_app_l_Some.
    - rewrite lookup_app_r by lia. apply list_lookup_singleton_Some in Hj as [-> <-]. by rewrite Hc'. }
  assert (cloop func 0 (ip, c) w = (r <- loop (S NMOUNT) (seloop 0 c') ip ;;
    ret (match r with inl dp => inl (dp, c') | inr o => inr o end)) w1) as Ecl.
  { unfold cloop. erewrite bind_ret_eq by reflexivity. cbn beta. rewrite He. change (tst 0) with false. cbn match.
    rewrite (proj2 (Z.eqb_neq c 0)) by done. rewrite <- (bind_assoc (gather func c) (skip_slashes func)).
    erewrite bind_ret_eq by exact E1. cbn beta. erewrite bind_ret_eq by reflexivity. cbn beta.
    change (mpxip (ks w1)) with (mpxip (ks w)). rewrite Hmp. by destruct (c' =? BANG). }
  assert (leads (u w1) ino (u_dbuf (u w1)) x) as Hld1 by (by apply (leads_visited w)).
  pose proof (component_ok w1 ino ip r c' x NMOUNT ltac:(by eapply resident_bufs) ltac:(by apply (holds_same w)) He Hm Hld1) as Hcomp.
  destruct x as [j|e].
  - destruct Hcomp as (ip' & r' & w' & E & Hh' & Hv' & HC' & He' & Hd' & Hb').
    assert (visited w w') as Hvw by (by eapply visited_trans). exists c', ip', r', w'.
    split; [rewrite Ecl; by erewrite bind_ret_eq by exact E|]. split; [done|]. split; [done|].
    constructor; try done.
    + by eapply reads_visited.
    + intros l y Hl. replace (i + length n + k + l)%nat with (i + (length (n ++ replicate k SLASH) + l))%nat
        by (rewrite length_app, length_replicate; lia). apply Hstr. rewrite app_assoc, lookup_app_r by lia.
      by replace (length (n ++ replicate k SLASH) + l - length (n ++ replicate k SLASH))%nat with l by lia.
    + rewrite Hb'. apply padded_length.
    + destruct (visited_same _ _ Hvw) as (_ & _ & -> & _). done.
    + by eapply no_mounts_visited.
  - destruct Hcomp as (w' & E & Hv & HC' & Hl & Ee). exists w'. split; [rewrite Ecl; by erewrite bind_ret_eq by exact E|]. split; [by eapply visited_trans|done].
Qed.

Lemma cloop_ok names str : spelled names str -> forall n w i ino ip r x c, (length names < n)%nat ->
  walking w i str ino ip r -> str !! 0%nat = Some c -> resolves (u w) ino names x ->
  match x with
  | inl j => exists ip' r' w', loop n (cloop func 0) (ip, c) w = Ret (Some ip') w' /\ holds j ip' r' w' /\
      visited w w' /\ resident w' /\ u_error (u w') = 0
  | inr e => exists w', loop n (cloop func 0) (ip, c) w = Ret None w' /\ visited w w' /\ resident w' /\
      like T0 (inodes (ks w')) /\ u_error (u w') = e
  end.
Proof using Hdev Hdp Hdf Hnd Hq Hlen.
  induction 1 as [|nm names k str Hn Hpl Hsp IH Hk]; intros [|n] w i ino ip r x c Hl Hw Hc Hres; try (cbn in Hl; lia).
  - injection Hc as <-. inversion Hres; subst. exists ip, r, w. split; [|split; [apply Hw|split; [apply visited_refl|split; apply Hw]]].
    apply loop_done. unfold cloop. erewrite bind_ret_eq by reflexivity. cbn beta. by rewrite (wk_error _ _ _ _ _ _ Hw).
  - rewrite lookup_app_l in Hc by (destruct nm; [done|cbn; lia]). cbn [length] in Hl.
    inversion Hres as [|? ? ? e Hld|? ? ? j ? Hld Hres']; subst.
    + destruct (cloop_next w i nm k str names ino ip r c (inr e) Hw) as (w' & E & Hv & Hrest); try done.
      exists w'. by split; [by apply loop_done|].
    + destruct (cloop_next w i nm k str names ino ip r c (inl j) Hw) as (c' & ip' & r' & w1 & E & Hc' & Hv & Hw1); try done.
      specialize (IH n w1 (i + length nm + k)%nat j ip' r' x c' ltac:(lia) Hw1 Hc' ltac:(by eapply resolves_visited)).
      erewrite loop_next by exact E. destruct x as [j'|e].
      * destruct IH as (ip2 & r2 & w2 & E2 & Hh2 & Hv2 & Hrest). exists ip2, r2, w2.
        do 2 (split; [done|]). split; [by eapply visited_trans|done].
      * destruct IH as (w2 & E2 & Hv2 & Hrest). exists w2. split; [done|]. split; [by eapply visited_trans|done].
Qed.
End Walk.
End Table.

Lemma spelled_length names str : spelled names str -> (length names < length str)%nat.
Proof.
  induction 1 as [|n names k str Hn _ _ IH]; [cbn; lia|]. rewrite !length_app, length_replicate. destruct n; [done|cbn in *; lia].
Qed.

(** Where a path starts. *)
Definition start (w : world) (slashes : nat) : nat :=
  match slashes with O => u_cdir (u w) | S _ => match u_rdir (u w) with Some d => d | None => rootdir (ks w) end end.

Section Lookup.
Context {MC : Machine} (dev : Z) (dp : bptr) (hs : list bptr) (H : bptr -> list bptr) (C : gmap Z (list Z)).
Context (Hdev : on_dev dev dp) (Hdp : dp ∈ hs) (Hdf : dp <> Bfree) (Hnd : dev <> NODEV).

(** What [namei] starts from. *)
Record ready (w : world) (ip : nat) (r : inode) : Prop := {
  rd_rest : resident dev dp hs H C w; rd_quiet : quiet (inodes (ks w)); rd_start : inodes (ks w) !! ip = Some r;
  rd_dev : i_dev r = dev; rd_number : i_number r <> 0;
  rd_error : u_error (u w) = 0; rd_buf : length (u_dbuf (u w)) = DIRSIZ; rd_mpx : mpxip (ks w) = None; rd_mounts : no_mounts dev w
}.

Lemma start_opened T ip r : quiet T -> T !! ip = Some r -> i_dev r = dev -> i_number r <> 0 ->
  list_find (is_inode dev (i_number r)) T = Some (ip, r).
Proof using Type.
  intros Hq Hr Hd Hn. destruct (list_find _ T) as [[i r']|] eqn:E.
  - apply list_find_Some in E as (Hr' & [En Ed] & _). assert (i = ip) as ->; [|congruence].
    apply (qu_distinct _ Hq i ip r' r); congruence.
  - apply list_find_None in E. rewrite Forall_lookup in E. by destruct (E ip r Hr).
Qed.

(** The first directory is opened and the slashes passed over. *)
Lemma namei_start func w s k names str ip r : ready w ip r -> start w k = ip ->
  s = replicate k SLASH ++ str -> spelled names str -> reads func (u_dirp (u w)) s w -> Z.of_nat (length s) <= USTK ->
  exists c w1, str !! 0%nat = Some c /\ namei func 0 w = loop NAMELEN (cloop func 0) (ip, c) w1 /\ visited w w1 /\
    walking dev dp hs H C (inodes (ks w)) func (u_dirp (u w)) s w1 k str (i_number r) ip (held r).
Proof using Hdev Hdp Hdf Hnd.
  intros [HC Hq Hr Hdv Hnz He Hb Hmp Hm] Hst Hs Hsp Hrd Hlen. set (base := u_dirp (u w)) in *.
  destruct (spelled_first names str Hsp) as (c & Hc & Hsl & _).
  pose proof (start_opened _ _ _ Hq Hr Hdv Hnz) as Hfind.
  set (c0 := if Nat.eqb k 0 then c else SLASH). set (w1 := at_char (base + 1) w).
  assert (forall j y, str !! j = Some y -> s !! (k + j)%nat = Some y) as Hstr.
  { intros j y Hj. rewrite Hs, lookup_app_r, length_replicate by (rewrite length_replicate; lia).
    by replace (k + j - k)%nat with j by lia. }
  assert (s !! 0%nat = Some c0) as Hc0.
  { unfold c0. destruct k; cbn [Nat.eqb]; [by apply (Hstr 0%nat)|by rewrite Hs]. }
  assert (func w = Ret c0 w1) as E1.
  { rewrite (Hrd w 0%nat c0 (visited_refl w) Hc0) by (unfold base; cbn; lia). unfold w1. do 2 f_equal. cbn. lia. }
  assert (visited w w1) as Hv1 by apply visited_char.
  destruct (iget_ok dev dp hs H C Hdev Hdp Hdf Hnd (inodes (ks w)) Hq w1 (i_number r) (held r))
    as (ip' & w2 & E2 & Hv2 & HC2 & Hh2 & Eu2);
    [by eapply resident_bufs|apply like_refl|done|unfold opened; by rewrite Hfind|].
  assert (ip' = ip) as -> by (pose proof (ho_slot _ _ _ _ _ _ _ Hh2) as Hs2; rewrite Hfind in Hs2; done).
  assert (visited w w2) as Hvw2 by (by eapply visited_trans).
  set (w3 := at_char (base + Z.of_nat (S k)) w2).
  assert (visited w w3) as Hv3 by (eapply visited_trans; [exact Hvw2|apply visited_char]).
  exists c, w3. split; [done|]. split; [|split; [done|]].
  - unfold namei. erewrite bind_ret_eq by reflexivity. cbn beta. erewrite bind_ret_eq by exact E1. cbn beta.
    erewrite (bind_ret_eq _ _ w1 ip w1).
    2: { rewrite <- Hst. unfold c0. destruct k; cbn [Nat.eqb start]; [by rewrite (proj2 (Z.eqb_neq c SLASH))|].
         rewrite Z.eqb_refl. erewrite bind_ret_eq by reflexivity. cbn beta. change (u_rdir (u w1)) with (u_rdir (u w)). by destruct (u_rdir _). }
    cbn beta. erewrite bind_ret_eq by (by apply tget_ok). cbn beta. rewrite Hdv. erewrite bind_ret_eq by exact E2. cbn beta.
    erewrite (bind_ret_eq (skip_slashes _ _) _ _ c w3); [by rewrite andb_false_r|].
    assert (S (length s) <= NAMELEN)%nat as HN by (unfold NAMELEN; lia). unfold skip_slashes.
    generalize dependent NAMELEN. intros N HN. unfold c0.
    assert (k < length s)%nat as Hk by (rewrite <- (Nat.add_0_r k); eapply lookup_lt_Some; by apply Hstr).
    rewrite (slashes_ok func base s k N w2 0 c); [done|lia|by eapply reads_visited| | |done|by rewrite Eu2].
    + intros j Hj. rewrite Hs, lookup_app_l by (by rewrite length_replicate). by apply lookup_replicate_2.
    + rewrite Nat.add_0_l, <- (Nat.add_0_r k). by apply Hstr.
  - constructor; try done; [by eapply reads_visited|by eapply resident_bufs|by apply (holds_same dev C _ w2)|by rewrite <- He; cbn; rewrite Eu2|by rewrite <- Hb; cbn; rewrite Eu2| |by eapply no_mounts_visited].
    destruct (visited_same _ _ Hv3) as (_ & _ & -> & _). done.
Qed.
End Lookup.

(** C11. In a quiet inode table, with the blocks of the directories on the way
    and of their inodes at rest in the cache, [namei] of a path — absolute or
    relative, with any number of slashes between the names — ends where the
    walk through the directories ends: at the inode it leads to, locked and
    held once more, or with the error the walk fails with (ENOTDIR, EACCES or
    ENOENT).  Nothing else is held of the way, and nothing changes but
    [namei]'s arguments in the user structure, the free entries of the inode
    table and the cache. *)
Theorem namei_correct (MC : Machine) (dev : Z) (dp : bptr) (hs : list bptr) (H : bptr -> list bptr)
    (C : gmap Z (list Z)) (func : KM Z) (w : world) (k : nat) (names : list (list Z)) (str : list Z) (r : inode) (x : Z + Z) :
  on_dev dev dp -> dp ∈ hs -> dp <> Bfree -> dev <> NODEV -> ready dev dp hs H C w (start w k) r ->
  spelled names str -> Z.of_nat (length (replicate k SLASH ++ str)) <= USTK ->
  reads func (u_dirp (u w)) (replicate k SLASH ++ str) w ->
  resolves dev C (inodes (ks w)) (u w) (i_number r) names x ->
  match x with
  | inl ino => exists ip r' w', namei func 0 w = Ret (Some ip) w' /\ opened dev C (inodes (ks w)) ino = Some r' /\
      inodes (ks w') !! ip = Some r' /\ (exists T, like (inodes (ks w)) T /\ inodes (ks w') = <[ip := r']> T) /\
      u_error (u w') = 0 /\ visited w w' /\ resident dev dp hs H C w'
  | inr e => exists w', namei func 0 w = Ret None w' /\ like (inodes (ks w)) (inodes (ks w')) /\
      u_error (u w') = e /\ visited w w' /\ resident dev dp hs H C w'
  end.
Proof.
  intros Hdev Hdp Hdf Hnd Hrd Hsp Hlen Hre Hres.
  destruct (namei_start dev dp hs H C Hdev Hdp Hdf Hnd func w _ k names str _ r Hrd eq_refl eq_refl Hsp Hre Hlen)
    as (c & w1 & Hc & -> & Hv & Hw).
  assert (length names < NAMELEN)%nat as HN.
  { pose proof (spelled_length names str Hsp). rewrite length_app in Hlen. unfold NAMELEN. lia. }
  pose proof (cloop_ok dev dp hs H C Hdev Hdp Hdf Hnd (inodes (ks w)) (rd_quiet _ _ _ _ _ _ _ _ Hrd) func _ _ Hlen names str Hsp
    NAMELEN w1 k (i_number r) _ _ x c HN Hw Hc) as Hend.
  destruct x as [j|e].
  - destruct Hend as (ip & r' & w2 & E & [Ho Hr' _ _ Hl _] & Hv2 & HC2 & He2); [by eapply resolves_visited|].
    exists ip, r', w2. do 5 (split; [done|]). split; [by eapply visited_trans|done].
  - destruct Hend as (w2 & E & Hv2 & HC2 & Hl & He2); [by eapply resolves_visited|].
    exists w2. do 3 (split; [done|]). split; [by eapply visited_trans|done].
Qed.

(** The root, in block 7, has the file "hi", inode 30, in block 5 of the
    i-list. *)
Definition root_inode : inode := home_inode <| i_number := 2 |> <| i_count := 1 |> <| i_nlink := 2 |>.
Definition root_world : world :=
  setb (world0 <| ks ::= fun k => k <| inodes := [root_inode; inode0] |> <| mounts := replicate NMOUNT mount0 |> |>)
    (alter (fun b => b <| b_data := home_block |>) (Buf 1) idle_cache).
Definition root_blocks : gmap Z (list Z) := {[ 7 := home_block; 5 := replicate 512 0 ]}.
Definition hi_path : list Z := replicate 2 SLASH ++ [104; 105] ++ replicate 0 SLASH ++ [0].

Lemma root_resident : resident 0 (Dtab 0) two_heads two_bufs root_blocks root_world.
Proof.
  constructor.
  - exists [Buf 1; Buf 0]. change (bufs (ks root_world)) with (alter (fun b => b <| b_data := home_block |>) (Buf 1) idle_cache).
    small_cache.
  - eexists. by split.
  - eexists. by split.
  - intros n d Hn. unfold root_blocks in Hn. apply lookup_insert_Some in Hn as [[<- <-]|[_ Hn]].
    + exists (Buf 1). eexists. split; [right; left|]. by split.
    + apply lookup_singleton_Some in Hn as [<- <-]. exists (Buf 0). eexists. split; [left|]. by split.
Qed.

Lemma root_ready : ready 0 (Dtab 0) two_heads two_bufs root_blocks root_world 0 root_inode.
Proof.
  constructor; try done; [exact root_resident| |].
  - constructor.
    + intros [|[|i]] [|[|j]] ri rj Hi Hj; try done; injection Hi as <-; injection Hj as <-; done.
    + intros [|[|i]] r Hi; [..|done]; injection Hi as <-; [right|by left]. by constructor.
    + exists 1%nat, inode0. by split.
  - intros i Hi. exists mount0. split; [|by left]. apply lookup_replicate_2. lia.
Qed.

Lemma root_directory : directory root_blocks (held root_inode) home_dents.
Proof.
  constructor; [done..|]. intros k d Hk. split.
  - destruct k as [|[|[|k]]]; [..|done]; by injection Hk as <-.
  - intros i x Hi. assert (i < 16)%nat as Hl.
    { apply lookup_lt_Some in Hi. destruct k as [|[|[|k]]]; [..|done]; injection Hk as <-; exact Hi. }
    revert Hi. do 16 (destruct i as [|i]; [destruct k as [|[|[|k]]]; [..|done]; injection Hk as <-; intros [= <-]; reflexivity|]). lia.
Qed.

Lemma namei_correct_witness : exists ip w', @namei disk_machine (schar hi_path) 0 root_world = Ret (Some ip) w' /\
  inodes (ks w') !! ip = Some (from_disk 0 30 (replicate 512 0)) /\ u_error (u w') = 0.
Proof.
  destruct (namei_correct disk_machine 0 (Dtab 0) two_heads two_bufs root_blocks (schar hi_path) root_world 2 [[104; 105]]
    ([104; 105] ++ replicate 0 SLASH ++ [0]) root_inode (inl 30)) as (ip & r' & w' & E & Ho & Hr & _ & He & _).
  - split; [done|]. by eexists.
  - right. left.
  - done.
  - done.
  - exact root_ready.
  - apply sp_name; [done|by repeat constructor|constructor|done].
  - done.
  - apply schar_reads; [|done]. by repeat constructor.
  - eapply rs_next; [|constructor]. apply (ld_entry _ _ _ _ _ _ (held root_inode) home_dents 2 (dent 30 [104; 105])); try done.
    exact root_directory.
  - exists ip, w'. split; [exact E|]. split; [|done]. rewrite Hr. symmetry. by rewrite <- Ho.
Defined.
