(* ===== verification/Fio.v ===== *)
(** * Fio: open files ([sys/fio.c]) and pipes ([sys/pipe.c])

    A descriptor of the process leads to an entry of the file table, which
    counts its descriptors and leads to an inode. *)

From S2P Require Import Prelude Bytes State Utab Sched Bio Alloc Inode Rdwri Text Nami.

Definition FREAD : Z := 1.
Definition FWRITE : Z := 2.
Definition FPIPE : Z := 4.
Definition FMP : Z := 24.
Definition PIPSIZ : Z := 4096.
Definition SIGPIPE : Z := 13.

Section Fio.
Context {MC : Machine}.

Definition getf (f : Z) : KM (option nat) :=
  o <- (if (0 <=? f) && (f <? Z.of_nat NOFILE) then l <- uf u_ofile ;; the (l !! Z.to_nat f)
        else ret None) ;;
  match o with
  | Some fp => ret (Some fp)
  | None => set_error EBADF ;;; ret None
  end.

(** Whether an open file still refers to the inode. *)
Definition still_open (ip : nat) : KM bool :=
  t <- kf files ;; ret (existsb (fun r => tst (f_count r) && Nat.eqb (f_inode r) ip) t).

(** The device's handler on the last close of a special file. *)
Definition close_dev (mode dev flag : Z) (ip : nat) : KM unit :=
  let type := ifmt mode in
  let last := (if flag &? FMP then ret false else still_open ip) in
  if (type =? IFCHR) || (type =? IFMPC) then
    sw <- cdevsw_at dev ;;
    still <- last ;;
    if still : bool then ret tt else cd_close sw dev flag
  else if (type =? IFBLK) || (type =? IFMPB) then
    sw <- bdevsw_at dev ;;
    still <- last ;;
    if still : bool then ret tt else d_close sw dev (tst flag)
  else ret tt.

Definition closef (fp : option nat) : KM unit :=
  match fp with
  | None => ret tt
  | Some fp =>
      r <- tget files fp ;;
      if 1 <? f_count r then fset fp f_count (s8 (f_count r - 1))
      else
        let ip := f_inode r in let flag := f_flag r in
        i <- tget inodes ip ;;
        let dev := s16 (i_rdev i) in let mode := i_mode i in
        plock ip ;;;
        fset fp f_count 0 ;;;
        when (flag &? FPIPE)
          (m <- ipf ip i_mode ;;
           ipset ip i_mode (u16 (clr m (Z.lor IREAD IWRITE))) ;;;
           wakeup (CInode ip 1) ;;;
           wakeup (CInode ip 2)) ;;;
        iput ip ;;;
        close_dev mode dev flag ip
  end.

Definition openi (ip : nat) (rw : Z) : KM unit :=
  r <- tget inodes ip ;;
  let dev := s16 (i_rdev r) in
  let type := ifmt (i_mode r) in
  if (type =? IFCHR) || (type =? IFMPC) then
    if nchrdev <=? major dev then set_error ENXIO
    else sw <- cdevsw_at dev ;; cd_open sw dev rw
  else if (type =? IFBLK) || (type =? IFMPB) then
    if nblkdev <=? major dev then set_error ENXIO
    else sw <- bdevsw_at dev ;; d_open sw dev (tst rw)
  else ret tt.

(** The lowest free descriptor. *)
Fixpoint first_free (i : nat) (l : list (option nat)) : option nat :=
  match l with
  | [] => None
  | None :: _ => Some i
  | Some _ :: l => first_free (S i) l
  end.

Definition ufalloc : KM Z :=
  l <- uf u_ofile ;;
  match first_free 0 l with
  | Some i =>
      uset u_r_val1 (Z.of_nat i) ;;;
      umod (fun r => r <| u_pofile ::= <[i := 0]> |>) ;;;
      ret (Z.of_nat i)
  | None => set_error EMFILE ;;; ret (-1)
  end.

Fixpoint first_unused (i : nat) (l : list file) : option nat :=
  match l with
  | [] => None
  | r :: l => if f_count r =? 0 then Some i else first_unused (S i) l
  end.

Definition falloc : KM (option nat) :=
  i <- ufalloc ;;
  if i <? 0 then ret None
  else
    t <- kf files ;;
    match first_unused 0 t with
    | Some fp =>
        umod (fun r => r <| u_ofile ::= <[Z.to_nat i := Some fp]> |>) ;;;
        c <- ff fp f_count ;; fset fp f_count (s8 (c + 1)) ;;;
        fset fp f_offset 0 ;;;
        ret (Some fp)
    | None => printf "no file" ;;; set_error ENFILE ;;; ret None
    end.

(** ** Pipes *)

Definition pipe : KM unit :=
  dev <- kf pipedev ;;
  o <- ialloc dev ;;
  match o with
  | None => ret tt
  | Some ip =>
      rf <- falloc ;;
      match rf with
      | None => iput ip
      | Some rf =>
          r <- uf u_r_val1 ;;
          wf <- falloc ;;
          match wf with
          | None =>
              fset rf f_count 0 ;;;
              umod (fun us => us <| u_ofile ::= <[Z.to_nat r := None]> |>) ;;;
              iput ip
          | Some wf =>
              v <- uf u_r_val1 ;;
              uset u_r_val2 v ;;;
              uset u_r_val1 r ;;;
              fset wf f_flag (Z.lor FWRITE FPIPE) ;;;
              fset wf f_inode ip ;;;
              fset rf f_flag (Z.lor FREAD FPIPE) ;;;
              fset rf f_inode ip ;;;
              ipset ip i_count 2 ;;;
              ipset ip i_mode IFREG ;;;
              ipset ip i_flag (Z.lor (Z.lor IACC IUPD) ICHG)
          end
      end
  end.

(** One round of [readp]: again after a sleep. *)
Definition readp_round (fp : nat) (ip : nat) : KM (unit + unit) :=
  plock ip ;;;
  size <- ipf ip i_size ;;
  if size =? 0 then
    prele ip ;;;
    c <- ipf ip i_count ;;
    if c <? 2 then ret (inr tt)
    else
      m <- ipf ip i_mode ;; ipset ip i_mode (Z.lor m IREAD) ;;;
      sleep (CInode ip 2) PPIPE ;;;
      ret (inl tt)
  else
    off <- ff fp f_offset ;;
    uset u_offset off ;;;
    readi ip ;;;
    off <- uf u_offset ;;
    fset fp f_offset off ;;;
    off <- ff fp f_offset ;; size <- ipf ip i_size ;;
    when (off =? size)
      (fset fp f_offset 0 ;;;
       ipset ip i_size 0 ;;;
       m <- ipf ip i_mode ;;
       when (m &? IWRITE) (ipset ip i_mode (clr m IWRITE) ;;; wakeup (CInode ip 1))) ;;;
    prele ip ;;;
    ret (inr tt).
Definition readp (fp : nat) : KM unit :=
  ip <- ff fp f_inode ;;
  n <- rounds ;;
  loop n (fun _ : unit => readp_round fp ip) tt.

(** One round of [writep] with [c] characters left. *)
Definition writep_round (ip : nat) (c : Z) : KM (Z + unit) :=
  plock ip ;;;
  if c =? 0 then prele ip ;;; uset u_count 0 ;;; ret (inr tt)
  else
    n <- ipf ip i_count ;;
    if n <? 2 then
      prele ip ;;;
      set_error EPIPE ;;;
      p <- uf u_procp ;;
      psignal p SIGPIPE ;;;
      ret (inr tt)
    else
      size <- ipf ip i_size ;;
      if PIPSIZ <=? size then
        m <- ipf ip i_mode ;; ipset ip i_mode (Z.lor m IWRITE) ;;;
        prele ip ;;;
        sleep (CInode ip 1) PPIPE ;;;
        ret (inl c)
      else
        uset u_offset size ;;;
        let n := min c PIPSIZ in
        uset u_count n ;;;
        writei ip ;;;
        prele ip ;;;
        m <- ipf ip i_mode ;;
        when (m &? IREAD) (ipset ip i_mode (clr m IREAD) ;;; wakeup (CInode ip 2)) ;;;
        ret (inl (s32 (c - n))).
Definition writep (fp : nat) : KM unit :=
  ip <- ff fp f_inode ;;
  c <- uf u_count ;;
  n <- rounds ;;
  loop (n * S (S (Z.to_nat (u32 c / PIPSIZ)))) (writep_round ip) (s32 c).

End Fio.
