(* ===== verification/Pipes.v ===== *)
(** * Pipes: bytes through a pipe in the order they were written

    [readp] and [writep] of [Fio] over the reading and writing of files: the
    file of a pipe is a queue of bytes, from the place of the next read to its
    end. *)

From S2P Require Import Prelude Bytes State Utab Sched Bio Cache Alloc Inode Rdwri Blocks Files Writes Nami Fio Dirs Paths.

(** The entry while the pipe is locked. *)
Definition locked (r : inode) : inode := r <| i_flag := s8 (Z.lor (i_flag r) ILOCK) |>.
Definition unlocked (r : inode) : inode := r <| i_flag := s8 (clr (i_flag r) ILOCK) |>.
(** Nobody has it locked or wants it. *)
Definition alone (f : Z) : Prop := -128 <= f < 128 /\ Z.land f (Z.lor ILOCK IWANT) = 0.

Lemma byte_cases (P : Z -> bool) f : forallb P (seqZ (-128) 256) = true -> -128 <= f < 128 -> P f = true.
Proof. rewrite forallb_forall. intros HP Hf. apply HP, list_elem_of_In, elem_of_seqZ. lia. Qed.

(** Marks set under the lock stay when it is given up. *)
Lemma alone_marked f m : m = IACC \/ m = Z.lor IUPD ICHG -> alone f ->
  let g := s8 (clr (s8 (Z.lor (s8 (Z.lor f ILOCK)) m)) ILOCK) in
  alone g /\ g &? IWANT = false.
Proof.
  intros Hm [Hf Hl]. cbv zeta. pose proof (byte_cases (fun f => (negb (Z.land f (Z.lor ILOCK IWANT) =? 0)) ||
    let g m := s8 (clr (s8 (Z.lor (s8 (Z.lor f ILOCK)) m)) ILOCK) in
    forallb (fun m => (Z.land (g m) (Z.lor ILOCK IWANT) =? 0) && negb (g m &? IWANT) && (-128 <=? g m) && (g m <? 128)) [IACC; Z.lor IUPD ICHG]) f) as Hc.
  cbv beta zeta in Hc. rewrite Hl in Hc. cbn [Z.eqb negb orb forallb] in Hc. rewrite !andb_true_iff, !Z.eqb_eq, !negb_true_iff, !Z.leb_le, !Z.ltb_lt in Hc.
  destruct Hc as [[[[? ?] ?] ?] [[[[? ?] ?] ?] _]]; [by vm_compute|done|]. unfold alone. destruct Hm as [-> | ->]; done.
Qed.

Section Pipes.
Context {MC : Machine} (dev : Z) (dp : bptr) (hs : list bptr) (H : bptr -> list bptr).
Context (Hdev : on_dev dev dp) (Hdp : dp ∈ hs) (Hdf : dp <> Bfree) (Hnd : dev <> NODEV).

Abbreviation resident := (resident dev dp hs H).

(** The bytes blocks 0 to [hi] have room for. *)
Definition room (hi : Z) : Z := 512 * (hi + 1).

(** Entry [ip] is a pipe's, with its blocks up to [hi], direct ones, in place
    and at rest in the cache; [f] is its read end, and [q] the bytes in it. *)
Record pipe_holds (hi : Z) (C : gmap Z (list Z)) (w : world) (fp ip : nat) (f : file) (r : inode) (q : list Z) : Prop := {
  ph_rest : resident C w; ph_file : files (ks w) !! fp = Some f; ph_inode : f_inode f = ip;
  ph_entry : inodes (ks w) !! ip = Some r; ph_dev : i_dev r = dev; ph_addrs : length (i_addr r) = 13%nat;
  ph_type : ifmt (i_mode r) = IFREG; ph_alone : alone (i_flag r); ph_sound : sound C (i_addr r) 0 hi;
  ph_off : 0 <= f_offset f; ph_size : i_size r = f_offset f + Z.of_nat (length q); ph_max : i_size r <= room hi;
  ph_hi : 0 <= hi <= 9; ph_last : hi < 9 -> nth (Z.to_nat (hi + 1)) (i_addr r) 0 = 0;
  ph_bytes : spells C (i_addr r) (f_offset f) q
}.

(** The user's arguments: [n] bytes at [a]. *)
Record asked (w : world) (a n : Z) : Prop := {
  as_count : u_count (u w) = n; as_base : u_base (u w) = UA a; as_seg : u_segflg (u w) = 0; as_error : u_error (u w) = 0
}.

Lemma plock_ok w ip r : inodes (ks w) !! ip = Some r -> i_flag r &? ILOCK = false ->
  plock ip w = Ret tt (with_inode ip (locked r) w).
Proof using Type.
  intros Hr Hl. unfold plock, rounds. erewrite bind_ret_eq by reflexivity. cbn beta.
  erewrite (bind_ret_eq _ _ w tt w).
  - by apply mark_ok.
  - apply loop_done. unfold ihas. erewrite bind_ret_eq by (erewrite bind_ret_eq by (by apply ipf_ok); reflexivity). cbn beta.
    by rewrite Hl.
Qed.

Lemma alone_bit f m : alone f -> Z.land (Z.lor ILOCK IWANT) m = m -> f &? m = false.
Proof using Type. intros [_ Hf] Hm. apply tst_false. by rewrite <- Hm, Z.land_assoc, Hf, Z.land_0_l. Qed.

(** The first ten blocks need nothing else of the cache. *)
Lemma direct_ahead hi C addrs bn : 0 <= hi <= 9 -> (hi < 9 -> nth (Z.to_nat (hi + 1)) addrs 0 = 0) -> sound C addrs 0 hi ->
  length addrs = 13%nat -> 0 <= bn <= hi -> ahead_in C addrs bn.
Proof using Type.
  intros Hhi Hlast Hso Hl Hbn s es a Hp Ha. unfold path in Hp. rewrite (proj2 (Z.ltb_lt bn 10)) in Hp by lia.
  injection Hp as <- <-. cbn [ahead_of] in Ha. destruct (Nat.ltb_spec (Z.to_nat bn) 9); [|done].
  destruct (decide (bn = hi)) as [->|Hne].
  { left. apply nth_lookup_Some with (d := 0) in Ha. rewrite <- Ha. replace (S (Z.to_nat hi)) with (Z.to_nat (hi + 1)) by lia. apply Hlast. lia. }
  destruct (so_block _ _ _ _ Hso (bn + 1) ltac:(lia)) as (z & d & Hz & _ & Hd & _).
  unfold file_addr, path in Hz. rewrite (proj2 (Z.ltb_lt (bn + 1) 10)) in Hz by lia.
  cbn [mbind option_bind fst snd follow] in Hz. replace (Z.to_nat (bn + 1)) with (S (Z.to_nat bn)) in Hz by lia.
  apply nth_lookup_Some with (d := 0) in Ha. rewrite Ha in Hz. destruct (Z.eqb_spec a 0); [by left|right].
  injection Hz as ->. by eexists.
Qed.

(** ** Reading *)

(** The entry after [l] bytes have been read off a pipe, under the lock; when
    there are no more it is empty, and writers may go on. *)
Definition read_entry (drained : bool) (bn : Z) (r : inode) : inode :=
  let r := (accessed (locked r)) <| i_lastr := bn |> in
  if drained then r <| i_size := 0 |> <| i_mode := if i_mode r &? IWRITE then clr (i_mode r) IWRITE else i_mode r |> else r.
Definition read_end (drained : bool) (n : Z) (f : file) : file :=
  f <| f_offset := if drained then 0 else f_offset f + n |>.
Definition drained (n : Z) (q : list Z) : bool := bool_decide (drop (Z.to_nat n) q = []).
Definition with_file (fp : nat) (f : file) (w : world) : world := w <| ks ::= fun k => k <| files ::= <[fp := f]> |> |>.

Lemma fset_with {T} (g : file -> T) {S : Setter g} v w fp f : files (ks w) !! fp = Some f ->
  fset fp g v w = Ret tt (with_file fp (setf g (fun _ => v) f) w).
Proof using Type. apply (tmod_ok files). Qed.
Lemma files_with fp f w : is_Some (files (ks w) !! fp) -> files (ks (with_file fp f w)) !! fp = Some f.
Proof using Type. intros [? Hf]. apply list_lookup_insert_eq. by eapply lookup_lt_Some. Qed.
Lemma with_file_twice fp f f' w : with_file fp f' (with_file fp f w) = with_file fp f' w.
Proof using Type. destruct w as [? [] ?]. unfold with_file. cbn. do 2 f_equal. apply list_insert_insert_eq. Qed.

(** The end of [readp], after [readi]. *)
Definition readp_end (fp ip : nat) : KM (unit + unit) :=
  off <- uf u_offset ;;
  fset fp f_offset off ;;;
  off <- ff fp f_offset ;; size <- ipf ip i_size ;;
  when (off =? size)
    (fset fp f_offset 0 ;;;
     ipset ip i_size 0 ;;;
     m <- ipf ip i_mode ;;
     when (m &? IWRITE) (ipset ip i_mode (clr m IWRITE) ;;; wakeup (CInode ip 1))) ;;;
  prele ip ;;;
  ret (inr tt).

Lemma readp_end_ok w fp ip f r0 bn n q (m := if drained n q then i_mode r0 &? IWRITE else false) :
  files (ks w) !! fp = Some f -> inodes (ks w) !! ip = Some (read_entry false bn r0) ->
  0 < n -> i_size r0 = f_offset f + Z.of_nat (length q) -> u_offset (u w) = f_offset f + Z.min n (Z.of_nat (length q)) ->
  readp_end fp ip w = (when m (wakeup (CInode ip 1)) ;;; prele ip ;;; ret (inr tt))
    (with_inode ip (read_entry (drained n q) bn r0) (with_file fp (read_end (drained n q) (Z.min n (Z.of_nat (length q))) f) w)).
Proof using Type.
  intros Hf Hr Hn Hs Ho. set (o := u_offset (u w)) in *.
  assert (forall f', files (ks (with_file fp f' w)) !! fp = Some f') as Hwf by (intros; by apply files_with).
  unfold readp_end. erewrite bind_ret_eq by reflexivity. cbn beta. fold o.
  erewrite bind_ret_eq by (by apply fset_with). cbn beta. erewrite bind_ret_eq by (apply ff_ok, Hwf). cbn beta.
  set (w1 := with_file fp _ w). assert (inodes (ks w1) !! ip = Some (read_entry false bn r0)) as Hr1 by done.
  erewrite bind_ret_eq by (by apply ipf_ok). cbn beta. change (i_size (read_entry false bn r0)) with (i_size r0).
  cbn [f_offset setf]. unfold m, drained. clear m.
  assert ((o =? i_size r0) = bool_decide (drop (Z.to_nat n) q = [])) as ->.
  { assert (drop (Z.to_nat n) q = [] <-> (length q <= Z.to_nat n)%nat) as Hd.
    { split; [intros E; apply (f_equal length) in E; rewrite length_drop in E; cbn in E; lia|apply drop_ge]. }
    destruct (Z.eqb_spec o (i_size r0)); symmetry; [apply bool_decide_eq_true_2, Hd; lia|apply bool_decide_eq_false_2; rewrite Hd; lia]. }
  destruct (bool_decide _); cbn [when read_entry read_end].
  2: { erewrite !(bind_ret_eq (ret tt)) by reflexivity. cbn beta.
       change (with_file fp _ w) with (with_file fp (f <| f_offset := f_offset f + Z.min n (Z.of_nat (length q)) |>) w).
       rewrite <- Ho. change (with_file fp _ w) with w1. cbn [read_entry] in Hr1. by rewrite (with_inode_id ip _ w1 Hr1). }
  rewrite !bind_assoc. erewrite bind_ret_eq by (apply fset_with, Hwf). cbn beta. unfold w1. rewrite with_file_twice.
  change (setf f_offset _ (setf f_offset _ f)) with (f <| f_offset := 0 |>). set (w2 := with_file fp _ w).
  assert (inodes (ks w2) !! ip = Some (read_entry false bn r0)) as Hr2 by done.
  rewrite bind_assoc. erewrite bind_ret_eq by (by apply ipset_with). cbn beta.
  assert (forall r', inodes (ks (with_inode ip r' w2)) !! ip = Some r') as Hwi by (intros; by apply inodes_with).
  rewrite bind_assoc. erewrite bind_ret_eq by (apply ipf_ok, Hwi). cbn beta. cbn [i_mode setf read_entry accessed locked].
  destruct (i_mode r0 &? IWRITE); cbn [when]; [|by erewrite (bind_ret_eq (ret tt)) by reflexivity].
  rewrite bind_assoc. erewrite bind_ret_eq by (apply ipset_with, Hwi). cbn beta. by rewrite with_inode_twice.
Qed.

(** What moving bytes through a pipe changes: the arguments, the tables of
    inodes and files, the cache and the user's memory. *)
Definition piped (w w' : world) : Prop :=
  w' = w <| u ::= fun r => r <| u_count := u_count (u w') |> <| u_offset := u_offset (u w') |> <| u_base := u_base (u w') |> |>
         <| ks ::= fun k => k <| inodes := inodes (ks w') |> <| files := files (ks w') |> <| bufs := bufs (ks w') |>
              <| io_info := io_info (ks w') |> <| rablock := rablock (ks w') |> <| pl := pl (ks w') |> <| pmem := pmem (ks w') |> |>.

Lemma piped_trans w1 w2 w3 : piped w1 w2 -> piped w2 w3 -> piped w1 w3.
Proof using Type. unfold piped. intros E1 E2. rewrite E2 at 1. rewrite E1. by destruct w1 as [[] [] ?]. Qed.
Lemma piped_cache w w' : cache_only w w' -> piped w w'.
Proof using Type. intros [E _]. unfold piped, cache_frame in *. rewrite E. by destruct w as [[] [] ?]. Qed.
Lemma piped_inode w ip r : piped w (with_inode ip r w).
Proof using Type. unfold piped, with_inode. by destruct w as [[] [] ?]. Qed.
Lemma piped_file w fp f : piped w (with_file fp f w).
Proof using Type. unfold piped, with_file. by destruct w as [[] [] ?]. Qed.
Lemma piped_lastr w ip r bn : piped w (lastr_set ip r bn w).
Proof using Type. unfold piped, lastr_set. by destruct w as [[] [] ?]. Qed.
Lemma piped_offset w o : piped w (w <| u ::= fun us => us <| u_offset := o |> |>).
Proof using Type. unfold piped. by destruct w as [[] [] ?]. Qed.
Lemma piped_count w n : piped w (w <| u ::= fun us => us <| u_count := n |> |>).
Proof using Type. unfold piped. by destruct w as [[] [] ?]. Qed.
Lemma piped_advanced w n : piped w (advanced n w).
Proof using Type. unfold piped, advanced. by destruct w as [[] [] ?]. Qed.
Lemma piped_delivered w l : piped w (delivered w l).
Proof using Type.
  unfold delivered. destruct (u_base (u w)); [|unfold piped; by destruct w as [[] [] ?]].
  unfold piped, advanced, with_mem. by destruct w as [[] [] ?].
Qed.

Lemma piped_same w w' : piped w w' -> upt (ks w') = upt (ks w) /\
  (forall c l, undisturbed (ks w) c l -> undisturbed (ks w') c l) /\
  forall c l rq, sleepers (ks w) c l rq -> sleepers (ks w') c l rq.
Proof using Type.
  unfold piped. intros ->. split; [done|]. split; [|by intros c l rq []; constructor].
  intros c l. by apply undisturbed_same.
Qed.

(** Waking the other end, if it waits. *)
Lemma wake_then w1 c l rq (b : bool) : sleepers (ks w1) c l rq -> undisturbed (ks w1) c l ->
  exists k', when b (wakeup c) w1 = Ret tt (w1 <| ks := k' |>) /\
    (if b then wakes_up c [] l rq (ks w1) k' else k' = ks w1) /\
    inodes k' = inodes (ks w1) /\ files k' = files (ks w1) /\ bufs k' = bufs (ks w1) /\ env w1 = env (w1 <| ks := k' |>).
Proof using Type.
  intros Hs Ho. destruct b; cbn [when].
  - destruct (wakeup_ok 2 c w1 l rq Hs Ho) as (k' & E & Hw). exists k'. split; [exact E|]. split; [done|].
    pose proof (wu_frame _ _ _ _ _ _ Hw) as Hf. unfold queues_only in Hf. by rewrite Hf.
  - exists (ks w1). split; [by destruct w1|done].
Qed.

Lemma pipe_holds_same hi C w w' fp ip f r q : inodes (ks w') = inodes (ks w) -> files (ks w') = files (ks w) ->
  bufs (ks w') = bufs (ks w) -> pipe_holds hi C w fp ip f r q -> pipe_holds hi C w' fp ip f r q.
Proof using Type.
  intros Ei Ef Eb [? ? ? ? ? ? ? ? ? ? ? ? ?]. constructor; rewrite ?Ei, ?Ef; try done. by eapply resident_bufs.
Qed.

(** The world after [readi] of [l], as far as the rest of [readp] looks. *)
Lemma read_done_facts w ip r a l w' : asking dev w ip r a -> l <> [] -> u_offset (u w) + Z.of_nat (length l) < 2147483648 ->
  Z.of_nat (length l) <= u_count (u w) ->
  cache_only (read_done ip (accessed r) (with_inode ip (accessed r) w) l) w' ->
  inodes (ks w') !! ip = Some ((accessed r) <| i_lastr := (u_offset (u w) + Z.of_nat (length l) - 1) / 512 |>) /\
  u_offset (u w') = u_offset (u w) + Z.of_nat (length l) /\ u_count (u w') = u_count (u w) - Z.of_nat (length l) /\
  files (ks w') = files (ks w) /\ piped w w'.
Proof using Type.
  intros Ha Hne Ho Hc Hc0. pose proof Hc0 as Hw. pose proof (ak_off _ _ _ _ _ Ha). pose proof (ak_count _ _ _ _ _ Ha).
  unfold read_done in Hw. rewrite decide_False in Hw by done. unfold delivered in Hw.
  cbn [u u_base lastr_set with_inode setf] in Hw. rewrite (ak_base _ _ _ _ _ Ha) in Hw.
  destruct Hw as [Hw _]. unfold cache_frame in Hw. rewrite Hw.
  split; [|split; [|split; [|split; [done|]]]].
  - cbn. rewrite list_insert_insert_eq. apply list_lookup_insert_eq. eapply lookup_lt_Some, Ha.
  - cbn. apply s32_id. lia.
  - cbn. apply u32_id. lia.
  - rewrite <- Hw. eapply piped_trans; [apply piped_inode|]. eapply piped_trans; [|apply piped_cache; exact Hc0].
    unfold read_done. rewrite decide_False by done. eapply piped_trans; [apply piped_lastr|apply piped_delivered].
Qed.

Lemma ifmt_clr m : ifmt (clr m IWRITE) = ifmt m.
Proof using Type. by apply clr_keep. Qed.

(** The bytes left after a read. *)
Lemma pipe_after_read hi C w w' fp ip f r q n bn (l := take (Z.to_nat n) q) (d := drained n q) (r1 := unlocked (read_entry d bn r)) :
  pipe_holds hi C w fp ip f r q -> 0 < n -> resident C w' -> files (ks w') !! fp = Some (read_end d (Z.of_nat (length l)) f) ->
  inodes (ks w') !! ip = Some r1 ->
  pipe_holds hi C w' fp ip (read_end d (Z.of_nat (length l)) f) r1 (drop (Z.to_nat n) q).
Proof using Type.
  intros [HC Hf Hi Hr Hdv Hl Hty Hal Hso Ho Hs Hmx Hhi Hlast Hsp] Hn HC' Hf' Hr'.
  assert (length l = Nat.min (Z.to_nat n) (length q)) as Hll by apply length_take.
  assert (i_addr r1 = i_addr r) as Ea by (unfold r1; by destruct d).
  assert (i_flag r1 = s8 (clr (s8 (Z.lor (s8 (Z.lor (i_flag r) ILOCK)) IACC)) ILOCK)) as Efl by (unfold r1; by destruct d).
  assert (i_size r1 = if d then 0 else i_size r) as Esz by (unfold r1; by destruct d).
  constructor; rewrite ?Ea; try done.
  - unfold r1. by destruct d.
  - unfold r1. destruct d; [|done]. change (ifmt (if i_mode r &? IWRITE then clr (i_mode r) IWRITE else i_mode r) = IFREG).
    destruct (i_mode r &? IWRITE); [by rewrite ifmt_clr|done].
  - rewrite Efl. apply alone_marked; [by left|done].
  - unfold read_end. cbn. destruct d; lia.
  - rewrite length_drop, Esz. unfold read_end, d, drained. case_bool_decide as Hd; cbn; [|lia].
    apply (f_equal length) in Hd. rewrite length_drop in Hd. cbn in Hd. lia.
  - rewrite Esz. unfold room in *. destruct d; lia.
  - unfold read_end, d, drained. case_bool_decide as Hd; [by rewrite Hd; intros ? ? Hx|]. cbn.
    rewrite <- (take_drop (Z.to_nat n) q) in Hsp. by apply spells_app in Hsp as [_ ?].
Qed.

Lemma readp_ok hi C w fp ip f r q a n (l := take (Z.to_nat n) q) : pipe_holds hi C w fp ip f r q -> q <> [] ->
  asked w a n -> 0 < n < 4294967296 -> may_store (u w) (ks w) a (Z.of_nat (length l)) ->
  exists w1 r1, inodes (ks w1) !! ip = Some r1 /\
    readp fp w = (when (drained n q && (i_mode r &? IWRITE)) (wakeup (CInode ip 1)) ;;; prele ip ;;; ret tt) w1 /\
    pipe_holds hi C (with_inode ip (unlocked r1) w1) fp ip (read_end (drained n q) (Z.of_nat (length l)) f) (unlocked r1) (drop (Z.to_nat n) q) /\
    s8 (clr (i_flag r1) ILOCK) &? IWANT = false /\ u_count (u w1) = n - Z.of_nat (length l) /\ piped w w1 /\
    (distinct_pages (ks w) a (Z.of_nat (length l)) ->
     forall i c, l !! i = Some c -> ubyte (ks w1) (a + Z.of_nat i) = Some (u8 c)).
Proof using Hdev Hdp Hdf Hnd.
  intros [HC Hf Hi Hr Hdv Hl Hty Hal Hso Ho Hs Hmx Hhi Hlast Hsp] Hq [Hc Hb Hsg He] Hn Hms.
  assert (0 < length q)%nat as Hq0 by (destruct q; [done|cbn; lia]).
  assert (length l = Nat.min (Z.to_nat n) (length q)) as Hll by apply length_take.
  assert (l <> []) as Hl0 by (intros E; rewrite E in Hll; cbn in Hll; lia).
  set (w1 := with_inode ip (locked r) w). set (w2 := w1 <| u ::= fun us => us <| u_offset := f_offset f |> |>).
  assert (inodes (ks w2) !! ip = Some (locked r)) as Hr2 by (by apply inodes_with).
  assert (asking dev w2 ip (locked r) a) as Ha by (unfold room in Hmx; constructor; try done; cbn; lia).
  destruct (readi_ok MC dev dp hs H C w2 ip (locked r) a l) as (w3 & E3 & HC3 & Hw3); try done.
  { by eapply resident_bufs. }
  { by left. }
  { cbn. lia. }
  { cbn. lia. }
  { cbn. unfold l. rewrite <- (take_drop (Z.to_nat n) q) in Hsp. by apply spells_app in Hsp as [? _]. }
  { cbn. intros bn Hbn. apply (direct_ahead hi); [done..|]. unfold room in Hmx. split; [etrans; [|apply Hbn]; apply Z.div_pos; lia|].
    etrans; [apply Hbn|]. assert ((f_offset f + Z.of_nat (length l) - 1) / 512 < hi + 1) by (apply Z.div_lt_upper_bound; lia). lia. }
  { by apply (may_store_same (u w) (ks w)). }
  destruct (read_done_facts w2 ip (locked r) a l w3 Ha Hl0) as (Hr3 & Eo3 & Ec3 & Ef3 & Hp3);
    [unfold room in Hmx; cbn; lia|cbn; lia|exact Hw3|].
  set (bn := (u_offset (u w2) + Z.of_nat (length l) - 1) / 512) in Hr3. set (d := drained n q).
  set (w4 := with_file fp (read_end d (Z.of_nat (length l)) f) w3). set (r1 := read_entry d bn r).
  assert (Z.min n (Z.of_nat (length q)) = Z.of_nat (length l)) as Emin by lia.
  assert (piped w (with_inode ip r1 w4)) as Hpd.
  { eapply piped_trans; [apply (piped_inode w ip (locked r))|]. eapply piped_trans; [apply (piped_offset w1 (f_offset f))|].
    eapply piped_trans; [exact Hp3|]. eapply piped_trans; [apply piped_file|apply piped_inode]. }
  destruct (alone_marked (i_flag r) IACC ltac:(by left) Hal) as [Hal1 Hwn].
  assert (i_flag (unlocked r1) = s8 (clr (s8 (Z.lor (s8 (Z.lor (i_flag r) ILOCK)) IACC)) ILOCK)) as Efl by (unfold r1; by destruct d).
  exists (with_inode ip r1 w4), r1. split; [apply inodes_with; eexists; exact Hr3|]. split.
  - unfold readp. erewrite bind_ret_eq by (by apply ff_ok). cbn beta. unfold rounds. erewrite bind_ret_eq by reflexivity. cbn beta.
    rewrite Hi, loop_S. unfold readp_round.
    rewrite bind_assoc. erewrite bind_ret_eq by (apply plock_ok; [done|by apply alone_bit]). cbn beta. fold w1.
    rewrite bind_assoc. erewrite bind_ret_eq by (by apply ipf_ok). cbn beta. change (i_size (locked r)) with (i_size r).
    rewrite (proj2 (Z.eqb_neq _ 0)) by lia. rewrite bind_assoc. erewrite bind_ret_eq by (apply ff_ok; exact Hf). cbn beta.
    rewrite bind_assoc. erewrite bind_ret_eq by reflexivity. cbn beta. fold w2.
    rewrite bind_assoc. erewrite bind_ret_eq by exact E3. cbn beta. fold (readp_end fp ip).
    pose proof (readp_end_ok w3 fp ip f r bn n q) as Hend. cbv zeta in Hend. rewrite Emin in Hend.
    unfold bind at 1. rewrite Hend; [|by rewrite Ef3|done|lia|done|by rewrite Eo3]. fold d r1 w4.
    replace (if d then i_mode r &? IWRITE else false) with (d && (i_mode r &? IWRITE)) by (by destruct d).
    unfold bind. destruct (when _ _ _) as [[] ?| | | | |]; try done. by destruct (prele _ _).
  - split; [|split; [unfold unlocked in Efl; cbn in Efl; rewrite Efl; exact Hwn|split; [rewrite <- Hc; exact Ec3|split; [exact Hpd|]]]].
    + rewrite with_inode_twice. apply (pipe_after_read hi C w _ fp ip f r q n bn); [by constructor|lia|by eapply resident_bufs| |].
      * cbn. rewrite Ef3. apply list_lookup_insert_eq. by eapply lookup_lt_Some.
      * apply inodes_with. eexists. exact Hr3.
    + intros Hd i c Hc'. eapply (read_done_bytes dev w2 ip (locked r) a l w3); try done. by apply (may_store_same (u w) (ks w)).
Qed.

(** Waking and giving up the lock. *)
Lemma finish_end_ok w w1 ip r1 c ls rq (b : bool) : piped w w1 -> inodes (ks w1) !! ip = Some r1 ->
  s8 (clr (i_flag r1) ILOCK) &? IWANT = false -> sleepers (ks w) c ls rq -> undisturbed (ks w) c ls ->
  exists k', (when b (wakeup c) ;;; prele ip ;;; ret tt) w1 = Ret tt (with_inode ip (unlocked r1) (w1 <| ks := k' |>)) /\
    (if b then wakes_up c [] ls rq (ks w1) k' else k' = ks w1) /\
    inodes k' = inodes (ks w1) /\ files k' = files (ks w1) /\ bufs k' = bufs (ks w1).
Proof using Type.
  intros Hp Hr Hw Hs Ho. destruct (piped_same _ _ Hp) as (_ & Er & Hsl).
  destruct (wake_then w1 c ls rq b (Hsl _ _ _ Hs)) as (k' & E & Hk & Ei & Ef & Eb & _); [by apply Er|].
  exists k'. split; [|done]. erewrite bind_ret_eq by exact E. cbn beta.
  erewrite bind_ret_eq by (apply prele_ok; [cbn; by rewrite Ei|done]). done.
Qed.

(** ** Writing *)

Definition write_entry (r : inode) (n : Z) : inode :=
  written (locked r) (i_size r + n).
(** The entry once a waiting reader has been seen to. *)
Definition unasked (r : inode) : inode := r <| i_mode := if i_mode r &? IREAD then clr (i_mode r) IREAD else i_mode r |>.

(** After a round that wrote all there was, the next one ends the call. *)
Lemma writep_last w ip r : inodes (ks w) !! ip = Some r -> alone (i_flag r) ->
  writep_round ip 0 w = Ret (inr tt) (w <| u ::= fun us => us <| u_count := 0 |> |>).
Proof using Type.
  intros Hr Hal. unfold writep_round. erewrite bind_ret_eq by (apply plock_ok; [done|by apply alone_bit]). cbn beta. rewrite Z.eqb_refl.
  destruct (lock_flag (i_flag r)) as [E1 E2]; [apply Hal|by apply alone_bit|].
  erewrite bind_ret_eq by (apply prele_ok; [by apply inodes_with|cbn; rewrite E1; by apply alone_bit]). cbn beta.
  erewrite bind_ret_eq by reflexivity. rewrite with_inode_twice. unfold ret. f_equal.
  rewrite with_inode_id; [done|]. rewrite Hr. f_equal. cbn. rewrite E1. by destruct r.
Qed.

(** The queue of bytes after [l] has been written at its end. *)
Lemma spells_written hi C C' addrs off q l : 0 <= off -> off + Z.of_nat (length q) + Z.of_nat (length l) <= room hi ->
  wrote 0 hi addrs C C' (off + Z.of_nat (length q)) l -> spells C addrs off q -> spells C' addrs off (q ++ l).
Proof using Type.
  unfold room. intros Ho Hm Hw Hs i c Hi. pose proof (lookup_lt_Some _ _ _ Hi) as Hil. rewrite length_app in Hil.
  rewrite (wr_bytes _ _ _ _ _ _ _ Hw).
  - apply lookup_app_Some in Hi as [Hi|[Hl Hi]].
    + pose proof (lookup_lt_Some _ _ _ Hi). rewrite decide_False by lia. by apply Hs.
    + rewrite decide_True by lia. rewrite <- Hi. f_equal. lia.
  - split; [apply Z.div_pos; lia|]. assert ((off + Z.of_nat i) / 512 < hi + 1) by (apply Z.div_lt_upper_bound; lia). lia.
Qed.

Definition written_entry (r : inode) (n : Z) : inode := unasked (unlocked (write_entry r n)).

Lemma writep_round_ok hi C w ip r a l (n := Z.of_nat (length l)) : resident C w -> inodes (ks w) !! ip = Some r -> i_dev r = dev ->
  length (i_addr r) = 13%nat -> ifmt (i_mode r) = IFREG -> alone (i_flag r) -> sound C (i_addr r) 0 hi -> 2 <= i_count r ->
  0 <= i_size r < PIPSIZ -> asked w a n -> 0 < n <= PIPSIZ -> i_size r + n <= room hi -> may_load (ks w) a l ->
  exists w1 C', writep_round ip n w = (when (i_mode r &? IREAD) (wakeup (CInode ip 2)) ;;; ret (inl 0)) w1 /\
    inodes (ks w1) !! ip = Some (written_entry r n) /\ files (ks w1) = files (ks w) /\ resident C' w1 /\
    wrote 0 hi (i_addr r) C C' (i_size r) l /\ piped w w1 /\ u_error (u w1) = 0.
Proof using Hdev Hdp Hdf Hnd.
  intros HC Hr Hdv Hl Hty Hal Hso Hct Hsz [Hc Hb Hsg He] Hn Hmx Hml. unfold PIPSIZ, room in *.
  assert (l <> []) as Hl0 by (intros ->; cbn in n; lia).
  set (w1 := with_inode ip (locked r) w).
  set (w2 := w1 <| u ::= fun us => us <| u_offset := i_size r |> |> <| u ::= fun us => us <| u_count := n |> |>).
  assert (inodes (ks w2) !! ip = Some (locked r)) as Hr2 by (by apply inodes_with).
  assert (placed dev w2 ip (locked r)) as Ha by (constructor; try done; cbn; lia).
  destruct (writei_ok MC dev dp hs H C w2 ip (locked r) 0 hi l) as (w3 & C' & E3 & HC3 & Hw3 & _ & Ho3); try done.
  { by eapply resident_bufs. }
  { by left. }
  { cbn. lia. }
  { eapply supplies_user; [done|done|]. by apply (may_load_same (ks w)). }
  { apply Z.div_pos; cbn; lia. }
  { assert ((u_offset (u w2) + Z.of_nat (length l) - 1) / 512 < hi + 1) by (apply Z.div_lt_upper_bound; cbn; lia). lia. }
  change (u_offset (u w2)) with (i_size r) in *. fold n in Ho3. fold (write_entry r n) in Ho3.
  destruct (cache_only_same _ _ Ho3) as (Eu3 & Ei3 & _).
  assert (files (ks w3) = files (ks w)) as Ef3 by (by rewrite (proj1 Ho3)).
  assert (inodes (ks w3) !! ip = Some (write_entry r n)) as Hr3.
  { rewrite Ei3. apply (inodes_with ip (write_entry r n) w2). by eexists. }
  destruct (alone_marked (i_flag r) (Z.lor IUPD ICHG) ltac:(by right) Hal) as [Hal1 Hwn].
  set (w4 := with_inode ip (written_entry r n) w3).
  exists w4, C'. split; [|split; [apply inodes_with; by eexists|split; [exact Ef3|split; [by eapply resident_bufs|split; [done|split]]]]].
  - unfold writep_round. erewrite bind_ret_eq by (apply plock_ok; [done|by apply alone_bit]). cbn beta. fold w1.
    rewrite (proj2 (Z.eqb_neq n 0)) by lia. erewrite bind_ret_eq by (by apply ipf_ok, inodes_with). cbn beta.
    change (i_count (locked r)) with (i_count r). rewrite (proj2 (Z.ltb_ge _ 2)) by lia.
    erewrite bind_ret_eq by (by apply ipf_ok, inodes_with). cbn beta. change (i_size (locked r)) with (i_size r).
    unfold PIPSIZ. rewrite (proj2 (Z.leb_gt _ _)) by lia. erewrite bind_ret_eq by reflexivity. cbn beta zeta.
    assert (min n 4096 = n) as -> by (unfold min; rewrite !u32_id by lia; destruct (Z.ltb_spec n 4096); lia).
    erewrite bind_ret_eq by reflexivity. cbn beta. fold w2. erewrite bind_ret_eq by exact E3. cbn beta.
    erewrite bind_ret_eq by (apply prele_ok; [done|exact Hwn]). cbn beta.
    assert (forall r', inodes (ks (with_inode ip r' w3)) !! ip = Some r') as Hwi by (intros; apply inodes_with; by eexists).
    erewrite bind_ret_eq by (apply ipf_ok, Hwi). cbn beta. rewrite Z.sub_diag. change (s32 0) with 0.
    change (i_mode (unlocked (write_entry r n))) with (i_mode r). unfold w4, written_entry, unasked.
    change (i_mode (setf i_flag _ (write_entry r n))) with (i_mode r).
    change (i_mode (unlocked (write_entry r n))) with (i_mode r).
    destruct (i_mode r &? IREAD); cbn [when].
    + rewrite bind_assoc. erewrite bind_ret_eq by (apply ipset_with, Hwi). cbn beta. by rewrite with_inode_twice.
    + do 2 (erewrite (bind_ret_eq (ret tt)) by reflexivity). done.
  - eapply piped_trans; [apply (piped_inode w ip (locked r))|]. eapply piped_trans; [apply (piped_offset w1 (i_size r))|].
    eapply piped_trans; [|apply piped_inode]. eapply piped_trans; [|apply piped_cache; exact Ho3].
    eapply piped_trans; [apply (piped_count _ n)|]. eapply piped_trans; [apply (piped_inode _ ip (write_entry r n))|apply piped_advanced].
  - change (u w4) with (u w3). by rewrite Eu3.
Qed.
End Pipes.

(** C17. Reading a pipe that has bytes in it takes the first of them, as many
    as asked for, into the user's memory, and leaves the others in it in
    order; when it has been emptied the place of the next read is its
    beginning again, and exactly the writers waiting for room are woken.  (The
    swapper does not wait for something to bring in, or these writers are all
    in core: [undisturbed].) *)
Theorem readp_correct (MC : Machine) (dev : Z) (dp : bptr) (hs : list bptr) (H : bptr -> list bptr) (hi : Z) (C : gmap Z (list Z))
    (w : world) (fp ip : nat) (f : file) (r : inode) (q : list Z) (a n : Z) (ls rq : list nat) :
  on_dev dev dp -> dp ∈ hs -> dp <> Bfree -> dev <> NODEV ->
  pipe_holds dev dp hs H hi C w fp ip f r q -> q <> [] -> asked w a n -> 0 < n < 4294967296 ->
  let l := take (Z.to_nat n) q in let d := drained n q in
  may_store (u w) (ks w) a (Z.of_nat (length l)) ->
  sleepers (ks w) (CInode ip 1) ls rq -> undisturbed (ks w) (CInode ip 1) ls ->
  exists w1 k' r', let w' := with_inode ip r' (w1 <| ks := k' |>) in
    readp fp w = Ret tt w' /\
    pipe_holds dev dp hs H hi C w' fp ip (read_end d (Z.of_nat (length l)) f) r' (drop (Z.to_nat n) q) /\
    u_count (u w') = n - Z.of_nat (length l) /\ piped w w1 /\
    (if d && (i_mode r &? IWRITE) then wakes_up (CInode ip 1) [] ls rq (ks w1) k' else k' = ks w1) /\
    (distinct_pages (ks w) a (Z.of_nat (length l)) ->
     forall i c, l !! i = Some c -> ubyte (ks w1) (a + Z.of_nat i) = Some (u8 c)).
Proof.
  intros Hdev Hdp Hdf Hnd Hp Hq Ha Hn l d Hms Hsl Hro.
  destruct (readp_ok dev dp hs H Hdev Hdp Hdf Hnd hi C w fp ip f r q a n Hp Hq Ha Hn Hms)
    as (w1 & r1 & Hr1 & E & Hp1 & Hw & Hc & Hpd & Hb).
  destruct (finish_end_ok w w1 ip r1 (CInode ip 1) ls rq (d && (i_mode r &? IWRITE)) Hpd Hr1 Hw Hsl Hro)
    as (k' & E' & Hk & Ei & Ef & Eb).
  exists w1, k', (unlocked r1). cbv zeta. split; [by rewrite E|]. split; [|by split].
  eapply pipe_holds_same; [..|exact Hp1]; [|exact Ef|exact Eb]. cbn. by rewrite Ei.
Qed.

(** C18. Writing up to PIPSIZ bytes into a pipe that is not full and has a
    reader, within the blocks it has, puts them, all of them, behind those in
    it, and wakes exactly the readers waiting for bytes, if any have said so.
    (The swapper does not wait for something to bring in, or these readers
    are all in core.) *)
Theorem writep_correct (MC : Machine) (dev : Z) (dp : bptr) (hs : list bptr) (H : bptr -> list bptr) (hi : Z) (C : gmap Z (list Z))
    (w : world) (fp wfp ip : nat) (f wf : file) (r : inode) (q l : list Z) (a : Z) (ls rq : list nat) :
  on_dev dev dp -> dp ∈ hs -> dp <> Bfree -> dev <> NODEV ->
  pipe_holds dev dp hs H hi C w fp ip f r q -> files (ks w) !! wfp = Some wf -> f_inode wf = ip ->
  asked w a (Z.of_nat (length l)) -> 0 < Z.of_nat (length l) <= PIPSIZ -> 2 <= i_count r -> i_size r < PIPSIZ ->
  i_size r + Z.of_nat (length l) <= room hi -> may_load (ks w) a l ->
  sleepers (ks w) (CInode ip 2) ls rq -> undisturbed (ks w) (CInode ip 2) ls ->
  exists w1 k' C', let w' := w1 <| ks := k' |> <| u ::= fun us => us <| u_count := 0 |> |> in
    writep wfp w = Ret tt w' /\ u_error (u w') = 0 /\
    pipe_holds dev dp hs H hi C' w' fp ip f (written_entry r (Z.of_nat (length l))) (q ++ l) /\ piped w w1 /\
    (if i_mode r &? IREAD then wakes_up (CInode ip 2) [] ls rq (ks w1) k' else k' = ks w1).
Proof.
  intros Hdev Hdp Hdf Hnd Hp Hwf Hwi Ha Hl Hct Hsz Hmx Hml Hsl Hro.
  destruct Hp as [HC Hf Hi Hr Hdv Had Hty Hal Hso Ho Hs Hmax Hhi Hlast Hsp].
  destruct (writep_round_ok dev dp hs H Hdev Hdp Hdf Hnd hi C w ip r a l) as (w1 & C' & E1 & Hr1 & Ef1 & HC1 & Hw1 & Hpd & He1);
    try done; [lia|].
  destruct (piped_same _ _ Hpd) as (_ & Er & Hsl1).
  destruct (wake_then w1 (CInode ip 2) ls rq (i_mode r &? IREAD) (Hsl1 _ _ _ Hsl)) as (k' & E2 & Hk & Ei & Ef & Eb & _);
    [by apply Er|].
  destruct (alone_marked (i_flag r) (Z.lor IUPD ICHG) ltac:(by right) Hal) as [Hal1 _].
  exists w1, k', C'. cbv zeta. split; [|split; [exact He1|split; [|by split]]].
  - unfold writep. erewrite bind_ret_eq by (by apply ff_ok). cbn beta. rewrite Hwi.
    erewrite bind_ret_eq by reflexivity. cbn beta. rewrite (as_count _ _ _ Ha). unfold rounds. erewrite bind_ret_eq by reflexivity. cbn beta.
    set (x := Z.to_nat _). assert (exists y, (S (length (env w)) * S (S x) = S (S y))%nat) as [y ->] by (exists (x + length (env w) * S (S x))%nat; lia).
    unfold PIPSIZ in *. rewrite s32_id by lia. erewrite loop_next by (rewrite E1; erewrite bind_ret_eq by exact E2; reflexivity).
    apply loop_done, (writep_last _ ip (written_entry r (Z.of_nat (length l)))); [cbn; by rewrite Ei|exact Hal1].
  - constructor; try done.
    + by eapply resident_bufs.
    + cbn. by rewrite Ef, Ef1.
    + cbn. by rewrite Ei.
    + change (ifmt (if i_mode r &? IREAD then clr (i_mode r) IREAD else i_mode r) = IFREG).
      destruct (i_mode r &? IREAD); [|done]. rewrite <- Hty. by apply clr_keep.
    + exact (wr_sound _ _ _ _ _ _ _ Hw1).
    + change (Z.max (i_size r) (i_size r + Z.of_nat (length l)) = f_offset f + Z.of_nat (length (q ++ l))). rewrite length_app. lia.
    + change (Z.max (i_size r) (i_size r + Z.of_nat (length l)) <= room hi). lia.
    + apply (spells_written hi C); [done|lia| |done]. by rewrite <- Hs.
Qed.


(** A pipe with three bytes in block 7, the first of them read. *)
Definition pipe_block : list Z := splice 0 [104; 105; 10] (replicate 512 0).
Definition pipe_file : gmap Z (list Z) := {[ 7 := pipe_block ]}.
Definition pipe_entry : inode :=
  inode0 <| i_mode := IFREG |> <| i_count := 2 |> <| i_size := 3 |> <| i_addr := [7; 0; 0; 0; 0; 0; 0; 0; 0; 0; 0; 0; 0] |>.
Definition pipe_read : file := file0 <| f_offset := 1 |>.
Definition pipe_world (n : Z) : world :=
  setb (world0 <| u ::= fun r => r <| u_count := n |> <| u_base := UA 4096 |> |>
               <| ks ::= fun k => k <| inodes := [pipe_entry] |> <| files := [pipe_read; file0] |>
                                    <| upt := <[1%nat := 65543]> (replicate 1024 0) |>
                                    <| pmem := phys_write (fun _ => 0) (PHY + 65536) [111; 33] |> |>)
    (alter (fun b => b <| b_data := pipe_block |>) (Buf 1) idle_cache).

Lemma pipe_resident n : resident 0 (Dtab 0) two_heads two_bufs pipe_file (pipe_world n).
Proof.
  constructor.
  - exists [Buf 1; Buf 0]. change (bufs (ks (pipe_world n))) with (alter (fun b => b <| b_data := pipe_block |>) (Buf 1) idle_cache).
    small_cache.
  - eexists. by split.
  - eexists. by split.
  - intros m d Hm. unfold pipe_file in Hm. apply lookup_singleton_Some in Hm as [<- <-].
    exists (Buf 1). eexists. split; [right; left|]. by split.
Qed.

Lemma pipe_world_holds n : pipe_holds 0 (Dtab 0) two_heads two_bufs 0 pipe_file (pipe_world n) 0 0 pipe_read pipe_entry [105; 10].
Proof.
  constructor; try done; [apply pipe_resident| |].
  - constructor.
    + intros bn Hbn. assert (bn = 0) as -> by lia. by exists 7, pipe_block.
    + intros bn bn' z ? ?. lia.
    + intros bn bn' s es z _ Hbn' _. assert (bn' = 0) as -> by lia. intros [= <- <-]. apply not_elem_of_nil.
  - intros [|[|i]] c Hi; [..|done]; by injection Hi as <-.
Qed.

Lemma pipe_idle n c : @sleepers disk_machine (ks (pipe_world n)) c [] [].
Proof.
  constructor; [done| |constructor|by intros ? ? ?%elem_of_nil].
  exists None. by split.
Qed.

Lemma readp_correct_witness : exists w' r', @readp disk_machine 0 (pipe_world 10) = Ret tt w' /\
  pipe_holds 0 (Dtab 0) two_heads two_bufs 0 pipe_file w' 0 0 file0 r' [] /\ u_count (u w') = 8.
Proof.
  destruct (readp_correct disk_machine 0 (Dtab 0) two_heads two_bufs 0 pipe_file (pipe_world 10) 0 0 pipe_read pipe_entry [105; 10]
    4096 10 [] []) as (w1 & k' & r' & E & Hp & Hc & _).
  - split; [done|]. by eexists.
  - right. left.
  - done.
  - done.
  - apply pipe_world_holds.
  - done.
  - done.
  - done.
  - constructor; [done..|]. intros i Hi. change (4096 <= i < 4098) in Hi. assert (i = 4096 \/ i = 4097) as [-> | ->] by lia; by eexists.
  - apply pipe_idle.
  - by left.
  - eexists _, r'. split; [exact E|]. by split.
Defined.

Lemma writep_correct_witness : exists w' C' r', @writep disk_machine 1 (pipe_world 2) = Ret tt w' /\
  pipe_holds 0 (Dtab 0) two_heads two_bufs 0 C' w' 0 0 pipe_read r' [105; 10; 111; 33].
Proof.
  destruct (writep_correct disk_machine 0 (Dtab 0) two_heads two_bufs 0 pipe_file (pipe_world 2) 0 1 0 pipe_read file0 pipe_entry [105; 10]
    [111; 33] 4096 [] []) as (w1 & k' & C' & E & _ & Hp & _).
  - split; [done|]. by eexists.
  - right. left.
  - done.
  - done.
  - apply pipe_world_holds.
  - done.
  - done.
  - done.
  - done.
  - done.
  - done.
  - done.
  - constructor; [done|done|by repeat constructor|]. intros [|[|i]] c Hi; [..|done]; by injection Hi as <-.
  - apply pipe_idle.
  - by left.
  - eexists _, C', _. split; [exact E|exact Hp].
Defined.
