(* ===== verification/Entries.v ===== *)
(** * Entries: making a directory entry

    [wdir] of [sys/iget.c] over the writing of [Writes] and the search of
    [Dirs]: the name [namei] did not find is found from then on, and leads to
    the new file. *)

From S2P Require Import Prelude Bytes State Utab Sched Bio Cache Alloc Inode Rdwri Blocks Files Writes Nami Dirs Paths Fio Pipes.

(** The entry of [name] for inode [ino], and the entries with it as number
    [k], which may be one more than there were. *)
Definition entry_for (ino : Z) (name : list Z) : list Z := bytes_of 2 ino ++ name.
Definition enter (k : nat) (e : list Z) (dents : list (list Z)) : list (list Z) := take k dents ++ e :: drop (S k) dents.
(** Where the search for a new name leaves off: at the first free entry, or
    at the end. *)
Definition free_slot_of (dents : list (list Z)) : nat :=
  match free_entry dents with Some (k, _) => k | None => length dents end.

Lemma free_slot_bound dents : (free_slot_of dents <= length dents)%nat.
Proof.
  unfold free_slot_of, free_entry. destruct (list_find _ dents) as [[k d]|] eqn:E; [|done].
  apply list_find_Some in E as (E & _). apply lookup_lt_Some in E. lia.
Qed.

Lemma lookup_enter k e dents j : (k <= length dents)%nat ->
  enter k e dents !! j = if decide (j = k) then Some e else dents !! j.
Proof.
  intros Hk. unfold enter. assert (length (take k dents) = k) as Hl by (rewrite length_take; lia).
  destruct (decide (j = k)) as [->|Hne].
  - by rewrite list_lookup_middle by done.
  - destruct (Nat.lt_ge_cases j k).
    + rewrite lookup_app_l by lia. by rewrite lookup_take_lt by done.
    + rewrite lookup_app_r, Hl by lia. replace (j - k)%nat with (S (j - S k)) by lia.
      change (drop (S k) dents !! (j - S k)%nat = dents !! j). rewrite lookup_drop. f_equal. lia.
Qed.
Lemma length_enter k e dents : (k <= length dents)%nat -> length (enter k e dents) = Nat.max (length dents) (S k).
Proof. intros Hk. unfold enter. rewrite length_app, length_take. cbn [length]. rewrite length_drop. lia. Qed.

Lemma entry_for_ino ino name : 0 <= ino < 65536 -> rdf d_ino (entry_for ino name) = ino.
Proof.
  intros Hi. unfold rdf, entry_for. change (u16 (leval (take 2 (bytes_of 2 ino ++ name))) = ino).
  rewrite take_app_length' by (by rewrite length_bytes_of). rewrite leval_bytes_of. change (256 ^ Z.of_nat 2) with 65536. rewrite Z.mod_small by lia. by apply u16_id.
Qed.
Lemma entry_for_name ino name : drop 2 (entry_for ino name) = name.
Proof. unfold entry_for. by rewrite drop_app_length' by (by rewrite length_bytes_of). Qed.

(** The entry made is the one found under its name, and the other names lead
    where they did. *)
Lemma entry_of_enter name ino dents : 0 < ino < 65536 -> entry_of name dents = None ->
  let k := free_slot_of dents in
  entry_of name (enter k (entry_for ino name) dents) = Some (k, entry_for ino name) /\
  forall other, other <> name -> entry_of other (enter k (entry_for ino name) dents) = entry_of other dents.
Proof.
  intros Hi Hno. cbv zeta. set (k := free_slot_of dents). pose proof (free_slot_bound dents) as Hk. fold k in Hk.
  set (e := entry_for ino name). pose proof (entry_for_ino ino name ltac:(lia)) as Ei. pose proof (entry_for_name ino name) as En. fold e in Ei, En.
  unfold entry_of in *. rewrite list_find_None, Forall_lookup in Hno. split.
  - apply list_find_Some. rewrite lookup_enter, decide_True by done. split; [done|]. rewrite Ei, En. split; [split; [lia|done]|].
    intros j d Hj Hlt. rewrite lookup_enter, decide_False in Hj by (done || lia). by eapply Hno.
  - intros other Hne.
    assert (forall d, dents !! k = Some d -> rdf d_ino d = 0) as Hfree.
    { intros d Hd. unfold k, free_slot_of, free_entry in Hd. destruct (list_find _ dents) as [[j x]|] eqn:E.
      - apply list_find_Some in E as (E & E0 & _). congruence.
      - apply lookup_lt_Some in Hd. lia. }
    destruct (list_find (fun d => rdf d_ino d <> 0 /\ other = drop 2 d) dents) as [[j x]|] eqn:E.
    + apply list_find_Some in E as (Ej & [E1 E2] & E3). apply list_find_Some.
      assert (j <> k) as Hjk by (intros ->; by rewrite (Hfree x Ej) in E1).
      rewrite lookup_enter, decide_False by done. split; [done|]. split; [done|].
      intros i y Hy Hlt. rewrite lookup_enter in Hy by done. destruct (decide (i = k)) as [->|Hik]; [|by eapply E3].
      injection Hy as <-. rewrite En. intros [_ ?]. done.
    + rewrite list_find_None, Forall_lookup in E. apply list_find_None, Forall_lookup. intros i y Hy.
      rewrite lookup_enter in Hy by done. destruct (decide (i = k)) as [->|Hik]; [|by eapply E].
      injection Hy as <-. rewrite En. intros [_ ?]. done.
Qed.

(** ** The bytes written *)

(** The directory after its entry [k] has been written. *)
Lemma directory_entered C C' r dents k e lo hi o : directory C r dents -> (k <= length dents)%nat -> length e = 16%nat ->
  lo <= 0 -> i_size r / 512 <= hi -> 16 * Z.of_nat k + 16 < 2147483648 ->
  wrote lo hi (i_addr r) C C' (16 * Z.of_nat k) e -> o = 16 * Z.of_nat k + 16 ->
  directory C' (written r o) (enter k e dents).
Proof.
  intros [Hsz Hsm Hal He] Hk Hle Hlo Hhi Hmax Hw ->.
  assert (forall j, (j <= length dents)%nat -> forall i, (i < 16)%nat -> (j < length dents)%nat \/ j = k ->
    lo <= (16 * Z.of_nat j + Z.of_nat i) / 512 <= hi) as Hin.
  { intros j Hj i Hi _. split; [etrans; [exact Hlo|]; apply Z.div_pos; lia|].
    etrans; [|exact Hhi]. rewrite Hsz.
    assert ((16 * Z.of_nat j + Z.of_nat i) / 512 = (16 * Z.of_nat j) / 512) as ->.
    { rewrite <- (Z.mul_1_r 512) at 1. change (512 * 1) with (16 * 32). change 512 with (16 * 32). 
      rewrite <- !Z.div_div by lia. rewrite (Z.mul_comm 16 (Z.of_nat j)), Z.div_add_l, Z.div_mul by lia.
      by rewrite (Z.div_small (Z.of_nat i)), Z.add_0_r by lia. }
    apply Z.div_le_mono; lia. }
  constructor.
  - unfold written. cbn [i_size setf]. rewrite Hsz, length_enter by done. lia.
  - unfold written. cbn [i_size setf]. lia.
  - done.
  - change (i_addr (written r _)) with (i_addr r). intros j d Hj. rewrite lookup_enter in Hj by done.
    destruct (decide (j = k)) as [->|Hne].
    + injection Hj as <-. split; [done|]. intros i c Hi. pose proof (lookup_lt_Some _ _ _ Hi).
      rewrite (wr_bytes _ _ _ _ _ _ _ Hw) by (apply Hin; [done|lia|by right]).
      rewrite decide_True by lia. by replace (Z.to_nat _) with i by lia.
    + destruct (He j d Hj) as [Hd Hs]. pose proof (lookup_lt_Some _ _ _ Hj). split; [done|]. intros i c Hi. pose proof (lookup_lt_Some _ _ _ Hi).
      rewrite (wr_bytes _ _ _ _ _ _ _ Hw) by (apply Hin; [lia|lia|by left]).
      rewrite decide_False by lia. by apply Hs.
Qed.

(** ** [wdir] *)

(** The directory's entry in the inode table after a write up to [o] by
    somebody else's reference. *)
Definition shared (r : inode) (o : Z) : inode := (unlocked (written (locked r) o)) <| i_count := i_count r - 1 |>.

(** What [namei] leaves for [wdir]: the directory locked, one of at least two
    references to it being ours, the name not in it, the offset at a free
    entry whose block, like the others, is in place. *)
Record ready_for (dev : Z) (C : gmap Z (list Z)) (w : world) (r : inode) (dents : list (list Z)) (hi : Z) : Prop := {
  rf_entry : inodes (ks w) !! u_pdir (u w) = Some (locked r); rf_dev : i_dev r = dev; rf_dir : ifmt (i_mode r) = IFDIR;
  rf_alone : alone (i_flag r); rf_count : 2 <= i_count r < 128; rf_links : 0 < i_nlink r;
  rf_dents : directory C r dents; rf_sound : sound C (i_addr r) 0 hi; rf_hi : i_size r / 512 <= hi;
  rf_offset : u_offset (u w) = 16 * Z.of_nat (free_slot_of dents); rf_max : u_offset (u w) + 16 < 2147483648;
  rf_new : entry_of (u_dbuf (u w)) dents = None;
  rf_name : length (u_dbuf (u w)) = 14%nat; rf_chars : Forall byte (u_dbuf (u w));
  rf_dent : length (u_dent (u w)) = 16%nat; rf_error : u_error (u w) = 0
}.

Lemma dent_bytes name ino (d : list Z) : length d = 16%nat -> length name = 14%nat ->
  splice 2 (take DIRSIZ name) (wrf d_ino ino d) = entry_for ino name.
Proof.
  intros Hd Hn. rewrite take_ge by (unfold DIRSIZ; lia). unfold wrf, entry_for.
  change (width (f_ty d_ino)) with 2%nat. change (f_off d_ino) with 0%nat.
  assert (exists x y, bytes_of 2 ino = [x; y]) as (x & y & ->) by (by eexists _, _).
  destruct d as [|a [|b d]]; try done. unfold splice. cbn [length take app drop Nat.add].
  cbn [length] in Hd. rewrite take_0, drop_0, (drop_ge d) by lia. cbn [app]. by rewrite app_nil_r.
Qed.

Section Entries.
Context {MC : Machine} (dev : Z) (dp : bptr) (hs : list bptr) (H : bptr -> list bptr).
Context (Hdev : on_dev dev dp) (Hdp : dp ∈ hs) (Hdf : dp <> Bfree) (Hnd : dev <> NODEV).

Abbreviation resident := (resident dev dp hs H).

(** Letting go of an inode that others still refer to. *)
Lemma iput_shared w ip r o : inodes (ks w) !! ip = Some (written (locked r) o) -> alone (i_flag r) -> 2 <= i_count r < 128 ->
  iput ip w = Ret tt (with_inode ip (shared r o) w).
Proof using Type.
  intros Hr Hal Hc. destruct (alone_marked (i_flag r) (Z.lor IUPD ICHG) ltac:(by right) Hal) as [_ Hw].
  unfold iput. erewrite bind_ret_eq by (by apply ipf_ok). cbn beta.
  change (i_count (written (locked r) o)) with (i_count r). rewrite (proj2 (Z.eqb_neq _ 1)) by lia. cbn [when].
  erewrite bind_ret_eq by reflexivity. cbn beta. erewrite bind_ret_eq by (by apply ipf_ok). cbn beta.
  change (i_count (written (locked r) o)) with (i_count r). rewrite (s8_id (i_count r - 1)) by lia.
  erewrite bind_ret_eq by (by apply ipset_with). cbn beta.
  erewrite prele_ok; cycle 1; [apply inodes_with; by eexists|exact Hw|by rewrite with_inode_twice].
Qed.

(** The bytes of the entry written, up to where [iput] is called. *)
Lemma wdir_write C w ip ri r dents hi (e := entry_for (i_number ri) (u_dbuf (u w))) : resident C w -> ready_for dev C w r dents hi ->
  inodes (ks w) !! ip = Some ri ->
  exists w1 C', wdir ip w = iput (u_pdir (u w)) w1 /\ resident C' w1 /\
    wrote 0 hi (i_addr r) C C' (u_offset (u w)) e /\
    inodes (ks w1) = <[u_pdir (u w) := written (locked r) (u_offset (u w) + 16)]> (inodes (ks w)).
Proof using Hdev Hdp Hdf Hnd.
  intros HC R Hip. destruct R as [Hr Hdv Hty Hal Hct Hln Hdir Hso Hhi Hoff Hmax Hnew Hname Hch Hdent He]. set (pd := u_pdir (u w)) in *.
  assert (length e = 16%nat) as Hle by (unfold e, entry_for; rewrite length_app, length_bytes_of, Hname; done).
  set (w0 := w <| u ::= fun us => us <| u_dent := e |> <| u_count := 16 |> <| u_segflg := 1 |> <| u_base := KA ODent 0 |> |>).
  assert (placed dev w0 pd (locked r)) as Hpl.
  { destruct Hdir. constructor; try done; cbn; lia. }
  assert (supplies (u w0) (ks w0) e) as Hsu.
  { assert (Forall byte e) as Hb by (apply Forall_app; split; [apply bytes_of_byte|exact Hch]).
    unfold supplies. change (u_base (u w0)) with (KA ODent 0). cbn match. do 2 (split; [done|]). split; [exact Hb|by intros i c Hi]. }
  assert (16 * Z.of_nat (free_slot_of dents) / 512 <= hi) as Hlast.
  { destruct Hdir. etrans; [|exact Hhi]. apply Z.div_le_mono; [lia|]. pose proof (free_slot_bound dents). lia. }
  destruct (writei_ok MC dev dp hs H C w0 pd (locked r) 0 hi e) as (w1 & C' & E & HC' & Hw & _ & Ho); try done.
  - by eapply resident_bufs.
  - by right.
  - by rewrite Hle.
  - rewrite Hle. change (u_offset (u w0)) with (u_offset (u w)). lia.
  - change (u_offset (u w0)) with (u_offset (u w)). apply Z.div_pos; lia.
  - change (u_offset (u w0)) with (u_offset (u w)). rewrite Hle, Hoff. etrans; [|exact Hlast].
    set (s := Z.of_nat (free_slot_of dents)). replace (16 * s + Z.of_nat 16 - 1) with (16 * s + 15) by lia.
    change 512 with (16 * 32). rewrite <- !Z.div_div by lia. rewrite (Z.mul_comm 16 s), Z.div_add_l, Z.div_mul by lia. change (15 / 16) with 0. by rewrite Z.add_0_r.
  - change (u_offset (u w0)) with (u_offset (u w)) in Hw, Ho. rewrite Hle in Ho. destruct (cache_only_same _ _ Ho) as (Eu1 & Ei1 & _).
    exists w1, C'. split; [|split; [done|split; [done|by rewrite Ei1]]].
    unfold wdir. erewrite bind_ret_eq by reflexivity. cbn beta. fold pd.
    erewrite bind_ret_eq by (by apply ipf_ok). cbn beta. change (i_nlink (locked r)) with (i_nlink r).
    rewrite (proj2 (Z.leb_gt _ _)) by lia.
    erewrite (bind_ret_eq _ _ w tt w1).
    { erewrite bind_ret_eq by reflexivity. by rewrite Eu1. }
    erewrite bind_ret_eq by (by apply ipf_ok). cbn beta. erewrite bind_ret_eq by reflexivity. cbn beta.
    do 4 (erewrite bind_ret_eq by reflexivity; cbn beta). rewrite <- E. f_equal. unfold w0, e. rewrite <- dent_bytes with (d := u_dent (u w)) by done.
    by destruct w as [[] ? ?].
Qed.
End Entries.

(** C16. [wdir], called where [namei] did not find the name of a new file, makes
    its entry: the directory then has exactly the entries it had, with one
    for the name and the file's number in the first free place or at the end;
    a search for the name finds the file from then on, and any other name
    leads where it did. *)
Theorem wdir_correct (MC : Machine) (dev : Z) (dp : bptr) (hs : list bptr) (H : bptr -> list bptr)
    (C : gmap Z (list Z)) (w : world) (ip : nat) (ri r : inode) (dents : list (list Z)) (hi : Z) :
  on_dev dev dp -> dp ∈ hs -> dp <> Bfree -> dev <> NODEV -> resident dev dp hs H C w ->
  ready_for dev C w r dents hi -> inodes (ks w) !! ip = Some ri -> 0 < i_number ri < 65536 ->
  let pd := u_pdir (u w) in let name := u_dbuf (u w) in
  let r' := shared r (u_offset (u w) + 16) in
  let dents' := enter (free_slot_of dents) (entry_for (i_number ri) name) dents in
  exists w' C', wdir ip w = Ret tt w' /\ resident dev dp hs H C' w' /\
    inodes (ks w') = <[pd := r']> (inodes (ks w)) /\ directory C' r' dents' /\
    (forall w2 flag c, resident dev dp hs H C' w2 -> inodes (ks w2) !! pd = Some r' -> u_dbuf (u w2) = name ->
      exists w3, dir_search pd flag c w2 = Ret DMatch w3 /\ resident dev dp hs H C' w3 /\ rdf d_ino (u_dent (u w3)) = i_number ri) /\
    forall other, other <> name -> entry_of other dents' = entry_of other dents.
Proof.
  intros Hdev Hdp Hdf Hnd HC R Hip Hno pd name r' dents'.
  destruct (wdir_write dev dp hs H Hdev Hdp Hdf Hnd C w ip ri r dents hi HC R Hip) as (w1 & C' & E & HC' & Hw & Ei).
  fold pd name in E, Hw, Ei. pose proof (free_slot_bound dents) as Hk. destruct (entry_of_enter name (i_number ri) dents Hno (rf_new _ _ _ _ _ _ R)) as [Hfind Hother].
  fold dents' in Hfind, Hother.
  assert (inodes (ks w1) !! pd = Some (written (locked r) (u_offset (u w) + 16))) as Hr1.
  { rewrite Ei. apply list_lookup_insert_eq. eapply lookup_lt_Some, R. }
  assert (directory C' r' dents') as Hdir.
  { pose proof (directory_entered C C' r dents (free_slot_of dents) (entry_for (i_number ri) name) 0 hi (u_offset (u w) + 16) (rf_dents _ _ _ _ _ _ R) Hk) as Hd.
    rewrite <- (rf_offset _ _ _ _ _ _ R) in Hd. destruct Hd as [H1 H2 H3 H4].
    { unfold entry_for. pose proof (rf_name _ _ _ _ _ _ R) as Hn. fold name in Hn. by rewrite length_app, length_bytes_of, Hn. }
    { done. }
    { apply R. }
    { apply R. }
    { exact Hw. }
    { done. }
    by constructor. }
  exists (with_inode pd r' w1), C'. split; [|split; [|split; [|split; [done|split; [|done]]]]].
  - rewrite E. by apply iput_shared; try apply R.
  - by eapply resident_bufs.
  - change (inodes (ks (with_inode pd r' w1))) with (<[pd := r']> (inodes (ks w1))). rewrite Ei. apply list_insert_insert_eq.
  - intros w2 flag c HC2 Hr2 En2.
    pose proof (dir_search_ok dev dp hs H C' Hdev Hdp Hdf Hnd w2 pd r' dents' flag c HC2 Hr2 (rf_dev _ _ _ _ _ _ R) Hdir) as Hs.
    cbv zeta in Hs. rewrite En2, Hfind in Hs. destruct Hs as (w3 & E3 & HC3 & Ho3). exists w3. split; [done|]. split; [done|].
    destruct (cache_only_same _ _ Ho3) as (-> & _). apply (entry_for_ino (i_number ri) name). lia.
Qed.

(** ** A concrete entry: the directory of [Dirs] gets a third name *)

Definition new_name : list Z := [110; 101; 119] ++ replicate 11 0.
Definition shared_home : inode := home_inode <| i_count := 2 |> <| i_nlink := 2 |>.
Definition making_world : world :=
  setb (world0 <| u ::= fun us => us <| u_dbuf := new_name |> <| u_dent := replicate 16 0 |> <| u_offset := 16 |> <| u_pdir := 0%nat |> |>
               <| ks ::= fun k => k <| inodes := [locked shared_home; inode0 <| i_number := 31 |>] |> |>)
    (alter (fun b => b <| b_data := home_block |>) (Buf 1) idle_cache).

Lemma home_sound : sound home_blocks (i_addr shared_home) 0 0.
Proof.
  constructor.
  - intros bn Hbn. assert (bn = 0) as -> by lia. by exists 7, home_block.
  - intros bn bn' z ? ?. lia.
  - intros bn bn' s es z _ Hbn' _. assert (bn' = 0) as -> by lia. intros [= <- <-]. apply not_elem_of_nil.
Qed.

Lemma making_ready : ready_for 0 home_blocks making_world shared_home home_dents 0.
Proof.
  assert (directory home_blocks shared_home home_dents) as Hd by (destruct home_directory; by constructor).
  constructor; try exact Hd; try exact home_sound; try done; repeat constructor; done.
Qed.

Lemma wdir_correct_witness : exists w' C', @wdir disk_machine 1 making_world = Ret tt w' /\
  directory C' (shared shared_home 32) [dent 2 [46]; entry_for 31 new_name; dent 30 [104; 105]] /\
  exists w3, @dir_search disk_machine 0 0 0 (named new_name w') = Ret DMatch w3 /\ rdf d_ino (u_dent (u w3)) = 31.
Proof.
  destruct (wdir_correct disk_machine 0 (Dtab 0) two_heads two_bufs home_blocks making_world 1 (inode0 <| i_number := 31 |>) shared_home home_dents 0)
    as (w' & C' & E & HC' & Ei & Hd & Hf & _).
  - split; [done|]. by eexists.
  - right. left.
  - done.
  - done.
  - exact (resident_bufs 0 (Dtab 0) two_heads two_bufs home_blocks (home_world []) making_world (home_resident []) eq_refl).
  - exact making_ready.
  - done.
  - done.
  - exists w', C'. split; [exact E|]. split; [exact Hd|].
    destruct (Hf (named new_name w') 0 0) as (w3 & E3 & _ & Hn).
    + exact (resident_bufs 0 (Dtab 0) two_heads two_bufs C' w' (named new_name w') HC' eq_refl).
    + change (inodes (ks (named new_name w'))) with (inodes (ks w')). by rewrite Ei.
    + done.
    + exists w3. split; [exact E3|exact Hn].
Defined.
