(* ===== verification/SysFile.v ===== *)
(** * SysFile: the system calls on files ([sys/sys2.c], [sys/sys3.c])

    A system call finds its arguments in [u_arg] and leaves its results in
    [u_r] and [u_error]. *)

From S2P Require Import Prelude Bytes State Utab Sched Bio Alloc Inode Rdwri Text Nami Fio.

(** Argument [i] of the call, and a store into it. *)
Definition arg (i : nat) : KM Z := l <- uf u_arg ;; the (l !! i).
Definition set_arg (i : nat) (v : Z) : KM unit := arg i ;;; umod (fun r => r <| u_arg ::= <[i := v]> |>).

Section SysFile.
Context {MC : Machine}.

(** ** [sys2.c] *)

(** The modes of character and block special files, multiplexed or not, have
    this bit. *)
Definition special (mode : Z) : bool := mode &? Z.land IFCHR IFBLK.

Definition rdwr_file (fp : nat) (mode count : Z) : KM unit :=
  ip <- ff fp f_inode ;;
  fl <- ff fp f_flag ;;
  (if fl &? FMP then uset u_offset 0 else off <- ff fp f_offset ;; uset u_offset off) ;;;
  m <- ipf ip i_mode ;;
  when (negb (special m)) (plock ip) ;;;
  (if mode =? FREAD then readi ip else writei ip) ;;;
  m <- ipf ip i_mode ;;
  when (negb (special m)) (prele ip) ;;;
  fl <- ff fp f_flag ;;
  when (negb (fl &? FMP))
    (off <- ff fp f_offset ;; left <- uf u_count ;;
     fset fp f_offset (s32 (off + (count - left)))).

Definition rdwr (mode : Z) : KM unit :=
  fdes <- arg 0 ;; cbuf <- arg 1 ;; count <- arg 2 ;;
  o <- getf fdes ;;
  match o with
  | None => ret tt
  | Some fp =>
      fl <- ff fp f_flag ;;
      if negb (fl &? mode) then set_error EBADF
      else
        uset u_base (UA (u32 cbuf)) ;;;
        uset u_count (u32 count) ;;;
        uset u_segflg 0 ;;;
        (if fl &? FPIPE then if mode =? FREAD then readp fp else writep fp
         else rdwr_file fp mode (u32 count)) ;;;
        left <- uf u_count ;;
        uset u_r_val1 (s32 (u32 count - left))
  end.
Definition read : KM unit := rdwr FREAD.
Definition write : KM unit := rdwr FWRITE.

(** [trf] is 0 from open, 1 from creat of an old file, 2 of a new one. *)
Definition open1 (ip : nat) (mode trf : Z) : KM unit :=
  when (negb (trf =? 2))
    (when (mode &? FREAD) (access ip IREAD ;;; ret tt) ;;;
     when (mode &? FWRITE)
       (access ip IWRITE ;;;
        m <- ipf ip i_mode ;;
        when (ifmt m =? IFDIR) (set_error EISDIR))) ;;;
  err <- uf u_error ;;
  if tst err then iput ip
  else
    when (trf =? 1) (itrunc ip) ;;;
    prele ip ;;;
    o <- falloc ;;
    match o with
    | None => iput ip
    | Some fp =>
        fset fp f_flag (Z.land mode (Z.lor FREAD FWRITE)) ;;;
        fset fp f_inode ip ;;;
        i <- uf u_r_val1 ;;
        openi ip (Z.land mode FWRITE) ;;;
        err <- uf u_error ;;
        if err =? 0 then ret tt
        else
          umod (fun r => r <| u_ofile ::= <[Z.to_nat i := None]> |>) ;;;
          c <- ff fp f_count ;; fset fp f_count (s8 (c - 1)) ;;;
          iput ip
    end.

Definition open : KM unit :=
  o <- namei uchar 0 ;;
  match o with
  | None => ret tt
  | Some ip =>
      m <- arg 1 ;; set_arg 1 (s32 (m + 1)) ;;;
      open1 ip (s32 (m + 1)) 0
  end.

Definition creat : KM unit :=
  o <- namei uchar 1 ;;
  match o with
  | None =>
      err <- uf u_error ;;
      if tst err then ret tt
      else
        fmode <- arg 1 ;;
        o <- maknode (clr (Z.land fmode 4095) ISVTX) ;;
        match o with
        | None => ret tt
        | Some ip => open1 ip FWRITE 2
        end
  | Some ip => open1 ip FWRITE 1
  end.

Definition close : KM unit :=
  fdes <- arg 0 ;;
  o <- getf fdes ;;
  match o with
  | None => ret tt
  | Some fp =>
      umod (fun r => r <| u_ofile ::= <[Z.to_nat fdes := None]> |>) ;;;
      closef (Some fp)
  end.

Definition seek : KM unit :=
  fdes <- arg 0 ;;
  o <- getf fdes ;;
  match o with
  | None => ret tt
  | Some fp =>
      fl <- ff fp f_flag ;;
      if fl &? Z.lor FPIPE FMP then set_error ESPIPE
      else
        off <- arg 1 ;; sbase <- arg 2 ;;
        cur <- ff fp f_offset ;;
        ip <- ff fp f_inode ;;
        off <- (if sbase =? 1 then ret (s32 (off + cur))
                else if sbase =? 2 then size <- ipf ip i_size ;; ret (s32 (off + size))
                else ret off) ;;
        set_arg 1 off ;;;
        fset fp f_offset off ;;;
        uset u_r_val1 off
  end.

(** [link] after the permission check on the target. *)
Definition link_name (ip : nat) : KM unit :=
  prele ip ;;;
  name <- arg 1 ;; uset u_dirp name ;;;
  o <- namei uchar 1 ;;
  match o with
  | Some xp => set_error EEXIST ;;; iput xp
  | None =>
      err <- uf u_error ;;
      if tst err then ret tt
      else
        pd <- uf u_pdir ;;
        pdev <- ipf pd i_dev ;; dev <- ipf ip i_dev ;;
        if negb (pdev =? dev) then iput pd ;;; set_error EXDEV
        else
          wdir ip ;;;
          err <- uf u_error ;;
          when (err =? 0)
            (nl <- ipf ip i_nlink ;; ipset ip i_nlink (s16 (nl + 1)) ;;; ior ip ICHG)
  end.
Definition link : KM unit :=
  o <- namei uchar 0 ;;
  match o with
  | None => ret tt
  | Some ip =>
      m <- ipf ip i_mode ;;
      ok <- (if ifmt m =? IFDIR then suser else ret true) ;;
      when ok (link_name ip) ;;;
      iput ip
  end.

Definition mknod : KM unit :=
  su <- suser ;;
  o <- (if su : bool then namei uchar 1 else ret None) ;;
  match o with
  | Some ip => set_error EEXIST ;;; iput ip
  | None =>
      err <- uf u_error ;;
      if tst err then ret tt
      else
        fmode <- arg 1 ;;
        o <- maknode fmode ;;
        match o with
        | None => ret tt
        | Some ip =>
            dev <- arg 2 ;;
            a <- ipf ip i_addr ;; ipset ip i_addr (<[0%nat := s16 dev]> a) ;;;
            iput ip
        end
  end.

Definition saccess : KM unit :=
  svuid <- uf u_uid ;; svgid <- uf u_gid ;;
  ruid <- uf u_ruid ;; uset u_uid ruid ;;;
  rgid <- uf u_rgid ;; uset u_gid rgid ;;;
  o <- namei uchar 0 ;;
  match o with
  | None => ret tt
  | Some ip =>
      fmode <- arg 1 ;;
      when (fmode &? Z.shiftr IREAD 6) (access ip IREAD ;;; ret tt) ;;;
      when (fmode &? Z.shiftr IWRITE 6) (access ip IWRITE ;;; ret tt) ;;;
      when (fmode &? Z.shiftr IEXEC 6) (access ip IEXEC ;;; ret tt) ;;;
      iput ip
  end ;;;
  uset u_uid svuid ;;;
  uset u_gid svgid.

(** ** [sys3.c] *)

(** [copyout(l, a, sizeof)] and EFAULT when it fails. *)
Definition copyout_err (l : list Z) (a : Z) : KM unit :=
  us <- uf (fun r => r) ;; k <- kf (fun k => k) ;;
  let '(k', ok) := copyout us k l (u32 a) in
  kmod (fun _ => k') ;;;
  when (negb ok) (set_error EFAULT).

(** [struct stat]; the two bytes before [st_size] are padding, here 0. *)
Definition stat_bytes (r : inode) (pipeadj atime mtime ctime : Z) : list Z :=
  bytes_of 2 (i_dev r) ++ bytes_of 2 (i_number r) ++ bytes_of 2 (i_mode r) ++
  bytes_of 2 (i_nlink r) ++ bytes_of 2 (i_uid r) ++ bytes_of 2 (i_gid r) ++
  bytes_of 2 (i_rdev r) ++ [0; 0] ++ bytes_of 4 (i_size r - pipeadj) ++
  bytes_of 4 atime ++ bytes_of 4 mtime ++ bytes_of 4 ctime.

Definition stat1 (ip : nat) (ub pipeadj : Z) : KM unit :=
  iupdat ip (kf time) (kf time) ;;;
  r <- tget inodes ip ;;
  bp <- bread (i_dev r) (itod (i_number r)) ;;
  num <- ipf ip i_number ;;
  d <- bf bp b_data ;;
  let k := itoo num in
  brelse bp ;;;
  copyout_err (stat_bytes r pipeadj (rdf (dino k di_atime) d) (rdf (dino k di_mtime) d)
                 (rdf (dino k di_ctime) d)) ub.

Definition fstat : KM unit :=
  fdes <- arg 0 ;;
  o <- getf fdes ;;
  match o with
  | None => ret tt
  | Some fp =>
      sb <- arg 1 ;;
      r <- tget files fp ;;
      stat1 (f_inode r) sb (if f_flag r &? FPIPE then f_offset r else 0)
  end.

Definition stat : KM unit :=
  o <- namei uchar 0 ;;
  match o with
  | None => ret tt
  | Some ip => sb <- arg 1 ;; stat1 ip sb 0 ;;; iput ip
  end.

(** The descriptor to use: a free one, or with 0100 in the first argument the
    second. *)
Definition dup_target (m : Z) : KM (option Z) :=
  if negb (m &? 64) then
    i <- ufalloc ;; ret (if i <? 0 then None else Some i)
  else
    i <- arg 1 ;;
    if (i <? 0) || (Z.of_nat NOFILE <=? i) then set_error EBADF ;;; ret None
    else uset u_r_val1 i ;;; ret (Some i).

Definition dup : KM unit :=
  f <- arg 0 ;;
  let m := clr f 63 in
  let fdes := Z.land f 63 in
  set_arg 0 fdes ;;;
  o <- getf fdes ;;
  match o with
  | None => ret tt
  | Some fp =>
      t <- dup_target m ;;
      match t with
      | None => ret tt
      | Some i =>
          if i =? fdes then ret tt
          else
            l <- uf u_ofile ;;
            old <- the (l !! Z.to_nat i) ;;
            closef old ;;;
            umod (fun r => r <| u_ofile ::= <[Z.to_nat i := Some fp]> |>) ;;;
            c <- ff fp f_count ;; fset fp f_count (s8 (c + 1))
      end
  end.

Definition getmdev : KM Z :=
  o <- namei uchar 0 ;;
  match o with
  | None => ret NODEV
  | Some ip =>
      r <- tget inodes ip ;;
      when (negb (ifmt (i_mode r) =? IFBLK)) (set_error ENOTBLK) ;;;
      let dev := s16 (i_rdev r) in
      when (nblkdev <=? major dev) (set_error ENXIO) ;;;
      iput ip ;;;
      ret dev
  end.

(** A free mount entry: [None] when there is none or the device is mounted. *)
Definition mount_slot (dev : Z) : KM (option nat) :=
  r <- loop (S NMOUNT) (fun x : nat * option nat =>
    let '(mp, smp) := x in
    if Nat.leb NMOUNT mp then ret (inr smp)
    else
      m <- tget mounts mp ;;
      ret (match m_bufp m with
           | Some _ => if dev =? m_dev m then inr None else inl (S mp, smp)
           | None => inl (S mp, match smp with None => Some mp | _ => smp end)
           end)) (0%nat, None) ;;
  ret r.

(** The super block comes in and the inode is marked; [false] when it cannot
    be read. *)
Definition smount_read (mp ip : nat) (dev ronly : Z) : KM bool :=
  bp <- bread dev SUPERB ;;
  err <- uf u_error ;;
  if tst err then brelse bp ;;; ret false
  else
    mpset mp m_inodp (Some ip) ;;;
    mpset mp m_dev dev ;;;
    fp <- geteblk ;;
    mpset mp m_bufp (Some fp) ;;;
    d <- bf bp b_data ;;
    bset fp b_data (take (Z.to_nat BSIZE) d) ;;;
    fsset fp s_ilock 0 ;;;
    fsset fp s_flock 0 ;;;
    fsset fp s_ronly (Z.land ronly 1) ;;;
    brelse bp ;;;
    ior ip IMOUNT ;;;
    prele ip ;;;
    ret true.

Definition smount : KM unit :=
  dev <- getmdev ;;
  err <- uf u_error ;;
  if tst err then ret tt
  else
    name <- arg 1 ;; uset u_dirp name ;;;
    o <- namei uchar 0 ;;
    match o with
    | None => ret tt
    | Some ip =>
        r <- tget inodes ip ;;
        slot <- (if negb (i_count r =? 1) || special (i_mode r) then ret None else mount_slot dev) ;;
        match slot with
        | None => set_error EBUSY ;;; iput ip
        | Some mp =>
            ronly <- arg 2 ;;
            sw <- bdevsw_at dev ;; d_open sw dev (negb (tst ronly)) ;;;
            err <- uf u_error ;;
            if tst err then set_error EBUSY ;;; iput ip
            else
              ok <- smount_read mp ip dev ronly ;;
              if ok : bool then ret tt else iput ip
        end
    end.

Definition sumount : KM unit :=
  dev <- getmdev ;;
  err <- uf u_error ;;
  if tst err then ret tt
  else
    xumount dev ;;;
    update ;;;
    o <- for_find (slots NMOUNT) (fun mp =>
      m <- tget mounts mp ;;
      ret (if bool_decide (is_Some (m_bufp m)) && (dev =? m_dev m) then Some mp else None)) ;;
    match o with
    | None => set_error EINVAL
    | Some mp =>
        t <- kf inodes ;;
        if existsb (fun r => negb (i_number r =? 0) && (dev =? i_dev r)) t then set_error EBUSY
        else
          sw <- bdevsw_at dev ;; d_close sw dev false ;;;
          o <- mpf mp m_inodp ;;
          ip <- the o ;;
          iclr ip IMOUNT ;;;
          plock ip ;;;
          iput ip ;;;
          o <- mpf mp m_bufp ;;
          bp <- the o ;;
          mpset mp m_bufp None ;;;
          brelse bp
    end.

End SysFile.
