(* ===== verification/Calls.v ===== *)
(** * Calls: the system calls on an open file, one after the other

    [read], [write] and [seek] of [SysFile] over [Files] and [Writes]: what they
    do to an open file, and that what is written is read back. *)

From S2P Require Import Prelude Bytes State Utab Sched Bio Cache Alloc Inode Rdwri Blocks Files Writes Nami Dirs Paths Fio Pipes SysFile.

(** What the calls change: the arguments and the answer, the tables of inodes
    and files, the cache and the user's memory. *)
Definition called (w w' : world) : Prop :=
  w' = w <| u ::= fun r => r <| u_count := u_count (u w') |> <| u_offset := u_offset (u w') |> <| u_base := u_base (u w') |>
                             <| u_segflg := u_segflg (u w') |> <| u_r_val1 := u_r_val1 (u w') |> <| u_arg := u_arg (u w') |> |>
         <| ks ::= fun k => k <| inodes := inodes (ks w') |> <| files := files (ks w') |> <| bufs := bufs (ks w') |>
              <| io_info := io_info (ks w') |> <| rablock := rablock (ks w') |> <| pl := pl (ks w') |> <| pmem := pmem (ks w') |> |>.

Lemma called_refl w : called w w.
Proof. unfold called. by destruct w as [[] [] ?]. Qed.
Lemma called_trans w1 w2 w3 : called w1 w2 -> called w2 w3 -> called w1 w3.
Proof. unfold called. intros E1 E2. rewrite E2 at 1. rewrite E1. by destruct w1 as [[] [] ?]. Qed.
Lemma called_piped w w' : piped w w' -> called w w'.
Proof. unfold called, piped. intros ->. by destruct w as [[] [] ?]. Qed.
(** The arguments of the next call, as [trap] fetches them. *)
Definition with_args (l : list Z) (w : world) : world := w <| u ::= fun r => r <| u_arg := l |> |>.
Lemma called_args l w : called w (with_args l w).
Proof. unfold called. by destruct w as [[] [] ?]. Qed.
Definition asking_for (a n : Z) (w : world) : world :=
  w <| u ::= fun r => r <| u_base := UA a |> <| u_count := n |> <| u_segflg := 0 |> |>.
Lemma called_asking a n w : called w (asking_for a n w).
Proof. unfold called. by destruct w as [[] [] ?]. Qed.
Definition answered (v : Z) (w : world) : world := w <| u ::= fun r => r <| u_r_val1 := v |> |>.
Lemma called_answered v w : called w (answered v w).
Proof. unfold called. by destruct w as [[] [] ?]. Qed.

(** What they leave. *)
Lemma called_same w w' : called w w' -> upt (ks w') = upt (ks w) /\ u_utab (u w') = u_utab (u w) /\
  u_ofile (u w') = u_ofile (u w) /\ u_error (u w') = u_error (u w).
Proof. unfold called. by intros ->. Qed.

Lemma regular_plain m : ifmt m = IFREG -> special m = false.
Proof.
  intros Hm. unfold special. apply tst_false.
  change (Z.land IFCHR IFBLK) with (Z.land IFMT (Z.land IFCHR IFBLK)). rewrite Z.land_assoc.
  change (Z.land m IFMT) with (ifmt m). by rewrite Hm.
Qed.

Section Calls.
Context {MC : Machine} (dev : Z) (dp : bptr) (hs : list bptr) (H : bptr -> list bptr).
Context (Hdev : on_dev dev dp) (Hdp : dp ∈ hs) (Hdf : dp <> Bfree) (Hnd : dev <> NODEV).

Abbreviation resident := (resident dev dp hs H).

(** Descriptor [fd] is open for reading and writing on a regular file, whose
    blocks up to number [hi] are in place and at rest in the cache, at
    [f_offset f]. *)
Record open_file (hi : Z) (C : gmap Z (list Z)) (w : world) (fd : Z) (fp ip : nat) (f : file) (r : inode) : Prop := {
  of_fd : 0 <= fd < Z.of_nat NOFILE; of_open : u_ofile (u w) !! Z.to_nat fd = Some (Some fp);
  of_file : files (ks w) !! fp = Some f; of_flag : f_flag f = Z.lor FREAD FWRITE; of_inode : f_inode f = ip;
  of_entry : inodes (ks w) !! ip = Some r; of_dev : i_dev r = dev; of_addrs : length (i_addr r) = 13%nat;
  of_type : ifmt (i_mode r) = IFREG; of_alone : alone (i_flag r);
  of_size : 0 <= i_size r <= room hi; of_off : 0 <= f_offset f <= room hi; of_room : room hi < 2147483648;
  of_sound : sound C (i_addr r) 0 hi; of_ahead : forall bn, 0 <= bn <= hi -> ahead_in C (i_addr r) bn;
  of_rest : resident C w; of_error : u_error (u w) = 0
}.

(** Changes of the file, the inode and the cache alone. *)
Lemma open_file_next hi C C' w w' fd fp ip f f' r r' : open_file hi C w fd fp ip f r -> called w w' ->
  files (ks w') !! fp = Some f' -> inodes (ks w') !! ip = Some r' -> resident C' w' ->
  f_flag f' = f_flag f -> f_inode f' = f_inode f -> 0 <= f_offset f' <= room hi ->
  i_dev r' = i_dev r -> i_addr r' = i_addr r -> i_mode r' = i_mode r -> alone (i_flag r') -> 0 <= i_size r' <= room hi ->
  sound C' (i_addr r) 0 hi -> (forall bn, 0 <= bn <= hi -> ahead_in C' (i_addr r) bn) ->
  open_file hi C' w' fd fp ip f' r'.
Proof using Type.
  intros [] Hc Hf Hr HC Ef Ei Ho Ed Ea Em Hal Hs Hso Hra. destruct (called_same _ _ Hc) as (_ & _ & Eo & Ee).
  constructor; rewrite ?Ef, ?Ei, ?Ed, ?Ea, ?Em, ?Eo, ?Ee; done.
Qed.

Lemma getf_ok hi C w fd fp ip f r : open_file hi C w fd fp ip f r -> getf fd w = Ret (Some fp) w.
Proof using Type.
  intros [Hfd Ho]. unfold getf. rewrite (proj2 (Z.leb_le 0 fd)), (proj2 (Z.ltb_lt fd _)) by lia. cbn [andb].
  erewrite (bind_ret_eq _ _ w (Some fp) w); [done|]. erewrite bind_ret_eq by reflexivity. cbn beta. by rewrite Ho.
Qed.

Lemma arg_is w i v : u_arg (u w) !! i = Some v -> SysFile.arg i w = Ret v w.
Proof using Type. intros E. unfold SysFile.arg. erewrite bind_ret_eq by reflexivity. cbn beta. by rewrite E. Qed.

(** ** [rdwr] around the transfer *)

(** The world in which [readi] or [writei] is called. *)
Definition transferring (w : world) (a n : Z) (ip : nat) (f : file) (r : inode) : world :=
  with_inode ip (locked r) (asking_for a n w <| u ::= fun us => us <| u_offset := f_offset f |> |>).

(** [rdwr] is the transfer under the inode's lock, then the file's offset and
    the answer move by what was transferred. *)
Lemma rdwr_ok hi C w fd fp ip f r a n mode w1 r1 : open_file hi C w fd fp ip f r ->
  u_arg (u w) !! 0%nat = Some fd -> u_arg (u w) !! 1%nat = Some a -> u_arg (u w) !! 2%nat = Some n ->
  0 <= a < 4294967296 -> 0 <= n < 4294967296 -> mode = FREAD \/ mode = FWRITE ->
  (if mode =? FREAD then readi ip else writei ip) (transferring w a n ip f r) = Ret tt w1 ->
  inodes (ks w1) !! ip = Some r1 -> i_mode r1 = i_mode r -> s8 (clr (i_flag r1) ILOCK) &? IWANT = false ->
  files (ks w1) = files (ks w) -> 0 <= n - u_count (u w1) <= n -> f_offset f + n < 2147483648 ->
  let m := n - u_count (u w1) in
  rdwr mode w = Ret tt (answered m (with_file fp (f <| f_offset := f_offset f + m |>) (with_inode ip (unlocked r1) w1))).
Proof using Type.
  intros O A0 A1 A2 Ha Hn Hmode E Hr1 Em Hw Ef Hm Hmax m. pose proof O as [Hfd Ho Hf Hfl Hi Hr _ _ Hty Hal _ Hoff _ _ _ _ _].
  unfold rdwr. erewrite bind_ret_eq by (by apply arg_is). cbn beta. erewrite bind_ret_eq by (by apply arg_is). cbn beta.
  erewrite bind_ret_eq by (by apply arg_is). cbn beta. erewrite bind_ret_eq by (by eapply getf_ok). cbn beta iota.
  erewrite bind_ret_eq by (by apply ff_ok). cbn beta. rewrite Hfl.
  assert (negb (Z.lor FREAD FWRITE &? mode) = false) as -> by (by destruct Hmode as [-> | ->]). cbn match.
  rewrite !u32_id by lia. do 3 (erewrite bind_ret_eq by reflexivity; cbn beta).
  change (Z.lor FREAD FWRITE &? FPIPE) with false. cbn match.
  match goal with |- bind _ _ ?v = _ => set (w0 := v) end.
  assert (w0 = asking_for a n w) as Ew0 by (unfold w0; by destruct w as [[] ? ?]).
  clearbody w0. subst w0.
  erewrite (bind_ret_eq (rdwr_file fp mode n) _ _ tt (with_file fp (f <| f_offset := f_offset f + m |>) (with_inode ip (unlocked r1) w1))).
  { erewrite bind_ret_eq by reflexivity. cbn beta. change (u_count (u (with_file _ _ _))) with (u_count (u w1)).
    fold m. rewrite s32_id by lia. done. }
  unfold rdwr_file. erewrite bind_ret_eq by (by apply ff_ok). cbn beta. rewrite Hi. erewrite bind_ret_eq by (by apply ff_ok). cbn beta.
  rewrite Hfl. change (Z.lor FREAD FWRITE &? FMP) with false. cbn match.
  set (w2 := asking_for a n w <| u ::= fun us => us <| u_offset := f_offset f |> |>).
  erewrite (bind_ret_eq _ _ _ tt w2) by (by erewrite bind_ret_eq by (by apply ff_ok)). cbn beta.
  erewrite bind_ret_eq by (by apply ipf_ok). cbn beta. rewrite (regular_plain _ Hty). cbn [negb when].
  erewrite bind_ret_eq by (apply plock_ok; [done|by apply alone_bit]). cbn beta.
  change (with_inode ip (locked r) w2) with (transferring w a n ip f r).
  erewrite bind_ret_eq by exact E. cbn beta. erewrite bind_ret_eq by (by apply ipf_ok). cbn beta.
  rewrite Em, (regular_plain _ Hty). cbn [negb when]. erewrite bind_ret_eq by (by apply prele_ok). cbn beta.
  assert (files (ks (with_inode ip (unlocked r1) w1)) !! fp = Some f) as Hf3 by (cbn; by rewrite Ef).
  erewrite bind_ret_eq by (by apply ff_ok). cbn beta. rewrite Hfl. change (Z.lor FREAD FWRITE &? FMP) with false. cbn [negb when].
  erewrite bind_ret_eq by (by apply ff_ok). cbn beta. erewrite bind_ret_eq by reflexivity. cbn beta.
  change (u_count (u (with_inode _ _ _))) with (u_count (u w1)). fold m. rewrite s32_id by lia. by apply fset_with.
Qed.
(** ** [write] *)

Lemma write_ok hi C w fd fp ip f r a l (n := Z.of_nat (length l)) (o := f_offset f + n) : open_file hi C w fd fp ip f r ->
  u_arg (u w) !! 0%nat = Some fd -> u_arg (u w) !! 1%nat = Some a -> u_arg (u w) !! 2%nat = Some n ->
  0 <= a < 4294967296 -> l <> [] -> o <= room hi -> may_load (ks w) a l ->
  exists w' C', write w = Ret tt w' /\
    open_file hi C' w' fd fp ip (f <| f_offset := o |>) (unlocked (written (locked r) o)) /\
    wrote 0 hi (i_addr r) C C' (f_offset f) l /\ called w w' /\ u_r_val1 (u w') = n /\ pmem (ks w') = pmem (ks w).
Proof using Hdev Hdp Hdf Hnd.
  intros O A0 A1 A2 Ha Hne Hroom Hml. pose proof O as [Hfd Ho Hf Hfl Hi Hr Hdv Hal Hty Hfl1 Hsz Hoff Hrm Hso Hra HC He].
  assert (0 < n) as Hn by (destruct l; [done|unfold n; cbn; lia]). unfold room in *.
  set (w0 := transferring w a n ip f r).
  assert (inodes (ks w0) !! ip = Some (locked r)) as Hr0 by (by apply inodes_with).
  assert (placed dev w0 ip (locked r)) as Hp by (constructor; try done; cbn; lia).
  destruct (writei_ok MC dev dp hs H C w0 ip (locked r) 0 hi l) as (w1 & C' & E & HC1 & Hw & _ & Ho1); try done.
  - by eapply resident_bufs.
  - by left.
  - cbn. lia.
  - eapply supplies_user; [done|done|]. by apply (may_load_same (ks w)).
  - apply Z.div_pos; cbn; lia.
  - change (u_offset (u w0)) with (f_offset f). fold n.
    assert ((f_offset f + n - 1) / 512 < hi + 1); [|lia]. apply Z.div_lt_upper_bound; lia.
  - change (u_offset (u w0)) with (f_offset f) in Hw, Ho1. fold n o in Ho1. set (r1 := written (locked r) o) in *.
    destruct (cache_only_same _ _ Ho1) as (Eu & Ei & _).
    assert (inodes (ks w1) !! ip = Some r1) as Hr1 by (rewrite Ei; apply (inodes_with ip r1 w0); by eexists).
    assert (u_count (u w1) = 0) as Ec.
    { rewrite Eu. change (u32 (n - n) = 0). by rewrite Z.sub_diag. }
    destruct (alone_marked (i_flag r) (Z.lor IUPD ICHG) ltac:(by right) Hfl1) as [Hal1 Hwn].
    assert (files (ks w1) = files (ks w) /\ pmem (ks w1) = pmem (ks w)) as [Ef Em] by (by rewrite (proj1 Ho1)).
    pose proof (rdwr_ok hi C w fd fp ip f r a n FWRITE w1 r1 O A0 A1 A2 Ha) as Hcall. cbv zeta in Hcall. rewrite Ec, Z.sub_0_r in Hcall.
    eexists _, C'. split; [apply Hcall; try done; [lia|by right|lia|unfold o in *; lia]|].
    set (w' := answered _ _).
    assert (called w w') as Hcd.
    { eapply called_trans; [apply (called_asking a n)|]. eapply called_trans; [|apply called_answered].
      apply called_piped. eapply piped_trans; [apply piped_offset|]. eapply piped_trans; [apply piped_inode|].
      eapply piped_trans; [|eapply piped_trans; [apply piped_inode|apply piped_file]].
      eapply piped_trans; [|apply piped_cache, Ho1]. eapply piped_trans; [apply piped_inode|apply piped_advanced]. }
    split; [|split; [done|split; [done|split; [done|exact Em]]]].
    eapply (open_file_next hi C C' w w' fd fp ip f _ r _ O Hcd); try done.
    + cbn. rewrite Ef. apply list_lookup_insert_eq. by eapply lookup_lt_Some.
    + apply (inodes_with ip (unlocked r1) w1). by eexists.
    + by eapply resident_bufs.
    + cbn. unfold room, o in *. lia.
    + unfold r1, written. cbn. unfold room, o in *. lia.
    + apply Hw.
    + intros bn Hbn. apply (wr_ahead _ _ _ _ _ _ _ Hw); [done|]. by apply Hra.
Qed.

(** ** [read] *)

Lemma read_ok hi C w fd fp ip f r a n l (k := Z.of_nat (length l)) : open_file hi C w fd fp ip f r ->
  u_arg (u w) !! 0%nat = Some fd -> u_arg (u w) !! 1%nat = Some a -> u_arg (u w) !! 2%nat = Some n ->
  0 <= a < 4294967296 -> 0 < n -> f_offset f + n < 2147483648 -> l <> [] ->
  k = Z.min n (Z.max 0 (i_size r - f_offset f)) -> spells C (i_addr r) (f_offset f) l ->
  may_store (u w) (ks w) a k ->
  exists w' r', read w = Ret tt w' /\ open_file hi C w' fd fp ip (f <| f_offset := f_offset f + k |>) r' /\ i_size r' = i_size r /\
    called w w' /\ u_r_val1 (u w') = k /\
    (distinct_pages (ks w) a k -> forall i c, l !! i = Some c -> ubyte (ks w') (a + Z.of_nat i) = Some (u8 c)).
Proof using Hdev Hdp Hdf Hnd.
  intros O A0 A1 A2 Ha Hn Hmax Hne Hk Hsp Hms. pose proof O as [Hfd Ho Hf Hfl Hi Hr Hdv Hal Hty Hfl1 Hsz Hoff Hrm Hso Hra HC He].
  assert (0 < k) as Hk0 by (destruct l; [done|unfold k; cbn; lia]). unfold room in *.
  set (w0 := transferring w a n ip f r).
  assert (inodes (ks w0) !! ip = Some (locked r)) as Hr0 by (by apply inodes_with).
  assert (asking dev w0 ip (locked r) a) as Hask by (constructor; try done; cbn; lia).
  assert (may_store (u w0) (ks w0) a k) as Hms0 by (by apply (may_store_same (u w) (ks w))).
  destruct (readi_ok MC dev dp hs H C w0 ip (locked r) a l) as (w1 & E & HC1 & Ho1); try done.
  - by eapply resident_bufs.
  - by left.
  - cbn. intros bn Hbn. apply Hra. fold k in Hbn. split; [etrans; [|apply Hbn]; apply Z.div_pos; lia|].
    assert ((f_offset f + k - 1) / 512 < hi + 1); [|lia]. apply Z.div_lt_upper_bound; lia.
  - destruct (read_done_facts dev w0 ip (locked r) a l w1 Hask Hne) as (Hr1 & _ & Ec & Ef & Hp); [cbn; fold k; lia|cbn; fold k; lia|done|].
    change (u_count (u w0)) with n in Ec. fold k in Ec. change (files (ks w0)) with (files (ks w)) in Ef.
    set (bn := (u_offset (u w0) + Z.of_nat (length l) - 1) / 512) in Hr1. set (r1 := (accessed (locked r)) <| i_lastr := bn |>) in Hr1.
    destruct (alone_marked (i_flag r) IACC ltac:(by left) Hfl1) as [Hal1 Hwn].
    pose proof (rdwr_ok hi C w fd fp ip f r a n FREAD w1 r1 O A0 A1 A2 Ha) as Hcall. cbv zeta in Hcall.
    rewrite Ec in Hcall. replace (n - (n - k)) with k in Hcall by lia.
    eexists _, (unlocked r1). split; [apply Hcall; try done; [lia|by left|lia]|].
    set (w' := answered _ _).
    assert (called w w') as Hcd.
    { eapply called_trans; [apply (called_asking a n)|]. eapply called_trans; [|apply called_answered].
      apply called_piped. eapply piped_trans; [apply piped_offset|]. eapply piped_trans; [apply piped_inode|].
      eapply piped_trans; [exact Hp|]. eapply piped_trans; [apply piped_inode|apply piped_file]. }
    split; [|split; [done|split; [done|split; [done|]]]].
    + eapply (open_file_next hi C C w w' fd fp ip f _ r _ O Hcd); try done.
      * cbn. rewrite Ef. apply list_lookup_insert_eq. by eapply lookup_lt_Some.
      * apply (inodes_with ip (unlocked r1) w1). by eexists.
      * by eapply resident_bufs.
      * cbn. unfold room. lia.
    + intros Hd i c Hc. change (ubyte (ks w1) (a + Z.of_nat i) = Some (u8 c)).
      by eapply (read_done_bytes dev w0 ip (locked r) a l w1).
Qed.

(** ** [seek], from the beginning *)

Lemma seek_ok hi C w fd fp ip f r off : open_file hi C w fd fp ip f r -> 0 <= off <= room hi ->
  u_arg (u w) = [fd; off; 0] ->
  exists w', seek w = Ret tt w' /\ open_file hi C w' fd fp ip (f <| f_offset := off |>) r /\ called w w' /\
    u_r_val1 (u w') = off /\ pmem (ks w') = pmem (ks w).
Proof using Type.
  intros O Hoff Ha. pose proof O as [Hfd Ho Hf Hfl Hi Hr Hdv Hal Hty Hfl1 Hsz _ Hrm Hso Hra HC He].
  set (w' := answered off (with_file fp (f <| f_offset := off |>) w)). exists w'.
  assert (called w w') as Hcd by (eapply called_trans; [apply called_piped, piped_file|apply called_answered]).
  split; [|split; [|done]].
  - unfold seek. do 1 (erewrite bind_ret_eq by (apply arg_is; by rewrite Ha); cbn beta).
    erewrite bind_ret_eq by (by eapply getf_ok). cbn beta iota. erewrite bind_ret_eq by (by apply ff_ok). cbn beta. rewrite Hfl.
    change (Z.lor FREAD FWRITE &? Z.lor FPIPE FMP) with false. cbn match.
    do 2 (erewrite bind_ret_eq by (apply arg_is; by rewrite Ha); cbn beta).
    do 2 (erewrite bind_ret_eq by (by apply ff_ok); cbn beta). change (0 =? 1) with false. change (0 =? 2) with false. cbn match.
    erewrite bind_ret_eq by reflexivity. cbn beta.
    erewrite (bind_ret_eq (set_arg 1 off) _ w tt w).
    2: { unfold set_arg. erewrite bind_ret_eq by (apply arg_is; by rewrite Ha). cbn beta. unfold umod, modify. f_equal.
         destruct w as [us ? ?]. cbn in Ha |- *. rewrite Ha. cbn. f_equal. by destruct us; cbn in Ha; subst. }
    cbn beta. by erewrite bind_ret_eq by (by apply fset_with).
  - eapply (open_file_next hi C C w w' fd fp ip f (f <| f_offset := off |>) r r O Hcd); try done.
    + cbn. apply list_lookup_insert_eq. by eapply lookup_lt_Some.
    + by eapply resident_bufs.
Qed.
End Calls.

(** C5. What is written to a file is read back: after [write] of some bytes to
    an open file, [seek] to where they were written and [read] of as many, each
    call having answered with the number of bytes or the offset, the user
    finds the same bytes in the memory he gave to [read]. *)
Theorem write_read_back (MC : Machine) (dev : Z) (dp : bptr) (hs : list bptr) (H : bptr -> list bptr)
    (hi : Z) (C : gmap Z (list Z)) (w : world) (fd : Z) (fp ip : nat) (f : file) (r : inode) (a b : Z) (l : list Z) :
  on_dev dev dp -> dp ∈ hs -> dp <> Bfree -> dev <> NODEV ->
  open_file dev dp hs H hi C w fd fp ip f r ->
  let n := Z.of_nat (length l) in let o := f_offset f in
  l <> [] -> o + n <= room hi ->
  0 <= a < 4294967296 -> may_load (ks w) a l ->
  0 <= b < 4294967296 -> may_store (u w) (ks w) b n -> distinct_pages (ks w) b n ->
  exists w1 w2 w3,
    write (with_args [fd; a; n] w) = Ret tt w1 /\ u_r_val1 (u w1) = n /\
    seek (with_args [fd; o; 0] w1) = Ret tt w2 /\ u_r_val1 (u w2) = o /\
    read (with_args [fd; b; n] w2) = Ret tt w3 /\ u_r_val1 (u w3) = n /\ u_error (u w3) = 0 /\
    forall i c, l !! i = Some c -> ubyte (ks w3) (b + Z.of_nat i) = Some c.
Proof.
  intros Hdev Hdp Hdf Hnd O n o Hne Hroom Ha Hml Hb Hms Hd.
  assert (0 < n) as Hn by (destruct l; [done|unfold n; cbn; lia]).
  assert (forall C v x f r, open_file dev dp hs H hi C v fd fp ip f r -> open_file dev dp hs H hi C (with_args x v) fd fp ip f r) as Hargs.
  { intros C0 v x f0 r0 []. constructor; try done. by eapply resident_bufs. }
  assert (forall v x, called v (with_args x v)) as Hca by (intros; apply called_args).
  destruct (write_ok dev dp hs H Hdev Hdp Hdf Hnd hi C (with_args [fd; a; n] w) fd fp ip f r a l)
    as (w1 & C1 & E1 & O1 & Hw1 & Hc1 & Er1 & _); [by apply Hargs|done..|].
  set (r1 := unlocked (written (locked r) (o + n))) in O1. set (f1 := f <| f_offset := o + n |>) in O1.
  destruct (seek_ok dev dp hs H hi C1 (with_args [fd; o; 0] w1) fd fp ip f1 r1 o)
    as (w2 & E2 & O2 & Hc2 & Er2 & _); [by apply Hargs|unfold o; split; [apply O|destruct O; lia]|done|].
  pose proof (called_trans _ _ _ (called_trans _ _ _ (Hca w [fd; a; n]) Hc1) (called_trans _ _ _ (Hca w1 [fd; o; 0]) Hc2)) as Hc12.
  destruct (called_same _ _ Hc12) as (Et & Eu & _ & Ee).
  destruct (read_ok dev dp hs H Hdev Hdp Hdf Hnd hi C1 (with_args [fd; b; n] w2) fd fp ip (f1 <| f_offset := o |>) r1 b n l)
    as (w3 & r3 & E3 & O3 & _ & Hc3 & Er3 & Hm).
  - by apply Hargs.
  - done.
  - done.
  - done.
  - done.
  - done.
  - cbn. destruct O. lia.
  - done.
  - cbn. unfold n, o in *. destruct O. lia.
  - cbn. intros i c Hi. pose proof (lookup_lt_Some _ _ _ Hi). rewrite (wr_bytes _ _ _ _ _ _ _ Hw1).
    + rewrite decide_True by (unfold o; lia). replace (Z.to_nat _) with i by (unfold o; lia). done.
    + destruct O. unfold room, o, n in *. split; [apply Z.div_pos; lia|].
      assert ((f_offset f + Z.of_nat i) / 512 < hi + 1); [|lia]. apply Z.div_lt_upper_bound; lia.
  - by apply (may_store_same (u w) (ks w)).
  - exists w1, w2, w3. repeat (split; [done|]). split; [by destruct O3|].
    intros i c Hi. rewrite (Hm ltac:(unfold distinct_pages, uphys in *; cbn; by rewrite Et) i c Hi).
    f_equal. apply u8_id. pose proof (ml_bytes _ _ _ Hml) as Hby. rewrite Forall_forall in Hby.
    apply Hby. by eapply list_elem_of_lookup_2.
Qed.

(** Three bytes from page 1 over the last one of the file of [Files] and past its
    end, and back to another place in the page. *)
Definition desk_file : file := mkfile 3 1 0 1.
Definition desk_world : world :=
  pen_world <| u ::= fun us => us <| u_ofile := Some 0%nat :: replicate 19 None |> |>
            <| ks ::= fun k => k <| files := [desk_file] |> |>.

Lemma desk_open : open_file 0 (Dtab 0) two_heads two_bufs 0 hi_file desk_world 0 0 0 desk_file hi_inode.
Proof.
  constructor; try done.
  - exact hi_sound.
  - intros bn Hbn. assert (bn = 0) as -> by lia. intros s es a [= <- <-] [= <-]. by left.
  - exact (resident_bufs 0 (Dtab 0) two_heads two_bufs hi_file hi_world desk_world hi_resident eq_refl).
Qed.

Lemma desk_pages i : 4196 <= i < 4199 -> uphys (ks desk_world) i = Some (PHY + 61440 + i).
Proof. intros Hi. assert (i = 4196 \/ i = 4197 \/ i = 4198) as [-> | [-> | ->]] by lia; reflexivity. Qed.

Lemma write_read_back_witness : exists w1 w2 w3,
  @write disk_machine (with_args [0; 4096; 3] desk_world) = Ret tt w1 /\
  @seek (with_args [0; 1; 0] w1) = Ret tt w2 /\
  @read disk_machine (with_args [0; 4196; 3] w2) = Ret tt w3 /\
  forall i c, [111; 33; 10] !! i = Some c -> ubyte (ks w3) (4196 + Z.of_nat i) = Some c.
Proof.
  destruct (write_read_back disk_machine 0 (Dtab 0) two_heads two_bufs 0 hi_file desk_world 0 0 0 desk_file hi_inode 4096 4196 [111; 33; 10])
    as (w1 & w2 & w3 & E1 & _ & E2 & _ & E3 & _ & _ & Hm).
  - split; [done|]. by eexists.
  - right. left.
  - done.
  - done.
  - exact desk_open.
  - done.
  - done.
  - done.
  - constructor; [done|done|by repeat constructor|].
    intros [|[|[|i]]] c Hi; [..|done]; by injection Hi as <-.
  - done.
  - constructor; [done..|]. intros i Hi. rewrite desk_pages by (cbn in Hi; lia). done.
  - intros i j Hi Hj. rewrite !desk_pages by (cbn in Hi, Hj; lia). intros [= ?]. lia.
  - exists w1, w2, w3. split; [exact E1|]. split; [exact E2|]. split; [exact E3|exact Hm].
Defined.
