(* ===== verification/SysMisc.v ===== *)
(** * SysMisc: the remaining system calls ([sys/sys4.c]), and accounting
      ([sys/acct.c]) *)

From S2P Require Import Prelude Bytes State Utab Sched Bio Alloc Inode Rdwri Text Nami Fio SysFile.

Definition TIMEZONE : Z := 300.
Definition DSTFLAG : Z := 1.

(** [struct acct] *)
Definition ac_comm := fld 0 CS8.
Definition ac_utime := fld 10 CU16.
Definition ac_stime := fld 12 CU16.
Definition ac_etime := fld 14 CU16.
Definition ac_btime := fld 16 CS32.
Definition ac_uid := fld 20 CS16.
Definition ac_gid := fld 22 CS16.
Definition ac_mem := fld 24 CS16.
Definition ac_io := fld 26 CU16.
Definition ac_tty := fld 28 CS16.
Definition ac_flag := fld 30 CS8.
Definition sizeof_acct : Z := 32.

(** [compress(t)]: the loop, with [exp] and [round]; an [int] takes at most
    six rounds. *)
Fixpoint compress_loop (n : nat) (t exp round : Z) : option (Z * Z * Z) :=
  match n with
  | O => None
  | S n => if 8192 <=? t then compress_loop n (Z.shiftr t 3) (exp + 1) (Z.land t 4) else Some (t, exp, round)
  end.
Definition compress (t : Z) : option Z :=
  match compress_loop 7 t 0 0 with
  | None => None
  | Some (t, exp, round) =>
      let '(t, exp) := (if tst round then
                          let t := t + 1 in
                          if 8192 <=? t then (Z.shiftr t 3, exp + 1) else (t, exp)
                        else (t, exp)) in
      Some (Z.shiftl exp 13 + t)
  end.

Section SysMisc.
Context {MC : Machine}.

(** ** Time and identity *)

Definition gtime : KM unit := t <- kf time ;; uset u_r_val1 t.

(** [struct timeb]; the last two bytes are padding, here 0. *)
Definition ftime : KM unit :=
  spl7 ;;;
  t <- kf time ;;
  ms <- kf lbolt ;;
  spl0 ;;;
  let ms := u32 ms in
  let '(ms, t) := (if HZ <? ms then (ms - HZ, s32 (t + 1)) else (ms, t)) in
  tp <- arg 0 ;;
  copyout_err (bytes_of 4 t ++ bytes_of 2 (u32 (1000 * ms) / HZ) ++ bytes_of 2 TIMEZONE ++
               bytes_of 2 DSTFLAG ++ [0; 0]) tp.

Definition stime : KM unit :=
  su <- suser ;;
  when su (t <- arg 0 ;; kset time t).

Definition setuid : KM unit :=
  uid <- arg 0 ;;
  r <- uf u_ruid ;;
  ok <- (if r =? uid then ret true else suser) ;;
  when ok
    (uset u_uid (s16 uid) ;;;
     p <- uf u_procp ;; pset p p_uid (s16 uid) ;;;
     uset u_ruid (s16 uid)).
Definition getuid : KM unit :=
  r <- uf u_ruid ;; uset u_r_val1 r ;;;
  e <- uf u_uid ;; uset u_r_val2 e.
Definition setgid : KM unit :=
  gid <- arg 0 ;;
  r <- uf u_rgid ;;
  ok <- (if r =? gid then ret true else suser) ;;
  when ok (uset u_gid (s16 gid) ;;; uset u_rgid (s16 gid)).
Definition getgid : KM unit :=
  r <- uf u_rgid ;; uset u_r_val1 r ;;;
  e <- uf u_gid ;; uset u_r_val2 e.
Definition getpid : KM unit :=
  p <- uf u_procp ;;
  r <- tget procs p ;;
  uset u_r_val1 (p_pid r) ;;;
  uset u_r_val2 (p_ppid r).
Definition sync : KM unit := update.

Definition nice : KM unit :=
  n <- arg 0 ;;
  n <- (if n <? 0 then su <- suser ;; ret (if su : bool then n else 0) else ret n) ;;
  p <- uf u_procp ;;
  c <- pf p p_nice ;;
  let n := s32 (n + c) in
  let n := if 2 * NZERO <=? n then 2 * NZERO - 1 else n in
  let n := if n <? 0 then 0 else n in
  pset p p_nice n.

(** ** Names *)

(** [unlink] once the directory [pp] and the file [ip] are in hand. *)
Definition unlink_file (pp ip : nat) : KM unit :=
  m <- ipf ip i_mode ;;
  ok <- (if ifmt m =? IFDIR then suser else ret true) ;;
  if negb ok then ret tt
  else
    dev <- ipf ip i_dev ;; pdev <- ipf pp i_dev ;;
    if negb (dev =? pdev) then set_error EBUSY
    else
      t <- ihas ip ITEXT ;;
      when t (xrele ip) ;;;
      t <- ihas ip ITEXT ;;
      nl <- ipf ip i_nlink ;;
      if t && (nl =? 1) then set_error ETXTBSY
      else
        umod (fun r => r <| u_offset ::= fun o => s32 (o - Z.of_nat sizeof_direct) |>
                         <| u_base := KA ODent 0 |> <| u_count := Z.of_nat sizeof_direct |>
                         <| u_dent ::= wrf d_ino 0 |>) ;;;
        writei pp ;;;
        nl <- ipf ip i_nlink ;; ipset ip i_nlink (s16 (nl - 1)) ;;;
        ior ip ICHG.

Definition unlink : KM unit :=
  o <- namei uchar 2 ;;
  match o with
  | None => ret tt
  | Some pp =>
      num <- ipf pp i_number ;;
      dent <- uf u_dent ;;
      o <- (if num =? rdf d_ino dent then
              c <- ipf pp i_count ;; ipset pp i_count (s8 (c + 1)) ;;; ret (Some pp)
            else dev <- ipf pp i_dev ;; iget dev (rdf d_ino dent)) ;;
      match o with
      | Some ip => unlink_file pp ip ;;; iput ip
      | None => ret tt
      end ;;;
      iput pp
  end.

(** [chdirec(ipp)], given [*ipp] and a store to it. *)
Definition chdirec (ipp : KM (option nat)) (set : nat -> KM unit) : KM unit :=
  o <- namei uchar 0 ;;
  match o with
  | None => ret tt
  | Some ip =>
      m <- ipf ip i_mode ;;
      if negb (ifmt m =? IFDIR) then set_error ENOTDIR ;;; iput ip
      else
        no <- access ip IEXEC ;;
        if no : bool then iput ip
        else
          prele ip ;;;
          old <- ipp ;;
          match old with
          | Some d => plock d ;;; d <- ipp ;; d <- the d ;; iput d
          | None => ret tt
          end ;;;
          set ip
  end.
Definition chdir : KM unit := chdirec (d <- uf u_cdir ;; ret (Some d)) (uset u_cdir).
Definition chroot : KM unit :=
  su <- suser ;; when su (chdirec (uf u_rdir) (fun ip => uset u_rdir (Some ip))).

Definition chmod : KM unit :=
  o <- owner ;;
  match o with
  | None => ret tt
  | Some ip =>
      m <- ipf ip i_mode ;; ipset ip i_mode (clr m 4095) ;;;
      uid <- uf u_uid ;;
      fmode <- arg 1 ;;
      let fmode := if tst uid then clr fmode ISVTX else fmode in
      set_arg 1 fmode ;;;
      m <- ipf ip i_mode ;; ipset ip i_mode (Z.lor m (Z.land fmode 4095)) ;;;
      ior ip ICHG ;;;
      t <- ihas ip ITEXT ;;
      m <- ipf ip i_mode ;;
      when (t && negb (m &? ISVTX)) (xrele ip) ;;;
      iput ip
  end.

Definition chown : KM unit :=
  su <- suser ;;
  if negb su then ret tt
  else
    o <- owner ;;
    match o with
    | None => ret tt
    | Some ip =>
        uid <- arg 1 ;; ipset ip i_uid (s16 uid) ;;;
        gid <- arg 2 ;; ipset ip i_gid (s16 gid) ;;;
        ior ip ICHG ;;;
        iput ip
    end.

(** The two times from the user; when they cannot be read [utime] returns
    with the inode still locked and referred to. *)
Definition utime : KM unit :=
  o <- owner ;;
  match o with
  | None => ret tt
  | Some ip =>
      tptr <- arg 1 ;;
      k <- kf (fun k => k) ;;
      let '(tv, ok) := copyin k (u32 tptr) 8 in
      if negb ok then set_error EFAULT
      else
        ior ip (Z.lor (Z.lor IACC IUPD) ICHG) ;;;
        iupdat ip (ret (rdf (fld 0 CS32) tv)) (ret (rdf (fld 4 CS32) tv)) ;;;
        iput ip
  end.

(** ** Signals and times *)

Definition ssig : KM unit :=
  a <- arg 0 ;;
  if (a <=? 0) || (NSIG <=? a) || (a =? SIGKIL) then set_error EINVAL
  else
    fun_ <- arg 1 ;;
    l <- uf u_signal ;;
    old <- the (l !! Z.to_nat a) ;;
    uset u_r_val1 old ;;;
    umod (fun r => r <| u_signal ::= <[Z.to_nat a := fun_]> |>) ;;;
    p <- uf u_procp ;;
    m <- pf p p_sig ;; pset p p_sig (s16 (clr m (Z.shiftl 1 (a - 1)))).

(** Whether [kill] signals the process; [a] is the number asked for. *)
Definition kill_hits (us : user) (q : proc) (a : Z) (priv : bool) (i : nat) (p : proc) : bool :=
  negb (p_stat p =? 0)
  && negb (negb (a =? 0) && negb (p_pid p =? a))
  && negb ((a =? 0) && ((negb (p_pgrp p =? p_pgrp q) && negb priv) || Nat.leb i 1))
  && negb (negb (u_uid us =? 0) && negb (u_uid us =? p_uid p)).

Definition kill : KM unit :=
  a <- arg 0 ;;
  us <- uf (fun r => r) ;;
  let priv := (a =? -1) && (u_uid us =? 0) in
  let a := if priv then 0 else a in
  n <- nprocs ;;
  f <- loop (S n) (fun x : nat * Z =>
    let '(p, f) := x in
    if Nat.leb n p then ret (inr f)
    else
      r <- tget procs p ;;
      q <- tget procs (u_procp us) ;;
      if kill_hits us q a priv p r then
        signo <- arg 1 ;;
        psignal p signo ;;;
        ret (inl (S p, f + 1))
      else ret (inl (S p, f))) (0%nat, 0) ;;
  when (f =? 0) (set_error ESRCH).

Definition times : KM unit :=
  us <- uf (fun r => r) ;;
  tp <- arg 0 ;;
  copyout_err (bytes_of 4 (u_utime us) ++ bytes_of 4 (u_stime us) ++ bytes_of 4 (u_cutime us) ++
               bytes_of 4 (u_cstime us)) tp.

Definition profil : KM unit :=
  b <- arg 0 ;; uset pr_base b ;;;
  n <- arg 1 ;; uset pr_size (u32 n) ;;;
  o <- arg 2 ;; uset pr_off (u32 o) ;;;
  c <- arg 3 ;; uset pr_scale (u32 c).

Definition alarm : KM unit :=
  p <- uf u_procp ;;
  c <- pf p p_clktim ;;
  d <- arg 0 ;;
  pset p p_clktim d ;;;
  uset u_r_val1 c.

(** [for(;;) sleep(&u, PSLEP);] *)
Definition pause : KM unit :=
  n <- rounds ;;
  loop n (fun _ : unit => sleep CUser PSLEP ;;; ret (inl tt : unit + unit)) tt.

Definition umask : KM unit :=
  t <- uf u_cmask ;;
  m <- arg 0 ;;
  uset u_cmask (Z.land m 511) ;;;
  uset u_r_val1 t.

(** ** Accounting ([acct.c]) *)

Definition sysacct : KM unit :=
  su <- suser ;;
  if negb su then ret tt
  else
    fname <- arg 0 ;;
    ap <- kf acctp ;;
    if fname =? 0 then
      match ap with
      | Some ip => plock ip ;;; ap <- kf acctp ;; ip <- the ap ;; iput ip ;;; kset acctp None
      | None => ret tt
      end
    else match ap with
    | Some _ => set_error EBUSY
    | None =>
        o <- namei uchar 0 ;;
        match o with
        | None => ret tt
        | Some ip =>
            m <- ipf ip i_mode ;;
            if negb (ifmt m =? IFREG) then set_error EACCES ;;; iput ip
            else kset acctp (Some ip) ;;; prele ip
        end
    end.

(** The record of the process; a time [compress] has no result for does not
    fit an [int]. *)
Definition acct_record (us : user) (now : Z) (b : list Z) : option (list Z) :=
  match compress (u_utime us), compress (u_stime us), compress (s32 (now - u_start us)) with
  | Some ut, Some st, Some et =>
      Some (wrf ac_flag (u_acflag us) (wrf ac_tty (u_ttyd us) (wrf ac_io 0 (wrf ac_mem 0
        (wrf ac_gid (u_rgid us) (wrf ac_uid (u_ruid us) (wrf ac_btime (u_start us)
        (wrf ac_etime et (wrf ac_stime st (wrf ac_utime ut
        (splice 0 (take 10 (u_comm us)) b)))))))))))
  | _, _, _ => None
  end.

Definition acct : KM unit :=
  ap <- kf acctp ;;
  match ap with
  | None => ret tt
  | Some ip =>
      plock ip ;;;
      us <- uf (fun r => r) ;;
      now <- kf time ;;
      b <- kf acctbuf ;;
      r <- the (acct_record us now b) ;;
      kset acctbuf r ;;;
      siz <- ipf ip i_size ;;
      uset u_offset siz ;;;
      uset u_base (KA OAcct 0) ;;;
      uset u_count sizeof_acct ;;;
      uset u_segflg 1 ;;;
      uset u_error 0 ;;;
      writei ip ;;;
      err <- uf u_error ;;
      when (tst err) (ipset ip i_size siz) ;;;
      prele ip
  end.

Definition syslock : KM unit :=
  su <- suser ;;
  when su
    (p <- uf u_procp ;;
     pclr p SULOCK ;;;
     flag <- arg 0 ;;
     when (tst flag) (por p SULOCK)).

End SysMisc.

(** ** The accuracy of [compress] *)

(** After [e] rounds: what is left of [t], the digit to the base 8 last
    dropped and the rest below it. *)
Definition shifted (t T e rnd : Z) : Prop :=
  (e = 0 /\ T = t /\ rnd = 0) \/
  (0 < e /\ exists p c s, p = 8 ^ (e - 1) /\ t = p * (8 * T + c) + s /\ 0 <= c < 8 /\ 0 <= s < p /\
     rnd = Z.land c 4).

Lemma shifted_step t T e rnd : shifted t T e rnd -> 0 <= T -> shifted t (Z.shiftr T 3) (e + 1) (Z.land T 4).
Proof.
  intros H HT. right. rewrite Z.shiftr_div_pow2 by lia. change (2 ^ 3) with 8.
  pose proof (Z.div_mod T 8) as ED. pose proof (Z.mod_pos_bound T 8) as EB.
  assert (Z.land T 4 = Z.land (T mod 8) 4) as ->.
  { change 8 with (2 ^ 3). rewrite <- Z.land_ones, <- Z.land_assoc by lia. done. }
  split; [destruct H as [(? & _)|(? & _)]; lia|]. rewrite Z.add_simpl_r.
  destruct H as [(-> & -> & _)|(He & p & c & s & Hp & Ht & Hc & Hs & _)].
  - exists 1, (t mod 8), 0. repeat split; try lia.
  - exists (8 * p), (T mod 8), (p * c + s). split.
    { rewrite Hp, <- Z.pow_succ_r by lia. f_equal. lia. }
    split; [rewrite Ht; rewrite ED at 1 by lia; ring|]. split; [lia|]. split; [nia|done].
Qed.

Lemma compress_loop_ok n : forall t T e rnd, 0 <= T -> T < 8192 * 8 ^ Z.of_nat n ->
  shifted t T e rnd -> 0 <= e ->
  exists T' e' rnd', compress_loop (S n) T e rnd = Some (T', e', rnd') /\ shifted t T' e' rnd' /\
    0 <= T' < 8192 /\ e <= e' <= e + Z.of_nat n.
Proof.
  induction n as [|n IH]; intros t T e rnd HT Hlt H He;
    cbn -[Z.mul Z.of_nat Z.shiftr Z.land] in *; destruct (Z.leb_spec 8192 T) as [Hge|Hge].
  - change (8 ^ Z.of_nat 0) with 1 in Hlt. lia.
  - exists T, e, rnd. repeat split; try done; lia.
  - rewrite Nat2Z.inj_succ, Z.pow_succ_r in Hlt by lia.
    assert (0 < 8 ^ Z.of_nat n) by (apply Z.pow_pos_nonneg; lia).
    destruct (IH t (Z.shiftr T 3) (e + 1) (Z.land T 4)) as (T' & e' & r' & E & S' & B & R);
      [by apply Z.shiftr_nonneg|rewrite Z.shiftr_div_pow2 by lia; change (2 ^ 3) with 8;
         apply Z.div_lt_upper_bound; lia
      |by eapply shifted_step|lia|].
    exists T', e', r'. split; [exact E|]. split; [done|]. lia.
  - exists T, e, rnd. repeat split; try done; lia.
Qed.

(** Rounding to nearest: a digit of 4 or more is carried. *)
Definition rounds_to (t T e : Z) : Prop := 2 * Z.abs (T * 8 ^ e - t) <= 8 ^ e.

Lemma shifted_round t T e rnd : shifted t T e rnd -> 0 <= e ->
  rounds_to t (if tst rnd then T + 1 else T) e.
Proof.
  unfold rounds_to. intros [(-> & -> & ->)|(He & p & c & s & Hp & Ht & Hc & Hs & ->)] _.
  { change (tst 0) with false. cbn match. rewrite Z.pow_0_r. lia. }
  replace (8 ^ e) with (8 * p) by (rewrite Hp, <- Z.pow_succ_r by lia; f_equal; lia).
  assert (c = 0 \/ c = 1 \/ c = 2 \/ c = 3 \/ c = 4 \/ c = 5 \/ c = 6 \/ c = 7) as Hd by lia.
  destruct Hd as [-> | [-> | [-> | [-> | [-> | [-> | [-> | ->]]]]]]];
    match goal with |- context [tst (Z.land ?a 4)] => 
      let v := eval vm_compute in (tst (Z.land a 4)) in change (tst (Z.land a 4)) with v end; cbn match; nia.
Qed.

(** The last step of [compress]: a significand rounded up to 8192 is
    renormalised. *)
Lemma compress_round_ok T e r : 0 <= T < 8192 -> 0 <= e <= 6 ->
  exists v, (let '(t, exp) := if tst r then let t := T + 1 in
     if 8192 <=? t then (Z.shiftr t 3, e + 1) else (t, e) else (T, e) in
     Some (Z.shiftl exp 13 + t)) = Some v /\
  exists T' e', v = e' * 8192 + T' /\ 0 <= T' < 8192 /\ 0 <= e' <= 7 /\
    T' * 8 ^ e' = (if tst r then T + 1 else T) * 8 ^ e /\ e <= e' /\ (r = 0 -> T' = T /\ e' = e).
Proof.
  intros B R. destruct (tst r) eqn:Er; cbn -[Z.shiftl Z.shiftr Z.mul Z.add].
  - destruct (Z.leb_spec 8192 (T + 1)).
    + assert (T = 8191) as -> by lia. rewrite Z.shiftl_mul_pow2 by lia.
      change (Z.shiftr (8191 + 1) 3) with 1024. eexists. split; [done|]. exists 1024, (e + 1).
      change (2 ^ 13) with 8192. rewrite Z.pow_add_r by lia. split; [done|]. repeat split; try lia; by subst r.
    + rewrite Z.shiftl_mul_pow2 by lia. eexists. split; [done|]. exists (T + 1), e.
      change (2 ^ 13) with 8192. split; [done|]. repeat split; try lia; by subst r.
  - rewrite Z.shiftl_mul_pow2 by lia. eexists. split; [done|]. exists T, e.
    change (2 ^ 13) with 8192. split; [done|]. repeat split; lia.
Qed.

(** What a record's field stands for. *)
Definition expanded (v : Z) : Z := (v mod 8192) * 8 ^ (v / 8192).

(** [compress] has a result for every non-negative [int] and it fits the
    unsigned short of the accounting record.  With the exponent [e] in its
    upper three bits, what the field stands for is within half a unit of the
    last place of the time, [8^e]; a time below 8192 is recorded exactly. *)
Theorem compress_bounds t : 0 <= t < 2 ^ 31 ->
  exists v, compress t = Some v /\ 0 <= v < 2 ^ 16 /\
    2 * Z.abs (expanded v - t) <= 8 ^ (v / 8192) /\ (t < 8192 -> v = t).
Proof.
  intros Ht. unfold compress.
  destruct (compress_loop_ok 6 t t 0 0) as (T & e & r & E & S' & B & R);
    [lia|change (8 ^ Z.of_nat 6) with 262144; lia|by left|done|].
  rewrite E. pose proof (shifted_round _ _ _ _ S' (proj1 R)) as HR. unfold rounds_to in HR.
  assert (t < 8192 -> T = t /\ e = 0 /\ r = 0) as Hsmall.
  { intros Hlt. revert E. cbn -[Z.shiftr Z.land]. destruct (Z.leb_spec 8192 t); [lia|]. by intros [= <- <- <-]. }
  destruct (compress_round_ok T e r B R) as (v & Hv & T' & e' & -> & HT & He & EQ & Hle & Hx).
  exists (e' * 8192 + T'). unfold expanded. replace ((e' * 8192 + T') / 8192) with e' by (apply Z.div_unique with T'; lia).
  replace ((e' * 8192 + T') mod 8192) with T' by (apply Z.mod_unique with e'; lia).
  split; [exact Hv|]. split; [lia|]. rewrite EQ. split.
  - etrans; [exact HR|]. apply Z.pow_le_mono_r; lia.
  - intros Hlt. destruct (Hsmall Hlt) as (-> & -> & ->). destruct (Hx eq_refl) as [-> ->]. lia.
Qed.

Lemma compress_bounds_witness : exists v, compress 65535 = Some v /\ 0 <= v < 2 ^ 16 /\
  2 * Z.abs (expanded v - 65535) <= 8 ^ (v / 8192) /\ (65535 < 8192 -> v = 65535).
Proof. apply (compress_bounds 65535). lia. Defined.
