(* ===== verification/SysProc.v ===== *)
(** * SysProc: processes and their images ([sys/sys1.c], the rest of
      [sys/sig.c], [sendsig] of [sys/machdep.c]) *)

From S2P Require Import Prelude Bytes State Utab Sched Bio Alloc Inode Rdwri Text Nami Fio SysFile SysMisc.

Definition SSIZE : Z := 1.
Definition SINCR : Z := 1.
Definition NCARGS : Z := 5120.
Definition MAXMEM : Z := 2048.
Definition MAXUPRC : Z := 25.
Definition AFORK : Z := 1.
Definition TBIT : Z := 256.

(** The process does not run again. *)
Definition no_return {A} : KM A := fun w => Asleep w.

Definition reg_set (f : regs -> regs) : KM unit := umod (fun r => r <| u_ar0 ::= f |>).

Section SysProc.
Context {MC : Machine}.

(** ** The stack and the data segment *)

(** [n] pages up (down) from [a] on, each copied from [d] below. *)
Definition copy_up (a d n : Z) : KM unit := for_ (seqZ 0 n) (fun i => copyseg (a + i - d) (a + i)).
Definition copy_down (a d n : Z) : KM unit :=
  for_ (seqZ 1 n) (fun i => copyseg (a - i - d) (a - i)).
Definition clear_down (a n : Z) : KM unit := for_ (seqZ 1 n) (fun i => clearseg (a - i)).

Definition grow (sp : Z) : KM bool :=
  us <- uf (fun r => r) ;;
  if u32 (USTK - ctob (u_ssize us)) <? sp then ret false
  else
    let si := s32 (u32 (USTK - sp) / 4096 - u_ssize us + SINCR) in
    if si <=? 0 then ret false
    else
      t <- estabur (u_tsize us) (u_dsize us) (u_ssize us + si) RO ;;
      if tst t then ret false
      else
        p <- uf u_procp ;;
        size <- pf p p_size ;;
        expand (size + si) ;;;
        ad <- pf p p_addr ;; size <- pf p p_size ;;
        let a := ad + size in
        n <- uf u_ssize ;;
        copy_down a si n ;;;
        clear_down (a - n) si ;;;
        uset u_ssize (u32 (n + si)) ;;;
        ret true.

Definition sbreak : KM unit :=
  nsiz <- arg 0 ;;
  us <- uf (fun r => r) ;;
  let n := btoc nsiz in
  let n := if tst (u_sep us) then n else s32 (n - u_tsize us) in
  let n := if n <? 0 then 0 else n in
  let d := s32 (n - u_dsize us) in
  let n := s32 (n + (USIZE + u_ssize us)) in
  t <- estabur (u_tsize us) (u32 (u_dsize us + d)) (u_ssize us) RO ;;
  if tst t then ret tt
  else
    uset u_dsize (u32 (u_dsize us + d)) ;;;
    p <- uf u_procp ;;
    if 0 <? d then
      expand n ;;;
      ad <- pf p p_addr ;;
      let a := ad + n in
      copy_down a d (u_ssize us) ;;;
      clear_down (a - u_ssize us) d
    else
      ad <- pf p p_addr ;;
      copy_up (ad + n - u_ssize us) d (u_ssize us) ;;;
      expand n.

(** ** Executing a program *)

(** The header of the file goes into [u_exdata]; [false] with an error. *)
Definition getxhead (ip : nat) : KM bool :=
  uset u_base (KA OExdata 0) ;;;
  uset u_count sizeof_exdata ;;;
  uset u_offset 0 ;;;
  uset u_segflg 1 ;;;
  readi ip ;;;
  uset u_segflg 0 ;;;
  err <- uf u_error ;;
  if tst err then ret false
  else
    left <- uf u_count ;;
    if negb (left =? 0) then set_error ENOEXEC ;;; ret false
    else
      mag <- exdata ux_mag ;;
      if mag =? 263 then
        ds <- exdata ux_dsize ;; ts <- exdata ux_tsize ;;
        (* lsize is a long; it is compared with ux_dsize as unsigned *)
        let lsize := s32 (u32 (ds + ts)) in
        umod (fun r => r <| u_exdata ::= wrf ux_dsize lsize |>) ;;;
        ds <- exdata ux_dsize ;;
        if negb (u32 lsize =? ds) then set_error ENOMEM ;;; ret false
        else umod (fun r => r <| u_exdata ::= wrf ux_tsize 0 |>) ;;; ret true
      else if negb (mag =? 264) then set_error ENOEXEC ;;; ret false
      else ret true.

(** SUID and SGID, or a trap for the tracer. *)
Definition getxsetid (ip : nat) : KM unit :=
  p <- uf u_procp ;;
  fl <- pf p p_flag ;;
  r <- tget inodes ip ;;
  if negb (fl &? STRC) then
    uid <- uf u_uid ;;
    when ((i_mode r &? ISUID) && negb (uid =? 0))
      (uset u_uid (i_uid r) ;;; pset p p_uid (i_uid r)) ;;;
    when (i_mode r &? ISGID) (uset u_gid (i_gid r))
  else psignal p SIGTRC.

(** The new image, once its sizes have been found good. *)
Definition getximage (ip : nat) (ts ds ss : Z) : KM unit :=
  uset pr_scale 0 ;;;
  xfree ;;;
  let i := USIZE + ds + ss in
  expand i ;;;
  p <- uf u_procp ;;
  ad <- pf p p_addr ;;
  for_ (rev (seqZ USIZE (i - USIZE))) (fun j => clearseg (ad + j)) ;;;
  xalloc ip ;;;
  estabur 0 ds 0 RO ;;;
  uset u_base (UA 0) ;;;
  tsz <- exdata ux_tsize ;; dsz <- exdata ux_dsize ;;
  uset u_offset (s32 (sizeof_exdata + tsz)) ;;;
  uset u_count dsz ;;;
  readi ip ;;;
  getxsetid ip ;;;
  uset u_tsize ts ;;;
  uset u_dsize ds ;;;
  uset u_ssize ss ;;;
  estabur ts ds ss RO ;;;
  ret tt.

(** [getxfile(ip, nargc)], which returns 0 always. *)
Definition getxfile (ip : nat) (nargc : Z) : KM unit :=
  ok <- getxhead ip ;;
  if negb ok then ret tt
  else
    tsz <- exdata ux_tsize ;;
    r <- tget inodes ip ;;
    if negb (tsz =? 0) && negb (i_flag r &? ITEXT) && negb (i_count r =? 1) then set_error ETXTBSY
    else
      let ts := btoc tsz in
      dsz <- exdata ux_dsize ;; bsz <- exdata ux_bsize ;;
      let lsize := s32 (u32 (dsz + bsz)) in
      (* lsize != (unsigned)lsize never holds of 32-bit longs *)
      if negb (u32 lsize =? u32 lsize) then set_error ENOMEM
      else
        let ds := btoc lsize in
        let ss := SSIZE + btoc nargc in
        t <- estabur ts ds ss RO ;;
        if tst t then ret tt else getximage ip ts ds ss.

Definition setregs : KM unit :=
  umod (fun r => r <| u_signal ::= map (fun x => if Z.land x 1 =? 0 then 0 else x) |>) ;;;
  ent <- exdata ux_entloc ;;
  reg_set (fun g => g <| r_eax := 0 |> <| r_edx := 0 |> <| r_ecx := 0 |> <| r_ebx := 0 |>
                      <| r_esi := 0 |> <| r_edi := 0 |> <| r_ebp := 0 |> <| r_eip := s32 ent |>) ;;;
  for_ (seq 0 NOFILE) (fun i =>
    fl <- uf u_pofile ;;
    f <- the (fl !! i) ;;
    when (f &? EXCLOSE)
      (l <- uf u_ofile ;;
       o <- the (l !! i) ;;
       closef o ;;;
       umod (fun r => r <| u_ofile ::= <[i := None]> |>
                        <| u_pofile ::= <[i := clr f EXCLOSE]> |>))) ;;;
  umod (fun r => r <| u_acflag ::= fun f => clr f AFORK |> <| u_comm := u_dbuf r |>).

(** *** The arguments, kept on the swap device meanwhile *)

(** [nc], the buffer in hand and the place in it. *)
Definition argbuf := (Z * option bptr * nat)%type.

(** A character of an argument goes out to the swap device. *)
Definition arg_put (bno : Z) (x : argbuf) (c : Z) : KM argbuf :=
  let '(nc, bp, cp) := x in
  y <- (if Z.land nc BMASK =? 0 then
          match bp with Some bp => bawrite bp | None => ret tt end ;;;
          dev <- kf swapdev ;; lo <- kf swplo ;;
          bp <- getblk dev (lo + bno + Z.shiftr nc BSHIFT) ;;
          ret (bp, 0%nat)
        else bp <- the bp ;; ret (bp, cp)) ;;
  let '(bp, cp) := y in
  kstore (OBuf bp) (Z.of_nat cp) c ;;;
  ret (nc + 1, Some bp, S cp).

(** The characters of the argument at [ap]; [false] ends the collection. *)
Definition arg_chars (bno ap : Z) (x : argbuf) : KM (argbuf * bool) :=
  loop (Z.to_nat NCARGS) (fun y : Z * argbuf =>
    let '(ap, x) := y in
    let '(nc, bp, cp) := x in
    when (NCARGS - 1 <=? nc) (set_error E2BIG) ;;;
    c <- fubyte (UA (u32 ap)) ;;
    when (c <? 0) (set_error EFAULT) ;;;
    err <- uf u_error ;;
    if tst err then ret (inr (x, false))
    else
      x <- arg_put bno x c ;;
      ret (if 0 <? c then inl (ap + 1, x) else inr (x, true))) (ap, x).

(** The next pointer of the list at argument 1, then of the one at argument
    2, which step along them: 0 at the end, and whether it is one of [envp]. *)
Definition arg_next : KM (Z * bool) :=
  argp <- arg 1 ;;
  ap <- (if negb (argp =? 0) then
           ap <- fuword (UA (u32 argp)) ;; set_arg 1 (argp + 4) ;;; ret ap
         else ret 0) ;;
  envp <- arg 2 ;;
  if (ap =? 0) && negb (envp =? 0) then
    set_arg 1 0 ;;;
    ap <- fuword (UA (u32 envp)) ;;
    if ap =? 0 then ret (0, false) else set_arg 2 (envp + 4) ;;; ret (ap, true)
  else ret (ap, false).

(** All of them: the counts of strings and of those from [envp], the
    characters; [None] for [goto bad] with the buffer in hand. *)
Definition arg_collect (bno : Z) : KM (argbuf * option (Z * Z)) :=
  loop (S (Z.to_nat NCARGS)) (fun y : (Z * Z) * argbuf =>
    let '(cnt, x) := y in
    let '(na, ne) := cnt in
    nx <- arg_next ;;
    let '(ap, env) := nx in
    if ap =? 0 then ret (inr (x, Some (na, ne)))
    else
      let cnt := (na + 1, if env : bool then ne + 1 else ne) in
      when (ap =? -1) (set_error EFAULT) ;;;
      r <- arg_chars bno ap x ;;
      let '(x, ok) := r in
      ret (if ok : bool then inl (cnt, x) else inr (x, None)))
    ((0, 0), (0, None, 0%nat)).

(** A string comes back from the swap device to the user's [ucp]. *)
Definition arg_back (bno ucp : Z) (x : argbuf) : KM (Z * argbuf) :=
  loop (Z.to_nat NCARGS) (fun y : Z * argbuf =>
    let '(ucp, x) := y in
    let '(nc, bp, cp) := x in
    z <- (if Z.land nc BMASK =? 0 then
            match bp with Some bp => brelse bp | None => ret tt end ;;;
            dev <- kf swapdev ;; lo <- kf swplo ;;
            bp <- bread dev (lo + bno + Z.shiftr nc BSHIFT) ;;
            ret (bp, 0%nat)
          else bp <- the bp ;; ret (bp, cp)) ;;
    let '(bp, cp) := z in
    c <- kload (OBuf bp) (Z.of_nat cp) ;;
    subyte (UA (u32 ucp)) c ;;;
    let x := (nc + 1, Some bp, S cp) in
    ret (if tst (Z.land c 255) then inl (ucp + 1, x) else inr (ucp + 1, x))) (ucp, x).

(** The pointers and strings on the new stack; the buffer in hand. *)
Definition arg_restore (bno nc na ne : Z) : KM (option bptr) :=
  let ucp := USTK - nc - NBPW in
  let ap := ucp - na * NBPW - 3 * NBPW in
  reg_set (fun g => g <| r_esp := ap |>) ;;;
  suword (UA ap) (na - ne) ;;;
  r <- loop (S (Z.to_nat (na + 1))) (fun y : Z * Z * Z * argbuf =>
    let '(na, ap, ucp, x) := y in
    let ap := ap + NBPW in
    ap <- (if na =? ne then suword (UA ap) 0 ;;; ret (ap + NBPW) else ret ap) ;;
    let na := na - 1 in
    if na <? 0 then ret (inr (ap, ucp, x))
    else
      suword (UA ap) ucp ;;;
      r <- arg_back bno ucp x ;;
      let '(ucp, x) := r in
      ret (inl (na, ap, ucp, x))) (na, ap, ucp, (0, None, 0%nat)) ;;
  let '(ap, ucp, x) := r in
  suword (UA ap) 0 ;;;
  suword (UA ucp) 0 ;;;
  setregs ;;;
  ret (x.1.2).

Definition exec_blocks : Z := (NCARGS + BSIZE - 1) / BSIZE.

(** [exece] from the allocation on: the buffer and the swap space in hand at
    [bad]. *)
Definition exec_file (ip : nat) : KM (option bptr * Z) :=
  bno <- malloc_swap exec_blocks ;;
  (if bno =? 0 then panic "Out of swap" else ret tt) ;;;
  argp <- arg 1 ;;
  r <- (if argp =? 0 then ret ((0, None, 0%nat), Some (0, 0)) else arg_collect bno) ;;
  let '(nc, bp, _, o) := r in
  match o with
  | None => ret (bp, bno)
  | Some (na, ne) =>
      match bp with Some bp => bawrite bp | None => ret tt end ;;;
      let nc := clr (nc + NBPW - 1) (NBPW - 1) in
      getxfile ip nc ;;;
      err <- uf u_error ;;
      if tst err then ret (None, bno)
      else bp <- arg_restore bno nc na ne ;; ret (bp, bno)
  end.

Definition exece : KM unit :=
  o <- namei uchar 0 ;;
  match o with
  | None => ret tt
  | Some ip =>
      no <- access ip IEXEC ;;
      m <- ipf ip i_mode ;;
      r <- (if no : bool then ret (None, 0)
            else if negb (ifmt m =? IFREG) ||
                    negb (m &? Z.lor (Z.lor IEXEC (Z.shiftr IEXEC 3)) (Z.shiftr IEXEC 6)) then
              set_error EACCES ;;; ret (None, 0)
            else exec_file ip) ;;
      let '(bp, bno) := r in
      match bp with Some bp => brelse bp | None => ret tt end ;;;
      when (tst bno) (mfree_swap exec_blocks bno) ;;;
      iput ip
  end.
Definition exec : KM unit := set_arg 2 0 ;;; exece.

(** ** The end of a process *)

(** A child of the process goes to process 1. *)
Definition orphan (pid : Z) (q : nat) : KM unit :=
  pp <- pf q p_ppid ;;
  when (pp =? pid)
    (wakeup (CProc 1) ;;;
     pset q p_ppid 1 ;;;
     st <- pf q p_stat ;;
     when (st =? SSTOP) (setrun q)).

Definition exit {A} (rv : Z) : KM A :=
  p <- uf u_procp ;;
  pclr p (Z.lor STRC SULOCK) ;;;
  pset p p_clktim 0 ;;;
  umod (fun r => r <| u_signal := replicate (Z.to_nat NSIG) 1 |>) ;;;
  for_ (seq 0 NOFILE) (fun i =>
    l <- uf u_ofile ;;
    f <- the (l !! i) ;;
    umod (fun r => r <| u_ofile ::= <[i := None]> |>) ;;;
    closef f) ;;;
  cd <- uf u_cdir ;; plock cd ;;; iput cd ;;;
  rd <- uf u_rdir ;;
  match rd with Some rd => plock rd ;;; iput rd | None => ret tt end ;;;
  xfree ;;;
  acct ;;;
  size <- pf p p_size ;; ad <- pf p p_addr ;;
  mfree_core size ad ;;;
  pset p p_stat SZOMB ;;;
  us <- uf (fun r => r) ;;
  pset p p_addr (s16 rv) ;;;
  let ut := s32 (u_cutime us + u_utime us) in
  pset p p_wchan (CRaw ut) ;;; pset p xp_utime ut ;;;
  pset p xp_stime (s32 (u_cstime us + u_stime us)) ;;;
  n <- nprocs ;;
  pid <- pf p p_pid ;;
  for_ (slots n) (orphan pid) ;;;
  pp <- pf p p_ppid ;;
  for_find (slots n) (fun q =>
    i <- pf q p_pid ;;
    if pp =? i then wakeup (CProc q) ;;; ret (Some tt) else ret None) ;;;
  no_return.

Definition rexit : KM unit := r <- arg 0 ;; exit (Z.shiftl (Z.land r 255) 8).

(** What [wait] does with a child: [inl] when there is nothing to report. *)
Definition wait_child (p : nat) : KM (option unit) :=
  r <- tget procs p ;;
  if p_stat r =? SZOMB then
    uset u_r_val1 (p_pid r) ;;;
    uset u_r_val2 (p_addr r) ;;;
    umod (fun us => us <| u_cutime ::= fun t => s32 (t + xp_utime r) |>
                       <| u_cstime ::= fun t => s32 (t + xp_stime r) |>) ;;;
    tmod procs p (fun r => r <| p_pid := 0 |> <| p_ppid := 0 |> <| p_pgrp := 0 |> <| p_sig := 0 |>
                             <| p_flag := 0 |> <| p_wchan := CNull |> <| p_stat := 0 |>) ;;;
    ret (Some tt)
  else if (p_stat r =? SSTOP) && negb (p_flag r &? SWTED) then
    por p SWTED ;;;
    uset u_r_val1 (p_pid r) ;;;
    s <- fsig p ;;
    uset u_r_val2 (Z.lor (Z.shiftl s 8) 127) ;;;
    ret (Some tt)
  else ret None.

Definition wait_round (f : Z) : KM (Z + unit) :=
  me <- uf u_procp ;;
  n <- nprocs ;;
  x <- loop (S n) (fun x : nat * Z =>
    let '(p, f) := x in
    if Nat.leb n p then ret (inr (f, false))
    else
      pid <- pf me p_pid ;;
      pp <- pf p p_ppid ;;
      if pp =? pid then
        o <- wait_child p ;;
        ret (match o with Some _ => inr (f, true) | None => inl (S p, f + 1) end)
      else ret (inl (S p, f))) (0%nat, f) ;;
  let '(f, done) := x in
  if done : bool then ret (inr tt)
  else if negb (f =? 0) then sleep (CProc me) PWAIT ;;; ret (inl f)
  else set_error ECHILD ;;; ret (inr tt).
Definition wait : KM unit := n <- rounds ;; loop n wait_round 0.

(** ** Fork *)

(** The free slot found first and the user's other processes. *)
Definition fork_count (uid : Z) (ps : list proc) : option nat * Z :=
  fold_left (fun (x : option nat * Z) (y : nat * proc) =>
    let '(p2, a) := x in let '(i, r) := y in
    if (p_stat r =? 0) && bool_decide (p2 = None) then (Some i, a)
    else (p2, if (p_uid r =? uid) && negb (p_stat r =? 0) then a + 1 else a)) (numbered ps) (None, 0).

Definition fork_ok (uid : Z) (ps : list proc) : option nat :=
  let '(p2, a) := fork_count uid ps in
  match p2 with
  | None => None
  | Some p =>
      if negb (uid =? 0) && (Nat.eqb p (length ps - 1) || (MAXUPRC <? a)) then None else Some p
  end.

(** [fork] in the parent; the child is [newproc]'s. *)
Definition fork : KM unit :=
  a <- malloc_swap (ctod MAXMEM) ;;
  (if a =? 0 then set_error ENOMEM
   else
     mfree_swap (ctod MAXMEM) a ;;;
     uid <- uf u_uid ;;
     ps <- kf procs ;;
     match fork_ok uid ps with
     | None => set_error EAGAIN
     | Some p2 =>
         newproc ;;;
         pid <- pf p2 p_pid ;;
         uset u_r_val1 pid
     end) ;;;
  reg_set (fun g => g <| r_eip := s32 (r_eip g + 2) |>).

(** [fork] in the child, once it runs; [p1] is the parent. *)
Definition fork_child (p1 : nat) : KM unit :=
  pid <- pf p1 p_pid ;; uset u_r_val1 pid ;;;
  t <- kf time ;; uset u_start t ;;;
  umod (fun us => us <| u_cstime := 0 |> <| u_stime := 0 |> <| u_cutime := 0 |> <| u_utime := 0 |>
                     <| u_acflag := AFORK |>).

(** ** Signals ([sig.c], [machdep.c]) *)

Definition sendsig (p : Z) : KM unit :=
  g <- uf u_ar0 ;;
  let n := u32 (r_esp g - 4) in
  grow n ;;;
  g <- uf u_ar0 ;;
  suword (UA n) (r_eip g) ;;;
  reg_set (fun g => g <| r_esp := s32 n |> <| r_efl ::= fun f => clr f TBIT |> <| r_eip := p |>).

(** "core" *)
Definition core_name : list Z := [99; 111; 114; 101; 0].

Definition core : KM bool :=
  uset u_error 0 ;;;
  uset u_dirp 0 ;;;
  o <- namei (schar core_name) 1 ;;
  o <- match o with
       | Some ip => ret (Some ip)
       | None => err <- uf u_error ;; if tst err then ret None else maknode 438
       end ;;
  match o with
  | None => ret false
  | Some ip =>
      no <- access ip IWRITE ;;
      m <- ipf ip i_mode ;;
      us <- uf (fun r => r) ;;
      when (negb no && (ifmt m =? IFREG) && (u_uid us =? u_ruid us))
        (itrunc ip ;;;
         uset u_offset 0 ;;;
         uset u_base (KA OUser 0) ;;; uset u_count (ctob 1) ;;; uset u_segflg 1 ;;;
         writei ip ;;;
         uset u_base (KA OUser (ctob 2)) ;;; uset u_count (ctob 1) ;;;
         writei ip ;;;
         p <- uf u_procp ;;
         size <- pf p p_size ;;
         let s := u32 (size - USIZE) in
         estabur 0 s 0 RO ;;;
         uset u_base (UA 0) ;;; uset u_count (u32 (ctob s)) ;;; uset u_segflg 0 ;;;
         writei ip) ;;;
      iput ip ;;;
      err <- uf u_error ;;
      ret (err =? 0)
  end.

(** *** Tracing *)

Definition ipc_wait (busy : kernel -> bool) : KM unit :=
  n <- rounds ;;
  loop n (fun _ : unit =>
    b <- kf busy ;;
    if b : bool then sleep CIpc PZERO ;;; ret (inl tt) else ret (inr tt)) tt.

Definition ptrace : KM unit :=
  req <- arg 0 ;;
  me <- uf u_procp ;;
  if req <=? 0 then por me STRC
  else
    pid <- arg 1 ;;
    n <- nprocs ;;
    o <- for_find (slots n) (fun p =>
      r <- tget procs p ;;
      mypid <- pf me p_pid ;;
      ret (if (p_stat r =? SSTOP) && (p_pid r =? pid) && (p_ppid r =? mypid) then Some p else None)) ;;
    match o with
    | None => set_error ESRCH
    | Some p =>
        ipc_wait (fun k => tst (ip_lock k)) ;;;
        i <- pf p p_pid ;; kset ip_lock i ;;;
        data <- arg 3 ;; kset ip_data data ;;;
        ad <- arg 2 ;; kset ip_addr ad ;;;
        kset ip_req req ;;;
        pclr p SWTED ;;;
        setrun p ;;;
        ipc_wait (fun k => 0 <? ip_req k) ;;;
        d <- kf ip_data ;; uset u_r_val1 d ;;;
        r <- kf ip_req ;;
        when (r <? 0) (set_error EIO) ;;;
        kset ip_lock 0 ;;;
        wakeup CIpc
    end.

(** How a request ends: the process stays stopped, with an error or without,
    or goes on. *)
Inductive traced := TStay | TError | TGo.

(** Request 4: write to the text, which must not be shared. *)
Definition trace_wtext (ad data : Z) : KM traced :=
  p <- uf u_procp ;;
  xp <- pf p p_textp ;;
  ok <- match xp with
        | None => ret true
        | Some xp =>
            r <- tget texts xp ;;
            ip <- the (x_iptr r) ;;
            if negb (x_count r =? 1) then ret false
            else
              m <- ipf ip i_mode ;;
              if m &? ISVTX then ret false else iclr ip ITEXT ;;; ret true
        end ;;
  if negb ok then ret TError
  else
    us <- uf (fun r => r) ;;
    estabur (u_tsize us) (u_dsize us) (u_ssize us) RW ;;;
    i <- suword (UA (u32 ad)) 0 ;;
    suword (UA (u32 ad)) data ;;;
    us <- uf (fun r => r) ;;
    estabur (u_tsize us) (u_dsize us) (u_ssize us) RO ;;;
    if i <? 0 then ret TError
    else
      match xp with Some xp => xor_ xp XWRIT | None => ret tt end ;;;
      ret TStay.

Definition trace_go (ad data : Z) : KM traced :=
  when (negb (ad =? 1)) (reg_set (fun g => g <| r_eip := ad |>)) ;;;
  p <- uf u_procp ;;
  pset p p_sig 0 ;;;
  when (tst data) (psignal p data) ;;;
  ret TGo.

Definition trace_request (i ad data : Z) : KM traced :=
  if (i =? 1) || (i =? 2) then
    c <- fubyte (UA (u32 ad)) ;;
    if c =? -1 then ret TError
    else v <- fuword (UA (u32 ad)) ;; kset ip_data v ;;; ret TStay
  else if i =? 3 then
    if (ad <? 0) || (ctob (USIZE + 1) <=? ad) then ret TError
    else
      img <- uf user_image ;;
      kset ip_data (s32 (leval (sub (4 * Z.to_nat (Z.shiftr ad 2)) 4 img))) ;;;
      ret TStay
  else if i =? 4 then trace_wtext ad data
  else if i =? 5 then
    t <- suword (UA (u32 ad)) 0 ;;
    if t <? 0 then ret TError else suword (UA (u32 ad)) data ;;; ret TStay
  else if i =? 6 then
    us <- uf (fun r => r) ;;
    match user_poke ad data us with
    | Some us' => umod (fun _ => us') ;;; ret TStay
    | None => ret TError
    end
  else if i =? 7 then trace_go ad data
  else if i =? 9 then reg_set (fun g => g <| r_efl ::= fun f => Z.lor f TBIT |>) ;;; trace_go ad data
  else if i =? 8 then p <- uf u_procp ;; s <- fsig p ;; exit s
  else ret TError.

Definition procxmt : KM bool :=
  p <- uf u_procp ;;
  pid <- pf p p_pid ;;
  lock <- kf ip_lock ;;
  if negb (lock =? pid) then ret false
  else
    i <- kf ip_req ;;
    kset ip_req 0 ;;;
    wakeup CIpc ;;;
    ad <- kf ip_addr ;; data <- kf ip_data ;;
    t <- trace_request i ad data ;;
    match t with
    | TStay => ret false
    | TError => kset ip_req (-1) ;;; ret false
    | TGo => ret true
    end.

Definition stop : KM unit :=
  n <- rounds ;;
  loop n (fun _ : unit =>
    cp <- uf u_procp ;;
    pp <- pf cp p_ppid ;;
    k <- nprocs ;;
    o <- (if negb (pp =? 1) then
            for_find (slots k) (fun q => i <- pf q p_pid ;; ret (if i =? pp then Some q else None))
          else ret None) ;;
    match o with
    | None => s <- fsig cp ;; exit s
    | Some q =>
        wakeup (CProc q) ;;;
        pset cp p_stat SSTOP ;;;
        swtch ;;;
        fl <- pf cp p_flag ;;
        if negb (fl &? STRC) then ret (inr tt)
        else go <- procxmt ;; ret (if go : bool then inr tt else inl tt)
    end) tt.

Definition psig : KM unit :=
  rp <- uf u_procp ;;
  sv <- uf u_fpsaved ;;
  when (sv =? 0) (uset u_fpsaved 1) ;;;
  fl <- pf rp p_flag ;;
  when (fl &? STRC) stop ;;;
  n <- fsig rp ;;
  if n =? 0 then ret tt
  else
    m <- pf rp p_sig ;; pset rp p_sig (s16 (clr m (Z.shiftl 1 (n - 1)))) ;;;
    l <- uf u_signal ;;
    p <- the (l !! Z.to_nat n) ;;
    if negb (p =? 0) then
      uset u_error 0 ;;;
      when (negb (n =? SIGINS) && negb (n =? SIGTRC))
        (umod (fun r => r <| u_signal ::= <[Z.to_nat n := 0]> |>)) ;;;
      sendsig p
    else
      n <- (if bool_decide (n ∈ [SIGQUIT; SIGINS; SIGTRC; SIGIOT; SIGEMT; SIGFPT; SIGBUS; SIGSEG; SIGSYS])
            then ok <- core ;; ret (if ok : bool then n + 128 else n)
            else ret n) ;;
      exit n.

End SysProc.

(** ** Moving the stack

    When the data segment or the stack changes size, the stack's pages move
    within the image, towards pages they overlap. *)

(** Byte [i] of frame [f]. *)
Definition frame_byte (m : Z -> Z) (f i : Z) : Z := m (PHY + f * PGSZ + i).
Definition with_mem (m : Z -> Z) (w : world) : world := w <| ks ::= fun k => k <| pmem := m |> |>.
Abbreviation mem w := (pmem (ks w)).

Lemma with_mem_id w : with_mem (mem w) w = w.
Proof. by destruct w as [? [] ?]. Qed.

Lemma mem_with m w : mem (with_mem m w) = m.
Proof. done. Qed.

Lemma phys_write_in m a l x : a <= x < a + Z.of_nat (length l) ->
  phys_write m a l x = nth (Z.to_nat (x - a)) l 0.
Proof. intros H. unfold phys_write. by rewrite (proj2 (Z.leb_le _ _)), (proj2 (Z.ltb_lt _ _)) by lia. Qed.
Lemma phys_write_out m a l x : x < a \/ a + Z.of_nat (length l) <= x -> phys_write m a l x = m x.
Proof.
  intros H. unfold phys_write. destruct (Z.leb_spec a x), (Z.ltb_spec x (a + Z.of_nat (length l))); done || lia.
Qed.
Lemma length_phys_read m a n : length (phys_read m a n) = n.
Proof. unfold phys_read. by rewrite length_map, length_seq. Qed.
Lemma nth_phys_read m a n i : (i < n)%nat -> nth i (phys_read m a n) 0 = m (a + Z.of_nat i).
Proof.
  intros H. unfold phys_read. rewrite (nth_indep _ 0 (m (a + Z.of_nat 0))) by (by rewrite length_map, length_seq).
  rewrite (map_nth (fun i => m (a + Z.of_nat i))). by rewrite seq_nth.
Qed.

Lemma seqZ_before m n l1 x l2 y : seqZ m n = l1 ++ x :: l2 -> y ∈ l1 -> y < x.
Proof.
  intros E (j & Hj)%list_elem_of_lookup. pose proof (lookup_lt_Some _ _ _ Hj).
  assert (Hy : seqZ m n !! j = Some y) by (rewrite E; by apply lookup_app_l_Some).
  assert (Hx : seqZ m n !! length l1 = Some x) by (rewrite E; by apply list_lookup_middle).
  apply lookup_seqZ in Hx, Hy. lia.
Qed.

Lemma ctob_frame f : ctob f = f * PGSZ.
Proof. unfold ctob. by rewrite Z.shiftl_mul_pow2 by lia. Qed.

(** A page stored in frame [d]. *)
Lemma frame_write m d l f i : length l = Z.to_nat PGSZ -> 0 <= i < PGSZ ->
  frame_byte (phys_write m (PHY + ctob d) l) f i
  = if decide (f = d) then nth (Z.to_nat i) l 0 else frame_byte m f i.
Proof.
  intros Hl Hi. unfold frame_byte. rewrite ctob_frame. unfold PGSZ in *. destruct (decide (f = d)) as [->|Hne].
  - rewrite phys_write_in by lia. do 2 f_equal. lia.
  - apply phys_write_out. lia.
Qed.

Section Moves.
Context {MC : Machine}.

Lemma copyseg_ok s d w : exists m, copyseg s d w = Ret tt (with_mem m w) /\
  forall f i, 0 <= i < PGSZ -> frame_byte m f i = frame_byte (mem w) (if decide (f = d) then s else f) i.
Proof.
  unfold copyseg. destruct (Z.eqb_spec s d) as [->|Hne].
  - exists (mem w). rewrite with_mem_id. split; [done|]. intros f i Hi. by destruct (decide (f = d)) as [->|].
  - eexists. split; [reflexivity|]. intros f i Hi. rewrite frame_write; [|apply length_phys_read|done].
    destruct (decide (f = d)); [|done].
    rewrite nth_phys_read by (unfold PGSZ in *; lia). unfold frame_byte. rewrite ctob_frame. f_equal. lia.
Qed.

Lemma clearseg_ok d w : exists m, clearseg d w = Ret tt (with_mem m w) /\
  forall f i, 0 <= i < PGSZ -> frame_byte m f i = if decide (f = d) then 0 else frame_byte (mem w) f i.
Proof.
  eexists. split; [reflexivity|]. intros f i Hi. rewrite frame_write; [|apply length_replicate|done].
  destruct (decide (f = d)); [|done].
  by rewrite nth_lookup, lookup_replicate_2 by (unfold PGSZ in *; lia).
Qed.

(** Copies in an order in which no page is read after it is written: [src]
    and [dst] give the pages of each step. *)
Lemma copies_ok (src dst : Z -> Z) l : forall w,
  NoDup (map dst l) -> (forall l1 x l2, l = l1 ++ x :: l2 -> forall y, y ∈ l1 -> src x <> dst y) ->
  exists m, for_ l (fun i => copyseg (src i) (dst i)) w = Ret tt (with_mem m w) /\
    (forall x i, x ∈ l -> 0 <= i < PGSZ -> frame_byte m (dst x) i = frame_byte (mem w) (src x) i) /\
    (forall f i, (forall x, x ∈ l -> f <> dst x) -> 0 <= i < PGSZ -> frame_byte m f i = frame_byte (mem w) f i).
Proof.
  induction l as [|x l IH]; intros w Hnd Hord.
  { exists (mem w). rewrite with_mem_id. split; [done|]. split; [|done]. intros x i Hx. by apply not_elem_of_nil in Hx. }
  cbn [for_]. cbn in Hnd. apply NoDup_cons in Hnd as [Hx Hnd].
  destruct (copyseg_ok (src x) (dst x) w) as (m1 & E & H1).
  destruct (IH (with_mem m1 w)) as (m & E' & H2 & H3); [done| |].
  { intros l1 y l2 -> z Hz. apply (Hord (x :: l1) y l2); [done|by right]. }
  exists m. split; [by rewrite (bind_ret_eq _ _ _ tt (with_mem m1 w))|]. split.
  - intros y i [->|Hy]%elem_of_cons Hi.
    + rewrite H3; [by rewrite mem_with, H1, decide_True by done| |done].
      intros z Hz E0. apply Hx. rewrite E0. by apply list_elem_of_fmap_2.
    + rewrite H2, mem_with, H1 by done. rewrite decide_False; [done|].
      apply list_elem_of_split in Hy as (l1 & l2 & ->).
      apply (Hord (x :: l1) y l2); [done|by left].
  - intros f i Hf Hi. rewrite H3; [|by intros z Hz; apply Hf; right|done].
    rewrite mem_with, H1 by done. rewrite decide_False; [done|]. apply Hf. by left.
Qed.

Lemma clears_ok (dst : Z -> Z) l : forall w,
  exists m, for_ l (fun i => clearseg (dst i)) w = Ret tt (with_mem m w) /\
    (forall x i, x ∈ l -> 0 <= i < PGSZ -> frame_byte m (dst x) i = 0) /\
    (forall f i, (forall x, x ∈ l -> f <> dst x) -> 0 <= i < PGSZ -> frame_byte m f i = frame_byte (mem w) f i).
Proof.
  induction l as [|x l IH]; intros w.
  { exists (mem w). rewrite with_mem_id. split; [done|]. split; [|done]. intros x i Hx. by apply not_elem_of_nil in Hx. }
  cbn [for_]. destruct (clearseg_ok (dst x) w) as (m1 & E & H1).
  destruct (IH (with_mem m1 w)) as (m & E' & H2 & H3).
  exists m. split; [by rewrite (bind_ret_eq _ _ _ tt (with_mem m1 w))|]. split.
  - intros y i [->|Hy]%elem_of_cons Hi; [|by apply H2].
    destruct (decide (Exists (fun z => dst x = dst z) l)) as [(z & Hz & E0)%Exists_exists|Hn].
    + rewrite E0. by apply H2.
    + rewrite H3; [by rewrite mem_with, H1, decide_True by done| |done].
      intros z Hz E0. apply Hn, Exists_exists. by exists z.
  - intros f i Hf Hi. rewrite H3; [|by intros z Hz; apply Hf; right|done].
    rewrite mem_with, H1 by done. rewrite decide_False; [done|]. apply Hf. by left.
Qed.

(** Growing: the stack's [n] pages below frame [a] move up by [d], over
    the pages they overlap, and the [d] pages that [expand] left below them
    are cleared.  Shrinking: they move down by [d], from frame [a] on.  The
    rest of memory is untouched. *)
Theorem stack_moves (w : world) (a d n : Z) : 0 <= d -> 0 <= n ->
  (exists m, (copy_down a d n ;;; clear_down (a - n) d) w = Ret tt (with_mem m w) /\
     forall f i, 0 <= i < PGSZ -> frame_byte m f i =
       if (a - n <=? f) && (f <? a) then frame_byte (mem w) (f - d) i
       else if (a - n - d <=? f) && (f <? a - n) then 0
       else frame_byte (mem w) f i) /\
  (exists m, copy_up a (- d) n w = Ret tt (with_mem m w) /\
     forall f i, 0 <= i < PGSZ -> frame_byte m f i =
       if (a <=? f) && (f <? a + n) then frame_byte (mem w) (f + d) i else frame_byte (mem w) f i).
Proof.
  intros Hd Hn. split.
  - destruct (copies_ok (fun i => a - i - d) (fun i => a - i) (seqZ 1 n) w) as (m1 & E1 & H1 & H2).
    { apply NoDup_fmap_2_strong, NoDup_seqZ. intros x y _ _. lia. }
    { intros l1 x l2 E y Hy. pose proof (seqZ_before _ _ _ _ _ _ E Hy). lia. }
    destruct (clears_ok (fun i => a - n - i) (seqZ 1 d) (with_mem m1 w)) as (m & E2 & H3 & H4).
    exists m. split; [by rewrite (bind_ret_eq _ _ _ tt (with_mem m1 w))|]. intros f i Hi.
    destruct (Z.leb_spec (a - n) f); [destruct (Z.ltb_spec f a)|]; cbn [andb].
    + rewrite H4, mem_with by (try done; intros x ?%elem_of_seqZ; lia).
      replace f with (a - (a - f)) at 1 by lia. rewrite H1 by (try done; apply elem_of_seqZ; lia).
      f_equal. lia.
    + rewrite (proj2 (Z.ltb_ge f (a - n))), andb_false_r by lia.
      rewrite H4, mem_with by (try done; intros x ?%elem_of_seqZ; lia).
      apply H2; [|done]. intros x ?%elem_of_seqZ. lia.
    + rewrite (proj2 (Z.ltb_lt f (a - n))), andb_true_r by lia.
      destruct (Z.leb_spec (a - n - d) f).
      * replace f with (a - n - (a - n - f)) by lia. apply H3; [apply elem_of_seqZ; lia|done].
      * rewrite H4, mem_with by (try done; intros x ?%elem_of_seqZ; lia).
        apply H2; [|done]. intros x ?%elem_of_seqZ. lia.
  - destruct (copies_ok (fun i => a + i - - d) (fun i => a + i) (seqZ 0 n) w) as (m & E1 & H1 & H2).
    { apply NoDup_fmap_2_strong, NoDup_seqZ. intros x y _ _. lia. }
    { intros l1 x l2 E y Hy. pose proof (seqZ_before _ _ _ _ _ _ E Hy). lia. }
    exists m. split; [done|]. intros f i Hi.
    destruct (Z.leb_spec a f); [destruct (Z.ltb_spec f (a + n))|]; cbn [andb].
    + replace f with (a + (f - a)) at 1 by lia. rewrite H1 by (try done; apply elem_of_seqZ; lia). f_equal. lia.
    + apply H2; [|done]. intros x ?%elem_of_seqZ. lia.
    + apply H2; [|done]. intros x ?%elem_of_seqZ. lia.
Qed.
End Moves.

Lemma stack_moves_witness :
  (exists m, (copy_down 10 1 2 ;;; clear_down (10 - 2) 1) world0 = Ret tt (with_mem m world0) /\
     forall f i, 0 <= i < PGSZ -> frame_byte m f i =
       if (10 - 2 <=? f) && (f <? 10) then frame_byte (mem world0) (f - 1) i
       else if (10 - 2 - 1 <=? f) && (f <? 10 - 2) then 0
       else frame_byte (mem world0) f i) /\
  (exists m, copy_up 10 (- 1) 2 world0 = Ret tt (with_mem m world0) /\
     forall f i, 0 <= i < PGSZ -> frame_byte m f i =
       if (10 <=? f) && (f <? 10 + 2) then frame_byte (mem world0) (f + 1) i else frame_byte (mem world0) f i).
Proof. apply (stack_moves world0 10 1 2); lia. Defined.
