(* ===== verification/Children.v ===== *)
(** * Children: what [wait] finds

    [wait] of [SysProc] over the process table: which child it reports, what
    becomes of the child's entry, and when it sleeps or fails. *)

From S2P Require Import Prelude Bytes State Utab Sched Bio Alloc Inode Rdwri Text Nami Fio SysFile SysMisc SysProc.

(** Process [r] is a child of process number [pid], and there is something to
    tell of it: it has exited, or stopped and not been told yet. *)
Definition child (pid : Z) (r : proc) : Prop := p_ppid r = pid.
Definition news (r : proc) : bool :=
  (p_stat r =? SZOMB) || ((p_stat r =? SSTOP) && negb (p_flag r &? SWTED)).
Definition reports (pid : Z) (r : proc) : Prop := p_ppid r = pid /\ news r = true.
#[export] Instance child_dec pid r : Decision (child pid r).
Proof. unfold child. apply _. Defined.
#[export] Instance reports_dec pid r : Decision (reports pid r).
Proof. unfold reports. apply _. Defined.

(** The entry of a child that has been waited for, free again. *)
Definition reaped (r : proc) : proc :=
  r <| p_pid := 0 |> <| p_ppid := 0 |> <| p_pgrp := 0 |> <| p_sig := 0 |>
    <| p_flag := 0 |> <| p_wchan := CNull |> <| p_stat := 0 |>.
Definition with_proc (p : nat) (r : proc) (w : world) : world :=
  w <| ks ::= fun k => k <| procs ::= <[p := r]> |> |>.
(** Its number and status handed to the caller, its times added to his. *)
Definition buried (p : nat) (r : proc) (w : world) : world :=
  with_proc p (reaped r) (w <| u ::= fun us => us <| u_r_val1 := p_pid r |> <| u_r_val2 := p_addr r |>
    <| u_cutime ::= fun t => s32 (t + xp_utime r) |> <| u_cstime ::= fun t => s32 (t + xp_stime r) |> |>).
(** A stopped child, with the signal [j] that stopped it. *)
Definition told (p : nat) (r : proc) (j : Z) (w : world) : world :=
  with_proc p (r <| p_flag := s8 (Z.lor (p_flag r) SWTED) |>)
    (w <| u ::= fun us => us <| u_r_val1 := p_pid r |> <| u_r_val2 := Z.lor (Z.shiftl j 8) 127 |> |>).

Section Wait.
Context {MC : Machine}.

Lemma child_zombie w p r : procs (ks w) !! p = Some r -> p_stat r = SZOMB ->
  wait_child p w = Ret (Some tt) (buried p r w).
Proof.
  intros Hr Hz. unfold wait_child. erewrite bind_ret_eq by (by apply tget_ok). cbn beta. rewrite Hz.
  change (SZOMB =? SZOMB) with true. cbn match.
  do 3 (erewrite bind_ret_eq by reflexivity; cbn beta).
  erewrite bind_ret_eq by (by apply (tmod_ok procs)). by destruct w as [[] [] ?].
Qed.

Lemma child_stopped w p r : procs (ks w) !! p = Some r -> p_stat r = SSTOP -> p_flag r &? SWTED = false ->
  short (p_sig r) -> p_sig r <> 0 ->
  exists j, lowest (p_sig r) j /\ wait_child p w = Ret (Some tt) (told p r j w).
Proof.
  intros Hr Hs Hf Hsh H0. unfold wait_child. erewrite bind_ret_eq by (by apply tget_ok). cbn beta.
  rewrite Hs, Hf. change (SSTOP =? SZOMB) with false. change (SSTOP =? SSTOP) with true. cbn match. cbn [negb andb].
  set (r' := r <| p_flag := s8 (Z.lor (p_flag r) SWTED) |>). set (w1 := with_proc p r' w).
  erewrite (bind_ret_eq (por p SWTED) _ _ tt w1).
  2: { unfold por. erewrite bind_ret_eq by (by apply pf_ok). by erewrite pset_ok. }
  cbn beta. erewrite bind_ret_eq by reflexivity. cbn beta.
  destruct (fsig_ok p (w1 <| u ::= fun us => us <| u_r_val1 := p_pid r |> |>) r') as (j & Ej & Hj); [|done|done|].
  { apply list_lookup_insert_eq. by eapply lookup_lt_Some. }
  exists j. split; [done|]. erewrite bind_ret_eq by exact Ej. by destruct w as [[] [] ?].
Qed.

Lemma child_quiet w p r : procs (ks w) !! p = Some r -> news r = false -> wait_child p w = Ret None w.
Proof.
  intros Hr Hn. unfold news in Hn. apply orb_false_elim in Hn as [Hz Hs]. unfold wait_child.
  erewrite bind_ret_eq by (by apply tget_ok). cbn beta. by rewrite Hz, Hs.
Qed.

(** One entry of the scan. *)
Definition wait_entry (n me : nat) (x : nat * Z) : KM (nat * Z + Z * bool) :=
  let '(p, f) := x in
  if Nat.leb n p then ret (inr (f, false))
  else
    pid <- pf me p_pid ;;
    pp <- pf p p_ppid ;;
    if pp =? pid then
      o <- wait_child p ;;
      ret (match o with Some _ => inr (f, true) | None => inl (S p, f + 1) end)
    else ret (inl (S p, f)).

Definition children (pid : Z) (l : list proc) : Z := Z.of_nat (length (filter (child pid) l)).

Lemma wait_scan w me r0 : procs (ks w) !! me = Some r0 -> let pid := p_pid r0 in let ps := procs (ks w) in
  forall suf pre f n, ps = pre ++ suf -> (length suf < n)%nat ->
  match list_find (reports pid) suf with
  | None => loop n (wait_entry (length ps) me) (length pre, f) w = Ret (f + children pid suf, false) w
  | Some (i, r) => forall w', wait_child (length pre + i) w = Ret (Some tt) w' ->
      exists f', loop n (wait_entry (length ps) me) (length pre, f) w = Ret (f', true) w'
  end.
Proof.
  intros Hme pid ps. induction suf as [|r suf IH]; intros pre f [|n] Et Hn; try (cbn in Hn; lia).
  - cbn [list_find]. erewrite loop_done; [|unfold wait_entry; rewrite Et, app_nil_r, Nat.leb_refl; reflexivity].
    unfold children. cbn. by rewrite Z.add_0_r.
  - assert (ps !! length pre = Some r) as Hr by (rewrite Et; by apply list_lookup_middle).
    assert (forall o w1, p_ppid r = pid -> wait_child (length pre) w = Ret o w1 ->
      wait_entry (length ps) me (length pre, f) w =
        Ret (match o with Some _ => inr (f, true) | None => inl (S (length pre), f + 1) end) w1) as Ec.
    { intros o w1 Hc E1. unfold wait_entry. rewrite (proj2 (Nat.leb_gt _ _)) by (rewrite Et, length_app; cbn; lia).
      do 2 (erewrite bind_ret_eq by (by apply pf_ok); cbn beta). fold pid.
      rewrite Hc, Z.eqb_refl. by erewrite bind_ret_eq by exact E1. }
    assert (p_ppid r <> pid -> wait_entry (length ps) me (length pre, f) w = Ret (inl (S (length pre), f)) w) as En.
    { intros Hc. unfold wait_entry. rewrite (proj2 (Nat.leb_gt _ _)) by (rewrite Et, length_app; cbn; lia).
      do 2 (erewrite bind_ret_eq by (by apply pf_ok); cbn beta). fold pid. by rewrite (proj2 (Z.eqb_neq _ _)). }
    specialize (IH (pre ++ [r])). rewrite length_app in IH. cbn [length] in IH, Hn.
    replace (length pre + 1)%nat with (S (length pre)) in IH by lia.
    cbn [list_find]. destruct (decide (reports pid r)) as [[Hc Hnew]|Hno].
    { intros w' E. rewrite Nat.add_0_r in E. exists f. by rewrite (loop_done _ _ _ _ _ _ (Ec _ _ Hc E)). }
    assert (exists f1, wait_entry (length ps) me (length pre, f) w = Ret (inl (S (length pre), f1)) w /\
      f1 + children pid suf = f + children pid (r :: suf)) as (f1 & E1 & Hf1).
    { unfold children. rewrite filter_cons. destruct (decide (child pid r)) as [Hc|Hc].
      - exists (f + 1). assert (news r = false) as Hq by (apply not_true_iff_false; intros ?; by apply Hno).
        rewrite (Ec _ _ Hc (child_quiet w _ r Hr Hq)). split; [done|]. cbn [length]. lia.
      - exists f. by rewrite En. }
    specialize (IH f1 n ltac:(by rewrite <- app_assoc) ltac:(lia)). rewrite (loop_next _ _ _ _ _ _ E1).
    destruct (list_find (reports pid) suf) as [[i ri]|]; cbn.
    + intros w' E. apply IH. by rewrite <- plus_n_Sm in E.
    + by rewrite IH, Hf1.
Qed.
End Wait.

(** C27. [wait] reports the first child in the table that has exited or has
    stopped unnoticed.  Of one that exited it hands over the number, the
    status and the times, and frees its entry; of one that stopped, the
    number and the signal that stopped it, and marks it noticed.  With
    children but no news it sleeps until one of them wakes it and looks
    again; with no children it fails with ECHILD.  Nothing else changes. *)
Theorem wait_correct (MC : Machine) (w : world) (r0 : proc) :
  procs (ks w) !! u_procp (u w) = Some r0 -> let pid := p_pid r0 in
  match list_find (reports pid) (procs (ks w)) with
  | Some (p, r) =>
      if p_stat r =? SZOMB then wait w = Ret tt (buried p r w)
      else short (p_sig r) -> p_sig r <> 0 ->
        exists j, lowest (p_sig r) j /\ wait w = Ret tt (told p r j w)
  | None =>
      if children pid (procs (ks w)) =? 0 then wait w = Ret tt (w <| u ::= fun us => us <| u_error := ECHILD |> |>)
      else wait w = (sleep (CProc (u_procp (u w))) PWAIT ;;;
                     loop (length (env w)) wait_round (children pid (procs (ks w)))) w
  end.
Proof.
  intros Hme pid. set (me := u_procp (u w)) in *.
  pose proof (wait_scan w me r0 Hme (procs (ks w)) [] 0 (S (length (procs (ks w)))) eq_refl ltac:(lia)) as Hs.
  cbn [length] in Hs. fold pid in Hs.
  assert (forall f d w', loop (S (length (procs (ks w)))) (wait_entry (length (procs (ks w))) me) (0%nat, 0) w = Ret (f, d) w' ->
    wait_round 0 w = (if d : bool then ret (inr tt)
      else if negb (f =? 0) then sleep (CProc me) PWAIT ;;; ret (inl f)
      else set_error ECHILD ;;; ret (inr tt)) w') as Hround.
  { intros f d w' E. unfold wait_round. erewrite bind_ret_eq by reflexivity. cbn beta. fold me.
    erewrite bind_ret_eq by (unfold nprocs; by erewrite bind_ret_eq by reflexivity). cbn beta.
    by erewrite bind_ret_eq by exact E. }
  assert (forall w', wait_round 0 w = Ret (inr tt) w' -> wait w = Ret tt w') as Hdone.
  { intros w' E. unfold wait, rounds. erewrite bind_ret_eq by reflexivity. by apply loop_done. }
  destruct (list_find _ _) as [[p r]|] eqn:Ef.
  - pose proof Ef as (Hr & [_ Hnew] & _)%list_find_Some. cbn [Nat.add] in Hs. destruct (Z.eqb_spec (p_stat r) SZOMB) as [Hz|Hz].
    + destruct (Hs _ (child_zombie w p r Hr Hz)) as [f' E]. by apply Hdone, (Hround _ _ _ E).
    + intros Hsh H0. unfold news in Hnew. rewrite (proj2 (Z.eqb_neq _ _) Hz) in Hnew. cbn [orb] in Hnew.
      apply andb_prop in Hnew as [Hst%Z.eqb_eq Hfl%negb_true_iff].
      destruct (child_stopped w p r Hr Hst Hfl Hsh H0) as (j & Hj & E1). exists j. split; [done|].
      destruct (Hs _ E1) as [f' E]. by apply Hdone, (Hround _ _ _ E).
  - rewrite Z.add_0_l in Hs. apply Hround in Hs. destruct (Z.eqb_spec (children pid (procs (ks w))) 0) as [E0|E0].
    + apply Hdone. by rewrite Hs.
    + unfold wait, rounds. erewrite bind_ret_eq by reflexivity. cbn beta.
      rewrite loop_S. unfold bind at 1. rewrite Hs. cbn [negb].
      unfold bind, ret. by destruct (sleep (CProc me) PWAIT w).
Qed.

(** The first process with a child that exited with status 3 after another
    that is still running. *)
Definition parent_world : world :=
  world0 <| u ::= fun us => us <| u_procp := 0%nat |> |>
         <| ks ::= fun k => k <| procs := [proc0 <| p_pid := 7 |> <| p_stat := 3 |>;
              proc0 <| p_pid := 8 |> <| p_ppid := 7 |> <| p_stat := 3 |>;
              proc0 <| p_pid := 9 |> <| p_ppid := 7 |> <| p_stat := SZOMB |> <| p_addr := 768 |>] |> |>.

Lemma wait_correct_witness : exists w', @wait machine0 parent_world = Ret tt w' /\
  u_r_val1 (u w') = 9 /\ u_r_val2 (u w') = 768 /\ (p_stat <$> procs (ks w') !! 2%nat) = Some 0.
Proof.
  pose proof (wait_correct machine0 parent_world (proc0 <| p_pid := 7 |> <| p_stat := 3 |>) eq_refl) as Hw.
  eexists. split; [exact Hw|]. done.
Defined.
