(* ===== verification/Dsort.v ===== *)
(** * Dsort: the order of requests to a disk ([dev/dsort.c])

    [disksort] puts a request into the queue of a drive, linked through
    [av_forw] from the [b_actf] of the queue head [dp] to its [b_actl]. *)

From S2P Require Import Prelude Bytes State Utab Sched Bio Cache.

(** Alternate names of the fields. *)
Definition b_actf := av_forw.
Definition b_actl := av_back.
Definition b_cylin := b_resid.

Section Dsort.
Context {MC : Machine}.

(** One turn of the [for] loop: [tp] is the request to insert after. *)
Definition sort_step (b : buf) (x : option bptr * option bptr) :
    KM (option bptr * option bptr + option bptr) :=
  let '(ap, tp) := x in
  match ap with
  | None => ret (inr tp)
  | Some p =>
      a <- bget p ;;
      if (b_flags b &? B_READ) && negb (b_flags a &? B_READ) then
        ret (inr (match tp with None => Some p | Some _ => tp end))
      else if negb (b_flags b &? B_READ) && (b_flags a &? B_READ) then ret (inl (av_forw a, tp))
      else if b_cylin a <=? b_cylin b then
        better <- match tp with
                  | None => ret true
                  | Some t => c <- bf t b_cylin ;; ret (c <=? b_cylin a)
                  end ;;
        ret (inl (av_forw a, if better : bool then Some p else tp))
      else ret (inl (av_forw a, tp))
  end.

Definition disksort (dp bp : bptr) : KM unit :=
  ap <- bf dp b_actf ;;
  match ap with
  | None =>
      bset dp av_forw (Some bp) ;;;
      bset dp av_back (Some bp) ;;;
      bset bp av_forw None
  | Some _ =>
      b <- bget bp ;;
      n <- nbufs ;;
      tp <- loop (S n) (sort_step b) (ap, None) ;;
      tp <- match tp with Some tp => ret tp | None => blink dp b_actl end ;;
      f <- bf tp av_forw ;;
      bset bp av_forw f ;;;
      bset tp av_forw (Some bp) ;;;
      l <- bf dp b_actl ;;
      when (bool_decide (l = Some tp)) (bset dp av_back (Some bp))
  end.

End Dsort.

(** ** Where a request goes

    The requests are headers of [m]; [rd] tells a read from a write. *)

Definition is_rd (b : buf) : bool := b_flags b &? B_READ.
Definition rd (m : gmap bptr buf) (p : bptr) : bool :=
  match m !! p with Some a => is_rd a | None => false end.
Definition cyl (m : gmap bptr buf) (p : bptr) : Z :=
  match m !! p with Some a => b_cylin a | None => 0 end.

Section Place.
Context (m : gmap bptr buf) (b : buf).

(** The requests a new one is compared with: all, or those before the first
    write for a read. *)
Fixpoint reads_first (l : list bptr) : list bptr :=
  match l with
  | [] => []
  | p :: r => if rd m p then p :: reads_first r else []
  end.
Definition front (l : list bptr) : list bptr := if is_rd b then reads_first l else l.

(** A request of the same kind at a cylinder no greater. *)
Definition before_ok (p : bptr) : bool := eqb (rd m p) (is_rd b) && (cyl m p <=? b_cylin b).

(** The last of those with the greatest cylinder. *)
Definition last_best (l : list bptr) (i : nat) : Prop :=
  exists p, l !! i = Some p /\ before_ok p = true /\
    forall j p', l !! j = Some p' -> before_ok p' = true ->
      cyl m p' <= cyl m p /\ (cyl m p' = cyl m p -> (j <= i)%nat).

(** How many requests stay before the new one. *)
Definition place (l : list bptr) (k : nat) : Prop :=
  (exists i, k = S i /\ last_best (front l) i) \/
  (Forall (fun p => before_ok p = false) (front l) /\
   k = if is_rd b && (length (front l) <? length l)%nat then S (length (front l)) else length l).

(** The code's choice as functions on the list. *)
Definition better (tp : option bptr) (p : bptr) : option bptr :=
  if before_ok p then
    match tp with
    | None => Some p
    | Some t => if cyl m t <=? cyl m p then Some p else tp
    end
  else tp.
Fixpoint scan (tp : option bptr) (l : list bptr) : option bptr :=
  match l with
  | [] => tp
  | p :: r =>
      if is_rd b && negb (rd m p) then match tp with None => Some p | _ => tp end
      else scan (better tp p) r
  end.

Lemma scan_front l : forall tp,
  scan tp l = match foldl better tp (front l) with
              | Some t => Some t
              | None => if is_rd b then l !! length (front l) else None
              end.
Proof.
  unfold front. induction l as [|p l IH]; intros tp.
  - destruct (is_rd b); cbn; by destruct tp.
  - cbn [scan reads_first]. destruct (is_rd b) eqn:Eb; cbn [andb].
    + destruct (rd m p); cbn [negb foldl length lookup list_lookup]; [apply IH|by destruct tp].
    + apply IH.
Qed.

Lemma best_choice l :
  match foldl better None l with
  | Some p => exists i, l !! i = Some p /\ last_best l i
  | None => Forall (fun p => before_ok p = false) l
  end.
Proof.
  induction l as [|p l IH] using rev_ind; [by constructor|].
  rewrite foldl_snoc. unfold better at 1. destruct (before_ok p) eqn:Ep.
  - assert (Hnew : (forall j p', l !! j = Some p' -> before_ok p' = true -> cyl m p' <= cyl m p) ->
      last_best (l ++ [p]) (length l)).
    { intros H. exists p. split; [by apply list_lookup_middle|]. split; [done|].
      intros j p' Hj Hp'. apply lookup_app_Some in Hj as [Hj|[Hj Hj']].
      - pose proof (lookup_lt_Some _ _ _ Hj). split; [by eapply H|lia].
      - destruct (j - length l)%nat eqn:Ej; [|done]. injection Hj' as <-. split; [done|lia]. }
    destruct (foldl better None l) as [t|].
    + destruct IH as (i & Hi & t' & Ht' & Hok & Hmax). rewrite Hi in Ht'. injection Ht' as <-.
      destruct (Z.leb_spec (cyl m t) (cyl m p)).
      * exists (length l). split; [by apply list_lookup_middle|]. apply Hnew.
        intros j p' Hj Hp'. destruct (Hmax j p' Hj Hp'). lia.
      * exists i. split; [by apply lookup_app_l_Some|]. exists t. split; [by apply lookup_app_l_Some|].
        split; [done|]. intros j p' Hj Hp'. apply lookup_app_Some in Hj as [Hj|[Hj Hj']]; [by apply Hmax|].
        destruct (j - length l)%nat; [|done]. injection Hj' as <-. lia.
    + exists (length l). split; [by apply list_lookup_middle|]. apply Hnew.
      intros j p' Hj Hp'. by rewrite (Forall_lookup_1 _ _ _ _ IH Hj) in Hp'.
  - destruct (foldl better None l) as [t|].
    + destruct IH as (i & Hi & t' & Ht' & Hok & Hmax). exists i. split; [by apply lookup_app_l_Some|].
      exists t'. split; [by apply lookup_app_l_Some|]. split; [done|].
      intros j p' Hj Hp'. apply lookup_app_Some in Hj as [Hj|[Hj Hj']]; [by apply Hmax|].
      destruct (j - length l)%nat; [|done]. injection Hj' as <-. by rewrite Ep in Hp'.
    + apply Forall_app. split; [done|]. by constructor.
Qed.

Lemma front_prefix l : exists l2, l = front l ++ l2.
Proof.
  unfold front. destruct (is_rd b); [|exists []; by rewrite app_nil_r].
  induction l as [|p l [l2 IH]]; [by exists []|]. cbn. destruct (rd m p); [|by exists (p :: l)].
  exists l2. cbn. by rewrite <- IH.
Qed.

(** The request after which the new one goes, and its place. *)
Lemma scan_place l : l <> [] ->
  exists i p, (match scan None l with Some t => Some t | None => last l end) = Some p /\
    l !! i = Some p /\ place l (S i).
Proof.
  intros Hl. rewrite scan_front. pose proof (best_choice (front l)) as Hb.
  destruct (front_prefix l) as [l2 El].
  destruct (foldl better None (front l)) as [p|].
  - destruct Hb as (i & Hi & Hb). exists i, p. split; [done|]. split; [|left; by exists i].
    rewrite El. by apply lookup_app_l_Some.
  - destruct (is_rd b && (length (front l) <? length l)%nat) eqn:Ew.
    + apply andb_true_iff in Ew as [Er Ew%Nat.ltb_lt].
      destruct (lookup_lt_is_Some_2 l (length (front l)) Ew) as [p Hp].
      exists (length (front l)), p. rewrite Er, Hp. split; [done|]. split; [done|]. right.
      split; [done|]. by rewrite Er, (proj2 (Nat.ltb_lt _ _) Ew).
    + assert ((if is_rd b then l !! length (front l) else None) = None) as ->.
      { destruct (is_rd b); [|done]. apply lookup_ge_None_2. apply Nat.ltb_ge. by apply andb_false_iff in Ew as [?|?]. }
      destruct (last l) as [p|] eqn:Ep; [|by apply last_None in Ep].
      exists (pred (length l)), p. split; [done|]. rewrite last_lookup in Ep. split; [done|].
      right. split; [done|]. rewrite Ew. destruct l; [done|]. cbn. lia.
Qed.
End Place.

(** ** The queue in memory *)

(** The list [xs] is chained through [av_forw] from [hd]. *)
Fixpoint queue (m : gmap bptr buf) (hd : option bptr) (xs : list bptr) : Prop :=
  match xs with
  | [] => hd = None
  | x :: r => hd = Some x /\ exists a, m !! x = Some a /\ queue m (av_forw a) r
  end.

Lemma queue_ext m m' hd xs :
  queue m hd xs -> (forall x a, x ∈ xs -> m !! x = Some a -> exists a', m' !! x = Some a' /\ av_forw a' = av_forw a) ->
  queue m' hd xs.
Proof.
  revert hd. induction xs as [|x xs IH]; intros hd H Hm; [done|].
  destruct H as (-> & a & Ha & H). split; [done|].
  destruct (Hm x a) as (a' & Ha' & E); [left|done|]. exists a'. split; [done|]. rewrite E.
  apply IH; [done|]. intros y c Hy. apply Hm. by right.
Qed.

Lemma queue_Some m hd xs x : queue m hd xs -> x ∈ xs -> is_Some (m !! x).
Proof.
  revert hd. induction xs as [|y xs IH]; intros hd H Hx; [by apply not_elem_of_nil in Hx|].
  destruct H as (-> & a & Ha & H). apply elem_of_cons in Hx as [->|Hx]; [by exists a|by eapply IH].
Qed.

(** The new header [z] after the element [p]. *)
Lemma queue_insert m hd l1 p l2 z a : NoDup (l1 ++ p :: l2) -> z ∉ l1 ++ p :: l2 ->
  queue m hd (l1 ++ p :: l2) -> m !! z = Some a ->
  queue (alter (setf av_forw (fun _ => Some z)) p
          (alter (setf av_forw (fun _ => m !! p ≫= av_forw)) z m)) hd (l1 ++ p :: z :: l2).
Proof.
  intros Hnd Hz H Ha. revert hd H. induction l1 as [|x l1 IH]; intros hd H; cbn [app] in *.
  - destruct H as (-> & c & Hc & H). split; [done|].
    apply NoDup_cons in Hnd as [Hp Hnd]. apply not_elem_of_cons in Hz as [Hzp Hz].
    exists (c <| av_forw := Some z |>). split.
    { by rewrite lookup_alter_eq, lookup_alter_ne, Hc by done. }
    split; [done|]. exists (a <| av_forw := av_forw c |>). split.
    { rewrite lookup_alter_ne, lookup_alter_eq, Ha, Hc by done. done. }
    eapply queue_ext; [exact H|]. intros x d Hx Hd. exists d. split; [|done].
    rewrite !lookup_alter_ne by (intros <-; done). done.
  - destruct H as (-> & c & Hc & H). split; [done|].
    apply NoDup_cons in Hnd as [Hx Hnd]. apply not_elem_of_cons in Hz as [Hzx Hz].
    exists c. split; [|by apply IH].
    rewrite !lookup_alter_ne; [done|by intros ->|]. intros ->. apply Hx, elem_of_app. right. left.
Qed.

(** The queue of the drive whose head is [dp]: the requests [xs], the last of
    them at hand. *)
Record drive (m : gmap bptr buf) (dp : bptr) (xs : list bptr) : Prop := {
  dr_head : exists d, m !! dp = Some d /\ queue m (av_forw d) xs /\ (xs <> [] -> av_back d = last xs);
  dr_nodup : NoDup xs;
  dr_own : dp ∉ xs
}.

Section Insert.
Context {MC : Machine} (w : world) (m : gmap bptr buf).

Lemma sort_loop b xs : forall n hd tp, (length xs < n)%nat -> queue m hd xs ->
  (forall t, tp = Some t -> is_Some (m !! t)) ->
  loop n (sort_step b) (hd, tp) (setb w m) = Ret (scan m b tp xs) (setb w m).
Proof.
  induction xs as [|x xs IH]; intros n hd tp Hn Hq Ht; (destruct n as [|n]; [cbn in Hn; lia|]).
  - cbn in Hq. subst hd. by eapply loop_done.
  - destruct Hq as (-> & a & Ha & Hq). cbn [scan length] in *.
    assert (rd m x = is_rd a) as Erd by (unfold rd; by rewrite Ha).
    assert (cyl m x = b_cylin a) as Ecyl by (unfold cyl; by rewrite Ha).
    assert (Hstep : sort_step b (Some x, tp) (setb w m) =
      Ret (if is_rd b && negb (is_rd a) then inr (match tp with None => Some x | Some _ => tp end)
           else inl (av_forw a, better m b tp x)) (setb w m)).
    { unfold sort_step. erewrite bind_ret_eq by (by apply bget_setb). cbn beta.
      fold (is_rd b) (is_rd a). unfold better, before_ok. rewrite Erd, Ecyl.
      destruct (is_rd b), (is_rd a); cbn [andb negb eqb]; try done;
        (destruct (b_cylin a <=? b_cylin b); [|done]);
        (destruct tp as [t|]; [|done]; destruct (Ht t eq_refl) as [c Hc]);
        (erewrite bind_ret_eq by (erewrite bind_ret_eq by (by apply bf_setb); reflexivity));
        (assert (cyl m t = b_cylin c) as -> by (unfold cyl; by rewrite Hc)); by destruct (_ <=? _). }
    rewrite Erd. destruct (is_rd b && negb (is_rd a)).
    + erewrite loop_done by exact Hstep. done.
    + erewrite loop_next by exact Hstep. apply IH; [lia|done|].
      intros t. unfold better. destruct (before_ok m b x); [|apply Ht].
      destruct tp as [t'|]; [destruct (_ <=? _)|]; intros [= <-]; try (by exists a); by apply Ht.
Qed.

Lemma sort_empty dp bp b : drive m dp [] -> m !! bp = Some b -> bp <> dp ->
  exists m', disksort dp bp (setb w m) = Ret tt (setb w m') /\ drive m' dp [bp] /\
    changed m m' bp (fun b => b).
Proof.
  intros [(d & Hd & Hq & _) _ _] Hb Hbd. unfold disksort.
  cbn in Hq. exists (alter (setf av_forw (fun _ => None)) bp (alter (setf av_back (fun _ => Some bp)) dp
    (alter (setf av_forw (fun _ => Some bp)) dp m))).
  erewrite bind_ret_eq by (by apply bf_setb). cbn beta. unfold b_actf. rewrite Hq.
  split.
  { erewrite bind_ret_eq by (apply bset_setb; by eexists). cbn beta.
    erewrite bind_ret_eq by (apply bset_setb, alter_Some; by eexists). cbn beta.
    by rewrite bset_setb by (do 2 apply alter_Some; by eexists). }
  split.
  2: { repeat apply changed_link; try (by intros []). apply changed_refl. }
  constructor; [|apply NoDup_singleton|by intros ?%list_elem_of_singleton].
  exists (d <| av_forw := Some bp |> <| av_back := Some bp |>).
  rewrite lookup_alter_ne, !lookup_alter_eq, Hd by done. split; [done|]. split; [|done].
  split; [done|]. exists (b <| av_forw := None |>).
  by rewrite lookup_alter_eq, !lookup_alter_ne, Hb by done.
Qed.

(** The choice of the place, on a queue that is not empty. *)
Lemma sort_choice dp b xs p : drive m dp xs -> xs <> [] ->
  match scan m b None xs with Some t => Some t | None => last xs end = Some p ->
  exists x0, bf dp b_actf (setb w m) = Ret (Some x0) (setb w m) /\
    forall k : bptr -> KM unit,
    (n <- nbufs ;; tp <- loop (S n) (sort_step b) (Some x0, None) ;;
     tp <- match tp with Some tp => ret tp | None => blink dp b_actl end ;; k tp) (setb w m) =
    k p (setb w m).
Proof.
  intros [(d & Hd & Hq & Hlast) Hnd Hown] Hne Hp. destruct xs as [|x0 xs]; [done|].
  assert (av_forw d = Some x0) as Ed by (by destruct Hq as [? _]).
  exists x0. split; [by rewrite (bf_setb b_actf _ _ _ d) by done; unfold b_actf; rewrite Ed|].
  intros k. erewrite bind_ret_eq by reflexivity. cbn beta. rewrite <- Ed.
  erewrite bind_ret_eq by (apply (sort_loop b (x0 :: xs)); [|exact Hq|done]; cbn [bufs setb];
    assert (length (x0 :: xs) <= size m)%nat by (apply length_members; [done|intros y; by eapply queue_Some]); cbn in *; lia).
  cbn beta. destruct (scan m b None (x0 :: xs)) as [t|].
  - injection Hp as ->. done.
  - erewrite bind_ret_eq; [reflexivity|]. apply blink_setb. unfold lk. rewrite Hd. cbn.
    unfold b_actl. by rewrite Hlast.
Qed.

Lemma sort_insert dp bp b l1 p l2 : drive m dp (l1 ++ p :: l2) -> m !! bp = Some b ->
  bp <> dp -> bp ∉ l1 ++ p :: l2 ->
  exists m', (f <- bf p av_forw ;; bset bp av_forw f ;;; bset p av_forw (Some bp) ;;;
     l <- bf dp b_actl ;; when (bool_decide (l = Some p)) (bset dp av_back (Some bp))) (setb w m)
    = Ret tt (setb w m') /\ drive m' dp (l1 ++ p :: bp :: l2) /\ changed m m' bp (fun b => b).
Proof.
  intros [(d & Hd & Hq & Hlast) Hnd Hown] Hb Hbd Hbx.
  assert (p ∈ l1 ++ p :: l2) as Hpx by (apply elem_of_app; right; left).
  destruct (queue_Some _ _ _ _ Hq Hpx) as [c Hc].
  assert (dp <> p) as Hdp by (by intros ->).
  pose proof (queue_insert m _ l1 p l2 bp b Hnd Hbx Hq Hb) as Hq'.
  rewrite Hc in Hq'. cbn [mbind option_bind] in Hq'.
  set (m1 := alter (setf av_forw (fun _ => Some bp)) p (alter (setf av_forw (fun _ => av_forw c)) bp m)) in *.
  assert (m1 !! dp = Some d) as Hd1 by (unfold m1; by rewrite !lookup_alter_ne by done).
  assert (NoDup (l1 ++ p :: bp :: l2)) as Hnd'.
  { rewrite (cons_middle p), app_assoc in Hnd |- *. rewrite <- Permutation_middle. apply NoDup_cons.
    split; [|done]. by rewrite <- app_assoc. }
  assert (dp ∉ l1 ++ p :: bp :: l2) as Hown'.
  { rewrite elem_of_app, !elem_of_cons in *. intuition. }
  assert (changed m m1 bp (fun b => b)) as Hch.
  { repeat apply changed_link; try (by intros []). apply changed_refl. }
  assert (Hrun : forall k, (f <- bf p av_forw ;; bset bp av_forw f ;;; bset p av_forw (Some bp) ;;;
     l <- bf dp b_actl ;; k l : KM unit) (setb w m) = k (av_back d) (setb w m1)).
  { intros k. erewrite bind_ret_eq by (by apply bf_setb). cbn beta.
    erewrite bind_ret_eq by (apply bset_setb; by eexists). cbn beta.
    erewrite bind_ret_eq by (apply bset_setb, alter_Some; by eexists). cbn beta.
    by erewrite bind_ret_eq by (by apply bf_setb). }
  rewrite Hrun. rewrite Hlast by (by destruct l1).
  destruct l2 as [|z l2].
  - rewrite last_snoc, bool_decide_eq_true_2 by done. cbn [when].
    exists (alter (setf av_back (fun _ => Some bp)) dp m1). rewrite bset_setb by (by eexists).
    split; [done|]. split; [|by apply changed_link; [done|intros []]].
    constructor; [|done|done]. exists (d <| av_back := Some bp |>). rewrite lookup_alter_eq, Hd1.
    split; [done|]. split; [|intros _; change (l1 ++ [p; bp]) with (l1 ++ [p] ++ [bp]); by rewrite app_assoc, last_snoc].
    eapply queue_ext; [exact Hq'|]. intros y a Hy Ha. exists a. split; [|done].
    rewrite lookup_alter_ne; [done|]. by intros <-.
  - assert (last (l1 ++ p :: z :: l2) = last (z :: l2)) as -> by (by rewrite last_app_cons).
    destruct (last (z :: l2)) as [y|] eqn:Ey; [|by apply last_None in Ey].
    rewrite bool_decide_eq_false_2.
    2: { intros [= ->]. apply last_Some_elem_of in Ey. apply NoDup_app in Hnd as (_ & _ & Hnd).
         apply NoDup_cons in Hnd as [? _]. done. }
    exists m1. split; [done|]. split; [|done]. constructor; [|done|done]. exists d. split; [done|].
    split; [done|]. intros _. rewrite Hlast by (by destruct l1).
    by rewrite !last_app_cons.
Qed.
End Insert.

(** C31. [disksort] puts a request into its drive's queue after the last of
    the requests of its kind with the greatest cylinder that is not beyond its
    own — a read looks only at those before the first write; when there is
    none, a read goes after the first write and anything else goes last.  The
    request being served stays first, the others keep their order, and no
    header changes but in its links. *)
Theorem disksort_correct (MC : Machine) (w : world) (m : gmap bptr buf) (dp bp : bptr) (b : buf)
    (xs : list bptr) :
  drive m dp xs -> m !! bp = Some b -> bp ∉ dp :: xs ->
  exists m' l1 l2, disksort dp bp (setb w m) = Ret tt (setb w m') /\
    xs = l1 ++ l2 /\ drive m' dp (l1 ++ bp :: l2) /\
    (xs <> [] -> l1 <> [] /\ place m b xs (length l1)) /\
    changed m m' bp (fun b => b).
Proof.
  intros Hdr Hb [Hbd Hbx]%not_elem_of_cons. destruct (decide (xs = [])) as [->|Hne].
  { destruct (sort_empty w m dp bp b) as (m' & E & H & Hc); [done..|].
    by exists m', [], []. }
  destruct (scan_place m b xs Hne) as (i & p & Hp & Hi & Hpl).
  destruct (sort_choice w m dp b xs p Hdr Hne Hp) as (x0 & E0 & Hk).
  apply list_elem_of_split_length in Hi as (l1 & l2 & -> & Hl).
  destruct (sort_insert w m dp bp b l1 p l2 Hdr Hb Hbd Hbx) as (m' & E & H & Hc).
  exists m', (l1 ++ [p]), l2. split.
  { unfold disksort. erewrite bind_ret_eq by exact E0. cbn beta iota.
    erewrite bind_ret_eq by (by apply bget_setb). cbn beta. rewrite Hk. exact E. }
  split; [by rewrite <- app_assoc|]. split; [by rewrite <- app_assoc|]. split; [|done].
  intros _. split; [by destruct l1|]. by rewrite length_app, Nat.add_comm, <- Hl.
Qed.

(** A read at cylinder 10 being served and a write behind it; a read at
    cylinder 20 arrives. *)
Definition requests : gmap bptr buf :=
  {[ Dtab 0 := buf0 <| av_forw := Some (Buf 0) |> <| av_back := Some (Buf 1) |>;
     Buf 0 := buf0 <| b_flags := B_READ |> <| b_resid := 10 |> <| av_forw := Some (Buf 1) |>;
     Buf 1 := buf0 <| b_resid := 5 |>;
     Buf 2 := buf0 <| b_flags := B_READ |> <| b_resid := 20 |> ]}.

Lemma requests_drive : drive requests (Dtab 0) [Buf 0; Buf 1].
Proof.
  constructor.
  - eexists. split; [reflexivity|]. split; [|done]. split; [done|]. eexists. split; [reflexivity|].
    split; [done|]. eexists. split; [reflexivity|done].
  - apply NoDup_cons. split; [by intros ?%list_elem_of_singleton|apply NoDup_singleton].
  - rewrite elem_of_cons, list_elem_of_singleton. by intros [?|?].
Qed.

Lemma disksort_correct_witness :
  exists m' l1 l2, @disksort (Dtab 0) (Buf 2) (setb world0 requests) = Ret tt (setb world0 m') /\
    [Buf 0; Buf 1] = l1 ++ l2 /\ drive m' (Dtab 0) (l1 ++ Buf 2 :: l2) /\
    ([Buf 0; Buf 1] <> [] -> l1 <> [] /\
      place requests (buf0 <| b_flags := B_READ |> <| b_resid := 20 |>) [Buf 0; Buf 1] (length l1)) /\
    changed requests m' (Buf 2) (fun b => b).
Proof.
  refine (disksort_correct machine0 world0 requests (Dtab 0) (Buf 2) _ [Buf 0; Buf 1] requests_drive _ _).
  - reflexivity.
  - rewrite !elem_of_cons, elem_of_nil. by intros [?|[?|[?|?]]].
Defined.
