(* ===== verification/Ports.v ===== *)
(** * Ports: what the disk drivers share

    A driver has its statics and a device beside the kernel's state.  The
    device is of any type [D], and is met through the instructions of
    [conf/mch.s] on its ports; transfers go to the memory a request names. *)

From S2P Require Import Prelude Bytes Callout State Utab Sched Bio Cache Dsort.

(** [inb], [outb], and [insw], [outsw] as the bytes that are moved; [outb]
    gets the argument whole and uses its low byte. *)
Class Ports (D : Type) := {
  inb : Z -> M D Z;
  outb : Z -> Z -> M D unit;
  insw : Z -> nat -> M D (list Z);
  outsw : Z -> list Z -> M D unit
}.

(** A driver's statics, of type [T], with the kernel and the device. *)
Record drv {T D : Type} := mkdrv { dw : world; dd : D; ds : T }.
Arguments drv : clear implicits.
#[export] Instance eta_drv {T D} : Eta (drv T D) := fun r => mkdrv T D (dw r) (dd r) (ds r).
Definition lift {S T A} (f : S -> T) (put : T -> S -> S) (m : M T A) : M S A := fun s =>
  match m (f s) with
  | Ret a t => Ret a (put t s) | Panic msg t => Panic msg (put t s) | Longjmp t => Longjmp (put t s)
  | Asleep t => Asleep (put t s) | Fault => Fault | NoFuel => NoFuel
  end.
Section Driver.
Context {T D : Type}.
Definition in_kernel {A} (m : KM A) : M (drv T D) A := lift dw (fun w r => r <| dw := w |>) m.
Definition in_device {A} (m : M D A) : M (drv T D) A := lift dd (fun d r => r <| dd := d |>) m.
Definition dget {A} (f : T -> A) : M (drv T D) A := gets (fun r => f (ds r)).
Definition dput {A} (f : T -> A) {S : Setter f} (v : A) : M (drv T D) unit :=
  modify (fun r => r <| ds ::= setf f (fun _ => v) |>).
End Driver.

(** [timeout], for the routine of a number. *)
Definition timeout (fn : nat) (arg tim : Z) : KM unit :=
  s <- spl7 ;; zoom callout (Callout.timeout fn arg tim) ;;; splx s.

(** ** Where a transfer goes *)

(** [caddr_t addr]: at [off] in the array of a buffer of the cache, or a
    physical address. *)
Inductive dma := DBuf (bp : bptr) (off : nat) | DPhys (a : Z).
Definition dma_of (bp : bptr) (b : buf) : dma :=
  match b_addr b with None => DBuf bp 0 | Some a => DPhys a end.
Definition dma_add (a : dma) (n : Z) : dma :=
  match a with DBuf bp off => DBuf bp (off + Z.to_nat n) | DPhys a => DPhys (a + n) end.

Definition dma_get (a : dma) (n : nat) : KM (list Z) :=
  match a with
  | DBuf bp off =>
      l <- bf bp b_data ;; if Nat.leb (off + n) (length l) then ret (sub off n l) else fault
  | DPhys a => m <- kf pmem ;; ret (phys_read m a n)
  end.
Definition dma_put (a : dma) (new : list Z) : KM unit :=
  match a with
  | DBuf bp off =>
      l <- bf bp b_data ;;
      if Nat.leb (off + length new) (length l) then bset bp b_data (splice off new l) else fault
  | DPhys a => kmod (fun k => k <| pmem ::= fun m => phys_write m a new |>)
  end.

(** [deverror(bp, o1, o2)] of [prf.c]. *)
Definition deverror (bp : bptr) : KM unit :=
  dev <- bf bp b_dev ;; prdev "err" dev ;;; printf "bn=%D er=%o,%o".

(** ** Polling *)

(** [m] up to [n] times, until it answers [true]. *)
Fixpoint tries {S} (n : positive) (m : M S bool) : M S bool :=
  match n with
  | xH => m
  | xO p => r <- tries p m ;; if r : bool then ret true else tries p m
  | xI p =>
      r <- m ;; if r : bool then ret true
      else r <- tries p m ;; if r : bool then ret true else tries p m
  end.

(** It is the loop of the code, which counts down from [n]. *)
Fixpoint tries_nat {S} (n : nat) (m : M S bool) : M S bool :=
  match n with
  | O => ret false
  | Datatypes.S n => r <- m ;; if r : bool then ret true else tries_nat n m
  end.

Lemma tries_nat_add {S} (m : M S bool) a b s :
  tries_nat (a + b) m s = bind (tries_nat a m) (fun r => if r : bool then ret true else tries_nat b m) s.
Proof.
  revert s. induction a as [|a IH]; intros s; [done|]. cbn [Nat.add tries_nat]. rewrite bind_assoc.
  apply bind_cong. intros [|] s' _; [done|]. apply IH.
Qed.

Lemma tries_spec {S} n (m : M S bool) s : tries n m s = tries_nat (Pos.to_nat n) m s.
Proof.
  revert s. induction n as [p IH|p IH|]; intros s; cbn [tries].
  - rewrite Pos2Nat.inj_xI. replace (Datatypes.S (2 * Pos.to_nat p)) with (Datatypes.S (Pos.to_nat p + Pos.to_nat p)) by lia.
    cbn [tries_nat]. apply bind_cong. intros [|] s' _; [done|]. rewrite tries_nat_add.
    unfold bind. rewrite IH. destruct (tries_nat _ m s') as [[|] ?| | | | |]; done || apply IH.
  - rewrite Pos2Nat.inj_xO. replace (2 * Pos.to_nat p)%nat with (Pos.to_nat p + Pos.to_nat p)%nat by lia.
    rewrite tries_nat_add. unfold bind. rewrite IH. destruct (tries_nat _ m s) as [[|] ?| | | | |]; done || apply IH.
  - change (Pos.to_nat 1) with 1%nat. cbn [tries_nat]. unfold bind. by destruct (m s) as [[|] ?| | | | |].
Qed.

Lemma tries_first {S} n (m : M S bool) s s' : m s = Ret true s' -> tries n m s = Ret true s'.
Proof.
  intros E. rewrite tries_spec. destruct (Pos2Nat.is_succ n) as [k ->]. cbn [tries_nat]. unfold bind. by rewrite E.
Qed.
Lemma tries_never {S} n (m : M S bool) s : m s = Ret false s -> tries n m s = Ret false s.
Proof.
  intros E. rewrite tries_spec. induction (Pos.to_nat n) as [|k IH]; [done|]. cbn [tries_nat]. unfold bind. by rewrite E.
Qed.

(** ** The queue of requests *)

(** The end of the [strategy] routines: the request goes last. *)
Definition enqueue (dp bp : bptr) : KM unit :=
  f <- bf dp b_actf ;;
  match f with
  | None => bset dp av_forw (Some bp)
  | Some _ => l <- blink dp b_actl ;; bset l av_forw (Some bp)
  end ;;;
  bset dp av_back (Some bp).

Lemma queue_last m hd xs p a : queue m hd (xs ++ [p]) -> m !! p = Some a -> av_forw a = None.
Proof.
  revert hd. induction xs as [|x xs IH]; intros hd H Ha; cbn [app] in H.
  - destruct H as (_ & c & Hc & H). rewrite Ha in Hc. by injection Hc as <-.
  - destruct H as (_ & c & _ & H). by eapply IH.
Qed.

Lemma enqueue_ok w m dp bp b xs : drive m dp xs -> m !! bp = Some b -> av_forw b = None -> bp ∉ dp :: xs ->
  exists m', enqueue dp bp (setb w m) = Ret tt (setb w m') /\ drive m' dp (xs ++ [bp]) /\ changed m m' bp (fun b => b).
Proof.
  intros [(d & Hd & Hq & Hlast) Hnd Hown] Hb Hn [Hbd Hbx]%not_elem_of_cons.
  assert (NoDup (xs ++ [bp])) as Hnd'.
  { apply NoDup_app. split; [done|]. split; [|apply NoDup_singleton]. by intros x Hx ->%list_elem_of_singleton. }
  assert (dp ∉ xs ++ [bp]) as Hown' by (rewrite elem_of_app, list_elem_of_singleton; intuition).
  unfold enqueue. erewrite bind_ret_eq by (by apply bf_setb). cbn beta. unfold b_actf, b_actl.
  destruct xs as [|p xs _] using rev_ind.
  - cbn in Hq. rewrite Hq. exists (alter (setf av_back (fun _ => Some bp)) dp (alter (setf av_forw (fun _ => Some bp)) dp m)).
    erewrite bind_ret_eq by (apply bset_setb; by eexists). cbn beta.
    rewrite bset_setb by (apply alter_Some; by eexists). split; [done|]. split.
    2: { repeat apply changed_link; try (by intros []). apply changed_refl. }
    constructor; [|done|done]. exists (d <| av_forw := Some bp |> <| av_back := Some bp |>).
    rewrite !lookup_alter_eq, Hd. split; [done|]. split; [|done]. split; [done|].
    exists b. by rewrite !lookup_alter_ne by done.
  - assert (p ∈ xs ++ [p]) as Hpx by (apply elem_of_app; right; left).
    destruct (queue_Some _ _ _ _ Hq Hpx) as [c Hc]. pose proof (queue_last _ _ _ _ _ Hq Hc) as Ec.
    assert (dp <> p) as Hdp by (by intros ->).
    assert (exists y, av_forw d = Some y) as [y ->] by (destruct xs; destruct Hq as [-> _]; by eexists).
    set (m1 := alter (setf av_forw (fun _ => Some bp)) p m).
    exists (alter (setf av_back (fun _ => Some bp)) dp m1).
    assert (blink dp av_back (setb w m) = Ret p (setb w m)) as E.
    { apply blink_setb. unfold lk. rewrite Hd. cbn. by rewrite Hlast, last_snoc by (by destruct xs). }
    assert ((l <- blink dp av_back ;; bset l av_forw (Some bp)) (setb w m) = Ret tt (setb w m1)) as E1.
    { erewrite bind_ret_eq by exact E. apply bset_setb. by eexists. }
    erewrite bind_ret_eq by exact E1. cbn beta.
    rewrite bset_setb by (unfold m1; rewrite lookup_alter_ne by done; by eexists). split; [done|]. split.
    2: { repeat apply changed_link; try (by intros []). apply changed_refl. }
    constructor; [|done|done]. exists (d <| av_back := Some bp |>).
    rewrite lookup_alter_eq. unfold m1 at 1. rewrite lookup_alter_ne, Hd by done. split; [done|].
    split; [|by rewrite last_snoc].
    pose proof (queue_insert m (av_forw d) xs p [] bp b Hnd Hbx Hq Hb) as Hq'. rewrite Hc in Hq'. cbn [mbind option_bind] in Hq'.
    rewrite <- app_assoc. cbn [app]. eapply queue_ext; [exact Hq'|]. intros z a Hz Ha.
    rewrite lookup_alter_ne by (intros ->; apply Hown'; rewrite <- app_assoc; exact Hz). unfold m1.
    destruct (decide (z = p)) as [->|Hzp].
    + rewrite lookup_alter_eq, lookup_alter_ne in Ha by (intros ->; by apply Hbx). rewrite lookup_alter_eq.
      exists a. by destruct (m !! p).
    + rewrite lookup_alter_ne in Ha by done. rewrite lookup_alter_ne by done.
      destruct (decide (z = bp)) as [->|Hzb].
      * rewrite lookup_alter_eq, Hb in Ha. injection Ha as <-. exists b. split; [done|]. cbn. by rewrite Hn, Ec.
      * rewrite lookup_alter_ne in Ha by done. by exists a.
Qed.
