(* ===== verification/Hd.v ===== *)
(** * Hd: the hard disk ([dev/hd.c])

    Requests for a slice of a partition are served one after the other by an
    ATA controller, a sector for each interrupt.  The partitions come from
    the table in the first sector of the disk. *)

From S2P Require Import Prelude Bytes State Utab Sched Bio Cache Dsort Ports.

Definition CB1 : Z := 496.      (* 0x1f0 *)
Definition CB2 : Z := 1008.     (* 0x3f0 *)
Definition DATA : Z := CB1 + 0.
Definition FR : Z := CB1 + 1.
Definition SC : Z := CB1 + 2.
Definition SN : Z := CB1 + 3.
Definition CL : Z := CB1 + 4.
Definition CH : Z := CB1 + 5.
Definition DH : Z := CB1 + 6.
Definition STAT : Z := CB1 + 7.
Definition CMD : Z := CB1 + 7.
Definition ASTAT : Z := CB2 + 6.
Definition DC : Z := CB2 + 6.

Definition BSY : Z := 128.
Definition DF : Z := 32.
Definition DRQ : Z := 8.
Definition ERR : Z := 1.
Definition DEV0 : Z := 160.
Definition DEV1 : Z := 176.
Definition LBA : Z := 64.
Definition RDSECT : Z := 32.
Definition WRSECT : Z := 48.
Definition MAXBLK : Z := 268435455.   (* 0xfffffff *)
Definition ERR1 : Z := 1.
Definition ERR2 : Z := 2.
Definition PTMAGIC : Z := 43605.      (* 0xaa55 *)
Definition PTOFF : nat := 446.        (* 0x1be *)
Definition PTID : Z := 114.           (* 0x72 *)
Definition NPTE : nat := 4.

(** An entry of [part] or [pseudo]; the slices a to h. *)
Record slice := mkslice { base : Z; size_ : Z }.
#[export] Instance eta_slice : Eta slice := fun r => mkslice (base r) (size_ r).
Definition pseudo : list slice :=
  [mkslice 0 10000; mkslice 10000 32000; mkslice 0 MAXBLK; mkslice 0 0;
   mkslice 42000 255000; mkslice 297000 255000; mkslice 552000 255000; mkslice 807000 255000].

(** The statics beside the kernel and the device: the members of [hd], the
    selected drive, the partitions of the two drives, and the counts of
    [h/systm.h] for this driver. *)
Record hdc {D : Type} := mkhdc {
  hw : world; dev : D;
  hd_dn : Z; hd_bc : Z; hd_rd : Z; hd_bn : Z; hd_addr : dma;
  drv : Z; part : list (list slice);
  dk_numb : Z; dk_wds : Z
}.
Arguments hdc : clear implicits.
#[export] Instance eta_hdc {D} : Eta (hdc D) := fun r =>
  mkhdc D (hw r) (dev r) (hd_dn r) (hd_bc r) (hd_rd r) (hd_bn r) (hd_addr r) (drv r) (part r) (dk_numb r) (dk_wds r).
Abbreviation HM D := (M (hdc D)).

Definition hf {D A} (f : hdc D -> A) : HM D A := gets f.
Definition hset {D T} (f : hdc D -> T) {S : Setter f} (v : T) : HM D unit := modify (setf f (fun _ => v)).
Definition kernel_ {D A} (m : KM A) : HM D A := fun h =>
  let put t := h <| hw := t |> in
  match m (hw h) with
  | Ret a t => Ret a (put t) | Panic msg t => Panic msg (put t) | Longjmp t => Longjmp (put t)
  | Asleep t => Asleep (put t) | Fault => Fault | NoFuel => NoFuel
  end.
Definition device_ {D A} (m : M D A) : HM D A := fun h =>
  let put t := h <| dev := t |> in
  match m (dev h) with
  | Ret a t => Ret a (put t) | Panic msg t => Panic msg (put t) | Longjmp t => Longjmp (put t)
  | Asleep t => Asleep (put t) | Fault => Fault | NoFuel => NoFuel
  end.

(** [unptpd(dev, &un, &pt, &pd)]: drive, partition and slice. *)
Definition unptpd (d : Z) : nat * nat * nat :=
  (Z.to_nat (Z.shiftr (Z.land (minor d) 64) 6), Z.to_nat (Z.shiftr (Z.land (minor d) 56) 3),
   Z.to_nat (Z.land (minor d) 7)).

Section Hd.
Context {MC : Machine} {D : Type} {PD : Ports D}.
(** The driver's place in [bdevsw]: its queue head and raw header. *)
Context (maj : nat).
Definition hdtab : bptr := Dtab maj.
Definition rhdbuf : bptr := Rbuf maj.

Definition part_at (un pt : nat) : HM D slice := l <- hf part ;; the (l !! un ≫= fun r => r !! pt).
Definition set_part (un pt : nat) (p : slice) : HM D unit :=
  part_at un pt ;;; modify (fun h => h <| part ::= alter (fun r => <[pt := p]> r) un |>).

(** An entry of the partition table: its type, base and size. *)
Definition ptent (l : list Z) (i : nat) : Z * slice :=
  let p := sub (PTOFF + 16 * i) 16 l in (nth 4 p 0, mkslice (leval (sub 8 4 p)) (leval (sub 12 4 p))).

Definition hdopen (d rw : Z) : HM D unit :=
  let '(un, _, _) := unptpd d in
  p0 <- part_at un 0 ;;
  if tst (size_ p0) then ret tt
  else
    set_part un 0 (p0 <| size_ := MAXBLK |>) ;;;
    bp <- kernel_ (bread (Z.lor (Z.land d 192) 2) 0) ;;
    err <- kernel_ (bhas bp B_ERROR) ;;
    when (negb err)
      (l <- kernel_ (dma_get (DBuf bp 0) 512) ;;
       when (leval (sub 510 2 l) =? PTMAGIC)
         (loop (S NPTE) (fun x : nat * nat =>
            let '(n, i) := x in
            if Nat.leb i NPTE then
              let '(ty, pe) := ptent l (i - 1) in
              set_part un i pe ;;;
              if ty =? PTID then set_part un (8 - S n) pe ;;; ret (inl (S n, S i))
              else ret (inl (n, S i))
            else ret (inr tt)) (0, 1)%nat)) ;;;
    kernel_ (brelse bp).

(** ** The controller *)

Definition await (port mask : Z) : HM D bool :=
  r <- tries 268435456 (x <- device_ (inb port) ;; ret (negb (x &? mask))) ;; ret (negb r).

Definition delay : HM D unit :=
  device_ (inb ASTAT) ;;; device_ (inb ASTAT) ;;; device_ (inb ASTAT) ;;; device_ (inb ASTAT) ;;; ret tt.

(** [doio(x)]: a sector between the data port and memory; whether it failed. *)
Definition doio (x : Z) : HM D bool :=
  when (Z.land x (Z.lor BSY DRQ) =? DRQ)
    (rd <- hf hd_rd ;; a <- hf hd_addr ;;
     (if tst rd then l <- device_ (insw DATA 512) ;; kernel_ (dma_put a l)
      else l <- kernel_ (dma_get a 512) ;; device_ (outsw DATA l)) ;;;
     hset hd_addr (dma_add a BSIZE) ;;;
     bc <- hf hd_bc ;; hset hd_bc (bc - 1)) ;;;
  ret ((x &? Z.lor (Z.lor BSY DF) ERR) || negb (x &? DRQ)).

(** [hdsm(0)] from the setting of the registers on. *)
Definition hd_command : HM D Z :=
  bc <- hf hd_bc ;; bn <- hf hd_bn ;; rd <- hf hd_rd ;; dr <- hf drv ;;
  device_ (outb DC 0) ;;;
  device_ (outb FR 0) ;;;
  device_ (outb SC bc) ;;;
  device_ (outb SN bn) ;;;
  device_ (outb CL (Z.shiftr bn 8)) ;;;
  device_ (outb CH (Z.shiftr bn 16)) ;;;
  device_ (outb DH (Z.lor (Z.lor LBA (if tst dr then DEV1 else DEV0)) (Z.land (Z.shiftr bn 24) 15))) ;;;
  device_ (outb CMD (if tst rd then RDSECT else WRSECT)) ;;;
  if tst rd then ret (-1)
  else
    delay ;;;
    t <- await ASTAT BSY ;;
    if t : bool then ret ERR1
    else
      x <- device_ (inb STAT) ;;
      f <- doio x ;;
      ret (if f : bool then ERR2 else -1).

Definition hdsm0 : HM D Z :=
  t <- await STAT (Z.lor BSY DRQ) ;;
  if t : bool then ret ERR1
  else
    dr <- hf drv ;; dn <- hf hd_dn ;;
    t <- (if negb (dr =? dn) then
            device_ (outb DH (if tst dn then DEV1 else DEV0)) ;;;
            hset drv dn ;;;
            delay ;;;
            await STAT (Z.lor BSY DRQ)
          else ret false) ;;
    if t : bool then ret ERR1 else hd_command.

Definition hd_status (x : Z) : Z := if x &? Z.lor (Z.lor (Z.lor BSY DF) DRQ) ERR then ERR2 else 0.

Definition hdsm1 : HM D Z :=
  x <- device_ (inb STAT) ;;
  rd <- hf hd_rd ;; bc <- hf hd_bc ;;
  if tst rd || tst bc then
    f <- doio x ;;
    if f : bool then ret ERR2
    else
      bc <- hf hd_bc ;;
      if negb (tst rd) || tst bc then ret (-1)
      else delay ;;; x <- device_ (inb STAT) ;; ret (hd_status x)
  else ret (hd_status x).

Definition hdsm (st : Z) : HM D Z := if st =? 0 then hdsm0 else hdsm1.

(** ** Requests *)

(** What the end of a slice leaves of its partition. *)
Definition slice_size (p s : slice) : Z :=
  if size_ p <? base s then 0 else Z.min (size_ p - base s) (size_ s).
Definition blocks (b : buf) : Z := Z.shiftr (u32 (b_bcount b + BMASK)) BSHIFT.
Definition refused (p s : slice) (b : buf) : bool :=
  (255 <? blocks b) || (slice_size p s <? u32 (b_blkno b + blocks b)).

(** The request is put into [hd], and counted. *)
Definition hd_load (bp : bptr) (b : buf) : HM D unit :=
  let '(un, pt, pd) := unptpd (b_dev b) in
  hset hd_dn (Z.of_nat un) ;;;
  p <- part_at un pt ;; s <- the (pseudo !! pd) ;;
  hset hd_bn (s32 (base p + base s + b_blkno b)) ;;;
  hset hd_bc (blocks b) ;;;
  hset hd_addr (dma_of bp b) ;;;
  hset hd_rd (Z.land (b_flags b) B_READ).
Definition hd_count (b : buf) : HM D unit :=
  busy <- kernel_ (kf dk_busy) ;; kernel_ (kset dk_busy (s32 (Z.lor busy 1))) ;;;
  k <- hf dk_numb ;; hset dk_numb (s32 (k + 1)) ;;;
  k <- hf dk_wds ;; hset dk_wds (s32 (k + Z.shiftr (b_bcount b) 6)).

(** [hdstart()], calling [hdio] as [io]. *)
Definition hdstart_with (io : HM D unit) : HM D unit :=
  f <- kernel_ (bf hdtab b_actf) ;;
  match f with
  | None => ret tt
  | Some bp =>
      n <- kernel_ (bf hdtab b_bcount) ;; kernel_ (bset hdtab b_bcount (u32 (n + 1))) ;;;
      b <- kernel_ (bget bp) ;;
      hd_load bp b ;;;
      hd_count b ;;;
      io
  end.

(** The end of a request: an error is tried again ten times. *)
Definition hd_finish (start : HM D unit) (err : Z) : HM D unit :=
  bp <- kernel_ (blink hdtab b_actf) ;;
  kernel_ (bset hdtab b_bcount 0) ;;;
  again <- (if tst err then
              kernel_ (deverror bp) ;;;
              n <- kernel_ (bf hdtab b_resid) ;;
              kernel_ (bset hdtab b_resid (u32 (n + 1))) ;;;
              if u32 (n + 1) <=? 10 then ret true
              else kernel_ (bor bp B_ERROR) ;;; ret false
            else ret false) ;;
  if again : bool then start
  else
    kernel_ (bset hdtab b_resid 0) ;;;
    f <- kernel_ (bf bp av_forw) ;; kernel_ (bset hdtab av_forw f) ;;;
    kernel_ (bset bp b_resid 0) ;;;
    kernel_ (iodone bp) ;;;
    start.

(** [hdio(st)]; a start that fails at once comes back here, at most eleven
    times for a request. *)
Fixpoint hdio_n (fuel : nat) (st : Z) : HM D unit :=
  match fuel with
  | O => nofuel
  | S fuel =>
      err <- hdsm st ;;
      if negb (err =? -1) then hd_finish (hdstart_with (hdio_n fuel 0)) err else ret tt
  end.
Definition hd_rounds : HM D nat := n <- kernel_ nbufs ;; ret (S (11 * n)).
Definition hdio (st : Z) : HM D unit := n <- hd_rounds ;; hdio_n n st.
Definition hdstart : HM D unit := hdstart_with (hdio 0).

Definition hdstrategy (bp : bptr) : HM D unit :=
  b <- kernel_ (bget bp) ;;
  let '(un, pt, pd) := unptpd (b_dev b) in
  p <- part_at un pt ;; s <- the (pseudo !! pd) ;;
  if refused p s b then kernel_ (bor bp B_ERROR ;;; iodone bp)
  else if blocks b =? 0 then kernel_ (bset bp b_resid 0 ;;; iodone bp)
  else
    kernel_ (bset bp av_forw None) ;;;
    kernel_ spl5 ;;;
    kernel_ (enqueue hdtab bp) ;;;
    n <- kernel_ (bf hdtab b_bcount) ;;
    when (n =? 0) hdstart ;;;
    kernel_ spl0.

Definition hdintr : HM D unit :=
  n <- kernel_ (bf hdtab b_bcount) ;;
  if n =? 0 then ret tt
  else
    busy <- kernel_ (kf dk_busy) ;; kernel_ (kset dk_busy (clr busy 1)) ;;;
    hdio 1.

(** [physio(hdstrategy, &rhdbuf, dev, rw)] *)
Definition hd_raw (d rw : Z) : HM D unit :=
  go <- kernel_ (physio_request rhdbuf d rw) ;;
  when go (hdstrategy rhdbuf ;;; kernel_ (physio_done rhdbuf)).
Definition hdread (d : Z) : HM D unit := hd_raw d B_READ.
Definition hdwrite (d : Z) : HM D unit := hd_raw d B_WRITE.

End Hd.
