(* ===== verification/Hdisk.v ===== *)
(** * Hdisk: what the disk driver promises

    Against the interface of an ATA disk: which sectors a request may reach,
    and that reading hands over the sectors asked for. *)

From S2P Require Import Prelude Bytes State Utab Sched Bio Cache Dsort Ports Hd.

(** ** The interface

    The documented behaviour of a drive in LBA mode, with polled status and
    an interrupt for each sector: [reading d s a n] is a drive whose
    interrupt says that the first of [n] sectors from [a] of drive [s] can be
    taken, or for 0 that the command has ended. *)
Class Ata (D : Type) {PD : Ports D} := {
  disk : D -> bool -> Z -> list Z;
  reg : D -> Z -> Z;
  ready : D -> Prop;
  reading : D -> bool -> Z -> nat -> Prop;

  disk_sector d s a : length (disk d s a) = 512%nat;
  astat_read d : exists x, inb ASTAT d = Ret x d;
  ready_status d : ready d -> exists x, inb STAT d = Ret x d /\ Z.land x 169 = 0;
  ready_outb d port v : ready d -> port ∈ [DC; FR; SC; SN; CL; CH; DH] ->
    exists d', outb port v d = Ret tt d' /\ ready d' /\ reg d' port = u8 v /\
      (forall q, q <> port -> reg d' q = reg d q) /\ (forall s a, disk d' s a = disk d s a);
  ready_read d : ready d -> 0 < reg d SC -> reg d DH &? LBA = true ->
    exists d', outb CMD RDSECT d = Ret tt d' /\
      reading d' (Z.testbit (reg d DH) 4)
        (reg d SN + 256 * reg d CL + 65536 * reg d CH + 16777216 * (reg d DH mod 16)) (Z.to_nat (reg d SC)) /\
      (forall s a, disk d' s a = disk d s a);
  reading_status d s a n : reading d s a (S n) -> exists x, inb STAT d = Ret x d /\ Z.land x 169 = DRQ;
  reading_data d s a n : reading d s a (S n) ->
    exists d', insw DATA 512 d = Ret (disk d s a) d' /\ reading d' s (a + 1) n /\
      (forall s a, disk d' s a = disk d s a);
  reading_end d s a : reading d s a 0 -> ready d
}.

(** ** Memory *)

(** A sector stored, and a run of them. *)
Definition stored (a : dma) (l : list Z) (w : world) : world :=
  match a with
  | DBuf bp off => setb w (alter (fun b => b <| b_data ::= splice off l |>) bp (bufs (ks w)))
  | DPhys a => w <| ks ::= fun k => k <| pmem ::= fun m => phys_write m a l |> |>
  end.
Definition room (a : dma) (n : nat) (w : world) : Prop :=
  match a with
  | DBuf bp off => exists b, bufs (ks w) !! bp = Some b /\ (off + n <= length (b_data b))%nat
  | DPhys _ => True
  end.

Lemma dma_put_ok a l w : room a (length l) w -> dma_put a l w = Ret tt (stored a l w).
Proof.
  destruct a as [bp off|p]; [|done]. intros (b & Hb & Hl). unfold dma_put, stored.
  rewrite (setb_id w) at 1. erewrite bind_ret_eq by (by apply bf_setb). cbn beta.
  rewrite (proj2 (Nat.leb_le _ _)) by done. rewrite bset_setb by (by eexists). f_equal. f_equal.
  apply map_eq. intros x. destruct (decide (x = bp)) as [->|]; [|by rewrite !lookup_alter_ne].
  rewrite !lookup_alter_eq, Hb. done.
Qed.

Definition undk (w : world) : world := w <| ks ::= fun k => k <| dk_busy := clr (dk_busy k) 1 |> |>.
(** Sectors that come with one interrupt each. *)
Fixpoint received (a : dma) (ls : list (list Z)) (w : world) : world :=
  match ls with
  | [] => w
  | l :: ls => received (dma_add a 512) ls (stored a l (undk w))
  end.

(** [m'] is [m] but for the contents of the buffer [bp]. *)
Definition data_only (bp : bptr) (m m' : gmap bptr buf) : Prop :=
  (forall x, x <> bp -> m' !! x = m !! x) /\
  (forall b, m !! bp = Some b -> exists l, m' !! bp = Some (b <| b_data := l |>) /\ length l = length (b_data b)).

Lemma data_only_refl bp m : data_only bp m m.
Proof. split; [done|]. intros b Hb. exists (b_data b). split; [|done]. rewrite Hb. by destruct b. Qed.
Lemma data_only_trans bp m1 m2 m3 : data_only bp m1 m2 -> data_only bp m2 m3 -> data_only bp m1 m3.
Proof.
  intros [H1 H2] [H3 H4]. split; [intros x Hx; by rewrite H3, H1|]. intros b Hb.
  destruct (H2 b Hb) as (l & E & El). destruct (H4 _ E) as (l' & E' & El'). exists l'. split; [done|]. rewrite El'. done.
Qed.

Definition aims_at (bp : bptr) (a : dma) : Prop := match a with DBuf x _ => x = bp | DPhys _ => True end.
Lemma aims_add bp a n : aims_at bp a -> aims_at bp (dma_add a n).
Proof. by destruct a. Qed.

Lemma stored_data bp a l w : aims_at bp a -> room a (length l) w ->
  data_only bp (bufs (ks w)) (bufs (ks (stored a l w))).
Proof.
  destruct a as [x off|p]; intros Ha Hr; [|apply data_only_refl]. cbn in Ha. subst x. split.
  - intros x Hx. cbn. by rewrite lookup_alter_ne.
  - intros b Hb. destruct Hr as (b' & Hb' & Hl). rewrite Hb in Hb'. injection Hb' as <-.
    exists (splice off l (b_data b)). split; [cbn; by rewrite lookup_alter_eq, Hb|by apply length_splice].
Qed.

Lemma room_undk a n w : room a n (undk w) = room a n w.
Proof. by destruct a. Qed.
Lemma room_le a n n' w : room a n' w -> (n <= n')%nat -> room a n w.
Proof. destruct a; [|done]. intros (b & Hb & Hl) Hn. exists b. split; [done|]. lia. Qed.
Lemma room_next a l n w : room a (length l + n) w -> length l = 512%nat -> room (dma_add a 512) n (stored a l w).
Proof.
  destruct a as [bp off|p]; [|done]. intros (b & Hb & Hl) El. cbn. rewrite lookup_alter_eq, Hb. eexists. split; [reflexivity|].
  cbn. rewrite length_splice by lia. lia.
Qed.

Lemma received_data bp ls : forall a w, aims_at bp a -> Forall (fun l => length l = 512%nat) ls ->
  room a (512 * length ls) w -> data_only bp (bufs (ks w)) (bufs (ks (received a ls w))).
Proof.
  induction ls as [|l ls IH]; intros a w Ha Hl Hr; [apply data_only_refl|].
  apply Forall_cons in Hl as [El Hl]. cbn [received length] in *.
  eapply data_only_trans; [apply (stored_data bp a l (undk w)); [done|]|].
  - rewrite room_undk. eapply room_le; [exact Hr|]. lia.
  - apply IH; [by apply aims_add|done|]. apply room_next; [|done]. rewrite room_undk. eapply room_le; [exact Hr|]. lia.
Qed.

Lemma dma_add_add a (n k : nat) : dma_add (dma_add a (Z.of_nat n)) (Z.of_nat k) = dma_add a (Z.of_nat (n + k)).
Proof. destruct a; cbn; f_equal; lia. Qed.

(** *** All of it at once

    The contents of a buffer and of memory with [l] stored at [a]. *)
Definition filled (a : dma) (l d : list Z) : list Z := match a with DBuf _ off => splice off l d | DPhys _ => d end.
Definition written (a : dma) (l : list Z) (m : Z -> Z) : Z -> Z :=
  match a with DBuf _ _ => m | DPhys p => phys_write m p l end.

Lemma splice_app off (l1 l2 d : list Z) : (off + length l1 + length l2 <= length d)%nat ->
  splice (off + length l1) l2 (splice off l1 d) = splice off (l1 ++ l2) d.
Proof.
  intros H. unfold splice. rewrite length_app.
  rewrite (app_assoc (take off d)), take_app_length' by (rewrite length_app, length_take; lia).
  rewrite drop_app_ge by (rewrite length_app, length_take; lia).
  rewrite length_app, length_take, Nat.min_l, drop_drop, <- !app_assoc by lia. do 4 f_equal. lia.
Qed.
Lemma phys_write_app m p l1 l2 x :
  phys_write (phys_write m p l1) (p + Z.of_nat (length l1)) l2 x = phys_write m p (l1 ++ l2) x.
Proof.
  unfold phys_write. rewrite length_app, Nat2Z.inj_add.
  destruct (Z.leb_spec p x), (Z.ltb_spec x (p + Z.of_nat (length l1))),
    (Z.leb_spec (p + Z.of_nat (length l1)) x), (Z.ltb_spec x (p + Z.of_nat (length l1) + Z.of_nat (length l2))),
    (Z.ltb_spec x (p + (Z.of_nat (length l1) + Z.of_nat (length l2)))); cbn [andb]; try lia; try done.
  - by rewrite app_nth1 by lia.
  - rewrite app_nth2 by lia. f_equal. lia.
Qed.
Lemma concat_length (ls : list (list Z)) : Forall (fun l => length l = 512%nat) ls -> length (concat ls) = (512 * length ls)%nat.
Proof. induction 1 as [|l ls El _ IH]; [done|]. cbn [concat length]. rewrite length_app, IH. lia. Qed.

Lemma received_mem ls : forall a w x, Forall (fun l => length l = 512%nat) ls ->
  pmem (ks (received a ls w)) x = written a (concat ls) (pmem (ks w)) x.
Proof.
  induction ls as [|l ls IH]; intros a w x Hl; cbn [received concat].
  - destruct a as [|p]; [done|]. cbn [received written concat]. unfold phys_write. change (Z.of_nat (length [])) with 0.
    by rewrite (proj2 (andb_false_iff _ _)) by lia.
  - apply Forall_cons in Hl as [El Hl]. rewrite IH by done. destruct a as [bp off|p]; [done|].
    cbn [written dma_add stored undk ks setf pmem]. rewrite <- phys_write_app, El. done.
Qed.

Lemma received_buf bp ls : forall a w b, aims_at bp a -> Forall (fun l => length l = 512%nat) ls ->
  bufs (ks w) !! bp = Some b -> room a (512 * length ls) w ->
  bufs (ks (received a ls w)) !! bp = Some (b <| b_data := filled a (concat ls) (b_data b) |>).
Proof.
  induction ls as [|l ls IH]; intros a w b Ha Hl Hb Hr; cbn [received concat length] in *.
  - rewrite Hb. f_equal. destruct a as [x off|p]; [|by destruct b]. cbn. unfold splice. cbn.
    rewrite Nat.add_0_r, take_drop. by destruct b.
  - apply Forall_cons in Hl as [El Hl]. pose proof (concat_length ls Hl) as Hc.
    assert (room (dma_add a 512) (512 * length ls) (stored a l (undk w))) as Hr1
      by (apply room_next; [rewrite room_undk; eapply room_le; [exact Hr|lia]|done]).
    destruct a as [x off|p].
    + cbn in Ha. subst x. destruct Hr as (b' & Hb' & Hle). rewrite Hb in Hb'. injection Hb' as <-.
      rewrite (IH _ _ (b <| b_data ::= splice off l |>)) by (done || (cbn; by rewrite lookup_alter_eq, Hb)).
      cbn [filled dma_add]. f_equal. replace (off + Z.to_nat 512)%nat with (off + length l)%nat by lia.
      cbn [b_data setf]. rewrite splice_app by lia. by destruct b.
    + by rewrite (IH _ _ b) by done.
Qed.

(** Nothing else of the kernel is touched. *)
Definition moved (w w' : world) : Prop :=
  w' = w <| ks ::= fun k => k <| bufs := bufs (ks w') |> <| pmem := pmem (ks w') |> <| dk_busy := dk_busy (ks w') |> |>.
Lemma moved_trans w1 w2 w3 : moved w1 w2 -> moved w2 w3 -> moved w1 w3.
Proof. unfold moved. intros E1 E2. rewrite E2, E1. by destruct w1 as [? [] ?]. Qed.
Lemma stored_moved a l w : moved w (stored a l w).
Proof. by destruct a, w as [? [] ?]. Qed.
Lemma undk_moved w : moved w (undk w).
Proof. by destruct w as [? [] ?]. Qed.
Lemma received_moved ls : forall a w, moved w (received a ls w).
Proof.
  induction ls as [|l ls IH]; intros a w; [by destruct w as [? [] ?]|]. cbn [received].
  eapply moved_trans; [|apply IH]. eapply moved_trans; [apply undk_moved|apply stored_moved].
Qed.
Lemma clr_clr x m : clr (clr x m) m = clr x m.
Proof. unfold clr. by rewrite <- Z.land_assoc, Z.land_diag. Qed.
Lemma received_busy ls : forall a l w, dk_busy (ks (received a (l :: ls) w)) = clr (dk_busy (ks w)) 1.
Proof.
  induction ls as [|l' ls IH]; intros a l w; [by destruct a|].
  change (received a (l :: l' :: ls) w) with (received (dma_add a 512) (l' :: ls) (stored a l (undk w))).
  rewrite IH. etransitivity; [|apply (clr_clr (dk_busy (ks w)) 1)]. by destruct a.
Qed.

(** ** A read under way *)

Section Read.
Context {MC : Machine} {D : Type} {PD : Ports D} {AT : Ata D}.
Context (maj : nat).

Lemma hd_kernel_ret {A} (m : KM A) a w (h : hdc D) : m (hw h) = Ret a w -> kernel_ m h = Ret a (h <| hw := w |>).
Proof. intros E. unfold kernel_. by rewrite E. Qed.
Lemma kernel_get {A} (m : KM A) a (h : hdc D) : m (hw h) = Ret a (hw h) -> kernel_ m h = Ret a h.
Proof. intros E. rewrite (hd_kernel_ret m a (hw h)) by done. by destruct h. Qed.
Lemma device_ret {A} (m : M D A) a d (h : hdc D) : m (dev h) = Ret a d -> device_ m h = Ret a (h <| dev := d |>).
Proof. intros E. unfold device_. by rewrite E. Qed.
Lemma device_get {A} (m : M D A) a (h : hdc D) : m (dev h) = Ret a (dev h) -> device_ m h = Ret a h.
Proof. intros E. rewrite (device_ret m a (dev h)) by done. by destruct h. Qed.

Lemma kernel_bf {A} (f : buf -> A) bp b (h : hdc D) : bufs (ks (hw h)) !! bp = Some b -> kernel_ (bf bp f) h = Ret (f b) h.
Proof.
  intros Hb. apply kernel_get. unfold bf, bget. rewrite bind_assoc. erewrite bind_ret_eq by reflexivity. cbn beta. by rewrite Hb.
Qed.
Lemma kernel_bget bp b (h : hdc D) : bufs (ks (hw h)) !! bp = Some b -> kernel_ (bget bp) h = Ret b h.
Proof. intros Hb. apply kernel_get. unfold bget. erewrite bind_ret_eq by reflexivity. cbn beta. by rewrite Hb. Qed.
Lemma kernel_blink (f : buf -> option bptr) bp b x (h : hdc D) : bufs (ks (hw h)) !! bp = Some b -> f b = Some x ->
  kernel_ (blink bp f) h = Ret x h.
Proof.
  intros Hb Hf. apply kernel_get. unfold blink, bf, bget. rewrite !bind_assoc. erewrite bind_ret_eq by reflexivity. cbn beta.
  rewrite Hb. cbn. by rewrite Hf.
Qed.

Lemma status_bits x m c : Z.land x 169 = c -> Z.land 169 m = m -> Z.land x m = Z.land c m.
Proof. intros <- Hm. by rewrite <- Z.land_assoc, Hm. Qed.

Lemma delay_ok (h : hdc D) : delay h = Ret tt h.
Proof.
  destruct (astat_read (dev h)) as [x Ex]. unfold delay.
  do 4 (erewrite bind_ret_eq by (apply device_get; exact Ex); cbn beta). done.
Qed.

(** [n] sectors from [a] on are still to come. *)
Record taking (h : hdc D) (s : bool) (a : Z) (n : nat) : Prop := {
  tk_dev : reading (dev h) s a n;
  tk_bc : hd_bc h = Z.of_nat n;
  tk_rd : hd_rd h = B_READ
}.
Definition same_disk (d d' : D) : Prop := forall s a, disk d' s a = disk d s a.

(** What the transfer of sectors changes of the driver's state. *)
Definition transfers (h h' : hdc D) : Prop :=
  h' = h <| hw := hw h' |> <| dev := dev h' |> <| hd_bc := hd_bc h' |> <| hd_addr := hd_addr h' |>.
Lemma transfers_trans h1 h2 h3 : transfers h1 h2 -> transfers h2 h3 -> transfers h1 h3.
Proof. unfold transfers. intros E1 E2. rewrite E2, E1. by destruct h1. Qed.

(** The state after a sector. *)
Definition took (h : hdc D) (d' : D) (l : list Z) : hdc D :=
  h <| dev := d' |> <| hw := stored (hd_addr h) l (hw h) |> <| hd_addr := dma_add (hd_addr h) 512 |>
    <| hd_bc := hd_bc h - 1 |>.

Lemma doio_ok h s a n x : taking h s a (S n) -> Z.land x 169 = DRQ -> room (hd_addr h) 512 (hw h) ->
  exists d', doio x h = Ret false (took h d' (disk (dev h) s a)) /\
    taking (took h d' (disk (dev h) s a)) s (a + 1) n /\ same_disk (dev h) d'.
Proof.
  intros [Hd Hbc Hrd] Hx Hr. destruct (reading_data _ _ _ _ Hd) as (d' & E & Hd' & Hs). exists d'. split; [|split; [|done]].
  - unfold doio. rewrite (status_bits x (Z.lor BSY DRQ) DRQ Hx eq_refl).
    rewrite (status_bits x (Z.lor (Z.lor BSY DF) ERR) DRQ Hx eq_refl), (status_bits x DRQ DRQ Hx eq_refl).
    change (tst (Z.land DRQ (Z.lor (Z.lor BSY DF) ERR)) || negb (tst (Z.land DRQ DRQ))) with false.
    change (Z.land DRQ (Z.lor BSY DRQ) =? DRQ) with true. cbn [when].
    erewrite bind_ret_eq; [reflexivity|].
    erewrite bind_ret_eq by reflexivity. cbn beta. erewrite bind_ret_eq by reflexivity. cbn beta. rewrite Hrd.
    change (tst B_READ) with true. cbv iota.
    erewrite (bind_ret_eq _ _ _ tt).
    2: { erewrite bind_ret_eq by (apply device_ret; exact E). cbn beta. apply hd_kernel_ret.
         apply dma_put_ok. by rewrite disk_sector. }
    cbn beta. erewrite bind_ret_eq by reflexivity. cbn beta. by erewrite bind_ret_eq by reflexivity.
  - split; [done|cbn; lia|done].
Qed.

Lemma hdsm1_more h s a n : taking h s a (S (S n)) -> room (hd_addr h) 512 (hw h) ->
  exists d', hdsm1 h = Ret (-1) (took h d' (disk (dev h) s a)) /\
    taking (took h d' (disk (dev h) s a)) s (a + 1) (S n) /\ same_disk (dev h) d'.
Proof.
  intros Ht Hr. destruct (reading_status _ _ _ _ (tk_dev _ _ _ _ Ht)) as (x & Ex & Hx).
  destruct (doio_ok h s a (S n) x Ht Hx Hr) as (d' & E & Ht' & Hs). exists d'. split; [|done].
  unfold hdsm1. erewrite bind_ret_eq by (apply device_get; exact Ex). cbn beta.
  erewrite bind_ret_eq by reflexivity. cbn beta. erewrite bind_ret_eq by reflexivity. cbn beta. rewrite (tk_rd _ _ _ _ Ht).
  change (tst B_READ) with true. cbn [orb]. erewrite bind_ret_eq by exact E. cbn beta iota.
  erewrite bind_ret_eq by reflexivity. cbn beta. rewrite (tk_bc _ _ _ _ Ht'), (proj2 (tst_true _)) by lia. done.
Qed.

Lemma hdsm1_last h s a : taking h s a 1 -> room (hd_addr h) 512 (hw h) ->
  exists d', hdsm1 h = Ret 0 (took h d' (disk (dev h) s a)) /\ ready d' /\ same_disk (dev h) d'.
Proof.
  intros Ht Hr. destruct (reading_status _ _ _ _ (tk_dev _ _ _ _ Ht)) as (x & Ex & Hx).
  destruct (doio_ok h s a 0 x Ht Hx Hr) as (d' & E & Ht' & Hs).
  pose proof (reading_end _ _ _ (tk_dev _ _ _ _ Ht')) as Hrdy. destruct (ready_status _ Hrdy) as (y & Ey & Hy).
  exists d'. split; [|done].
  unfold hdsm1. erewrite bind_ret_eq by (apply device_get; exact Ex). cbn beta.
  erewrite bind_ret_eq by reflexivity. cbn beta. erewrite bind_ret_eq by reflexivity. cbn beta. rewrite (tk_rd _ _ _ _ Ht).
  change (tst B_READ) with true. cbn [orb]. erewrite bind_ret_eq by exact E. cbn beta iota.
  erewrite bind_ret_eq by reflexivity. cbn beta. rewrite (tk_bc _ _ _ _ Ht').
  change (negb true || tst (Z.of_nat 0)) with false. cbv iota.
  erewrite bind_ret_eq by apply delay_ok. cbn beta. erewrite bind_ret_eq by (apply device_get; exact Ey). cbn beta.
  unfold hd_status. change (Z.lor (Z.lor (Z.lor BSY DF) DRQ) ERR) with 169. by rewrite Hy.
Qed.

(** The queue head of a drive at work. *)
Definition active (w : world) : Prop := exists d, bufs (ks w) !! hdtab maj = Some d /\ b_bcount d <> 0.

Lemma hdintr_start (h : hdc D) : active (hw h) ->
  exists k, hdintr maj h = hdio_n maj (S k) 1 (h <| hw := undk (hw h) |>).
Proof.
  intros (d & Hd & Hn). exists (11 * S (size (bufs (ks (hw h)))))%nat. unfold hdintr.
  erewrite bind_ret_eq by (by apply (kernel_bf b_bcount _ d)).
  cbn beta. rewrite (proj2 (Z.eqb_neq _ _)) by done.
  erewrite bind_ret_eq by (by apply kernel_get). cbn beta. erewrite bind_ret_eq by (by apply hd_kernel_ret). cbn beta.
  unfold hdio, hd_rounds. rewrite bind_assoc. erewrite bind_ret_eq by (by apply kernel_get). cbn beta. reflexivity.
Qed.

(** The [n] sectors from [a]. *)
Fixpoint sectors (d : D) (s : bool) (a : Z) (n : nat) : list (list Z) :=
  match n with O => [] | S n => disk d s a :: sectors d s (a + 1) n end.

Lemma sectors_snoc d s n : forall a, sectors d s a (S n) = sectors d s a n ++ [disk d s (a + Z.of_nat n)].
Proof.
  induction n as [|n IH]; intros a; [cbn; by rewrite Z.add_0_r|].
  change (sectors d s a (S (S n))) with (disk d s a :: sectors d s (a + 1) (S n)). rewrite IH. cbn [sectors app]. do 4 f_equal. lia.
Qed.
Lemma sectors_same d d' s n : same_disk d d' -> forall a, sectors d' s a n = sectors d s a n.
Proof. intros H. induction n as [|n IH]; intros a; [done|]. cbn. by rewrite H, IH. Qed.
Lemma sectors_length d s n : forall a, length (sectors d s a n) = n.
Proof. induction n as [|n IH]; intros a; [done|]. cbn. by rewrite IH. Qed.
Lemma sectors_size d s n : forall a, Forall (fun l => length l = 512%nat) (sectors d s a n).
Proof. induction n as [|n IH]; intros a; constructor; [apply disk_sector|apply IH]. Qed.

Lemma active_data bp w w' : active w -> data_only bp (bufs (ks w)) (bufs (ks w')) -> active w'.
Proof.
  intros (d & Hd & Hn) [H1 H2]. destruct (decide (hdtab maj = bp)) as [<-|Hne].
  - destruct (H2 d Hd) as (l & Hl & _). by exists (d <| b_data := l |>).
  - exists d. by rewrite H1.
Qed.

Lemma hdintr_more h s a n : taking h s a (S (S n)) -> active (hw h) -> room (hd_addr h) 512 (hw h) ->
  exists h', hdintr maj h = Ret tt h' /\ taking h' s (a + 1) (S n) /\
    hw h' = stored (hd_addr h) (disk (dev h) s a) (undk (hw h)) /\ hd_addr h' = dma_add (hd_addr h) 512 /\
    same_disk (dev h) (dev h') /\ transfers h h'.
Proof.
  intros Ht Ha Hr. destruct (hdintr_start h Ha) as [k E].
  set (h1 := h <| hw := undk (hw h) |>) in *.
  assert (taking h1 s a (S (S n))) as Ht1 by (destruct Ht; by split).
  destruct (hdsm1_more h1 s a n Ht1) as (d' & E1 & Ht' & Hs); [change (room (hd_addr h) 512 (undk (hw h))); by rewrite room_undk|].
  eexists. split; [|split; [exact Ht'|split; [done|split; [done|split; [exact Hs|by destruct h]]]]].
  rewrite E. cbn [hdio_n]. change (hdsm 1) with hdsm1. by erewrite bind_ret_eq by exact E1.
Qed.

Lemma hdintrs_ok bp s n : forall h a, taking h s a (S n) -> active (hw h) -> aims_at bp (hd_addr h) ->
  room (hd_addr h) (512 * S n) (hw h) ->
  exists h', for_ (replicate n tt) (fun _ => hdintr maj) h = Ret tt h' /\ taking h' s (a + Z.of_nat n) 1 /\
    hw h' = received (hd_addr h) (sectors (dev h) s a n) (hw h) /\
    hd_addr h' = dma_add (hd_addr h) (Z.of_nat (512 * n)) /\ same_disk (dev h) (dev h') /\ transfers h h'.
Proof.
  induction n as [|n IH]; intros h a Ht Ha Hb Hr.
  - exists h. split; [done|]. rewrite Z.add_0_r. split; [done|]. split; [done|].
    split; [destruct (hd_addr h); cbn; f_equal; lia|]. split; [done|by destruct h].
  - destruct (hdintr_more h s a n Ht Ha) as (h1 & E1 & Ht1 & Hw1 & Ha1 & Hs1 & Hf1); [eapply room_le; [exact Hr|lia]|].
    pose proof (disk_sector (dev h) s a) as El.
    destruct (IH h1 (a + 1) Ht1) as (h2 & E2 & Ht2 & Hw2 & Ha2 & Hs2 & Hf2).
    + rewrite Hw1. eapply (active_data bp (undk (hw h))); [done|]. apply stored_data; [done|].
      rewrite room_undk, El. eapply room_le; [exact Hr|lia].
    + rewrite Ha1. by apply aims_add.
    + rewrite Ha1, Hw1. apply room_next; [|done]. rewrite El, room_undk. eapply room_le; [exact Hr|lia].
    + exists h2. cbn [replicate for_]. split; [by erewrite bind_ret_eq by exact E1|]. split; [|split; [|split; [|split; [|by eapply transfers_trans]]]].
      * replace (a + Z.of_nat (S n)) with (a + 1 + Z.of_nat n) by lia. done.
      * rewrite Hw2, Ha1, Hw1. cbn [sectors received]. by rewrite (sectors_same (dev h)).
      * rewrite Ha2, Ha1. change 512 with (Z.of_nat 512). rewrite dma_add_add. do 2 f_equal. lia.
      * intros s' a'. by rewrite Hs2, Hs1.
Qed.

Lemma received_snoc ls l : forall a w, Forall (fun l => length l = 512%nat) ls ->
  received a (ls ++ [l]) w = stored (dma_add a (Z.of_nat (512 * length ls))) l (undk (received a ls w)).
Proof.
  induction ls as [|x ls IH]; intros a w Hl; cbn [app received length].
  - f_equal. destruct a; cbn; f_equal; lia.
  - apply Forall_cons in Hl as [_ Hl]. rewrite IH by done. f_equal.
    change 512 with (Z.of_nat 512). rewrite dma_add_add. do 2 f_equal. lia.
Qed.

(** The last sector, and the end of the only request of the queue. *)
Definition closed (bp : bptr) (m : gmap bptr buf) : gmap bptr buf :=
  alter (clr_flags B_WANTED) bp (alter (or_flags B_DONE) bp (alter (setf b_resid (fun _ => 0)) bp
    (alter (setf av_forw (fun _ => None)) (hdtab maj) (alter (setf b_resid (fun _ => 0)) (hdtab maj)
      (alter (setf b_bcount (fun _ => 0)) (hdtab maj) m))))).

Lemma finish_ok k (h : hdc D) bp d b l rq : bufs (ks (hw h)) !! hdtab maj = Some d -> av_forw d = Some bp ->
  bufs (ks (hw h)) !! bp = Some b -> av_forw b = None -> b_flags b &? B_ASYNC = false -> bp <> hdtab maj ->
  sleepers (ks (hw h)) (CBuf bp) l rq -> undisturbed (ks (hw h)) (CBuf bp) l ->
  exists k', hd_finish maj (hdstart_with maj (hdio_n maj k 0)) 0 h =
      Ret tt (h <| hw := setb ((hw h) <| ks := k' |>) (closed bp (bufs (ks (hw h)))) |>) /\
    wakes_up (CBuf bp) [] l rq (ks (hw h)) k'.
Proof.
  intros Hd Ef Hb Eb Hasync Hne Hsl Hro.
  set (w := hw h) in *. set (m := bufs (ks w)) in *.
  assert (w = setb w m) as Ew by apply setb_id.
  set (m1 := alter (setf b_bcount (fun _ => 0)) (hdtab maj) m).
  set (m2 := alter (setf b_resid (fun _ => 0)) (hdtab maj) m1).
  set (m3 := alter (setf av_forw (fun _ => None)) (hdtab maj) m2).
  set (m4 := alter (setf b_resid (fun _ => 0)) bp m3).
  assert (is_Some (m1 !! hdtab maj)) as S1 by (apply alter_Some; by eexists).
  assert (is_Some (m2 !! hdtab maj)) as S2 by (by apply alter_Some).
  assert (m2 !! bp = Some b) as Hb2 by (unfold m2, m1; by rewrite !lookup_alter_ne by done).
  assert (m3 !! bp = Some b) as Hb3 by (unfold m3; by rewrite lookup_alter_ne by done).
  assert (m4 !! bp = Some (b <| b_resid := 0 |>)) as Hb4 by (unfold m4; by rewrite lookup_alter_eq, Hb3).
  destruct (wakeup_setb w (closed bp m) (CBuf bp) l rq Hsl Hro) as (k' & Ewk & Hwk). exists k'. split; [|done].
  unfold hd_finish.
  erewrite bind_ret_eq by (by apply (kernel_blink av_forw _ d)). cbn beta.
  erewrite bind_ret_eq by (apply hd_kernel_ret; fold w; rewrite Ew; apply bset_setb; by eexists). cbn beta. fold m1.
  erewrite bind_ret_eq by reflexivity. cbn beta iota.
  erewrite bind_ret_eq by (apply hd_kernel_ret; apply (bset_setb b_resid); done). cbn beta. fold m2.
  erewrite bind_ret_eq by (by apply (kernel_bf av_forw bp b)). cbn beta. rewrite Eb.
  erewrite bind_ret_eq by (apply hd_kernel_ret; apply (bset_setb av_forw); done). cbn beta. fold m3.
  erewrite bind_ret_eq by (apply hd_kernel_ret; apply (bset_setb b_resid); by eexists). cbn beta. fold m4.
  erewrite bind_ret_eq.
  2: { apply hd_kernel_ret. unfold iodone. erewrite bind_ret_eq by (apply (bor_setb w m4); by eexists). cbn beta.
       erewrite bind_ret_eq by (apply (bhas_setb _ _ _ (or_flags B_DONE (b <| b_resid := 0 |>))); by rewrite lookup_alter_eq, Hb4).
       cbn beta. cbn [or_flags b_flags setf].
       replace (Z.lor (b_flags b) B_DONE &? B_ASYNC) with (b_flags b &? B_ASYNC) by (rewrite Z.land_lor_distr_l; by rewrite Z.lor_0_r).
       rewrite Hasync. erewrite bind_ret_eq by (apply bclr_setb, alter_Some; by eexists). exact Ewk. }
  cbn beta. unfold hdstart_with.
  assert (exists d', closed bp m !! hdtab maj = Some d' /\ av_forw d' = None) as (d' & Hd' & Ed').
  { unfold closed. fold m1 m2 m3 m4. unfold m4, m3, m2, m1. rewrite !lookup_alter_ne by done.
    rewrite !lookup_alter_eq, Hd. by eexists. }
  erewrite bind_ret_eq by (apply (kernel_bf b_actf _ d'); exact Hd'). cbn beta.
  unfold b_actf. rewrite Ed'. by destruct h.
Qed.
(** ** The command *)

Lemma out_ok (h : hdc D) d port v : ready d -> port ∈ [DC; FR; SC; SN; CL; CH; DH] ->
  exists d', device_ (outb port v) (h <| dev := d |>) = Ret tt (h <| dev := d' |>) /\ ready d' /\ reg d' port = u8 v /\
    (forall q, q <> port -> reg d' q = reg d q) /\ same_disk d d'.
Proof.
  intros Hr Hp. destruct (ready_outb d port v Hr Hp) as (d' & E & H). exists d'. split; [|exact H].
  by rewrite (device_ret _ tt d') by exact E.
Qed.

(** The drive/head register: the drive, LBA mode, and four bits of the
    address. *)
Lemma head_bits dr n : 0 <= n < 16 ->
  let v := u8 (Z.lor (Z.lor LBA (if tst dr then DEV1 else DEV0)) n) in
  v mod 16 = n /\ Z.testbit v 4 = tst dr /\ v &? LBA = true.
Proof.
  intros Hn. assert (forall b : bool, forallb (fun n => let v := u8 (Z.lor (Z.lor LBA (if b then DEV1 else DEV0)) n) in
    (v mod 16 =? n) && eqb (Z.testbit v 4) b && (v &? LBA)) (seqZ 0 16) = true) as H by (by intros []; vm_compute).
  specialize (H (tst dr)). rewrite forallb_forall in H. specialize (H n).
  rewrite !andb_true_iff, Z.eqb_eq, eqb_true_iff in H. cbn zeta. destruct H as [[H1 H2] H3]; [|done].
  apply list_elem_of_In, elem_of_seqZ. lia.
Qed.

Lemma lba_split bn : 0 <= bn < 268435456 ->
  u8 bn + 256 * u8 (Z.shiftr bn 8) + 65536 * u8 (Z.shiftr bn 16) + 16777216 * Z.land (Z.shiftr bn 24) 15 = bn.
Proof.
  intros H. rewrite (land_ones_mod _ 4) by lia. rewrite !Z.shiftr_div_pow2 by lia. unfold u8, wrapU.
  change (2 ^ 8) with 256. change (2 ^ 16) with 65536. change (2 ^ 24) with 16777216. change (2 ^ 4) with 16.
  pose proof (Z.div_mod bn 256 ltac:(lia)). pose proof (Z.div_mod (bn / 256) 256 ltac:(lia)) as H1.
  pose proof (Z.div_mod (bn / 65536) 256 ltac:(lia)) as H2. rewrite Z.div_div in H1, H2 by lia.
  change (256 * 256) with 65536 in H1. change (65536 * 256) with 16777216 in H2.
  assert (bn / 16777216 mod 16 = bn / 16777216) by (apply Z.mod_small; split; [apply Z.div_pos; lia|apply Z.div_lt_upper_bound; lia]).
  lia.
Qed.

Lemma hd_command_ok (h : hdc D) n : ready (dev h) -> hd_rd h = B_READ -> 0 <= hd_bn h < 268435456 ->
  hd_bc h = Z.of_nat n -> (0 < n <= 255)%nat ->
  exists d', hd_command h = Ret (-1) (h <| dev := d' |>) /\ reading d' (tst (drv h)) (hd_bn h) n /\ same_disk (dev h) d'.
Proof.
  intros Hr Hrd Hbn Hbc Hn. unfold hd_command.
  do 4 (erewrite bind_ret_eq by reflexivity; cbn beta). rewrite Hrd. change (tst B_READ) with true. cbv iota.
  destruct (out_ok h (dev h) DC 0 Hr) as (d1 & E1 & Hr1 & _ & _ & Hs1); [by repeat constructor|].
  destruct (out_ok h d1 FR 0 Hr1) as (d2 & E2 & Hr2 & _ & _ & Hs2); [by repeat constructor|].
  destruct (out_ok h d2 SC (hd_bc h) Hr2) as (d3 & E3 & Hr3 & V3 & _ & Hs3); [by repeat constructor|].
  destruct (out_ok h d3 SN (hd_bn h) Hr3) as (d4 & E4 & Hr4 & V4 & K4 & Hs4); [by repeat constructor|].
  destruct (out_ok h d4 CL (Z.shiftr (hd_bn h) 8) Hr4) as (d5 & E5 & Hr5 & V5 & K5 & Hs5); [by repeat constructor|].
  destruct (out_ok h d5 CH (Z.shiftr (hd_bn h) 16) Hr5) as (d6 & E6 & Hr6 & V6 & K6 & Hs6); [by repeat constructor|].
  set (v := Z.lor (Z.lor LBA (if tst (drv h) then DEV1 else DEV0)) (Z.land (Z.shiftr (hd_bn h) 24) 15)).
  destruct (out_ok h d6 DH v Hr6) as (d7 & E7 & Hr7 & V7 & K7 & Hs7); [by repeat constructor|].
  assert (reg d7 SC = hd_bc h) as R1.
  { rewrite K7, K6, K5, K4, V3 by done. apply u8_id. lia. }
  assert (reg d7 SN = u8 (hd_bn h)) as R2 by (by rewrite K7, K6, K5 by done).
  assert (reg d7 CL = u8 (Z.shiftr (hd_bn h) 8)) as R3 by (by rewrite K7, K6 by done).
  assert (reg d7 CH = u8 (Z.shiftr (hd_bn h) 16)) as R4 by (by rewrite K7 by done).
  destruct (head_bits (drv h) (Z.land (Z.shiftr (hd_bn h) 24) 15)) as (B1 & B2 & B3).
  { rewrite (land_ones_mod _ 4) by lia. apply Z.mod_pos_bound. lia. }
  fold v in B1, B2, B3. rewrite <- V7 in B1, B2, B3.
  destruct (ready_read d7 Hr7) as (d8 & E8 & Hrdg & Hs8); [lia|done|].
  rewrite B1, B2, R1, R2, R3, R4, lba_split, Hbc, Nat2Z.id in Hrdg by done.
  exists d8. split; [|split; [done|]].
  - assert (h <| dev := dev h |> = h) as Eh by (by destruct h). rewrite Eh in E1.
    erewrite bind_ret_eq by exact E1. cbn beta. erewrite bind_ret_eq by exact E2. cbn beta.
    erewrite bind_ret_eq by exact E3. cbn beta. erewrite bind_ret_eq by exact E4. cbn beta.
    erewrite bind_ret_eq by exact E5. cbn beta. erewrite bind_ret_eq by exact E6. cbn beta.
    erewrite bind_ret_eq by exact E7. cbn beta.
    erewrite bind_ret_eq by (apply device_ret; exact E8). cbn beta. by destruct h.
  - intros s a. by rewrite Hs8, Hs7, Hs6, Hs5, Hs4, Hs3, Hs2, Hs1.
Qed.

Lemma await_ready (h : hdc D) : ready (dev h) -> await STAT (Z.lor BSY DRQ) h = Ret false h.
Proof.
  intros Hr. destruct (ready_status _ Hr) as (x & Ex & Hx). unfold await.
  rewrite (bind_ret_eq _ _ _ true h); [done|]. apply tries_first.
  erewrite bind_ret_eq by (apply device_get; exact Ex). cbn beta.
  by rewrite (status_bits x (Z.lor BSY DRQ) 0 Hx eq_refl).
Qed.

Lemma hdsm0_ok (h : hdc D) n : ready (dev h) -> hd_rd h = B_READ -> 0 <= hd_bn h < 268435456 ->
  hd_bc h = Z.of_nat n -> (0 < n <= 255)%nat ->
  exists d', hdsm0 h = Ret (-1) (h <| dev := d' |> <| drv := hd_dn h |>) /\
    reading d' (tst (hd_dn h)) (hd_bn h) n /\ same_disk (dev h) d'.
Proof.
  intros Hr Hrd Hbn Hbc Hn. unfold hdsm0. erewrite bind_ret_eq by (by apply await_ready). cbn beta iota.
  do 2 (erewrite bind_ret_eq by reflexivity; cbn beta).
  destruct (Z.eqb_spec (drv h) (hd_dn h)) as [Ed|Ed]; cbn [negb].
  - erewrite bind_ret_eq by reflexivity. cbn beta iota.
    destruct (hd_command_ok h n) as (d' & E & Hd' & Hs); [done..|]. exists d'. rewrite <- Ed. split; [|done]. rewrite E. by destruct h.
  - destruct (out_ok h (dev h) DH (if tst (hd_dn h) then DEV1 else DEV0) Hr) as (d1 & E1 & Hr1 & _ & _ & Hs1); [by repeat constructor|].
    assert (h <| dev := dev h |> = h) as Eh by (by destruct h). rewrite Eh in E1.
    set (h1 := h <| dev := d1 |> <| drv := hd_dn h |>).
    destruct (hd_command_ok h1 n) as (d' & E & Hd' & Hs); [done..|]. exists d'. split; [|split; [exact Hd'|]].
    + erewrite bind_ret_eq.
      2: { erewrite bind_ret_eq by exact E1. cbn beta. erewrite bind_ret_eq by reflexivity. cbn beta.
           erewrite bind_ret_eq by (exact (delay_ok h1)). cbn beta. by apply (await_ready h1). }
      cbn beta iota. rewrite E. by destruct h.
    + intros s a. rewrite Hs. apply Hs1.
Qed.

(** ** The request *)

Definition started (w : world) : world :=
  (setb w (alter (setf b_bcount (fun _ => 1)) (hdtab maj) (bufs (ks w))))
    <| ks ::= fun k => k <| dk_busy := s32 (Z.lor (dk_busy k) 1) |> |>.

Lemma part_at_ok (h : hdc D) un pt p : part h !! un ≫= (fun r => r !! pt) = Some p -> part_at un pt h = Ret p h.
Proof. intros E. unfold part_at. erewrite bind_ret_eq by reflexivity. cbn beta. by rewrite E. Qed.

(** The members of [hd] for a request, and the counts. *)
Definition loaded (h : hdc D) (un : nat) (a : Z) (bp : bptr) (b : buf) : hdc D :=
  h <| hd_dn := Z.of_nat un |> <| hd_bn := s32 a |> <| hd_bc := blocks b |> <| hd_addr := dma_of bp b |>
    <| hd_rd := Z.land (b_flags b) B_READ |>.
Definition counted_busy (w : world) : world := w <| ks ::= fun k => k <| dk_busy := s32 (Z.lor (dk_busy k) 1) |> |>.
Definition counted (h : hdc D) (b : buf) : hdc D :=
  h <| hw := counted_busy (hw h) |> <| dk_numb := s32 (dk_numb h + 1) |>
    <| dk_wds := s32 (dk_wds h + Z.shiftr (b_bcount b) 6) |>.

Lemma hd_load_ok (h : hdc D) bp b un pt pd p s :
  unptpd (b_dev b) = (un, pt, pd) -> part h !! un ≫= (fun r => r !! pt) = Some p -> pseudo !! pd = Some s ->
  hd_load bp b h = Ret tt (loaded h un (base p + base s + b_blkno b) bp b).
Proof.
  intros Hu Hp Hs. unfold hd_load. rewrite Hu. cbv beta iota. erewrite bind_ret_eq by reflexivity. cbn beta.
  erewrite bind_ret_eq by (apply part_at_ok; exact Hp). cbn beta. rewrite Hs.
  do 4 (erewrite bind_ret_eq by reflexivity; cbn beta). by destruct h.
Qed.

Lemma hd_count_ok (h : hdc D) b : hd_count b h = Ret tt (counted h b).
Proof.
  unfold hd_count. erewrite bind_ret_eq by (by apply kernel_get). cbn beta.
  erewrite bind_ret_eq by (by apply hd_kernel_ret). cbn beta.
  do 3 (erewrite bind_ret_eq by reflexivity; cbn beta). by destruct h.
Qed.

Lemma hdio_some (h : hdc D) st : exists k, hdio maj st h = hdio_n maj (S k) st h.
Proof.
  exists (11 * S (size (bufs (ks (hw h)))))%nat. unfold hdio, hd_rounds. rewrite bind_assoc.
  erewrite bind_ret_eq by (by apply kernel_get). reflexivity.
Qed.
Lemma hdio_n_S k st (h : hdc D) : hdio_n maj (S k) st h =
  match hdsm st h with
  | Ret err h' => (if negb (err =? -1) then hd_finish maj (hdstart_with maj (hdio_n maj k 0)) err else ret tt) h'
  | Panic msg h' => Panic msg h' | Longjmp h' => Longjmp h' | Asleep h' => Asleep h' | Fault => Fault | NoFuel => NoFuel
  end.
Proof. done. Qed.

Lemma hdstart_ok (h : hdc D) bp b d un pt pd p s n :
  bufs (ks (hw h)) !! hdtab maj = Some d -> av_forw d = Some bp -> b_bcount d = 0 ->
  bufs (ks (hw h)) !! bp = Some b -> bp <> hdtab maj -> unptpd (b_dev b) = (un, pt, pd) ->
  part h !! un ≫= (fun r => r !! pt) = Some p -> pseudo !! pd = Some s ->
  let a := base p + base s + b_blkno b in
  0 <= a < 268435456 -> Z.land (b_flags b) B_READ = B_READ -> blocks b = Z.of_nat n -> (0 < n <= 255)%nat ->
  ready (dev h) ->
  exists d', let h1 := (counted (loaded h un a bp b) b) <| hw := started (hw h) |> <| dev := d' |> <| drv := Z.of_nat un |> in
    hdstart maj h = Ret tt h1 /\ taking h1 (tst (Z.of_nat un)) a n /\ same_disk (dev h) d'.
Proof.
  intros Hd Ef Hn0 Hb Hne Hu Hp Hs a Ha Hrd Hbl Hn Hr. unfold hdstart, hdstart_with.
  erewrite bind_ret_eq by (by apply (kernel_bf b_actf _ d)). cbn beta. unfold b_actf. rewrite Ef.
  erewrite bind_ret_eq by (by apply (kernel_bf b_bcount _ d)). cbn beta. rewrite Hn0.
  erewrite bind_ret_eq by (apply hd_kernel_ret; rewrite (setb_id (hw h)); apply (bset_setb b_bcount); by eexists). cbn beta.
  change (u32 (0 + 1)) with 1.
  set (h2 := h <| hw := setb (hw h) (alter (setf b_bcount (fun _ => 1)) (hdtab maj) (bufs (ks (hw h)))) |>).
  erewrite bind_ret_eq by (apply (kernel_bget _ b h2); cbn; by rewrite lookup_alter_ne). cbn beta.
  erewrite bind_ret_eq by (by apply (hd_load_ok h2 bp b un pt pd p s)). cbn beta.
  erewrite bind_ret_eq by apply hd_count_ok. cbn beta. fold a.
  set (h4 := counted (loaded h2 un a bp b) b).
  destruct (hdio_some h4 0) as [k ->].
  assert (hd_bn h4 = a) as Ea by (apply s32_id; lia).
  destruct (hdsm0_ok h4 n) as (d' & E & Hd' & Hsd); [done|done|by rewrite Ea|done|done|].
  exists d'. cbv zeta. split; [|split; [split; [by rewrite Ea in Hd'|done|done]|exact Hsd]].
  rewrite hdio_n_S. change (hdsm 0 h4) with (hdsm0 h4). rewrite E. by destruct h.
Qed.

(** ** From the request to its end *)

(** Fields of the kernel that transfers leave alone. *)
Definition sched_same (w w' : world) : Prop :=
  procs (ks w') = procs (ks w) /\ runq (ks w') = runq (ks w) /\ slpque (ks w') = slpque (ks w) /\
  runout (ks w') = runout (ks w).
Lemma sched_same_trans w1 w2 w3 : sched_same w1 w2 -> sched_same w2 w3 -> sched_same w1 w3.
Proof. intros (A1 & A2 & A3 & A4) (B1 & B2 & B3 & B4). split; [congruence|]. split; [congruence|]. split; congruence. Qed.
Lemma stored_sched a l w : sched_same w (stored a l w).
Proof. by destruct a. Qed.
Lemma received_sched ls : forall a w, sched_same w (received a ls w).
Proof.
  induction ls as [|l ls IH]; intros a w; [done|]. cbn [received].
  eapply sched_same_trans; [|apply IH]. exact (stored_sched a l (undk w)).
Qed.
Lemma sleepers_same w w' c l rq : sched_same w w' -> sleepers (ks w) c l rq -> sleepers (ks w') c l rq.
Proof. intros (E1 & E2 & E3 & _) [S1 S2 S3 S4]. split; rewrite ?E1, ?E2, ?E3; done. Qed.

(** The last interrupt of the only request of the queue. *)
Lemma hdintr_last h s a bp d b l rq : taking h s a 1 -> active (hw h) -> room (hd_addr h) 512 (hw h) ->
  aims_at bp (hd_addr h) -> bp <> hdtab maj ->
  bufs (ks (hw h)) !! hdtab maj = Some d -> av_forw d = Some bp -> bufs (ks (hw h)) !! bp = Some b ->
  av_forw b = None -> b_flags b &? B_ASYNC = false -> sleepers (ks (hw h)) (CBuf bp) l rq ->
  undisturbed (ks (hw h)) (CBuf bp) l ->
  exists h' k', hdintr maj h = Ret tt h' /\
    let w1 := stored (hd_addr h) (disk (dev h) s a) (undk (hw h)) in
    hw h' = setb (w1 <| ks := k' |>) (closed bp (bufs (ks w1))) /\ wakes_up (CBuf bp) [] l rq (ks w1) k' /\
    ready (dev h') /\ same_disk (dev h) (dev h') /\
    h' = h <| hw := hw h' |> <| dev := dev h' |> <| hd_bc := 0 |> <| hd_addr := dma_add (hd_addr h) 512 |>.
Proof.
  intros Ht Ha Hr Hb Hne Hd Ef Hbp Eb Has Hsl Hro.
  destruct (hdintr_start h Ha) as [k E]. set (h1 := h <| hw := undk (hw h) |>) in *.
  assert (taking h1 s a 1) as Ht1 by (destruct Ht; by split).
  destruct (hdsm1_last h1 s a Ht1) as (d' & E1 & Hrdy & Hs); [change (room (hd_addr h) 512 (undk (hw h))); by rewrite room_undk|].
  set (w1 := stored (hd_addr h) (disk (dev h) s a) (undk (hw h))).
  assert (data_only bp (bufs (ks (hw h))) (bufs (ks w1))) as [Hd1 Hd2].
  { apply (stored_data bp (hd_addr h) _ (undk (hw h))); [done|]. by rewrite disk_sector, room_undk. }
  destruct (Hd2 b Hbp) as (lb & Hb1 & _).
  assert (sched_same (hw h) w1) as Hss by exact (stored_sched (hd_addr h) _ (undk (hw h))).
  destruct (finish_ok k (took h1 d' (disk (dev h1) s a)) bp d (b <| b_data := lb |>) l rq) as (k' & Ef' & Hwk).
  { change (bufs (ks w1) !! hdtab maj = Some d). by rewrite Hd1 by done. } { done. } { exact Hb1. } { done. } { done. } { done. }
  { by apply (sleepers_same (hw h)). } { destruct Hss as (? & _ & _ & ?). by apply (undisturbed_same (ks (hw h))). }
  eexists _, k'. split; [rewrite E, hdio_n_S; change (hdsm 1 h1) with (hdsm1 h1); rewrite E1; exact Ef'|].
  split; [done|]. split; [exact Hwk|]. split; [exact Hrdy|]. split; [exact Hs|].
  pose proof (tk_bc _ _ _ _ Ht) as Hbc. unfold took, h1. destruct h. cbn in Hbc. by subst.
Qed.

(** *** The bounds of a request *)

Lemma slice_bounds p s b : 0 <= base p -> 0 <= size_ p -> 0 <= base s -> 0 <= size_ s ->
  0 <= b_blkno b < 2 ^ 31 -> blocks b <> 0 -> refused p s b = false ->
  0 < blocks b <= 255 /\ b_blkno b + blocks b <= size_ s /\ base s + b_blkno b + blocks b <= size_ p.
Proof.
  intros Hbp Hsp Hbs Hss Hbl Hn0 Href. unfold refused in Href. apply orb_false_iff in Href as [H1 H2].
  apply Z.ltb_ge in H1, H2. assert (0 <= blocks b) as Hpos.
  { unfold blocks. apply Z.shiftr_nonneg. apply (Z.mod_pos_bound _ (2 ^ 32)). lia. }
  rewrite u32_id in H2 by lia. unfold slice_size in H2. destruct (Z.ltb_spec (size_ p) (base s)); lia.
Qed.

Lemma closed_other bp m x : x <> bp -> x <> hdtab maj -> closed bp m !! x = m !! x.
Proof. intros H1 H2. unfold closed. by rewrite !lookup_alter_ne by done. Qed.
Lemma closed_request bp m b : bp <> hdtab maj -> m !! bp = Some b ->
  closed bp m !! bp = Some (clr_flags B_WANTED (or_flags B_DONE (b <| b_resid := 0 |>))).
Proof. intros H1 Hb. unfold closed. rewrite !lookup_alter_eq. by rewrite !lookup_alter_ne, Hb by done. Qed.
Lemma closed_head bp m d : bp <> hdtab maj -> m !! hdtab maj = Some d ->
  closed bp m !! hdtab maj = Some (d <| b_bcount := 0 |> <| b_resid := 0 |> <| av_forw := None |>).
Proof. intros H1 Hb. unfold closed. by rewrite !lookup_alter_ne, !lookup_alter_eq, Hb by done. Qed.
End Read.

(** What a request for reading must be: the only one of an idle drive,
    synchronous, within its slice and with memory for whole sectors. *)
Record read_request {D : Type} (maj : nat) (h : hdc D) (bp : bptr) (b : buf) (un pt pd : nat) (p s : slice) (n : nat) : Prop := {
  rr_dev : unptpd (b_dev b) = (un, pt, pd);
  rr_part : part h !! un ≫= (fun r => r !! pt) = Some p;
  rr_slice : pseudo !! pd = Some s;
  rr_table : 0 <= base p /\ 0 <= size_ p /\ base p + size_ p <= MAXBLK + 1;
  rr_head : exists d, bufs (ks (hw h)) !! hdtab maj = Some d /\ av_forw d = Some bp /\ b_bcount d = 0;
  rr_buf : bufs (ks (hw h)) !! bp = Some b /\ av_forw b = None /\ bp <> hdtab maj;
  rr_read : Z.land (b_flags b) B_READ = B_READ /\ b_flags b &? B_ASYNC = false;
  rr_block : 0 <= b_blkno b < 2 ^ 31;
  rr_size : blocks b = Z.of_nat n /\ (0 < n)%nat /\ refused p s b = false;
  rr_room : room (dma_of bp b) (512 * n) (hw h)
}.

(** What a request of [n] sectors from [a] of drive [un] leaves: [data] in the
    memory it names and nothing else of memory or of its buffer's contents
    changed; the request done, off the queue, which is empty, and the drive
    idle; every other header as it was; exactly the processes [l] asleep on
    the request woken and nothing else of the kernel changed; of the driver's
    state the members of [hd] and the drive selected set, one request more
    and its words counted, and the partitions as they were. *)
Record has_read {MC : Machine} {D : Type} {PD : Ports D} (maj : nat) (h h' : hdc D) (bp : bptr) (b : buf)
    (un : nat) (a : Z) (n : nat) (data : list Z) (l rq : list nat) : Prop := {
  rd_memory : forall x, pmem (ks (hw h')) x = written (dma_of bp b) data (pmem (ks (hw h))) x;
  rd_buffer : bufs (ks (hw h')) !! bp =
    Some (clr_flags B_WANTED (or_flags B_DONE
      (b <| b_data := filled (dma_of bp b) data (b_data b) |> <| b_resid := 0 |>)));
  rd_queue : bufs (ks (hw h')) !! hdtab maj =
    (fun d => d <| b_bcount := 0 |> <| b_resid := 0 |> <| av_forw := None |>) <$> bufs (ks (hw h)) !! hdtab maj;
  rd_others : forall x, x <> bp -> x <> hdtab maj -> bufs (ks (hw h')) !! x = bufs (ks (hw h)) !! x;
  rd_kernel : wakes_up (CBuf bp) [] l rq
    ((ks (hw h)) <| bufs := bufs (ks (hw h')) |> <| pmem := pmem (ks (hw h')) |>
       <| dk_busy := clr (s32 (Z.lor (dk_busy (ks (hw h))) 1)) 1 |>) (ks (hw h'));
  rd_world : hw h' = (hw h) <| ks := ks (hw h') |>;
  rd_driver : h' = h <| hw := hw h' |> <| dev := dev h' |> <| hd_dn := Z.of_nat un |> <| hd_bn := a |> <| hd_bc := 0 |>
    <| hd_addr := dma_add (dma_of bp b) (Z.of_nat (512 * n)) |> <| hd_rd := B_READ |> <| drv := Z.of_nat un |>
    <| dk_numb := s32 (dk_numb h + 1) |> <| dk_wds := s32 (dk_wds h + Z.shiftr (b_bcount b) 6) |>
}.

Lemma pseudo_range s pd : pseudo !! pd = Some s -> 0 <= base s /\ 0 <= size_ s.
Proof.
  intros H. assert (Forall (fun s => 0 <= base s /\ 0 <= size_ s) pseudo) as F by (by repeat constructor).
  by eapply Forall_lookup_1 in F.
Qed.

Lemma queues_frame k k' : queues_only k k' -> pmem k' = pmem k.
Proof. unfold queues_only. intros ->. done. Qed.

(** Waking up looks at the processes only. *)
Lemma wakes_up_frame {MC : Machine} c l rq k1 k' k m pm n : wakes_up c [] l rq k1 k' ->
  k1 = k <| bufs := bufs k1 |> <| pmem := pm |> <| dk_busy := n |> ->
  wakes_up c [] l rq (k <| bufs := m |> <| pmem := pm |> <| dk_busy := n |>) (k' <| bufs := m |>).
Proof.
  intros [H1 H2 H3 H4] E. rewrite E in H1, H2, H3, H4. split; [exact H1|exact H2| |exact H4].
  unfold queues_only in *. rewrite H3 at 1. by destruct k.
Qed.

Section Whole.
Context {MC : Machine} {D : Type} {PD : Ports D} {AT : Ata D}.
Context (maj : nat) (h : hdc D) (bp : bptr) (b : buf) (un pt pd : nat) (p s : slice) (n : nat) (l rq : list nat).

Lemma hd_read_ok : read_request maj h bp b un pt pd p s (S n) -> ready (dev h) ->
  sleepers (ks (hw h)) (CBuf bp) l rq -> undisturbed (ks (hw h)) (CBuf bp) l ->
  let a := base p + base s + b_blkno b in
  let data := concat (sectors (dev h) (tst (Z.of_nat un)) a (S n)) in
  exists h', (hdstart maj ;;; for_ (replicate (S n) tt) (fun _ => hdintr maj)) h = Ret tt h' /\
    base p <= a /\ a + Z.of_nat (S n) <= base p + size_ p /\
    has_read maj h h' bp b un a (S n) data l rq /\ ready (dev h') /\ same_disk (dev h) (dev h').
Proof.
  intros [Hu Hp Hs (Ht1 & Ht2 & Ht3) (d & Hd & Ef & Hb0) (Hb & Eb & Hne) [Hrd Has] Hbn (Hn & Hn0 & Href) Hroom] Hrdy Hsl Hro a data.
  destruct (pseudo_range s pd Hs) as [Hs1 Hs2].
  destruct (slice_bounds p s b Ht1 Ht2 Hs1 Hs2 Hbn ltac:(lia) Href) as (Hnb & _ & Hin).
  change (MAXBLK + 1) with 268435456 in Ht3.
  destruct (hdstart_ok maj h bp b d un pt pd p s (S n)) as (d1 & E1 & Tk1 & S1); try done; [lia..|].
  fold a in E1, Tk1. set (h1 := _ <| drv := _ |>) in *.
  assert (aims_at bp (dma_of bp b)) as Haim by (unfold dma_of; by destruct (b_addr b)).
  assert (bufs (ks (hw h1)) !! hdtab maj = Some (d <| b_bcount := 1 |>)) as Hd1 by (cbn; by rewrite lookup_alter_eq, Hd).
  assert (bufs (ks (hw h1)) !! bp = Some b) as Hb1 by (cbn; by rewrite lookup_alter_ne).
  assert (active maj (hw h1)) as Ha1 by (eexists; split; [exact Hd1|done]).
  assert (room (dma_of bp b) (512 * S n) (hw h1)) as Hr1.
  { unfold dma_of in *. destruct (b_addr b); [done|]. destruct Hroom as (b' & Hb' & Hl). rewrite Hb in Hb'.
    injection Hb' as <-. by exists b. }
  destruct (hdintrs_ok maj bp (tst (Z.of_nat un)) n h1 a Tk1 Ha1 Haim Hr1) as (h2 & E2 & Tk2 & W2 & Ad2 & S2 & T2).
  change (hd_addr h1) with (dma_of bp b) in W2, Ad2. set (sd := tst (Z.of_nat un)) in *.
  set (ls := sectors (dev h1) sd a n) in *.
  assert (length ls = n) as Els by apply sectors_length.
  assert (Forall (fun l => length l = 512%nat) ls) as Hls by apply sectors_size.
  assert (data_only bp (bufs (ks (hw h1))) (bufs (ks (hw h2)))) as Hdo.
  { rewrite W2. apply received_data; [done|done|]. rewrite Els. eapply room_le; [exact Hr1|lia]. }
  destruct (Hdo) as [Hdo1 Hdo2]. destruct (Hdo2 b Hb1) as (lb & Hb2 & Elb).
  assert (sched_same (hw h) (hw h2)) as Hss.
  { eapply (sched_same_trans _ (hw h1)); [done|]. rewrite W2. apply received_sched. }
  assert (room (hd_addr h2) 512 (hw h2)) as Hr2.
  { rewrite Ad2. unfold dma_of in *. destruct (b_addr b); [done|]. cbn in Hr1. destruct Hr1 as (b' & Hb' & Hl).
    rewrite lookup_alter_ne, Hb in Hb' by done. injection Hb' as <-. cbn. rewrite Hb2. eexists. split; [reflexivity|]. cbn [b_data setf]. lia. }
  destruct (hdintr_last maj h2 sd (a + Z.of_nat n) bp (d <| b_bcount := 1 |>) (b <| b_data := lb |>) l rq)
    as (h' & k' & E3 & W3 & Hwk & Rd3 & S3 & T3); try done.
  { by apply (active_data maj bp (hw h1)). } { rewrite Ad2. by apply aims_add. } { by rewrite Hdo1. }
  { by apply (sleepers_same (hw h)). } { destruct Hss as (? & _ & _ & ?). by apply (undisturbed_same (ks (hw h))). }
  assert (same_disk (dev h) (dev h2)) as S12 by (intros s' a'; by rewrite S2, S1).
  set (w1 := stored (hd_addr h2) (disk (dev h2) sd (a + Z.of_nat n)) (undk (hw h2))) in *.
  assert (w1 = received (dma_of bp b) (sectors (dev h) sd a (S n)) (hw h1)) as Ew1.
  { rewrite sectors_snoc, <- (sectors_same (dev h) (dev h1) sd n S1 a). fold ls. rewrite received_snoc by done.
    unfold w1. rewrite Ad2, W2, S12, Els. done. }
  exists h'. split; [|split; [lia|split; [lia|split; [|split; [done|]]]]].
  - erewrite bind_ret_eq by exact E1. cbn beta. rewrite replicate_S_end, (for_app _ _ _ _ _ E2). cbn [for_].
    by erewrite bind_ret_eq by exact E3.
  - set (w2 := hw h') in *. assert (bufs (ks w2) = closed maj bp (bufs (ks w1))) as Em by (by rewrite W3).
    assert (pmem (ks w2) = pmem (ks w1)) as Ep by (rewrite W3; exact (queues_frame _ _ (wu_frame _ _ _ _ _ _ Hwk))).
    assert (moved (hw h1) w1) as Hmv by (rewrite Ew1; apply received_moved).
    assert (dk_busy (ks w1) = clr (s32 (Z.lor (dk_busy (ks (hw h))) 1)) 1) as Eb1
      by (rewrite Ew1; cbn [sectors]; by rewrite received_busy).
    assert (Forall (fun l => length l = 512%nat) (sectors (dev h) sd a (S n))) as Hall by apply sectors_size.
    assert (bufs (ks w1) !! bp = Some (b <| b_data := filled (dma_of bp b) data (b_data b) |>)) as Eb2.
    { rewrite Ew1. apply received_buf; [done..|]. by rewrite sectors_length. }
    assert (data_only bp (bufs (ks (hw h1))) (bufs (ks w1))) as [Hw1 _].
    { rewrite Ew1. apply received_data; [done|done|]. by rewrite sectors_length. }
    split; fold w2.
    + intros x. rewrite Ep, Ew1. exact (received_mem _ _ (hw h1) x Hall).
    + rewrite Em. by rewrite (closed_request maj bp _ _ Hne Eb2).
    + rewrite Em, (closed_head maj bp _ (d <| b_bcount := 1 |>) Hne) by (by rewrite Hw1). rewrite Hd. by destruct d.
    + intros x Hx1 Hx2. rewrite Em, closed_other, Hw1 by done. cbn. by rewrite lookup_alter_ne.
    + assert (ks w2 = k' <| bufs := bufs (ks w2) |>) as Ek by (by rewrite W3).
      assert (ks w1 = (ks (hw h)) <| bufs := bufs (ks w1) |> <| pmem := pmem (ks w2) |> <| dk_busy := dk_busy (ks w1) |>) as Ek1.
      { rewrite Ep. unfold moved in Hmv. rewrite Hmv at 1. by destruct (hw h) as [? [] ?]. }
      rewrite Eb1 in Ek1. pose proof (wakes_up_frame _ _ _ _ _ _ (bufs (ks w2)) _ _ Hwk Ek1) as Hwf.
      by rewrite <- Ek in Hwf.
    + rewrite W3. unfold moved in Hmv. rewrite Hmv. by destruct (hw h) as [? [] ?].
    + rewrite T3 at 1. rewrite Ad2. change 512 with (Z.of_nat 512). rewrite dma_add_add.
      replace (512 * n + 512)%nat with (512 * S n)%nat by lia. rewrite T2. unfold h1, counted, loaded.
      rewrite Hrd, (s32_id a) by lia. clearbody w2. generalize (dev h') as d'. intros d'. by destruct h.
  - intros s' a'. by rewrite S3, S12.
Qed.
End Whole.

(** C25. A synchronous request to read sectors, alone in the queue of an idle
    drive, accepted for its slice, with memory for whole sectors, while the
    swapper does not wait for something to bring in or the processes asleep
    on the request are in core: it reaches only sectors of its partition, and
    after [hdstart] and one interrupt for each sector the memory it names
    holds the sectors from the start of the partition and the slice on, in
    order.  The rest is [has_read]: the request is done with its error flag
    as it was, the drive idle, the processes asleep on the request woken, and
    nothing else of the kernel, the driver or the disk has changed. *)
Theorem hd_read_correct {MC : Machine} {D : Type} {PD : Ports D} {AT : Ata D} maj (h : hdc D) bp b un pt pd p s n l rq :
  read_request maj h bp b un pt pd p s n -> ready (dev h) ->
  sleepers (ks (hw h)) (CBuf bp) l rq -> undisturbed (ks (hw h)) (CBuf bp) l ->
  let a := base p + base s + b_blkno b in
  let data := concat (sectors (dev h) (tst (Z.of_nat un)) a n) in
  exists h', (hdstart maj ;;; for_ (replicate n tt) (fun _ => hdintr maj)) h = Ret tt h' /\
    base p <= a /\ a + Z.of_nat n <= base p + size_ p /\
    has_read maj h h' bp b un a n data l rq /\ ready (dev h') /\ same_disk (dev h) (dev h').
Proof.
  intros Hr. destruct n as [|n]; [|by eapply hd_read_ok]. pose proof (rr_size _ _ _ _ _ _ _ _ _ _ Hr). lia.
Qed.

(** *** A disk

    Every byte of a sector is its number, the second drive's odd. *)
Record toy := mktoy { t_reg : Z -> Z; t_lba : Z; t_sel : bool; t_left : nat }.
Definition toy_sector (s : bool) (a : Z) : list Z := replicate 512 (u8 (2 * a + Z.b2z s)).
Definition toy_out (port v : Z) (d : toy) : toy :=
  let r := t_reg d in
  if port =? CMD then
    if v =? RDSECT then
      mktoy r (r SN + 256 * r CL + 65536 * r CH + 16777216 * (r DH mod 16)) (Z.testbit (r DH) 4) (Z.to_nat (r SC))
    else d
  else mktoy (fun q => if q =? port then u8 v else r q) (t_lba d) (t_sel d) (t_left d).
#[export] Instance toy_ports : Ports toy := {|
  inb port d := Ret (if port =? STAT then if Nat.eqb (t_left d) 0 then 80 else 88 else 0) d;
  outb port v d := Ret tt (toy_out port v d);
  insw port n d := Ret (toy_sector (t_sel d) (t_lba d)) (mktoy (t_reg d) (t_lba d + 1) (t_sel d) (pred (t_left d)));
  outsw port l d := Ret tt d
|}.
#[export] Instance toy_ata : Ata toy.
Proof.
  refine (Build_Ata toy toy_ports (fun _ s a => toy_sector s a) t_reg (fun d => t_left d = 0%nat)
    (fun d s a n => t_left d = n /\ (n <> 0%nat -> t_sel d = s /\ t_lba d = a)) _ _ _ _ _ _ _ _).
  - intros d s a. apply length_replicate.
  - intros d. by eexists.
  - intros d H. exists 80. cbn. rewrite H. done.
  - intros d port v H Hp. eexists. split; [reflexivity|]. unfold toy_out.
    assert ((port =? CMD) = false) as ->.
    { apply Z.eqb_neq. intros ->. revert Hp. by apply (bool_decide_unpack _). }
    cbn. split; [done|]. split; [by rewrite Z.eqb_refl|]. split; [|done]. intros q Hq. by rewrite (proj2 (Z.eqb_neq _ _)).
  - intros d H Hn Hl. eexists. split; [reflexivity|]. done.
  - intros d s a n [H _]. exists 88. cbn. rewrite H. done.
  - intros d s a n [H Hs]. destruct (Hs ltac:(lia)) as [<- <-]. eexists. split; [reflexivity|]. cbn. rewrite H. done.
  - intros d s a [H _]. done.
Defined.

(** Two sectors of slice c of the first partition of drive 0, read to 4096. *)
Definition disk_request : buf :=
  buf0 <| b_flags := Z.lor (Z.lor B_READ B_BUSY) B_PHYS |> <| b_dev := 10 |> <| b_bcount := 1024 |> <| b_blkno := 5 |>
       <| b_addr := Some 4096 |>.
Definition disk_state : hdc toy :=
  mkhdc toy
    (setb waiting {[ Dtab 0 := buf0 <| av_forw := Some (Buf 0) |> <| av_back := Some (Buf 0) |>; Buf 0 := disk_request ]})
    (mktoy (fun _ => 0) 0 false 0) 0 0 0 0 (DPhys 0) (-1)
    [[mkslice 0 MAXBLK; mkslice 63 1000]; []] 0 0.

Lemma disk_state_request : read_request 0 disk_state (Buf 0) disk_request 0 1 2 (mkslice 63 1000) (mkslice 0 MAXBLK) 2.
Proof.
  constructor; try reflexivity.
  - done.
  - eexists. split; [reflexivity|]. done.
  - done.
  - done.
  - done.
  - split; [reflexivity|]. split; [lia|reflexivity].
Qed.

Lemma hd_read_correct_witness :
  exists h', (@hdstart machine0 toy _ 0 ;;; for_ [tt; tt] (fun _ => @hdintr machine0 toy _ 0)) disk_state = Ret tt h' /\
    63 <= 68 /\ 68 + 2 <= 1063 /\
    @has_read machine0 toy _ 0 disk_state h' (Buf 0) disk_request 0 68 2
      (concat [toy_sector false 68; toy_sector false 69]) [1; 0; 2]%nat [3; 4]%nat /\
    t_left (dev h') = 0%nat /\ same_disk (dev disk_state) (dev h').
Proof.
  refine (@hd_read_correct machine0 toy _ _ 0 disk_state (Buf 0) disk_request 0 1 2 _ _ 2 [1; 0; 2]%nat [3; 4]%nat
    disk_state_request eq_refl _ (or_introl eq_refl)).
  destruct waiting_sleepers. by constructor.
Defined.
