(* ===== verification/Cd.v ===== *)
(** * Cd: the CD-ROM ([dev/cd.c])

    An ATAPI drive, driven by a state machine whose steps are caused by
    interrupts and, where it has to wait, by a timer. *)

From S2P Require Import Prelude Bytes Callout State Utab Sched Bio Cache Dsort Ports.

Definition CB1 : Z := 368.      (* 0x170 *)
Definition CB2 : Z := 880.      (* 0x370 *)
Definition DATA : Z := CB1 + 0.
Definition FR : Z := CB1 + 1.
Definition SC : Z := CB1 + 2.
Definition SN : Z := CB1 + 3.
Definition CL : Z := CB1 + 4.
Definition CH : Z := CB1 + 5.
Definition DH : Z := CB1 + 6.
Definition STAT : Z := CB1 + 7.
Definition CMD : Z := CB1 + 7.
Definition ASTAT : Z := CB2 + 6.
Definition DC : Z := CB2 + 6.
Definition BSY : Z := 128.
Definition DF : Z := 32.
Definition DRQ : Z := 8.
Definition ERR : Z := 1.
Definition DEV0 : Z := 0.
Definition DEV1 : Z := 16.
Definition CMDPKT : Z := 160.
Definition CMDRST : Z := 8.
Definition CDSHIFT : Z := 11.
Definition DPBC : Z := 2048.
Definition CDTIME : Z := HZ / 5.
Definition CDTOUT : Z := 50.
Definition TMOFF : Z := 0.
Definition TMDONE : Z := 1.
Definition TMON : Z := 2.
Definition STCMD : Z := 1.
Definition STPKT : Z := 2.
Definition STINT : Z := 3.
Definition STCMDX : Z := 4.
Definition STPKTX : Z := 5.
Definition STRSTX : Z := 6.
Definition STENDX : Z := 7.
Definition STX : Z := 4.

(** The members of [cd] and the other statics, with this driver's counts of
    [h/systm.h]. *)
Record cdst := mkcdst {
  cd_st : Z; cd_dn : Z; cd_bc : Z; cd_bn : Z; cd_addr : dma;
  drive_ : Z; trq : Z; tticks : Z; dk_numb : Z; dk_wds : Z
}.
#[export] Instance eta_cdst : Eta cdst := fun r =>
  mkcdst (cd_st r) (cd_dn r) (cd_bc r) (cd_bn r) (cd_addr r) (drive_ r) (trq r) (tticks r) (dk_numb r) (dk_wds r).

Section Cd.
Context {MC : Machine} {D : Type} {PD : Ports D}.
Context (maj cdtimer_fn : nat).
Abbreviation CDM := (M (drv cdst D)).
Definition cdtab : bptr := Dtab maj.
Definition rcdbuf : bptr := Rbuf maj.

Definition delay : CDM unit :=
  in_device (inb ASTAT ;;; inb ASTAT ;;; inb ASTAT ;;; inb ASTAT ;;; ret tt).

(** ** [cdsm(st)] *)

(** The packet: READ(10) of [cd.bc] blocks from [cd.bn]. *)
Definition packet (bn bc : Z) : list Z :=
  map u8 [40; 0; Z.shiftr bn 24; Z.shiftr bn 16; Z.shiftr bn 8; bn;
          Z.shiftr bc 16; Z.shiftr bc 8; bc; 0; 0; 0].

Definition cd_packet : CDM Z :=
  x <- in_device (inb ASTAT) ;;
  if x &? BSY then ret STPKTX
  else
    x <- in_device (inb STAT) ;;
    if negb (Z.land x (Z.lor (Z.lor BSY DRQ) ERR) =? DRQ) then ret (-1)
    else
      bn <- dget cd_bn ;; bc <- dget cd_bc ;;
      in_device (outsw DATA (packet bn bc)) ;;;
      ret STINT.

(** [false] where the drive is not ready. *)
Definition cd_select : CDM bool :=
  dr <- dget drive_ ;; dn <- dget cd_dn ;;
  if dr =? dn then ret true
  else
    x <- in_device (inb STAT) ;;
    if x &? Z.lor BSY DRQ then ret false
    else
      in_device (outb DH (if tst dn then DEV1 else DEV0)) ;;;
      dput drive_ dn ;;;
      delay ;;; ret true.

Definition cd_command : CDM Z :=
  ok <- cd_select ;;
  if negb ok then ret STCMDX
  else
    x <- in_device (inb STAT) ;;
    if x &? Z.lor BSY DRQ then ret STCMDX
    else
      dr <- dget drive_ ;;
      in_device (outb DC 0 ;;; outb FR 0 ;;; outb SC 0 ;;; outb SN 0 ;;;
                 outb CL (Z.land DPBC 255) ;;; outb CH (Z.shiftr DPBC 8) ;;;
                 outb DH (if tst dr then DEV1 else DEV0) ;;; outb CMD CMDPKT) ;;;
      delay ;;;
      cd_packet.

Definition cd_interrupt : CDM Z :=
  x <- in_device (inb STAT) ;;
  if negb (x &? Z.lor BSY DRQ) then ret (if x &? Z.lor DF ERR then -2 else 0)
  else if negb (Z.land x (Z.lor BSY DRQ) =? DRQ) then ret (-1)
  else
    hi <- in_device (inb CH) ;; lo <- in_device (inb CL) ;;
    let x := Z.lor (Z.shiftl hi 8) lo in
    if x =? 0 then ret (-1)
    else
      a <- dget cd_addr ;;
      l <- in_device (insw DATA (2 * Z.to_nat (Z.shiftr (x + 1) 1))) ;;
      in_kernel (dma_put a l) ;;;
      dput cd_addr (dma_add a x) ;;;
      ret STINT.

Definition cd_end : CDM Z :=
  x <- in_device (inb ASTAT) ;;
  if x &? BSY then ret STENDX
  else
    x <- in_device (inb STAT) ;;
    ret (if x &? Z.lor (Z.lor (Z.lor BSY DF) DRQ) ERR then -1 else 0).

Definition cdsm (st : Z) : CDM Z :=
  if (st =? STCMD) || (st =? STCMDX) then cd_command
  else if (st =? STPKT) || (st =? STPKTX) then cd_packet
  else if st =? STINT then cd_interrupt
  else if st =? STRSTX then in_device (outb CMD CMDRST) ;;; delay ;;; cd_end
  else if st =? STENDX then cd_end
  else fault.

(** ** Requests *)

Definition cdstart_with (io : CDM unit) : CDM unit :=
  f <- in_kernel (bf cdtab b_actf) ;;
  match f with
  | None => dput trq TMDONE
  | Some bp =>
      n <- in_kernel (bf cdtab b_bcount) ;; in_kernel (bset cdtab b_bcount (u32 (n + 1))) ;;;
      s <- in_kernel spl6 ;;
      t <- dget trq ;;
      when (t =? TMOFF) (in_kernel (timeout cdtimer_fn 0 CDTIME)) ;;;
      dput trq TMON ;;;
      in_kernel (splx s) ;;;
      dput tticks 0 ;;;
      b <- in_kernel (bget bp) ;;
      dput cd_dn (Z.land (minor (b_dev b)) 1) ;;;
      dput cd_bn (Z.shiftr (b_blkno b) (CDSHIFT - BSHIFT)) ;;;
      dput cd_bc (Z.shiftr (b_bcount b) CDSHIFT) ;;;
      dput cd_addr (dma_of bp b) ;;;
      busy <- in_kernel (kf dk_busy) ;; in_kernel (kset dk_busy (s32 (Z.lor busy 4))) ;;;
      k <- dget dk_numb ;; dput dk_numb (s32 (k + 1)) ;;;
      k <- dget dk_wds ;; dput dk_wds (s32 (k + Z.shiftr (b_bcount b) 6)) ;;;
      io
  end.

Definition cd_finish (start : CDM unit) (x : Z) : CDM unit :=
  bp <- in_kernel (blink cdtab b_actf) ;;
  in_kernel (bset cdtab b_bcount 0) ;;;
  again <- (if tst x then
              in_kernel (deverror bp) ;;;
              n <- in_kernel (bf cdtab b_resid) ;;
              in_kernel (bset cdtab b_resid (u32 (n + 1))) ;;;
              if u32 (n + 1) <=? 10 then ret true
              else in_kernel (bor bp B_ERROR) ;;; ret false
            else ret false) ;;
  if again : bool then start
  else
    in_kernel (bset cdtab b_resid 0) ;;;
    f <- in_kernel (bf bp av_forw) ;; in_kernel (bset cdtab av_forw f) ;;;
    in_kernel (bset bp b_resid 0) ;;;
    in_kernel (iodone bp) ;;;
    start.

(** [cdio(st)]; a start that fails at once comes back, at most eleven times
    for a request. *)
Fixpoint cdio_n (fuel : nat) (st : Z) : CDM unit :=
  match fuel with
  | O => nofuel
  | S fuel =>
      x <- cdsm st ;;
      dput cd_st (if 0 <? x then x else 0) ;;;
      when (x <=? 0) (cd_finish (cdstart_with (cdio_n fuel STCMD)) x)
  end.
Definition cdio (st : Z) : CDM unit := n <- in_kernel nbufs ;; cdio_n (S (11 * n)) st.
Definition cdstart : CDM unit := cdstart_with (cdio STCMD).

Definition cdstrategy (bp : bptr) : CDM unit :=
  in_kernel (bset bp av_forw None ;;; spl5 ;;; enqueue cdtab bp) ;;;
  n <- in_kernel (bf cdtab b_bcount) ;;
  when (n =? 0) cdstart ;;;
  in_kernel spl0.

Definition cdintr : CDM unit :=
  n <- in_kernel (bf cdtab b_bcount) ;;
  if n =? 0 then ret tt
  else
    busy <- in_kernel (kf dk_busy) ;; in_kernel (kset dk_busy (clr busy 4)) ;;;
    dput tticks 0 ;;;
    cdio STINT.

Definition cdtimer : CDM unit :=
  t <- dget trq ;;
  if t =? TMDONE then dput trq TMOFF
  else
    in_kernel (timeout cdtimer_fn 0 CDTIME) ;;;
    st <- dget cd_st ;;
    when (tst st)
      (k <- dget tticks ;; dput tticks (s32 (k + 1)) ;;;
       when (CDTOUT <? s32 (k + 1))
         (in_kernel (printf "cd: timeout (%d)") ;;; dput cd_st STRSTX ;;; dput tticks 0)) ;;;
    st <- dget cd_st ;;
    when (st &? STX) (cdio st).

Definition cdread (d : Z) : CDM unit :=
  go <- in_kernel (physio_request rcdbuf d B_READ) ;;
  when go (cdstrategy rcdbuf ;;; in_kernel (physio_done rcdbuf)).

End Cd.
