(* ===== verification/Fd.v ===== *)
(** * Fd: the floppy disk ([dev/fd.c])

    Requests are cut into pieces that fit a cylinder and a 64K page of the DMA
    controller; each piece is driven by the interrupts of the disk's
    controller — recalibrate, seek, transfer — and by a timer, which also
    runs the motor.  The DMA controller itself is the machine's. *)

From S2P Require Import Prelude Bytes Callout State Utab Sched Bio Cache Dsort Ports.

Definition NFDBLK : Z := 2880.
Definition FDSPT : Z := 18.
Definition FDDOR : Z := 1010.
Definition FDMSR : Z := 1012.
Definition FDDAT : Z := 1013.
Definition FDCCR : Z := 1015.
Definition FDDIO : Z := 64.
Definition FDRQM : Z := 128.
Definition FDCNO : Z := 0.
Definition FDSPC : Z := 3.
Definition FDCRC : Z := 7.
Definition FDCSK : Z := 15.
Definition FDCWR : Z := 197.
Definition FDCRD : Z := 230.
Definition FDCSI : Z := 8.
Definition FDCRS : Z := 255.
Definition FDGPL : Z := 27.
Definition FDECU : Z := 1.
Definition FDECE : Z := 2.
Definition FDETO : Z := 3.
Definition FDESF : Z := 4.
Definition FDEWP : Z := 5.
Definition FDEOV : Z := 6.
Definition FDENF : Z := 7.
Definition FDEIO : Z := 8.
Definition FDBUF : Z := 3584.   (* 0x0e00 *)
Definition FDDEL : positive := 1000.
Definition FDTRY : Z := 3.

(** The structure [fd], the timer's statics, and this driver's counts of
    [h/systm.h]. *)
Record fdst := mkfdst {
  fd_err : Z; pcn : Z; mtr : Z; fd_cmd : Z; fd_try : Z; fd_rd : Z;
  cn : Z; hn : Z; sn : Z; bleft : Z; bpart : Z; fd_addr : dma; phys : Z;
  tick : Z; trq : Z; dk_numb : Z; dk_wds : Z
}.
#[export] Instance eta_fdst : Eta fdst := fun r =>
  mkfdst (fd_err r) (pcn r) (mtr r) (fd_cmd r) (fd_try r) (fd_rd r) (cn r) (hn r) (sn r) (bleft r) (bpart r)
    (fd_addr r) (phys r) (tick r) (trq r) (dk_numb r) (dk_wds r).

Section Fd.
Context {MC : Machine} {D : Type} {PD : Ports D}.
Context (maj fdtimer_fn : nat).
Abbreviation FM := (M (drv fdst D)).
Definition fdtab : bptr := Dtab maj.
Definition rfdbuf : bptr := Rbuf maj.

(** ** The controller *)

(** [fdrqm(m)]: whether the controller is ready for the direction [m]. *)
Definition fdrqm (m : Z) : FM bool :=
  x <- (fix go (n : nat) : FM Z :=
          match n with
          | O => ret 0
          | S n => x <- in_device (inb FDMSR) ;; if x &? FDRQM then ret x else go n
          end) (Pos.to_nat FDDEL) ;;
  if (x &? FDRQM) && (Z.land x FDDIO =? m) then ret true
  else dput fd_err FDECU ;;; ret false.

(** [fdput(x)], [fdget(x)]: [false] and [None] are the result -1. *)
Definition fdput (x : Z) : FM bool :=
  r <- fdrqm 0 ;; if r : bool then in_device (outb FDDAT x) ;;; ret true else ret false.
Definition fdget : FM (option Z) :=
  r <- fdrqm FDDIO ;; if r : bool then x <- in_device (inb FDDAT) ;; ret (Some (s8 x)) else ret None.

(** [fdsis(av)]: [av[0]], where it returns 0. *)
Definition fdsis : FM (option Z) :=
  r <- fdput FDCSI ;;
  if negb r then ret None
  else
    a <- fdget ;;
    match a with
    | None => ret None
    | Some a =>
        if Z.land a 192 =? 128 then dput fd_err FDECE ;;; ret None
        else b <- fdget ;; ret (match b with Some _ => Some a | None => None end)
    end.

Definition fdrst : FM unit := in_device (outb FDDOR 16 ;;; outb FDDOR 28).

(** The bytes of a command. *)
Definition fd_bytes (cmd cn hn sn : Z) : option (list Z) :=
  if cmd =? FDSPC then Some [cmd; 223; 2]
  else if cmd =? FDCRC then Some [cmd; 0]
  else if cmd =? FDCSK then Some (map u8 [cmd; Z.shiftl hn 2; cn])
  else if (cmd =? FDCRD) || (cmd =? FDCWR) then
    Some (map u8 [cmd; Z.shiftl hn 2; cn; hn; sn; 2; FDSPT; FDGPL; 255])
  else None.

(** [fdcmd(cmd)]: [true] is the result 0. *)
Definition fdcmd (cmd : Z) : FM bool :=
  c <- dget cn ;; h <- dget hn ;; s <- dget sn ;;
  av <- the (fd_bytes cmd c h s) ;;
  r <- for_find av (fun x => ok <- fdput x ;; ret (if ok : bool then None else Some tt)) ;;
  ret (match r with None => true | Some _ => false end).

(** DMA channel 2, between [fd.phys] and the disk. *)
Definition fddma : FM unit :=
  rd <- dget fd_rd ;; p <- dget phys ;; n <- dget bpart ;;
  in_device
    (outb 10 6 ;;; outb 12 0 ;;; outb 11 (if tst rd then 70 else 74) ;;;
     outb 4 p ;;; outb 4 (Z.shiftr p 8) ;;; outb 129 (Z.shiftr p 16) ;;;
     outb 5 (u32 (n - 1)) ;;; outb 5 (Z.shiftr (u32 (n - 1)) 8) ;;; outb 10 2).

(** ** Steps *)

Definition fdx1_error : FM unit :=
  e <- dget fd_err ;; when (tst e) (fdrst ;;; dput fd_cmd FDCRS).

(** The next command of a piece; the transfer waits for the motor. *)
Definition fdx1 : FM unit :=
  e <- dget fd_err ;;
  if tst e then fdx1_error
  else
    dput fd_cmd FDCNO ;;;
    p <- dget pcn ;; c <- dget cn ;; m <- dget mtr ;;
    wait <- (if p <? 0 then dput fd_cmd FDCRC ;;; ret false
             else if negb (p =? c) then dput fd_cmd FDCSK ;;; ret false
             else if m =? 1 then dput trq (-1) ;;; dput tick 0 ;;; ret true
             else
               fddma ;;; rd <- dget fd_rd ;;
               dput fd_cmd (if tst rd then FDCRD else FDCWR) ;;; ret false) ;;
    if wait : bool then ret tt
    else
      cmd <- dget fd_cmd ;;
      ok <- fdcmd cmd ;;
      when ok (dput trq 1 ;;; dput tick 0) ;;;
      fdx1_error.

(** The result bytes of a transfer: the error of the first three. *)
Definition transfer_error (a0 a1 a2 : Z) : Z :=
  if Z.land a0 192 =? 0 then 0
  else if a1 &? 2 then FDEWP
  else if a1 &? 16 then FDEOV
  else if (a1 &? 32) || (a2 &? 32) then FDEIO
  else FDENF.

(** [for (i = 0; i < n; i++) if (fdget(&av[i])) return 0;] *)
Fixpoint fdgets (n : nat) : FM (option (list Z)) :=
  match n with
  | O => ret (Some [])
  | S n =>
      a <- fdget ;;
      match a with
      | None => ret None
      | Some a => l <- fdgets n ;; ret (l ≫= fun l => Some (a :: l))
      end
  end.

(** What an interrupt says of the command: [true] if the piece has ended.
    With no command under way the routine has no value. *)
Definition fdx2 : FM bool :=
  dput trq 0 ;;;
  cmd <- dget fd_cmd ;;
  if (cmd =? FDCRC) || (cmd =? FDCSK) then
    a <- fdsis ;;
    match a with
    | None => ret tt
    | Some a =>
        p <- dget pcn ;; c <- dget cn ;;
        if a &? 192 then
          if a &? 128 then dput fd_err FDECE
          else if (cmd =? FDCRC) && (p =? -1) then dput pcn (-2)
          else dput fd_err FDESF
        else dput pcn (if cmd =? FDCRC then 0 else c)
    end ;;;
    ret false
  else if (cmd =? FDCRD) || (cmd =? FDCWR) then
    av <- fdgets 7 ;;
    match av with
    | None => ret false
    | Some av =>
        let e := transfer_error (nth 0 av 0) (nth 1 av 0) (nth 2 av 0) in
        t <- dget fd_try ;;
        again <- (if tst e && negb (e =? FDEWP) then dput fd_try (s32 (t + 1)) ;;; ret (s32 (t + 1) <=? FDTRY)
                  else ret false) ;;
        if again : bool then ret false else dput fd_err e ;;; ret true
    end
  else if cmd =? FDCRS then
    for_find [0; 1; 2; 3] (fun _ => a <- fdsis ;; ret (match a with None => Some tt | Some _ => None end)) ;;;
    ret true
  else fault.

(** ** Pieces of a request *)

(** The address a transfer has in the kernel. *)
Definition dma_addr (a : dma) : option Z :=
  match a with
  | DBuf (Buf i) off => Some (buffers + 512 * Z.of_nat i + Z.of_nat off)
  | DBuf _ _ => None
  | DPhys a => Some a
  end.

(** The bytes left in the cylinder, and those left in the 64K page from
    [p] on, in whole sectors: none where a sector lies over its end, which
    then goes through the buffer FDBUF. *)
Definition cylinder_left (hn sn : Z) : Z := u32 (((2 - hn) * FDSPT - (sn - 1)) * BSIZE).
Definition page_left (p : Z) : Z := clr (65536 - Z.land p 65535) (BSIZE - 1).
Definition piece (hn sn left p : Z) : Z * Z :=
  let n := Z.min (cylinder_left hn sn) left in
  if page_left p =? 0 then (FDBUF, Z.min n BSIZE) else (p, Z.min n (page_left p)).

Definition fdio : FM unit :=
  h <- dget hn ;; s <- dget sn ;; left <- dget bleft ;; a <- dget fd_addr ;; rd <- dget fd_rd ;;
  va <- the (dma_addr a) ;;
  p <- in_kernel (physaddr (u32 va)) ;;
  let '(p, n) := piece h s left p in
  dput phys p ;;;
  dput bpart n ;;;
  when (negb (tst rd) && (p =? FDBUF))
    (in_kernel
       (l <- dma_get a (Z.to_nat n) ;; kmod (fun k => k <| pmem ::= fun m => phys_write m (PHY + p) l |>))) ;;;
  dput fd_try 0 ;;; dput fd_cmd 0 ;;; dput fd_err 0 ;;;
  fdx1.

(** Cylinder, head and sector of a block. *)
Definition chs (bn : Z) : Z * Z * Z :=
  (Z.quot (Z.quot bn FDSPT) 2, Z.rem (Z.quot bn FDSPT) 2, Z.rem bn FDSPT + 1).

Definition fd_motor : FM unit :=
  s <- in_kernel spl6 ;;
  m <- dget mtr ;;
  (if m =? 0 then
     in_kernel (timeout fdtimer_fn 0 (HZ / 5)) ;;;
     in_device (outb FDDOR 28) ;;;
     dput mtr 1 ;;; dput tick 0 ;;;
     fdcmd FDSPC ;;;
     in_device (outb FDCCR 0)
   else when (m =? 3) (dput mtr 2)) ;;;
  in_kernel (splx s).

Definition fdstart : FM unit :=
  f <- in_kernel (bf fdtab b_actf) ;;
  match f with
  | None =>
      s <- in_kernel spl6 ;;
      m <- dget mtr ;;
      when (tst m) (dput mtr 3 ;;; dput tick 0) ;;;
      in_kernel (splx s)
  | Some bp =>
      n <- in_kernel (bf fdtab b_bcount) ;; in_kernel (bset fdtab b_bcount (u32 (n + 1))) ;;;
      b <- in_kernel (bget bp) ;;
      let '(c, h, s) := chs (b_blkno b) in
      dput cn c ;;; dput hn h ;;; dput sn s ;;;
      dput bleft (b_bcount b) ;;;
      dput fd_addr (dma_of bp b) ;;;
      dput fd_rd (Z.land (b_flags b) B_READ) ;;;
      fd_motor ;;;
      busy <- in_kernel (kf dk_busy) ;; in_kernel (kset dk_busy (s32 (Z.lor busy 2))) ;;;
      k <- dget dk_numb ;; dput dk_numb (s32 (k + 1)) ;;;
      k <- dget dk_wds ;; dput dk_wds (s32 (k + Z.shiftr (b_bcount b) 6)) ;;;
      fdio
  end.

(** Sectors of the request's bytes; signed, unlike the other disks'. *)
Definition fd_refused (b : buf) : bool :=
  NFDBLK <? s32 (b_blkno b + Z.shiftr (u32 (b_bcount b + BMASK)) BSHIFT).

Definition fdstrategy (bp : bptr) : FM unit :=
  b <- in_kernel (bget bp) ;;
  if fd_refused b then in_kernel (bor bp B_ERROR ;;; iodone bp)
  else
    in_kernel (bset bp av_forw None ;;; spl5 ;;; enqueue fdtab bp) ;;;
    n <- in_kernel (bf fdtab b_bcount) ;;
    when (n =? 0) fdstart ;;;
    in_kernel spl0.

(** The next piece of the request, or its end. *)
Definition fd_next (bp : bptr) : FM unit :=
  rd <- dget fd_rd ;; p <- dget phys ;; n <- dget bpart ;; a <- dget fd_addr ;; left <- dget bleft ;;
  when (tst rd && (p =? FDBUF))
    (in_kernel (m <- kf pmem ;; dma_put a (phys_read m (PHY + p) (Z.to_nat n)))) ;;;
  dput bleft (u32 (left - n)) ;;;
  if 0 <? u32 (left - n) then
    dput fd_addr (dma_add a n) ;;;
    c <- dget cn ;; dput cn (c + 1) ;;;
    dput hn 0 ;;; dput sn 1 ;;;
    fdio
  else
    in_kernel
      (bset fdtab b_bcount 0 ;;;
       bset fdtab b_resid 0 ;;;
       f <- bf bp av_forw ;; bset fdtab av_forw f ;;;
       bset bp b_resid 0 ;;;
       iodone bp) ;;;
    fdstart.

Definition fdintr : FM unit :=
  n <- in_kernel (bf fdtab b_bcount) ;;
  if n =? 0 then ret tt
  else
    busy <- in_kernel (kf dk_busy) ;; in_kernel (kset dk_busy (clr busy 2)) ;;;
    done <- fdx2 ;;
    if negb done then fdx1
    else
      bp <- in_kernel (blink fdtab b_actf) ;;
      e <- dget fd_err ;;
      again <- (if tst e then
                  in_kernel (deverror bp) ;;;
                  retry <- (if negb (e =? FDEWP) then
                              n <- in_kernel (bf fdtab b_resid) ;;
                              in_kernel (bset fdtab b_resid (u32 (n + 1))) ;;;
                              ret (u32 (n + 1) <=? 10)
                            else ret false) ;;
                  if retry : bool then dput pcn (-1) ;;; ret true
                  else in_kernel (bor bp B_ERROR) ;;; left <- dget bleft ;; dput bpart left ;;; ret false
                else ret false) ;;
      if again : bool then fdstart else fd_next bp.

Definition fdtimer : FM unit :=
  t <- dget tick ;; dput tick (u32 (t + 1)) ;;;
  let t := u32 (t + 1) in
  m <- dget mtr ;;
  (if (m =? 1) && (2 <? t) then dput mtr 2
   else if (m =? 3) && (10 <? t) then dput mtr 0 ;;; in_device (outb FDDOR 12)
   else ret tt) ;;;
  r <- dget trq ;; m <- dget mtr ;;
  (if (r =? -1) && (m =? 2) then dput trq 0 ;;; fdx1
   else if (r =? 1) && (10 <? t) then dput trq 0 ;;; dput fd_err FDETO ;;; fdx1
   else ret tt) ;;;
  m <- dget mtr ;;
  when (tst m) (in_kernel (timeout fdtimer_fn 0 (HZ / 5))).

Definition fd_raw (d rw : Z) : FM unit :=
  go <- in_kernel (physio_request rfdbuf d rw) ;;
  when go (fdstrategy rfdbuf ;;; in_kernel (physio_done rfdbuf)).
Definition fdread (d : Z) : FM unit := fd_raw d B_READ.
Definition fdwrite (d : Z) : FM unit := fd_raw d B_WRITE.

End Fd.

(** ** Geometry *)

Lemma chs_ok bn : 0 <= bn < NFDBLK -> exists c h s, chs bn = (c, h, s) /\ 0 <= c < 80 /\ 0 <= h < 2 /\ 1 <= s <= FDSPT /\
  bn = c * 36 + h * 18 + (s - 1).
Proof.
  unfold NFDBLK, chs, FDSPT. intros H. exists (bn / 36), (bn / 18 mod 2), (bn mod 18 + 1).
  pose proof (Z.div_pos bn 18 ltac:(lia) ltac:(lia)). rewrite (Z.quot_div_nonneg bn 18), Z.quot_div_nonneg by lia.
  rewrite !Z.rem_mod_nonneg by lia.
  rewrite Z.div_div by lia. change (18 * 2) with 36. split; [done|].
  pose proof (Z.div_mod bn 18 ltac:(lia)). pose proof (Z.div_mod (bn / 18) 2 ltac:(lia)) as H2.
  rewrite Z.div_div in H2 by lia. change (18 * 2) with 36 in H2.
  pose proof (Z.mod_pos_bound bn 18 ltac:(lia)). pose proof (Z.mod_pos_bound (bn / 18) 2 ltac:(lia)).
  pose proof (Z.div_pos bn 36 ltac:(lia) ltac:(lia)). pose proof (Z.div_lt_upper_bound bn 36 80 ltac:(lia) ltac:(lia)). lia.
Qed.

Lemma cylinder_left_ok h s : 0 <= h < 2 -> 1 <= s <= FDSPT ->
  cylinder_left h s = (36 - (h * 18 + (s - 1))) * 512.
Proof.
  unfold FDSPT. intros Hh Hs. unfold cylinder_left, FDSPT, BSIZE. rewrite u32_id by lia. lia.
Qed.

Lemma page_left_ok p : 0 <= p -> 0 <= page_left p <= 65536 - p mod 65536 /\ page_left p mod 512 = 0 /\
  (page_left p = 0 -> 65536 - 512 < p mod 65536).
Proof.
  intros Hp. unfold page_left. change 65535 with (Z.ones 16). rewrite (land_ones_mod p 16) by lia. change (2 ^ 16) with 65536.
  change (BSIZE - 1) with (Z.ones 9). rewrite clr_ones by lia. change (2 ^ 9) with 512.
  pose proof (Z.mod_pos_bound p 65536 ltac:(lia)). set (q := 65536 - p mod 65536) in *.
  pose proof (Z.mod_pos_bound q 512 ltac:(lia)). pose proof (Z.div_mod q 512 ltac:(lia)) as Hq.
  pose proof (Z.div_pos q 512 ltac:(lia) ltac:(lia)).
  split; [lia|]. split; [|lia]. replace (q - q mod 512) with (q / 512 * 512) by lia. apply Z.mod_mul. lia.
Qed.

(** What [piece] makes of any place of a cylinder: at least a byte, within the
    cylinder and what is left, and within one page of the DMA controller. *)
Lemma piece_ok h s left p : 0 <= h < 2 -> 1 <= s <= FDSPT -> 0 < left -> 0 <= p ->
  let '(q, n) := piece h s left p in
  0 < n <= left /\ h * 18 + (s - 1) + (n + 511) / 512 <= 36 /\ (q = p \/ q = FDBUF) /\ q mod 65536 + n <= 65536.
Proof.
  intros Hh Hs Hl Hp. unfold piece. rewrite (cylinder_left_ok h s) by done. unfold FDSPT in Hs.
  destruct (page_left_ok p Hp) as (Hp1 & Hp2 & Hp3). set (cl := 36 - (h * 18 + (s - 1))) in *.
  assert (1 <= cl <= 36) by lia.
  assert (forall n, n <= cl * 512 -> h * 18 + (s - 1) + (n + 511) / 512 <= 36) as Hcyl.
  { intros n Hn. assert ((n + 511) / 512 < cl + 1) by (apply Z.div_lt_upper_bound; lia). lia. }
  destruct (Z.eqb_spec (page_left p) 0) as [Ez|Ez].
  - unfold BSIZE. split; [lia|]. split; [apply Hcyl; lia|]. split; [by right|]. change (FDBUF mod 65536) with 3584. lia.
  - split; [lia|]. split; [apply Hcyl; lia|]. split; [by left|]. lia.
Qed.

(** What [fd_next] first brings out of the buffer FDBUF. *)
Definition bring {D : Type} (r : drv fdst D) : M (drv fdst D) unit :=
  when (tst (fd_rd (ds r)) && (phys (ds r) =? FDBUF))
    (in_kernel (m <- kf pmem ;; dma_put (fd_addr (ds r)) (phys_read m (PHY + phys (ds r)) (Z.to_nat (bpart (ds r)))))).
Lemma bring_statics {D : Type} (r r1 : drv fdst D) : bring r r = Ret tt r1 -> ds r1 = ds r.
Proof.
  unfold bring. destruct (_ && _); cbn [when]; [|intros E; injection E; intros; by subst].
  set (m := bind _ _). unfold in_kernel, lift. destruct (m (dw r)); [|done..]. intros E. injection E. intros. by subst.
Qed.

(** The request goes on at the start of the next cylinder, wherever the last
    piece ended. *)
Lemma fd_next_cylinder {MC : Machine} {D : Type} {PD : Ports D} maj fn bp (r r1 : drv fdst D) :
  bring r r = Ret tt r1 -> 0 < u32 (bleft (ds r) - bpart (ds r)) ->
  fd_next maj fn bp r =
  fdio (r1 <| ds := (ds r) <| bleft := u32 (bleft (ds r) - bpart (ds r)) |>
                       <| fd_addr := dma_add (fd_addr (ds r)) (bpart (ds r)) |>
                       <| cn := cn (ds r) + 1 |> <| hn := 0 |> <| sn := 1 |> |>).
Proof.
  intros Hb Hl. pose proof (bring_statics r r1 Hb) as Hd. unfold fd_next.
  do 5 (erewrite bind_ret_eq by reflexivity; cbn beta). fold (bring r).
  erewrite bind_ret_eq by exact Hb. cbn beta.
  erewrite bind_ret_eq by reflexivity. cbn beta. rewrite (proj2 (Z.ltb_lt _ _) Hl).
  do 5 (erewrite bind_ret_eq by reflexivity; cbn beta). rewrite <- Hd. by destruct r1 as [? ? []].
Qed.


(** A disk without ports. *)
Definition no_ports : Ports unit := {|
  inb _ := ret 0; outb _ _ := ret tt; insw _ n := ret (replicate n 0); outsw _ _ := ret tt
|}.


(** Two sectors from block 0 to 65024, 512 bytes below the end of a page: the
    first piece is one sector, far from the end of its cylinder. *)
Example fd_page_cut : piece 0 1 1024 65024 = (65024, 512) /\ cylinder_left 0 1 = 18432.
Proof. split; vm_compute; reflexivity. Qed.
