(* ===== verification/Mem.v ===== *)
(** * Mem: memory as files, and the user's own terminal ([dev/mem.c],
      [dev/sys.c])

    The bytes of the kernel's own memory, the end of its data and the address
    of the user structure are the compiler's, and parameters. *)

From S2P Require Import Prelude Bytes State Utab Sched Bio Rdwri.

Definition KBASE : Z := 2143289344.   (* 0x7fc00000 *)
Definition KSTK : Z := 2147090432.    (* 0x7ffa0000 *)

Section Mem.
Context {MC : Machine}.
Context (kread : Z -> KM Z) (kwrite : Z -> Z -> KM unit) (kend uaddr : Z).

(** [mmvaloff(k)]; [off_t] is signed. *)
Definition in_kernel (o : Z) : bool := (KBASE <=? o) && (o <? kend) || (uaddr <=? o) && (o <? KSTK).
Definition mmvaloff (k : bool) : KM bool :=
  o <- uf u_offset ;;
  if if k then in_kernel o else o <? 16777216 then ret true
  else set_error ENXIO ;;; ret false.

(** A byte of either memory. *)
Definition mm_get (k : bool) : KM Z :=
  o <- uf u_offset ;;
  if k then kread o else m <- kf pmem ;; ret (s8 (m (PHY + o))).
Definition mm_put (k : bool) (c : Z) : KM unit :=
  o <- uf u_offset ;;
  if k then kwrite o c else kmod (fun r => r <| pmem ::= fun m => phys_write m (PHY + o) [u8 c] |>).

Definition mmread (dev : Z) : KM unit :=
  if minor dev =? 2 then ret tt
  else
    let k := minor dev =? 1 in
    n <- uf u_count ;;
    loop (S (Z.to_nat n)) (fun _ : unit =>
      ok <- mmvaloff k ;;
      c <- (if ok : bool then mm_get k else ret 0) ;;
      e <- uf u_error ;;
      if negb (e =? 0) then ret (inr tt)
      else r <- passc c ;; ret (if 0 <=? r then inl tt else inr tt)) tt.

Definition mmwrite (dev : Z) : KM unit :=
  if minor dev =? 2 then uset u_count 0
  else
    let k := minor dev =? 1 in
    n <- uf u_count ;;
    loop (S (Z.to_nat n)) (fun _ : unit =>
      e <- uf u_error ;;
      if negb (e =? 0) then ret (inr tt)
      else
        c <- cpass ;;
        if c <? 0 then ret (inr tt)
        else ok <- mmvaloff k ;; when ok (mm_put k c) ;;; ret (inl tt)) tt.

(** ** [/dev/tty] *)

Definition syopen (dev flag : Z) : KM unit :=
  tp <- uf u_ttyp ;;
  match tp with
  | None => set_error ENXIO
  | Some _ => d <- uf u_ttyd ;; sw <- cdevsw_at d ;; cd_open sw d flag
  end.
Definition syread (dev : Z) : KM unit := d <- uf u_ttyd ;; sw <- cdevsw_at d ;; cd_read sw d.
Definition sywrite (dev : Z) : KM unit := d <- uf u_ttyd ;; sw <- cdevsw_at d ;; cd_write sw d.
Definition sysioctl (dev cmd addr flag : Z) : KM unit :=
  d <- uf u_ttyd ;; sw <- cdevsw_at d ;; cd_ioctl sw d cmd addr flag.

End Mem.
