(* ===== verification/Pkmem.v ===== *)
(** * Pkmem: the packet driver's state and its store ([h/pk.h], [dev/pk3.c])

    A connection is a [struct pack] on top of a terminal line.  Connections and
    packets live in blocks of the buffer cache, cut into sixteen units of 32
    bytes with a bit map for each block.  Pointers are addresses here, as the
    code does arithmetic on them; a [struct pack] is a record under its address,
    and what a [char *] points at are the bytes of a block or of the header
    buffer inside the record. *)

From S2P Require Import Prelude Bytes Callout Clist State Utab Sched Bio Rdwri.

Definition HDRSIZ : nat := 6.
Definition NPLINES : nat := 8.
Definition NBLOCKS : nat := 10.
Definition FULL : Z := -1.
Definition XPRI : Z := 30.
Definition B_PBUSY : Z := 2048.
Definition B_PACK : Z := 4096.

(** [struct pack]: [p_ihbuf] and [p_ohbuf] are the six bytes of a [struct
    header] each. *)
Record pack := mkpack {
  p_state : Z; p_bits : Z; p_rsize : Z; p_xsize : Z;                    (* short *)
  p_ihbuf : list Z; p_ohbuf : list Z;
  p_rptr : Z;
  p_mode : Z;
  p_ipool : Z; p_io : Z;
  p_xcount : Z; p_rcount : Z; p_nout : Z; p_tout : Z; p_lpsize : Z; p_timer : Z; p_obusy : Z;
  p_rwindow : Z; p_swindow : Z; p_msg : Z; p_rmsg : Z;
  p_ps : Z; p_pr : Z; p_rpr : Z; p_nxtps : Z; p_imap : Z; p_pscopy : Z; (* char *)
  p_ob : list Z; p_ib : list Z;
  p_os : list Z; p_is : list Z;                                         (* char *)
  p_osum : list Z; p_isum : list Z;                                     (* short *)
  p_ttyp : option nat
}.
#[export] Instance eta_pack : Eta pack := fun r =>
  mkpack (p_state r) (p_bits r) (p_rsize r) (p_xsize r) (p_ihbuf r) (p_ohbuf r) (p_rptr r) (p_mode r) (p_ipool r)
    (p_io r) (p_xcount r) (p_rcount r) (p_nout r) (p_tout r) (p_lpsize r) (p_timer r) (p_obusy r) (p_rwindow r)
    (p_swindow r) (p_msg r) (p_rmsg r) (p_ps r) (p_pr r) (p_rpr r) (p_nxtps r) (p_imap r) (p_pscopy r) (p_ob r)
    (p_ib r) (p_os r) (p_is r) (p_osum r) (p_isum r) (p_ttyp r).

(** [pkzero] of a [struct pack]. *)
Definition zeros (n : nat) : list Z := replicate n 0.
Definition pack0 : pack :=
  mkpack 0 0 0 0 (zeros 6) (zeros 6) 0 0 0 0 0 0 0 0 0 0 0 0 0 0 0 0 0 0 0 0 0 (zeros 8) (zeros 8) (zeros 8) (zeros 8)
    (zeros 8) (zeros 8) None.

(** Where members lie, and the size of the whole. *)
Definition off_ihbuf : Z := 8.
Definition off_ohbuf : Z := 14.
Definition off_ps : Z := 48.
Definition off_pr : Z := 49.
Definition sizeof_pack : Z := 172.

(** The driver's own data; [linep] is the [t_linep] of the terminals. *)
Record pkstate := mkpkstate {
  packs : gmap Z pack; pklines : list Z; maxwindow : Z; npbits : Z; pkdisc : Z; pkzot : Z; timer_on : Z; pkdebug : Z;
  linep : list Z;
  bwaiting : Z; wcount : Z; bufps : list (option bptr); nbase : list Z; nmap : list Z
}.
#[export] Instance eta_pkstate : Eta pkstate := fun r =>
  mkpkstate (packs r) (pklines r) (maxwindow r) (npbits r) (pkdisc r) (pkzot r) (timer_on r) (pkdebug r) (linep r)
    (bwaiting r) (wcount r) (bufps r) (nbase r) (nmap r).

(** The kernel, the driver, and what its interrupts and the other processes do
    to it each time the running process sleeps. *)
Record pkw := mkpkw { kw : world; pk : pkstate; penv : list (pkstate -> pkstate) }.
#[export] Instance eta_pkw : Eta pkw := fun r => mkpkw (kw r) (pk r) (penv r).
Abbreviation PKM := (M pkw).

Definition kern {A} (m : KM A) : PKM A := fun s =>
  let put w := s <| kw := w |> in
  match m (kw s) with
  | Ret a w => Ret a (put w) | Panic msg w => Panic msg (put w) | Longjmp w => Longjmp (put w)
  | Asleep w => Asleep (put w) | Fault => Fault | NoFuel => NoFuel
  end.
Definition dg {A} (f : pkstate -> A) : PKM A := gets (fun s => f (pk s)).
Definition dset {T} (f : pkstate -> T) {S : Setter f} (v : T) : PKM unit :=
  modify (fun s => s <| pk ::= setf f (fun _ => v) |>).
(** [pk->f], [pk->f = v] *)
Definition pget (p : Z) : PKM pack := m <- dg packs ;; the (m !! p).
Definition kf_ {A} (p : Z) (f : pack -> A) : PKM A := r <- pget p ;; ret (f r).
Definition kset_ {T} (p : Z) (f : pack -> T) {S : Setter f} (v : T) : PKM unit :=
  r <- pget p ;; modify (fun s => s <| pk ::= fun d => d <| packs ::= <[p := setf f (fun _ => v) r]> |> |>).
(** [pk->f[i]], [pk->f[i] = v] *)
Definition kat (p : Z) (f : pack -> list Z) (i : Z) : PKM Z :=
  l <- kf_ p f ;; if i <? 0 then fault else the (l !! Z.to_nat i).
Definition kput (p : Z) (f : pack -> list Z) {S : Setter f} (i v : Z) : PKM unit :=
  kat p f i ;;; l <- kf_ p f ;; kset_ p f (<[Z.to_nat i := v]> l).
(** [pk->p_state |= m] and the like, on a [short] and on a [char]. *)
Definition st_or (p m : Z) : PKM unit := v <- kf_ p p_state ;; kset_ p p_state (s16 (Z.lor v m)).
Definition st_clr (p m : Z) : PKM unit := v <- kf_ p p_state ;; kset_ p p_state (s16 (clr v m)).
Definition pdel (p : Z) : PKM unit := modify (fun s => s <| pk ::= fun d => d <| packs ::= delete p |> |>).
Definition st_has (p m : Z) : PKM bool := v <- kf_ p p_state ;; ret (v &? m).
Definition msg_or (p m : Z) : PKM unit := v <- kf_ p p_msg ;; kset_ p p_msg (s8 (Z.lor v m)).

Section Pkmem.
Context {MC : Machine}.

(** [sleep]: while the process is away the driver's state changes too. *)
Definition pksleep (c : Z) (pri : Z) : PKM unit :=
  kern (sleep (CRaw c) pri) ;;;
  modify (fun s => match penv s with [] => s | f :: l => s <| pk ::= f |> <| penv := l |> end).
Definition pkwakeup (c : Z) : PKM unit := kern (wakeup (CRaw c)).

(** [&bwaiting], the event of those waiting for room. *)
Context (at_bwaiting : Z).

(** ** [pk3.c] *)

(** [char log[]] *)
Definition pklog : list Z := [0; 0; 1; 1; 2; 2; 2; 2; 3; 3; 3; 3; 3; 3; 3; 3; 4].

(** [dtom]: as many bits as units of 32 bytes. *)
Definition dtom (d : Z) : PKM Z :=
  loop (S (Z.to_nat (d / 32))) (fun x : Z * Z =>
    let '(d, m) := x in
    ret (if 32 <? d then inl (d - 32, Z.lor m (s32 (m + 1))) else inr m)) (d, 1).

(** One unit: the first bit of the map that is not set, [offset] found by its
    logarithm. *)
Definition one_unit (m : Z) : PKM (Z * Z) :=
  let m' := Z.lor m (s32 (m + 1)) in
  let n := u32 (m' - m) in
  x <- loop 9 (fun x : Z * Z =>
         let '(n, offset) := x in
         ret (if 16 <? n then inl (Z.shiftr n 4, offset + 4) else inr (n, offset))) (n, 0) ;;
  let '(n, offset) := x in
  l <- the (pklog !! Z.to_nat n) ;;
  ret (m', offset + l).

(** [for(n=17; --n; bits <<= 1) if((m&bits)==0) goto found;]: the offset and
    the bits, or the bits as the loop leaves them. *)
Definition shift_bits (m bits : Z) : PKM (Z * Z + Z) :=
  loop 17 (fun x : Z * Z =>
    let '(n, bits) := x in
    let n := n - 1 in
    ret (if n =? 0 then inr (inr bits)
         else if Z.land m bits =? 0 then inr (inl (16 - n, bits))
         else inl (n, s32 (Z.shiftl bits 1)))) (17, bits).

(** Block [i] in the search: an address found, or [bits] for the next. *)
Definition try_block (savbits bits : Z) (i : nat) : PKM (Z + Z) :=
  map <- dg nmap ;; base <- dg nbase ;;
  m <- the (map !! i) ;; b <- the (base !! i) ;;
  if (m =? FULL) || (b =? 0) then ret (inr bits)
  else
    let take m offset := dset nmap (<[i := s16 m]> map) ;;; ret (inl (b + 32 * offset)) in
    if bits =? 1 then x <- one_unit m ;; let '(m, offset) := x in take m offset
    else
      r <- shift_bits m savbits ;;
      match r with
      | inl (offset, bits) => take (Z.lor m bits) offset
      | inr bits => ret (inr bits)
      end.

(** Another block from the cache, in the first free place. *)
Definition new_block (bits : Z) : PKM (option Z) :=
  for_find (seq 0 NBLOCKS) (fun i =>
    l <- dg bufps ;; o <- the (l !! i) ;;
    match o with
    | Some _ => ret None
    | None =>
        bp <- kern geteblk ;;
        l <- dg bufps ;; dset bufps (<[i := Some bp]> l) ;;;
        kern (bor bp B_PACK) ;;;
        kern (bor bp B_PBUSY) ;;;
        map <- dg nmap ;; dset nmap (<[i := s16 bits]> map) ;;;
        let a := core_addr bp 0 in
        base <- dg nbase ;; dset nbase (<[i := a]> base) ;;;
        ret (Some a)
    end).

Definition getepack_round (savbits bits : Z) : PKM (Z + Z) :=
  r <- (if bits =? FULL then ret (inr bits)
        else
          loop (S NBLOCKS) (fun x : nat * Z =>
            let '(i, bits) := x in
            if Nat.eqb i NBLOCKS then ret (inr (inr bits))
            else
              r <- try_block savbits bits i ;;
              ret (match r with inl a => inr (inl a) | inr bits => inl (S i, bits) end)) (0%nat, bits)) ;;
  match r with
  | inl a => ret (inr a)
  | inr bits =>
      o <- new_block bits ;;
      match o with
      | Some a => ret (inr a)
      | None =>
          b <- dg bwaiting ;; dset bwaiting (s32 (b + 1)) ;;;
          c <- dg wcount ;; dset wcount (s32 (c + 1)) ;;;
          pksleep at_bwaiting XPRI ;;;
          b <- dg bwaiting ;; dset bwaiting (s32 (b - 1)) ;;;
          ret (inl bits)
      end
  end.

Definition getepack (bits : Z) : PKM Z :=
  s <- kern spl6 ;;
  n <- gets (fun s => length (penv s)) ;;
  a <- loop (S n) (getepack_round bits) bits ;;
  kern (splx s) ;;;
  ret a.

(** Giving back the units [bits] at [p]: the block found first is the first
    whose base is at most 512 below. *)
Definition freepack (p bits : Z) : PKM unit :=
  if p =? 0 then ret tt
  else
    s <- kern spl6 ;;
    base <- dg nbase ;;
    (match list_find (fun b => 0 <= p - b <= 512) base with
     | None => ret tt
     | Some (i, b) =>
         let d := Z.shiftl bits (Z.shiftr (p - b) 5) in
         map <- dg nmap ;; m <- the (map !! i) ;;
         let m := s16 (clr m (s32 d)) in
         dset nmap (<[i := m]> map) ;;;
         when (m =? 0)
           (l <- dg bufps ;; o <- the (l !! i) ;; bp <- the o ;;
            kern (bclr bp B_PBUSY) ;;;
            base <- dg nbase ;; dset nbase (<[i := 0]> base) ;;;
            l <- dg bufps ;; dset bufps (<[i := None]> l) ;;;
            kern (brelse bp)) ;;;
         b <- dg bwaiting ;;
         when (tst b) (pkwakeup at_bwaiting)
     end) ;;;
    kern (splx s).

(** ** Bytes and pointers in packets *)

(** The block in which [n] bytes from [a] lie, with the offset.  Bytes outside
    the blocks are a wild access, and so are those of a connection: the code
    would change one without noticing. *)
Definition clear_of (a n : Z) (p : Z) : Prop := a + n <= p \/ p + sizeof_pack <= a.
#[export] Instance clear_of_dec a n p : Decision (clear_of a n p) := ltac:(unfold clear_of; apply _).
Definition locate (a n : Z) : PKM (bptr * Z) :=
  base <- dg nbase ;; l <- dg bufps ;; m <- dg packs ;;
  if decide (Forall (fun x => clear_of a n x.1) (map_to_list m)) then
    match list_find (fun b => b <> 0 /\ b <= a /\ a + n <= b + 512) base with
    | None => fault
    | Some (i, b) => o <- the (l !! i) ;; bp <- the o ;; ret (bp, a - b)
    end
  else fault.
Definition mem_read (a : Z) (n : nat) : PKM (list Z) :=
  x <- locate a (Z.of_nat n) ;; let '(bp, off) := x in
  l <- kern (bf bp b_data) ;;
  if Nat.leb (Z.to_nat off + n) (length l) then ret (sub (Z.to_nat off) n l) else fault.
Definition mem_write (a : Z) (new : list Z) : PKM unit :=
  x <- locate a (Z.of_nat (length new)) ;; let '(bp, off) := x in
  l <- kern (bf bp b_data) ;;
  if Nat.leb (Z.to_nat off + length new) (length l) then kern (bset bp b_data (splice (Z.to_nat off) new l)) else fault.
Definition mem_get (a : Z) : PKM Z := l <- mem_read a 1 ;; c <- the (l !! 0%nat) ;; ret (s8 c).
Definition mem_put (a c : Z) : PKM unit := mem_write a [u8 c].
(** A pointer in a packet: [*bp] of a [char **bp], [*bp = (char * )v]. *)
Definition ptr_get (a : Z) : PKM Z := l <- mem_read a 4 ;; ret (u32 (leval l)).
Definition ptr_put (a v : Z) : PKM unit := mem_write a (bytes_of 4 v).

(** [*cp], [*cp = c] where [cp] points into the header buffer of connection [p]
    or into a packet. *)
Definition in_ihbuf (p a : Z) : bool := (p + off_ihbuf <=? a) && (a <? p + off_ihbuf + Z.of_nat HDRSIZ).
Definition char_get (p a : Z) : PKM Z :=
  if in_ihbuf p a then kat p p_ihbuf (a - (p + off_ihbuf)) else mem_get a.
Definition char_put (p a c : Z) : PKM unit :=
  if in_ihbuf p a then kput p p_ihbuf (a - (p + off_ihbuf)) (s8 c) else mem_put a c.

(** [*bp = pk->p_ipool; pk->p_ipool = bp;] and back. *)
Definition pool_put (p bp : Z) : PKM unit :=
  v <- kf_ p p_ipool ;; ptr_put bp v ;;; kset_ p p_ipool bp.

(** [iomove(cp, cc, flag)] *)
Definition pkmove (a n flag : Z) : PKM unit :=
  let n := u32 n in
  if n =? 0 then ret tt else x <- locate a n ;; let '(bp, off) := x in kern (iomove bp off n flag).
End Pkmem.
