(* ===== verification/Prf.v ===== *)
(** * Prf: printing on the console ([sys/prf.c])

    The characters go to the console through [putchar]; here they are the
    list the routines append to.  The other models print whole messages
    ([State.printf], [State.prdev]), since nothing depends on their text. *)

From Stdlib Require Import Ascii.
From S2P Require Import Prelude Bytes State.

Abbreviation PM := (M (list ascii)).
Definition putchar (c : ascii) : PM unit := modify (fun o => o ++ [c]).

(** "0123456789ABCDEF"[d] *)
Definition digit (d : Z) : option ascii :=
  String.get (Z.to_nat d) "0123456789ABCDEF".

(** [printn(n, b)]: [n] and [a] are unsigned, so that [n<0] never holds.
    Each call divides by a base of at least 2. *)
Fixpoint printn_n (fuel : nat) (n b : Z) : PM unit :=
  match fuel with
  | O => nofuel
  | S fuel =>
      let a := n / b in
      (if tst a then printn_n fuel a b else ret tt) ;;;
      c <- the (digit (n mod b)) ;;
      putchar c
  end.
Definition printn (n b : Z) : PM unit := printn_n 32 (u32 n) b.

(** The arguments of [printf]: numbers, and strings for [%s]. *)
Inductive parg := PNum (v : Z) | PStr (s : list ascii).

Definition is_char (c : ascii) (s : string) : bool :=
  match s with String d EmptyString => bool_decide (c = d) | _ => false end.

(** [printf(fmt, x1, ...)]; the next argument goes with each [%]. *)
Fixpoint printf_go (fmt : list ascii) (args : list parg) : PM unit :=
  match fmt with
  | [] => ret tt
  | c :: fmt =>
      if is_char c "%" then
        match fmt with
        | [] => fault
        | k :: fmt =>
            (if is_char k "d" then
               match args with
               | PNum v :: _ =>
                   if s32 v <? 0 then putchar "-"%char ;;; printn (- s32 v) 10 else printn (s32 v) 10
               | _ => fault
               end
             else if is_char k "u" then match args with PNum v :: _ => printn v 10 | _ => fault end
             else if is_char k "o" then match args with PNum v :: _ => printn v 8 | _ => fault end
             else if is_char k "x" then match args with PNum v :: _ => printn v 16 | _ => fault end
             else if is_char k "s" then
               match args with PStr s :: _ => for_ s putchar | _ => fault end
             else if is_char k "D" then match args with PNum v :: _ => printn v 10 | _ => fault end
             else ret tt) ;;;
            printf_go fmt (tail args)
        end
      else putchar c ;;; printf_go fmt args
  end.
Fixpoint chars (s : string) : list ascii :=
  match s with EmptyString => [] | String c s => c :: chars s end.
Definition cprintf (fmt : string) (args : list parg) : PM unit := printf_go (chars fmt) args.

(** "%s on dev %u/%u\n" and "bn=%D er=%o,%o\n" *)
Definition newline : string := String (ascii_of_nat 10) EmptyString.
Definition cprdev (str : list ascii) (dev : Z) : PM unit :=
  cprintf ("%s on dev %u/%u" ++ newline) [PStr str; PNum (major dev); PNum (minor dev)].
Definition deverror (b : buf) (o1 o2 : Z) : PM unit :=
  cprdev (chars "err") (b_dev b) ;;;
  cprintf ("bn=%D er=%o,%o" ++ newline) [PNum (b_blkno b); PNum o1; PNum o2].
