(* ===== verification/Tty.v ===== *)
(** * Tty: terminals ([dev/tty.c], [dev/partab.c], and the stand-ins of
      [sys/fakemx.c] for multiplexed channels)

    A terminal is an index into the table of [struct tty]s.  Its three queues
    are heads of chains of the common cblocks, so a routine of [prim.c] runs
    on the cblocks together with the queue it is given.  The driver's routines
    ([t_oproc], [d_stop]) are the machine's. *)

From S2P Require Import Prelude Clist Bytes State Utab Sched Bio Rdwri Fio SysFile Inode.

Definition TTIPRI : Z := 28.
Definition TTOPRI : Z := 29.
Definition CERASE : Z := 35.       (* '#' *)
Definition CEOT : Z := 4.
Definition CKILL : Z := 64.        (* '@' *)
Definition CQUIT : Z := 28.
Definition CINTR : Z := 127.
Definition CSTOP : Z := 19.
Definition CSTART : Z := 17.
Definition CBRK : Z := 255.
Definition TTHIWAT : Z := 100.
Definition TTLOWAT : Z := 50.
Definition TTYHOG : Z := 256.
Definition CANBSIZ : nat := 256.

Definition TANDEM : Z := 1.
Definition CBREAK : Z := 2.
Definition LCASE : Z := 4.
Definition ECHO : Z := 8.
Definition CRMOD : Z := 16.
Definition RAW : Z := 32.
Definition TBDELAY : Z := 3072.
Definition XTABS : Z := 3072.
Definition VTDELAY : Z := 16384.

Definition TIMEOUT : Z := 1.
Definition WOPEN : Z := 2.
Definition ISOPEN : Z := 4.
Definition CARR_ON : Z := 16.
Definition BUSY : Z := 32.
Definition ASLEEP : Z := 64.
Definition XCLUDE : Z := 128.
Definition TTSTOP : Z := 256.
Definition HUPCLS : Z := 512.
Definition TBLOCK : Z := 1024.

Definition TIOCGETD : Z := 29696.  (* 't'<<8 *)
Definition TIOCSETD : Z := 29697.
Definition TIOCHPCL : Z := 29698.
Definition TIOCGETP : Z := 29704.
Definition TIOCSETP : Z := 29705.
Definition TIOCSETN : Z := 29706.
Definition TIOCEXCL : Z := 29709.
Definition TIOCNXCL : Z := 29710.
Definition TIOCFLUSH : Z := 29712.
Definition TIOCSETC : Z := 29713.
Definition TIOCGETC : Z := 29714.
Definition DIOCGETP : Z := 25608.  (* 'd'<<8 | 8 *)
Definition DIOCSETP : Z := 25609.
Definition FIOCLEX : Z := 26113.   (* 'f'<<8 | 1 *)
Definition FIONCLEX : Z := 26114.

(** The table of escapes typed after a backslash: [maptab[041] = '|'],
    [maptab[047] = '`'], [maptab[050] = '{'], [maptab[051] = '}'],
    [maptab[0136] = '~'] and the letters. *)
Definition maptab : list Z :=
  replicate 33 0 ++ [124] ++ replicate 5 0 ++ [96; 123; 125] ++ replicate 52 0 ++ [126; 0; 0] ++
  map (fun i => 65 + Z.of_nat i) (seq 0 26) ++ replicate 5 0.

(** What a character does to the column, in the low six bits. *)
Definition partab : list Z := map s8
  [1; 129; 129; 1; 129; 1; 1; 129;       130; 4; 3; 129; 5; 134; 129; 1;
   129; 1; 1; 129; 1; 129; 129; 1;       1; 129; 129; 1; 129; 1; 1; 129;
   128; 0; 0; 128; 0; 128; 128; 0;       0; 128; 128; 0; 128; 0; 0; 128;
   0; 128; 128; 0; 128; 0; 0; 128;       128; 0; 0; 128; 0; 128; 128; 0;
   128; 0; 0; 128; 0; 128; 128; 0;       0; 128; 128; 0; 128; 0; 0; 128;
   0; 128; 128; 0; 128; 0; 0; 128;       128; 0; 0; 128; 0; 128; 128; 0;
   0; 128; 128; 0; 128; 0; 0; 128;       128; 0; 0; 128; 0; 128; 128; 0;
   128; 0; 0; 128; 0; 128; 128; 0;       0; 128; 128; 0; 128; 0; 0; 129].

(** A routine of [prim.c] on one of a terminal's queues. *)
Definition onq {A} (tp : nat) (fq : tty -> clist) {S : Setter fq} (m : CM A) : KM A := fun w =>
  match ttys (ks w) !! tp with
  | None => Fault
  | Some t =>
      let put c := w <| ks ::= fun k =>
        k <| cl := c |> <| pl := Clist.pl c |> <| ttys ::= <[tp := setf fq (fun _ => q c) t]> |> |> in
      match m ((cl (ks w)) <| Clist.pl := pl (ks w) |> <| q := fq t |>) with
      | Ret a c => Ret a (put c)
      | Panic msg c => Panic msg (put c)
      | Longjmp c => Longjmp (put c)
      | Asleep c => Asleep (put c)
      | Fault => Fault
      | NoFuel => NoFuel
      end
  end.

(** [tp->t_state |= m], [tp->t_state &= ~m]; a character of [struct tc]. *)
Definition tor (tp : nat) (m : Z) : KM unit := s <- tf tp t_state ;; tset tp t_state (s16 (Z.lor s m)).
Definition tclr (tp : nat) (m : Z) : KM unit := s <- tf tp t_state ;; tset tp t_state (s16 (clr s m)).
Definition thas (tp : nat) (m : Z) : KM bool := s <- tf tp t_state ;; ret (s &? m).
Definition tcc (tp i : nat) : KM Z := l <- tf tp t_tc ;; the (l !! i).
Definition t_intrc := 0%nat.
Definition t_quitc := 1%nat.
Definition t_startc := 2%nat.
Definition t_stopc := 3%nat.
Definition t_eofc := 4%nat.
Definition t_brkc := 5%nat.
Definition qcount (tp : nat) (fq : tty -> clist) : KM Z := tf tp (fun t => c_cc (fq t)).

(** [while (getc(q) >= 0);] *)
Definition drain (tp : nat) (fq : tty -> clist) {S : Setter fq} : KM unit :=
  n <- qcount tp fq ;;
  loop (Datatypes.S (Z.to_nat n)) (fun _ : unit =>
    c <- onq tp fq getc ;; ret (if 0 <=? c then inl tt else inr tt)) tt.

(** ** [fakemx.c] *)

Definition sdata : KM unit := ret tt.
Definition scontrol : KM unit := ret tt.
Definition mcttstart : KM unit := ret tt.
Definition mcstart : KM unit := ret tt.
Definition mpxchan : KM unit := set_error EINVAL.

Section Tty.
Context {MC : Machine}.

(** ** Opening and flushing *)

Definition ttyopen (dev : Z) (tp : nat) : KM unit :=
  pp <- uf u_procp ;;
  tset tp t_dev dev ;;;
  pg <- pf pp p_pgrp ;;
  when (pg =? 0)
    (uset u_ttyp (Some tp) ;;; uset u_ttyd dev ;;;
     tg <- tf tp t_pgrp ;;
     when (tg =? 0) (pid <- pf pp p_pid ;; tset tp t_pgrp pid) ;;;
     tg <- tf tp t_pgrp ;; pset pp p_pgrp tg) ;;;
  tclr tp WOPEN ;;;
  tor tp ISOPEN.

Definition ttychars (tp : nat) : KM unit :=
  tset tp t_tc [CINTR; CQUIT; CSTART; CSTOP; CEOT; s8 CBRK] ;;;
  tset tp t_erase CERASE ;;;
  tset tp t_kill CKILL.

Definition d_stop (tp : nat) : KM unit :=
  dev <- tf tp t_dev ;; d <- cdevsw_at dev ;; cd_stop d tp.

Definition flushtty (tp : nat) : KM unit :=
  drain tp t_canq ;;;
  wakeup (CRawq tp) ;;;
  wakeup (COutq tp) ;;;
  s <- spl6 ;;
  tclr tp TTSTOP ;;;
  d_stop tp ;;;
  drain tp t_outq ;;;
  drain tp t_rawq ;;;
  tset tp t_delct 0 ;;;
  splx s.

Definition wflushtty (tp : nat) : KM unit :=
  spl5 ;;;
  n <- rounds ;;
  loop n (fun _ : unit =>
    k <- qcount tp t_outq ;; on <- thas tp CARR_ON ;;
    if tst k && on then
      t_oproc tp ;;; tor tp ASLEEP ;;; sleep (COutq tp) TTOPRI ;;; ret (inl tt)
    else ret (inr tt)) tt ;;;
  flushtty tp ;;;
  spl0.

Definition ttyclose (tp : nat) : KM unit :=
  tset tp t_pgrp 0 ;;; wflushtty tp ;;; tset tp t_state 0.

(** ** Starting output *)

Definition ttstart (tp : nat) : KM unit :=
  s <- spl 5 ;;
  b <- thas tp (Z.lor (Z.lor TIMEOUT TTSTOP) BUSY) ;;
  when (negb b) (t_oproc tp) ;;;
  splx s.
Definition ttrstrt (tp : nat) : KM unit := tclr tp TIMEOUT ;;; ttstart tp.

(** ** Output *)

(** The pairs of the string of upper-case-only terminals: a character, and
    the one it is shown as after a backslash. *)
Definition lcase_pairs : list (Z * Z) :=
  [(123, 40); (125, 41); (124, 33); (126, 94); (96, 39)].

(** The delay after a character and the column it leaves, from the kind in
    [partab]; [fl] is [t_flags]. *)
Definition delay (kind fl col : Z) : Z * Z :=
  let k := Z.land kind 63 in
  if k =? 0 then (0, s8 (col + 1))
  else if k =? 2 then (0, if tst col then s8 (col - 1) else col)
  else if k =? 3 then
    let t := Z.land (Z.shiftr fl 8) 3 in
    (if t =? 1 then if tst col then Z.max (Z.shiftr (u32 col) 4 + 3) 6 else 0
     else if t =? 2 then 6 else 0, 0)
  else if k =? 4 then
    (if Z.land (Z.shiftr fl 10) 3 =? 1 then
       let c := 1 - Z.lor col (-8) in if c <? 5 then 0 else c
     else 0, s8 (s8 (Z.lor col 7) + 1))
  else if k =? 5 then (if fl &? VTDELAY then 127 else 0, col)
  else if k =? 6 then
    let t := Z.land (Z.shiftr fl 12) 3 in
    (if t =? 1 then 5 else if t =? 2 then 10 else 0, 0)
  else (0, col).

(** Spaces up to the next tab stop. *)
Definition tab_loop (out : KM unit) (tp : nat) : KM unit :=
  loop 9 (fun c =>
    out ;;;
    col <- tf tp t_col ;;
    ret (if (0 <=? c - 1) && (col &? 7) then inl (c - 1) else inr tt)) 8.

(** The escape of an upper-case-only terminal: the character to go on with. *)
Definition escape (out : KM unit) (c : Z) : KM Z :=
  c <- match list_find (fun p : Z * Z => p.1 = c) lcase_pairs with
       | Some (_, (_, r)) => out ;;; ret r
       | None => ret c
       end ;;
  ret (if (97 <=? c) && (c <=? 122) then c - 32 else c).

(** [ttyoutput(c, tp)]: it calls itself for the spaces of a tab, the
    backslash of an escape and the return before a new line, which call no
    further. *)
Fixpoint ttyoutput_n (fuel : nat) (c : Z) (tp : nat) : KM unit :=
  match fuel with
  | O => nofuel
  | S fuel =>
      n <- kf tk_nout ;; kset tk_nout (s32 (n + 1)) ;;;
      fl <- tf tp t_flags ;;
      if fl &? RAW then onq tp t_outq (putc c) ;;; ret tt
      else
        let c := Z.land c 127 in
        if c =? CEOT then ret tt
        else if (c =? 9) && (Z.land fl TBDELAY =? XTABS) then
          tab_loop (ttyoutput_n fuel 32 tp) tp
        else
          c <- (if fl &? LCASE then escape (ttyoutput_n fuel 92 tp) c else ret c) ;;
          when ((c =? 10) && (fl &? CRMOD)) (ttyoutput_n fuel 13 tp) ;;;
          onq tp t_outq (putc c) ;;;
          kind <- the (partab !! Z.to_nat c) ;;
          fl <- tf tp t_flags ;;
          col <- tf tp t_col ;;
          let '(d, col') := delay kind fl col in
          tset tp t_col col' ;;;
          when (tst d) (onq tp t_outq (putc (Z.lor d 128)) ;;; ret tt)
  end.
Definition ttyoutput (c : Z) (tp : nat) : KM unit := ttyoutput_n 2 c tp.

(** ** Input *)

Definition ttyblock (tp : nat) : KM unit :=
  n1 <- qcount tp t_rawq ;; n2 <- qcount tp t_canq ;;
  when (TTYHOG <? n1) (flushtty tp ;;; tclr tp TBLOCK) ;;;
  when (TTYHOG / 2 <=? n1 + n2)
    (c <- tcc tp t_stopc ;;
     r <- onq tp t_outq (putc c) ;;
     when (r =? 0)
       (tor tp TBLOCK ;;; n <- tf tp t_char ;; tset tp t_char (s8 (n + 1)) ;;; ttstart tp)).

(** The characters acted on as they are typed: [None] is a return. *)
Definition input_control (c : Z) (tp : nat) : KM (option Z) :=
  let c := Z.land c 127 in
  startc <- tcc tp t_startc ;; stopc <- tcc tp t_stopc ;;
  stopped <- thas tp TTSTOP ;;
  go <- (if stopped : bool then
           if c =? startc then tclr tp TTSTOP ;;; ttstart tp ;;; ret false
           else if c =? stopc then ret false
           else tclr tp TTSTOP ;;; ttstart tp ;;; ret true
         else if c =? stopc then tor tp TTSTOP ;;; d_stop tp ;;; ret false
         else ret (negb (c =? startc))) ;;
  if negb go then ret None
  else
    quitc <- tcc tp t_quitc ;; intrc <- tcc tp t_intrc ;;
    if (c =? quitc) || (c =? intrc) then
      flushtty tp ;;;
      intrc <- tcc tp t_intrc ;;
      let sig := if c =? intrc then SIGINT else SIGQUIT in
      ch <- tf tp t_chan ;;
      (if ch : bool then scontrol else pg <- tf tp t_pgrp ;; signal pg sig) ;;;
      ret None
    else ret (Some c).

(** Queue the character, its delimiter if it ends a line, and echo it;
    [fl] is the flags as they were. *)
Definition input_queue (c fl : Z) (tp : nat) : KM unit :=
  let cooked := negb (fl &? Z.lor RAW CBREAK) in
  let c := if (fl &? LCASE) && (65 <=? c) && (c <=? 90) then c + 32 else c in
  onq tp t_rawq (putc c) ;;;
  eofc <- tcc tp t_eofc ;; brkc <- tcc tp t_brkc ;;
  when (negb cooked || (c =? 10) || (c =? eofc) || (c =? brkc))
    (when cooked
       (r <- onq tp t_rawq (putc 255) ;;
        when (r =? 0) (n <- tf tp t_delct ;; tset tp t_delct (s8 (n + 1)))) ;;;
     ch <- tf tp t_chan ;;
     if ch : bool then sdata else wakeup (CRawq tp)) ;;;
  when (fl &? ECHO)
    (ttyoutput c tp ;;;
     k <- tf tp t_kill ;;
     when ((c =? k) && cooked) (ttyoutput 10 tp) ;;;
     ttstart tp).

Definition ttyinput (c : Z) (tp : nat) : KM unit :=
  n <- kf tk_nin ;; kset tk_nin (s32 (n + 1)) ;;;
  let c := Z.land c 255 in
  fl <- tf tp t_flags ;;
  when (fl &? TANDEM) (ttyblock tp) ;;;
  o <- (if fl &? RAW then ret (Some c)
        else
          o <- input_control c tp ;;
          ret ((fun c => if (c =? 13) && (fl &? CRMOD) then 10 else c) <$> o)) ;;
  match o with
  | None => ret tt
  | Some c =>
      n <- qcount tp t_rawq ;;
      if TTYHOG <? n then flushtty tp else input_queue c fl tp
  end.

(** [ttyrend(tp, pb, pe)]: [buf] is the characters from [pb] to [pe]. *)
Definition ttyrend (tp : nat) (buf : list Z) : KM unit :=
  fl <- tf tp t_flags ;;
  let tandem := Z.land fl TANDEM in
  (if fl &? RAW then
     onq tp t_rawq (b_to_q buf) ;;;
     ch <- tf tp t_chan ;;
     if ch : bool then sdata else wakeup (CRawq tp)
   else
     tset tp t_flags (s16 (clr fl TANDEM)) ;;;
     for_ buf (fun c => ttyinput c tp) ;;;
     fl <- tf tp t_flags ;; tset tp t_flags (s16 (Z.lor fl tandem))) ;;;
  when (tst tandem) (ttyblock tp).

(** ** Reading *)

(** [*bp++ = c] in [canonb], the line so far in reverse order; the two
    characters before the line are never stored into and are 0. *)
Definition canon_put (rb : list Z) (c : Z) : list Z + list Z :=
  let rb := s8 c :: rb in
  if Nat.leb CANBSIZ (2 + length rb) then inr rb else inl rb.

(** A character in the middle of a cooked line. *)
Definition canon_char (t : tty) (eofc : Z) (rb : list Z) (c : Z) : option (list Z + list Z) :=
  if negb (nth 0 rb 0 =? 92) then
    Some (if c =? t_erase t then inl (tail rb)
          else if c =? t_kill t then inl []
          else if c =? eofc then inl rb
          else canon_put rb c)
  else
    maptab !! Z.to_nat c ≫= fun mc =>
    let mc := if (c =? t_erase t) || (c =? t_kill t) then c else mc in
    Some (if tst mc && ((mc =? c) || (t_flags t &? LCASE)) then
            canon_put (tail rb) (if negb (nth 1 rb 0 =? 92) then mc else c)
          else canon_put rb c).

Definition canon_step (tp : nat) (rb : list Z) : KM (list Z + list Z) :=
  c <- onq tp t_rawq getc ;;
  if c <? 0 then ret (inr rb)
  else
    t <- tget ttys tp ;;
    if t_flags t &? Z.lor RAW CBREAK then ret (canon_put rb c)
    else if c =? 255 then tset tp t_delct (s8 (t_delct t - 1)) ;;; ret (inr rb)
    else
      eofc <- tcc tp t_eofc ;;
      the (canon_char t eofc rb c).

(** The wait for a line, or for a character; [false] is the return of 0. *)
Definition canon_wait (tp : nat) : KM bool :=
  n <- rounds ;;
  loop n (fun _ : unit =>
    t <- tget ttys tp ;;
    let cooked := negb (t_flags t &? Z.lor RAW CBREAK) in
    if if cooked then t_delct t =? 0 else c_cc (t_rawq t) =? 0 then
      if negb (t_state t &? CARR_ON) || t_chan t then ret (inr false)
      else sleep (CRawq tp) TTIPRI ;;; ret (inl tt)
    else ret (inr true)) tt.

Definition canon (tp : nat) : KM Z :=
  spl5 ;;;
  go <- canon_wait tp ;;
  if negb go then ret 0
  else
    spl0 ;;;
    n <- qcount tp t_rawq ;;
    rb <- loop (S (Z.to_nat n)) (canon_step tp) [] ;;
    onq tp t_canq (b_to_q (reverse rb)) ;;;
    blk <- thas tp TBLOCK ;;
    n <- qcount tp t_rawq ;;
    when (blk && (n <? TTYHOG / 5))
      (c <- tcc tp t_startc ;;
       r <- onq tp t_outq (putc c) ;;
       when (r =? 0) (tclr tp TBLOCK ;;; ttstart tp) ;;;
       tset tp t_char 0) ;;;
    ret (Z.of_nat (length rb)).

Definition ttread (tp : nat) : KM Z :=
  on <- thas tp CARR_ON ;;
  if negb on then ret 0
  else
    n <- qcount tp t_canq ;;
    some <- (if tst n then ret true else k <- canon tp ;; ret (tst k)) ;;
    when some
      (n <- qcount tp t_canq ;;
       loop (S (Z.to_nat n)) (fun _ : unit =>
         n <- qcount tp t_canq ;;
         if tst n then
           c <- onq tp t_canq getc ;; r <- passc c ;; ret (if 0 <=? r then inl tt else inr tt)
         else ret (inr tt)) tt) ;;;
    n1 <- qcount tp t_rawq ;; n2 <- qcount tp t_canq ;;
    ret (n1 + n2).

(** ** Writing *)

(** The wait for room; [true] is the return of the queue's address, to a
    multiplexed channel. *)
Definition write_room (tp : nat) : KM bool :=
  n <- rounds ;;
  loop n (fun _ : unit =>
    k <- qcount tp t_outq ;;
    if TTHIWAT <? k then
      ttstart tp ;;;
      k <- qcount tp t_outq ;;
      if k =? 0 then ret (inr false)
      else
        tor tp ASLEEP ;;;
        ch <- tf tp t_chan ;;
        if ch : bool then ret (inr true) else sleep (COutq tp) TTOPRI ;;; ret (inl tt)
    else ret (inr false)) tt.

(** [ttwrite(tp)]: whether it returns [&tp->t_outq] rather than NULL. *)
Definition ttwrite (tp : nat) : KM bool :=
  on <- thas tp CARR_ON ;;
  if negb on then ret false
  else
    n <- uf u_count ;;
    full <- loop (S (Z.to_nat n)) (fun _ : unit =>
      n <- uf u_count ;;
      if n =? 0 then ret (inr false)
      else
        spl5 ;;;
        r <- write_room tp ;;
        if r : bool then ret (inr true)
        else
          spl0 ;;;
          c <- cpass ;;
          if c <? 0 then ret (inr false) else ttyoutput c tp ;;; ret (inl tt)) tt ;;
    if full : bool then ret true else ttstart tp ;;; ret false.

(** ** Control *)

Definition ioctl : KM unit :=
  fdes <- arg 0 ;;
  o <- getf fdes ;;
  match o with
  | None => ret tt
  | Some fp =>
      cmd <- arg 1 ;;
      if cmd =? FIOCLEX then
        umod (fun r => r <| u_pofile ::= alter (fun c => s8 (Z.lor c EXCLOSE)) (Z.to_nat fdes) |>)
      else if cmd =? FIONCLEX then
        umod (fun r => r <| u_pofile ::= alter (fun c => s8 (clr c EXCLOSE)) (Z.to_nat fdes) |>)
      else
        ip <- ff fp f_inode ;;
        r <- tget inodes ip ;;
        let fmt := ifmt (i_mode r) in
        if negb (fmt =? IFCHR) && negb (fmt =? IFMPC) then set_error ENOTTY
        else
          let dev := s16 (i_rdev r) in
          d <- cdevsw_at dev ;;
          a <- arg 2 ;;
          fl <- ff fp f_flag ;;
          cd_ioctl d dev cmd a fl
  end.
Definition stty : KM unit :=
  a <- arg 1 ;; set_arg 2 a ;;; set_arg 1 TIOCSETP ;;; ioctl.
Definition gtty : KM unit :=
  a <- arg 1 ;; set_arg 2 a ;;; set_arg 1 TIOCGETP ;;; ioctl.

(** [struct ttiocb] *)
Definition ttiocb_bytes (t : tty) : list Z :=
  bytes_of 1 (t_ispeed t) ++ bytes_of 1 (t_ospeed t) ++ bytes_of 1 (t_erase t) ++
  bytes_of 1 (t_kill t) ++ bytes_of 4 (t_flags t).
Definition ttiocb_set (l : list Z) (t : tty) : tty :=
  t <| t_ispeed := rdf (fld 0 CS8) l |> <| t_ospeed := rdf (fld 1 CS8) l |>
    <| t_erase := rdf (fld 2 CS8) l |> <| t_kill := rdf (fld 3 CS8) l |>
    <| t_flags := s16 (rdf (fld 4 CS32) l) |>.

Definition set_params (tp : nat) (addr : Z) : KM unit :=
  k <- kf (fun k => k) ;;
  let '(l, ok) := copyin k (u32 addr) 8 in
  if ok : bool then tmod ttys tp (ttiocb_set l) else set_error EFAULT.

(** The change of a line's discipline. *)
Definition set_ldisc (tp : nat) (addr dev : Z) : KM unit :=
  k <- kf (fun k => k) ;;
  let '(l, ok) := copyin k (u32 addr) 4 in
  if negb ok then set_error EFAULT
  else
    let t := leval l in
    if Z.of_nat (length linesw) <=? t then set_error ENXIO
    else
      old <- tf tp t_line ;;
      when (tst old) (d <- the (linesw !! Z.to_nat old) ;; l_close d tp) ;;;
      when (tst t) (d <- the (linesw !! Z.to_nat t) ;; l_open d dev tp addr) ;;;
      e <- uf u_error ;;
      when (e =? 0) (tset tp t_line (s8 t)).

(** [ttioccomm(com, tp, addr, dev)].  The special characters are six, but
    the copying routines move whole words, so that four of them go over. *)
Definition ttioccomm (com : Z) (tp : nat) (addr dev : Z) : KM Z :=
  if com =? TIOCGETD then t <- tf tp t_line ;; copyout_err (bytes_of 4 t) addr ;;; ret 1
  else if com =? TIOCSETD then set_ldisc tp addr dev ;;; ret 1
  else if com =? TIOCEXCL then tor tp XCLUDE ;;; ret 1
  else if com =? TIOCNXCL then tclr tp XCLUDE ;;; ret 1
  else if com =? TIOCSETP then wflushtty tp ;;; set_params tp addr ;;; ret 1
  else if com =? TIOCSETN then set_params tp addr ;;; ret 1
  else if com =? TIOCGETP then t <- tget ttys tp ;; copyout_err (ttiocb_bytes t) addr ;;; ret 1
  else if com =? TIOCHPCL then tor tp HUPCLS ;;; ret 1
  else if com =? TIOCFLUSH then flushtty tp ;;; ret 1
  else if (com =? DIOCSETP) || (com =? DIOCGETP) then
    n <- tf tp t_line ;; d <- the (linesw !! Z.to_nat n) ;; l_ioctl d com tp addr ;;; ret 1
  else if com =? TIOCSETC then
    k <- kf (fun k => k) ;;
    let '(l, ok) := copyin k (u32 addr) 6 in
    tmod ttys tp (fun t => t <| t_tc ::= fun c => map s8 l ++ drop (length l) c |>) ;;;
    when (negb ok) (set_error EFAULT) ;;; ret 1
  else if com =? TIOCGETC then
    l <- tf tp t_tc ;; copyout_err (map u8 l) addr ;;; ret 1
  else ret 0.

End Tty.

(** ** A terminal's queues

    The kernel with a terminal's entry, the cblocks and the level replaced. *)

Definition at_tty (w : world) (tp : nat) (c : cstate) (p : Z) (t : tty) : world :=
  w <| ks ::= fun k => k <| cl := c |> <| pl := p |> <| ttys ::= <[tp := t]> |> |>.

Section AtTty.
Context (w : world) (tp : nat) (Htp : (tp < length (ttys (ks w)))%nat).

Lemma at_tty_lookup c p t : ttys (ks (at_tty w tp c p t)) !! tp = Some t.
Proof using Htp. by apply list_lookup_insert_eq. Qed.

Lemma onq_ok {A} (fq : tty -> clist) {S : Setter fq} (m : CM A) a c c' p t :
  m (c <| Clist.pl := p |> <| q := fq t |>) = Ret a c' ->
  onq tp fq m (at_tty w tp c p t) =
  Ret a (at_tty w tp c' (Clist.pl c') (setf fq (fun _ => q c') t)).
Proof using Htp.
  intros E. unfold onq. rewrite at_tty_lookup. cbv zeta.
  match goal with |- context [m ?x] => change x with (c <| Clist.pl := p |> <| q := fq t |>) end.
  rewrite E. unfold at_tty. f_equal.
  destruct w as [? [] ?]. cbn. do 2 f_equal. apply list_insert_insert_eq.
Qed.

Lemma tget_at c p t : tget ttys tp (at_tty w tp c p t) = Ret t (at_tty w tp c p t).
Proof using Htp. apply tget_ok, at_tty_lookup. Qed.
Lemma tf_at {A} (f : tty -> A) c p t : tf tp f (at_tty w tp c p t) = Ret (f t) (at_tty w tp c p t).
Proof using Htp. apply (tfield_ok ttys), at_tty_lookup. Qed.
Lemma tset_at {T} (f : tty -> T) {S : Setter f} v c p t :
  tset tp f v (at_tty w tp c p t) = Ret tt (at_tty w tp c p (setf f (fun _ => v) t)).
Proof using Htp.
  unfold tset. erewrite tmod_ok by apply at_tty_lookup. f_equal. unfold at_tty.
  destruct w as [? [] ?]. cbn. do 2 f_equal. apply list_insert_insert_eq.
Qed.
Lemma spl_at n c p t : spl n (at_tty w tp c p t) = Ret p (at_tty w tp c n t).
Proof. by destruct w as [? [] ?]. Qed.
End AtTty.

(** The raw and the canonical queue of a terminal hold [raw] and [can]; [fl]
    is the free list. *)
Record holding (c : cstate) (t : tty) (bR bC fl raw can : list Z) : Prop := {
  hd_raw : qinv (c <| q := t_rawq t |>) bR fl raw;
  hd_can : qinv (c <| q := t_canq t |>) bC fl can;
  hd_own : forall b, b ∈ bC -> b ∉ bR
}.

(** [getc] on the raw queue. *)
Lemma getc_raw w tp c p t bR bC fl raw can : (tp < length (ttys (ks w)))%nat ->
  holding c t bR bC fl raw can ->
  exists r c' bR' fl' r', onq tp t_rawq getc (at_tty w tp c p t) =
      Ret r (at_tty w tp c' p (t <| t_rawq := r' |>)) /\
    holding c' (t <| t_rawq := r' |>) bR' bC fl' (tail raw) can /\
    match raw with [] => r = -1 | x :: _ => r = u8 x end /\
    bR' ++ fl' ≡ₚ bR ++ fl /\ same_off (bR ++ fl) c c'.
Proof.
  intros Htp [HR HC Hd].
  apply (qinv_pl _ _ _ _ p) in HR as HR'.
  destruct (getc_ok _ _ _ _ HR') as (r & c' & bR' & fl' & w' & E & Hi & Hr & Hp & Hpl & Hoff).
  exists r, c', bR', fl', (q c'). split.
  { erewrite onq_ok; [|done|]. 2: { destruct c. exact E. } by rewrite Hpl. }
  assert (same_off (bR ++ fl) c c') as Hoff' by (destruct c; exact Hoff).
  destruct (qinv_other _ c' (t_canq t) _ _ _ _ _ _ bC can HR' Hi Hp) as [HC' Hd'];
    [exact Hoff| |exact Hd|].
  { destruct c. by apply (qinv_pl _ _ _ _ p) in HC. }
  assert (w' = tail raw) as -> by (destruct raw; apply Hr).
  split; [|split; [by destruct raw; apply Hr|done]].
  constructor; [by destruct c'|done|done].
Qed.

(** [b_to_q] onto the canonical queue. *)
Lemma b_to_q_can w tp c p t bR bC fl raw can buf : (tp < length (ttys (ks w)))%nat ->
  holding c t bR bC fl raw can ->
  exists k c' bC' fl' q', onq tp t_canq (b_to_q buf) (at_tty w tp c p t) =
      Ret (Z.of_nat (length buf) - Z.of_nat k) (at_tty w tp c' p (t <| t_canq := q' |>)) /\
    holding c' (t <| t_canq := q' |>) bR bC' fl' raw (can ++ map s8 (take k buf)) /\
    (k <= length buf)%nat /\ ((k < length buf)%nat -> fl' = []) /\
    bC' ++ fl' ≡ₚ bC ++ fl /\ same_off (bC ++ fl) c c'.
Proof.
  intros Htp [HR HC Hd]. apply (qinv_pl _ _ _ _ p) in HC as HC'.
  destruct (b_to_q_ok _ _ _ _ buf HC') as (k & c' & bC' & fl' & E & Hk & Hi & Hfull & Hp & Hpl & Hoff).
  exists k, c', bC', fl', (q c'). split.
  { erewrite onq_ok; [|done|]. 2: { destruct c. exact E. } by rewrite Hpl. }
  assert (same_off (bC ++ fl) c c') as Hoff' by (destruct c; exact Hoff).
  destruct (qinv_other _ c' (t_rawq t) _ _ _ _ _ _ bR raw HC' Hi Hp) as [HR' Hd'];
    [exact Hoff| |intros b H1 H2; by apply (Hd b)|].
  { destruct c. by apply (qinv_pl _ _ _ _ p) in HR. }
  split; [|done]. constructor; [done|by destruct c'|intros b H1 H2; by apply (Hd' b)].
Qed.

(** ** The line that [canon] makes of the characters typed

    The characters of a line, in reverse order; what is left; whether the
    end of the line was its delimiter. *)
Fixpoint canon_line (t : tty) (eofc : Z) (rb raw : list Z) : option (list Z * list Z * bool) :=
  match raw with
  | [] => Some (rb, [], false)
  | c :: raw =>
      if u8 c =? 255 then Some (rb, raw, true)
      else
        match canon_char t eofc rb (u8 c) with
        | Some (inl rb') => canon_line t eofc rb' raw
        | Some (inr rb') => Some (rb', raw, false)
        | None => None
        end
  end.

Section Canon.
Context {MC : Machine} (w : world) (tp : nat) (t : tty) (eofc p : Z).
Context (Htp : (tp < length (ttys (ks w)))%nat).
Context (Hcook : (t_flags t &? Z.lor RAW CBREAK) = false) (Heof : t_tc t !! t_eofc = Some eofc).

Lemma canon_step_ok c r bR bC fl raw can rb : holding c (t <| t_rawq := r |>) bR bC fl raw can ->
  exists c' r' bR' fl', holding c' (t <| t_rawq := r' |>) bR' bC fl' (tail raw) can /\
    bR' ++ fl' ≡ₚ bR ++ fl /\ same_off (bR ++ fl) c c' /\
    canon_step tp rb (at_tty w tp c p (t <| t_rawq := r |>)) =
      let s := at_tty w tp c' p (t <| t_rawq := r' |>) in
      match raw with
      | [] => Ret (inr rb) s
      | x :: _ =>
          if u8 x =? 255 then
            Ret (inr rb) (at_tty w tp c' p (t <| t_rawq := r' |> <| t_delct := s8 (t_delct t - 1) |>))
          else the (canon_char t eofc rb (u8 x)) s
      end.
Proof using Htp Hcook Heof.
  intros H. destruct (getc_raw w tp c p _ _ _ _ _ _ Htp H) as (x & c' & bR' & fl' & r' & E & H' & Hx & Hp & Hoff).
  exists c', r', bR', fl'. split; [exact H'|]. split; [done|]. split; [done|].
  unfold canon_step. erewrite bind_ret_eq by exact E. cbn beta.
  destruct raw as [|y raw]; subst x; [done|].
  pose proof (u8_range y). rewrite (proj2 (Z.ltb_ge (u8 y) 0)) by lia.
  erewrite bind_ret_eq by (by apply tget_at). cbn beta. cbn [t_flags setf]. 
  change (t_flags (setf _ _ (setf _ _ t))) with (t_flags t). rewrite Hcook.
  destruct (u8 y =? 255).
  - erewrite bind_ret_eq by (by apply tset_at). done.
  - erewrite (bind_ret_eq (tcc tp t_eofc)).
    2: { unfold tcc. erewrite bind_ret_eq by (by apply tf_at). cbn beta.
         change (t_tc _) with (t_tc t). rewrite Heof. reflexivity. }
    reflexivity.
Qed.

Lemma canon_loop n : forall c r bR bC fl raw can rb rb' rest hit,
  holding c (t <| t_rawq := r |>) bR bC fl raw can -> (length raw < n)%nat ->
  canon_line t eofc rb raw = Some (rb', rest, hit) ->
  exists c' r' bR' fl', loop n (canon_step tp) rb (at_tty w tp c p (t <| t_rawq := r |>)) =
      Ret rb' (at_tty w tp c' p (t <| t_rawq := r' |>
        <| t_delct := if hit : bool then s8 (t_delct t - 1) else t_delct t |>)) /\
    holding c' (t <| t_rawq := r' |>) bR' bC fl' rest can /\
    bR' ++ fl' ≡ₚ bR ++ fl /\ same_off (bR ++ fl) c c'.
Proof using Htp Hcook Heof.
  induction n as [|n IH]; intros c r bR bC fl raw can rb rb' rest hit H Hn El; [lia|].
  destruct (canon_step_ok c r bR bC fl raw can rb H) as (c1 & r1 & bR1 & fl1 & H1 & Hp1 & Ho1 & E).
  destruct raw as [|x raw]; cbn [canon_line] in El.
  - injection El as <- <- <-. exists c1, r1, bR1, fl1. erewrite loop_done by exact E.
    split; [|done]. unfold at_tty. by destruct t.
  - destruct (u8 x =? 255).
    { injection El as <- <- <-. exists c1, r1, bR1, fl1. by erewrite loop_done by exact E. }
    destruct (canon_char t eofc rb (u8 x)) as [[rb1|rb1]|]; [|injection El as <- <- <-|done].
    + destruct (IH c1 r1 bR1 bC fl1 raw can rb1 rb' rest hit) as (c2 & r2 & bR2 & fl2 & E2 & H2 & Hp2 & Ho2);
        [done|cbn in Hn; lia|done|].
      exists c2, r2, bR2, fl2. split; [by erewrite loop_next by exact E|]. split; [done|].
      split; [by rewrite Hp2|]. eapply same_off_trans; [|done|done]. intros b. by rewrite Hp1.
    + exists c1, r1, bR1, fl1. erewrite loop_done by exact E. split; [|done]. unfold at_tty. by destruct t.
Qed.
End Canon.

(** ** The rules of a line, apart from the code

    The signs and letters typed for those that a terminal without small
    letters lacks. *)
Definition sign_for (c : Z) : option Z :=
  if (97 <=? c) && (c <=? 122) then Some (c - 32)
  else
    match c with
    | 33 => Some 124 | 39 => Some 96 | 40 => Some 123 | 41 => Some 125 | 94 => Some 126
    | _ => None
    end.

(** What a character typed behind a backslash stands for, if anything: the
    erase and the kill character, unless it is NUL, for itself. *)
Definition stands_for (t : tty) (c : Z) : option Z :=
  if bool_decide (c = t_erase t \/ c = t_kill t) then if c =? 0 then None else Some c
  else if t_flags t &? LCASE then sign_for c
  else None.

(** The longest line: [canonb] without its first two places. *)
Definition LINE : nat := 254.

(** The line, in order, that the characters [raw] make behind [l], the
    characters left over, and whether the delimiter ended it.  A character is
    erased with the one before it, a line by the kill character; the end of
    file character counts for nothing; behind a backslash these three have
    no such meaning, and what stands for another character takes the
    backslash's place, though only as itself where two backslashes precede
    it.  A full line ends at once.  (A character of eight bits behind a
    backslash would be looked for past the end of [maptab].) *)
Fixpoint line_of (t : tty) (eofc : Z) (l raw : list Z) : option (list Z * list Z * bool) :=
  match raw with
  | [] => Some (l, [], false)
  | x :: raw =>
      let c := u8 x in
      let add l c :=
        let l := l ++ [s8 c] in
        if Nat.ltb (length l) LINE then line_of t eofc l raw else Some (l, raw, false) in
      if c =? 255 then Some (l, raw, true)
      else if bool_decide (last l = Some 92) then
        if 128 <=? c then None
        else
          match stands_for t c with
          | Some e =>
              let l := removelast l in
              add l (if bool_decide (last l = Some 92) then c else e)
          | None => add l c
          end
      else if c =? t_erase t then line_of t eofc (removelast l) raw
      else if c =? t_kill t then line_of t eofc [] raw
      else if c =? eofc then line_of t eofc l raw
      else add l c
  end.

(** [maptab] has the signs and letters of the rules. *)
Lemma maptab_sign c : 0 <= c < 128 ->
  maptab !! Z.to_nat c = Some (default 0 (sign_for c)) /\
  forall e, sign_for c = Some e -> e <> 0 /\ e <> c.
Proof.
  intros Hc. assert (forallb (fun i => let c := Z.of_nat i in
    bool_decide (maptab !! i = Some (default 0 (sign_for c))) &&
    match sign_for c with Some e => negb (e =? 0) && negb (e =? c) | None => true end) (seq 0 128) = true) as H
    by reflexivity.
  rewrite forallb_forall in H. specialize (H (Z.to_nat c)). cbv zeta in H. rewrite Z2Nat.id in H by lia.
  destruct (andb_prop _ _ (H ltac:(apply in_seq; lia))) as [H1%bool_decide_eq_true H2].
  split; [done|]. intros e E. rewrite E in H2. lia.
Qed.

Lemma stands_for_ok t c : 0 <= c < 128 ->
  (let mc := if (c =? t_erase t) || (c =? t_kill t) then c else default 0 (sign_for c) in
   if tst mc && ((mc =? c) || (t_flags t &? LCASE)) then Some mc else None) = stands_for t c.
Proof.
  intros Hc. destruct (maptab_sign c Hc) as [_ Hs]. cbv zeta. unfold stands_for.
  assert ((c =? t_erase t) || (c =? t_kill t) = bool_decide (c = t_erase t \/ c = t_kill t)) as ->.
  { apply eq_true_iff_eq. by rewrite orb_true_iff, !Z.eqb_eq, bool_decide_eq_true. }
  destruct (bool_decide _).
  - rewrite Z.eqb_refl. destruct (Z.eqb_spec c 0) as [->|H0]; [done|]. by rewrite (proj2 (tst_true c)).
  - destruct (sign_for c) as [e|]; [|by destruct (_ &? _)]. destruct (Hs e eq_refl) as [H0 Hne].
    cbn [default from_option id]. by rewrite (proj2 (tst_true e)), (proj2 (Z.eqb_neq _ _) Hne).
Qed.

Lemma last_reverse_92 rb : bool_decide (last (reverse rb) = Some 92) = (nth 0 rb 0 =? 92).
Proof.
  rewrite last_reverse. destruct rb as [|x rb]; [done|]. cbn.
  destruct (Z.eqb_spec x 92); [subst; by rewrite bool_decide_true|]. rewrite bool_decide_false; congruence.
Qed.
Lemma removelast_reverse (rb : list Z) : removelast (reverse rb) = reverse (tail rb).
Proof. destruct rb as [|x rb]; [done|]. by rewrite reverse_cons, removelast_last. Qed.

(** [canon_put] is the adding of a character. *)
Lemma canon_put_add t eofc rb raw c :
  (forall rb, canon_line t eofc rb raw =
     match line_of t eofc (reverse rb) raw with
     | Some (l, rest, hit) => Some (reverse l, rest, hit) | None => None end) ->
  match canon_put rb c with
  | inl rb' => canon_line t eofc rb' raw
  | inr rb' => Some (rb', raw, false)
  end =
  match (if Nat.ltb (length (reverse rb ++ [s8 c])) LINE then line_of t eofc (reverse rb ++ [s8 c]) raw
         else Some (reverse rb ++ [s8 c], raw, false)) with
  | Some (l, rest, hit) => Some (reverse l, rest, hit) | None => None
  end.
Proof.
  intros IH. unfold canon_put, LINE. rewrite length_app, length_reverse. cbn [length].
  destruct (Nat.leb_spec CANBSIZ (2 + S (length rb))), (Nat.ltb_spec (length rb + 1) 254);
    unfold CANBSIZ in *; try lia.
  - by rewrite reverse_app, reverse_involutive.
  - by rewrite IH, reverse_cons.
Qed.

Lemma line_of_canon t eofc raw : forall rb,
  canon_line t eofc rb raw =
  match line_of t eofc (reverse rb) raw with
  | Some (l, rest, hit) => Some (reverse l, rest, hit)
  | None => None
  end.
Proof.
  induction raw as [|x raw IH]; intros rb; cbn [canon_line line_of]; cbv zeta.
  - by rewrite reverse_involutive.
  - pose proof (u8_range x) as Hx. set (c := u8 x) in *.
    destruct (c =? 255); [by rewrite reverse_involutive|].
    rewrite last_reverse_92. unfold canon_char. destruct (nth 0 rb 0 =? 92) eqn:E0; cbn [negb].
    + destruct (Z.leb_spec 128 c).
      { by rewrite (lookup_ge_None_2 maptab) by (cbn; lia). }
      destruct (maptab_sign c) as [-> _]; [lia|]. cbn [mbind option_bind].
      rewrite <- (stands_for_ok t c) by lia. cbv zeta.
      destruct (tst _ && _).
      * rewrite removelast_reverse, last_reverse_92.
        replace (nth 0 (tail rb) 0) with (nth 1 rb 0) by (by destruct rb as [|? [|? ?]]).
        rewrite <- canon_put_add by done. by destruct (nth 1 rb 0 =? 92).
      * by rewrite <- canon_put_add.
    + destruct (c =? t_erase t); [by rewrite IH, removelast_reverse|].
      destruct (c =? t_kill t); [by rewrite IH|].
      destruct (c =? eofc); [by rewrite IH|]. by rewrite <- canon_put_add.
Qed.

(** C21. With a line waiting, [canon] takes the characters up to its end off
    the raw queue and appends to the canonical queue the line that the
    rules above make of them, as far as blocks last; it returns the
    line's length and one delimiter less is pending.  Nothing else changes:
    not the rest of the terminal, nor any other queue's blocks. *)
Theorem canon_correct (MC : Machine) (w : world) (tp : nat) (t : tty) (eofc : Z)
    (bR bC fl raw can line rest : list Z) (hit : bool) :
  ttys (ks w) !! tp = Some t -> holding (cl (ks w)) t bR bC fl raw can ->
  (t_flags t &? Z.lor RAW CBREAK) = false -> t_delct t <> 0 -> (t_state t &? TBLOCK) = false ->
  t_tc t !! t_eofc = Some eofc -> line_of t eofc [] raw = Some (line, rest, hit) ->
  exists c' r' q' k bR' bC' fl',
    let t' := t <| t_rawq := r' |> <| t_canq := q' |>
                <| t_delct := if hit then s8 (t_delct t - 1) else t_delct t |> in
    canon tp w = Ret (Z.of_nat (length line)) (at_tty w tp c' 0 t') /\
    holding c' t' bR' bC' fl' rest (can ++ map s8 (take k line)) /\
    (k <= length line)%nat /\ ((k < length line)%nat -> fl' = []) /\
    same_off (bR ++ bC ++ fl) (cl (ks w)) c'.
Proof.
  intros Ht H Hcook Hd Hblk Heof El'. pose proof (lookup_lt_Some _ _ _ Ht) as Htp.
  pose proof (line_of_canon t eofc raw []) as El. change (reverse []) with (@nil Z) in El. rewrite El' in El.
  replace line with (reverse (reverse line)) by apply reverse_involutive. set (rb := reverse line) in *.
  rewrite (length_reverse rb).
  destruct (canon_loop w tp t eofc 0 Htp Hcook Heof (S (length raw)) (cl (ks w)) (t_rawq t) bR bC fl raw can [] rb rest hit)
    as (c1 & r1 & bR1 & fl1 & E1 & H1 & Hp1 & Ho1); [by destruct t|lia|done|].
  set (d := if hit then s8 (t_delct t - 1) else t_delct t) in *.
  destruct (b_to_q_can w tp c1 0 (t <| t_rawq := r1 |> <| t_delct := d |>) bR1 bC fl1 rest can (reverse rb))
    as (k & c2 & bC2 & fl2 & q2 & E2 & H2 & Hk & Hfull & Hp2 & Ho2); [done|by destruct H1|].
  exists c2, r1, q2, k, bR1, bC2, fl2. rewrite length_reverse in Hk, Hfull. cbv zeta.
  split; [|split; [by destruct H2|split; [done|split; [done|]]]].
  2: { intros b Hb Hin. rewrite !elem_of_app in Hin.
       assert (b ∉ bR1 ++ fl1) as Hin1 by (rewrite Hp1, elem_of_app; tauto).
       rewrite elem_of_app in Hin1.
       destruct (Ho1 b Hb) as [N1 M1]; [rewrite elem_of_app; tauto|].
       destruct (Ho2 b Hb) as [N2 M2]; [rewrite elem_of_app; tauto|].
       split; [congruence|]. intros i Hi. by rewrite M2, M1. }
  unfold canon. erewrite bind_ret_eq by reflexivity. cbn beta.
  replace (w <| ks ::= setf pl (fun _ => 5) |>) with (at_tty w tp (cl (ks w)) 5 t).
  2: { unfold at_tty. destruct w as [? [] ?]. cbn in *. by rewrite list_insert_id. }
  erewrite (bind_ret_eq (canon_wait tp) _ _ true).
  2: { unfold canon_wait. erewrite bind_ret_eq by reflexivity. eapply loop_done.
       erewrite bind_ret_eq by (by apply tget_at). cbn beta zeta. rewrite Hcook. cbn [negb].
       by rewrite (proj2 (Z.eqb_neq _ _) Hd). }
  cbn beta. cbn [negb]. erewrite (bind_ret_eq spl0 _ _ tt (at_tty w tp (cl (ks w)) 0 t)) by (by destruct w as [? [] ?]).
  cbn beta. unfold qcount. erewrite bind_ret_eq by (by apply tf_at). cbn beta.
  rewrite (qi_count _ _ _ _ (hd_raw _ _ _ _ _ _ _ H) : c_cc (t_rawq t) = _), Nat2Z.id.
  erewrite bind_ret_eq by (destruct t; exact E1). cbn beta.
  erewrite bind_ret_eq by exact E2. cbn beta. unfold thas.
  erewrite (bind_ret_eq (s <- tf tp t_state ;; _) _ _ false).
  2: { erewrite bind_ret_eq by (by apply tf_at). cbn beta. change (t_state (setf _ _ _)) with (t_state t).
       by rewrite Hblk. }
  cbn beta. erewrite bind_ret_eq by (by apply tf_at). cbn beta. done.
Qed.

(** A character with no meaning of its own in a line. *)
Definition plain (t : tty) (eofc c : Z) : Prop :=
  0 <= c < 128 /\ c <> 92 /\ c <> t_erase t /\ c <> t_kill t /\ c <> eofc.

(** A terminal whose erase and kill characters are distinct ASCII
    characters other than NUL and the backslash. *)
Record editor (t : tty) (eofc : Z) : Prop := {
  ed_erase : 0 < t_erase t < 128 /\ t_erase t <> 92;
  ed_kill : 0 < t_kill t < 128 /\ t_kill t <> 92;
  ed_diff : t_erase t <> t_kill t
}.

Lemma canon_line_char t eofc rb c raw : 0 <= c < 128 ->
  canon_line t eofc rb (c :: raw) =
  match canon_char t eofc rb c with
  | Some (inl rb') => canon_line t eofc rb' raw
  | Some (inr rb') => Some (rb', raw, false)
  | None => None
  end.
Proof.
  intros Hc. cbn [canon_line]. rewrite u8_id by lia. by rewrite (proj2 (Z.eqb_neq c 255)) by lia.
Qed.

Lemma canon_put_room rb c : 0 <= c < 128 -> (length rb < 253)%nat -> canon_put rb c = inl (c :: rb).
Proof.
  intros Hc Hl. unfold canon_put, CANBSIZ. rewrite s8_id by lia.
  by rewrite (proj2 (Nat.leb_gt _ _)) by (cbn; lia).
Qed.

Lemma plain_char t eofc rb c : plain t eofc c -> nth 0 rb 0 <> 92 -> (length rb < 253)%nat ->
  canon_char t eofc rb c = Some (inl (c :: rb)).
Proof.
  intros (Hc & H92 & He & Hk & Ho) Hl Hr. unfold canon_char.
  rewrite (proj2 (Z.eqb_neq _ _) Hl), (proj2 (Z.eqb_neq _ _) He), (proj2 (Z.eqb_neq _ _) Hk),
    (proj2 (Z.eqb_neq _ _) Ho). cbn [negb]. by rewrite canon_put_room.
Qed.

Lemma plain_text t eofc ws : forall rb raw, Forall (plain t eofc) ws -> nth 0 rb 0 <> 92 ->
  (length rb + length ws < 254)%nat ->
  canon_line t eofc rb (ws ++ raw) = canon_line t eofc (reverse ws ++ rb) raw.
Proof.
  induction ws as [|c ws IH]; intros rb raw Hw Hb Hl; [done|].
  apply Forall_cons in Hw as [Hc Hw]. cbn [app length] in *.
  rewrite canon_line_char, plain_char by (try done; try apply Hc; lia).
  rewrite IH by (try done; try (by destruct Hc as (_ & ? & _)); cbn; lia).
  by rewrite reverse_cons, <- app_assoc.
Qed.

(** The rules of a cooked line, for a line [rb] (in reverse) whose last
    character is no backslash and that has room: plain text is appended; the
    erase character takes back the character before it; the kill character
    takes back the line; after a backslash either is taken literally and the
    backslash disappears; the delimiter ends the line. *)
Theorem line_editing (t : tty) (eofc : Z) (rb raw ws : list Z) (c : Z) :
  editor t eofc -> nth 0 rb 0 <> 92 -> (length rb + length ws < 252)%nat ->
  Forall (plain t eofc) ws -> plain t eofc c ->
  canon_line t eofc rb (ws ++ raw) = canon_line t eofc (reverse ws ++ rb) raw /\
  canon_line t eofc rb (c :: t_erase t :: raw) = canon_line t eofc rb raw /\
  canon_line t eofc rb (t_kill t :: raw) = canon_line t eofc [] raw /\
  (92 <> eofc -> forall x, x = t_erase t \/ x = t_kill t ->
    canon_line t eofc rb (92 :: x :: raw) = canon_line t eofc (x :: rb) raw) /\
  canon_line t eofc rb (-1 :: raw) = Some (rb, raw, true).
Proof.
  intros [[He He92] [Hk Hk92] Hek] Hb Hl Hws Hc. split; [|split; [|split; [|split]]].
  - apply plain_text; [done|done|lia].
  - rewrite canon_line_char, plain_char by (try done; try apply Hc; lia).
    rewrite canon_line_char by lia. unfold canon_char. cbn [nth tail].
    destruct Hc as (_ & H92 & _). rewrite (proj2 (Z.eqb_neq _ _) H92). cbn [negb].
    by rewrite Z.eqb_refl.
  - rewrite canon_line_char by lia. unfold canon_char.
    rewrite (proj2 (Z.eqb_neq _ _) Hb). cbn [negb].
    by rewrite (proj2 (Z.eqb_neq (t_kill t) (t_erase t))), Z.eqb_refl by lia.
  - intros H92 x Hx. rewrite canon_line_char by lia. unfold canon_char at 1.
    rewrite (proj2 (Z.eqb_neq _ _) Hb), (proj2 (Z.eqb_neq 92 (t_erase t))),
      (proj2 (Z.eqb_neq 92 (t_kill t))), (proj2 (Z.eqb_neq _ _) H92) by lia.
    cbn [negb]. rewrite canon_put_room by lia.
    assert (0 < x < 128) as Hx0 by (destruct Hx; lia).
    rewrite canon_line_char by lia. unfold canon_char. cbn [nth tail].
    rewrite Z.eqb_refl. cbn [negb].
    destruct (lookup_lt_is_Some_2 maptab (Z.to_nat x)) as [mc ->]; [cbn; lia|]. cbn [mbind option_bind].
    replace ((x =? t_erase t) || (x =? t_kill t)) with true
      by (symmetry; apply orb_true_iff; rewrite !Z.eqb_eq; tauto).
    rewrite (proj2 (tst_true x)), Z.eqb_refl by lia. cbn [andb orb].
    rewrite (proj2 (Z.eqb_neq _ _) Hb). cbn [negb]. by rewrite canon_put_room by lia.
  - done.
Qed.

(** The line ["ab#\\n"] as it was typed, with its delimiter, in one block. *)
Definition typed : cstate :=
  mkcstate {[4096 := 0; 4128 := 0]}
    (<[4100 := 97]> (<[4101 := 98]> (<[4102 := 35]> (<[4103 := 10]> (<[4104 := -1]> (arena_mem 4096 2))))))
    4128 0 0 (mkclist 0 0 0).
Definition terminal : tty :=
  mktty (mkclist 5 4100 4105) (mkclist 0 0 0) (mkclist 0 0 0) false 0 0 CARR_ON 0 1 0 0 CERASE CKILL 0 0 0
    [CINTR; CQUIT; CSTART; CSTOP; CEOT; s8 CBRK].
Definition terminal_world : world :=
  world0 <| ks ::= fun k => k <| cl := typed |> <| ttys := [terminal] |> |>.

Lemma typed_holding : holding typed terminal [4096] [] [4128] [97; 98; 35; 10; -1] [].
Proof.
  destruct two_blocks as [H1 H2].
  assert (Forall (Clist.block (c_mem typed)) [4096; 4128]) as Hb.
  { refine (Forall_cons_2 _ _ _ _ (Forall_cons_2 _ _ _ _ (Forall_nil_2 _))); by do 5 apply block_stored. }
  constructor.
  - constructor; try done.
    + cbn [app]. apply NoDup_cons. split; [|apply NoDup_singleton]. by intros [= ]%list_elem_of_singleton.
    + split; [done|]. by exists 0.
    + split; [done|]. split; [done|]. split; [done|]. split; [|done].
      intros [|[|[|[|[|i]]]]] c Hc; [..|done]; by injection Hc as <-.
  - constructor; try done.
    + apply NoDup_singleton.
    + by apply Forall_cons in Hb as [_ ?].
    + split; [done|]. by exists 0.
  - intros b Hb'. by apply not_elem_of_nil in Hb'.
Qed.

Lemma canon_correct_witness :
  exists c' r' q' k bR' bC' fl',
    let t' := terminal <| t_rawq := r' |> <| t_canq := q' |> <| t_delct := 0 |> in
    @canon machine0 0%nat terminal_world = Ret 2 (at_tty terminal_world 0 c' 0 t') /\
    holding c' t' bR' bC' fl' [] ([] ++ map s8 (take k [97; 10])) /\
    (k <= 2)%nat /\ ((k < 2)%nat -> fl' = []) /\
    same_off ([4096] ++ [] ++ [4128]) typed c'.
Proof.
  refine (canon_correct machine0 terminal_world 0 terminal 4 [4096] [] [4128] [97; 98; 35; 10; -1] []
    [97; 10] [] true _ typed_holding _ _ _ _ _); try reflexivity. discriminate.
Defined.

Lemma line_editing_witness :
  canon_line terminal 4 [] ([104; 105] ++ [10; -1]) = canon_line terminal 4 [105; 104] [10; -1] /\
  canon_line terminal 4 [] (120 :: 35 :: [10; -1]) = canon_line terminal 4 [] [10; -1] /\
  canon_line terminal 4 [] (64 :: [10; -1]) = canon_line terminal 4 [] [10; -1] /\
  (92 <> 4 -> forall x, x = 35 \/ x = 64 ->
    canon_line terminal 4 [] (92 :: x :: [10; -1]) = canon_line terminal 4 [x] [10; -1]) /\
  canon_line terminal 4 [] (-1 :: [10; -1]) = Some ([], [10; -1], true).
Proof.
  refine (line_editing terminal 4 [] [10; -1] [104; 105] 120 _ _ _ _ _).
  - by repeat split; vm_compute.
  - done.
  - cbn. lia.
  - repeat constructor; vm_compute; done.
  - by repeat split; vm_compute.
Defined.
