(* ===== verification/Pk.v ===== *)
(** * Pk: the packet driver ([dev/pk0.c], [dev/pk1.c], [dev/pk2.c])

    A line discipline that carries packets with sequence numbers modulo eight,
    a window and acknowledgements over a serial line: the framing and checking
    of what comes in, what goes out, the messages that open and close a
    connection, and its [read], [write], [open] and [close]. *)

From S2P Require Import Prelude Bytes Callout Clist State Utab Sched Bio Rdwri Fio SysFile Ports Tty Pkmem.

Definition CHECK : Z := 43690.                     (* 0125252 *)
Definition SYN : Z := 16.
Definition MOD8 : Z := 7.

(** States of a connection. *)
Definition INITa : Z := 1.
Definition INITb : Z := 2.
Definition INITab : Z := 3.
Definition LIVE : Z := 8.
Definition RXMIT : Z := 16.
Definition DRAINO : Z := 256.
Definition WAITO : Z := 512.
Definition DOWN : Z := 1024.
Definition RCLOSE : Z := 2048.
Definition BADFRAME : Z := 8192.

(** States of a packet. *)
Definition B_NULL : Z := 0.
Definition B_READY : Z := 1.
Definition B_SENT : Z := 2.
Definition B_RESID : Z := 8.
Definition B_COPY : Z := 16.
Definition B_MARK : Z := 32.
Definition B_SHORT : Z := 64.

(** Control messages, as numbers and as bits. *)
Definition CLOSE : Z := 1.
Definition RJ : Z := 2.
Definition SRJ : Z := 3.
Definition RR : Z := 4.
Definition INITC : Z := 5.
Definition INITB : Z := 6.
Definition INITA : Z := 7.
Definition M_CLOSE : Z := 2.
Definition M_RJ : Z := 4.
Definition M_RR : Z := 16.
Definition M_INITC : Z := 32.
Definition M_INITB : Z := 64.
Definition M_INITA : Z := 128.

Definition PKOPRI : Z := 31.
Definition PKIPRI : Z := 30.
Definition NTRIES : Z := 1.
Definition DIOCGETP : Z := 25608.                  (* ('d'<<8)|8 *)

(** [char next[8]], [char mask[8]], [int pksizes[]] *)
Definition next_tab : list Z := [1; 2; 3; 4; 5; 6; 7; 0].
Definition mask_tab : list Z := [1; 2; 4; 8; 16; 32; 64; -128].
Definition pksizes : list Z := [1; 32; 64; 128; 256; 512; 1024; 2048; 4096; 1].
Definition index (l : list Z) (i : Z) : PKM Z := if i <? 0 then fault else the (l !! Z.to_nat i).
Definition next (x : Z) : PKM Z := index next_tab x.
Definition mask (x : Z) : PKM Z := index mask_tab x.

(** ** Checking *)

(** One round of [chksum], with [n] characters left: the sum and [x]. *)
Definition chk_step (n sum x c : Z) : Z * Z :=
  let sum1 := if sum <? 0 then s16 (s16 (2 * sum) + 1) else s16 (2 * sum) in
  let t := u32 sum1 in
  let sum2 := s16 (sum1 + c) in
  let x := s32 (x + Z.lxor sum2 n) in
  (if u32 sum2 <=? t then s16 (Z.lxor sum2 x) else sum2, x).
Fixpoint chk (n sum x : Z) (l : list Z) : Z :=
  match l with
  | [] => sum
  | c :: l => let '(sum, x) := chk_step n sum x c in chk (n - 1) sum x l
  end.
Definition checksum (l : list Z) : Z := chk (Z.of_nat (length l)) (-1) 0 l.

(** [pksize]: the logarithm of the size in units of 32. *)
Definition pksize (n : Z) : PKM Z :=
  loop 32 (fun x : Z * Z =>
    let '(n, k) := x in
    let n := Z.shiftr n 1 in
    ret (if n =? 0 then inr k else inl (n, k + 1))) (Z.shiftr n 5, 0).

(** [~(-1<<window) << x], folded into eight bits. *)
Definition window (w x : Z) : Z :=
  let t := s32 (Z.shiftl (Z.lnot (Z.shiftl (-1) w)) x) in
  s8 (Z.lor (s8 t) (Z.shiftr t 8)).

Section Pk.
Context {MC : Machine}.
(** [&bwaiting]; the routines of a line to start input and output; the number
    of [pktimeout]; what lies in storage nobody has set. *)
Context (at_bwaiting : Z) (iproc oproc : nat -> PKM unit) (pktimeout_fn : nat) (junk : nat -> list Z).

Definition get_chars (p a : Z) (n : nat) : PKM (list Z) :=
  loop (S n) (fun x : nat * list Z =>
    let '(i, l) := x in
    if Nat.eqb i n then ret (inr l) else c <- char_get p (a + Z.of_nat i) ;; ret (inl (S i, l ++ [c]))) (0%nat, []).
(** [chksum(s, n)], which looks at one character at least. *)
Definition chksum (p s n : Z) : PKM Z :=
  let k := Z.to_nat (Z.max 1 n) in
  l <- get_chars p s k ;; ret (chk n (-1) 0 l).

Definition q1 (tp : nat) {A} (f : clist -> A) : PKM A := kern (tf tp (fun t => f (t_rawq t))).
Definition q3 (tp : nat) {A} (f : clist -> A) : PKM A := kern (tf tp (fun t => f (t_outq t))).
Definition q1_set {T} (tp : nat) (f : clist -> T) {S : Setter f} (v : T) : PKM unit :=
  kern (tmod ttys tp (fun t => t <| t_rawq ::= setf f (fun _ => v) |>)).
Definition q2_set {T} (tp : nat) (f : clist -> T) {S : Setter f} (v : T) : PKM unit :=
  kern (tmod ttys tp (fun t => t <| t_canq ::= setf f (fun _ => v) |>)).
Definition q3_set {T} (tp : nat) (f : clist -> T) {S : Setter f} (v : T) : PKM unit :=
  kern (tmod ttys tp (fun t => t <| t_outq ::= setf f (fun _ => v) |>)).

(** [(struct pack * )tp->t_linep] and [pk->p_ttyp]. *)
Definition paddr (tp : nat) : PKM Z := l <- dg linep ;; the (l !! tp).
Definition line_of_pack (p : Z) : PKM nat := o <- kf_ p p_ttyp ;; the o.

(** ** [pk2.c]: framing *)

(** The header of a control message or of packet [x] in [p_ohbuf]. *)
Definition pkxstart (p cntl x : Z) : PKM unit :=
  let cntl := s8 cntl in
  tp <- line_of_pack p ;;
  line <- kern (tf tp t_line) ;;
  (if line =? 1 then
     y <- (if x <? 0 then q3_set tp c_cl 0 ;;; ret (9, cntl)
           else
             k <- kf_ p p_lpsize ;; os <- kat p p_osum x ;; ob <- kat p p_ob x ;;
             q3_set tp c_cl ob ;;;
             ret (k, s16 (Z.lxor os cntl))) ;;
     let '(k, check) := y in
     let check := s16 (CHECK - check) in
     let lo := s8 check in
     let hi := s8 (Z.shiftr check 8) in
     kset_ p p_ohbuf [SYN; k; lo; hi; cntl; Z.lxor (Z.lxor (Z.lxor k lo) hi) cntl] ;;;
     q3_set tp c_cc (- Z.of_nat HDRSIZ)
   else
     q3_set tp c_cc (-1) ;;;
     kput p p_ohbuf 0 cntl ;;;
     c <- the (junk 1 !! 0%nat) ;;
     kput p p_ohbuf 1 (s8 (Z.lxor c cntl))) ;;;
  q3_set tp c_cf (p + off_ohbuf) ;;;
  oproc tp.

(** ** [pk0.c]: output *)

Definition lowest_bit (x : Z) : PKM Z :=
  loop 9 (fun y : Z * Z =>
    let '(i, x) := y in
    ret (if (i =? 8) || (x &? 1) then inr i else inl (i + 1, Z.shiftr x 1))) (0, x).

(** The control character of message [i]. *)
Definition control (p i : Z) : PKM Z :=
  let x := 8 * i in
  if (i =? RJ) || (i =? RR) then v <- kf_ p p_pr ;; ret (x + v)
  else if i =? INITB then v <- kf_ p p_rsize ;; k <- pksize v ;; ret (x + k)
  else if (i =? INITC) || (i =? INITA) then v <- kf_ p p_rwindow ;; ret (x + v)
  else ret x.

Definition send_control (p : Z) : PKM unit :=
  msg <- kf_ p p_msg ;;
  i <- lowest_bit msg ;;
  x <- control p i ;;
  b <- mask i ;;
  msg <- kf_ p p_msg ;; kset_ p p_msg (s8 (clr msg b)) ;;;
  pkxstart p x (-1).

Definition send_packet (p x bstate : Z) : PKM unit :=
  let bstate := s8 (Z.lor bstate B_SENT) in
  nx <- next x ;; kset_ p p_nxtps nx ;;;
  pr <- kf_ p p_pr ;;
  let c := 128 + pr + Z.shiftl x 3 in
  pkxstart p (if bstate &? B_SHORT then Z.lor c 64 else c) x ;;;
  os <- kat p p_os x ;;
  when (tst os) (kput p p_os x bstate) ;;;
  n <- kf_ p p_nout ;; kset_ p p_nout (s8 (n + 1)).

Definition pkoutput (p : Z) : PKM unit :=
  tp <- line_of_pack p ;;
  s <- kern spl6 ;;
  busy <- kern (thas tp BUSY) ;;
  if busy : bool then kern (splx s)
  else
    rx <- st_has p RXMIT ;;
    when rx (v <- kf_ p p_rpr ;; nx <- next v ;; kset_ p p_nxtps nx ;;; st_clr p RXMIT) ;;;
    x <- kf_ p p_nxtps ;;
    bstate <- kat p p_os x ;;
    msg <- kf_ p p_msg ;;
    (if tst msg && (tst (clr msg M_RR) || negb (bstate &? B_READY)) then send_control p
     else
       st <- kf_ p p_state ;;
       if (st &? DOWN) || negb (st &? LIVE) then pkwakeup (p + off_ps)
       else if bstate &? Z.lor B_READY B_SENT then send_packet p x bstate
       else
         n <- kf_ p p_xcount ;;
         (if tst n then z <- dg pkzot ;; kset_ p p_timer (s8 (10 + z)) ;;; st_or p WAITO
          else st_clr p WAITO) ;;;
         pkwakeup (p + off_ps)) ;;;
    kset_ p p_obusy 0 ;;;
    kern (splx s).

(** Packets acknowledged up to [p_rpr]; how many. *)
Definition pksack (p : Z) : PKM Z :=
  s <- kern spl6 ;;
  x <- kf_ p p_ps ;;
  i <- loop 9 (fun y : Z * Z =>
    let '(x, i) := y in
    rpr <- kf_ p p_rpr ;;
    if x =? rpr then ret (inr i)
    else
      x <- next x ;;
      os <- kat p p_os x ;;
      if os &? B_SENT then
        ob <- kat p p_ob x ;; bits <- kf_ p p_bits ;;
        freepack at_bwaiting ob bits ;;;
        kput p p_os x B_NULL ;;;
        st_clr p WAITO ;;;
        n <- kf_ p p_xcount ;; kset_ p p_xcount (s8 (n - 1)) ;;;
        kset_ p p_ps x ;;;
        pkwakeup (p + off_ps) ;;;
        ret (inl (x, i + 1))
      else ret (inl (x, i))) (x, 0) ;;
  kern (splx s) ;;;
  ret i.

Definition pkbadframe (p : Z) : PKM unit :=
  pkwakeup (p + off_pr) ;;;
  b <- st_has p BADFRAME ;;
  when (negb b) (st_or p BADFRAME ;;; kset_ p p_timer 2).

(** ** [pk0.c]: control messages *)

(** The [case]s of [pkcntl]: whether the routine returns at once. *)
Definition control_case (p cntl val : Z) : PKM bool :=
  if cntl =? INITB then
    size <- index pksizes (val + 1) ;;
    kset_ p p_xsize (s16 size) ;;;
    kset_ p p_lpsize (s8 (val + 1)) ;;;
    xs <- kf_ p p_xsize ;; b <- dtom xs ;; kset_ p p_bits (s16 b) ;;;
    live <- st_has p LIVE ;;
    (if live : bool then msg_or p M_INITC
     else
       st_or p INITb ;;;
       a <- st_has p INITa ;;
       when a (v <- kf_ p p_rmsg ;; kset_ p p_rmsg (s8 (clr v M_INITA)) ;;; msg_or p M_INITC)) ;;;
    ret false
  else if cntl =? INITC then
    st <- kf_ p p_state ;;
    (if Z.land st INITab =? INITab then
       kset_ p p_state LIVE ;;;
       pkwakeup p ;;;
       v <- kf_ p p_rmsg ;; kset_ p p_rmsg (s8 (clr v (Z.lor M_INITA M_INITB)))
     else when (negb (st &? LIVE)) (msg_or p M_INITB)) ;;;
    when (tst val) (kset_ p p_swindow val) ;;;
    ret false
  else if cntl =? INITA then
    live <- st_has p LIVE ;;
    (if (val =? 0) && live then kern (printf "alloc change")
     else
       when (tst val)
         (st_or p INITa ;;; msg_or p M_INITB ;;;
          v <- kf_ p p_rmsg ;; kset_ p p_rmsg (s8 (Z.lor v M_INITB)) ;;;
          kset_ p p_swindow val)) ;;;
    ret false
  else if (cntl =? RJ) || (cntl =? RR) then
    when (cntl =? RJ) (st_or p RXMIT ;;; msg_or p M_RR) ;;;
    kset_ p p_rpr val ;;;
    n <- pksack p ;;
    when (n =? 0) (pkwakeup (p + off_ps)) ;;;
    ret false
  else if cntl =? CLOSE then
    kset_ p p_state (DOWN + RCLOSE) ;;;
    kset_ p p_rmsg 0 ;;;
    pkwakeup (p + off_pr) ;;;
    pkwakeup (p + off_ps) ;;;
    pkwakeup p ;;;
    ret true
  else ret false.

Definition pkcntl (cntl p : Z) : PKM unit :=
  let val := Z.land cntl MOD8 in
  if cntl &? 192 then pkbadframe p
  else
    st_clr p BADFRAME ;;;
    m <- kf_ p p_msg ;;
    over <- control_case p (Z.shiftr cntl 3) val ;;
    if over : bool then ret tt
    else
      msg <- kf_ p p_msg ;;
      when (msg =? 0) (r <- kf_ p p_rmsg ;; msg_or p r) ;;;
      msg <- kf_ p p_msg ;;
      when ((m =? 0) && tst msg) (pkoutput p).

(** ** [pk2.c]: what comes in *)

(** Packet [cp] into a free slot of the input window, or back to the pool. *)
Definition pkdata (c sum p cp : Z) : PKM unit :=
  st_clr p BADFRAME ;;;
  tp <- line_of_pack p ;;
  st <- kf_ p p_state ;;
  if (st &? DRAINO) || negb (st &? LIVE) then
    r <- kf_ p p_rmsg ;; msg_or p r ;;;
    pkoutput p ;;;
    pool_put p cp
  else
    pr <- kf_ p p_pr ;;
    t <- next pr ;;
    slot <- loop 9 (fun x =>
              if x =? t then ret (inr None)
              else v <- kat p p_is x ;; ret (if v =? 0 then inr (Some x) else inl (Z.land (x - 1) 7))) pr ;;
    match slot with
    | None => kern (printf "no slot") ;;; pool_put p cp
    | Some x =>
        b <- mask x ;; v <- kf_ p p_imap ;; kset_ p p_imap (s8 (Z.lor v b)) ;;;
        kput p p_is x (s8 c) ;;;
        kput p p_isum x (s16 sum) ;;;
        kput p p_ib x cp ;;;
        ch <- kern (tf tp t_chan) ;;
        if ch : bool then kern sdata else pkwakeup (p + off_pr)
    end.

(** [pk->p_ihbuf]: the address, and [h->cntl], [h->sum] and the setting of them. *)
Definition set_header (p sum cntl : Z) : PKM unit :=
  kput p p_ihbuf 2 (s8 sum) ;;; kput p p_ihbuf 3 (s8 (Z.shiftr sum 8)) ;;; kput p p_ihbuf 4 cntl.
Definition header_sum (p : Z) : PKM Z :=
  lo <- kat p p_ihbuf 2 ;; hi <- kat p p_ihbuf 3 ;; ret (u8 lo + 256 * u8 hi).

(** [istart2] and [istart1]. *)
Definition istart2 (tp : nat) : PKM unit := iproc tp.
Definition istart1 (tp : nat) : PKM unit :=
  cf <- q1 tp c_cf ;; q1_set tp c_cl cf ;;; istart2 tp.

(** [scan]: the header from its next SYN on goes to the front, and the rest of
    it is waited for. *)
Definition scan (tp : nat) (p : Z) : PKM unit :=
  h <- kf_ p p_ihbuf ;;
  let n := match list_find (fun c => c = SYN) (drop 1 h) with
           | Some (i, _) => S i
           | None => HDRSIZ
           end in
  let j := (HDRSIZ - n)%nat in
  kset_ p p_ihbuf (splice 0 (drop n h) h) ;;;
  q1_set tp c_cc (- Z.of_nat n) ;;;
  q1_set tp c_cf (p + off_ihbuf + Z.of_nat j) ;;;
  istart2 tp.

(** A header all of which has come; whether it is a good one. *)
Definition good_header (tp : nat) (p k sum cntl : Z) : PKM bool :=
  if k =? 9 then
    pkcntl cntl p ;;;
    cl <- q1 tp c_cl ;; q1_set tp c_cf cl ;;;
    q1_set tp c_cc (- Z.of_nat HDRSIZ) ;;;
    ret true
  else
    rsize <- kf_ p p_rsize ;;
    size <- (if tst k then index pksizes k else ret (-1)) ;;
    if tst k && (size =? rsize) then
      kset_ p p_rpr (Z.land cntl MOD8) ;;;
      pksack p ;;;
      bp <- kf_ p p_ipool ;;
      when (tst bp) (v <- ptr_get bp ;; kset_ p p_ipool v ;;; kset_ p p_io bp) ;;;
      q1_set tp c_cf bp ;;;
      rsize <- kf_ p p_rsize ;;
      q1_set tp c_cc (- rsize) ;;;
      set_header p sum cntl ;;;
      ret true
    else ret false.

(** The header at [a], byte by byte: its fields where it holds together. *)
Definition read_header (p a : Z) : PKM (option (Z * Z * Z)) :=
  k <- char_get p (a + 1) ;;
  x <- char_get p (a + 2) ;;
  y <- char_get p (a + 3) ;;
  let sum := u16 (Z.lor (u16 x) (Z.shiftl (u32 y) 8)) in
  cntl <- char_get p (a + 4) ;;
  let hdcheck := Z.lxor (Z.lxor (Z.lxor k x) y) cntl in
  z <- char_get p (a + 5) ;;
  ret (if hdcheck =? z then Some (k, sum, cntl) else None).

Definition pkrend (tp : nat) : PKM unit :=
  cl <- q1 tp c_cl ;; cf <- q1 tp c_cf ;;
  let x := s32 (cf - cl) in
  p <- paddr tp ;;
  rsize <- kf_ p p_rsize ;;
  if x =? Z.of_nat HDRSIZ then
    c <- char_get p cl ;;
    good <- (if c =? SYN then
               h <- read_header p cl ;;
               good <- (match h with
                        | Some (k, sum, cntl) => good_header tp p k sum cntl
                        | None => ret false
                        end) ;;
               when (negb good) (pkbadframe p) ;;;
               ret good
             else ret false) ;;
    if good : bool then istart1 tp else scan tp p
  else if x =? rsize then
    c <- kat p p_ihbuf 4 ;; sum <- header_sum p ;;
    pkdata c sum p cl ;;;
    kset_ p p_io 0 ;;;
    q1_set tp c_cf (p + off_ihbuf) ;;;
    q1_set tp c_cc (- Z.of_nat HDRSIZ) ;;;
    istart1 tp
  else if x =? 0 then
    q1_set tp c_cf (p + off_ihbuf) ;;;
    q1_set tp c_cc (- Z.of_nat HDRSIZ) ;;;
    pkbadframe p ;;;
    istart1 tp
  else
    pkbadframe p ;;; scan tp p.

(** A character from the line. *)
Definition pkrint (c : Z) (tp : nat) : PKM unit :=
  cc <- q1 tp c_cc ;;
  when (cc <? 0)
    (cf <- q1 tp c_cf ;;
     when (tst cf)
       (kern (tset tp t_erase 0) ;;;
        p <- paddr tp ;; char_put p cf c ;;;
        q1_set tp c_cf (cf + 1)) ;;;
     q1_set tp c_cc (cc + 1) ;;;
     when (cc + 1 =? 0) (pkrend tp)).

(** The transmitter's interrupt. *)
Definition pkxint (tp : nat) : PKM unit :=
  p <- paddr tp ;;
  s <- kern spl6 ;;
  kern (tclr tp BUSY) ;;;
  cl <- q3 tp c_cl ;;
  (if cl =? 0 then pkoutput p
   else
     q3_set tp c_cf cl ;;;
     q3_set tp c_cl 0 ;;;
     xs <- kf_ p p_xsize ;;
     q3_set tp c_cc (- xs) ;;;
     oproc tp) ;;;
  kern (splx s).

(** ** [pk0.c]: what has come in *)

(** [free]: the packet of slot [x] goes back to the pool. *)
Definition free_slot (p x : Z) : PKM unit :=
  bp <- kat p p_ib x ;;
  s <- kern spl6 ;;
  pool_put p bp ;;;
  kput p p_is x 0 ;;;
  kern (splx s).

(** How many bytes of a packet carry no data, from its first one or two. *)
Definition short_count (p a : Z) : PKM Z :=
  c <- mem_get a ;;
  if c &? 128 then d <- mem_get (a + 1) ;; ret (Z.lor (Z.land c 127) (s32 (Z.shiftl d 7))) else ret c.

(** A packet whose check is right: into the slot of its number. *)
Definition mark_slot (p x seq cntl : Z) : PKM unit :=
  when (negb (x =? seq))
    (s <- kern spl6 ;;
     a <- kat p p_ib x ;;
     b <- kat p p_ib seq ;; kput p p_ib x b ;;;
     v <- kat p p_is seq ;; kput p p_is x v ;;;
     kput p p_ib seq a ;;;
     kern (splx s)) ;;;
  kput p p_is seq B_MARK ;;;
  cc <- (if cntl &? B_SHORT then
           kput p p_is seq (B_MARK + B_SHORT) ;;;
           a <- kat p p_ib seq ;; short_count p a
         else ret 0) ;;
  rsize <- kf_ p p_rsize ;;
  kput p p_isum seq (s16 (rsize - cc)).

(** [sum == CHECK]: the check that came with a packet, [isum], against the
    checksum [c] of its bytes and the control byte. *)
Definition check_ok (c cntl isum : Z) : bool := u16 (u16 (Z.lxor c cntl) + isum) =? CHECK.

(** One slot that has been filled: the counts of bad packets and of those not
    wanted. *)
Definition accept_one (p imask m x : Z) (y : Z * Z) : PKM (Z * Z) :=
  let '(bad, skip) := y in
  b <- mask x ;;
  if negb (imask &? b) then ret y
  else
    cntl <- kat p p_is x ;;
    if negb (cntl &? 128) then free_slot p x ;;; ret (bad + 1, skip)
    else
      kput p p_is x (s8 (Z.lnot (B_COPY + B_MARK))) ;;;
      a <- kat p p_ib x ;; rsize <- kf_ p p_rsize ;;
      c <- chksum p a rsize ;;
      isum <- kat p p_isum x ;;
      if check_ok c cntl isum then
        let seq := Z.land (Z.shiftr cntl 3) MOD8 in
        b <- mask seq ;;
        v <- kat p p_is seq ;;
        if negb (m &? b) || (v &? Z.lor B_COPY B_MARK) then free_slot p x ;;; ret (bad, skip + 1)
        else mark_slot p x seq cntl ;;; ret (bad, skip)
      else free_slot p x ;;; ret (bad + 1, skip).

(** The scan of the window from the packet expected next: [t] is the first
    missing, after which nothing is kept. *)
Definition window_round (p m : Z) (y : Z * Z * Z * Z) : PKM (Z * Z * Z * Z + Z * Z) :=
  let '(x, t, accept, skip) := y in
  b <- mask x ;;
  if negb (m &? b) then ret (inr (accept, skip))
  else
    v <- kat p p_is x ;;
    when (v &? B_MARK) (kput p p_is x (s8 (Z.lor v B_COPY))) ;;;
    v <- kat p p_is x ;;
    nx <- next x ;;
    if v &? B_COPY then
      if 0 <=? t then free_slot p x ;;; ret (inl (nx, t, accept, skip + 1))
      else ret (inl (nx, t, accept + 1, skip))
    else ret (inl (nx, if t <? 0 then x else t, accept, skip)).

Definition pkaccept (p : Z) : PKM Z :=
  s <- kern spl6 ;;
  pr <- kf_ p p_pr ;;
  x <- next pr ;;
  imask <- kf_ p p_imap ;; rcount <- kf_ p p_rcount ;;
  accept <- (if (imask =? 0) && (rcount =? 0) then kern (splx s) ;;; ret 0
             else
               kset_ p p_imap 0 ;;;
               kern (splx s) ;;;
               w <- kf_ p p_rwindow ;;
               let m := window w x in
               y <- loop 9 (fun y : Z * (Z * Z) =>
                      let '(x, y) := y in
                      if x <? 8 then y <- accept_one p imask m x y ;; ret (inl (x + 1, y)) else ret (inr y))
                      (0, (0, 0)) ;;
               let '(bad, skip) := y in
               pr <- kf_ p p_pr ;; x <- next pr ;;
               y <- loop 9 (window_round p m) (x, -1, 0, skip) ;;
               let '(accept, skip) := y in
               (if tst bad then msg_or p M_RJ else when (tst skip) (msg_or p M_RR)) ;;;
               kset_ p p_rcount (s8 accept) ;;;
               ret accept) ;;
  msg <- kf_ p p_msg ;;
  when (tst msg) (pkoutput p) ;;;
  ret accept.

(** ** [pkread] *)

(** What [pkaccept] found, the process asleep until it finds something: nothing
    when the line is down or somebody else reads it. *)
Definition await_packet (tp : nat) (p : Z) : PKM (option Z) :=
  n <- gets (fun s => length (penv s)) ;;
  loop (S n) (fun _ : unit =>
    accept <- pkaccept p ;;
    if negb (accept =? 0) then ret (inr None)
    else
      down <- st_has p DOWN ;;
      if down : bool then kern (uset u_error EIO) ;;; ret (inr (Some (-1)))
      else
        ch <- kern (tf tp t_chan) ;;
        if ch : bool then ret (inr (Some 0)) else pksleep (p + off_pr) PKIPRI ;;; ret (inl tt)) tt.

(** The packet of slot [x] has been read. *)
Definition release_slot (p x : Z) : PKM unit :=
  s <- kern spl6 ;;
  kset_ p p_pr x ;;;
  bp <- kat p p_ib x ;; pool_put p bp ;;;
  kput p p_is x 0 ;;;
  n <- kf_ p p_rcount ;; kset_ p p_rcount (s8 (n - 1)) ;;;
  kern (splx s) ;;;
  msg_or p M_RR.

(** Where the data of slot [x] start. *)
Definition data_start (p x st : Z) : PKM Z :=
  if st &? B_RESID then kf_ p p_rptr
  else
    a <- kat p p_ib x ;;
    if st &? B_SHORT then c <- mem_get a ;; ret (if c &? 128 then a + 2 else a + 1) else ret a.

(** One round of the loop that copies: [count] and [xfr], and whether it goes on. *)
Definition read_round (p : Z) (y : Z * Z) : PKM (Z * Z + Z) :=
  let '(count, xfr) := y in
  ucount <- kern (uf u_count) ;;
  if ucount =? 0 then ret (inr count)
  else
    pr <- kf_ p p_pr ;;
    x <- next pr ;;
    st <- kat p p_is x ;;
    if negb (st &? B_COPY) then ret (inr count)
    else
      isum <- kat p p_isum x ;;
      let cc := if u32 isum <? u32 ucount then isum else s32 ucount in
      if (cc =? 0) && tst xfr then ret (inr count)
      else
        cp <- data_start p x st ;;
        pkmove cp cc B_READ ;;;
        let count := s32 (count + cc) in
        isum <- kat p p_isum x ;; kput p p_isum x (s16 (isum - cc)) ;;;
        isum <- kat p p_isum x ;;
        (if isum =? 0 then release_slot p x
         else
           kset_ p p_rptr (cp + cc) ;;;
           v <- kat p p_is x ;; kput p p_is x (s8 (Z.lor v B_RESID))) ;;;
        ret (if cc =? 0 then inr count else inl (count, s32 (xfr + 1))).

Definition pkread (tp : nat) : PKM Z :=
  p <- paddr tp ;;
  o <- await_packet tp p ;;
  match o with
  | Some count => ret count
  | None =>
      l <- kf_ p p_isum ;;
      count <- loop (S (S (fold_right Nat.add 0%nat (map (fun v => Z.to_nat (u16 v)) l)))) (read_round p) (0, 0) ;;
      pkoutput p ;;;
      ch <- kern (tf tp t_chan) ;;
      if ch : bool then kf_ p p_rcount else ret count
  end.

(** ** [pkwrite] *)

(** [down] *)
Definition write_down (p : Z) : PKM Z :=
  tp <- line_of_pack p ;;
  pg <- kern (tf tp t_pgrp) ;; kern (signal pg SIGPIPE) ;;;
  kern (uset u_error EIO) ;;;
  ret (-1).

(** Room in the window of the other end; whether the line is still up. *)
Definition await_window (p : Z) : PKM bool :=
  n <- gets (fun s => length (penv s)) ;;
  loop (S n) (fun _ : unit =>
    xc <- kf_ p p_xcount ;; sw <- kf_ p p_swindow ;;
    if xc <? sw then ret (inr true)
    else
      pkoutput p ;;;
      pksleep (p + off_ps) PKOPRI ;;;
      down <- st_has p DOWN ;;
      ret (if down : bool then inr false else inl tt)) tt.

(** The one or two bytes that say how many of the packet carry no data. *)
Definition put_count (p cp fc : Z) : PKM Z :=
  mem_put cp (Z.land fc 127) ;;;
  if 127 <? fc then
    c <- mem_get cp ;; mem_put cp (Z.lor c 128) ;;;
    mem_put (cp + 1) (Z.shiftr fc 7) ;;;
    ret (cp + 2)
  else ret (cp + 1).

(** The user's bytes into packet [cp], as many as there are and it takes. *)
Definition put_message (p cp xs ucount : Z) : PKM unit :=
  if s32 ucount <? xs then
    let cc := s32 ucount in
    cp <- put_count p cp (xs - cc) ;; pkmove cp cc B_WRITE
  else pkmove cp xs B_WRITE.

(** Packet [x] is filled from the user and made ready. *)
Definition fill_packet (p x : Z) : PKM unit :=
  bits <- kf_ p p_bits ;;
  cp <- getepack at_bwaiting bits ;; kput p p_ob x cp ;;;
  ucount <- kern (uf u_count) ;;
  xs <- kf_ p p_xsize ;;
  put_message p cp xs ucount ;;;
  a <- kat p p_ob x ;; xs' <- kf_ p p_xsize ;; c <- chksum p a xs' ;; kput p p_osum x c ;;;
  kput p p_os x (if s32 ucount <? xs then B_READY + B_SHORT else B_READY).

Definition write_round (p : Z) : PKM (unit + bool) :=
  s <- kern spl6 ;;
  up <- await_window p ;;
  if negb up then ret (inr false)
  else
    v <- kf_ p p_pscopy ;;
    x <- next v ;;
    os <- kat p p_os x ;;
    if negb (os =? B_NULL) then ret (inr false)
    else
      kput p p_os x B_MARK ;;;
      kset_ p p_pscopy x ;;;
      n <- kf_ p p_xcount ;; kset_ p p_xcount (s8 (n + 1)) ;;;
      kern (splx s) ;;;
      fill_packet p x ;;;
      pkoutput p ;;;
      c <- kern (uf u_count) ;;
      ret (if c =? 0 then inr true else inl tt).

Definition pkwrite (tp : nat) : PKM Z :=
  p <- paddr tp ;;
  live <- st_has p LIVE ;;
  if negb live then write_down p
  else
    count <- kern (uf u_count) ;;
    up <- loop (S (Z.to_nat count)) (fun _ : unit => write_round p) tt ;;
    if up : bool then c <- kern (uf u_count) ;; ret (s32 (count - c)) else write_down p.

(** ** [pk0.c], [pk1.c]: closing *)

Definition pkreset (p : Z) : PKM unit :=
  kset_ p p_rpr 0 ;;; kset_ p p_pr 0 ;;; kset_ p p_ps 0 ;;; kset_ p p_nxtps 1.

Definition pkline (p : Z) : PKM Z :=
  l <- dg pklines ;;
  match list_find (fun q => q = p) l with
  | Some (i, _) => ret (Z.of_nat i)
  | None => ret (- Z.of_nat (length l))
  end.

(** The device gives back the packet it was filling. *)
Definition pkturnoff (tp : nat) : PKM unit :=
  p <- paddr tp ;;
  s <- kern spl6 ;;
  bp <- kf_ p p_io ;;
  kern (tset tp t_line 0) ;;;
  q1_set tp c_cf 0 ;;;
  kern (flushtty tp) ;;;
  when (tst bp) (pool_put p bp) ;;;
  kern (splx s).

Definition pklive (p : Z) : PKM Z :=
  tp <- line_of_pack p ;;
  line <- kern (tf tp t_line) ;; disc <- dg pkdisc ;; q <- paddr tp ;;
  if negb (line =? disc) || negb (q =? p) then ret 0
  else st <- kern (tf tp t_state) ;; ret (Z.land st CARR_ON).

(** Letting the output drain, as long as the other end takes it. *)
Definition flush_round (p : Z) (i : Z) : PKM (Z + unit) :=
  xc <- kf_ p p_xcount ;; st <- kf_ p p_state ;;
  if tst xc && (st &? LIVE) then
    if st &? (RCLOSE + DOWN) then ret (inr tt)
    else if NTRIES <? i + 1 then ret (inr tt)
    else pkoutput p ;;; pksleep (p + off_ps) PKOPRI ;;; ret (inl (i + 1))
  else ret (inr tt).

(** Exchanging CLOSE. *)
Definition close_round (p : Z) (i : Z) : PKM (Z + unit) :=
  rc <- st_has p RCLOSE ;;
  if negb rc && (i <? NTRIES) then
    kset_ p p_msg M_CLOSE ;;;
    kset_ p p_timer 2 ;;;
    pkoutput p ;;;
    pksleep (p + off_ps) PKOPRI ;;;
    ret (inl (i + 1))
  else ret (inr tt).

Definition shut (p : Z) : PKM unit :=
  st_or p DRAINO ;;;
  s <- kern spl6 ;;
  live <- pklive p ;;
  if live =? 0 then kset_ p p_state DOWN ;;; kern (splx s)
  else
    kset_ p p_timer 2 ;;;
    loop (S (S (Z.to_nat NTRIES))) (flush_round p) 0 ;;;
    kset_ p p_timer 0 ;;;
    st_or p DOWN ;;;
    kern (splx s) ;;;
    loop (S (Z.to_nat NTRIES)) (close_round p) 0.

(** The packets of the eight slots of either direction, and the pool. *)
Definition free_slots (p rbits i : Z) : PKM unit :=
  os <- kat p p_os i ;;
  when (negb (os =? B_NULL))
    (a <- kat p p_ob i ;; bits <- kf_ p p_bits ;; freepack at_bwaiting a bits ;;;
     n <- kf_ p p_xcount ;; kset_ p p_xcount (s8 (n - 1))) ;;;
  v <- kat p p_is i ;;
  when (negb (v =? B_NULL)) (a <- kat p p_ib i ;; freepack at_bwaiting a rbits).
Definition pool_round (p rbits : Z) (_ : unit) : PKM (unit + unit) :=
  bp <- kf_ p p_ipool ;;
  if bp =? 0 then ret (inr tt)
  else v <- ptr_get bp ;; kset_ p p_ipool v ;;; freepack at_bwaiting bp rbits ;;; ret (inl tt).

Definition pkclose (tp : nat) : PKM unit :=
  p <- paddr tp ;;
  shut p ;;;
  pkturnoff tp ;;;
  rsize <- kf_ p p_rsize ;; rbits <- dtom rsize ;;
  for_ (seqZ 0 8) (free_slots p rbits) ;;;
  s <- kern spl6 ;;
  loop (S (NBLOCKS * 16)) (pool_round p rbits) tt ;;;
  kern (splx s) ;;;
  l <- dg pklines ;; dset pklines (map (fun q => if q =? p then 0 else q) l) ;;;
  n <- dg npbits ;; pdel p ;;; freepack at_bwaiting p n.

(** ** [pk1.c]: the timer *)

(** [startup] *)
Definition timer_start (p : Z) : PKM unit :=
  pkwakeup (p + off_ps) ;;;
  r <- kf_ p p_rmsg ;; msg_or p r ;;;
  msg <- kf_ p p_msg ;;
  when (tst msg) (pkoutput p).

(** The timer of a connection has run out. *)
Definition timer_out (p : Z) : PKM unit :=
  st <- kf_ p p_state ;;
  (if negb (st &? LIVE) then kset_ p p_timer 1
   else when (st &? WAITO)
     ((if st &? DRAINO then st_or p DOWN else st_or p RXMIT) ;;;
      pkoutput p ;;;
      z <- dg pkzot ;; kset_ p p_timer (s8 (5 + 2 * z)))) ;;;
  timer_start p.

(** A connection at a tick of the driver's timer. *)
Definition timer_one (p : Z) : PKM unit :=
  nout <- kf_ p p_nout ;; tout <- kf_ p p_tout ;;
  (if nout =? tout then
     xc <- kf_ p p_xcount ;; t <- kf_ p p_timer ;;
     when (tst xc && (t =? 0)) (kset_ p p_timer 3 ;;; st_or p WAITO)
   else kset_ p p_tout nout) ;;;
  t <- kf_ p p_timer ;;
  if t =? 0 then
    bad <- st_has p BADFRAME ;;
    if bad : bool then
      msg_or p M_RJ ;;; st_clr p BADFRAME ;;;
      kset_ p p_timer 1 ;;; timer_start p
    else
      r <- kf_ p p_rmsg ;;
      if tst r then kset_ p p_timer 1 ;;; timer_start p else pkwakeup (p + off_ps)
  else
    kset_ p p_timer (s8 (t - 1)) ;;;
    when (s8 (t - 1) =? 0) (timer_out p).

Definition pktimeout : PKM unit :=
  for_ (seq 0 NPLINES) (fun i =>
    l <- dg pklines ;; p <- the (l !! i) ;;
    when (tst p) (timer_one p)) ;;;
  l <- dg pklines ;; p <- the (l !! Nat.pred NPLINES) ;;
  kern (timeout pktimeout_fn p 60) ;;;
  t <- kern (kf time) ;;
  dset pkzot (Z.land (2 + t) 7).

(** ** [pk1.c]: opening *)

Definition pksetgrp (tp : nat) : PKM unit :=
  kern (pp <- uf u_procp ;;
        pg <- pf pp p_pgrp ;;
        when (pg =? 0) (pid <- pf pp p_pid ;; pset pp p_pgrp pid) ;;;
        tg <- tf tp t_pgrp ;;
        when (tg =? 0) (pg <- pf pp p_pgrp ;; tset tp t_pgrp pg)).

(** [struct piocb]: [t], [psize], [mode], [state], [window], and a byte that
    nobody names; the two fields left unset hold what lay there. *)
Definition piocb_out (psize state window : Z) : list Z :=
  sub 0 4 (junk 2) ++ bytes_of 2 psize ++ sub 6 2 (junk 2) ++ bytes_of 2 state ++ [u8 window] ++ sub 11 1 (junk 2).

Definition pkioctl (com : Z) (tp : nat) (addr : Z) : PKM unit :=
  p <- paddr tp ;;
  when (com =? DIOCGETP)
    (w <- kf_ p p_swindow ;; n <- kf_ p p_xsize ;; st <- kf_ p p_state ;;
     kern (copyout_err (piocb_out n st w) addr) ;;;
     e <- kern (uf u_error) ;;
     when (e =? 0) (kern (uset u_r_val1 n))).

(** The packets of the input window, put into the pool; the last of them. *)
Definition fill_pool (p : Z) : PKM (nat * option Z) :=
  loop 129 (fun x : nat * option Z =>
    let '(i, bp) := x in
    w <- kf_ p p_rwindow ;;
    if negb (Z.of_nat i <? w) then ret (inr (i, bp))
    else
      bits <- kf_ p p_bits ;; bp <- getepack at_bwaiting bits ;;
      if bp =? 0 then ret (inr (i, Some bp))
      else pool_put p bp ;;; ret (inl (S i, Some bp)))
    (0%nat, None).

(** The first free line of the driver. *)
Definition take_line (p : Z) : PKM bool :=
  l <- dg pklines ;;
  match list_find (fun q => q = 0) l with
  | Some (i, _) => dset pklines (<[i := p]> l) ;;; ret true
  | None => ret false
  end.

(** The connection as the user's [piocb] asks for it; whether the driver can
    serve it. *)
Definition new_pack (l : list Z) : PKM (option Z) :=
  let short off := s16 (leval (sub off 2 l)) in
  n <- dtom sizeof_pack ;; dset npbits n ;;;
  p <- getepack at_bwaiting n ;;
  if p =? 0 then ret None
  else
    modify (fun s => s <| pk ::= fun d => d <| packs ::= <[p := pack0]> |> |>) ;;;
    kset_ p p_rwindow (s8 (leval (sub 10 1 l))) ;;;
    mw <- dg maxwindow ;; w <- kf_ p p_rwindow ;;
    when (mw <? w) (kset_ p p_rwindow (s8 mw)) ;;;
    kset_ p p_rsize (short 4%nat) ;;;
    r <- kf_ p p_rsize ;;
    if (512 <? r) || (r &? 31) then ret None
    else
      kset_ p p_mode (s8 (short 6%nat)) ;;;
      m <- kf_ p p_mode ;;
      when (m &? 1) (d <- dg pkdebug ;; dset pkdebug (s32 (d + 1))) ;;;
      b <- dtom r ;; kset_ p p_bits (s16 b) ;;;
      x <- fill_pool p ;;
      let '(i, bp) := x in
      let bp := match bp with Some bp => bp | None => leval (sub 0 4 (junk 3)) end in
      if Nat.eqb i 0 && (bp =? 0) then ret None
      else kset_ p p_rwindow (s8 (Z.of_nat i)) ;;; ret (Some p).

(** The line becomes the connection's. *)
Definition attach (tp : nat) (p t : Z) : PKM bool :=
  kern (flushtty tp) ;;;
  s <- kern spl6 ;;
  kern (tset tp t_line (s8 t)) ;;;
  dset pkdisc (s8 t) ;;;
  kset_ p p_ttyp (Some tp) ;;;
  l <- dg linep ;; dset linep (<[tp := p]> l) ;;;
  q2_set tp c_cl 0 ;;; q2_set tp c_cf 0 ;;;
  q1_set tp c_cl (p + off_ihbuf) ;;; q1_set tp c_cf (p + off_ihbuf) ;;;
  q1_set tp c_cc (- Z.of_nat HDRSIZ) ;;;
  iproc tp ;;;
  kset_ p p_rmsg (s8 M_INITA) ;;;
  found <- take_line p ;;
  if negb found then ret false
  else
    t <- kf_ p p_timer ;; kset_ p p_timer (s8 (t + 1)) ;;;
    on <- dg timer_on ;;
    when (on =? 0) (dset timer_on 1 ;;; pktimeout) ;;;
    kern (splx s) ;;;
    ret true.

Definition pkopen (tp : nat) (addr : Z) : PKM unit :=
  line <- kern (tf tp t_line) ;;
  if tst line then ret tt
  else
    k <- kern (kf (fun k => k)) ;;
    let '(l, ok) := copyin k (u32 addr) 12 in
    if negb ok then kern (uset u_error EFAULT)
    else
      o <- new_pack l ;;
      ok <- (match o with
             | None => ret false
             | Some p =>
                 found <- attach tp p (leval (sub 0 4 l)) ;;
                 if negb found then ret false
                 else
                   pksleep p PKOPRI ;;;
                   pkreset p ;;;
                   live <- st_has p LIVE ;;
                   if negb live then kset_ p p_state DOWN ;;; kset_ p p_rmsg 0 ;;; ret false
                   else pksetgrp tp ;;; pkioctl DIOCGETP tp addr ;;; ret true
             end) ;;
      when (negb ok) (kern (uset u_error ENXIO)).
End Pk.
