(* ===== verification/Packets.v ===== *)
(** * Packets: what the packet driver promises

    Lemmas on the steps of [Pkmem] and [Pk], and the properties of the driver:
    how a connection comes to life, what a header and a short packet say to the
    other end, which packets pass the check, and where the pool of packets puts
    them. *)

From S2P Require Import Prelude Bytes Callout Clist State Utab Sched Bio Rdwri Fio SysFile Ports Tty Pkmem Pk.

(** A record given by its members, after an update. *)
Ltac flat_in A B C D E := cbn [setf p_state p_bits p_rsize p_xsize p_ihbuf p_ohbuf p_rptr p_mode p_ipool p_io p_xcount p_rcount
  p_nout p_tout p_lpsize p_timer p_obusy p_rwindow p_swindow p_msg p_rmsg p_ps p_pr p_rpr p_nxtps p_imap p_pscopy
  p_ob p_ib p_os p_is p_osum p_isum p_ttyp] in A, B, C, D, E.
Ltac flat := cbn beta; cbn [setf p_state p_bits p_rsize p_xsize p_ihbuf p_ohbuf p_rptr p_mode p_ipool p_io p_xcount p_rcount
  p_nout p_tout p_lpsize p_timer p_obusy p_rwindow p_swindow p_msg p_rmsg p_ps p_pr p_rpr p_nxtps p_imap p_pscopy
  p_ob p_ib p_os p_is p_osum p_isum p_ttyp].

(** ** Steps *)

(** The state with another record for connection [p]. *)
Definition setpack (p : Z) (r : pack) (s : pkw) : pkw := s <| pk ::= fun d => d <| packs ::= <[p := r]> |> |>.

Section Steps.
Context {MC : Machine}.

Lemma setpack_twice p r1 r2 s : setpack p r2 (setpack p r1 s) = setpack p r2 s.
Proof. unfold setpack. cbn. by rewrite insert_insert_eq. Qed.
Lemma setpack_at p r s : packs (pk (setpack p r s)) !! p = Some r.
Proof. unfold setpack. cbn. by rewrite lookup_insert_eq. Qed.
Lemma setpack_kw p r s : kw (setpack p r s) = kw s.
Proof. done. Qed.

Lemma kern_ok {A} (m : KM A) s a w : m (kw s) = Ret a w -> kern m s = Ret a (s <| kw := w |>).
Proof. intros E. unfold kern. by rewrite E. Qed.
Lemma kf_pack_ok {A} p (f : pack -> A) s r : packs (pk s) !! p = Some r -> kf_ p f s = Ret (f r) s.
Proof. intros E. unfold kf_, pget, dg, gets, bind. by rewrite E. Qed.
Lemma kset_pack_ok {T} p (f : pack -> T) {S : Setter f} v s r : packs (pk s) !! p = Some r ->
  kset_ p f v s = Ret tt (setpack p (setf f (fun _ => v) r) s).
Proof. intros E. unfold kset_, pget, dg, gets, bind. by rewrite E. Qed.
Lemma kat_ok p (f : pack -> list Z) i v s r : packs (pk s) !! p = Some r ->
  0 <= i -> f r !! Z.to_nat i = Some v -> kat p f i s = Ret v s.
Proof.
  intros E Hi Hv. unfold kat. erewrite bind_ret_eq by by apply kf_pack_ok. cbn beta.
  rewrite (proj2 (Z.ltb_ge _ _)) by done. by rewrite Hv.
Qed.
Lemma kput_ok p (f : pack -> list Z) {S : Setter f} i v v0 s r : packs (pk s) !! p = Some r ->
  0 <= i -> f r !! Z.to_nat i = Some v0 ->
  kput p f i v s = Ret tt (setpack p (setf f (fun _ => <[Z.to_nat i := v]> (f r)) r) s).
Proof.
  intros E Hi Hv. unfold kput. erewrite bind_ret_eq by by eapply kat_ok. cbn beta.
  erewrite bind_ret_eq by by apply kf_pack_ok. cbn beta. by apply kset_pack_ok.
Qed.
Lemma msg_or_ok p m s r : packs (pk s) !! p = Some r ->
  msg_or p m s = Ret tt (setpack p (r <| p_msg := s8 (Z.lor (p_msg r) m) |>) s).
Proof. intros E. unfold msg_or. erewrite bind_ret_eq by by apply kf_pack_ok. by apply kset_pack_ok. Qed.
Lemma st_or_ok p m s r : packs (pk s) !! p = Some r ->
  st_or p m s = Ret tt (setpack p (r <| p_state := s16 (Z.lor (p_state r) m) |>) s).
Proof. intros E. unfold st_or. erewrite bind_ret_eq by by apply kf_pack_ok. by apply kset_pack_ok. Qed.
Lemma st_clr_ok p m s r : packs (pk s) !! p = Some r ->
  st_clr p m s = Ret tt (setpack p (r <| p_state := s16 (clr (p_state r) m) |>) s).
Proof. intros E. unfold st_clr. erewrite bind_ret_eq by by apply kf_pack_ok. by apply kset_pack_ok. Qed.
Lemma st_has_ok p m s r : packs (pk s) !! p = Some r -> st_has p m s = Ret (p_state r &? m) s.
Proof. intros E. unfold st_has. by erewrite bind_ret_eq by by apply kf_pack_ok. Qed.
End Steps.

(** ** A connection comes to life *)

(** Whether connection [p] is live; [None] where there is none. *)
Definition lives (p : Z) (s : pkw) : option bool := (fun r => p_state r &? LIVE) <$> packs (pk s) !! p.

Section Life.
Context {MC : Machine} (p : Z).

Lemma kept_kern {A} (m : KM A) : keeps (lives p) (kern m).
Proof. intros s a s' E. unfold kern in E. destruct (m (kw s)); try done. by injection E as _ <-. Qed.
Lemma kept_dg {A} (f : pkstate -> A) : keeps (lives p) (dg f).
Proof. apply keeps_gets. Qed.
Lemma kept_kf {A} q (f : pack -> A) : keeps (lives p) (kf_ q f).
Proof. unfold kf_, pget. keep. Qed.
(** A member other than the state, and the state where its bit stays. *)
Lemma kept_set {T} q (f : pack -> T) {S : Setter f} v s r s' : packs (pk s) !! q = Some r ->
  p_state (setf f (fun _ => v) r) &? LIVE = p_state r &? LIVE -> kset_ q f v s = Ret tt s' -> lives p s' = lives p s.
Proof.
  intros Er Hf. erewrite kset_pack_ok by exact Er. intros [= <-].
  unfold lives. destruct (decide (q = p)) as [->|Hq].
  - rewrite setpack_at, Er. apply (f_equal Some). exact Hf.
  - unfold setpack. cbn. by rewrite lookup_insert_ne by done.
Qed.
Lemma kset_has {T} q (f : pack -> T) {S : Setter f} v s x s' : kset_ q f v s = Ret x s' ->
  exists r, packs (pk s) !! q = Some r.
Proof.
  unfold kset_, pget, dg, gets, bind, the. destruct (packs (pk s) !! q) as [r|]; [by exists r|done].
Qed.
Lemma kept_other {T} q (f : pack -> T) {S : Setter f} v :
  (forall r, p_state (setf f (fun _ => v) r) = p_state r) -> keeps (lives p) (kset_ q f v).
Proof.
  intros Hf s [] s' E. destruct (kset_has q f v s tt s' E) as [r Er]. eapply kept_set; [exact Er| |exact E].
  by rewrite Hf.
Qed.
Lemma live_bit x : s16 x &? LIVE = x &? LIVE.
Proof.
  unfold tst. do 2 f_equal. apply Z.bits_inj'; intros i Hi. rewrite !Z.land_spec.
  destruct (decide (i = 3)) as [->|Hn]; [by rewrite (wrapS_testbit 16) by lia|].
  replace (Z.testbit LIVE i) with false; [by rewrite !andb_false_r|].
  change LIVE with (2 ^ 3). by rewrite Z.pow2_bits_false by lia.
Qed.
(** [pk->p_state] set to what [g] makes of it. *)
Lemma kept_state q (g : Z -> Z) : (forall x, Z.land (g x) LIVE = Z.land x LIVE) ->
  keeps (lives p) (v <- kf_ q p_state ;; kset_ q p_state (s16 (g v))).
Proof.
  intros Hg s [] s' E. apply bind_inv_ret in E as (v & s1 & E1 & E2).
  rewrite <- (kept_kf q p_state s v s1 E1). destruct (kset_has _ _ _ _ _ _ E2) as [r Er].
  refine (kept_set q p_state _ _ _ _ Er _ E2). cbn [setf p_state]. rewrite live_bit. unfold tst. rewrite Hg.
  unfold kf_, pget, dg, gets, bind, the, ret in E1. destruct (packs (pk s) !! q) eqn:Eq; [|done].
  injection E1 as <- <-. by rewrite Er in Eq; injection Eq as <-.
Qed.
Lemma kept_or q m : Z.land m LIVE = 0 -> keeps (lives p) (st_or q m).
Proof. intros Hm. apply (kept_state q (fun v => Z.lor v m)). intros x. by apply lor_keep. Qed.
Lemma kept_clr q m : Z.land m LIVE = 0 -> keeps (lives p) (st_clr q m).
Proof. intros Hm. apply (kept_state q (fun v => clr v m)). intros x. by apply clr_keep. Qed.
Lemma kept_dset {T} (f : pkstate -> T) {S : Setter f} v :
  (forall d, packs (setf f (fun _ => v) d) = packs d) -> keeps (lives p) (dset f v).
Proof. intros Hf. apply keeps_modify. intros s. unfold lives. cbn. by rewrite Hf. Qed.
End Life.

#[local] Hint Resolve kept_kern kept_dg kept_kf : keeps.
#[local] Hint Extern 1 (keeps (lives _) (kset_ _ _ _)) => (apply kept_other; intros []; reflexivity) : keeps.
#[local] Hint Extern 1 (keeps (lives _) (st_or _ _)) => (apply kept_or; reflexivity) : keeps.
#[local] Hint Extern 1 (keeps (lives _) (st_clr _ _)) => (apply kept_clr; reflexivity) : keeps.
#[local] Hint Extern 1 (keeps (lives _) (dset _ _)) => (apply kept_dset; intros []; reflexivity) : keeps.

Section Living.
Context {MC : Machine} (at_bwaiting : Z) (oproc : nat -> PKM unit) (junk : nat -> list Z) (p : Z).
Context (oproc_keeps : forall tp, keeps (lives p) (oproc tp)).
#[local] Hint Resolve oproc_keeps : keeps.

Lemma kept_output q : keeps (lives p) (pkoutput oproc junk q).
Proof. keep. Qed.
Lemma kept_sack q : keeps (lives p) (pksack at_bwaiting q).
Proof. keep. Qed.
#[local] Hint Resolve kept_output kept_sack : keeps.
Lemma kept_bad q : keeps (lives p) (pkbadframe q).
Proof. keep. Qed.
Lemma kept_case q cntl val : cntl <> INITC -> cntl <> CLOSE -> keeps (lives p) (control_case at_bwaiting q cntl val).
Proof.
  intros HC HD. unfold control_case. rewrite (proj2 (Z.eqb_neq cntl INITC)), (proj2 (Z.eqb_neq cntl CLOSE)) by done.
  keep.
Qed.
#[local] Hint Resolve kept_bad kept_case : keeps.

(** CLOSE leaves it dead. *)
Lemma closed_case val : forall s a s', control_case at_bwaiting p CLOSE val s = Ret a s' -> lives p s' = Some false.
Proof.
  intros s a s' E. unfold control_case in E. change (CLOSE =? INITB) with false in E. change (CLOSE =? INITC) with false in E.
  change (CLOSE =? INITA) with false in E. change ((CLOSE =? RJ) || (CLOSE =? RR)) with false in E.
  change (CLOSE =? CLOSE) with true in E. cbn match in E. apply bind_inv_ret in E as ([] & s1 & E1 & E).
  cbn beta in E. assert (lives p s1 = Some false) as H1.
  { destruct (kset_has _ _ _ _ _ _ E1) as [r Er]. rewrite (kset_pack_ok _ _ _ _ _ Er) in E1. injection E1 as <-.
    unfold lives. by rewrite setpack_at. }
  match type of E with ?m s1 = _ => assert (keeps (lives p) m) as K by keep end. rewrite (K _ _ _ E). exact H1.
Qed.
(** INITC makes it live only if it was opening with both ends heard. *)
Lemma ready_needs val s a s' : control_case at_bwaiting p INITC val s = Ret a s' -> lives p s = Some false ->
  lives p s' = Some true -> exists r, packs (pk s) !! p = Some r /\ Z.land (p_state r) INITab = INITab.
Proof.
  intros E H0 H1. unfold control_case in E. change (INITC =? INITB) with false in E. change (INITC =? INITC) with true in E.
  cbn match in E. unfold lives in H0. destruct (packs (pk s) !! p) as [r|] eqn:Er; [|done]. exists r. split; [done|].
  rewrite (bind_ret_eq _ _ _ _ _ (kf_pack_ok p p_state s r Er)) in E.
  destruct (Z.eqb_spec (Z.land (p_state r) INITab) INITab) as [|Hn]; [done|]. exfalso.
  match type of E with ?m s = _ => assert (keeps (lives p) m) as K by keep end.
  apply K in E. rewrite H1 in E. unfold lives in E. rewrite Er in E. by rewrite H0 in E.
Qed.
End Living.

Section Alive.
Context {MC : Machine} (at_bwaiting : Z) (oproc : nat -> PKM unit) (junk : nat -> list Z) (p : Z).
Context (oproc_keeps : forall tp, keeps (lives p) (oproc tp)).

(** Whatever character comes in as a control message, it can bring a
    connection to life only if it is INITC and both INITA and INITB have come
    before: no other message, no bad frame and no acknowledgement does. *)
Theorem alive_by_initc (cntl : Z) (s s' : pkw) :
  pkcntl at_bwaiting oproc junk cntl p s = Ret tt s' -> lives p s = Some false -> lives p s' = Some true ->
  Z.land cntl 192 = 0 /\ Z.shiftr cntl 3 = INITC /\
  exists r, packs (pk s) !! p = Some r /\ Z.land (p_state r) INITab = INITab.
Proof.
  intros E H0 H1. unfold pkcntl in E. cbv zeta in E. destruct (cntl &? 192) eqn:E6.
  { apply (kept_bad p) in E. congruence. }
  apply tst_false in E6. split; [done|].
  apply bind_inv_ret in E as ([] & s1 & E1 & E). pose proof (kept_clr p p BADFRAME eq_refl _ _ _ E1) as K1. rewrite H0 in K1.
  apply bind_inv_ret in E as (m & s2 & E2 & E). pose proof (kept_kf p p p_msg _ _ _ E2) as K2. rewrite K1 in K2.
  apply bind_inv_ret in E as (over & s3 & E3 & E).
  assert (lives p s3 = Some true) as K3.
  { rewrite <- H1. symmetry. revert E. generalize s3 s'. destruct over.
    - by intros ? ? [= <-].
    - intros t t' E. match type of E with ?c t = _ => assert (keeps (lives p) c) as K end; [|by apply K in E].
      keep_step; [keep|]. intros msg. keep_step; [keep|]. intros _. keep_step; [keep|]. intros x.
      apply keeps_when, kept_output, oproc_keeps. }
  destruct (decide (Z.shiftr cntl 3 = CLOSE)) as [Hc|Hc].
  { rewrite Hc in E3. apply closed_case in E3. congruence. }
  destruct (decide (Z.shiftr cntl 3 = INITC)) as [Hi|Hi].
  - rewrite Hi in E3. split; [done|]. eapply ready_needs in E3 as (r & Er & Hr); [|done|done].
    unfold lives in H0. destruct (packs (pk s) !! p) as [r0|] eqn:E0; [|done]. exists r0. split; [done|].
    rewrite (st_clr_ok _ _ _ _ E0) in E1. injection E1 as <-.
    rewrite (kf_pack_ok _ _ _ _ (setpack_at p _ s)) in E2. injection E2 as _ <-.
    rewrite setpack_at in Er. injection Er as <-. revert Hr. cbn [setf p_state]. intros Hr.
    apply Z.bits_inj'; intros i Hi0. apply (f_equal (fun z => Z.testbit z i)) in Hr. revert Hr.
    rewrite !Z.land_spec. destruct (Z.lt_ge_cases i 2).
    + unfold s16. rewrite wrapS_testbit by lia. unfold clr. rewrite Z.land_spec, Z.lnot_spec by lia.
      change BADFRAME with (2 ^ 13). rewrite Z.pow2_bits_false by lia. cbn [negb]. by rewrite andb_true_r.
    + change INITab with (Z.ones 2). by rewrite Z.ones_spec_high, !andb_false_r by lia.
  - exfalso. pose proof (kept_case at_bwaiting p p _ _ Hi Hc _ _ _ E3). congruence.
Qed.
End Alive.


(** ** A line to the other end

    What the driver relies on for line [tp]: it has framing imposed on it
    ([t_line] 1), its device starts the output it is told to, and [wakeup]
    returns; the level of the processor and the line's output queue are the
    driver's to set. *)
Class Line {MC : Machine} (tp : nat) (oproc : nat -> PKM unit) (fine : world -> Prop) := {
  line_tty w : fine w -> exists t, ttys (ks w) !! tp = Some t /\ t_line t = 1;
  line_pl w n : fine w -> fine (w <| ks ::= fun k => k <| pl := n |> |>);
  line_outq w t q : fine w -> ttys (ks w) !! tp = Some t ->
    fine (w <| ks ::= fun k => k <| ttys ::= <[tp := t <| t_outq := q |>]> |> |>);
  line_wakeup w c : fine w -> exists w', wakeup (CRaw c) w = Ret tt w' /\ fine w';
  line_start s : fine (kw s) -> exists w', oproc tp s = Ret tt (s <| kw := w' |>) /\ fine w'
}.

Section Line.
Context {MC : Machine} {tp : nat} {oproc : nat -> PKM unit} {fine : world -> Prop} {LI : Line tp oproc fine}.
Context (at_bwaiting : Z) (junk : nat -> list Z).

(** The connection [p] with record [r] on a fine kernel [w]. *)
Definition on (p : Z) (r : pack) (w : world) (s : pkw) : pkw := setpack p r s <| kw := w |>.

Lemma on_at p r w s : packs (pk (on p r w s)) !! p = Some r.
Proof. apply (setpack_at p r s). Qed.
Lemma on_set p r r' w s : setpack p r' (on p r w s) = on p r' w s.
Proof. unfold on, setpack. cbn. by rewrite insert_insert_eq. Qed.
Lemma on_kw p r w w' s : (on p r w s) <| kw := w' |> = on p r w' s.
Proof. done. Qed.
Lemma on_id p r s : packs (pk s) !! p = Some r -> s = on p r (kw s) s.
Proof. intros E. unfold on, setpack. destruct s as [k [] pe]. cbn in *. by rewrite insert_id by done. Qed.

Lemma on_kern {A} (m : KM A) p r w s a w' : m w = Ret a w' -> kern m (on p r w s) = Ret a (on p r w' s).
Proof. intros E. by apply (kern_ok m (on p r w s)). Qed.
Lemma on_kf {A} p (f : pack -> A) r w s : kf_ p f (on p r w s) = Ret (f r) (on p r w s).
Proof. apply kf_pack_ok, on_at. Qed.
Lemma on_kset {T} p (f : pack -> T) {S : Setter f} v r w s :
  kset_ p f v (on p r w s) = Ret tt (on p (setf f (fun _ => v) r) w s).
Proof. erewrite kset_pack_ok by apply on_at. by rewrite on_set. Qed.
Lemma on_kat p (f : pack -> list Z) i v r w s : 0 <= i -> f r !! Z.to_nat i = Some v ->
  kat p f i (on p r w s) = Ret v (on p r w s).
Proof. apply kat_ok, on_at. Qed.
Lemma on_msg p m r w s : msg_or p m (on p r w s) = Ret tt (on p (r <| p_msg := s8 (Z.lor (p_msg r) m) |>) w s).
Proof. erewrite msg_or_ok by apply on_at. by rewrite on_set. Qed.
Lemma on_or p m r w s : st_or p m (on p r w s) = Ret tt (on p (r <| p_state := s16 (Z.lor (p_state r) m) |>) w s).
Proof. erewrite st_or_ok by apply on_at. by rewrite on_set. Qed.
Lemma on_clr p m r w s : st_clr p m (on p r w s) = Ret tt (on p (r <| p_state := s16 (clr (p_state r) m) |>) w s).
Proof. erewrite st_clr_ok by apply on_at. by rewrite on_set. Qed.
Lemma on_has p m r w s : st_has p m (on p r w s) = Ret (p_state r &? m) (on p r w s).
Proof. apply st_has_ok, on_at. Qed.

Lemma on_wakeup p r w s c : fine w -> exists w', pkwakeup c (on p r w s) = Ret tt (on p r w' s) /\ fine w'.
Proof. intros (w' & E & F)%(line_wakeup w c). exists w'. split; [by apply on_kern|done]. Qed.
Lemma on_spl6 p r w s : kern spl6 (on p r w s) = Ret (pl (ks w)) (on p r (w <| ks ::= fun k => k <| pl := 6 |> |>) s).
Proof. by apply on_kern. Qed.
Lemma on_splx p r w s n : kern (splx n) (on p r w s) = Ret tt (on p r (w <| ks ::= fun k => k <| pl := n |> |>) s).
Proof. by apply on_kern. Qed.
Lemma on_line p r w s : p_ttyp r = Some tp -> line_of_pack p (on p r w s) = Ret tp (on p r w s).
Proof. intros E. unfold line_of_pack. erewrite bind_ret_eq by apply on_kf. cbn beta. by rewrite E. Qed.
Lemma on_q3 {T} p r w s (f : clist -> T) {S : Setter f} v : fine w ->
  exists w', q3_set tp f v (on p r w s) = Ret tt (on p r w' s) /\ fine w'.
Proof.
  intros F. destruct (line_tty w F) as (t & Et & _). eexists. split.
  - apply on_kern. by apply (tmod_ok ttys).
  - by apply (line_outq w t (setf f (fun _ => v) (t_outq t))).
Qed.
Lemma on_tf {T} p r w s (f : tty -> T) t : ttys (ks w) !! tp = Some t ->
  kern (tf tp f) (on p r w s) = Ret (f t) (on p r w s).
Proof. intros E. apply on_kern. by apply (tfield_ok ttys). Qed.

(** *** A header goes out *)

(** The six bytes: the size, the check, the control byte and their sum. *)
Definition header (k check cntl : Z) : list Z :=
  let lo := s8 (CHECK - check) in
  let hi := s8 (Z.shiftr (s16 (CHECK - check)) 8) in
  [SYN; k; lo; hi; cntl; Z.lxor (Z.lxor (Z.lxor k lo) hi) cntl].

Lemma s8_s16 x : s8 (s16 x) = s8 x.
Proof.
  unfold s8, s16, wrapS. f_equal.
  change (2 ^ (16 - 1)) with 32768; change (2 ^ 16) with 65536; change (2 ^ (8 - 1)) with 128; change (2 ^ 8) with 256.
  rewrite (Zplus_mod _ 128), (Zplus_mod x 128). f_equal. f_equal.
  rewrite Zminus_mod, Z.mod_mod_divide by by exists 256.
  rewrite <- Zminus_mod. f_equal. lia.
Qed.

Lemma pkxstart_control p cntl r w s : fine w -> p_ttyp r = Some tp ->
  exists w', pkxstart oproc junk p cntl (-1) (on p r w s) =
             Ret tt (on p (r <| p_ohbuf := header 9 (s8 cntl) (s8 cntl) |>) w' s) /\ fine w'.
Proof.
  intros F Et. destruct (line_tty w F) as (t & Ht & H1). unfold pkxstart. cbv zeta.
  rewrite (bind_ret_eq _ _ _ tp (on p r w s)) by by apply on_line. cbn beta.
  rewrite (bind_ret_eq _ _ _ 1 (on p r w s)) by (rewrite <- H1; by apply on_tf). cbn beta iota.
  change (1 =? 1) with true. change (-1 <? 0) with true. cbn match.
  destruct (on_q3 p r w s c_cl 0 F) as (w1 & E1 & F1).
  rewrite !bind_assoc. rewrite (bind_ret_eq _ _ _ tt (on p r w1 s)) by exact E1. cbn beta.
  rewrite (bind_ret_eq _ _ _ (9, s8 cntl) (on p r w1 s)) by done. cbn beta iota. rewrite s8_s16.
  erewrite !bind_assoc, bind_ret_eq by apply on_kset. cbn beta.
  destruct (on_q3 p (r <| p_ohbuf := header 9 (s8 cntl) (s8 cntl) |>) w1 s c_cc (- Z.of_nat HDRSIZ) F1) as (w2 & E2 & F2).
  rewrite (bind_ret_eq _ _ _ tt _ E2). cbn beta.
  destruct (on_q3 p (r <| p_ohbuf := header 9 (s8 cntl) (s8 cntl) |>) w2 s c_cf (p + off_ohbuf) F2) as (w3 & E3 & F3).
  rewrite (bind_ret_eq _ _ _ tt _ E3). cbn beta.
  by apply (line_start (on p _ w3 s)).
Qed.

(** The header of packet [x]. *)
Lemma pkxstart_packet p cntl x c a r w s : fine w -> p_ttyp r = Some tp -> 0 <= x ->
  p_osum r !! Z.to_nat x = Some c -> p_ob r !! Z.to_nat x = Some a ->
  exists w', pkxstart oproc junk p cntl x (on p r w s) =
    Ret tt (on p (r <| p_ohbuf := header (p_lpsize r) (s16 (Z.lxor c (s8 cntl))) (s8 cntl) |>) w' s) /\ fine w'.
Proof.
  intros F Et Hx Hc Ha. destruct (line_tty w F) as (t & Ht & H1). unfold pkxstart. cbv zeta.
  rewrite (bind_ret_eq _ _ _ tp (on p r w s)) by by apply on_line. cbn beta.
  rewrite (bind_ret_eq _ _ _ 1 (on p r w s)) by (rewrite <- H1; by apply on_tf). cbn beta iota.
  change (1 =? 1) with true. rewrite (proj2 (Z.ltb_ge x 0)) by done. cbn match. rewrite !bind_assoc.
  erewrite bind_ret_eq by apply on_kf. cbn beta. rewrite !bind_assoc.
  erewrite bind_ret_eq by by apply on_kat. cbn beta. rewrite !bind_assoc.
  erewrite bind_ret_eq by by apply on_kat. cbn beta. rewrite !bind_assoc.
  destruct (on_q3 p r w s c_cl a F) as (w1 & E1 & F1). rewrite (bind_ret_eq _ _ _ tt _ E1). cbn beta.
  rewrite (bind_ret_eq _ _ _ (p_lpsize r, s16 (Z.lxor c (s8 cntl))) (on p r w1 s)) by done. cbn beta iota. rewrite s8_s16.
  erewrite !bind_assoc, bind_ret_eq by apply on_kset. cbn beta.
  change [SYN; _; _; _; _; _] with (header (p_lpsize r) (s16 (Z.lxor c (s8 cntl))) (s8 cntl)).
  set (r' := r <| p_ohbuf := _ |>).
  destruct (on_q3 p r' w1 s c_cc (- Z.of_nat HDRSIZ) F1) as (w2 & E2 & F2). rewrite (bind_ret_eq _ _ _ tt _ E2). cbn beta.
  destruct (on_q3 p r' w2 s c_cf (p + off_ohbuf) F2) as (w3 & E3 & F3). rewrite (bind_ret_eq _ _ _ tt _ E3). cbn beta.
  by apply (line_start (on p _ w3 s)).
Qed.

(** *** Output on a connection that is not live yet *)

(** What the driver relies on in its own record. *)
Record sound (r : pack) : Prop := {
  sound_tty : p_ttyp r = Some tp;
  sound_next : 0 <= p_nxtps r < 8;
  sound_os : length (p_os r) = 8%nat;
  sound_rsize : 0 <= p_rsize r < 32768;
  sound_msg : -128 <= p_msg r < 128
}.
(** The record after some output: other messages left to send, another header. *)
Definition put_out (r : pack) (m o : Z) (h : list Z) : pack := r <| p_msg := m |> <| p_ohbuf := h |> <| p_obusy := o |>.

Lemma lowest_bit_ok x s : -128 <= x < 128 -> x <> 0 -> exists i, lowest_bit x s = Ret i s /\ 0 <= i < 8.
Proof.
  intros Hx H0. unfold lowest_bit.
  assert (forall n i y, 0 <= i -> (Z.of_nat n = 9 - i) -> i < 9 ->
    exists j, loop n (fun y : Z * Z => let '(i, x) := y in
      ret (if (i =? 8) || (x &? 1) then inr i else inl (i + 1, Z.shiftr x 1))) (i, y) s = Ret j s /\ i <= j <= 8 /\
      (j = 8 -> forall k, 0 <= k < 8 - i -> Z.testbit y k = false)) as Hl.
  { induction n as [|n IH]; intros i y Hi Hn Hlt; [lia|]. rewrite loop_S. unfold bind, ret. destruct (Z.eqb_spec i 8) as [->|H8]; cbn [orb].
    - exists 8. split; [done|]. split; [lia|]. intros _ k. lia.
    - destruct (y &? 1) eqn:E1.
      + exists i. split; [done|]. split; [lia|]. intros ->. lia.
      + destruct (IH (i + 1) (Z.shiftr y 1)) as (j & E & Hj & Hz); [lia..|]. exists j. split; [exact E|]. split; [lia|].
        intros H k Hk. destruct (decide (k = 0)) as [->|Hk0].
        * apply tst_false in E1. apply (f_equal (fun z => Z.testbit z 0)) in E1.
          rewrite Z.land_spec in E1. by destruct (Z.testbit y 0).
        * specialize (Hz H (k - 1)). rewrite Z.shiftr_spec in Hz by lia. rewrite <- Hz by lia. f_equal; lia. }
  destruct (Hl 9%nat 0 x) as (j & E & Hj & Hz); [lia..|]. exists j. split; [exact E|]. split; [lia|].
  destruct (decide (j = 8)) as [->|]; [|lia]. exfalso. apply H0. apply (bits_zero 8); [lia..|]. intros k Hk. apply Hz; lia.
Qed.

Lemma index_ok l i v s : 0 <= i -> l !! Z.to_nat i = Some v -> index l i s = Ret v s.
Proof. intros Hi E. unfold index. rewrite (proj2 (Z.ltb_ge _ _)) by done. by rewrite E. Qed.
Lemma mask_some i s : 0 <= i < 8 -> exists b, mask i s = Ret b s.
Proof.
  intros Hi. destruct (lookup_lt_is_Some_2 mask_tab (Z.to_nat i)) as [b E]; [cbn; lia|].
  exists b. unfold mask. apply index_ok; [lia|done].
Qed.

Lemma pksize_ok v s : 0 <= v < 32768 -> exists k, pksize v s = Ret k s.
Proof.
  intros Hv. unfold pksize.
  assert (forall n x k, 0 <= x < 2 ^ Z.of_nat n -> exists j,
    loop (S n) (fun x : Z * Z => let '(n, k) := x in
      let n := Z.shiftr n 1 in ret (if n =? 0 then inr k else inl (n, k + 1))) (x, k) s = Ret j s) as Hl.
  { induction n as [|n IH]; intros x k Hx.
    - replace x with 0 by (cbn in Hx; lia). by exists k.
    - rewrite loop_S. unfold bind, ret. cbv zeta. destruct (Z.eqb_spec (Z.shiftr x 1) 0); [by exists k|].
      apply IH. rewrite Z.shiftr_div_pow2 by lia. rewrite Nat2Z.inj_succ, Z.pow_succ_r in Hx by lia.
      change (2 ^ 1) with 2. split; [apply Z.div_pos; lia|apply Z.div_lt_upper_bound; lia]. }
  apply (Hl 31%nat). rewrite Z.shiftr_div_pow2 by lia. split; [apply Z.div_pos; lia|].
  apply Z.div_lt_upper_bound; [lia|]. change (2 ^ Z.of_nat 31) with 2147483648. lia.
Qed.

Lemma control_some p i r w s : sound r -> exists x, control p i (on p r w s) = Ret x (on p r w s).
Proof.
  intros Hr. unfold control. cbv zeta. destruct (_ || _).
  - eexists. by erewrite bind_ret_eq by apply on_kf.
  - destruct (_ =? INITB).
    + destruct (pksize_ok (p_rsize r) (on p r w s)) as [k E]; [apply Hr|]. eexists.
      erewrite bind_ret_eq by apply on_kf. cbn beta. by erewrite bind_ret_eq by exact E.
    + destruct (_ || _); eexists; [by erewrite bind_ret_eq by apply on_kf|done].
Qed.

Lemma send_control_ok p r w s : fine w -> sound r -> p_msg r <> 0 ->
  exists w' m h, send_control oproc junk p (on p r w s) = Ret tt (on p (put_out r m (p_obusy r) h) w' s) /\
    fine w' /\ -128 <= m < 128.
Proof.
  intros F Hr H0. unfold send_control. erewrite bind_ret_eq by apply on_kf. cbn beta.
  destruct (lowest_bit_ok (p_msg r) (on p r w s)) as (i & Ei & Hi); [apply Hr|done|].
  erewrite bind_ret_eq by exact Ei. cbn beta.
  destruct (control_some p i r w s Hr) as [x Ex]. erewrite bind_ret_eq by exact Ex. cbn beta.
  destruct (mask_some i (on p r w s) Hi) as [b Eb]. erewrite bind_ret_eq by apply Eb. cbn beta.
  erewrite bind_ret_eq by apply on_kf. cbn beta.
  erewrite bind_ret_eq by apply on_kset. cbn beta.
  destruct (pkxstart_control p x (r <| p_msg := s8 (clr (p_msg r) b) |>) w s F) as (w' & E & F'); [apply Hr|].
  exists w', (s8 (clr (p_msg r) b)), (header 9 (s8 x) (s8 x)). split; [|split; [done|apply s8_range]].
  rewrite E. by destruct r.
Qed.

(** Only messages go out; a packet's writer is told to look again. *)
Lemma pkoutput_dead p r w s : fine w -> sound r -> p_state r &? LIVE = false -> p_state r &? RXMIT = false ->
  exists w' m o h, pkoutput oproc junk p (on p r w s) = Ret tt (on p (put_out r m o h) w' s) /\
    fine w' /\ -128 <= m < 128.
Proof.
  intros F Hr HL HX. destruct (lookup_lt_is_Some_2 (p_os r) (Z.to_nat (p_nxtps r))) as [os Eos];
    [rewrite (sound_os _ Hr); pose proof (sound_next _ Hr); lia|].
  unfold pkoutput. erewrite bind_ret_eq by by apply on_line, Hr. cbn beta.
  erewrite bind_ret_eq by apply on_spl6. cbn beta. apply (line_pl w 6) in F as F6.
  destruct (line_tty _ F6) as (t & Et & _). unfold thas.
  erewrite bind_ret_eq.
  2: { apply on_kern. erewrite bind_ret_eq by by apply (tfield_ok ttys). done. } cbn beta iota.
  assert (forall m o h w' n, fine w' -> -128 <= m < 128 ->
    exists w'' m' o' h', kern (splx n) (on p (put_out r m o h) w' s) = Ret tt (on p (put_out r m' o' h') w'' s) /\
      fine w'' /\ -128 <= m' < 128) as Hend.
  { intros m o h w' n F' Hm. eexists _, m, o, h. split; [apply on_splx|]. split; [by apply line_pl|done]. }
  destruct (t_state t &? BUSY).
  - destruct (Hend (p_msg r) (p_obusy r) (p_ohbuf r) _ (pl (ks w)) F6) as (w' & m & o & h & E & F' & Hm); [apply Hr|].
    exists w', m, o, h. split; [|done]. rewrite <- E. by destruct r.
  - erewrite bind_ret_eq by apply on_has. cbn beta. rewrite HX. cbn [when].
    rewrite (bind_ret_eq _ _ _ tt _ eq_refl). cbn beta.
    erewrite bind_ret_eq by apply on_kf. cbn beta.
    erewrite bind_ret_eq by (apply on_kat; [apply Hr|exact Eos]). cbn beta.
    erewrite bind_ret_eq by apply on_kf. cbn beta.
    assert (forall m h w', fine w' -> -128 <= m < 128 ->
      exists w'' m' o' h', (kset_ p p_obusy 0 ;;; kern (splx (pl (ks w)))) (on p (put_out r m (p_obusy r) h) w' s) =
        Ret tt (on p (put_out r m' o' h') w'' s) /\ fine w'' /\ -128 <= m' < 128) as Hend2.
    { intros m h w' F' Hm. erewrite bind_ret_eq by apply on_kset. cbn beta. by apply (Hend m 0 h). }
    destruct (tst (p_msg r) && _) eqn:Em.
    + apply andb_prop in Em as [Hm0%tst_true _].
      destruct (send_control_ok p r _ s F6 Hr Hm0) as (w1 & m & h & E1 & F1 & Hm).
      erewrite bind_ret_eq by exact E1. cbn beta. by apply Hend2.
    + erewrite (bind_assoc (kf_ p p_state)), bind_ret_eq by apply on_kf. cbn beta. rewrite HL, orb_true_r. cbn match.
      destruct (on_wakeup p r _ s (p + off_ps) F6) as (w1 & E1 & F1).
      erewrite bind_ret_eq by exact E1. cbn beta.
      destruct (Hend2 (p_msg r) (p_ohbuf r) w1 F1) as (w2 & m & o & h & E & R); [apply Hr|].
      exists w2, m, o, h. split; [|exact R]. rewrite <- E. by destruct r.
Qed.

(** *** The messages that open a connection *)

Lemma control_bits c v : 0 <= c < 8 -> 0 <= v < 8 ->
  Z.land (8 * c + v) MOD8 = v /\ Z.shiftr (8 * c + v) 3 = c /\ Z.land (8 * c + v) 192 = 0.
Proof.
  intros Hc Hv. split; [|split].
  - change MOD8 with (Z.ones 3). rewrite Z.land_ones by lia. change (2 ^ 3) with 8.
    rewrite Z.add_comm, Z.mul_comm, Z.mod_add by lia. apply Z.mod_small. lia.
  - rewrite Z.shiftr_div_pow2 by lia. change (2 ^ 3) with 8. rewrite Z.mul_comm, Z.div_add_l by lia.
    rewrite Z.div_small; lia.
  - assert (forallb (fun x => Z.land x 192 =? 0) (seqZ 0 64) = true) as H by done.
    apply Z.eqb_eq. rewrite forallb_forall in H. apply H, list_elem_of_In, elem_of_seqZ. lia.
Qed.

(** The end of [pkcntl]: the message to repeat, and output if nothing waited. *)
Definition after_control (p m : Z) : PKM unit :=
  msg <- kf_ p p_msg ;;
  when (msg =? 0) (r <- kf_ p p_rmsg ;; msg_or p r) ;;;
  msg <- kf_ p p_msg ;;
  when ((m =? 0) && tst msg) (pkoutput oproc junk p).

Lemma after_control_ok p m r w s : fine w -> sound r -> p_state r &? LIVE = false -> p_state r &? RXMIT = false ->
  exists w' m' o h, after_control p m (on p r w s) = Ret tt (on p (put_out r m' o h) w' s) /\
    fine w' /\ -128 <= m' < 128.
Proof.
  intros F Hr HL HX. unfold after_control. erewrite bind_ret_eq by apply on_kf. cbn beta.
  assert (exists m1, when (p_msg r =? 0) (r <- kf_ p p_rmsg ;; msg_or p r) (on p r w s) =
            Ret tt (on p (r <| p_msg := m1 |>) w s) /\ -128 <= m1 < 128) as (m1 & E1 & H1).
  { destruct (p_msg r =? 0).
    - eexists. split; [|apply s8_range]. cbn [when]. erewrite bind_ret_eq by apply on_kf. apply on_msg.
    - exists (p_msg r). split; [by destruct r|apply Hr]. }
  erewrite bind_ret_eq by exact E1. cbn beta. erewrite bind_ret_eq by apply on_kf. cbn beta.
  destruct (_ && _).
  - destruct (pkoutput_dead p (r <| p_msg := m1 |>) w s F) as (w' & m' & o & h & E & R); [|done..|].
    { destruct Hr. by split. }
    exists w', m', o, h. split; [|exact R]. cbn [when]. rewrite E. by destruct r.
  - exists w, m1, (p_obusy r), (p_ohbuf r). split; [|done]. by destruct r.
Qed.

Lemma sound_put_out r m o h : -128 <= m < 128 -> sound r -> sound (put_out r m o h).
Proof. intros Hm []. by split. Qed.

(** [pkcntl] is the clearing of BADFRAME, the case and the end. *)
Lemma pkcntl_ok p c v r w s : 0 <= c < 8 -> 0 <= v < 8 -> c <> CLOSE -> Z.land (p_state r) BADFRAME = 0 ->
  -32768 <= p_state r < 32768 -> forall x w',
  control_case at_bwaiting p c v (on p r w s) = Ret false (on p x w' s) ->
  pkcntl at_bwaiting oproc junk (8 * c + v) p (on p r w s) = after_control p (p_msg r) (on p x w' s).
Proof.
  intros Hc Hv Hcl Hb Hs x w' E. destruct (control_bits c v Hc Hv) as (E1 & E2 & E3).
  unfold pkcntl. rewrite E1, E2, E3. change (tst 0) with false. cbv zeta. cbn match.
  rewrite (bind_ret_eq _ _ _ tt (on p r w s)).
  2: { rewrite on_clr. replace (s16 (clr (p_state r) BADFRAME)) with (p_state r); [by destruct r|].
       rewrite <- (s16_id (p_state r)) at 1 by lia. f_equal. unfold clr. apply Z.bits_inj'; intros i Hi.
       rewrite Z.land_spec, Z.lnot_spec by lia. apply (f_equal (fun z => Z.testbit z i)) in Hb.
       rewrite Z.land_spec, Z.bits_0 in Hb. by destruct (Z.testbit (p_state r) i), (Z.testbit BADFRAME i). }
  cbn beta. erewrite bind_ret_eq by apply on_kf. cbn beta. erewrite bind_ret_eq by exact E. done.
Qed.

(** What the other end says of itself — the window it takes, the size of the
    packets it takes, as 32 times a power of two — and what has been heard. *)
Inductive greeting := Window (n : Z) | Size (k : Z).
Definition control_of (g : greeting) : Z := match g with Window n => 8 * INITA + n | Size k => 8 * INITB + k end.
Definition said (g : greeting) : Prop := match g with Window n => 1 <= n < 8 | Size k => 0 <= k < 8 end.
Record heard := mkheard { h_window : option Z; h_size : option Z }.
#[export] Instance eta_heard : Eta heard := fun h => mkheard (h_window h) (h_size h).
Definition hear (h : heard) (g : greeting) : heard :=
  match g with Window n => h <| h_window := Some n |> | Size k => h <| h_size := Some k |> end.
Definition nothing : heard := mkheard None None.

Definition state_of (h : heard) : Z :=
  match h_window h with Some _ => INITa | None => 0 end + match h_size h with Some _ => INITb | None => 0 end.
(** The record of a connection that is opening has this in it. *)
Record opening (h : heard) (r : pack) : Prop := {
  op_sound : sound r;
  op_state : p_state r = state_of h;
  op_window n : h_window h = Some n -> p_swindow r = n;
  op_size k : h_size h = Some k -> p_xsize r = 32 * 2 ^ k /\ p_lpsize r = k + 1;
  op_rmsg : Z.land (p_rmsg r) 63 = 0
}.

Lemma state_of_dead h : state_of h &? LIVE = false /\ state_of h &? RXMIT = false /\
  Z.land (state_of h) BADFRAME = 0 /\ -32768 <= state_of h < 32768.
Proof. destruct h as [[] []]; repeat split; by vm_compute. Qed.

Lemma opening_put_out h r m o l : -128 <= m < 128 -> opening h r -> opening h (put_out r m o l).
Proof. intros Hm []. split; try done. by apply sound_put_out. Qed.
Lemma opening_after p h m r w s : fine w -> opening h r ->
  exists w' r', after_control p m (on p r w s) = Ret tt (on p r' w' s) /\ fine w' /\ opening h r'.
Proof.
  intros F Ho. destruct (state_of_dead h) as (H1 & H2 & _).
  destruct (after_control_ok p m r w s F) as (w' & m' & o & l & E & F' & Hm);
    [apply Ho|by rewrite (op_state _ _ Ho)..|].
  exists w', (put_out r m' o l). split; [done|]. split; [done|]. by apply opening_put_out.
Qed.

Lemma dtom_some d : 0 <= d -> exists b, forall s, dtom d s = Ret b s.
Proof.
  intros Hd. unfold dtom.
  assert (forall n d m, d <= 32 * (Z.of_nat n + 1) -> exists b, forall s,
    loop (S n) (fun x : Z * Z => let '(d, m) := x in
      ret (if 32 <? d then inl (d - 32, Z.lor m (s32 (m + 1))) else inr m)) (d, m) s = Ret b (s : pkw)) as Hl.
  { induction n as [|n IH]; intros d' m Hn; destruct (Z.ltb_spec 32 d') as [H|H]; [lia| | |].
    - exists m. intros s. rewrite loop_S. unfold bind, ret. by rewrite (proj2 (Z.ltb_ge _ _)) by done.
    - destruct (IH (d' - 32) (Z.lor m (s32 (m + 1)))) as [b Hb]; [lia|]. exists b. intros s. rewrite loop_S. unfold bind, ret.
      by rewrite (proj2 (Z.ltb_lt _ _)) by done.
    - exists m. intros s. rewrite loop_S. unfold bind, ret. by rewrite (proj2 (Z.ltb_ge _ _)) by done. }
  apply Hl. pose proof (Z.div_mod d 32). pose proof (Z.mod_pos_bound d 32). pose proof (Z.div_pos d 32). lia.
Qed.

Lemma size_index k s : 0 <= k < 8 -> index pksizes (k + 1) s = Ret (32 * 2 ^ k) s.
Proof.
  intros Hk. apply index_ok; [lia|].
  assert (forallb (fun k => bool_decide (pksizes !! Z.to_nat (k + 1) = Some (32 * 2 ^ k))) (seqZ 0 8) = true) as H by done.
  rewrite forallb_forall in H. specialize (H k). rewrite bool_decide_eq_true in H. apply H, list_elem_of_In, elem_of_seqZ. lia.
Qed.
Lemma size_range k : 0 <= k < 8 -> 0 <= 32 * 2 ^ k < 32768.
Proof.
  intros Hk. assert (2 ^ k <= 2 ^ 7) by (apply Z.pow_le_mono_r; lia). change (2 ^ 7) with 128 in *.
  pose proof (Z.pow_pos_nonneg 2 k). lia.
Qed.

(** The low six bits, where nothing but the others is set or cleared. *)
Lemma low_six x y : (forall i, 0 <= i < 6 -> Z.testbit y i = Z.testbit x i) -> Z.land x 63 = 0 -> Z.land (s8 y) 63 = 0.
Proof.
  intros Hy Hx. apply Z.bits_inj'; intros i Hi. apply (f_equal (fun z => Z.testbit z i)) in Hx.
  rewrite Z.bits_0, Z.land_spec in *. change 63 with (Z.ones 6) in *.
  destruct (Z.lt_ge_cases i 6); [|by rewrite (Z.ones_spec_high 6), andb_false_r by lia].
  unfold s8. by rewrite wrapS_testbit, Hy by lia.
Qed.
Lemma low_or x j i : 6 <= j -> 0 <= i < 6 -> Z.testbit (Z.lor x (2 ^ j)) i = Z.testbit x i.
Proof. intros Hj Hi. by rewrite Z.lor_spec, Z.pow2_bits_false, orb_false_r by lia. Qed.
Lemma low_clr x j i : 6 <= j -> 0 <= i < 6 -> Z.testbit (clr x (2 ^ j)) i = Z.testbit x i.
Proof. intros Hj Hi. unfold clr. by rewrite Z.land_spec, Z.lnot_spec, Z.pow2_bits_false, andb_true_r by lia. Qed.

(** INITA. *)
Lemma window_case p n h r w s : 1 <= n < 8 -> opening h r -> exists r',
  control_case at_bwaiting p INITA n (on p r w s) = Ret false (on p r' w s) /\ opening (hear h (Window n)) r'.
Proof.
  intros Hn Ho. destruct (state_of_dead h) as (HL & _).
  unfold control_case. change (INITA =? INITB) with false. change (INITA =? INITC) with false.
  change (INITA =? INITA) with true. cbn match.
  erewrite bind_ret_eq by apply on_has. cbn beta.
  rewrite (proj2 (Z.eqb_neq n 0)) by lia. cbn [andb]. replace (tst n) with true by (symmetry; apply tst_true; lia).
  cbn [when]. rewrite !bind_assoc. erewrite bind_ret_eq by apply on_or. cbn beta.
  rewrite !bind_assoc. erewrite bind_ret_eq by apply on_msg. cbn beta.
  rewrite !bind_assoc. erewrite bind_ret_eq by apply on_kf. cbn beta.
  rewrite !bind_assoc. erewrite bind_ret_eq by apply on_kset. cbn beta.
  erewrite bind_ret_eq by apply on_kset. cbn beta.
  eexists. split; [done|]. destruct Ho as [Hs Ht Hw Hk Hr]. split.
  - destruct Hs. split; try done. cbn. apply s8_range.
  - cbn [p_state setf]. rewrite Ht. destruct h as [[] []]; done.
  - cbn. by intros ? [= <-].
  - intros k. cbn. apply Hk.
  - apply (low_six (p_rmsg r)); [|done]. intros i. by apply (low_or _ 6).
Qed.

(** INITB. *)
Lemma size_case p k h r w s : 0 <= k < 8 -> opening h r -> exists r',
  control_case at_bwaiting p INITB k (on p r w s) = Ret false (on p r' w s) /\ opening (hear h (Size k)) r'.
Proof.
  intros Hk [[H1 H2 H3 H4 H5] Ht Hw Hx Hr]. destruct (state_of_dead h) as (HL & _). pose proof (size_range k Hk) as Hz.
  destruct r. flat_in H1 H2 H3 H4 H5. flat_in Ht Hw Hx Hr Hr. subst.
  assert (s16 (Z.lor (state_of h) INITb) = state_of (hear h (Size k))) as Es by (destruct h as [[] []]; done).
  unfold control_case. change (INITB =? INITB) with true. cbn match.
  erewrite bind_ret_eq by by apply size_index. cbn beta.
  erewrite bind_ret_eq by apply on_kset. flat. rewrite (s16_id (32 * 2 ^ k)), (s8_id (k + 1)) by lia.
  erewrite bind_ret_eq by apply on_kset. flat. erewrite bind_ret_eq by apply on_kf. flat.
  destruct (dtom_some (32 * 2 ^ k)) as [b Eb]; [lia|].
  erewrite bind_ret_eq by apply Eb. cbn beta. erewrite bind_ret_eq by apply on_kset. flat.
  erewrite bind_ret_eq by apply on_has. flat. rewrite HL. cbn match.
  rewrite ?bind_assoc. erewrite bind_ret_eq by apply on_or. flat.
  rewrite ?bind_assoc. erewrite bind_ret_eq by apply on_has. flat. rewrite Es.
  destruct (state_of (hear h (Size k)) &? INITa); cbn [when].
  - rewrite ?bind_assoc. erewrite bind_ret_eq by apply on_kf. flat.
    rewrite ?bind_assoc. erewrite bind_ret_eq by apply on_kset. flat.
    erewrite bind_ret_eq by apply on_msg. flat. eexists. split; [reflexivity|]. split; flat; try done.
    + constructor; flat; try done. apply s8_range.
    + intros ? [= <-]. done.
    + eapply low_six; [|exact Hr]. intros i. by apply (low_clr _ 7).
  - rewrite (bind_ret_eq _ _ _ tt _ eq_refl). eexists. split; [reflexivity|]. split; flat; try done.
    intros ? [= <-]. done.
Qed.

(** Any message of these. *)
Lemma greeting_ok p g h r w s : fine w -> said g -> opening h r -> exists w' r',
  pkcntl at_bwaiting oproc junk (control_of g) p (on p r w s) = Ret tt (on p r' w' s) /\ fine w' /\ opening (hear h g) r'.
Proof.
  intros F Hg Ho. destruct (state_of_dead h) as (_ & _ & HB & HS). rewrite <- (op_state _ _ Ho) in HB, HS.
  destruct g as [n|k]; cbn [control_of said] in *.
  - destruct (window_case p n h r w s Hg Ho) as (r1 & E1 & H1). rewrite (pkcntl_ok p INITA n r w s) with (x := r1) (w' := w); try done.
    + by apply opening_after.
    + lia.
  - destruct (size_case p k h r w s Hg Ho) as (r1 & E1 & H1). rewrite (pkcntl_ok p INITB k r w s) with (x := r1) (w' := w); try done.
    by apply opening_after.
Qed.
Lemma greetings_ok p gs h r w s : fine w -> Forall said gs -> opening h r -> exists w' r',
  for_ (map control_of gs) (fun c => pkcntl at_bwaiting oproc junk c p) (on p r w s) = Ret tt (on p r' w' s) /\
  fine w' /\ opening (fold_left hear gs h) r'.
Proof.
  intros F Hg. revert h r w F. induction Hg as [|g gs H1 _ IH]; intros h r w F Ho; [by exists w, r|].
  destruct (greeting_ok p g h r w s F H1 Ho) as (w1 & r1 & E1 & F1 & O1).
  destruct (IH _ _ _ F1 O1) as (w2 & r2 & E2 & R). exists w2, r2. split; [|exact R].
  cbn [map for_]. by erewrite bind_ret_eq by exact E1.
Qed.

(** INITC, with both ends heard: the connection is live, and nothing is repeated any more. *)
Record opened (h : heard) (n : Z) (r : pack) : Prop := {
  od_state : p_state r = LIVE;
  od_window : p_swindow r = if n =? 0 then default (p_swindow r) (h_window h) else n;
  od_size k : h_size h = Some k -> p_xsize r = 32 * 2 ^ k /\ p_lpsize r = k + 1;
  od_rmsg : p_rmsg r = 0
}.
Lemma no_low_six x : Z.land x 63 = 0 -> s8 (clr x (Z.lor M_INITA M_INITB)) = 0.
Proof.
  intros Hx. apply (bits_zero 8); [lia|apply s8_range|]. intros i Hi. unfold s8. rewrite wrapS_testbit by lia.
  unfold clr. rewrite Z.land_spec, Z.lnot_spec by lia. apply (f_equal (fun z => Z.testbit z i)) in Hx.
  rewrite Z.land_spec, Z.bits_0 in Hx. change (Z.lor M_INITA M_INITB) with 192.
  assert (Z.testbit 63 i || Z.testbit 192 i = true) as Hb.
  { assert (forallb (fun i => Z.testbit 63 i || Z.testbit 192 i) (seqZ 0 8) = true) as Hf by done.
    rewrite forallb_forall in Hf. apply Hf, list_elem_of_In, elem_of_seqZ. lia. }
  by destruct (Z.testbit x i), (Z.testbit 63 i), (Z.testbit 192 i).
Qed.

Lemma ready_case p n h r w s a k : fine w -> 0 <= n < 8 -> opening h r -> h_window h = Some a -> h_size h = Some k ->
  exists w' r', control_case at_bwaiting p INITC n (on p r w s) = Ret false (on p r' w' s) /\ fine w' /\
    opened h n r' /\ p_msg r' = p_msg r.
Proof.
  intros F Hn [[H1 H2 H3 H4 H5] Ht Hw Hx Hr] Ha Hk. destruct r. flat_in H1 H2 H3 H4 H5. flat_in Ht Hw Hx Hr Hr.
  assert (state_of h = INITab) as Es by (unfold state_of; by rewrite Ha, Hk). rewrite Es in Ht. subst.
  unfold control_case. change (INITC =? INITB) with false. change (INITC =? INITC) with true. cbn match.
  erewrite bind_ret_eq by apply on_kf. flat. change (Z.land INITab INITab =? INITab) with true. cbn match.
  rewrite ?bind_assoc. erewrite bind_ret_eq by apply on_kset. flat.
  edestruct (fun r => on_wakeup p r w s p F) as (w1 & E1 & F1). rewrite ?bind_assoc.
  erewrite bind_ret_eq by exact E1. flat.
  rewrite ?bind_assoc. erewrite bind_ret_eq by apply on_kf. flat.
  rewrite ?bind_assoc. erewrite bind_ret_eq by apply on_kset. flat. rewrite (no_low_six _ Hr).
  destruct (Z.eqb_spec n 0) as [->|H0].
  - change (tst 0) with false. cbn [when]. rewrite (bind_ret_eq _ _ _ tt _ eq_refl). eexists w1, _.
    split; [reflexivity|]. split; [done|]. split; [|done]. split; flat; try done. rewrite Ha. by apply Hw.
  - replace (tst n) with true by (symmetry; by apply tst_true). cbn [when]. erewrite bind_ret_eq by apply on_kset. flat.
    eexists w1, _. split; [reflexivity|]. split; [done|]. split; [|done]. split; flat; try done.
    by rewrite (proj2 (Z.eqb_neq n 0)).
Qed.

(** With nothing to repeat the end of [pkcntl] does nothing more. *)
Lemma after_quiet p r w s : p_rmsg r = 0 -> after_control p (p_msg r) (on p r w s) = Ret tt (on p r w s).
Proof.
  intros Hr. unfold after_control. erewrite bind_ret_eq by apply on_kf. cbn beta.
  destruct (Z.eqb_spec (p_msg r) 0) as [H0|H0]; cbn [when andb].
  - erewrite bind_ret_eq. 2: { erewrite bind_ret_eq by apply on_kf. apply on_msg. } cbn beta.
    rewrite H0, Hr. change (s8 (Z.lor 0 0)) with 0. replace (r <| p_msg := 0 |>) with r by (rewrite <- H0; by destruct r).
    erewrite bind_ret_eq by apply on_kf. cbn beta. by rewrite H0.
  - rewrite (bind_ret_eq _ _ _ tt _ eq_refl). cbn beta. by erewrite bind_ret_eq by apply on_kf.
Qed.

(** INITC, before both have been heard: the connection goes on opening. *)
Lemma early_case p n h r w s : 0 <= n < 8 -> opening h r -> h_window h = None \/ h_size h = None -> exists r',
  control_case at_bwaiting p INITC n (on p r w s) = Ret false (on p r' w s) /\ sound r' /\ p_state r' = state_of h.
Proof.
  intros Hn [[H1 H2 H3 H4 H5] Ht Hw Hx Hr] Hh. destruct (state_of_dead h) as (HL & _).
  destruct r. flat_in H1 H2 H3 H4 H5. flat_in Ht Hw Hx Hr Hr.
  assert ((Z.land (state_of h) INITab =? INITab) = false) as Es by (by destruct h as [[] []], Hh).
  rewrite Ht. clear Ht. unfold control_case. change (INITC =? INITB) with false. change (INITC =? INITC) with true. cbn match.
  erewrite bind_ret_eq by apply on_kf. flat. rewrite Es, HL. cbn match. cbn [when negb].
  erewrite bind_ret_eq by apply on_msg. flat. destruct (tst n); cbn [when].
  - erewrite bind_ret_eq by apply on_kset. flat. eexists. split; [reflexivity|]. split; [|done].
    constructor; flat; try done. apply s8_range.
  - rewrite (bind_ret_eq _ _ _ tt _ eq_refl). eexists. split; [reflexivity|]. split; [|done].
    constructor; flat; try done. apply s8_range.
Qed.
End Line.

(** ** The opening of a connection *)

Section Opening.
Context {MC : Machine} (tp : nat) (oproc : nat -> PKM unit) (fine : world -> Prop) {LI : Line tp oproc fine}.

(** Whether both ends of what opens a connection have been heard. *)
Definition complete (h : heard) : bool := match h with mkheard (Some _) (Some _) => true | _ => false end.

(** C6. A connection opens as the protocol says.  After any number of INITA
    and INITB messages, in any order and repeated at will, whatever the line
    was doing meanwhile, INITC makes the connection live exactly when both kinds
    have been heard; it then sends packets of the size the other end has said
    last and keeps within the window it has said last, and repeats no message.
    Before that INITC leaves the connection opening. *)
Theorem opening_correct (at_bwaiting : Z) (junk : nat -> list Z) (p n : Z) (gs : list greeting) (s : pkw) (r : pack) :
  packs (pk s) !! p = Some r -> opening (tp := tp) nothing r -> fine (kw s) -> Forall said gs -> 0 <= n < 8 ->
  let h := fold_left hear gs nothing in
  exists w' r',
    for_ (map control_of gs ++ [8 * INITC + n]) (fun c => pkcntl at_bwaiting oproc junk c p) s = Ret tt (on p r' w' s) /\
    fine w' /\
    (if complete h then opened h n r' else p_state r' = state_of h).
Proof.
  intros Er Ho F Hg Hn h.
  destruct (greetings_ok at_bwaiting junk p gs nothing r (kw s) s F Hg Ho) as (w1 & r1 & E1 & F1 & O1). fold h in O1.
  rewrite <- (on_id p r s Er) in E1.
  erewrite for_app by exact E1. cbn [for_]. destruct (state_of_dead h) as (HL & HX & HB & HS).
  pose proof (op_state _ _ O1) as Es. rewrite <- Es in HB, HS.
  destruct (complete h) eqn:Ec.
  - destruct h as [[a|] [k|]] eqn:Eh; try done.
    destruct (ready_case at_bwaiting p n _ r1 w1 s a k F1 Hn O1 eq_refl eq_refl) as (w2 & r2 & E2 & F2 & O2 & Em).
    exists w2, r2.
    split.
    + erewrite bind_ret_eq; [done|]. rewrite (pkcntl_ok at_bwaiting junk p INITC n r1 w1 s) with (x := r2) (w' := w2); try done.
      rewrite <- Em. apply after_quiet, O2.
    + done.
  - destruct (early_case at_bwaiting p n h r1 w1 s Hn O1) as (r2 & E2 & S2 & T2); [by destruct h as [[] []]; auto|].
    destruct (after_control_ok junk p (p_msg r1) r2 w1 s F1 S2) as (w3 & m & o & l & E3 & F3 & _); [by rewrite T2..|].
    exists w3, (put_out r2 m o l). split; [|done].
    erewrite bind_ret_eq; [done|]. rewrite (pkcntl_ok at_bwaiting junk p INITC n r1 w1 s) with (x := r2) (w' := w1); done.
Qed.
End Opening.

(** ** What the check lets through *)

Section Check.
Context {MC : Machine}.

Lemma header_char q r s i v : packs (pk s) !! q = Some r -> 0 <= i < 6 -> p_ihbuf r !! Z.to_nat i = Some v ->
  char_get q (q + off_ihbuf + i) s = Ret v s.
Proof.
  intros Er Hi Hv. unfold char_get, in_ihbuf. change (Z.of_nat HDRSIZ) with 6.
  rewrite (proj2 (Z.leb_le _ _)), (proj2 (Z.ltb_lt _ _)) by lia. cbn match. apply (kat_ok _ _ _ _ _ _ Er); [lia|].
  by replace (q + off_ihbuf + i - (q + off_ihbuf)) with i by lia.
Qed.

(** The sum as [pkrend] puts it together from the two bytes. *)
Definition joined (lo hi : Z) : Z := u16 (Z.lor (u16 lo) (Z.shiftl (u32 hi) 8)).

Lemma read_header_ok q r s k check cntl : packs (pk s) !! q = Some r -> p_ihbuf r = header k check cntl ->
  read_header q (q + off_ihbuf) s =
  Ret (Some (k, joined (s8 (CHECK - check)) (s8 (Z.shiftr (s16 (CHECK - check)) 8)), cntl)) s.
Proof.
  intros Er Eh. unfold read_header.
  assert (forall i v, 0 <= i < 6 -> header k check cntl !! Z.to_nat i = Some v -> char_get q (q + off_ihbuf + i) s = Ret v s) as Hc.
  { intros i v Hi Hv. apply (header_char q r); [done|done|]. by rewrite Eh. }
  rewrite (bind_ret_eq _ _ _ _ _ (Hc 1 _ ltac:(lia) eq_refl)). cbn beta.
  rewrite (bind_ret_eq _ _ _ _ _ (Hc 2 _ ltac:(lia) eq_refl)). cbn beta.
  rewrite (bind_ret_eq _ _ _ _ _ (Hc 3 _ ltac:(lia) eq_refl)). cbn beta zeta.
  rewrite (bind_ret_eq _ _ _ _ _ (Hc 4 _ ltac:(lia) eq_refl)). cbn beta.
  rewrite (bind_ret_eq _ _ _ _ _ (Hc 5 _ ltac:(lia) eq_refl)). cbn beta. by rewrite Z.eqb_refl.
Qed.

Lemma s8_sign x i : 8 <= i -> Z.testbit (s8 x) i = (s8 x <? 0).
Proof.
  intros Hi. pose proof (s8_range x). destruct (Z.ltb_spec (s8 x) 0).
  - replace (s8 x) with (Z.lnot (- s8 x - 1)) by (unfold Z.lnot; lia). rewrite Z.lnot_spec by lia.
    apply negb_true_iff. destruct (Z.eq_dec (- s8 x - 1) 0) as [->|Hn]; [apply Z.bits_0|].
    apply Z.bits_above_log2; [lia|]. assert (Z.log2 (- s8 x - 1) < 8); [|lia]. apply Z.log2_lt_pow2; lia.
  - destruct (Z.eq_dec (s8 x) 0) as [->|Hn]; [apply Z.bits_0|].
    apply Z.bits_above_log2; [lia|]. assert (Z.log2 (s8 x) < 8); [|lia]. apply Z.log2_lt_pow2; lia.
Qed.

(** Bit by bit: the low byte is right, and its sign spills into the high one. *)
Lemma joined_bit w i : 0 <= i < 16 ->
  Z.testbit (joined (s8 w) (s8 (Z.shiftr w 8))) i = (if i <? 8 then false else s8 w <? 0) || Z.testbit w i.
Proof.
  intros Hi. unfold joined. assert (forall n x j, 0 <= j < n -> Z.testbit (wrapU n x) j = Z.testbit x j) as Hu.
  { intros n x j Hj. apply Z.mod_pow2_bits_low. lia. }
  unfold u16 at 1, u16 at 1. rewrite Hu, Z.lor_spec, Hu, Z.shiftl_spec by lia. destruct (Z.ltb_spec i 8).
  - rewrite (Z.testbit_neg_r _ (i - 8)) by lia. unfold s8. by rewrite wrapS_testbit, orb_false_r by lia.
  - unfold u32. rewrite Hu, s8_sign by lia. f_equal. unfold s8. rewrite wrapS_testbit, Z.shiftr_spec by lia. f_equal. lia.
Qed.
Lemma u16_bits x y : (forall i, 0 <= i < 16 -> Z.testbit x i = Z.testbit y i) <-> u16 x = u16 y.
Proof.
  unfold u16, wrapU. split.
  - intros H. apply Z.bits_inj'; intros i Hi. destruct (Z.lt_ge_cases i 16).
    + rewrite !Z.mod_pow2_bits_low by lia. apply H. lia.
    + by rewrite !Z.mod_pow2_bits_high by lia.
  - intros H i Hi. apply (f_equal (fun z => Z.testbit z i)) in H. by rewrite !Z.mod_pow2_bits_low in H by lia.
Qed.
Definition sign_kept (w : Z) : bool := (0 <=? s8 w) || (s8 (Z.shiftr w 8) =? -1).
Lemma joined_right w : u16 (joined (s8 w) (s8 (Z.shiftr w 8))) = u16 w <-> sign_kept w = true.
Proof.
  rewrite <- u16_bits. unfold sign_kept. rewrite orb_true_iff, Z.leb_le, Z.eqb_eq. split.
  - intros H. destruct (Z.le_gt_cases 0 (s8 w)); [by left|]. right.
    assert (Z.lnot (s8 (Z.shiftr w 8)) = 0) as E; [|unfold Z.lnot in E; lia].
    pose proof (s8_range (Z.shiftr w 8)). apply (bits_zero 8); [lia|unfold Z.lnot; lia|]. intros i Hi.
    rewrite Z.lnot_spec by lia. unfold s8. rewrite wrapS_testbit, Z.shiftr_spec by lia. specialize (H (i + 8)).
    rewrite joined_bit, (proj2 (Z.ltb_ge _ _)), (proj2 (Z.ltb_lt _ 0)) in H by lia. by rewrite <- H by lia.
  - intros H i Hi. rewrite joined_bit by done. destruct (Z.ltb_spec i 8); [done|].
    destruct H as [H|H]; [by rewrite (proj2 (Z.ltb_ge _ _)) by done|].
    assert (Z.testbit w i = true) as ->; [|by rewrite orb_true_r].
    replace i with (i - 8 + 8) by lia. rewrite <- Z.shiftr_spec by lia.
    rewrite <- (wrapS_testbit 8) by lia. change (wrapS 8 (Z.shiftr w 8)) with (s8 (Z.shiftr w 8)). rewrite H.
    apply Z.bits_m1. lia.
Qed.

(** The check as an equation modulo 2^16. *)
Lemma check_ok_eq c cntl sum : check_ok c cntl (s16 sum) = true <-> u16 (Z.lxor c cntl + sum) = CHECK.
Proof.
  unfold check_ok. rewrite Z.eqb_eq.
  replace (u16 (u16 (Z.lxor c cntl) + s16 sum)) with (u16 (Z.lxor c cntl + sum)); [done|].
  unfold u16, wrapU. rewrite Zplus_mod_idemp_l, <- (Zplus_mod_idemp_r (s16 sum)).
  replace (s16 sum mod 2 ^ 16) with (sum mod 2 ^ 16) by (symmetry; apply (wrapS_mod 16); lia).
  by rewrite Zplus_mod_idemp_r.
Qed.
Lemma check_sum c sum : u16 (c + sum) = CHECK -> u16 sum = u16 (CHECK - c).
Proof.
  unfold u16, wrapU. intros H. replace sum with (c + sum - c) at 1 by lia. rewrite Zminus_mod, H, Zminus_mod_idemp_r. done.
Qed.
Lemma s8_bits x y : (forall i, 0 <= i < 8 -> Z.testbit x i = Z.testbit y i) -> s8 x = s8 y.
Proof.
  intros H. unfold s8, wrapS. f_equal. rewrite Zplus_mod, (Zplus_mod y). do 2 f_equal.
  apply Z.bits_inj'; intros i Hi. destruct (Z.lt_ge_cases i 8).
  - rewrite !Z.mod_pow2_bits_low by lia. apply H. lia.
  - by rewrite !Z.mod_pow2_bits_high by lia.
Qed.
Lemma sign_kept_mod x y : u16 x = u16 y -> sign_kept x = sign_kept y.
Proof.
  rewrite <- u16_bits. intros H. unfold sign_kept. f_equal; f_equal; apply s8_bits; intros i Hi; [apply H; lia|].
  rewrite !Z.shiftr_spec by lia. apply H. lia.
Qed.
Lemma check_mod c d sum : u16 sum = u16 (CHECK - d) -> u16 (c + sum) = CHECK <-> u16 c = u16 d.
Proof.
  unfold u16, wrapU. change (2 ^ 16) with 65536. unfold CHECK. intros H.
  rewrite Zplus_mod, H, <- Zplus_mod. pose proof (Z.mod_pos_bound c 65536). pose proof (Z.mod_pos_bound d 65536).
  pose proof (Z.div_mod c 65536). pose proof (Z.div_mod d 65536).
  replace ((c + (43690 - d)) mod 65536) with ((c mod 65536 - d mod 65536 + 43690) mod 65536).
  2: { rewrite Zplus_mod, Zminus_mod, !Zmod_mod, <- Zminus_mod, <- Zplus_mod. f_equal. lia. }
  split; [|intros ->; by rewrite Z.sub_diag].
  intros E. pose proof (Z.div_mod (c mod 65536 - d mod 65536 + 43690) 65536). lia.
Qed.
Lemma u16_s16 x : u16 (s16 x) = u16 x.
Proof. apply (wrapS_mod 16). lia. Qed.
Lemma u16_inj x y : -32768 <= x < 32768 -> -32768 <= y < 32768 -> u16 x = u16 y -> x = y.
Proof.
  intros Hx Hy E. rewrite <- (s16_id x), <- (s16_id y) by lia. unfold s16, wrapS. f_equal.
  rewrite Zplus_mod, (Zplus_mod y). do 2 f_equal. exact E.
Qed.
Lemma u16_lxor c c' x : u16 (Z.lxor c x) = u16 (Z.lxor c' x) -> u16 c = u16 c'.
Proof.
  rewrite <- !u16_bits. intros H i Hi. specialize (H i Hi). rewrite !Z.lxor_spec in H.
  by destruct (Z.testbit c i), (Z.testbit c' i), (Z.testbit x i).
Qed.
End Check.

(** ** A packet on its way *)

Section Frames.
Context {MC : Machine} (tp : nat) (oproc : nat -> PKM unit) (fine : world -> Prop) {LI : Line tp oproc fine}.

(** C7. What the check of a packet is worth.  The header that goes out before
    packet [x], arriving unaltered, gives the other end the size, the control
    byte and a sum with which a packet passes the check if and only if its
    checksum is the one of the packet that was sent.  But this is so only if
    the low byte of the check word, a [char], is not negative (or the high
    byte is all ones): otherwise its sign spills into the high byte, and the
    very packet that was sent is refused. *)
Theorem frame_checked (junk : nat -> list Z) (p cntl x c a : Z) (s : pkw) (r : pack) :
  packs (pk s) !! p = Some r -> fine (kw s) -> p_ttyp r = Some tp -> 0 <= x ->
  p_osum r !! Z.to_nat x = Some c -> p_ob r !! Z.to_nat x = Some a ->
  -32768 <= c < 32768 -> -128 <= cntl < 128 ->
  exists w' h, pkxstart oproc junk p cntl x s = Ret tt (on p (r <| p_ohbuf := h |>) w' s) /\ fine w' /\
    forall q t r', packs (pk t) !! q = Some r' -> p_ihbuf r' = h ->
    exists sum, read_header q (q + off_ihbuf) t = Ret (Some (p_lpsize r, sum, cntl)) t /\
      if sign_kept (CHECK - Z.lxor c cntl)
      then forall c', -32768 <= c' < 32768 -> (check_ok c' cntl (s16 sum) = true <-> c' = c)
      else check_ok c cntl (s16 sum) = false.
Proof.
  intros Er F Et Hx Hc Ha Hcr Hcn. set (d := Z.lxor c cntl). set (w := s16 (CHECK - s16 d)).
  destruct (pkxstart_packet junk p cntl x c a r (kw s) s F Et Hx Hc Ha) as (w' & E & F').
  rewrite <- (on_id p r s Er), (s8_id cntl Hcn) in E. eexists w', _. split; [exact E|]. split; [done|].
  intros q t r' Eq Eh. eexists. split; [by apply (read_header_ok q r')|]. fold d. fold w.
  assert (u16 w = u16 (CHECK - d)) as Ew.
  { unfold w. rewrite u16_s16. unfold u16, wrapU. rewrite Zminus_mod, (Zminus_mod CHECK d). do 2 f_equal. apply u16_s16. }
  replace (s8 (CHECK - s16 d)) with (s8 w) by apply s8_s16.
  rewrite (sign_kept_mod _ _ (eq_sym Ew)).
  pose proof (joined_right w) as Hj. destruct (sign_kept w).
  - intros c' Hc'. rewrite check_ok_eq. fold d.
    rewrite (check_mod _ d) by (rewrite <- Ew; by apply Hj). split; [|by intros ->].
    intros H. apply u16_inj; [done|done|]. by eapply u16_lxor.
  - apply not_true_is_false. rewrite check_ok_eq. fold d. intros H%check_sum. rewrite <- Ew in H.
    by apply Hj in H.
Qed.
End Frames.

(** A line whose device takes what it is given at once, with nobody asleep. *)
Definition tty_pk : tty :=
  mktty (mkclist 0 0 0) (mkclist 0 0 0) (mkclist 0 0 0) false 0 0 0 0 0 1 0 0 0 0 0 0 [].
Definition quiet_line (w : world) : Prop :=
  (exists t, ttys (ks w) !! 0%nat = Some t /\ t_line t = 1) /\ slpque (ks w) = replicate 64 None.
Definition silent (_ : nat) : PKM unit := ret tt.

Lemma quiet_wakeup w c : slpque (ks w) = replicate 64 None ->
  @wakeup machine0 (CRaw c) w = Ret tt (w <| ks ::= fun k => k <| pl := pl k |> |>).
Proof.
  intros E. assert (forall w, slpque (ks w) = replicate 64 None -> @slp_get (@HASH machine0 (CRaw c)) w = Ret None w) as Hq.
  { intros w' E'. unfold slp_get, kf, gets, bind. by rewrite E'. }
  unfold wakeup. cbn [wakeup_n]. unfold wakeup_with, spl6, spl. repeat mstep. erewrite bind_ret_eq by by apply Hq. cbn beta.
  erewrite bind_ret_eq by done. cbn beta. erewrite bind_ret_eq by reflexivity. destruct w as [? [] ?]. reflexivity.
Qed.
Lemma quiet_line_ok : @Line machine0 0 silent quiet_line.
Proof.
  constructor.
  - by intros w [H _].
  - by intros w n [H1 H2].
  - intros w t q [(t' & E & H1) H2] Et. rewrite E in Et. injection Et as ->. split; [|done]. exists (t <| t_outq := q |>).
    split; [|done]. cbn. apply list_lookup_insert_eq. by apply lookup_lt_Some in E.
  - intros w c H. eexists. split; [apply quiet_wakeup, H|]. by destruct H as [(t & E1 & E2) H2], w as [? [] ?]; split; [exists t|].
  - intros s H. exists (kw s). split; [by destruct s|done].
Qed.
#[local] Existing Instance quiet_line_ok.

Definition fresh_pack : pack :=
  pack0 <| p_rsize := 64 |> <| p_rwindow := 2 |> <| p_nxtps := 1 |> <| p_rmsg := -128 |> <| p_ttyp := Some 0%nat |>.
Definition pk_kernel : world := world0 <| ks ::= fun k => k <| ttys := [tty_pk] |> |>.
Definition pk_start : pkw :=
  mkpkw pk_kernel (mkpkstate {[ 1000 := fresh_pack ]} (zeros 8) 2 63 1 0 0 0 [1000] 0 0 (replicate 10 None) (zeros 10) (zeros 10)) [].

Lemma opening_correct_witness :
  exists w' r', for_ [58; 51; 61; 42] (fun c => @pkcntl machine0 0 silent (fun _ => []) c 1000) pk_start =
    Ret tt (on 1000 r' w' pk_start) /\ quiet_line w' /\ opened (mkheard (Some 5) (Some 3)) 2 r'.
Proof.
  refine (@opening_correct machine0 0 silent quiet_line _ 0 (fun _ => []) 1000 2 [Window 2; Size 3; Window 5] pk_start fresh_pack
    _ _ _ _ _); [done| | |repeat constructor; lia|lia].
  - split; [split; try done; vm_compute; intuition congruence|done..].
  - split; [by exists tty_pk|done].
Defined.

(** A connection that has heard both, and hears INITC. *)
Definition pk_both : pkw := setpack 1000 (fresh_pack <| p_state := INITab |>) pk_start.
Definition pk_alive : pkw :=
  match @pkcntl machine0 0 silent (fun _ => []) 42 1000 pk_both with Ret tt s => s | _ => pk_both end.
Lemma alive_by_initc_witness : Z.land 42 192 = 0 /\ Z.shiftr 42 3 = INITC /\
  exists r, packs (pk pk_both) !! 1000 = Some r /\ Z.land (p_state r) INITab = INITab.
Proof.
  apply (@alive_by_initc machine0 0 silent (fun _ => []) 1000) with (s' := pk_alive); [|vm_compute; reflexivity..].
  intros tp s a s' E. by injection E as _ <-.
Defined.

(** The low byte of the check word is negative: the packet is refused. *)
Definition sending_pack : pack :=
  fresh_pack <| p_state := LIVE |> <| p_lpsize := 2 |> <| p_osum := [0; 100; 0; 0; 0; 0; 0; 0] |> <| p_ob := zeros 8 |>.
Lemma frame_checked_witness :
  sign_kept (CHECK - Z.lxor 100 (-120)) = false /\
  exists w' h, @pkxstart silent (fun _ => []) 1000 (-120) 1 (setpack 1000 sending_pack pk_start) =
    Ret tt (on 1000 (sending_pack <| p_ohbuf := h |>) w' (setpack 1000 sending_pack pk_start)) /\ quiet_line w' /\
    forall q t r', packs (pk t) !! q = Some r' -> p_ihbuf r' = h ->
    exists sum, read_header q (q + off_ihbuf) t = Ret (Some (2, sum, -120)) t /\ check_ok 100 (-120) (s16 sum) = false.
Proof.
  split; [reflexivity|].
  apply (@frame_checked machine0 0 silent quiet_line quiet_line_ok (fun _ => []) 1000 (-120) 1 100 0
    (setpack 1000 sending_pack pk_start) sending_pack); try reflexivity; try lia.
  split; [by exists tty_pk|reflexivity].
Defined.
