(* ===== verification/Delivery.v ===== *)
(** * Delivery: what is written to the packet driver the other end reads

    Packets as bytes in the blocks of the pool, how [pkwrite] lays a message out
    in one, what the header sent with it makes of the check, and how [pkaccept]
    and [pkread] take it out again. *)

From S2P Require Import Prelude Bytes Callout Clist State Utab Sched Bio Rdwri Files Writes Fio SysFile Ports Tty Pkmem Pk Packets.

(** ** Bytes of the pool *)

(** The [n] bytes at [a] lie in buffer [bp] from [off] on, within one block and
    clear of the connections. *)
Record region (d : pkstate) (a n : Z) (bp : bptr) (off : nat) : Prop := {
  rg_block : exists i b, nbase d !! i = Some b /\ b <> 0 /\ b <= a /\ a + n <= b + 512 /\ a - b = Z.of_nat off /\
    bufps d !! i = Some (Some bp) /\
    (forall j b', nbase d !! j = Some b' -> (j < i)%nat -> b' = 0 \/ a + n <= b' \/ b' + 512 <= a);
  rg_clear : forall p r, packs d !! p = Some r -> clear_of a n p
}.

Section Bytes.
Context {MC : Machine}.

Lemma region_locate s a n bp off i m : region (pk s) a n bp off -> 0 <= i -> 1 <= m -> i + m <= n ->
  locate (a + i) m s = Ret (bp, Z.of_nat off + i) s.
Proof.
  intros [(k & b & Hb & H0 & Hl & Hh & Ho & Hp & Hf) Hc] Hi Hm Hn. unfold locate.
  do 3 (erewrite bind_ret_eq by reflexivity; cbn beta).
  rewrite decide_True.
  2: { apply Forall_forall. intros [p r] Hin%elem_of_map_to_list. specialize (Hc p r Hin). unfold clear_of in *. cbn. lia. }
  assert (list_find (fun b => b <> 0 /\ b <= a + i /\ a + i + m <= b + 512) (nbase (pk s)) = Some (k, b)) as ->.
  { apply list_find_Some. split; [done|]. split; [lia|]. intros j b' Hj Hlt. specialize (Hf j b' Hj Hlt). lia. }
  rewrite Hp. cbn. unfold ret. do 2 f_equal. lia.
Qed.

(** Another record of the connection, or another kernel, changes nothing of this. *)
Lemma region_on p r w r' w' s a n bp off : region (pk (on p r w s)) a n bp off -> region (pk (on p r' w' s)) a n bp off.
Proof.
  intros [Hb Hc]. split; [exact Hb|]. intros q x. unfold on, setpack in *. cbn in *. destruct (decide (q = p)) as [->|Hq].
  - intros _. apply (Hc p r). by rewrite lookup_insert_eq.
  - rewrite lookup_insert_ne by done. intros Hx. apply (Hc q x). by rewrite lookup_insert_ne.
Qed.

Context (p : Z) (a n : Z) (bp : bptr) (off : nat).

Lemma mem_read_ok r w s b i m : region (pk (on p r w s)) a n bp off -> bufs (ks w) !! bp = Some b ->
  length (b_data b) = 512%nat -> 0 <= i -> 1 <= Z.of_nat m -> i + Z.of_nat m <= n ->
  mem_read (a + i) m (on p r w s) = Ret (sub (off + Z.to_nat i) m (b_data b)) (on p r w s).
Proof.
  intros Hr Hb Hl Hi Hm Hn. unfold mem_read. erewrite bind_ret_eq by by apply (region_locate _ a n bp off). cbn beta iota.
  erewrite bind_ret_eq by by apply on_kern, bf_ok. cbn beta.
  destruct (rg_block _ _ _ _ _ Hr) as (k & c & _ & _ & Hlo & Hhi & Ho & _).
  rewrite (proj2 (Nat.leb_le _ _)) by lia. by replace (Z.to_nat (Z.of_nat off + i)) with (off + Z.to_nat i)%nat by lia.
Qed.
Lemma mem_write_ok r w s b i new : region (pk (on p r w s)) a n bp off -> bufs (ks w) !! bp = Some b ->
  length (b_data b) = 512%nat -> 0 <= i -> new <> [] -> i + Z.of_nat (length new) <= n ->
  mem_write (a + i) new (on p r w s) = Ret tt (on p r (with_data bp b (splice (off + Z.to_nat i) new (b_data b)) w) s).
Proof.
  intros Hr Hb Hl Hi Hne Hn. unfold mem_write.
  assert (1 <= Z.of_nat (length new)) by (destruct new; [done|cbn; lia]).
  erewrite bind_ret_eq by by apply (region_locate _ a n bp off). cbn beta iota.
  erewrite bind_ret_eq by by apply on_kern, bf_ok. cbn beta.
  destruct (rg_block _ _ _ _ _ Hr) as (k & c & _ & _ & Hlo & Hhi & Ho & _).
  rewrite (proj2 (Nat.leb_le _ _)) by lia. replace (Z.to_nat (Z.of_nat off + i)) with (off + Z.to_nat i)%nat by lia.
  apply on_kern. by apply bset_ok.
Qed.
Lemma mem_get_ok r w s b i c : region (pk (on p r w s)) a n bp off -> bufs (ks w) !! bp = Some b ->
  length (b_data b) = 512%nat -> 0 <= i < n -> b_data b !! (off + Z.to_nat i)%nat = Some c ->
  mem_get (a + i) (on p r w s) = Ret (s8 c) (on p r w s).
Proof.
  intros Hr Hb Hl Hi Hc. unfold mem_get. erewrite bind_ret_eq by (eapply mem_read_ok; [done..|lia|lia|lia]). cbn beta.
  rewrite lookup_sub by lia. by rewrite Nat.add_0_r, Hc.
Qed.
Lemma mem_put_ok r w s b i c : region (pk (on p r w s)) a n bp off -> bufs (ks w) !! bp = Some b ->
  length (b_data b) = 512%nat -> 0 <= i < n ->
  mem_put (a + i) c (on p r w s) = Ret tt (on p r (with_data bp b (splice (off + Z.to_nat i) [u8 c] (b_data b)) w) s).
Proof. intros Hr Hb Hl Hi. apply mem_write_ok; try done; cbn; lia. Qed.
End Bytes.

(** ** A message in a packet *)

(** The bytes before the data of a short packet: how many of its bytes carry
    no data, with the top bit of the first set if there is a second. *)
Definition count_bytes (fc : Z) : list Z :=
  if 127 <? fc then [Z.lor (Z.land fc 127) 128; Z.shiftr fc 7] else [fc].

Lemma land127 fc : 0 <= Z.land fc 127 < 128.
Proof. change 127 with (Z.ones 7). rewrite Z.land_ones by lia. by apply Z.mod_pos_bound. Qed.
Lemma lor128 x : 0 <= x < 128 -> Z.lor x 128 = x + 128.
Proof.
  intros Hx. assert (Z.land x 128 = 0) as E; [|by rewrite <- Z.lxor_lor, Z.add_nocarry_lxor by done].
  apply Z.bits_inj'; intros i Hi. rewrite Z.land_spec, Z.bits_0. change 128 with (2 ^ 7).
  destruct (decide (i = 7)) as [->|Hn]; [|by rewrite Z.pow2_bits_false, andb_false_r by lia].
  assert (Z.testbit x 7 = false) as ->; [|done]. destruct (Z.eq_dec x 0) as [->|H0]; [done|].
  apply Z.bits_above_log2; [lia|]. apply Z.log2_lt_pow2; lia.
Qed.

Section Message.
Context {MC : Machine} (p : Z).

Lemma data_set (b : buf) d : b_data (b <| b_data := d |>) = d.
Proof. done. Qed.
Lemma with_data_at bp b d w : bufs (ks (with_data bp b d w)) !! bp = Some (b <| b_data := d |>).
Proof. cbn. by rewrite lookup_insert_eq. Qed.
Lemma with_data_over bp b d1 d2 w : with_data bp (b <| b_data := d1 |>) d2 (with_data bp b d1 w) = with_data bp b d2 w.
Proof. destruct w as [? [] ?]. unfold with_data. cbn. do 2 f_equal. apply insert_insert_eq. Qed.
Lemma splice_one {A} off (c : A) d : (off < length d)%nat -> splice off [c] d = <[off := c]> d.
Proof. intros H. unfold splice. cbn. rewrite insert_take_drop by done. by rewrite Nat.add_1_r. Qed.

Lemma put_count_ok r w s a n bp off b fc : region (pk (on p r w s)) a n bp off -> bufs (ks w) !! bp = Some b ->
  length (b_data b) = 512%nat -> 2 <= n -> 1 <= fc < 16384 ->
  put_count p a fc (on p r w s) =
  Ret (a + Z.of_nat (length (count_bytes fc))) (on p r (with_data bp b (splice off (count_bytes fc) (b_data b)) w) s).
Proof.
  intros Hr Hb Hl Hn Hf. pose proof (land127 fc) as H7.
  destruct (rg_block _ _ _ _ _ Hr) as (k & c & _ & _ & Hlo & Hhi & Ho & _).
  unfold put_count. replace a with (a + 0) at 1 by lia.
  erewrite bind_ret_eq by (eapply mem_put_ok; [exact Hr|done|done|lia]). cbn beta.
  rewrite Nat.add_0_r, (u8_id (Z.land fc 127)), splice_one by lia. unfold count_bytes. destruct (Z.ltb_spec 127 fc) as [H|H].
  - set (w1 := with_data bp b (<[off := Z.land fc 127]> (b_data b)) w). assert (region (pk (on p r w1 s)) a n bp off) as Hr1 by by eapply region_on.
    replace a with (a + 0) at 1 by lia.
    erewrite bind_ret_eq by (eapply mem_get_ok; [exact Hr1|apply with_data_at|by rewrite data_set, length_insert|lia|];
      rewrite data_set, Nat.add_0_r; apply list_lookup_insert_eq; lia). cbn beta.
    rewrite (s8_id (Z.land fc 127)) by lia. replace a with (a + 0) at 1 by lia.
    erewrite bind_ret_eq by (eapply mem_put_ok; [exact Hr1|apply with_data_at|by rewrite data_set, length_insert|lia]). cbn beta.
    rewrite data_set, Nat.add_0_r, lor128, (u8_id (Z.land fc 127 + 128)) by lia.
    unfold w1. rewrite with_data_over, splice_one, list_insert_insert_eq by (rewrite ?length_insert; lia).
    set (w2 := with_data bp b (<[off := Z.land fc 127 + 128]> (b_data b)) w). assert (region (pk (on p r w2 s)) a n bp off) as Hr2 by by eapply region_on.
    erewrite bind_ret_eq by (eapply mem_put_ok; [exact Hr2|apply with_data_at|by rewrite data_set, length_insert|lia]). cbn beta.
    cbn [length]. rewrite data_set. unfold w2. rewrite with_data_over. change (Z.to_nat 1) with 1%nat.
    rewrite Nat.add_1_r, splice_cons by (cbn [length]; lia).
    rewrite (u8_id (Z.shiftr fc 7)); [done|]. rewrite Z.shiftr_div_pow2 by lia. change (2 ^ 7) with 128.
    split; [apply Z.div_pos; lia|apply Z.div_lt_upper_bound; lia].
  - change (127 <? fc) with false. rewrite <- splice_one by lia. replace (Z.land fc 127) with fc; [done|].
    change 127 with (Z.ones 7). rewrite Z.land_ones by lia. rewrite Z.mod_small; [done|]. change (2 ^ 7) with 128. lia.
Qed.

(** The count is read back. *)
Lemma small_bit x i : 0 <= x < 128 -> 7 <= i -> Z.testbit x i = false.
Proof.
  intros Hx Hi. destruct (Z.eq_dec x 0) as [->|H0]; [apply Z.bits_0|].
  apply Z.bits_above_log2; [lia|]. assert (Z.log2 x < 7); [|lia]. apply Z.log2_lt_pow2; lia.
Qed.
Lemma top_set x : 0 <= x < 128 -> (x - 128) &? 128 = true.
Proof.
  intros Hx. apply tst_true. intros E. apply (f_equal (fun z => Z.testbit z 7)) in E. revert E.
  rewrite Z.land_spec. replace (x - 128) with (Z.lnot (127 - x)) by (unfold Z.lnot; lia).
  by rewrite Z.lnot_spec, small_bit by lia.
Qed.
Lemma top_clear x : 0 <= x < 128 -> x &? 128 = false.
Proof.
  intros Hx. apply tst_false. apply Z.bits_inj'; intros i Hi. rewrite Z.land_spec, Z.bits_0. change 128 with (2 ^ 7).
  destruct (decide (i = 7)) as [->|Hn]; [by rewrite small_bit|]. by rewrite Z.pow2_bits_false, andb_false_r by lia.
Qed.
Lemma count_joins fc : 0 <= fc < 16384 ->
  Z.lor (Z.land (Z.land fc 127 - 128) 127) (s32 (Z.shiftl (Z.shiftr fc 7) 7)) = fc.
Proof.
  intros Hf. pose proof (land127 fc) as H7.
  assert (0 <= Z.shiftr fc 7 < 128) as H.
  { rewrite Z.shiftr_div_pow2 by lia. change (2 ^ 7) with 128. split; [apply Z.div_pos; lia|apply Z.div_lt_upper_bound; lia]. }
  rewrite s32_id by (rewrite Z.shiftl_mul_pow2 by lia; change (2 ^ 7) with 128; lia).
  change 127 with (Z.ones 7) at 2. rewrite Z.land_ones by lia. change (2 ^ 7) with 128.
  replace ((Z.land fc 127 - 128) mod 128) with (Z.land fc 127)
    by (rewrite <- (Z.mod_add _ 1) by lia; rewrite Z.mul_1_l, Z.sub_add, Z.mod_small; lia).
  apply Z.bits_inj'; intros i Hi. change 127 with (Z.ones 7). rewrite Z.lor_spec, Z.land_spec, Z.shiftl_spec by lia.
  destruct (Z.lt_ge_cases i 7).
  - rewrite Z.ones_spec_low, (Z.testbit_neg_r _ (i - 7)) by lia. by rewrite andb_true_r, orb_false_r.
  - rewrite Z.ones_spec_high, Z.shiftr_spec, andb_false_r by lia. cbn. f_equal. lia.
Qed.

(** Bytes [bs] at address [a]. *)
Record stored (s : pkw) (w : world) (a : Z) (bs : list Z) (bp : bptr) (off : nat) (b : buf) : Prop := {
  st_region : region (pk s) a (Z.of_nat (length bs)) bp off;
  st_buf : bufs (ks w) !! bp = Some b;
  st_len : length (b_data b) = 512%nat;
  st_bytes : sub off (length bs) (b_data b) = bs
}.
Lemma stored_byte s w a bs bp off b i c : stored s w a bs bp off b -> bs !! i = Some c -> b_data b !! (off + i)%nat = Some c.
Proof.
  intros Hs Hc. rewrite <- (lookup_sub off (length bs)), (st_bytes _ _ _ _ _ _ _ Hs); [done|]. by eapply lookup_lt_Some.
Qed.
Lemma stored_get r w s a bs bp off b i c : stored (on p r w s) w a bs bp off b -> bs !! Z.to_nat i = Some c -> 0 <= i ->
  mem_get (a + i) (on p r w s) = Ret (s8 c) (on p r w s).
Proof.
  intros Hs Hc Hi. destruct Hs as [Hr Hb Hl Hby] eqn:E. apply lookup_lt_Some in Hc as Hlt.
  eapply mem_get_ok; [exact Hr|done|done|lia|]. clear E. by eapply stored_byte.
Qed.

Lemma short_count_ok r w s a fc l bp off b : stored (on p r w s) w a (count_bytes fc ++ l) bp off b -> 1 <= fc < 16384 ->
  short_count p a (on p r w s) = Ret fc (on p r w s) /\
  (c <- mem_get a ;; ret (if c &? 128 then a + 2 else a + 1)) (on p r w s) =
    Ret (a + Z.of_nat (length (count_bytes fc))) (on p r w s).
Proof.
  intros Hs Hf. pose proof (land127 fc) as H7. unfold short_count, count_bytes in *.
  destruct (Z.ltb_spec 127 fc) as [H|H].
  - assert (mem_get a (on p r w s) = Ret (Z.land fc 127 - 128) (on p r w s)) as E0.
    { replace a with (a + 0) by lia. erewrite stored_get; [|exact Hs|reflexivity|lia]. f_equal. rewrite lor128 by lia.
      unfold s8, wrapS. change (2 ^ (8 - 1)) with 128. change (2 ^ 8) with 256.
      rewrite <- (Z.mod_add _ (-1)) by lia. rewrite Z.mod_small; lia. }
    assert (0 <= Z.shiftr fc 7 < 128) as Hh.
    { rewrite Z.shiftr_div_pow2 by lia. change (2 ^ 7) with 128. split; [apply Z.div_pos; lia|apply Z.div_lt_upper_bound; lia]. }
    split; erewrite bind_ret_eq by exact E0; cbn beta; rewrite top_set by done; [|done].
    erewrite bind_ret_eq by (eapply stored_get; [exact Hs|reflexivity|lia]). cbn beta.
    by rewrite s8_id, count_joins by lia.
  - assert (mem_get a (on p r w s) = Ret fc (on p r w s)) as E0.
    { replace a with (a + 0) by lia. erewrite stored_get; [|exact Hs|reflexivity|lia]. by rewrite s8_id by lia. }
    split; erewrite bind_ret_eq by exact E0; cbn beta; by rewrite top_clear by lia.
Qed.

(** *** The checksum of a packet *)

Lemma stored_char r w s a bs bp off b i c : stored (on p r w s) w a bs bp off b -> bs !! i = Some c ->
  char_get p (a + Z.of_nat i) (on p r w s) = Ret (s8 c) (on p r w s).
Proof.
  intros Hs Hc. unfold char_get. assert (in_ihbuf p (a + Z.of_nat i) = false) as ->.
  { apply lookup_lt_Some in Hc. pose proof (rg_clear _ _ _ _ _ (st_region _ _ _ _ _ _ _ Hs) p r (on_at p r w s)) as H.
    unfold clear_of, in_ihbuf, sizeof_pack, off_ihbuf, HDRSIZ in *. apply andb_false_iff.
    rewrite Z.leb_gt, Z.ltb_ge. lia. }
  eapply stored_get; [exact Hs|by rewrite Nat2Z.id|lia].
Qed.
Lemma get_chars_ok r w s a bs bp off b : stored (on p r w s) w a bs bp off b ->
  get_chars p a (length bs) (on p r w s) = Ret (map s8 bs) (on p r w s).
Proof.
  intros Hs. unfold get_chars.
  assert (forall m k, (k + m = length bs)%nat ->
    loop (S m) (fun x : nat * list Z => let '(i, l) := x in
      if Nat.eqb i (length bs) then ret (inr l)
      else c <- char_get p (a + Z.of_nat i) ;; ret (inl (S i, l ++ [c]))) (k, map s8 (take k bs)) (on p r w s) =
    Ret (map s8 bs) (on p r w s)) as Hl.
  { induction m as [|m IH]; intros k Hk; rewrite loop_S.
    - rewrite (proj2 (Nat.eqb_eq _ _)) by lia. by rewrite take_ge by lia.
    - rewrite (proj2 (Nat.eqb_neq _ _)) by lia. destruct (lookup_lt_is_Some_2 bs k) as [c Hc]; [lia|].
      rewrite bind_assoc. erewrite bind_ret_eq by by eapply stored_char. cbn beta.
      erewrite bind_ret_eq by reflexivity. cbn beta iota. rewrite <- (IH (S k)) by lia.
      by rewrite (take_S_r _ _ _ Hc), map_app. }
  apply (Hl (length bs) 0%nat). done.
Qed.
Lemma chksum_ok r w s a bs bp off b : stored (on p r w s) w a bs bp off b -> bs <> [] ->
  chksum p a (Z.of_nat (length bs)) (on p r w s) = Ret (checksum (map s8 bs)) (on p r w s).
Proof.
  intros Hs Hne. unfold chksum, checksum. cbv zeta.
  assert (Z.to_nat (Z.max 1 (Z.of_nat (length bs))) = length bs) as -> by (destruct bs; [done|cbn [length]; lia]).
  erewrite bind_ret_eq by by eapply get_chars_ok. by rewrite length_map.
Qed.
Lemma checksum_range l : -32768 <= checksum l < 32768.
Proof.
  unfold checksum. assert (forall n sum x l, -32768 <= sum < 32768 -> -32768 <= chk n sum x l < 32768) as H; [|apply H; lia].
  intros n sum x l'. revert n sum x. induction l' as [|c l' IH]; intros n sum x Hs; [done|]. cbn [chk].
  unfold chk_step. cbv zeta. apply IH. destruct (_ <=? _); apply s16_range.
Qed.

(** *** A packet is filled *)

(** The bytes of a packet of size [n] with the message [l]. *)
Definition message (n : Z) (l rest : list Z) : list Z :=
  if Z.of_nat (length l) <? n then count_bytes (n - Z.of_nat (length l)) ++ l ++ rest else l.

Lemma iomove_write r w s a n bp off b i l : region (pk (on p r w s)) a n bp off -> bufs (ks w) !! bp = Some b ->
  length (b_data b) = 512%nat -> 0 <= i -> i + Z.of_nat (length l) <= n -> l <> [] ->
  supplies (u w) (ks w) l -> Z.of_nat (length l) <= u_count (u w) < 4294967296 ->
  pkmove (a + i) (Z.of_nat (length l)) B_WRITE (on p r w s) =
  Ret tt (on p r (advanced (Z.of_nat (length l)) (with_data bp b (splice (off + Z.to_nat i) l (b_data b)) w)) s).
Proof.
  intros Hr Hb Hl Hi Hn Hne Hs Hc. destruct (rg_block _ _ _ _ _ Hr) as (k & c & _ & _ & Hlo & Hhi & Ho & _).
  assert (1 <= Z.of_nat (length l)) by (destruct l; [done|cbn [length]; lia]).
  unfold pkmove. rewrite u32_id by lia. rewrite (proj2 (Z.eqb_neq _ _)) by lia.
  erewrite bind_ret_eq by (eapply region_locate; [exact Hr|lia..]). cbn beta iota.
  replace (off + Z.to_nat i)%nat with (Z.to_nat (Z.of_nat off + i)) by lia.
  apply on_kern. apply iomove_in_ok; try done; lia.
Qed.

Lemma on_kput (f : pack -> list Z) {S : Setter f} i v r w s : 0 <= i -> is_Some (f r !! Z.to_nat i) ->
  kput p f i v (on p r w s) = Ret tt (on p (setf f (fun _ => <[Z.to_nat i := v]> (f r)) r) w s).
Proof. intros Hi [v0 Hv]. erewrite kput_ok by (try done; apply on_at). by rewrite on_set. Qed.
Lemma sub_add {A} off n m (l : list A) : sub off (n + m) l = sub off n l ++ sub (off + n) m l.
Proof.
  unfold sub. rewrite <- drop_drop. generalize (drop off l) as d. intros d. revert d.
  induction n as [|n IH]; intros d; [done|]. destruct d as [|x d]; [by destruct m|]. cbn. f_equal. apply IH.
Qed.

(** What lay in the packet behind the message stays there. *)
Definition leftover (n : Z) (l : list Z) (off : nat) (d : list Z) : list Z :=
  let k := length (count_bytes (n - Z.of_nat (length l))) in
  if Z.of_nat (length l) <? n then sub (off + k + length l) (Z.to_nat n - k - length l) d else [].

Lemma put_message_ok r w s cp n bp off b l : region (pk (on p r w s)) cp n bp off -> bufs (ks w) !! bp = Some b ->
  length (b_data b) = 512%nat -> 2 <= n -> l <> [] -> supplies (u w) (ks w) l ->
  0 <= u_count (u w) < 2147483648 -> Z.of_nat (length l) = Z.min (u_count (u w)) n ->
  exists d, let w' := advanced (Z.of_nat (length l)) (with_data bp b d w) in
    let rest := leftover n l off (b_data b) in
    put_message p cp n (u_count (u w)) (on p r w s) = Ret tt (on p r w' s) /\
    Z.of_nat (length (message n l rest)) = n /\
    stored (on p r w' s) w' cp (message n l rest) bp off (b <| b_data := d |>).
Proof.
  intros Hr Hb Hl Hn Hne Hs Hc Hlen. destruct (rg_block _ _ _ _ _ Hr) as (k & c & _ & _ & Hlo & Hhi & Ho & _).
  assert (1 <= Z.of_nat (length l)) by (destruct l; [done|cbn [length]; lia]).
  assert (forall d bs, length d = 512%nat -> Z.of_nat (length bs) = n -> sub off (Z.to_nat n) d = bs ->
    let w' := advanced (Z.of_nat (length l)) (with_data bp b d w) in
    stored (on p r w' s) w' cp bs bp off (b <| b_data := d |>)) as Hst.
  { intros d bs Hd Hbs Hsub w'. split; [|by apply with_data_at|done|].
    - rewrite Hbs. by eapply region_on.
    - by replace (length bs) with (Z.to_nat n) by lia. }
  unfold put_message, message, leftover. rewrite s32_id by lia. destruct (Z.ltb_spec (u_count (u w)) n) as [Hlt|Hge].
  - assert (u_count (u w) = Z.of_nat (length l)) as Hu by lia. rewrite Hu. set (fc := n - Z.of_nat (length l)) in *.
    assert (Z.of_nat (length (count_bytes fc)) <= fc /\ (length (count_bytes fc) <= 2)%nat) as [Hk1 Hk2].
    { unfold count_bytes. destruct (Z.ltb_spec 127 fc); cbn [length]; lia. }
    set (cb := count_bytes fc) in *. set (d1 := splice off cb (b_data b)).
    assert (length d1 = 512%nat) as Hd1 by (unfold d1; rewrite length_splice; lia).
    set (d2 := splice (off + length cb) l d1).
    set (rest := sub (off + length cb + length l) (Z.to_nat n - length cb - length l) (b_data b)).
    assert (length d2 = 512%nat) as Hd2 by (unfold d2; rewrite length_splice; lia).
    exists d2. cbv zeta. rewrite (proj2 (Z.ltb_lt _ _)) by lia.
    assert (sub off (Z.to_nat n) d2 = cb ++ l ++ rest) as Hsub.
    { replace (Z.to_nat n) with (length cb + (length l + (Z.to_nat n - length cb - length l)))%nat by lia.
      rewrite !sub_add. f_equal; [|f_equal].
      - unfold d2. rewrite sub_splice_ne by lia. unfold d1. by rewrite sub_splice by lia.
      - unfold d2. by rewrite sub_splice by lia.
      - unfold d2. rewrite sub_splice_ne by lia. unfold d1. by rewrite sub_splice_ne by lia. }
    assert (Z.of_nat (length (cb ++ l ++ rest)) = n) as Hbs by (rewrite <- Hsub, length_sub; lia).
    split; [|split; [done|by apply Hst]].
    erewrite bind_ret_eq by (eapply put_count_ok; [exact Hr|done|done|lia|unfold fc; lia]). cbn beta. fold cb. fold d1.
    rewrite (iomove_write r (with_data bp b d1 w) s cp n bp off (b <| b_data := d1 |>)); try done.
    + rewrite Nat2Z.id, data_set. fold d2. by rewrite with_data_over.
    + apply with_data_at.
    + lia.
    + lia.
    + by eapply supplies_same.
    + cbn [u with_data setf]. lia.
  - exists (splice off l (b_data b)). cbv zeta. rewrite (proj2 (Z.ltb_ge (Z.of_nat (length l)) n)) by lia.
    assert (Z.of_nat (length l) = n) as El by lia. split; [|split; [done|apply Hst; [by rewrite length_splice by lia|done|]]].
    + rewrite <- El at 1. replace cp with (cp + 0) at 1 by lia.
      rewrite (iomove_write r w s cp n bp off b); try done; try lia. by rewrite Nat.add_0_r.
    + by rewrite sub_splice by lia.
Qed.

(** The record after packet [x] has been filled. *)
Definition filled (x cp n : Z) (bs l : list Z) (r : pack) : pack :=
  r <| p_ob := <[Z.to_nat x := cp]> (p_ob r) |>
    <| p_osum := <[Z.to_nat x := checksum (map s8 bs)]> (p_osum r) |>
    <| p_os := <[Z.to_nat x := if Z.of_nat (length l) <? n then B_READY + B_SHORT else B_READY]> (p_os r) |>.

Lemma fill_packet_ok at_bwaiting r w s s0 x cp bp off b l : packs (pk s0) !! p = Some r -> 0 <= x < 8 ->
  length (p_ob r) = 8%nat -> length (p_osum r) = 8%nat -> length (p_os r) = 8%nat ->
  getepack at_bwaiting (p_bits r) s0 = Ret cp (on p r w s) ->
  region (pk (on p r w s)) cp (p_xsize r) bp off -> bufs (ks w) !! bp = Some b -> length (b_data b) = 512%nat ->
  2 <= p_xsize r -> l <> [] -> supplies (u w) (ks w) l ->
  0 <= u_count (u w) < 2147483648 -> Z.of_nat (length l) = Z.min (u_count (u w)) (p_xsize r) ->
  exists d, let w' := advanced (Z.of_nat (length l)) (with_data bp b d w) in
    let bs := message (p_xsize r) l (leftover (p_xsize r) l off (b_data b)) in
    let r' := filled x cp (p_xsize r) bs l r in
    fill_packet at_bwaiting p x s0 = Ret tt (on p r' w' s) /\ Z.of_nat (length bs) = p_xsize r /\
    stored (on p r' w' s) w' cp bs bp off (b <| b_data := d |>).
Proof.
  intros Er Hx Ho1 Ho2 Ho3 Eg Hr Hb Hl Hn Hne Hs Hc Hlen. set (n := p_xsize r) in *.
  set (r1 := r <| p_ob := <[Z.to_nat x := cp]> (p_ob r) |>).
  destruct (put_message_ok r1 w s cp n bp off b l) as (d & E & Hbs & Hst); try done; [by eapply region_on|].
  cbv zeta in *. set (w' := advanced _ _) in *. set (bs := message n l _) in *. exists d.
  unfold fill_packet. erewrite bind_ret_eq by by apply kf_pack_ok. cbn beta. erewrite bind_ret_eq by exact Eg. cbn beta.
  erewrite bind_ret_eq by (apply on_kput; [lia|apply lookup_lt_is_Some_2; lia]). fold r1. cbn beta.
  erewrite bind_ret_eq by by apply on_kern. cbn beta. erewrite bind_ret_eq by apply on_kf. cbn beta.
  change (p_xsize r1) with n. erewrite bind_ret_eq by exact E. cbn beta.
  erewrite bind_ret_eq by (apply (on_kat _ _ _ cp); [lia|apply list_lookup_insert_eq; lia]). cbn beta.
  erewrite bind_ret_eq by apply on_kf. cbn beta. change (p_xsize r1) with n.
  erewrite bind_ret_eq by (rewrite <- Hbs; eapply chksum_ok; [exact Hst|intros E0; rewrite E0 in Hbs; cbn in Hbs; lia]). cbn beta.
  erewrite bind_ret_eq by (apply on_kput; [lia|apply lookup_lt_is_Some_2; cbn; lia]). cbn beta.
  rewrite on_kput; [|lia|apply lookup_lt_is_Some_2; cbn; lia]. rewrite s32_id by lia.
  replace (u_count (u w) <? n) with (Z.of_nat (length l) <? n); [split; [done|split; [done|]]|].
  - destruct Hst as [A B C D]. split; try done. by eapply region_on.
  - destruct (Z.ltb_spec (u_count (u w)) n); [apply Z.ltb_lt|apply Z.ltb_ge]; lia.
Qed.
End Message.

(** ** A packet is taken in *)

(** The bit of packet [v]. *)
Definition bit (v : Z) : Z := s8 (2 ^ v).

Lemma next_slot_ok v s : 0 <= v < 8 -> next v s = Ret ((v + 1) mod 8) s.
Proof.
  intros Hv. unfold next. apply index_ok; [lia|].
  assert (forallb (fun v => bool_decide (next_tab !! Z.to_nat v = Some ((v + 1) mod 8))) (seqZ 0 8) = true) as H by done.
  rewrite forallb_forall in H. specialize (H v). rewrite bool_decide_eq_true in H. apply H, list_elem_of_In, elem_of_seqZ. lia.
Qed.
Lemma mask_ok v s : 0 <= v < 8 -> mask v s = Ret (bit v) s.
Proof.
  intros Hv. unfold mask. apply index_ok; [lia|].
  assert (forallb (fun v => bool_decide (mask_tab !! Z.to_nat v = Some (bit v))) (seqZ 0 8) = true) as H by done.
  rewrite forallb_forall in H. specialize (H v). rewrite bool_decide_eq_true in H. apply H, list_elem_of_In, elem_of_seqZ. lia.
Qed.
Lemma bit_apart x v : 0 <= x < 8 -> 0 <= v < 8 -> bit x &? bit v = (x =? v).
Proof.
  intros Hx Hv.
  assert (forallb (fun x => forallb (fun v => Bool.eqb (bit x &? bit v) (x =? v)) (seqZ 0 8)) (seqZ 0 8) = true) as H by done.
  rewrite forallb_forall in H. specialize (H x). rewrite forallb_forall in H. apply Bool.eqb_prop, H;
    apply list_elem_of_In, elem_of_seqZ; lia.
Qed.
(** The window of [n] packets from [x] on. *)
Lemma window_bit n x k : 1 <= n < 8 -> 0 <= x < 8 -> 0 <= k < 8 -> window n x &? bit ((x + k) mod 8) = (k <? n).
Proof.
  intros Hn Hx Hk.
  assert (forallb (fun n => forallb (fun x => forallb (fun k => Bool.eqb (window n x &? bit ((x + k) mod 8)) (k <? n))
    (seqZ 0 8)) (seqZ 0 8)) (seqZ 1 7) = true) as H by done.
  rewrite forallb_forall in H. specialize (H n). rewrite forallb_forall in H. specialize (H ltac:(apply list_elem_of_In, elem_of_seqZ; lia) x).
  rewrite forallb_forall in H. apply Bool.eqb_prop, H; apply list_elem_of_In, elem_of_seqZ; lia.
Qed.

Section Receive.
Context {MC : Machine} (at_bwaiting : Z) (oproc : nat -> PKM unit) (junk : nat -> list Z) (p : Z).

(** The transmitter of the line is busy: what there is to send waits. *)
Definition busy (w : world) (r : pack) : Prop :=
  exists tp t, p_ttyp r = Some tp /\ ttys (ks w) !! tp = Some t /\ t_state t &? BUSY = true.
Lemma pkoutput_busy r w s : busy w r -> pkoutput oproc junk p (on p r w s) = Ret tt (on p r w s).
Proof.
  intros (tp & t & Et & Ht & Hb). unfold pkoutput. erewrite bind_ret_eq by by apply (on_line (tp := tp)). cbn beta.
  erewrite bind_ret_eq by apply on_spl6. cbn beta. erewrite bind_ret_eq.
  2: { apply on_kern. unfold thas. erewrite bind_ret_eq by by apply (tfield_ok ttys). done. } cbn beta iota.
  rewrite Hb. rewrite on_splx. by destruct w as [? [] ?].
Qed.
Lemma busy_if b r w s : busy w r -> when b (pkoutput oproc junk p) (on p r w s) = Ret tt (on p r w s).
Proof. intros H. destruct b; [by apply pkoutput_busy|done]. Qed.

(** The packet in slot [x], alone: message [l] in a packet of [n] bytes, with
    a sum such that [ok]. *)
Record in_slot (ok : Z -> Prop) (r : pack) (w : world) (s : pkw) (x a cntl : Z) (l rest : list Z) (bp : bptr) (off : nat) (b : buf) : Prop := {
  ar_slot : x = (p_pr r + 1) mod 8;
  ar_pr : 0 <= p_pr r < 8;
  ar_lens : length (p_is r) = 8%nat /\ length (p_ib r) = 8%nat /\ length (p_isum r) = 8%nat;
  ar_map : p_imap r = bit x;
  ar_is : p_is r !! Z.to_nat x = Some cntl;
  ar_alone : forall v, 0 <= v < 8 -> v <> x -> p_is r !! Z.to_nat v = Some 0;
  ar_ib : p_ib r !! Z.to_nat x = Some a;
  ar_cntl : -128 <= cntl < 0 /\ Z.land (Z.shiftr cntl 3) MOD8 = x /\
    cntl &? B_SHORT = (Z.of_nat (length l) <? p_rsize r);
  ar_window : 1 <= p_rwindow r < 8;
  ar_size : 32 <= p_rsize r <= 512 /\ 1 <= Z.of_nat (length l) <= p_rsize r /\
    Z.of_nat (length (message (p_rsize r) l rest)) = p_rsize r;
  ar_stored : stored (on p r w s) w a (message (p_rsize r) l rest) bp off b;
  ar_sum : exists sum, p_isum r !! Z.to_nat x = Some sum /\ ok sum;
  ar_busy : busy w r
}.
(** It passes the check. *)
Definition arrived (r : pack) (w : world) (s : pkw) (x a cntl : Z) (l rest : list Z) : bptr -> nat -> buf -> Prop :=
  in_slot (fun sum => check_ok (checksum (map s8 (message (p_rsize r) l rest))) cntl sum = true) r w s x a cntl l rest.
Lemma slot_range r w s x a cntl l rest bp off b : arrived r w s x a cntl l rest bp off b -> 0 <= x < 8.
Proof. intros H. rewrite (ar_slot _ _ _ _ _ _ _ _ _ _ _ _ H). by apply Z.mod_pos_bound. Qed.

(** The record once the packet of slot [x] has been marked, then counted in. *)
Definition mark_of (l : list Z) (n : Z) : Z := if Z.of_nat (length l) <? n then B_MARK + B_SHORT else B_MARK.
Definition marked (x : Z) (l : list Z) (r : pack) : pack :=
  r <| p_is := <[Z.to_nat x := mark_of l (p_rsize r)]> (p_is r) |>
    <| p_isum := <[Z.to_nat x := Z.of_nat (length l)]> (p_isum r) |>.
Definition copying (x : Z) (l : list Z) (r : pack) : pack :=
  r <| p_is := <[Z.to_nat x := Z.lor (mark_of l (p_rsize r)) B_COPY]> (p_is r) |>
    <| p_isum := <[Z.to_nat x := Z.of_nat (length l)]> (p_isum r) |>.

Lemma set_is_twice r l1 l2 : r <| p_is := l1 |> <| p_is := l2 |> = r <| p_is := l2 |>.
Proof. by destruct r. Qed.

Lemma stored_on r w s r' a bs bp off b : stored (on p r w s) w a bs bp off b -> stored (on p r' w s) w a bs bp off b.
Proof. intros [A B C D]. split; try done. by eapply region_on. Qed.

(** [mark_slot] of a packet that lies in its own slot. *)
Lemma mark_slot_ok r w s x a cntl l rest bp off b v : 0 <= x < 8 -> length (p_is r) = 8%nat -> length (p_isum r) = 8%nat ->
  p_ib r !! Z.to_nat x = Some a -> cntl &? B_SHORT = (Z.of_nat (length l) <? p_rsize r) ->
  32 <= p_rsize r <= 512 /\ 1 <= Z.of_nat (length l) <= p_rsize r /\
    Z.of_nat (length (message (p_rsize r) l rest)) = p_rsize r ->
  stored (on p r w s) w a (message (p_rsize r) l rest) bp off b ->
  mark_slot p x x cntl (on p (r <| p_is := <[Z.to_nat x := v]> (p_is r) |>) w s) = Ret tt (on p (marked x l r) w s).
Proof.
  intros Hx Hl1 Hl3 Ha Hsh (Hn1 & Hn2 & Hn3) Hst. unfold mark_slot. rewrite Z.eqb_refl. cbn [negb when].
  rewrite (bind_ret_eq _ _ _ tt _ eq_refl). cbn beta.
  set (r1 := r <| p_is := <[Z.to_nat x := v]> (p_is r) |>).
  erewrite bind_ret_eq by (apply on_kput; [lia|apply lookup_lt_is_Some_2; cbn; rewrite length_insert; lia]). cbn beta.
  assert (r1 <| p_is := <[Z.to_nat x := B_MARK]> (p_is r1) |> = r <| p_is := <[Z.to_nat x := B_MARK]> (p_is r) |>) as ->.
  { unfold r1. rewrite set_is_twice. cbn [p_is setf]. by rewrite list_insert_insert_eq. }
  set (r2 := r <| p_is := <[Z.to_nat x := B_MARK]> (p_is r) |>). rewrite Hsh.
  assert (forall r3 fc, p_isum r3 = p_isum r -> p_rsize r3 = p_rsize r -> fc = p_rsize r - Z.of_nat (length l) ->
    (rsize <- kf_ p p_rsize ;; kput p p_isum x (s16 (rsize - fc))) (on p r3 w s) =
    Ret tt (on p (r3 <| p_isum := <[Z.to_nat x := Z.of_nat (length l)]> (p_isum r) |>) w s)) as Hend.
  { intros r3 fc E1 E2 ->. erewrite bind_ret_eq by apply on_kf. cbn beta.
    rewrite on_kput by (try lia; rewrite E1; apply lookup_lt_is_Some_2; lia). rewrite E1, E2, s16_id by lia.
    by replace (p_rsize r - (p_rsize r - Z.of_nat (length l))) with (Z.of_nat (length l)) by lia. }
  unfold marked, mark_of, message in *. destruct (Z.ltb_spec (Z.of_nat (length l)) (p_rsize r)) as [Hlt|Hge].
  - rewrite bind_assoc.
    erewrite bind_ret_eq by (apply on_kput; [lia|apply lookup_lt_is_Some_2; cbn; rewrite length_insert; lia]). cbn beta.
    assert (r2 <| p_is := <[Z.to_nat x := B_MARK + B_SHORT]> (p_is r2) |> =
            r <| p_is := <[Z.to_nat x := B_MARK + B_SHORT]> (p_is r) |>) as ->.
    { unfold r2. rewrite set_is_twice. cbn [p_is setf]. by rewrite list_insert_insert_eq. }
    set (r3 := r <| p_is := <[Z.to_nat x := B_MARK + B_SHORT]> (p_is r) |>).
    rewrite bind_assoc. erewrite bind_ret_eq by (apply (on_kat _ _ _ a); [lia|done]). cbn beta.
    destruct (short_count_ok p r3 w s a (p_rsize r - Z.of_nat (length l)) (l ++ rest) bp off b) as [Es _];
      [by eapply stored_on|lia|].
    erewrite bind_ret_eq by exact Es. cbn beta. by apply Hend.
  - erewrite bind_ret_eq by reflexivity. cbn beta. apply Hend; [done|done|lia].
Qed.

Lemma accept_skip r w s imask m v y : 0 <= v < 8 -> imask &? bit v = false ->
  accept_one p imask m v y (on p r w s) = Ret y (on p r w s).
Proof.
  intros Hv Hi. unfold accept_one. destruct y as [bad skip]. erewrite bind_ret_eq by by apply mask_ok. cbn beta.
  by rewrite Hi.
Qed.

Lemma accept_slot r w s x a cntl l rest bp off b : arrived r w s x a cntl l rest bp off b ->
  accept_one p (bit x) (window (p_rwindow r) x) x (0, 0) (on p (r <| p_imap := 0 |>) w s) =
  Ret (0, 0) (on p (marked x l (r <| p_imap := 0 |>)) w s).
Proof.
  intros H. pose proof (slot_range _ _ _ _ _ _ _ _ _ _ _ H) as Hx.
  destruct H as [_ Hpr (Hl1 & Hl2 & Hl3) Hmap His _ Hib (Hc & Hseq & Hsh) Hw Hn Hst (sum & Hsum & Hck) _].
  unfold accept_one. erewrite bind_ret_eq by by apply mask_ok. cbn beta. rewrite bit_apart, Z.eqb_refl by done. cbn [negb].
  erewrite bind_ret_eq by (apply (on_kat _ _ _ cntl); [lia|done]). cbn beta.
  assert (cntl &? 128 = true) as ->.
  { replace cntl with (cntl + 128 - 128) by lia. apply top_set. lia. }
  cbn [negb]. set (r0 := r <| p_imap := 0 |>).
  erewrite bind_ret_eq by (apply on_kput; [lia|apply lookup_lt_is_Some_2; cbn; lia]). cbn beta.
  set (r1 := r0 <| p_is := _ |>).
  erewrite bind_ret_eq by (apply (on_kat _ _ _ a); [lia|done]). cbn beta.
  erewrite bind_ret_eq by apply on_kf. cbn beta. change (p_rsize r1) with (p_rsize r).
  destruct Hn as (Hn1 & Hn2 & Hn3).
  erewrite bind_ret_eq.
  2: { rewrite <- Hn3 at 1. eapply chksum_ok; [by eapply stored_on|]. intros E. rewrite E in Hn3. cbn in Hn3. lia. }
  cbn beta. erewrite bind_ret_eq by (apply (on_kat _ _ _ sum); [lia|done]). cbn beta. rewrite Hck, Hseq.
  erewrite bind_ret_eq by by apply mask_ok. cbn beta.
  erewrite bind_ret_eq by (apply (on_kat _ _ _ (-49)); [lia|apply list_lookup_insert_eq; change (length (p_is r) > Z.to_nat x)%nat; lia]). cbn beta.
  assert (window (p_rwindow r) x &? bit x = true) as ->.
  { replace x with ((x + 0) mod 8) at 2 by (rewrite Z.add_0_r, Z.mod_small; lia).
    rewrite window_bit by lia. apply Z.ltb_lt. lia. }
  change (-49 &? Z.lor B_COPY B_MARK) with false. cbn [negb orb].
  erewrite bind_ret_eq by (eapply (mark_slot_ok r0); try done; by eapply stored_on). done.
Qed.

(** The loop over the eight slots. *)
Lemma accept_all r w s x a cntl l rest bp off b : arrived r w s x a cntl l rest bp off b ->
  let r0 := r <| p_imap := 0 |> in
  loop 9 (fun y : Z * (Z * Z) => let '(v, y) := y in
    if v <? 8 then y <- accept_one p (bit x) (window (p_rwindow r) x) v y ;; ret (inl (v + 1, y)) else ret (inr y))
    (0, (0, 0)) (on p r0 w s) = Ret (0, 0) (on p (marked x l r0) w s).
Proof.
  intros H r0. pose proof (slot_range _ _ _ _ _ _ _ _ _ _ _ H) as Hx.
  assert (forall m i, (Z.of_nat m = 8 - i) -> 0 <= i <= 8 ->
    loop (S m) (fun y : Z * (Z * Z) => let '(v, y) := y in
      if v <? 8 then y <- accept_one p (bit x) (window (p_rwindow r) x) v y ;; ret (inl (v + 1, y)) else ret (inr y))
      (i, (0, 0)) (on p (if i <=? x then r0 else marked x l r0) w s) = Ret (0, 0) (on p (marked x l r0) w s)) as Hl.
  { induction m as [|m IH]; intros i Hm Hi; rewrite loop_S.
    - rewrite (proj2 (Z.ltb_ge i 8)), (proj2 (Z.leb_gt i x)) by lia. done.
    - rewrite (proj2 (Z.ltb_lt i 8)) by lia. rewrite bind_assoc.
      erewrite (bind_ret_eq _ _ _ (0, 0) (on p (if i + 1 <=? x then r0 else marked x l r0) w s)).
      + cbn beta. erewrite bind_ret_eq by reflexivity. cbn beta iota. apply IH; lia.
      + destruct (Z.eq_dec i x) as [->|Hn].
        * rewrite Z.leb_refl, (proj2 (Z.leb_gt (x + 1) x)) by lia. by eapply accept_slot.
        * assert ((i + 1 <=? x) = (i <=? x)) as -> by (destruct (Z.leb_spec (i + 1) x), (Z.leb_spec i x); lia).
          apply accept_skip; [lia|]. rewrite bit_apart by lia. apply Z.eqb_neq. lia. }
  specialize (Hl 8%nat 0). rewrite (proj2 (Z.leb_le 0 x)) in Hl by lia. apply Hl; lia.
Qed.

Lemma mark_bits l n : mark_of l n &? B_MARK = true /\ s8 (Z.lor (mark_of l n) B_COPY) = Z.lor (mark_of l n) B_COPY /\
  Z.lor (mark_of l n) B_COPY &? B_COPY = true /\ Z.lor (mark_of l n) B_COPY &? B_RESID = false /\
  Z.lor (mark_of l n) B_COPY &? B_SHORT = (Z.of_nat (length l) <? n).
Proof. unfold mark_of. by destruct (_ <? _). Qed.

(** The scan of the window finds this packet and no other. *)
Lemma window_scan r w s x l : 0 <= x < 8 -> length (p_is r) = 8%nat -> 1 <= p_rwindow r < 8 ->
  (forall v, 0 <= v < 8 -> v <> x -> p_is r !! Z.to_nat v = Some 0) ->
  loop 9 (window_round p (window (p_rwindow r) x)) (x, -1, 0, 0) (on p (marked x l r) w s) =
  Ret (1, 0) (on p (copying x l r) w s).
Proof.
  intros Hx Hlen Hw Hal. destruct (mark_bits l (p_rsize r)) as (M1 & M2 & M3 & _).
  assert (forall e m k t, 1 <= k -> (Z.of_nat m = p_rwindow r - k) ->
    loop (S (m + e)) (window_round p (window (p_rwindow r) x)) ((x + k) mod 8, t, 1, 0) (on p (copying x l r) w s) =
    Ret (1, 0) (on p (copying x l r) w s)) as Hl.
  { intros e. induction m as [|m IH]; intros k t Hk Hm; cbn [Nat.add]; rewrite loop_S; unfold window_round at 1;
      pose proof (Z.mod_pos_bound (x + k) 8 ltac:(lia)) as Hv; rewrite bind_assoc;
      erewrite bind_ret_eq by (by apply mask_ok); cbn beta; rewrite window_bit by lia.
    - rewrite (proj2 (Z.ltb_ge _ _)) by lia. done.
    - rewrite (proj2 (Z.ltb_lt _ _)) by lia. cbn [negb].
      assert ((x + k) mod 8 <> x) as Hne.
      { intros E. pose proof (Z.div_mod (x + k) 8). lia. }
      assert (p_is (copying x l r) !! Z.to_nat ((x + k) mod 8) = Some 0) as Hz.
      { cbn. rewrite list_lookup_insert_ne by lia. by apply Hal. }
      rewrite bind_assoc. erewrite bind_ret_eq by (apply (on_kat _ _ _ 0); [lia|done]). cbn beta.
      change (0 &? B_MARK) with false. cbn [when]. rewrite bind_assoc, (bind_ret_eq _ _ _ tt _ eq_refl). cbn beta.
      rewrite bind_assoc. erewrite bind_ret_eq by (apply (on_kat _ _ _ 0); [lia|done]). cbn beta.
      rewrite bind_assoc. erewrite bind_ret_eq by by apply next_slot_ok. cbn beta. change (0 &? B_COPY) with false. cbn match.
      erewrite bind_ret_eq by reflexivity. cbn beta iota.
      replace (((x + k) mod 8 + 1) mod 8) with ((x + (k + 1)) mod 8) by (rewrite Zplus_mod_idemp_l; f_equal; lia).
      apply IH; lia. }
  rewrite loop_S. unfold window_round at 1. rewrite bind_assoc. erewrite bind_ret_eq by by apply mask_ok. cbn beta.
  assert (window (p_rwindow r) x &? bit x = true) as ->.
  { replace x with ((x + 0) mod 8) at 2 by (rewrite Z.add_0_r, Z.mod_small; lia). rewrite window_bit by lia. apply Z.ltb_lt. lia. }
  cbn [negb]. rewrite bind_assoc.
  erewrite bind_ret_eq by (apply (on_kat _ _ _ (mark_of l (p_rsize r))); [lia|by apply list_lookup_insert_eq; lia]). cbn beta.
  rewrite M1. cbn [when]. rewrite bind_assoc.
  rewrite (bind_ret_eq _ _ _ tt (on p (copying x l r) w s)).
  2: { rewrite on_kput by (try lia; apply lookup_lt_is_Some_2; cbn; rewrite length_insert; lia). rewrite M2.
       do 2 f_equal. unfold marked, copying. destruct r. flat. by rewrite list_insert_insert_eq. }
  cbn beta.
  rewrite bind_assoc.
  erewrite bind_ret_eq by (apply (on_kat _ _ _ (Z.lor (mark_of l (p_rsize r)) B_COPY)); [lia|by apply list_lookup_insert_eq; lia]). cbn beta.
  rewrite bind_assoc. erewrite bind_ret_eq by by apply next_slot_ok. cbn beta. rewrite M3. change (0 <=? -1) with false. cbn match.
  erewrite bind_ret_eq by reflexivity. cbn beta iota.
  replace 8%nat with (S (Z.to_nat (p_rwindow r - 1) + (7 - Z.to_nat (p_rwindow r - 1))))%nat by lia.
  apply Hl; lia.
Qed.

(** The record after [pkaccept]. *)
Definition accepted (x : Z) (l : list Z) (r : pack) : pack := (copying x l (r <| p_imap := 0 |>)) <| p_rcount := 1 |>.

Lemma pkaccept_ok r w s x a cntl l rest bp off b : arrived r w s x a cntl l rest bp off b ->
  pkaccept oproc junk p (on p r w s) = Ret 1 (on p (accepted x l r) w s).
Proof.
  intros H. pose proof (slot_range _ _ _ _ _ _ _ _ _ _ _ H) as Hx.
  assert (forall r' n w, kern (splx (pl (ks w))) (on p r' (w <| ks ::= fun k => k <| pl := n |> |>) s) = Ret tt (on p r' w s)) as Hspl.
  { intros r' n w'. rewrite on_splx. by destruct w' as [? [] ?]. }
  pose proof (accept_all _ _ _ _ _ _ _ _ _ _ _ H) as Eall. cbv zeta in Eall.
  destruct H as [Hsl Hpr (Hl1 & Hl2 & Hl3) Hmap His Hal Hib Hc Hw Hn Hst Hsum Hbusy].
  set (r0 := r <| p_imap := 0 |>) in *. pose proof (window_scan r0 w s x l Hx Hl1 Hw Hal) as Escan.
  change (p_rwindow r0) with (p_rwindow r) in Escan.
  unfold pkaccept. erewrite bind_ret_eq by apply on_spl6. cbn beta.
  erewrite bind_ret_eq by apply on_kf. cbn beta. erewrite bind_ret_eq by by apply next_slot_ok. cbn beta. rewrite <- Hsl.
  erewrite bind_ret_eq by apply on_kf. cbn beta. erewrite bind_ret_eq by apply on_kf. cbn beta. rewrite Hmap.
  assert ((bit x =? 0) = false) as ->.
  { apply Z.eqb_neq. intros E. pose proof (bit_apart x x Hx Hx) as Hb. by rewrite E, Z.eqb_refl in Hb. }
  cbn [andb]. erewrite (bind_ret_eq _ _ _ 1 (on p (accepted x l r) w s)).
  { cbn beta. erewrite bind_ret_eq by apply on_kf. cbn beta. erewrite bind_ret_eq; [done|]. by apply busy_if. }
  erewrite bind_ret_eq by apply on_kset. cbn beta. erewrite bind_ret_eq by apply Hspl. cbn beta.
  fold r0. erewrite bind_ret_eq by apply on_kf. cbn beta zeta. change (p_rwindow r0) with (p_rwindow r).
  erewrite bind_ret_eq by exact Eall. cbn beta iota.
  erewrite bind_ret_eq by apply on_kf. cbn beta. change (p_pr (marked x l r0)) with (p_pr r).
  erewrite bind_ret_eq by by apply next_slot_ok. cbn beta. rewrite <- Hsl.
  erewrite bind_ret_eq by exact Escan. cbn beta iota.
  change (tst 0) with false. cbn [when]. rewrite (bind_ret_eq _ _ _ tt _ eq_refl). cbn beta.
  erewrite bind_ret_eq by apply on_kset. done.
Qed.

Lemma await_ok r w s tp x a cntl l rest bp off b : arrived r w s x a cntl l rest bp off b ->
  await_packet oproc junk tp p (on p r w s) = Ret None (on p (accepted x l r) w s).
Proof.
  intros H. unfold await_packet. erewrite bind_ret_eq by reflexivity. cbn beta. rewrite loop_S, bind_assoc.
  erewrite bind_ret_eq by by eapply pkaccept_ok. done.
Qed.

(** *** The message is handed to the user *)

Lemma iomove_read r w s a n bp off b i l ua : region (pk (on p r w s)) a n bp off -> bufs (ks w) !! bp = Some b ->
  sub (off + Z.to_nat i) (length l) (b_data b) = l -> 0 <= i -> i + Z.of_nat (length l) <= n -> l <> [] ->
  u_segflg (u w) = 0 -> u_base (u w) = UA ua -> may_store (u w) (ks w) ua (Z.of_nat (length l)) ->
  Z.of_nat (length l) <= u_count (u w) < 4294967296 -> Z.of_nat (length l) <= 512 ->
  pkmove (a + i) (Z.of_nat (length l)) B_READ (on p r w s) = Ret tt (on p r (delivered w l) s).
Proof.
  intros Hr Hb Hsub Hi Hn Hne Hs Hu Hm Hc H5. assert (1 <= Z.of_nat (length l)) by (destruct l; [done|cbn [length]; lia]).
  unfold pkmove. rewrite u32_id by lia. rewrite (proj2 (Z.eqb_neq _ _)) by lia.
  erewrite bind_ret_eq by (eapply region_locate; [exact Hr|lia..]). cbn beta iota. apply on_kern.
  apply (iomove_out_ok w bp b ua); try done; [|lia].
  by replace (Z.to_nat (Z.of_nat off + i)) with (off + Z.to_nat i)%nat by lia.
Qed.

(** The packet given back, and the record then. *)
Definition released (x a : Z) (r : pack) : pack :=
  r <| p_pr := x |> <| p_ipool := a |> <| p_is := <[Z.to_nat x := 0]> (p_is r) |>
    <| p_rcount := s8 (p_rcount r - 1) |> <| p_msg := s8 (Z.lor (p_msg r) M_RR) |>.
Lemma release_slot_ok r w s x a n bp off b : 0 <= x < 8 -> length (p_is r) = 8%nat -> p_ib r !! Z.to_nat x = Some a ->
  region (pk (on p r w s)) a n bp off -> 4 <= n -> bufs (ks w) !! bp = Some b -> length (b_data b) = 512%nat ->
  exists d, length d = 512%nat /\
    release_slot p x (on p r w s) = Ret tt (on p (released x a r) (with_data bp b d w) s).
Proof.
  intros Hx Hl Ha Hr Hn Hb Hd.
  destruct (rg_block _ _ _ _ _ Hr) as (k & c & _ & _ & Hlo & Hhi & Ho & _).
  set (d := splice off (bytes_of 4 (p_ipool r)) (b_data b)).
  assert (length d = 512%nat) as Hd2 by (unfold d; rewrite length_splice; rewrite ?length_bytes_of; lia).
  exists d. split; [done|]. unfold release_slot. erewrite bind_ret_eq by apply on_spl6. cbn beta.
  set (w6 := w <| ks ::= fun k => k <| pl := 6 |> |>).
  erewrite bind_ret_eq by apply on_kset. cbn beta. erewrite bind_ret_eq by by apply (on_kat _ _ _ a); [lia|]. cbn beta.
  unfold pool_put. rewrite !bind_assoc. erewrite bind_ret_eq by apply on_kf. cbn beta. rewrite !bind_assoc.
  erewrite bind_ret_eq.
  2: { unfold ptr_put. replace a with (a + 0) at 1 by lia.
       apply (mem_write_ok p a n bp off) with (b := b); try done. by eapply region_on. }
  cbn beta. rewrite Nat.add_0_r. change (p_ipool (r <| p_pr := x |>)) with (p_ipool r). fold d.
  erewrite bind_ret_eq by apply on_kset. cbn beta.
  erewrite bind_ret_eq by (apply on_kput; [lia|apply lookup_lt_is_Some_2; cbn; lia]). cbn beta.
  erewrite bind_ret_eq by apply on_kf. cbn beta. erewrite bind_ret_eq by apply on_kset. cbn beta.
  erewrite bind_ret_eq by apply on_splx. cbn beta. rewrite on_msg. unfold released. do 2 f_equal.
Qed.

(** The message lies behind the count. *)
Lemma message_at r w s a n l rest bp off b : stored (on p r w s) w a (message n l rest) bp off b ->
  let k := if Z.of_nat (length l) <? n then length (count_bytes (n - Z.of_nat (length l))) else 0%nat in
  sub (off + k) (length l) (b_data b) = l /\ (k + length l <= length (message n l rest))%nat.
Proof.
  intros Hst k. pose proof (st_bytes _ _ _ _ _ _ _ Hst) as Hb. subst k. unfold message in *. destruct (_ <? _).
  - rewrite length_app, sub_add in Hb. apply app_inj_1 in Hb as [_ Hb].
    2: { pose proof (st_len _ _ _ _ _ _ _ Hst). destruct (rg_block _ _ _ _ _ (st_region _ _ _ _ _ _ _ Hst)) as (? & ? & _ & _ & ? & H2 & ? & _).
         rewrite !length_app in H2. rewrite length_sub; lia. }
    rewrite length_app, sub_add in Hb. apply app_inj_1 in Hb as [Hb _].
    2: { pose proof (st_len _ _ _ _ _ _ _ Hst). destruct (rg_block _ _ _ _ _ (st_region _ _ _ _ _ _ _ Hst)) as (? & ? & _ & _ & ? & H2 & ? & _).
         rewrite !length_app in H2. rewrite length_sub; lia. }
    split; [done|]. rewrite !length_app. lia.
  - rewrite Nat.add_0_r. split; [done|lia].
Qed.

Lemma data_start_ok r w s x a l rest bp off b : 0 <= x < 8 -> length (p_is r) = 8%nat -> p_ib r !! Z.to_nat x = Some a ->
  1 <= Z.of_nat (length l) -> p_rsize r <= 512 ->
  stored (on p r w s) w a (message (p_rsize r) l rest) bp off b ->
  data_start p x (Z.lor (mark_of l (p_rsize r)) B_COPY) (on p r w s) =
  Ret (a + Z.of_nat (if Z.of_nat (length l) <? p_rsize r then length (count_bytes (p_rsize r - Z.of_nat (length l))) else 0%nat))
    (on p r w s).
Proof.
  intros Hx Hl Ha H1 H5 Hst. destruct (mark_bits l (p_rsize r)) as (_ & _ & _ & M4 & M5).
  unfold data_start. rewrite M4. erewrite bind_ret_eq by by apply (on_kat _ _ _ a); [lia|]. cbn beta. rewrite M5.
  unfold message in Hst. destruct (Z.ltb_spec (Z.of_nat (length l)) (p_rsize r)) as [H|H].
  - eapply short_count_ok; [exact Hst|lia].
  - change (Z.of_nat 0) with 0. by rewrite Z.add_0_r.
Qed.

(** The record when the message has been read. *)
Definition read_out (x a : Z) (l : list Z) (r : pack) : pack :=
  released x a ((accepted x l r) <| p_isum := <[Z.to_nat x := 0]> (p_isum (accepted x l r)) |>).

Lemma read_first r w s x a cntl l rest bp off b ua : arrived r w s x a cntl l rest bp off b ->
  u_segflg (u w) = 0 -> u_base (u w) = UA ua -> may_store (u w) (ks w) ua (Z.of_nat (length l)) ->
  Z.of_nat (length l) <= u_count (u w) < 2147483648 ->
  exists d, read_round p (0, 0) (on p (accepted x l r) w s) =
    Ret (inl (Z.of_nat (length l), 1)) (on p (read_out x a l r) (with_data bp b d (delivered w l)) s).
Proof.
  intros H Hs Hu Hm Hc. pose proof (slot_range _ _ _ _ _ _ _ _ _ _ _ H) as Hx.
  destruct H as [Hsl Hpr (Hl1 & Hl2 & Hl3) _ _ _ Hib _ _ (Hn1 & Hn2 & Hn3) Hst _ _].
  set (rA := accepted x l r). set (len := Z.of_nat (length l)) in *.
  assert (stored (on p rA w s) w a (message (p_rsize rA) l rest) bp off b) as HstA by by eapply stored_on.
  destruct (message_at _ _ _ _ _ _ _ _ _ _ HstA) as [Hsub Hk]. cbv zeta in *. change (p_rsize rA) with (p_rsize r) in *.
  destruct (mark_bits l (p_rsize r)) as (_ & _ & M3 & _).
  assert (p_is rA !! Z.to_nat x = Some (Z.lor (mark_of l (p_rsize r)) B_COPY)) as His by (apply list_lookup_insert_eq; cbn; lia).
  assert (p_isum rA !! Z.to_nat x = Some len) as Hsum by (apply list_lookup_insert_eq; cbn; lia).
  assert (length (p_is rA) = 8%nat) as HlA by (cbn; by rewrite length_insert).
  assert (length (p_isum rA) = 8%nat) as HlS by (cbn; by rewrite length_insert).
  assert (p_rsize rA <= 512) as Hn5 by (change (p_rsize rA) with (p_rsize r); lia).
  pose proof (data_start_ok rA w s x a l rest bp off b Hx HlA Hib ltac:(lia) Hn5 HstA) as Eds.
  change (p_rsize rA) with (p_rsize r) in Eds.
  unfold read_round. erewrite bind_ret_eq by by apply on_kern. cbn beta. rewrite (proj2 (Z.eqb_neq (u_count (u w)) 0)) by lia.
  erewrite bind_ret_eq by apply on_kf. cbn beta. change (p_pr rA) with (p_pr r).
  erewrite bind_ret_eq by by apply next_slot_ok. cbn beta. rewrite <- Hsl.
  erewrite bind_ret_eq by (by apply on_kat; [lia|]). cbn beta. rewrite M3. cbn [negb].
  erewrite bind_ret_eq by (by apply on_kat; [lia|]). cbn beta zeta.
  assert ((if u32 len <? u32 (u_count (u w)) then len else s32 (u_count (u w))) = len) as ->.
  { rewrite !u32_id, s32_id by lia. destruct (Z.ltb_spec len (u_count (u w))); lia. }
  rewrite (proj2 (Z.eqb_neq len 0)) by lia. cbn [andb].
  erewrite bind_ret_eq by exact Eds. cbn beta.
  set (k := if _ <? _ then _ else 0%nat) in *.
  erewrite bind_ret_eq.
  2: { apply (iomove_read rA w s a (p_rsize r) bp off b (Z.of_nat k) l ua); try done; try lia.
       - rewrite <- Hn3. apply HstA.
       - apply HstA.
       - by rewrite Nat2Z.id.
       - intros E. unfold len in *. rewrite E in *. cbn in *. lia. }
  cbn beta. erewrite bind_ret_eq by (by apply on_kat; [lia|]). cbn beta.
  erewrite bind_ret_eq by (apply on_kput; [lia|apply lookup_lt_is_Some_2; lia]). cbn beta. rewrite Z.sub_diag. change (s16 0) with 0.
  set (rB := rA <| p_isum := <[Z.to_nat x := 0]> (p_isum rA) |>).
  erewrite bind_ret_eq by (apply (on_kat _ _ _ 0); [lia|apply list_lookup_insert_eq; lia]). cbn beta.
  change (0 =? 0) with true. cbn match.
  destruct (release_slot_ok rB (delivered w l) s x a (p_rsize r) bp off b) as (d & Hd & E); try done.
  - rewrite <- Hn3. eapply region_on. apply HstA.
  - lia.
  - rewrite (proj1 (delivered_same w l)). apply HstA.
  - apply HstA.
  - exists d. erewrite bind_ret_eq by exact E. cbn beta.
    replace (s32 (0 + len)) with len by (rewrite s32_id; lia). change (s32 (0 + 1)) with 1. reflexivity.
Qed.

(** After it there is nothing more to read. *)
Lemma read_second r w s x a l b' bp d : 0 <= x < 8 -> length (p_is r) = 8%nat ->
  (forall v, 0 <= v < 8 -> v <> x -> p_is r !! Z.to_nat v = Some 0) ->
  let w' := with_data bp b' d (delivered w l) in
  read_round p (Z.of_nat (length l), 1) (on p (read_out x a l r) w' s) = Ret (inr (Z.of_nat (length l))) (on p (read_out x a l r) w' s).
Proof.
  intros Hx Hlen Hal w'. unfold read_round. erewrite bind_ret_eq by by apply on_kern. cbn beta.
  destruct (Z.eqb_spec (u_count (u w')) 0); [done|].
  erewrite bind_ret_eq by apply on_kf. cbn beta. change (p_pr (read_out x a l r)) with x.
  erewrite bind_ret_eq by by apply next_slot_ok. cbn beta. pose proof (Z.mod_pos_bound (x + 1) 8 ltac:(lia)) as Hv.
  assert ((x + 1) mod 8 <> x) as Hne by (intros E; pose proof (Z.div_mod (x + 1) 8); lia).
  erewrite bind_ret_eq; [|apply (on_kat _ _ _ 0); [lia|]].
  - cbn beta. done.
  - cbn. rewrite !list_lookup_insert_ne by lia. by apply Hal.
Qed.

(** [pkread] of the message. *)
Lemma pkread_ok r w s tp t x a cntl l rest bp off b ua : arrived r w s x a cntl l rest bp off b ->
  p_ttyp r = Some tp -> linep (pk s) !! tp = Some p -> ttys (ks w) !! tp = Some t -> t_chan t = false -> t_state t &? BUSY = true ->
  u_segflg (u w) = 0 -> u_base (u w) = UA ua -> may_store (u w) (ks w) ua (Z.of_nat (length l)) ->
  Z.of_nat (length l) <= u_count (u w) < 2147483648 ->
  exists d, pkread oproc junk tp (on p r w s) =
    Ret (Z.of_nat (length l)) (on p (read_out x a l r) (with_data bp b d (delivered w l)) s).
Proof.
  intros H Ep El Et Hch Hbu Hs Hu Hm Hc. pose proof (slot_range _ _ _ _ _ _ _ _ _ _ _ H) as Hx.
  destruct (read_first _ _ _ _ _ _ _ _ _ _ _ ua H Hs Hu Hm Hc) as (d & E1). exists d. unfold pkread.
  erewrite bind_ret_eq.
  2: { unfold paddr. erewrite bind_ret_eq by reflexivity. cbn beta. change (linep (pk (on p r w s))) with (linep (pk s)). by rewrite El. }
  cbn beta. erewrite bind_ret_eq by by eapply await_ok. cbn match. erewrite bind_ret_eq by apply on_kf. cbn beta.
  set (w' := with_data bp b d (delivered w l)) in *. set (rC := read_out x a l r) in *.
  assert (ttys (ks w') = ttys (ks w)) as Ett by (unfold w', delivered; by destruct (u_base (u w))).
  erewrite bind_ret_eq.
  2: { erewrite loop_next by exact E1. generalize (fold_right Nat.add 0%nat (map (fun v => Z.to_nat (u16 v)) (p_isum (accepted x l r)))).
       intros n. apply loop_done. apply read_second; [done|apply H|apply H]. }
  assert (busy w' rC) as Hb by (exists tp, t; split; [exact Ep|rewrite Ett; done]).
  cbn beta. erewrite bind_ret_eq by by apply pkoutput_busy. cbn beta.
  rewrite <- Ett in Et. erewrite bind_ret_eq by by apply on_kern, (tfield_ok ttys). cbn beta. by rewrite Hch.
Qed.
End Receive.

(** ** From one end to the other *)

Section Delivered.
Context {MC : Machine}.

Lemma delivered_bytes w bp b d l ua i c : u_base (u w) = UA ua -> may_store (u w) (ks w) ua (Z.of_nat (length l)) ->
  distinct_pages (ks w) ua (Z.of_nat (length l)) -> Forall (fun c => 0 <= c < 256) l -> l !! i = Some c ->
  ubyte (ks (with_data bp b d (delivered w l))) (ua + Z.of_nat i) = Some c.
Proof.
  intros Hu Hm Hd Hl Hi. assert (u8 c = c) as Hc.
  { apply u8_id. rewrite Forall_forall in Hl. apply Hl. by eapply list_elem_of_lookup_2. }
  destruct (user_write_back (ks w) l (pmem (ks w)) ua i c) as (x & Hx & Hw); [|done|done|].
  { intros j Hj. apply (ms_pages _ _ _ _ Hm). lia. }
  unfold delivered. rewrite Hu. unfold ubyte, uphys in *. cbn. rewrite Hx. cbn. by rewrite Hw, Hc.
Qed.
Lemma or_set x m : s8 (Z.lor x (2 ^ m)) &? 2 ^ m = true \/ ~ 0 <= m < 8.
Proof.
  destruct (decide (0 <= m < 8)) as [Hm|]; [left|by right]. apply tst_true. intros E.
  apply (f_equal (fun z => Z.testbit z m)) in E. revert E. unfold s8.
  rewrite Z.land_spec, wrapS_testbit, Z.lor_spec, Z.pow2_bits_true, Z.bits_0 by lia. by rewrite orb_true_r.
Qed.

(** [sum] is what [pkrend] makes of the header [h], arrived unaltered with
    control byte [cntl]. *)
Definition from_header (h : list Z) (cntl sum : Z) : Prop := exists q t r k v, packs (pk t) !! q = Some r /\
  p_ihbuf r = h /\ read_header q (q + off_ihbuf) t = Ret (Some (k, v, cntl)) t /\ sum = s16 v.

(** With the sum from the header of a packet the packet passes the check,
    when the sign of the check word's low byte does no harm. *)
Lemma header_passes k c cntl sum : -32768 <= c < 32768 -> sign_kept (CHECK - Z.lxor c cntl) = true ->
  from_header (header k (s16 (Z.lxor c cntl)) cntl) cntl sum -> check_ok c cntl sum = true.
Proof.
  intros Hc Hk (q & t & r & k' & v & Er & Eh & E & ->).
  rewrite (read_header_ok q r t k _ cntl Er Eh) in E. injection E as _ <-.
  set (d := Z.lxor c cntl) in *. set (w := s16 (CHECK - s16 d)).
  assert (u16 w = u16 (CHECK - d)) as Ew.
  { unfold w. rewrite u16_s16. unfold u16, wrapU. rewrite Zminus_mod, (Zminus_mod CHECK d). do 2 f_equal. apply u16_s16. }
  rewrite check_ok_eq. fold d. replace (s8 (CHECK - s16 d)) with (s8 w) by apply s8_s16. fold w.
  rewrite (check_mod _ d); [done|]. rewrite <- Ew. apply joined_right. by rewrite (sign_kept_mod _ _ Ew).
Qed.

Lemma in_slot_arrived h n c q r w s x a cntl l rest bp off b : p_rsize r = n ->
  c = checksum (map s8 (message n l rest)) -> sign_kept (CHECK - Z.lxor c cntl) = true ->
  in_slot q (from_header h cntl) r w s x a cntl l rest bp off b ->
  (exists k, h = header k (s16 (Z.lxor c cntl)) cntl) -> arrived q r w s x a cntl l rest bp off b.
Proof.
  intros <- -> Hk [] [k ->]. split; try done. destruct ar_sum0 as (sum & E & Hs). exists sum. split; [done|].
  eapply header_passes; [apply checksum_range|done|exact Hs].
Qed.

Context {tl : nat} {oproc : nat -> PKM unit} {fine : world -> Prop} {LI : Line tl oproc fine}.

(** C8. A message written at one end is read at the other.  [pkwrite] puts the
    user's bytes, as many as a packet takes, into the packet it got, behind a
    count of the bytes without data if there is room, and notes the checksum
    and that the packet is short.  Whenever [pkxstart] later sends what is
    noted there, it puts out a header such that, when this header and these
    bytes arrive unaltered, in the slot of the packet the other end expects
    next, [pkread] there puts exactly these bytes into the reader's memory and
    returns their number; the packet is accepted, its slot free and an
    acknowledgement to be sent — provided that the sign of the check word's low
    byte does no harm. *)
Theorem packet_delivered (at_bwaiting : Z) (junk : nat -> list Z)
    (p x cp : Z) (s0 s : pkw) (w : world) (r : pack) (bp : bptr) (off : nat) (b : buf) (l : list Z) (cntl : Z) :
  packs (pk s0) !! p = Some r -> 0 <= x < 8 -> p_ttyp r = Some tl ->
  length (p_ob r) = 8%nat -> length (p_osum r) = 8%nat -> length (p_os r) = 8%nat ->
  getepack at_bwaiting (p_bits r) s0 = Ret cp (on p r w s) ->
  region (pk (on p r w s)) cp (p_xsize r) bp off -> bufs (ks w) !! bp = Some b -> length (b_data b) = 512%nat ->
  2 <= p_xsize r -> l <> [] -> supplies (u w) (ks w) l ->
  0 <= u_count (u w) < 2147483648 -> Z.of_nat (length l) = Z.min (u_count (u w)) (p_xsize r) ->
  let n := p_xsize r in let rest := leftover n l off (b_data b) in let c := checksum (map s8 (message n l rest)) in
  -128 <= cntl < 0 -> sign_kept (CHECK - Z.lxor c cntl) = true ->
  exists r' w' b', fill_packet at_bwaiting p x s0 = Ret tt (on p r' w' s) /\
    stored (on p r' w' s) w' cp (message n l rest) bp off b' /\
    p_ob r' !! Z.to_nat x = Some cp /\ p_osum r' !! Z.to_nat x = Some c /\ p_ttyp r' = Some tl /\
    p_os r' !! Z.to_nat x = Some (if Z.of_nat (length l) <? n then B_READY + B_SHORT else B_READY) /\
    forall s1 r1, packs (pk s1) !! p = Some r1 -> fine (kw s1) -> p_ttyp r1 = Some tl ->
      p_ob r1 !! Z.to_nat x = Some cp -> p_osum r1 !! Z.to_nat x = Some c ->
      let h := header (p_lpsize r1) (s16 (Z.lxor c cntl)) cntl in
    exists w1, pkxstart oproc junk p cntl x s1 = Ret tt (on p (r1 <| p_ohbuf := h |>) w1 s1) /\
      forall q y a ua t wq rq tp line bq oq dq,
        p_rsize rq = n -> in_slot q (from_header h cntl) rq wq t y a cntl l rest bq oq dq ->
        p_ttyp rq = Some tp -> linep (pk t) !! tp = Some q -> ttys (ks wq) !! tp = Some line ->
        t_chan line = false -> t_state line &? BUSY = true ->
        u_segflg (u wq) = 0 -> u_base (u wq) = UA ua -> may_store (u wq) (ks wq) ua (Z.of_nat (length l)) ->
        distinct_pages (ks wq) ua (Z.of_nat (length l)) -> Z.of_nat (length l) <= u_count (u wq) < 2147483648 ->
      exists r2 w2, pkread oproc junk tp (on q rq wq t) = Ret (Z.of_nat (length l)) (on q r2 w2 t) /\
        p_pr r2 = y /\ p_is r2 !! Z.to_nat y = Some 0 /\ p_msg r2 &? M_RR = true /\
        forall i c, l !! i = Some c -> ubyte (ks w2) (ua + Z.of_nat i) = Some c.
Proof.
  intros Er Hx Htl H1 H2 H3 Eg Hr Hb Hbl Hn Hne Hs Hc Hlen n rest c Hcn Hk.
  destruct (fill_packet_ok p at_bwaiting r w s s0 x cp bp off b l) as (d & E & Hl & Hst); try done.
  cbv zeta in *. fold n in E, Hl, Hst. fold rest in E, Hl, Hst. fold c in E. eexists _, _, _.
  split; [exact E|]. split; [exact Hst|]. split; [apply list_lookup_insert_eq; lia|].
  split; [apply list_lookup_insert_eq; lia|]. split; [exact Htl|]. split; [apply list_lookup_insert_eq; lia|].
  intros s1 r1 Er1 F Et1 Eo Es.
  destruct (pkxstart_packet junk p cntl x c cp r1 (kw s1) s1 F Et1 ltac:(lia) Es Eo) as (w1 & E1 & _).
  rewrite <- (on_id p r1 s1 Er1), (s8_id cntl) in E1 by lia. exists w1. split; [exact E1|].
  intros q y a ua t wq rq tp line bq oq dq En Ha0 Ep El Et Hch Hbu Hsf Hua Hms Hdp Hcq.
  assert (arrived q rq wq t y a cntl l rest bq oq dq) as Ha.
  { eapply in_slot_arrived; [exact En|reflexivity|exact Hk|exact Ha0|by eexists]. }
  destruct (pkread_ok oproc junk q rq wq t tp line y a cntl l rest bq oq dq ua) as (d2 & E2); try done.
  pose proof (slot_range _ _ _ _ _ _ _ _ _ _ _ _ Ha) as Hy.
  eexists _, _. split; [exact E2|]. split; [done|]. split; [|split].
  - apply list_lookup_insert_eq. cbn. rewrite length_insert. destruct (ar_lens _ _ _ _ _ _ _ _ _ _ _ _ _ Ha). lia.
  - destruct (or_set (p_msg rq) 4) as [H|H]; [exact H|lia].
  - intros i v. apply delivered_bytes; try done. by eapply supplies_bytes.
Qed.
End Delivered.

(** Three bytes in a packet of 64, into the first slot of the other end. *)
Definition pk_line : tty := tty_pk <| t_state := BUSY |>.
Definition pk_world (count base : Z) (mem : Z -> Z) (d : list Z) : world :=
  world0 <| u ::= fun us => us <| u_count := count |> <| u_base := UA base |> |>
         <| ks ::= fun k => k <| upt := <[1%nat := 65543]> (replicate 1024 0) |> <| pmem := mem |> <| ttys := [pk_line] |>
                              <| bufs := {[ Buf 1 := buf0 <| b_data := d |> ]} |> |>.
Definition pk_state (r : pack) : pkstate :=
  mkpkstate {[ 514 := r ]} (514 :: zeros 7) 2 63 1 0 1 0 [514] 0 0
    (Some (Buf 1) :: replicate 9 None) (514 :: zeros 9) (63 :: zeros 9).
Definition word_l : list Z := [104; 105; 10].
Definition sender_pack : pack :=
  pack0 <| p_state := LIVE |> <| p_bits := 3 |> <| p_xsize := 64 |> <| p_swindow := 2 |> <| p_nxtps := 1 |> <| p_ttyp := Some 0%nat |>.
Definition sender_of (mem : Z -> Z) (map : list Z) : pkw :=
  mkpkw (pk_world 3 4096 mem (replicate 512 0)) ((pk_state sender_pack) <| nmap := map |>) [].
Definition sender : pkw := sender_of (phys_write (fun _ => 0) (PHY + 65536) word_l) (63 :: zeros 9).
Definition sender_got : pkw := sender_of (phys_write (fun _ => 0) (PHY + 65536) word_l) (255 :: zeros 9).
Lemma sender_gets mem : @getepack machine0 0 3 (sender_of mem (63 :: zeros 9)) =
  Ret 706 (on 514 sender_pack (kw (sender_of mem (255 :: zeros 9))) (sender_of mem (255 :: zeros 9))).
Proof. vm_compute. reflexivity. Qed.

Definition word_bytes : list Z := message 64 word_l (replicate 60 0).
Definition word_sum : Z := s16 (CHECK - Z.lxor (checksum (map s8 word_bytes)) (-56)).
Definition reader_pack : pack :=
  pack0 <| p_state := LIVE |> <| p_rsize := 64 |> <| p_rwindow := 2 |> <| p_imap := 2 |>
        <| p_is := [0; -56; 0; 0; 0; 0; 0; 0] |> <| p_ib := [0; 706; 0; 0; 0; 0; 0; 0] |>
        <| p_isum := [0; word_sum; 0; 0; 0; 0; 0; 0] |> <| p_ttyp := Some 0%nat |>.
Definition reader_world : world := pk_world 10 4196 (fun _ => 0) (splice 192 word_bytes (replicate 512 0)).
Definition reader : pkw := mkpkw reader_world (pk_state reader_pack) [].

Lemma pk_region r m : region ((pk_state r) <| nmap := m |>) 706 64 (Buf 1) 192.
Proof.
  constructor.
  - exists 0%nat, 514. repeat (split; [first [done|lia]|]). intros j b' _ Hj. lia.
  - intros p x Hp. cbn in Hp. apply lookup_singleton_Some in Hp as [<- _]. right. unfold sizeof_pack. lia.
Qed.
(** The record with the packet noted, and the header that goes out for it. *)
Definition noted_pack : pack :=
  sender_pack <| p_ob := <[1%nat := 706]> (zeros 8) |> <| p_osum := <[1%nat := checksum (map s8 word_bytes)]> (zeros 8) |>.
Definition noted_sender : pkw := mkpkw (kw sender_got) (pk_state noted_pack) [].
Definition word_header : list Z := header 0 (s16 (Z.lxor (checksum (map s8 word_bytes)) (-56))) (-56).
Definition heard_pack : pack := reader_pack <| p_ihbuf := word_header |>.

Lemma word_came : in_slot 514 (from_header word_header (-56)) reader_pack reader_world reader 1 706 (-56) word_l
  (replicate 60 0) (Buf 1) 192 (buf0 <| b_data := splice 192 word_bytes (replicate 512 0) |>).
Proof.
  constructor; try done.
  - intros v Hv Hn. assert (v = 0 \/ v = 2 \/ v = 3 \/ v = 4 \/ v = 5 \/ v = 6 \/ v = 7) as Hc by lia.
    by destruct Hc as [-> | [-> | [-> | [-> | [-> | [-> | ->]]]]]].
  - constructor; try done. apply (pk_region reader_pack (63 :: zeros 9)).
  - exists word_sum. split; [done|]. exists 514, (mkpkw reader_world (pk_state heard_pack) []), heard_pack.
    eexists _, _. split; [done|]. split; [done|]. split; [by eapply read_header_ok|]. vm_compute. reflexivity.
  - by exists 0%nat, pk_line.
Qed.
Lemma noted_quiet : quiet_line (kw noted_sender).
Proof. split; [exists pk_line; split; reflexivity|reflexivity]. Qed.
Lemma reader_pages i : 4196 <= i < 4199 -> uphys (ks reader_world) i = Some (PHY + 61440 + i).
Proof. intros Hi. assert (i = 4196 \/ i = 4197 \/ i = 4198) as [-> | [-> | ->]] by lia; reflexivity. Qed.

Lemma packet_delivered_witness :
  (exists r' w', @fill_packet machine0 0 514 1 sender = Ret tt (on 514 r' w' sender_got) /\
    p_osum r' !! 1%nat = Some (checksum (map s8 word_bytes))) /\
  (exists w', @pkxstart silent (fun _ => []) 514 (-56) 1 noted_sender =
    Ret tt (on 514 (noted_pack <| p_ohbuf := word_header |>) w' noted_sender)) /\
  (exists r' w', @pkread machine0 silent (fun _ => []) 0 (on 514 reader_pack reader_world reader) =
      Ret 3 (on 514 r' w' reader) /\ p_pr r' = 1 /\
    forall i c, word_l !! i = Some c -> ubyte (ks w') (4196 + Z.of_nat i) = Some c).
Proof.
  destruct (@packet_delivered machine0 0 silent quiet_line quiet_line_ok 0 (fun _ => []) 514 1 706 sender sender_got
    (kw sender_got) sender_pack (Buf 1) 192 buf0 word_l (-56))
    as (r1 & w1 & b1 & E1 & _ & _ & Hs & _ & _ & H).
  - reflexivity.
  - done.
  - done.
  - done.
  - done.
  - done.
  - apply sender_gets.
  - apply (pk_region sender_pack (255 :: zeros 9)).
  - reflexivity.
  - reflexivity.
  - done.
  - done.
  - split; [reflexivity|]. constructor; [done|done|by repeat constructor|].
    intros [|[|[|i]]] c Hi; [..|done]; by injection Hi as <-.
  - done.
  - done.
  - done.
  - vm_compute. reflexivity.
  - destruct (H noted_sender noted_pack) as (w2 & E2 & Hr);
      [reflexivity|exact noted_quiet|reflexivity|reflexivity|vm_compute; reflexivity|].
    split; [exists r1, w1; split; [exact E1|exact Hs]|]. split; [exists w2; exact E2|].
    destruct (Hr 514 1 706 4196 reader reader_world reader_pack 0%nat pk_line (Buf 1) 192%nat
      (buf0 <| b_data := splice 192 word_bytes (replicate 512 0) |>)) as (r3 & w3 & E3 & Hp & _ & _ & Hb);
      [reflexivity|exact word_came|done|done|reflexivity|done|done|done|done| | |change (3 <= 10 < 2147483648); lia
        |exists r3, w3; split; [exact E3|split; [exact Hp|exact Hb]]].
    + constructor; [done..|]. intros i Hi. rewrite reader_pages by (cbn in Hi; lia). done.
    + intros i j Hi Hj. rewrite !reader_pages by (cbn in Hi, Hj; lia). intros [= ?]. lia.
Defined.
