(* ===== verification/Pool.v ===== *)
(** * Pool: packets are handed out once and come back

    [getepack] and [freepack] of [dev/pk3.c] on the maps of the pool's blocks. *)

From S2P Require Import Prelude Bytes Callout Clist State Utab Sched Bio Cache Rdwri Files Ports Pkmem Packets.

Section Pool.
Context {MC : Machine} (at_bwaiting : Z).

(** ** Where there is room *)

(** The units [bits], moved up by [k], are free in map [m]. *)
Definition free_at (m bits k : Z) : Prop := Z.land m (Z.shiftl bits k) = 0.
(** The first place in the sixteen units where they are. *)
Definition first_fit (m bits off : Z) : Prop :=
  0 <= off < 16 /\ free_at m bits off /\ forall k, 0 <= k < off -> ~ free_at m bits k.
Definition no_room (m bits : Z) : Prop := forall k, 0 <= k < 16 -> ~ free_at m bits k.

Lemma shift_once bits k : 0 <= k -> s32 (Z.shiftl (s32 (Z.shiftl bits k)) 1) = s32 (Z.shiftl bits (k + 1)).
Proof.
  intros Hk. rewrite Z.shiftl_mul_pow2 by lia. rewrite <- Z.shiftl_shiftl by lia. rewrite (Z.shiftl_mul_pow2 _ 1) by lia.
  generalize (Z.shiftl bits k). intros x. change (2 ^ 1) with 2. rewrite !(Z.mul_comm _ 2), <- !Z.add_diag.
  rewrite s32_add, Z.add_comm, s32_add. done.
Qed.
Lemma shift_small bits k : 0 <= bits < 65536 -> 0 <= k < 16 -> s32 (Z.shiftl bits k) = Z.shiftl bits k.
Proof.
  intros Hb Hk. apply s32_id. rewrite Z.shiftl_mul_pow2 by lia.
  assert (2 ^ k <= 2 ^ 15) by (apply Z.pow_le_mono_r; lia). change (2 ^ 15) with 32768 in *.
  pose proof (Z.pow_pos_nonneg 2 k). nia.
Qed.

(** The loop over the places. *)
Lemma shift_bits_from m bits (s : pkw) (r : Z * Z + Z) : 0 <= bits < 65536 ->
  (match r with
   | inl (off, y) => first_fit m bits off /\ y = Z.shiftl bits off
   | inr y => no_room m bits /\ y = s32 (Z.shiftl bits 16)
   end) -> shift_bits m bits s = Ret r s.
Proof.
  intros Hb Hr. unfold shift_bits.
  assert (forall n k, 0 <= k -> (Z.of_nat n = 16 - k) ->
    (match r with inl (off, _) => k <= off | inr _ => True end) ->
    loop (S n) (fun x : Z * Z => let '(n, bits) := x in
      let n := n - 1 in
      ret (if n =? 0 then inr (inr bits)
           else if Z.land m bits =? 0 then inr (inl (16 - n, bits)) else inl (n, s32 (Z.shiftl bits 1))))
      (17 - k, s32 (Z.shiftl bits k)) s = Ret r s) as Hl.
  { induction n as [|n IH]; intros k Hk Hn Hle; rewrite loop_S; unfold bind, ret; cbv zeta.
    - assert (k = 16) as -> by lia. change (17 - 16 - 1 =? 0) with true. cbn match.
      destruct r as [[off y]|y]; [destruct Hr as [[? _] _]; lia|by destruct Hr as [_ ->]].
    - rewrite (proj2 (Z.eqb_neq (17 - k - 1) 0)) by lia. rewrite (shift_small bits k) by lia.
      destruct (Z.eqb_spec (Z.land m (Z.shiftl bits k)) 0) as [H0|H0].
      + destruct r as [[off y]|y].
        * destruct Hr as [(Ho & Hf & Hno) ->]. assert (k = off) as -> by (destruct (Z.eq_dec k off); [done|];
            exfalso; apply (Hno k); [lia|done]). do 3 f_equal. lia.
        * exfalso. destruct Hr as [Hno _]. apply (Hno k); [lia|done].
      + rewrite <- (shift_small bits k), shift_once by lia. replace (17 - k - 1) with (17 - (k + 1)) by lia. apply IH; [lia|lia|].
        destruct r as [[off y]|y]; [|done]. destruct Hr as [(Ho & Hf & _) _]. destruct (Z.eq_dec k off) as [->|]; [done|lia]. }
  specialize (Hl 16%nat 0). rewrite Z.sub_0_r, Z.shiftl_0_r, s32_id in Hl by lia. apply Hl; try lia.
  destruct r as [[off y]|y]; [|done]. destruct Hr as [[? _] _]. lia.
Qed.

(** ** Taking a packet *)

(** The map of block [i] set to [v]. *)
Definition with_map (i : nat) (v : Z) (s : pkw) : pkw := s <| pk ::= fun d => d <| nmap := <[i := v]> (nmap d) |> |>.
(** Block [j] cannot give [bits]: full, not there or without room. *)
Definition passed (d : pkstate) (bits : Z) (j : nat) : Prop :=
  exists m b, nmap d !! j = Some m /\ nbase d !! j = Some b /\ (m = FULL \/ b = 0 \/ no_room m bits).
(** What the loop over the blocks takes along: the bits wanted, or what is left
    of them after a block without room. *)
Definition carried (bits x : Z) : Prop := x = bits \/ x = s32 (Z.shiftl bits 16).

Lemma carried_big bits x : 1 < bits < 65536 -> carried bits x -> (x =? 1) = false.
Proof.
  intros Hb [->| ->]; apply Z.eqb_neq; [lia|]. intros H%(f_equal (fun x => Z.testbit x 0)). revert H. cbv beta.
  unfold s32. rewrite wrapS_testbit by lia. by rewrite Z.shiftl_spec_low by lia.
Qed.
Lemma try_block_pass bits x i s : 1 < bits < 65536 -> carried bits x -> passed (pk s) bits i ->
  exists y, carried bits y /\ try_block bits x i s = Ret (inr y) s.
Proof.
  intros Hb Hx (m & b & Em & Eb & Hp). unfold try_block.
  do 2 (erewrite bind_ret_eq by reflexivity; cbn beta). rewrite Em, Eb. cbn [the].
  do 2 (erewrite bind_ret_eq by reflexivity; cbn beta).
  destruct ((m =? FULL) || (b =? 0)) eqn:Ec; [by exists x|].
  apply orb_false_iff in Ec as [E1%Z.eqb_neq E2%Z.eqb_neq]. destruct Hp as [?|[?|Hn]]; [done..|].
  rewrite (carried_big bits x) by done. erewrite bind_ret_eq by by apply (shift_bits_from m bits s (inr (s32 (Z.shiftl bits 16)))); [lia|done].
  cbn match. eexists. split; [by right|done].
Qed.
Lemma try_block_take bits x i m b off s : 1 < bits < 65536 -> carried bits x ->
  nmap (pk s) !! i = Some m -> nbase (pk s) !! i = Some b -> m <> FULL -> b <> 0 -> first_fit m bits off ->
  try_block bits x i s = Ret (inl (b + 32 * off)) (with_map i (s16 (Z.lor m (Z.shiftl bits off))) s).
Proof.
  intros Hb Hx Em Eb Hm H0 Hf. unfold try_block.
  do 2 (erewrite bind_ret_eq by reflexivity; cbn beta). rewrite Em, Eb. cbn [the].
  do 2 (erewrite bind_ret_eq by reflexivity; cbn beta).
  rewrite (proj2 (Z.eqb_neq _ _) Hm), (proj2 (Z.eqb_neq _ _) H0). cbn [orb].
  rewrite (carried_big bits x) by done. erewrite bind_ret_eq by by apply (shift_bits_from m bits s (inl (off, Z.shiftl bits off))); [lia|done].
  cbn match. by erewrite bind_ret_eq by reflexivity.
Qed.

Lemma search_ok bits i m b off s : 1 < bits < 65536 -> (i < NBLOCKS)%nat ->
  nmap (pk s) !! i = Some m -> nbase (pk s) !! i = Some b -> m <> FULL -> b <> 0 -> first_fit m bits off ->
  (forall j, (j < i)%nat -> passed (pk s) bits j) ->
  getepack_round at_bwaiting bits bits s = Ret (inr (b + 32 * off)) (with_map i (s16 (Z.lor m (Z.shiftl bits off))) s).
Proof.
  intros Hb Hi Em Eb Hm H0 Hf Hp. unfold getepack_round.
  rewrite (proj2 (Z.eqb_neq bits FULL)) by (unfold FULL; lia).
  set (body := fun x : nat * Z => _).
  assert (forall n k x, (n + k = i)%nat -> carried bits x ->
    loop (S (NBLOCKS - k)) body (k, x) s =
    Ret (inl (b + 32 * off)) (with_map i (s16 (Z.lor m (Z.shiftl bits off))) s)) as Hl.
  { induction n as [|n IH]; intros k x Hk Hx.
    - cbn in Hk. subst k. apply loop_done. unfold body. rewrite (proj2 (Nat.eqb_neq i NBLOCKS)) by lia.
      by erewrite bind_ret_eq by by apply (try_block_take bits x i m b off s).
    - destruct (try_block_pass bits x k s) as (y & Hy & E); [done|done|apply Hp; lia|].
      erewrite loop_next with (x' := (S k, y)) (s' := s).
      + replace (NBLOCKS - k)%nat with (S (NBLOCKS - S k)) by lia. apply IH; [lia|done].
      + unfold body. rewrite (proj2 (Nat.eqb_neq k NBLOCKS)) by lia. by erewrite bind_ret_eq by exact E. }
  specialize (Hl i 0%nat bits). rewrite Nat.sub_0_r in Hl.
  by erewrite bind_ret_eq by by apply Hl; [lia|left].
Qed.

(** [spl6] ... [splx] around something that leaves the kernel alone. *)
Definition kpl (n : Z) (s : pkw) : pkw := s <| kw ::= fun w => w <| ks ::= fun k => k <| pl := n |> |> |>.
Lemma spl6_ok s : kern spl6 s = Ret (pl (ks (kw s))) (kpl 6 s).
Proof. done. Qed.
Lemma splx_ok n s : kern (splx n) s = Ret tt (kpl n s).
Proof. done. Qed.
Lemma kpl_back s f : kpl (pl (ks (kw s))) ((kpl 6 s) <| pk ::= f |>) = s <| pk ::= f |>.
Proof. by destruct s as [[? []] ? ?]. Qed.

Lemma getepack_ok bits i m b off s : 1 < bits < 65536 -> (i < NBLOCKS)%nat ->
  nmap (pk s) !! i = Some m -> nbase (pk s) !! i = Some b -> m <> FULL -> b <> 0 -> first_fit m bits off ->
  (forall j, (j < i)%nat -> passed (pk s) bits j) ->
  getepack at_bwaiting bits s = Ret (b + 32 * off) (with_map i (s16 (Z.lor m (Z.shiftl bits off))) s).
Proof.
  intros Hb Hi Em Eb Hm H0 Hf Hp. unfold getepack. erewrite bind_ret_eq by apply spl6_ok. cbn beta.
  erewrite bind_ret_eq by reflexivity. cbn beta.
  erewrite bind_ret_eq by (apply loop_done; by apply (search_ok bits i m b off)). cbn beta.
  erewrite bind_ret_eq by apply splx_ok. unfold ret. f_equal. apply kpl_back.
Qed.

(** ** Giving one back *)

Lemma s16_ext x y : (forall k, 0 <= k < 16 -> Z.testbit x k = Z.testbit y k) -> s16 x = s16 y.
Proof.
  intros H. unfold s16, wrapS. f_equal. rewrite (Zplus_mod x), (Zplus_mod y). do 2 f_equal.
  apply Z.bits_inj'; intros k Hk. destruct (Z.lt_ge_cases k 16).
  - rewrite !Z.mod_pow2_bits_low by lia. by apply H.
  - by rewrite !Z.mod_pow2_bits_high by lia.
Qed.
Lemma free_bits m bits off k : free_at m bits off -> Z.testbit m k = true -> Z.testbit (Z.shiftl bits off) k = false.
Proof.
  unfold free_at. intros H Hm. apply (f_equal (fun x => Z.testbit x k)) in H. cbv beta in H.
  by rewrite Z.land_spec, Hm, Z.bits_0 in H.
Qed.
Lemma taken_and_back m bits off : 0 <= bits < 65536 -> 0 <= off < 16 -> -32768 <= m < 32768 -> free_at m bits off ->
  s16 (clr (s16 (Z.lor m (Z.shiftl bits off))) (s32 (Z.shiftl bits off))) = m.
Proof.
  intros Hb Ho Hm Hf. rewrite shift_small by lia. transitivity (s16 m); [|by apply s16_id]. apply s16_ext.
  intros k Hk. unfold clr. rewrite Z.land_spec, Z.lnot_spec by lia. unfold s16. rewrite wrapS_testbit, Z.lor_spec by lia.
  pose proof (free_bits m bits off k Hf).
  destruct (Z.testbit m k); [by rewrite H|]. by destruct (Z.testbit (Z.shiftl bits off) k).
Qed.

Lemma freepack_ok bits i m b off s : 0 <= off < 16 -> b <> 0 -> 0 < b + 32 * off ->
  nmap (pk s) !! i = Some m -> nbase (pk s) !! i = Some b ->
  (forall j b', (j < i)%nat -> nbase (pk s) !! j = Some b' -> ~ (0 <= b + 32 * off - b' <= 512)) ->
  s16 (clr m (s32 (Z.shiftl bits off))) <> 0 -> bwaiting (pk s) = 0 ->
  freepack at_bwaiting (b + 32 * off) bits s = Ret tt (with_map i (s16 (clr m (s32 (Z.shiftl bits off)))) s).
Proof.
  intros Ho H0 Ha Em Eb Hj Hm Hw. unfold freepack. rewrite (proj2 (Z.eqb_neq _ _)) by lia.
  erewrite bind_ret_eq by apply spl6_ok. cbn beta. erewrite bind_ret_eq by reflexivity. cbn beta.
  assert (list_find (fun b0 => 0 <= b + 32 * off - b0 <= 512) (nbase (pk (kpl 6 s))) = Some (i, b)) as ->.
  { apply list_find_Some. split; [done|]. split; [lia|]. intros j b' Hb' Hlt. exact (Hj j b' Hlt Hb'). }
  cbv zeta. replace (Z.shiftr (b + 32 * off - b) 5) with off.
  2: { replace (b + 32 * off - b) with (off * 2 ^ 5) by lia. by rewrite Z.shiftr_div_pow2, Z.div_mul by lia. }
  erewrite bind_ret_eq.
  2: { erewrite bind_ret_eq by reflexivity. cbn beta. change (nmap (pk (kpl 6 s))) with (nmap (pk s)). rewrite Em. cbn [the].
    erewrite bind_ret_eq by reflexivity. cbn beta zeta. erewrite bind_ret_eq by reflexivity. cbn beta.
    rewrite (proj2 (Z.eqb_neq _ _) Hm). erewrite bind_ret_eq by reflexivity. cbn beta.
    erewrite bind_ret_eq by reflexivity. cbn beta.
    match goal with |- context [tst ?x] => replace (tst x) with false by (cbn; by rewrite Hw) end. reflexivity. }
  cbn beta. rewrite splx_ok. f_equal.
  etransitivity; [|apply (kpl_back s (fun d => d <| nmap := <[i := s16 (clr m (s32 (Z.shiftl bits off)))]> (nmap d) |>))].
  destruct s as [[] [] ?]. cbn. reflexivity.
Qed.

(** ** Sizes as bits *)

Lemma ones_up k : 0 <= k -> Z.lor (Z.ones k) (2 ^ k) = Z.ones (k + 1).
Proof.
  intros Hk. apply Z.bits_inj'; intros i Hi. rewrite Z.lor_spec.
  destruct (Z.lt_trichotomy i k) as [H|[->|H]].
  - by rewrite !Z.ones_spec_low by lia.
  - by rewrite Z.pow2_bits_true, orb_true_r, Z.ones_spec_low by lia.
  - rewrite Z.pow2_bits_false by lia. by rewrite !Z.ones_spec_high by lia.
Qed.
Lemma dtom_ok n (s : pkw) : 1 <= n <= 31 -> dtom (32 * n) s = Ret (Z.ones n) s.
Proof.
  intros Hn. unfold dtom. replace (Z.to_nat (32 * n / 32)) with (Z.to_nat n) by (f_equal; rewrite Z.mul_comm, Z.div_mul; lia).
  assert (forall j k, 1 <= k -> k + Z.of_nat j = n ->
    loop (S (S j)) (fun x : Z * Z => let '(d, m) := x in
      ret (if 32 <? d then inl (d - 32, Z.lor m (s32 (m + 1))) else inr m)) (32 * (n - k + 1), Z.ones k) s
    = Ret (Z.ones n) s) as Hl.
  { induction j as [|j IH]; intros k Hk Hj.
    - apply loop_done. rewrite (proj2 (Z.ltb_ge _ _)) by lia. unfold ret. do 3 f_equal. lia.
    - erewrite loop_next; [apply (IH (k + 1)); lia|]. rewrite (proj2 (Z.ltb_lt _ _)) by lia.
      assert (2 ^ k <= 2 ^ 30) by (apply Z.pow_le_mono_r; lia). change (2 ^ 30) with 1073741824 in *.
      replace (s32 (Z.ones k + 1)) with (2 ^ k); [rewrite ones_up by lia; unfold ret; do 3 f_equal; lia|].
      pose proof (Z.pow_pos_nonneg 2 k). rewrite Z.ones_equiv, s32_id; lia. }
  specialize (Hl (Z.to_nat (n - 1)) 1). replace (S (S (Z.to_nat (n - 1)))) with (S (Z.to_nat n)) in Hl by lia.
  replace (32 * (n - 1 + 1)) with (32 * n) in Hl by lia. apply Hl; lia.
Qed.
Lemma ones_at n off k : 0 <= n -> 0 <= off <= k -> Z.testbit (Z.shiftl (Z.ones n) off) k = (k <? off + n).
Proof.
  intros Hn Ho. rewrite Z.shiftl_spec by lia. destruct (Z.ltb_spec k (off + n)).
  - by rewrite Z.ones_spec_low by lia.
  - by rewrite Z.ones_spec_high by lia.
Qed.

(** C9. A packet of [n] units: [dtom] gives its bits, and where a block has
    room [getepack] takes the first units there that are free.  What it marks in
    the map is what was free before, the packet lies inside the block when the
    last of the units does, and [freepack] of it leaves the pool as it was. *)
Theorem pool_roundtrip n i m b off s : 2 <= n <= 16 -> (i < NBLOCKS)%nat ->
  nmap (pk s) !! i = Some m -> nbase (pk s) !! i = Some b -> -32768 <= m < 32768 -> m <> 0 -> m <> FULL -> 0 < b ->
  first_fit m (Z.ones n) off -> (forall j, (j < i)%nat -> passed (pk s) (Z.ones n) j) ->
  (forall j b', (j < i)%nat -> nbase (pk s) !! j = Some b' -> ~ (0 <= b + 32 * off - b' <= 512)) ->
  bwaiting (pk s) = 0 ->
  exists m', let a := b + 32 * off in
  dtom (32 * n) s = Ret (Z.ones n) s /\
  getepack at_bwaiting (Z.ones n) s = Ret a (with_map i m' s) /\
  (forall k, 0 <= k < 16 -> Z.testbit m' k = Z.testbit m k || ((off <=? k) && (k <? off + n))) /\
  (forall k, off <= k < off + n -> Z.testbit m k = false) /\
  (off + n <= 16 -> b <= a /\ a + 32 * n <= b + 512) /\
  freepack at_bwaiting a (Z.ones n) (with_map i m' s) = Ret tt s.
Proof.
  intros Hn Hi Em Eb Hr H0 HF Hb Hf Hp Hj Hw.
  assert (1 < Z.ones n < 65536) as Ho.
  { rewrite Z.ones_equiv. assert (2 ^ 2 <= 2 ^ n <= 2 ^ 16) by (split; apply Z.pow_le_mono_r; lia). lia. }
  destruct Hf as (Hoff & Hfree & Hfirst). eexists. cbv zeta.
  split; [apply dtom_ok; lia|]. split; [apply (getepack_ok _ i m b off); [done..|lia|exact (conj Hoff (conj Hfree Hfirst))|done]|].
  split; [|split; [|split; [lia|]]].
  - intros k Hk. unfold s16. rewrite wrapS_testbit, Z.lor_spec by lia. f_equal. destruct (Z.leb_spec off k).
    + by rewrite ones_at by lia.
    + by rewrite Z.shiftl_spec_low by lia.
  - intros k Hk. apply not_true_is_false. intros Hm. apply (free_bits _ _ _ _ Hfree) in Hm.
    rewrite ones_at in Hm by lia. apply Z.ltb_ge in Hm. lia.
  - assert (i < length (nmap (pk s)))%nat as Hlt by by eapply lookup_lt_Some.
    erewrite (freepack_ok _ i _ b off); [|lia..| | | | |].
    + f_equal. rewrite taken_and_back by (done || lia). destruct s as [w d e]. unfold with_map. cbn in *.
      rewrite list_insert_insert_eq, list_insert_id by done. destruct d; cbn. reflexivity.
    + cbn. by apply list_lookup_insert_eq.
    + exact Eb.
    + exact Hj.
    + rewrite taken_and_back by (done || lia). done.
    + exact Hw.
Qed.

(** ** A new block after one without room *)

(** Block [j] is there and not full, but has no room: the loop has shifted the
    bits out. *)
Definition tight (d : pkstate) (bits : Z) (j : nat) : Prop :=
  exists m b, nmap d !! j = Some m /\ nbase d !! j = Some b /\ m <> FULL /\ b <> 0 /\ no_room m bits.
Definition shifted (bits : Z) : Z := s32 (Z.shiftl bits 16).

Lemma try_block_tight bits x i s : 1 < bits < 65536 -> carried bits x -> tight (pk s) bits i ->
  try_block bits x i s = Ret (inr (shifted bits)) s.
Proof.
  intros Hb Hx (m & b & Em & Eb & Hm & H0 & Hn). unfold try_block.
  do 2 (erewrite bind_ret_eq by reflexivity; cbn beta). rewrite Em, Eb. cbn [the].
  do 2 (erewrite bind_ret_eq by reflexivity; cbn beta).
  rewrite (proj2 (Z.eqb_neq _ _) Hm), (proj2 (Z.eqb_neq _ _) H0). cbn [orb].
  rewrite (carried_big bits x) by done.
  by erewrite bind_ret_eq by by apply (shift_bits_from m bits s (inr (shifted bits))); [lia|done].
Qed.
Lemma try_block_shifted bits i s : 1 < bits < 65536 -> passed (pk s) bits i ->
  try_block bits (shifted bits) i s = Ret (inr (shifted bits)) s.
Proof.
  intros Hb (m & b & Em & Eb & Hp).
  destruct (decide (m = FULL \/ b = 0)) as [Hs|Hs].
  - unfold try_block. do 2 (erewrite bind_ret_eq by reflexivity; cbn beta). rewrite Em, Eb. cbn [the].
    do 2 (erewrite bind_ret_eq by reflexivity; cbn beta).
    replace ((m =? FULL) || (b =? 0)) with true by (symmetry; apply orb_true_iff; rewrite !Z.eqb_eq; done). done.
  - apply try_block_tight; [done|by right|]. exists m, b. destruct Hp as [?|[?|?]]; [tauto|tauto|]. split_and!; try done; tauto.
Qed.

Definition search_body (bits : Z) (x : nat * Z) : PKM (nat * Z + (Z + Z)) :=
  let '(i, y) := x in
  if Nat.eqb i NBLOCKS then ret (inr (inr y))
  else r <- try_block bits y i ;; ret (match r with inl a => inr (inl a) | inr y => inl (S i, y) end).
Lemma search_shifted bits s : 1 < bits < 65536 -> (forall j, (j < NBLOCKS)%nat -> passed (pk s) bits j) ->
  (exists j, (j < NBLOCKS)%nat /\ tight (pk s) bits j) ->
  loop (S NBLOCKS) (search_body bits) (0%nat, bits) s = Ret (inr (shifted bits)) s.
Proof.
  intros Hb Hp (t & Ht & Htight).
  assert (forall n k x, (n + k = NBLOCKS)%nat -> carried bits x -> x = shifted bits \/ (k <= t)%nat ->
    loop (S n) (search_body bits) (k, x) s = Ret (inr (shifted bits)) s) as Hl.
  { induction n as [|n IH]; intros k x Hk Hx Hor.
    - apply loop_done. unfold search_body. rewrite (proj2 (Nat.eqb_eq k NBLOCKS)) by lia. destruct Hor as [->|]; [done|lia].
    - assert (exists y, carried bits y /\ (y = shifted bits \/ (S k <= t)%nat) /\ try_block bits x k s = Ret (inr y) s)
        as (y & Hy & Hor' & E).
      { destruct Hor as [->|Hle].
        - exists (shifted bits). split; [by right|]. split; [by left|]. apply try_block_shifted; [done|apply Hp; lia].
        - destruct (decide (k = t)) as [->|Hne].
          + exists (shifted bits). split; [by right|]. split; [by left|]. by apply try_block_tight.
          + destruct (try_block_pass bits x k s) as (y & Hy & E); [done|done|apply Hp; lia|].
            exists y. split; [done|]. split; [right; lia|done]. }
      erewrite loop_next; [by apply (IH (S k) y); [lia|..]|].
      unfold search_body. rewrite (proj2 (Nat.eqb_neq k NBLOCKS)) by lia. by erewrite bind_ret_eq by exact E. }
  apply Hl; [done|by left|right; lia].
Qed.

(** Block [i] as [new_block] enters it. *)
Definition given_block (i : nat) (bp : bptr) (v : Z) (d : pkstate) : pkstate :=
  d <| bufps := <[i := Some bp]> (bufps d) |> <| nmap := <[i := s16 v]> (nmap d) |>
    <| nbase := <[i := core_addr bp 0]> (nbase d) |>.

Lemma bor_any w bp b m : bufs (ks w) !! bp = Some b ->
  exists w' b', bor bp m w = Ret tt w' /\ bufs (ks w') !! bp = Some b'.
Proof.
  intros E. unfold bor. erewrite bind_ret_eq by by apply bf_ok. cbn beta. erewrite bset_ok by exact E.
  do 2 eexists. split; [done|]. cbn. by rewrite lookup_insert_eq.
Qed.
Lemma for_find_first {A} (body : nat -> PKM (option A)) i a s s' :
  (forall j, (j < i)%nat -> body j s = Ret None s) -> body i s = Ret (Some a) s' ->
  forall n, (i < n)%nat -> for_find (seq 0 n) body s = Ret (Some a) s'.
Proof.
  intros Hj Hi n Hn.
  assert (forall m k, (k <= i < k + m)%nat -> for_find (seq k m) body s = Ret (Some a) s') as H.
  { induction m as [|m IH]; intros k Hk; [lia|]. cbn [seq for_find].
    destruct (decide (k = i)) as [->|Hne]; [by erewrite bind_ret_eq by exact Hi|].
    erewrite bind_ret_eq by (apply Hj; lia). cbn. apply IH. lia. }
  apply H. lia.
Qed.
Lemma new_block_ok v i bp w1 b s : geteblk (kw s) = Ret bp w1 -> bufs (ks w1) !! bp = Some b -> (i < NBLOCKS)%nat ->
  bufps (pk s) !! i = Some None -> (forall j, (j < i)%nat -> exists x, bufps (pk s) !! j = Some (Some x)) ->
  exists w2, new_block v s = Ret (Some (core_addr bp 0)) (mkpkw w2 (given_block i bp v (pk s)) (penv s)).
Proof.
  intros Eg Eb Hi Ei Hj. destruct (bor_any w1 bp b B_PACK Eb) as (w2 & b2 & E2 & Eb2).
  destruct (bor_any w2 bp b2 B_PBUSY Eb2) as (w3 & b3 & E3 & Eb3). exists w3.
  unfold new_block. eapply for_find_first; [| |exact Hi].
  - intros j Hlt. destruct (Hj j Hlt) as [x Ex]. erewrite bind_ret_eq by reflexivity. cbn beta. by rewrite Ex.
  - erewrite bind_ret_eq by reflexivity. cbn beta. rewrite Ei. cbn [the].
    erewrite bind_ret_eq by reflexivity. cbn beta iota.
    erewrite bind_ret_eq by (apply kern_ok, Eg). cbn beta.
    do 2 (erewrite bind_ret_eq by reflexivity; cbn beta).
    erewrite bind_ret_eq by (apply kern_ok, E2). cbn beta.
    erewrite bind_ret_eq by (apply kern_ok, E3). cbn beta.
    do 4 (erewrite bind_ret_eq by reflexivity; cbn beta zeta).
    reflexivity.
Qed.

(** C10. When a block that is not full has no room for a packet of more than
    one unit and no other block has any, the bits have been shifted out of the
    word before [getepack] fetches a new block: its map stays empty, and the
    packet at its front is handed out again to the next who asks. *)
Theorem getepack_twice bits i bp w1 b s : 1 < bits < 65536 -> (i < NBLOCKS)%nat ->
  (forall j, (j < NBLOCKS)%nat -> passed (pk s) bits j) -> (exists j, (j < NBLOCKS)%nat /\ tight (pk s) bits j) ->
  bufps (pk s) !! i = Some None -> (forall j, (j < i)%nat -> exists x, bufps (pk s) !! j = Some (Some x)) ->
  geteblk ((kw s) <| ks ::= fun k => k <| pl := 6 |> |>) = Ret bp w1 -> bufs (ks w1) !! bp = Some b -> core_addr bp 0 <> 0 ->
  exists s1 s2, getepack at_bwaiting bits s = Ret (core_addr bp 0) s1 /\
    nmap (pk s1) !! i = Some 0 /\
    getepack at_bwaiting bits s1 = Ret (core_addr bp 0) s2.
Proof.
  intros Hb Hi Hp Ht Ei Hj Eg Eb H0.
  destruct (new_block_ok (shifted bits) i bp w1 b (kpl 6 s)) as [w2 E2]; [done..|].
  assert (s16 (shifted bits) = 0) as Hz.
  { transitivity (s16 0); [|done]. apply s16_ext. intros k Hk. unfold shifted, s32. rewrite wrapS_testbit by lia.
    by rewrite Z.shiftl_spec_low, Z.bits_0 by lia. }
  set (s1 := kpl (pl (ks (kw s))) (mkpkw w2 (given_block i bp (shifted bits) (pk s)) (penv s))).
  assert (nmap (pk s1) !! i = Some 0) as Hm.
  { destruct (Hp i Hi) as (m & ? & Em & _). cbn. rewrite Hz. apply list_lookup_insert_eq. by eapply lookup_lt_Some. }
  assert (first_fit 0 bits 0) as Hff by (split; [lia|]; split; [done|lia]).
  exists s1. eexists. split; [|split; [exact Hm|]].
  - unfold getepack. erewrite bind_ret_eq by apply spl6_ok. cbn beta.
    erewrite bind_ret_eq by reflexivity. cbn beta. erewrite bind_ret_eq; [by erewrite bind_ret_eq by apply splx_ok|].
    apply loop_done. unfold getepack_round. rewrite (proj2 (Z.eqb_neq bits FULL)) by (unfold FULL; lia).
    erewrite bind_ret_eq by by apply (search_shifted bits). cbn beta iota. by erewrite bind_ret_eq by exact E2.
  - replace (core_addr bp 0) with (core_addr bp 0 + 32 * 0) at 1 by lia.
    apply (getepack_ok bits i 0 (core_addr bp 0) 0); [done|done|exact Hm| |done|done|done|].
    + destruct (Hp i Hi) as (? & c & _ & Ec & _). cbn. apply list_lookup_insert_eq. by eapply lookup_lt_Some.
    + intros j Hlt. destruct (Hp j) as (m & c & Em & Ec & Hor); [lia|]. exists m, c. cbn.
      by rewrite !list_lookup_insert_ne by lia.
Qed.
End Pool.

(** ** A pool with room in its first block, and one without *)

Definition pool (base map : list Z) (l : list (option bptr)) (w : world) : pkw :=
  mkpkw w (mkpkstate ∅ (zeros 8) 2 63 1 0 0 0 [] 0 0 l base map) [].

Lemma pool_roundtrip_witness : exists m', let s := pool (5000 :: zeros 9) (3 :: zeros 9) (replicate 10 None) world0 in
  @dtom (32 * 2) s = Ret 3 s /\
  @getepack machine0 0 3 s = Ret 5064 (with_map 0 m' s) /\
  (forall k, 0 <= k < 16 -> Z.testbit m' k = Z.testbit 3 k || ((2 <=? k) && (k <? 4))) /\
  (forall k, 2 <= k < 4 -> Z.testbit 3 k = false) /\
  (4 <= 16 -> 5000 <= 5064 /\ 5064 + 64 <= 5000 + 512) /\
  @freepack machine0 0 5064 3 (with_map 0 m' s) = Ret tt s.
Proof.
  apply (@pool_roundtrip machine0 0 2 0 3 5000 2 (pool (5000 :: zeros 9) (3 :: zeros 9) (replicate 10 None) world0));
    try reflexivity; try lia; try done.
  - unfold NBLOCKS. lia.
  - split; [lia|]. split; [done|]. intros k Hk. assert (k = 0 \/ k = 1) as [->| ->] by lia; done.
Defined.

Lemma no_room_by m bits : forallb (fun k => negb (Z.land m (Z.shiftl bits k) =? 0)) (seqZ 0 16) = true -> no_room m bits.
Proof.
  intros H k Hk Hf. pose proof (all_below _ _ H k Hk) as Hn. cbv beta in Hn. by rewrite Hf in Hn.
Qed.
Definition full_pool : pkw :=
  pool (5000 :: zeros 9) (-21846 :: zeros 9) (Some (Buf 5) :: replicate 9 None) (setb world0 idle_cache).
Lemma getepack_twice_witness : exists s1 s2,
  @getepack disk_machine 0 3 full_pool = Ret (514) s1 /\ nmap (pk s1) !! 1%nat = Some 0 /\
  @getepack disk_machine 0 3 s1 = Ret (514) s2.
Proof.
  eapply (@getepack_twice disk_machine 0 3 1 (Buf 1)).
  all: unfold NBLOCKS; try lia.
  - intros j Hj. exists (nth j (nmap (pk full_pool)) 0), (nth j (nbase (pk full_pool)) 0).
    destruct j as [|j]; [split_and!; [done..|]|].
    + do 2 right. by apply no_room_by.
    + do 9 (destruct j as [|j]; [split_and!; [done..|by right; left]|]). lia.
  - exists 0%nat. split; [lia|]. exists (-21846), 5000. split_and!; [done..|]. by apply no_room_by.
  - done.
  - intros [|j] Hj; [by eexists|lia].
  - vm_compute. reflexivity.
  - vm_compute. reflexivity.
  - done.
Defined.
