(* ===== verification/Widths.v ===== *)
(** * Widths: the numbers of a connection stay within its arrays

    Whatever comes in over the line and whatever the processes ask for, the
    numbers in a [struct pack] stay within the [short]s and [char]s that hold
    them, sequence numbers below eight, and its arrays keep their lengths. *)

From S2P Require Import Prelude Bytes Callout Clist State Utab Sched Bio Rdwri Fio SysFile Ports Tty Pkmem Pk Packets.

Definition short (x : Z) : Prop := -32768 <= x < 32768.
Definition char (x : Z) : Prop := -128 <= x < 128.
Definition seqno (x : Z) : Prop := 0 <= x < 8.

Record typed (r : pack) : Prop := {
  ty_state : short (p_state r); ty_bits : short (p_bits r); ty_rsize : short (p_rsize r); ty_xsize : short (p_xsize r);
  ty_mode : char (p_mode r); ty_xcount : char (p_xcount r); ty_rcount : char (p_rcount r); ty_nout : char (p_nout r);
  ty_tout : char (p_tout r); ty_lpsize : char (p_lpsize r); ty_timer : char (p_timer r); ty_obusy : char (p_obusy r);
  ty_rwindow : char (p_rwindow r); ty_swindow : char (p_swindow r); ty_msg : char (p_msg r); ty_rmsg : char (p_rmsg r);
  ty_imap : char (p_imap r);
  ty_ps : seqno (p_ps r); ty_pr : seqno (p_pr r); ty_rpr : seqno (p_rpr r); ty_nxtps : seqno (p_nxtps r);
  ty_pscopy : seqno (p_pscopy r);
  ty_ihbuf : length (p_ihbuf r) = HDRSIZ; ty_ohbuf : length (p_ohbuf r) = HDRSIZ;
  ty_ob : length (p_ob r) = 8%nat; ty_ib : length (p_ib r) = 8%nat; ty_os : length (p_os r) = 8%nat;
  ty_is : length (p_is r) = 8%nat; ty_osum : length (p_osum r) = 8%nat; ty_isum : length (p_isum r) = 8%nat
}.
Definition all_typed (d : pkstate) : Prop := forall p r, packs d !! p = Some r -> typed r.
(** The connections are typed, and stay so while the process sleeps. *)
Definition sound (s : pkw) : Prop :=
  all_typed (pk s) /\ Forall (fun f => forall d, all_typed d -> all_typed (f d)) (penv s).

Abbreviation wide m := (maintains sound m (fun _ => True)).

Section Widths.
Context {MC : Machine}.

(** ** Accesses *)

Lemma wide_kern {A} (m : KM A) : wide (kern m).
Proof. intros s Hs. unfold kern. destruct (m (kw s)); done. Qed.
Lemma wide_dg {A} (f : pkstate -> A) : wide (dg f).
Proof. by intros s Hs. Qed.
Lemma wide_dset {T} (f : pkstate -> T) {S : Setter f} v :
  (forall d, packs (setf f (fun _ => v) d) = packs d) -> wide (dset f v).
Proof. intros H s [Hs He]. split; [done|]. split; [|done]. intros p r. cbn. rewrite H. apply Hs. Qed.
Lemma wide_kf {A} p (f : pack -> A) : maintains sound (kf_ p f) (fun a => exists r, typed r /\ a = f r).
Proof.
  intros s Hs. unfold kf_, pget, dg, gets, bind. destruct (packs (pk s) !! p) as [r|] eqn:E; cbn; [|done].
  split; [|done]. exists r. split; [|done]. by apply (proj1 Hs p).
Qed.
Lemma wide_kset {T} p (f : pack -> T) {S : Setter f} v :
  (forall r, typed r -> typed (setf f (fun _ => v) r)) -> wide (kset_ p f v).
Proof.
  intros H s Hs. unfold kset_, pget, dg, gets, bind. destruct (packs (pk s) !! p) as [r|] eqn:E; cbn; [|done].
  split; [done|]. split; [|apply Hs]. intros q x. cbn. destruct (decide (q = p)) as [->|Hq].
  - rewrite lookup_insert_eq. intros [= <-]. by apply H, (proj1 Hs p).
  - rewrite lookup_insert_ne by done. apply Hs.
Qed.
Lemma wide_kat p (f : pack -> list Z) i : wide (kat p f i).
Proof.
  unfold kat. eapply maintains_bind; [apply wide_kf|]. intros l _. destruct (i <? 0); [apply maintains_fault|].
  eapply maintains_conseq; [|apply maintains_the]. done.
Qed.
Lemma wide_kput p (f : pack -> list Z) {S : Setter f} i v :
  (forall r r' j, typed r -> typed r' -> typed (setf f (fun _ => <[j := v]> (f r')) r)) -> wide (kput p f i v).
Proof.
  intros H. unfold kput. eapply maintains_bind; [apply wide_kat|]. intros _ _.
  eapply maintains_bind; [apply wide_kf|]. intros l (r & Hr & ->). apply wide_kset. intros r' Hr'. by apply H.
Qed.
Lemma wide_pdel p : wide (pdel p).
Proof.
  apply maintains_modify. intros s [Hs He]. split; [|done]. intros q x. cbn. intros [_ Hx]%lookup_delete_Some. by apply (Hs q).
Qed.
Lemma wide_sleep c pri : wide (pksleep c pri).
Proof.
  unfold pksleep. eapply maintains_bind; [apply wide_kern|]. intros _ _. apply maintains_modify. intros s [Hs He].
  destruct (penv s) as [|f l] eqn:E; [split; [done|by rewrite E]|]. apply Forall_cons in He as [Hf Hl].
  split; [|done]. cbn. by apply Hf.
Qed.
Lemma wide_next x : maintains sound (next x) seqno.
Proof.
  unfold next, index. destruct (x <? 0); [apply maintains_fault|]. eapply maintains_conseq; [|apply maintains_the]. cbv beta.
  intros a Ha%list_elem_of_lookup_2. cbn in Ha. unfold seqno. set_unfold. lia.
Qed.
Lemma wide_fresh p : wide (modify (fun s => s <| pk ::= fun d => d <| packs ::= <[p := pack0]> |> |>)).
Proof.
  apply maintains_modify. intros s [Hs He]. split; [|done]. intros q x. cbn. destruct (decide (q = p)) as [->|Hq].
  - rewrite lookup_insert_eq. intros [= <-]. by split.
  - rewrite lookup_insert_ne by done. apply Hs.
Qed.
Lemma wide_true {A} (m : PKM A) Q : maintains sound m Q -> wide m.
Proof. by apply maintains_conseq. Qed.

(** ** Numbers that fit *)

Lemma short_wrap x : short (s16 x).
Proof. apply s16_range. Qed.
Lemma char_wrap x : char (s8 x).
Proof. apply s8_range. Qed.
Lemma seq_char x : seqno x -> char x.
Proof. unfold seqno, char. lia. Qed.
Lemma low_seq x : seqno (Z.land x MOD8).
Proof. unfold seqno, MOD8. change 7 with (Z.ones 3). rewrite Z.land_ones by lia. apply Z.mod_pos_bound. lia. Qed.
Lemma front_length n r : typed r -> length (splice 0 (drop n (p_ihbuf r)) (p_ihbuf r)) = HDRSIZ.
Proof. intros Hr. rewrite length_splice; [by apply ty_ihbuf|]. rewrite length_drop. lia. Qed.
End Widths.

Create HintDb widths.
#[export] Hint Resolve short_wrap char_wrap seq_char low_seq front_length : widths.
#[export] Hint Resolve ty_state ty_bits ty_rsize ty_xsize ty_mode ty_xcount ty_rcount ty_nout ty_tout ty_lpsize ty_timer
  ty_obusy ty_rwindow ty_swindow ty_msg ty_rmsg ty_imap ty_ps ty_pr ty_rpr ty_nxtps ty_pscopy ty_ihbuf ty_ohbuf ty_ob ty_ib
  ty_os ty_is ty_osum ty_isum : widths.
#[export] Hint Extern 2 (char _) => (unfold char, DOWN, RCLOSE, LIVE, M_CLOSE, SYN in *; lia) : widths.
#[export] Hint Extern 2 (short _) => (unfold short, DOWN, RCLOSE, LIVE in *; lia) : widths.
#[export] Hint Extern 2 (seqno _) => (unfold seqno; lia) : widths.
(** A record with one member set. *)
Ltac retype :=
  intros; repeat match goal with H : exists r, typed r /\ _ = _ |- _ => destruct H as (? & ? & ->) end;
  match goal with |- typed (setf _ _ _) => idtac end;
  constructor; cbn [setf p_state p_bits p_rsize p_xsize p_ihbuf p_ohbuf p_rptr p_mode p_ipool p_io p_xcount p_rcount
  p_nout p_tout p_lpsize p_timer p_obusy p_rwindow p_swindow p_msg p_rmsg p_ps p_pr p_rpr p_nxtps p_imap p_pscopy
  p_ob p_ib p_os p_is p_osum p_isum p_ttyp]; rewrite ?length_insert; eauto 3 with widths.
(** Goes through a routine as [keep] does; what a statement says of its result is
    at hand in what follows. *)
Ltac maintain_step :=
  match goal with
  | |- forall _, _ => intros ?
  | |- maintains _ (bind _ _) _ => first [eapply maintains_bind; [solve [auto 2 with maintains nocore]|] | eapply maintains_bind; [apply wide_kf|] | eapply maintains_bind; [apply wide_next|] | apply (maintains_bind _ _ _ (fun _ => True))]
  | |- maintains _ (ret _) _ => apply maintains_ret
  | |- maintains _ fault _ => apply maintains_fault
  | |- maintains _ nofuel _ => apply maintains_nofuel
  | |- maintains _ (gets _) _ => eapply maintains_conseq; [|apply maintains_gets]
  | |- maintains _ (the _) _ => eapply maintains_conseq; [|apply maintains_the]
  | |- maintains _ (loop _ _ _) _ => apply maintains_loop
  | |- maintains _ (for_ _ _) _ => apply maintains_for
  | |- maintains _ (for_find _ _) _ => apply maintains_for_find
  | |- maintains _ (when _ _) _ => apply maintains_when
  | |- maintains _ (match ?x with _ => _ end) _ => destruct x
  | |- maintains _ _ _ => solve [auto 2 with maintains nocore]
  | |- maintains _ ?m _ => let h := head_of m in unfold h
  | |- True => exact I
  | |- match ?x with _ => _ end => destruct x
  end; cbv beta zeta.
Ltac maintain := repeat maintain_step.
#[export] Hint Resolve wide_kern wide_dg wide_kat wide_pdel wide_sleep wide_fresh : maintains.
#[export] Hint Extern 1 (maintains sound (kf_ _ _) (fun _ => True)) => (eapply wide_true, wide_kf) : maintains.
#[export] Hint Extern 1 (maintains sound (next _) (fun _ => True)) => (eapply wide_true, wide_next) : maintains.
#[export] Hint Extern 1 (maintains sound (dset _ _) _) => (apply wide_dset; intros []; reflexivity) : maintains.
#[export] Hint Extern 1 (maintains sound (kset_ _ _ _) _) => (apply wide_kset; retype) : maintains.
#[export] Hint Extern 1 (maintains sound (kput _ _ _ _) _) => (apply wide_kput; retype) : maintains.

Section Driver.
Context {MC : Machine} (at_bwaiting : Z) (iproc oproc : nat -> PKM unit) (pktimeout_fn : nat) (junk : nat -> list Z).
Context (iproc_wide : forall tp, wide (iproc tp)) (oproc_wide : forall tp, wide (oproc tp)).
#[local] Hint Resolve iproc_wide oproc_wide : maintains.

Lemma wide_getepack bits : wide (getepack at_bwaiting bits).
Proof. maintain. Qed.
#[local] Hint Resolve wide_getepack : maintains.
Lemma wide_freepack p bits : wide (freepack at_bwaiting p bits).
Proof. maintain. Qed.
#[local] Hint Resolve wide_freepack : maintains.
Lemma wide_pool_put p bp : wide (pool_put p bp).
Proof. maintain. Qed.
#[local] Hint Resolve wide_pool_put : maintains.
Lemma wide_char_put p a c : wide (char_put p a c).
Proof. maintain. Qed.
#[local] Hint Resolve wide_char_put : maintains.
Lemma wide_mem_get a : wide (mem_get a).
Proof. maintain. Qed.
#[local] Hint Resolve wide_mem_get : maintains.
Lemma wide_pkmove a n f : wide (pkmove a n f).
Proof. maintain. Qed.
#[local] Hint Resolve wide_pkmove : maintains.
Lemma wide_pkxstart p c x : wide (pkxstart oproc junk p c x).
Proof. maintain. Qed.
#[local] Hint Resolve wide_pkxstart : maintains.
Lemma wide_pkoutput p : wide (pkoutput oproc junk p).
Proof. maintain. Qed.
#[local] Hint Resolve wide_pkoutput : maintains.
Lemma wide_pksack p : wide (pksack at_bwaiting p).
Proof. maintain. Qed.
#[local] Hint Resolve wide_pksack : maintains.
Lemma wide_control_case p c v : seqno v -> wide (control_case at_bwaiting p c v).
Proof. maintain. Qed.
#[local] Hint Resolve wide_control_case : maintains.
Lemma wide_pkcntl c p : wide (pkcntl at_bwaiting oproc junk c p).
Proof. maintain. Qed.
#[local] Hint Resolve wide_pkcntl : maintains.
Lemma wide_pkrend tp : wide (pkrend at_bwaiting iproc oproc junk tp).
Proof. maintain. Qed.
#[local] Hint Resolve wide_pkrend : maintains.
Lemma wide_pkrint c tp : wide (pkrint at_bwaiting iproc oproc junk c tp).
Proof. maintain. Qed.
#[local] Hint Resolve wide_pkrint : maintains.
Lemma wide_pkxint tp : wide (pkxint oproc junk tp).
Proof. maintain. Qed.
#[local] Hint Resolve wide_pkxint : maintains.
Lemma wide_pkaccept p : wide (pkaccept oproc junk p).
Proof. maintain. Qed.
#[local] Hint Resolve wide_pkaccept : maintains.
Lemma wide_release p x : seqno x -> wide (release_slot p x).
Proof. maintain. Qed.
#[local] Hint Resolve wide_release : maintains.
Lemma wide_read_round p y : wide (read_round p y).
Proof. maintain. Qed.
#[local] Hint Resolve wide_read_round : maintains.
Lemma wide_pkread tp : wide (pkread oproc junk tp).
Proof. maintain. Qed.
#[local] Hint Resolve wide_pkread : maintains.
Lemma wide_fill p x : wide (fill_packet at_bwaiting p x).
Proof. maintain. Qed.
#[local] Hint Resolve wide_fill : maintains.
Lemma wide_pkwrite tp : wide (pkwrite at_bwaiting oproc junk tp).
Proof. maintain. Qed.
#[local] Hint Resolve wide_pkwrite : maintains.
Lemma wide_shut p : wide (shut oproc junk p).
Proof. maintain. Qed.
#[local] Hint Resolve wide_shut : maintains.
Lemma wide_pkclose tp : wide (pkclose at_bwaiting oproc junk tp).
Proof. maintain. Qed.
#[local] Hint Resolve wide_pkclose : maintains.
Lemma wide_pktimeout : wide (pktimeout oproc pktimeout_fn junk).
Proof. maintain. Qed.
#[local] Hint Resolve wide_pktimeout : maintains.
Lemma wide_pkioctl com tp addr : wide (pkioctl junk com tp addr).
Proof. maintain. Qed.
#[local] Hint Resolve wide_pkioctl : maintains.
Lemma wide_new_pack l : wide (new_pack at_bwaiting junk l).
Proof. maintain. Qed.
#[local] Hint Resolve wide_new_pack : maintains.
Lemma wide_attach tp p t : wide (attach iproc oproc pktimeout_fn junk tp p t).
Proof. maintain. Qed.
#[local] Hint Resolve wide_attach : maintains.
Lemma wide_pkopen tp addr : wide (pkopen at_bwaiting iproc oproc pktimeout_fn junk tp addr).
Proof. maintain. Qed.
#[local] Hint Resolve wide_pkopen : maintains.

(** ** The driver at work *)

(** What the driver is asked for: characters from the line, the transmitter's
    interrupt, the calls of processes, the tick of its timer. *)
Inductive request :=
| Rint (c : Z) (tp : nat) | Xint (tp : nat)
| Read (tp : nat) | Write (tp : nat) | Open (tp : nat) (addr : Z) | Close (tp : nat) | Ioctl (com : Z) (tp : nat) (addr : Z)
| Tick.
Definition serve (q : request) : PKM unit :=
  match q with
  | Rint c tp => pkrint at_bwaiting iproc oproc junk c tp
  | Xint tp => pkxint oproc junk tp
  | Read tp => pkread oproc junk tp ;;; ret tt
  | Write tp => pkwrite at_bwaiting oproc junk tp ;;; ret tt
  | Open tp addr => pkopen at_bwaiting iproc oproc pktimeout_fn junk tp addr
  | Close tp => pkclose at_bwaiting oproc junk tp
  | Ioctl com tp addr => pkioctl junk com tp addr
  | Tick => pktimeout oproc pktimeout_fn junk
  end.
Definition after (o : outcome pkw unit) : option pkw :=
  match o with Ret _ s | Asleep s | Longjmp s => Some s | _ => None end.
(** A request served for others, over whatever the kernel is then, as what it
    does to the driver. *)
Definition effect (x : request * world) (d : pkstate) : pkstate :=
  match after (serve x.1 (mkpkw x.2 d [])) with Some s => pk s | None => d end.

(** States of the driver: requests are served one after the other, and others
    each time a process sleeps. *)
Inductive reach : pkw -> Prop :=
| reach_start w d : all_typed d -> reach (mkpkw w d [])
| reach_others w l s : reach s -> reach (mkpkw w (pk s) (map effect l))
| reach_serve q s s' : reach s -> after (serve q s) = Some s' -> reach s'.

Lemma wide_serve q : wide (serve q).
Proof. destruct q; cbn [serve]; maintain. Qed.
Lemma after_sound q s s' : sound s -> after (serve q s) = Some s' -> sound s'.
Proof.
  intros Hs Ha. pose proof (wide_serve q s Hs) as H. destruct (serve q s); cbn in Ha; try done.
  all: injection Ha as <-; try done. by destruct H.
Qed.
Lemma effect_typed x d : all_typed d -> all_typed (effect x d).
Proof.
  intros Hd. unfold effect. destruct (after _) as [s|] eqn:E; [|done].
  apply (after_sound x.1 (mkpkw x.2 d []) s); [by split|done].
Qed.
Lemma reach_sound s : reach s -> sound s.
Proof.
  induction 1 as [w d Hd|w l s _ [IH _]|q s s' _ IH Ha]; [by split| |by eapply after_sound].
  split; [done|]. cbn. apply Forall_map, Forall_forall. intros x _ d. apply effect_typed.
Qed.

(** The numbers of a connection that index its window, and what they index. *)
Definition numbers (r : pack) : list Z := [p_ps r; p_pr r; p_rpr r; p_nxtps r; p_pscopy r].
Definition windows (r : pack) : list (list Z) := [p_ob r; p_ib r; p_os r; p_is r; p_osum r; p_isum r].

Lemma typed_number r x : typed r -> x ∈ numbers r -> 0 <= x < 8.
Proof.
  intros [] Hx. unfold numbers, seqno in *.
  repeat (apply elem_of_cons in Hx as [->|Hx]; [lia|]). by apply elem_of_nil in Hx.
Qed.
Lemma typed_window r l : typed r -> l ∈ windows r -> length l = 8%nat.
Proof.
  intros [] Hl. unfold windows in *.
  repeat (apply elem_of_cons in Hl as [->|Hl]; [assumption|]). by apply elem_of_nil in Hl.
Qed.

(** C39. In every state the driver comes to, by whatever is asked of it in
    whatever order and whatever is served while a process sleeps, the sequence
    numbers of every connection are numbers of the window: each is below eight
    and each of the arrays of packets sent and received has a place for it,
    so that none of them is used outside its bounds. *)
Theorem window_indices s : reach s -> forall p r, packs (pk s) !! p = Some r ->
  forall x l, x ∈ numbers r -> l ∈ windows r -> 0 <= x < 8 /\ is_Some (l !! Z.to_nat x).
Proof.
  intros H p r Er x l Hx Hl. pose proof (proj1 (reach_sound s H) p r Er) as Ht.
  pose proof (typed_number r x Ht Hx). split; [done|]. apply lookup_lt_is_Some.
  rewrite (typed_window r l Ht Hl). lia.
Qed.
End Driver.

(** ** A driver at its first tick *)

Definition ticking_pack : pack := fresh_pack <| p_timer := 1 |>.
Definition ticking : pkw :=
  pk_start <| pk ::= fun d => d <| pklines := 1000 :: zeros 7 |> <| packs := {[ 1000 := ticking_pack ]} |> |>
    <| kw ::= fun w => w <| ks ::= fun k => k <| callout := replicate 20 (mkcallo 0 0 None) |> |> |>.
Lemma ticking_typed : all_typed (pk ticking).
Proof.
  intros p r H. change (({[ 1000 := ticking_pack ]} : gmap Z pack) !! p = Some r) in H.
  apply lookup_singleton_Some in H as [_ <-]. by split.
Qed.

Lemma window_indices_witness : exists s,
  after (@serve machine0 0 silent silent 0 (fun _ => []) Tick ticking) = Some s /\
  forall p r, packs (pk s) !! p = Some r ->
  forall x l, x ∈ numbers r -> l ∈ windows r -> 0 <= x < 8 /\ is_Some (l !! Z.to_nat x).
Proof.
  eexists. split; [vm_compute; reflexivity|].
  apply (@window_indices machine0 0 silent silent 0 (fun _ => [])).
  - intros tp s Hs. done.
  - intros tp s Hs. done.
  - eapply (reach_serve _ _ _ _ _ Tick ticking); [|vm_compute; reflexivity]. apply reach_start. exact ticking_typed.
Defined.
