(* ===== verification/Mxchan.v ===== *)
(** * Mxchan: groups and channels of multiplexed files ([h/mx.h], [dev/mx2.c])

    A multiplexed file is an inode with a [struct group] in place of its
    addresses: a table of fifteen members, each a channel or another group, and
    a word with a bit for each member that has data.  A channel is one of
    [chans], with queues both ways, or one of [schans], in front of a terminal.
    This file holds the data and the routines that go up and down the tree of
    groups; [Mx] has the entry points. *)

From S2P Require Import Prelude Bytes Callout Clist State Utab Sched Bio Rdwri Inode Fio Ports.

Definition NGROUPS : nat := 10.
Definition NCHANS : nat := 20.
Definition NPORTS : nat := 30.
Definition NINDEX : nat := 15.
Definition CNTLSIZ : Z := 10.
Definition NLEVELS : nat := 4.
Definition NMSIZE : nat := 50.
Definition NDEBUGS : Z := 30.
Definition HIQ : Z := 100.
Definition LOQ : Z := 20.

Definition INUSE : Z := 1.
Definition COPEN : Z := 2.
Definition XGRP : Z := 4.
Definition YGRP : Z := 8.
Definition WCLOSE : Z := 16.
Definition ISGRP : Z := 64.
Definition BLOCK : Z := 128.
Definition EOTMARK : Z := 256.
Definition SIGBLK : Z := 512.
Definition BLKMSG : Z := 512.
Definition ENAMSG : Z := 1024.
Definition WFLUSH : Z := 2048.
Definition NMBUF : Z := 4096.
Definition PORT : Z := 8192.
Definition ALT : Z := 16384.

Definition M_WATCH : Z := 1.
Definition M_CLOSE : Z := 2.
Definition M_EOT : Z := 3.
Definition M_OPEN : Z := 4.
Definition M_BLK : Z := 5.
Definition M_UBLK : Z := 6.
Definition M_IOCTL : Z := 12.

Definition TTIPRI : Z := 28.
Definition TTOPRI : Z := 29.

(** [struct chan *]: into [chans], into [schans] or, by a cast, at the group of
    an inode. *)
Inductive mref := MChan (i : nat) | MPort (i : nat) | MGroup (ip : nat).
#[export] Instance mref_eq_dec : EqDecision mref.
Proof. solve_decision. Defined.
(** [struct tty *] of a channel: a terminal, or the channel itself. *)
Inductive ttref := TTty (tp : nat) | TChan (c : mref).

(** [struct schan], with which a [struct chan] begins. *)
Record schan := mkschan {
  c_flags : Z; c_index : Z; c_line : Z;
  c_group : option nat;
  c_fy : option nat; c_ttyp : option ttref;
  c_ctlx : clist; c_pgrp : Z
}.
#[export] Instance eta_schan : Eta schan := fun r =>
  mkschan (c_flags r) (c_index r) (c_line r) (c_group r) (c_fy r) (c_ttyp r) (c_ctlx r) (c_pgrp r).
(** [struct chan]: [cx.datq] and [cy.datq] are the queues to and from the group;
    nothing uses [c_ctly]. *)
Record mchan := mkmchan {
  c_head : schan;
  c_ottyp : option ttref; c_oline : Z;
  cx_datq : clist; cy_datq : clist
}.
#[export] Instance eta_mchan : Eta mchan := fun r =>
  mkmchan (c_head r) (c_ottyp r) (c_oline r) (cx_datq r) (cy_datq r).
(** [struct group]; [g_group] is the group it is a member of, by its inode. *)
Record group := mkgroup {
  g_state : Z; g_index : Z; g_rot : Z;
  g_group : option nat; g_inode : option nat; g_file : option nat;
  g_rotmask : Z; g_datq : Z;
  g_chans : list (option mref)
}.
#[export] Instance eta_group : Eta group := fun r =>
  mkgroup (g_state r) (g_index r) (g_rot r) (g_group r) (g_inode r) (g_file r) (g_rotmask r) (g_datq r) (g_chans r).

Definition schan0 : schan := mkschan 0 0 0 None None None (mkclist 0 0 0) 0.
Definition mchan0 : mchan := mkmchan schan0 None 0 (mkclist 0 0 0) (mkclist 0 0 0).
(** What [zero] makes of a group. *)
Definition group0 : group := mkgroup 0 0 0 None None None 0 0 (replicate NINDEX None).

(** An element of [groups]: NULL, what [groups[i]++] makes of NULL, the group of
    an inode. *)
Inductive gcell := GNull | GTaken | GAt (ip : nat).

(** The driver's data.  [igroup] has the group of each inode, [tchan] the
    [t_chan] of each terminal and [fchan] the [f_chan] of each open file: each
    is a member of a union, read only where it was the last one stored. *)
Record mxstate := mkmxstate {
  chans : list mchan; schans : list schan; groups : list gcell;
  mpxline : Z; mpxdev : Z; mcdebugs : list Z;
  mxnmbuf : list Z; nmsize : Z;
  igroup : list group; tchan : list (option mref); fchan : list (option mref)
}.
#[export] Instance eta_mxstate : Eta mxstate := fun r =>
  mkmxstate (chans r) (schans r) (groups r) (mpxline r) (mpxdev r) (mcdebugs r) (mxnmbuf r) (nmsize r) (igroup r)
    (tchan r) (fchan r).

(** The kernel, the driver, and what others do to it each time the running
    process sleeps. *)
Record mxw := mkmxw { mw : world; mx : mxstate; menv : list (mxstate -> mxstate) }.
#[export] Instance eta_mxw : Eta mxw := fun r => mkmxw (mw r) (mx r) (menv r).
Abbreviation MXM := (M mxw).

Definition kern {A} (m : KM A) : MXM A := lift mw (fun w s => s <| mw := w |>) m.
Definition xg {A} (f : mxstate -> A) : MXM A := gets (fun s => f (mx s)).
Definition xs {T} (f : mxstate -> T) {S : Setter f} (v : T) : MXM unit :=
  modify (fun s => s <| mx ::= setf f (fun _ => v) |>).
Definition xtab {E} (tab : mxstate -> list E) (i : nat) : MXM E := l <- xg tab ;; the (l !! i).
Definition xput {E} (tab : mxstate -> list E) {S : Setter tab} (i : nat) (e : E) : MXM unit :=
  xtab tab i ;;; modify (fun s => s <| mx ::= setf tab (fun l => <[i := e]> l) |>).

(** A group's members. *)
Definition gf {A} (g : nat) (f : group -> A) : MXM A := r <- xtab igroup g ;; ret (f r).
Definition gset {T} (g : nat) (f : group -> T) {S : Setter f} (v : T) : MXM unit :=
  r <- xtab igroup g ;; xput igroup g (setf f (fun _ => v) r).
Definition gchan (g : nat) (i : Z) : MXM (option mref) :=
  l <- gf g g_chans ;; if i <? 0 then fault else the (l !! Z.to_nat i).
Definition gchan_set (g : nat) (i : Z) (o : option mref) : MXM unit :=
  gchan g i ;;; l <- gf g g_chans ;; gset g g_chans (<[Z.to_nat i := o]> l).

(** The members a channel and a port share; a group has others in their place. *)
Definition sc (c : mref) : MXM schan :=
  match c with
  | MChan i => r <- xtab chans i ;; ret (c_head r)
  | MPort i => xtab schans i
  | MGroup _ => fault
  end.
Definition sf {A} (c : mref) (f : schan -> A) : MXM A := r <- sc c ;; ret (f r).
Definition sset {T} (c : mref) (f : schan -> T) {S : Setter f} (v : T) : MXM unit :=
  match c with
  | MChan i => r <- xtab chans i ;; xput chans i (r <| c_head ::= setf f (fun _ => v) |>)
  | MPort i => r <- xtab schans i ;; xput schans i (setf f (fun _ => v) r)
  | MGroup _ => fault
  end.
(** Those a [struct chan] has alone. *)
Definition cf {A} (c : mref) (f : mchan -> A) : MXM A :=
  match c with MChan i => r <- xtab chans i ;; ret (f r) | _ => fault end.
Definition cset {T} (c : mref) (f : mchan -> T) {S : Setter f} (v : T) : MXM unit :=
  match c with MChan i => r <- xtab chans i ;; xput chans i (setf f (fun _ => v) r) | _ => fault end.

(** Those at the same place in all three: [c_flags] is [g_state], [c_index]
    [g_index] and [c_group] [g_group]. *)
Definition flags (c : mref) : MXM Z := match c with MGroup g => gf g g_state | _ => sf c c_flags end.
Definition index_of (c : mref) : MXM Z := match c with MGroup g => gf g g_index | _ => sf c c_index end.
Definition group_of (c : mref) : MXM (option nat) := match c with MGroup g => gf g g_group | _ => sf c c_group end.
Definition chas (c : mref) (m : Z) : MXM bool := v <- flags c ;; ret (v &? m).
Definition cor (c : mref) (m : Z) : MXM unit := v <- sf c c_flags ;; sset c c_flags (s16 (Z.lor v m)).
Definition cclr (c : mref) (m : Z) : MXM unit := v <- sf c c_flags ;; sset c c_flags (s16 (clr v m)).

(** A queue of a channel. *)
Inductive qsel := Qctlx | Qdatx | Qdaty.
Definition qget (c : mref) (s : qsel) : MXM clist :=
  match s with Qctlx => sf c c_ctlx | Qdatx => cf c cx_datq | Qdaty => cf c cy_datq end.
Definition qput (c : mref) (s : qsel) (v : clist) : MXM unit :=
  match s with Qctlx => sset c c_ctlx v | Qdatx => cset c cx_datq v | Qdaty => cset c cy_datq v end.
Definition qcc (c : mref) (s : qsel) : MXM Z := v <- qget c s ;; ret (c_cc v).
(** A routine of [prim.c] on it. *)
Definition onmq {A} (c : mref) (s : qsel) (m : CM A) : MXM A :=
  v <- qget c s ;;
  r <- kern (fun w =>
    let put t := w <| ks ::= fun k => k <| cl := t |> <| pl := Clist.pl t |> |> in
    match m ((cl (ks w)) <| Clist.pl := pl (ks w) |> <| q := v |>) with
    | Ret a t => Ret (a, q t) (put t)
    | Panic msg t => Panic msg (put t) | Longjmp t => Longjmp (put t) | Asleep t => Asleep (put t)
    | Fault => Fault | NoFuel => NoFuel
    end) ;;
  qput c s r.2 ;;;
  ret r.1.

(** What events and the alignment of [iomove] look at: the address of a channel,
    of its queues, of [g_datq], and of the buffers on the stack. *)
Inductive mxobj := OChan (c : mref) | OQueue (c : mref) (s : qsel) | ODatq (g : nat) | OBytes | OHeader | OCmd | OEot.

(** ** Bytes to and from the user *)

(** [iomove(cp, n, B_WRITE)] into [old] at the address [a], and
    [iomove(cp, n, B_READ)] of [l]. *)
Definition fast (us : user) (a n : Z) : bool :=
  negb (u_segflg us =? 1) && aligned n && aligned a && match u_base us with UA b => aligned b | KA _ _ => false end.
Definition from_user `{Machine} (a n : Z) (old : list Z) : KM (list Z) :=
  if n =? 0 then ret old
  else
    us <- uf (fun r => r) ;;
    if fast us a n then
      b <- match u_base us with UA b => ret b | KA _ _ => fault end ;;
      k <- kf (fun k => k) ;;
      let '(l, ok) := copyin k b n in
      (if negb ok then set_error EFAULT else advance n) ;;;
      ret (splice 0 l old)
    else
      loop (S (Z.to_nat n)) (fun x : nat * list Z =>
        let '(i, l) := x in
        if Nat.eqb i (Z.to_nat n) then ret (inr l)
        else t <- cpass ;; ret (if t <? 0 then inr l else inl (S i, <[i := t]> l))) (0%nat, old).
Definition to_user `{Machine} (a : Z) (l : list Z) : KM unit :=
  let n := Z.of_nat (length l) in
  if n =? 0 then ret tt
  else
    us <- uf (fun r => r) ;;
    if fast us a n then
      b <- match u_base us with UA b => ret b | KA _ _ => fault end ;;
      k <- kf (fun k => k) ;;
      let '(k', ok) := copyout us k l b in
      kmod (fun _ => k') ;;;
      if negb ok then set_error EFAULT else advance n
    else for_find l (fun c => t <- passc c ;; ret (if t <? 0 then Some tt else None)) ;;; ret tt.

Section Mxchan.
Context {MC : Machine} (at_ : mxobj -> Z).

(** [wakeup], [sleep] at an address; while the process sleeps the driver's data
    change too. *)
Definition mxwakeup (a : Z) : MXM unit := kern (wakeup (CRaw a)).
Definition mxsleep (c : State.chan) (pri : Z) : MXM unit :=
  kern (sleep c pri) ;;;
  modify (fun s => match menv s with [] => s | f :: l => s <| mx ::= f |> <| menv := l |> end).
Definition mxrounds : MXM nat := kern rounds.

(** ** Taking channels and groups *)

(** [challoc(index, isport)] *)
Definition challoc (index : Z) (isport : bool) : MXM (option mref) :=
  s <- kern spl6 ;;
  let take c := sset c c_index (s8 index) ;;; sset c c_pgrp 0 ;;; sset c c_flags 0 ;;; kern (splx s) ;;; ret (Some c) in
  if isport then
    l <- xg schans ;;
    match list_find (fun r => c_group r = None) l with
    | Some (i, _) => take (MPort i)
    | None => kern (splx s) ;;; ret None
    end
  else
    l <- xg chans ;;
    match list_find (fun r => c_group (c_head r) = None) l with
    | Some (i, _) => take (MChan i)
    | None => kern (splx s) ;;; ret None
    end.

Definition is_null (g : gcell) : bool := match g with GNull => true | _ => false end.
(** From the last down; -1 when all are taken. *)
Definition gpalloc : MXM Z :=
  s <- kern spl6 ;;
  l <- xg groups ;;
  let i := match list_find (fun i => is_null <$> l !! i = Some true) (rev (seq 0 NGROUPS)) with
           | Some (_, i) => Z.of_nat i
           | None => -1
           end in
  when (0 <=? i) (xput groups (Z.to_nat i) GTaken) ;;;
  kern (splx s) ;;;
  ret i.

(** [addch(ip, isport)] *)
Definition addch (ip : nat) (isport : bool) : MXM (option mref) :=
  kern (plock ip) ;;;
  l <- gf ip g_chans ;;
  o <- (match list_find (fun o => o = None) l with
        | None => ret None
        | Some (i, _) =>
            o <- challoc (Z.of_nat i) isport ;;
            match o with
            | None => ret None
            | Some c => gchan_set ip (Z.of_nat i) (Some c) ;;; sset c c_group (Some ip) ;;; ret (Some c)
            end
        end) ;;
  kern (prele ip) ;;;
  ret o.

(** [mlink(sub, master)] *)
Definition mlink (sub master : nat) : MXM unit :=
  l <- gf master g_chans ;;
  match list_find (fun o => o = None) l with
  | Some (i, _) =>
      gchan_set master (Z.of_nat i) (Some (MGroup sub)) ;;;
      gset sub g_group (Some master) ;;;
      gset sub g_index (Z.of_nat i) ;;;
      kern (uset u_r_val1 (Z.of_nat i))
  | None => kern (set_error ENXIO)
  end.

(** ** Up and down the tree *)

(** No more groups lie above one another than there are inodes, unless they
    are linked in a ring. *)
Definition depth : MXM nat := l <- xg igroup ;; ret (S (length l)).
Definition cmask : list Z := [1; 2; 4; 8; 16; 32; 64; 128; 256; 512; 1024; 2048; 4096; 8192; 16384; -32768].
Definition cmask_at (x : Z) : MXM Z := if x <? 0 then fault else the (cmask !! Z.to_nat x).

(** One round of [sdata]: the group, the index in it and [lgp]. *)
Definition sdata_round (y : option nat * Z * option nat) : MXM (option nat * Z * option nat + option nat * bool) :=
  let '(o, x, lgp) := y in
  match o with
  | None => ret (inr (lgp, true))
  | Some g =>
      st <- gf g g_state ;;
      if negb (st &? ISGRP) then ret (inr (None, false))
      else
        m <- cmask_at x ;; d <- gf g g_datq ;; gset g g_datq (s16 (Z.lor d m)) ;;;
        i <- gf g g_index ;;
        up <- gf g g_group ;;
        ret (inl (up, i, Some g))
  end.
(** Data for the channel: marked in every group above; whether the last is
    found. *)
Definition sdata (c : mref) : MXM bool :=
  o <- group_of c ;;
  match o with
  | None => ret false
  | Some _ =>
      x <- index_of c ;;
      s <- kern spl6 ;;
      n <- depth ;;
      r <- loop n sdata_round (o, x, None) ;;
      match r with
      | (Some g, true) => kern (splx s) ;;; mxwakeup (at_ (ODatq g)) ;;; ret true
      | _ => ret false
      end
  end.

Definition scontrol (c : mref) (event value : Z) : MXM unit :=
  s <- kern spl6 ;;
  ok <- sdata c ;;
  if negb ok then ret tt
  else onmq c Qctlx (putw (s16 event)) ;;; onmq c Qctlx (putw (s16 value)) ;;; kern (splx s).

(** [xcp(gp, x)]: the member the digits of [x] lead to. *)
Definition xcp_round (y : nat * option mref * Z) : MXM (nat * option mref * Z + option mref) :=
  let '(i, gp, x) := y in
  if negb (Nat.ltb i NLEVELS) then ret (inr gp)
  else
    c <- the gp ;; g <- chas c ISGRP ;;
    if negb g then ret (inr gp)
    else
      ip <- match c with MGroup ip => ret ip | _ => fault end ;;
      gp <- gchan ip (Z.land x 15) ;;
      let x := Z.shiftr x 4 in
      ret (if Z.of_nat NINDEX <=? Z.land x 15 then inr gp else inl (S i, gp, x)).
Definition xcp (gp : nat) (x : Z) : MXM (option mref) :=
  loop (S NLEVELS) xcp_round (0%nat, Some (MGroup gp), s16 x).

(** [cpx(cp)]: the number of a channel. *)
Definition cpx_round (y : option nat * Z) : MXM (option nat * Z + Z) :=
  let '(o, x) := y in
  match o with
  | None => ret (inr x)
  | Some g =>
      st <- gf g g_state ;;
      if negb (st &? ISGRP) then ret (inr x)
      else i <- gf g g_index ;; up <- gf g g_group ;; ret (inl (up, Z.lor (s32 (Z.shiftl x 4)) i))
  end.
Definition cpx (o : option mref) : MXM Z :=
  match o with
  | None => ret (-1)
  | Some c =>
      i <- index_of c ;;
      let x := Z.shiftl (-1) 4 + i in
      o <- group_of c ;;
      match o with
      | None => ret (-1)
      | Some g =>
          st <- gf g g_state ;;
          if negb (st &? ISGRP) then ret (-1)
          else up <- gf g g_group ;; n <- depth ;; loop n cpx_round (up, x)
      end
  end.

(** The next member of [g] that has data, from [g_rot] on; without any the code
    never leaves the loop. *)
Definition turn (g : nat) : MXM (unit + unit) :=
  d <- gf g g_datq ;; m <- gf g g_rotmask ;;
  if negb (Z.land d m =? 0) then ret (inr tt)
  else
    r <- gf g g_rot ;;
    let r := Z.land (s8 (r + 1)) 15 in
    gset g g_rot r ;;;
    (if tst r then m <- gf g g_rotmask ;; gset g g_rotmask (s16 (Z.shiftl m 1)) else gset g g_rotmask 1) ;;;
    ret (inl tt).
Definition rotate (g : nat) : MXM unit := loop 17 (fun _ : unit => turn g) tt.

Definition rmdata_round (y : option nat * Z) : MXM (option nat * Z + unit) :=
  let '(o, x) := y in
  match o with
  | None => ret (inr tt)
  | Some g =>
      m <- cmask_at x ;; d <- gf g g_datq ;;
      let d := s16 (clr d m) in
      gset g g_datq d ;;;
      if tst d then ret (inr tt)
      else i <- gf g g_index ;; up <- gf g g_group ;; ret (inl (up, i))
  end.
Definition rmdata (c : mref) : MXM unit :=
  o <- group_of c ;; x <- index_of c ;; n <- depth ;; loop n rmdata_round (o, x).

Definition nextcp_round (gp : option mref) : MXM (option mref + option mref) :=
  match gp with
  | None => ret (inr None)
  | Some c =>
      g <- chas c ISGRP ;;
      if negb g then ret (inr gp)
      else
        ip <- match c with MGroup ip => ret ip | _ => fault end ;;
        rotate ip ;;;
        r <- gf ip g_rot ;; o <- gchan ip r ;;
        ret (inl o)
  end.
Definition nextcp (gp : nat) : MXM (option mref) :=
  d <- gf gp g_datq ;;
  if d =? 0 then ret None
  else
    n <- depth ;;
    o <- loop (S n) nextcp_round (Some (MGroup gp)) ;;
    match o with Some c => rmdata c | None => ret tt end ;;;
    ret o.

(** ** Closing and draining *)

(** [while(q->c_cc) getc(q);] *)
Definition flush (c : mref) (s : qsel) : MXM unit :=
  n <- qcc c s ;;
  loop (S (Z.to_nat n)) (fun _ : unit =>
    k <- qcc c s ;; if k =? 0 then ret (inr tt) else onmq c s getc ;;; ret (inl tt)) tt.

Definition chwake (c : mref) : MXM unit :=
  mxwakeup (at_ (OChan c)) ;;;
  flush c Qctlx ;;;
  for_ [Qdatx; Qdaty] (fun s =>
    let p := at_ (OQueue c s) in mxwakeup p ;;; mxwakeup (p + 1) ;;; mxwakeup (p + 2)).

Definition wflush (c : mref) (s : qsel) : MXM unit :=
  l <- kern spl6 ;;
  n <- mxrounds ;;
  loop n (fun _ : unit =>
    k <- qcc c s ;;
    if k =? 0 then ret (inr tt)
    else
      w <- chas c WCLOSE ;;
      if w : bool then flush c s ;;; ret (inr tt)
      else
        cor c WFLUSH ;;; sdata c ;;;
        mxsleep (CRaw (at_ (OQueue c s) + 2)) TTOPRI ;;;
        ret (inl tt)) tt ;;;
  cclr c WFLUSH ;;;
  kern (splx l).

(** [tp->t_chan] *)
Definition tchan_get (tp : nat) : MXM (option mref) := xtab tchan tp.
Definition tchan_set (tp : nat) (o : option mref) : MXM unit :=
  xput tchan tp o ;;; kern (tset tp t_chan (match o with Some _ => true | None => false end)).

Definition chdrain (c : mref) : MXM unit :=
  chwake c ;;;
  w <- chas c WCLOSE ;;
  o <- sf c c_ttyp ;;
  match o with
  | None => ret tt
  | Some t =>
      p <- chas c PORT ;;
      mine <- (if p : bool then
                 tp <- match t with TTty tp => ret tp | TChan _ => fault end ;;
                 ch <- tchan_get tp ;;
                 ret (if decide (ch = Some c) then Some tp else None)
               else ret None) ;;
      match mine with
      | Some tp => sset c c_ttyp None ;;; tchan_set tp None
      | None =>
          (if negb w then wflush c Qdatx else flush c Qdatx) ;;;
          y <- chas c YGRP ;;
          when (negb y) (flush c Qdaty)
      end
  end.

Definition chfree (c : mref) : MXM unit :=
  o <- sf c c_group ;;
  match o with
  | None => ret tt
  | Some g =>
      i <- sf c c_index ;;
      x <- gchan g i ;;
      when (bool_decide (x = Some c)) (gchan_set g i None) ;;;
      sset c c_group None
  end.

(** ** Starting the other side again *)

Definition mcstart (c : mref) (q : Z) : MXM unit :=
  b <- chas c BLKMSG ;;
  if b : bool then cclr c BLKMSG ;;; scontrol c M_UBLK 0 else mxwakeup q.

Definition mxrstrt (c : mref) (q : qsel) (b : Z) : MXM unit :=
  s <- kern spl6 ;;
  h <- chas c b ;;
  go <- (if h : bool then n <- qcc c q ;; ret (n <? LOQ) else ret false) ;;
  when go
    (cclr c b ;;;
     if b &? ALT then mxwakeup (at_ (OQueue c q) + 1) else mcstart c (at_ (OQueue c q))) ;;;
  w <- chas c WFLUSH ;;
  when w (mxwakeup (at_ (OQueue c q) + 2)) ;;;
  kern (splx s).
End Mxchan.
