(* ===== verification/Mx.v ===== *)
(** * Mx: multiplexed files ([dev/mx1.c], [dev/mx2.c])

    The [mpxchan] system call, which makes groups and puts terminals and
    channels into them, and the driver's open, close, read, write and ioctl.  The
    kernel of this repository is linked with the stand-ins of [sys/fakemx.c]
    ([Tty]); these are the routines they stand for. *)

From S2P Require Import Prelude Bytes Callout Clist State Utab Sched Bio Rdwri Alloc Inode Nami Fio SysFile Ports Mxchan.

Definition FMPX : Z := 8.
Definition FMPY : Z := 16.
Definition MXLSTN : Z := 30721.                    (* ('x'<<8)|1 *)
Definition MXNBLK : Z := 30722.

Definition MPX : Z := 5.
Definition MPXN : Z := 6.
Definition CHAN : Z := 1.
Definition JOIN : Z := 2.
Definition EXTR : Z := 3.
Definition ATTACH : Z := 4.
Definition CONNECT : Z := 7.
Definition DETACH : Z := 8.
Definition DEBUG : Z := 10.
Definition NPGRP : Z := 11.
Definition CSIG : Z := 12.
Definition ALL : Z := 27.

(** [struct rh] and [struct wh] as bytes; in [struct wh] two bytes of padding come
    before the pointer. *)
Definition rh_bytes (index count ccount : Z) : list Z := bytes_of 2 index ++ bytes_of 2 count ++ bytes_of 2 ccount.
Definition wh_index (h : list Z) : Z := s16 (leval (sub 0 2 h)).
Definition wh_count (h : list Z) : Z := s16 (leval (sub 2 2 h)).
Definition wh_ccount (h : list Z) : Z := s16 (leval (sub 4 2 h)).
Definition wh_data (h : list Z) : Z := leval (sub 8 4 h).

Section Mx.
Context {MC : Machine} (at_ : mxobj -> Z).
(** The read and write routines of the other lines of [linesw], for which lines
    the routines are those of this driver, for which devices of [cdevsw], the
    terminals of a device ([d_ttys]), and what lies on the stack. *)
Context (line_read : Z -> nat -> KM Z) (line_write : Z -> nat -> KM State.chan).
Context (line_is_mx cdev_is_mx : list bool) (d_ttys : Z -> option nat) (junk : nat -> list Z).

(** [f_un.f_chan], which lies where [f_offset] does. *)
Definition fchan_set (fp : nat) (o : option mref) : MXM unit :=
  xput fchan fp o ;;; kern (fset fp f_offset (match o with Some c => s32 (at_ (OChan c)) | None => 0 end)).
Definition mx_falloc : MXM (option nat) :=
  o <- kern falloc ;;
  match o with Some fp => xput fchan fp None ;;; ret (Some fp) | None => ret None end.

Definition getmpx (dev : Z) : MXM (option nat) :=
  let d := minor dev in
  if Z.of_nat NGROUPS <=? d then ret None
  else g <- xtab groups (Z.to_nat d) ;; match g with GNull => ret None | GAt ip => ret (Some ip) | GTaken => fault end.

(** ** Moving characters *)

(** [mxmove(q, dir)]: the number of characters read, or what is left of those
    written. *)
Definition mxmove (c : mref) (q : qsel) (dir : Z) : MXM Z :=
  n <- kern (uf u_count) ;;
  let cc := if n <? HIQ then n else HIQ in
  if dir =? B_READ then
    l <- onmq c q (q_to_b cc) ;;
    let cc := Z.of_nat (length l) in
    if cc <=? 0 then ret cc else kern (to_user (at_ OBytes) l) ;;; ret cc
  else if cc <=? 0 then ret cc
  else
    l <- kern (from_user (at_ OBytes) cc (junk (Z.to_nat HIQ))) ;;
    onmq c q (b_to_q (take (Z.to_nat cc) l)).

(** The name that follows a control message: [while (nmsize--) passc( *np++)]. *)
Definition pass_name (c : mref) : MXM unit :=
  n <- xg nmsize ;;
  (if n <? 0 then nofuel
   else for_ (seq 0 (Z.to_nat n)) (fun i => b <- xtab mxnmbuf i ;; kern (passc b) ;;; ret tt)) ;;;
  xs nmsize (-1) ;;;
  cclr c NMBUF ;;;
  o <- kern (kf mpxip) ;; ip <- the o ;; kern (prele ip).

(** The terminal a port stands before. *)
Definition port_tty (c : mref) : MXM nat :=
  o <- sf c c_ttyp ;; match o with Some (TTty tp) => ret tp | _ => fault end.

Definition mcread (c : mref) : MXM Z :=
  n <- qcc c Qctlx ;;
  let q := if tst n then Qctlx else Qdatx in
  mxmove c q B_READ ;;;
  nm <- chas c NMBUF ;;
  when (nm && tst n) (pass_name c) ;;;
  n <- qcc c Qctlx ;;
  p <- chas c PORT ;;
  if p : bool then
    tp <- port_tty c ;; k <- kern (tf tp (fun t => c_cc (t_rawq t))) ;; ret (s32 (n + k))
  else k <- qcc c Qdatx ;; ret (s32 (n + k)).

(** One [mxmove] takes as many as a hundred characters, and past HIQ no more are
    taken. *)
Definition mcwrite (c : mref) : MXM State.chan :=
  n <- kern (uf u_count) ;;
  loop (S (Z.to_nat (n + HIQ + 1))) (fun _ : unit =>
    n <- kern (uf u_count) ;;
    if n =? 0 then ret (inr tt)
    else
      s <- kern spl6 ;;
      k <- qcc c Qdaty ;; e <- chas c EOTMARK ;;
      if (HIQ <? k) || e then cor c SIGBLK ;;; kern (splx s) ;;; ret (inr tt)
      else kern (splx s) ;;; mxmove c Qdaty B_WRITE ;;; ret (inl tt)) tt ;;;
  let a := at_ (OQueue c Qdaty) in
  mxwakeup a ;;;
  ret (CRaw a).

(** [( *linesw[line].l_read)(tp)] and [l_write]. *)
Definition l_read (line : Z) (t : option ttref) : MXM Z :=
  mine <- the (line_is_mx !! Z.to_nat line) ;;
  match t with
  | Some (TChan c) => if mine : bool then mcread c else fault
  | Some (TTty tp) => if mine : bool then fault else kern (line_read line tp)
  | None => fault
  end.
Definition l_write (line : Z) (t : option ttref) : MXM State.chan :=
  mine <- the (line_is_mx !! Z.to_nat line) ;;
  match t with
  | Some (TChan c) => if mine : bool then mcwrite c else fault
  | Some (TTty tp) => if mine : bool then fault else kern (line_write line tp)
  | None => fault
  end.

(** ** A channel that is a file of its own *)

(** The wait of [msread] for characters: whether there are any. *)
Definition msread_wait (c : mref) (q : qsel) : MXM bool :=
  n <- mxrounds ;;
  loop n (fun _ : unit =>
    k <- qcc c q ;;
    if negb (k =? 0) then ret (inr true)
    else
      e <- chas c EOTMARK ;;
      if e : bool then
        cclr c EOTMARK ;;;
        en <- chas c ENAMSG ;;
        (if en : bool then scontrol at_ c M_UBLK 0
         else mxwakeup (at_ (OChan c)) ;;; mxwakeup (at_ (OQueue c q))) ;;;
        ret (inr false)
      else
        w <- chas c WCLOSE ;;
        if w : bool then kern (set_error ENXIO) ;;; ret (inr false)
        else mxsleep (CRaw (at_ (OQueue c q))) TTIPRI ;;; ret (inl tt)) tt.
Definition msread (fmp : Z) (c : mref) : MXM unit :=
  let q := if fmp &? FMPX then Qdatx else Qdaty in
  s <- kern spl6 ;;
  some <- msread_wait c q ;;
  if negb some then kern (splx s)
  else
    kern (splx s) ;;;
    n <- kern (uf u_count) ;;
    loop (S (Z.to_nat n)) (fun _ : unit =>
      k <- mxmove c q B_READ ;; ret (if 0 <? k then inl tt else inr tt)) tt ;;;
    mxrstrt at_ c q SIGBLK.

(** The wait of [mswrite] for room: whether the channel is still there. *)
Definition mswrite_wait (c : mref) (q : qsel) : MXM bool :=
  n <- mxrounds ;;
  loop n (fun _ : unit =>
    k <- qcc c q ;;
    if k <=? 100 then ret (inr true)
    else
      w <- chas c WCLOSE ;;
      if w : bool then ret (inr false)
      else
        sdata at_ c ;;; cor c BLOCK ;;;
        mxsleep (CRaw (at_ (OQueue c q) + 1)) TTOPRI ;;;
        ret (inl tt)) tt.
Definition mswrite (fmp : Z) (c : mref) : MXM unit :=
  let q := if fmp &? FMPX then Qdaty else Qdatx in
  n <- kern (uf u_count) ;;
  ok <- loop (S (Z.to_nat (n + HIQ + 1))) (fun _ : unit =>
    n <- kern (uf u_count) ;;
    if n =? 0 then ret (inr true)
    else
      kern spl6 ;;;
      w <- chas c WCLOSE ;;
      ok <- (if w : bool then ret false else mswrite_wait c q) ;;
      if negb ok then pg <- sf c c_pgrp ;; kern (signal SIGPIPE pg) ;;; ret (inr false)
      else
        kern spl0 ;;;
        cc <- mxmove c q B_WRITE ;;
        ret (if cc <? 0 then inr true else inl tt)) tt ;;
  when ok
    (g <- chas c (if fmp &? FMPX then YGRP else XGRP) ;;
     if g : bool then sdata at_ c ;;; ret tt else mxwakeup (at_ (OQueue c q))).

(** ** Open and close *)

(** The name the process opens, into [mxnmbuf]; the NUL behind fifty characters
    does not fit. *)
Definition mpxname (c : mref) : MXM unit :=
  a <- kern (uf u_arg) ;; a0 <- the (a !! 0%nat) ;;
  kern (uset u_dirp a0) ;;;
  n <- loop (S NMSIZE) (fun n : nat =>
         if Nat.eqb n NMSIZE then ret (inr n)
         else
           ch <- kern uchar ;;
           if ch <=? 0 then ret (inr n) else xput mxnmbuf n (s8 ch) ;;; ret (inl (S n))) 0%nat ;;
  xput mxnmbuf n 0 ;;;
  xs nmsize (Z.of_nat n + 1) ;;;
  cor c NMBUF.

(** What makes a channel of the driver's own line: [c_ottyp = c_ttyp = cp]. *)
Definition own_line (c : mref) : MXM unit :=
  sset c c_ttyp (Some (TChan c)) ;;;
  cset c c_ottyp (Some (TChan c)) ;;;
  l <- xg mpxline ;;
  sset c c_line (s8 l) ;;;
  cset c c_oline (s8 l).

(** A new channel for a process that opens the group [g] by its name. *)
Definition open_channel (g fp : nat) : MXM bool :=
  gi <- gf g g_inode ;;
  fi <- kern (ff fp f_inode) ;;
  if negb (bool_decide (gi = Some fi)) then ret false
  else
    o <- addch fi false ;;
    match o with
    | None => ret false
    | Some c =>
        sset c c_flags XGRP ;;;
        own_line c ;;;
        fl <- kern (ff fp f_flag) ;;
        kern (fset fp f_flag (s8 (Z.lor (Z.lor fl FMPY) (FREAD + FWRITE)))) ;;;
        fchan_set fp (Some c) ;;;
        mi <- kern (kf mpxip) ;;
        msg <- (if bool_decide (mi = Some fi) then kern (plock fi) ;;; mpxname c ;;; ret M_OPEN else ret M_WATCH) ;;
        uid <- kern (uf u_uid) ;;
        scontrol at_ c msg uid ;;;
        mxsleep (CRaw (at_ (OChan c))) TTIPRI ;;;
        nm <- chas c NMBUF ;;
        when nm (o <- kern (kf mpxip) ;; ip <- the o ;; kern (prele ip)) ;;;
        w <- chas c WCLOSE ;;
        if w : bool then chdrain at_ c ;;; chfree c ;;; ret false
        else
          sset c c_fy (Some fp) ;;;
          p <- kern (uf u_procp) ;; pg <- kern (pf p p_pgrp) ;;
          sset c c_pgrp pg ;;;
          ret true
    end.
Definition mxopen (dev flag : Z) : MXM unit :=
  o <- getmpx dev ;;
  ok <- (match o with
         | None => ret false
         | Some g =>
             st <- gf g g_state ;;
             if st =? COPEN then gset g g_state (INUSE + ISGRP) ;;; ret true
             else if negb (st &? INUSE) then ret false
             else
               i <- kern (uf u_r_val1) ;; l <- kern (uf u_ofile) ;;
               o <- (if i <? 0 then fault else the (l !! Z.to_nat i)) ;; fp <- the o ;;
               open_channel g fp
         end) ;;
  when (negb ok) (kern (set_error ENXIO)).

Section Closing.
(** [closef], which comes back here for a multiplexed file. *)
Context (mx_closef : option nat -> MXM unit).

Definition detach (c : mref) : MXM unit :=
  g <- chas c ISGRP ;;
  if g : bool then
    gp <- match c with MGroup ip => ret ip | _ => fault end ;;
    fp <- gf gp g_file ;;
    mx_closef fp ;;;
    i <- gf gp g_index ;;
    gchan_set gp i None
  else
    p <- chas c PORT ;;
    t <- (if p : bool then sf c c_ttyp else ret None) ;;
    match t with
    | Some _ =>
        fp <- sf c c_fy ;;
        mx_closef fp ;;; chdrain at_ c ;;; chfree c
    | None =>
        fy <- sf c c_fy ;; w <- chas c WCLOSE ;;
        if bool_decide (is_Some fy) && negb w then cor c WCLOSE ;;; chwake at_ c
        else chdrain at_ c ;;; chfree c
    end.

(** The open files of which [f] holds. *)
Definition some_file (f : nat -> file -> MXM bool) : MXM bool :=
  l <- kern (kf files) ;;
  r <- for_find (seq 0 (length l)) (fun i =>
         r <- kern (tget files i) ;;
         b <- f i r ;; ret (if b : bool then Some tt else None)) ;;
  ret (bool_decide (is_Some r)).

Definition close_channel (c : mref) : MXM unit :=
  open <- some_file (fun i r =>
            if tst (f_count r) && (f_flag r &? FMP) then o <- xtab fchan i ;; ret (bool_decide (o = Some c)) else ret false) ;;
  if open : bool then ret tt
  else
    chdrain at_ c ;;;
    w <- chas c WCLOSE ;;
    if negb w then scontrol at_ c M_CLOSE 0 ;;; cor c WCLOSE else chfree c.

Definition close_group (dev : Z) (g : nat) : MXM unit :=
  o <- gf g g_inode ;;
  match o with
  | None => ret tt
  | Some ip =>
      m <- kern (ipf ip i_mode) ;;
      if negb (ifmt m =? IFMPC) then ret tt
      else
        open <- some_file (fun _ r => ret (tst (f_count r) && (Z.land (f_flag r) FMP =? FMP) && Nat.eqb (f_inode r) ip)) ;;
        if open : bool then ret tt
        else
          mi <- kern (kf mpxip) ;;
          when (bool_decide (mi = Some ip)) (kern (kset mpxip None) ;;; kern (prele ip)) ;;;
          for_ (seq 0 NINDEX) (fun i =>
            o <- gchan g (Z.of_nat i) ;; match o with Some c => detach c | None => ret tt end) ;;;
          xput groups (Z.to_nat (minor dev)) GNull ;;;
          kern (plock ip) ;;;
          m <- kern (ipf ip i_mode) ;;
          kern (ipset ip i_mode (u16 (Z.lor (clr m IFMT) IFCHR))) ;;;
          xput igroup g group0 ;;;
          kern (ior ip (Z.lor IUPD ICHG)) ;;;
          kern (iput ip)
  end.

Definition mxclose (dev flag : Z) (o : option mref) : MXM unit :=
  let fmp := Z.land flag FMP in
  match o with
  | Some c =>
      if tst fmp && negb (fmp =? FMP) then close_channel c
      else g <- getmpx dev ;; match g with None => ret tt | Some g => close_group dev g end
  | None => g <- getmpx dev ;; match g with None => ret tt | Some g => close_group dev g end
  end.
End Closing.

Definition is_mx (mode dev : Z) : bool :=
  ((ifmt mode =? IFCHR) || (ifmt mode =? IFMPC)) && bool_decide (cdev_is_mx !! Z.to_nat (major dev) = Some true).

(** [closef] of a file of the driver comes to [mxclose]: [Fio.closef] with
    [f_chan] handed on; it is no pipe.  A group closes the groups in it. *)
Fixpoint mx_closef_n (fuel : nat) (o : option nat) : MXM unit :=
  match fuel, o with
  | O, _ => nofuel
  | _, None => ret tt
  | S fuel, Some fp =>
      r <- kern (tget files fp) ;;
      i <- kern (tget inodes (f_inode r)) ;;
      let ip := f_inode r in let flag := f_flag r in
      let dev := s16 (i_rdev i) in
      if (1 <? f_count r) || negb (is_mx (i_mode i) dev) then kern (closef (Some fp))
      else
        c <- xtab fchan fp ;;
        kern (plock ip) ;;;
        kern (fset fp f_count 0) ;;;
        kern (iput ip) ;;;
        still <- (if flag &? FMP then ret false else kern (still_open ip)) ;;
        if still : bool then ret tt else mxclose (mx_closef_n fuel) dev flag c
  end.
Definition mx_closef (o : option nat) : MXM unit := n <- depth ;; mx_closef_n n o.

(** ** Reading and writing a multiplexed file *)

(** What goes before the data of channel [c]: whether it is control information
    that does not fit into what the user asks for, and whether it is any. *)
Definition control_room (c : mref) : MXM (option Z) :=
  n <- qcc c Qctlx ;;
  if n =? 0 then ret (Some 0)
  else
    nm <- chas c NMBUF ;; k <- xg nmsize ;;
    let count := u32 (u32 (n + CNTLSIZ) + (if nm : bool then k else 0)) in
    uc <- kern (uf u_count) ;;
    ret (if uc <? count then None else Some 1).

(** The characters and the header of one channel. *)
Definition read_channel (c : mref) (index esc : Z) : MXM unit :=
  base <- kern (uf u_base) ;;
  n <- kern (uf u_count) ;;
  kern (uset u_base (uadd base 6)) ;;;
  kern (uset u_count (u32 (n - 6))) ;;;
  let xfr := s32 (u32 (n - 6)) in
  p <- chas c PORT ;;
  more <- (if tst esc && p then mcread c
           else l <- sf c c_line ;; t <- sf c c_ttyp ;; l_read l t) ;;
  when (0 <? more) (sdata at_ c ;;; ret tt) ;;;
  when (more <? 0) (scontrol at_ c M_CLOSE 0) ;;;
  n <- kern (uf u_count) ;;
  esc <- (if u32 xfr =? n then kern (to_user (at_ OEot) [M_EOT; 0; 0; 0]) ;;; ret (esc + 1) else ret esc) ;;
  n <- kern (uf u_count) ;;
  let xfr := s32 (xfr - n) in
  h <- (if tst esc then ret (rh_bytes index 0 xfr)
        else mxrstrt at_ c Qdatx (Z.lor BLOCK ALT) ;;; ret (rh_bytes index xfr 0)) ;;
  when (tst n && (xfr &? 1))
    (b <- kern (uf u_base) ;; kern (uset u_base (uadd b 1)) ;;;
     n <- kern (uf u_count) ;; kern (uset u_count (u32 (n - 1)))) ;;;
  us <- kern (uf (fun r => r)) ;; k <- kern (kf (fun k => k)) ;;
  a <- match base with UA a => ret a | KA _ _ => fault end ;;
  kern (kmod (fun _ => (copyout us k h (u32 a)).1)).

(** One round of the loop of [mxread]; it returns with the level of [spl6]. *)
Definition mxread_round (g : nat) (s : Z) : MXM (Z + unit) :=
  d <- gf g g_datq ;; n <- kern (uf u_count) ;;
  if (d =? 0) || (n <? CNTLSIZ + 2) then ret (inr tt)
  else
    kern (splx s) ;;;
    o <- nextcp g ;;
    match o with
    | None => ret (inl s)
    | Some c =>
        index <- cpx (Some c) ;;
        e <- control_room c ;;
        match e with
        | None => sdata at_ c ;;; ret (inr tt)
        | Some esc => read_channel c (s16 index) esc ;;; s <- kern spl6 ;; ret (inl s)
        end
    end.

(** [FP = getf(u.u_arg[0])] and its kind. *)
Definition this_file : MXM (nat * Z) :=
  a <- kern (uf u_arg) ;; a0 <- the (a !! 0%nat) ;;
  o <- kern (getf a0) ;; fp <- the o ;;
  fl <- kern (ff fp f_flag) ;;
  ret (fp, Z.land fl FMP).

Definition mxread (dev : Z) : MXM unit :=
  o <- getmpx dev ;;
  match o with
  | None => kern (set_error ENXIO)
  | Some g =>
      x <- this_file ;; let '(fp, fmp) := x in
      if negb (fmp =? FMP) then
        o <- xtab fchan fp ;; c <- the o ;; msread fmp c
      else
        base <- kern (uf u_base) ;;
        a <- match base with UA a => ret a | KA _ _ => fault end ;;
        if a &? 1 then kern (set_error ENXIO)
        else
          s <- kern spl6 ;;
          n <- mxrounds ;;
          loop n (fun _ : unit =>
            d <- gf g g_datq ;;
            if d =? 0 then mxsleep (CRaw (at_ (ODatq g))) TTIPRI ;;; ret (inl tt) else ret (inr tt)) tt ;;;
          n <- kern (uf u_count) ;;
          loop (S (Z.to_nat (n / 6))) (mxread_round g) s
  end.

(** A control message from the user. *)
Definition mxwcontrol (c : mref) : MXM unit :=
  cmd <- kern (from_user (at_ OCmd) 4 (junk 4)) ;;
  let cmd0 := s16 (leval (sub 0 2 cmd)) in
  if cmd0 =? M_EOT then
    s <- kern spl6 ;;
    n <- mxrounds ;;
    free <- loop n (fun _ : unit =>
              e <- chas c EOTMARK ;;
              if negb e then ret (inr true)
              else
                en <- chas c ENAMSG ;;
                if en : bool then scontrol at_ c M_BLK 0 ;;; ret (inr false)
                else mxsleep (CRaw (at_ (OChan c))) TTOPRI ;;; ret (inl tt)) tt ;;
    when free (cor c EOTMARK) ;;;
    kern (splx s)
  else if cmd0 =? M_IOCTL then kern (printf "M_IOCTL")
  else kern (set_error ENXIO).

(** The data for one channel, from its [l_write] on: [burpcount], or a return. *)
Definition write_channel (g : nat) (c : mref) (hbase : uaddr) (h : list Z) (burp : Z) : MXM (option Z) :=
  p <- chas c PORT ;;
  line <- (if p : bool then sf c c_line else cf c c_oline) ;;
  t <- (if p : bool then sf c c_ttyp else cf c c_ottyp) ;;
  n <- mxrounds ;;
  loop n (fun _ : unit =>
    waddr <- l_write line t ;;
    n <- kern (uf u_count) ;;
    if n =? 0 then ret (inr (Some burp))
    else
      st <- gf g g_state ;;
      if st &? ENAMSG then
        cor c BLKMSG ;;;
        b <- kern (uf u_base) ;;
        a <- match b with UA a => ret a | KA _ _ => fault end ;;
        ha <- match hbase with UA a => ret a | KA _ _ => fault end ;;
        let h := sub 0 2 h ++ bytes_of 2 n ++ bytes_of 2 (-1) ++ sub 6 2 h ++ bytes_of 4 a in
        us <- kern (uf (fun r => r)) ;; k <- kern (kf (fun k => k)) ;;
        kern (kmod (fun _ => (copyout us k h (u32 ha)).1)) ;;;
        ret (inr (Some (s32 (burp + 1))))
      else if decide (waddr = CNull) then kern (set_error ENXIO) ;;; ret (inr None)
      else mxsleep waddr TTOPRI ;;; ret (inl tt)) tt.

(** One header with what it announces. *)
Definition mxwrite_round (g : nat) (burp : Z) : MXM (Z + option Z) :=
  n <- kern (uf u_count) ;;
  if n <? 12 then ret (inr (Some burp))
  else
    hbase <- kern (uf u_base) ;;
    h <- kern (from_user (at_ OHeader) 12 (junk 12)) ;;
    err <- kern (uf u_error) ;;
    if tst err then ret (inr None)
    else
      let esc := wh_count h =? 0 in
      let count := if esc then wh_ccount h else wh_count h in
      o <- xcp g (wh_index h) ;;
      match o with
      | None => ret (inl burp)
      | Some c =>
          ucount <- kern (uf u_count) ;; ubase <- kern (uf u_base) ;;
          kern (uset u_count (u32 count)) ;;;
          kern (uset u_base (UA (wh_data h))) ;;;
          r <- (if esc then mxwcontrol c ;;; ret (Some burp) else write_channel g c hbase h burp) ;;
          match r with
          | None => ret (inr None)
          | Some burp =>
              kern (uset u_count ucount) ;;;
              kern (uset u_base ubase) ;;;
              ret (inl burp)
          end
      end.
Definition mxwrite (dev : Z) : MXM unit :=
  o <- getmpx dev ;;
  match o with
  | None => kern (set_error ENXIO)
  | Some g =>
      x <- this_file ;; let '(fp, fmp) := x in
      if negb (fmp =? FMP) then o <- xtab fchan fp ;; c <- the o ;; mswrite fmp c
      else
        n <- kern (uf u_count) ;;
        r <- loop (S (Z.to_nat (n / 12))) (mxwrite_round g) 0 ;;
        match r with None => ret tt | Some burp => kern (uset u_count (u32 burp)) end
  end.

Definition mxioctl (dev cmd addr flag : Z) : MXM unit :=
  o <- getmpx dev ;;
  match o with
  | None => kern (set_error ENXIO)
  | Some g =>
      a <- kern (uf u_arg) ;; a0 <- the (a !! 0%nat) ;;
      o <- kern (getf a0) ;;
      match o with
      | None => kern (set_error ENXIO)
      | Some fp =>
          fl <- kern (ff fp f_flag) ;;
          when (Z.land fl FMP =? FMP)
            (if cmd =? MXLSTN then
               m <- kern (kf mpxip) ;;
               match m with
               | None => ip <- gf g g_inode ;; kern (kset mpxip ip)
               | Some _ => kern (set_error ENXIO)
               end
             else if cmd =? MXNBLK then st <- gf g g_state ;; gset g g_state (s16 (Z.lor st ENAMSG))
             else kern (set_error ENXIO))
      end
  end.

Definition mcrint (c : Z) (tp : nat) : MXM unit := ret tt.
Definition mcxint (tp : nat) : MXM unit := ret tt.

(** ** The [mpxchan] call: each case tells whether it succeeds ([goto bad] if
    not) *)

Definition mxfalloc (o : option nat) : MXM unit :=
  match o with
  | None => kern (set_error ENXIO)
  | Some fp =>
      i <- kern ufalloc ;;
      if i <? 0 then ret tt
      else
        kern (umod (fun r => r <| u_ofile ::= <[Z.to_nat i := Some fp]> |>)) ;;;
        n <- kern (ff fp f_count) ;; kern (fset fp f_count (s8 (n + 1))) ;;;
        kern (uset u_r_val1 i)
  end.

(** [open1(ip, mode, 2)] of [sys2.c] where the device may be this one. *)
Definition mx_openi (ip : nat) (rw : Z) : MXM unit :=
  i <- kern (tget inodes ip) ;;
  let dev := s16 (i_rdev i) in
  if is_mx (i_mode i) dev then mxopen dev rw else kern (openi ip rw).
Definition mx_open1 (ip : nat) (mode : Z) : MXM unit :=
  err <- kern (uf u_error) ;;
  if tst err then kern (iput ip)
  else
    kern (prele ip) ;;;
    o <- mx_falloc ;;
    match o with
    | None => kern (iput ip)
    | Some fp =>
        kern (fset fp f_flag (Z.land mode (Z.lor FREAD FWRITE))) ;;;
        kern (fset fp f_inode ip) ;;;
        i <- kern (uf u_r_val1) ;;
        mx_openi ip (Z.land mode FWRITE) ;;;
        err <- kern (uf u_error) ;;
        if err =? 0 then ret tt
        else
          kern (umod (fun r => r <| u_ofile ::= <[Z.to_nat i := None]> |>)) ;;;
          n <- kern (ff fp f_count) ;; kern (fset fp f_count (s8 (n - 1))) ;;;
          kern (iput ip)
    end.

(** The device and the line of the driver are looked for the first time. *)
Definition find_driver : MXM bool :=
  d <- xg mpxdev ;;
  if 0 <=? d then ret true
  else
    match list_find (fun b => b = true) line_is_mx, list_find (fun b => b = true) cdev_is_mx with
    | Some (l, _), Some (i, _) => xs mpxline (Z.of_nat l) ;;; xs mpxdev (s16 (Z.shiftl (Z.of_nat i) 8)) ;;; ret true
    | Some (l, _), None => xs mpxline (Z.of_nat l) ;;; ret false
    | None, _ => ret false
    end.
Definition make_group (ip : nat) : MXM bool :=
  i <- gpalloc ;;
  if i <? 0 then kern (iput ip) ;;; ret false
  else
    d <- xg mpxdev ;;
    a <- kern (ipf ip i_addr) ;; kern (ipset ip i_addr (<[0%nat := d + i]> a)) ;;;
    xput groups (Z.to_nat i) (GAt ip) ;;;
    gset ip g_inode (Some ip) ;;;
    gset ip g_state COPEN ;;;
    gset ip g_group None ;;;
    gset ip g_index 0 ;;;
    gset ip g_rotmask 1 ;;;
    gset ip g_rot 0 ;;;
    gset ip g_datq 0 ;;;
    mx_open1 ip (FREAD + FWRITE) ;;;
    err <- kern (uf u_error) ;;
    if tst err then xput groups (Z.to_nat i) GNull ;;; kern (iput ip) ;;; ret false
    else
      m <- kern (ipf ip i_mode) ;; kern (ipset ip i_mode (u16 (Z.lor (clr m IFMT) IFMPC))) ;;;
      n <- kern (ipf ip i_count) ;; kern (ipset ip i_count (s8 (n + 1))) ;;;
      kern (ior ip (Z.lor (Z.lor IACC IUPD) ICHG)) ;;;
      v <- kern (uf u_r_val1) ;; l <- kern (uf u_ofile) ;;
      o <- (if v <? 0 then fault else the (l !! Z.to_nat v)) ;; fp <- the o ;;
      fl <- kern (ff fp f_flag) ;; kern (fset fp f_flag (s8 (Z.lor fl FMP))) ;;;
      fchan_set fp None ;;;
      gset ip g_file (Some fp) ;;;
      gset ip g_chans (replicate NINDEX None) ;;;
      ret true.
Definition mpx_create (named : bool) (name mode : Z) : MXM bool :=
  ok <- find_driver ;;
  if negb ok then ret false
  else if negb named then
    dev <- kern (kf rootdev) ;;
    o <- kern (ialloc dev) ;;
    match o with
    | None => ret false
    | Some ip => kern (ipset ip i_mode (438 + IFCHR)) ;;; make_group ip
    end
  else
    kern (uset u_dirp name) ;;;
    o <- kern (namei uchar 1) ;;
    match o with
    | Some ip => kern (set_error EEXIST) ;;; kern (iput ip) ;;; ret true
    | None =>
        err <- kern (uf u_error) ;;
        if tst err then ret true
        else
          o <- kern (maknode (Z.land mode 511 + IFCHR)) ;;
          match o with None => ret true | Some ip => make_group ip end
    end.

(** [tp = cdevsw[major(dev)].d_ttys] and [&tp[minor(dev)]]. *)
Definition tty_of (fp : nat) : MXM (option nat) :=
  ip <- kern (ff fp f_inode) ;;
  m <- kern (ipf ip i_mode) ;;
  if negb (ifmt m =? IFCHR) then ret None
  else
    i <- kern (tget inodes ip) ;;
    let dev := s16 (i_rdev i) in
    ret ((fun base : nat => (base + Z.to_nat (minor dev))%nat) <$> d_ttys (major dev)).

Definition mpx_join (g : nat) (fd : Z) : MXM bool :=
  o <- kern (getf fd) ;;
  match o with
  | None => ret false
  | Some fp =>
      ip <- kern (ff fp f_inode) ;;
      m <- kern (ipf ip i_mode) ;;
      let hold := n <- kern (ff fp f_count) ;; kern (fset fp f_count (s8 (n + 1))) in
      if ifmt m =? IFMPC then
        fl <- kern (ff fp f_flag) ;;
        if negb (Z.land fl FMP =? FMP) then ret false
        else mlink ip g ;;; hold ;;; ret true
      else
        o <- tty_of fp ;;
        match o with
        | None => ret false
        | Some tp =>
            ch <- tchan_get tp ;;
            if bool_decide (is_Some ch) then ret false
            else
              o <- addch g true ;;
              match o with
              | None => ret false
              | Some c =>
                  tchan_set tp (Some c) ;;;
                  sset c c_fy (Some fp) ;;;
                  hold ;;;
                  sset c c_ttyp (Some (TTty tp)) ;;;
                  l <- kern (tf tp t_line) ;; sset c c_line l ;;;
                  sset c c_flags (XGRP + PORT) ;;;
                  x <- cpx (Some c) ;; kern (uset u_r_val1 x) ;;;
                  ret true
              end
        end
  end.

Definition mpx_extract (g : nat) (c : mref) (arg2 : Z) : MXM unit :=
  s <- chas c ISGRP ;;
  if s : bool then
    gp <- match c with MGroup ip => ret ip | _ => fault end ;; fp <- gf gp g_file ;; mxfalloc fp
  else
    o <- sf c c_fy ;;
    match o with
    | Some fp => mxfalloc (Some fp)
    | None =>
        o <- mx_falloc ;;
        match o with
        | None => ret tt
        | Some fp =>
            kern (fset fp f_inode g) ;;;
            n <- kern (ipf g i_count) ;; kern (ipset g i_count (s8 (n + 1))) ;;;
            fchan_set fp (Some c) ;;;
            kern (fset fp f_flag (if tst arg2 then FREAD + FWRITE + FMPY else FREAD + FWRITE + FMPX)) ;;;
            sset c c_fy (Some fp)
        end
    end.

Definition mpx_chan (g : nat) : MXM bool :=
  o <- addch g false ;;
  match o with
  | None => ret false
  | Some c =>
      sset c c_flags XGRP ;;;
      sset c c_fy None ;;;
      own_line c ;;;
      x <- cpx (Some c) ;; kern (uset u_r_val1 x) ;;;
      ret true
  end.

Definition mpx_connect (fd chfd dir : Z) : MXM bool :=
  o <- kern (getf fd) ;;
  o' <- (match o with None => ret None | Some _ => kern (getf chfd) end) ;;
  match o, o' with
  | Some fp, Some chfp =>
      t <- tty_of fp ;;
      fl <- kern (ff chfp f_flag) ;;
      match t with
      | None => ret false
      | Some tp =>
          if negb (fl &? FMPY) then ret false
          else
            ch <- xtab fchan chfp ;;
            match ch with
            | None => ret false
            | Some c =>
                p <- chas c PORT ;;
                if p : bool then ret false
                else
                  l <- kern (tf tp t_line) ;;
                  when (0 <=? dir) (cset c c_ottyp (Some (TTty tp)) ;;; cset c c_oline l) ;;;
                  when (dir <=? 0) (tchan_set tp (Some c) ;;; sset c c_ttyp (Some (TTty tp)) ;;; sset c c_line l) ;;;
                  ret true
            end
      end
  | _, _ => ret false
  end.

Definition mpx_npgrp (g : option nat) (x pgrp : Z) : MXM bool :=
  o <- (match g with Some g => o <- xcp g x ;; ret (Some o) | None => ret None end) ;;
  match o with
  | Some None => ret false
  | _ =>
      pp <- kern (uf u_procp) ;;
      pid <- kern (pf pp p_pid) ;;
      kern (pset pp p_pgrp pid) ;;;
      when (tst pgrp) (kern (pset pp p_pgrp (s16 pgrp))) ;;;
      match o with
      | Some (Some c) => v <- kern (pf pp p_pgrp) ;; sset c c_pgrp v
      | _ => ret tt
      end ;;;
      ret true
  end.

Definition mpx_debug (i v : Z) : MXM unit :=
  if (i <? 0) || (NDEBUGS <? i) then ret tt
  else
    xput mcdebugs (Z.to_nat i) (s8 v) ;;;
    when (i =? ALL) (l <- xg mcdebugs ;; xs mcdebugs (replicate (length l) (s8 v))).

(** The group of a file descriptor, where the command takes one: [None] is
    [goto bad]. *)
Definition group_arg (cmd fd : Z) : MXM (option (option nat)) :=
  if bool_decide (cmd ∈ [CHAN; JOIN; EXTR; ATTACH; DETACH; CSIG]) || ((cmd =? NPGRP) && (0 <=? fd)) then
    o <- kern (getf fd) ;;
    match o with
    | None => ret None
    | Some gfp =>
        gip <- kern (ff gfp f_inode) ;;
        i <- gf gip g_inode ;;
        ret (if bool_decide (i = Some gip) then Some (Some gip) else None)
    end
  else ret (Some None).

(** A case for the channel of number [x]. *)
Definition on_channel (g : nat) (x : Z) (f : mref -> MXM unit) : MXM bool :=
  o <- xcp g x ;; match o with None => ret false | Some c => f c ;;; ret true end.

Definition mpx_case (cmd : Z) (o : option nat) (name a0 a1 a2 : Z) : MXM bool :=
  if (cmd =? MPX) || (cmd =? MPXN) then mpx_create (cmd =? MPX) name a0
  else if cmd =? CONNECT then mpx_connect a0 a1 a2
  else if cmd =? NPGRP then mpx_npgrp o a0 a2
  else if cmd =? DEBUG then mpx_debug a0 a1 ;;; ret true
  else
    match o with
    | None => ret false
    | Some g =>
        if cmd =? JOIN then mpx_join g a0
        else if cmd =? ATTACH then
          on_channel g a0 (fun c => x <- cpx (Some c) ;; kern (uset u_r_val1 x) ;;; mxwakeup (at_ (OChan c)))
        else if cmd =? DETACH then on_channel g a0 (detach mx_closef)
        else if cmd =? EXTR then on_channel g a0 (fun c => mpx_extract g c a2)
        else if cmd =? CHAN then mpx_chan g
        else on_channel g a0 (fun c => pg <- sf c c_pgrp ;; kern (signal pg a2))
    end.

Definition mpxchan : MXM unit :=
  cmd <- kern (arg 0) ;; argvec <- kern (arg 1) ;;
  k <- kern (kf (fun k => k)) ;;
  let vec := splice 0 (copyin k (u32 argvec) 20).1 (junk 20) in
  let at4 i := s32 (leval (sub i 4 vec)) in
  o <- group_arg cmd (at4 12%nat) ;;
  ok <- (match o with
         | None => ret false
         | Some g => mpx_case cmd g (u32 (at4 0%nat)) (at4 8%nat) (at4 12%nat) (at4 16%nat)
         end) ;;
  when (negb ok) (kern (set_error ENXIO)).
End Mx.
