(* ===== verification/Muxing.v ===== *)
(** * Muxing: what multiplexed files promise

    The number of a channel and the way back to it, the choice of the next
    channel with data, and what a channel leaves behind when it is freed. *)

From S2P Require Import Prelude Bytes Callout Clist State Utab Sched Bio Rdwri Inode Fio Ports Mxchan Mx.

(** The state with another record for the group of inode [g]. *)
Definition setgroup (g : nat) (r : group) (s : mxw) : mxw := s <| mx ::= fun d => d <| igroup ::= <[g := r]> |> |>.
Definition group_at (s : mxw) (g : nat) : option group := igroup (mx s) !! g.

(** The part of a channel that all kinds share. *)
Definition head (s : mxw) (c : mref) : option schan :=
  match c with
  | MChan i => c_head <$> chans (mx s) !! i
  | MPort i => schans (mx s) !! i
  | MGroup _ => None
  end.

Section Steps.
Context {MC : Machine} (at_ : mxobj -> Z).

Lemma xtab_ok {E} (tab : mxstate -> list E) i e s : tab (mx s) !! i = Some e -> xtab tab i s = Ret e s.
Proof. intros H. unfold xtab, xg, gets, bind. by rewrite H. Qed.
Lemma gf_ok {A} g (f : group -> A) r s : group_at s g = Some r -> gf g f s = Ret (f r) s.
Proof. intros H. unfold gf. by erewrite bind_ret_eq by by apply xtab_ok. Qed.
Lemma gset_ok {T} g (f : group -> T) {S : Setter f} v r s : group_at s g = Some r ->
  gset g f v s = Ret tt (setgroup g (setf f (fun _ => v) r) s).
Proof.
  intros H. unfold gset, xput. erewrite bind_ret_eq by by apply xtab_ok. cbn beta.
  by erewrite bind_ret_eq by by apply xtab_ok.
Qed.
Lemma group_at_set s g r r' : group_at s g = Some r -> group_at (setgroup g r' s) g = Some r'.
Proof. intros H. apply list_lookup_insert_eq. by eapply lookup_lt_Some. Qed.
Lemma setgroup_twice s g r1 r2 : setgroup g r2 (setgroup g r1 s) = setgroup g r2 s.
Proof. unfold setgroup. cbn. by rewrite list_insert_insert_eq. Qed.
Lemma setgroup_same s g r : group_at s g = Some r -> setgroup g r s = s.
Proof. intros H. unfold setgroup. destruct s as [w d e]. cbn in *. rewrite list_insert_id by done. by destruct d. Qed.
Lemma head_set s g r c : head (setgroup g r s) c = head s c.
Proof. by destruct c. Qed.
Lemma gchan_ok g i x r s : group_at s g = Some r -> 0 <= i -> g_chans r !! Z.to_nat i = Some x -> gchan g i s = Ret x s.
Proof.
  intros H Hi Hx. unfold gchan. erewrite bind_ret_eq by by apply gf_ok. cbn beta.
  rewrite (proj2 (Z.ltb_ge _ _)) by done. by rewrite Hx.
Qed.
Lemma depth_ok s : depth s = Ret (S (length (igroup (mx s)))) s.
Proof. done. Qed.

Lemma sf_ok {A} c (f : schan -> A) h s : head s c = Some h -> sf c f s = Ret (f h) s.
Proof.
  unfold sf, sc. destruct c as [i|i|]; cbn [head]; [| |done].
  - intros (r & Hr & ->)%fmap_Some. rewrite bind_assoc. by erewrite bind_ret_eq by by apply xtab_ok.
  - intros H. by erewrite bind_ret_eq by by apply xtab_ok.
Qed.
(** The members all three share. *)
Lemma flags_chan c h s : head s c = Some h -> flags c s = Ret (c_flags h) s.
Proof. intros H. destruct c; [by apply sf_ok..|done]. Qed.
Lemma index_chan c h s : head s c = Some h -> index_of c s = Ret (c_index h) s.
Proof. intros H. destruct c; [by apply sf_ok..|done]. Qed.
Lemma group_chan c h s : head s c = Some h -> group_of c s = Ret (c_group h) s.
Proof. intros H. destruct c; [by apply sf_ok..|done]. Qed.
Lemma chas_chan c h m s : head s c = Some h -> chas c m s = Ret (c_flags h &? m) s.
Proof. intros H. unfold chas. by erewrite bind_ret_eq by by apply flags_chan. Qed.
Lemma chas_group g r m s : group_at s g = Some r -> chas (MGroup g) m s = Ret (g_state r &? m) s.
Proof. intros H. unfold chas. by erewrite bind_ret_eq by by apply gf_ok. Qed.

(** ** The number of a channel *)

(** Channel [c] with number [i] in group [g]. *)
Record member (s : mxw) (g : nat) (i : Z) (c : mref) : Prop := {
  mb_group : exists r, group_at s g = Some r /\ g_state r &? ISGRP = true /\ g_chans r !! Z.to_nat i = Some (Some c);
  mb_head : exists h, head s c = Some h /\ c_group h = Some g /\ c_index h = i /\ c_flags h &? ISGRP = false;
  mb_index : 0 <= i < 15
}.

Lemma xcp_step s g r x y n : group_at s g = Some r -> g_state r &? ISGRP = true -> (n < NLEVELS)%nat ->
  g_chans r !! Z.to_nat (Z.land x 15) = Some y ->
  xcp_round (n, Some (MGroup g), x) s =
  Ret (if 15 <=? Z.land (Z.shiftr x 4) 15 then inr y else inl (S n, y, Z.shiftr x 4)) s.
Proof.
  intros Hr Hst Hn Hy. unfold xcp_round. rewrite (proj2 (Nat.ltb_lt _ _) Hn). cbn [negb the].
  erewrite bind_ret_eq by reflexivity. cbn beta. erewrite bind_ret_eq by by apply (chas_group g r). cbn beta.
  rewrite Hst. cbn [negb]. erewrite bind_ret_eq by reflexivity. cbn beta.
  erewrite bind_ret_eq by by (eapply gchan_ok; [exact Hr| |exact Hy]; apply Z.land_nonneg; lia). done.
Qed.
Lemma xcp_chan s c h x n : head s c = Some h -> c_flags h &? ISGRP = false -> (n < NLEVELS)%nat ->
  xcp_round (n, Some c, x) s = Ret (inr (Some c)) s.
Proof.
  intros Hh Hf Hn. unfold xcp_round. rewrite (proj2 (Nat.ltb_lt _ _) Hn). cbn [negb the].
  erewrite bind_ret_eq by reflexivity. cbn beta. erewrite bind_ret_eq by by apply (chas_chan c h). cbn beta. by rewrite Hf.
Qed.

Lemma low_digit a i : 0 <= i < 16 -> Z.land (16 * a + i) 15 = i.
Proof. intros Hi. change 15 with (Z.ones 4). rewrite Z.land_ones by lia. change (2 ^ 4) with 16. Z.div_mod_to_equations. lia. Qed.
Lemma next_digit a i : 0 <= i < 16 -> Z.shiftr (16 * a + i) 4 = a.
Proof. intros Hi. rewrite Z.shiftr_div_pow2 by lia. change (2 ^ 4) with 16. Z.div_mod_to_equations. lia. Qed.

Lemma lor_digit a i : 0 <= i < 16 -> Z.lor (16 * a) i = 16 * a + i.
Proof.
  intros Hi. rewrite <- Z.add_lor_land. replace (Z.land (16 * a) i) with 0; [lia|].
  symmetry. apply Z.bits_inj'. intros k Hk. rewrite Z.land_spec, Z.bits_0.
  replace (16 * a) with (Z.shiftl a 4) by (rewrite Z.shiftl_mul_pow2; lia).
  destruct (Z.lt_ge_cases k 4).
  - by rewrite Z.shiftl_spec_low by lia.
  - replace i with (i mod 2 ^ 4) by (apply Z.mod_small; lia). by rewrite Z.mod_pow2_bits_high, andb_false_r by lia.
Qed.

Lemma cpx_top s g i c r : member s g i c -> group_at s g = Some r -> g_group r = None -> cpx (Some c) s = Ret (16 * -1 + i) s.
Proof.
  intros [(r' & Hr & Hst & _) (h & Hh & Hg & Hi & _) Hb] Hr' Hup. rewrite Hr' in Hr. injection Hr as <-.
  unfold cpx. erewrite bind_ret_eq by by apply (index_chan c h). cbn beta zeta.
  erewrite bind_ret_eq by by apply (group_chan c h). cbn beta. rewrite Hg.
  erewrite bind_ret_eq by by apply gf_ok. cbn beta. rewrite Hst. cbn [negb].
  erewrite bind_ret_eq by by apply gf_ok. cbn beta. erewrite bind_ret_eq by apply depth_ok. cbn beta.
  rewrite Hup. apply loop_done. unfold cpx_round, ret. by rewrite Hi.
Qed.
Lemma cpx_below s g i c r m rm : member s g i c -> group_at s g = Some r -> g_group r = Some m ->
  group_at s m = Some rm -> g_state rm &? ISGRP = true -> g_group rm = None -> 0 <= g_index rm < 16 ->
  cpx (Some c) s = Ret (16 * (16 * -1 + i) + g_index rm) s.
Proof.
  intros [(r' & Hr & Hst & _) (h & Hh & Hg & Hi & _) Hb] Hr' Hup Hm Hsm Htop Hx. rewrite Hr' in Hr. injection Hr as <-.
  unfold cpx. erewrite bind_ret_eq by by apply (index_chan c h). cbn beta zeta.
  erewrite bind_ret_eq by by apply (group_chan c h). cbn beta. rewrite Hg.
  erewrite bind_ret_eq by by apply gf_ok. cbn beta. rewrite Hst. cbn [negb].
  erewrite bind_ret_eq by by apply gf_ok. cbn beta. erewrite bind_ret_eq by apply depth_ok. cbn beta.
  rewrite Hup. assert (length (igroup (mx s)) <> 0%nat) as Hlen by (apply lookup_lt_Some in Hm; lia).
  destruct (length (igroup (mx s))) as [|n]; [done|].
  rewrite (loop_next _ _ _ (None, 16 * (16 * -1 + i) + g_index rm) _ s); [by apply loop_done|].
  unfold cpx_round. erewrite bind_ret_eq by by apply gf_ok. cbn beta. rewrite Hsm. cbn [negb].
  do 2 (erewrite bind_ret_eq by (by apply gf_ok); cbn beta). unfold ret. rewrite Htop. do 4 f_equal.
  rewrite Hi, (Z.shiftl_mul_pow2 _ 4) by lia. change (2 ^ 4) with 16. change (Z.shiftl (-1) 4) with (16 * -1).
  rewrite s32_id, (Z.mul_comm _ 16) by lia. by apply lor_digit.
Qed.

(** C12. The number of a channel.  In a group of its own, the number [cpx] gives
    leads [xcp] back to the channel.  In a group that is joined to another, the
    last digit of the number is that of the master in its own master, not the place of
    the group in it: [xcp] then takes whatever member the master has in that
    place, and for a channel there the number is answered by the wrong channel. *)
Theorem number_of_channel s g i c : member s g i c ->
  (forall r, group_at s g = Some r -> g_group r = None ->
     exists x, cpx (Some c) s = Ret x s /\ xcp g x s = Ret (Some c) s) /\
  (forall r m rm d h, group_at s g = Some r -> g_group r = Some m -> group_at s m = Some rm ->
     g_state rm &? ISGRP = true -> g_group rm = None -> g_index rm = 0 ->
     g_chans rm !! 0%nat = Some (Some d) -> head s d = Some h -> c_flags h &? ISGRP = false ->
     exists x, cpx (Some c) s = Ret x s /\ xcp m x s = Ret (Some d) s).
Proof.
  intros Hc. pose proof Hc as [(r0 & Hr0 & Hst & Hi) _ Hb]. split.
  - intros r Hr Hup. rewrite Hr0 in Hr. injection Hr as <-. eexists. split; [by eapply cpx_top|].
    unfold xcp. rewrite s16_id by lia. apply loop_done.
    rewrite (xcp_step s g r0 _ (Some c)); [|done|done|unfold NLEVELS; lia|by rewrite low_digit by lia].
    by rewrite next_digit by lia.
  - intros r m rm d h Hr Hup Hm Hsm Htop H0 Hd Hh Hf. eexists. split; [apply (cpx_below s g i c r m rm); try done; lia|].
    unfold xcp. rewrite s16_id by lia. rewrite H0, Z.add_0_r.
    rewrite (loop_next _ _ _ (1%nat, Some d, 16 * -1 + i) _ s); [apply loop_done, (xcp_chan s d h); [done..|unfold NLEVELS; lia]|].
    rewrite <- (Z.add_0_r (16 * (16 * -1 + i))).
    rewrite (xcp_step s m rm _ (Some d)); [|done|done|unfold NLEVELS; lia|by rewrite low_digit by lia].
    rewrite next_digit, low_digit by lia. by rewrite (proj2 (Z.leb_gt _ _)) by lia.
Qed.

(** ** The next channel with data *)

Definition bit (i : Z) : Z := nth (Z.to_nat i) cmask 0.

Lemma cmask_ok i s : 0 <= i < 16 -> cmask_at i s = Ret (bit i) s.
Proof.
  intros Hi. unfold cmask_at, bit. rewrite (proj2 (Z.ltb_ge _ _)) by lia.
  destruct (lookup_lt_is_Some_2 cmask (Z.to_nat i)) as [x Hx]; [cbn; lia|]. rewrite Hx. by rewrite (nth_lookup_Some _ _ _ _ Hx).
Qed.
Lemma bit_pow i : 0 <= i < 15 -> bit i = 2 ^ i.
Proof. intros Hi. apply Z.eqb_eq. by apply (all_below (fun i => bit i =? 2 ^ i) 15). Qed.
Lemma rot_next r : 0 <= r < 16 ->
  Z.land (s8 (r + 1)) 15 = (r + 1) mod 16 /\
  (if tst (Z.land (s8 (r + 1)) 15) then s16 (Z.shiftl (bit r) 1) else 1) = bit ((r + 1) mod 16).
Proof.
  intros Hr. rewrite <- !Z.eqb_eq. apply andb_true_iff. revert r Hr.
  by apply (all_below (fun r => (Z.land (s8 (r + 1)) 15 =? (r + 1) mod 16) &&
    ((if tst (Z.land (s8 (r + 1)) 15) then s16 (Z.shiftl (bit r) 1) else 1) =? bit ((r + 1) mod 16))) 16).
Qed.
Lemma land_bit d i : 0 <= d < 32768 -> 0 <= i < 16 -> (Z.land d (bit i) =? 0) = negb (Z.testbit d i).
Proof.
  intros Hd Hi. assert (forall k, 15 <= k -> Z.testbit d k = false) as Hhi.
  { intros k Hk. replace d with (d mod 2 ^ 15) by (apply Z.mod_small; lia). by rewrite Z.mod_pow2_bits_high by lia. }
  destruct (decide (i = 15)) as [->|Hn].
  - rewrite Hhi by lia. apply Z.eqb_eq, Z.bits_inj'. intros k Hk. rewrite Z.land_spec, Z.bits_0.
    destruct (Z.lt_ge_cases k 15); [|by rewrite Hhi by lia].
    change (bit 15) with (Z.shiftl (-1) 15). by rewrite Z.shiftl_spec_low, andb_false_r by lia.
  - rewrite bit_pow by lia. destruct (Z.testbit d i) eqn:Eb.
    + apply Z.eqb_neq. intros H%(f_equal (fun x => Z.testbit x i)). revert H. cbv beta.
      by rewrite Z.land_spec, Eb, Z.pow2_bits_true, Z.bits_0 by lia.
    + apply Z.eqb_eq, Z.bits_inj'. intros k Hk. rewrite Z.land_spec, Z.bits_0.
      destruct (decide (k = i)) as [->|]; [by rewrite Eb|]. by rewrite Z.pow2_bits_false, andb_false_r by lia.
Qed.

(** A group as [rotate] keeps it: the mask is the bit of the place. *)
Record turning (r : group) : Prop := {
  tu_rot : 0 <= g_rot r < 16; tu_mask : g_rotmask r = bit (g_rot r); tu_datq : 0 <= g_datq r < 32768
}.
(** The group turned to [j]. *)
Definition turned (r : group) (j : Z) : group := r <| g_rot := j |> <| g_rotmask := bit j |>.
(** [j] is the first marked place from where the group stands. *)
Definition first_marked (r : group) (j : Z) : Prop :=
  exists k, 0 <= k < 16 /\ j = (g_rot r + k) mod 16 /\ Z.testbit (g_datq r) j = true /\
    forall k', 0 <= k' < k -> Z.testbit (g_datq r) ((g_rot r + k') mod 16) = false.

Lemma first_exists r : turning r -> g_datq r <> 0 -> exists j, first_marked r j.
Proof.
  intros [Hr _ Hd] H0.
  destruct (list_find (fun k => Z.testbit (g_datq r) ((g_rot r + k) mod 16) = true) (seqZ 0 16)) as [[n k]|] eqn:E.
  - apply list_find_Some in E as (Hk & Hb & Hbefore). apply lookup_seqZ in Hk as [-> Hn].
    exists ((g_rot r + (0 + Z.of_nat n)) mod 16), (0 + Z.of_nat n). split_and!; try lia; try done. intros k' Hk'.
    apply not_true_is_false. eapply (Hbefore (Z.to_nat k') k'); [apply lookup_seqZ; lia|lia].
  - exfalso. apply H0. apply (bits_zero 16); [lia..|]. intros i Hi. apply not_true_is_false. intros Hb.
    apply list_find_None in E. rewrite Forall_forall in E. apply (E ((i - g_rot r) mod 16)).
    + apply elem_of_seqZ. pose proof (Z.mod_pos_bound (i - g_rot r) 16). lia.
    + rewrite Zplus_mod_idemp_r. replace (g_rot r + (i - g_rot r)) with i by lia. by rewrite Z.mod_small by lia.
Qed.

Lemma turn_ok r s g : group_at s g = Some r -> turning r -> Z.testbit (g_datq r) (g_rot r) = false ->
  turn g s = Ret (inl tt) (setgroup g (turned r ((g_rot r + 1) mod 16)) s).
Proof.
  intros Hr [Hrot Hm Hd] Hb. unfold turn. do 2 (erewrite bind_ret_eq by (by apply gf_ok); cbn beta).
  rewrite Hm, land_bit, Hb by lia. cbn [negb]. erewrite bind_ret_eq by (by apply gf_ok). cbn beta zeta.
  destruct (rot_next (g_rot r) Hrot) as [H1 H2].
  erewrite bind_ret_eq by (by apply gset_ok). cbn beta.
  assert (forall r', group_at (setgroup g r' s) g = Some r') as Hs by (intros; by eapply group_at_set).
  erewrite bind_ret_eq.
  2: { instantiate (1 := setgroup g (turned r ((g_rot r + 1) mod 16)) s). instantiate (1 := tt). unfold turned. rewrite <- H2, <- H1.
    destruct (tst _).
    - erewrite bind_ret_eq by (by apply gf_ok). cbn beta. erewrite gset_ok by done. rewrite setgroup_twice. cbn. by rewrite Hm.
    - erewrite gset_ok by done. by rewrite setgroup_twice. }
  done.
Qed.
Lemma turn_done r s g : group_at s g = Some r -> turning r -> Z.testbit (g_datq r) (g_rot r) = true ->
  turn g s = Ret (inr tt) s.
Proof.
  intros Hr [Hrot Hm Hd] Hb. unfold turn. do 2 (erewrite bind_ret_eq by (by apply gf_ok); cbn beta).
  by rewrite Hm, land_bit, Hb by lia.
Qed.
Lemma turning_turned r j : turning r -> 0 <= j < 16 -> turning (turned r j).
Proof. intros [_ _ Hd] Hj. by split. Qed.
Lemma rotate_ok r s g j : group_at s g = Some r -> turning r -> first_marked r j ->
  rotate g s = Ret tt (setgroup g (turned r j) s).
Proof.
  intros Hr Ht (k & Hk & -> & Hb & Hbefore). unfold rotate.
  assert (forall n k r s, (k < n)%nat -> group_at s g = Some r -> turning r ->
    Z.testbit (g_datq r) ((g_rot r + Z.of_nat k) mod 16) = true ->
    (forall k', 0 <= k' < Z.of_nat k -> Z.testbit (g_datq r) ((g_rot r + k') mod 16) = false) ->
    loop n (fun _ : unit => turn g) tt s = Ret tt (setgroup g (turned r ((g_rot r + Z.of_nat k) mod 16)) s)) as H.
  { clear. intros n. induction n as [|n IH]; intros k r s Hkn Hr Ht Hb Hbefore; [lia|]. pose proof (tu_rot r Ht) as Hrot.
    destruct k as [|k].
    - rewrite Z.add_0_r, Z.mod_small in Hb |- * by lia. rewrite (loop_done _ _ _ tt s s).
      + f_equal. symmetry. apply setgroup_same. rewrite Hr. f_equal. destruct r, Ht. unfold turned. cbn in *. by f_equal.
      + by eapply turn_done.
    - pose proof (Z.mod_pos_bound (g_rot r + 1) 16). rewrite (loop_next _ _ _ tt s (setgroup g (turned r ((g_rot r + 1) mod 16)) s)).
      + assert (forall x, ((g_rot r + 1) mod 16 + x) mod 16 = (g_rot r + (x + 1)) mod 16) as Hx.
        { intros x. rewrite Zplus_mod_idemp_l. f_equal. lia. }
        rewrite (IH k (turned r ((g_rot r + 1) mod 16))).
        * rewrite setgroup_twice. unfold turned at 2. cbn [g_rot]. rewrite Hx. do 4 f_equal. lia.
        * lia.
        * by eapply group_at_set.
        * apply turning_turned; [done|lia].
        * cbn. rewrite Hx. rewrite <- Hb. do 2 f_equal. lia.
        * intros k' Hk'. cbn. rewrite Hx. apply Hbefore. lia.
      + apply turn_ok; [done..|]. specialize (Hbefore 0). rewrite Z.add_0_r, Z.mod_small in Hbefore by lia. apply Hbefore. lia. }
  rewrite (H 17%nat (Z.to_nat k) r s); rewrite ?Z2Nat.id by lia; try done; lia.
Qed.

(** A group that is nobody's member, between two searches: every marked place
    holds a channel. *)
Record mux (s : mxw) (g : nat) (r : group) : Prop := {
  mu_at : group_at s g = Some r; mu_state : g_state r &? ISGRP = true; mu_top : g_group r = None;
  mu_turning : turning r;
  mu_marked : forall i, 0 <= i < 16 -> Z.testbit (g_datq r) i = true -> exists c, member s g i c
}.

Lemma bit_clear d j : 0 <= d < 32768 -> 0 <= j < 16 ->
  0 <= s16 (clr d (bit j)) < 32768 /\
  forall i, 0 <= i < 16 -> Z.testbit (s16 (clr d (bit j))) i = Z.testbit d i && negb (i =? j).
Proof.
  intros Hd Hj.
  assert (forall i, 0 <= i -> Z.testbit (clr d (bit j)) i = Z.testbit d i && negb (Z.testbit (bit j) i)) as Hb.
  { intros i Hi. unfold clr. by rewrite Z.land_spec, Z.lnot_spec by lia. }
  assert (0 <= clr d (bit j)) by (apply Z.land_nonneg; lia).
  assert (clr d (bit j) <= d).
  { unfold clr. rewrite <- Z.ldiff_land. apply Z.ldiff_le; [lia|]. apply Z.bits_inj'. intros k Hk.
    rewrite !Z.ldiff_spec, Z.bits_0. by destruct (Z.testbit d k), (Z.testbit (bit j) k). }
  rewrite s16_id by lia. split; [lia|].
  intros i Hi. rewrite Hb by lia. f_equal. destruct (decide (j = 15)) as [->|Hn].
  - assert (Z.testbit (bit 15) i = (i =? 15)) as ->; [|done]. apply Bool.eqb_prop. by apply (all_below (fun i => Bool.eqb (Z.testbit (bit 15) i) (i =? 15)) 16).
  - rewrite bit_pow by lia. destruct (Z.eqb_spec i j) as [->|]; [by rewrite Z.pow2_bits_true by lia|].
    by rewrite Z.pow2_bits_false by lia.
Qed.

Lemma rmdata_top s g r j c : group_at s g = Some r -> g_group r = None -> member s g j c ->
  rmdata c s = Ret tt (setgroup g (r <| g_datq := s16 (clr (g_datq r) (bit j)) |>) s).
Proof.
  intros Hr Hup [_ (h & Hh & Hg & Hi & _) Hj]. unfold rmdata.
  erewrite bind_ret_eq by by apply (group_chan c h). cbn beta. erewrite bind_ret_eq by by apply (index_chan c h). cbn beta.
  erewrite bind_ret_eq by apply depth_ok. cbn beta. rewrite Hg, Hi.
  assert (length (igroup (mx s)) <> 0%nat) as Hlen by (apply lookup_lt_Some in Hr; lia).
  destruct (length (igroup (mx s))) as [|n]; [done|].
  set (d := s16 (clr (g_datq r) (bit j))). set (s' := setgroup g (r <| g_datq := d |>) s).
  assert (group_at s' g = Some (r <| g_datq := d |>)) as Hs' by by eapply group_at_set.
  assert (rmdata_round (Some g, j) s = Ret (if tst d then inr tt else inl (None, g_index r)) s') as E.
  { unfold rmdata_round. erewrite bind_ret_eq by (apply cmask_ok; lia). cbn beta.
    erewrite bind_ret_eq by by apply gf_ok. cbn beta zeta. erewrite bind_ret_eq by by apply gset_ok. cbn beta.
    fold d. fold s'. destruct (tst d); [done|].
    erewrite bind_ret_eq by (by apply gf_ok). cbn beta. erewrite bind_ret_eq by (by apply gf_ok). cbn beta.
    unfold ret. cbn. by rewrite Hup. }
  destruct (tst d); [by apply loop_done|]. rewrite (loop_next _ _ _ _ _ _ E). by apply loop_done.
Qed.

(** C13. The next channel of a group with data is the first marked place from
    where the search last stopped, round the sixteen places: it is found, its mark
    alone is taken off, and the search stops there, where it starts again the next
    time. *)
Theorem nextcp_correct s g r : mux s g r -> g_datq r <> 0 ->
  exists j c d, first_marked r j /\ member s g j c /\
    nextcp g s = Ret (Some c) (setgroup g ((turned r j) <| g_datq := d |>) s) /\
    (forall i, 0 <= i < 16 -> Z.testbit d i = Z.testbit (g_datq r) i && negb (i =? j)) /\
    mux (setgroup g ((turned r j) <| g_datq := d |>) s) g ((turned r j) <| g_datq := d |>).
Proof.
  intros [Hr Hst Hup Ht Hmk] H0. destruct (first_exists r Ht H0) as [j Hj].
  pose proof Hj as (k & Hk & Hjk & Hb & _). assert (0 <= j < 16) as Hj16 by (subst j; apply Z.mod_pos_bound; lia).
  destruct (Hmk j Hj16 Hb) as [c Hc]. set (d := s16 (clr (g_datq r) (bit j))).
  destruct (bit_clear (g_datq r) j) as [Hd Hbits]; [apply Ht|done|].
  exists j, c, d. split; [done|]. split; [done|].
  set (s1 := setgroup g (turned r j) s).
  assert (group_at s1 g = Some (turned r j)) as Hr1 by by eapply group_at_set.
  assert (forall r', g_state r' &? ISGRP = true -> g_chans r' = g_chans r -> forall i c, member s g i c -> member (setgroup g r' s) g i c) as Hkeep.
  { intros r' Hs' Hc' i c' [(r0 & Hr0 & _ & Hi0) (h & Hh & Hrest) Hb']. split; [|exists h; by rewrite head_set|done].
    rewrite Hr in Hr0. injection Hr0 as <-. exists r'. split; [by eapply group_at_set|]. by rewrite Hc'. }
  assert (member s1 g j c) as Hc1 by by apply Hkeep.
  split; [|split].
  - unfold nextcp. erewrite bind_ret_eq by by apply gf_ok. cbn beta. rewrite (proj2 (Z.eqb_neq _ _) H0).
    erewrite bind_ret_eq by apply depth_ok. cbn beta.
    destruct Hc1 as [(r1 & Hr1' & Hst1 & Hi1) (h & Hh & Hg & Hix & Hf) Hj15] eqn:Ec. clear Ec. rewrite Hr1 in Hr1'. injection Hr1' as <-.
    assert (nextcp_round (Some (MGroup g)) s = Ret (inl (Some c)) s1) as E1.
    { unfold nextcp_round. erewrite bind_ret_eq by by apply (chas_group g r). cbn beta. rewrite Hst. cbn [negb].
      erewrite bind_ret_eq by reflexivity. cbn beta. erewrite bind_ret_eq by by apply (rotate_ok r s g j). cbn beta.
      erewrite bind_ret_eq by (by apply gf_ok). cbn beta.
      erewrite bind_ret_eq by (by eapply gchan_ok; [exact Hr1|cbn; lia|exact Hi1]). done. }
    assert (nextcp_round (Some c) s1 = Ret (inr (Some c)) s1) as E2.
    { unfold nextcp_round. erewrite bind_ret_eq by by apply (chas_chan c h). cbn beta. by rewrite Hf. }
    erewrite bind_ret_eq by (rewrite (loop_next _ _ _ _ _ _ E1); by apply loop_done). cbn beta.
    erewrite bind_ret_eq by by apply (rmdata_top s1 g (turned r j) j c). cbn beta.
    unfold s1. by rewrite setgroup_twice.
  - exact Hbits.
  - split; [by eapply group_at_set|done|done| |].
    + by split.
    + intros i Hi Hbi. cbn in Hbi. rewrite Hbits in Hbi by done. apply andb_true_iff in Hbi as [Hbi _].
      destruct (Hmk i Hi Hbi) as [c' Hc']. exists c'. by apply Hkeep.
Qed.

(** ** A channel that is freed with data *)

(** The next marked place of the group is empty, and the reader asks for enough. *)
Definition stuck (g : nat) (s : mxw) : Prop :=
  exists r j, group_at s g = Some r /\ g_state r &? ISGRP = true /\ turning r /\ first_marked r j /\
    g_chans r !! Z.to_nat j = Some None /\ 12 <= u_count (u (mw s)).

Lemma marked_nonzero r j : first_marked r j -> 0 <= j < 16 /\ g_datq r <> 0.
Proof.
  intros (k & Hk & Hjk & Hb & _). split; [subst j; apply Z.mod_pos_bound; lia|]. intros H0. by rewrite H0, Z.bits_0 in Hb.
Qed.
Lemma stuck_here r j : turning r -> first_marked r j -> first_marked (turned r j) j.
Proof.
  intros Ht Hj. destruct (marked_nonzero r j Hj) as [Hj16 _]. destruct Hj as (k & _ & _ & Hb & _).
  exists 0. cbn. rewrite Z.add_0_r, Z.mod_small by lia. split_and!; try done; try lia.
Qed.
Lemma nextcp_stuck g s : stuck g s -> exists s', nextcp g s = Ret None s' /\ stuck g s' /\ mw s' = mw s.
Proof.
  intros (r & j & Hr & Hst & Ht & Hj & Hn & Hc). destruct (marked_nonzero r j Hj) as [Hj16 H0].
  assert (group_at (setgroup g (turned r j) s) g = Some (turned r j)) as Hr1 by by eapply group_at_set.
  exists (setgroup g (turned r j) s). split; [|split; [|done]].
  - unfold nextcp. erewrite bind_ret_eq by by apply gf_ok. cbn beta. rewrite (proj2 (Z.eqb_neq _ _) H0).
    erewrite bind_ret_eq by apply depth_ok. cbn beta.
    assert (nextcp_round (Some (MGroup g)) s = Ret (inl None) (setgroup g (turned r j) s)) as E1.
    { unfold nextcp_round. erewrite bind_ret_eq by by apply (chas_group g r). cbn beta. rewrite Hst. cbn [negb].
      erewrite bind_ret_eq by reflexivity. cbn beta. erewrite bind_ret_eq by by apply (rotate_ok r s g j). cbn beta.
      erewrite bind_ret_eq by (by apply gf_ok). cbn beta.
      erewrite bind_ret_eq by (by eapply gchan_ok; [exact Hr1|cbn; lia|exact Hn]). done. }
    erewrite bind_ret_eq by (rewrite (loop_next _ _ _ _ _ _ E1); by apply loop_done). done.
  - exists (turned r j), j. split_and!; [done|done|by apply turning_turned|by apply stuck_here|done|done].
Qed.

Context (line_read : Z -> nat -> KM Z) (line_is_mx : list bool) (junk : nat -> list Z).
Abbreviation round := (mxread_round at_ line_read line_is_mx junk).

Lemma round_stuck g l s : stuck g s -> exists s', round g l s = Ret (inl l) s' /\ stuck g s'.
Proof.
  intros Hs. pose proof Hs as (r & j & Hr & _ & _ & Hj & _ & Hc). destruct (marked_nonzero r j Hj) as [_ H0].
  unfold mxread_round. erewrite bind_ret_eq by by apply gf_ok. cbn beta.
  erewrite bind_ret_eq by reflexivity. cbn beta. rewrite (proj2 (Z.eqb_neq _ _) H0). cbn [orb].
  rewrite (proj2 (Z.ltb_ge _ _)) by (unfold CNTLSIZ; lia).
  erewrite bind_ret_eq by reflexivity. cbn beta.
  set (s1 := _ : mxw). destruct (nextcp_stuck g s1) as (s' & E & Hs' & _).
  { destruct Hs as (r' & j' & H). by exists r', j'. }
  exists s'. by erewrite bind_ret_eq by exact E.
Qed.

Lemma sset_ok {T} (f : schan -> T) {S : Setter f} v c h s : head s c = Some h ->
  exists s', sset c f v s = Ret tt s' /\ igroup (mx s') = igroup (mx s) /\ mw s' = mw s.
Proof.
  destruct c as [i|i|]; cbn [head]; [| |done].
  - intros (r & Hr & _)%fmap_Some. eexists. split; [|split]; cycle 1.
    3: { unfold sset, xput. erewrite bind_ret_eq by by apply xtab_ok. cbn beta.
         erewrite bind_ret_eq by by apply xtab_ok. done. }
    all: done.
  - intros H. eexists. split; [|split]; cycle 1.
    3: { unfold sset, xput. erewrite bind_ret_eq by by apply xtab_ok. cbn beta.
         erewrite bind_ret_eq by by apply xtab_ok. done. }
    all: done.
Qed.

(** C14. A channel that is freed while its place is marked leaves the mark: once
    the search comes to the place it finds nothing there, nothing is taken off and
    the loop of [mxread] goes round for ever. *)
Theorem freed_channel_hangs s g i c r : member s g i c -> group_at s g = Some r -> turning r -> first_marked r i ->
  12 <= u_count (u (mw s)) ->
  exists s1, chfree c s = Ret tt s1 /\ forall n l, loop n (round g) l s1 = NoFuel.
Proof.
  intros [(r0 & Hr0 & Hst & Hi) (h & Hh & Hg & Hx & _) Hb] Hr Ht Hf Hc. rewrite Hr0 in Hr. injection Hr as ->.
  set (r1 := r <| g_chans := <[Z.to_nat i := None]> (g_chans r) |>).
  destruct (sset_ok c_group None c h (setgroup g r1 s)) as (s1 & E1 & Hg1 & Hw1); [by rewrite head_set|].
  exists s1. split.
  - unfold chfree. erewrite bind_ret_eq by by apply (sf_ok c c_group h). cbn beta. rewrite Hg.
    erewrite bind_ret_eq by by apply (sf_ok c c_index h). cbn beta. rewrite Hx.
    erewrite bind_ret_eq by (by eapply gchan_ok; [exact Hr0|lia|exact Hi]). cbn beta.
    rewrite bool_decide_eq_true_2 by done. cbn [when].
    erewrite bind_ret_eq; [exact E1|]. unfold gchan_set. erewrite bind_ret_eq by (by eapply gchan_ok; [exact Hr0|lia|exact Hi]).
    cbn beta. erewrite bind_ret_eq by by apply gf_ok. cbn beta. by apply gset_ok.
  - assert (stuck g s1) as Hs.
    { exists r1, i. unfold group_at. rewrite Hg1, Hw1. split_and!; [by eapply group_at_set|done| |done| |done].
      - by destruct Ht.
      - cbn. apply list_lookup_insert_eq. by eapply lookup_lt_Some. }
    clear -Hs. intros n. revert s1 Hs. induction n as [|n IH]; intros s1 Hs l; [done|].
    destruct (round_stuck g l s1 Hs) as (s2 & E & Hs2). rewrite (loop_next _ _ _ _ _ _ E). by apply IH.
Qed.
End Steps.

(** ** A group joined to another, with a channel in each *)

Definition channel (i : Z) (g : nat) : mchan := mchan0 <| c_head := schan0 <| c_flags := XGRP |> <| c_index := i |> <| c_group := Some g |> |>.
Definition master : group :=
  group0 <| g_state := INUSE + ISGRP |> <| g_inode := Some 0%nat |> <| g_rot := 2 |> <| g_rotmask := 4 |> <| g_datq := 1 |>
    <| g_chans := [Some (MChan 1); None; Some (MGroup 1)] ++ replicate 12 None |>.
Definition joined : group :=
  group0 <| g_state := INUSE + ISGRP |> <| g_index := 2 |> <| g_group := Some 0%nat |> <| g_inode := Some 1%nat |> <| g_rotmask := 1 |>
    <| g_chans := [None; None; None; Some (MChan 0)] ++ replicate 11 None |>.
Definition two_groups : mxw :=
  mkmxw (world0 <| u ::= fun r => r <| u_count := 100 |> |>)
    (mkmxstate [channel 3 1; channel 0 0] [] (GAt 0 :: GAt 1 :: replicate 8 GNull) 1 0 [] [] 0 [master; joined] [] []) [].

Lemma member_top : member two_groups 0 0 (MChan 1).
Proof. split; [by eexists|by eexists|lia]. Qed.
Lemma member_below : member two_groups 1 3 (MChan 0).
Proof. split; [by eexists|by eexists|lia]. Qed.

Lemma number_of_channel_witness :
  (exists x, cpx (Some (MChan 1)) two_groups = Ret x two_groups /\ xcp 0 x two_groups = Ret (Some (MChan 1)) two_groups) /\
  (exists x, cpx (Some (MChan 0)) two_groups = Ret x two_groups /\ xcp 0 x two_groups = Ret (Some (MChan 1)) two_groups).
Proof.
  split.
  - by apply (proj1 (number_of_channel two_groups 0 0 (MChan 1) member_top) master).
  - by eapply (proj2 (number_of_channel two_groups 1 3 (MChan 0) member_below) joined 0%nat master (MChan 1)).
Defined.

Lemma turning_master : turning master.
Proof. split; [cbn; lia|done|cbn; lia]. Qed.
Lemma nextcp_correct_witness :
  exists j c d, first_marked master j /\ member two_groups 0 j c /\
    nextcp 0 two_groups = Ret (Some c) (setgroup 0 ((turned master j) <| g_datq := d |>) two_groups) /\
    (forall i, 0 <= i < 16 -> Z.testbit d i = Z.testbit 1 i && negb (i =? j)) /\
    mux (setgroup 0 ((turned master j) <| g_datq := d |>) two_groups) 0 ((turned master j) <| g_datq := d |>).
Proof.
  apply (nextcp_correct two_groups 0 master); [|done]. split; [done..|exact turning_master|].
  intros i Hi Hb. destruct (decide (i = 0)) as [->|Hn]; [exists (MChan 1); exact member_top|].
  exfalso. change (g_datq master) with (2 ^ 0) in Hb. by rewrite Z.pow2_bits_false in Hb by lia.
Defined.

Lemma freed_channel_hangs_witness : exists s1, chfree (MChan 1) two_groups = Ret tt s1 /\
  forall n l, loop n (@mxread_round machine0 (fun _ => 0) (fun _ _ => ret 0) [] (fun _ => []) 0) l s1 = NoFuel.
Proof.
  apply (@freed_channel_hangs machine0 (fun _ => 0) (fun _ _ => ret 0) [] (fun _ => []) two_groups 0 0 (MChan 1) master).
  - exact member_top.
  - done.
  - exact turning_master.
  - exists 14. split_and!; try done; try lia. intros k Hk.
    assert (Z.testbit 1 ((2 + k) mod 16) = false) as Hb; [|exact Hb].
    change 1 with (2 ^ 0). apply Z.pow2_bits_false. Z.div_mod_to_equations. lia.
  - cbn. lia.
Defined.
