(* ===== verification/Sr.v ===== *)
(** * Sr: serial lines ([dev/sr.c])

    Two 8250 UARTs under the terminal driver; [t_addr], the port of a line,
    is kept beside the table of terminals. *)

From S2P Require Import Prelude Callout Bytes Clist State Sched Ports Tty.

Definition NSR : Z := 2.
Definition SSPEED : Z := 13.
Definition RBR : Z := 0.
Definition THR : Z := 0.
Definition IER : Z := 1.
Definition IIR : Z := 2.
Definition LCR : Z := 3.
Definition MCR : Z := 4.
Definition LSR : Z := 5.
Definition DLL : Z := 0.
Definition DLM : Z := 1.
Definition DATA7 : Z := 2.
Definition DATA8 : Z := 3.
Definition STOP1 : Z := 0.
Definition PARTN : Z := 0.
Definition PARTO : Z := 8.
Definition PARTE : Z := 24.
Definition DLAB : Z := 128.
Definition DR : Z := 1.
Definition THRE : Z := 32.
Definition ODDP : Z := 64.
Definition EVENP : Z := 128.

(** The divisors of the speeds. *)
Definition srstab : list Z := [0; 2304; 1536; 1047; 857; 768; 576; 384; 192; 96; 64; 48; 24; 12; 6; 3].

Section Sr.
Context {MC : Machine} {D : Type} {PD : Ports D}.
(** The first of the lines' terminals, the number of [ttrstrt], and a bound
    on the characters an interrupt finds. *)
Context (sr ttrstrt_fn chars : nat).
Abbreviation SRM := (M (drv (list Z) D)).

Definition port_of (d : nat) : SRM Z := l <- gets ds ;; the (l !! d).
Definition tp_of (d : nat) : nat := (sr + d)%nat.

(** The line's speed and its characters' size and parity, from the
    terminal's modes. *)
Definition line_mode (fl : Z) : Z * Z :=
  if fl &? RAW then (DATA8, PARTN)
  else (DATA7, if fl &? EVENP then PARTE else if fl &? ODDP then PARTO else PARTN).

Definition srparam (d : nat) : SRM unit :=
  sp <- in_kernel (tf (tp_of d) t_ispeed) ;;
  v <- the (if sp <? 0 then None else srstab !! Z.to_nat sp) ;;
  if v =? 0 then ret tt
  else
    fl <- in_kernel (tf (tp_of d) t_flags) ;;
    let '(data, par) := line_mode fl in
    port <- port_of d ;;
    in_device
      (outb (port + IER) 0 ;;;
       outb (port + LCR) DLAB ;;;
       outb (port + DLL) v ;;;
       outb (port + DLM) (Z.shiftr v 8) ;;;
       outb (port + LCR) (Z.lor (Z.lor data par) STOP1) ;;;
       outb (port + IIR) 129 ;;;
       inb (port + LSR) ;;;
       inb (port + RBR) ;;;
       outb (port + IER) 3).

Definition sropen (dev flag : Z) : SRM unit :=
  let d := minor dev in
  if NSR <=? d then in_kernel (set_error ENXIO)
  else
    let d := Z.to_nat d in
    port_of d ;;;
    modify (fun r => r <| ds ::= <[d := if Nat.eqb d 0 then 1016 else 760]> |>) ;;;
    open <- in_kernel (thas (tp_of d) ISOPEN) ;;
    when (negb open)
      (in_kernel
         (tset (tp_of d) t_state CARR_ON ;;;
          tset (tp_of d) t_ispeed SSPEED ;;;
          tset (tp_of d) t_ospeed SSPEED ;;;
          tset (tp_of d) t_flags (Z.lor (Z.lor (Z.lor RAW ODDP) EVENP) ECHO)) ;;;
       srparam d ;;;
       port <- port_of d ;;
       x <- in_device (inb (port + MCR)) ;; in_device (outb (port + MCR) (Z.lor x 8)) ;;;
       in_kernel (ttychars (tp_of d))) ;;;
    in_kernel (ttyopen dev (tp_of d)).

Definition line_of (dev : Z) : nat := tp_of (Z.to_nat (minor dev)).
Definition srclose (dev flag : Z) : SRM unit := in_kernel (ttyclose (line_of dev)).
Definition srread (dev : Z) : SRM unit := in_kernel (ttread (line_of dev) ;;; ret tt).
Definition srwrite (dev : Z) : SRM unit := in_kernel (ttwrite (line_of dev) ;;; ret tt).

(** [do { ttyinput(c) } while (data ready)]: the last line status. *)
Definition sr_receive (port : Z) (tp : nat) : SRM Z :=
  loop chars (fun _ : unit =>
    c <- in_device (inb (port + RBR)) ;;
    in_kernel (ttyinput c tp) ;;;
    st <- in_device (inb (port + LSR)) ;;
    ret (if st &? DR then inl tt else inr st)) tt.

Definition srintr (dev : Z) : SRM unit :=
  let d := Z.to_nat (Z.land dev 1) in
  port <- port_of d ;;
  x <- in_device (inb (port + IIR)) ;;
  let x := Z.land x 7 in
  sent <- (if x =? 4 then st <- sr_receive port (tp_of d) ;; ret (st &? THRE) else ret (x =? 2)) ;;
  when sent (in_kernel (tclr (tp_of d) BUSY ;;; ttstart (tp_of d))).

Definition srioctl (dev cmd addr flag : Z) : SRM unit :=
  let d := Z.to_nat (minor dev) in
  r <- in_kernel (ttioccomm cmd (tp_of d) addr dev) ;;
  if tst r then when ((cmd =? TIOCSETP) || (cmd =? TIOCSETN)) (srparam d)
  else in_kernel (set_error ENOTTY).

(** The next character: one above 0177 is a delay, in a line that is not
    raw. *)
Definition srstart (d : nat) : SRM unit :=
  let tp := tp_of d in
  busy <- in_kernel (thas tp (Z.lor (Z.lor TIMEOUT BUSY) TTSTOP)) ;;
  if busy : bool then ret tt
  else
    c <- in_kernel (onq tp t_outq getc) ;;
    when (0 <=? c)
      (fl <- in_kernel (tf tp t_flags) ;;
       (if (128 <=? c) && negb (fl &? RAW) then
          in_kernel (tor tp TIMEOUT ;;; timeout ttrstrt_fn (Z.of_nat tp) (Z.land c 127 + 6))
        else
          in_kernel (tset tp t_char (s8 c) ;;; tor tp BUSY) ;;;
          port <- port_of d ;;
          ok <- tries 8192 (x <- in_device (inb (port + LSR)) ;; ret (x &? THRE)) ;;
          when (negb ok) (in_kernel (printf "timeout in srstart")) ;;;
          in_device (outb (port + THR) c)) ;;;
       in_kernel
         (n <- qcount tp t_outq ;; asleep <- thas tp ASLEEP ;;
          when ((n <=? TTLOWAT) && asleep) (tclr tp ASLEEP ;;; wakeup (COutq tp)))).

End Sr.
