(* ===== verification/Screen.v ===== *)
(** * Screen: the console ([dev/sc.c])

    A terminal emulator over the adapter's 25 rows of 80 cells, each a
    character with its attribute, and the keyboard's scan codes.  The ports
    are parameters; the screen memory is a list, and touching a cell outside
    it is a fault. *)

From S2P Require Import Prelude Callout Bytes State Sched Clist Tty.

Definition ROWS : Z := 25.
Definition COLS : Z := 80.
Definition TAB : Z := 8.
Definition CHRS : Z := ROWS * COLS.
Definition LROW : Z := CHRS - COLS.
Definition LTAB : Z := COLS - TAB.
Definition SCRPRT : Z := 980.          (* 0x3d4 *)

(** [attr[vm]]: normal, high, reverse low and reverse high. *)
Definition attr : list Z := [1792; 3840; 28672; 61440].
Definition VMSO : Z := 1.
Definition VMUS : Z := 2.

(** The alternate character set. *)
Definition acs : list Z :=
  [0; 1; 2; 3; 4; 5; 6; 7; 8; 9; 10; 11; 12; 13; 14; 15;
   16; 17; 18; 19; 218; 196; 191; 179; 217; 192; 26; 27; 28; 29; 30; 31].

(** The statics of [scputc], with [curs], [va] and the memory at [scr]. *)
Record screen := mkscreen {
  scr : list Z; pos : Z; va : Z; vm : Z; sm : Z; p0 : Z; st : Z; curs : Z
}.
#[export] Instance eta_screen : Eta screen := fun r =>
  mkscreen (scr r) (pos r) (va r) (vm r) (sm r) (p0 r) (st r) (curs r).
Abbreviation SM := (M screen).

Definition sf {A} (f : screen -> A) : SM A := gets f.
Definition sset {T} (f : screen -> T) {S : Setter f} (v : T) : SM unit := modify (setf f (fun _ => v)).

(** [scr[i]], and an assignment to it. *)
Definition cell (i : Z) : SM Z := if i <? 0 then fault else l <- sf scr ;; the (l !! Z.to_nat i).
Definition set_cell (i v : Z) : SM unit :=
  cell i ;;; modify (fun s => s <| scr ::= <[Z.to_nat i := s16 v]> |>).

(** [scmov(s, d, n)]: from the end when the destination is above. *)
Definition scmov (s d n : Z) : SM unit :=
  for_ (if s <? d then rev (seqZ 0 n) else seqZ 0 n) (fun k => c <- cell (s + k) ;; set_cell (d + k) c).
Definition scset (p c n : Z) : SM unit := for_ (seqZ 0 n) (fun k => set_cell (p + k) c).
(** [va|c]; [clear(p, n)] *)
Definition shown (c : Z) : SM Z := a <- sf va ;; ret (Z.lor a c).
Definition clear (p n : Z) : SM unit := c <- shown 32 ;; scset p c n.

(** The counts of the two are not negative where the cursor is on the screen;
    a negative one would run through all of memory. *)
Definition vscroll (pos rev : Z) : SM unit :=
  let n := CHRS - pos - COLS in
  if n <? 0 then fault
  else
    when (tst n) (if tst rev then scmov pos (pos + COLS) n else scmov (pos + COLS) pos n) ;;;
    clear (if tst rev then pos else LROW) COLS.

Definition hscroll (pos col ins : Z) : SM unit :=
  let n := COLS - col - 1 in
  if n <? 0 then fault
  else
    when (tst n) (if tst ins then scmov pos (pos + 1) n else scmov (pos + 1) pos n) ;;;
    c <- shown 32 ;; set_cell (if tst ins then pos else pos + n) c.

(** [scr[pos++] = va|c] *)
Definition put_char (c : Z) : SM unit :=
  x <- shown c ;; p <- sf pos ;; set_cell p x ;;; sset pos (p + 1).

(** What a character outside an escape sequence does; [false] to return at
    once, leaving the cursor as it is.  The bell is [scputc]'s. *)
Definition plain_char (ch col : Z) : SM bool :=
  p <- sf pos ;;
  if (ch =? 0) || (ch =? 7) then ret false
  else if ch =? 8 then
    when (0 <? p) (sset pos (p - 1) ;;; x <- shown 32 ;; set_cell (p - 1) x) ;;; ret true
  else if ch =? 9 then
    when (p <? LTAB) (for_ (seqZ 0 (TAB - Z.land col (TAB - 1))) (fun _ => put_char 32)) ;;; ret true
  else if ch =? 10 then
    c <- sf curs ;; sset pos (if tst c then p + COLS else p + COLS - col) ;;; ret true
  else if ch =? 11 then ret false
  else if ch =? 12 then sset pos 0 ;;; clear 0 CHRS ;;; ret true
  else if ch =? 13 then sset pos (p - col) ;;; ret true
  else if ch =? 27 then sset st 1 ;;; ret false
  else
    c <- (if (20 <=? ch) && (ch <=? 25) then the (acs !! Z.to_nat ch) else ret ch) ;;
    put_char c ;;; ret true.

(** The character after an escape, [@] to [Z]; [false] to return at once. *)
Definition escape_edit (ch col : Z) : SM unit :=
  p <- sf pos ;;
  if ch =? 64 then sset p0 0 ;;; sset vm 0 ;;; sset sm 0 ;;; sset curs 0
  else if ch =? 65 then when (COLS <=? p) (sset pos (p - COLS))
  else if ch =? 66 then sset pos (p + COLS)
  else if ch =? 67 then sset pos (p + 1)
  else if ch =? 68 then when (0 <? col) (sset pos (p - 1))
  else if ch =? 69 then sset pos 0 ;;; clear 0 CHRS
  else if ch =? 72 then sset pos 0
  else if ch =? 73 then when (0 <? col) (sset pos (clr (p - 1) (TAB - 1)))
  else if ch =? 74 then clear p (CHRS - p)
  else if ch =? 75 then clear p (COLS - col)
  else if ch =? 76 then vscroll (p - col) 1
  else if ch =? 77 then vscroll (p - col) 0
  else if ch =? 78 then hscroll p col 0
  else if ch =? 79 then hscroll p col 1
  else if ch =? 80 then vscroll 0 0
  else if ch =? 81 then vscroll 0 1
  else if ch =? 83 then v <- sf vm ;; sset vm (Z.lor v VMSO)
  else if ch =? 84 then v <- sf vm ;; sset vm (clr v VMSO)
  else if ch =? 85 then v <- sf vm ;; sset vm (Z.lor v VMUS)
  else if ch =? 86 then v <- sf vm ;; sset vm (clr v VMUS)
  else if ch =? 87 then sset curs 1
  else when (ch =? 88) (sset curs 0).

Definition escape_char (ch col : Z) : SM bool :=
  if ch =? 89 then sset st 2 ;;; ret false
  else if ch =? 90 then sset st 4 ;;; ret false
  else
    escape_edit ch col ;;;
    v <- sf vm ;; a <- the (if v <? 0 then None else attr !! Z.to_nat v) ;; sset va a ;;; ret true.

(** The rest of [scputc] but for the bell and the ports: whether the cursor
    is to be moved. *)
Definition sc_char (ch : Z) : SM bool :=
  p <- sf pos ;;
  let col := Z.rem p COLS in
  s <- sf st ;;
  moved <- (if s =? 0 then plain_char ch col
            else if s =? 1 then escape_char ch col
            else if s =? 2 then sset p0 ch ;;; sset st 3 ;;; ret false
            else if s =? 3 then
              y <- sf p0 ;;
              let y := y - 32 in let x := ch - 32 in
              sset p0 y ;;;
              when ((0 <=? y) && (y <? ROWS) && (0 <=? x) && (x <? COLS)) (sset pos (y * COLS + x)) ;;;
              ret true
            else if s =? 4 then sset sm (ch - 32) ;;; ret true
            else ret true) ;;
  when moved
    (sset st 0 ;;;
     p <- sf pos ;;
     when (CHRS <=? p) (vscroll 0 0 ;;; sset pos (p - COLS))) ;;;
  ret moved.

(** ** The memory routines *)

Definition cells (l : list Z) : Prop := length l = 2000%nat /\ Forall (fun c => -32768 <= c < 32768) l.

Lemma cell_ok s i : 0 <= i < Z.of_nat (length (scr s)) -> exists c, scr s !! Z.to_nat i = Some c /\ cell i s = Ret c s.
Proof.
  intros Hi. destruct (lookup_lt_is_Some_2 (scr s) (Z.to_nat i)) as [c Hc]; [lia|]. exists c. split; [done|].
  unfold cell. rewrite (proj2 (Z.ltb_ge _ _)) by lia. erewrite bind_ret_eq by reflexivity. cbn beta.
  unfold sf, gets. by rewrite Hc.
Qed.

Lemma set_cell_ok s i v : 0 <= i < Z.of_nat (length (scr s)) ->
  set_cell i v s = Ret tt (s <| scr ::= <[Z.to_nat i := s16 v]> |>).
Proof. intros Hi. unfold set_cell. destruct (cell_ok s i Hi) as (c & _ & E). by erewrite bind_ret_eq by exact E. Qed.

Definition with_cells (s : screen) (l : list Z) : screen := s <| scr := l |>.

Lemma put_step (s : screen) l l' i v : 0 <= i < Z.of_nat (length l) -> l' = <[Z.to_nat i := s16 v]> l ->
  set_cell i v (with_cells s l) = Ret tt (with_cells s l').
Proof. intros Hi ->. rewrite set_cell_ok by done. by destruct s. Qed.

(** Setting a run of cells, and copying one, forwards or backwards. *)
Lemma replicate_step (p k : nat) (c : Z) (l : list Z) : (p + S k <= length l)%nat ->
  splice p (replicate (S k) c) l = <[(p + k)%nat := c]> (splice p (replicate k c) l).
Proof.
  intros Hl. apply list_eq. intros i. rewrite lookup_splice by (rewrite length_replicate; lia). rewrite length_replicate.
  assert (length (splice p (replicate k c) l) = length l) as El by (apply length_splice; rewrite length_replicate; lia).
  destruct (decide (i = p + k)%nat) as [->|Hne].
  - rewrite list_lookup_insert_eq, decide_True by lia. apply lookup_replicate_2. lia.
  - rewrite list_lookup_insert_ne, lookup_splice by (rewrite ?length_replicate; lia). rewrite length_replicate.
    destruct (decide (p <= i < p + k)%nat).
    + rewrite decide_True by lia. by rewrite !lookup_replicate_2 by lia.
    + by rewrite decide_False by lia.
Qed.

Lemma scset_ok s l p c n : 0 <= p -> 0 <= n -> p + n <= Z.of_nat (length l) ->
  scset p c n (with_cells s l) = Ret tt (with_cells s (splice (Z.to_nat p) (replicate (Z.to_nat n) (s16 c)) l)).
Proof.
  intros Hp Hn Hl. unfold scset.
  rewrite <- (for_seqZ (fun k => set_cell (p + k) c) n (fun k => with_cells s (splice (Z.to_nat p) (replicate k (s16 c)) l))).
  - cbn [replicate]. unfold splice at 1. cbn. by rewrite Nat.add_0_r, take_drop.
  - done.
  - intros k Hk. apply put_step.
    + rewrite length_splice; rewrite ?length_replicate; lia.
    + rewrite replicate_step by lia. f_equal. lia.
Qed.

(** One cell more, above or below those copied. *)
Lemma copy_above (s d k : nat) (l : list Z) c : (s + S k <= length l)%nat -> (d + S k <= length l)%nat ->
  l !! (s + k)%nat = Some c -> splice d (sub s (S k) l) l = <[(d + k)%nat := c]> (splice d (sub s k l) l).
Proof.
  intros Hs Hd Hc. apply list_eq. intros i.
  assert (length (splice d (sub s k l) l) = length l) as El by (apply length_splice; rewrite length_sub; lia).
  rewrite lookup_splice by (rewrite length_sub; lia). rewrite length_sub by lia.
  destruct (decide (i = d + k)%nat) as [->|Hne].
  - rewrite list_lookup_insert_eq, decide_True, lookup_sub by lia. rewrite <- Hc. f_equal. lia.
  - rewrite list_lookup_insert_ne, lookup_splice by (rewrite ?length_sub; lia). rewrite length_sub by lia.
    destruct (decide (d <= i < d + k)%nat).
    + rewrite decide_True by lia. by rewrite !lookup_sub by lia.
    + by rewrite decide_False by lia.
Qed.
Lemma copy_below (s d k : nat) (l : list Z) c : (S s + k <= length l)%nat -> (S d + k <= length l)%nat ->
  l !! s = Some c -> splice d (sub s (S k) l) l = <[d := c]> (splice (S d) (sub (S s) k l) l).
Proof.
  intros Hs Hd Hc. apply list_eq. intros i.
  assert (length (splice (S d) (sub (S s) k l) l) = length l) as El by (apply length_splice; rewrite length_sub; lia).
  rewrite lookup_splice by (rewrite length_sub; lia). rewrite length_sub by lia.
  destruct (decide (i = d)) as [->|Hne].
  - rewrite list_lookup_insert_eq, decide_True, lookup_sub by lia. rewrite <- Hc. f_equal. lia.
  - rewrite list_lookup_insert_ne, lookup_splice by (rewrite ?length_sub; lia). rewrite length_sub by lia.
    destruct (decide (S d <= i < S d + k)%nat).
    + rewrite decide_True, !lookup_sub by lia. f_equal. lia.
    + by rewrite decide_False by lia.
Qed.

Lemma splice_nothing (p q : nat) (l : list Z) : splice p (sub q 0 l) l = l.
Proof. unfold sub. rewrite take_0. unfold splice. rewrite Nat.add_0_r. apply take_drop. Qed.

Lemma with_cells_id s : with_cells s (scr s) = s.
Proof. by destruct s. Qed.

(** A step of [scmov]: a cell read from the old contents, and written. *)
Lemma move_step s l l' (a d : nat) c : cells l -> l !! a = Some c -> length l' = length l -> l' !! a = Some c ->
  (d < length l)%nat ->
  (c <- cell (Z.of_nat a) ;; set_cell (Z.of_nat d) c) (with_cells s l') = Ret tt (with_cells s (<[d := c]> l')).
Proof.
  intros [_ Hr] Hc Hl Hc' Hd.
  assert (a < length l')%nat as Ha by (by eapply lookup_lt_Some).
  destruct (cell_ok (with_cells s l') (Z.of_nat a)) as (c' & Ec & E); [cbn; lia|].
  erewrite bind_ret_eq by exact E. cbn beta. rewrite Nat2Z.id in Ec. cbn in Ec. rewrite Hc' in Ec. injection Ec as <-.
  rewrite (put_step s l' (<[d := c]> l')); [done|lia|].
  rewrite Nat2Z.id, s16_id; [done|]. eapply Forall_lookup_1 in Hr; [|exact Hc]. lia.
Qed.

(** [scmov] copies as if through a copy, whichever way the runs overlap. *)
Lemma scmov_up s l (a d n : nat) : cells l -> (d <= a)%nat -> (a + n <= 2000)%nat ->
  for_ (seqZ 0 (Z.of_nat n)) (fun k => c <- cell (Z.of_nat a + k) ;; set_cell (Z.of_nat d + k) c) (with_cells s l) =
  Ret tt (with_cells s (splice d (sub a n l) l)).
Proof.
  intros Hc Hda Han. pose proof (proj1 Hc) as Hl.
  pose proof (for_seqZ (fun k => c <- cell (Z.of_nat a + k) ;; set_cell (Z.of_nat d + k) c) (Z.of_nat n)
    (fun k => with_cells s (splice d (sub a k l) l))) as F. cbn beta in F.
  rewrite splice_nothing, Nat2Z.id in F. apply F; [lia|]. intros k Hk.
  destruct (lookup_lt_is_Some_2 l (a + k)) as [c Ec]; [lia|].
  rewrite (copy_above a d k l c) by (done || lia). rewrite <- !Nat2Z.inj_add. apply (move_step s l); [done..| | |lia].
  - apply length_splice. rewrite length_sub; lia.
  - rewrite lookup_splice by (rewrite length_sub; lia). by rewrite decide_False by (rewrite length_sub; lia).
Qed.

Lemma rev_seqZ n : rev (seqZ 0 (Z.of_nat n)) = map (fun i => Z.of_nat n - 1 - i) (seqZ 0 (Z.of_nat n)).
Proof.
  apply list_eq. intros i. rewrite rev_alt. fold (reverse (seqZ 0 (Z.of_nat n))). rewrite list_lookup_fmap.
  destruct (decide (i < n)%nat) as [Hi|Hi].
  - rewrite reverse_lookup by (rewrite length_seqZ; lia). rewrite length_seqZ, !lookup_seqZ_lt by lia. cbn. f_equal. lia.
  - rewrite (lookup_seqZ_ge 0) by lia. apply lookup_ge_None_2. rewrite length_reverse, length_seqZ. lia.
Qed.

Lemma scmov_down s l (a d n : nat) : cells l -> (a <= d)%nat -> (d + n <= 2000)%nat ->
  for_ (rev (seqZ 0 (Z.of_nat n))) (fun k => c <- cell (Z.of_nat a + k) ;; set_cell (Z.of_nat d + k) c) (with_cells s l) =
  Ret tt (with_cells s (splice d (sub a n l) l)).
Proof.
  intros Hc Hda Hdn. pose proof (proj1 Hc) as Hl. rewrite rev_seqZ, for_map.
  pose proof (for_seqZ (fun k => c <- cell (Z.of_nat a + (Z.of_nat n - 1 - k)) ;; set_cell (Z.of_nat d + (Z.of_nat n - 1 - k)) c)
    (Z.of_nat n) (fun k => with_cells s (splice (d + n - k) (sub (a + n - k) k l) l))) as F. cbn beta in F.
  rewrite splice_nothing, Nat2Z.id in F. replace (d + n - n)%nat with d in F by lia.
  replace (a + n - n)%nat with a in F by lia. apply F; [lia|]. intros k Hk.
  set (a' := (a + n - S k)%nat). set (d' := (d + n - S k)%nat).
  replace (a + n - k)%nat with (S a') by lia. replace (d + n - k)%nat with (S d') by lia.
  replace (Z.of_nat a + _) with (Z.of_nat a') by lia. replace (Z.of_nat d + _) with (Z.of_nat d') by lia.
  destruct (lookup_lt_is_Some_2 l a') as [c Ec]; [lia|].
  rewrite (copy_below a' d' k l c) by (done || lia). apply (move_step s l); [done..| | |lia].
  - apply length_splice. rewrite length_sub; lia.
  - rewrite lookup_splice by (rewrite length_sub; lia). by rewrite decide_False by (rewrite length_sub; lia).
Qed.

Lemma scmov_ok s l a d n : cells l -> 0 <= a -> 0 <= d -> 0 <= n -> a + n <= CHRS -> d + n <= CHRS ->
  scmov a d n (with_cells s l) = Ret tt (with_cells s (splice (Z.to_nat d) (sub (Z.to_nat a) (Z.to_nat n) l) l)).
Proof.
  intros Hc Ha Hd Hn Han Hdn. unfold scmov. change CHRS with 2000 in *.
  destruct (Z_of_nat_complete a Ha) as [a' ->], (Z_of_nat_complete d Hd) as [d' ->], (Z_of_nat_complete n Hn) as [n' ->].
  rewrite !Nat2Z.id. destruct (Z.ltb_spec (Z.of_nat a') (Z.of_nat d')); [apply scmov_down | apply scmov_up]; done || lia.
Qed.

(** ** What a character does to the screen

    The reference: the memory as a list, edited by rows and characters. *)

Record wf (s : screen) : Prop := mkwf { wf_cells : cells (scr s); wf_pos : 0 <= pos s < CHRS; wf_vm : 0 <= vm s < 4 }.

Definition blank (s : screen) : Z := s16 (Z.lor (va s) 32).
Definition cleared (p n : nat) (s : screen) : screen := with_cells s (splice p (replicate n (blank s)) (scr s)).
(** A row put in or taken out at [p], the rows below moving. *)
Definition row_in (p : nat) (s : screen) : screen :=
  with_cells s (take p (scr s) ++ replicate 80 (blank s) ++ sub p (1920 - p) (scr s)).
Definition row_out (p : nat) (s : screen) : screen :=
  with_cells s (take p (scr s) ++ drop (p + 80) (scr s) ++ replicate 80 (blank s)).
(** A character put in or taken out at [p], [n] from the end of the row. *)
Definition char_in (p n : nat) (s : screen) : screen :=
  with_cells s (take p (scr s) ++ [blank s] ++ sub p n (scr s) ++ drop (p + n + 1) (scr s)).
Definition char_out (p n : nat) (s : screen) : screen :=
  with_cells s (take p (scr s) ++ sub (p + 1) n (scr s) ++ [blank s] ++ drop (p + n + 1) (scr s)).

Lemma clear_ok s p n : cells (scr s) -> 0 <= p -> 0 <= n -> p + n <= CHRS ->
  clear p n s = Ret tt (cleared (Z.to_nat p) (Z.to_nat n) s).
Proof.
  intros [Hl _] Hp Hn Hpn. unfold clear, shown. erewrite bind_ret_eq by reflexivity. cbn beta.
  change CHRS with 2000 in Hpn. rewrite <- (with_cells_id s) at 2. rewrite scset_ok by lia. done.
Qed.

Lemma Forall_sub {A} (P : A -> Prop) p n (l : list A) : Forall P l -> Forall P (sub p n l).
Proof. intros H. unfold sub. by apply Forall_take, Forall_drop. Qed.
Lemma cells_splice p new l : cells l -> Forall (fun c => -32768 <= c < 32768) new -> (p + length new <= 2000)%nat ->
  cells (splice p new l).
Proof.
  intros [Hl Hr] Hn Hp. split; [rewrite length_splice; lia|]. unfold splice.
  apply Forall_app_2; [by apply Forall_take|]. apply Forall_app_2; [done|by apply Forall_drop].
Qed.

Lemma row_out_list (p : nat) (l b : list Z) : length l = 2000%nat -> length b = 80%nat -> (p <= 1920)%nat ->
  splice 1920 b (splice p (sub (p + 80) (1920 - p) l) l) = take p l ++ drop (p + 80) l ++ b.
Proof.
  intros Hl Hb Hp. unfold splice. rewrite length_sub, Hb by lia.
  assert (sub (p + 80) (1920 - p) l = drop (p + 80) l) as -> by (apply take_ge; rewrite length_drop; lia).
  replace (p + (1920 - p))%nat with 1920%nat by lia.
  rewrite (app_assoc (take p l)), take_app_length', (drop_ge (_ ++ _) (1920 + 80)), app_nil_r, <- app_assoc; [done|..];
    rewrite ?length_app, ?length_take, ?length_drop; lia.
Qed.
Lemma row_in_list (p : nat) (l b : list Z) : length l = 2000%nat -> length b = 80%nat -> (p <= 1920)%nat ->
  splice p b (splice (p + 80) (sub p (1920 - p) l) l) = take p l ++ b ++ sub p (1920 - p) l.
Proof.
  intros Hl Hb Hp. unfold splice. rewrite length_sub, Hb by lia.
  rewrite (drop_ge l), app_nil_r by lia.
  rewrite take_app_le, take_take, Nat.min_l, drop_app_length' by (rewrite ?length_take; lia). done.
Qed.

Lemma vscroll_ok s p rev : cells (scr s) -> 0 <= p <= LROW ->
  vscroll p rev s = Ret tt ((if tst rev then row_in else row_out) (Z.to_nat p) s).
Proof.
  intros Hc Hp. pose proof (proj1 Hc) as Hl. change LROW with 1920 in Hp.
  unfold vscroll. change (CHRS - p - COLS) with (2000 - p - 80). rewrite (proj2 (Z.ltb_ge _ _)) by lia.
  change (clear (if tst rev then p else LROW) COLS) with (clear (if tst rev then p else 1920) 80).
  assert (when (tst (2000 - p - 80)) (if tst rev then scmov p (p + COLS) (2000 - p - 80) else scmov (p + COLS) p (2000 - p - 80)) s =
    Ret tt (with_cells s (if tst rev then splice (Z.to_nat p + 80) (sub (Z.to_nat p) (1920 - Z.to_nat p) (scr s)) (scr s)
                         else splice (Z.to_nat p) (sub (Z.to_nat p + 80) (1920 - Z.to_nat p) (scr s)) (scr s)))) as E.
  { change COLS with 80. destruct (decide (p = 1920)) as [->|].
    - destruct (tst rev); cbn [when tst]; change (1920 - Z.to_nat 1920)%nat with 0%nat; rewrite splice_nothing, with_cells_id; done.
    - rewrite (proj2 (tst_true _)) by lia. cbn [when]. rewrite <- (with_cells_id s) at 1 3.
      destruct (tst rev); rewrite scmov_ok by (done || (change CHRS with 2000; lia)); repeat f_equal; lia. }
  erewrite bind_ret_eq by exact E. cbn beta. clear E.
  set (l1 := if tst rev then splice _ _ _ else splice _ _ _).
  assert (cells l1) as Hc1.
  { unfold l1. destruct (tst rev); apply cells_splice; rewrite ?length_sub by lia; try done; try lia; by apply Forall_sub, Hc. }
  rewrite clear_ok; [|done|destruct (tst rev); lia|lia|change CHRS with 2000; destruct (tst rev); lia].
  unfold cleared, row_in, row_out, with_cells, blank. change (va (s <| scr := l1 |>)) with (va s).
  cbn [scr setf]. unfold l1. clear Hc1 l1. change (Z.to_nat 80) with 80%nat.
  destruct (tst rev).
  - rewrite row_in_list by (rewrite ?length_replicate; lia). by destruct s.
  - change (Z.to_nat 1920) with 1920%nat. rewrite row_out_list by (rewrite ?length_replicate; lia). by destruct s.
Qed.

Lemma insert_splice (p : nat) (x : Z) (l : list Z) : (p < length l)%nat -> <[p := x]> l = splice p [x] l.
Proof. intros Hp. unfold splice. rewrite insert_take_drop by done. cbn. by rewrite Nat.add_1_r. Qed.

Lemma char_out_list (p n : nat) (l : list Z) x : length l = 2000%nat -> (p + n < 2000)%nat ->
  <[(p + n)%nat := x]> (splice p (sub (p + 1) n l) l) = take p l ++ sub (p + 1) n l ++ [x] ++ drop (p + n + 1) l.
Proof.
  intros Hl Hp. rewrite insert_take_drop by (rewrite length_splice; rewrite ?length_sub; lia).
  unfold splice. rewrite length_sub by lia. rewrite app_assoc.
  rewrite take_app_length' by (rewrite length_app, length_take, length_sub; lia).
  rewrite drop_app_ge by (rewrite length_app, length_take, length_sub; lia).
  rewrite length_app, length_take, length_sub, drop_drop by lia. rewrite <- app_assoc. cbn. do 4 f_equal. lia.
Qed.
Lemma char_in_list (p n : nat) (l : list Z) x : length l = 2000%nat -> (p + n < 2000)%nat ->
  <[p := x]> (splice (p + 1) (sub p n l) l) = take p l ++ [x] ++ sub p n l ++ drop (p + n + 1) l.
Proof.
  intros Hl Hp. rewrite insert_take_drop by (rewrite length_splice; rewrite ?length_sub; lia).
  unfold splice. rewrite length_sub by lia.
  rewrite take_app_le, take_take, Nat.min_l by (rewrite ?length_take; lia).
  rewrite drop_app_length' by (rewrite length_take; lia). cbn. do 4 f_equal. lia.
Qed.

Lemma hscroll_ok s p col ins : cells (scr s) -> 0 <= p -> 0 <= col < COLS -> p + (COLS - col) <= CHRS ->
  hscroll p col ins s = Ret tt ((if tst ins then char_in else char_out) (Z.to_nat p) (Z.to_nat (79 - col)) s).
Proof.
  intros Hc Hp Hcol Hr. pose proof (proj1 Hc) as Hl. change CHRS with 2000 in Hr. change COLS with 80 in *.
  unfold hscroll. change COLS with 80. set (n := 80 - col - 1). rewrite (proj2 (Z.ltb_ge n 0)) by lia.
  assert (when (tst n) (if tst ins then scmov p (p + 1) n else scmov (p + 1) p n) s =
    Ret tt (with_cells s (if tst ins then splice (Z.to_nat p + 1) (sub (Z.to_nat p) (Z.to_nat n) (scr s)) (scr s)
                         else splice (Z.to_nat p) (sub (Z.to_nat p + 1) (Z.to_nat n) (scr s)) (scr s)))) as E.
  { destruct (decide (n = 0)) as [->|].
    - destruct (tst ins); cbn [when tst]; change (Z.to_nat 0) with 0%nat; rewrite splice_nothing, with_cells_id; done.
    - rewrite (proj2 (tst_true _)) by lia. cbn [when]. rewrite <- (with_cells_id s) at 1 3.
      destruct (tst ins); rewrite scmov_ok by (done || (change CHRS with 2000; lia)); repeat f_equal; lia. }
  erewrite bind_ret_eq by exact E. cbn beta. clear E.
  set (l1 := if tst ins then splice _ _ _ else splice _ _ _).
  assert (length l1 = 2000%nat) as Hl1.
  { unfold l1. destruct (tst ins); rewrite length_splice; rewrite ?length_sub; lia. }
  unfold shown. erewrite bind_ret_eq by reflexivity. cbn beta.
  etransitivity; [apply (put_step s l1); [rewrite Hl1; destruct (tst ins); lia|reflexivity]|].
  unfold char_in, char_out, with_cells, blank. change (va (with_cells s l1)) with (va s). change (va (s <| scr := l1 |>)) with (va s).
  unfold l1. replace (Z.to_nat (79 - col)) with (Z.to_nat n) by lia. clear Hl1 l1.
  destruct (tst ins).
  - rewrite char_in_list by lia. by destruct s.
  - rewrite Z2Nat.inj_add by lia. rewrite char_out_list by lia. by destruct s.
Qed.

(** The character at the cursor, which moves on. *)
Definition put (c : Z) (s : screen) : screen :=
  s <| scr := <[Z.to_nat (pos s) := s16 (Z.lor (va s) c)]> (scr s) |> <| pos ::= fun p => p + 1 |>.
Definition moved_to (p : Z) (s : screen) : screen := s <| pos := p |>.
Definition column (s : screen) : Z := pos s mod 80.
Definition glyph (ch : Z) : Z := if (20 <=? ch) && (ch <=? 25) then default 0 (acs !! Z.to_nat ch) else ch.

(** The characters of a text.  A tab writes blanks up to the next of the
    stops, every eight columns, and does nothing from the last one on. *)
Definition typed (ch : Z) (s : screen) : screen :=
  if ch =? 8 then
    if 0 <? pos s then moved_to (pos s - 1) (with_cells s (<[Z.to_nat (pos s - 1) := blank s]> (scr s))) else s
  else if ch =? 9 then if column s <? 72 then Nat.iter (Z.to_nat (8 - column s mod 8)) (put 32) s else s
  else if ch =? 10 then moved_to (pos s + 80 - (if tst (curs s) then 0 else column s)) s
  else if ch =? 12 then cleared 0 2000 (moved_to 0 s)
  else if ch =? 13 then moved_to (pos s - column s) s
  else put (glyph ch) s.

(** The commands after an escape.  The six characters of the alternate set,
    20 to 25, are always at hand, so that F and G change nothing. *)
Definition edited (ch : Z) (s : screen) : screen :=
  let p := pos s in let col := column s in
  if ch =? 64 then s <| p0 := 0 |> <| vm := 0 |> <| sm := 0 |> <| curs := 0 |>
  else if ch =? 65 then if 80 <=? p then moved_to (p - 80) s else s
  else if ch =? 66 then moved_to (p + 80) s
  else if ch =? 67 then moved_to (p + 1) s
  else if ch =? 68 then if 0 <? col then moved_to (p - 1) s else s
  else if ch =? 69 then cleared 0 2000 (moved_to 0 s)
  else if ch =? 72 then moved_to 0 s
  else if ch =? 73 then if 0 <? col then moved_to ((p - 1) / 8 * 8) s else s
  else if ch =? 74 then cleared (Z.to_nat p) (Z.to_nat (2000 - p)) s
  else if ch =? 75 then cleared (Z.to_nat p) (Z.to_nat (80 - col)) s
  else if ch =? 76 then row_in (Z.to_nat (p - col)) s
  else if ch =? 77 then row_out (Z.to_nat (p - col)) s
  else if ch =? 78 then char_out (Z.to_nat p) (Z.to_nat (79 - col)) s
  else if ch =? 79 then char_in (Z.to_nat p) (Z.to_nat (79 - col)) s
  else if ch =? 80 then row_out 0 s
  else if ch =? 81 then row_in 0 s
  else if ch =? 83 then s <| vm ::= fun v => Z.lor v 1 |>
  else if ch =? 84 then s <| vm ::= fun v => clr v 1 |>
  else if ch =? 85 then s <| vm ::= fun v => Z.lor v 2 |>
  else if ch =? 86 then s <| vm ::= fun v => clr v 2 |>
  else if ch =? 87 then s <| curs := 1 |>
  else if ch =? 88 then s <| curs := 0 |>
  else s.
Definition coloured (s : screen) : screen := s <| va := default 0 (attr !! Z.to_nat (vm s)) |>.

(** The whole: a cursor past the end brings up a new last row. *)
Definition settled (s : screen) : screen :=
  let s := s <| st := 0 |> in
  if 2000 <=? pos s then moved_to (pos s - 80) (row_out 0 s) else s.
Definition vt (ch : Z) (s : screen) : screen * bool :=
  if st s =? 0 then
    if bool_decide (ch ∈ [0; 7; 11]) then (s, false)
    else if ch =? 27 then (s <| st := 1 |>, false)
    else (settled (typed ch s), true)
  else if st s =? 1 then
    if ch =? 89 then (s <| st := 2 |>, false)
    else if ch =? 90 then (s <| st := 4 |>, false)
    else (settled (coloured (edited ch s)), true)
  else if st s =? 2 then (s <| p0 := ch |> <| st := 3 |>, false)
  else if st s =? 3 then
    let row := p0 s - 32 in let col := ch - 32 in
    let s := s <| p0 := row |> in
    (settled (if bool_decide (0 <= row < 25 /\ 0 <= col < 80) then moved_to (80 * row + col) s else s), true)
  else if st s =? 4 then (settled (s <| sm := ch - 32 |>), true)
  else (settled s, true).

(** ** The driver does what the reference says

    But for one thing: to see whether a tab stop is left in the row it looks
    at the place on the screen and not in the row, so that below the first
    row a tab is lost. *)
Definition tab_lost (ch : Z) (s : screen) : bool :=
  (st s =? 0) && (ch =? 9) && (72 <=? pos s) && (column s <? 72).
Definition driven (ch : Z) (s : screen) : screen := if tab_lost ch s then s else (vt ch s).1.

(** The state before the cursor has settled. *)
Record loose (s : screen) : Prop := mkloose { lo_cells : cells (scr s); lo_pos : 0 <= pos s < 2080; lo_vm : 0 <= vm s < 4 }.

Lemma cells_insert l i v : cells l -> cells (<[i := s16 v]> l).
Proof.
  intros [Hl Hr]. split; [by rewrite length_insert|]. apply Forall_insert; [done|]. apply s16_range.
Qed.
Lemma blank_range s n : Forall (fun c => -32768 <= c < 32768) (replicate n (blank s)).
Proof. apply Forall_replicate. apply s16_range. Qed.
Lemma cells_cleared s p n : cells (scr s) -> (p + n <= 2000)%nat -> cells (scr (cleared p n s)).
Proof. intros Hc Hp. apply cells_splice; [done|apply blank_range|]. rewrite length_replicate. lia. Qed.

Ltac cells_app :=
  match goal with H : cells ?l |- _ =>
    destruct H as [?Hl ?Hr]; split;
    [rewrite ?length_app, ?length_take, ?length_drop, ?length_sub, ?length_replicate by (rewrite ?Hl; lia); cbn; lia|];
    repeat (apply Forall_app_2); try apply blank_range;
    first [by apply Forall_take | by apply Forall_drop | by apply Forall_sub | repeat constructor; apply s16_range]
  end.
Lemma cells_row s p : cells (scr s) -> (p <= 1920)%nat -> cells (scr (row_in p s)) /\ cells (scr (row_out p s)).
Proof.
  intros Hc Hp. cbn -[replicate take drop]. split; cells_app.
Qed.
Lemma cells_char s p n : cells (scr s) -> (p + n < 2000)%nat -> cells (scr (char_in p n s)) /\ cells (scr (char_out p n s)).
Proof. intros Hc Hp. cbn -[replicate take drop app]. split; cells_app. Qed.

Lemma show_ok s i c : 0 <= i < Z.of_nat (length (scr s)) ->
  (x <- shown c ;; set_cell i x) s = Ret tt (s <| scr ::= <[Z.to_nat i := s16 (Z.lor (va s) c)]> |>).
Proof. intros Hi. erewrite bind_ret_eq by reflexivity. by apply set_cell_ok. Qed.

Lemma put_char_ok s c : cells (scr s) -> 0 <= pos s < 2000 -> put_char c s = Ret tt (put c s).
Proof.
  intros [Hl _] Hp. unfold put_char, shown. rewrite bind_assoc. erewrite bind_ret_eq by reflexivity. cbn beta.
  erewrite bind_ret_eq by reflexivity. cbn beta. erewrite bind_ret_eq by reflexivity. cbn beta.
  erewrite bind_ret_eq by (apply set_cell_ok; rewrite Hl; lia). cbn beta. done.
Qed.
Lemma put_keeps c s : cells (scr s) -> cells (scr (put c s)) /\ pos (put c s) = pos s + 1 /\ vm (put c s) = vm s.
Proof. intros H. split; [by apply cells_insert|done]. Qed.
Lemma puts_keep c s k : cells (scr s) ->
  cells (scr (Nat.iter k (put c) s)) /\ pos (Nat.iter k (put c) s) = pos s + Z.of_nat k /\ vm (Nat.iter k (put c) s) = vm s.
Proof.
  intros H. induction k as [|k (IH1 & IH2 & IH3)]; [rewrite Z.add_0_r; done|].
  cbn [Nat.iter nat_rect]. fold (Nat.iter k (put c) s).
  destruct (put_keeps c (Nat.iter k (put c) s) IH1) as (H1 & -> & ->). split; [done|]. split; [lia|done].
Qed.

Lemma spaces_ok s n : cells (scr s) -> 0 <= pos s -> 0 <= n -> pos s + n <= 2000 ->
  for_ (seqZ 0 n) (fun _ => put_char 32) s = Ret tt (Nat.iter (Z.to_nat n) (put 32) s).
Proof.
  intros Hc Hp Hn Hpn. apply (for_seqZ (fun _ => put_char 32) n (fun k => Nat.iter k (put 32) s)); [done|].
  intros k Hk. destruct (puts_keep 32 s k Hc) as (H1 & H2 & _). cbn [Nat.iter nat_rect].
  fold (Nat.iter k (put 32) s). apply put_char_ok; [done|lia].
Qed.

Lemma column_rem s : 0 <= pos s -> Z.rem (pos s) COLS = column s.
Proof. intros H. apply Z.rem_mod_nonneg; [done|]. by unfold COLS. Qed.
Lemma column_range s : 0 <= column s < 80.
Proof. apply Z.mod_pos_bound. lia. Qed.
Lemma column_pos s : 0 <= pos s -> column s <= pos s.
Proof. intros H. apply Z.mod_le; lia. Qed.
(** The row of the cursor is one of the screen's. *)
Lemma row_range s : 0 <= pos s < 2000 -> 0 <= pos s - column s <= 1920.
Proof.
  intros H. unfold column. pose proof (Z.div_mod (pos s) 80 ltac:(lia)) as E.
  pose proof (Z.div_lt_upper_bound (pos s) 80 25 ltac:(lia) ltac:(lia)). pose proof (Z.div_pos (pos s) 80 ltac:(lia) ltac:(lia)). lia.
Qed.

Lemma typed_ok ch s : wf s -> 0 <= ch < 128 -> ch <> 0 /\ ch <> 7 /\ ch <> 11 -> ch <> 27 ->
  let s' := if (ch =? 9) && (72 <=? pos s) && (column s <? 72) then s else typed ch s in
  plain_char ch (column s) s = Ret true s' /\ loose s'.
Proof.
  intros [Hc Hp Hv] Hch Hn H27. change CHRS with 2000 in Hp. pose proof (proj1 Hc) as Hl.
  pose proof (column_range s) as Hcol. pose proof (row_range s Hp) as Hrow.
  cbv zeta. unfold plain_char, typed. erewrite bind_ret_eq by reflexivity. cbn beta.
  rewrite (proj2 (orb_false_iff _ _)) by (rewrite !Z.eqb_neq; tauto).
  destruct (ch =? 8) eqn:E8.
  { rewrite (proj2 (Z.eqb_neq ch 9)) by (apply Z.eqb_eq in E8; lia). cbn [andb].
    destruct (Z.ltb_spec 0 (pos s)); cbn [when].
    - erewrite bind_ret_eq by (erewrite bind_ret_eq by reflexivity; apply show_ok; cbn; lia). split; [by destruct s|].
      split; cbn; [by apply cells_insert|lia|done].
    - split; [done|]. split; [done|lia|done]. }
  destruct (ch =? 9) eqn:E9.
  { change LTAB with 72. change TAB with 8. rewrite (land_ones_mod _ 3) by lia.
    change (2 ^ 3) with 8. pose proof (Z.mod_pos_bound (column s) 8 ltac:(lia)).
    cbn [andb]. destruct (Z.ltb_spec (pos s) 72); cbn [when].
    - assert (column s = pos s) as Ec by (apply Z.mod_small; lia).
      rewrite (proj2 (Z.leb_gt 72 (pos s))), (proj2 (Z.ltb_lt (column s) 72)) by lia. cbn [andb].
      erewrite bind_ret_eq by (apply spaces_ok; [done|lia..]). cbn beta. split; [done|].
      destruct (puts_keep 32 s (Z.to_nat (8 - column s mod 8)) Hc) as (H1 & H2 & H3). split; [done|lia|lia].
    - rewrite (proj2 (Z.leb_le 72 (pos s))) by lia. cbn [andb].
      destruct (column s <? 72); (split; [done|]; split; [done|lia|done]). }
  cbn [andb].
  destruct (ch =? 10) eqn:E10.
  { erewrite bind_ret_eq by reflexivity. cbn beta. change COLS with 80.
    split; [|split; [done|cbn; destruct (tst (curs s)); lia|done]].
    unfold sset, modify, bind, moved_to. destruct (tst (curs s)); by rewrite ?Z.sub_0_r. }
  rewrite (proj2 (Z.eqb_neq ch 11)) by tauto.
  destruct (ch =? 12) eqn:E12.
  { erewrite bind_ret_eq by reflexivity. cbn beta. erewrite bind_ret_eq by (apply clear_ok; [done|by cbn..]).
    split; [done|]. split; [|by cbn..]. by apply cells_cleared; [|lia]. }
  destruct (ch =? 13) eqn:E13.
  { erewrite bind_ret_eq by reflexivity. split; [done|]. split; [done|cbn; lia|done]. }
  rewrite (proj2 (Z.eqb_neq ch 27)) by done.
  assert ((if (20 <=? ch) && (ch <=? 25) then the (acs !! Z.to_nat ch) else ret ch) s = Ret (glyph ch) s) as E.
  { unfold glyph. destruct (Z.leb_spec 20 ch), (Z.leb_spec ch 25); cbn [andb]; try done.
    destruct (lookup_lt_is_Some_2 acs (Z.to_nat ch)) as [g Eg]; [cbn; lia|]. by rewrite Eg. }
  erewrite bind_ret_eq by exact E. cbn beta.
  erewrite bind_ret_eq by (apply put_char_ok; [done|lia]). split; [done|].
  destruct (put_keeps (glyph ch) s Hc) as (H1 & H2 & H3). split; [done|lia|lia].
Qed.

Lemma loose_of s s' : wf s -> scr s' = scr s -> 0 <= pos s' < 2080 -> 0 <= vm s' < 4 -> loose s'.
Proof. intros [Hc _ _] E Hp Hv. split; [by rewrite E|done|done]. Qed.

Lemma lor_mode v m : 0 <= v < 4 -> 0 <= m < 4 -> 0 <= Z.lor v m < 4.
Proof. intros Hv Hm. assert (v = 0 \/ v = 1 \/ v = 2 \/ v = 3) as [-> | [-> | [-> | ->]]] by lia;
  assert (m = 0 \/ m = 1 \/ m = 2 \/ m = 3) as [-> | [-> | [-> | ->]]] by lia; split; vm_compute; congruence. Qed.
Lemma clr_mode v m : 0 <= v < 4 -> 0 <= m < 4 -> 0 <= clr v m < 4.
Proof. intros Hv Hm. assert (v = 0 \/ v = 1 \/ v = 2 \/ v = 3) as [-> | [-> | [-> | ->]]] by lia;
  assert (m = 0 \/ m = 1 \/ m = 2 \/ m = 3) as [-> | [-> | [-> | ->]]] by lia; split; vm_compute; congruence. Qed.

(** Closes a case of [edited_ok] that changes the variables only. *)
Ltac edit_vars :=
  split; [done|]; eapply loose_of; [done|done|cbn; lia|cbn; first [lia | by apply lor_mode | by apply clr_mode]].

(** One that changes the memory. *)
Ltac edit_cells Hl :=
  change CHRS with 2000 in *; change COLS with 80 in *; change LROW with 1920 in *;
  first [ rewrite clear_ok by (done || (change CHRS with 2000; lia))
        | rewrite vscroll_ok by (done || (change LROW with 1920; lia))
        | rewrite hscroll_ok by (done || (change CHRS with 2000; change COLS with 80; lia)) ];
  split; [done|]; apply Hl; [|done..];
  first [ apply cells_cleared; [done|lia] | apply cells_row; [done|lia] | apply cells_char; [done|lia] ].

Lemma edited_ok ch s : wf s -> escape_edit ch (column s) s = Ret tt (edited ch s) /\ loose (edited ch s).
Proof.
  intros Hw. destruct (Hw) as [Hc Hp Hv]. change CHRS with 2000 in Hp.
  pose proof (column_range s) as Hcol. pose proof (row_range s Hp) as Hrow.
  assert (forall s', cells (scr s') -> pos s' = pos s -> vm s' = vm s -> loose s') as Hl
    by (intros s' H1 H2 H3; split; [done|lia|lia]).
  unfold escape_edit, edited. erewrite bind_ret_eq by reflexivity. cbn beta zeta.
  change COLS with 80. change CHRS with 2000.
  destruct (ch =? 64); [edit_vars|].
  destruct (ch =? 65); [destruct (Z.leb_spec 80 (pos s)); edit_vars|].
  destruct (ch =? 66); [edit_vars|].
  destruct (ch =? 67); [edit_vars|].
  destruct (ch =? 68); [destruct (Z.ltb_spec 0 (column s)); edit_vars|].
  destruct (ch =? 69).
  { erewrite bind_ret_eq by reflexivity. cbn beta. rewrite clear_ok by done. split; [done|].
    split; [|by cbn..]. by apply cells_cleared; [|lia]. }
  destruct (ch =? 72); [edit_vars|].
  destruct (ch =? 73).
  { change (TAB - 1) with (Z.ones 3). rewrite clr_ones by lia. change (2 ^ 3) with 8.
    pose proof (Z.div_mod (pos s - 1) 8 ltac:(lia)). pose proof (Z.mod_pos_bound (pos s - 1) 8 ltac:(lia)).
    replace (pos s - 1 - (pos s - 1) mod 8) with ((pos s - 1) / 8 * 8) by lia.
    pose proof (Z.div_pos (pos s - 1) 8).
    destruct (Z.ltb_spec 0 (column s)); edit_vars. }
  destruct (ch =? 74); [edit_cells Hl|].
  destruct (ch =? 75); [edit_cells Hl|].
  destruct (ch =? 76); [edit_cells Hl|].
  destruct (ch =? 77); [edit_cells Hl|].
  destruct (ch =? 78); [edit_cells Hl|].
  destruct (ch =? 79); [edit_cells Hl|].
  destruct (ch =? 80); [edit_cells Hl|].
  destruct (ch =? 81); [edit_cells Hl|].
  destruct (ch =? 83); [edit_vars|].
  destruct (ch =? 84); [edit_vars|].
  destruct (ch =? 85); [edit_vars|].
  destruct (ch =? 86); [edit_vars|].
  destruct (ch =? 87); [edit_vars|].
  destruct (ch =? 88); edit_vars.
Qed.

Lemma coloured_ok s : 0 <= vm s < 4 ->
  (v <- sf vm ;; a <- the (if v <? 0 then None else attr !! Z.to_nat v) ;; sset va a ;;; ret true) s = Ret true (coloured s).
Proof.
  intros Hv. unfold coloured. erewrite bind_ret_eq by reflexivity. cbn beta. rewrite (proj2 (Z.ltb_ge _ _)) by lia.
  destruct (lookup_lt_is_Some_2 attr (Z.to_nat (vm s))) as [a Ea]; [cbn; lia|]. by rewrite Ea.
Qed.

Lemma settled_ok s : loose s ->
  (sset st 0 ;;; p <- sf pos ;; when (CHRS <=? p) (vscroll 0 0 ;;; sset pos (p - COLS))) s = Ret tt (settled s) /\ wf (settled s).
Proof.
  intros [Hc Hp Hv]. unfold settled. erewrite bind_ret_eq by reflexivity. cbn beta.
  erewrite bind_ret_eq by reflexivity. cbn beta. change CHRS with 2000. cbn [pos setf].
  destruct (Z.leb_spec 2000 (pos s)); cbn [when].
  - erewrite bind_ret_eq by (apply vscroll_ok; done). split; [done|].
    split; [|change CHRS with 2000; cbn; lia|done]. exact (proj2 (cells_row (s <| st := 0 |>) 0 Hc ltac:(lia))).
  - split; [done|]. split; [done|change CHRS with 2000; cbn; lia|done].
Qed.

Lemma settled_rest s : (st s =? 0) = true -> pos s < 2000 -> settled s = s.
Proof.
  intros E%Z.eqb_eq Hp. unfold settled. destruct s. cbn in *. subst.
  by rewrite (proj2 (Z.leb_gt _ _)) by lia.
Qed.

Lemma motion_test y x : (0 <=? y) && (y <? ROWS) && (0 <=? x) && (x <? COLS) = bool_decide (0 <= y < 25 /\ 0 <= x < 80).
Proof. apply eq_true_iff_eq. rewrite !andb_true_iff, !Z.leb_le, !Z.ltb_lt, bool_decide_eq_true. change ROWS with 25. change COLS with 80. lia. Qed.

Lemma sc_char_ok ch s : wf s -> 0 <= ch < 128 -> sc_char ch s = Ret (vt ch s).2 (driven ch s) /\ wf (driven ch s).
Proof.
  intros Hw Hch. destruct (Hw) as [Hc Hp Hv]. unfold sc_char, driven, tab_lost, vt. erewrite bind_ret_eq by reflexivity. cbn beta zeta.
  erewrite bind_ret_eq by reflexivity. cbn beta. rewrite column_rem by lia.
  assert (forall (m : SM bool) s', m s = Ret true s' -> loose s' ->
    (moved <- m ;; when moved (sset st 0 ;;; p <- sf pos ;; when (CHRS <=? p) (vscroll 0 0 ;;; sset pos (p - COLS))) ;;; ret moved) s =
      Ret true (settled s') /\ wf (settled s')) as Hgo.
  { intros m s' E Hl. erewrite bind_ret_eq by exact E. cbn beta. destruct (settled_ok s' Hl) as [E1 Hs].
    by erewrite bind_ret_eq by exact E1. }
  assert (forall s', scr s' = scr s -> pos s' = pos s -> vm s' = vm s -> wf s') as Hwf.
  { intros s' E1 E2 E3. by split; rewrite ?E1, ?E2, ?E3. }
  assert (loose s) as Hlo by (split; [done| |done]; change CHRS with 2000 in Hp; lia).
  destruct (st s =? 0) eqn:E0; cbn [andb].
  { destruct (decide (ch ∈ [0; 7; 11])) as [Hin|Hin].
    - rewrite (bool_decide_true _ Hin). rewrite !elem_of_cons in Hin.
      destruct Hin as [-> | [-> | [-> | Hin]]]; [done..|by apply not_elem_of_nil in Hin].
    - rewrite (bool_decide_false _ Hin). rewrite !not_elem_of_cons in Hin.
      destruct (Z.eqb_spec ch 27) as [->|H27]; [split; [done|by apply Hwf]|].
      destruct (typed_ok ch s Hw Hch ltac:(tauto) H27) as [E Hl]. cbv zeta in E, Hl.
      destruct (_ && _); [|by apply Hgo]. cbn [fst snd]. destruct (Hgo _ _ E Hl) as [E1 _]. rewrite settled_rest in E1 by (done || (change CHRS with 2000 in Hp; lia)). by split. }
  destruct (st s =? 1).
  { unfold escape_char. destruct (ch =? 89); [split; [done|by apply Hwf]|]. destruct (ch =? 90); [split; [done|by apply Hwf]|].
    destruct (edited_ok ch s Hw) as [E Hl]. apply Hgo.
    - erewrite bind_ret_eq by exact E. by apply coloured_ok, Hl.
    - by destruct Hl. }
  destruct (st s =? 2); [split; [done|by apply Hwf]|].
  destruct (st s =? 3).
  { apply Hgo.
    - erewrite bind_ret_eq by reflexivity. cbn beta zeta. erewrite bind_ret_eq by reflexivity. cbn beta.
      rewrite motion_test. rewrite (Z.mul_comm 80). by case_bool_decide.
    - destruct Hlo. case_bool_decide; by split; cbn; try lia. }
  destruct (st s =? 4); [apply (Hgo _ (s <| sm := ch - 32 |>)); [done|by destruct Hlo]|].
  by apply (Hgo (ret true)).
Qed.

(** The terminal moves on where the driver loses the tab. *)
Lemma tab_moves ch s : wf s -> tab_lost ch s = true ->
  80 <= pos s /\ pos (vt ch s).1 = pos s + (8 - column s mod 8).
Proof.
  intros [Hc Hp _]. change CHRS with 2000 in Hp. unfold tab_lost. rewrite !andb_true_iff.
  intros [[[E0 ->%Z.eqb_eq] H72%Z.leb_le] Hcol%Z.ltb_lt].
  pose proof (row_range s Hp) as Hrow.
  assert (80 <= pos s) as H80.
  { destruct (Z.lt_ge_cases (pos s) 80); [|done]. unfold column in Hcol. rewrite Z.mod_small in Hcol by lia. lia. }
  split; [done|]. unfold vt. rewrite E0, bool_decide_false by (rewrite !not_elem_of_cons; repeat split; try lia; apply not_elem_of_nil).
  cbn [fst Z.eqb Pos.eqb]. unfold typed. cbn [Z.eqb Pos.eqb]. rewrite (proj2 (Z.ltb_lt _ _) Hcol).
  pose proof (Z.div_mod (column s) 8 ltac:(lia)) as Ed. pose proof (Z.mod_pos_bound (column s) 8 ltac:(lia)).
  set (k := 8 - column s mod 8) in *.
  destruct (puts_keep 32 s (Z.to_nat k) Hc) as (_ & Hq & _). rewrite Z2Nat.id in Hq by lia.
  unfold settled. cbv zeta. set (s1 := Nat.iter _ _ _) in *. cbn [pos setf].
  assert (k <= 72 - column s) by lia.
  by rewrite (proj2 (Z.leb_gt 2000 (pos s1))) by lia.
Qed.
