(* ===== verification/Console.v ===== *)
(** * Console: the console's driver ([dev/sc.c])

    The terminal of the console, its keyboard and its bell, around the
    screen of [Screen].  The statics of the driver are a state of their own
    beside the kernel's; the ports are parameters. *)

From S2P Require Import Prelude Callout Bytes Clist State Sched Ports Tty Screen.

Definition KDT : Z := 96.
Definition KST : Z := 100.
Definition KOB : Z := 1.
Definition KIB : Z := 2.
Definition KTO : Z := 64.
Definition KPE : Z := 128.
Definition TOV : Z := 1048576.
Definition LSCR : Z := 1.
Definition LNUM : Z := 2.
Definition LCAP : Z := 4.
Definition MSGBUFS : nat := 128.
Definition BEEPPT : Z := 1193181 / 453.
Definition BEEPTM : Z := HZ / 10.

(** [char map[3][96]]: the keys alone, with shift, and with control. *)
Definition keymap : list (list Z) := map (map s8) [
  [255; 27; 49; 50; 51; 52; 53; 54; 55; 56; 57; 48; 45; 61; 8; 9;
   113; 119; 101; 114; 116; 121; 117; 105; 111; 112; 91; 93; 10; 255; 97; 115;
   100; 102; 103; 104; 106; 107; 108; 59; 39; 96; 255; 92; 122; 120; 99; 118;
   98; 110; 109; 44; 46; 47; 255; 42; 255; 32; 255; 209; 210; 211; 212; 213;
   214; 215; 216; 217; 218; 255; 255; 200; 193; 198; 45; 196; 255; 195; 43; 197;
   194; 199; 201; 127; 255; 255; 255; 255; 255; 255; 255; 255; 255; 255; 255; 255];
  [255; 27; 33; 64; 35; 36; 37; 94; 38; 42; 40; 41; 95; 43; 255; 255;
   81; 87; 69; 82; 84; 89; 85; 73; 79; 80; 123; 125; 10; 255; 65; 83;
   68; 70; 71; 72; 74; 75; 76; 58; 34; 126; 255; 124; 90; 88; 67; 86;
   66; 78; 77; 60; 62; 63; 255; 42; 255; 32; 255; 255; 255; 255; 255; 255;
   255; 255; 255; 255; 255; 255; 255; 55; 56; 57; 45; 52; 53; 54; 43; 49;
   50; 51; 48; 46; 255; 255; 255; 255; 255; 255; 255; 255; 255; 255; 255; 255];
  [255; 255; 255; 0; 255; 255; 255; 30; 255; 255; 255; 255; 31; 255; 255; 255;
   17; 23; 5; 18; 20; 25; 21; 9; 15; 16; 27; 29; 10; 255; 1; 19;
   4; 6; 7; 8; 10; 11; 12; 255; 255; 255; 255; 28; 26; 24; 3; 22;
   2; 14; 13; 255; 255; 255; 255; 255; 255; 0; 255; 255; 255; 255; 255; 255;
   255; 255; 255; 255; 255; 255; 255; 255; 255; 255; 255; 255; 255; 255; 255; 255;
   255; 255; 255; 255; 255; 255; 255; 255; 255; 255; 255; 255; 255; 255; 255; 255]].

(** [char type[96]]: the keys caps lock (1) and num lock (2) apply to. *)
Definition keytype : list Z :=
  [0; 0; 0; 0; 0; 0; 0; 0; 0; 0; 0; 0; 0; 0; 0; 0; 1; 1; 1; 1; 1; 1; 1; 1; 1; 1; 0; 0; 0; 0; 1; 1;
   1; 1; 1; 1; 1; 1; 1; 0; 0; 0; 0; 0; 1; 1; 1; 1; 1; 1; 1; 0; 0; 0; 0; 0; 0; 0; 0; 0; 0; 0; 0; 0;
   0; 0; 0; 0; 0; 0; 0; 2; 2; 2; 0; 2; 2; 2; 0; 2; 2; 2; 2; 2; 0; 0; 0; 0; 0; 0; 0; 0; 0; 0; 0; 0].

(** The kernel's state [cw], the screen [cs] and the other statics. *)
Record con := mkcon {
  cw : world; cs : screen;
  c_init : Z; c_cmd : Z; c_led : Z; c_tout : Z; c_beepon : Z;
  c_ctrl : Z; c_shift : Z; c_lock : Z;
  msgbuf : list Z; msgbufp : nat
}.
#[export] Instance eta_con : Eta con := fun r =>
  mkcon (cw r) (cs r) (c_init r) (c_cmd r) (c_led r) (c_tout r) (c_beepon r) (c_ctrl r) (c_shift r)
    (c_lock r) (msgbuf r) (msgbufp r).
Abbreviation CON := (M con).

Definition cf {A} (f : con -> A) : CON A := gets f.
Definition cset {T} (f : con -> T) {S : Setter f} (v : T) : CON unit := modify (setf f (fun _ => v)).

(** A routine of the kernel, or of the screen. *)
Definition within {T A} (f : con -> T) {S : Setter f} (m : M T A) : CON A := fun c =>
  let put t := c <| f := t |> in
  match m (f c) with
  | Ret a t => Ret a (put t)
  | Panic msg t => Panic msg (put t)
  | Longjmp t => Longjmp (put t)
  | Asleep t => Asleep (put t)
  | Fault => Fault
  | NoFuel => NoFuel
  end.
Definition kernel_ {A} (m : KM A) : CON A := within cw m.
Definition screen_ {A} (m : SM A) : CON A := within cs m.

Section Console.
Context {MC : Machine}.
Context (inb : Z -> KM Z) (outb : Z -> Z -> KM unit) (cli sti : KM unit).
(** The console's terminal, and the numbers of [scxint] and [beepoff]. *)
Context (sc scxint_fn beepoff_fn : nat).

(** ** The bell *)

Definition beepoff : CON unit :=
  x <- kernel_ (inb 97) ;; kernel_ (outb 97 (clr x 3)) ;;; cset c_beepon 0.

Definition beep : CON unit :=
  s <- kernel_ spl7 ;;
  on <- cf c_beepon ;;
  when (negb (tst on))
    (cset c_beepon 1 ;;;
     kernel_ cli ;;;
     kernel_ (outb 67 182) ;;; kernel_ (outb 66 BEEPPT) ;;; kernel_ (outb 66 (Z.shiftr BEEPPT 8)) ;;;
     kernel_ sti ;;;
     x <- kernel_ (inb 97) ;; kernel_ (outb 97 (Z.lor x 3)) ;;;
     kernel_ (timeout beepoff_fn 0 BEEPTM)) ;;;
  kernel_ (splx s).

(** ** The screen *)

Definition move_cursor : CON unit :=
  p <- cf (fun c => pos (cs c)) ;;
  kernel_ (outb SCRPRT 14 ;;; outb (SCRPRT + 1) (Z.shiftr p 8) ;;;
           outb SCRPRT 15 ;;; outb (SCRPRT + 1) p).

Definition scputc (ch : Z) : CON unit :=
  let ch := Z.land ch 127 in
  s <- cf (fun c => st (cs c)) ;;
  if (s =? 0) && (ch =? 7) then beep
  else moved <- screen_ (sc_char ch) ;; when moved move_cursor.

(** [putchar(c)] of the kernel's messages: kept for later, and shown. *)
Definition putchar (c : Z) : CON unit :=
  when (tst c && negb (c =? 13))
    (p <- cf msgbufp ;; l <- cf msgbuf ;; the (l !! p) ;;;
     cset msgbuf (<[p := s8 c]> l) ;;;
     cset msgbufp (if Nat.leb MSGBUFS (S p) then 0%nat else S p)) ;;;
  on <- cf (fun c => curs (cs c)) ;;
  when (negb (tst on)) (scputc c).

(** ** The keyboard *)

Definition kbput (prt cmd : Z) : CON unit :=
  i <- loop (Z.to_nat (TOV + 1)) (fun i =>
    if tst i then
      x <- kernel_ (inb KST) ;; ret (if x &? KIB then inl (i - 1) else inr i)
    else ret (inr i)) TOV ;;
  when (i =? 0) (kernel_ (printf "sc: keyboard write timeout")) ;;;
  kernel_ (outb prt cmd).

(** The character of a key: [map[x][sn]]. *)
Definition key_char (sn : Z) : CON Z :=
  ctrl <- cf c_ctrl ;; shift <- cf c_shift ;; lock <- cf c_lock ;;
  ty <- the (keytype !! Z.to_nat sn) ;;
  let x := if tst ctrl then 2
           else if (lock &? LCAP) && (ty =? 1) || (lock &? LNUM) && (ty =? 2)
                then Z.lxor shift 1 else shift in
  row <- the (keymap !! Z.to_nat x) ;; the (row !! Z.to_nat sn).

(** What is made of it: a key that sends an escape has bit 7 set. *)
Definition key_input (ch : Z) : CON unit :=
  when (negb (ch =? 255))
    (if ch &? 128 then kernel_ (ttyinput 27 sc) ;;; kernel_ (ttyinput (Z.land ch 127) sc)
     else kernel_ (ttyinput ch sc)).

Definition key_code (sn : Z) : CON unit :=
  if (sn =? 0) || (sn =? 255) then beep
  else if sn =? 250 then
    cmd <- cf c_cmd ;;
    if cmd =? 2 then cset c_cmd 3 ;;; l <- cf c_led ;; kbput KDT l
    else when (cmd =? 0) (kernel_ (printf "sc: ack without command")) ;;; cset c_cmd 0
  else if sn =? 254 then kernel_ (printf "sc: nack") ;;; cset c_cmd 0
  else if sn =? 29 then cset c_ctrl 1
  else if sn =? 157 then cset c_ctrl 0
  else if (sn =? 42) || (sn =? 54) then cset c_shift 1
  else if (sn =? 170) || (sn =? 182) then cset c_shift 0
  else if sn =? 58 then l <- cf c_lock ;; cset c_lock (Z.lxor l LCAP)
  else if sn =? 69 then l <- cf c_lock ;; cset c_lock (Z.lxor l LNUM)
  else if sn =? 70 then l <- cf c_lock ;; cset c_lock (Z.lxor l LSCR)
  else when (sn <? 96) (ch <- key_char sn ;; key_input ch).

(** A change of the locks is shown by the lights, one command at a time. *)
Definition set_leds : CON unit :=
  led <- cf c_led ;; lock <- cf c_lock ;; cmd <- cf c_cmd ;;
  when (negb (led =? lock) && (cmd =? 0))
    (cset c_led lock ;;; cset c_cmd 2 ;;; kbput KDT 237).

Definition scrint : CON unit :=
  loop 1025 (fun i =>
    if negb (tst i) then ret (inr tt)
    else
      st <- kernel_ (inb KST) ;;
      if negb (st &? KOB) then ret (inr tt)
      else
        sn <- kernel_ (inb KDT) ;;
        (if st &? Z.lor KTO KPE then ret tt else key_code sn ;;; set_leds) ;;;
        ret (inl (i - 1))) 1024.

Definition scinit : CON unit := cset c_led (-1) ;;; cset c_cmd 1 ;;; kbput KDT 246.

(** ** The terminal *)

Definition scxint : CON unit :=
  cset c_tout 0 ;;;
  kernel_
    (ttstart sc ;;;
     asleep <- thas sc ASLEEP ;;
     n <- qcount sc t_outq ;;
     when (asleep && (n <=? TTLOWAT)) (tclr sc ASLEEP ;;; wakeup (COutq sc))).

Definition scstart (tp : nat) : CON unit :=
  n <- kernel_ (qcount tp t_outq) ;;
  i <- loop (S (Z.to_nat n)) (fun i =>
    c <- kernel_ (onq tp t_outq getc) ;;
    if 0 <=? c then
      fl <- kernel_ (tf tp t_flags) ;;
      when ((fl &? RAW) || (c <=? 127)) (scputc c) ;;;
      ret (inl (i + 1))
    else ret (inr i)) 0 ;;
  tout <- cf c_tout ;;
  when (tst i && negb (tst tout)) (cset c_tout 1 ;;; kernel_ (timeout scxint_fn 0 2)).

(** [t_addr], and [t_oproc] which is the machine's, are not kept. *)
Definition scopen (dev flag : Z) : CON unit :=
  if 0 <? minor dev then kernel_ (set_error ENXIO)
  else
    i <- cf c_init ;;
    when (negb (tst i)) (scinit ;;; j <- cf c_init ;; cset c_init (j + 1)) ;;;
    kernel_
      (open <- thas sc ISOPEN ;;
       when (negb open)
         (tset sc t_state (Z.lor ISOPEN CARR_ON) ;;;
          tset sc t_flags (Z.lor ECHO XTABS) ;;;
          ttychars sc) ;;;
       ttyopen dev sc).

Definition scclose (dev flag : Z) : CON unit := kernel_ (ttyclose sc).
Definition scread (dev : Z) : CON unit := kernel_ (ttread sc ;;; ret tt).
Definition scwrite (dev : Z) : CON unit := kernel_ (ttwrite sc ;;; ret tt).
Definition scioctl (dev cmd addr flag : Z) : CON unit :=
  kernel_ (r <- ttioccomm cmd sc addr dev ;; when (r =? 0) (set_error ENOTTY)).

End Console.

(** ** What the driver does *)

Section Correct.
Context {MC : Machine}.
Context (inb : Z -> KM Z) (outb : Z -> Z -> KM unit) (cli sti : KM unit) (sc beepoff_fn : nat).

Lemma kernel_ret {A} (m : KM A) a c : m (cw c) = Ret a (cw c) -> kernel_ m c = Ret a c.
Proof. intros E. unfold kernel_, within. rewrite E. by destruct c. Qed.

Lemma screen_ret {A} (m : SM A) a s c : m (cs c) = Ret a s -> screen_ m c = Ret a (c <| cs := s |>).
Proof. intros E. unfold screen_, within. by rewrite E. Qed.

Lemma move_cursor_ok c : (forall port v w, outb port v w = Ret tt w) -> move_cursor outb c = Ret tt c.
Proof.
  intros Ho. unfold move_cursor. erewrite bind_ret_eq by reflexivity. cbn beta. apply kernel_ret.
  do 3 (erewrite bind_ret_eq by apply Ho; cbn beta). apply Ho.
Qed.

Lemma scputc_ok c ch : (forall port v w, outb port v w = Ret tt w) -> wf (cs c) ->
  ~ (st (cs c) = 0 /\ Z.land ch 127 = 7) ->
  let s := driven (Z.land ch 127) (cs c) in
  scputc inb outb cli sti beepoff_fn ch c = Ret tt (c <| cs := s |>) /\ wf s.
Proof.
  intros Ho Hw Hb s. assert (0 <= Z.land ch 127 < 128) as Hch.
  { rewrite (land_ones_mod _ 7) by lia. apply Z.mod_pos_bound. lia. }
  destruct (sc_char_ok _ _ Hw Hch) as [E Hs]. split; [|done].
  unfold scputc. erewrite bind_ret_eq by reflexivity. cbn beta zeta.
  rewrite (proj2 (andb_false_iff _ _)) by (rewrite !Z.eqb_neq; destruct (decide (st (cs c) = 0)); [right|left]; tauto).
  erewrite bind_ret_eq by (apply screen_ret; exact E). cbn beta.
  destruct (vt _ _).2; cbn [when]; [|done]. by apply move_cursor_ok.
Qed.

(** A key that [map] has no character for: [map] is of signed characters,
    which never are 0xff, and -1 has bit 7 set. *)
Lemma key_unmapped ch : s8 ch = -1 ->
  key_input sc (s8 ch) = (kernel_ (ttyinput 27 sc) ;;; kernel_ (ttyinput 127 sc)).
Proof. intros ->. done. Qed.

End Correct.

(** ** Text on the console *)

Section Text.
Context {MC : Machine}.
Context (inb : Z -> KM Z) (outb : Z -> Z -> KM unit) (cli sti : KM unit) (sc beepoff_fn : nat).

Definition shown_as (va : Z) (text : list Z) : list Z := map (fun ch => s16 (Z.lor va ch)) text.
Definition printable (ch : Z) : Prop := 32 <= ch < 127.

(** A screen at rest between characters, in scrolling mode. *)
Definition idle (s : screen) : Prop := wf s /\ st s = 0 /\ curs s = 0.

Lemma printable_low ch : printable ch -> Z.land ch 127 = ch.
Proof. intros H. rewrite (land_ones_mod _ 7) by lia. apply Z.mod_small. unfold printable in H. cbn. lia. Qed.

Lemma vt_printable s ch : idle s -> printable ch -> pos s < 1999 -> (vt ch s).1 = put ch s.
Proof.
  intros ([Hc Hp Hv] & Hst & _) Hch Hlt. unfold printable in Hch. unfold vt. rewrite Hst. cbn [Z.eqb].
  rewrite bool_decide_false by (rewrite !not_elem_of_cons; repeat split; try lia; apply not_elem_of_nil).
  rewrite (proj2 (Z.eqb_neq ch 27)) by lia. cbn [fst]. unfold typed.
  rewrite !(proj2 (Z.eqb_neq ch _)) by lia.
  unfold glyph. rewrite (proj2 (Z.leb_gt ch 25)), andb_false_r by lia.
  unfold settled. cbv zeta. cbn [pos put setf]. rewrite (proj2 (Z.leb_gt 2000 _)) by lia.
  destruct s. cbn in Hst. by subst.
Qed.

Lemma driven_vt s ch : ch <> 9 -> driven ch s = (vt ch s).1.
Proof. intros H. unfold driven, tab_lost. by rewrite (proj2 (Z.eqb_neq ch 9)), andb_false_r by done. Qed.

(** A run of printable characters that ends before the last cell. *)
Lemma putcs_ok text c : (forall port v w, outb port v w = Ret tt w) -> idle (cs c) -> Forall printable text ->
  pos (cs c) + Z.of_nat (length text) < 2000 ->
  exists s, for_ text (scputc inb outb cli sti beepoff_fn) c = Ret tt (c <| cs := s |>) /\ idle s /\
    scr s = splice (Z.to_nat (pos (cs c))) (shown_as (va (cs c)) text) (scr (cs c)) /\
    pos s = pos (cs c) + Z.of_nat (length text) /\ va s = va (cs c).
Proof.
  intros Ho. revert c. induction text as [|ch text IH]; intros c Hi Ht Hl.
  - exists (cs c). split; [by destruct c|]. split; [done|]. split; [|split; [cbn; lia|done]].
    unfold splice. cbn [length shown_as map]. rewrite Nat.add_0_r. symmetry. apply take_drop.
  - apply Forall_cons in Ht as [Hch Ht]. cbn [length] in Hl. cbn [for_].
    destruct (Hi) as (Hw & Hst & Hcu). destruct (Hw) as [[Hlen _] Hp _].
    destruct (scputc_ok inb outb cli sti beepoff_fn c ch Ho Hw) as [E Hw1].
    { rewrite printable_low by done. unfold printable in Hch. lia. }
    unfold printable in Hch. rewrite printable_low, driven_vt, vt_printable in E, Hw1 by (done || lia).
    erewrite bind_ret_eq by exact E. cbn beta.
    destruct (IH (c <| cs := put ch (cs c) |>)) as (s & E2 & H1 & H2 & H3 & H4); [by split|done|cbn; lia|].
    exists s. split; [by destruct c|]. split; [done|]. split; [|split; [rewrite H3; cbn; lia|done]].
    assert (scr s = splice (Z.to_nat (pos (cs c) + 1)) (shown_as (va (cs c)) text)
      (<[Z.to_nat (pos (cs c)) := s16 (Z.lor (va (cs c)) ch)]> (scr (cs c)))) as -> by exact H2.
    cbn [length] in *. unfold splice, shown_as. cbn [map length]. rewrite !length_map.
    replace (Z.to_nat (pos (cs c) + 1)) with (S (Z.to_nat (pos (cs c)))) by lia.
    rewrite (take_S_r _ _ (s16 (Z.lor (va (cs c)) ch))) by (apply list_lookup_insert_eq; lia).
    rewrite take_insert_ge, drop_insert_lt by lia. rewrite <- app_assoc. cbn [app]. do 3 f_equal. f_equal. lia.
Qed.

(** A new line from the last row: the rows move up and the cursor is at the
    start of a blank one. *)
Lemma newline_scrolls s : idle s -> 1920 <= pos s -> (vt 10 s).1 = moved_to 1920 (row_out 0 s).
Proof.
  intros ([Hc Hp Hv] & Hst & Hcu) Hlo. change CHRS with 2000 in Hp. unfold vt. rewrite Hst. cbn [Z.eqb].
  change (bool_decide (10 ∈ [0; 7; 11])) with false.
  change (10 =? 27) with false. cbn [fst]. change (typed 10 s) with (moved_to (pos s + 80 - (if tst (curs s) then 0 else column s)) s).
  rewrite Hcu. change (tst 0) with false. cbv iota.
  assert (column s = pos s - 1920) as ->.
  { unfold column. replace (pos s) with (pos s - 1920 + 24 * 80) at 1 by lia. rewrite Z.mod_add by lia. apply Z.mod_small. lia. }
  replace (pos s + 80 - (pos s - 1920)) with 2000 by lia. destruct s. cbn in Hst. by subst.
Qed.

Lemma line_ok c text : (forall port v w, outb port v w = Ret tt w) -> idle (cs c) -> pos (cs c) = 1920 ->
  Forall printable text -> Z.of_nat (length text) < 80 ->
  exists s, for_ (text ++ [10]) (scputc inb outb cli sti beepoff_fn) c = Ret tt (c <| cs := s |>) /\ idle s /\ pos s = 1920 /\
    va s = va (cs c) /\
    scr s = sub 80 1840 (scr (cs c)) ++ shown_as (va (cs c)) text ++ drop (1920 + length text) (scr (cs c)) ++
            replicate 80 (blank (cs c)).
Proof.
  intros Ho Hi Hp Ht Hlen.
  destruct (putcs_ok text c Ho Hi Ht) as (s1 & E1 & Hi1 & H1 & H2 & H3); [lia|]. rewrite Hp in H1, H2.
  destruct (Hi1) as (Hw1 & Hst1 & Hcu1).
  set (c1 := c <| cs := s1 |>) in *. assert (cs c1 = s1) as Ec by done.
  destruct (scputc_ok inb outb cli sti beepoff_fn c1 10 Ho) as [E2 Hw2]; [by rewrite Ec|by intros [_ ?]|].
  change (Z.land 10 127) with 10 in E2, Hw2. rewrite Ec in E2, Hw2.
  rewrite driven_vt, newline_scrolls in E2, Hw2 by (done || lia).
  exists (moved_to 1920 (row_out 0 s1)). split; [|split; [done|split; [done|split; [done|]]]].
  - rewrite (for_app _ _ _ _ _ E1). cbn [for_]. erewrite bind_ret_eq by exact E2. cbn beta. by destruct c.
  - change (scr (moved_to 1920 (row_out 0 s1))) with (drop 80 (scr s1) ++ replicate 80 (blank s1)).
    assert (blank s1 = blank (cs c)) as -> by (unfold blank; by rewrite H3).
    destruct Hi as ([[Hl _] _ _] & _). rewrite H1. unfold splice. change (Z.to_nat 1920) with 1920%nat.
    rewrite drop_app_le by (rewrite length_take; lia). unfold sub. rewrite take_drop_commute.
    unfold shown_as. by rewrite length_map, <- !app_assoc.
Qed.
End Text.

(** ** Properties *)

(** C22. [scputc], given any character but the bell, never touches a cell
    outside the screen and does what the reference terminal [vt] does: text
    overwrites cells in the current attribute, a row or a character put in or
    taken out moves those after it, and a cursor that leaves the screen
    brings up a new last row.  One thing it does not do: a tab below the
    first row, short of the row's last stop, is lost, where the terminal
    writes blanks up to the next stop.  The cursor is on the screen again
    afterwards, with an attribute of the table. *)
Theorem scputc_correct (inb : Z -> KM Z) (outb : Z -> Z -> KM unit) (cli sti : KM unit) (beepoff_fn : nat) c ch :
  (forall port v w, outb port v w = Ret tt w) -> wf (cs c) -> ~ (st (cs c) = 0 /\ Z.land ch 127 = 7) ->
  let s := (vt (Z.land ch 127) (cs c)).1 in
  if tab_lost (Z.land ch 127) (cs c) then
    scputc inb outb cli sti beepoff_fn ch c = Ret tt c /\
    80 <= pos (cs c) /\ pos s = pos (cs c) + (8 - column (cs c) mod 8)
  else scputc inb outb cli sti beepoff_fn ch c = Ret tt (c <| cs := s |>) /\ wf s.
Proof.
  intros Ho Hw Hb s. destruct (scputc_ok inb outb cli sti beepoff_fn c ch Ho Hw Hb) as [E Hs].
  unfold driven in E, Hs. destruct (tab_lost _ _) eqn:Et; [|done].
  split; [by rewrite E; destruct c|]. by apply tab_moves.
Qed.

(** C23. A line of printable text shorter than a row, typed at the start of
    the last row and ended by a new line: the rows above move up by one, the
    text is in the row above the last one, in the current attribute and over
    what was there, the last row is blank, and the cursor is at its start. *)
Theorem line_scrolls (inb : Z -> KM Z) (outb : Z -> Z -> KM unit) (cli sti : KM unit) (beepoff_fn : nat) c text :
  (forall port v w, outb port v w = Ret tt w) -> idle (cs c) -> pos (cs c) = LROW ->
  Forall printable text -> Z.of_nat (length text) < COLS ->
  exists s,
    for_ (text ++ [10]) (scputc inb outb cli sti beepoff_fn) c = Ret tt (c <| cs := s |>) /\
    idle s /\ pos s = LROW /\ va s = va (cs c) /\
    scr s = sub 80 1840 (scr (cs c)) ++ shown_as (va (cs c)) text ++ drop (1920 + length text) (scr (cs c)) ++
            replicate 80 (blank (cs c)).
Proof. apply line_ok. Qed.

(** The screen the driver starts with, full of points. *)
Definition screen0 : screen := mkscreen (replicate 2000 1838) LROW 1792 0 0 0 0 0.
Definition con0 : con := mkcon terminal_world screen0 0 0 0 0 0 0 0 0 (replicate MSGBUFS 0) 0.
Lemma screen0_idle : idle screen0.
Proof.
  split; [|done]. split; [|done|done]. split; [apply length_replicate|]. apply Forall_replicate. lia.
Qed.
Definition no_port (port v : Z) : KM unit := ret tt.

Lemma scputc_correct_witness :
  scputc (fun _ => ret 0) no_port (ret tt) (ret tt) 0 10 con0 = Ret tt (con0 <| cs := (vt 10 screen0).1 |>) /\
  wf (vt 10 screen0).1.
Proof.
  apply (scputc_correct (fun _ => ret 0) no_port (ret tt) (ret tt) 0 con0 10); [done|apply screen0_idle|by intros [_ ?]].
Defined.

Lemma line_scrolls_witness :
  exists s,
    for_ [104; 105; 10] (scputc (fun _ => ret 0) no_port (ret tt) (ret tt) 0) con0 = Ret tt (con0 <| cs := s |>) /\
    idle s /\ pos s = LROW /\ va s = 1792 /\
    scr s = sub 80 1840 (scr screen0) ++ [1896; 1897] ++ drop 1922 (scr screen0) ++ replicate 80 1824.
Proof.
  apply (line_scrolls (fun _ => ret 0) no_port (ret tt) (ret tt) 0 con0 [104; 105]); [done|apply screen0_idle|done| |done].
  repeat constructor; done.
Defined.
