(* ===== verification/Trap.v ===== *)
(** * Trap: traps and system calls ([sys/trap.c], [sys/sysent.c])

    A trap from the user's program ends in a signal, in a larger stack, or
    in a system call; before returning to the program the kernel delivers
    signals and may give the processor away.  The saved registers are
    [u_ar0]; the rest of the frame the processor saved are the arguments.  The
    floating-point instructions that save and restore the coprocessor's state
    are parameters. *)

From S2P Require Import Prelude Bytes State Utab Sched SysFile SysMisc Fio SysProc Tty Nami Text Clock.

Definition EBIT : Z := 1.
Definition USER : Z := 128.

(** [if (save(u.u_qsav)) h else m]: [h] is where [sleep] goes when a signal
    ends it. *)
Definition save_qsav (m h : KM unit) : KM unit := fun w =>
  match m w with Longjmp w' => h w' | o => o end.

(** What a trap of the user's program calls for: by its number, which the
    processor assigns. *)
Inductive trap_kind := Sig (n : Z) | Trace | NoFpu | PageFault | Resched | FpuKernel | FpuUser | SysCall | Unexpected.
Definition trap_kind_of (dev : Z) (user : bool) : trap_kind :=
  let n := minor (if user then Z.lor dev USER else dev) in
  if bool_decide (n ∈ [0 + USER; 4 + USER; 5 + USER]) then Sig SIGFPT
  else if bool_decide (n ∈ [1 + USER; 3 + USER]) then Trace
  else if bool_decide (n ∈ [6 + USER; 9 + USER]) then Sig SIGINS
  else if n =? 7 + USER then NoFpu
  else if bool_decide (n ∈ [8 + USER; 10 + USER; 11 + USER; 12 + USER; 13 + USER]) then Sig SIGBUS
  else if n =? 14 + USER then PageFault
  else if n =? 15 + USER then Resched
  else if n =? 16 then FpuKernel
  else if n =? 16 + USER then FpuUser
  else if n =? 48 + USER then SysCall
  else Unexpected.

Section Trap.
Context {MC : Machine}.
Context (stst restfp : KM unit).

Definition nosys : KM unit := set_error EINVAL.
Definition nullsys : KM unit := ret tt.
Definition stray (dev : Z) : KM unit := printf "stray interrupt %d ignored".
(** [sysphys()] of [machdep.c] *)
Definition sysphys : KM unit :=
  b <- suser ;; if negb b then ret tt else set_error EINVAL.

(** [sysent]: the number of arguments and the handler of each call. *)
Definition sysent : list (nat * KM unit) :=
  [(0, nullsys); (1, rexit); (0, fork); (3, read); (3, write); (2, open); (1, close); (0, wait);
   (2, creat); (2, link); (1, unlink); (2, exec); (1, chdir); (0, gtime); (3, mknod); (2, chmod);
   (3, chown); (1, sbreak); (2, stat); (4, seek); (0, getpid); (3, smount); (1, sumount); (1, setuid);
   (0, getuid); (2, stime); (4, ptrace); (1, alarm); (2, fstat); (0, pause); (2, utime); (2, stty);
   (2, gtty); (2, saccess); (1, nice); (1, ftime); (0, sync); (2, kill); (0, nullsys); (0, nullsys);
   (1, nosys); (2, dup); (0, pipe); (1, times); (4, profil); (0, nosys); (1, setgid); (0, getgid);
   (2, ssig); (0, nosys); (0, nosys); (1, sysacct); (3, sysphys); (1, syslock); (3, ioctl); (0, nosys);
   (4, mpxchan); (0, nosys); (0, nosys); (3, exece); (1, umask); (1, chroot); (0, nosys); (0, nosys)]%nat.

(** [u.u_arg[i] = fuword((caddr_t)a++)] *)
Definition fetch_args (n : nat) (a : Z) : KM unit :=
  for_ (seq 0 n) (fun i => v <- fuword (UA (u32 (a + 4 * Z.of_nat i))) ;; set_arg i v).

(** How a call's result goes back to the user. *)
Definition sys_result : KM unit :=
  us <- uf (fun r => r) ;;
  if tst (u_error us) then
    reg_set (fun g => g <| r_efl ::= fun f => Z.lor f EBIT |> <| r_eax := u_error us |>)
  else reg_set (fun g => g <| r_eax := u_r_val1 us |> <| r_edx := u_r_val2 us |>).

Definition syscall : KM unit :=
  uset u_error 0 ;;;
  reg_set (fun g => g <| r_efl ::= fun f => clr f EBIT |>) ;;;
  g <- uf u_ar0 ;;
  callp <- the (sysent !! Z.to_nat (Z.land (r_eax g) 63)) ;;
  fetch_args callp.1 (r_esp g + 4) ;;;
  a0 <- arg 0 ;; uset u_dirp a0 ;;;
  uset u_r_val1 0 ;;; uset u_r_val2 0 ;;;
  save_qsav callp.2 (e <- uf u_error ;; when (e =? 0) (uset u_error EINTR)) ;;;
  sys_result.

(** From the label [out] on: [syst] is the system time at the trap. *)
Definition trap_out (syst : Z) : KM unit :=
  i <- issig ;;
  when (tst i) psig ;;;
  p <- uf u_procp ;;
  c <- setpri p ;; kset curpri (s8 c) ;;;
  rr <- kf runrun ;;
  when (tst rr) qswtch ;;;
  us <- uf (fun r => r) ;;
  when (tst (pr_scale us)) (addupc (r_eip (u_ar0 us)) (s32 (u_stime us - syst))) ;;;
  sv <- uf u_fpsaved ;;
  when (tst sv) restfp.

(** The signal for the trap, before the label [out]. *)
Definition trap_signal (i : Z) : KM unit :=
  printf "** SIGNAL %d **" ;;;
  p <- uf u_procp ;; psignal p i.

(** [trap(tr)]: [dev] and [cs] are those members of [tr]. *)
Definition trap (dev cs : Z) : KM unit :=
  syst <- uf u_stime ;;
  uset u_fpsaved 0 ;;;
  match trap_kind_of dev (USERMODE cs) with
  | Unexpected =>
      for_ ["eax=%x ecx=%x edx=%x ebx=%x"; "esp=%x ebp=%x esi=%x edi=%x"; "cr0=%x  cr2=%x  cr3=%x";
            "eip=%x  eflags=%x  err=%x"; "trap type %x"]%string printf ;;;
      panic "trap"
  | Sig i => trap_signal i ;;; trap_out syst
  | Trace =>
      reg_set (fun g => g <| r_efl ::= fun f => clr f TBIT |>) ;;;
      trap_signal SIGTRC ;;; trap_out syst
  | NoFpu => panic "fpu not available"
  | PageFault =>
      g <- uf u_ar0 ;;
      ok <- grow (u32 (r_esp g)) ;;
      when (negb ok) (trap_signal SIGSEG) ;;; trap_out syst
  | Resched => trap_out syst
  | FpuKernel => stst ;;; p <- uf u_procp ;; psignal p SIGFPT
  | FpuUser => stst ;;; trap_signal SIGFPT ;;; trap_out syst
  | SysCall => syscall ;;; trap_out syst
  end.

End Trap.

(** ** What a system call does *)

(** The word the kernel reads at an address of the user's; -1 if none. *)
Definition user_word (k : kernel) (a : Z) : Z :=
  if ureach a 4 then
    match ubyte k a, ubyte k (a + 1), ubyte k (a + 2), ubyte k (a + 3) with
    | Some b0, Some b1, Some b2, Some b3 => word_of b0 b1 b2 b3
    | _, _, _, _ => -1
    end
  else -1.

Lemma fuword_ok w a : fuword (UA a) w = Ret (user_word (ks w) a) w.
Proof. done. Qed.

Lemma set_arg_ok w i v x : u_arg (u w) !! i = Some x ->
  set_arg i v w = Ret tt (w <| u ::= fun r => r <| u_arg ::= <[i := v]> |> |>).
Proof.
  intros H. unfold set_arg. erewrite bind_ret_eq; [reflexivity|].
  unfold arg, uf, gets, bind. by rewrite H.
Qed.

Lemma arg_ok w i x : u_arg (u w) !! i = Some x -> arg i w = Ret x w.
Proof. intros H. unfold arg, uf, gets, bind. by rewrite H. Qed.
Lemma lookup_head (l : list Z) : (0 < length l)%nat -> l !! 0%nat = Some (nth 0 l 0).
Proof. destruct l; cbn; [lia|done]. Qed.

(** The [n] words above the return address on the user's stack. *)
Definition stack_args (k : kernel) (esp : Z) (n : nat) : list Z :=
  map (fun i => user_word k (u32 (esp + 4 + 4 * Z.of_nat i))) (seq 0 n).

Lemma fetch_from (n : nat) a : forall s w, (s + n <= length (u_arg (u w)))%nat ->
  for_ (seq s n) (fun i => v <- fuword (UA (u32 (a + 4 * Z.of_nat i))) ;; set_arg i v) w =
  Ret tt (w <| u ::= fun r => r <| u_arg ::= fun l => take s l ++
    map (fun i => user_word (ks w) (u32 (a + 4 * Z.of_nat i))) (seq s n) ++ drop (s + n) l |> |>).
Proof.
  induction n as [|n IH]; intros s w Hl.
  - cbn. rewrite Nat.add_0_r. unfold ret. f_equal. destruct w as [[] ? ?]. cbn. by rewrite take_drop.
  - destruct (lookup_lt_is_Some_2 (u_arg (u w)) s) as [x Hx]; [lia|].
    cbn [seq for_]. erewrite bind_ret_eq.
    2: { erewrite bind_ret_eq by apply fuword_ok. cbn beta. by apply (set_arg_ok _ _ _ x). }
    rewrite IH by (cbn; rewrite length_insert; lia). f_equal.
    destruct w as [[] kk ?]. cbn -[seq] in *. do 2 f_equal. cbn [seq map].
    rewrite take_S_r with (x := user_word kk (u32 (a + 4 * Z.of_nat s))) by (apply list_lookup_insert_eq; lia).
    rewrite take_insert_ge, drop_insert_lt by lia.
    rewrite <- app_assoc. by rewrite <- plus_n_Sm.
Qed.

Section Syscall.
Context {MC : Machine}.

(** Where the handler of a call of [n] arguments starts. *)
Definition entered (n : nat) (w : world) : world :=
  let l := stack_args (ks w) (r_esp (u_ar0 (u w))) n ++ drop n (u_arg (u w)) in
  w <| u ::= fun r => r <| u_error := 0 |> <| u_ar0 ::= fun g => g <| r_efl ::= fun f => clr f EBIT |> |>
         <| u_arg := l |> <| u_dirp := nth 0 l 0 |> <| u_r_val1 := 0 |> <| u_r_val2 := 0 |> |>.

(** What the user's program sees of the state a handler ends in: the carry
    and the error number, or the two results. *)
Definition answered (w : world) : world :=
  let r := u w in
  w <| u ::= fun r => r <| u_ar0 ::= fun g =>
    if u_error r =? 0 then g <| r_eax := u_r_val1 r |> <| r_edx := u_r_val2 r |>
    else g <| r_efl ::= fun f => Z.lor f EBIT |> <| r_eax := u_error r |> |> |>.
Definition interrupted (w : world) : world :=
  if u_error (u w) =? 0 then w <| u ::= fun r => r <| u_error := EINTR |> |> else w.

Lemma sysent_at n : 0 <= n < 64 ->
  exists k h, sysent !! Z.to_nat n = Some (k, h) /\ (k <= 4)%nat.
Proof.
  intros Hn. assert (Forall (fun e : nat * KM unit => (e.1 <= 4)%nat) sysent) as Ha.
  { unfold sysent. repeat constructor. }
  destruct (lookup_lt_is_Some_2 sysent (Z.to_nat n)) as [[k h] E]; [cbn; lia|].
  exists k, h. split; [done|]. by apply (Forall_lookup_1 _ _ _ _ Ha E).
Qed.

Lemma sys_result_ok w : sys_result w = Ret tt (answered w).
Proof.
  unfold sys_result, answered. erewrite bind_ret_eq by reflexivity. cbn beta.
  destruct w as [[] ? ?]. unfold tst. cbn. by destruct (_ =? 0).
Qed.

(** C26. A system call: whatever number the user asks for names an entry of
    the table; its handler is called with the words of the user's stack as
    its arguments and no error, and what it leaves is handed to the user —
    the two results, or the error number with the carry set.  A handler that
    was asleep and is ended by a signal fails with EINTR unless it had set
    another error; a panic or a wait without end is the handler's own. *)
Theorem syscall_correct (w : world) : length (u_arg (u w)) = 5%nat ->
  exists n h, sysent !! Z.to_nat (Z.land (r_eax (u_ar0 (u w))) 63) = Some (n, h) /\
    syscall w = match h (entered n w) with
                | Ret _ w' => Ret tt (answered w')
                | Longjmp w' => Ret tt (answered (interrupted w'))
                | o => o
                end.
Proof.
  intros Hl. destruct (sysent_at (Z.land (r_eax (u_ar0 (u w))) 63)) as (n & h & E & Hn).
  { change 63 with (Z.ones 6). rewrite Z.land_ones by lia. apply Z.mod_pos_bound. lia. }
  exists n, h. split; [done|]. unfold syscall.
  do 3 (erewrite bind_ret_eq by reflexivity; cbn beta).
  erewrite (bind_ret_eq _ _ _ (n, h)) by (cbn; by rewrite E). cbn beta iota zeta. cbn [fst snd].
  erewrite bind_ret_eq by (apply fetch_from; cbn; lia). cbn beta.
  erewrite bind_ret_eq by (apply arg_ok, lookup_head; cbn -[seq]; rewrite !length_app, length_map, length_seq, length_drop; cbn; lia).
  cbn beta. do 3 (erewrite bind_ret_eq by reflexivity; cbn beta).
  match goal with |- bind _ _ ?S = _ =>
    replace S with (entered n w) by (clear; destruct w as [[] ? ?]; reflexivity) end.
  unfold save_qsav, bind. destruct (h (entered n w)) as [[] w'| |w'| | |]; try done; [apply sys_result_ok|].
  unfold interrupted. rewrite <- sys_result_ok. cbn. by destruct (_ =? 0).
Qed.
End Syscall.

(** A program that asks for number 20, which is [getpid]. *)
Definition asks : world :=
  world0 <| ks ::= fun k => k <| procs := [proc0 <| p_pid := 7 |>] |> |>
         <| u ::= fun r => r <| u_ar0 ::= fun g => g <| r_eax := 20 |> |> |>.
Lemma syscall_correct_witness :
  exists n h, @sysent machine0 !! Z.to_nat (Z.land (r_eax (u_ar0 (u asks))) 63) = Some (n, h) /\
    @syscall machine0 asks = match h (entered n asks) with
                | Ret _ w' => Ret tt (answered w')
                | Longjmp w' => Ret tt (answered (interrupted w'))
                | o => o
                end.
Proof. apply (@syscall_correct machine0 asks). reflexivity. Defined.
