(* ===== verification/Boot.v ===== *)
(** * Boot: starting the system ([sys/main.c], [sys/machdep.c])

    [startup] frees the core there is, [readrtc] sets the time from the
    clock chip, and [main] makes process 0, the root's inodes and process 1.
    The ports, the first address after the kernel and the size of memory are
    parameters. *)

From S2P Require Import Prelude Malloc Clist Bytes State Sched Bio Alloc Inode Text Utab Nami SysFile SysMisc SysProc Tty.

(** The machine code of process 1, which executes [/etc/init]. *)
Definition icode : list Z :=
  [409604202; 196608106; 3439329280; 16706352; 24; 0; 1668572463; 1768843567; 116].
Definition szicode : Z := 36.

(** ** The clock chip *)

(** [cmos n a] is what register [a] holds when the [n]th reading is made. *)
Section Rtc.
Context (cmos : nat -> Z -> Z).

Abbreviation RM := (M nat).

Definition inrtc (a : Z) : RM Z := fun n => Ret (cmos n a) (S n).
(** Two decimal digits in a byte. *)
Definition getrtc (a : Z) : RM Z := x <- inrtc a ;; ret (Z.shiftr x 4 * 10 + Z.land x 15).

Definition days : list Z := [0; 31; 59; 90; 120; 151; 181; 212; 243; 273; 304; 334].

(** The time of a date; [dy] is [days[mt - 1]]. *)
Definition rtc_time (yr mt dm hr mn sc dy : Z) : Z :=
  let leap := if ((yr + 2) mod 4 =? 0) && (3 <=? mt) then 1 else 0 in
  s32 ((((yr * 365 + (yr + 1) / 4 + dy + leap + dm - 1) * 24 + hr) * 60 + mn) * 60 + sc).

(** [readrtc()]: the new time, or none when the chip has lost its power. The
    wait for the chip to finish an update is given [polls] rounds. *)
Definition readrtc (polls : nat) : RM (option Z) :=
  v <- inrtc 13 ;;
  if negb (v &? 128) then ret None
  else
    loop polls (fun _ : unit => x <- inrtc 10 ;; ret (if x &? 128 then inl tt else inr tt)) tt ;;;
    sc <- getrtc 0 ;; mn <- getrtc 2 ;; hr <- getrtc 4 ;;
    dm <- getrtc 7 ;; mt <- getrtc 8 ;; yr <- getrtc 9 ;;
    let yr := if 70 <=? yr then yr - 70 else yr + 30 in
    dy <- (if mt <? 1 then fault else the (days !! Z.to_nat (mt - 1))) ;;
    ret (Some (s32 (rtc_time yr mt dm hr mn sc dy + TIMEZONE * 60))).
End Rtc.

(** Readings made in the kernel's monad. *)
Definition read_chip {A} (m : M nat A) : KM A := fun w =>
  match m 0%nat with Ret a _ => Ret a w | Fault => Fault | _ => NoFuel end.

Section Boot.
Context {MC : Machine}.
Context (outb : Z -> Z -> KM unit) (cli sti : KM unit).
Context (cmos : nat -> Z -> Z) (polls : nat).
Context (kend phymem cfree : Z).

(** ** [machdep.c] *)

(** A page that is the kernel's, or of the adapter space from 640K to 1M. *)
Definition reserved (i : Z) : bool :=
  let j := btoc kend + 9 in
  ((16 <=? i) && (i <? j)) || ((160 <=? i) && (i <? 256)).

Definition free_core : KM unit :=
  for_ (seqZ 1 (phymem - 1)) (fun i =>
    if reserved i then ret tt
    else n <- kf maxmem ;; kset maxmem (s32 (n + 1)) ;;; mfree_core 1 i).

Definition startup : KM unit :=
  outb 1010 12 ;;;
  free_core ;;;
  printf "mem = %D" ;;;
  n <- kf maxmem ;; when (MAXMEM <? n) (kset maxmem MAXMEM) ;;;
  k <- kf nswap ;; mfree_swap k 1 ;;;
  lo <- kf swplo ;; kset swplo (s32 (lo - 1)).

Definition clkstart : KM unit :=
  let c := (1193181 + HZ / 2) / HZ in
  o <- read_chip (readrtc cmos polls) ;;
  match o with Some t => kset time t | None => ret tt end ;;;
  cli ;;;
  outb 67 54 ;;; outb 64 c ;;; outb 64 (Z.shiftr c 8) ;;;
  sti ;;;
  spl0.

(** ** [main.c] *)

(** [cinit()] on the kernel's cblocks, the array at [cfree]. *)
Definition cinit : KM unit := zoom cl (cinit_free cfree).

Definition proc0_setup : KM unit :=
  pset 0 p_addr (s16 (btoc kend + 7)) ;;;
  pset 0 p_size USIZE ;;;
  pset 0 p_stat SRUN ;;;
  f <- pf 0%nat p_flag ;; pset 0 p_flag (s8 (Z.lor f (Z.lor SLOAD SSYS))) ;;;
  pset 0 p_nice NZERO ;;;
  uset u_procp 0%nat ;;;
  uset u_cmask 0.

(** The root directory, for the kernel and for process 0. *)
Definition root_dirs : KM unit :=
  dev <- kf rootdev ;;
  o <- iget dev ROOTINO ;; ip <- the o ;;
  kset rootdir ip ;;; iclr ip ILOCK ;;;
  o <- iget dev ROOTINO ;; ip <- the o ;;
  uset u_cdir ip ;;; iclr ip ILOCK ;;;
  uset u_rdir None.

(** [main] up to [newproc]. *)
Definition main_setup : KM unit :=
  startup ;;; proc0_setup ;;; clkstart ;;; cinit ;;; binit ;;; iinit ;;; root_dirs.

(** [main] in process 1, after [newproc] has returned 1 in it. *)
Definition main_init : KM unit :=
  expand (USIZE + btoc szicode) ;;;
  estabur 0 (btoc szicode) 0 RO ;;;
  us <- uf (fun r => r) ;; k <- kf (fun k => k) ;;
  let '(k', _) := copyout us k (flat_map (bytes_of 4) icode) 0 in
  kmod (fun _ => k').

End Boot.

(** ** The calendar *)

Definition is_leap (y : Z) : bool :=
  ((y mod 4 =? 0) && negb (y mod 100 =? 0)) || (y mod 400 =? 0).
Definition month_days (y m : Z) : Z :=
  if m =? 2 then if is_leap y then 29 else 28
  else if bool_decide (m ∈ [4; 6; 9; 11]) then 30 else 31.
Definition sumZ (l : list Z) : Z := foldr Z.add 0 l.

(** The days of the years [1970..y-1] and of the months [1..m-1] of [y]. *)
Definition days_before (y m : Z) : Z :=
  sumZ (map (fun y => if is_leap y then 366 else 365) (seqZ 1970 (y - 1970))) +
  sumZ (map (month_days y) (seqZ 1 (m - 1))).
(** Seconds from the beginning of 1970. *)
Definition epoch (y m d h mi s : Z) : Z :=
  (days_before y m + d - 1) * 86400 + h * 3600 + mi * 60 + s.

Definition bcd (x : Z) : Z := 16 * (x / 10) + x mod 10.

Lemma bcd_decode x : 0 <= x < 100 -> Z.shiftr (bcd x) 4 * 10 + Z.land (bcd x) 15 = x.
Proof.
  intros Hx. unfold bcd. rewrite Z.shiftr_div_pow2 by lia.
  change 15 with (Z.ones 4). rewrite Z.land_ones by lia. change (2 ^ 4) with 16.
  pose proof (Z.mod_pos_bound x 10). pose proof (Z.div_mod x 10).
  rewrite <- (Z.div_unique (16 * (x / 10) + x mod 10) 16 (x / 10) (x mod 10)) by lia.
  rewrite <- (Z.mod_unique (16 * (x / 10) + x mod 10) 16 (x / 10) (x mod 10)) by lia. lia.
Qed.

(** The code's count of the days agrees with the calendar's, checked for
    each month of the hundred years that two digits stand for. *)
Definition code_days (y m : Z) : Z :=
  let yr := y - 1970 in
  yr * 365 + (yr + 1) / 4 + nth (Z.to_nat (m - 1)) days 0 +
  (if ((yr + 2) mod 4 =? 0) && (3 <=? m) then 1 else 0).

Lemma code_days_ok y m : 1970 <= y < 2070 -> 1 <= m <= 12 -> code_days y m = days_before y m.
Proof.
  intros Hy Hm.
  assert (forallb (fun y => forallb (fun m => code_days y m =? days_before y m) (seqZ 1 12))
            (seqZ 1970 100) = true) as H by (vm_compute; reflexivity).
  rewrite forallb_forall in H. specialize (H y). rewrite forallb_forall in H.
  apply Z.eqb_eq, H; [apply list_elem_of_In, elem_of_seqZ; lia|apply list_elem_of_In, elem_of_seqZ; lia].
Qed.

(** The chip shows the date and the time, in decimal digits, and settles at
    the [k]th look. *)
Record shows (cmos : nat -> Z -> Z) (k : nat) (y m d h mi s : Z) : Prop := {
  sh_power : cmos 0%nat 13 &? 128 = true;
  sh_busy : forall i, (1 <= i <= k)%nat -> cmos i 10 &? 128 = true;
  sh_ready : cmos (S k) 10 &? 128 = false;
  sh_date : forall n, (S k < n)%nat ->
    cmos n 0 = bcd s /\ cmos n 2 = bcd mi /\ cmos n 4 = bcd h /\ cmos n 7 = bcd d /\
    cmos n 8 = bcd m /\ cmos n 9 = bcd (y mod 100)
}.

Lemma days_at m : 1 <= m <= 12 -> days !! Z.to_nat (m - 1) = Some (nth (Z.to_nat (m - 1)) days 0).
Proof.
  intros Hm. destruct (lookup_lt_is_Some_2 days (Z.to_nat (m - 1))) as [x Hx]; [cbn; lia|].
  by rewrite Hx, (nth_lookup_Some _ _ _ _ Hx).
Qed.

Lemma days_range : Forall (fun x => 0 <= x <= 334) days.
Proof. by repeat constructor. Qed.

Lemma days_before_bound y m : 1970 <= y < 2038 -> 1 <= m <= 12 -> 0 <= days_before y m < 24820.
Proof.
  intros Hy Hm. rewrite <- code_days_ok by lia. unfold code_days.
  assert (0 <= nth (Z.to_nat (m - 1)) days 0 <= 334).
  { pose proof (Forall_lookup_1 _ _ _ _ days_range (days_at m Hm)) as E. cbn beta in E. lia. }
  pose proof (Z.div_mod (y - 1970 + 1) 4). pose proof (Z.mod_pos_bound (y - 1970 + 1) 4).
  destruct (_ && _); lia.
Qed.

Lemma getrtc_ok cmos n a x : cmos n a = bcd x -> 0 <= x < 100 ->
  getrtc cmos a n = Ret x (S n).
Proof. intros E Hx. unfold getrtc, inrtc, bind, ret. by rewrite E, bcd_decode. Qed.

Lemma rtc_poll cmos k : forall n polls, (k < polls)%nat ->
  (forall i, (n <= i < n + k)%nat -> cmos i 10 &? 128 = true) -> cmos (n + k)%nat 10 &? 128 = false ->
  loop polls (fun _ : unit => x <- inrtc cmos 10 ;; ret (if x &? 128 then inl tt else inr tt)) tt n
  = Ret tt (S (n + k)).
Proof.
  induction k as [|k IH]; intros n polls Hp Hb Hr; destruct polls as [|polls]; try lia.
  - eapply loop_done. unfold inrtc, bind, ret. rewrite Nat.add_0_r in *. by rewrite Hr.
  - erewrite loop_next.
    2: { unfold inrtc, bind, ret. by rewrite Hb by lia. }
    rewrite (IH (S n)); [f_equal; lia|lia| |].
    + intros i Hi. apply Hb. lia.
    + by replace (S n + k)%nat with (n + S k)%nat by lia.
Qed.

Lemma year_back y : 1970 <= y < 2070 ->
  (if 70 <=? y mod 100 then y mod 100 - 70 else y mod 100 + 30) = y - 1970.
Proof.
  intros Hy. destruct (Z.le_gt_cases 2000 y).
  - replace (y mod 100) with (y - 2000) by (apply (Z.mod_unique _ _ 20); lia).
    rewrite (proj2 (Z.leb_gt _ _)) by lia. lia.
  - replace (y mod 100) with (y - 1900) by (apply (Z.mod_unique _ _ 19); lia).
    rewrite (proj2 (Z.leb_le _ _)) by lia. lia.
Qed.

Ltac read_reg x :=
  match goal with
  | Hd : forall n, _ -> _ n 0 = _ /\ _ |- bind (getrtc _ _) _ ?n = _ =>
      erewrite bind_ret_eq by
        (apply (getrtc_ok _ _ _ x); [apply (Hd n); lia|lia]); cbn beta
  end.

(** C38. The clock chip's date is converted by the calendar: for every date
    of the hundred years from 1970 the kernel's time becomes the seconds from
    the beginning of 1970, leap years counted, moved west by the time zone,
    as 32 bits hold them; until 2037 that is the number itself.  The wait for
    the chip ends as soon as the chip has settled. *)
Theorem readrtc_calendar (cmos : nat -> Z -> Z) (k polls : nat) (y m d h mi s : Z) :
  shows cmos k y m d h mi s -> (k < polls)%nat ->
  1970 <= y < 2070 -> 1 <= m <= 12 -> 1 <= d <= 31 ->
  0 <= h < 24 -> 0 <= mi < 60 -> 0 <= s < 60 ->
  exists n, readrtc cmos polls 0%nat = Ret (Some (s32 (epoch y m d h mi s + 18000))) n /\
    (y < 2038 -> s32 (epoch y m d h mi s + 18000) = epoch y m d h mi s + 18000).
Proof.
  intros [Hp Hb Hr Hd] Hk Hy Hm Hdd Hh Hmi Hs. pose proof (Z.mod_pos_bound y 100). eexists. split.
  - unfold readrtc. erewrite bind_ret_eq by reflexivity. cbn beta. rewrite Hp. cbn [negb].
    erewrite bind_ret_eq by (apply (rtc_poll cmos k 1); [done|by intros i Hi; apply Hb; lia|done]).
    cbn beta. cbn [Nat.add].
    read_reg s.
    read_reg mi.
    read_reg h.
    read_reg d.
    read_reg m.
    read_reg (y mod 100).
    cbv zeta. rewrite year_back by done. rewrite (proj2 (Z.ltb_ge m 1)) by lia.
    erewrite bind_ret_eq by (by rewrite (days_at m)). cbn beta. unfold ret. f_equal. f_equal.
    unfold rtc_time, TIMEZONE. rewrite s32_add. f_equal. f_equal.
    unfold epoch. rewrite <- (code_days_ok y m) by lia. unfold code_days.
    destruct (_ && _); lia.
  - intros Hy'. apply s32_id. unfold epoch. pose proof (days_before_bound y m). lia.
Qed.

(** 29 February 2000, 12:34:56; the chip is busy at the first look. *)
Definition chip : nat -> Z -> Z := fun n a =>
  if a =? 13 then 128
  else if a =? 10 then if Nat.eqb n 1 then 128 else 0
  else if a =? 0 then 86 else if a =? 2 then 52 else if a =? 4 then 18
  else if a =? 7 then 41 else if a =? 8 then 2 else 0.

Lemma chip_shows : shows chip 1 2000 2 29 12 34 56.
Proof.
  split; [done| |done|].
  - intros i Hi. by replace i with 1%nat by lia.
  - intros n Hn. done.
Qed.

Lemma readrtc_calendar_witness :
  exists n, readrtc chip 2 0%nat = Ret (Some (s32 (epoch 2000 2 29 12 34 56 + 18000))) n /\
    (2000 < 2038 -> s32 (epoch 2000 2 29 12 34 56 + 18000) = epoch 2000 2 29 12 34 56 + 18000).
Proof. apply (readrtc_calendar chip 1 2 2000 2 29 12 34 56); [apply chip_shows|lia..]. Defined.

(** ** The memory [startup] frees *)

(** The free runs once the pages below [i] have been looked at; [j] is the
    first page after the kernel and process 0. *)
Definition runs_below (j i : Z) : list run :=
  if i <=? 1 then []
  else if i <=? 16 then [(1, i - 1)]
  else if i <=? j then [(1, 15)]
  else if i <=? 160 then [(1, 15); (j, i - j)]
  else if i <=? 256 then [(1, 15); (j, 160 - j)]
  else [(1, 15); (j, 160 - j); (256, i - 256)].

Ltac runs_cases :=
  repeat match goal with
  | |- context [Z.leb ?a ?b] => destruct (Z.leb_spec a b); try lia
  | |- context [Z.eqb ?a ?b] => destruct (Z.eqb_spec a b); try lia
  | |- context [Z.ltb ?a ?b] => destruct (Z.ltb_spec a b); try lia
  end.

Section Startup.
Context {MC : Machine} (kend : Z).
Abbreviation j := (btoc kend + 9).
Context (Hj : 16 < j < 160).

Lemma runs_below_free i : 1 <= i -> reserved kend i = false ->
  put_back 1 i (runs_below j i) = runs_below j (i + 1).
Proof using Hj.
  unfold reserved, runs_below. cbv zeta. intros Hi Hr. revert Hr.
  runs_cases; cbn [andb orb]; try done; intros _; cbn [put_back]; runs_cases; try done;
    repeat f_equal; lia.
Qed.

Lemma runs_below_keep i : reserved kend i = true -> runs_below j i = runs_below j (i + 1).
Proof using Hj.
  unfold reserved, runs_below. cbv zeta. intros Hr. revert Hr.
  runs_cases; cbn [andb orb]; try done; intros _; repeat f_equal; lia.
Qed.

Lemma runs_below_ok i : 1 <= i <= LIMIT -> runs_ok 0 (runs_below j i) /\ (length (runs_below j i) <= 3)%nat.
Proof using Hj.
  unfold LIMIT, runs_below. intros Hi. runs_cases; cbn [runs_ok length]; unfold LIMIT; repeat split; lia.
Qed.

Lemma runs_below_unit i u : 1 <= i ->
  free_unit (runs_below j i) u <-> 1 <= u < i /\ reserved kend u = false.
Proof using Hj.
  unfold runs_below, reserved. cbv zeta. intros Hi. 
  pose proof (free_unit_nil u). rewrite <- not_true_iff_false, orb_true_iff, !andb_true_iff, !Z.leb_le, !Z.ltb_lt.
  runs_cases; rewrite ?free_unit_cons; intuition lia.
Qed.

Lemma length_ent bp : keeps length (ent bp).
Proof. apply keeps_bind; [apply (keeps_gets _ (fun m => m))|intros m; apply keeps_the]. Qed.

Lemma length_set_ent bp f : keeps length (set_ent bp f).
Proof.
  apply keeps_bind; [apply length_ent|]. intros e. apply keeps_modify. intros m. apply length_insert.
Qed.

#[local] Hint Resolve length_ent length_set_ent : keeps.
Lemma length_mfree size a : keeps length (mfree_map size a).
Proof. unfold mfree_map. keep. Qed.

(** The next page of the loop. *)
Lemma mfree_core_ok w size a l : runin (ks w) = 0 ->
  wf_map (coremap (ks w)) l -> (S (length l) < length (coremap (ks w)))%nat ->
  0 < size -> 0 < a -> a + size <= LIMIT -> (forall u, a <= u < a + size -> ~ free_unit l u) ->
  exists m, mfree_core size a w = Ret tt (w <| ks ::= fun k => k <| coremap := m |> |>) /\
    holds m (put_back size a l) /\ length m = length (coremap (ks w)).
Proof.
  intros Hr Hm Hl Hs Ha Hlim Hf.
  destruct (mfree_refines (coremap (ks w)) l size a) as (m & E & Hh); try done.
  exists m. split; [|split; [done|by eapply (length_mfree size a)]].
  unfold mfree_core. erewrite bind_ret_eq by reflexivity. cbn beta. rewrite Hr. cbn [when].
  erewrite bind_ret_eq by reflexivity. unfold zoom. by rewrite E.
Qed.

Definition with_core (m : list mapent) (n : Z) (w : world) : world :=
  w <| ks ::= fun k => k <| maxmem := n |> <| coremap := m |> |>.

Lemma free_core_from (c : nat) : forall w i, runin (ks w) = 0 ->
  holds (coremap (ks w)) (runs_below j i) -> (4 < length (coremap (ks w)))%nat ->
  1 <= i -> i + Z.of_nat c <= LIMIT -> 0 <= maxmem (ks w) <= i ->
  exists m n, for_ (seqZ i (Z.of_nat c)) (fun i =>
      if reserved kend i then ret tt
      else n <- kf maxmem ;; kset maxmem (s32 (n + 1)) ;;; mfree_core 1 i) w
    = Ret tt (with_core m n w) /\
    holds m (runs_below j (i + Z.of_nat c)) /\ length m = length (coremap (ks w)) /\
    n = maxmem (ks w) + Z.of_nat (length (filter (fun i => reserved kend i = false) (seqZ i (Z.of_nat c)))).
Proof using Hj.
  induction c as [|c IH]; intros w i Hr Hm Hlen Hi Hlim Hn.
  { exists (coremap (ks w)), (maxmem (ks w)). rewrite Z.add_0_r. split; [by destruct w as [? [] ?]|].
    split; [done|]. split; [done|]. rewrite seqZ_nil by lia. cbn. lia. }
  rewrite (seqZ_cons i) by lia. replace (Z.pred (Z.of_nat (S c))) with (Z.of_nat c) by lia.
  replace (i + Z.of_nat (S c)) with (Z.succ i + Z.of_nat c) in * by lia.
  rewrite filter_cons. cbn [for_]. destruct (reserved kend i) eqn:E.
  - erewrite bind_ret_eq by reflexivity.
    destruct (IH w (Z.succ i)) as (m & n & -> & H); [done| |done|lia..|].
    { rewrite runs_below_keep in Hm by done. exact Hm. }
    exists m, n. rewrite decide_False by done. done.
  - rewrite decide_True by done.
    set (w1 := w <| ks ::= fun k => k <| maxmem := s32 (maxmem (ks w) + 1) |> |>).
    destruct (runs_below_ok i) as [Hok Hl3]; [unfold LIMIT in *; lia|].
    destruct (mfree_core_ok w1 1 i (runs_below j i)) as (m & Em & Hm' & Hlm); try done; try lia.
    { cbn. lia. }
    { intros u Hu. rewrite runs_below_unit by lia. intros [? _]. lia. }
    erewrite bind_ret_eq.
    2: { erewrite bind_ret_eq by reflexivity. cbn beta. erewrite bind_ret_eq by reflexivity. exact Em. }
    cbn beta. rewrite runs_below_free in Hm' by done.
    destruct (IH (w1 <| ks ::= fun k => k <| coremap := m |> |>) (Z.succ i)) as (m2 & n2 & -> & H1 & H2 & ->);
      [done|done|by cbn; rewrite Hlm|lia..| |].
    { cbn. rewrite s32_id; unfold LIMIT in *; lia. }
    exists m2, (maxmem (ks w) + Z.of_nat (length (i :: filter (fun i => reserved kend i = false) (seqZ (Z.succ i) (Z.of_nat c))))).
    split; [|split; [done|split; [etrans; [exact H2|exact Hlm]|done]]].
    f_equal. unfold with_core. destruct w as [uu [] ee]. cbn. do 2 f_equal.
    rewrite s32_id; unfold LIMIT in *; cbn in *; lia.
Qed.

(** How many pages there are to free: those below the kernel, from the end of
    process 0 up to 640K, and above 1M. *)
Definition page_count (phymem : Z) : Z := 15 + (160 - j) + (phymem - 256).

Lemma count_free phymem : 256 <= phymem ->
  Z.of_nat (length (filter (fun i => reserved kend i = false) (seqZ 1 (phymem - 1)))) = page_count phymem.
Proof using Hj.
  intros Hp. unfold page_count.
  assert (forall a n b, 0 <= n -> (forall i, a <= i < a + n -> reserved kend i = b) ->
    Z.of_nat (length (filter (fun i => reserved kend i = false) (seqZ a n))) = if b then 0 else n) as Hc.
  { intros a n b Hn Hb. rewrite <- (Z2Nat.id n) in Hb |- * by done. clear Hn. revert a Hb.
    induction (Z.to_nat n) as [|c IH]; intros a Hb.
    - rewrite seqZ_nil by lia. by destruct b.
    - rewrite seqZ_cons by lia. replace (Z.pred (Z.of_nat (S c))) with (Z.of_nat c) by lia.
      rewrite filter_cons, (Hb a) by lia. specialize (IH (Z.succ a)).
      destruct b.
      + rewrite decide_False by done. apply IH. intros i Hi. apply Hb. lia.
      + rewrite decide_True by done. cbn [length]. rewrite Nat2Z.inj_succ, IH; [lia|].
        intros i Hi. apply Hb. lia. }
  replace (phymem - 1) with (15 + ((j - 16) + ((160 - j) + (96 + (phymem - 256))))) by lia.
  rewrite 4 seqZ_app by lia. rewrite !filter_app, !length_app, !Nat2Z.inj_add.
  rewrite (Hc _ _ false), (Hc _ _ true), (Hc _ _ false), (Hc _ _ true), (Hc _ _ false);
    try lia; intros i Hi; unfold reserved; cbv zeta; runs_cases; done.
Qed.
End Startup.

(** C37. [startup] frees exactly the core that is neither the kernel's, nor
    process 0's just after it, nor the adapters' — in three runs — and the
    whole of the swap area; [maxmem] is the number of pages freed, as far as a
    process may grow, and nothing else in the kernel changes. *)
Theorem startup_correct (MC : Machine) (outb : Z -> Z -> KM unit) (kend phymem : Z) (w : world) :
  let j := btoc kend + 9 in
  let runs := [(1, 15); (j, 160 - j); (256, phymem - 256)] in
  (forall port v w, outb port v w = Ret tt w) ->
  16 < j < 160 -> 256 < phymem <= LIMIT ->
  runin (ks w) = 0 -> maxmem (ks w) = 0 ->
  holds (coremap (ks w)) [] -> (4 < length (coremap (ks w)))%nat ->
  holds (swapmap (ks w)) [] -> (1 < length (swapmap (ks w)))%nat ->
  0 < nswap (ks w) < LIMIT -> 0 <= swplo (ks w) < 2147483648 ->
  exists m sm, holds m runs /\ holds sm [(1, nswap (ks w))] /\
    (forall p, free_unit runs p <-> 1 <= p < phymem /\ reserved kend p = false) /\
    startup outb kend phymem w = Ret tt (w <| ks ::= fun k =>
      k <| coremap := m |> <| swapmap := sm |>
        <| maxmem := Z.min MAXMEM (page_count kend phymem) |>
        <| swplo ::= fun lo => lo - 1 |> <| console ::= fun l => l ++ [Printf "mem = %D"] |> |>).
Proof.
  intros j runs Ho Hj Hp Hr Hn Hc Hcl Hs Hsl Hns Hlo. subst j.
  assert (runs_below (btoc kend + 9) phymem = runs) as Eruns by (unfold runs_below, runs; runs_cases; done).
  destruct (free_core_from kend Hj (Z.to_nat (phymem - 1)) w 1) as (m & n & E & Hm & _ & ->);
    [done|done|done|lia|unfold LIMIT in *; lia|lia|].
  rewrite Z2Nat.id in * by lia. replace (1 + (phymem - 1)) with phymem in Hm by lia.
  rewrite Eruns in Hm. rewrite Hn, Z.add_0_l, count_free in E by lia.
  destruct (mfree_refines (swapmap (ks w)) [] (nswap (ks w)) 1) as (sm & Es & Hsm);
    [by split|cbn; lia|lia|lia|unfold LIMIT in *; lia|intros u _; apply free_unit_nil|].
  exists m, sm. split; [done|]. split; [done|]. split.
  { intros p. rewrite <- Eruns. apply runs_below_unit; lia. }
  unfold startup. erewrite bind_ret_eq by apply Ho. cbn beta.
  erewrite bind_ret_eq by exact E. cbn beta. erewrite bind_ret_eq by reflexivity. cbn beta.
  erewrite bind_ret_eq by reflexivity. cbn beta.
  erewrite (bind_ret_eq (when _ _) _ _ tt ((with_core m (Z.min MAXMEM (page_count kend phymem)) w)
    <| ks ::= fun k => k <| console ::= fun l => l ++ [Printf "mem = %D"] |> |>)).
  2: { cbn. destruct (Z.ltb_spec MAXMEM (page_count kend phymem)); cbn; unfold with_core.
       - rewrite Z.min_l by lia. by destruct w as [? [] ?].
       - rewrite Z.min_r by lia. by destruct w as [? [] ?]. }
  cbn beta. erewrite bind_ret_eq by reflexivity. cbn beta.
  erewrite bind_ret_eq by (unfold mfree_swap, zoom; cbn in Es |- *; rewrite Es; reflexivity).
  cbn beta. erewrite bind_ret_eq by reflexivity. cbn beta. unfold kset, kmod, modify.
  f_equal. destruct w as [? [] ?]. cbn in *. by rewrite s32_id by lia.
Qed.

(** A machine of 16M with a kernel of 96K. *)
Definition cold : world :=
  world0 <| ks ::= fun k => k <| coremap := replicate CMAPSIZ (mkent 0 0) |>
    <| swapmap := replicate SMAPSIZ (mkent 0 0) |> <| nswap := 2000 |> <| swplo := 8000 |>
    <| maxmem := 0 |> |>.

Lemma startup_correct_witness :
  let runs := [(1, 15); (btoc 98304 + 9, 160 - (btoc 98304 + 9)); (256, 4096 - 256)] in
  exists m sm, holds m runs /\ holds sm [(1, nswap (ks cold))] /\
    (forall p, free_unit runs p <-> 1 <= p < 4096 /\ reserved 98304 p = false) /\
    @startup machine0 (fun _ _ => ret tt) 98304 4096 cold = Ret tt (cold <| ks ::= fun k =>
      k <| coremap := m |> <| swapmap := sm |>
        <| maxmem := Z.min MAXMEM (page_count 98304 4096) |>
        <| swplo ::= fun lo => lo - 1 |> <| console ::= fun l => l ++ [Printf "mem = %D"] |> |>).
Proof.
  apply (startup_correct machine0 (fun _ _ => ret tt) 98304 4096 cold); try (vm_compute; done).
  - exists 0, (replicate 49 (mkent 0 0)). split; [reflexivity|by apply Forall_replicate].
  - apply Nat.ltb_lt. reflexivity.
  - exists 0, (replicate 49 (mkent 0 0)). split; [reflexivity|by apply Forall_replicate].
  - apply Nat.ltb_lt. reflexivity.
Defined.
